(* ===== verification/_CoqProject ===== *)
-Q . S2P
Prelude.v
Sqlite.v
SqlFacts.v
Xdb.v
XdbSpec.v
XdbRefine.v
CLib.v
Dict.v
DictTyped.v
Uuid.v
Iatt.v
ImsAsync.v
ImsServer.v
ImsIndex.v
ImsProps.v
Query.v
QuerySpec.v
DhtIpc.v
Ixsql.v
EcField.v
EcGf.v
EcMethod.v
EcInverse.v
EcProps.v
Locks.v
LocksMerge.v
LocksCover.v
LocksProps.v
LocksRun.v
DhtHash.v
DhtLayout.v
DhtHeal.v
DhtAssign.v
DhtCheck.v
DhtLookup.v
DhtOverlap.v
DhtFaults.v
Afr.v
AfrHeal.v
AfrRead.v
AfrFacts.v
AfrReadProps.v
AfrCopy.v
AfrDirection.v
AfrRun.v
AfrSafe.v
AfrConverge.v
AfrFaults.v
DomTable.v
Inodelk.v
Entrylk.v
DomSpec.v
DomInv.v
DomActs.v
DomSafe.v
DomRun.v
DomLive.v
DomProps.v
DomClear.v
Active.v
ActiveProps.v
ActiveLost.v
ActiveExtract.v
StrFd.v
Meta.v
MetaProps.v
Views.v
ViewsProps.v
Recover.v
RecoverProps.v
WriteBehind.v
WbInv.v
WbSection.v
WbSteps.v
WbFaults.v
WbRun.v
WbActs.v
WbProps.v
