(* ===== verification/Prelude.v ===== *)
(** * GlusterFS with TagIt: a verification development

    The repository is the GlusterFS distributed file system with TagIt, an
    index of file attributes that every storage server keeps and that clients
    query. This library models parts of both as Rocq functions and proves what
    they promise. Paths below are under src/.

    ** How code is modelled

    - A C function is a Rocq function of the same name. State that it changes
      through pointers is passed explicitly or by the monad [M] of this file;
      [None] stands for undefined behaviour of the C program (a null pointer
      dereferenced, an access out of bounds, a read of freed memory), so that
      a theorem that gives [Some] also shows that there is none.
    - Integers are elements of [Z] with the wrap-around of their width written
      out ([uwrap], [swrap]). Return codes and errno values are numbers, as in
      the code.
    - A loop is structural recursion, [for_loop], or recursion on fuel. Fuel is
      chosen by the definitions themselves and is shown to suffice: [merge_fuel]
      for inserting a lock ([merge_terminates]), the number of rows of a result
      for a paged fetch, and the number of rows of the whole query for the
      slices of ixsql ([sliced_query_complete] gives the result for every fuel
      above it).
    - A critical section is one step. What different threads do between
      critical sections is interleaved where threads interact: the file
      operations and the index worker (ImsIndex.v), the callers of the lock
      translator (LocksRun.v, DomTable.v), the transactions and heals of
      replication (AfrRun.v), and the callers, the callbacks and the server of
      write-behind (WriteBehind.v).
    - Code that is not in the repository is a parameter. SQLite is the class
      [SqlEngine], with documented behaviour as the laws of [SqlLaws],
      [ReliableTx] and [HealthyEngine] and instances that show they can hold;
      the translator below the indexing translator is the class [Child], with
      [Namespace] for one that keeps a name space; rounding of
      decimal text to a double, clocks, and the regular expressions of the
      distribution hash are arguments.

    ** Parts, files and theorems

    The index database of TagIt, xlators/features/imess-server/src,
    imess-server-xdb.c, imess-server-xdb.h and the schema.
    - Sqlite.v has the tables, the statements and the interface of SQLite,
      SqlFacts.v their properties, Xdb.v every operation on the index.
    - XdbSpec.v says what each operation leaves in the tables, with the failing
      branches: keys stay unique under every sequence of operations
      ([xdb_keys_unique]), the stored name is the last component of the path
      ([indexed_name_is_basename]), a new database gets the schema
      ([db_initialize_spec]).
    - XdbRefine.v has the abstract index (files, paths, attributes) and shows
      that every operation performs its abstract operation or changes nothing,
      as long as BEGIN, END and ROLLBACK succeed ([xdb_refines_index];
      [begin_failure_leaves_partial_file] shows what happens when they do not),
      and that it succeeds when the library does ([xdb_complete]).

    The indexing translator, imess-server.c, and its deferred updates,
    imess-server-async.c.
    - ImsAsync.v has the task queue and the worker, ImsServer.v the file
      operations with their callbacks, ImsIndex.v both as updates of the index
      over a child that keeps a name space.
    - ImsProps.v: clients see what the child answers, and the child gets what
      they ask for, but for the mark of a hashed directory
      ([ims_transparent]); over a healthy database the indexed paths are those of
      the name space without the directories that the mark gives to another
      brick, at once ([sync_index_follows]) or when the queue is empty
      ([async_index_follows]), for renames to free paths of objects with nothing
      below ([rename_over_leaves_stale_index] is about others); attributes are indexed by type
      ([setxattr_indexes_integer]); [put_failure_undefined] and the theorems
      after it are about failures.

    Queries. Query.v and QuerySpec.v are the direct query and the paged fetch
    of a server (imess-server-ipc.c), DhtIpc.v the fan-out of a request to the
    servers and the merge of their replies (xlators/cluster/dht/src,
    dht-common.c), and Ixsql.v the slices of the tool (tools/imess-cli/src).
    When every server succeeds, a reply holds the rows of all servers
    ([dht_ipc_merges]), and a sliced query prints every row of every server,
    whatever the order in which replies arrive ([sliced_query_complete]); a
    failing last reply loses all rows ([dht_ipc_last_failure_loses_all]).

    Programs on indexed files: the requests of imess-server-ipc.c that run a
    program for every file that a query selects.
    - Active.v has the requests, with the class [Host] for the programs and the
      extended attributes of the brick. ActiveProps.v: the reply holds all that
      was printed ([exec_returns_output]). ActiveLost.v: the client never gets it
      ([exec_output_lost]). ActiveExtract.v: extracted attributes are on
      the files' disk and, when the worker is done, in the index
      ([extract_indexes]).

    Rebuilding the index, tools/imess-recovery/src/ixrecover.c. Recover.v has the
    tool with SQLite as [RecEngine], because it uses statements of its own, and
    the file system as [FileTree]; RecoverProps.v shows that what it commits
    represents the index that the operations of Xdb.v would have built for gfids
    that the tool numbers itself ([recovery_rebuilds_index]) and what a failing
    run leaves behind.

    The virtual file system of the client, xlators/meta/src. Meta.v has lookup,
    listing and reading (meta-defaults.c, meta-helpers.c), StrFd.v the strings
    that files are filled with (libglusterfs/src/strfd.c); MetaProps.v shows that
    reading in pieces gives every entry once ([listing_complete]) and every
    character once ([file_reads_complete]). Views.v has the directories of TagIt's
    views (imess-views.c and its neighbours) on top of it, down to the request
    of a server in Active.v; ViewsProps.v shows that no view can be entered
    ([view_lookup_empty]), and what the directory of a view would contain
    ([view_dir_lists_rows]).

    The libraries that they use. CLib.v has the functions of the C library,
    Dict.v and DictTyped.v dictionaries (libglusterfs/src/dict.c) with their map
    laws, comparison and wire format ([serialize_roundtrip]), Uuid.v the
    identifiers (contrib/uuid), Iatt.v file attributes (libglusterfs/src/iatt.h).

    Erasure coding, xlators/cluster/ec/src.
    - EcField.v has the field of 256 elements and the tables of ec-method.c,
      EcGf.v the 256 circuits of ec-gf.c ([ec_gf_muladd_multiplies]: each one
      multiplies all elements of its words), EcMethod.v encoding and decoding.
    - EcInverse.v shows that the elimination needs no pivoting, and EcProps.v
      that any [columns] different fragments give the data back
      ([ec_any_fragments]). The offsets of the code are 32 bits wide; the
      theorem asks for at most 2^23 stripes, where they do not wrap.

    Byte-range locks, xlators/features/locks/src: common.c, reservelk.c and the
    entry points of posix.c.
    - Locks.v has the operations, LocksMerge.v and LocksCover.v what inserting a
      lock does to every byte ([insert_and_merge_exact]), LocksProps.v what
      each critical section promises.
    - LocksRun.v interleaves the critical sections of any number of callers.
      Locks of different owners exclude each other ([locks_exclude]), a request
      that overlaps no granted lock does not stay asleep ([waiters_held_back];
      one that overlaps a compatible lock can), every
      request that waits is answered once ([requests_answered_once]).
      At its end are runs on which the locks differ from those of fcntl. The
      ranges of requests end at the largest offset at the latest; reserve locks
      are not part of the runs.

    Inode and entry locks of the same translator: inodelk.c, entrylk.c, clear.c.
    Other translators take them, replication for its transactions and heals.
    - DomTable.v has what both kinds share: domains with granted and waiting
      locks, the list of the locks of a client, locks as structures with a count
      of references that are freed at zero, and the machine whose threads are
      lists of actions. [exec] is what a thread does around the critical
      sections: [AGrant] and [AFinish] are grant_blocked_inode_locks and
      grant_blocked_entry_locks, [AClean] and the actions after it are
      pl_inodelk_client_cleanup and pl_entrylk_client_cleanup. The sections are
      the fields of [LockKind], defined in Inodelk.v and Entrylk.v.
    - [LockLaws] of DomSpec.v is the contract of a kind, which both keep; the
      rest is proved from it. DomInv.v has the invariant, DomActs.v and DomSafe.v
      show that every action keeps it, DomRun.v does so for runs and says what an
      action changes, DomLive.v counts references to inodes and has the measure
      that actions lower.
    - DomProps.v: no freed lock is used and nothing is leaked
      ([locks_never_dangle]); conflicting locks have one owner
      ([inodelks_exclude], [entrylks_exclude]); requests are answered once
      ([lock_requests_answered]); who waits has somebody to wait for
      ([lock_waits_for_a_reason]); threads finish under every schedule
      ([lock_threads_finish]); a client that was cleaned up has no locks
      ([disconnect_releases_all]).
    - DomClear.v is the clearing of locks by an administrator, what it does to a
      domain ([clear_inodelk_spec]) and the freed locks that it leaves behind.

    Distribution of files, xlators/cluster/dht/src and libglusterfs/src/hashfn.c.
    - DhtHash.v has the hash of names, equal to a reference definition by blocks
      ([gf_dm_hashfn_reference]), DhtLayout.v layouts in memory and on disk
      (dht-layout.c), DhtHeal.v the computations of dht-selfheal.c.
    - DhtAssign.v: a new directory gives every hash to one subvolume
      ([new_directory_partitions]). DhtCheck.v: the check of a layout accepts
      those ([normalize_accepts_partitions]). DhtLookup.v: a stored layout is
      found again by every lookup ([layout_survives_lookup]). DhtOverlap.v:
      changing a layout exchanges ranges and keeps as many hashes in place, or
      more ([maximize_overlap_improves]). With weights by size there is no spread
      count and the sizes add up to less than 2^31. DhtFaults.v has layouts on which the code
      fails. Layouts have less than 2^31 entries, as [cnt] is an int.

    Replication, xlators/cluster/afr/src, and the counters that
    xlators/storage/posix/src/posix.c keeps for it.
    - Afr.v has the phases of a data transaction (afr-transaction.c,
      afr-inode-write.c): the marks before an operation and their sharing between
      operations on one open file, the operation, quorum, the arbiter, short
      writes, and the counts of misses after it. AfrHeal.v has the heal of data
      (afr-self-heal-common.c, afr-self-heal-data.c), AfrRead.v the choice of the
      brick to read (afr-common.c). What a brick does with a call, and whether
      its answer arrives, is an argument of every phase.
    - AfrFacts.v: two quorums meet ([quorum_exclusive]). AfrReadProps.v: the
      record of readable bricks ([read_record_roundtrip]). AfrDirection.v: a heal
      finds a source or reports why not ([heal_prepare_spec]). AfrCopy.v: a heal
      that ends with success has copied the file, whatever blocks, holes and
      checksums it met, and whatever other clients wrote between its blocks on all
      bricks alike. AfrConverge.v: without failures it ends with success
      and all copies agree ([heal_converges]). Checksums that are compared do not
      collide, and there is no arbiter.
    - AfrRun.v interleaves the phases of any number of transactions, whatever
      calls fail ([step]), with heals in which no call fails and beside which
      transactions that succeed on all bricks run ([clean_heal]), and says what
      each phase does. AfrSafe.v shows that sources and
      readable bricks hold every acknowledged operation ([sources_complete],
      [reads_complete]) in runs that a brick keeps ([run]), as long as counters do
      not reach 2^31. AfrFaults.v shows that acknowledged data is lost without a
      keeper.

    Write-behind, xlators/performance/write-behind/src/write-behind.c: writes are
    answered before they reach the server.
    - WriteBehind.v has the queues of one inode, their critical sections and the
      machine: [exec] is what a thread does between two points where others come
      in, [callback] what it does with a reply, [wb_fop] the operations that
      clients call. The server carries out calls in any order and with any
      result.
    - WbInv.v has the invariant of the queues with who holds each reference,
      WbSection.v and WbSteps.v show that the sections keep it and link the
      queues to the history of a run. WbRun.v has the invariant of the machine,
      WbActs.v shows that every action keeps it.
    - WbProps.v: nothing undefined is done ([wb_never_stuck]), overlapping writes
      are never at the server together ([wb_writes_apart]), an operation waits for
      the acknowledged writes that it depends on ([wb_waits_for_acked]), a
      successful flush vouches for the writes before it ([wb_flush_reports]).
      Writes come in one piece that is not empty. The last two except the writes
      whose data was joined to a write that was still unanswered ([joined]);
      WbFaults.v, with runs that are computed, shows what happens
      to those ([wb_stale_read], [wb_lost_update]) and other failures
      ([wb_lost_wakeup]).

    ** Not modelled

    - Memory: allocations succeed, except for the tasks of the indexing
      translator, and reference counts and frees are left out, except for the
      rows of a query result that a reply frees, for inode and entry locks, and
      for the requests of write-behind.
    - In the modelled files: opening and closing the database and the
      translators' init and fini, which are calls to the system; migration of
      locks in the interleaving of LocksRun.v; clearing of byte-range locks, and
      clearing of any locks while other threads are at work; the order in which a
      critical section takes its mutexes; the network calls
      of a layout heal and the updates of commit hashes; the command lines of
      ixsql and ixrecover; writing to virtual files; how replication locks the
      bricks, operations that fail on a brick while a heal copies, the timers that delay its post-operations, and its heals of
      metadata, entries and names; wb_lookup, wb_open and wb_create, which the
      table of operations of write-behind leaves out.
    - The other translators, the management daemon, RPC, the command line and
      the client libraries: they are driven by events of the network and the
      kernel, and none of the modelled parts depends on more of them than the
      request and reply of the classes above. *)

From Stdlib Require Import ZArith Lia Bool Ascii String.
From stdpp Require Import base list strings gmap.

Open Scope Z_scope.

(** ** Machine integers

    A C integer of width [w] is a [Z]; the wrap-around of an assignment or a
    cast is written out with [uwrap] (unsigned) and [swrap] (two's
    complement). *)

Definition uwrap (w : Z) (z : Z) : Z := z mod 2 ^ w.

Definition swrap (w : Z) (z : Z) : Z :=
  (z + 2 ^ (w - 1)) mod 2 ^ w - 2 ^ (w - 1).

Abbreviation u8 := (uwrap 8).
Abbreviation u16 := (uwrap 16).
Abbreviation u32 := (uwrap 32).
Abbreviation u64 := (uwrap 64).
Abbreviation i8 := (swrap 8).
Abbreviation i16 := (swrap 16).
Abbreviation i32 := (swrap 32).
Abbreviation i64 := (swrap 64).

Definition in_u (w z : Z) : Prop := 0 <= z < 2 ^ w.

Definition in_s (w z : Z) : Prop := - 2 ^ (w - 1) <= z < 2 ^ (w - 1).

(** ** Stateful code that may misbehave

    [M S A] is the shallow embedding of C code over the state [S]: a run
    either ends with a value and a new state, or is [None], which stands for
    undefined behaviour of the C program (a null pointer dereferenced, an
    array read out of bounds). A theorem that gives [Some] therefore also
    shows that no undefined behaviour is reached. *)

Definition M (S A : Type) : Type := S -> option (A * S).

Definition m_ret {S A} (a : A) : M S A := fun s => Some (a, s).

Definition m_bind {S A B} (m : M S A) (k : A -> M S B) : M S B :=
  fun s => match m s with Some (a, s') => k a s' | None => None end.

Definition m_undef {S A} : M S A := fun _ => None.

Definition m_get {S} : M S S := fun s => Some (s, s).

Definition m_put {S} (s : S) : M S unit := fun _ => Some (tt, s).

Definition m_modify {S} (f : S -> S) : M S unit := fun s => Some (tt, f s).

(** A pointer that the code dereferences: [None] is the null pointer. *)

Definition m_deref {S A} (p : option A) : M S A :=
  match p with Some a => m_ret a | None => m_undef end.

Declare Scope cmonad_scope.
Delimit Scope cmonad_scope with cm.

Notation "x <~ m ;; k" := (m_bind m (fun x => k))
  (at level 100, m at next level, right associativity) : cmonad_scope.
Notation "m ;;; k" := (m_bind m (fun _ => k))
  (at level 100, right associativity) : cmonad_scope.

Open Scope cmonad_scope.

Section monad_laws.
Context {S A B C : Type}.
Implicit Types (m : M S A) (f : A -> M S B) (g : B -> M S C).

Lemma m_bind_ret a f s : m_bind (m_ret a) f s = f a s.
Proof. reflexivity. Qed.

Lemma m_bind_Some m f s b s' :
  m_bind m f s = Some (b, s') ->
  exists a s1, m s = Some (a, s1) /\ f a s1 = Some (b, s').
Proof. unfold m_bind. destruct (m s) as [[a s1]|]; [eauto | discriminate]. Qed.

Lemma m_bind_assoc m f g s :
  m_bind (m_bind m f) g s = m_bind m (fun a => m_bind (f a) g) s.
Proof. unfold m_bind. destruct (m s) as [[a s1]|]; reflexivity. Qed.

End monad_laws.

(** ** Total correctness

    [wp m Q s]: run from [s], [m] reaches no undefined behaviour and ends in a
    result and a state that satisfy [Q]. *)

Definition wp {S A} (m : M S A) (Q : A -> S -> Prop) (s : S) : Prop :=
  match m s with Some (a, s') => Q a s' | None => False end.

Section wp_laws.
Context {S A B : Type}.

Lemma wp_ret (a : A) (Q : A -> S -> Prop) s : Q a s -> wp (m_ret a) Q s.
Proof. done. Qed.

Lemma wp_bind (m : M S A) (k : A -> M S B) Q s :
  wp m (fun a s' => wp (k a) Q s') s -> wp (m_bind m k) Q s.
Proof. unfold wp, m_bind. destruct (m s) as [[a s']|]; done. Qed.

Lemma wp_mono (m : M S A) (P Q : A -> S -> Prop) s :
  wp m P s -> (forall a s', P a s' -> Q a s') -> wp m Q s.
Proof. unfold wp. destruct (m s) as [[a s']|]; eauto. Qed.

Lemma wp_get (Q : S -> S -> Prop) s : Q s s -> wp m_get Q s.
Proof. done. Qed.

Lemma wp_modify (f : S -> S) (Q : unit -> S -> Prop) s :
  Q tt (f s) -> wp (m_modify f) Q s.
Proof. done. Qed.

Lemma wp_deref (p : option A) a (Q : A -> S -> Prop) s :
  p = Some a -> Q a s -> wp (m_deref p) Q s.
Proof. intros -> H. done. Qed.

Lemma wp_if (b : bool) (m1 m2 : M S A) Q s :
  (b = true -> wp m1 Q s) -> (b = false -> wp m2 Q s) ->
  wp (if b then m1 else m2) Q s.
Proof. destruct b; auto. Qed.

Lemma wp_Some (m : M S A) Q s :
  wp m Q s -> exists a s', m s = Some (a, s') /\ Q a s'.
Proof. unfold wp. destruct (m s) as [[a s']|]; [eauto | done]. Qed.

Lemma wp_run (m : M S A) Q s a s' : wp m Q s -> m s = Some (a, s') -> Q a s'.
Proof. unfold wp. intros H E. by rewrite E in H. Qed.

End wp_laws.

(** ** Invariants of runs

    [keeps I m]: every run of [m] that ends takes states that satisfy [I] to
    states that satisfy [I]. The rules below follow the structure of [m]; the
    database [keeps] applies them. *)

Definition keeps {S A} (I : S -> Prop) (m : M S A) : Prop :=
  forall s a s', m s = Some (a, s') -> I s -> I s'.

Section keeps_laws.
Context {S A B : Type} (I : S -> Prop).

Lemma keeps_ret (a : A) : keeps I (m_ret a).
Proof. intros s b s' E H. by injection E as _ <-. Qed.

Lemma keeps_undef : keeps I (m_undef (A := A)).
Proof. done. Qed.

Lemma keeps_get : keeps I m_get.
Proof. intros s b s' E H. by injection E as _ <-. Qed.

Lemma keeps_modify f : (forall s, I s -> I (f s)) -> keeps I (m_modify f).
Proof. intros Hf s b s' E H. injection E as _ <-. auto. Qed.

Lemma keeps_deref (p : option A) : keeps I (m_deref p).
Proof. destruct p; [apply keeps_ret|apply keeps_undef]. Qed.

Lemma keeps_bind (m : M S A) (k : A -> M S B) :
  keeps I m -> (forall a, keeps I (k a)) -> keeps I (m_bind m k).
Proof. intros Hm Hk s b s' (a & s1 & E1 & E2)%m_bind_Some H. eapply Hk, Hm; eauto. Qed.

Lemma keeps_if (b : bool) (m1 m2 : M S A) :
  keeps I m1 -> keeps I m2 -> keeps I (if b then m1 else m2).
Proof. by destruct b. Qed.

Lemma keeps_decide (P : Prop) `{!Decision P} (m1 m2 : M S A) :
  keeps I m1 -> keeps I m2 -> keeps I (if decide P then m1 else m2).
Proof. by case_decide. Qed.

Lemma keeps_wp (m : M S A) : (forall s, wp m (fun _ s' => I s -> I s') s) -> keeps I m.
Proof. intros H s a s' E. exact (wp_run _ _ _ _ _ (H s) E). Qed.

End keeps_laws.

Create HintDb keeps.
#[export] Hint Resolve keeps_ret keeps_undef keeps_get keeps_deref : keeps.
#[export] Hint Extern 1 (keeps _ (m_bind _ _)) => apply keeps_bind; [|intros ?] : keeps.
#[export] Hint Extern 1 (keeps _ (if decide _ then _ else _)) => apply keeps_decide : keeps.
#[export] Hint Extern 2 (keeps _ (if _ then _ else _)) => apply keeps_if : keeps.

(** ** Tactics *)

(** Takes a run of the monad apart in the hypotheses. *)

Ltac mrun_in H :=
  repeat (apply m_bind_Some in H; destruct H as (?&?&?&H)).

(** Splits every [if] on a boolean comparison and turns it into arithmetic. *)

Ltac zcase :=
  repeat match goal with
  | |- context [if (?a =? ?b)%Z then _ else _] => destruct (Z.eqb_spec a b)
  | |- context [if (?a <? ?b)%Z then _ else _] => destruct (Z.ltb_spec a b)
  | |- context [if (?a <=? ?b)%Z then _ else _] => destruct (Z.leb_spec a b)
  end.

Ltac zcase_in H :=
  repeat match type of H with
  | context [if (?a =? ?b)%Z then _ else _] => destruct (Z.eqb_spec a b)
  | context [if (?a <? ?b)%Z then _ else _] => destruct (Z.ltb_spec a b)
  | context [if (?a <=? ?b)%Z then _ else _] => destruct (Z.leb_spec a b)
  end.

(** ** Lemmas on machine integers *)

Lemma uwrap_range w z : 0 <= w -> in_u w (uwrap w z).
Proof. intros. unfold in_u, uwrap. apply Z.mod_pos_bound. lia. Qed.

Lemma lor_bound n a b : 0 <= n -> 0 <= a < 2 ^ n -> 0 <= b < 2 ^ n -> 0 <= Z.lor a b < 2 ^ n.
Proof.
  intros Hn [Ha Ha'] [Hb Hb'].
  assert (0 <= Z.lor a b) by (by apply Z.lor_nonneg).
  split; [done|]. destruct (Z.eq_dec (Z.lor a b) 0) as [->|]; [lia|].
  apply Z.log2_lt_pow2; [lia|]. rewrite Z.log2_lor by lia.
  apply Z.max_lub_lt.
  - destruct (Z.eq_dec a 0) as [->|]; [|apply Z.log2_lt_pow2; lia].
    destruct (Z.eq_dec n 0) as [->|]; [|simpl; lia].
    assert (b = 0) by lia. subst. done.
  - destruct (Z.eq_dec b 0) as [->|]; [|apply Z.log2_lt_pow2; lia].
    destruct (Z.eq_dec n 0) as [->|]; [|simpl; lia].
    assert (a = 0) by lia. subst. done.
Qed.

Lemma lxor_range w a b : 0 < w -> in_u w a -> in_u w b -> in_u w (Z.lxor a b).
Proof.
  intros Hw [Ha Ha'] [Hb Hb']. assert (0 <= Z.lxor a b) by (apply Z.lxor_nonneg; lia).
  split; [done|]. destruct (Z.eq_dec (Z.lxor a b) 0) as [->|]; [lia|]. apply Z.log2_lt_pow2; [lia|].
  eapply Z.le_lt_trans; [apply Z.log2_lxor; lia|].
  assert (forall x, 0 <= x < 2 ^ w -> Z.log2 x < w) as Hx.
  { intros x Hx. destruct (Z.eq_dec x 0) as [->|]; [done|]. apply Z.log2_lt_pow2; lia. }
  apply Z.max_lub_lt; apply Hx; lia.
Qed.

Lemma uwrap_small w z : in_u w z -> uwrap w z = z.
Proof. intros. unfold uwrap. by apply Z.mod_small. Qed.

Lemma swrap_small w z : 0 < w -> in_s w z -> swrap w z = z.
Proof.
  unfold in_s, swrap. intros Hw Hz.
  assert (2 ^ w = 2 * 2 ^ (w - 1)) by (rewrite <- Z.pow_succ_r; [f_equal|]; lia).
  rewrite Z.mod_small; lia.
Qed.

Lemma swrap_range w z : 0 < w -> in_s w (swrap w z).
Proof.
  unfold in_s, swrap. intros Hw.
  assert (2 ^ w = 2 * 2 ^ (w - 1)) by (rewrite <- Z.pow_succ_r; [f_equal|]; lia).
  pose proof (Z.mod_pos_bound (z + 2 ^ (w - 1)) (2 ^ w)). lia.
Qed.

Lemma swrap_uwrap w z : 0 < w -> swrap w (uwrap w z) = swrap w z.
Proof.
  intros. unfold swrap, uwrap. f_equal. rewrite Zplus_mod_idemp_l. done.
Qed.

Lemma swrap_mod v w z : 0 < v <= w -> swrap v (uwrap w z) = swrap v z.
Proof.
  intros. unfold swrap, uwrap. f_equal.
  rewrite <- Zplus_mod_idemp_l, Z.mod_mod_divide.
  - by rewrite Zplus_mod_idemp_l.
  - exists (2 ^ (w - v)). rewrite <- Z.pow_add_r by lia. f_equal. lia.
Qed.

Lemma swrap_swrap v w z : 0 < v <= w -> swrap w (swrap v z) = swrap v z.
Proof.
  intros. apply swrap_small; [lia|].
  pose proof (swrap_range v z ltac:(lia)) as Hr. unfold in_s in *.
  assert (2 ^ (v - 1) <= 2 ^ (w - 1)) by (apply Z.pow_le_mono_r; lia). lia.
Qed.

Lemma swrap_idemp w z : 0 < w -> swrap w (swrap w z) = swrap w z.
Proof. intros. apply swrap_swrap. lia. Qed.

(** ** Lemmas on strings *)

Fixpoint str_all (P : ascii -> bool) (s : string) : bool :=
  match s with
  | EmptyString => true
  | String c s' => P c && str_all P s'
  end.

Fixpoint str_drop (n : nat) (s : string) : string :=
  match n, s with
  | O, _ => s
  | S n', String _ s' => str_drop n' s'
  | S _, EmptyString => EmptyString
  end.

Lemma str_app_cons c d s : (String c d ++ s)%string = String c (d ++ s).
Proof. done. Qed.

Lemma str_app_assoc a b c : ((a ++ b) ++ c)%string = (a ++ (b ++ c))%string.
Proof. induction a as [|x a IH]; [done|]. by rewrite !str_app_cons, IH. Qed.

Lemma str_app_length a b :
  String.length (a ++ b)%string = (String.length a + String.length b)%nat.
Proof. induction a as [|x a IH]; [done|]. rewrite str_app_cons. cbn. by rewrite IH. Qed.

Lemma str_all_app P a b : str_all P (a ++ b)%string = str_all P a && str_all P b.
Proof.
  induction a as [|x a IH]; [done|]. rewrite str_app_cons. cbn. by rewrite IH, andb_assoc.
Qed.

Lemma str_drop_app d s : str_drop (String.length d) (d ++ s)%string = s.
Proof. induction d as [|c d IH]; [by destruct s|]. done. Qed.

(** [rindex] / [strrchr]: the position of the last occurrence of [c]. *)

Fixpoint rindex (c : ascii) (s : string) : option nat :=
  match s with
  | EmptyString => None
  | String a s' =>
      match rindex c s' with
      | Some i => Some (S i)
      | None => if Ascii.eqb a c then Some O else None
      end
  end.

(** [index] / [strchr]: the position of the first occurrence of [c]. *)

Fixpoint index (c : ascii) (s : string) : option nat :=
  match s with
  | EmptyString => None
  | String a s' =>
      if Ascii.eqb a c then Some O
      else match index c s' with Some i => Some (S i) | None => None end
  end.

Lemma rindex_lt c s i : rindex c s = Some i -> (i < String.length s)%nat.
Proof.
  revert i. induction s as [|a s IH]; simpl; intros i Hi; [discriminate|].
  destruct (rindex c s) as [j|].
  - injection Hi as <-. specialize (IH j eq_refl). lia.
  - destruct (Ascii.eqb a c); [injection Hi as <-; lia | discriminate].
Qed.

(** ** Bit operations as arithmetic *)

Lemma bits_above w z n : 0 <= z < 2 ^ w -> 0 <= w <= n -> Z.testbit z n = false.
Proof.
  intros Hz Hn. destruct (decide (z = 0)) as [->|]; [apply Z.bits_0|].
  apply Z.bits_above_log2; [lia|]. apply Z.log2_lt_pow2; [lia|].
  apply Z.lt_le_trans with (2 ^ w); [lia|]. apply Z.pow_le_mono_r; lia.
Qed.

Lemma lor_add w a b : 0 <= w -> 0 <= b < 2 ^ w -> Z.lor (a * 2 ^ w) b = a * 2 ^ w + b.
Proof.
  intros Hw Hb. rewrite <- (Z.add_lor_land (a * 2 ^ w) b).
  assert (Z.land (a * 2 ^ w) b = 0) as ->; [|lia].
  apply Z.bits_inj'. intros n Hn. rewrite Z.land_spec, Z.bits_0.
  destruct (Z.lt_ge_cases n w).
  - by rewrite Z.mul_pow2_bits_low by lia.
  - rewrite (bits_above w b n), andb_false_r by lia. done.
Qed.

(** A mask of [b] bits from bit [a] on. *)

Lemma land_field x a b :
  0 <= a -> 0 <= b -> Z.land x (Z.shiftl (Z.ones b) a) = x / 2 ^ a mod 2 ^ b * 2 ^ a.
Proof.
  intros Ha Hb. rewrite <- Z.land_ones, <- Z.shiftr_div_pow2, <- Z.shiftl_mul_pow2 by lia.
  apply Z.bits_inj'. intros n Hn. rewrite Z.land_spec, !Z.shiftl_spec, Z.land_spec by lia.
  destruct (Z.lt_ge_cases n a).
  - rewrite !(Z.testbit_neg_r _ (n - a)) by lia. by rewrite !andb_false_r.
  - rewrite Z.shiftr_spec by lia. by replace (n - a + a) with n by lia.
Qed.

(** ** Lemmas on lists *)

Lemma list_filter_perm {A} (p : A -> bool) (l l' : list A) :
  Permutation l l' -> Permutation (List.filter p l) (List.filter p l').
Proof.
  induction 1 as [|x l l' _ IH|x y l|l l1 l2 _ IH1 _ IH2]; cbn [List.filter].
  - done.
  - destruct (p x); [by constructor|done].
  - destruct (p x), (p y); done || constructor.
  - by rewrite IH1.
Qed.

Lemma elem_filter {A} (p : A -> bool) l x : x ∈ List.filter p l <-> x ∈ l /\ p x = true.
Proof. rewrite !list_elem_of_In. apply List.filter_In. Qed.

Lemma filter_split {A} (p : A -> bool) (l : list A) :
  Permutation l (List.filter (fun x => negb (p x)) l ++ List.filter p l).
Proof.
  induction l as [|x l IH]; [done|]. cbn [List.filter]. destruct (p x); cbn [negb app].
  - rewrite <- Permutation_middle. by constructor.
  - by constructor.
Qed.

Lemma filter_fmap {A B} (p : B -> bool) (f : A -> B) l :
  List.filter p (f <$> l) = f <$> List.filter (fun x => p (f x)) l.
Proof. induction l as [|x l IH]; [done|]. rewrite fmap_cons. cbn [List.filter]. rewrite IH. by destruct (p (f x)). Qed.

Lemma foldr_max_ge (l : list Z) d x : x ∈ l -> x <= foldr Z.max d l.
Proof. induction 1 as [|x y l Hl IH]; simpl; lia. Qed.

(** A statement about the first numbers, checked one by one. *)

Lemma all_below (P : Z -> Prop) k :
  Forall P (Z.of_nat <$> seq 0 k) -> forall n, 0 <= n < Z.of_nat k -> P n.
Proof.
  rewrite Forall_forall. intros H n Hn. apply H. rewrite <- (Z2Nat.id n) by lia.
  apply list_elem_of_fmap_2, elem_of_seq. lia.
Qed.

(** The same for statements that can be decided. *)

Definition check_below (p : Z -> bool) (k : nat) : bool := forallb (fun n => p (Z.of_nat n)) (seq 0 k).

Lemma check_below_spec p k : check_below p k = true -> forall n, 0 <= n < Z.of_nat k -> p n = true.
Proof.
  intros H n Hn. unfold check_below in H. rewrite forallb_forall in H.
  rewrite <- (Z2Nat.id n) by lia. apply H, in_seq. lia.
Qed.

(** ** Counting loops

    [for_loop n i f s] is [for (j = i; j < i + n; j++) s = f (j, s)], where a
    body that is undefined ends the loop. *)

Fixpoint for_loop {S} (n i : nat) (f : nat -> S -> option S) (s : S) : option S :=
  match n with
  | O => Some s
  | Datatypes.S n' => s' ← f i s; for_loop n' (Datatypes.S i) f s'
  end.

(** An invariant of a loop, which also shows that every turn is defined. *)

Lemma for_loop_inv {S} (I : nat -> S -> Prop) (f : nat -> S -> option S) n i s :
  I i s ->
  (forall j t, (i <= j < i + n)%nat -> I j t -> exists t', f j t = Some t' /\ I (Datatypes.S j) t') ->
  exists s', for_loop n i f s = Some s' /\ I (i + n)%nat s'.
Proof.
  revert i s. induction n as [|n IH]; intros i s Hi Hf; cbn [for_loop].
  - exists s. by rewrite Nat.add_0_r.
  - destruct (Hf i s) as (t & -> & Ht); [lia|done|]. cbn [mbind option_bind].
    destruct (IH (Datatypes.S i) t Ht) as (s' & -> & Hs').
    + intros j u Hj. apply Hf. lia.
    + exists s'. split; [done|]. by replace (i + Datatypes.S n)%nat with (Datatypes.S i + n)%nat by lia.
Qed.
