(* ===== verification/Sqlite.v ===== *)
(** * The metadata database as TagIt uses it

    The tables of imess-server-xdb-schema.sql, the SQL statements of
    [xdb_sqls] (imess-server-xdb.c), and the interface of the SQLite library
    that the code calls. The statements are given the meaning that SQL gives
    them; the library itself is a parameter, the class [SqlEngine], with its
    documented behaviour as the laws of [SqlLaws] and [ReliableTx]. *)

From Stdlib Require Import ZArith Lia Bool Ascii String.
From stdpp Require Import base list strings.
From S2P Require Import Prelude.

(** ** Tables *)

Record xgfid_row := { g_gid : Z; g_gfid : string }.

Record xfile_row := { f_fid : Z; f_gid : Z; f_path : string; f_name : string }.

Record xname_row := { n_nid : Z; n_name : string }.

(** [x_rval] holds the bit pattern of the C double. *)

Record xdata_row := {
  x_xid : Z; x_gid : Z; x_nid : Z;
  x_ival : option Z; x_rval : option Z; x_sval : option string
}.

(** [present] is the number of the four tables that exist in the file. *)

Record tables := {
  present : Z;
  xgfid : list xgfid_row;
  xfile : list xfile_row;
  xname : list xname_row;
  xdata : list xdata_row
}.

Definition empty_file : tables :=
  {| present := 0; xgfid := []; xfile := []; xname := []; xdata := [] |}.

(** The stat(2) attribute names that the schema inserts, in its order. *)

Definition stat_names : list string :=
  ["st_dev"; "st_ino"; "st_mode"; "st_nlink"; "st_uid"; "st_gid"; "st_rdev";
   "st_size"; "st_blksize"; "st_blocks"; "st_atime"; "st_mtime"; "st_ctime"]%string.

(** ** Row identifiers

    An [integer primary key] that an insert leaves out is one more than the
    largest in the table. At the largest 64-bit value the insert is refused
    (SQLite would probe for a free identifier there). *)

Definition next_rowid (ids : list Z) : option Z :=
  let m := foldr Z.max 0 ids in
  if m <? 2 ^ 63 - 1 then Some (m + 1) else None.

(** ** SQL text functions

    [substr] counts the characters of a text value, which are UTF-8
    sequences: a byte of 0xC0 or more takes the continuation bytes after it
    along. *)

Definition byte_of (c : ascii) : Z := Z.of_nat (nat_of_ascii c).

Definition is_cont (c : ascii) : bool := Z.land (byte_of c) 192 =? 128.

Fixpoint drop_cont (s : string) : string :=
  match s with
  | String c s' => if is_cont c then drop_cont s' else s
  | EmptyString => EmptyString
  end.

Definition utf8_next (s : string) : string :=
  match s with
  | String c s' => if 192 <=? byte_of c then drop_cont s' else s'
  | EmptyString => EmptyString
  end.

Definition utf8_drop (n : nat) (s : string) : string := Nat.iter n utf8_next s.

(** [substr(s, pos)]; only positions from 1 on are used by the code. *)

Definition sql_substr (s : string) (pos : Z) : string :=
  utf8_drop (Z.to_nat (pos - 1)) s.

(** ** The statements of [xdb_sqls] with their bound parameters

    An unbound parameter, or one bound to a null pointer, is SQL's null. *)

Inductive sql_id :=
| TABLE_EXISTS | GET_GID | INSERT_GFID | INSERT_FILE | INSERT_STAT
| UPDATE_STAT | REMOVE_FILE | LINK_FILE | UNLINK_FILE | RENAME
| INSERT_XNAME | INSERT_XDATA.

Inductive sql_stmt :=
| TableExists
| GetGid (gfid : option string)
| InsertGfid (gfid : option string)
| InsertFile (gfid path path' : option string) (pos : option Z)
| InsertStat (params : list (option Z * option Z))
| UpdateStat (ival gid nid : option Z)
| RemoveFile (gfid : option string)
| LinkFile (gfid path path' : option string) (pos : option Z)
| UnlinkFile (path : option string)
| Rename (newpath newpath' : option string) (pos : option Z)
         (oldpath : option string)
| InsertXname (name : option string)
| InsertXdata (gfid name : option string) (ival rval : option Z)
              (sval : option string).

(** ** Meaning of the statements

    [None] is a constraint violation: the statement changes nothing. *)

Definition find_gid (t : tables) (gfid : option string) : option Z :=
  g ← gfid;
  r ← head (filter (fun r => g_gfid r = g) (xgfid t));
  Some (g_gid r).

Definition find_nid (t : tables) (name : option string) : option Z :=
  n ← name;
  r ← head (filter (fun r => n_name r = n) (xname t));
  Some (n_nid r).

Definition sql_insert_gfid (gfid : option string) (t : tables) : option tables :=
  g ← gfid;
  if decide (g ∈ (g_gfid <$> xgfid t)) then None else
  i ← next_rowid (g_gid <$> xgfid t);
  Some {| present := present t;
          xgfid := xgfid t ++ [{| g_gid := i; g_gfid := g |}];
          xfile := xfile t; xname := xname t; xdata := xdata t |}.

Definition sql_insert_file (gfid path path' : option string) (pos : option Z)
    (t : tables) : option tables :=
  gid ← find_gid t gfid;
  p ← path; p' ← path'; q ← pos;
  if decide (p ∈ (f_path <$> xfile t)) then None else
  i ← next_rowid (f_fid <$> xfile t);
  Some {| present := present t; xgfid := xgfid t;
          xfile := xfile t ++
            [{| f_fid := i; f_gid := gid; f_path := p; f_name := sql_substr p' q |}];
          xname := xname t; xdata := xdata t |}.

Definition sql_insert_xdata_row (gid nid ival rval : option Z)
    (sval : option string) (l : list xdata_row) : option (list xdata_row) :=
  g ← gid; n ← nid;
  if decide ((g, n) ∈ ((fun r => (x_gid r, x_nid r)) <$> l)) then None else
  i ← next_rowid (x_xid <$> l);
  Some (l ++ [{| x_xid := i; x_gid := g; x_nid := n;
                 x_ival := ival; x_rval := rval; x_sval := sval |}]).

Definition with_xdata (t : tables) (l : list xdata_row) : tables :=
  {| present := present t; xgfid := xgfid t; xfile := xfile t;
     xname := xname t; xdata := l |}.

(** The [union] of the thirteen selects: the k-th carries the attribute k. *)

Fixpoint sql_insert_stat_rows (k : Z) (params : list (option Z * option Z))
    (l : list xdata_row) : option (list xdata_row) :=
  match params with
  | [] => Some l
  | (g, v) :: ps =>
      l' ← sql_insert_xdata_row g (Some k) v None None l;
      sql_insert_stat_rows (k + 1) ps l'
  end.

Definition sql_insert_stat (params : list (option Z * option Z)) (t : tables)
    : option tables :=
  l ← sql_insert_stat_rows 1 params (xdata t); Some (with_xdata t l).

Definition set_ival (v : option Z) (r : xdata_row) : xdata_row :=
  {| x_xid := x_xid r; x_gid := x_gid r; x_nid := x_nid r;
     x_ival := v; x_rval := x_rval r; x_sval := x_sval r |}.

Definition sql_update_stat (ival gid nid : option Z) (t : tables) : tables :=
  with_xdata t
    ((fun r => if decide (Some (x_gid r) = gid /\ Some (x_nid r) = nid)
               then set_ival ival r else r) <$> xdata t).

Definition sql_remove_file (gfid : option string) (t : tables) : tables :=
  {| present := present t;
     xgfid := filter (fun r => Some (g_gfid r) <> gfid) (xgfid t);
     xfile := xfile t; xname := xname t; xdata := xdata t |}.

Definition with_xfile (t : tables) (l : list xfile_row) : tables :=
  {| present := present t; xgfid := xgfid t; xfile := l;
     xname := xname t; xdata := xdata t |}.

Definition sql_unlink_file (path : option string) (t : tables) : tables :=
  with_xfile t (filter (fun r => Some (f_path r) <> path) (xfile t)).

Definition set_path (p n : string) (r : xfile_row) : xfile_row :=
  {| f_fid := f_fid r; f_gid := f_gid r; f_path := p; f_name := n |}.

(** [update ... where path=old]: paths are unique, so at most one row moves.
    The new path must not be null, nor held by another row. *)

Definition sql_rename (newp newp' : option string) (pos : option Z)
    (oldp : option string) (t : tables) : option tables :=
  if decide (Exists (fun r => Some (f_path r) = oldp) (xfile t)) then
    p ← newp; p' ← newp'; q ← pos;
    if decide (p ∈ (f_path <$> filter (fun r => Some (f_path r) <> oldp) (xfile t)))
    then None
    else Some (with_xfile t
           ((fun r => if decide (Some (f_path r) = oldp)
                      then set_path p (sql_substr p' q) r else r) <$> xfile t))
  else Some t.

Definition sql_insert_xname (name : option string) (t : tables) : option tables :=
  match name with
  | None => Some t
  | Some n =>
      if decide (n ∈ (n_name <$> xname t)) then Some t else
      i ← next_rowid (n_nid <$> xname t);
      Some {| present := present t; xgfid := xgfid t; xfile := xfile t;
              xname := xname t ++ [{| n_nid := i; n_name := n |}];
              xdata := xdata t |}
  end.

(** [insert or replace]: the new row gets its identifier, then the row that the
    unique pair clashes with goes. *)

Definition sql_insert_xdata (gfid name : option string) (ival rval : option Z)
    (sval : option string) (t : tables) : option tables :=
  g ← find_gid t gfid; n ← find_nid t name;
  i ← next_rowid (x_xid <$> xdata t);
  Some (with_xdata t
    (filter (fun r => (x_gid r, x_nid r) <> (g, n)) (xdata t) ++
     [{| x_xid := i; x_gid := g; x_nid := n;
         x_ival := ival; x_rval := rval; x_sval := sval |}])).

Definition sql_apply (s : sql_stmt) (t : tables) : option tables :=
  match s with
  | TableExists | GetGid _ => Some t
  | InsertGfid g => sql_insert_gfid g t
  | InsertFile g p p' q | LinkFile g p p' q => sql_insert_file g p p' q t
  | InsertStat ps => sql_insert_stat ps t
  | UpdateStat v g n => Some (sql_update_stat v g n t)
  | RemoveFile g => Some (sql_remove_file g t)
  | UnlinkFile p => Some (sql_unlink_file p t)
  | Rename p p' q o => sql_rename p p' q o t
  | InsertXname n => sql_insert_xname n t
  | InsertXdata g n v r s => sql_insert_xdata g n v r s t
  end.

(** The first column of the first row of a select. *)

Definition sql_select (s : sql_stmt) (t : tables) : option Z :=
  match s with
  | TableExists => Some (present t)
  | GetGid g => find_gid t g
  | _ => None
  end.

(** What the schema script leaves: the four tables, empty but for the names
    of the stat(2) attributes. *)

Definition schema_tables : tables :=
  {| present := 4; xgfid := []; xfile := [];
     xname := imap (fun i n => {| n_nid := Z.of_nat i + 1; n_name := n |}) stat_names;
     xdata := [] |}.

(** ** The SQLite library *)

Definition SQLITE_OK : Z := 0.
Definition SQLITE_BUSY : Z := 5.
Definition SQLITE_ROW : Z := 100.
Definition SQLITE_DONE : Z := 101.

(** Scripts given to [sqlite3_exec] without a callback. *)

Inductive sql_script := BEGIN_TX | END_TX | ROLLBACK_TX | PRAGMA_SYNC | SCHEMA.

(** A connection, what it sees of the database ([cur]), and the state that a
    rollback of the open transaction would bring back ([saved], [None] when
    no transaction is open). [patience] bounds how often a step in a row may
    still answer that another connection holds the lock. *)

Class SqlEngine (conn : Type) := {
  cur : conn -> tables;
  saved : conn -> option tables;
  patience : conn -> nat;
  sqlite3_prepare_v2 : sql_id -> conn -> Z * conn;
  sqlite3_bind : conn -> Z * conn;
  sqlite3_step : sql_stmt -> conn -> (Z * Z) * conn;
  sqlite3_exec : sql_script -> conn -> Z * conn;
  sqlite3_query : string -> conn -> (Z * list (list string)) * conn
}.

(** Documented behaviour: preparing and binding touch no table, and a bind
    answers one of the primary result codes; a step that
    answers [SQLITE_DONE] has carried the statement out and one that answers
    [SQLITE_ROW] has the row; any other answer leaves the tables as they
    were, except that SQLite may have rolled the open transaction back by
    itself; a step that answers [SQLITE_BUSY] can be tried again. *)

Class SqlLaws (conn : Type) `{!SqlEngine conn} : Prop := {
  prepare_cur i c r c' :
    sqlite3_prepare_v2 i c = (r, c') -> cur c' = cur c /\ saved c' = saved c;
  bind_cur c r c' :
    sqlite3_bind c = (r, c') -> cur c' = cur c /\ saved c' = saved c;
  bind_code c r c' : sqlite3_bind c = (r, c') -> 0 <= r < 32;
  step_done s c v c' :
    sqlite3_step s c = ((SQLITE_DONE, v), c') ->
    sql_select s (cur c) = None /\
    sql_apply s (cur c) = Some (cur c') /\ saved c' = saved c;
  step_row s c v c' :
    sqlite3_step s c = ((SQLITE_ROW, v), c') ->
    sql_select s (cur c) = Some v /\ cur c' = cur c /\ saved c' = saved c;
  step_fail s c r v c' :
    sqlite3_step s c = ((r, v), c') -> r <> SQLITE_DONE -> r <> SQLITE_ROW ->
    (cur c' = cur c /\ saved c' = saved c) \/
    (saved c = Some (cur c') /\ saved c' = None);
  step_busy s c v c' :
    sqlite3_step s c = ((SQLITE_BUSY, v), c') ->
    cur c' = cur c /\ saved c' = saved c /\ (patience c' < patience c)%nat;
  begin_ok c c' :
    sqlite3_exec BEGIN_TX c = (SQLITE_OK, c') ->
    saved c = None /\ cur c' = cur c /\ saved c' = Some (cur c);
  end_ok c c' :
    sqlite3_exec END_TX c = (SQLITE_OK, c') ->
    cur c' = cur c /\ is_Some (saved c) /\ saved c' = None;
  rollback_ok c c' :
    sqlite3_exec ROLLBACK_TX c = (SQLITE_OK, c') ->
    saved c = Some (cur c') /\ saved c' = None;
  pragma_ok c r c' :
    sqlite3_exec PRAGMA_SYNC c = (r, c') -> cur c' = cur c /\ saved c' = saved c;
  schema_ok c c' :
    sqlite3_exec SCHEMA c = (SQLITE_OK, c') ->
    cur c' = schema_tables /\ saved c' = saved c;
  exec_fail s c r c' :
    sqlite3_exec s c = (r, c') -> r <> SQLITE_OK -> s <> SCHEMA ->
    cur c' = cur c /\ saved c' = saved c
}.

(** Transaction control that does not fail: a transaction can be opened when
    none is open, and an open one can be closed either way. The code ignores
    the return values of these three calls. *)

Class ReliableTx (conn : Type) `{!SqlEngine conn} : Prop := {
  begin_works c : saved c = None -> (sqlite3_exec BEGIN_TX c).1 = SQLITE_OK;
  end_works c : is_Some (saved c) -> (sqlite3_exec END_TX c).1 = SQLITE_OK;
  rollback_works c : is_Some (saved c) -> (sqlite3_exec ROLLBACK_TX c).1 = SQLITE_OK
}.

(** A connection on which nothing goes wrong: every call succeeds, and a
    statement that violates no constraint is carried out. *)

Class HealthyEngine (conn : Type) `{!SqlEngine conn} : Prop := {
  prepare_works i c : (sqlite3_prepare_v2 i c).1 = SQLITE_OK;
  bind_works c : (sqlite3_bind c).1 = SQLITE_OK;
  step_works s c : is_Some (sql_apply s (cur c)) ->
    (sqlite3_step s c).1.1 = SQLITE_DONE \/ (sqlite3_step s c).1.1 = SQLITE_ROW
}.

(** ** A scripted engine

    The interface is inhabited: an engine that answers its calls from a
    script of result codes, 0 standing for what an undisturbed SQLite does.
    A negative code is a failure that also rolls the transaction back. With
    [rel] set, transaction control does not consult the script. *)

Module Scripted.

Record sconn (rel : bool) := {
  sc_cur : tables; sc_saved : option tables;
  sc_script : list Z; sc_rows : list (list string)
}.
Arguments sc_cur {rel}.
Arguments sc_saved {rel}.
Arguments sc_script {rel}.
Arguments sc_rows {rel}.

Definition SQLITE_ERROR : Z := 1.
Definition SQLITE_NOMEM : Z := 7.
Definition SQLITE_FULL : Z := 13.
Definition SQLITE_CONSTRAINT : Z := 19.

Definition sc_set {rel} (c : sconn rel) (t : tables) (s : option tables) : sconn rel :=
  {| sc_cur := t; sc_saved := s; sc_script := sc_script c; sc_rows := sc_rows c |}.

Definition sc_pop {rel} (c : sconn rel) : Z * sconn rel :=
  (default 0 (head (sc_script c)),
   {| sc_cur := sc_cur c; sc_saved := sc_saved c;
      sc_script := tail (sc_script c); sc_rows := sc_rows c |}).

Definition sc_bind {rel} (c : sconn rel) : Z * sconn rel :=
  let '(r, c') := sc_pop c in
  (if (0 <=? r) && (r <? 32) then r else SQLITE_NOMEM, c').

Definition sc_normal {rel} (s : sql_stmt) (c : sconn rel) : (Z * Z) * sconn rel :=
  match sql_select s (sc_cur c) with
  | Some v => ((SQLITE_ROW, v), c)
  | None =>
      match sql_apply s (sc_cur c) with
      | Some t => ((SQLITE_DONE, 0), sc_set c t (sc_saved c))
      | None => ((SQLITE_CONSTRAINT, 0), c)
      end
  end.

Definition sc_step {rel} (s : sql_stmt) (c : sconn rel) : (Z * Z) * sconn rel :=
  let '(r, c') := sc_pop c in
  if (r =? 0) || (r =? SQLITE_DONE) || (r =? SQLITE_ROW) then sc_normal s c'
  else if r <? 0 then
    match sc_saved c' with
    | Some t => ((SQLITE_FULL, 0), sc_set c' t None)
    | None => ((SQLITE_FULL, 0), c')
    end
  else ((r, 0), c').

Definition sc_run {rel} (s : sql_script) (c : sconn rel) : Z * sconn rel :=
  match s, sc_saved c with
  | BEGIN_TX, None => (SQLITE_OK, sc_set c (sc_cur c) (Some (sc_cur c)))
  | END_TX, Some _ => (SQLITE_OK, sc_set c (sc_cur c) None)
  | ROLLBACK_TX, Some t => (SQLITE_OK, sc_set c t None)
  | PRAGMA_SYNC, _ => (SQLITE_OK, c)
  | SCHEMA, s => (SQLITE_OK, sc_set c schema_tables s)
  | _, _ => (SQLITE_ERROR, c)
  end.

Definition sc_exec {rel} (s : sql_script) (c : sconn rel) : Z * sconn rel :=
  if rel then sc_run s c
  else let '(r, c') := sc_pop c in
       if r =? 0 then sc_run s c' else (r, c').

#[global] Instance sconn_engine rel : SqlEngine (sconn rel) := {|
  cur := sc_cur; saved := sc_saved;
  patience := fun c => length (sc_script c);
  sqlite3_prepare_v2 := fun _ => sc_pop;
  sqlite3_bind := sc_bind;
  sqlite3_step := sc_step;
  sqlite3_exec := sc_exec;
  sqlite3_query := fun _ c => ((SQLITE_OK, sc_rows c), c)
|}.

Lemma sc_normal_answers {rel} s (c : sconn rel) r v c' :
  sc_normal s c = ((r, v), c') ->
  (r = SQLITE_DONE /\ sql_select s (cur c) = None /\
     sql_apply s (cur c) = Some (cur c') /\ saved c' = saved c) \/
  (r = SQLITE_ROW /\ sql_select s (cur c) = Some v /\ c' = c) \/
  (r = SQLITE_CONSTRAINT /\ c' = c).
Proof.
  unfold sc_normal; simpl. repeat case_match; intros; simplify_eq; simpl; auto 10.
Qed.

Lemma sc_step_answers {rel} s (c : sconn rel) r v c' :
  sc_step s c = ((r, v), c') ->
  (r = SQLITE_DONE /\ sql_select s (cur c) = None /\
     sql_apply s (cur c) = Some (cur c') /\ saved c' = saved c) \/
  (r = SQLITE_ROW /\ sql_select s (cur c) = Some v /\
     cur c' = cur c /\ saved c' = saved c) \/
  (r <> SQLITE_DONE /\ r <> SQLITE_ROW /\ cur c' = cur c /\ saved c' = saved c /\
     (r = SQLITE_BUSY -> (patience c' < patience c)%nat)) \/
  (r = SQLITE_FULL /\ saved c = Some (cur c') /\ saved c' = None).
Proof.
  unfold sc_step, sc_pop. intros E.
  destruct (sc_script c) as [|z zs] eqn:Es; simpl in E.
  - apply sc_normal_answers in E as [?|[(?&?&->)|(->&->)]]; simpl in *; auto 10.
    right; right; left. split_and!; try done.
  - destruct (_ || _ || _) eqn:Hz.
    + apply sc_normal_answers in E as [?|[(?&?&->)|(->&->)]]; simpl in *; auto 10.
      right; right; left. split_and!; try done.
    + apply orb_false_iff in Hz as [[Hz1 Hz2]%orb_false_iff Hz3].
      apply Z.eqb_neq in Hz1, Hz2, Hz3.
      destruct (z <? 0).
      * destruct (sc_saved c) eqn:Hsv; simplify_eq; simpl; rewrite ?Hsv; auto 10.
        right; right; left. split_and!; try done.
      * simplify_eq. right; right; left. simpl. rewrite Es. split_and!; try done.
        simpl. lia.
Qed.

Lemma sc_run_fail {rel} s (c : sconn rel) r c' :
  sc_run s c = (r, c') -> r <> SQLITE_OK -> c' = c.
Proof. unfold sc_run. repeat case_match; intros; simplify_eq; done. Qed.

Lemma sc_exec_run {rel} s (c : sconn rel) r c' :
  sc_exec s c = (r, c') ->
  exists c0, cur c0 = cur c /\ saved c0 = saved c /\
    (sc_run s c0 = (r, c') \/ (r <> SQLITE_OK /\ c' = c0)).
Proof.
  unfold sc_exec. destruct rel; intros E.
  - exists c. auto.
  - exists (sc_pop c).2. split; [done|split; [done|]].
    unfold sc_pop in *. simpl in *.
    destruct (Z.eqb_spec (default 0 (head (sc_script c))) 0); [by left|].
    right. by simplify_eq.
Qed.

Ltac sc_codes :=
  unfold SQLITE_DONE, SQLITE_ROW, SQLITE_FULL, SQLITE_BUSY in *;
  intuition (first [congruence | auto]).

Ltac sc_runs E :=
  apply sc_exec_run in E as (c0 & Hc & Hs & [E|[? ?]]); simplify_eq;
  simpl in *; unfold sc_run in *; repeat case_match; simplify_eq;
  simpl in *; rewrite <- ?Hc, <- ?Hs; try done.

#[global] Instance sconn_laws rel : SqlLaws (sconn rel).
Proof.
  split.
  - intros i c r c' E. simpl in E. unfold sc_pop in E. by simplify_eq.
  - intros c r c' E. simpl in E. unfold sc_bind, sc_pop in E. by simplify_eq.
  - intros c r c' E. simpl in E. unfold sc_bind, sc_pop, SQLITE_NOMEM in E. simplify_eq.
    destruct (Z.leb_spec 0 (default 0 (head (sc_script c))));
      destruct (Z.ltb_spec (default 0 (head (sc_script c))) 32); simpl; lia.
  - intros s c v c' E. apply sc_step_answers in E; sc_codes.
  - intros s c v c' E. apply sc_step_answers in E; sc_codes.
  - intros s c r v c' E. apply sc_step_answers in E; sc_codes.
  - intros s c v c' E. apply sc_step_answers in E; sc_codes.
  - intros c c' E. sc_runs E.
  - intros c c' E. sc_runs E.
  - intros c c' E. sc_runs E.
  - intros c r c' E. sc_runs E.
  - intros c c' E. sc_runs E.
  - intros s c r c' E Hr _. apply sc_exec_run in E as (c0 & Hc & Hs & [E|[? ->]]).
    + by rewrite (sc_run_fail _ _ _ _ E Hr).
    + done.
Qed.

#[global] Instance sconn_reliable : ReliableTx (sconn true).
Proof.
  split; intros c Hc; simpl in *; unfold sc_exec, sc_run.
  - by rewrite Hc.
  - by destruct Hc as [t ->].
  - by destruct Hc as [t ->].
Qed.

(** The scripted engine with an empty script is healthy. *)

Record hconn := { h_cur : tables; h_saved : option tables; h_rows : list (list string) }.

Definition to_s (h : hconn) : sconn true :=
  {| sc_cur := h_cur h; sc_saved := h_saved h; sc_script := []; sc_rows := h_rows h |}.

Definition of_s (c : sconn true) : hconn :=
  {| h_cur := sc_cur c; h_saved := sc_saved c; h_rows := sc_rows c |}.

#[global] Instance hconn_engine : SqlEngine hconn := {|
  cur := h_cur; saved := h_saved; patience := fun _ => O;
  sqlite3_prepare_v2 := fun _ h => (SQLITE_OK, h);
  sqlite3_bind := fun h => (SQLITE_OK, h);
  sqlite3_step := fun s h => let '(a, c) := sc_normal s (to_s h) in (a, of_s c);
  sqlite3_exec := fun s h => let '(a, c) := sc_run s (to_s h) in (a, of_s c);
  sqlite3_query := fun _ h => ((SQLITE_OK, h_rows h), h)
|}.

Lemma hconn_step_answers s (h : hconn) r v h' :
  sqlite3_step s h = ((r, v), h') ->
  (r = SQLITE_DONE /\ sql_select s (cur h) = None /\
     sql_apply s (cur h) = Some (cur h') /\ saved h' = saved h) \/
  (r = SQLITE_ROW /\ sql_select s (cur h) = Some v /\ cur h' = cur h /\ saved h' = saved h) \/
  (r = SQLITE_CONSTRAINT /\ sql_apply s (cur h) = None /\ cur h' = cur h /\ saved h' = saved h).
Proof.
  simpl. unfold sc_normal. simpl. repeat case_match; intros; simplify_eq; simpl; auto 10.
Qed.

Ltac h_runs E :=
  simpl in *; unfold sc_run in *; simpl in *; repeat case_match; simplify_eq; simpl; try done.

#[global] Instance hconn_laws : SqlLaws hconn.
Proof.
  split.
  - intros i c r c' E. simpl in E. by simplify_eq.
  - intros c r c' E. simpl in E. by simplify_eq.
  - intros c r c' E. simpl in E. unfold SQLITE_OK in E. simplify_eq. lia.
  - intros s c v c' E. apply hconn_step_answers in E; unfold SQLITE_CONSTRAINT in *; sc_codes.
  - intros s c v c' E. apply hconn_step_answers in E; unfold SQLITE_CONSTRAINT in *; sc_codes.
  - intros s c r v c' E. apply hconn_step_answers in E; unfold SQLITE_CONSTRAINT in *; sc_codes.
  - intros s c v c' E. apply hconn_step_answers in E; unfold SQLITE_CONSTRAINT in *; sc_codes.
  - intros c c' E. h_runs E.
  - intros c c' E. h_runs E.
  - intros c c' E. h_runs E.
  - intros c r c' E. h_runs E.
  - intros c c' E. h_runs E.
  - intros s c r c' E Hr Hs. h_runs E.
Qed.

#[global] Instance hconn_reliable : ReliableTx hconn.
Proof.
  split; intros c Hc; simpl in *; unfold sc_run; simpl.
  - by rewrite Hc.
  - by destruct Hc as [t ->].
  - by destruct Hc as [t ->].
Qed.

#[global] Instance hconn_healthy : HealthyEngine hconn.
Proof.
  split; [done|done|]. intros s c [t Ht].
  destruct (sqlite3_step s c) as [[r v] c'] eqn:E.
  apply hconn_step_answers in E as [?|[?|(?&?&?)]]; simpl; naive_solver.
Qed.

End Scripted.
