(* ===== verification/SqlFacts.v ===== *)
(** * Facts about the tables and the statements

    The uniqueness invariant that the keys of the schema give, and what each
    statement does to a lookup. *)

From Stdlib Require Import ZArith Lia Bool Ascii String.
From stdpp Require Import base list strings.
From S2P Require Import Prelude Sqlite.

Create HintDb sql.

(** ** Keys *)

(** Primary keys and unique columns hold no value twice. *)

Record uniq_tables (t : tables) : Prop := {
  uniq_gid : NoDup (g_gid <$> xgfid t);
  uniq_gfid : NoDup (g_gfid <$> xgfid t);
  uniq_fid : NoDup (f_fid <$> xfile t);
  uniq_path : NoDup (f_path <$> xfile t);
  uniq_nid : NoDup (n_nid <$> xname t);
  uniq_name : NoDup (n_name <$> xname t);
  uniq_xid : NoDup (x_xid <$> xdata t);
  uniq_pair : NoDup ((fun r => (x_gid r, x_nid r)) <$> xdata t)
}.

Lemma next_rowid_fresh ids i : next_rowid ids = Some i -> i ∉ ids.
Proof.
  unfold next_rowid. case_match; intros; simplify_eq. intros Hin.
  apply (foldr_max_ge _ 0) in Hin. lia.
Qed.

Lemma next_rowid_pos ids i : next_rowid ids = Some i -> 0 < i.
Proof.
  unfold next_rowid. case_match; intros; simplify_eq.
  clear. induction ids; simpl; lia.
Qed.

Lemma NoDup_snoc {A} (l : list A) x : NoDup l -> x ∉ l -> NoDup (l ++ [x]).
Proof.
  intros Hl Hx. apply NoDup_app. split; [done|split; [|apply NoDup_singleton]].
  intros y Hy Hy'. apply list_elem_of_singleton in Hy'. congruence.
Qed.

Lemma NoDup_fmap_snoc {A B} (f : A -> B) (l : list A) x :
  NoDup (f <$> l) -> f x ∉ (f <$> l) -> NoDup (f <$> l ++ [x]).
Proof. intros. rewrite fmap_app. by apply NoDup_snoc. Qed.

Lemma NoDup_fmap_filter {A B} (f : A -> B) (P : A -> Prop) `{!forall x, Decision (P x)}
    (l : list A) : NoDup (f <$> l) -> NoDup (f <$> filter P l).
Proof.
  intros Hnd. eapply sublist_NoDup; [exact Hnd|].
  apply fmap_sublist, sublist_filter.
Qed.

Lemma elem_of_fmap_filter {A B} (f : A -> B) (P : A -> Prop) `{!forall x, Decision (P x)}
    (l : list A) y : y ∈ (f <$> filter P l) -> y ∈ (f <$> l).
Proof.
  intros (x & -> & [_ Hx]%list_elem_of_filter)%list_elem_of_fmap.
  by apply list_elem_of_fmap_2.
Qed.

#[export] Hint Resolve NoDup_fmap_snoc NoDup_fmap_filter next_rowid_fresh : sql.

(** Takes a successful statement apart. *)

Ltac sql_inv H :=
  repeat (first
    [ progress simplify_option_eq
    | match type of H with
      | (if decide ?P then _ else _) = Some _ => destruct (decide P)
      | mbind _ ?o = Some _ => destruct o eqn:?; simpl in H; [|discriminate]
      end ]).

Lemma xdata_row_inv g n v r s l l' :
  sql_insert_xdata_row g n v r s l = Some l' ->
  exists g' n' i, g = Some g' /\ n = Some n' /\ next_rowid (x_xid <$> l) = Some i /\
    ~ ((g', n') ∈ ((fun r => (x_gid r, x_nid r)) <$> l)) /\
    l' = l ++ [{| x_xid := i; x_gid := g'; x_nid := n';
                  x_ival := v; x_rval := r; x_sval := s |}].
Proof.
  unfold sql_insert_xdata_row. intros H.
  destruct g as [g'|], n as [n'|]; simpl in H; try discriminate.
  case_decide; [discriminate|].
  destruct (next_rowid _) as [i|]; simpl in H; [|discriminate].
  simplify_eq. exists g', n', i. done.
Qed.

Lemma xdata_row_uniq g n v r s l l' :
  sql_insert_xdata_row g n v r s l = Some l' ->
  NoDup (x_xid <$> l) -> NoDup ((fun r => (x_gid r, x_nid r)) <$> l) ->
  NoDup (x_xid <$> l') /\ NoDup ((fun r => (x_gid r, x_nid r)) <$> l').
Proof.
  intros (g'&n'&i&_&_&Hi&Hp&->)%xdata_row_inv H1 H2.
  split; apply NoDup_fmap_snoc; simpl; eauto with sql.
Qed.

Lemma stat_rows_uniq ps k l l' :
  sql_insert_stat_rows k ps l = Some l' ->
  NoDup (x_xid <$> l) -> NoDup ((fun r => (x_gid r, x_nid r)) <$> l) ->
  NoDup (x_xid <$> l') /\ NoDup ((fun r => (x_gid r, x_nid r)) <$> l').
Proof.
  revert k l. induction ps as [|[g v] ps IH]; intros k l H H1 H2; simpl in H.
  - by simplify_eq.
  - destruct (sql_insert_xdata_row _ _ _ _ _ _) as [l1|] eqn:E; simpl in H; [|discriminate].
    destruct (xdata_row_uniq _ _ _ _ _ _ _ E H1 H2). eauto.
Qed.

(** Renaming one path among distinct ones to a path that no other has. *)

Lemma NoDup_set_path old p n l :
  NoDup (f_path <$> l) ->
  p ∉ (f_path <$> filter (fun r => Some (f_path r) <> old) l) ->
  NoDup (f_path <$> ((fun r => if decide (Some (f_path r) = old)
                               then set_path p n r else r) <$> l)).
Proof.
  induction l as [|r l IH]; [done|].
  rewrite !fmap_cons. intros [Hr Hl]%NoDup_cons Hp. apply NoDup_cons.
  destruct (decide (Some (f_path r) = old)) as [E|E].
  - rewrite filter_cons_False in Hp by naive_solver.
    split; [|by apply IH].
    intros (r0 & Heq & (r' & -> & Hr')%list_elem_of_fmap)%list_elem_of_fmap.
    case_decide as E'; simpl in *.
    + apply Hr. rewrite <- E in E'. apply list_elem_of_fmap. exists r'. naive_solver.
    + apply Hp. apply list_elem_of_fmap. exists r'. split; [congruence|].
      by apply list_elem_of_filter.
  - rewrite filter_cons_True in Hp by done.
    rewrite fmap_cons in Hp. apply not_elem_of_cons in Hp as [Hp1 Hp2].
    split; [|by apply IH].
    intros (r0 & Heq & (r' & -> & Hr')%list_elem_of_fmap)%list_elem_of_fmap.
    case_decide as E'; simpl in *; [congruence|].
    apply Hr. rewrite Heq. by apply list_elem_of_fmap_2.
Qed.

Lemma fmap_same {A B} (g : A -> B) (f : A -> A) (l : list A) :
  (forall x, g (f x) = g x) -> (g <$> (f <$> l)) = (g <$> l).
Proof. intros H. rewrite <- list_fmap_compose. apply list_fmap_ext. intros. apply H. Qed.

(** The statements keep the keys unique. *)

Lemma sql_apply_uniq s t t' :
  uniq_tables t -> sql_apply s t = Some t' -> uniq_tables t'.
Proof.
  intros [] H. destruct s; simpl in H; try (by simplify_eq; split).
  - (* InsertGfid *)
    unfold sql_insert_gfid in H. sql_inv H. split; simpl; eauto with sql.
  - (* InsertFile *)
    unfold sql_insert_file in H. sql_inv H. split; simpl; eauto with sql.
  - (* InsertStat *)
    unfold sql_insert_stat in H. sql_inv H.
    destruct (stat_rows_uniq _ _ _ _ Heqo uniq_xid0 uniq_pair0). by split.
  - (* UpdateStat *)
    simplify_eq. split; simpl; try done.
    + rewrite fmap_same; [done|]. intros x. by case_decide.
    + rewrite (fmap_same (fun r => (x_gid r, x_nid r))); [done|]. intros x. by case_decide.
  - (* RemoveFile *)
    simplify_eq. split; simpl; eauto with sql.
  - (* LinkFile *)
    unfold sql_insert_file in H. sql_inv H. split; simpl; eauto with sql.
  - (* UnlinkFile *)
    simplify_eq. split; simpl; eauto with sql.
  - (* Rename *)
    unfold sql_rename in H. sql_inv H; [|by split]. split; simpl; try done.
    + rewrite fmap_same; [done|]. intros x. by case_decide.
    + by apply NoDup_set_path.
  - (* InsertXname *)
    unfold sql_insert_xname in H. destruct name as [n|]; [|by simplify_eq; split].
    case_decide; [by simplify_eq; split|]. sql_inv H. split; simpl; eauto with sql.
  - (* InsertXdata *)
    unfold sql_insert_xdata in H.
    destruct (find_gid t gfid) as [g|], (find_nid t name) as [n|]; try discriminate.
    cbn [mbind option_bind] in H.
    destruct (next_rowid (x_xid <$> xdata t)) as [i|] eqn:E; [|discriminate].
    cbn in H. simplify_eq. split; simpl; try done; apply NoDup_fmap_snoc;
      eauto with sql; simpl; intros (r & Hr & [Hne Hin]%list_elem_of_filter)%list_elem_of_fmap.
    + apply next_rowid_fresh in E. apply E. rewrite Hr. by apply list_elem_of_fmap_2.
    + congruence.
Qed.

Lemma schema_uniq : uniq_tables schema_tables.
Proof. split; apply (bool_decide_unpack _); vm_compute; exact I. Qed.

(** ** Reading the index

    [idx t p] is the gfid that the index gives for a path, and [attr t g n]
    the values of attribute [n] of the file [g]. *)

Definition by_gid (t : tables) (gid : Z) : option string :=
  r ← head (filter (fun r => g_gid r = gid) (xgfid t)); Some (g_gfid r).

Definition file_row (t : tables) (p : string) : option xfile_row :=
  head (filter (fun r => f_path r = p) (xfile t)).

Definition idx (t : tables) (p : string) : option string :=
  r ← file_row t p; by_gid t (f_gid r).

Definition data_row (l : list xdata_row) (gid nid : Z) : option xdata_row :=
  head (filter (fun r => (x_gid r, x_nid r) = (gid, nid)) l).

Definition row_values (r : xdata_row) : option Z * option Z * option string :=
  (x_ival r, x_rval r, x_sval r).

Definition attr (t : tables) (gfid : string) (nid : Z)
    : option (option Z * option Z * option string) :=
  gid ← find_gid t (Some gfid); r ← data_row (xdata t) gid nid; Some (row_values r).

(** Rows refer to rows that exist, and file identifiers fit in a C [int]. *)

Record wf_tables (t : tables) : Prop := {
  wf_uniq : uniq_tables t;
  wf_file_ref : forall r, r ∈ xfile t -> f_gid r ∈ (g_gid <$> xgfid t);
  wf_data_ref : forall r, r ∈ xdata t -> x_gid r ∈ (g_gid <$> xgfid t);
  wf_small : forall r, r ∈ xgfid t -> 0 < g_gid r < 2 ^ 31
}.

(** Identifiers left for a new file and its attributes. *)

Record room (t : tables) : Prop := {
  room_gid : foldr Z.max 0 (g_gid <$> xgfid t) < 2 ^ 31 - 1;
  room_fid : foldr Z.max 0 (f_fid <$> xfile t) < 2 ^ 63 - 1;
  room_nid : foldr Z.max 0 (n_nid <$> xname t) < 2 ^ 63 - 1;
  room_xid : foldr Z.max 0 (x_xid <$> xdata t) < 2 ^ 63 - 14
}.

(** *** The first row with a property *)

Section heads.
Context {A : Type} (P : A -> Prop) `{!forall x, Decision (P x)}.
Implicit Types (l : list A) (x y : A).

Lemma head_filter_snoc l x :
  head (filter P (l ++ [x])) =
  match head (filter P l) with
  | Some y => Some y
  | None => if decide (P x) then Some x else None
  end.
Proof.
  rewrite filter_app. destruct (filter P l) as [|y l'] eqn:E; simpl; [|done].
  rewrite filter_cons, filter_nil. by case_decide.
Qed.

Lemma head_filter_None l : head (filter P l) = None <-> forall x, x ∈ l -> ~ P x.
Proof.
  split.
  - intros Hh x Hx Px. destruct (filter P l) as [|y l'] eqn:E; [|done].
    assert (x ∈ filter P l) as Hin by (by apply list_elem_of_filter).
    rewrite E in Hin. by apply not_elem_of_nil in Hin.
  - intros Hl. destruct (filter P l) as [|y l'] eqn:E; [done|].
    assert (y ∈ filter P l) as [? ?]%list_elem_of_filter by (rewrite E; left).
    by destruct (Hl y).
Qed.

Lemma head_filter_Some l x : head (filter P l) = Some x -> x ∈ l /\ P x.
Proof.
  intros Hh. destruct (filter P l) as [|y l'] eqn:E; [done|]. simplify_eq/=.
  assert (x ∈ filter P l) as [? ?]%list_elem_of_filter by (rewrite E; left). done.
Qed.

End heads.

(** With a key that no two rows share, the row with a key is its first. *)

Lemma head_filter_key {A K} `{!EqDecision K} (key : A -> K) (l : list A) x :
  NoDup (key <$> l) -> x ∈ l -> head (filter (fun r => key r = key x) l) = Some x.
Proof.
  intros Hnd Hx. destruct (head _) as [y|] eqn:E.
  - apply head_filter_Some in E as [Hy Hk]. f_equal.
    apply list_elem_of_lookup in Hx as [i Hi], Hy as [j Hj].
    assert (i = j) as <-; [|congruence].
    eapply (NoDup_lookup _ _ _ _ Hnd); rewrite list_lookup_fmap.
    + by rewrite Hi.
    + rewrite Hj. simpl. by rewrite Hk.
  - rewrite head_filter_None in E. by destruct (E x Hx).
Qed.

Lemma head_filter_fmap {A B} (f : A -> B) (P : B -> Prop) (Q : A -> Prop)
    `{!forall x, Decision (P x)} `{!forall x, Decision (Q x)} (l : list A) :
  (forall x, x ∈ l -> P (f x) <-> Q x) ->
  head (filter P (f <$> l)) = f <$> head (filter Q l).
Proof.
  induction l as [|x l IH]; intros HPQ; [done|].
  assert (P (f x) <-> Q x) as Hx by (apply HPQ; left).
  assert (head (filter P (f <$> l)) = f <$> head (filter Q l)) as Hl
    by (apply IH; intros; apply HPQ; by right).
  rewrite fmap_cons, !filter_cons.
  destruct (decide (P (f x))), (decide (Q x)); try tauto; done.
Qed.

Lemma head_filter_none {A} (P Q : A -> Prop) `{!forall x, Decision (P x)}
    `{!forall x, Decision (Q x)} (l : list A) :
  (forall x, P x -> ~ Q x) -> head (filter P (filter Q l)) = None.
Proof.
  intros HPQ. apply head_filter_None. intros x [HQ _]%list_elem_of_filter HP. by eapply HPQ.
Qed.

(** *** Lookups after a statement *)

Lemma insert_gfid_lookups t t' g :
  sql_insert_gfid (Some g) t = Some t' ->
  exists i, next_rowid (g_gid <$> xgfid t) = Some i /\ ~ g ∈ (g_gfid <$> xgfid t) /\
    (forall g', find_gid t' (Some g') =
       if decide (g = g') then Some i else find_gid t (Some g')) /\
    (forall k, by_gid t' k = if decide (i = k) then Some g else by_gid t k) /\
    present t' = present t /\ xfile t' = xfile t /\ xname t' = xname t /\
    xdata t' = xdata t /\ (g_gid <$> xgfid t') = (g_gid <$> xgfid t) ++ [i] /\
    (g_gfid <$> xgfid t') = (g_gfid <$> xgfid t) ++ [g].
Proof.
  unfold sql_insert_gfid. cbn [mbind option_bind]. case_decide as Hg; [done|].
  destruct (next_rowid _) as [i|] eqn:Hi; [|done]. cbn [mbind option_bind]. intros [= <-].
  exists i. split_and!; try done; simpl; [..|by rewrite fmap_app|by rewrite fmap_app].
  - intros g'. unfold find_gid. simpl. rewrite head_filter_snoc. simpl.
    case_decide as Hg'; subst.
    + rewrite (proj2 (head_filter_None _ _)); [done|].
      intros x Hx <-. apply Hg. by apply list_elem_of_fmap_2.
    + by destruct (head _).
  - intros k. unfold by_gid. simpl. rewrite head_filter_snoc. simpl.
    case_decide as Hk; subst.
    + rewrite (proj2 (head_filter_None _ _)); [done|].
      intros x Hx Heq. apply next_rowid_fresh in Hi. apply Hi. rewrite <- Heq.
      by apply list_elem_of_fmap_2.
    + by destruct (head _).
Qed.

Lemma insert_file_lookups t t' g p p2 q :
  sql_insert_file (Some g) (Some p) (Some p2) (Some q) t = Some t' ->
  exists gid i, find_gid t (Some g) = Some gid /\ ~ p ∈ (f_path <$> xfile t) /\
    next_rowid (f_fid <$> xfile t) = Some i /\
    (forall p', file_row t' p' =
       if decide (p = p')
       then Some {| f_fid := i; f_gid := gid; f_path := p; f_name := sql_substr p2 q |}
       else file_row t p') /\
    present t' = present t /\ xgfid t' = xgfid t /\ xname t' = xname t /\
    xdata t' = xdata t /\
    xfile t' = xfile t ++
      [{| f_fid := i; f_gid := gid; f_path := p; f_name := sql_substr p2 q |}].
Proof.
  unfold sql_insert_file. destruct (find_gid t (Some g)) as [gid|]; [|done].
  cbn [mbind option_bind]. case_decide as Hp; [done|].
  destruct (next_rowid _) as [i|] eqn:Hi; [|done]. cbn [mbind option_bind]. intros [= <-].
  exists gid, i. split_and!; try done. simpl.
  intros p'. unfold file_row. simpl. rewrite head_filter_snoc. simpl.
  case_decide as Hp'; subst.
  - rewrite (proj2 (head_filter_None _ _)); [done|].
    intros x Hx <-. apply Hp. by apply list_elem_of_fmap_2.
  - by destruct (head _).
Qed.

Lemma find_gid_by_gid t g gid :
  uniq_tables t -> find_gid t (Some g) = Some gid -> by_gid t gid = Some g.
Proof.
  intros Hu. unfold find_gid, by_gid. cbn [mbind option_bind].
  destruct (head (filter (fun r => g_gfid r = g) _)) as [r|] eqn:E; [|done].
  apply head_filter_Some in E as [Hr Hg]. cbn. intros [= <-].
  rewrite (head_filter_key g_gid _ r); [by simpl; rewrite Hg|by apply uniq_gid|done].
Qed.

Lemma find_gid_elem t g gid :
  find_gid t (Some g) = Some gid -> gid ∈ (g_gid <$> xgfid t) /\ g ∈ (g_gfid <$> xgfid t).
Proof.
  unfold find_gid. cbn [mbind option_bind].
  destruct (head _) as [r|] eqn:E; [|done]. apply head_filter_Some in E as [Hr <-].
  cbn. intros [= <-]. split; by apply list_elem_of_fmap_2.
Qed.

Lemma find_gid_inj t g g' gid :
  uniq_tables t -> find_gid t (Some g) = Some gid -> find_gid t (Some g') = Some gid -> g = g'.
Proof.
  intros Hu H1%find_gid_by_gid H2%find_gid_by_gid; [congruence|done..].
Qed.

Lemma file_row_elem t p r : file_row t p = Some r -> r ∈ xfile t /\ f_path r = p.
Proof. apply (head_filter_Some (fun r => f_path r = p)). Qed.

Lemma file_row_None t p : ~ p ∈ (f_path <$> xfile t) <-> file_row t p = None.
Proof.
  unfold file_row. rewrite head_filter_None. split.
  - intros Hp x Hx <-. apply Hp. by apply list_elem_of_fmap_2.
  - intros Hall (r & -> & Hr)%list_elem_of_fmap. by eapply Hall.
Qed.

Lemma data_row_snoc l r g n :
  data_row (l ++ [r]) g n =
  match data_row l g n with
  | Some y => Some y
  | None => if decide ((x_gid r, x_nid r) = (g, n)) then Some r else None
  end.
Proof. unfold data_row. by rewrite head_filter_snoc. Qed.

Lemma data_row_None l g n :
  ~ (g, n) ∈ ((fun r => (x_gid r, x_nid r)) <$> l) <-> data_row l g n = None.
Proof.
  unfold data_row. rewrite head_filter_None. split.
  - intros Hp x Hx Heq. apply Hp. rewrite <- Heq.
    by apply (list_elem_of_fmap_2 (fun r => (x_gid r, x_nid r))).
  - intros Hall (r & Heq & Hr)%list_elem_of_fmap. by eapply Hall.
Qed.

Lemma stat_rows_lookups g vs k l l' :
  sql_insert_stat_rows k (map (fun v => (Some g, Some v)) vs) l = Some l' ->
  (forall j v, vs !! j = Some v ->
     row_values <$> data_row l' g (k + Z.of_nat j) = Some (Some v, None, None)) /\
  (forall g' n', (g' <> g \/ n' < k \/ k + Z.of_nat (length vs) <= n') ->
     data_row l' g' n' = data_row l g' n') /\
  (forall r, r ∈ l' -> r ∈ l \/ x_gid r = g).
Proof.
  revert k l. induction vs as [|v vs IH]; intros k l H; cbn [map sql_insert_stat_rows] in H.
  { simplify_eq. split_and!; [done|done|by left]. }
  destruct (sql_insert_xdata_row _ _ _ _ _ _) as [l1|] eqn:E; [|done]. cbn [mbind option_bind] in H.
  apply xdata_row_inv in E as (g0&n0&i&[= <-]&[= <-]&_&Hf&->).
  apply data_row_None in Hf. destruct (IH _ _ H) as (IH1&IH2&IH3). split_and!.
  - intros [|j] w Hj; simpl in Hj.
    + simplify_eq. rewrite Z.add_0_r, IH2 by lia. rewrite data_row_snoc, Hf. simpl.
      by rewrite decide_True.
    + rewrite <- (IH1 j w Hj). do 2 f_equal. lia.
  - intros g' n' Hg. simpl in Hg. rewrite IH2 by lia. rewrite data_row_snoc. simpl.
    destruct (data_row l g' n'); [done|]. rewrite decide_False; [done|].
    intros [=]. lia.
  - intros r Hr. destruct (IH3 r Hr) as [Hr'|]; [|by right].
    apply elem_of_app in Hr' as [|Hr'%list_elem_of_singleton]; [by left|].
    subst. by right.
Qed.

Lemma next_rowid_snoc ids i :
  next_rowid ids = Some i -> foldr Z.max 0 (ids ++ [i]) = foldr Z.max 0 ids + 1.
Proof.
  unfold next_rowid. case_match; [|done]. intros [= <-]. clear.
  rewrite foldr_app. simpl.
  assert (forall d l, 0 <= d -> foldr Z.max 0 l <= d -> foldr Z.max d l = d) as Haux.
  { intros d l Hd. induction l as [|y l IH]; simpl; [done|]. intros. rewrite IH; lia. }
  assert (0 <= foldr Z.max 0 ids) by (clear; induction ids; simpl; lia).
  rewrite Z.max_l by lia. apply Haux; lia.
Qed.

Lemma stat_rows_defined g vs k l :
  (forall n, k <= n < k + Z.of_nat (length vs) -> data_row l g n = None) ->
  foldr Z.max 0 (x_xid <$> l) + Z.of_nat (length vs) < 2 ^ 63 ->
  is_Some (sql_insert_stat_rows k (map (fun v => (Some g, Some v)) vs) l).
Proof.
  revert k l. induction vs as [|v vs IH]; intros k l Hf Hr; simpl; [by eauto|].
  simpl in Hf, Hr. unfold sql_insert_xdata_row. cbn [mbind option_bind].
  rewrite decide_False by (apply data_row_None, Hf; lia).
  destruct (next_rowid (x_xid <$> l)) as [i|] eqn:Hi.
  2: { unfold next_rowid in Hi. case_match; [done|]. lia. }
  cbn [mbind option_bind]. apply IH.
  - intros n Hn. rewrite data_row_snoc, (Hf n) by lia. simpl.
    rewrite decide_False; [done|]. intros [=]. lia.
  - rewrite fmap_app. simpl. rewrite (next_rowid_snoc _ _ Hi). lia.
Qed.

Lemma unlink_lookups t p p' :
  file_row (sql_unlink_file (Some p) t) p' = if decide (p = p') then None else file_row t p'.
Proof.
  unfold file_row, sql_unlink_file. simpl. case_decide; subst.
  - apply head_filter_none. naive_solver.
  - rewrite list_filter_filter_l; [done|]. naive_solver.
Qed.

(** A rename of an indexed path moves its row; of another path, nothing. *)

Lemma rename_lookups t t' n n2 q o :
  uniq_tables t ->
  sql_rename (Some n) (Some n2) (Some q) (Some o) t = Some t' ->
  (file_row t o = None -> t' = t) /\
  (forall r, file_row t o = Some r ->
     (n = o \/ file_row t n = None) /\
     (forall p', file_row t' p' =
        if decide (n = p') then Some (set_path n (sql_substr n2 q) r)
        else if decide (o = p') then None else file_row t p')) /\
  present t' = present t /\ xgfid t' = xgfid t /\ xname t' = xname t /\ xdata t' = xdata t /\
  (forall r, r ∈ xfile t' -> exists r0, r0 ∈ xfile t /\ f_gid r = f_gid r0).
Proof.
  intros Hu. unfold sql_rename. case_decide as He.
  2: { intros [= <-]. split_and!; try done; [|eauto].
       intros r [Hr Hp]%file_row_elem. destruct He. apply Exists_exists. exists r.
       split; [done|]. by rewrite Hp. }
  cbn [mbind option_bind]. case_decide as Hn; [done|]. intros [= <-].
  split_and!; try done.
  - intros Hnone%file_row_None. destruct Hnone.
    apply Exists_exists in He as (r & Hr & [= Hp]). rewrite <- Hp.
    by apply list_elem_of_fmap_2.
  - intros r Hr. apply file_row_elem in Hr as Hr'. destruct Hr' as [Hin Hpath].
    assert (n = o \/ file_row t n = None) as Hno.
    { destruct (decide (n = o)) as [|Hne]; [by left|right]. apply file_row_None.
      intros (r' & -> & Hr')%list_elem_of_fmap. apply Hn.
      apply (list_elem_of_fmap_2 f_path). apply list_elem_of_filter. naive_solver. }
    split; [done|]. intros p'. unfold file_row at 1, with_xfile. simpl.
    destruct (decide (n = p')) as [<-|Hnp].
    + rewrite (head_filter_fmap _ _ (fun r => f_path r = o)).
      * fold (file_row t o). rewrite Hr. simpl. by rewrite decide_True by congruence.
      * intros x Hx. destruct (decide (Some (f_path x) = Some o)) as [[= E]|E]; simpl; [done|].
        split; [|intros; congruence]. intros Hxn. destruct Hno as [->|Hno]; [congruence|].
        apply file_row_None in Hno. destruct Hno. rewrite <- Hxn.
        by apply list_elem_of_fmap_2.
    + destruct (decide (o = p')) as [<-|Hop].
      * apply head_filter_None. intros x (x0 & -> & Hx0)%list_elem_of_fmap.
        case_decide as E; simpl; congruence.
      * rewrite (head_filter_fmap _ _ (fun r => f_path r = p')).
        -- fold (file_row t p'). destruct (file_row t p') as [r'|] eqn:Er'; [|done].
           apply file_row_elem in Er' as [_ Er']. simpl.
           rewrite decide_False; [done|]. congruence.
        -- intros x Hx. case_decide as E; simpl; split; congruence.
  - intros r (r0 & -> & Hr0)%list_elem_of_fmap. exists r0. split; [done|]. by case_decide.
Qed.
