(* ===== verification/Xdb.v ===== *)
(** * The TagIt index database

    imess-server-xdb.c and imess-server-xdb.h: every operation on the index
    that the server translator performs, over the SQLite interface of
    [Sqlite]. The state [ims_xdb] is [struct _ims_xdb] (its result-set
    dictionary is modelled with the IPC requests that use it). *)

From Stdlib Require Import ZArith Lia Bool Ascii String.
From stdpp Require Import base list strings.
From S2P Require Import Prelude Sqlite SqlFacts.

(** ** Data *)

Definition IMS_XDB_TYPE_NONE : Z := 0.
Definition IMS_XDB_TYPE_INTEGER : Z := 1.
Definition IMS_XDB_TYPE_REAL : Z := 2.
Definition IMS_XDB_TYPE_STRING : Z := 3.

Definition IMS_XDB_STAT_OP_ALL : Z := 0.
Definition IMS_XDB_STAT_OP_WRITE : Z := 1.
Definition IMS_XDB_STAT_OP_OWNER : Z := 2.
Definition N_IMS_XDB_STAT_OPS : Z := 3.

Definition IMS_XDB_ST_DEV : Z := 1.
Definition IMS_XDB_ST_INO : Z := 2.
Definition IMS_XDB_ST_MODE : Z := 3.
Definition IMS_XDB_ST_NLINK : Z := 4.
Definition IMS_XDB_ST_UID : Z := 5.
Definition IMS_XDB_ST_GID : Z := 6.
Definition IMS_XDB_ST_RDEV : Z := 7.
Definition IMS_XDB_ST_SIZE : Z := 8.
Definition IMS_XDB_ST_BLKSIZE : Z := 9.
Definition IMS_XDB_ST_BLOCKS : Z := 10.
Definition IMS_XDB_ST_ATIME : Z := 11.
Definition IMS_XDB_ST_MTIME : Z := 12.
Definition IMS_XDB_ST_CTIME : Z := 13.

Definition XDB_MODE_SYNC : Z := 0.
Definition XDB_MODE_ASYNC : Z := 1.

Definition EINVAL : Z := 22.

(** The fields of [struct stat] that are indexed. *)

Record stat := {
  st_dev : Z; st_ino : Z; st_mode : Z; st_nlink : Z; st_uid : Z; st_gid : Z;
  st_rdev : Z; st_size : Z; st_blksize : Z; st_blocks : Z;
  st_atime : Z; st_mtime : Z; st_ctime : Z
}.

Record ims_xdb_file := {
  xf_gfid : option string; xf_path : option string; xf_extra : option string
}.

Record ims_xdb_attr := {
  xa_gfid : option string; xa_type : Z; xa_name : option string;
  xa_ival : Z; xa_rval : Z; xa_sval : option string
}.

Record ims_xdb (conn : Type) := { xconn : conn; db_ret : Z; xmode : Z }.
Arguments xconn {conn}.
Arguments db_ret {conn}.
Arguments xmode {conn}.
Arguments Build_ims_xdb {conn}.

(** ** File names in the index *)

Definition slash : ascii := "/"%char.

(** The SQL position of the last path component: [rindex] gives a null
    pointer when there is no slash, and the difference is then meaningless. *)

Definition name_substr_pos (path : string) : option Z :=
  match rindex slash path with
  | Some i => Some (i32 (Z.of_nat i + 2))
  | None => None
  end.

Definition name_substr (path : string) : option string :=
  match rindex slash path with
  | Some i => Some (str_drop (i + 1) path)
  | None => None
  end.

Section ops.
Context {conn : Type} `{!SqlEngine conn}.

Abbreviation X A := (M (ims_xdb conn) A).

(** ** Calls into SQLite *)

Definition on_conn {A} (f : conn -> A * conn) : X A :=
  fun x => let '(a, c) := f (xconn x) in
           Some (a, {| xconn := c; db_ret := db_ret x; xmode := xmode x |}).

Definition set_db_ret (r : Z) : X unit :=
  m_modify (fun x => {| xconn := xconn x; db_ret := r; xmode := xmode x |}).

(** A bind that fails leaves its parameter null. *)

Definition bind {A} (v : option A) : X (Z * option A) :=
  r <~ on_conn sqlite3_bind;;
  m_ret (r, if r =? SQLITE_OK then v else None).

(** [do { db_ret = sqlite3_step (stmt); } while (db_ret == SQLITE_BUSY);] *)

Fixpoint step_loop (fuel : nat) (s : sql_stmt) (c : conn) : (Z * Z) * conn :=
  let '((r, v), c') := sqlite3_step s c in
  if r =? SQLITE_BUSY then
    match fuel with O => ((r, v), c') | S n => step_loop n s c' end
  else ((r, v), c').

Definition step (s : sql_stmt) : X (Z * Z) :=
  on_conn (fun c => step_loop (patience c) s c).

Definition ims_xdb_exec_simple_sql (s : sql_script) : X Z :=
  ret <~ on_conn (sqlite3_exec s);;
  if ret =? SQLITE_OK then m_ret 0
  else set_db_ret ret;;; m_ret (-1).

Definition ims_xdb_tx_begin : X Z := ims_xdb_exec_simple_sql BEGIN_TX.
Definition ims_xdb_tx_commit : X Z := ims_xdb_exec_simple_sql END_TX.
Definition ims_xdb_tx_rollback : X Z := ims_xdb_exec_simple_sql ROLLBACK_TX.

(** The end of most operations: [out: self->db_ret = db_ret; return ret;]
    (releasing the statement changes nothing that is modelled). *)

Definition out (ret dbret : Z) : X Z := set_db_ret dbret;;; m_ret ret.

(** The common tail: run the statement and report. *)

Definition finish (s : sql_stmt) : X Z :=
  rv <~ step s;;
  out (if rv.1 =? SQLITE_DONE then 0 else -1) rv.1.

(** ** Initialisation *)

Definition db_initialize : X Z :=
  x <~ m_get;;
  r <~ (if xmode x =? XDB_MODE_ASYNC
        then ims_xdb_exec_simple_sql PRAGMA_SYNC else m_ret 0);;
  if negb (r =? 0) then out (-1) r else
  db_ret <~ on_conn (sqlite3_prepare_v2 TABLE_EXISTS);;
  if negb (db_ret =? SQLITE_OK) then out (-1) db_ret else
  rv <~ on_conn (sqlite3_step TableExists);;
  if negb (rv.1 =? SQLITE_ROW) then out (-1) rv.1 else
  if negb (i32 rv.2 =? 4) then
    r <~ ims_xdb_exec_simple_sql SCHEMA;;
    out (if r =? 0 then 0 else -1) r
  else out 0 rv.1.

(** ** File-index operations *)

Definition get_gid (file : ims_xdb_file) : X (Z * Z) :=
  r <~ on_conn (sqlite3_prepare_v2 GET_GID);;
  if negb (r =? SQLITE_OK) then set_db_ret r;;; m_ret (-1, 0) else
  b <~ bind (xf_gfid file);;
  if negb (b.1 =? SQLITE_OK) then set_db_ret b.1;;; m_ret (-1, 0) else
  rv <~ step (GetGid b.2);;
  set_db_ret rv.1;;;
  m_ret (if rv.1 =? SQLITE_ROW then (0, u64 (i32 rv.2)) else (-1, 0)).

(** Only this operation leaves its own [ret] in [self->db_ret]. *)

Definition ims_xdb_insert_gfid (file : ims_xdb_file) : X Z :=
  r <~ on_conn (sqlite3_prepare_v2 INSERT_GFID);;
  if negb (r =? SQLITE_OK) then out (-1) (-1) else
  b <~ bind (xf_gfid file);;
  if negb (b.1 =? SQLITE_OK) then out (-1) (-1) else
  rv <~ step (InsertGfid b.2);;
  let ret := if rv.1 =? SQLITE_DONE then 0 else -1 in
  out ret ret.

(** The fourth bind overwrites the results of the first three. *)

Definition ims_xdb_insert_file (file : ims_xdb_file) : X Z :=
  r <~ on_conn (sqlite3_prepare_v2 INSERT_FILE);;
  if negb (r =? SQLITE_OK) then out (-1) r else
  b1 <~ bind (xf_gfid file);;
  b2 <~ bind (xf_path file);;
  b3 <~ bind (xf_path file);;
  path <~ m_deref (xf_path file);;
  pos <~ m_deref (name_substr_pos path);;
  b4 <~ bind (Some pos);;
  if negb (b4.1 =? SQLITE_OK) then out (-1) b4.1 else
  finish (InsertFile b1.2 b2.2 b3.2 b4.2).

Definition ims_xdb_remove_file (file : ims_xdb_file) : X Z :=
  if decide (xf_gfid file = None) then out (-1) 0 else
  r <~ on_conn (sqlite3_prepare_v2 REMOVE_FILE);;
  if negb (r =? SQLITE_OK) then out (-1) r else
  b <~ bind (xf_gfid file);;
  if negb (b.1 =? SQLITE_OK) then out (-1) b.1 else
  finish (RemoveFile b.2).

Definition ims_xdb_link_file (file : ims_xdb_file) : X Z :=
  match xf_path file with
  | None => out (-1) 0
  | Some path =>
  if decide (xf_gfid file = None) then out (-1) 0 else
  r <~ on_conn (sqlite3_prepare_v2 LINK_FILE);;
  if negb (r =? SQLITE_OK) then out (-1) r else
  b1 <~ bind (xf_gfid file);;
  b2 <~ bind (xf_path file);;
  b3 <~ bind (xf_path file);;
  pos <~ m_deref (name_substr_pos path);;
  b4 <~ bind (Some pos);;
  let db_ret := Z.lor (Z.lor (Z.lor b1.1 b2.1) b3.1) b4.1 in
  if negb (db_ret =? SQLITE_OK) then out (-1) db_ret else
  finish (LinkFile b1.2 b2.2 b3.2 b4.2)
  end.

Definition ims_xdb_unlink_file (file : ims_xdb_file) : X Z :=
  if decide (xf_path file = None) then out (-1) 0 else
  r <~ on_conn (sqlite3_prepare_v2 UNLINK_FILE);;
  if negb (r =? SQLITE_OK) then out (-1) r else
  b <~ bind (xf_path file);;
  if negb (b.1 =? SQLITE_OK) then out (-1) b.1 else
  finish (UnlinkFile b.2).

Definition ims_xdb_rename (file : ims_xdb_file) : X Z :=
  match xf_path file, xf_extra file with
  | Some old_path, Some new_path =>
  r <~ on_conn (sqlite3_prepare_v2 RENAME);;
  if negb (r =? SQLITE_OK) then out (-1) r else
  b1 <~ bind (Some new_path);;
  b2 <~ bind (Some new_path);;
  pos <~ m_deref (name_substr_pos new_path);;
  b3 <~ bind (Some pos);;
  b4 <~ bind (Some old_path);;
  let db_ret := Z.lor (Z.lor (Z.lor b1.1 b2.1) b3.1) b4.1 in
  if negb (db_ret =? 0) then out (-1) db_ret else
  finish (Rename b1.2 b2.2 b3.2 b4.2)
  | _, _ => out (-1) 0
  end.

(** ** Attributes *)

(** Binds one pair of parameters of the statement; the value is the result of
    [bind_sattr] and the two bound values. *)

Definition bind_sattr (fid ival : Z) : X (Z * (option Z * option Z)) :=
  b1 <~ bind (Some (i64 fid));;
  b2 <~ bind (Some (i64 ival));;
  m_ret (if Z.lor b1.1 b2.1 =? SQLITE_OK then 0 else - EINVAL, (b1.2, b2.2)).

Fixpoint bind_sattrs (fid : Z) (ivals : list Z) (acc : list (option Z * option Z))
    : X (Z * list (option Z * option Z)) :=
  match ivals with
  | [] => m_ret (0, acc)
  | v :: vs =>
      b <~ bind_sattr fid v;;
      if negb (b.1 =? 0) then m_ret (b.1, acc) else
      bind_sattrs fid vs (acc ++ [b.2])
  end.

Definition stat_values (sb : stat) : list Z :=
  [st_dev sb; st_ino sb; st_mode sb; st_nlink sb; st_uid sb; st_gid sb;
   st_rdev sb; st_size sb; st_blksize sb; st_blocks sb; st_atime sb;
   st_mtime sb; st_ctime sb].

Definition bind_stat (fid : Z) (sb : stat) : X (Z * list (option Z * option Z)) :=
  bind_sattrs fid (map u64 (stat_values sb)) [].

Definition ims_xdb_insert_stat (file : ims_xdb_file) (sb : stat) : X Z :=
  r <~ on_conn (sqlite3_prepare_v2 INSERT_STAT);;
  if negb (r =? SQLITE_OK) then out (-1) r else
  g <~ get_gid file;;
  if negb (g.1 =? 0) then out g.1 r else
  b <~ bind_stat g.2 sb;;
  if negb (b.1 =? 0) then out b.1 r else
  finish (InsertStat b.2).

Definition ims_xdb_insert_new_file (file : ims_xdb_file) (sb : stat) : X Z :=
  ims_xdb_tx_begin;;;
  ret <~ (ret <~ ims_xdb_insert_gfid file;;
          if negb (ret =? 0) then m_ret ret else
          ret <~ ims_xdb_insert_file file;;
          if negb (ret =? 0) then m_ret ret else
          ims_xdb_insert_stat file sb);;
  (if negb (ret =? 0) then ims_xdb_tx_rollback else ims_xdb_tx_commit);;;
  m_ret ret.

Definition __update_xdata (gid nid ival : Z) : X Z :=
  b1 <~ bind (Some (i64 ival));;
  b2 <~ bind (Some (i32 gid));;
  b3 <~ bind (Some nid);;
  let db_ret := Z.lor (Z.lor b1.1 b2.1) b3.1 in
  if negb (db_ret =? 0) then m_ret db_ret else
  rv <~ step (UpdateStat b1.2 b2.2 b3.2);;
  m_ret rv.1.

(** The [update_xdata] calls of one operation, in order: the first that is not
    [SQLITE_DONE] rolls the transaction back and ends the operation. *)

Fixpoint update_xdatas (gid : Z) (l : list (Z * Z)) : X (Z * Z) :=
  match l with
  | [] => m_ret (0, SQLITE_DONE)
  | (nid, ival) :: l' =>
      r <~ __update_xdata gid nid (u64 ival);;
      if r =? SQLITE_DONE then update_xdatas gid l' else
      set_db_ret r;;; ims_xdb_tx_rollback;;; m_ret (-1, r)
  end.

Definition stat_updates (stat_op : Z) (sb : stat) : list (Z * Z) :=
  (if stat_op =? IMS_XDB_STAT_OP_ALL then
     [(IMS_XDB_ST_DEV, st_dev sb); (IMS_XDB_ST_INO, st_ino sb);
      (IMS_XDB_ST_MODE, st_mode sb); (IMS_XDB_ST_NLINK, st_nlink sb);
      (IMS_XDB_ST_RDEV, st_rdev sb); (IMS_XDB_ST_BLKSIZE, st_blksize sb);
      (IMS_XDB_ST_CTIME, st_ctime sb)] else []) ++
  (if (stat_op =? IMS_XDB_STAT_OP_ALL) || (stat_op =? IMS_XDB_STAT_OP_OWNER) then
     [(IMS_XDB_ST_UID, st_uid sb); (IMS_XDB_ST_GID, st_gid sb)] else []) ++
  (if (stat_op =? IMS_XDB_STAT_OP_ALL) || (stat_op =? IMS_XDB_STAT_OP_WRITE) then
     [(IMS_XDB_ST_SIZE, st_size sb); (IMS_XDB_ST_BLOCKS, st_blocks sb);
      (IMS_XDB_ST_ATIME, st_atime sb); (IMS_XDB_ST_MTIME, st_mtime sb)] else []).

Definition ims_xdb_update_stat (file : ims_xdb_file) (sb : stat) (stat_op : Z) : X Z :=
  if decide (xf_gfid file = None) then out (-1) 0 else
  let stat_op := if (stat_op <? 0) || (N_IMS_XDB_STAT_OPS <=? stat_op)
                 then IMS_XDB_STAT_OP_ALL else stat_op in
  g <~ get_gid file;;
  if negb (g.1 =? 0) then m_ret (-1) else
  r <~ on_conn (sqlite3_prepare_v2 UPDATE_STAT);;
  if negb (r =? SQLITE_OK) then out (-1) r else
  ims_xdb_tx_begin;;;
  u <~ update_xdatas g.2 (stat_updates stat_op sb);;
  if negb (u.1 =? 0) then out (-1) u.2 else
  ims_xdb_tx_commit;;;
  out 0 u.2.

Definition ims_xdb_setxattr (xattr : ims_xdb_attr) : X Z :=
  let fail r := ims_xdb_tx_rollback;;; out (-1) r in
  match xa_gfid xattr, xa_name xattr with
  | Some gfid, Some name =>
  let ty := xa_type xattr in
  if negb (ty =? IMS_XDB_TYPE_INTEGER) && negb (ty =? IMS_XDB_TYPE_REAL)
     && negb (ty =? IMS_XDB_TYPE_STRING) then m_ret (-1) else
  ims_xdb_tx_begin;;;
  r <~ on_conn (sqlite3_prepare_v2 INSERT_XNAME);;
  if negb (r =? SQLITE_OK) then fail r else
  b <~ bind (Some name);;
  if negb (b.1 =? 0) then fail b.1 else
  rv <~ step (InsertXname b.2);;
  if negb (rv.1 =? SQLITE_DONE) then fail rv.1 else
  r <~ on_conn (sqlite3_prepare_v2 INSERT_XDATA);;
  if negb (r =? SQLITE_OK) then fail r else
  b1 <~ bind (Some gfid);;
  b2 <~ bind (Some name);;
  b3 <~ bind (if ty =? IMS_XDB_TYPE_INTEGER then Some (i64 (xa_ival xattr)) else None);;
  b4 <~ bind (if ty =? IMS_XDB_TYPE_REAL then Some (xa_rval xattr) else None);;
  b5 <~ bind (if ty =? IMS_XDB_TYPE_STRING then xa_sval xattr else None);;
  let db_ret := Z.lor (Z.lor (Z.lor (Z.lor b1.1 b2.1) b3.1) b4.1) b5.1 in
  if negb (db_ret =? 0) then fail db_ret else
  rv <~ step (InsertXdata b1.2 b2.2 b3.2 b4.2 b5.2);;
  let ret := if rv.1 =? SQLITE_DONE then 0 else -1 in
  (if negb (ret =? 0) then ims_xdb_tx_rollback else ims_xdb_tx_commit);;;
  out ret rv.1
  | _, _ => fail 0
  end.

End ops.

(** ** What the calls do to the database *)

Section calls.
Context {conn : Type} `{!SqlEngine conn, !SqlLaws conn}.
Implicit Types (x : ims_xdb conn) (s : sql_stmt) (t : tables).

(** What a connection shows of the database: the tables, and those that a
    rollback would bring back. *)

Definition view x : tables * option tables := (cur (xconn x), saved (xconn x)).

(** After a failed statement: nothing changed, or the transaction is gone. *)

Definition aborted (v v' : tables * option tables) : Prop :=
  v' = v \/ (v.2 = Some v'.1 /\ v'.2 = None).

(** The outcome of an operation that runs one statement. *)

Definition stmt_post s (v v' : tables * option tables) (r : Z) : Prop :=
  (r = 0 /\ sql_apply s v.1 = Some v'.1 /\ v'.2 = v.2) \/ (r <> 0 /\ aborted v v').

Lemma aborted_refl v : aborted v v.
Proof. by left. Qed.

Lemma step_loop_spec fuel s c r v c' :
  step_loop fuel s c = ((r, v), c') -> (patience c <= fuel)%nat ->
  (r = SQLITE_DONE /\ sql_select s (cur c) = None /\
     sql_apply s (cur c) = Some (cur c') /\ saved c' = saved c) \/
  (r = SQLITE_ROW /\ sql_select s (cur c) = Some v /\
     cur c' = cur c /\ saved c' = saved c) \/
  (r <> SQLITE_DONE /\ r <> SQLITE_ROW /\ r <> SQLITE_BUSY /\
     aborted (cur c, saved c) (cur c', saved c')).
Proof.
  revert c. induction fuel as [|n IH]; intros c; simpl;
    destruct (sqlite3_step s c) as [[r1 v1] c1] eqn:E;
    destruct (Z.eqb_spec r1 SQLITE_BUSY) as [->|Hb]; intros Hrun Hf.
  1: { apply step_busy in E as (_&_&?). lia. }
  2: { apply step_busy in E as (Hc&Hs&?). apply IH in Hrun; [|lia].
       by rewrite Hc, Hs in Hrun. }
  all: simplify_eq.
  all: destruct (decide (r = SQLITE_DONE)) as [->|Hd];
    [left; apply step_done in E as (?&?&?); auto|].
  all: destruct (decide (r = SQLITE_ROW)) as [->|Hr];
    [right; left; apply step_row in E as (?&?&?); auto|].
  all: right; right; split_and!; try done.
  all: apply step_fail in E as [[-> ->]|[? ?]]; [by left|by right|done|done].
Qed.

Lemma wp_step s (Q : Z * Z -> ims_xdb conn -> Prop) x :
  (forall v x', sql_select s (view x).1 = None ->
     sql_apply s (view x).1 = Some (view x').1 -> (view x').2 = (view x).2 ->
     Q (SQLITE_DONE, v) x') ->
  (forall v x', sql_select s (view x).1 = Some v -> view x' = view x ->
     Q (SQLITE_ROW, v) x') ->
  (forall r v x', r <> SQLITE_DONE -> r <> SQLITE_ROW -> aborted (view x) (view x') ->
     Q (r, v) x') ->
  wp (step s) Q x.
Proof.
  intros H1 H2 H3. unfold step, on_conn, wp.
  destruct (step_loop _ _ _) as [[r v] c] eqn:E.
  apply step_loop_spec in E as [(->&?&?&?)|[(->&?&Hc&Hs)|(?&?&_&?)]]; [..|done].
  - by apply H1.
  - apply H2; [done|]. unfold view; simpl. by rewrite Hc, Hs.
  - by apply H3.
Qed.

Lemma wp_prepare i (Q : Z -> ims_xdb conn -> Prop) x :
  (forall r x', view x' = view x -> Q r x') -> wp (on_conn (sqlite3_prepare_v2 i)) Q x.
Proof.
  intros H. unfold on_conn, wp. destruct (sqlite3_prepare_v2 i _) as [r c] eqn:E.
  apply prepare_cur in E as [Hc Hs]. apply H. unfold view; simpl. by rewrite Hc, Hs.
Qed.

Lemma wp_bindp {A} (v : option A) Q x :
  (forall r x', 0 <= r < 2 ^ 5 -> view x' = view x ->
     Q (r, if r =? SQLITE_OK then v else None) x') ->
  wp (bind v) Q x.
Proof.
  intros H. unfold bind. apply wp_bind. unfold on_conn, wp.
  destruct (sqlite3_bind _) as [r c] eqn:E. apply bind_code in E as Hb.
  apply bind_cur in E as [Hc Hs].
  simpl. apply H; [done|]. unfold view; simpl. by rewrite Hc, Hs.
Qed.

Lemma wp_set_db_ret r Q x :
  (forall x', view x' = view x -> Q tt x') -> wp (set_db_ret r) Q x.
Proof. intros H. apply wp_modify. by apply H. Qed.

Lemma wp_out r d Q x : (forall x', view x' = view x -> Q r x') -> wp (out r d) Q x.
Proof. intros H. apply wp_bind, wp_set_db_ret. intros. by apply wp_ret, H. Qed.

Lemma wp_finish s Q x :
  sql_select s (view x).1 = None ->
  (forall r x', stmt_post s (view x) (view x') r -> Q r x') -> wp (finish s) Q x.
Proof.
  intros Hs H. apply wp_bind, wp_step; [|congruence|].
  - intros v x1 _ Ha Hsv. apply wp_out. intros x2 Hv. apply H. left. rewrite Hv. auto.
  - intros r v x1 Hr _ Hab. simpl. rewrite (proj2 (Z.eqb_neq _ _) Hr).
    apply wp_out. intros x2 Hv. apply H. right. rewrite Hv. auto.
Qed.

Lemma wp_exec (s : sql_script) Q x :
  s <> SCHEMA ->
  (forall c', sqlite3_exec s (xconn x) = (SQLITE_OK, c') ->
     forall x', xconn x' = c' -> Q 0 x') ->
  (forall x', (sqlite3_exec s (xconn x)).1 <> SQLITE_OK -> view x' = view x -> Q (-1) x') ->
  wp (ims_xdb_exec_simple_sql s) Q x.
Proof.
  intros Hn H1 H2. apply wp_bind. unfold on_conn at 1, wp at 1.
  destruct (sqlite3_exec s (xconn x)) as [r c] eqn:E.
  destruct (Z.eqb_spec r SQLITE_OK) as [->|Hr].
  - apply wp_ret. by eapply H1.
  - apply wp_bind, wp_set_db_ret. intros x' Hv. apply wp_ret, H2; [done|].
    rewrite Hv. unfold view; simpl. by destruct (exec_fail _ _ _ _ E Hr Hn) as [-> ->].
Qed.

End calls.

#[global] Arguments view : simpl never.

(** Runs through an operation up to the next [if] or end. *)

Ltac wp_go :=
  repeat match goal with
  | |- wp (m_bind _ _) _ _ => apply wp_bind
  | |- wp (m_ret _) _ _ => apply wp_ret
  | |- wp m_get _ _ => apply wp_get
  | |- wp (on_conn (sqlite3_prepare_v2 _)) _ _ =>
      let r := fresh "r" in let x := fresh "x" in let H := fresh "Hv" in
      apply wp_prepare; intros r x H
  | |- wp (bind _) _ _ =>
      let r := fresh "r" in let x := fresh "x" in
      let H := fresh "Hv" in let Hb := fresh "Hbnd" in
      apply wp_bindp; intros r x Hb H
  | |- wp (set_db_ret _) _ _ =>
      let x := fresh "x" in let H := fresh "Hv" in apply wp_set_db_ret; intros x H
  | |- wp (out _ _) _ _ =>
      let x := fresh "x" in let H := fresh "Hv" in apply wp_out; intros x H
  | |- wp (if negb (?a =? ?b) then _ else _) _ _ =>
      let H := fresh "E" in destruct (Z.eqb_spec a b) as [H|H]; cbn [negb]
  | |- wp (if decide ?P then _ else _) _ _ =>
      let H := fresh "E" in destruct (decide P) as [H|H]
  end; cbn [fst snd] in *.

(** ** Outcomes of the operations *)

Section outcomes.
Context {conn : Type} `{!SqlEngine conn, !SqlLaws conn}.
Implicit Types (x : ims_xdb conn) (f : ims_xdb_file) (t : tables).

Lemma stmt_post_fail s v v' r : r <> 0 -> v' = v -> stmt_post s v v' r.
Proof. intros ? ->. right. split; [done|apply aborted_refl]. Qed.

Ltac wp_failed := try (apply stmt_post_fail; congruence).

Lemma insert_gfid_outcome f x :
  wp (ims_xdb_insert_gfid f)
     (fun r x' => stmt_post (InsertGfid (xf_gfid f)) (view x) (view x') r) x.
Proof.
  unfold ims_xdb_insert_gfid. wp_go; wp_failed.
  rewrite E0. apply wp_step; [|discriminate|]; cbn [fst snd]; cbv zeta.
  - intros v x3 _ Ha Hs. wp_go. left. rewrite Hv1, <- Hv, <- Hv0. auto.
  - intros r1 v x3 Hr _ Hab. rewrite (proj2 (Z.eqb_neq _ _) Hr). wp_go.
    right. rewrite Hv1, <- Hv, <- Hv0. auto.
Qed.

Lemma insert_file_outcome f p q x :
  xf_path f = Some p -> name_substr_pos p = Some q ->
  wp (ims_xdb_insert_file f)
     (fun r x' => stmt_post (InsertFile (xf_gfid f) (Some p) (Some p) (Some q))
                    (view x) (view x') r) x.
Proof.
  intros Hp Hq. unfold ims_xdb_insert_file. rewrite Hp. wp_go; wp_failed.
  eapply wp_deref; [done|]. wp_go. eapply wp_deref; [done|]. wp_go; wp_failed.
  rewrite E0. apply wp_finish; [done|]. intros r4 x5 Hpost.
  rewrite Hv3, Hv2, Hv1, Hv0, Hv in Hpost.
  destruct Hpost as [(->&Ha&Hs)|?]; [|by right]. left. split_and!; [done| |done].
  destruct (r0 =? SQLITE_OK); [|discriminate]. cbn in Ha. unfold sql_insert_file in Ha.
  destruct (r1 =? SQLITE_OK); [|by destruct (find_gid _ _)].
  destruct (r2 =? SQLITE_OK); [done|by destruct (find_gid _ _)].
Qed.

Lemma link_file_outcome f g p q x :
  xf_gfid f = Some g -> xf_path f = Some p -> name_substr_pos p = Some q ->
  wp (ims_xdb_link_file f)
     (fun r x' => stmt_post (LinkFile (Some g) (Some p) (Some p) (Some q))
                    (view x) (view x') r) x.
Proof.
  intros Hg Hp Hq. unfold ims_xdb_link_file. rewrite Hp, Hg. wp_go; wp_failed.
  eapply wp_deref; [done|]. wp_go; wp_failed.
  apply Z.lor_eq_0_iff in E1 as [[[-> ->]%Z.lor_eq_0_iff ->]%Z.lor_eq_0_iff ->].
  apply wp_finish; [done|]. intros r4 x5. by rewrite Hv3, Hv2, Hv1, Hv0, Hv.
Qed.

Lemma unlink_file_outcome f p x :
  xf_path f = Some p ->
  wp (ims_xdb_unlink_file f)
     (fun r x' => stmt_post (UnlinkFile (Some p)) (view x) (view x') r) x.
Proof.
  intros Hp. unfold ims_xdb_unlink_file. rewrite Hp. wp_go; wp_failed.
  rewrite E1. apply wp_finish; [done|]. intros r1 x2. by rewrite Hv0, Hv.
Qed.

Lemma remove_file_outcome f g x :
  xf_gfid f = Some g ->
  wp (ims_xdb_remove_file f)
     (fun r x' => stmt_post (RemoveFile (Some g)) (view x) (view x') r) x.
Proof.
  intros Hp. unfold ims_xdb_remove_file. rewrite Hp. wp_go; wp_failed.
  rewrite E1. apply wp_finish; [done|]. intros r1 x2. by rewrite Hv0, Hv.
Qed.

Lemma rename_outcome f o n q x :
  xf_path f = Some o -> xf_extra f = Some n -> name_substr_pos n = Some q ->
  wp (ims_xdb_rename f)
     (fun r x' => stmt_post (Rename (Some n) (Some n) (Some q) (Some o))
                    (view x) (view x') r) x.
Proof.
  intros Ho Hn Hq. unfold ims_xdb_rename. rewrite Ho, Hn. wp_go; wp_failed.
  eapply wp_deref; [done|]. wp_go; wp_failed.
  apply Z.lor_eq_0_iff in E0 as [[[-> ->]%Z.lor_eq_0_iff ->]%Z.lor_eq_0_iff ->].
  apply wp_finish; [done|]. intros r4 x5. by rewrite Hv3, Hv2, Hv1, Hv0, Hv.
Qed.

(** [sqlite3_column_int] keeps 32 bits of the identifier. *)

Lemma get_gid_outcome f x :
  wp (get_gid f)
     (fun g x' =>
        (exists gid, find_gid (view x).1 (xf_gfid f) = Some gid /\
           g = (0, u64 (i32 gid)) /\ view x' = view x) \/
        (g.1 = -1 /\ aborted (view x) (view x'))) x.
Proof.
  unfold get_gid. wp_go.
  2,3: right; split; [done|left; congruence].
  rewrite E0. apply wp_step; cbn [fst snd].
  - intros v x3 _ Ha Hs. wp_go. right. split; [done|left].
    rewrite Hv1. rewrite <- Hv, <- Hv0. injection Ha as Ha.
    by apply injective_projections.
  - intros v x3 Hsel Hv2. wp_go. left. exists v.
    rewrite <- Hv, <- Hv0. split_and!; [done|done|congruence].
  - intros r1 v x3 _ Hr Hab. rewrite (proj2 (Z.eqb_neq _ _) Hr). wp_go.
    right. split; [done|]. rewrite Hv1. by rewrite <- Hv, <- Hv0.
Qed.

(** The parameters of the stat rows that are inserted for a file. *)

Definition stat_params (gid : Z) (sb : stat) : list (option Z * option Z) :=
  map (fun v => (Some (i32 gid), Some (i64 v))) (stat_values sb).

Lemma bind_sattrs_outcome fid vs acc x :
  wp (bind_sattrs fid vs acc)
     (fun b x' => view x' = view x /\
        (b.1 = 0 -> b.2 = acc ++ map (fun v => (Some (i64 fid), Some (i64 v))) vs)) x.
Proof.
  revert acc x. induction vs as [|v vs IH]; intros acc x; cbn [bind_sattrs].
  - wp_go. by rewrite app_nil_r.
  - unfold bind_sattr. wp_go.
    + destruct (Z.eqb_spec (Z.lor r r0) SQLITE_OK) as [[-> ->]%Z.lor_eq_0_iff|]; [|done].
      eapply wp_mono; [apply IH|]. cbn [fst snd]. intros b x3 [Hv1 Hb].
      split; [congruence|]. intros Hb0. rewrite (Hb Hb0). by rewrite <- app_assoc.
    + split; [congruence|done].
Qed.

Lemma insert_stat_outcome f sb x :
  wp (ims_xdb_insert_stat f sb)
     (fun r x' =>
        (r = 0 /\ exists gid, find_gid (view x).1 (xf_gfid f) = Some gid /\
           sql_insert_stat (stat_params gid sb) (view x).1 = Some (view x').1 /\
           (view x').2 = (view x).2) \/
        (r <> 0 /\ aborted (view x) (view x'))) x.
Proof.
  unfold ims_xdb_insert_stat. wp_go.
  2: { right. split; [done|left; congruence]. }
  eapply wp_mono; [apply get_gid_outcome|]. cbn [fst snd].
  intros g x1 Hg. rewrite Hv in Hg. wp_go.
  2: { right. split; [done|]. destruct Hg as [(gid&_&->&_)|[_ ?]]; [done|congruence]. }
  destruct Hg as [(gid&Hgid&->&Hx1)|[? _]]; [|lia]. cbn [fst snd] in *.
  eapply wp_mono; [apply bind_sattrs_outcome|]. intros b x2 [Hx2 Hb]. wp_go.
  2: { right. split; [done|left; congruence]. }
  apply wp_finish; [done|]. intros r' x3 Hpost. rewrite Hx2, Hx1 in Hpost.
  destruct Hpost as [(->&Ha&Hs)|?]; [left|by right]. split; [done|]. exists gid.
  split_and!; [done| |done]. rewrite <- Ha. cbn [sql_apply]. f_equal. rewrite (Hb E1).
  unfold stat_params. simpl map.
  rewrite !swrap_uwrap, !swrap_swrap by lia. done.
Qed.

(** What the insertion of a new file makes of the tables. *)

Definition new_file_tables (f : ims_xdb_file) (p : string) (q : Z) (sb : stat) (t : tables)
    : option tables :=
  t1 ← sql_insert_gfid (xf_gfid f) t;
  t2 ← sql_insert_file (xf_gfid f) (Some p) (Some p) (Some q) t1;
  gid ← find_gid t2 (xf_gfid f);
  sql_insert_stat (stat_params gid sb) t2.

End outcomes.

(** ** Transactions *)

Section transactions.
Context {conn : Type} `{!SqlEngine conn, !SqlLaws conn, !ReliableTx conn}.
Implicit Types (x : ims_xdb conn) (f : ims_xdb_file) (t : tables).

Lemma begin_outcome x :
  saved (xconn x) = None ->
  wp ims_xdb_tx_begin (fun _ x' => view x' = (cur (xconn x), Some (cur (xconn x)))) x.
Proof.
  intros Hs. apply wp_exec; [done| |].
  - intros c' E x' <-. apply begin_ok in E as (_&Hc&Hs'). unfold view. by rewrite Hc, Hs'.
  - intros x' Hn. destruct Hn. by apply begin_works.
Qed.

Lemma commit_outcome x t t0 :
  view x = (t, Some t0) -> wp ims_xdb_tx_commit (fun _ x' => view x' = (t, None)) x.
Proof.
  intros Hv. injection Hv as Hc Hs. apply wp_exec; [done| |].
  - intros c' E x' <-. apply end_ok in E as (Hc'&_&Hs'). unfold view. by rewrite Hc', Hs', Hc.
  - intros x' Hn. destruct Hn. apply end_works. rewrite Hs. eauto.
Qed.

(** A rollback, or one that finds the transaction already rolled back. *)

Lemma rollback_outcome x t t0 :
  aborted (t, Some t0) (view x) ->
  wp ims_xdb_tx_rollback (fun _ x' => view x' = (t0, None)) x.
Proof.
  intros Hab. apply wp_exec; [done| |].
  - intros c' E x' <-. apply rollback_ok in E as (Hs&Hs'). unfold view. rewrite Hs'.
    destruct Hab as [Hv|[Hv1 Hv2]]; unfold view in *; simpl in *; simplify_eq; congruence.
  - intros x' Hn Hv. rewrite Hv. destruct Hab as [Hv'|[Hv1 Hv2]].
    + destruct Hn. apply rollback_works. injection Hv' as _ ->. eauto.
    + destruct (view x) as [a b]. simpl in *. congruence.
Qed.

(** An operation in a transaction has all of its effect or none. *)

Definition atomic (spec : option tables) (v v' : tables * option tables) (r : Z) : Prop :=
  v'.2 = None /\ ((r = 0 /\ spec = Some v'.1) \/ (r <> 0 /\ v'.1 = v.1)).

Lemma atomic_fail spec t v r : r <> 0 -> v = (t, None) -> atomic spec (t, None) v r.
Proof. intros ? ->. split; auto. Qed.

Lemma pair_eta {A B} (p : A * B) b : p.2 = b -> p = (p.1, b).
Proof. by intros <-; destruct p. Qed.

(** The end of a transaction: [if (ret) rollback else commit; return ret;]. *)

Lemma close_outcome ret x v t0 spec :
  (ret = 0 -> exists t, view x = (t, Some t0) /\ spec = Some t) ->
  (ret <> 0 -> exists t, aborted (t, Some t0) (view x)) ->
  v.1 = t0 ->
  wp (m_bind (if negb (ret =? 0) then ims_xdb_tx_rollback else ims_xdb_tx_commit)
        (fun _ => m_ret ret))
     (fun r x' => atomic spec v (view x') r) x.
Proof.
  intros H1 H2 Hv. apply wp_bind. destruct (Z.eqb_spec ret 0) as [->|Hr]; cbn [negb].
  - destruct H1 as (t & Ht & ->); [done|].
    eapply wp_mono; [by eapply commit_outcome|]. intros ? x' Hx'. apply wp_ret.
    rewrite Hx'. split; auto.
  - destruct H2 as (t & Ht); [done|].
    eapply wp_mono; [by eapply rollback_outcome|]. intros ? x' Hx'. apply wp_ret.
    rewrite Hx'. split; auto.
Qed.

Lemma insert_new_file_outcome f p q sb x :
  saved (xconn x) = None -> xf_path f = Some p -> name_substr_pos p = Some q ->
  wp (ims_xdb_insert_new_file f sb)
     (fun r x' => atomic (new_file_tables f p q sb (cur (xconn x))) (view x) (view x') r) x.
Proof.
  intros Hs Hp Hq. unfold ims_xdb_insert_new_file, new_file_tables.
  remember (cur (xconn x)) as t0 eqn:Ht0. apply wp_bind.
  eapply wp_mono; [by apply begin_outcome|]. intros ? x1 Hx1. rewrite <- Ht0 in Hx1.
  apply wp_bind, wp_bind. eapply wp_mono; [apply insert_gfid_outcome|].
  cbn beta. rewrite Hx1. intros r x2 [(->&H2&Hs2)|[Hr H2]].
  2: { rewrite (proj2 (Z.eqb_neq _ _) Hr). apply wp_ret.
       eapply (close_outcome _ _ _ t0); [lia|by eauto|by subst t0]. }
  cbn [sql_apply fst snd] in H2, Hs2. rewrite H2. apply wp_bind.
  eapply wp_mono; [by apply insert_file_outcome|].
  cbn beta. intros r x3 [(->&H3&Hs3)|[Hr H3]].
  2: { rewrite (proj2 (Z.eqb_neq _ _) Hr). apply wp_ret.
       eapply (close_outcome _ _ _ t0); [lia| |by subst t0]. intros _.
       rewrite (pair_eta _ _ Hs2) in H3. eauto. }
  cbn [sql_apply mbind option_bind] in H3 |- *. rewrite H3. rewrite Hs2 in Hs3.
  eapply wp_mono; [apply insert_stat_outcome|].
  cbn beta. intros r x4 H4. eapply (close_outcome _ _ _ t0); [| |by subst t0].
  - intros ->. destruct H4 as [(_&gid&Hg&Hi&Hs4)|[? _]]; [|done].
    cbn [mbind option_bind]. rewrite Hg. exists (view x4).1. split; [|done].
    apply pair_eta. congruence.
  - intros Hr. destruct H4 as [[? _]|[_ H4]]; [done|].
    rewrite (pair_eta _ _ Hs3) in H4. eauto.
Qed.

(** The updates of one call, each setting an integer attribute of the file. *)

Definition apply_updates (gid : Z) (l : list (Z * Z)) (t : tables) : tables :=
  foldl (fun t u => sql_update_stat (Some (i64 u.2)) (Some (i32 gid)) (Some u.1) t) t l.

Lemma aborted_idle t v : aborted (t, None) v -> v = (t, None).
Proof. intros [?|[? _]]; done. Qed.

Lemma update_xdatas_outcome gid l x t0 :
  (view x).2 = Some t0 ->
  wp (update_xdatas (u64 (i32 gid)) l)
     (fun u x' =>
        (u = (0, SQLITE_DONE) /\ view x' = (apply_updates gid l (view x).1, Some t0)) \/
        (u.1 = -1 /\ view x' = (t0, None))) x.
Proof.
  revert x. induction l as [|[nid v] l IH]; intros x Hs; cbn [update_xdatas].
  { wp_go. left. split; [done|]. by apply pair_eta. }
  assert (forall r x1, r <> SQLITE_DONE -> aborted ((view x).1, Some t0) (view x1) ->
    wp (if r =? SQLITE_DONE then update_xdatas (u64 (i32 gid)) l
        else set_db_ret r;;; ims_xdb_tx_rollback;;; m_ret (-1, r))
       (fun u x' =>
        (u = (0, SQLITE_DONE) /\
           view x' = (apply_updates gid ((nid, v) :: l) (view x).1, Some t0)) \/
        (u.1 = -1 /\ view x' = (t0, None))) x1) as Hfail.
  { intros r x1 Hr Hab. rewrite (proj2 (Z.eqb_neq _ _) Hr). wp_go.
    eapply wp_mono; [eapply rollback_outcome; by rewrite Hv|].
    intros ? x2 Hx2. wp_go. by right. }
  unfold __update_xdata. wp_go.
  - apply wp_step; [|discriminate|].
    + intros d x3 _ Ha Hs3. wp_go. eapply wp_mono; [apply IH; congruence|].
      cbn beta. intros u x4 [[-> Hx4]|?]; [left|by right]. split; [done|]. rewrite Hx4.
      apply Z.lor_eq_0_iff in E as [[-> ->]%Z.lor_eq_0_iff ->].
      cbn [sql_apply] in Ha. apply (inj Some) in Ha. rewrite <- Ha, Hv1, Hv0, Hv.
      unfold apply_updates. cbn [foldl fst snd]. rewrite swrap_uwrap, swrap_mod by lia.
      by rewrite swrap_idemp by lia.
    + intros r2 d x3 Hr _ Hab. wp_go. apply Hfail; [done|].
      rewrite Hv1, Hv0, Hv, (pair_eta _ _ Hs) in Hab. done.
  - apply Hfail.
    + pose proof (lor_bound 5 _ _ ltac:(lia) (lor_bound 5 _ _ ltac:(lia) Hbnd Hbnd0) Hbnd1).
      unfold SQLITE_DONE. lia.
    + rewrite Hv1, Hv0, Hv, (pair_eta _ _ Hs). apply aborted_refl.
Qed.

Lemma update_stat_outcome f g sb op x :
  saved (xconn x) = None -> xf_gfid f = Some g ->
  wp (ims_xdb_update_stat f sb op)
     (fun r x' =>
        atomic (gid ← find_gid (cur (xconn x)) (Some g);
                Some (apply_updates gid
                  (stat_updates (if (op <? 0) || (N_IMS_XDB_STAT_OPS <=? op)
                                 then IMS_XDB_STAT_OP_ALL else op) sb)
                  (cur (xconn x))))
               (view x) (view x') r) x.
Proof.
  intros Hs Hg. unfold ims_xdb_update_stat. rewrite decide_False by congruence.
  assert (view x = (cur (xconn x), None)) as Hx by (unfold view; by rewrite Hs).
  cbv zeta. wp_go. eapply wp_mono; [apply get_gid_outcome|]. rewrite Hx, Hg.
  cbn [fst snd]. intros gg x1 Hgg.
  assert (view x1 = (cur (xconn x), None)) as Hx1.
  { destruct Hgg as [(?&?&?&?)|[_ ?%aborted_idle]]; done. }
  wp_go.
  2,3: apply atomic_fail; congruence.
  destruct Hgg as [(gid&Hgid&->&_)|[? _]]; [|lia]. cbn [fst snd].
  rewrite Hgid. cbn [mbind option_bind].
  eapply wp_mono; [apply begin_outcome|].
  { unfold view in *. congruence. }
  cbn beta. intros ? x3 Hx3. wp_go.
  assert (view x3 = (cur (xconn x), Some (cur (xconn x)))) as Hx3'
    by (unfold view in *; congruence).
  eapply wp_mono; [eapply update_xdatas_outcome; by rewrite Hx3'|].
  cbn beta. rewrite Hx3'. cbn [fst snd]. intros u x4 [[-> Hx4]|[Hu Hx4]].
  - cbn [fst snd negb Z.eqb]. wp_go. eapply wp_mono; [by eapply commit_outcome|].
    intros ? x5 Hx5. wp_go. rewrite Hv0, Hx5. split; auto.
  - rewrite Hu. cbn [negb Z.eqb]. wp_go. rewrite Hv0, Hx4. split; auto.
Qed.

Lemma rollback_idle x t :
  view x = (t, None) -> wp ims_xdb_tx_rollback (fun _ x' => view x' = (t, None)) x.
Proof.
  intros Hv. apply wp_exec; [done| |].
  - intros c' E x' <-. apply rollback_ok in E as [Hs _]. injection Hv as _ ?. congruence.
  - intros x' _ ->. done.
Qed.

Definition valid_type (ty : Z) : bool :=
  (ty =? IMS_XDB_TYPE_INTEGER) || (ty =? IMS_XDB_TYPE_REAL) || (ty =? IMS_XDB_TYPE_STRING).

(** What setting an attribute makes of the tables. *)

Definition setxattr_tables (a : ims_xdb_attr) (t : tables) : option tables :=
  if valid_type (xa_type a) then
    gfid ← xa_gfid a; name ← xa_name a;
    t1 ← sql_insert_xname (Some name) t;
    sql_insert_xdata (Some gfid) (Some name)
      (if xa_type a =? IMS_XDB_TYPE_INTEGER then Some (i64 (xa_ival a)) else None)
      (if xa_type a =? IMS_XDB_TYPE_REAL then Some (xa_rval a) else None)
      (if xa_type a =? IMS_XDB_TYPE_STRING then xa_sval a else None) t1
  else None.

(** The failure exit of the operation. *)

Lemma setxattr_fail x v d spec t t0 :
  aborted (t, Some t0) (view x) -> v.1 = t0 ->
  wp ims_xdb_tx_rollback
     (fun _ => wp (out (-1) d) (fun r x' => atomic spec v (view x') r)) x.
Proof.
  intros Hab Hv. eapply wp_mono; [by eapply rollback_outcome|].
  intros ? x1 Hx1. wp_go. rewrite Hv0, Hx1. split; auto.
Qed.

Lemma setxattr_outcome a x :
  saved (xconn x) = None ->
  wp (ims_xdb_setxattr a)
     (fun r x' => atomic (setxattr_tables a (cur (xconn x))) (view x) (view x') r) x.
Proof.
  intros Hs. unfold ims_xdb_setxattr, setxattr_tables, valid_type.
  assert (view x = (cur (xconn x), None)) as Hx by (unfold view; by rewrite Hs).
  remember (cur (xconn x)) as t0 eqn:Ht0. rewrite Hx.
  assert (forall spec, wp (ims_xdb_tx_rollback;;; out (-1) 0)
            (fun r x' => atomic spec (t0, None) (view x') r) x) as Hnull.
  { intros spec. wp_go. eapply wp_mono; [by eapply rollback_idle|].
    intros ? x1 Hx1. wp_go. apply atomic_fail; congruence. }
  destruct (xa_gfid a) as [gfid|]; [|apply Hnull].
  destruct (xa_name a) as [name|]; [|apply Hnull]. cbv zeta.
  rewrite <- !negb_orb. destruct (_ || _ || _) eqn:Hty; cbn [negb].
  2: { apply wp_ret. by apply atomic_fail. }
  cbn [mbind option_bind]. wp_go.
  eapply wp_mono; [by apply begin_outcome|]. rewrite <- Ht0. intros ? x1 Hx1. wp_go.
  2,3: eapply setxattr_fail; [left; by rewrite ?Hv0, ?Hv, Hx1|done].
  rewrite E0. apply wp_step; [|discriminate|].
  2: { intros r1 d x3 Hr _ Hab. cbn [fst]. rewrite (proj2 (Z.eqb_neq _ _) Hr). cbn [negb].
       wp_go. eapply setxattr_fail; [by rewrite Hv0, Hv, Hx1 in Hab|done]. }
  rewrite Hv0, Hv, Hx1. intros d x3 _ Ha Hs3. cbn [fst snd sql_apply] in *.
  change (sql_insert_xname (Some name) t0 = Some (view x3).1) in Ha.
  rewrite Ha, Z.eqb_refl. cbn [negb mbind option_bind]. apply pair_eta in Hs3 as Hx3.
  wp_go.
  2,3: eapply setxattr_fail;
    [left; rewrite ?Hv6, ?Hv5, ?Hv4, ?Hv3, ?Hv2, ?Hv1; exact Hx3|done].
  apply Z.lor_eq_0_iff in E2
    as [[[[-> ->]%Z.lor_eq_0_iff ->]%Z.lor_eq_0_iff ->]%Z.lor_eq_0_iff ->].
  apply wp_step; [|discriminate|].
  - intros d' y9 _ Ha' Hs9. cbv zeta. cbn [fst]. rewrite Z.eqb_refl. cbn [Z.eqb negb].
    rewrite Hv6, Hv5, Hv4, Hv3, Hv2, Hv1, Hs3 in Hs9. apply pair_eta in Hs9 as Hy9.
    wp_go. eapply wp_mono; [by eapply commit_outcome|].
    intros ? y10 Hy10. wp_go. rewrite Hv7, Hy10. split; [done|]. left. split; [done|].
    rewrite Hv6, Hv5, Hv4, Hv3, Hv2, Hv1 in Ha'. done.
  - intros r9 d' y9 Hr _ Hab. cbv zeta. cbn [fst]. rewrite (proj2 (Z.eqb_neq _ _) Hr).
    cbn [Z.eqb negb]. wp_go.
    rewrite Hv6, Hv5, Hv4, Hv3, Hv2, Hv1 in Hab.
    apply (setxattr_fail _ _ _ _ (view x3).1 t0); [by rewrite <- Hx3|done].
Qed.

End transactions.

(** ** On a connection where nothing goes wrong *)

Section healthy.
Context {conn : Type} `{!SqlEngine conn, !SqlLaws conn, !ReliableTx conn, !HealthyEngine conn}.
Implicit Types (x : ims_xdb conn) (f : ims_xdb_file) (t : tables).

Lemma wp_prepare_h i (Q : Z -> ims_xdb conn -> Prop) x :
  (forall x', view x' = view x -> Q SQLITE_OK x') -> wp (on_conn (sqlite3_prepare_v2 i)) Q x.
Proof.
  intros H. pose proof (prepare_works i (xconn x)) as Hr.
  unfold on_conn, wp. destruct (sqlite3_prepare_v2 i _) as [r c] eqn:E. simpl in Hr.
  subst r. apply prepare_cur in E as [Hc Hs]. apply H. unfold view; simpl. by rewrite Hc, Hs.
Qed.

Lemma wp_bindp_h {A} (v : option A) Q x :
  (forall x', view x' = view x -> Q (SQLITE_OK, v) x') -> wp (bind v) Q x.
Proof.
  intros H. unfold bind. apply wp_bind. pose proof (bind_works (xconn x)) as Hr.
  unfold on_conn, wp. destruct (sqlite3_bind _) as [r c] eqn:E. simpl in Hr. subst r.
  apply bind_cur in E as [Hc Hs]. simpl. apply H. unfold view; simpl. by rewrite Hc, Hs.
Qed.

Lemma step_loop_h fuel s c :
  is_Some (sql_apply s (cur c)) -> step_loop fuel s c = sqlite3_step s c.
Proof.
  intros Ha%step_works. destruct fuel; simpl;
    destruct (sqlite3_step s c) as [[r v] c']; simpl in Ha; by destruct Ha as [-> | ->].
Qed.

Lemma wp_step_h s t' (Q : Z * Z -> ims_xdb conn -> Prop) x :
  sql_select s (view x).1 = None -> sql_apply s (view x).1 = Some t' ->
  (forall v x', view x' = (t', (view x).2) -> Q (SQLITE_DONE, v) x') -> wp (step s) Q x.
Proof.
  intros Hs Ha H. unfold view in Hs, Ha. simpl in Hs, Ha.
  unfold step, on_conn, wp. rewrite step_loop_h by (rewrite Ha; eauto).
  destruct (step_works s (xconn x) ltac:(rewrite Ha; eauto)) as [Hr|Hr];
    destruct (sqlite3_step s (xconn x)) as [[r v] c] eqn:E; simpl in Hr; subst r.
  - apply step_done in E as (_&Ha'&Hs'). apply H. unfold view. simpl.
    rewrite Hs'. congruence.
  - apply step_row in E as (Hr&_). congruence.
Qed.

Lemma wp_select_h s v (Q : Z * Z -> ims_xdb conn -> Prop) x :
  sql_select s (view x).1 = Some v -> is_Some (sql_apply s (view x).1) ->
  (forall x', view x' = view x -> Q (SQLITE_ROW, v) x') -> wp (step s) Q x.
Proof.
  intros Hs Ha H. unfold view in Hs, Ha. simpl in Hs, Ha.
  unfold step, on_conn, wp. rewrite step_loop_h by done.
  destruct (step_works s (xconn x) Ha) as [Hr|Hr];
    destruct (sqlite3_step s (xconn x)) as [[r w] c] eqn:E; simpl in Hr; subst r.
  - apply step_done in E as (Hn&_). congruence.
  - apply step_row in E as (Hr&Hc&Hsv). rewrite Hr in Hs. simplify_eq.
    apply H. unfold view. simpl. by rewrite Hc, Hsv.
Qed.

Lemma wp_finish_h s t' Q x :
  sql_select s (view x).1 = None -> sql_apply s (view x).1 = Some t' ->
  (forall x', view x' = (t', (view x).2) -> Q 0 x') -> wp (finish s) Q x.
Proof.
  intros Hs Ha H. apply wp_bind. eapply wp_step_h; [done..|]. intros v x1 Hx1.
  apply wp_out. intros x2 Hx2. apply H. congruence.
Qed.

(** Runs through an operation whose calls all succeed. *)

Ltac wp_goh :=
  repeat (match goal with
  | |- wp (on_conn (sqlite3_prepare_v2 _)) _ _ =>
      let x := fresh "x" in let H := fresh "Hv" in apply wp_prepare_h; intros x H
  | |- wp (bind _) _ _ =>
      let x := fresh "x" in let H := fresh "Hv" in apply wp_bindp_h; intros x H
  | |- wp (if negb (?a =? ?b) then _ else _) _ _ =>
      change (negb (a =? b)) with false; cbv iota
  | |- wp (m_bind _ _) _ _ => apply wp_bind
  | |- wp (m_ret _) _ _ => apply wp_ret
  | |- wp (out _ _) _ _ =>
      let x := fresh "x" in let H := fresh "Hv" in apply wp_out; intros x H
  | |- wp (set_db_ret _) _ _ =>
      let x := fresh "x" in let H := fresh "Hv" in apply wp_set_db_ret; intros x H
  | |- wp (if decide (Some _ = None) then _ else _) _ _ => rewrite decide_False by done
  end; cbn [fst snd] in * ).

Lemma insert_gfid_h f x t' :
  sql_insert_gfid (xf_gfid f) (view x).1 = Some t' ->
  wp (ims_xdb_insert_gfid f) (fun r x' => r = 0 /\ view x' = (t', (view x).2)) x.
Proof.
  intros Ha. unfold ims_xdb_insert_gfid. wp_goh.
  eapply wp_step_h; [done|by rewrite Hv0, Hv|]. intros v x2 Hx2. wp_goh. split; [done|]. congruence.
Qed.

Lemma insert_file_h f p q x t' :
  xf_path f = Some p -> name_substr_pos p = Some q ->
  sql_insert_file (xf_gfid f) (Some p) (Some p) (Some q) (view x).1 = Some t' ->
  wp (ims_xdb_insert_file f) (fun r x' => r = 0 /\ view x' = (t', (view x).2)) x.
Proof.
  intros Hp Hq Ha. unfold ims_xdb_insert_file. rewrite Hp. wp_goh.
  eapply wp_deref; [done|]. wp_goh. eapply wp_deref; [done|]. wp_goh.
  eapply wp_finish_h; [done|by rewrite Hv3, Hv2, Hv1, Hv0, Hv|].
  intros x5 Hx5. split; [done|]. congruence.
Qed.

Lemma link_file_h f g p q x t' :
  xf_gfid f = Some g -> xf_path f = Some p -> name_substr_pos p = Some q ->
  sql_insert_file (Some g) (Some p) (Some p) (Some q) (view x).1 = Some t' ->
  wp (ims_xdb_link_file f) (fun r x' => r = 0 /\ view x' = (t', (view x).2)) x.
Proof.
  intros Hg Hp Hq Ha. unfold ims_xdb_link_file. rewrite Hp, Hg. wp_goh.
  eapply wp_deref; [done|]. wp_goh.
  eapply wp_finish_h; [done|by rewrite Hv3, Hv2, Hv1, Hv0, Hv|].
  intros x5 Hx5. split; [done|]. congruence.
Qed.

Lemma unlink_file_h f p x :
  xf_path f = Some p ->
  wp (ims_xdb_unlink_file f)
     (fun r x' => r = 0 /\ view x' = (sql_unlink_file (Some p) (view x).1, (view x).2)) x.
Proof.
  intros Hp. unfold ims_xdb_unlink_file. rewrite Hp. wp_goh.
  eapply wp_finish_h; [done|done|]. intros x5 Hx5. split; [done|]. congruence.
Qed.

Lemma rename_h f o n q x t' :
  xf_path f = Some o -> xf_extra f = Some n -> name_substr_pos n = Some q ->
  sql_rename (Some n) (Some n) (Some q) (Some o) (view x).1 = Some t' ->
  wp (ims_xdb_rename f) (fun r x' => r = 0 /\ view x' = (t', (view x).2)) x.
Proof.
  intros Ho Hn Hq Ha. unfold ims_xdb_rename. rewrite Ho, Hn. wp_goh.
  eapply wp_deref; [done|]. wp_goh.
  eapply wp_finish_h; [done|by rewrite Hv3, Hv2, Hv1, Hv0, Hv|].
  intros x5 Hx5. split; [done|]. congruence.
Qed.

Lemma get_gid_h f gid x :
  find_gid (view x).1 (xf_gfid f) = Some gid ->
  wp (get_gid f) (fun g x' => g = (0, u64 (i32 gid)) /\ view x' = view x) x.
Proof.
  intros Hg. unfold get_gid. wp_goh.
  eapply wp_select_h; [rewrite Hv0, Hv; exact Hg|by eauto|]. intros x2 Hx2. wp_goh.
  split; [done|]. congruence.
Qed.

Lemma bind_sattrs_h fid vs acc x :
  wp (bind_sattrs fid vs acc)
     (fun b x' => view x' = view x /\
        b = (0, acc ++ map (fun v => (Some (i64 fid), Some (i64 v))) vs)) x.
Proof.
  revert acc x. induction vs as [|v vs IH]; intros acc x; cbn [bind_sattrs].
  - wp_goh. by rewrite app_nil_r.
  - unfold bind_sattr. wp_goh.
    eapply wp_mono; [apply IH|]. cbn beta. intros b x3 [Hv1 ->].
    split; [congruence|]. by rewrite <- app_assoc.
Qed.

Lemma insert_stat_h f gid sb x t' :
  find_gid (view x).1 (xf_gfid f) = Some gid ->
  sql_insert_stat (stat_params gid sb) (view x).1 = Some t' ->
  wp (ims_xdb_insert_stat f sb) (fun r x' => r = 0 /\ view x' = (t', (view x).2)) x.
Proof.
  intros Hg Ha. unfold ims_xdb_insert_stat. wp_goh.
  eapply wp_mono; [eapply get_gid_h; by rewrite Hv|]. cbn beta. intros g x1 [-> Hx1].
  cbn [fst snd Z.eqb negb]. wp_goh.
  eapply wp_mono; [apply bind_sattrs_h|]. cbn beta. intros b x2 [Hx2 ->].
  cbn [fst snd Z.eqb negb]. eapply (wp_finish_h _ t'); [done| |].
  - rewrite Hx2, Hx1, Hv. rewrite <- Ha. cbn [sql_apply]. f_equal. unfold stat_params.
    simpl map. rewrite !swrap_uwrap, !swrap_swrap by lia. done.
  - intros x3 Hx3. split; [done|]. congruence.
Qed.

Lemma insert_new_file_h f p q sb x t' :
  saved (xconn x) = None -> xf_path f = Some p -> name_substr_pos p = Some q ->
  new_file_tables f p q sb (cur (xconn x)) = Some t' ->
  wp (ims_xdb_insert_new_file f sb) (fun r x' => r = 0 /\ view x' = (t', None)) x.
Proof.
  intros Hs Hp Hq. unfold new_file_tables.
  destruct (sql_insert_gfid _ _) as [t1|] eqn:E1; [|discriminate]. cbn [mbind option_bind].
  destruct (sql_insert_file _ _ _ _ t1) as [t2|] eqn:E2; [|discriminate].
  cbn [mbind option_bind].
  destruct (find_gid t2 _) as [gid|] eqn:E3; [|discriminate]. cbn [mbind option_bind].
  intros E4. unfold ims_xdb_insert_new_file. wp_goh.
  eapply wp_mono; [by apply begin_outcome|]. intros ? x1 Hx1. wp_goh.
  eapply wp_mono; [eapply insert_gfid_h; rewrite Hx1; exact E1|].
  cbn beta. intros r x2 [-> Hx2]. cbn [Z.eqb negb]. rewrite Hx1 in Hx2. wp_goh.
  eapply wp_mono; [eapply insert_file_h; [done..|by rewrite Hx2]|].
  cbn beta. intros r x3 [-> Hx3]. cbn [Z.eqb negb]. rewrite Hx2 in Hx3.
  eapply wp_mono; [eapply insert_stat_h; [by rewrite Hx3|by rewrite Hx3]|].
  cbn beta. intros r x4 [-> Hx4]. cbn [Z.eqb negb]. rewrite Hx3 in Hx4. wp_goh.
  eapply wp_mono; [eapply commit_outcome; exact Hx4|]. cbn beta. intros ? x5 Hx5. wp_goh.
  done.
Qed.

Lemma update_xdatas_h gid l x t0 :
  (view x).2 = Some t0 ->
  wp (update_xdatas (u64 (i32 gid)) l)
     (fun u x' => u = (0, SQLITE_DONE) /\
        view x' = (apply_updates gid l (view x).1, Some t0)) x.
Proof.
  revert x. induction l as [|[nid v] l IH]; intros x Hs; cbn [update_xdatas].
  { wp_goh. split; [done|]. by apply pair_eta. }
  unfold __update_xdata. wp_goh.
  eapply wp_step_h; [done..|]. intros d x3 Hx3. wp_goh. rewrite Z.eqb_refl.
  eapply wp_mono; [apply IH; by rewrite Hx3, Hv1, Hv0, Hv|].
  cbn beta. intros u x4 [-> Hx4]. split; [done|]. rewrite Hx4, Hx3, Hv1, Hv0, Hv.
  unfold apply_updates. cbn [foldl fst snd]. rewrite swrap_uwrap, swrap_mod by lia.
  by rewrite swrap_idemp by lia.
Qed.

Lemma update_stat_h f g gid sb op x :
  saved (xconn x) = None -> xf_gfid f = Some g ->
  find_gid (cur (xconn x)) (Some g) = Some gid ->
  wp (ims_xdb_update_stat f sb op) (fun r _ => r = 0) x.
Proof.
  intros Hs Hg Hgid. unfold ims_xdb_update_stat. rewrite decide_False by congruence.
  assert (view x = (cur (xconn x), None)) as Hx by (unfold view; by rewrite Hs).
  cbv zeta. wp_goh. eapply wp_mono; [eapply get_gid_h; rewrite Hx, Hg; exact Hgid|].
  cbn beta. intros gg x1 [-> Hx1]. cbn [fst snd Z.eqb negb]. wp_goh.
  eapply wp_mono; [apply begin_outcome|].
  { rewrite Hx1, Hx in Hv. by injection Hv. }
  intros ? x3 Hx3. wp_goh.
  eapply wp_mono; [eapply update_xdatas_h; by rewrite Hx3|].
  cbn beta. intros u x4 [-> Hx4]. cbn [fst snd Z.eqb negb]. wp_goh.
  eapply wp_mono; [by eapply commit_outcome|]. intros ? x5 Hx5. by wp_goh.
Qed.

Lemma setxattr_h a x t' :
  saved (xconn x) = None -> setxattr_tables a (cur (xconn x)) = Some t' ->
  wp (ims_xdb_setxattr a) (fun r _ => r = 0) x.
Proof.
  intros Hs. unfold ims_xdb_setxattr, setxattr_tables, valid_type.
  destruct (_ || _ || _) eqn:Hty; [|discriminate].
  destruct (xa_gfid a) as [gfid|]; [|discriminate].
  destruct (xa_name a) as [name|]; [|discriminate]. cbn [mbind option_bind].
  destruct (sql_insert_xname _ _) as [t1|] eqn:E1; [|discriminate]. cbn [mbind option_bind].
  intros E2. cbv zeta. rewrite <- !negb_orb, Hty. cbn [negb]. wp_goh.
  eapply wp_mono; [by apply begin_outcome|]. intros ? x1 Hx1. wp_goh.
  eapply wp_step_h; [done|rewrite Hv0, Hv, Hx1; exact E1|]. intros v x3 Hx3.
  cbn [fst]. rewrite Z.eqb_refl. cbn [negb]. wp_goh.
  eapply wp_step_h; [done|rewrite Hv6, Hv5, Hv4, Hv3, Hv2, Hv1, Hx3; exact E2|].
  intros d y9 Hy9. cbv zeta. cbn [fst]. rewrite Z.eqb_refl. cbn [Z.eqb negb]. wp_goh.
  eapply wp_mono.
  { eapply commit_outcome. rewrite Hy9, Hv6, Hv5, Hv4, Hv3, Hv2, Hv1, Hx3, Hv0, Hv, Hx1. done. }
  intros ? y10 _. by wp_goh.
Qed.

End healthy.
