(* ===== verification/XdbSpec.v ===== *)
(** * What the index holds after each operation

    The index database read as a map from paths to file identifiers (gfids)
    and a map from gfids and attribute numbers to values ([SqlFacts.idx],
    [SqlFacts.attr]): what every operation of imess-server-xdb.c does to the
    two maps, which failures can leave what, and the well-formedness of the
    tables under every sequence of operations. *)

From Stdlib Require Import ZArith Lia Bool Ascii String.
From stdpp Require Import base list strings.
From S2P Require Import Prelude Sqlite SqlFacts Xdb.

(** ** The table transformers, read through the lookups *)
(** ** The table transformers, read through the lookups *)

Lemma attr_find_None t g n : find_gid t (Some g) = None -> attr t g n = None.
Proof. intros H. unfold attr. by rewrite H. Qed.

Lemma attr_same t t' g n :
  find_gid t' (Some g) = find_gid t (Some g) ->
  (forall gid, find_gid t (Some g) = Some gid ->
     data_row (xdata t') gid n = data_row (xdata t) gid n) ->
  attr t' g n = attr t g n.
Proof.
  intros H1 H2. unfold attr. rewrite H1. destruct (find_gid t (Some g)) as [gid|]; [|done].
  cbn [mbind option_bind]. by rewrite H2.
Qed.

Lemma find_gid_None t g : find_gid t (Some g) = None <-> ~ g ∈ (g_gfid <$> xgfid t).
Proof.
  unfold find_gid. cbn [mbind option_bind]. split.
  - intros H (r & -> & Hr)%list_elem_of_fmap.
    destruct (head _) eqn:E; [done|]. rewrite head_filter_None in E. by destruct (E r Hr).
  - intros H. rewrite (proj2 (head_filter_None _ _)); [done|]. intros x Hx <-.
    by apply H, list_elem_of_fmap_2.
Qed.

Lemma find_gid_small t g gid :
  wf_tables t -> find_gid t (Some g) = Some gid -> 0 < gid < 2 ^ 31.
Proof.
  intros Hwf H. apply find_gid_elem in H as [(r & -> & Hr)%list_elem_of_fmap _].
  by apply (wf_small t).
Qed.

Lemma find_gid_i32 t g gid :
  wf_tables t -> find_gid t (Some g) = Some gid -> i32 gid = gid.
Proof.
  intros Hwf H. apply swrap_small; [lia|]. pose proof (find_gid_small _ _ _ Hwf H).
  unfold in_s. lia.
Qed.

(** A new gfid gets a number that no row has. *)

Lemma insert_gfid_effect g t t' :
  wf_tables t -> room t -> sql_insert_gfid (Some g) t = Some t' ->
  find_gid t (Some g) = None /\
  (exists i, find_gid t' (Some g) = Some i /\ forall n, data_row (xdata t') i n = None) /\
  (forall p, idx t' p = idx t p) /\
  (forall g' n, attr t' g' n = attr t g' n) /\
  (forall g', is_Some (find_gid t' (Some g')) <-> g' = g \/ is_Some (find_gid t (Some g'))) /\
  xfile t' = xfile t /\ xname t' = xname t /\ xdata t' = xdata t /\ wf_tables t'.
Proof.
  intros Hwf Hroom H. assert (uniq_tables t') as Hu.
  { eapply (sql_apply_uniq (InsertGfid (Some g))); [apply Hwf|done]. }
  apply insert_gfid_lookups in H as (i&Hi&Hg&Hfind&Hby&_&Hf&Hn&Hd&Hgids&_).
  pose proof (next_rowid_fresh _ _ Hi) as Hfresh.
  assert (forall n, data_row (xdata t') i n = None) as Hnone.
  { intros n. rewrite Hd. apply data_row_None.
    intros (r & [= -> _] & Hr)%list_elem_of_fmap. by apply Hfresh, (wf_data_ref t). }
  split_and!; try done.
  - by apply find_gid_None.
  - exists i. rewrite Hfind, decide_True by done. auto.
  - intros p. unfold idx, file_row. rewrite Hf. fold (file_row t p).
    destruct (file_row t p) as [r|] eqn:Er; [|done]. cbn [mbind option_bind].
    rewrite Hby, decide_False; [done|]. intros ->. apply file_row_elem in Er as [Hr _].
    by apply Hfresh, (wf_file_ref t).
  - intros g' n. destruct (decide (g = g')) as [<-|Hne].
    + rewrite (attr_find_None t) by (by apply find_gid_None). unfold attr.
      rewrite Hfind, decide_True by done. cbn. by rewrite Hnone.
    + apply attr_same; [|by rewrite Hd]. by rewrite Hfind, decide_False.
  - intros g'. rewrite Hfind. case_decide; [|by naive_solver]. split; [by left|eauto].
  - split; [done|..].
    + rewrite Hf, Hgids. intros r Hr. apply elem_of_app. left. by apply (wf_file_ref t).
    + rewrite Hd, Hgids. intros r Hr. apply elem_of_app. left. by apply (wf_data_ref t).
    + intros r Hr. apply (list_elem_of_fmap_2 g_gid) in Hr. rewrite Hgids in Hr.
      apply elem_of_app in Hr as [(r0 & -> & Hr)%list_elem_of_fmap|Hr%list_elem_of_singleton].
      * by apply (wf_small t).
      * rewrite Hr. pose proof (next_rowid_pos _ _ Hi). pose proof (room_gid _ Hroom).
        unfold next_rowid in Hi. case_match; [|done]. simplify_eq. lia.
Qed.

(** A new name for a file that has a gfid row. *)

Lemma insert_file_effect g p q t t' :
  wf_tables t -> sql_insert_file (Some g) (Some p) (Some p) (Some q) t = Some t' ->
  file_row t p = None /\
  (forall p', idx t' p' = if decide (p = p') then Some g else idx t p') /\
  (f_name <$> file_row t' p) = Some (sql_substr p q) /\
  (forall g' n, attr t' g' n = attr t g' n) /\
  (forall g', find_gid t' g' = find_gid t g') /\
  xname t' = xname t /\ xdata t' = xdata t /\ wf_tables t'.
Proof.
  intros Hwf H. assert (uniq_tables t') as Hu.
  { eapply (sql_apply_uniq (InsertFile _ _ _ _)); [apply Hwf|done]. }
  apply insert_file_lookups in H as (gid&i&Hg&Hp&_&Hrow&_&Hx&Hn&Hd&Hl).
  assert (forall g', find_gid t' g' = find_gid t g') as Hfind
    by (intros; unfold find_gid; by rewrite Hx).
  assert (forall k, by_gid t' k = by_gid t k) as Hby
    by (intros; unfold by_gid; by rewrite Hx).
  split_and!; try done.
  - by apply file_row_None.
  - intros p'. unfold idx. rewrite Hrow. case_decide.
    + cbn. rewrite Hby. apply find_gid_by_gid; [apply Hwf|done].
    + destruct (file_row t p'); [|done]. cbn. by rewrite Hby.
  - by rewrite Hrow, decide_True.
  - intros g' n. apply attr_same; [done|by rewrite Hd].
  - split; [done|..].
    + rewrite Hl, Hx. intros r [Hr| ->%list_elem_of_singleton]%elem_of_app;
        [by apply wf_file_ref|]. simpl. by apply find_gid_elem in Hg as [? _].
    + rewrite Hd, Hx. apply Hwf.
    + rewrite Hx. apply Hwf.
Qed.

Lemma insert_stat_effect g gid sb t t' :
  wf_tables t -> find_gid t (Some g) = Some gid ->
  sql_insert_stat (stat_params gid sb) t = Some t' ->
  (forall p, file_row t' p = file_row t p) /\ (forall p, idx t' p = idx t p) /\
  (forall k v, stat_values sb !! k = Some v ->
     attr t' g (Z.of_nat k + 1) = Some (Some (i64 v), None, None)) /\
  (forall g' n, g' <> g \/ n < 1 \/ 14 <= n -> attr t' g' n = attr t g' n) /\
  (forall g', find_gid t' g' = find_gid t g') /\
  xname t' = xname t /\ wf_tables t'.
Proof.
  intros Hwf Hg H. assert (uniq_tables t') as Hu.
  { eapply (sql_apply_uniq (InsertStat _)); [apply Hwf|done]. }
  unfold sql_insert_stat, stat_params in H. rewrite (find_gid_i32 _ _ _ Hwf Hg) in H.
  rewrite <- (map_map i64 (fun v => (Some gid, Some v))) in H.
  destruct (sql_insert_stat_rows _ _ _) as [l|] eqn:E; [|done].
  cbn in H. apply (inj Some) in H as <-.
  apply stat_rows_lookups in E as (E1&E2&E3). split_and!; try done.
  - intros k v Hk. unfold attr. change (find_gid (with_xdata t l)) with (find_gid t).
    rewrite Hg. cbn [mbind option_bind]. rewrite Z.add_comm.
    assert (map i64 (stat_values sb) !! k = Some (i64 v)) as Hk'
      by (etransitivity; [apply list_lookup_fmap|by rewrite Hk]).
    specialize (E1 k (i64 v) Hk'). cbn [xdata with_xdata].
    by destruct (data_row l gid _).
  - intros g' n Hne. apply attr_same; [done|]. intros gid' Hg'. apply E2.
    destruct Hne as [Hne|?]; [left|right; simpl; lia]. intros ->. apply Hne. eapply find_gid_inj; [apply Hwf|done..].
  - split; [done|apply Hwf| |apply Hwf]. intros r [Hr| ->]%E3; [by apply Hwf|].
    by apply find_gid_elem in Hg as [? _].
Qed.

Lemma new_file_effect f g p q sb t t' :
  xf_gfid f = Some g -> wf_tables t -> room t ->
  new_file_tables f p q sb t = Some t' ->
  find_gid t (Some g) = None /\ file_row t p = None /\
  (forall p', idx t' p' = if decide (p = p') then Some g else idx t p') /\
  (f_name <$> file_row t' p) = Some (sql_substr p q) /\
  (forall k v, stat_values sb !! k = Some v ->
     attr t' g (Z.of_nat k + 1) = Some (Some (i64 v), None, None)) /\
  (forall g' n, g' <> g \/ n < 1 \/ 14 <= n -> attr t' g' n = attr t g' n) /\
  (forall g', is_Some (find_gid t' (Some g')) <-> g' = g \/ is_Some (find_gid t (Some g'))) /\
  xname t' = xname t /\ wf_tables t'.
Proof.
  intros Hg Hwf Hroom. unfold new_file_tables. rewrite Hg.
  destruct (sql_insert_gfid _ t) as [t1|] eqn:E1; [|done]. cbn [mbind option_bind].
  apply insert_gfid_effect in E1 as (Hg0&_&Hi1&Ha1&Hs1&Hf1&Hn1&_&Hwf1); [|done..].
  destruct (sql_insert_file _ _ _ _ t1) as [t2|] eqn:E2; [|done]. cbn [mbind option_bind].
  apply insert_file_effect in E2 as (Hp&Hi2&Hname&Ha2&Hf2&Hn2&_&Hwf2); [|done].
  destruct (find_gid t2 (Some g)) as [gid|] eqn:Hgid; [|done]. cbn [mbind option_bind].
  intros E3. eapply insert_stat_effect in E3 as (Hr3&Hi3&Hs3&Ha3&Hf3&Hn3&Hwf3); [|done..].
  split_and!; try done.
  - unfold file_row in *. by rewrite Hf1 in Hp.
  - intros p'. by rewrite Hi3, Hi2, Hi1.
  - by rewrite Hr3.
  - intros g' n Hne. by rewrite Ha3, Ha2, Ha1.
  - intros g'. by rewrite Hf3, Hf2, Hs1.
  - congruence.
Qed.

Lemma next_rowid_Some ids : foldr Z.max 0 ids < 2 ^ 63 - 1 -> is_Some (next_rowid ids).
Proof. intros H. unfold next_rowid. case_match; [eauto|lia]. Qed.

Lemma new_file_defined f g p q sb t :
  xf_gfid f = Some g -> wf_tables t -> room t ->
  find_gid t (Some g) = None -> file_row t p = None ->
  is_Some (new_file_tables f p q sb t).
Proof.
  intros Hg Hwf Hroom Hfg Hfp. unfold new_file_tables. rewrite Hg.
  destruct (sql_insert_gfid (Some g) t) as [t1|] eqn:E1; cbn [mbind option_bind].
  2: { unfold sql_insert_gfid in E1. cbn [mbind option_bind] in E1.
       rewrite decide_False in E1 by (by apply find_gid_None).
       destruct (next_rowid_Some (g_gid <$> xgfid t)) as [i Hi].
       - pose proof (room_gid _ Hroom). lia.
       - by rewrite Hi in E1. }
  apply insert_gfid_effect in E1 as (_&(i&Hi&Hd)&_&_&_&Hf1&_&Hd1&Hwf1); [|done..].
  destruct (sql_insert_file _ _ _ _ t1) as [t2|] eqn:E2; cbn [mbind option_bind].
  2: { unfold sql_insert_file in E2. rewrite Hi in E2. cbn [mbind option_bind] in E2.
       rewrite Hf1, decide_False in E2 by (by apply file_row_None).
       destruct (next_rowid_Some (f_fid <$> xfile t)) as [j Hj]; [apply Hroom|].
       by rewrite Hj in E2. }
  apply insert_file_effect in E2 as (_&_&_&_&Hg2&_&Hd2&Hwf2); [|done].
  rewrite Hg2, Hi. cbn [mbind option_bind]. unfold sql_insert_stat, stat_params.
  rewrite (find_gid_i32 _ _ _ Hwf1 Hi).
  rewrite <- (map_map i64 (fun v => (Some i, Some v))).
  destruct (stat_rows_defined i (map i64 (stat_values sb)) 1 (xdata t2)) as [l Hl].
  - intros n _. by rewrite Hd2.
  - rewrite Hd2, Hd1. pose proof (room_xid _ Hroom). simpl length. lia.
  - rewrite Hl. eauto.
Qed.

Lemma unlink_effect p t :
  wf_tables t ->
  (forall p', idx (sql_unlink_file (Some p) t) p' = if decide (p = p') then None else idx t p') /\
  (forall g n, attr (sql_unlink_file (Some p) t) g n = attr t g n) /\
  wf_tables (sql_unlink_file (Some p) t).
Proof.
  intros Hwf. split_and!.
  - intros p'. unfold idx. rewrite unlink_lookups. by case_decide.
  - done.
  - split; [|by intros r [_ Hr]%list_elem_of_filter; apply (wf_file_ref t)|apply Hwf..].
    eapply (sql_apply_uniq (UnlinkFile (Some p))); [apply Hwf|done].
Qed.

(** A path that is indexed moves with its file, one that is not stays out. *)

Lemma rename_effect o n q t t' :
  wf_tables t -> sql_rename (Some n) (Some n) (Some q) (Some o) t = Some t' ->
  (file_row t o = None -> t' = t) /\
  (is_Some (file_row t o) ->
     (n = o \/ file_row t n = None) /\
     (f_name <$> file_row t' n) = Some (sql_substr n q) /\
     forall p', idx t' p' = if decide (n = p') then idx t o
                            else if decide (o = p') then None else idx t p') /\
  (forall g k, attr t' g k = attr t g k) /\ wf_tables t'.
Proof.
  intros Hwf H. assert (uniq_tables t') as Hu.
  { eapply (sql_apply_uniq (Rename _ _ _ _)); [apply Hwf|done]. }
  apply rename_lookups in H as (Hno&Hyes&_&Hx&Hn&Hd&Hf); [|apply Hwf].
  split_and!; [done|..].
  - intros [r Hr]. destruct (Hyes r Hr) as [Hnew Hrow]. split_and!; [done|..].
    + by rewrite Hrow, decide_True.
    + intros p'. unfold idx. rewrite Hrow, Hr. unfold by_gid. rewrite Hx.
      case_decide; [done|]. by case_decide.
  - intros g k. apply attr_same; [unfold find_gid; by rewrite Hx|by rewrite Hd].
  - split; [done|..].
    + intros r Hr. apply Hf in Hr as (r0&Hr0&->). rewrite Hx. by apply (wf_file_ref t).
    + rewrite Hd, Hx. apply Hwf.
    + rewrite Hx. apply Hwf.
Qed.

Lemma rename_defined o n q t :
  (n = o \/ file_row t n = None) ->
  is_Some (sql_rename (Some n) (Some n) (Some q) (Some o) t).
Proof.
  intros Hno. unfold sql_rename. case_decide; [|eauto]. cbn [mbind option_bind].
  rewrite decide_False; [eauto|]. intros (r & -> & [Hne Hr]%list_elem_of_filter)%list_elem_of_fmap.
  destruct Hno as [Hno|Hno%file_row_None]; [congruence|]. by apply Hno, list_elem_of_fmap_2.
Qed.

(** Setting integer attributes: a row that exists takes the value. *)

Definition put_ival (v : Z) (vs : option Z * option Z * option string) :=
  (Some v, vs.1.2, vs.2).

Lemma update_stat_row v gid nid t g n :
  row_values <$> data_row (xdata (sql_update_stat (Some v) (Some gid) (Some nid) t)) g n =
  if decide ((gid, nid) = (g, n)) then put_ival v <$> (row_values <$> data_row (xdata t) g n)
  else row_values <$> data_row (xdata t) g n.
Proof.
  unfold data_row, sql_update_stat. simpl.
  rewrite (head_filter_fmap _ _ (fun r => (x_gid r, x_nid r) = (g, n))).
  2: { intros x _. by case_decide. }
  destruct (head _) as [r|] eqn:E; [|by case_decide].
  apply head_filter_Some in E as [_ [= <- <-]]. simpl.
  destruct (decide ((gid, nid) = _)) as [[= -> ->]|Hne].
  - by rewrite decide_True.
  - rewrite decide_False; [done|]. intros [[= Hg] [= Hn]]. apply Hne. by rewrite Hg, Hn.
Qed.

Lemma attr_rows t g n gid :
  find_gid t (Some g) = Some gid -> attr t g n = row_values <$> data_row (xdata t) gid n.
Proof. intros H. unfold attr. rewrite H. cbn. by destruct (data_row _ _ _). Qed.

Lemma update_stat_effect v g gid nid t :
  wf_tables t -> find_gid t (Some g) = Some gid ->
  let t' := sql_update_stat (Some v) (Some gid) (Some nid) t in
  (forall p, idx t' p = idx t p) /\
  (forall g' n, attr t' g' n =
     if decide ((g, nid) = (g', n)) then put_ival v <$> attr t g' n else attr t g' n) /\
  (forall g', find_gid t' g' = find_gid t g') /\ wf_tables t'.
Proof.
  intros Hwf Hg t'. split_and!; [done| |done|].
  - intros g' n. destruct (find_gid t (Some g')) as [gid'|] eqn:Hg'.
    2: { rewrite !(attr_find_None _ g') by done. by case_decide. }
    rewrite (attr_rows t g' n gid'), (attr_rows t' g' n gid') by done.
    unfold t'. rewrite update_stat_row.
    destruct (decide ((g, nid) = (g', n))) as [[= <- <-]|Hne].
    + rewrite decide_True; [done|]. congruence.
    + rewrite decide_False; [done|]. intros [= -> ->]. apply Hne. f_equal.
      eapply find_gid_inj; [apply Hwf|done..].
  - split; [|apply Hwf| |apply Hwf].
    + eapply (sql_apply_uniq (UpdateStat _ _ _)); [apply Hwf|done].
    + intros r (r0 & -> & Hr)%list_elem_of_fmap.
      change (xgfid t') with (xgfid t).
      case_decide; by apply (wf_data_ref t Hwf r0).
Qed.

(** The last value that a list of updates gives to an attribute. *)

Definition last_update (l : list (Z * Z)) (n : Z) : option Z :=
  snd <$> last (filter (fun u => u.1 = n) l).

Lemma last_update_cons k v l n :
  last_update ((k, v) :: l) n =
  match last_update l n with
  | Some w => Some w
  | None => if decide (k = n) then Some v else None
  end.
Proof.
  unfold last_update. rewrite filter_cons. simpl. case_decide.
  - rewrite last_cons. by destruct (last _).
  - by destruct (last _).
Qed.

Lemma put_ival_twice v w (o : option (option Z * option Z * option string)) :
  put_ival v <$> (put_ival w <$> o) = put_ival v <$> o.
Proof. by destruct o. Qed.

Lemma apply_updates_effect g gid l t :
  wf_tables t -> find_gid t (Some g) = Some gid ->
  (forall p, idx (apply_updates gid l t) p = idx t p) /\
  (forall g' n, attr (apply_updates gid l t) g' n =
     match (if decide (g = g') then last_update l n else None) with
     | Some v => put_ival (i64 v) <$> attr t g' n
     | None => attr t g' n
     end) /\ wf_tables (apply_updates gid l t).
Proof.
  intros Hwf Hg. revert t Hwf Hg. induction l as [|[k v] l IH]; intros t Hwf Hg.
  { cbn. split_and!; [done| |done]. intros. by case_decide. }
  change (apply_updates gid ((k, v) :: l) t) with
    (apply_updates gid l (sql_update_stat (Some (i64 v)) (Some (i32 gid)) (Some k) t)).
  rewrite (find_gid_i32 _ _ _ Hwf Hg).
  destruct (update_stat_effect (i64 v) g gid k t Hwf Hg) as (Hi1&Ha1&Hf1&Hwf1).
  destruct (IH _ Hwf1) as (Hi2&Ha2&Hwf2); [by rewrite Hf1|].
  split_and!; [intros; by rewrite Hi2| |done].
  intros g' n. rewrite Ha2, Ha1, last_update_cons.
  destruct (decide (g = g')) as [<-|Hne].
  2: { rewrite decide_False; [done|congruence]. }
  destruct (last_update l n) as [w|]; destruct (decide (k = n)) as [<-|Hkn].
  - rewrite decide_True by done. apply put_ival_twice.
  - rewrite decide_False by congruence. done.
  - by rewrite decide_True.
  - rewrite decide_False by congruence. done.
Qed.

Lemma find_nid_None t n : find_nid t (Some n) = None <-> ~ n ∈ (n_name <$> xname t).
Proof.
  unfold find_nid. cbn [mbind option_bind]. split.
  - intros H (r & -> & Hr)%list_elem_of_fmap.
    destruct (head _) eqn:E; [done|]. rewrite head_filter_None in E. by destruct (E r Hr).
  - intros H. rewrite (proj2 (head_filter_None _ _)); [done|]. intros x Hx <-.
    by apply H, list_elem_of_fmap_2.
Qed.

(** [insert or ignore]: a name keeps its number, a new one gets a fresh one. *)

Lemma insert_xname_effect name t t' :
  wf_tables t -> sql_insert_xname (Some name) t = Some t' ->
  (exists n, find_nid t (Some name) = Some n /\ t' = t \/
     find_nid t (Some name) = None /\ ~ n ∈ (n_nid <$> xname t) /\
     (forall m, find_nid t' (Some m) =
        if decide (name = m) then Some n else find_nid t (Some m)) /\
     (n_nid <$> xname t') = (n_nid <$> xname t) ++ [n]) /\
  xgfid t' = xgfid t /\ xfile t' = xfile t /\ xdata t' = xdata t /\ wf_tables t'.
Proof.
  intros Hwf H. assert (uniq_tables t') as Hu.
  { eapply (sql_apply_uniq (InsertXname _)); [apply Hwf|done]. }
  unfold sql_insert_xname in H. case_decide as Hin.
  - apply (inj Some) in H as <-. split_and!; try done.
    destruct (find_nid t (Some name)) as [n|] eqn:E; [eauto|]. by apply find_nid_None in E.
  - destruct (next_rowid _) as [i|] eqn:Hi; [|done]. cbn in H. apply (inj Some) in H as <-.
    split_and!; try done; [|split; [done|apply Hwf..]].
    exists i. right. split_and!; [by apply find_nid_None|by apply next_rowid_fresh| |].
    + intros m. unfold find_nid. cbn [mbind option_bind xname].
      rewrite head_filter_snoc. cbn [n_name]. case_decide; subst.
      * rewrite (proj2 (head_filter_None _ _)); [done|]. intros x Hx <-.
        by apply Hin, list_elem_of_fmap_2.
      * by destruct (head _).
    + cbn [xname]. by rewrite fmap_app.
Qed.

Lemma data_row_replace l r g n :
  data_row (filter (fun r' => (x_gid r', x_nid r') <> (x_gid r, x_nid r)) l ++ [r]) g n =
  if decide ((x_gid r, x_nid r) = (g, n)) then Some r else data_row l g n.
Proof.
  rewrite data_row_snoc. unfold data_row. case_decide as Hk.
  - rewrite head_filter_none; [done|]. intros x Hx Hne. congruence.
  - rewrite list_filter_filter_l; [by destruct (head _)|]. intros x Hx. congruence.
Qed.

Lemma insert_xdata_effect g name n v rv sv t t' :
  wf_tables t -> find_nid t (Some name) = Some n ->
  sql_insert_xdata (Some g) (Some name) v rv sv t = Some t' ->
  (forall p, idx t' p = idx t p) /\
  (forall g' n', attr t' g' n' =
     if decide ((g, n) = (g', n')) then Some (v, rv, sv) else attr t g' n') /\
  xname t' = xname t /\ wf_tables t'.
Proof.
  intros Hwf Hn H. assert (uniq_tables t') as Hu.
  { eapply (sql_apply_uniq (InsertXdata _ _ _ _ _)); [apply Hwf|done]. }
  unfold sql_insert_xdata in H. rewrite Hn in H.
  destruct (find_gid t (Some g)) as [gid|] eqn:Hg; [|done]. cbn [mbind option_bind] in H.
  destruct (next_rowid _) as [i|]; [|done]. cbn in H. apply (inj Some) in H as <-.
  split_and!; [done| |done|].
  - intros g' n'. destruct (find_gid t (Some g')) as [gid'|] eqn:Hg'.
    2: { rewrite !(attr_find_None _ g') by done. case_decide; congruence. }
    rewrite (attr_rows t g' n' gid') by done. erewrite attr_rows by exact Hg'.
    cbn [xdata with_xdata].
    set (r := {| x_xid := i; x_gid := gid; x_nid := n; x_ival := v; x_rval := rv; x_sval := sv |}).
    pose proof (data_row_replace (xdata t) r gid' n') as Hd. cbn [x_gid x_nid r] in Hd.
    rewrite Hd. destruct (decide ((g, n) = _)) as [[= <- <-]|Hne].
    + rewrite decide_True by congruence. done.
    + rewrite decide_False; [done|]. intros [= -> ->]. apply Hne. f_equal.
      eapply find_gid_inj; [apply Hwf|done..].
  - split; [done|apply Hwf| |apply Hwf].
    intros r [[_ Hr]%list_elem_of_filter| ->%list_elem_of_singleton]%elem_of_app;
      [by apply (wf_data_ref t)|]. by apply find_gid_elem in Hg as [? _].
Qed.

(** The three value columns that an attribute of a given type fills. *)

Definition attr_values (a : ims_xdb_attr) : option Z * option Z * option string :=
  (if xa_type a =? IMS_XDB_TYPE_INTEGER then Some (i64 (xa_ival a)) else None,
   if xa_type a =? IMS_XDB_TYPE_REAL then Some (xa_rval a) else None,
   if xa_type a =? IMS_XDB_TYPE_STRING then xa_sval a else None).

Lemma setxattr_effect a g name t t' :
  xa_gfid a = Some g -> xa_name a = Some name -> wf_tables t ->
  setxattr_tables a t = Some t' ->
  exists n, (find_nid t (Some name) = Some n \/
             find_nid t (Some name) = None /\ ~ n ∈ (n_nid <$> xname t)) /\
  (forall m, find_nid t' (Some m) = if decide (name = m) then Some n else find_nid t (Some m)) /\
  (forall k, k ∈ (n_nid <$> xname t) -> k ∈ (n_nid <$> xname t')) /\
  (forall p, idx t' p = idx t p) /\
  (forall g' n', attr t' g' n' =
     if decide ((g, n) = (g', n')) then Some (attr_values a) else attr t g' n') /\
  xgfid t' = xgfid t /\ is_Some (find_gid t (Some g)) /\ wf_tables t'.
Proof.
  intros Hg Hn Hwf. unfold setxattr_tables. destruct (valid_type _); [|done].
  rewrite Hg, Hn. cbn [mbind option_bind].
  destruct (sql_insert_xname _ t) as [t1|] eqn:E1; [|done]. cbn [mbind option_bind].
  apply insert_xname_effect in E1 as ((n&Hcase)&Hx1&Hf1&Hd1&Hwf1); [|done].
  assert (forall m, find_nid t1 (Some m) = if decide (name = m) then Some n
                    else find_nid t (Some m)) as Hfind.
  { destruct Hcase as [[Hnn ->]|(_&_&Hm&_)]; [|done]. intros m. by case_decide; subst. }
  intros E2. assert (xgfid t' = xgfid t1 /\ is_Some (find_gid t1 (Some g))) as [Hx2 Hg2].
  { unfold sql_insert_xdata in E2. destruct (find_gid t1 _); [|done].
    destruct (find_nid t1 _); [|done]. cbn [mbind option_bind] in E2.
    destruct (next_rowid _); [|done]. cbn in E2. apply (inj Some) in E2 as <-. eauto. }
  eapply (insert_xdata_effect _ _ n) in E2 as (Hi2&Ha2&Hn2&Hwf2); [|done|].
  2: { by rewrite Hfind, decide_True. }
  exists n. split_and!.
  - destruct Hcase as [[? _]|(?&?&_)]; auto.
  - intros m. rewrite <- Hfind. unfold find_nid. by rewrite Hn2.
  - intros k Hk. rewrite Hn2. destruct Hcase as [[_ ->]|(_&_&_&->)]; [done|].
    apply elem_of_app. by left.
  - intros p. rewrite Hi2. unfold idx, file_row, by_gid. by rewrite Hf1, Hx1.
  - intros g' n'. rewrite Ha2. case_decide; [done|].
    apply attr_same; [unfold find_gid; by rewrite Hx1|by rewrite Hd1].
  - congruence.
  - unfold find_gid in *. by rewrite Hx1 in Hg2.
  - done.
Qed.

(** ** Every operation, whatever SQLite answers *)

Inductive xop :=
| OpInsertGfid (f : ims_xdb_file)
| OpInsertFile (f : ims_xdb_file)
| OpInsertStat (f : ims_xdb_file) (sb : stat)
| OpInsertNewFile (f : ims_xdb_file) (sb : stat)
| OpRemoveFile (f : ims_xdb_file)
| OpLinkFile (f : ims_xdb_file)
| OpUnlinkFile (f : ims_xdb_file)
| OpRename (f : ims_xdb_file)
| OpUpdateStat (f : ims_xdb_file) (sb : stat) (op : Z)
| OpSetxattr (a : ims_xdb_attr)
| OpTxBegin | OpTxCommit | OpTxRollback.

Section runs.
Context {conn : Type} `{!SqlEngine conn}.

Definition run_xop (o : xop) : M (ims_xdb conn) Z :=
  match o with
  | OpInsertGfid f => ims_xdb_insert_gfid f
  | OpInsertFile f => ims_xdb_insert_file f
  | OpInsertStat f sb => ims_xdb_insert_stat f sb
  | OpInsertNewFile f sb => ims_xdb_insert_new_file f sb
  | OpRemoveFile f => ims_xdb_remove_file f
  | OpLinkFile f => ims_xdb_link_file f
  | OpUnlinkFile f => ims_xdb_unlink_file f
  | OpRename f => ims_xdb_rename f
  | OpUpdateStat f sb op => ims_xdb_update_stat f sb op
  | OpSetxattr a => ims_xdb_setxattr a
  | OpTxBegin => ims_xdb_tx_begin
  | OpTxCommit => ims_xdb_tx_commit
  | OpTxRollback => ims_xdb_tx_rollback
  end.

(** The results of a sequence of operations, or undefined behaviour. *)

Fixpoint run_xops (l : list xop) : M (ims_xdb conn) (list Z) :=
  match l with
  | [] => m_ret []
  | o :: l' => r <~ run_xop o;; rs <~ run_xops l';; m_ret (r :: rs)
  end.

Definition uniq_db (x : ims_xdb conn) : Prop :=
  uniq_tables (view x).1 /\ from_option uniq_tables True (view x).2.

Context `{!SqlLaws conn}.

Lemma uniq_db_view x x' : view x' = view x -> uniq_db x -> uniq_db x'.
Proof. unfold uniq_db. by intros ->. Qed.

Lemma uniq_db_aborted x x' : aborted (view x) (view x') -> uniq_db x -> uniq_db x'.
Proof.
  unfold uniq_db. intros [->|[H1 H2]] [Hc Hs]; [done|].
  rewrite H1 in Hs. rewrite H2. done.
Qed.

Lemma keeps_prepare i : keeps uniq_db (on_conn (sqlite3_prepare_v2 i)).
Proof.
  apply keeps_wp. intros x.
  apply wp_prepare. intros. by eapply uniq_db_view.
Qed.

Lemma keeps_bindp {A} (v : option A) : keeps uniq_db (bind v).
Proof.
  apply keeps_wp. intros x.
  apply wp_bindp. intros. by eapply uniq_db_view.
Qed.

Lemma keeps_set_db_ret r : keeps uniq_db (set_db_ret r).
Proof. by apply keeps_modify. Qed.

Lemma keeps_step s : keeps uniq_db (step s).
Proof.
  apply keeps_wp. intros x. apply wp_step.
  - intros v x1 _ Ha Hs [Hu Hv]. split; [by eapply sql_apply_uniq|by rewrite Hs].
  - intros v x1 _ Hv. by apply uniq_db_view.
  - intros r v x1 _ _. by apply uniq_db_aborted.
Qed.

Lemma keeps_exec s : s <> SCHEMA -> keeps uniq_db (ims_xdb_exec_simple_sql s).
Proof.
  intros Hs. apply keeps_wp. intros x. apply wp_exec; [done| |].
  2: { intros. by eapply uniq_db_view. }
  unfold uniq_db, view. intros c' Hc x1 <- [Hu Hv]. simpl in *. destruct s; [..|done].
  - apply begin_ok in Hc as (_&Hc&->). by rewrite Hc.
  - apply end_ok in Hc as (->&_&->). done.
  - apply rollback_ok in Hc as [Hsv ->]. rewrite Hsv in Hv. done.
  - apply pragma_ok in Hc as [-> ->]. done.
Qed.

Hint Resolve keeps_prepare keeps_bindp keeps_set_db_ret keeps_step : keeps.
Hint Extern 1 (keeps _ (ims_xdb_exec_simple_sql _)) => by apply keeps_exec : keeps.

Lemma keeps_out r d : keeps uniq_db (out r d).
Proof. unfold out. auto with keeps. Qed.
Hint Resolve keeps_out : keeps.

Lemma keeps_finish s : keeps uniq_db (finish s).
Proof. unfold finish. auto with keeps. Qed.
Hint Resolve keeps_finish : keeps.

Lemma keeps_get_gid f : keeps uniq_db (get_gid f).
Proof. unfold get_gid. auto 20 with keeps. Qed.
Hint Resolve keeps_get_gid : keeps.

Lemma keeps_bind_sattrs fid vs acc : keeps uniq_db (bind_sattrs fid vs acc).
Proof.
  revert acc. induction vs; intros acc; cbn [bind_sattrs]; unfold bind_sattr; auto 20 with keeps.
Qed.
Hint Resolve keeps_bind_sattrs : keeps.

Lemma keeps_update_xdatas gid l : keeps uniq_db (update_xdatas gid l).
Proof.
  induction l as [|[n v] l IH]; cbn [update_xdatas]; unfold __update_xdata, ims_xdb_tx_rollback;
    auto 20 with keeps.
Qed.
Hint Resolve keeps_update_xdatas : keeps.

Lemma run_xop_keeps o : keeps uniq_db (run_xop o).
Proof.
  destruct o; cbn [run_xop];
    unfold ims_xdb_insert_new_file, ims_xdb_insert_gfid, ims_xdb_insert_file,
      ims_xdb_insert_stat, bind_stat, ims_xdb_remove_file, ims_xdb_unlink_file,
      ims_xdb_update_stat, ims_xdb_tx_begin, ims_xdb_tx_commit, ims_xdb_tx_rollback;
    cbv zeta; auto 30 with keeps.
  - unfold ims_xdb_link_file. destruct (xf_path f); cbv zeta; auto 30 with keeps.
  - unfold ims_xdb_rename. destruct (xf_path f), (xf_extra f); cbv zeta; auto 30 with keeps.
  - unfold ims_xdb_setxattr, ims_xdb_tx_begin, ims_xdb_tx_commit, ims_xdb_tx_rollback.
    destruct (xa_gfid a), (xa_name a); cbv zeta; auto 40 with keeps.
Qed.

End runs.

(** ** The operations that the translator performs

    From the empty schema on, any sequence of them on an engine whose
    transaction control works keeps the tables well formed. [budget k]
    bounds the identifiers that [k] operations can have used. *)

Record budget (k : Z) (t : tables) : Prop := {
  b_pos : 0 <= k;
  b_gid : forall r, r ∈ xgfid t -> g_gid r <= k;
  b_fid : forall r, r ∈ xfile t -> f_fid r <= k;
  b_nid : forall r, r ∈ xname t -> n_nid r <= 13 + k;
  b_xid : forall r, r ∈ xdata t -> x_xid r <= 13 * k
}.

Lemma next_rowid_le {A} (f : A -> Z) l i k :
  0 <= k -> (forall r, r ∈ l -> f r <= k) -> next_rowid (f <$> l) = Some i -> i <= k + 1.
Proof.
  intros Hk Hl. unfold next_rowid. case_match; [|done]. intros [= <-].
  enough (foldr Z.max 0 (f <$> l) <= k) by lia. clear -Hk Hl.
  induction l as [|r l IH]; simpl; [done|]. apply Z.max_lub; [apply Hl; left|].
  apply IH. intros; apply Hl; by right.
Qed.

Lemma foldr_max_le {A} (f : A -> Z) l k :
  0 <= k -> (forall r, r ∈ l -> f r <= k) -> foldr Z.max 0 (f <$> l) <= k.
Proof.
  intros Hk Hl. induction l as [|r l IH]; simpl; [done|]. apply Z.max_lub; [apply Hl; left|].
  apply IH. intros; apply Hl; by right.
Qed.

Lemma budget_room k t : budget k t -> k < 2 ^ 31 - 1 -> room t.
Proof.
  intros [Hk H1 H2 H3 H4] Hlt. split;
    eapply Z.le_lt_trans; try (apply foldr_max_le; [|by eauto]); lia.
Qed.

Lemma budget_mono k k' t : budget k t -> k <= k' -> budget k' t.
Proof.
  intros [Hk H1 H2 H3 H4] Hle. split; [lia|..]; intros r Hr.
  - specialize (H1 r Hr). lia.
  - specialize (H2 r Hr). lia.
  - specialize (H3 r Hr). lia.
  - specialize (H4 r Hr). lia.
Qed.

Lemma budget_schema : budget 0 schema_tables.
Proof.
  split; [lia|..]; cbn; intros r Hr; try by apply not_elem_of_nil in Hr.
  repeat (apply elem_of_cons in Hr as [->|Hr]; [simpl; lia|]). by apply not_elem_of_nil in Hr.
Qed.

Lemma wf_schema : wf_tables schema_tables.
Proof. split; [apply schema_uniq|..]; cbn; intros r Hr; by apply not_elem_of_nil in Hr. Qed.

(** Takes apart membership in a list that ends in a new row. *)

Ltac snoc_cases :=
  intros r [Hr| ->%list_elem_of_singleton]%elem_of_app; simpl.

Lemma stat_rows_budget vs g k l l' m :
  sql_insert_stat_rows k (map (fun v => (Some g, Some v)) vs) l = Some l' ->
  0 <= m -> (forall r, r ∈ l -> x_xid r <= m) ->
  forall r, r ∈ l' -> x_xid r <= m + Z.of_nat (length vs).
Proof.
  revert k l m. induction vs as [|v vs IH]; intros k l m H Hm Hl.
  { cbn in H. apply (inj Some) in H as <-. intros r Hr. specialize (Hl r Hr). simpl. lia. }
  cbn [map sql_insert_stat_rows] in H.
  destruct (sql_insert_xdata_row _ _ _ _ _ _) as [l1|] eqn:E; [|done].
  cbn [mbind option_bind] in H. apply xdata_row_inv in E as (g0&n0&i&_&_&Hi&_&->).
  pose proof (next_rowid_le x_xid l i m Hm Hl Hi) as Hle.
  intros r Hr. assert (x_xid r <= (m + 1) + Z.of_nat (length vs)) as Hb.
  { eapply IH; [exact H|lia| |done]. clear r Hr. snoc_cases; [|lia].
    specialize (Hl r Hr). lia. }
  simpl length. lia.
Qed.

Lemma new_file_budget f g p q sb k t t' :
  xf_gfid f = Some g -> budget k t ->
  new_file_tables f p q sb t = Some t' -> budget (k + 1) t'.
Proof.
  intros Hg [Hk H1 H2 H3 H4]. unfold new_file_tables. rewrite Hg.
  unfold sql_insert_gfid. cbn [mbind option_bind]. case_decide; [done|].
  destruct (next_rowid (g_gid <$> xgfid t)) as [i|] eqn:Hi; [|done]. cbn [mbind option_bind].
  destruct (sql_insert_file _ _ _ _ _) as [t2|] eqn:E2; [|done]. cbn [mbind option_bind].
  apply insert_file_lookups in E2 as (gid&j&_&_&Hj&_&_&Hx2&Hn2&Hd2&Hf2).
  destruct (find_gid t2 _) as [gid'|]; [|done]. cbn [mbind option_bind].
  unfold sql_insert_stat, stat_params. destruct (sql_insert_stat_rows _ _ _) as [l|] eqn:E3;
    [|done]. cbn. intros [= <-].
  cbn [xfile] in Hj.
  pose proof (next_rowid_le g_gid _ _ k Hk H1 Hi). pose proof (next_rowid_le f_fid _ _ k Hk H2 Hj).
  rewrite <- (map_map i64 (fun v => (Some (i32 gid'), Some v))) in E3.
  rewrite Hd2 in E3.
  pose proof (stat_rows_budget _ _ _ _ _ (13 * k) E3 ltac:(lia) H4) as Hxid.
  split; cbn [xgfid xfile xname xdata with_xdata]; [lia|..].
  - rewrite Hx2. cbn [xgfid]. snoc_cases; [|lia]. specialize (H1 r Hr). lia.
  - rewrite Hf2. cbn [xfile]. snoc_cases; [|lia]. specialize (H2 r Hr). lia.
  - rewrite Hn2. cbn [xname]. intros r Hr. specialize (H3 r Hr). lia.
  - intros r Hr. specialize (Hxid r Hr). simpl length in Hxid. lia.
Qed.

Lemma insert_file_budget g p q k t t' :
  budget k t -> sql_insert_file (Some g) (Some p) (Some p) (Some q) t = Some t' ->
  budget (k + 1) t'.
Proof.
  intros [Hk H1 H2 H3 H4] E. apply insert_file_lookups in E as (gid&j&_&_&Hj&_&_&Hx&Hn&Hd&Hf).
  pose proof (next_rowid_le f_fid _ _ k Hk H2 Hj).
  split; rewrite ?Hx, ?Hf, ?Hn, ?Hd; [lia|..].
  - intros r Hr. specialize (H1 r Hr). lia.
  - snoc_cases; [|lia]. specialize (H2 r Hr). lia.
  - intros r Hr. specialize (H3 r Hr). lia.
  - intros r Hr. specialize (H4 r Hr). lia.
Qed.

Lemma unlink_budget p k t : budget k t -> budget k (sql_unlink_file (Some p) t).
Proof.
  intros [Hk H1 H2 H3 H4]. split; cbn; try done. intros r [_ Hr]%list_elem_of_filter. auto.
Qed.

Lemma rename_budget o n q k t t' :
  budget k t -> sql_rename (Some n) (Some n) (Some q) (Some o) t = Some t' -> budget k t'.
Proof.
  intros [Hk H1 H2 H3 H4]. unfold sql_rename. case_decide; cbn [mbind option_bind].
  2: { intros [= <-]. by split. }
  case_decide; [done|]. intros [= <-]. split; cbn; try done.
  intros r (r0 & -> & Hr)%list_elem_of_fmap. case_decide; apply (H2 r0 Hr).
Qed.

Lemma apply_updates_budget gid l k t : budget k t -> budget k (apply_updates gid l t).
Proof.
  revert t. induction l as [|[n v] l IH]; intros t Hb; [done|]. apply IH.
  destruct Hb as [Hk H1 H2 H3 H4]. split; cbn; try done.
  intros r (r0 & -> & Hr)%list_elem_of_fmap. case_decide; apply (H4 r0 Hr).
Qed.

Lemma setxattr_budget a k t t' :
  budget k t -> setxattr_tables a t = Some t' -> budget (k + 1) t'.
Proof.
  intros [Hk H1 H2 H3 H4]. unfold setxattr_tables. destruct (valid_type _); [|done].
  destruct (xa_gfid a) as [g|], (xa_name a) as [name|]; try done. cbn [mbind option_bind].
  destruct (sql_insert_xname _ t) as [t1|] eqn:E1; [|done]. cbn [mbind option_bind].
  unfold sql_insert_xdata. destruct (find_gid t1 _); [|done]. cbn [mbind option_bind].
  destruct (find_nid t1 _); [|done]. cbn [mbind option_bind].
  destruct (next_rowid (x_xid <$> _)) as [i|] eqn:Hi; [|done]. cbn. intros [= <-].
  assert (xgfid t1 = xgfid t /\ xfile t1 = xfile t /\ xdata t1 = xdata t /\
          forall r, r ∈ xname t1 -> n_nid r <= 13 + k + 1) as (Hx&Hf&Hd&Hn).
  { unfold sql_insert_xname in E1. case_decide.
    - apply (inj Some) in E1 as <-. split_and!; try done. intros r Hr. specialize (H3 r Hr). lia.
    - destruct (next_rowid (n_nid <$> _)) as [j|] eqn:Hj; [|done]. cbn in E1.
      apply (inj Some) in E1 as <-. split_and!; try done. cbn.
      pose proof (next_rowid_le n_nid _ _ (13 + k) ltac:(lia) H3 Hj).
      snoc_cases; [|lia]. specialize (H3 r Hr). lia. }
  rewrite Hd in Hi. pose proof (next_rowid_le x_xid _ _ (13 * k) ltac:(lia) H4 Hi).
  split; cbn; rewrite ?Hx, ?Hf, ?Hd; [lia|..].
  - intros r Hr. specialize (H1 r Hr). lia.
  - intros r Hr. specialize (H2 r Hr). lia.
  - intros r Hr. specialize (Hn r Hr). lia.
  - snoc_cases; [|lia]. apply list_elem_of_filter in Hr as [_ Hr]. specialize (H4 r Hr). lia.
Qed.

(** ** Names in the index *)

Definition single_byte (c : ascii) : bool := byte_of c <? 192.

Lemma utf8_drop_app d s :
  str_all single_byte d = true -> utf8_drop (String.length d) (d ++ s) = s.
Proof.
  unfold utf8_drop. induction d as [|c d IH]; [done|]. cbn [str_all String.length].
  intros [Hc Hd]%andb_true_iff. rewrite Nat.iter_succ_r.
  assert (utf8_next (String c d ++ s) = (d ++ s)%string) as ->; [|auto].
  change (String c d ++ s)%string with (String c (d ++ s)). cbn [utf8_next].
  unfold single_byte in Hc. destruct (Z.leb_spec 192 (byte_of c)); [lia|done].
Qed.

Lemma rindex_app d n :
  str_all (fun c => negb (Ascii.eqb c slash)) n = true ->
  rindex slash (d ++ String slash n) = Some (String.length d).
Proof.
  intros Hn. assert (rindex slash n = None) as Hnone.
  { induction n as [|c n IH]; [done|]. cbn in Hn. apply andb_true_iff in Hn as [Hc Hn].
    cbn. rewrite IH by done. by destruct (Ascii.eqb c slash). }
  induction d as [|c d IH]; cbn [String.length].
  - change (String.app EmptyString _) with (String slash n). cbn [rindex].
    by rewrite Hnone, Ascii.eqb_refl.
  - change (String c d ++ String slash n)%string with (String c (d ++ String slash n)).
    cbn [rindex]. by rewrite IH.
Qed.

(** The name that the index stores for a path is its last component when
    the directory part has no multi-byte characters: the byte position that
    the code computes is then the character position that SQL's substr
    expects. *)
Theorem indexed_name_is_basename (dir name : string) :
  str_all (fun c => negb (Ascii.eqb c slash)) name = true ->
  str_all single_byte dir = true -> Z.of_nat (String.length dir) + 2 < 2 ^ 31 ->
  exists q, name_substr_pos (dir ++ String slash name) = Some q /\
    sql_substr (dir ++ String slash name) q = name /\
    name_substr (dir ++ String slash name) = Some name.
Proof.
  intros Hn Hd Hlen. unfold name_substr_pos, name_substr. rewrite rindex_app by done.
  eexists. split; [done|]. rewrite swrap_small by (unfold in_s; lia).
  set (d := (dir ++ String slash EmptyString)%string).
  assert (dir ++ String slash name = d ++ name)%string as ->
    by (unfold d; by rewrite str_app_assoc).
  assert (String.length d = S (String.length dir)) as Hl
    by (unfold d; rewrite str_app_length; cbn; lia).
  split.
  - unfold sql_substr. replace (Z.to_nat _) with (String.length d) by lia.
    apply utf8_drop_app. unfold d. by rewrite str_all_app, Hd.
  - replace (String.length dir + 1)%nat with (String.length d) by lia.
    by rewrite str_drop_app.
Qed.

(** With a two-byte character in the directory part the stored name is not
    the last component: it loses its first character. *)
Theorem indexed_name_multibyte_wrong :
  exists dir name q,
    str_all (fun c => negb (Ascii.eqb c slash)) name = true /\
    name_substr_pos (dir ++ String slash name) = Some q /\
    sql_substr (dir ++ String slash name) q <> name.
Proof.
  exists (String slash (String (ascii_of_nat 195) (String (ascii_of_nat 169) EmptyString))).
  exists "f1"%string, 5. split_and!; by vm_compute.
Qed.

(** ** Opening the database *)

Section opening.
Context {conn : Type} `{!SqlEngine conn, !SqlLaws conn}.
Implicit Types (x : ims_xdb conn).

Lemma wp_schema Q x :
  (forall x', cur (xconn x') = schema_tables -> saved (xconn x') = saved (xconn x) -> Q 0 x') ->
  (forall x', Q (-1) x') -> wp (ims_xdb_exec_simple_sql SCHEMA) Q x.
Proof.
  intros H1 H2. apply wp_bind. unfold on_conn at 1, wp at 1.
  destruct (sqlite3_exec SCHEMA (xconn x)) as [r c] eqn:E.
  destruct (Z.eqb_spec r SQLITE_OK) as [->|Hr].
  - apply schema_ok in E as [Hc Hs]. apply wp_ret. by apply H1.
  - apply wp_bind, wp_set_db_ret. intros x' _. by apply wp_ret.
Qed.

Lemma wp_pragma Q x :
  (forall r x', view x' = view x -> Q r x') -> wp (ims_xdb_exec_simple_sql PRAGMA_SYNC) Q x.
Proof.
  intros H. apply wp_exec; [done| |].
  - intros c' E x' <-. apply H. apply pragma_ok in E as [Hc Hs]. unfold view. by rewrite Hc, Hs.
  - intros x' _. apply H.
Qed.

Lemma wp_step_once s Q x :
  (forall v x', sql_select s (view x).1 = Some v -> view x' = view x -> Q (SQLITE_ROW, v) x') ->
  (forall r v x', r <> SQLITE_ROW -> Q (r, v) x') ->
  wp (on_conn (sqlite3_step s)) Q x.
Proof.
  intros H1 H2. unfold on_conn, wp. destruct (sqlite3_step s (xconn x)) as [[r v] c] eqn:E.
  destruct (decide (r = SQLITE_ROW)) as [->|Hr]; [|by apply H2].
  apply step_row in E as (Hs&Hc&Hv). apply H1; [done|]. unfold view. simpl. by rewrite Hc, Hv.
Qed.

Lemma db_initialize_outcome x :
  wp db_initialize
     (fun r x' => r = 0 -> cur (xconn x') =
        if i32 (present (cur (xconn x))) =? 4 then cur (xconn x) else schema_tables) x.
Proof.
  unfold db_initialize. apply wp_bind, wp_get. apply wp_bind.
  assert (forall r x1, view x1 = view x ->
    wp (if negb (r =? 0) then out (-1) r else
        db_ret <~ on_conn (sqlite3_prepare_v2 TABLE_EXISTS);;
        if negb (db_ret =? SQLITE_OK) then out (-1) db_ret else
        rv <~ on_conn (sqlite3_step TableExists);;
        if negb (rv.1 =? SQLITE_ROW) then out (-1) rv.1 else
        if negb (i32 rv.2 =? 4) then
          r <~ ims_xdb_exec_simple_sql SCHEMA;; out (if r =? 0 then 0 else -1) r
        else out 0 rv.1)
      (fun r x' => r = 0 -> cur (xconn x') =
        if i32 (present (cur (xconn x))) =? 4 then cur (xconn x) else schema_tables) x1) as Hrest.
  { intros r x1 Hx1. wp_go; try done. apply wp_step_once; cbn [fst snd].
    - intros v x3 Hsel Hx3. rewrite Z.eqb_refl. cbn [negb]. rewrite Hv, Hx1 in *.
      injection Hsel as <-. destruct (Z.eqb_spec (i32 (present (cur (xconn x)))) 4) as [E1|E1];
        cbn [negb].
      + wp_go. intros _. unfold view in *. congruence.
      + wp_go. apply wp_schema; [|intros; by wp_go].
        intros x4 Hc _. wp_go. intros _. unfold view in *. congruence.
    - intros r' v x3 Hr. rewrite (proj2 (Z.eqb_neq _ _) Hr). cbn [negb]. by wp_go. }
  destruct (xmode x =? XDB_MODE_ASYNC).
  - apply wp_pragma. intros r x1 Hx1. by apply Hrest.
  - apply wp_ret. by apply Hrest.
Qed.

End opening.

(** Opening a database keeps it when its four tables are there, and
    installs the empty schema otherwise (so that a database that was only
    partly created is rebuilt); in the schema the stat attribute number [n]
    that the code uses is the row identifier of the n-th attribute name. *)
Theorem db_initialize_spec {conn} `{!SqlEngine conn, !SqlLaws conn} (x : ims_xdb conn) :
  (exists r x', db_initialize x = Some (r, x') /\
     (r = 0 -> cur (xconn x') =
        if i32 (present (cur (xconn x))) =? 4 then cur (xconn x) else schema_tables)) /\
  map (fun n => find_nid schema_tables (Some n)) stat_names =
  map Some [IMS_XDB_ST_DEV; IMS_XDB_ST_INO; IMS_XDB_ST_MODE; IMS_XDB_ST_NLINK; IMS_XDB_ST_UID;
            IMS_XDB_ST_GID; IMS_XDB_ST_RDEV; IMS_XDB_ST_SIZE; IMS_XDB_ST_BLKSIZE;
            IMS_XDB_ST_BLOCKS; IMS_XDB_ST_ATIME; IMS_XDB_ST_MTIME; IMS_XDB_ST_CTIME].
Proof. split; [apply wp_Some, db_initialize_outcome|by vm_compute]. Qed.

(** Whatever SQLite answers, and even when it fails to open, commit or
    roll back a transaction, no sequence of operations on the index makes a
    table with a duplicate key: paths, gfids, attribute names, row
    identifiers and (file, attribute) pairs stay distinct, in the tables and
    in those that a rollback would restore. *)
Theorem xdb_keys_unique {conn} `{!SqlEngine conn, !SqlLaws conn}
    (l : list xop) (x x' : ims_xdb conn) (rs : list Z) :
  uniq_db x -> run_xops l x = Some (rs, x') -> uniq_db x'.
Proof.
  intros Hx Hrun. revert Hrun Hx.
  assert (keeps uniq_db (run_xops (conn := conn) l)) as Hk; [|intros; by eapply Hk].
  induction l as [|o l IH]; cbn [run_xops]; [apply keeps_ret|].
  apply keeps_bind; [apply run_xop_keeps|]. intros r.
  apply keeps_bind; [done|]. intros rs'. apply keeps_ret.
Qed.

Definition torn_conn : ims_xdb (Scripted.sconn false) :=
  {| xconn := {| Scripted.sc_cur := schema_tables; Scripted.sc_saved := None;
                 Scripted.sc_script := [5; 0; 0; 0; 0; 0; 0; 0; 0; 0; -1]; Scripted.sc_rows := [] |};
     db_ret := 0; xmode := 0 |}.

Definition torn_op : xop :=
  OpInsertNewFile {| xf_gfid := Some "g"%string; xf_path := Some "/a"%string; xf_extra := None |}
    {| st_dev := 1; st_ino := 2; st_mode := 3; st_nlink := 4; st_uid := 5; st_gid := 6;
       st_rdev := 7; st_size := 8; st_blksize := 9; st_blocks := 10; st_atime := 11;
       st_mtime := 12; st_ctime := 13 |}.

(** The return value of BEGIN is ignored: when the transaction cannot be
    opened and a later statement fails, the operation answers an error but
    leaves the file in the index without its attributes. *)
Theorem begin_failure_leaves_partial_file :
  exists x', run_xops [torn_op] torn_conn = Some ([-1], x') /\
    idx (cur (xconn x')) "/a" = Some "g"%string /\ attr (cur (xconn x')) "g" 1 = None.
Proof. eexists. split; [vm_compute; reflexivity|]. split; by vm_compute. Qed.

Definition sample_new (g p : string) : xop :=
  OpInsertNewFile {| xf_gfid := Some g; xf_path := Some p; xf_extra := None |}
    {| st_dev := 1; st_ino := 2; st_mode := 3; st_nlink := 4; st_uid := 5; st_gid := 6;
       st_rdev := 7; st_size := 8; st_blksize := 9; st_blocks := 10; st_atime := 11;
       st_mtime := 12; st_ctime := 13 |}.

Definition fresh_conn : ims_xdb Scripted.hconn :=
  {| xconn := {| Scripted.h_cur := schema_tables; Scripted.h_saved := None;
                 Scripted.h_rows := [] |};
     db_ret := 0; xmode := 0 |}.

(** [ims_xdb_remove_file] deletes the gfid row only: the number of the
    removed file is given to the next new file, whose insertion then fails on
    the attributes that the removed file left behind, although its gfid and
    path are new and nothing else fails. *)
Theorem remove_file_blocks_next_insert :
  exists x', run_xops [sample_new "g1" "/a";
      OpRemoveFile {| xf_gfid := Some "g1"%string; xf_path := None; xf_extra := None |};
      sample_new "g2" "/b"] fresh_conn = Some ([0; 0; -1], x') /\
    idx (cur (xconn x')) "/b" = None.
Proof. eexists. split; [vm_compute; reflexivity|by vm_compute]. Qed.

(** ** Witnesses *)

Lemma indexed_name_is_basename_witness :
  exists q, name_substr_pos ("/vol" ++ String slash "data") = Some q /\
    sql_substr ("/vol" ++ String slash "data") q = "data"%string /\
    name_substr ("/vol" ++ String slash "data") = Some "data"%string.
Proof. apply (indexed_name_is_basename "/vol" "data"); reflexivity. Defined.

Lemma xdb_keys_unique_witness :
  exists rs x', run_xops [torn_op] torn_conn = Some (rs, x') /\ uniq_db x'.
Proof.
  destruct (run_xops [torn_op] torn_conn) as [[rs x']|] eqn:E; [|vm_compute in E; discriminate E].
  exists rs, x'. split; [reflexivity|]. refine (xdb_keys_unique [torn_op] torn_conn x' rs _ E).
  split; [exact schema_uniq|exact I].
Defined.

Lemma db_initialize_spec_witness :
  (exists r x', db_initialize fresh_conn = Some (r, x') /\
     (r = 0 -> cur (xconn x') =
        if i32 (present (cur (xconn fresh_conn))) =? 4 then cur (xconn fresh_conn)
        else schema_tables)) /\
  map (fun n => find_nid schema_tables (Some n)) stat_names =
  map Some [IMS_XDB_ST_DEV; IMS_XDB_ST_INO; IMS_XDB_ST_MODE; IMS_XDB_ST_NLINK; IMS_XDB_ST_UID;
            IMS_XDB_ST_GID; IMS_XDB_ST_RDEV; IMS_XDB_ST_SIZE; IMS_XDB_ST_BLKSIZE;
            IMS_XDB_ST_BLOCKS; IMS_XDB_ST_ATIME; IMS_XDB_ST_MTIME; IMS_XDB_ST_CTIME].
Proof. apply (db_initialize_spec fresh_conn). Defined.
