(* ===== verification/XdbRefine.v ===== *)
(** * The index database refines an abstract index

    The specification of the index: a set of files (by gfid), a map from paths
    to files and a map from files and attribute names to values. Each
    operation that the translator performs on the database is an operation of
    this specification, or changes nothing. *)

From Stdlib Require Import ZArith Lia Bool Ascii String.
From stdpp Require Import base list strings gmap.
From S2P Require Import Prelude Sqlite SqlFacts Xdb XdbSpec.

(** ** The abstract index *)

Abbreviation value := (option Z * option Z * option string)%type.

Record index := {
  ix_gfids : gset string;
  ix_files : gmap string string;
  ix_attrs : gmap (string * string) value
}.

Definition empty_index : index :=
  {| ix_gfids := ∅; ix_files := ∅; ix_attrs := ∅ |}.

Definition int_value (v : Z) : value := (Some (i64 v), None, None).

(** The stat(2) attributes of a file, by name. *)

Definition stat_attrs (g : string) (sb : stat) : gmap (string * string) value :=
  list_to_map (zip ((fun n => (g, n)) <$> stat_names) (int_value <$> stat_values sb)).

Definition spec_new_file (g p : string) (sb : stat) (ix : index) : option index :=
  if decide (g ∈ ix_gfids ix) then None else
  match ix_files ix !! p with
  | Some _ => None
  | None => Some {| ix_gfids := {[g]} ∪ ix_gfids ix;
                    ix_files := <[p := g]> (ix_files ix);
                    ix_attrs := stat_attrs g sb ∪ ix_attrs ix |}
  end.

Definition with_files (ix : index) (m : gmap string string) : index :=
  {| ix_gfids := ix_gfids ix; ix_files := m; ix_attrs := ix_attrs ix |}.

Definition with_attrs (ix : index) (m : gmap (string * string) value) : index :=
  {| ix_gfids := ix_gfids ix; ix_files := ix_files ix; ix_attrs := m |}.

Definition spec_link (g p : string) (ix : index) : option index :=
  if decide (g ∈ ix_gfids ix) then
    match ix_files ix !! p with
    | Some _ => None
    | None => Some (with_files ix (<[p := g]> (ix_files ix)))
    end
  else None.

Definition spec_unlink (p : string) (ix : index) : option index :=
  Some (with_files ix (delete p (ix_files ix))).

(** A path that is not indexed: nothing to do. The new path must be free. *)

Definition spec_rename (o n : string) (ix : index) : option index :=
  match ix_files ix !! o with
  | None => Some ix
  | Some g =>
      if decide (n = o) then Some ix else
      match ix_files ix !! n with
      | Some _ => None
      | None => Some (with_files ix (<[n := g]> (delete o (ix_files ix))))
      end
  end.

Definition stat_name (nid : Z) : string :=
  default EmptyString (stat_names !! Z.to_nat (nid - 1)).

(** Only attributes that the file has are updated. *)

Definition spec_update (g : string) (l : list (Z * Z)) (ix : index) : index :=
  foldl (fun ix u =>
    with_attrs ix (alter (put_ival (i64 u.2)) (g, stat_name u.1) (ix_attrs ix))) ix l.

Definition spec_update_stat (g : string) (sb : stat) (op : Z) (ix : index) : option index :=
  if decide (g ∈ ix_gfids ix) then
    Some (spec_update g
      (stat_updates (if (op <? 0) || (N_IMS_XDB_STAT_OPS <=? op)
                     then IMS_XDB_STAT_OP_ALL else op) sb) ix)
  else None.

Definition spec_setxattr (g name : string) (a : ims_xdb_attr) (ix : index) : option index :=
  if valid_type (xa_type a) && bool_decide (g ∈ ix_gfids ix) then
    Some (with_attrs ix (<[(g, name) := attr_values a]> (ix_attrs ix)))
  else None.

(** The operations with their arguments present and their paths absolute. *)

Definition spec_xop (o : xop) (ix : index) : option index :=
  match o with
  | OpInsertNewFile f sb => g ← xf_gfid f; p ← xf_path f; spec_new_file g p sb ix
  | OpLinkFile f => g ← xf_gfid f; p ← xf_path f; spec_link g p ix
  | OpUnlinkFile f => p ← xf_path f; spec_unlink p ix
  | OpRename f => o ← xf_path f; n ← xf_extra f; spec_rename o n ix
  | OpUpdateStat f sb op => g ← xf_gfid f; spec_update_stat g sb op ix
  | OpSetxattr a => g ← xa_gfid a; n ← xa_name a; spec_setxattr g n a ix
  | _ => None
  end.

Definition has_slash (p : string) : bool := bool_decide (is_Some (rindex slash p)).

Definition xop_ok (o : xop) : bool :=
  match o with
  | OpInsertNewFile f _ | OpLinkFile f =>
      match xf_gfid f, xf_path f with Some _, Some p => has_slash p | _, _ => false end
  | OpUnlinkFile f => bool_decide (is_Some (xf_path f))
  | OpRename f =>
      match xf_path f, xf_extra f with Some _, Some n => has_slash n | _, _ => false end
  | OpUpdateStat f _ _ => bool_decide (is_Some (xf_gfid f))
  | OpSetxattr a => bool_decide (is_Some (xa_gfid a)) && bool_decide (is_Some (xa_name a))
  | _ => false
  end.

(** ** The tables that represent an index *)

Definition attr_named (t : tables) (g name : string) : option value :=
  n ← find_nid t (Some name); attr t g n.

Record repr (t : tables) (ix : index) : Prop := {
  r_wf : wf_tables t;
  r_nids : forall k name, stat_names !! k = Some name ->
    find_nid t (Some name) = Some (Z.of_nat k + 1);
  r_gfids : forall g, g ∈ ix_gfids ix <-> is_Some (find_gid t (Some g));
  r_files : forall p, idx t p = ix_files ix !! p;
  r_attrs : forall g name, attr_named t g name = ix_attrs ix !! (g, name);
  r_fresh : forall g n, ~ n ∈ (n_nid <$> xname t) -> attr t g n = None
}.

Lemma find_nid_elem t name n : find_nid t (Some name) = Some n -> n ∈ (n_nid <$> xname t).
Proof.
  unfold find_nid. cbn [mbind option_bind]. destruct (head _) as [r|] eqn:E; [|done].
  apply head_filter_Some in E as [Hr _]. cbn. intros [= <-]. by apply list_elem_of_fmap_2.
Qed.

Lemma repr_schema : repr schema_tables empty_index.
Proof.
  split; [apply wf_schema| | | | |done].
  - intros k name Hk. do 13 (destruct k as [|k]; [injection Hk as <-; done|]). done.
  - intros g. split; [set_solver|by intros [? ?]].
  - intros p. cbn [ix_files empty_index]. by rewrite lookup_empty.
  - intros g name. cbn [ix_attrs empty_index]. rewrite lookup_empty. unfold attr_named, attr. by destruct (find_nid _ _).
Qed.

(** In well-formed tables every file row leads to a gfid. *)

Lemma idx_Some t p r : wf_tables t -> file_row t p = Some r -> is_Some (idx t p).
Proof.
  intros Hwf Hr. unfold idx. rewrite Hr. cbn. apply file_row_elem in Hr as [Hr _].
  apply (wf_file_ref t Hwf) in Hr. apply list_elem_of_fmap in Hr as (y & Hy & Hin).
  unfold by_gid. rewrite Hy, (head_filter_key g_gid _ y); [eauto| |done].
  apply uniq_gid, Hwf.
Qed.

Lemma idx_None t p : wf_tables t -> idx t p = None <-> file_row t p = None.
Proof.
  intros Hwf. split.
  - intros Hi. destruct (file_row t p) as [r|] eqn:E; [|done].
    destruct (idx_Some _ _ _ Hwf E). congruence.
  - intros E. unfold idx. by rewrite E.
Qed.

Lemma find_nid_inj t a b n :
  wf_tables t -> find_nid t (Some a) = Some n -> find_nid t (Some b) = Some n -> a = b.
Proof.
  intros Hwf. unfold find_nid. cbn [mbind option_bind].
  destruct (head (filter (fun r => n_name r = a) _)) as [x|] eqn:Ea; [|done].
  destruct (head (filter (fun r => n_name r = b) _)) as [y|] eqn:Eb; [|done].
  apply head_filter_Some in Ea as [Hx <-], Eb as [Hy <-]. cbn. intros [= <-] [= Hn].
  pose proof (head_filter_key n_nid _ _ (uniq_nid _ (wf_uniq _ Hwf)) Hx) as H1.
  pose proof (head_filter_key n_nid _ _ (uniq_nid _ (wf_uniq _ Hwf)) Hy) as H2.
  rewrite Hn in H2. congruence.
Qed.

(** ** Each operation on tables is one on the index *)

Lemma stat_attrs_keys (g : string) sb :
  (zip ((fun n => (g, n)) <$> stat_names) (int_value <$> stat_values sb)).*1 =
  ((fun n => (g, n)) <$> stat_names).
Proof. done. Qed.

Lemma stat_attrs_Some g sb k name v :
  stat_names !! k = Some name -> stat_values sb !! k = Some v ->
  stat_attrs g sb !! (g, name) = Some (int_value v).
Proof.
  intros Hn Hv. apply elem_of_list_to_map_1.
  - rewrite stat_attrs_keys. apply NoDup_fmap_2; [by intros ?? [= ->]|].
    apply (bool_decide_unpack _). by vm_compute.
  - apply list_elem_of_lookup. exists k. rewrite lookup_zip_with, !list_lookup_fmap.
    by rewrite Hn, Hv.
Qed.

Lemma stat_attrs_None g sb g' name :
  g' <> g \/ ~ name ∈ stat_names -> stat_attrs g sb !! (g', name) = None.
Proof.
  intros H. apply not_elem_of_list_to_map_1. rewrite stat_attrs_keys.
  intros (n & [= -> ->] & Hn)%list_elem_of_fmap. destruct H; done.
Qed.

Lemma stat_value_at sb k : (k < 13)%nat -> is_Some (stat_values sb !! k).
Proof. intros. by apply lookup_lt_is_Some. Qed.

(** The number of a name that is not a stat attribute is not one of theirs. *)

Lemma other_nid t ix name n :
  repr t ix -> find_nid t (Some name) = Some n -> ~ name ∈ stat_names -> n < 1 \/ 14 <= n.
Proof.
  intros Hr Hn Hs. destruct (decide (n < 1 \/ 14 <= n)) as [|Hd]; [done|]. destruct Hs.
  destruct (stat_names !! Z.to_nat (n - 1)) as [m|] eqn:E.
  2: { apply lookup_ge_None in E. change (length stat_names) with 13%nat in E. lia. }
  pose proof (r_nids _ _ Hr _ _ E) as Hm. replace (Z.of_nat _ + 1) with n in Hm by lia.
  rewrite (find_nid_inj t name m n); [|apply Hr|done..]. by eapply list_elem_of_lookup_2.
Qed.

Lemma fresh_nid t ix n :
  repr t ix -> ~ n ∈ (n_nid <$> xname t) -> n < 1 \/ 14 <= n.
Proof.
  intros Hr Hn. destruct (decide (n < 1 \/ 14 <= n)) as [|Hd]; [done|]. destruct Hn.
  destruct (stat_names !! Z.to_nat (n - 1)) as [m|] eqn:E.
  2: { apply lookup_ge_None in E. change (length stat_names) with 13%nat in E. lia. }
  pose proof (r_nids _ _ Hr _ _ E) as Hm. replace (Z.of_nat _ + 1) with n in Hm by lia.
  by eapply find_nid_elem.
Qed.

Lemma find_nid_xname t t' n : xname t' = xname t -> find_nid t' n = find_nid t n.
Proof. intros H. unfold find_nid. by rewrite H. Qed.

Lemma repr_new_file f g p q sb t t' ix :
  repr t ix -> room t -> xf_gfid f = Some g -> new_file_tables f p q sb t = Some t' ->
  exists ix', spec_new_file g p sb ix = Some ix' /\ repr t' ix'.
Proof.
  intros Hr Hroom Hg H. eapply new_file_effect in H as (Hg0&Hp0&Hi&_&Hs&Ha&Hfg&Hn&Hwf);
    [|done|apply Hr|done].
  unfold spec_new_file. rewrite decide_False.
  2: { rewrite (r_gfids _ _ Hr), Hg0. by intros [? ?]. }
  rewrite <- (r_files _ _ Hr), (proj2 (idx_None _ _ (r_wf _ _ Hr)) Hp0).
  eexists. split; [done|]. split; cbn [ix_gfids ix_files ix_attrs]; [done|..].
  - intros k name Hk. rewrite (find_nid_xname t) by done. by apply Hr.
  - intros g'. rewrite elem_of_union, elem_of_singleton, Hfg, (r_gfids _ _ Hr). done.
  - intros p'. rewrite Hi, lookup_insert. case_decide; [done|]. apply Hr.
  - intros g' name. unfold attr_named. rewrite (find_nid_xname t) by done.
    destruct (decide (g' = g /\ name ∈ stat_names)) as [[-> [k Hk]%list_elem_of_lookup]|Hd].
    + rewrite (r_nids _ _ Hr k name Hk). cbn [mbind option_bind].
      destruct (stat_value_at sb k) as [v Hv].
      { apply lookup_lt_Some in Hk. done. }
      rewrite (Hs k v Hv). symmetry. apply lookup_union_Some_l. by eapply stat_attrs_Some.
    + assert (g' <> g \/ ~ name ∈ stat_names) as Hd' by (by apply not_and_l in Hd).
      rewrite lookup_union_r by (by apply stat_attrs_None).
      rewrite <- (r_attrs _ _ Hr). unfold attr_named.
      destruct (find_nid t (Some name)) as [n|] eqn:En; [|done]. cbn. apply Ha.
      destruct Hd' as [|Hd']; [by left|right]. by eapply other_nid.
  - intros g' n Hnn. rewrite Hn in Hnn. rewrite Ha; [by apply Hr|right]. by eapply fresh_nid.
Qed.

Lemma new_file_accepted f g p q sb t ix :
  repr t ix -> room t -> xf_gfid f = Some g -> is_Some (spec_new_file g p sb ix) ->
  is_Some (new_file_tables f p q sb t).
Proof.
  intros Hr Hroom Hg Hs. eapply new_file_defined; [done|apply Hr|done|..];
    unfold spec_new_file in Hs.
  - destruct (find_gid t (Some g)) eqn:E; [|done]. rewrite decide_True in Hs.
    + by destruct Hs.
    + apply (r_gfids _ _ Hr). rewrite E. eauto.
  - apply idx_None; [apply Hr|]. rewrite (r_files _ _ Hr).
    case_decide; [by destruct Hs|]. by destruct (ix_files ix !! p); [destruct Hs|].
Qed.

Lemma repr_link g p q t t' ix :
  repr t ix -> sql_insert_file (Some g) (Some p) (Some p) (Some q) t = Some t' ->
  exists ix', spec_link g p ix = Some ix' /\ repr t' ix'.
Proof.
  intros Hr H. assert (is_Some (find_gid t (Some g))) as Hg.
  { unfold sql_insert_file in H. destruct (find_gid t (Some g)); [eauto|done]. }
  apply insert_file_effect in H as (Hp0&Hi&_&Ha&Hfg&Hn&_&Hwf); [|apply Hr].
  unfold spec_link. rewrite decide_True by (by apply (r_gfids _ _ Hr)).
  rewrite <- (r_files _ _ Hr), (proj2 (idx_None _ _ (r_wf _ _ Hr)) Hp0).
  eexists. split; [done|]. split; cbn [with_files ix_gfids ix_files ix_attrs]; [done|..].
  - intros k name Hk. rewrite (find_nid_xname t) by done. by apply Hr.
  - intros g'. rewrite Hfg. apply Hr.
  - intros p'. rewrite Hi, lookup_insert. case_decide; [done|]. apply Hr.
  - intros g' name. rewrite <- (r_attrs _ _ Hr). unfold attr_named.
    rewrite (find_nid_xname t) by done. destruct (find_nid t _); [|done]. cbn. apply Ha.
  - intros g' n Hnn. rewrite Hn in Hnn. rewrite Ha. by apply Hr.
Qed.

Lemma link_accepted g p q t ix :
  repr t ix -> room t -> is_Some (spec_link g p ix) ->
  is_Some (sql_insert_file (Some g) (Some p) (Some p) (Some q) t).
Proof.
  intros Hr Hroom Hs. unfold spec_link in Hs. case_decide as Hg; [|by destruct Hs].
  apply (r_gfids _ _ Hr) in Hg as [gid Hg]. unfold sql_insert_file. rewrite Hg.
  cbn [mbind option_bind]. rewrite decide_False.
  - destruct (next_rowid_Some (f_fid <$> xfile t)) as [i Hi]; [apply Hroom|].
    rewrite Hi. eauto.
  - apply file_row_None, idx_None; [apply Hr|]. rewrite (r_files _ _ Hr).
    by destruct (ix_files ix !! p); [destruct Hs|].
Qed.

Lemma repr_unlink p t ix :
  repr t ix -> repr (sql_unlink_file (Some p) t) (with_files ix (delete p (ix_files ix))).
Proof.
  intros Hr. destruct (unlink_effect p t) as (Hi&Ha&Hwf); [apply Hr|].
  split; cbn [with_files ix_gfids ix_files ix_attrs]; [done|apply Hr|apply Hr|..|apply Hr|apply Hr].
  intros p'. rewrite Hi, lookup_delete. case_decide; [done|]. apply Hr.
Qed.

Lemma repr_rename o n q t t' ix :
  repr t ix -> sql_rename (Some n) (Some n) (Some q) (Some o) t = Some t' ->
  exists ix', spec_rename o n ix = Some ix' /\ repr t' ix'.
Proof.
  intros Hr H. assert (xname t' = xname t /\ xgfid t' = xgfid t) as [Hn Hx].
  { apply rename_lookups in H as (_&_&_&Hx&Hn&_); [done|apply Hr]. }
  apply rename_effect in H as (Hno&Hyes&Ha&Hwf); [|apply Hr].
  assert (forall m, (forall p, idx t' p = m !! p) -> repr t' (with_files ix m)) as Hrepr.
  { intros m Hm. split; cbn [with_files ix_gfids ix_files ix_attrs]; [done|..].
    - intros k name Hk. rewrite (find_nid_xname t) by done. by apply Hr.
    - intros g'. unfold find_gid. rewrite Hx. apply Hr.
    - done.
    - intros g' name. rewrite <- (r_attrs _ _ Hr). unfold attr_named.
      rewrite (find_nid_xname t) by done. destruct (find_nid t _); [|done]. cbn. apply Ha.
    - intros g' k Hk. rewrite Hn in Hk. rewrite Ha. by apply Hr. }
  unfold spec_rename. destruct (file_row t o) as [r|] eqn:Ho.
  2: { rewrite <- (r_files _ _ Hr), (proj2 (idx_None _ _ (r_wf _ _ Hr)) Ho).
       rewrite Hno by done. eauto. }
  destruct Hyes as (Hfree&_&Hi); [eauto|].
  destruct (idx_Some _ _ _ (r_wf _ _ Hr) Ho) as [g Hg]. rewrite (r_files _ _ Hr) in Hg.
  rewrite Hg. destruct (decide (n = o)) as [->|Hne].
  - exists ix. split; [done|]. replace ix with (with_files ix (ix_files ix)) by (by destruct ix).
    apply Hrepr. intros p. rewrite Hi. case_decide; subst; apply Hr.
  - destruct Hfree as [|Hfree]; [done|].
    rewrite <- (r_files _ _ Hr), (proj2 (idx_None _ _ (r_wf _ _ Hr)) Hfree).
    eexists. split; [done|]. apply Hrepr. intros p.
    rewrite Hi, lookup_insert, lookup_delete, (r_files _ _ Hr), Hg.
    case_decide; [done|]. case_decide; [done|]. apply Hr.
Qed.

Lemma rename_accepted o n q t ix :
  repr t ix -> is_Some (spec_rename o n ix) ->
  is_Some (sql_rename (Some n) (Some n) (Some q) (Some o) t).
Proof.
  intros Hr Hs. unfold spec_rename in Hs. destruct (ix_files ix !! o) as [g|] eqn:Ho.
  - apply rename_defined. case_decide; [by left|right]. apply idx_None; [apply Hr|].
    rewrite (r_files _ _ Hr). by destruct (ix_files ix !! n); [destruct Hs|].
  - unfold sql_rename. rewrite decide_False; [eauto|].
    rewrite <- (r_files _ _ Hr) in Ho. apply idx_None in Ho; [|apply Hr].
    apply file_row_None in Ho. intros (r & Hin & [= <-])%Exists_exists.
    by apply Ho, list_elem_of_fmap_2.
Qed.

(** Only numbers of stat attributes are updated. *)

Lemma repr_update v g gid k name t ix :
  repr t ix -> find_gid t (Some g) = Some gid -> stat_names !! k = Some name ->
  repr (sql_update_stat (Some v) (Some gid) (Some (Z.of_nat k + 1)) t)
       (with_attrs ix (alter (put_ival v) (g, name) (ix_attrs ix))).
Proof.
  intros Hr Hg Hk.
  destruct (update_stat_effect v g gid (Z.of_nat k + 1) t) as (Hi&Ha&Hf&Hwf); [apply Hr|done|].
  split; cbn [with_attrs ix_gfids ix_files ix_attrs]; [done|apply Hr|apply Hr|apply Hr| |].
  2: { intros g' n Hn. rewrite Ha. rewrite (r_fresh _ _ Hr g' n Hn). by case_decide. }
  intros g' name'. rewrite lookup_alter.
  destruct (decide ((g, name) = (g', name'))) as [[= <- <-]|Hne];
    rewrite <- (r_attrs _ _ Hr); unfold attr_named; rewrite (find_nid_xname t) by done.
  - rewrite (r_nids _ _ Hr _ _ Hk). cbn [mbind option_bind]. by rewrite Ha, decide_True.
  - destruct (find_nid t (Some name')) as [n|] eqn:En; [|done]. cbn [mbind option_bind].
    rewrite Ha, decide_False; [done|]. intros [= -> <-]. apply Hne. f_equal.
    eapply find_nid_inj; [apply Hr| |done]. by apply Hr.
Qed.

Definition stat_nid (n : Z) : bool := (1 <=? n) && (n <=? 13).

Lemma stat_updates_nids op sb : Forall (fun u => stat_nid u.1 = true) (stat_updates op sb).
Proof.
  unfold stat_updates. destruct (op =? IMS_XDB_STAT_OP_ALL), (op =? IMS_XDB_STAT_OP_OWNER),
    (op =? IMS_XDB_STAT_OP_WRITE); repeat constructor.
Qed.

Lemma repr_updates g gid l t ix :
  repr t ix -> find_gid t (Some g) = Some gid -> Forall (fun u => stat_nid u.1 = true) l ->
  repr (apply_updates gid l t) (spec_update g l ix).
Proof.
  intros Hr Hg Hl. revert t ix Hr Hg. induction Hl as [|[n v] l Hn Hl IH]; intros t ix Hr Hg;
    [done|]. simpl in Hn. unfold stat_nid in Hn.
  change (repr
    (apply_updates gid l (sql_update_stat (Some (i64 v)) (Some (i32 gid)) (Some n) t))
    (spec_update g l
       (with_attrs ix (alter (put_ival (i64 v)) (g, stat_name n) (ix_attrs ix))))).
  rewrite (find_gid_i32 _ _ _ (r_wf _ _ Hr) Hg). apply IH; [|done].
  unfold stat_name. destruct (stat_names !! Z.to_nat (n - 1)) as [name|] eqn:E.
  2: { apply lookup_ge_None in E. change (length stat_names) with 13%nat in E. lia. }
  pose proof (repr_update (i64 v) g gid _ _ _ _ Hr Hg E) as H.
  by replace (Z.of_nat _ + 1) with n in H by lia.
Qed.

Lemma repr_setxattr a g name t t' ix :
  repr t ix -> xa_gfid a = Some g -> xa_name a = Some name -> setxattr_tables a t = Some t' ->
  exists ix', spec_setxattr g name a ix = Some ix' /\ repr t' ix'.
Proof.
  intros Hr Hg Hn H. unfold spec_setxattr.
  assert (valid_type (xa_type a) = true) as Hty.
  { unfold setxattr_tables in H. by destruct (valid_type _). }
  eapply setxattr_effect in H as (n&Hcase&Hfind&Hnids&Hi&Ha&Hx&Hgid&Hwf); [|done|done|apply Hr].
  rewrite Hty, bool_decide_true by (by apply (r_gfids _ _ Hr)). cbn [andb].
  assert (find_nid t' (Some name) = Some n) as Hnew by (by rewrite Hfind, decide_True).
  eexists. split; [done|]. split; cbn [with_attrs ix_gfids ix_files ix_attrs]; [done|..].
  - intros k m Hk. rewrite Hfind. pose proof (r_nids _ _ Hr _ _ Hk) as Hm.
    case_decide; [subst|done]. destruct Hcase as [Hc|[Hc _]]; congruence.
  - intros g'. unfold find_gid. rewrite Hx. apply Hr.
  - intros p. rewrite Hi. apply Hr.
  - intros g' m. rewrite lookup_insert, <- (r_attrs _ _ Hr). unfold attr_named.
    destruct (decide (name = m)) as [<-|Hm].
    + rewrite Hnew. cbn [mbind option_bind]. rewrite Ha.
      destruct (decide (g = g')) as [<-|Hgg]; [by rewrite !decide_True|].
      rewrite !decide_False by congruence.
      destruct Hcase as [Hc|[Hc Hfr]]; rewrite Hc; [done|]. by apply (r_fresh _ _ Hr).
    + rewrite Hfind, decide_False by done. rewrite decide_False by congruence.
      destruct (find_nid t (Some m)) as [k|] eqn:Ek; [|done]. cbn [mbind option_bind].
      rewrite Ha, decide_False; [done|]. intros [= _ ->]. apply Hm.
      eapply (find_nid_inj t'); [done|done|]. by rewrite Hfind, decide_False.
  - intros g' k Hk. rewrite Ha. rewrite decide_False.
    + apply (r_fresh _ _ Hr). by intros ?%Hnids.
    + intros [= _ <-]. apply Hk. by eapply find_nid_elem.
Qed.

Lemma setxattr_accepted a g name t ix :
  repr t ix -> room t -> xa_gfid a = Some g -> xa_name a = Some name ->
  is_Some (spec_setxattr g name a ix) -> is_Some (setxattr_tables a t).
Proof.
  intros Hr Hroom Hg Hn Hs. unfold spec_setxattr in Hs. unfold setxattr_tables.
  destruct (valid_type _); [|by destruct Hs]. cbn [andb] in Hs.
  case_bool_decide as Hgi; [|by destruct Hs]. apply (r_gfids _ _ Hr) in Hgi as [gid Hgid].
  rewrite Hg, Hn. cbn [mbind option_bind].
  destruct (sql_insert_xname (Some name) t) as [t1|] eqn:E1; cbn [mbind option_bind].
  2: { unfold sql_insert_xname in E1. case_decide; [done|].
       destruct (next_rowid_Some (n_nid <$> xname t)) as [i Hi]; [apply Hroom|].
       by rewrite Hi in E1. }
  apply insert_xname_effect in E1 as ((n&Hc)&Hx1&Hf1&Hd1&_); [|apply Hr].
  unfold sql_insert_xdata. replace (find_gid t1 (Some g)) with (find_gid t (Some g))
    by (unfold find_gid; by rewrite Hx1).
  rewrite Hgid. cbn [mbind option_bind].
  assert (find_nid t1 (Some name) = Some n) as ->.
  { destruct Hc as [[? ->]|(_&_&Hm&_)]; [done|]. by rewrite Hm, decide_True. }
  cbn [mbind option_bind]. rewrite Hd1.
  destruct (next_rowid_Some (x_xid <$> xdata t)) as [i Hi]; [pose proof (room_xid _ Hroom); lia|].
  rewrite Hi. eauto.
Qed.

(** ** The operations of the code *)

Definition name_pos (p : string) : Z := default 0 (name_substr_pos p).

Lemma has_slash_pos p : has_slash p = true -> name_substr_pos p = Some (name_pos p).
Proof.
  unfold has_slash, name_pos, name_substr_pos. rewrite bool_decide_eq_true.
  by intros [i ->].
Qed.

(** What an operation makes of the tables when it succeeds. *)

Definition xop_tables (o : xop) (t : tables) : option tables :=
  match o with
  | OpInsertNewFile f sb => p ← xf_path f; new_file_tables f p (name_pos p) sb t
  | OpLinkFile f => p ← xf_path f; sql_insert_file (xf_gfid f) (Some p) (Some p) (Some (name_pos p)) t
  | OpUnlinkFile f => Some (sql_unlink_file (xf_path f) t)
  | OpRename f =>
      n ← xf_extra f; sql_rename (Some n) (Some n) (Some (name_pos n)) (xf_path f) t
  | OpUpdateStat f sb op =>
      gid ← find_gid t (xf_gfid f);
      Some (apply_updates gid
        (stat_updates (if (op <? 0) || (N_IMS_XDB_STAT_OPS <=? op)
                       then IMS_XDB_STAT_OP_ALL else op) sb) t)
  | OpSetxattr a => setxattr_tables a t
  | _ => None
  end.

Lemma repr_xop o t t' ix :
  xop_ok o = true -> repr t ix -> room t -> xop_tables o t = Some t' ->
  exists ix', spec_xop o ix = Some ix' /\ repr t' ix'.
Proof.
  intros Hok Hr Hroom. destruct o; cbn [xop_ok xop_tables spec_xop] in *; try done.
  - destruct (xf_gfid f) as [g|] eqn:Hg, (xf_path f) as [p|] eqn:Hp; try done.
    cbn [mbind option_bind]. by apply repr_new_file.
  - destruct (xf_gfid f) as [g|] eqn:Hg, (xf_path f) as [p|] eqn:Hp; try done.
    cbn [mbind option_bind]. by apply repr_link.
  - destruct (xf_path f) as [p|]; [|done]. intros [= <-]. eexists. split; [done|].
    by apply repr_unlink.
  - destruct (xf_path f) as [p|], (xf_extra f) as [n|]; try done.
    cbn [mbind option_bind]. by apply repr_rename.
  - destruct (xf_gfid f) as [g|]; [|done]. destruct (find_gid t _) as [gid|] eqn:Hgid; [|done].
    cbn [mbind option_bind]. intros [= <-]. unfold spec_update_stat.
    rewrite decide_True by (apply (r_gfids _ _ Hr); rewrite Hgid; eauto).
    eexists. split; [done|]. apply repr_updates; [done..|]. apply stat_updates_nids.
  - destruct (xa_gfid a) as [g|] eqn:Hg, (xa_name a) as [n|] eqn:Hn; try done.
    cbn [mbind option_bind]. by apply repr_setxattr.
Qed.

Lemma xop_accepted o t ix :
  repr t ix -> room t -> is_Some (spec_xop o ix) -> is_Some (xop_tables o t).
Proof.
  intros Hr Hroom. destruct o; cbn [xop_tables spec_xop]; try by intros [? ?].
  - destruct (xf_gfid f) as [g|] eqn:Hg, (xf_path f) as [p|] eqn:Hp;
      cbn [mbind option_bind]; try by intros [? ?]. by eapply new_file_accepted.
  - destruct (xf_gfid f) as [g|] eqn:Hg, (xf_path f) as [p|] eqn:Hp;
      cbn [mbind option_bind]; try by intros [? ?]. by eapply link_accepted.
  - destruct (xf_path f) as [p|], (xf_extra f) as [n|]; cbn [mbind option_bind];
      try by intros [? ?]. by eapply rename_accepted.
  - destruct (xf_gfid f) as [g|]; cbn [mbind option_bind]; [|by intros [? ?]].
    unfold spec_update_stat. case_decide as Hg; [|by intros [? ?]].
    apply (r_gfids _ _ Hr) in Hg as [gid ->]. eauto.
  - destruct (xa_gfid a) as [g|] eqn:Hg, (xa_name a) as [n|] eqn:Hn;
      cbn [mbind option_bind]; try by intros [? ?]. by eapply setxattr_accepted.
Qed.

Lemma xop_budget o k t t' :
  xop_ok o = true -> budget k t -> xop_tables o t = Some t' -> budget (k + 1) t'.
Proof.
  intros Hok Hb. assert (forall t, budget k t -> budget (k + 1) t) as Hmono
    by (intros; eapply budget_mono; [done|lia]).
  destruct o; cbn [xop_ok xop_tables] in *; try done.
  - destruct (xf_gfid f) as [g|] eqn:Hg, (xf_path f) as [p|] eqn:Hp; try done.
    cbn [mbind option_bind]. by eapply new_file_budget.
  - destruct (xf_gfid f) as [g|] eqn:Hg, (xf_path f) as [p|] eqn:Hp; try done.
    cbn [mbind option_bind]. by eapply insert_file_budget.
  - destruct (xf_path f) as [p|]; [|done]. intros [= <-]. by apply Hmono, unlink_budget.
  - destruct (xf_path f) as [p|], (xf_extra f) as [n|]; try done.
    cbn [mbind option_bind]. intros H. apply Hmono. by eapply rename_budget.
  - destruct (find_gid t _) as [gid|]; [|done]. cbn [mbind option_bind]. intros [= <-].
    by apply Hmono, apply_updates_budget.
  - by apply setxattr_budget.
Qed.

Section refinement.
Context {conn : Type} `{!SqlEngine conn, !SqlLaws conn, !ReliableTx conn}.
Implicit Types (x : ims_xdb conn).

Lemma stmt_atomic s x v r :
  saved (xconn x) = None -> stmt_post s (view x) v r ->
  atomic (sql_apply s (cur (xconn x))) (view x) v r.
Proof.
  intros Hs. assert (view x = (cur (xconn x), None)) as -> by (unfold view; by rewrite Hs).
  intros [(->&Ha&Hv)|[Hr Hab%aborted_idle]]; cbn [fst snd] in *.
  - split; [done|]. left. done.
  - by apply atomic_fail.
Qed.

(** All of the operation's effect or none of it, whatever fails. *)

Lemma xop_outcome o x :
  xop_ok o = true -> saved (xconn x) = None ->
  wp (run_xop o)
     (fun r x' => atomic (xop_tables o (cur (xconn x))) (view x) (view x') r) x.
Proof.
  intros Hok Hs. destruct o; cbn [xop_ok xop_tables run_xop] in *; try done.
  - destruct (xf_gfid f) as [g|] eqn:Hg, (xf_path f) as [p|] eqn:Hp; try done.
    apply has_slash_pos in Hok. by apply insert_new_file_outcome.
  - destruct (xf_gfid f) as [g|] eqn:Hg, (xf_path f) as [p|] eqn:Hp; try done.
    apply has_slash_pos in Hok. eapply wp_mono; [by apply link_file_outcome|].
    cbn beta. intros r x'. by apply stmt_atomic.
  - destruct (xf_path f) as [p|] eqn:Hp; [|done].
    eapply wp_mono; [by apply unlink_file_outcome|]. cbn beta. intros r x'. by apply stmt_atomic.
  - destruct (xf_path f) as [p|] eqn:Hp, (xf_extra f) as [n|] eqn:Hn; try done.
    apply has_slash_pos in Hok. eapply wp_mono; [by apply rename_outcome|].
    cbn beta. intros r x'. by apply stmt_atomic.
  - destruct (xf_gfid f) as [g|] eqn:Hg; [|done]. by apply update_stat_outcome.
  - by apply setxattr_outcome.
Qed.

Lemma xop_refines o x ix k :
  xop_ok o = true -> saved (xconn x) = None -> repr (cur (xconn x)) ix ->
  budget k (cur (xconn x)) -> k < 2 ^ 31 - 1 ->
  wp (run_xop o) (fun r x' => saved (xconn x') = None /\
     ((r = 0 /\ exists ix', spec_xop o ix = Some ix' /\ repr (cur (xconn x')) ix' /\
         budget (k + 1) (cur (xconn x'))) \/
      (r <> 0 /\ cur (xconn x') = cur (xconn x)))) x.
Proof.
  intros Hok Hs Hr Hb Hk. eapply wp_mono; [by apply xop_outcome|].
  unfold atomic, view. cbn [fst snd]. intros r x' [Hs' [[-> Ht]|[Hne Heq]]].
  - split; [done|left]. split; [done|]. 
    destruct (repr_xop _ _ _ _ Hok Hr (budget_room _ _ Hb Hk) Ht) as (ix' & Hix' & Hr'). exists ix'. split_and!; [done..|]. by eapply xop_budget.
  - split; [done|by right].
Qed.

(** What the results of a sequence of operations say of the index: those that
    answered 0 took effect, in their order, and the others did not. *)

Fixpoint spec_log (l : list xop) (rs : list Z) (ix : index) : option index :=
  match l, rs with
  | [], [] => Some ix
  | o :: l', r :: rs' =>
      if r =? 0 then ix' ← spec_xop o ix; spec_log l' rs' ix' else spec_log l' rs' ix
  | _, _ => None
  end.

Lemma run_xops_log l x ix k :
  Forall (fun o => xop_ok o = true) l ->
  saved (xconn x) = None -> repr (cur (xconn x)) ix ->
  budget k (cur (xconn x)) -> k + Z.of_nat (length l) < 2 ^ 31 ->
  wp (run_xops l) (fun rs x' => saved (xconn x') = None /\
     exists ix', spec_log l rs ix = Some ix' /\ repr (cur (xconn x')) ix') x.
Proof.
  intros Hl. revert x ix k. induction Hl as [|o l Ho Hl IH]; intros x ix k Hs Hr Hb Hk;
    cbn [run_xops].
  { apply wp_ret. split; [done|]. by exists ix. }
  simpl length in Hk. apply wp_bind. eapply wp_mono; [apply (xop_refines o x ix k); [done..|lia]|].
  cbn beta. intros r x1 [Hs1 [[-> (ix1&Hix1&Hr1&Hb1)]|[Hne Heq]]]; apply wp_bind.
  - eapply wp_mono; [apply (IH x1 ix1 (k + 1)); [done..|lia]|].
    cbn beta. intros rs x2 (Hs2&ix2&Hlog&Hr2). apply wp_ret. split; [done|].
    exists ix2. split; [|done]. cbn. by rewrite Hix1.
  - eapply wp_mono; [apply (IH x1 ix k); [done|by rewrite Heq|by rewrite Heq|lia]|].
    cbn beta. intros rs x2 (Hs2&ix2&Hlog&Hr2). apply wp_ret. split; [done|].
    exists ix2. split; [|done]. cbn. by rewrite (proj2 (Z.eqb_neq _ _) Hne).
Qed.

End refinement.

Section completeness.
Context {conn : Type} `{!SqlEngine conn, !SqlLaws conn, !ReliableTx conn, !HealthyEngine conn}.
Implicit Types (x : ims_xdb conn).

(** When nothing fails, an operation that the tables allow succeeds. *)

Lemma xop_succeeds o x :
  xop_ok o = true -> saved (xconn x) = None -> is_Some (xop_tables o (cur (xconn x))) ->
  wp (run_xop o) (fun r _ => r = 0) x.
Proof.
  intros Hok Hs [t' Ht]. destruct o; cbn [xop_ok xop_tables run_xop] in *; try done.
  - destruct (xf_gfid f) as [g|] eqn:Hg, (xf_path f) as [p|] eqn:Hp; try done.
    apply has_slash_pos in Hok. eapply wp_mono; [by eapply insert_new_file_h|]. by intros r ? [-> _].
  - destruct (xf_gfid f) as [g|] eqn:Hg, (xf_path f) as [p|] eqn:Hp; try done.
    apply has_slash_pos in Hok. eapply wp_mono; [by eapply link_file_h|]. by intros r ? [-> _].
  - destruct (xf_path f) as [p|] eqn:Hp; [|done].
    eapply wp_mono; [by eapply unlink_file_h|]. by intros r ? [-> _].
  - destruct (xf_path f) as [p|] eqn:Hp, (xf_extra f) as [n|] eqn:Hn; try done.
    apply has_slash_pos in Hok. eapply wp_mono; [by eapply rename_h|]. by intros r ? [-> _].
  - destruct (xf_gfid f) as [g|] eqn:Hg; [|done].
    destruct (find_gid _ (Some g)) as [gid|] eqn:Hgid; [|done]. by eapply update_stat_h.
  - by eapply setxattr_h.
Qed.

(** One operation of the specification on a healthy engine. *)

Lemma xop_refines_healthy o x ix k :
  xop_ok o = true -> saved (xconn x) = None -> repr (cur (xconn x)) ix ->
  budget k (cur (xconn x)) -> k < 2 ^ 31 - 1 ->
  wp (run_xop o) (fun r x' => saved (xconn x') = None /\
     match spec_xop o ix with
     | Some ix' => r = 0 /\ repr (cur (xconn x')) ix' /\ budget (k + 1) (cur (xconn x'))
     | None => r <> 0 /\ cur (xconn x') = cur (xconn x)
     end) x.
Proof.
  intros Hok Hs Hr Hb Hk. pose proof (xop_refines o x ix k Hok Hs Hr Hb Hk) as H.
  apply wp_Some in H as (r & x' & Hrun & Hs' & Hout). unfold wp. rewrite Hrun.
  split; [done|]. destruct (spec_xop o ix) as [ix'|] eqn:Hspec.
  - assert (r = 0) as ->.
    { refine (wp_run _ (fun r _ => r = 0) _ _ _ _ Hrun). apply xop_succeeds; [done..|].
      eapply xop_accepted; [done|by eapply budget_room|by eauto]. }
    destruct Hout as [(_&ix1&Hix1&Hr1&Hb1)|[? _]]; [|done]. naive_solver.
  - destruct Hout as [(_&ix1&Hix1&_)|?]; [done|]. done.
Qed.

End completeness.

(** ** The properties *)

(** C1. The index database implements the abstract index whatever calls of
    prepare, bind and step fail, as long as BEGIN, END and ROLLBACK succeed
    (the code ignores their results; [begin_failure_leaves_partial_file] shows
    what happens otherwise): from a fresh database, any sequence of file
    insertions, links, unlinks, renames, stat updates and attribute updates
    with the arguments that they need (fewer than 2^31 of them, so that row
    identifiers fit in a C int) runs without undefined behaviour, leaves no
    transaction open, and ends in tables that represent exactly the index in
    which the operations that answered 0 took effect in their order and the
    others had no effect. *)
Theorem xdb_refines_index {conn} `{!SqlEngine conn, !SqlLaws conn, !ReliableTx conn}
    (l : list xop) (x : ims_xdb conn) :
  Forall (fun o => xop_ok o = true) l ->
  saved (xconn x) = None -> cur (xconn x) = schema_tables ->
  Z.of_nat (length l) < 2 ^ 31 ->
  exists rs x' ix, run_xops l x = Some (rs, x') /\ saved (xconn x') = None /\
    spec_log l rs empty_index = Some ix /\ repr (cur (xconn x')) ix.
Proof.
  intros Hl Hs Hc Hn.
  assert (repr (cur (xconn x)) empty_index) as Hr by (rewrite Hc; apply repr_schema).
  assert (budget 0 (cur (xconn x))) as Hb by (rewrite Hc; apply budget_schema).
  destruct (wp_Some _ _ _ (run_xops_log l x empty_index 0 Hl Hs Hr Hb ltac:(lia)))
    as (rs & x' & Hrun & Hs' & ix & Hlog & Hr'). by exists rs, x', ix.
Qed.

(** On a connection where no call fails, an operation answers 0 exactly
    when the abstract index allows it (a new file has a new gfid and a free
    path, a link names an indexed file and a free path, a rename has a free
    target, an update names an indexed file), has exactly the abstract
    effect, and otherwise answers an error and changes nothing. *)
Theorem xdb_complete {conn} `{!SqlEngine conn, !SqlLaws conn, !ReliableTx conn,
    !HealthyEngine conn} (o : xop) (x : ims_xdb conn) (ix : index) (k : Z) :
  xop_ok o = true -> saved (xconn x) = None -> repr (cur (xconn x)) ix ->
  budget k (cur (xconn x)) -> k < 2 ^ 31 - 1 ->
  exists r x', run_xop o x = Some (r, x') /\ saved (xconn x') = None /\
    match spec_xop o ix with
    | Some ix' => r = 0 /\ repr (cur (xconn x')) ix'
    | None => r <> 0 /\ cur (xconn x') = cur (xconn x)
    end.
Proof.
  intros Hok Hs Hr Hb Hk.
  destruct (wp_Some _ _ _ (xop_refines_healthy o x ix k Hok Hs Hr Hb Hk))
    as (r & x' & Hrun & Hs' & Hm). exists r, x'. split_and!; [done..|].
  by destruct (spec_xop o ix); naive_solver.
Qed.

(** ** Witnesses *)

Definition sample_stat : stat :=
  {| st_dev := 2049; st_ino := 11; st_mode := 33188; st_nlink := 1; st_uid := 1000;
     st_gid := 1000; st_rdev := 0; st_size := 4096; st_blksize := 4096; st_blocks := 8;
     st_atime := 1450000000; st_mtime := 1450000001; st_ctime := 1450000002 |}.

Definition sample_file (g p : string) : ims_xdb_file :=
  {| xf_gfid := Some g; xf_path := Some p; xf_extra := None |}.

Definition sample_ops : list xop :=
  [OpInsertNewFile (sample_file "g1" "/a") sample_stat;
   OpInsertNewFile (sample_file "g2" "/b") sample_stat;
   OpRename {| xf_gfid := None; xf_path := Some "/a"%string; xf_extra := Some "/c"%string |}].

(** A connection that fails a bind of the second operation. *)

Definition sample_conn : ims_xdb (Scripted.sconn true) :=
  {| xconn := {| Scripted.sc_cur := schema_tables; Scripted.sc_saved := None;
                 Scripted.sc_script := repeat 0 44 ++ [7]; Scripted.sc_rows := [] |};
     db_ret := 0; xmode := 0 |}.

Lemma xdb_refines_index_witness :
  exists rs x' ix, run_xops sample_ops sample_conn = Some (rs, x') /\
    saved (xconn x') = None /\ spec_log sample_ops rs empty_index = Some ix /\
    repr (cur (xconn x')) ix.
Proof.
  apply (xdb_refines_index sample_ops sample_conn).
  - repeat constructor.
  - reflexivity.
  - reflexivity.
  - reflexivity.
Defined.

Definition sample_healthy : ims_xdb Scripted.hconn :=
  {| xconn := {| Scripted.h_cur := schema_tables; Scripted.h_saved := None;
                 Scripted.h_rows := [] |};
     db_ret := 0; xmode := 0 |}.

Lemma xdb_complete_witness :
  exists r x', run_xop (OpInsertNewFile (sample_file "g1" "/a") sample_stat) sample_healthy
      = Some (r, x') /\ saved (xconn x') = None /\
    match spec_xop (OpInsertNewFile (sample_file "g1" "/a") sample_stat) empty_index with
    | Some ix' => r = 0 /\ repr (cur (xconn x')) ix'
    | None => r <> 0 /\ cur (xconn x') = cur (xconn sample_healthy)
    end.
Proof.
  apply (xdb_complete _ sample_healthy empty_index 0).
  - reflexivity.
  - reflexivity.
  - exact repr_schema.
  - exact budget_schema.
  - reflexivity.
Defined.
