(* ===== verification/CLib.v ===== *)
(** * Functions of the C library

    The text functions that the sources call: decimal printing, [strtol] and
    [strtoul] with base 0, and the [%ld] and [%lf] conversions of [sscanf]
    (for [%lf], which texts it accepts; the rounding of the accepted text to a
    double is a parameter of its users). A C string is the list of its
    characters up to the terminating zero. *)

From Stdlib Require Import ZArith Lia Bool Ascii String.
From stdpp Require Import base list strings.
From S2P Require Import Prelude.

Definition ERANGE : Z := 34.

Definition code (c : ascii) : Z := Z.of_N (N_of_ascii c).

Definition isspace (c : ascii) : bool := (code c =? 32) || ((9 <=? code c) && (code c <=? 13)).

Fixpoint skip_ws (l : list ascii) : list ascii :=
  match l with
  | c :: l' => if isspace c then skip_ws l' else l
  | [] => []
  end.

(** A sign and what follows it. *)

Definition take_sign (l : list ascii) : bool * list ascii :=
  match l with
  | c :: l' =>
      if Ascii.eqb c "-" then (true, l') else if Ascii.eqb c "+" then (false, l') else (false, l)
  | [] => (false, [])
  end.

Definition digit_val (c : ascii) : option Z :=
  let n := code c in
  if (48 <=? n) && (n <=? 57) then Some (n - 48)
  else if (97 <=? n) && (n <=? 122) then Some (n - 87)
  else if (65 <=? n) && (n <=? 90) then Some (n - 55)
  else None.

Definition base_digit (base : Z) (c : ascii) : option Z :=
  match digit_val c with
  | Some d => if d <? base then Some d else None
  | None => None
  end.

(** The number that the leading digits spell. *)

Fixpoint digits_val (base acc : Z) (l : list ascii) : Z :=
  match l with
  | c :: l' =>
      match base_digit base c with Some d => digits_val base (acc * base + d) l' | None => acc end
  | [] => acc
  end.

(** The base that base 0 stands for, and the digits. *)

Definition detect_base (l : list ascii) : Z * list ascii :=
  match l with
  | z :: x :: c :: l' =>
      if Ascii.eqb z "0" && (Ascii.eqb x "x" || Ascii.eqb x "X")
         && bool_decide (is_Some (base_digit 16 c))
      then (16, c :: l')
      else (if Ascii.eqb z "0" then 8 else 10, l)
  | z :: _ => (if Ascii.eqb z "0" then 8 else 10, l)
  | [] => (10, l)
  end.

Definition magnitude (l : list ascii) : bool * Z :=
  let '(neg, l1) := take_sign (skip_ws l) in
  let '(base, l2) := detect_base l1 in
  (neg, digits_val base 0 l2).

(** [strtol (s, NULL, 0)] and [strtoul (s, NULL, 0)] with the [errno] they set. *)

Definition strtol0 (l : list ascii) : Z * Z :=
  let '(neg, n) := magnitude l in
  let v := if neg then - n else n in
  if v <? - 2 ^ 63 then (- 2 ^ 63, ERANGE)
  else if 2 ^ 63 - 1 <? v then (2 ^ 63 - 1, ERANGE)
  else (v, 0).

Definition strtoul0 (l : list ascii) : Z * Z :=
  let '(neg, n) := magnitude l in
  if 2 ^ 64 - 1 <? n then (2 ^ 64 - 1, ERANGE)
  else (if neg then u64 (- n) else n, 0).

(** [sscanf (s, "%ld", &v)]: the value when the conversion succeeds. *)

Definition scan_ld (l : list ascii) : option Z :=
  let '(neg, l1) := take_sign (skip_ws l) in
  match l1 with
  | c :: _ =>
      match base_digit 10 c with
      | Some _ =>
          let n := digits_val 10 0 l1 in
          let v := if neg then - n else n in
          Some (Z.max (- 2 ^ 63) (Z.min (2 ^ 63 - 1) v))
      | None => None
      end
  | [] => None
  end.

Definition lower (c : ascii) : ascii :=
  if (65 <=? code c) && (code c <=? 90) then ascii_of_N (Z.to_N (code c + 32)) else c.

Fixpoint has_prefix (p l : list ascii) : bool :=
  match p, l with
  | [], _ => true
  | a :: p', b :: l' => Ascii.eqb a (lower b) && has_prefix p' l'
  | _ :: _, [] => false
  end.

(** Whether [sscanf (s, "%lf", &v)] succeeds: a number that starts with a
    digit, or with a point and a digit; [nan]; [inf] or [infinity]. *)

Definition scan_lf_ok (l : list ascii) : bool :=
  let '(_, l1) := take_sign (skip_ws l) in
  match l1 with
  | [] => false
  | c :: l2 =>
      if bool_decide (is_Some (base_digit 10 c)) then true
      else if Ascii.eqb c "." then
        match l2 with d :: _ => bool_decide (is_Some (base_digit 10 d)) | [] => false end
      else if has_prefix ["n"; "a"; "n"]%char l1 then true
      else if has_prefix ["i"; "n"; "f"]%char l1 then
        match drop 3 l1 with
        | d :: _ =>
            if Ascii.eqb (lower d) "i" then has_prefix ["i"; "n"; "i"; "t"; "y"]%char (drop 3 l1)
            else true
        | [] => true
        end
      else false
  end.

(** ** Decimal printing: [%d] and its wider forms *)

Definition dec_digit (n : Z) : ascii := ascii_of_N (Z.to_N (48 + n)).

Fixpoint dec_fuel (f : nat) (n : Z) : list ascii :=
  match f with
  | O => []
  | S f' => if n <? 10 then [dec_digit n] else dec_fuel f' (n / 10) ++ [dec_digit (n mod 10)]
  end.

(** Twenty digits hold every 64-bit number. *)

Definition dec_nat (n : Z) : list ascii := dec_fuel 20 n.

Definition dec (z : Z) : list ascii := if z <? 0 then "-"%char :: dec_nat (- z) else dec_nat z.

(** ** Printing and reading back *)

Lemma dec_digit_cases n : 0 <= n < 10 ->
  base_digit 10 (dec_digit n) = Some n /\ isspace (dec_digit n) = false /\
  Ascii.eqb (dec_digit n) "-" = false /\ Ascii.eqb (dec_digit n) "+" = false /\
  Ascii.eqb (dec_digit n) "0" = (n =? 0) /\ Ascii.eqb (dec_digit n) "x" = false /\
  Ascii.eqb (dec_digit n) "X" = false.
Proof.
  revert n. apply (all_below _ 10). repeat constructor.
Qed.

Lemma digits_val_dec f n rest :
  0 <= n < 10 ^ Z.of_nat f -> (0 < f)%nat ->
  digits_val 10 0 (dec_fuel f n ++ rest) = digits_val 10 n rest.
Proof.
  revert n rest. induction f as [|f IH]; intros n rest Hn Hf; [lia|]. cbn [dec_fuel].
  destruct (Z.ltb_spec n 10) as [Hlt|Hge].
  - cbn [app digits_val]. by destruct (dec_digit_cases n) as [-> _]; [lia|].
  - rewrite Nat2Z.inj_succ, Z.pow_succ_r in Hn by lia.
    assert (0 < f)%nat by (destruct f; [cbn in Hn; lia|lia]).
    rewrite <- app_assoc, IH; [|split; [apply Z.div_pos; lia|apply Z.div_lt_upper_bound; lia]|done].
    cbn [app digits_val].
    destruct (dec_digit_cases (n mod 10)) as [-> _]; [apply Z.mod_pos_bound; lia|].
    f_equal. pose proof (Z.div_mod n 10 ltac:(lia)). lia.
Qed.

Lemma dec_head f n :
  0 <= n < 10 ^ Z.of_nat f -> (0 < f)%nat ->
  exists d l, dec_fuel f n = dec_digit d :: l /\ 0 <= d < 10 /\ (d = 0 -> n = 0 /\ l = []).
Proof.
  revert n. induction f as [|f IH]; intros n Hn Hf; [lia|]. cbn [dec_fuel].
  destruct (Z.ltb_spec n 10) as [Hlt|Hge]; [exists n, []; split_and!; done || lia|].
  rewrite Nat2Z.inj_succ, Z.pow_succ_r in Hn by lia.
  assert (0 < f)%nat by (destruct f; [cbn in Hn; lia|lia]).
  destruct (IH (n / 10)) as (d & l & -> & Hd & H0).
  { split; [apply Z.div_pos; lia|apply Z.div_lt_upper_bound; lia]. }
  { done. }
  exists d, (l ++ [dec_digit (n mod 10)]). split_and!; [done|lia|lia|].
  all: intros ->; destruct H0 as [H0 _]; [done|].
  all: pose proof (Z.div_mod n 10 ltac:(lia)); pose proof (Z.mod_pos_bound n 10 ltac:(lia)); lia.
Qed.

Lemma dec_nat_head n :
  0 <= n < 2 ^ 64 ->
  exists d l, dec_nat n = dec_digit d :: l /\ 0 <= d < 10 /\ (d = 0 -> n = 0 /\ l = []).
Proof. intros Hn. apply dec_head; [change (10 ^ Z.of_nat 20) with 100000000000000000000; lia|lia]. Qed.

Lemma digits_val_dec_nat n : 0 <= n < 2 ^ 64 -> digits_val 10 0 (dec_nat n) = n.
Proof.
  intros Hn. rewrite <- (app_nil_r (dec_nat n)). unfold dec_nat.
  rewrite digits_val_dec; [done| |lia].
  change (10 ^ Z.of_nat 20) with 100000000000000000000. lia.
Qed.

Lemma detect_base_dec n : 0 <= n < 2 ^ 64 ->
  (let '(b, l) := detect_base (dec_nat n) in digits_val b 0 l) = n.
Proof.
  intros Hn. pose proof (digits_val_dec_nat n Hn) as Hv.
  destruct (dec_nat_head n Hn) as (d & l & Hdec & Hd & H0). rewrite Hdec in *.
  destruct (dec_digit_cases d Hd) as (_&_&_&_&Hz&_&_).
  destruct (Z.eqb_spec d 0) as [->|Hne].
  - destruct H0 as [-> ->]; done.
  - destruct l as [|x [|c l]]; cbn [detect_base]; rewrite Hz; exact Hv.
Qed.

Lemma magnitude_dec z : - 2 ^ 64 < z < 2 ^ 64 ->
  exists neg n, magnitude (dec z) = (neg, n) /\ 0 <= n /\ z = (if neg then - n else n) /\
    (neg = true -> z < 0).
Proof.
  intros Hz. unfold dec. destruct (Z.ltb_spec z 0) as [Hneg|Hpos].
  - exists true, (- z). split_and!; [|lia..]. unfold magnitude.
    change (take_sign (skip_ws ("-"%char :: dec_nat (- z)))) with (true, dec_nat (- z)). cbv beta iota.
    pose proof (detect_base_dec (- z) ltac:(lia)) as Hb.
    destruct (detect_base (dec_nat (- z))) as [b l]. by rewrite Hb.
  - exists false, z. split_and!; [|lia|lia|done]. unfold magnitude.
    destruct (dec_nat_head z ltac:(lia)) as (d & l & Hdec & Hd & _).
    destruct (dec_digit_cases d Hd) as (_&Hs&Hm&Hp&_).
    assert (skip_ws (dec_nat z) = dec_nat z) as -> by (rewrite Hdec; cbn [skip_ws]; by rewrite Hs).
    assert (take_sign (dec_nat z) = (false, dec_nat z)) as ->
      by (rewrite Hdec; cbn [take_sign]; by rewrite Hm, Hp).
    pose proof (detect_base_dec z ltac:(lia)) as Hb.
    destruct (detect_base (dec_nat z)) as [b l']. by rewrite Hb.
Qed.

Lemma strtol0_dec z : in_s 64 z -> strtol0 (dec z) = (z, 0).
Proof.
  unfold in_s. change (2 ^ (64 - 1)) with (2 ^ 63). intros Hz. unfold strtol0.
  destruct (magnitude_dec z) as (neg & n & -> & Hn & Hzn & _); [lia|]. rewrite <- Hzn.
  rewrite !(proj2 (Z.ltb_ge _ _)) by lia. done.
Qed.

Lemma strtoul0_dec z : in_u 64 z -> strtoul0 (dec z) = (z, 0).
Proof.
  unfold in_u. intros Hz. unfold strtoul0.
  destruct (magnitude_dec z) as (neg & n & -> & Hn & Hzn & Hneg); [lia|].
  destruct neg; [specialize (Hneg eq_refl); lia|]. subst n.
  rewrite (proj2 (Z.ltb_ge _ _)) by lia. done.
Qed.

Lemma scan_ld_dec z : in_s 64 z -> scan_ld (dec z) = Some z.
Proof.
  unfold in_s. change (2 ^ (64 - 1)) with (2 ^ 63). intros Hz. unfold scan_ld, dec.
  destruct (Z.ltb_spec z 0) as [Hneg|Hpos].
  - change (take_sign (skip_ws ("-"%char :: dec_nat (- z)))) with (true, dec_nat (- z)).
    cbv beta iota. pose proof (digits_val_dec_nat (- z) ltac:(lia)) as Hv.
    destruct (dec_nat_head (- z) ltac:(lia)) as (d & l & Hd & Hr & _). rewrite Hd in *.
    destruct (dec_digit_cases d Hr) as [-> _]. rewrite Hv. f_equal. lia.
  - pose proof (digits_val_dec_nat z ltac:(lia)) as Hv.
    destruct (dec_nat_head z ltac:(lia)) as (d & l & Hd & Hr & _). rewrite Hd in *.
    destruct (dec_digit_cases d Hr) as (Hb & Hs & Hm & Hp & _).
    cbn [skip_ws]. rewrite Hs. cbn [take_sign]. rewrite Hm, Hp, Hb, Hv. f_equal. lia.
Qed.

(** Only digits and the sign are printed. *)

Lemma dec_not_in c z :
  base_digit 10 c = None -> c <> "-"%char -> - 2 ^ 64 < z < 2 ^ 64 -> ~ c ∈ dec z.
Proof.
  intros Hc Hm.
  assert (forall n, 0 <= n < 10 -> c <> dec_digit n) as Hd.
  { intros n Hn ->. destruct (dec_digit_cases n Hn) as [H _]. congruence. }
  assert (forall f n, 0 <= n -> ~ c ∈ dec_fuel f n) as Hf.
  { intros f. induction f as [|f IH]; intros n Hn; cbn [dec_fuel]; [apply not_elem_of_nil|].
    destruct (Z.ltb_spec n 10).
    - rewrite list_elem_of_singleton. by apply Hd.
    - rewrite elem_of_app, list_elem_of_singleton. intros [Hin|E].
      + eapply IH; [|exact Hin]. apply Z.div_pos; lia.
      + eapply Hd; [|exact E]. apply Z.mod_pos_bound. lia. }
  intros Hz. unfold dec, dec_nat. destruct (Z.ltb_spec z 0); [|apply Hf; lia].
  rewrite elem_of_cons. intros [|Hin]; [done|]. by eapply Hf; [|exact Hin]; lia.
Qed.

Lemma dec_no_nul z : - 2 ^ 64 < z < 2 ^ 64 -> ~ "000"%char ∈ dec z.
Proof. by apply dec_not_in. Qed.

Lemma dec_no_dot z : - 2 ^ 64 < z < 2 ^ 64 -> existsb (Ascii.eqb ".") (dec z) = false.
Proof.
  intros Hz. apply not_true_is_false. rewrite existsb_exists. intros (c & Hin & E).
  apply Ascii.eqb_eq in E as <-. apply list_elem_of_In in Hin. by eapply dec_not_in in Hin.
Qed.
