(* ===== verification/Dict.v ===== *)
(** * Dictionaries

    libglusterfs/src/dict.c: the dictionaries that carry requests, replies and
    extended attributes, with their operations, comparison and wire format.
    A dictionary always has one hash chain ([hash_size] is 1), so that chain
    and [members_list] hold the same pairs in the same order, newest first.
    Allocation always succeeds, and locks and reference counts are left out. *)

From Stdlib Require Import ZArith Lia Bool Ascii String.
From stdpp Require Import base list strings.
From S2P Require Import Prelude.

(** ** Data *)

(** [data_t]: a length and the bytes, which may be a null pointer. *)

Record data_t := { d_len : Z; d_data : option (list ascii) }.

Record dict_t := { members_list : list (string * data_t); count : Z }.

Definition ENOENT : Z := 2.
Definition EINVAL : Z := 22.

#[global] Instance data_t_eq_dec : EqDecision data_t.
Proof. solve_decision. Defined.

Definition dict_new : dict_t := {| members_list := []; count := 0 |}.

(** ** Lookup and update *)

Fixpoint lookup_pairs (l : list (string * data_t)) (key : string) : option data_t :=
  match l with
  | [] => None
  | (k, v) :: l' => if decide (k = key) then Some v else lookup_pairs l' key
  end.

Definition _dict_lookup (this : dict_t) (key : string) : option data_t :=
  lookup_pairs (members_list this) key.

Definition dict_get (this : dict_t) (key : string) : option data_t := _dict_lookup this key.

(** The value of the first pair with the key. *)

Fixpoint replace_pair (l : list (string * data_t)) (key : string) (value : data_t)
    : list (string * data_t) :=
  match l with
  | [] => []
  | (k, v) :: l' =>
      if decide (k = key) then (k, value) :: l' else (k, v) :: replace_pair l' key value
  end.

Definition _dict_set (this : dict_t) (key : string) (value : data_t) (replace : bool)
    : Z * dict_t :=
  if replace && bool_decide (is_Some (_dict_lookup this key)) then
    (0, {| members_list := replace_pair (members_list this) key value; count := count this |})
  else (0, {| members_list := (key, value) :: members_list this; count := i32 (count this + 1) |}).

(** A null value is refused. *)

Definition dict_set (this : dict_t) (key : string) (value : option data_t) : Z * dict_t :=
  match value with
  | None => (-1, this)
  | Some v => _dict_set this key v true
  end.

Definition dict_add (this : dict_t) (key : string) (value : option data_t) : Z * dict_t :=
  match value with
  | None => (-1, this)
  | Some v => _dict_set this key v false
  end.

(** The pairs without the first one that has the key, if any. *)

Fixpoint del_pair (l : list (string * data_t)) (key : string) : option (list (string * data_t)) :=
  match l with
  | [] => None
  | (k, v) :: l' =>
      if decide (k = key) then Some l' else l1 ← del_pair l' key; Some ((k, v) :: l1)
  end.

Definition dict_del (this : dict_t) (key : string) : dict_t :=
  match del_pair (members_list this) key with
  | Some l => {| members_list := l; count := i32 (count this - 1) |}
  | None => this
  end.

Definition dict_get_with_ref (this : dict_t) (key : string) : Z * option data_t :=
  match _dict_lookup this key with
  | Some v => (0, Some v)
  | None => (- ENOENT, None)
  end.

(** ** Traversal *)

(** [dict_foreach_match] with an action on a state of its own: -1 or the
    number of pairs that matched. *)

Fixpoint foreach_match {S} (match_ : string -> data_t -> bool)
    (action : string -> data_t -> S -> Z * S) (pairs : list (string * data_t))
    (n : Z) (s : S) : Z * S :=
  match pairs with
  | [] => (n, s)
  | (k, v) :: next =>
      if match_ k v then
        let '(ret, s') := action k v s in
        if ret <? 0 then (ret, s') else foreach_match match_ action next (i32 (n + 1)) s'
      else foreach_match match_ action next n s
  end.

Definition dict_foreach_match {S} (dict : dict_t) (match_ : string -> data_t -> bool)
    (action : string -> data_t -> S -> Z * S) (s : S) : Z * S :=
  foreach_match match_ action (members_list dict) 0 s.

Definition dict_match_everything (k : string) (v : data_t) : bool := true.

Definition dict_null_foreach_fn (k : string) (v : data_t) (s : unit) : Z * unit := (0, s).

Definition dict_foreach {S} (dict : dict_t) (fn : string -> data_t -> S -> Z * S) (s : S)
    : Z * S :=
  let '(ret, s') := dict_foreach_match dict dict_match_everything fn s in
  (if 0 <? ret then 0 else ret, s').

Definition _copy (key : string) (value : data_t) (newdict : dict_t) : Z * dict_t :=
  dict_set newdict key (Some value).

(** [new] is [None] for a null pointer: a fresh dictionary is made. *)

Definition dict_copy (dict : dict_t) (new : option dict_t) : dict_t :=
  (dict_foreach dict _copy (default dict_new new)).2.

(** [dict_reset] deletes from the dictionary that it walks over. *)

Definition dict_remove_foreach_fn (k : string) (v : data_t) (d : dict_t) : Z * dict_t :=
  (0, dict_del d k).

Definition dict_reset (dict : dict_t) : Z * dict_t :=
  (0, (dict_foreach dict dict_remove_foreach_fn dict).2).

(** ** Comparison *)

(** Each value of the two dictionaries is a structure of its own. *)

Definition is_data_equal (one two : data_t) : Z :=
  match d_data one, d_data two with
  | Some a, Some b =>
      if negb (d_len one =? d_len two) then 0
      else if decide (take (Z.to_nat (d_len one)) a = take (Z.to_nat (d_len two)) b) then 1 else 0
  | _, _ => -1
  end.

Definition key_value_cmp (two : dict_t) (value_ignore : option (string -> bool))
    (key1 : string) (value1 : data_t) (s : unit) : Z * unit :=
  match dict_get two key1 with
  | Some value2 =>
      if (match value_ignore with Some f => f key1 | None => false end)
      then (0, s)
      else if is_data_equal value1 value2 =? 1 then (0, s) else (-1, s)
  | None => (-1, s)
  end.

(** [two] is [None] for a null pointer; the pointers differ. *)

Definition are_dicts_equal (one : dict_t) (two : option dict_t)
    (match_ : option (string -> data_t -> bool)) (value_ignore : option (string -> bool))
    : bool :=
  let m := default dict_match_everything match_ in
  match two with
  | None => (dict_foreach_match one m dict_null_foreach_fn tt).1 =? 0
  | Some d2 =>
      let n1 := (dict_foreach_match one m (key_value_cmp d2 value_ignore) tt).1 in
      if n1 =? -1 then false
      else if (n1 =? count one) && (count one =? count d2) then true
      else n1 =? (dict_foreach_match d2 m dict_null_foreach_fn tt).1
  end.

(** ** Wire format *)

Definition DICT_HDR_LEN : Z := 4.
Definition DICT_DATA_HDR_KEY_LEN : Z := 4.
Definition DICT_DATA_HDR_VAL_LEN : Z := 4.

Definition NUL : ascii := "000"%char.

Definition byte_at (z : Z) (i : Z) : ascii := ascii_of_N (Z.to_N (z / 2 ^ (8 * i) mod 256)).

(** [hton32] followed by the copy of the word to memory, and its reverse. *)

Definition hton32 (z : Z) : list ascii := [byte_at z 3; byte_at z 2; byte_at z 1; byte_at z 0].

Definition ntoh32 (l : list ascii) : Z :=
  i32 (foldl (fun acc b => acc * 256 + Z.of_N (N_of_ascii b)) 0 l).

Fixpoint length_pairs (n : Z) (pairs : list (string * data_t)) (len : Z) : Z :=
  if n =? 0 then len else
  match pairs with
  | [] => - EINVAL
  | (k, v) :: next =>
      if d_len v <? 0 then - EINVAL else
      length_pairs (n - 1) next
        (i32 (i32 (i32 (len + DICT_DATA_HDR_KEY_LEN + DICT_DATA_HDR_VAL_LEN)
              + (Z.of_nat (String.length k) + 1)) + d_len v))
  end.

Definition _dict_serialized_length (this : dict_t) : Z :=
  if count this <? 0 then - EINVAL
  else length_pairs (count this) (members_list this) DICT_HDR_LEN.

(** Copying bytes to position [pos] of a buffer: out of bounds is undefined. *)

Definition memcpy_to (buf : list ascii) (pos : Z) (bytes : list ascii) : option (list ascii) :=
  if (0 <=? pos) && (pos + Z.of_nat (length bytes) <=? Z.of_nat (length buf))
  then Some (take (Z.to_nat pos) buf ++ bytes ++ drop (Z.to_nat pos + length bytes) buf)
  else None.

(** Reading [n] bytes from position [pos] of a buffer. *)

Definition read_at (buf : list ascii) (pos n : Z) : option (list ascii) :=
  if (0 <=? pos) && (0 <=? n) && (pos + n <=? Z.of_nat (length buf))
  then Some (take (Z.to_nat n) (drop (Z.to_nat pos) buf))
  else None.

Fixpoint serialize_pairs (n : Z) (pairs : list (string * data_t)) (buf : list ascii) (pos : Z)
    : option (Z * list ascii) :=
  if n =? 0 then Some (0, buf) else
  match pairs with
  | [] => Some (-1, buf)
  | (k, v) :: next =>
      let key := list_ascii_of_string k in
      let keylen := Z.of_nat (length key) in
      buf ← memcpy_to buf pos (hton32 keylen);
      buf ← memcpy_to buf (pos + 4) (hton32 (d_len v));
      buf ← memcpy_to buf (pos + 8) key;
      buf ← memcpy_to buf (pos + 8 + keylen) [NUL];
      match d_data v with
      | Some data =>
          bytes ← read_at data 0 (d_len v);
          buf ← memcpy_to buf (pos + 8 + keylen + 1) bytes;
          serialize_pairs (n - 1) next buf (pos + 8 + keylen + 1 + d_len v)
      | None => serialize_pairs (n - 1) next buf (pos + 8 + keylen + 1)
      end
  end.

Definition _dict_serialize (this : dict_t) (buf : list ascii) : option (Z * list ascii) :=
  if count this <? 0 then Some (-1, buf) else
  buf ← memcpy_to buf 0 (hton32 (count this));
  serialize_pairs (count this) (members_list this) buf DICT_HDR_LEN.

(** The value is the return code, with the buffer and its length on success. *)

Definition dict_allocate_and_serialize (this : dict_t)
    : option (Z * option (list ascii * Z)) :=
  let len := _dict_serialized_length this in
  if len <? 0 then Some (len, None) else
  r ← _dict_serialize this (repeat NUL (Z.to_nat len));
  if r.1 <? 0 then Some (r.1, None) else Some (r.1, Some (r.2, len)).

(** A C string in a buffer: reading past the end of the buffer is undefined. *)

Fixpoint c_string (l : list ascii) : option string :=
  match l with
  | [] => None
  | b :: l' =>
      if decide (b = NUL) then Some EmptyString else
      s ← c_string l'; Some (String b s)
  end.

Definition string_at (buf : list ascii) (pos : Z) : option string :=
  if 0 <=? pos then c_string (drop (Z.to_nat pos) buf) else None.

(** The loop of [dict_unserialize]; [n] iterations are left. A negative value
    length reaches [memdup] as a size near 2^64: undefined here. *)

Fixpoint unserialize_pairs (n : nat) (buf : list ascii) (size pos : Z) (fill : dict_t)
    : option (Z * dict_t) :=
  match n with
  | O => Some (0, fill)
  | S n' =>
      if size <? pos + DICT_DATA_HDR_KEY_LEN then Some (-1, fill) else
      w ← read_at buf pos 4;
      let keylen := ntoh32 w in
      let pos := pos + DICT_DATA_HDR_KEY_LEN in
      if size <? pos + DICT_DATA_HDR_VAL_LEN then Some (-1, fill) else
      w ← read_at buf pos 4;
      let vallen := ntoh32 w in
      let pos := pos + DICT_DATA_HDR_VAL_LEN in
      if size <? pos + keylen then Some (-1, fill) else
      let keypos := pos in
      let pos := pos + i32 (keylen + 1) in
      if size <? pos + vallen then Some (-1, fill) else
      bytes ← read_at buf pos vallen;
      key ← string_at buf keypos;
      unserialize_pairs n' buf size (pos + vallen)
        (dict_add fill key (Some {| d_len := vallen; d_data := Some bytes |})).2
  end.

Definition dict_unserialize (orig_buf : list ascii) (size : Z) (fill : dict_t)
    : option (Z * dict_t) :=
  if size =? 0 then Some (-1, fill) else
  if size <? DICT_HDR_LEN then Some (-1, fill) else
  w ← read_at orig_buf 0 4;
  let n := ntoh32 w in
  if n <? 0 then Some (-1, fill) else
  unserialize_pairs (Z.to_nat n) orig_buf size DICT_HDR_LEN
    {| members_list := members_list fill; count := 0 |}.

(** ** Invariant *)

(** The count is the number of pairs, and a value's length that of its bytes. *)

Definition data_ok (v : data_t) : Prop :=
  match d_data v with Some b => d_len v = Z.of_nat (length b) | None => d_len v = 0 end.

Definition key_ok (k : string) : Prop := ~ NUL ∈ list_ascii_of_string k.

Record dict_ok (d : dict_t) : Prop := {
  ok_count : count d = Z.of_nat (length (members_list d));
  ok_small : Z.of_nat (length (members_list d)) < 2 ^ 31;
  ok_pairs : Forall (fun p => key_ok p.1 /\ data_ok p.2) (members_list d)
}.

(** Each key once, as when only [dict_set] is used. *)

Definition dict_unique (d : dict_t) : Prop := NoDup (members_list d).*1.

(** ** Lookup and update, proved *)

Lemma lookup_pairs_elem l k v : lookup_pairs l k = Some v -> (k, v) ∈ l.
Proof.
  induction l as [|[k' v'] l IH]; [done|]. simpl. case_decide; intros Hl; simplify_eq; [left|].
  right. auto.
Qed.

Lemma lookup_pairs_None l k : lookup_pairs l k = None <-> ~ k ∈ l.*1.
Proof.
  induction l as [|[k' v'] l IH]; simpl.
  { split; [|done]. intros _ Hk. by apply not_elem_of_nil in Hk. }
  rewrite elem_of_cons. case_decide; subst; [|rewrite IH]; naive_solver.
Qed.

Lemma lookup_pairs_unique l k v : NoDup l.*1 -> (k, v) ∈ l -> lookup_pairs l k = Some v.
Proof.
  induction l as [|[k' v'] l IH]; [by rewrite elem_of_nil|].
  cbn. intros [Hn Hl]%NoDup_cons [[= -> ->]|Hin]%elem_of_cons; [by rewrite decide_True|].
  rewrite decide_False; [auto|]. intros ->. apply Hn. by apply (list_elem_of_fmap_2 fst _ (k, v)).
Qed.

Lemma lookup_replace l k v k' :
  lookup_pairs (replace_pair l k v) k' =
  if decide (k = k') then (fun _ => v) <$> lookup_pairs l k else lookup_pairs l k'.
Proof.
  induction l as [|[a b] l IH]; simpl; [by case_decide|].
  destruct (decide (a = k)) as [->|Hak]; simpl.
  - by destruct (decide (k = k')).
  - rewrite IH. destruct (decide (a = k')) as [->|Hak']; [|done].
    by rewrite decide_False.
Qed.

Lemma replace_keys l k v : (replace_pair l k v).*1 = l.*1.
Proof.
  induction l as [|[a b] l IH]; [done|]. cbn [replace_pair].
  case_decide; rewrite !fmap_cons; [by subst|by rewrite IH].
Qed.

Lemma replace_Forall (P : string * data_t -> Prop) l k v :
  P (k, v) -> Forall P l -> Forall P (replace_pair l k v).
Proof.
  intros Hv. induction 1 as [|[a b] l Ha Hl IH]; simpl; [constructor|].
  case_decide; subst; by constructor.
Qed.

(** A set value is found, whatever the dictionary held; other keys keep theirs. *)

Lemma get_set d k v k' :
  dict_get (dict_set d k (Some v)).2 k' = if decide (k = k') then Some v else dict_get d k'.
Proof.
  unfold dict_set, _dict_set, dict_get, _dict_lookup. cbn [andb].
  case_bool_decide as Hk; cbn [snd members_list lookup_pairs]; [|done].
  rewrite lookup_replace. case_decide; [|done]. by destruct Hk as [w ->].
Qed.

Lemma get_add d k v k' :
  dict_get (dict_add d k (Some v)).2 k' = if decide (k = k') then Some v else dict_get d k'.
Proof. done. Qed.

Lemma set_unique d k v : dict_unique d -> dict_unique (dict_set d k (Some v)).2.
Proof.
  unfold dict_unique, dict_set, _dict_set, _dict_lookup. cbn [andb]. intros Hd.
  case_bool_decide as Hk; cbn [snd members_list]; [by rewrite replace_keys|].
  apply NoDup_cons. split; [|done]. by apply lookup_pairs_None, eq_None_not_Some.
Qed.

Lemma del_pair_None l k : del_pair l k = None <-> ~ k ∈ l.*1.
Proof.
  induction l as [|[a b] l IH]; simpl.
  { split; [|done]. intros _ Hk. by apply not_elem_of_nil in Hk. }
  rewrite elem_of_cons. case_decide; subst; [naive_solver|].
  destruct (del_pair l k); naive_solver.
Qed.

Lemma del_pair_Some l k l' :
  del_pair l k = Some l' ->
  exists l1 v l2, l = l1 ++ (k, v) :: l2 /\ l' = l1 ++ l2 /\ ~ k ∈ l1.*1.
Proof.
  revert l'. induction l as [|[a b] l IH]; intros l' Hd; [done|]. simpl in Hd.
  destruct (decide (a = k)) as [->|Hne].
  - injection Hd as <-. exists [], b, l. split_and!; [done..|]. apply not_elem_of_nil.
  - destruct (del_pair l k) as [l0|]; [|done]. injection Hd as <-.
    destruct (IH l0 eq_refl) as (l1&v&l2&->&->&Hn). exists ((a, b) :: l1), v, l2.
    split_and!; [done..|]. cbn. rewrite not_elem_of_cons. split; [congruence|done].
Qed.

Lemma lookup_app l1 l2 k :
  lookup_pairs (l1 ++ l2) k =
  match lookup_pairs l1 k with Some v => Some v | None => lookup_pairs l2 k end.
Proof. induction l1 as [|[a b] l1 IH]; [done|]. simpl. by case_decide. Qed.

Lemma get_del_other d k k' : k <> k' -> dict_get (dict_del d k) k' = dict_get d k'.
Proof.
  intros Hne. unfold dict_get, _dict_lookup, dict_del.
  destruct (del_pair (members_list d) k) as [l'|] eqn:E; [|done].
  apply del_pair_Some in E as (l1&v&l2&Hd&->&_). rewrite Hd. cbn [members_list].
  rewrite !lookup_app. cbn. by rewrite decide_False.
Qed.

Lemma get_del d k : dict_unique d -> dict_get (dict_del d k) k = None.
Proof.
  unfold dict_unique, dict_get, _dict_lookup, dict_del. intros Hu.
  destruct (del_pair (members_list d) k) as [l'|] eqn:E.
  - apply del_pair_Some in E as (l1&v&l2&Hd&->&Hn). cbn [members_list].
    rewrite Hd, fmap_app in Hu. apply NoDup_app in Hu as (_&_&[Hk _]%NoDup_cons).
    apply lookup_pairs_None. rewrite fmap_app, elem_of_app. by intros [?|?].
  - by apply lookup_pairs_None, del_pair_None.
Qed.

Lemma del_unique d k : dict_unique d -> dict_unique (dict_del d k).
Proof.
  unfold dict_unique, dict_del. intros Hu.
  destruct (del_pair (members_list d) k) as [l'|] eqn:E; [|done].
  apply del_pair_Some in E as (l1&v&l2&Hd&->&_). cbn [members_list].
  eapply sublist_NoDup; [exact Hu|]. rewrite Hd. apply fmap_sublist.
  apply sublist_app; [done|]. by apply sublist_cons.
Qed.

(** ** The wire format, proved *)

Lemma byte_at_value z i : Z.of_N (N_of_ascii (byte_at z i)) = z / 2 ^ (8 * i) mod 256.
Proof.
  unfold byte_at. pose proof (Z.mod_pos_bound (z / 2 ^ (8 * i)) 256 ltac:(lia)).
  rewrite N_ascii_embedding by lia. lia.
Qed.

Lemma four_bytes z :
  (((z / 2 ^ (8 * 3) mod 256 * 256 + z / 2 ^ (8 * 2) mod 256) * 256 + z / 2 ^ (8 * 1) mod 256)
     * 256 + z / 2 ^ (8 * 0) mod 256) = z mod 2 ^ 32.
Proof.
  change (2 ^ (8 * 3)) with 16777216. change (2 ^ (8 * 2)) with 65536.
  change (2 ^ (8 * 1)) with 256. change (2 ^ (8 * 0)) with 1. change (2 ^ 32) with 4294967296.
  Z.to_euclidean_division_equations. lia.
Qed.

Lemma ntoh32_hton32 z : in_s 32 z -> ntoh32 (hton32 z) = z.
Proof.
  intros Hz. unfold ntoh32, hton32. cbn [foldl]. rewrite !byte_at_value, Z.mul_0_l, Z.add_0_l.
  rewrite four_bytes. change (z mod 2 ^ 32) with (uwrap 32 z).
  rewrite swrap_uwrap by lia. by apply swrap_small.
Qed.

(** What is written for one pair. *)

Definition enc_pair (p : string * data_t) : list ascii :=
  hton32 (Z.of_nat (length (list_ascii_of_string p.1))) ++ hton32 (d_len p.2) ++
  list_ascii_of_string p.1 ++ [NUL] ++ default [] (d_data p.2).

Definition enc_pairs (l : list (string * data_t)) : list ascii := concat (map enc_pair l).

Definition enc_dict (d : dict_t) : list ascii := hton32 (count d) ++ enc_pairs (members_list d).

Lemma data_ok_len v : data_ok v -> d_len v = Z.of_nat (length (default [] (d_data v))).
Proof. unfold data_ok. by destruct (d_data v). Qed.

Lemma enc_pair_length p :
  data_ok p.2 ->
  Z.of_nat (length (enc_pair p)) =
    9 + Z.of_nat (length (list_ascii_of_string p.1)) + d_len p.2.
Proof.
  intros Hv%data_ok_len. unfold enc_pair. rewrite !length_app, Hv. cbn [length hton32]. lia.
Qed.

(** Writing goes on where the bytes written so far end. *)

Lemma memcpy_next pre rest bytes pos :
  pos = Z.of_nat (length pre) -> (length bytes <= length rest)%nat ->
  memcpy_to (pre ++ rest) pos bytes = Some ((pre ++ bytes) ++ drop (length bytes) rest).
Proof.
  intros -> Hl. unfold memcpy_to. rewrite length_app.
  rewrite (proj2 (Z.leb_le _ _)), (proj2 (Z.leb_le _ _)) by lia. cbn [andb].
  rewrite Nat2Z.id, take_app_length, <- app_assoc. do 2 f_equal.
  rewrite drop_app_ge by lia. f_equal. f_equal. lia.
Qed.

Lemma read_all b : read_at b 0 (Z.of_nat (length b)) = Some b.
Proof.
  unfold read_at. rewrite !(proj2 (Z.leb_le _ _)) by lia. cbn [andb].
  rewrite Nat2Z.id. cbn [Z.to_nat drop]. by rewrite firstn_all.
Qed.

(** The header and the key of one pair. *)

Lemma serialize_key k v next n pre rest :
  0 < n -> (9 + length (list_ascii_of_string k) <= length rest)%nat ->
  let key := list_ascii_of_string k in
  let pre' := pre ++ hton32 (Z.of_nat (length key)) ++ hton32 (d_len v) ++ key ++ [NUL] in
  let rest' := drop (9 + length key) rest in
  serialize_pairs n ((k, v) :: next) (pre ++ rest) (Z.of_nat (length pre)) =
    match d_data v with
    | Some data =>
        bytes ← read_at data 0 (d_len v);
        buf ← memcpy_to (pre' ++ rest') (Z.of_nat (length pre')) bytes;
        serialize_pairs (n - 1) next buf (Z.of_nat (length pre') + d_len v)
    | None => serialize_pairs (n - 1) next (pre' ++ rest') (Z.of_nat (length pre'))
    end.
Proof.
  intros Hn Hlen key pre' rest'. cbn [serialize_pairs].
  rewrite (proj2 (Z.eqb_neq _ _)) by lia. fold key. fold key in Hlen.
  do 4 (rewrite memcpy_next;
    [|rewrite ?length_app; cbn [length hton32]; lia|rewrite ?length_drop; cbn [length hton32]; lia];
    cbn [mbind option_bind]).
  rewrite !drop_drop, <- !app_assoc. cbn [length hton32].
  replace (4 + (4 + (length key + 1)))%nat with (9 + length key)%nat by lia. fold rest'.
  replace (pre ++ hton32 _ ++ hton32 _ ++ key ++ [NUL] ++ rest') with (pre' ++ rest')
    by (unfold pre'; by rewrite <- !app_assoc).
  replace (Z.of_nat (length pre) + 8 + Z.of_nat (length key) + 1)
    with (Z.of_nat (length pre')) by (unfold pre'; rewrite !length_app; cbn [length hton32]; lia).
  done.
Qed.

Lemma serialize_pairs_spec l pre rest :
  Forall (fun p => key_ok p.1 /\ data_ok p.2) l ->
  (length (enc_pairs l) <= length rest)%nat ->
  serialize_pairs (Z.of_nat (length l)) l (pre ++ rest) (Z.of_nat (length pre)) =
    Some (0, (pre ++ enc_pairs l) ++ drop (length (enc_pairs l)) rest).
Proof.
  intros Hl. revert pre rest.
  induction Hl as [|[k v] l [_ Hv] Hl IH]; intros pre rest Hlen.
  { cbn. by rewrite app_nil_r. }
  assert (enc_pairs ((k, v) :: l) = enc_pair (k, v) ++ enc_pairs l) as Henc by done.
  rewrite Henc, length_app in *. pose proof (enc_pair_length (k, v) Hv) as Hp.
  cbn [fst snd] in *. pose proof (data_ok_len v Hv) as Hd.
  rewrite serialize_key by (cbn [length]; lia). cbv zeta.
  replace (Z.of_nat (length ((k, v) :: l)) - 1) with (Z.of_nat (length l)) by (cbn [length]; lia).
  set (pre' := pre ++ hton32 _ ++ _). set (rest' := drop _ rest).
  assert (pre ++ enc_pair (k, v) = pre' ++ default [] (d_data v)) as Hpre.
  { unfold pre', enc_pair. cbn [fst snd]. by rewrite <- !app_assoc. }
  assert (length rest' = length rest - (9 + length (list_ascii_of_string k)))%nat as Hr
    by apply length_drop.
  assert (drop (length (default [] (d_data v))) rest' = drop (length (enc_pair (k, v))) rest) as Hrest.
  { unfold rest'. rewrite drop_drop. f_equal. lia. }
  rewrite app_assoc, Hpre, <- drop_drop, <- Hrest.
  destruct (d_data v) as [data|]; cbn [default from_option id] in *.
  - rewrite Hd, read_all. cbn [mbind option_bind]. rewrite memcpy_next by lia.
    cbn [mbind option_bind].
    replace (Z.of_nat (length pre') + Z.of_nat (length data))
      with (Z.of_nat (length (pre' ++ data))) by (rewrite length_app; lia).
    apply IH. rewrite length_drop. lia.
  - rewrite app_nil_r. cbn [length] in *. rewrite drop_0. apply IH. lia.
Qed.

Lemma enc_pairs_cons p l : enc_pairs (p :: l) = enc_pair p ++ enc_pairs l.
Proof. done. Qed.

Lemma length_ascii s : length (list_ascii_of_string s) = String.length s.
Proof. induction s; simpl; congruence. Qed.

(** The length that is computed is that of what is written. *)

Lemma length_pairs_spec l len :
  Forall (fun p => key_ok p.1 /\ data_ok p.2) l -> 0 <= len ->
  len + Z.of_nat (length (enc_pairs l)) < 2 ^ 31 ->
  length_pairs (Z.of_nat (length l)) l len = len + Z.of_nat (length (enc_pairs l)).
Proof.
  intros Hl. revert len. induction Hl as [|[k v] l [_ Hv] Hl IH]; intros len Hlen Hb.
  { change (len = len + 0). lia. }
  rewrite enc_pairs_cons, length_app in *. pose proof (enc_pair_length (k, v) Hv) as Hp.
  cbn [fst snd] in *. pose proof (data_ok_len v Hv) as Hd. rewrite length_ascii in Hp.
  cbn [length_pairs]. rewrite (proj2 (Z.eqb_neq _ _)) by (cbn [length]; lia).
  rewrite (proj2 (Z.ltb_ge _ _)) by lia.
  replace (Z.of_nat (length ((k, v) :: l)) - 1) with (Z.of_nat (length l)) by (cbn [length]; lia).
  unfold DICT_DATA_HDR_KEY_LEN, DICT_DATA_HDR_VAL_LEN.
  rewrite (swrap_small 32 (len + 4 + 4)) by (unfold in_s; lia).
  rewrite (swrap_small 32 (len + 4 + 4 + _)) by (unfold in_s; lia).
  rewrite swrap_small by (unfold in_s; lia).
  rewrite IH; lia.
Qed.

Lemma enc_pairs_count l :
  Forall (fun p => key_ok p.1 /\ data_ok p.2) l ->
  Z.of_nat (length l) <= Z.of_nat (length (enc_pairs l)).
Proof.
  induction 1 as [|p l [_ Hv] Hl IH]; [done|]. rewrite enc_pairs_cons, length_app.
  pose proof (enc_pair_length p Hv) as Hp. rewrite (data_ok_len _ Hv) in Hp. cbn [length]. lia.
Qed.

Lemma serialized_length_spec d :
  dict_ok d -> Z.of_nat (length (enc_dict d)) < 2 ^ 31 ->
  _dict_serialized_length d = Z.of_nat (length (enc_dict d)).
Proof.
  intros [Hc _ Hp] Hb. unfold _dict_serialized_length. rewrite Hc.
  rewrite (proj2 (Z.ltb_ge _ _)) by lia. unfold enc_dict in *.
  rewrite length_app in *. cbn [length hton32] in *. unfold DICT_HDR_LEN.
  rewrite length_pairs_spec by (done || lia). lia.
Qed.

Lemma serialize_spec d :
  dict_ok d -> Z.of_nat (length (enc_dict d)) < 2 ^ 31 ->
  dict_allocate_and_serialize d =
    Some (0, Some (enc_dict d, Z.of_nat (length (enc_dict d)))).
Proof.
  intros Hok Hb. unfold dict_allocate_and_serialize.
  rewrite serialized_length_spec by done. rewrite (proj2 (Z.ltb_ge _ _)) by lia.
  destruct Hok as [Hc _ Hp]. unfold _dict_serialize. rewrite Hc.
  rewrite (proj2 (Z.ltb_ge _ _)) by lia. rewrite Nat2Z.id.
  set (n := length (enc_dict d)).
  assert (n = 4 + length (enc_pairs (members_list d)))%nat as Hn
    by (unfold n, enc_dict; rewrite length_app; done).
  change (repeat NUL n) with ([] ++ repeat NUL n).
  rewrite memcpy_next; [|done|rewrite repeat_length; cbn; lia].
  cbn [mbind option_bind app]. 
  change DICT_HDR_LEN with (Z.of_nat (length (hton32 (Z.of_nat (length (members_list d)))))).
  rewrite serialize_pairs_spec; [|done|rewrite length_drop, repeat_length; cbn; lia].
  cbn [mbind option_bind fst snd Z.ltb Z.compare]. do 4 f_equal.
  rewrite drop_drop, skipn_all2 by (rewrite repeat_length; cbn; lia).
  rewrite app_nil_r. unfold enc_dict. by rewrite Hc.
Qed.

Lemma read_mid pre x post n :
  n = Z.of_nat (length x) -> read_at (pre ++ x ++ post) (Z.of_nat (length pre)) n = Some x.
Proof.
  intros ->. unfold read_at. rewrite !length_app.
  rewrite !(proj2 (Z.leb_le _ _)) by lia. cbn [andb].
  by rewrite !Nat2Z.id, drop_app_length, take_app_length.
Qed.

Lemma c_string_key k post :
  key_ok k -> c_string (list_ascii_of_string k ++ NUL :: post) = Some k.
Proof.
  unfold key_ok. induction k as [|a k IH]; cbn; [done|]. intros [Ha Hk]%not_elem_of_cons.
  rewrite decide_False by congruence. by rewrite IH.
Qed.

(** A value as it comes back: null data of length 0 is an empty buffer. *)

Definition norm (v : data_t) : data_t :=
  {| d_len := d_len v; d_data := Some (default [] (d_data v)) |}.

Definition add_all (l : list (string * data_t)) (d : dict_t) : dict_t :=
  foldl (fun d p => (dict_add d p.1 (Some (norm p.2))).2) d l.

Lemma unserialize_pair n buf pre p post size fill :
  key_ok p.1 -> data_ok p.2 -> buf = pre ++ enc_pair p ++ post -> size = Z.of_nat (length buf) ->
  size < 2 ^ 31 ->
  unserialize_pairs (S n) buf size (Z.of_nat (length pre)) fill =
  unserialize_pairs n buf size (Z.of_nat (length (pre ++ enc_pair p)))
    (dict_add fill p.1 (Some (norm p.2))).2.
Proof.
  destruct p as [k v]. cbn [fst snd]. intros Hk Hv Hbuf Hsize Hsmall.
  pose proof (enc_pair_length (k, v) Hv) as Hp. cbn [fst snd] in Hp.
  pose proof (data_ok_len v Hv) as Hd.
  assert (size = Z.of_nat (length pre) + Z.of_nat (length (enc_pair (k, v))) +
                 Z.of_nat (length post)) as Hs
    by (rewrite Hsize, Hbuf, !length_app; lia).
  set (key := list_ascii_of_string k) in *. set (b := default [] (d_data v)) in *.
  assert (buf = pre ++ hton32 (Z.of_nat (length key)) ++
            (hton32 (d_len v) ++ key ++ [NUL] ++ b ++ post)) as Hb1
    by (rewrite Hbuf; unfold enc_pair; cbn [fst snd]; by rewrite <- !app_assoc).
  assert (buf = (pre ++ hton32 (Z.of_nat (length key))) ++ hton32 (d_len v) ++
            (key ++ [NUL] ++ b ++ post)) as Hb2 by (rewrite Hb1; by rewrite <- !app_assoc).
  assert (buf = (pre ++ hton32 (Z.of_nat (length key)) ++ hton32 (d_len v)) ++ key ++ NUL ::
            (b ++ post)) as Hb3 by (rewrite Hb1; by rewrite <- !app_assoc).
  assert (buf = (pre ++ hton32 (Z.of_nat (length key)) ++ hton32 (d_len v) ++ key ++ [NUL]) ++
            b ++ post) as Hb4 by (rewrite Hb1; by rewrite <- !app_assoc).
  cbn [unserialize_pairs]. unfold DICT_DATA_HDR_KEY_LEN, DICT_DATA_HDR_VAL_LEN.
  rewrite (proj2 (Z.ltb_ge _ _)) by lia. rewrite Hb1 at 1. rewrite read_mid by done.
  cbn [mbind option_bind]. rewrite ntoh32_hton32 by (unfold in_s; lia).
  rewrite (proj2 (Z.ltb_ge _ _)) by lia. rewrite Hb2 at 1.
  replace (Z.of_nat (length pre) + 4) with
    (Z.of_nat (length (pre ++ hton32 (Z.of_nat (length key))))) by (rewrite length_app; cbn; lia).
  rewrite read_mid by done. cbn [mbind option_bind].
  rewrite ntoh32_hton32 by (unfold in_s; lia). rewrite length_app. cbn [length hton32].
  rewrite (proj2 (Z.ltb_ge _ _)) by lia. rewrite (swrap_small 32) by (unfold in_s; lia).
  rewrite (proj2 (Z.ltb_ge _ _)) by lia. rewrite Hb4 at 1.
  set (pre4 := pre ++ hton32 _ ++ hton32 _ ++ key ++ [NUL]).
  assert (Z.of_nat (length pre4) = Z.of_nat (length pre + 4) + 4 + (Z.of_nat (length key) + 1)) as Hl4
    by (unfold pre4; rewrite !length_app; cbn [length hton32]; lia).
  rewrite <- Hl4, read_mid by done. cbn [mbind option_bind].
  unfold string_at. rewrite (proj2 (Z.leb_le _ _)) by lia. rewrite Hb3 at 1.
  replace (Z.to_nat (Z.of_nat (length pre + 4) + 4)) with
    (length (pre ++ hton32 (Z.of_nat (length key)) ++ hton32 (d_len v)))
    by (rewrite !length_app; cbn [length hton32]; lia).
  pose proof (c_string_key k (b ++ post) Hk) as Hcs. fold key in Hcs.
  rewrite drop_app_length, Hcs. cbn [mbind option_bind].
  f_equal. rewrite length_app. lia.
Qed.

Lemma unserialize_pairs_spec l buf pre fill :
  Forall (fun p => key_ok p.1 /\ data_ok p.2) l -> buf = pre ++ enc_pairs l ->
  Z.of_nat (length buf) < 2 ^ 31 ->
  unserialize_pairs (length l) buf (Z.of_nat (length buf)) (Z.of_nat (length pre)) fill =
    Some (0, add_all l fill).
Proof.
  intros Hl. revert pre fill. induction Hl as [|p l [Hk Hv] Hl IH]; intros pre fill Hbuf Hs; [done|].
  cbn [length]. rewrite enc_pairs_cons in Hbuf.
  erewrite unserialize_pair; [|done..]. apply IH; [|done]. by rewrite <- app_assoc.
Qed.

Lemma add_all_members l d :
  members_list (add_all l d) = rev (map (fun p => (p.1, norm p.2)) l) ++ members_list d.
Proof.
  revert d. induction l as [|p l IH]; intros d; [done|]. cbn [map rev].
  change (add_all (p :: l) d) with (add_all l (dict_add d p.1 (Some (norm p.2))).2).
  rewrite IH. by rewrite <- app_assoc.
Qed.

Lemma add_all_count l d :
  0 <= count d -> count d + Z.of_nat (length l) < 2 ^ 31 ->
  count (add_all l d) = count d + Z.of_nat (length l).
Proof.
  revert d. induction l as [|p l IH]; intros d Hd Hl; [cbn; lia|].
  change (add_all (p :: l) d) with (add_all l (dict_add d p.1 (Some (norm p.2))).2).
  cbn [length] in Hl. assert (i32 (count d + 1) = count d + 1) as Hi
    by (apply swrap_small; unfold in_s; lia).
  rewrite IH; unfold dict_add, _dict_set; cbn [andb snd count length]; rewrite Hi; lia.
Qed.

Lemma lookup_rev l k : NoDup l.*1 -> lookup_pairs (rev l) k = lookup_pairs l k.
Proof.
  intros Hl. assert (rev l = reverse l) as -> by apply rev_alt.
  destruct (lookup_pairs l k) as [v|] eqn:E.
  - apply lookup_pairs_unique.
    + rewrite fmap_reverse. by rewrite reverse_Permutation.
    + by apply elem_of_reverse, lookup_pairs_elem.
  - apply lookup_pairs_None. rewrite fmap_reverse, elem_of_reverse. by apply lookup_pairs_None.
Qed.

Lemma lookup_norm l k :
  lookup_pairs (map (fun p => (p.1, norm p.2)) l) k = norm <$> lookup_pairs l k.
Proof. induction l as [|[a b] l IH]; [done|]. simpl. by case_decide. Qed.

(** ** Comparison, proved *)

Definition matching (m : string -> data_t -> bool) (l : list (string * data_t)) :=
  filter (fun p => m p.1 p.2 = true) l.

Lemma foreach_match_ok {S} m (act : string -> data_t -> S -> Z * S) l n s :
  (forall k v s, (k, v) ∈ l -> m k v = true -> 0 <= (act k v s).1) ->
  0 <= n -> n + Z.of_nat (length l) < 2 ^ 31 ->
  (foreach_match m act l n s).1 = n + Z.of_nat (length (matching m l)).
Proof.
  unfold matching. revert n s. induction l as [|[k v] l IH]; intros n s Ha Hn Hl; cbn [length] in *.
  { cbn. lia. }
  cbn [foreach_match]. rewrite filter_cons. cbn [fst snd].
  assert (forall k v s, (k, v) ∈ l -> m k v = true -> 0 <= (act k v s).1) as Ha'
    by (intros; apply Ha; [by right|done]).
  destruct (m k v) eqn:Hm.
  - specialize (Ha k v s ltac:(left) Hm). destruct (act k v s) as [r s']. cbn [fst] in Ha.
    rewrite (proj2 (Z.ltb_ge _ _)) by lia. rewrite decide_True by done.
    rewrite swrap_small by (unfold in_s; lia). rewrite IH by (done || lia). cbn [length]. lia.
  - rewrite decide_False by done. apply IH; (done || lia).
Qed.

Lemma foreach_match_fail m (act : string -> data_t -> unit -> Z * unit) l n k v :
  (forall k v, (act k v tt).1 = 0 \/ (act k v tt).1 = -1) ->
  (k, v) ∈ l -> m k v = true -> (act k v tt).1 = -1 ->
  (foreach_match m act l n tt).1 = -1.
Proof.
  intros Hact Hin Hm Hf. revert n. induction l as [|[a b] l IH]; intros n;
    [by apply not_elem_of_nil in Hin|]. cbn [foreach_match].
  apply elem_of_cons in Hin as [[= <- <-]|Hin].
  - rewrite Hm. destruct (act k v tt) as [r []]. simpl in Hf. by subst r.
  - destruct (m a b); [|auto]. specialize (Hact a b). destruct (act a b tt) as [r []].
    cbn [fst] in Hact. destruct Hact as [-> | ->]; [|done]. cbn. auto.
Qed.

Lemma key_value_cmp_codes d2 vi k v :
  (key_value_cmp d2 vi k v tt).1 = 0 \/ (key_value_cmp d2 vi k v tt).1 = -1.
Proof. unfold key_value_cmp. repeat case_match; auto. Qed.

(** The values of a key agree, or its values are not compared. *)

Definition agree (vi : option (string -> bool)) (k : string) (v : data_t) (o : option data_t)
    : Prop :=
  exists v2, o = Some v2 /\ (default (fun _ => false) vi k = true \/ is_data_equal v v2 = 1).

Lemma key_value_cmp_agree d2 vi k v :
  (key_value_cmp d2 vi k v tt).1 = 0 <-> agree vi k v (dict_get d2 k).
Proof.
  unfold key_value_cmp, agree. destruct (dict_get d2 k) as [v2|]; [|naive_solver].
  destruct vi as [f|]; cbn [default from_option id].
  - destruct (f k) eqn:Ef; [naive_solver|].
    destruct (Z.eqb_spec (is_data_equal v v2) 1); naive_solver.
  - destruct (Z.eqb_spec (is_data_equal v v2) 1); naive_solver.
Qed.

Lemma matching_keys m l k :
  k ∈ (matching m l).*1 <-> exists v, (k, v) ∈ l /\ m k v = true.
Proof.
  split.
  - intros ([a b] & -> & [Hm Hin]%list_elem_of_filter)%list_elem_of_fmap. eauto.
  - intros (v & Hin & Hm). apply (list_elem_of_fmap_2 fst _ (k, v)).
    by apply list_elem_of_filter.
Qed.

Lemma matching_unique m l : NoDup l.*1 -> NoDup (matching m l).*1.
Proof. intros Hl. eapply sublist_NoDup; [exact Hl|]. apply fmap_sublist, sublist_filter. Qed.

Lemma subset_length_eq (l1 l2 : list string) :
  NoDup l1 -> NoDup l2 -> (forall k, k ∈ l1 -> k ∈ l2) -> length l1 = length l2 ->
  forall k, k ∈ l2 -> k ∈ l1.
Proof.
  intros H1 H2 Hsub Hlen k Hk. assert (l1 ≡ₚ l2) as ->; [|done].
  apply submseteq_length_Permutation; [by apply NoDup_submseteq|lia].
Qed.

(** The walk over the first dictionary: every matching pair agrees. *)

Definition walk (one two : dict_t) m vi : Z :=
  (dict_foreach_match one m (key_value_cmp two vi) tt).1.

Lemma walk_spec one two m vi :
  dict_ok one ->
  (walk one two m vi = Z.of_nat (length (matching m (members_list one))) /\
   forall k v, (k, v) ∈ members_list one -> m k v = true -> agree vi k v (dict_get two k)) \/
  (walk one two m vi = -1 /\
   exists k v, (k, v) ∈ members_list one /\ m k v = true /\ ~ agree vi k v (dict_get two k)).
Proof.
  intros [_ Hs _]. unfold walk, dict_foreach_match.
  destruct (decide (Exists (fun p => m p.1 p.2 = true /\ (key_value_cmp two vi p.1 p.2 tt).1 <> 0)
    (members_list one))) as [([k v] & Hin & Hm & Hne)%Exists_exists|Hno].
  - right. split; [|exists k, v; by rewrite <- key_value_cmp_agree].
    eapply foreach_match_fail; [apply key_value_cmp_codes|done..|].
    by destruct (key_value_cmp_codes two vi k v).
  - assert (forall k v, (k, v) ∈ members_list one -> m k v = true ->
      (key_value_cmp two vi k v tt).1 = 0) as Hall.
    { intros k v Hin Hm. destruct (decide ((key_value_cmp two vi k v tt).1 = 0)) as [|Hne]; [done|].
      destruct Hno. apply Exists_exists. by exists (k, v). }
    left. split.
    + rewrite foreach_match_ok; [lia| |lia|lia].
      intros k v [] Hin Hm. by rewrite Hall.
    + intros k v Hin Hm. by apply key_value_cmp_agree, Hall.
Qed.

(** Two dictionaries with distinct keys are reported equal exactly when
    every pair of the first whose key is to be compared has an equal value in
    the second (or a value that is not compared), and no key to be compared
    is in the second dictionary alone. *)
Theorem are_dicts_equal_spec (one two : dict_t) (m : string -> data_t -> bool)
    (vi : option (string -> bool)) :
  dict_ok one -> dict_ok two -> dict_unique one -> dict_unique two ->
  (forall k v v', m k v = m k v') ->
  are_dicts_equal one (Some two) (Some m) vi = true <->
    (forall k v, (k, v) ∈ members_list one -> m k v = true -> agree vi k v (dict_get two k)) /\
    (forall k v, (k, v) ∈ members_list two -> m k v = true -> is_Some (dict_get one k)).
Proof.
  intros H1 H2 U1 U2 Hm. unfold are_dicts_equal. cbn [default from_option id].
  change (dict_foreach_match one m (key_value_cmp two vi) tt).1 with (walk one two m vi).
  destruct (walk_spec one two m vi H1) as [[-> Hagree]|[-> (k & v & Hin & Hk & Hno)]].
  2: { cbn. split; [done|]. intros [Hall _]. by destruct Hno; apply Hall. }
  rewrite (proj2 (Z.eqb_neq _ _)) by lia. unfold dict_foreach_match.
  assert (forall k, k ∈ (matching m (members_list one)).*1 -> k ∈ (matching m (members_list two)).*1)
    as Hsub.
  { intros k (v & Hin & Hk)%matching_keys. destruct (Hagree k v Hin Hk) as (v2 & Hv2 & _).
    apply matching_keys. exists v2. split; [by apply lookup_pairs_elem|].
    by rewrite (Hm k v2 v). }
  rewrite (foreach_match_ok m _ (members_list two)); [|done|lia|destruct H2; lia].
  assert (forall l, length (matching m l).*1 = length (matching m l)) as Hlen
    by (intros; apply length_fmap).
  transitivity (length (matching m (members_list one)) = length (matching m (members_list two))).
  - destruct (Z.eqb_spec (Z.of_nat (length (matching m (members_list one)))) (count one)) as [E1|E1];
      destruct (Z.eqb_spec (count one) (count two)) as [E2|E2]; cbn [andb];
      try (rewrite Z.eqb_eq; lia).
    split; [|done]. intros _.
    pose proof (NoDup_submseteq _ _ (matching_unique m _ U1) Hsub) as Hle%submseteq_length.
    rewrite !Hlen in Hle. pose proof (length_filter (fun p => m p.1 p.2 = true) (members_list two)).
    destruct H1 as [C1 _ _], H2 as [C2 _ _]. unfold matching in *. lia.
  - split.
    + intros Heq. split; [done|]. intros k v Hin Hk.
      assert (k ∈ (matching m (members_list one)).*1) as Hk1.
      { eapply subset_length_eq; [by apply matching_unique|apply (matching_unique m _ U2)|done| |].
        - by rewrite !Hlen.
        - apply matching_keys. eauto. }
      apply matching_keys in Hk1 as (v1 & Hin1 & _). exists v1.
      by apply lookup_pairs_unique.
    + intros [_ Hback]. rewrite <- !Hlen. apply Permutation_length, NoDup_Permutation;
        [by apply matching_unique..|]. intros k. split; [apply Hsub|].
      intros (v & Hin & Hk)%matching_keys. destruct (Hback k v Hin Hk) as [v1 Hv1].
      apply matching_keys. exists v1. split; [by apply lookup_pairs_elem|].
      by rewrite (Hm k v1 v).
Qed.

(** ** Operations keep the invariant *)

Lemma set_ok d k v :
  dict_ok d -> key_ok k -> data_ok v -> Z.of_nat (length (members_list d)) + 1 < 2 ^ 31 ->
  dict_ok (dict_set d k (Some v)).2 /\ dict_ok (dict_add d k (Some v)).2.
Proof.
  intros [Hc Hs Hp] Hk Hv Hroom.
  assert (forall l, Forall (fun p => key_ok p.1 /\ data_ok p.2) l ->
    length l = length (members_list d) -> dict_ok {| members_list := l; count := count d |})
    as Hrep by (intros l Hl Hlen; split; cbn [members_list count]; [lia|lia|done]).
  assert (dict_ok {| members_list := (k, v) :: members_list d; count := i32 (count d + 1) |}) as Hadd.
  { split; cbn [members_list count length]; [|lia|by constructor].
    rewrite swrap_small by (unfold in_s; lia). lia. }
  split; [|done]. unfold dict_set, _dict_set. cbn [andb]. case_bool_decide; [|done].
  apply Hrep; [by apply replace_Forall|].
  rewrite <- (length_fmap fst (replace_pair _ _ _)), replace_keys. apply length_fmap.
Qed.

Lemma del_ok d k : dict_ok d -> dict_ok (dict_del d k).
Proof.
  intros [Hc Hs Hp]. unfold dict_del.
  destruct (del_pair (members_list d) k) as [l'|] eqn:E; [|by split].
  apply del_pair_Some in E as (l1&v&l2&Hd&->&_).
  rewrite Hd in *. rewrite length_app in *. cbn [length] in *.
  apply Forall_app in Hp as [Hp1 [_ Hp2]%Forall_cons].
  split; cbn [members_list count]; rewrite ?length_app; [|lia|by apply Forall_app].
  rewrite swrap_small by (unfold in_s; lia). lia.
Qed.

(** ** Properties *)

(** C15. A dictionary sent over the wire comes back: serialisation fills
    exactly the buffer whose length it computes, without writing out of
    bounds, and unserialising that buffer into a new dictionary reads within
    bounds, answers 0 and gives every key its value. *)
Theorem serialize_roundtrip (d : dict_t) :
  dict_ok d -> dict_unique d -> Z.of_nat (length (enc_dict d)) < 2 ^ 31 ->
  exists buf d', dict_allocate_and_serialize d = Some (0, Some (buf, Z.of_nat (length buf))) /\
    dict_unserialize buf (Z.of_nat (length buf)) dict_new = Some (0, d') /\
    count d' = count d /\ forall k, dict_get d' k = norm <$> dict_get d k.
Proof.
  intros Hok Hu Hb. exists (enc_dict d), (add_all (members_list d) dict_new).
  split; [by apply serialize_spec|]. destruct Hok as [Hc Hs Hp]. split_and!.
  - unfold dict_unserialize, DICT_HDR_LEN.
    assert (4 <= Z.of_nat (length (enc_dict d))) as Hlen
      by (unfold enc_dict; rewrite length_app; cbn [length hton32]; lia).
    rewrite (proj2 (Z.eqb_neq _ _)), (proj2 (Z.ltb_ge _ _)) by lia.
    pose proof (read_mid [] (hton32 (count d)) (enc_pairs (members_list d)) 4 eq_refl) as Hread.
    change (read_at (enc_dict d) 0 4 = Some (hton32 (count d))) in Hread. rewrite Hread.
    cbn [mbind option_bind]. rewrite ntoh32_hton32 by (unfold in_s; lia).
    rewrite (proj2 (Z.ltb_ge _ _)) by lia. rewrite Hc, Nat2Z.id.
    by apply (unserialize_pairs_spec _ _ (hton32 (Z.of_nat (length (members_list d)))));
      [done|unfold enc_dict; rewrite Hc|].
  - rewrite add_all_count; cbn; lia.
  - intros k. unfold dict_get, _dict_lookup. rewrite add_all_members. cbn [members_list dict_new].
    rewrite app_nil_r, lookup_rev, lookup_norm; [done|].
    change (NoDup ((fun p => (p.1, norm p.2)) <$> members_list d).*1).
    by rewrite <- list_fmap_compose.
Qed.

(** A dictionary behaves as a map: a value that is set is found under its
    key and no other key changes; deleting a key removes it and nothing else;
    and both keep the pair count exact and the keys distinct. *)
Theorem dict_map_laws (d : dict_t) (k : string) (v : data_t) :
  dict_ok d -> dict_unique d -> key_ok k -> data_ok v ->
  Z.of_nat (length (members_list d)) + 1 < 2 ^ 31 ->
  let '(ret, d1) := dict_set d k (Some v) in
  let d2 := dict_del d k in
  ret = 0 /\
  (forall k', dict_get d1 k' = if decide (k = k') then Some v else dict_get d k') /\
  (forall k', dict_get d2 k' = if decide (k = k') then None else dict_get d k') /\
  dict_ok d1 /\ dict_unique d1 /\ dict_ok d2 /\ dict_unique d2.
Proof.
  intros Hok Hu Hk Hv Hroom.
  destruct (dict_set d k (Some v)) as [ret d1] eqn:E. cbv zeta.
  assert (d1 = (dict_set d k (Some v)).2) as -> by (by rewrite E).
  split_and!.
  - unfold dict_set, _dict_set in E. by destruct (_ && _); simplify_eq.
  - intros k'. apply get_set.
  - intros k'. case_decide; subst; [by apply get_del|by apply get_del_other].
  - by apply set_ok.
  - by apply set_unique.
  - by apply del_ok.
  - by apply del_unique.
Qed.

(** A received buffer can make [dict_unserialize] read outside the buffer:
    the length of a key is compared with the end of the buffer without its
    terminating byte, and the key itself is read up to a zero byte that need
    not be there. *)
Theorem unserialize_reads_past_end :
  exists buf : list ascii, length buf = 13%nat /\
    dict_unserialize buf (Z.of_nat (length buf)) dict_new = None.
Proof.
  exists (hton32 1 ++ hton32 0 ++ hton32 0 ++ ["k"%char]). split; [done|].
  by vm_compute.
Qed.

(** ** Witnesses *)

Definition sample_data : data_t := {| d_len := 2; d_data := Some ["v"%char; NUL] |}.

Definition sample_dict : dict_t :=
  {| members_list := [("b"%string, sample_data); ("a"%string, {| d_len := 0; d_data := None |})];
     count := 2 |}.

Lemma sample_dict_ok : dict_ok sample_dict.
Proof.
  split; [done|done|]. repeat constructor; try done; cbn; unfold key_ok; cbn;
    intros Hin%list_elem_of_singleton; done.
Defined.

Lemma sample_dict_unique : dict_unique sample_dict.
Proof. apply (bool_decide_unpack _). by vm_compute. Defined.

Lemma are_dicts_equal_spec_witness :
  are_dicts_equal sample_dict (Some sample_dict) (Some (fun k _ => bool_decide (k = "b"%string))) None
    = true <->
  (forall k v, (k, v) ∈ members_list sample_dict -> bool_decide (k = "b"%string) = true ->
     agree None k v (dict_get sample_dict k)) /\
  (forall k v, (k, v) ∈ members_list sample_dict -> bool_decide (k = "b"%string) = true ->
     is_Some (dict_get sample_dict k)).
Proof.
  apply (are_dicts_equal_spec sample_dict sample_dict (fun k _ => bool_decide (k = "b"%string)) None).
  - exact sample_dict_ok.
  - exact sample_dict_ok.
  - exact sample_dict_unique.
  - exact sample_dict_unique.
  - reflexivity.
Defined.

Lemma serialize_roundtrip_witness :
  exists buf d', dict_allocate_and_serialize sample_dict
      = Some (0, Some (buf, Z.of_nat (length buf))) /\
    dict_unserialize buf (Z.of_nat (length buf)) dict_new = Some (0, d') /\
    count d' = count sample_dict /\ forall k, dict_get d' k = norm <$> dict_get sample_dict k.
Proof.
  apply (serialize_roundtrip sample_dict).
  - exact sample_dict_ok.
  - exact sample_dict_unique.
  - reflexivity.
Defined.

Lemma dict_map_laws_witness :
  let '(ret, d1) := dict_set sample_dict "a" (Some sample_data) in
  let d2 := dict_del sample_dict "a" in
  ret = 0 /\
  (forall k', dict_get d1 k' = if decide ("a"%string = k') then Some sample_data
                               else dict_get sample_dict k') /\
  (forall k', dict_get d2 k' = if decide ("a"%string = k') then None
                               else dict_get sample_dict k') /\
  dict_ok d1 /\ dict_unique d1 /\ dict_ok d2 /\ dict_unique d2.
Proof.
  apply (dict_map_laws sample_dict "a" sample_data).
  - exact sample_dict_ok.
  - exact sample_dict_unique.
  - unfold key_ok. cbn. intros Hin%list_elem_of_singleton. done.
  - reflexivity.
  - reflexivity.
Defined.
