(* ===== verification/DictTyped.v ===== *)
(** * Typed values of dictionaries

    libglusterfs/src/dict.c: numbers are kept as their decimal text, and
    strings with their terminating zero. A getter copies the [len] bytes of a
    value, ends them with a zero and converts with [strtol] and its relatives;
    it returns [None] where the copy reads outside of the value. The result
    of a getter is the code and what is stored through the out pointer. *)

From Stdlib Require Import ZArith Lia Bool Ascii String.
From stdpp Require Import base list strings.
From S2P Require Import Prelude CLib Dict.

(** ** Values made from numbers and strings *)

Definition text_data (l : list ascii) : data_t :=
  {| d_len := i32 (Z.of_nat (length l) + 1); d_data := Some (l ++ ["000"%char]) |}.

Definition int_to_data (value : Z) : data_t := text_data (dec value).
Definition data_from_int64 (value : Z) : data_t := text_data (dec value).
Definition data_from_int32 (value : Z) : data_t := text_data (dec value).
Definition data_from_int16 (value : Z) : data_t := text_data (dec value).
Definition data_from_int8 (value : Z) : data_t := text_data (dec value).
Definition data_from_uint64 (value : Z) : data_t := text_data (dec value).
Definition data_from_uint32 (value : Z) : data_t := text_data (dec value).
Definition data_from_uint16 (value : Z) : data_t := text_data (dec value).

Definition str_to_data (value : option (list ascii)) : option data_t := text_data <$> value.

Definition data_from_dynstr (value : option (list ascii)) : option data_t := text_data <$> value.

Definition data_from_dynptr (value : option (list ascii)) (len : Z) : data_t :=
  {| d_len := len; d_data := value |}.

Definition bin_to_data (value : option (list ascii)) (len : Z) : option data_t :=
  match value with
  | None => None
  | Some v => Some {| d_len := len; d_data := Some v |}
  end.

(** ** Numbers read back *)

(** The copy of the value in [str], as a C string. *)

Fixpoint cut (l : list ascii) : list ascii :=
  match l with
  | [] => []
  | c :: l' => if Ascii.eqb c "000" then [] else c :: cut l'
  end.

Definition data_text (data : data_t) : option (list ascii) :=
  match d_data data with
  | None => if d_len data =? 0 then Some [] else None
  | Some b =>
      if (0 <=? d_len data) && (d_len data <=? Z.of_nat (length b))
      then Some (cut (take (Z.to_nat (d_len data)) b)) else None
  end.

(** The common form of [_data_to_int8] to [_data_to_uint64]: [conv] is the
    conversion with its [errno], [width] the assignment to the out pointer. *)

Definition data_to (conv : list ascii -> Z * Z) (width : Z -> Z) (data : option data_t)
    : option (Z * option Z) :=
  match data with
  | None => Some (- EINVAL, None)
  | Some d =>
      str ← data_text d;
      let '(v, errno) := conv str in
      Some (if errno =? 0 then 0 else - errno, Some (width v))
  end.

Definition _data_to_int8 := data_to strtol0 i8.
Definition _data_to_int16 := data_to strtol0 i16.
Definition _data_to_int32 := data_to strtol0 i32.
Definition _data_to_int64 := data_to strtol0 i64.
Definition _data_to_uint16 := data_to strtoul0 u16.
Definition _data_to_uint32 := data_to strtoul0 u32.
Definition _data_to_uint64 := data_to strtoul0 u64.

(** The older getters, which have no error code and return -1 instead. *)

Definition data_to_old (conv : list ascii -> Z * Z) (width : Z -> Z) (data : option data_t)
    : option Z :=
  match data with
  | None => Some (width (-1))
  | Some d => str ← data_text d; Some (width (conv str).1)
  end.

Definition data_to_int64 := data_to_old strtoul0 i64.
Definition data_to_int32 := data_to_old strtoul0 i32.
Definition data_to_uint64 := data_to_old strtol0 u64.
Definition data_to_uint32 := data_to_old strtol0 u32.

(** These check the value after it has been cut to its width. *)

Definition data_to_int16 (data : option data_t) : option Z :=
  value ← data_to_old strtol0 i16 data;
  if (32767 <? value) || (value <? -32768) then Some (-1) else Some value.

Definition data_to_int8 (data : option data_t) : option Z :=
  value ← data_to_old strtol0 i8 data;
  if (127 <? value) || (value <? -128) then Some (-1) else Some value.

Definition data_to_uint16 (data : option data_t) : option Z :=
  value ← data_to_old strtol0 u16 data;
  if 65535 - value <? 0 then Some (u16 (-1)) else Some value.

Definition data_to_uint8 (data : option data_t) : option Z :=
  value ← data_to_old strtol0 u32 data;
  if 255 - u8 value <? 0 then Some (u8 (-1)) else Some (u8 value).

Definition data_to_str (data : option data_t) : option (list ascii) := d ← data; d_data d.

(** ** Dictionaries of typed values *)

(** [dict_get_int8] and its relatives. *)

Definition dict_get_with (to : option data_t -> option (Z * option Z)) (this : dict_t)
    (key : string) : option (Z * option Z) :=
  let '(ret, data) := dict_get_with_ref this key in
  if negb (ret =? 0) then Some (ret, None) else to data.

Definition dict_get_int8 := dict_get_with _data_to_int8.
Definition dict_get_int16 := dict_get_with _data_to_int16.
Definition dict_get_int32 := dict_get_with _data_to_int32.
Definition dict_get_int64 := dict_get_with _data_to_int64.
Definition dict_get_uint16 := dict_get_with _data_to_uint16.
Definition dict_get_uint32 := dict_get_with _data_to_uint32.
Definition dict_get_uint64 := dict_get_with _data_to_uint64.

Definition dict_set_int8 (this : dict_t) (key : string) (val : Z) : Z * dict_t :=
  dict_set this key (Some (data_from_int8 val)).
Definition dict_set_int16 (this : dict_t) (key : string) (val : Z) : Z * dict_t :=
  dict_set this key (Some (data_from_int16 val)).
Definition dict_set_int32 (this : dict_t) (key : string) (val : Z) : Z * dict_t :=
  dict_set this key (Some (data_from_int32 val)).
Definition dict_set_int64 (this : dict_t) (key : string) (val : Z) : Z * dict_t :=
  dict_set this key (Some (data_from_int64 val)).
Definition dict_set_uint16 (this : dict_t) (key : string) (val : Z) : Z * dict_t :=
  dict_set this key (Some (data_from_uint16 val)).
Definition dict_set_uint32 (this : dict_t) (key : string) (val : Z) : Z * dict_t :=
  dict_set this key (Some (data_from_uint32 val)).
Definition dict_set_uint64 (this : dict_t) (key : string) (val : Z) : Z * dict_t :=
  dict_set this key (Some (data_from_uint64 val)).

(** Strings: a value without bytes gives the code 0 and stores nothing. *)

Definition dict_get_str (this : dict_t) (key : string) : Z * option (list ascii) :=
  let '(ret, data) := dict_get_with_ref this key in
  if ret <? 0 then (ret, None)
  else match data with
       | Some d => (ret, d_data d)
       | None => (ret, None)
       end.

Definition dict_set_str (this : dict_t) (key : string) (str : option (list ascii)) : Z * dict_t :=
  match str_to_data str with
  | None => (- EINVAL, this)
  | Some data => dict_set this key (Some data)
  end.

Definition dict_set_dynstr (this : dict_t) (key : string) (str : option (list ascii))
    : Z * dict_t :=
  match data_from_dynstr str with
  | None => (- EINVAL, this)
  | Some data => dict_set this key (Some data)
  end.

(** A null pointer is refused; [size] is cut to the 32 bits of [len]. *)

Definition dict_set_bin (this : dict_t) (key : string) (ptr : option (list ascii)) (size : Z)
    : Z * dict_t :=
  match bin_to_data ptr (i32 size) with
  | None => (- EINVAL, this)
  | Some data => dict_set this key (Some data)
  end.

Definition dict_set_static_bin (this : dict_t) (key : string) (ptr : option (list ascii)) (size : Z)
    : Z * dict_t :=
  match bin_to_data ptr (i32 size) with
  | None => (- EINVAL, this)
  | Some data => dict_set this key (Some data)
  end.

(** The pointer stays as it was when the value has no data. *)

Definition dict_get_bin (this : dict_t) (key : string) : Z * option (list ascii) :=
  let '(ret, data) := dict_get_with_ref this key in
  if ret <? 0 then (ret, None)
  else match data with
       | Some d => (ret, d_data d)
       | None => (ret, None)
       end.

(** ** Lemmas *)

Lemma cut_app l rest : ~ "000"%char ∈ l -> cut (l ++ "000"%char :: rest) = l.
Proof.
  induction l as [|c l IH]; intros Hn; [done|]. cbn [app cut].
  rewrite not_elem_of_cons in Hn. destruct Hn as [Hc Hn].
  destruct (Ascii.eqb_spec c "000") as [->|]; [done|]. by rewrite IH.
Qed.

Lemma text_data_text l :
  ~ "000"%char ∈ l -> Z.of_nat (length l) < 2 ^ 31 - 1 -> data_text (text_data l) = Some l.
Proof.
  intros Hn Hl. unfold data_text, text_data. cbn [d_data d_len].
  rewrite swrap_small by (unfold in_s; lia).
  rewrite length_app. cbn [length].
  rewrite (proj2 (Z.leb_le _ _)), (proj2 (Z.leb_le _ _)) by lia. cbn [andb].
  rewrite take_ge by (rewrite length_app; cbn [length]; lia). by rewrite cut_app.
Qed.

Lemma length_dec_fuel f n : (length (dec_fuel f n) <= f)%nat.
Proof.
  revert n. induction f as [|f IH]; intros n; cbn [dec_fuel]; [done|].
  destruct (n <? 10); cbn [length]; [lia|]. rewrite length_app. cbn [length].
  specialize (IH (n / 10)). lia.
Qed.

Lemma length_dec z : (length (dec z) <= 21)%nat.
Proof.
  unfold dec, dec_nat. destruct (z <? 0); cbn [length].
  - pose proof (length_dec_fuel 20 (- z)). lia.
  - pose proof (length_dec_fuel 20 z). lia.
Qed.

Lemma dec_data_text z : - 2 ^ 64 < z < 2 ^ 64 -> data_text (text_data (dec z)) = Some (dec z).
Proof.
  intros Hz. apply text_data_text; [by apply dec_no_nul|]. pose proof (length_dec z). lia.
Qed.

Lemma signed_roundtrip w z :
  0 < w <= 64 -> in_s w z ->
  data_to strtol0 (swrap w) (Some (text_data (dec z))) = Some (0, Some z).
Proof.
  intros Hw Hz. assert (in_s 64 z) as H64.
  { unfold in_s in *. pose proof (Z.pow_le_mono_r 2 (w - 1) (64 - 1)). lia. }
  unfold data_to. rewrite dec_data_text by (unfold in_s in H64; lia). cbn [mbind option_bind].
  rewrite strtol0_dec by done. by rewrite swrap_small by (done || lia).
Qed.

Lemma unsigned_roundtrip w z :
  0 < w <= 64 -> in_u w z ->
  data_to strtoul0 (uwrap w) (Some (text_data (dec z))) = Some (0, Some z).
Proof.
  intros Hw Hz. assert (in_u 64 z) as H64.
  { unfold in_u in *. pose proof (Z.pow_le_mono_r 2 w 64). lia. }
  unfold data_to. rewrite dec_data_text by (unfold in_u in H64; lia). cbn [mbind option_bind].
  rewrite strtoul0_dec by done. by rewrite uwrap_small.
Qed.

Lemma get_with_set to this key v :
  dict_get_with to (dict_set this key (Some v)).2 key = to (Some v).
Proof.
  unfold dict_get_with, dict_get_with_ref.
  pose proof (get_set this key v key) as Hg. rewrite decide_True in Hg by done.
  unfold dict_get in Hg. by rewrite Hg.
Qed.

(** ** Properties *)

(** A number that a typed setter stores comes back from the getter of the
    same type with code 0, over the whole range of the type, for every integer
    type that both sides exist for; the entries under other keys are kept. *)
Theorem dict_int_roundtrip (this : dict_t) (key other : string) (z : Z) :
  other <> key ->
  (in_s 8 z -> dict_get_int8 (dict_set_int8 this key z).2 key = Some (0, Some z)) /\
  (in_s 16 z -> dict_get_int16 (dict_set_int16 this key z).2 key = Some (0, Some z)) /\
  (in_s 32 z -> dict_get_int32 (dict_set_int32 this key z).2 key = Some (0, Some z)) /\
  (in_s 64 z -> dict_get_int64 (dict_set_int64 this key z).2 key = Some (0, Some z)) /\
  (in_u 16 z -> dict_get_uint16 (dict_set_uint16 this key z).2 key = Some (0, Some z)) /\
  (in_u 32 z -> dict_get_uint32 (dict_set_uint32 this key z).2 key = Some (0, Some z)) /\
  (in_u 64 z -> dict_get_uint64 (dict_set_uint64 this key z).2 key = Some (0, Some z)) /\
  dict_get (dict_set_int8 this key z).2 other = dict_get this other.
Proof.
  intros Hne. split_and!.
  1-7: intros Hz; etrans; [apply get_with_set|];
    first [apply signed_roundtrip|apply unsigned_roundtrip]; [lia|exact Hz].
  unfold dict_set_int8. rewrite get_set. by rewrite decide_False.
Qed.

(** C40. The older getter of unsigned 64-bit numbers converts with the signed
    function: every number of 2^63 or more comes back as 2^63 - 1. *)
Theorem data_to_uint64_saturates (z : Z) :
  in_u 64 z ->
  data_to_uint64 (Some (data_from_uint64 z)) = Some (Z.min z (2 ^ 63 - 1)).
Proof.
  unfold in_u. intros Hz. unfold data_to_uint64, data_to_old, data_from_uint64.
  rewrite dec_data_text by lia. cbn [mbind option_bind]. unfold strtol0.
  destruct (magnitude_dec z) as (neg & n & -> & Hn & Hzn & Hneg); [lia|]. rewrite <- Hzn.
  rewrite (proj2 (Z.ltb_ge _ _)) by lia.
  destruct (Z.ltb_spec (2 ^ 63 - 1) z); cbn [fst]; rewrite uwrap_small by (unfold in_u; lia).
  all: f_equal; lia.
Qed.

(** ** Witnesses *)

Lemma dict_int_roundtrip_witness :
  dict_get_int8 (dict_set_int8 dict_new "a" (-128)).2 "a" = Some (0, Some (-128)).
Proof. by apply (dict_int_roundtrip dict_new "a" "b" (-128)). Defined.

Lemma data_to_uint64_saturates_witness :
  data_to_uint64 (Some (data_from_uint64 (2 ^ 63))) = Some (2 ^ 63 - 1).
Proof. exact (data_to_uint64_saturates (2 ^ 63) ltac:(unfold in_u; lia)). Defined.
