(* ===== verification/Uuid.v ===== *)
(** * Universally unique identifiers

    contrib/uuid: packing, printing, parsing and comparing the 16-byte
    identifiers (gfids) under which files are known everywhere in GlusterFS.
    A [uuid_t] is a list of 16 bytes. *)

From Stdlib Require Import ZArith Lia Bool Ascii String.
From stdpp Require Import base list strings.
From S2P Require Import Prelude.

Definition uuid_t : Type := list Z.

Definition uuid_ok (u : uuid_t) : Prop :=
  length u = 16%nat /\ Forall (fun b => 0 <= b < 256) u.

Record uuid := {
  time_low : Z; time_mid : Z; time_hi_and_version : Z; clock_seq : Z; node : list Z
}.

(** ** unpack.c and pack.c *)

Definition be16 (a b : Z) : Z := Z.lor (Z.shiftl a 8) b.

Definition uuid_unpack (u : uuid_t) : uuid :=
  let b i := nth i u 0 in
  {| time_low := u32 (Z.lor (Z.shiftl (u32 (Z.lor (Z.shiftl (u32 (Z.lor (Z.shiftl (b 0%nat) 8)
                  (b 1%nat))) 8) (b 2%nat))) 8) (b 3%nat));
     time_mid := uwrap 16 (be16 (b 4%nat) (b 5%nat));
     time_hi_and_version := uwrap 16 (be16 (b 6%nat) (b 7%nat));
     clock_seq := uwrap 16 (be16 (b 8%nat) (b 9%nat));
     node := take 6 (drop 10 u) |}.

Definition uuid_pack (uu : uuid) : uuid_t :=
  let byte v i := u8 (Z.shiftr v (8 * i)) in
  [byte (time_low uu) 3; byte (time_low uu) 2; byte (time_low uu) 1; byte (time_low uu) 0;
   byte (time_mid uu) 1; byte (time_mid uu) 0;
   byte (time_hi_and_version uu) 1; byte (time_hi_and_version uu) 0;
   byte (clock_seq uu) 1; byte (clock_seq uu) 0] ++ take 6 (node uu).

(** ** unparse.c *)

Definition hex_digit (n : Z) : ascii :=
  ascii_of_N (Z.to_N (if n <? 10 then 48 + n else 87 + n)).

(** [%0<w>x] of a number that [w] digits can hold. *)

Fixpoint hexw (w : nat) (n : Z) : list ascii :=
  match w with
  | O => []
  | S w' => hexw w' (n / 16) ++ [hex_digit (n mod 16)]
  end.

Definition dash : ascii := "-"%char.

Definition unparse_chars (u : uuid_t) : list ascii :=
  let uu := uuid_unpack u in
  hexw 8 (time_low uu) ++ dash :: hexw 4 (time_mid uu) ++ dash ::
  hexw 4 (time_hi_and_version uu) ++ dash ::
  hexw 2 (Z.shiftr (clock_seq uu) 8) ++ hexw 2 (Z.land (clock_seq uu) 255) ++ dash ::
  concat (map (hexw 2) (node uu)).

Definition gf_uuid_unparse (u : uuid_t) : string := string_of_list_ascii (unparse_chars u).

(** [uuid_utoa] prints into a buffer of the calling thread. *)

Definition uuid_utoa (u : uuid_t) : string := gf_uuid_unparse u.

(** ** parse.c *)

Definition xval (c : ascii) : option Z :=
  let n := Z.of_N (N_of_ascii c) in
  if (48 <=? n) && (n <=? 57) then Some (n - 48)
  else if (97 <=? n) && (n <=? 102) then Some (n - 87)
  else if (65 <=? n) && (n <=? 70) then Some (n - 55)
  else None.

Definition isxdigit (c : ascii) : bool := bool_decide (is_Some (xval c)).

(** [strtoul] in base 16 from a position where a digit is known to stand. *)

Fixpoint strtoul16 (acc : Z) (l : list ascii) : Z :=
  match l with
  | c :: l' => match xval c with Some d => strtoul16 (acc * 16 + d) l' | None => acc end
  | [] => acc
  end.

Definition is_dash_pos (i : nat) : bool :=
  (Nat.eqb i 8) || (Nat.eqb i 13) || (Nat.eqb i 18) || (Nat.eqb i 23).

Fixpoint parse_check (i : nat) (l : list ascii) : bool :=
  match l with
  | [] => true
  | c :: l' =>
      (if is_dash_pos i then Ascii.eqb c dash else isxdigit c) && parse_check (S i) l'
  end.

Fixpoint parse_node (n : nat) (l : list ascii) : list Z :=
  match n with
  | O => []
  | S n' => u8 (strtoul16 0 (take 2 l)) :: parse_node n' (drop 2 l)
  end.

Definition gf_uuid_parse (s : string) : option uuid_t :=
  let l := list_ascii_of_string s in
  if negb (Nat.eqb (length l) 36) then None else
  if parse_check 0 l then
    Some (uuid_pack
      {| time_low := u32 (strtoul16 0 l);
         time_mid := uwrap 16 (strtoul16 0 (drop 9 l));
         time_hi_and_version := uwrap 16 (strtoul16 0 (drop 14 l));
         clock_seq := uwrap 16 (strtoul16 0 (drop 19 l));
         node := parse_node 6 (drop 24 l) |})
  else None.

(** ** compare.c and isnull.c *)

Definition uucmp (a b : Z) (k : Z) : Z := if a =? b then k else if a <? b then -1 else 1.

(** The sign of the first difference. *)

Fixpoint memcmp (a b : list Z) : Z :=
  match a, b with
  | x :: a', y :: b' => uucmp x y (memcmp a' b')
  | _, _ => 0
  end.

Definition gf_uuid_compare (uu1 uu2 : uuid_t) : Z :=
  let u1 := uuid_unpack uu1 in
  let u2 := uuid_unpack uu2 in
  uucmp (time_low u1) (time_low u2)
  (uucmp (time_mid u1) (time_mid u2)
  (uucmp (time_hi_and_version u1) (time_hi_and_version u2)
  (uucmp (clock_seq u1) (clock_seq u2) (memcmp (node u1) (node u2))))).

Definition gf_uuid_is_null (u : uuid_t) : bool := forallb (fun b => b =? 0) u.

(** ** Bytes and words *)

Lemma lor_shift a b : 0 <= b < 256 -> Z.lor (Z.shiftl a 8) b = a * 256 + b.
Proof. intros Hb. rewrite Z.shiftl_mul_pow2 by lia. by apply (lor_add 8). Qed.

(** The bytes of an identifier, and what the fields hold. *)

Lemma uuid_cases u :
  uuid_ok u -> exists b0 b1 b2 b3 b4 b5 b6 b7 b8 b9 nd,
    u = [b0; b1; b2; b3; b4; b5; b6; b7; b8; b9] ++ nd /\ length nd = 6%nat /\
    Forall (fun b => 0 <= b < 256) [b0; b1; b2; b3; b4; b5; b6; b7; b8; b9] /\
    Forall (fun b => 0 <= b < 256) nd.
Proof.
  intros [Hl Hb]. do 10 (destruct u as [|? u]; [done|]).
  do 10 eexists. exists u. split; [done|]. split; [by injection Hl|].
  change (Forall (fun b => 0 <= b < 256) ([z; z0; z1; z2; z3; z4; z5; z6; z7; z8] ++ u)) in Hb.
  by apply Forall_app in Hb.
Qed.

Lemma u32_small z : 0 <= z < 4294967296 -> u32 z = z.
Proof. intros. by apply uwrap_small. Qed.

Lemma u16_small z : 0 <= z < 65536 -> uwrap 16 z = z.
Proof. intros. by apply uwrap_small. Qed.

Lemma unpack_fields b0 b1 b2 b3 b4 b5 b6 b7 b8 b9 nd :
  length nd = 6%nat -> Forall (fun b => 0 <= b < 256) [b0; b1; b2; b3; b4; b5; b6; b7; b8; b9] ->
  uuid_unpack ([b0; b1; b2; b3; b4; b5; b6; b7; b8; b9] ++ nd) =
  {| time_low := ((b0 * 256 + b1) * 256 + b2) * 256 + b3; time_mid := b4 * 256 + b5;
     time_hi_and_version := b6 * 256 + b7; clock_seq := b8 * 256 + b9; node := nd |}.
Proof.
  intros Hn Hb. repeat (apply Forall_cons in Hb as [? Hb]).
  unfold uuid_unpack, be16. cbn [nth app].
  assert (take 6 (drop 10 ([b0; b1; b2; b3; b4; b5; b6; b7; b8; b9] ++ nd)) = nd) as Hnode.
  { cbn [app drop]. apply take_ge. lia. }
  cbn [app] in Hnode. rewrite Hnode.
  rewrite !lor_shift by lia. rewrite (u32_small (b0 * 256 + b1)) by lia.
  rewrite (u32_small ((b0 * 256 + b1) * 256 + b2)) by lia.
  rewrite u32_small, !u16_small by lia. done.
Qed.

Lemma shift_byte z i : 0 <= i -> u8 (Z.shiftr z (8 * i)) = z / 256 ^ i mod 256.
Proof.
  intros Hi. unfold uwrap. rewrite Z.shiftr_div_pow2 by lia.
  by rewrite Z.pow_mul_r by lia.
Qed.

Lemma pack_unpack u : uuid_ok u -> uuid_pack (uuid_unpack u) = u.
Proof.
  intros (b0&b1&b2&b3&b4&b5&b6&b7&b8&b9&nd&->&Hn&Hb&_)%uuid_cases.
  rewrite unpack_fields by done. repeat (apply Forall_cons in Hb as [? Hb]).
  unfold uuid_pack. cbn [time_low time_mid time_hi_and_version clock_seq node].
  rewrite take_ge by lia. rewrite !shift_byte by lia.
  change (256 ^ 3) with 16777216. change (256 ^ 2) with 65536. change (256 ^ 1) with 256.
  change (256 ^ 0) with 1. repeat f_equal; Z.to_euclidean_division_equations; lia.
Qed.

(** ** Hexadecimal numbers *)

Lemma hexw_length w n : length (hexw w n) = w.
Proof. revert n. induction w as [|w IH]; intros n; [done|]. cbn. rewrite length_app, IH. cbn. lia. Qed.

Lemma xval_digit n : 0 <= n < 16 -> xval (hex_digit n) = Some n.
Proof.
  revert n. apply (all_below _ 16). repeat constructor.
Qed.

Lemma strtoul16_hexw w n rest acc :
  0 <= n < 16 ^ Z.of_nat w ->
  strtoul16 acc (hexw w n ++ rest) = strtoul16 (acc * 16 ^ Z.of_nat w + n) rest.
Proof.
  revert n acc rest. induction w as [|w IH]; intros n acc rest Hn.
  - cbn in *. f_equal. lia.
  - rewrite Nat2Z.inj_succ, Z.pow_succ_r in * by lia. cbn [hexw].
    rewrite <- app_assoc, IH by (split; [|apply Z.div_lt_upper_bound]; lia || (apply Z.div_pos; lia)).
    cbn [app strtoul16]. rewrite xval_digit by (apply Z.mod_pos_bound; lia). f_equal.
    pose proof (Z.div_mod n 16 ltac:(lia)). lia.
Qed.

Lemma strtoul16_stop acc c l : xval c = None -> strtoul16 acc (c :: l) = acc.
Proof. intros H. cbn. by rewrite H. Qed.

Lemma parse_check_hexw w i n l :
  0 <= n -> (forall j, (j < w)%nat -> is_dash_pos (i + j) = false) ->
  parse_check i (hexw w n ++ l) = parse_check (i + w) l.
Proof.
  revert n l. induction w as [|w IH]; intros n l Hn Hd; [by rewrite Nat.add_0_r|].
  cbn [hexw]. rewrite <- app_assoc, IH; [|by apply Z.div_pos; lia|by intros; apply Hd; lia].
  cbn [app parse_check]. rewrite Hd by lia. unfold isxdigit.
  rewrite xval_digit by (apply Z.mod_pos_bound; lia). rewrite bool_decide_true by eauto.
  cbn [andb]. f_equal. lia.
Qed.

Lemma parse_check_dash i l :
  is_dash_pos i = true -> parse_check i (dash :: l) = parse_check (S i) l.
Proof. intros Hi. cbn [parse_check]. by rewrite Hi, Ascii.eqb_refl. Qed.

(** The six bytes of the node, two digits each. *)

Lemma parse_check_node nd i :
  Forall (fun b => 0 <= b < 256) nd -> (24 <= i)%nat ->
  parse_check i (concat (map (hexw 2) nd)) = true.
Proof.
  intros Hn. revert i. induction Hn as [|b nd Hb Hn IH]; intros i Hi; [done|].
  cbn [map concat]. rewrite parse_check_hexw; [apply IH; lia|lia|].
  intros j Hj. unfold is_dash_pos. by rewrite !(proj2 (Nat.eqb_neq _ _)) by lia.
Qed.

Lemma parse_node_concat nd :
  Forall (fun b => 0 <= b < 256) nd -> parse_node (length nd) (concat (map (hexw 2) nd)) = nd.
Proof.
  induction 1 as [|b nd Hb Hn IH]; [done|]. cbn [length parse_node map concat].
  rewrite take_app_length', drop_app_length' by (by rewrite hexw_length). rewrite IH. f_equal.
  rewrite <- (app_nil_r (hexw 2 b)), strtoul16_hexw by (cbn; lia). cbn [strtoul16].
  unfold uwrap. rewrite Z.mod_small; lia.
Qed.

Lemma concat_hexw_length nd : length (concat (map (hexw 2) nd)) = (2 * length nd)%nat.
Proof.
  induction nd as [|b nd IH]; [done|]. cbn [map concat]. rewrite length_app, hexw_length, IH.
  cbn [length]. lia.
Qed.

Lemma list_string l : list_ascii_of_string (string_of_list_ascii l) = l.
Proof. apply list_ascii_of_string_of_list_ascii. Qed.

Lemma two_digits n : 0 <= n < 65536 -> hexw 2 (Z.shiftr n 8) ++ hexw 2 (Z.land n 255) = hexw 4 n.
Proof.
  intros Hn. rewrite Z.shiftr_div_pow2 by lia. change (2 ^ 8) with 256.
  change 255 with (Z.ones 8). rewrite Z.land_ones by lia. change (2 ^ 8) with 256.
  cbn [hexw app].
  assert (n / 256 / 16 mod 16 = n / 16 / 16 / 16 mod 16 /\ n / 256 mod 16 = n / 16 / 16 mod 16 /\
    n mod 256 / 16 mod 16 = n / 16 mod 16 /\ n mod 256 mod 16 = n mod 16) as (->&->&->&->)
    by (Z.to_euclidean_division_equations; lia).
  done.
Qed.

Lemma drop_block w n l k : drop (w + S k) (hexw w n ++ dash :: l) = drop k l.
Proof. rewrite <- drop_drop, drop_app_length' by (by rewrite hexw_length). done. Qed.

Lemma strtoul16_block w n l :
  0 <= n < 16 ^ Z.of_nat w -> strtoul16 0 (hexw w n ++ dash :: l) = n.
Proof. intros Hn. rewrite strtoul16_hexw by done. by rewrite strtoul16_stop by done. Qed.

(** Printing an identifier and parsing the text gives the identifier back,
    so that distinct files never share the text under which the index and the
    rest of the file system know them. *)
Theorem uuid_parse_unparse (u : uuid_t) :
  uuid_ok u -> gf_uuid_parse (gf_uuid_unparse u) = Some u.
Proof.
  intros Hu. pose proof (pack_unpack u Hu) as Hpack.
  destruct (uuid_cases u Hu) as (b0&b1&b2&b3&b4&b5&b6&b7&b8&b9&nd&Heq&Hn&Hb&Hnd).
  unfold gf_uuid_parse, gf_uuid_unparse, unparse_chars. rewrite list_string.
  rewrite Heq, unpack_fields in * by done. repeat (apply Forall_cons in Hb as [? Hb]).
  set (tl := ((b0 * 256 + b1) * 256 + b2) * 256 + b3) in *.
  set (tm := b4 * 256 + b5) in *. set (th := b6 * 256 + b7) in *. set (cs := b8 * 256 + b9) in *.
  cbn [time_low time_mid time_hi_and_version clock_seq node].
  rewrite (app_assoc (hexw 2 (Z.shiftr cs 8))), two_digits by lia.
  set (l := hexw 8 tl ++ _).
  assert (length l = 36%nat) as Hl.
  { unfold l. repeat (rewrite length_app, hexw_length; cbn [length]).
    rewrite concat_hexw_length. lia. }
  rewrite Hl. cbn [Nat.eqb negb].
  assert (xval dash = None) as Hdash by done.
  assert (parse_check 0 l = true) as ->.
  { unfold l. do 4 (rewrite parse_check_hexw, parse_check_dash;
      [|done|unfold tl, tm, th, cs; lia|intros j Hj; do 8 (destruct j as [|j]; [done || lia|]); lia]).
    apply parse_check_node; [done|lia]. }
  rewrite <- Hpack. do 2 f_equal. unfold l.
  rewrite (drop_block 8 tl _ 0), (drop_block 8 tl _ 5), (drop_block 8 tl _ 10),
    (drop_block 8 tl _ 15), (drop_block 4 tm _ 0), (drop_block 4 tm _ 5), (drop_block 4 tm _ 10),
    (drop_block 4 th _ 0), (drop_block 4 th _ 5), (drop_block 4 cs _ 0).
  rewrite !drop_0, !strtoul16_block by (change (16 ^ Z.of_nat 8) with 4294967296;
    change (16 ^ Z.of_nat 4) with 65536; unfold tl, tm, th, cs; lia).
  rewrite <- Hn, parse_node_concat by done.
  rewrite u32_small, !u16_small by (unfold tl, tm, th, cs; lia). done.
Qed.

(** ** Comparison *)

Lemma uucmp_0 a b k : uucmp a b k = 0 <-> a = b /\ k = 0.
Proof. unfold uucmp. destruct (Z.eqb_spec a b); [naive_solver|]. destruct (a <? b); naive_solver. Qed.

Lemma uucmp_bytes x y a b k :
  0 <= a < 256 -> 0 <= b < 256 -> uucmp (x * 256 + a) (y * 256 + b) k = uucmp x y (uucmp a b k).
Proof.
  intros Ha Hb. unfold uucmp. destruct (Z.eqb_spec (x * 256 + a) (y * 256 + b)) as [E|E].
  - assert (x = y) as -> by lia. assert (a = b) as -> by lia. by rewrite !Z.eqb_refl.
  - destruct (Z.eqb_spec x y) as [->|Hxy].
    + rewrite (proj2 (Z.eqb_neq _ _)) by lia.
      destruct (Z.ltb_spec (y * 256 + a) (y * 256 + b)), (Z.ltb_spec a b); lia || done.
    + destruct (Z.ltb_spec (x * 256 + a) (y * 256 + b)), (Z.ltb_spec x y); lia || done.
Qed.

(** The comparison of identifiers, which works on the unpacked fields, is
    the comparison of the two 16-byte strings; so it is 0 exactly for equal
    identifiers. *)
Theorem uuid_compare_bytes (u v : uuid_t) :
  uuid_ok u -> uuid_ok v ->
  gf_uuid_compare u v = memcmp u v /\ (gf_uuid_compare u v = 0 <-> u = v).
Proof.
  intros Hu Hv. assert (gf_uuid_compare u v = memcmp u v) as Heq.
  { destruct (uuid_cases u Hu) as (a0&a1&a2&a3&a4&a5&a6&a7&a8&a9&na&->&Hna&Ha&_).
    destruct (uuid_cases v Hv) as (b0&b1&b2&b3&b4&b5&b6&b7&b8&b9&nb&->&Hnb&Hb&_).
    unfold gf_uuid_compare. rewrite !unpack_fields by done.
    cbn [time_low time_mid time_hi_and_version clock_seq node memcmp app].
    repeat (apply Forall_cons in Ha as [? Ha]). repeat (apply Forall_cons in Hb as [? Hb]).
    by rewrite !uucmp_bytes by done. }
  split; [done|]. rewrite Heq. destruct Hu as [Hlu _], Hv as [Hlv _].
  rewrite <- Hlv in Hlu. clear Heq Hlv. revert v Hlu.
  induction u as [|x u IH]; intros [|y v] Hl; try done. cbn [memcmp].
  rewrite uucmp_0, (IH v) by (by injection Hl). naive_solver.
Qed.

(** ** Witnesses *)

Definition sample_uuid : uuid_t := [222; 173; 190; 239; 0; 1; 2; 3; 4; 5; 6; 7; 8; 9; 10; 255].

Lemma sample_uuid_ok : uuid_ok sample_uuid.
Proof. split; [done|]. unfold sample_uuid. repeat constructor; lia. Defined.

Lemma uuid_parse_unparse_witness :
  gf_uuid_parse (gf_uuid_unparse sample_uuid) = Some sample_uuid.
Proof. apply (uuid_parse_unparse sample_uuid). exact sample_uuid_ok. Defined.

Lemma uuid_compare_bytes_witness :
  gf_uuid_compare sample_uuid sample_uuid = memcmp sample_uuid sample_uuid /\
  (gf_uuid_compare sample_uuid sample_uuid = 0 <-> sample_uuid = sample_uuid).
Proof.
  apply (uuid_compare_bytes sample_uuid sample_uuid); [exact sample_uuid_ok|exact sample_uuid_ok].
Defined.
