(* ===== verification/Iatt.v ===== *)
(** * File attributes

    libglusterfs/src/iatt.h: the attributes of a file as GlusterFS carries them
    between translators, and their conversion from and to [struct stat]. *)

From Stdlib Require Import ZArith Lia Bool Ascii String.
From stdpp Require Import base list strings.
From S2P Require Import Prelude Sqlite Xdb Uuid.

(** ** Data *)

Inductive ia_type_t :=
| IA_INVAL | IA_IFREG | IA_IFDIR | IA_IFLNK | IA_IFBLK | IA_IFCHR | IA_IFIFO | IA_IFSOCK.

Record ia_perm := { p_read : bool; p_write : bool; p_exec : bool }.

Record ia_prot_t := {
  suid : bool; sgid : bool; sticky : bool;
  owner : ia_perm; group : ia_perm; other : ia_perm
}.

Record iatt := {
  ia_ino : Z; ia_gfid : uuid_t; ia_dev : Z; ia_type : ia_type_t; ia_prot : ia_prot_t;
  ia_nlink : Z; ia_uid : Z; ia_gid : Z; ia_rdev : Z; ia_size : Z; ia_blksize : Z;
  ia_blocks : Z; ia_atime : Z; ia_mtime : Z; ia_ctime : Z
}.

(** sys/stat.h *)

Definition S_IFMT : Z := 0xF000.
Definition S_IFSOCK : Z := 0xC000.
Definition S_IFLNK : Z := 0xA000.
Definition S_IFREG : Z := 0x8000.
Definition S_IFBLK : Z := 0x6000.
Definition S_IFDIR : Z := 0x4000.
Definition S_IFCHR : Z := 0x2000.
Definition S_IFIFO : Z := 0x1000.
Definition S_ISUID : Z := 0x800.
Definition S_ISGID : Z := 0x400.
Definition S_ISVTX : Z := 0x200.
Definition S_IRUSR : Z := 0x100.
Definition S_IWUSR : Z := 0x80.
Definition S_IXUSR : Z := 0x40.
Definition S_IRGRP : Z := 0x20.
Definition S_IWGRP : Z := 0x10.
Definition S_IXGRP : Z := 0x8.
Definition S_IROTH : Z := 0x4.
Definition S_IWOTH : Z := 0x2.
Definition S_IXOTH : Z := 0x1.

(** ** Protection and type *)

Definition ia_prot_from_st_mode (mode : Z) : ia_prot_t :=
  let has b := negb (Z.land mode b =? 0) in
  {| suid := has S_ISUID; sgid := has S_ISGID; sticky := has S_ISVTX;
     owner := {| p_read := has S_IRUSR; p_write := has S_IWUSR; p_exec := has S_IXUSR |};
     group := {| p_read := has S_IRGRP; p_write := has S_IWGRP; p_exec := has S_IXGRP |};
     other := {| p_read := has S_IROTH; p_write := has S_IWOTH; p_exec := has S_IXOTH |} |}.

Definition ia_type_from_st_mode (mode : Z) : ia_type_t :=
  let fmt := Z.land mode S_IFMT in
  if fmt =? S_IFSOCK then IA_IFSOCK else
  if fmt =? S_IFIFO then IA_IFIFO else
  if fmt =? S_IFCHR then IA_IFCHR else
  if fmt =? S_IFBLK then IA_IFBLK else
  if fmt =? S_IFLNK then IA_IFLNK else
  if fmt =? S_IFDIR then IA_IFDIR else
  if fmt =? S_IFREG then IA_IFREG else IA_INVAL.

Definition type_bit (type : ia_type_t) : Z :=
  match type with
  | IA_IFREG => S_IFREG | IA_IFDIR => S_IFDIR | IA_IFLNK => S_IFLNK | IA_IFBLK => S_IFBLK
  | IA_IFCHR => S_IFCHR | IA_IFIFO => S_IFIFO | IA_IFSOCK => S_IFSOCK | IA_INVAL => 0
  end.

Definition prot_bits (prot : ia_prot_t) : list (bool * Z) :=
  [(suid prot, S_ISUID); (sgid prot, S_ISGID); (sticky prot, S_ISVTX);
   (p_read (owner prot), S_IRUSR); (p_write (owner prot), S_IWUSR); (p_exec (owner prot), S_IXUSR);
   (p_read (group prot), S_IRGRP); (p_write (group prot), S_IWGRP); (p_exec (group prot), S_IXGRP);
   (p_read (other prot), S_IROTH); (p_write (other prot), S_IWOTH); (p_exec (other prot), S_IXOTH)].

Definition st_mode_from_ia (prot : ia_prot_t) (type : ia_type_t) : Z :=
  Z.lor (type_bit type)
    (foldl (fun (acc : Z) (p : bool * Z) => if p.1 then Z.lor acc p.2 else acc) 0 (prot_bits prot)).

(** ** Devices *)

Definition ia_major (dev : Z) : Z := u32 (Z.shiftr dev 32).
Definition ia_minor (dev : Z) : Z := u32 (Z.land dev 0xffffffff).
Definition ia_makedev (maj min : Z) : Z := Z.lor (u64 (Z.shiftl maj 32)) min.

(** sys/sysmacros.h *)

Definition major (dev : Z) : Z :=
  u32 (Z.lor (Z.land (Z.shiftr dev 8) 0xfff) (Z.land (Z.shiftr dev 32) 0xfffff000)).
Definition minor (dev : Z) : Z :=
  u32 (Z.lor (Z.land dev 0xff) (Z.land (Z.shiftr dev 12) 0xffffff00)).
Definition makedev (maj min : Z) : Z :=
  Z.lor (Z.lor (Z.lor (Z.shiftl (Z.land maj 0xfff) 8) (Z.shiftl (Z.land maj 0xfffff000) 32))
    (Z.land min 0xff)) (Z.shiftl (Z.land min 0xffffff00) 12).

(** ** Conversions *)

Definition iatt_from_stat (gfid : uuid_t) (st : stat) : iatt :=
  let size := u64 (st_size st) in
  let maxblocks := u64 (size + 511) / 512 in
  let blocks := u64 (st_blocks st) in
  {| ia_ino := st_ino st; ia_gfid := gfid; ia_dev := st_dev st;
     ia_type := ia_type_from_st_mode (st_mode st); ia_prot := ia_prot_from_st_mode (st_mode st);
     ia_nlink := u32 (st_nlink st); ia_uid := u32 (st_uid st); ia_gid := u32 (st_gid st);
     ia_rdev := ia_makedev (major (st_rdev st)) (minor (st_rdev st));
     ia_size := size; ia_blksize := u32 (st_blksize st);
     ia_blocks := if maxblocks <? blocks then maxblocks else blocks;
     ia_atime := u32 (st_atime st); ia_mtime := u32 (st_mtime st); ia_ctime := u32 (st_ctime st) |}.

Definition iatt_to_stat (ia : iatt) : stat :=
  {| st_dev := ia_dev ia; st_ino := ia_ino ia;
     st_mode := st_mode_from_ia (ia_prot ia) (ia_type ia);
     st_nlink := ia_nlink ia; st_uid := ia_uid ia; st_gid := ia_gid ia;
     st_rdev := makedev (ia_major (ia_rdev ia)) (ia_minor (ia_rdev ia));
     st_size := i64 (ia_size ia); st_blksize := ia_blksize ia; st_blocks := i64 (ia_blocks ia);
     st_atime := ia_atime ia; st_mtime := ia_mtime ia; st_ctime := ia_ctime ia |}.

(** ** Modes, proved *)

Definition bools : list bool := [true; false].

Definition all_perms : list ia_perm :=
  r ← bools; w ← bools; x ← bools; [{| p_read := r; p_write := w; p_exec := x |}].

Definition all_prots : list ia_prot_t :=
  s ← bools; g ← bools; t ← bools; o ← all_perms; gr ← all_perms; ot ← all_perms;
  [{| suid := s; sgid := g; sticky := t; owner := o; group := gr; other := ot |}].

Definition all_types : list ia_type_t :=
  [IA_INVAL; IA_IFREG; IA_IFDIR; IA_IFLNK; IA_IFBLK; IA_IFCHR; IA_IFIFO; IA_IFSOCK].

#[global] Instance ia_type_eq_dec : EqDecision ia_type_t.
Proof. solve_decision. Defined.
#[global] Instance ia_perm_eq_dec : EqDecision ia_perm.
Proof. solve_decision. Defined.
#[global] Instance ia_prot_eq_dec : EqDecision ia_prot_t.
Proof. solve_decision. Defined.

Definition mode_inverse (prot : ia_prot_t) (type : ia_type_t) : bool :=
  let m := st_mode_from_ia prot type in
  bool_decide (ia_prot_from_st_mode m = prot) && bool_decide (ia_type_from_st_mode m = type).

Lemma mode_inverse_all :
  forallb (fun p => forallb (mode_inverse p) all_types) all_prots = true.
Proof. vm_compute. reflexivity. Qed.

Lemma in_all_prots p : p ∈ all_prots.
Proof.
  assert (forall b, b ∈ bools) as Hb by (intros []; [left|right; left]).
  assert (forall q, q ∈ all_perms) as Hq.
  { intros [r w x]. unfold all_perms. apply list_elem_of_bind. exists r. split; [|done].
    apply list_elem_of_bind. exists w. split; [|done]. apply list_elem_of_bind. exists x.
    split; [left|done]. }
  destruct p as [s g t o gr ot]. unfold all_prots.
  apply list_elem_of_bind. exists s. split; [|done]. apply list_elem_of_bind. exists g. split; [|done].
  apply list_elem_of_bind. exists t. split; [|done]. apply list_elem_of_bind. exists o. split; [|done].
  apply list_elem_of_bind. exists gr. split; [|done]. apply list_elem_of_bind. exists ot.
  split; [left|done].
Qed.

Lemma in_all_types t : t ∈ all_types.
Proof. destruct t; unfold all_types; repeat first [left|right]. Qed.

Lemma mode_from_ia_inverse prot type :
  ia_prot_from_st_mode (st_mode_from_ia prot type) = prot /\
  ia_type_from_st_mode (st_mode_from_ia prot type) = type.
Proof.
  pose proof mode_inverse_all as H. rewrite forallb_forall in H.
  specialize (H prot (proj1 (list_elem_of_In _ _) (in_all_prots prot))).
  rewrite forallb_forall in H.
  specialize (H type (proj1 (list_elem_of_In _ _) (in_all_types type))).
  apply andb_true_iff in H as [H1%bool_decide_eq_true H2%bool_decide_eq_true]. done.
Qed.

(** ** Device numbers, proved *)

Lemma makedev_eq a b :
  makedev a b = a / 2 ^ 12 mod 2 ^ 20 * 2 ^ 44 + b / 2 ^ 8 mod 2 ^ 24 * 2 ^ 20 +
                a mod 2 ^ 12 * 2 ^ 8 + b mod 2 ^ 8.
Proof.
  unfold makedev.
  change 0xfffff000 with (Z.shiftl (Z.ones 20) 12). change 0xffffff00 with (Z.shiftl (Z.ones 24) 8).
  change 0xfff with (Z.ones 12). change 0xff with (Z.ones 8).
  rewrite !land_field, !Z.land_ones, !Z.shiftl_mul_pow2 by lia.
  pose proof (Z.mod_pos_bound a (2 ^ 12) ltac:(lia)).
  pose proof (Z.mod_pos_bound b (2 ^ 8) ltac:(lia)).
  pose proof (Z.mod_pos_bound (b / 2 ^ 8) (2 ^ 24) ltac:(lia)).
  set (x := a / 2 ^ 12 mod 2 ^ 20). set (y := b / 2 ^ 8 mod 2 ^ 24) in *.
  set (u := a mod 2 ^ 12) in *. set (v := b mod 2 ^ 8) in *.
  rewrite (Z.lor_comm (u * _)).
  replace (x * 2 ^ 12 * 2 ^ 32) with (x * 2 ^ 44) by lia.
  replace (y * 2 ^ 8 * 2 ^ 12) with (y * 2 ^ 20) by lia.
  rewrite <- Z.lor_assoc, <- Z.lor_assoc, (Z.lor_assoc (u * _)), (Z.lor_comm (Z.lor _ v)).
  rewrite (lor_add 8 u v), (lor_add 20 y), (lor_add 44 x) by lia. lia.
Qed.

Lemma makedev_split d : 0 <= d < 2 ^ 64 -> makedev (major d) (minor d) = d.
Proof.
  intros Hd. rewrite makedev_eq.
  assert (major d = d / 2 ^ 44 mod 2 ^ 20 * 2 ^ 12 + d / 2 ^ 8 mod 2 ^ 12) as ->.
  { unfold major. change 0xfffff000 with (Z.shiftl (Z.ones 20) 12). change 0xfff with (Z.ones 12).
    rewrite land_field, Z.land_ones, !Z.shiftr_div_pow2, Z.lor_comm by lia.
    rewrite (lor_add 12) by (lia || apply Z.mod_pos_bound; lia).
    rewrite Z.div_div by lia. change (2 ^ 32 * 2 ^ 12) with (2 ^ 44). apply uwrap_small.
    pose proof (Z.mod_pos_bound (d / 2 ^ 44) (2 ^ 20) ltac:(lia)).
    pose proof (Z.mod_pos_bound (d / 2 ^ 8) (2 ^ 12) ltac:(lia)). unfold in_u. lia. }
  assert (minor d = d / 2 ^ 20 mod 2 ^ 24 * 2 ^ 8 + d mod 2 ^ 8) as ->.
  { unfold minor. change 0xffffff00 with (Z.shiftl (Z.ones 24) 8). change 0xff with (Z.ones 8).
    rewrite land_field, Z.land_ones, !Z.shiftr_div_pow2, Z.lor_comm by lia.
    rewrite (lor_add 8) by (lia || apply Z.mod_pos_bound; lia).
    rewrite Z.div_div by lia. change (2 ^ 12 * 2 ^ 8) with (2 ^ 20). apply uwrap_small.
    pose proof (Z.mod_pos_bound (d / 2 ^ 20) (2 ^ 24) ltac:(lia)).
    pose proof (Z.mod_pos_bound d (2 ^ 8) ltac:(lia)). unfold in_u. lia. }
  change (2 ^ 44) with 17592186044416. change (2 ^ 24) with 16777216.
  change (2 ^ 20) with 1048576. change (2 ^ 12) with 4096. change (2 ^ 8) with 256.
  change (2 ^ 64) with 18446744073709551616 in Hd.
  Z.to_euclidean_division_equations. lia.
Qed.

Lemma ia_makedev_split a b :
  in_u 32 a -> in_u 32 b -> ia_major (ia_makedev a b) = a /\ ia_minor (ia_makedev a b) = b.
Proof.
  unfold in_u. intros Ha Hb. unfold ia_major, ia_minor, ia_makedev.
  rewrite Z.shiftl_mul_pow2, (uwrap_small 64), (lor_add 32) by (unfold in_u; lia).
  change 0xffffffff with (Z.ones 32). rewrite Z.land_ones, Z.shiftr_div_pow2 by lia.
  rewrite Z.div_add_l, Z.div_small, Z.add_0_r by lia.
  rewrite Z.add_comm, Z.mod_add, Z.mod_small by lia.
  split; apply uwrap_small; unfold in_u; lia.
Qed.

(** File attributes survive the trip through GlusterFS: for a stat record
    whose mode is one of a file type and whose numbers fit the narrower fields
    of [struct iatt], converting to [iatt] and back gives the same record, with
    the block count cut to what the size needs; and a file's type and
    protection bits are never confused by the mode word. *)
Theorem stat_iatt_roundtrip (gfid : uuid_t) (st : stat) (prot : ia_prot_t) (type : ia_type_t) :
  st_mode st = st_mode_from_ia prot type ->
  in_u 32 (st_nlink st) -> in_u 32 (st_uid st) -> in_u 32 (st_gid st) ->
  in_u 64 (st_rdev st) -> 0 <= st_size st < 2 ^ 63 - 511 -> in_u 32 (st_blksize st) ->
  0 <= st_blocks st < 2 ^ 63 -> in_u 32 (st_atime st) -> in_u 32 (st_mtime st) ->
  in_u 32 (st_ctime st) ->
  let ia := iatt_from_stat gfid st in
  ia_type ia = type /\ ia_prot ia = prot /\
  iatt_to_stat ia =
    {| st_dev := st_dev st; st_ino := st_ino st; st_mode := st_mode st; st_nlink := st_nlink st;
       st_uid := st_uid st; st_gid := st_gid st; st_rdev := st_rdev st; st_size := st_size st;
       st_blksize := st_blksize st; st_blocks := Z.min (st_blocks st) ((st_size st + 511) / 512);
       st_atime := st_atime st; st_mtime := st_mtime st; st_ctime := st_ctime st |}.
Proof.
  intros Hm Hn Hu Hg Hr Hs Hbs Hb Ha Hmt Hc ia. unfold in_u in *.
  destruct (mode_from_ia_inverse prot type) as [Hprot Htype].
  unfold ia, iatt_from_stat. cbn [ia_type ia_prot]. rewrite Hm. split_and!; [done..|].
  unfold iatt_to_stat. cbn. rewrite Hprot, Htype.
  destruct (ia_makedev_split (major (st_rdev st)) (minor (st_rdev st))) as [-> ->];
    [apply uwrap_range; lia|apply uwrap_range; lia|].
  rewrite makedev_split by done. rewrite !(uwrap_small 32) by (unfold in_u; lia).
  rewrite !(uwrap_small 64) by (unfold in_u; lia).
  rewrite (swrap_small 64 (st_size st)) by (unfold in_s; lia). f_equal.
  assert (0 <= (st_size st + 511) / 512 < 2 ^ 63).
  { split; [apply Z.div_pos; lia|]. apply Z.div_lt_upper_bound; lia. }
  destruct (Z.ltb_spec ((st_size st + 511) / 512) (st_blocks st));
    rewrite swrap_small by (unfold in_s; lia); lia.
Qed.

(** ** Witness *)

Definition sample_prot : ia_prot_t :=
  let rw := {| p_read := true; p_write := true; p_exec := false |} in
  {| suid := false; sgid := true; sticky := false; owner := rw; group := rw; other := rw |}.

Definition sample_stat_in : stat :=
  {| st_dev := 64768; st_ino := 131; st_mode := 34230; st_nlink := 2; st_uid := 0; st_gid := 0;
     st_rdev := 0; st_size := 1000; st_blksize := 4096; st_blocks := 16;
     st_atime := 1460000000; st_mtime := 1460000000; st_ctime := 1460000000 |}.

Lemma stat_iatt_roundtrip_witness :
  let ia := iatt_from_stat sample_uuid sample_stat_in in
  ia_type ia = IA_IFREG /\ ia_prot ia = sample_prot /\
  iatt_to_stat ia =
    {| st_dev := 64768; st_ino := 131; st_mode := 34230; st_nlink := 2;
       st_uid := 0; st_gid := 0; st_rdev := 0; st_size := 1000;
       st_blksize := 4096; st_blocks := Z.min 16 ((1000 + 511) / 512);
       st_atime := 1460000000; st_mtime := 1460000000; st_ctime := 1460000000 |}.
Proof.
  apply (stat_iatt_roundtrip sample_uuid sample_stat_in sample_prot IA_IFREG);
    first [reflexivity | (unfold in_u; cbn; lia)].
Defined.
