(* ===== verification/ImsAsync.v ===== *)
(** * Deferred updates of the index

    xlators/features/imess-server/src/imess-server-async.c: when updates are
    asynchronous, a file operation only appends a task to a queue, and one
    worker thread takes the tasks from the queue and performs them on its own
    connection. The queue is protected by a spin lock, so appending and
    fetching are single steps; the body of the worker's loop is one step.
    Allocations may fail: a list of answers says which ones do, and every
    allocation after the end of the list succeeds. *)

From Stdlib Require Import ZArith Lia Bool Ascii String.
From stdpp Require Import base list strings gmap.
From S2P Require Import Prelude Sqlite SqlFacts Xdb XdbSpec XdbRefine.

(** ** Tasks *)

Definition IMS_TASK_INSERT_NEW_FILE : Z := 0.
Definition IMS_TASK_INSERT_STAT : Z := 1.
Definition IMS_TASK_UPDATE_STAT : Z := 2.
Definition IMS_TASK_LINK_FILE : Z := 3.
Definition IMS_TASK_UNLINK_FILE : Z := 4.
Definition IMS_TASK_RENAME : Z := 5.
Definition IMS_TASK_INSERT_XATTR : Z := 6.
Definition IMS_TASK_REMOVE_XATTR : Z := 7.

Record ims_task := { t_op : Z; t_file : ims_xdb_file; t_sb : stat; t_attr : ims_xdb_attr }.

Definition no_file : ims_xdb_file := {| xf_gfid := None; xf_path := None; xf_extra := None |}.

Definition no_stat : stat :=
  {| st_dev := 0; st_ino := 0; st_mode := 0; st_nlink := 0; st_uid := 0; st_gid := 0;
     st_rdev := 0; st_size := 0; st_blksize := 0; st_blocks := 0;
     st_atime := 0; st_mtime := 0; st_ctime := 0 |}.

Definition no_attr : ims_xdb_attr :=
  {| xa_gfid := None; xa_type := 0; xa_name := None; xa_ival := 0; xa_rval := 0;
     xa_sval := None |}.

Record ims_async (conn : Type) := {
  a_xdb : ims_xdb conn; task_queue : list ims_task; a_latency_log : bool
}.
Arguments a_xdb {conn}.
Arguments task_queue {conn}.
Arguments a_latency_log {conn}.
Arguments Build_ims_async {conn}.

(** ** Allocation *)

Definition alloc (al : list bool) : bool * list bool :=
  match al with
  | [] => (true, [])
  | b :: al' => (b, al')
  end.

(** [gf_strdup] of a string that may be a null pointer (which stays one). *)

Definition strdup (s : option string) (al : list bool) : option string * list bool :=
  match s with
  | None => (None, al)
  | Some _ => let '(ok, al') := alloc al in (if ok then s else None, al')
  end.

Definition task_dup (task : ims_task) (al : list bool) : option ims_task * list bool :=
  let '(ok, al0) := alloc al in
  if ok then
    let '(gfid, al1) := strdup (xf_gfid (t_file task)) al0 in
    let '(path, al2) := strdup (xf_path (t_file task)) al1 in
    let '(extra, al3) := strdup (xf_extra (t_file task)) al2 in
    let '(agfid, al4) := strdup (xa_gfid (t_attr task)) al3 in
    let '(aname, al5) := strdup (xa_name (t_attr task)) al4 in
    let '(sval, al6) := strdup (xa_sval (t_attr task)) al5 in
    (Some {| t_op := t_op task;
             t_file := {| xf_gfid := gfid; xf_path := path; xf_extra := extra |};
             t_sb := t_sb task;
             t_attr := {| xa_gfid := agfid; xa_type := xa_type (t_attr task);
                          xa_name := aname; xa_ival := xa_ival (t_attr task);
                          xa_rval := xa_rval (t_attr task); xa_sval := sval |} |}, al6)
  else (None, al0).

(** ** The queue and the worker *)

Section async.
Context {conn : Type} `{!SqlEngine conn}.
Abbreviation A := (M (ims_async conn)).

Definition set_queue (q : list ims_task) (a : ims_async conn) : ims_async conn :=
  {| a_xdb := a_xdb a; task_queue := q; a_latency_log := a_latency_log a |}.

Definition task_queue_append (task : ims_task) : A unit :=
  m_modify (fun a => set_queue (task_queue a ++ [task]) a).

Definition task_queue_fetch : A (option ims_task) :=
  a <~ m_get;;
  match task_queue a with
  | [] => m_ret None
  | task :: q => m_modify (set_queue q);;; m_ret (Some task)
  end.

Definition ims_async_put_task (task : ims_task) (al : list bool) : A (Z * list bool) :=
  let '(cp, al') := task_dup task al in
  match cp with
  | None => m_ret (-1, al')
  | Some cp_task => task_queue_append cp_task;;; m_ret (0, al')
  end.

(** A call on the worker's connection. *)

Definition on_axdb {B} (m : M (ims_xdb conn) B) : A B := fun a =>
  match m (a_xdb a) with
  | Some (b, x) =>
      Some (b, {| a_xdb := x; task_queue := task_queue a; a_latency_log := a_latency_log a |})
  | None => None
  end.

Definition worker_insert_new_file (task : ims_task) : A Z :=
  on_axdb (ims_xdb_insert_new_file (t_file task) (t_sb task)).
Definition worker_unlink_file (task : ims_task) : A Z :=
  on_axdb (ims_xdb_unlink_file (t_file task)).
Definition worker_update_stat (task : ims_task) : A Z :=
  on_axdb (ims_xdb_update_stat (t_file task) (t_sb task) IMS_XDB_STAT_OP_ALL).
Definition worker_link_file (task : ims_task) : A Z :=
  on_axdb (ims_xdb_link_file (t_file task)).
Definition worker_rename (task : ims_task) : A Z :=
  on_axdb (ims_xdb_rename (t_file task)).
Definition worker_insert_xattr (task : ims_task) : A Z :=
  on_axdb (ims_xdb_setxattr (t_attr task)).
Definition worker_remove_xattr (task : ims_task) : A Z := m_ret 0.

Definition opstrs : list string :=
  ["create_file"; "unlink_file"; "update_stat"; "link_file"; "rename"; "insert_xattr";
   "remove_xattr"]%string.

Definition worker_dispatch (task : ims_task) : A unit :=
  let op := t_op task in
  (if op =? IMS_TASK_INSERT_NEW_FILE then worker_insert_new_file task
   else if op =? IMS_TASK_UNLINK_FILE then worker_unlink_file task
   else if op =? IMS_TASK_UPDATE_STAT then worker_update_stat task
   else if op =? IMS_TASK_LINK_FILE then worker_link_file task
   else if op =? IMS_TASK_RENAME then worker_rename task
   else if op =? IMS_TASK_INSERT_XATTR then worker_insert_xattr task
   else if op =? IMS_TASK_REMOVE_XATTR then worker_remove_xattr task
   else m_ret 0);;;
  m_ret tt.

(** The name that the latency log prints: an array read. *)

Definition log_latency (task : ims_task) : A unit :=
  a <~ m_get;;
  if a_latency_log a then
    (if t_op task <? 0 then m_undef else m_deref (opstrs !! Z.to_nat (t_op task)));;; m_ret tt
  else m_ret tt.

(** One turn of the loop of [ims_async_work]: whether there was a task. *)

Definition ims_async_work : A bool :=
  t <~ task_queue_fetch;;
  match t with
  | None => m_ret false
  | Some task => worker_dispatch task;;; log_latency task;;; m_ret true
  end.

(** Turns until the queue is empty, at most [n]. *)

Fixpoint drain (n : nat) : A unit :=
  match n with
  | O => m_ret tt
  | S n' => b <~ ims_async_work;; if b : bool then drain n' else m_ret tt
  end.

End async.

(** ** Tasks as operations on the index *)

Definition task_xop (task : ims_task) : option xop :=
  let op := t_op task in
  if op =? IMS_TASK_INSERT_NEW_FILE then Some (OpInsertNewFile (t_file task) (t_sb task))
  else if op =? IMS_TASK_UNLINK_FILE then Some (OpUnlinkFile (t_file task))
  else if op =? IMS_TASK_UPDATE_STAT then
    Some (OpUpdateStat (t_file task) (t_sb task) IMS_XDB_STAT_OP_ALL)
  else if op =? IMS_TASK_LINK_FILE then Some (OpLinkFile (t_file task))
  else if op =? IMS_TASK_RENAME then Some (OpRename (t_file task))
  else if op =? IMS_TASK_INSERT_XATTR then Some (OpSetxattr (t_attr task))
  else None.

(** The tasks that the server makes: one of the six operations, with its
    arguments. *)

Definition task_ok (task : ims_task) : bool :=
  match task_xop task with Some o => xop_ok o | None => false end.

(** ** Lemmas *)

Lemma alloc_true al : Forall (eq true) al -> exists al', alloc al = (true, al') /\ Forall (eq true) al'.
Proof. intros Hal. destruct Hal as [|b al <- Hal]; eexists; done. Qed.

Lemma strdup_true s al :
  Forall (eq true) al -> exists al', strdup s al = (s, al') /\ Forall (eq true) al'.
Proof.
  intros Hal. destruct s as [s|]; [|by exists al]. cbn [strdup].
  by destruct (alloc_true al Hal) as (al' & -> & H'); exists al'.
Qed.

(** Without allocation failures the copy is the task. *)

Lemma task_dup_true task al :
  Forall (eq true) al -> exists al', task_dup task al = (Some task, al') /\ Forall (eq true) al'.
Proof.
  intros Hal. destruct task as [op [g p e] sb [ag ty an iv rv sv]]. unfold task_dup.
  cbn [t_file t_attr xf_gfid xf_path xf_extra xa_gfid xa_name xa_sval xa_type xa_ival xa_rval
       t_op t_sb].
  destruct (alloc_true al Hal) as (al0 & -> & H0).
  destruct (strdup_true g al0 H0) as (al1 & -> & H1).
  destruct (strdup_true p al1 H1) as (al2 & -> & H2).
  destruct (strdup_true e al2 H2) as (al3 & -> & H3).
  destruct (strdup_true ag al3 H3) as (al4 & -> & H4).
  destruct (strdup_true an al4 H4) as (al5 & -> & H5).
  destruct (strdup_true sv al5 H5) as (al6 & -> & H6). by exists al6.
Qed.

(** A copy keeps the operation, whatever fails. *)

Lemma task_dup_op task al cp al' : task_dup task al = (Some cp, al') -> t_op cp = t_op task.
Proof.
  unfold task_dup. intros Hd. repeat case_match; simplify_eq; done.
Qed.

Section worker.
Context {conn : Type} `{!SqlEngine conn}.
Implicit Types (a : ims_async conn).

Lemma task_xop_op task o : task_xop task = Some o -> 0 <= t_op task <= 6.
Proof.
  unfold task_xop, IMS_TASK_INSERT_NEW_FILE, IMS_TASK_UNLINK_FILE, IMS_TASK_UPDATE_STAT,
    IMS_TASK_LINK_FILE, IMS_TASK_RENAME, IMS_TASK_INSERT_XATTR.
  zcase; (done || lia).
Qed.

Lemma log_latency_defined task a : 0 <= t_op task <= 6 -> log_latency task a = Some (tt, a).
Proof.
  intros Hop. unfold log_latency, m_bind, m_get. destruct (a_latency_log a); [|done].
  rewrite (proj2 (Z.ltb_ge _ _)) by lia.
  destruct (lookup_lt_is_Some_2 opstrs (Z.to_nat (t_op task))) as [s ->]; [cbn; lia|done].
Qed.

(** One turn performs the first task. *)

Lemma work_step task q o a :
  task_queue a = task :: q -> task_xop task = Some o ->
  ims_async_work a =
    match run_xop o (a_xdb a) with
    | Some (_, x) =>
        Some (true, {| a_xdb := x; task_queue := q; a_latency_log := a_latency_log a |})
    | None => None
    end.
Proof.
  intros Hq Ho. unfold ims_async_work, task_queue_fetch, m_bind, m_get. rewrite Hq.
  cbv beta iota delta [m_modify m_ret].
  pose proof (task_xop_op _ _ Ho) as Hop. set (a1 := set_queue q a).
  assert (worker_dispatch task a1 =
    match run_xop o (a_xdb a) with
    | Some (_, x) =>
        Some (tt, {| a_xdb := x; task_queue := q; a_latency_log := a_latency_log a |})
    | None => None
    end) as ->.
  { clear Hq. revert Ho. unfold worker_dispatch, task_xop. zcase; intros [= <-];
      unfold m_bind, m_ret, worker_insert_new_file, worker_unlink_file, worker_update_stat,
        worker_link_file, worker_rename, worker_insert_xattr, on_axdb; cbn [run_xop];
      change (a_xdb a1) with (a_xdb a); by repeat case_match; simplify_eq. }
  destruct (run_xop o (a_xdb a)) as [[r x]|]; [|done].
  by rewrite log_latency_defined.
Qed.

Lemma work_idle a : task_queue a = [] -> ims_async_work a = Some (false, a).
Proof. intros Hq. unfold ims_async_work, task_queue_fetch, m_bind, m_get. by rewrite Hq. Qed.

(** As many turns as there are tasks empty the queue, and perform the tasks
    in the order of the queue. *)

Lemma drain_spec n a os rs x' :
  mapM task_xop (task_queue a) = Some os -> (length os <= n)%nat ->
  run_xops os (a_xdb a) = Some (rs, x') ->
  drain n a = Some (tt, {| a_xdb := x'; task_queue := []; a_latency_log := a_latency_log a |}).
Proof.
  revert a os rs. induction n as [|n IH]; intros [x q lat] os rs Hos Hn Hrun;
    cbn [task_queue a_xdb a_latency_log] in *.
  { destruct os; [|simpl in Hn; lia]. apply mapM_Some in Hos.
    apply Forall2_nil_inv_r in Hos as ->. unfold run_xops, m_ret in Hrun. by simplify_eq. }
  destruct q as [|t q]; cbn [mapM] in Hos.
  { injection Hos as <-. unfold run_xops, m_ret in Hrun. simplify_eq. cbn [drain].
    unfold m_bind at 1. by rewrite work_idle. }
  destruct (task_xop t) as [o|] eqn:Ho; [|done]. cbn in Hos.
  destruct (mapM task_xop q) as [os'|] eqn:Hos'; [|done]. cbn in Hos. injection Hos as <-.
  cbn [run_xops] in Hrun. unfold m_bind at 1 in Hrun.
  destruct (run_xop o x) as [[r x1]|] eqn:Hr; [|done].
  unfold m_bind at 1 in Hrun. destruct (run_xops os' x1) as [[rs' x2]|] eqn:Hrs; [|done].
  unfold m_ret in Hrun. simplify_eq. cbn [drain]. unfold m_bind at 1.
  rewrite (work_step t q o) by done. cbn [a_xdb]. rewrite Hr. cbv beta iota.
  apply (IH {| a_xdb := x1; task_queue := q; a_latency_log := lat |} os' rs');
    [done|simpl in Hn; lia|done].
Qed.

End worker.
