(* ===== verification/ImsServer.v ===== *)
(** * The file operations of the indexing translator

    xlators/features/imess-server/src/imess-server.c: every operation is
    passed to the child translator, and its callback keeps the index in step,
    either on the connection of the translator or through the queue of the
    worker. The child is a class: a request gives a reply and a new state. *)

From Stdlib Require Import ZArith Lia Bool Ascii String.
From stdpp Require Import base list strings gmap.
From S2P Require Import Prelude Sqlite SqlFacts Xdb XdbSpec XdbRefine CLib Dict DictTyped Uuid.
From S2P Require Import Iatt ImsAsync.

(** ** Requests and replies *)

(** The path and the inode's gfid of a location. *)

Record loc_t := { l_path : option string; l_gfid : uuid_t }.

Inductive request :=
| Rmkdir (loc : loc_t) (mode umask : Z) (xdata : option dict_t)
| Runlink (loc : loc_t) (xflag : Z) (xdata : option dict_t)
| Rrmdir (loc : loc_t) (flags : Z) (xdata : option dict_t)
| Rsetxattr (loc : loc_t) (dict : dict_t) (flags : Z) (xdata : option dict_t)
| Rftruncate (fd : Z) (offset : Z) (xdata : option dict_t)
| Rcreate (loc : loc_t) (flags mode umask : Z) (fd : Z) (xdata : option dict_t)
| Rsetattr (loc : loc_t) (stbuf : iatt) (valid : Z) (xdata : option dict_t)
| Rfsetattr (fd : Z) (stbuf : iatt) (valid : Z) (xdata : option dict_t)
| Rsymlink (linkpath : string) (loc : loc_t) (umask : Z) (xdata : option dict_t)
| Rlink (oldloc newloc : loc_t) (xdata : option dict_t)
| Rtruncate (loc : loc_t) (offset : Z) (xdata : option dict_t)
| Rwritev (fd : Z) (vector : list (list ascii)) (count offset flags : Z) (xdata : option dict_t)
| Rrename (oldloc newloc : loc_t) (xdata : option dict_t).

(** A reply: the result, the attributes of the object (after the operation),
    the attributes of its parents, and [xdata]. [r_utoa] is what the child
    has left in the thread's buffer of [uuid_utoa], if it has used it. *)

Record reply := {
  op_ret : Z; op_errno : Z; r_buf : iatt; r_parents : list iatt; r_xdata : option dict_t;
  r_utoa : option string
}.

Class Child (C : Type) := child_call : request -> C -> reply * C.

(** ** State *)

Record ims_priv (conn : Type) := {
  p_xdb : ims_xdb conn; async_update : bool; dir_hash : bool;
  async_ctx : option (ims_async conn)
}.
Arguments p_xdb {conn}.
Arguments async_update {conn}.
Arguments dir_hash {conn}.
Arguments async_ctx {conn}.
Arguments Build_ims_priv {conn}.

(** The translator, its child and the answers of the allocator. *)

Record xlator (conn C : Type) := {
  private : ims_priv conn; first_child : C; allocs : list bool
}.
Arguments private {conn C}.
Arguments first_child {conn C}.
Arguments allocs {conn C}.
Arguments Build_xlator {conn C}.

(** ** Extended attributes to index *)

Definition PATH_MAX : Z := 4096.

Definition GF_XATTR_IMESS_KEY : string := "user.imess".

Definition XATTR_IS_IMESSXDB (k : string) : bool := String.prefix GF_XATTR_IMESS_KEY k.

Record ims_xattr_filler := { f_count : Z; f_xattr : ims_xdb_attr }.

(** The value in [data_str]: [None] when the copy leaves either object, or
    fills the buffer without a terminating zero. *)

Definition data_str (v : data_t) : option (list ascii) :=
  str ← data_text v;
  if (d_len v <=? PATH_MAX) && (Z.of_nat (length str) <? PATH_MAX) then Some str else None.

(** The type and the values that the text of an attribute stands for;
    [strtod] is the conversion of a text to a double. *)

Definition classify (strtod : list ascii -> Z) (str : list ascii)
    : Z * Z * Z * option string :=
  let try_real :=
    if scan_lf_ok str then (IMS_XDB_TYPE_REAL, 0, strtod str, None)
    else (IMS_XDB_TYPE_STRING, 0, 0, Some (string_of_list_ascii str)) in
  if existsb (Ascii.eqb ".") str then try_real
  else match scan_ld str with
       | Some ival => (IMS_XDB_TYPE_INTEGER, ival, 0, None)
       | None => try_real
       end.

(** The state is [None] once the walk has left defined behaviour. *)

Definition ims_find_setxattr_kv (strtod : list ascii -> Z) (k : string) (v : data_t)
    (filler : option ims_xattr_filler) : Z * option ims_xattr_filler :=
  if negb (XATTR_IS_IMESSXDB k) then (0, filler)
  else (0,
    f ← filler;
    str ← data_str v;
    let '(type, ival, rval, sval) := classify strtod str in
    Some {| f_count := i32 (f_count f + 1);
            f_xattr := {| xa_gfid := xa_gfid (f_xattr f); xa_type := type; xa_name := Some k;
                          xa_ival := ival; xa_rval := rval; xa_sval := sval |} |}).

(** ** The operations *)

Section server.
Context {conn C : Type} `{!SqlEngine conn, !Child C}.
Variable strtod : list ascii -> Z.
Abbreviation X := (M (xlator conn C)).

Definition with_xdb (x : ims_xdb conn) (s : xlator conn C) : xlator conn C :=
  {| private := {| p_xdb := x; async_update := async_update (private s);
                   dir_hash := dir_hash (private s); async_ctx := async_ctx (private s) |};
     first_child := first_child s; allocs := allocs s |}.

Definition with_ctx (a : ims_async conn) (al : list bool) (s : xlator conn C) : xlator conn C :=
  {| private := {| p_xdb := p_xdb (private s); async_update := async_update (private s);
                   dir_hash := dir_hash (private s); async_ctx := Some a |};
     first_child := first_child s; allocs := al |}.

Definition with_child (c : C) (s : xlator conn C) : xlator conn C :=
  {| private := private s; first_child := c; allocs := allocs s |}.

(** A call on the connection of the translator, a task for the worker, an
    allocation, and a call of the child. *)

Definition on_xdb {B} (m : M (ims_xdb conn) B) : X B := fun s =>
  match m (p_xdb (private s)) with
  | Some (b, x) => Some (b, with_xdb x s)
  | None => None
  end.

Definition put_task (task : ims_task) : X Z := fun s =>
  match async_ctx (private s) with
  | None => None
  | Some a =>
      match ims_async_put_task task (allocs s) a with
      | Some ((r, al), a') => Some (r, with_ctx a' al s)
      | None => None
      end
  end.

Definition calloc : X bool := fun s =>
  let '(ok, al) := alloc (allocs s) in
  Some (ok, {| private := private s; first_child := first_child s; allocs := al |}).

Definition wind (r : request) : X reply := fun s =>
  let '(rp, c) := child_call r (first_child s) in Some (rp, with_child c s).

Definition get_priv : X (ims_priv conn) := s <~ m_get;; m_ret (private s).

(** The warning of a callback reads [xdb->db_ret]. *)

Definition warn (ret : Z) (xdb : option (ims_xdb conn)) : X unit :=
  if ret =? 0 then m_ret tt else m_deref xdb;;; m_ret tt.

Definition file_task (op : Z) (f : ims_xdb_file) (sb : stat) : ims_task :=
  {| t_op := op; t_file := f; t_sb := sb; t_attr := no_attr |}.

(** *** Helpers *)

Definition insert_new_xdb_entry (buf : iatt) (path : option string) : X Z :=
  priv <~ get_priv;;
  let file := {| xf_gfid := Some (uuid_utoa (ia_gfid buf)); xf_path := path;
                 xf_extra := None |} in
  if async_update priv
  then put_task (file_task IMS_TASK_INSERT_NEW_FILE file (iatt_to_stat buf))
  else on_xdb (ims_xdb_insert_new_file file (iatt_to_stat buf)).

Definition unlink_from_xdb (path : option string) : X Z :=
  priv <~ get_priv;;
  let file := {| xf_gfid := None; xf_path := path; xf_extra := None |} in
  if async_update priv then put_task (file_task IMS_TASK_UNLINK_FILE file no_stat)
  else on_xdb (ims_xdb_unlink_file file).

(** *** Callbacks

    Every STACK_UNWIND of the source passes on the arguments of its callback,
    all of them and in their order; so the reply is one record here, and a
    callback gives back the one that it was given. *)

Definition ims_mkdir_cbk (cookie : option string) (rp : reply) : X reply :=
  if op_ret rp =? -1 then m_ret rp
  else match cookie with
       | None => m_ret rp
       | Some path => insert_new_xdb_entry (r_buf rp) (Some path);;; m_ret rp
       end.

Definition ims_unlink_cbk (cookie : option string) (rp : reply) : X reply :=
  if op_ret rp =? -1 then m_ret rp else unlink_from_xdb cookie;;; m_ret rp.

Definition ims_rmdir_cbk (cookie : option string) (rp : reply) : X reply :=
  if op_ret rp =? -1 then m_ret rp else unlink_from_xdb cookie;;; m_ret rp.

Definition ims_setxattr_cbk (cookie : option ims_xdb_attr) (rp : reply) : X reply :=
  if op_ret rp =? -1 then m_ret rp
  else match cookie with
       | None => m_ret rp
       | Some xattr =>
           priv <~ get_priv;;
           (if async_update priv
            then put_task {| t_op := IMS_TASK_INSERT_XATTR; t_file := no_file; t_sb := no_stat;
                             t_attr := xattr |}
            else on_xdb (ims_xdb_setxattr xattr));;;
           m_ret rp
       end.

Definition ims_create_cbk (cookie : option string) (rp : reply) : X reply :=
  if op_ret rp =? -1 then m_ret rp
  else insert_new_xdb_entry (r_buf rp) cookie;;; m_ret rp.

Definition ims_setattr_cbk (rp : reply) : X reply :=
  if op_ret rp =? -1 then m_ret rp
  else if gf_uuid_is_null (ia_gfid (r_buf rp)) then m_ret rp
  else
    priv <~ get_priv;;
    let file := {| xf_gfid := Some (uuid_utoa (ia_gfid (r_buf rp))); xf_path := None;
                   xf_extra := None |} in
    let sb := iatt_to_stat (r_buf rp) in
    let xdb := if async_update priv then None else Some (p_xdb priv) in
    ret <~ (if async_update priv then put_task (file_task IMS_TASK_UPDATE_STAT file sb)
            else on_xdb (ims_xdb_update_stat file sb IMS_XDB_STAT_OP_WRITE));;
    warn ret xdb;;; m_ret rp.

Definition ims_symlink_cbk (cookie : option string) (rp : reply) : X reply :=
  if op_ret rp =? -1 then m_ret rp
  else insert_new_xdb_entry (r_buf rp) cookie;;; m_ret rp.

Definition ims_link_cbk (cookie : option string) (rp : reply) : X reply :=
  if op_ret rp =? -1 then m_ret rp
  else
    priv <~ get_priv;;
    let file := {| xf_gfid := Some (uuid_utoa (ia_gfid (r_buf rp))); xf_path := cookie;
                   xf_extra := None |} in
    let xdb := if async_update priv then None else Some (p_xdb priv) in
    ret <~ (if async_update priv then put_task (file_task IMS_TASK_LINK_FILE file no_stat)
            else on_xdb (ims_xdb_link_file file));;
    warn ret xdb;;; m_ret rp.

(** The cookie is a pair of paths. *)

Definition ims_rename_cbk (cookie : option (option string * option string)) (rp : reply)
    : X reply :=
  if op_ret rp =? -1 then m_ret rp
  else match cookie with
       | None => m_ret rp
       | Some (old_path, new_path) =>
           priv <~ get_priv;;
           let file := {| xf_gfid := None; xf_path := old_path; xf_extra := new_path |} in
           let xdb := if async_update priv then None else Some (p_xdb priv) in
           ret <~ (if async_update priv then put_task (file_task IMS_TASK_RENAME file no_stat)
                   else on_xdb (ims_xdb_rename file));;
           warn ret xdb;;; m_ret rp
       end.

(** *** Entry points *)

Definition hashed_key : string := "imess-dht-hashed".

Definition ims_mkdir (loc : loc_t) (mode umask : Z) (xdata : option dict_t) : X reply :=
  priv <~ get_priv;;
  if dir_hash priv then
    match xdata with
    | None => rp <~ wind (Rmkdir loc mode umask None);; ims_mkdir_cbk (l_path loc) rp
    | Some d =>
        v <~ m_deref (dict_get_int8 d hashed_key);;
        let '(ret, hashed) := v in
        if negb (ret =? 0) then
          rp <~ wind (Rmkdir loc mode umask xdata);; ims_mkdir_cbk (l_path loc) rp
        else
          let path := if default 0 hashed =? 0 then None else l_path loc in
          rp <~ wind (Rmkdir loc mode umask (Some (dict_del d hashed_key)));;
          ims_mkdir_cbk path rp
    end
  else rp <~ wind (Rmkdir loc mode umask xdata);; ims_mkdir_cbk (l_path loc) rp.

Definition ims_unlink (loc : loc_t) (xflag : Z) (xdata : option dict_t) : X reply :=
  rp <~ wind (Runlink loc xflag xdata);; ims_unlink_cbk (l_path loc) rp.

Definition ims_rmdir (loc : loc_t) (flags : Z) (xdata : option dict_t) : X reply :=
  rp <~ wind (Rrmdir loc flags xdata);; ims_rmdir_cbk (l_path loc) rp.

(** The walk over the attributes: the code of [dict_foreach] and the filler. *)

Definition find_setxattr (dict : dict_t) : Z * option ims_xattr_filler :=
  dict_foreach dict (ims_find_setxattr_kv strtod)
    (Some {| f_count := 0; f_xattr := no_attr |}).

(** The cookie's gfid is the buffer of [uuid_utoa], which the child may have
    overwritten when the callback reads it. *)

Definition ims_setxattr (loc : loc_t) (dict : dict_t) (flags : Z) (xdata : option dict_t)
    : X reply :=
  let '(ret, filler) := find_setxattr dict in
  f <~ m_deref filler;;
  rp <~ wind (Rsetxattr loc dict flags xdata);;
  let a := f_xattr f in
  let xattr := {| xa_gfid := Some (default (uuid_utoa (l_gfid loc)) (r_utoa rp));
                  xa_type := xa_type a; xa_name := xa_name a; xa_ival := xa_ival a;
                  xa_rval := xa_rval a; xa_sval := xa_sval a |} in
  ims_setxattr_cbk (if negb (ret =? 0) || (f_count f =? 0) then None else Some xattr) rp.

Definition ims_ftruncate (fd offset : Z) (xdata : option dict_t) : X reply :=
  rp <~ wind (Rftruncate fd offset xdata);; ims_setattr_cbk rp.

Definition ims_create (loc : loc_t) (flags mode umask fd : Z) (xdata : option dict_t) : X reply :=
  rp <~ wind (Rcreate loc flags mode umask fd xdata);; ims_create_cbk (l_path loc) rp.

Definition ims_setattr (loc : loc_t) (stbuf : iatt) (valid : Z) (xdata : option dict_t)
    : X reply :=
  rp <~ wind (Rsetattr loc stbuf valid xdata);; ims_setattr_cbk rp.

Definition ims_fsetattr (fd : Z) (stbuf : iatt) (valid : Z) (xdata : option dict_t) : X reply :=
  rp <~ wind (Rfsetattr fd stbuf valid xdata);; ims_setattr_cbk rp.

Definition ims_symlink (linkpath : string) (loc : loc_t) (umask : Z) (xdata : option dict_t)
    : X reply :=
  rp <~ wind (Rsymlink linkpath loc umask xdata);; ims_symlink_cbk (l_path loc) rp.

Definition ims_link (oldloc newloc : loc_t) (xdata : option dict_t) : X reply :=
  rp <~ wind (Rlink oldloc newloc xdata);; ims_link_cbk (l_path newloc) rp.

Definition ims_truncate (loc : loc_t) (offset : Z) (xdata : option dict_t) : X reply :=
  rp <~ wind (Rtruncate loc offset xdata);; ims_setattr_cbk rp.

Definition ims_writev (fd : Z) (vector : list (list ascii)) (count offset flags : Z)
    (xdata : option dict_t) : X reply :=
  rp <~ wind (Rwritev fd vector count offset flags xdata);; ims_setattr_cbk rp.

Definition ims_rename (oldloc newloc : loc_t) (xdata : option dict_t) : X reply :=
  ok <~ calloc;;
  rp <~ wind (Rrename oldloc newloc xdata);;
  ims_rename_cbk (if ok : bool then Some (l_path oldloc, l_path newloc) else None) rp.

(** The table [fops]. *)

Definition ims_fop (r : request) : X reply :=
  match r with
  | Rmkdir loc mode umask xdata => ims_mkdir loc mode umask xdata
  | Runlink loc xflag xdata => ims_unlink loc xflag xdata
  | Rrmdir loc flags xdata => ims_rmdir loc flags xdata
  | Rsetxattr loc dict flags xdata => ims_setxattr loc dict flags xdata
  | Rftruncate fd offset xdata => ims_ftruncate fd offset xdata
  | Rcreate loc flags mode umask fd xdata => ims_create loc flags mode umask fd xdata
  | Rsetattr loc stbuf valid xdata => ims_setattr loc stbuf valid xdata
  | Rfsetattr fd stbuf valid xdata => ims_fsetattr fd stbuf valid xdata
  | Rsymlink linkpath loc umask xdata => ims_symlink linkpath loc umask xdata
  | Rlink oldloc newloc xdata => ims_link oldloc newloc xdata
  | Rtruncate loc offset xdata => ims_truncate loc offset xdata
  | Rwritev fd vector count offset flags xdata => ims_writev fd vector count offset flags xdata
  | Rrename oldloc newloc xdata => ims_rename oldloc newloc xdata
  end.

(** A turn of the worker. *)

Definition ims_worker : X bool := fun s =>
  match async_ctx (private s) with
  | None => None
  | Some a =>
      match ims_async_work a with
      | Some (b, a') => Some (b, with_ctx a' (allocs s) s)
      | None => None
      end
  end.

End server.
