(* ===== verification/ImsIndex.v ===== *)
(** * The index follows the name space

    The operations of ImsServer.v as updates of the index, the class of
    children that keep a name space with one instance, and the invariants of
    runs over such a child with synchronous and with deferred updates. The
    properties are in ImsProps.v. *)

From Stdlib Require Import ZArith Lia Bool Ascii String.
From stdpp Require Import base list strings gmap.
From S2P Require Import Prelude Sqlite SqlFacts Xdb XdbSpec XdbRefine CLib Dict DictTyped Uuid.
From S2P Require Import Iatt ImsAsync ImsServer.

(** ** What an operation does to the index *)

Definition gfid_of (rp : reply) : string := uuid_utoa (ia_gfid (r_buf rp)).

Definition new_entry (rp : reply) (path : option string) : xop :=
  OpInsertNewFile {| xf_gfid := Some (gfid_of rp); xf_path := path; xf_extra := None |}
    (iatt_to_stat (r_buf rp)).

Definition del_entry (path : option string) : xop :=
  OpUnlinkFile {| xf_gfid := None; xf_path := path; xf_extra := None |}.

Definition stat_entry (async : bool) (rp : reply) : option xop :=
  if gf_uuid_is_null (ia_gfid (r_buf rp)) then None
  else Some (OpUpdateStat
    {| xf_gfid := Some (gfid_of rp); xf_path := None; xf_extra := None |}
    (iatt_to_stat (r_buf rp)) (if async then IMS_XDB_STAT_OP_ALL else IMS_XDB_STAT_OP_WRITE)).

(** The mark in the extra data of a [mkdir], which counts only when
    directories are indexed by their hash: [Some true] when the directory
    belongs to this brick and [Some false] when it belongs to another one. *)

Definition mkdir_mark (hash : bool) (xdata : option dict_t) : option bool :=
  if hash then
    d ← xdata; v ← dict_get_int8 d hashed_key;
    if v.1 =? 0 then Some (negb (default 0 v.2 =? 0)) else None
  else None.

(** What the child is asked: the mark is taken out. *)

Definition forwarded (hash : bool) (r : request) : request :=
  match r with
  | Rmkdir loc mode umask xdata =>
      match mkdir_mark hash xdata with
      | Some _ => Rmkdir loc mode umask ((fun d => dict_del d hashed_key) <$> xdata)
      | None => r
      end
  | _ => r
  end.

(** A directory that another brick indexes. *)

Definition away (hash : bool) (r : request) : bool :=
  match r with
  | Rmkdir _ _ _ xdata => bool_decide (mkdir_mark hash xdata = Some false)
  | _ => false
  end.

Section effects.
Variable strtod : list ascii -> Z.

Definition xattr_entry (loc : loc_t) (dict : dict_t) (rp : reply) : option xop :=
  f ← (find_setxattr strtod dict).2;
  if negb ((find_setxattr strtod dict).1 =? 0) || (f_count f =? 0) then None
  else let a := f_xattr f in
    Some (OpSetxattr
      {| xa_gfid := Some (default (uuid_utoa (l_gfid loc)) (r_utoa rp)); xa_type := xa_type a;
         xa_name := xa_name a; xa_ival := xa_ival a; xa_rval := xa_rval a;
         xa_sval := xa_sval a |}).

Definition fop_xop (async hash : bool) (r : request) (rp : reply) : option xop :=
  if op_ret rp =? -1 then None
  else match r with
  | Rmkdir loc _ _ _ =>
      if away hash r then None else p ← l_path loc; Some (new_entry rp (Some p))
  | Rcreate loc _ _ _ _ _ | Rsymlink _ loc _ _ => Some (new_entry rp (l_path loc))
  | Runlink loc _ _ | Rrmdir loc _ _ => Some (del_entry (l_path loc))
  | Rsetxattr loc dict _ _ => xattr_entry loc dict rp
  | Rlink _ newloc _ =>
      Some (OpLinkFile {| xf_gfid := Some (gfid_of rp); xf_path := l_path newloc;
                          xf_extra := None |})
  | Rrename oldloc newloc _ =>
      Some (OpRename {| xf_gfid := None; xf_path := l_path oldloc;
                        xf_extra := l_path newloc |})
  | Rftruncate _ _ _ | Rsetattr _ _ _ _ | Rfsetattr _ _ _ _ | Rtruncate _ _ _
  | Rwritev _ _ _ _ _ _ => stat_entry async rp
  end.

(** Requests with absolute paths, attributes that fit their buffer, and a
    mark that can be read. *)

Definition abs_path (loc : loc_t) : bool :=
  match l_path loc with Some p => has_slash p | None => false end.

Definition req_ok (r : request) : bool :=
  match r with
  | Rmkdir loc _ _ xdata =>
      abs_path loc &&
      match xdata with
      | Some d => bool_decide (is_Some (dict_get_int8 d hashed_key))
      | None => true
      end
  | Rcreate loc _ _ _ _ _ | Rsymlink _ loc _ _ | Runlink loc _ _
  | Rrmdir loc _ _ | Rlink _ loc _ => abs_path loc
  | Rrename oldloc newloc _ => abs_path oldloc && abs_path newloc
  | Rsetxattr _ dict _ _ => bool_decide (is_Some (find_setxattr strtod dict).2)
  | _ => true
  end.

(** What has been counted has a name. *)

Definition named (s : option ims_xattr_filler) : Prop :=
  match s with Some f => f_count f = 0 \/ is_Some (xa_name (f_xattr f)) | None => True end.

Lemma walk_named l n s :
  named s ->
  named (foreach_match dict_match_everything (ims_find_setxattr_kv strtod) l n s).2.
Proof.
  revert n s. induction l as [|[k v] l IH]; intros n s Hs; [done|]. cbn [foreach_match].
  destruct (ims_find_setxattr_kv strtod k v s) as [r s'] eqn:Hkv.
  unfold dict_match_everything at 1.
  assert (named s') as Hs'.
  { revert Hkv. unfold ims_find_setxattr_kv. destruct (negb _); [by intros [= <- <-]|].
    intros [= <- <-]. destruct s as [f|]; [cbn [mbind option_bind]|done].
    destruct (data_str v) as [str|]; [cbn [mbind option_bind]|done].
    destruct (classify strtod str) as [[[ty iv] rv] sv]. right. by eexists. }
  destruct (r <? 0); [done|by apply IH].
Qed.

Lemma find_named dict : named (find_setxattr strtod dict).2.
Proof.
  unfold find_setxattr, dict_foreach, dict_foreach_match.
  pose proof (walk_named (members_list dict) 0 (Some {| f_count := 0; f_xattr := no_attr |})
    (or_introl eq_refl)) as Hw.
  by destruct (foreach_match _ _ _ _ _) as [ret s'].
Qed.

(** The operations that a well-formed request gives have their arguments. *)

Lemma fop_xop_ok async hash r rp o :
  req_ok r = true -> fop_xop async hash r rp = Some o -> xop_ok o = true.
Proof.
  unfold fop_xop. destruct (op_ret rp =? -1); [done|].
  destruct r; cbn [req_ok]; unfold abs_path, stat_entry, new_entry, del_entry; intros Hok Ho.
  4: { unfold xattr_entry in Ho. pose proof (find_named dict) as Hn.
       destruct (find_setxattr strtod dict) as [ret [f|]]; [|done].
       cbn [fst snd mbind option_bind] in *. case_match eqn:Hc; [done|].
       apply orb_false_iff in Hc as [_ Hc]. apply Z.eqb_neq in Hc. simplify_eq.
       destruct Hn as [|[name Hname]]; [lia|]. cbn [xop_ok xa_gfid xa_name]. by rewrite Hname. }
  all: try apply andb_true_iff in Hok as [Hok1 Hok2].
  all: repeat case_match; simplify_eq/=; rewrite ?bool_decide_eq_true; try done; eauto.
  all: repeat case_match; simplify_eq/=; try done; by eexists.
Qed.

End effects.

(** ** The operations as updates of the index *)

(** The task that stands for an operation. *)

Definition xop_task (o : xop) : ims_task :=
  match o with
  | OpInsertNewFile f sb => file_task IMS_TASK_INSERT_NEW_FILE f sb
  | OpUnlinkFile f => file_task IMS_TASK_UNLINK_FILE f no_stat
  | OpUpdateStat f sb _ => file_task IMS_TASK_UPDATE_STAT f sb
  | OpLinkFile f => file_task IMS_TASK_LINK_FILE f no_stat
  | OpRename f => file_task IMS_TASK_RENAME f no_stat
  | OpSetxattr a =>
      {| t_op := IMS_TASK_INSERT_XATTR; t_file := no_file; t_sb := no_stat; t_attr := a |}
  | _ => file_task IMS_TASK_REMOVE_XATTR no_file no_stat
  end.

Lemma task_dup_nil task : task_dup task [] = (Some task, []).
Proof.
  destruct task as [op [g p e] sb [ag ty an iv rv sv]].
  by destruct g, p, e, ag, an, sv.
Qed.

Lemma xop_task_xop strtod hash r rp o :
  fop_xop strtod true hash r rp = Some o -> task_xop (xop_task o) = Some o.
Proof.
  unfold fop_xop. destruct (op_ret rp =? -1); [done|].
  destruct r; unfold new_entry, del_entry, stat_entry, xattr_entry; intros Ho.
  4: { destruct (find_setxattr strtod dict).2 as [f|]; [|done]. cbn [mbind option_bind] in Ho.
       case_match; by simplify_eq. }
  all: repeat case_match; simplify_eq/=; try done.
  all: destruct (l_path _); by simplify_eq/=.
Qed.

Section modes.
Context {conn C : Type} `{!SqlEngine conn, !Child C}.
Variable strtod : list ascii -> Z.
Implicit Types (s : xlator conn C).

Definition commit_sync (o : option xop) s : option (xlator conn C) :=
  match o with
  | None => Some s
  | Some o =>
      match run_xop o (p_xdb (private s)) with
      | Some (_, x) => Some (with_xdb x s)
      | None => None
      end
  end.

Definition commit_async (o : option xop) s : option (xlator conn C) :=
  match o, async_ctx (private s) with
  | None, _ => Some s
  | Some o, Some a => Some (with_ctx (set_queue (task_queue a ++ [xop_task o]) a) [] s)
  | Some _, None => None
  end.

(** A [mkdir] whose mark can be read. *)

Lemma mkdir_forwarded loc mode umask xdata s :
  match xdata with Some d => is_Some (dict_get_int8 d hashed_key) | None => True end ->
  ims_mkdir loc mode umask xdata s =
  m_bind (wind (forwarded (dir_hash (private s)) (Rmkdir loc mode umask xdata)))
    (ims_mkdir_cbk (if away (dir_hash (private s)) (Rmkdir loc mode umask xdata) then None
                    else l_path loc)) s.
Proof.
  intros Hm. unfold ims_mkdir, m_bind at 1, get_priv, m_bind at 1, m_get, m_ret, away.
  cbn [forwarded]. unfold mkdir_mark. destruct (dir_hash (private s)); [|done].
  destruct xdata as [d|]; [|done]. destruct Hm as [[ret hashed] Hv].
  unfold m_bind at 1, m_deref. cbn [mbind option_bind fmap option_fmap option_map]. rewrite Hv.
  cbn [mbind option_bind fst snd m_ret].
  destruct (ret =? 0); [|done]. cbn [negb]. by destruct (default 0 hashed =? 0).
Qed.

(** A mark that cannot be read is undefined behaviour. *)

Lemma mkdir_readable loc mode umask xdata s :
  ims_mkdir loc mode umask xdata s = None \/
  ims_mkdir loc mode umask xdata s =
  m_bind (wind (forwarded (dir_hash (private s)) (Rmkdir loc mode umask xdata)))
    (ims_mkdir_cbk (if away (dir_hash (private s)) (Rmkdir loc mode umask xdata) then None
                    else l_path loc)) s.
Proof.
  destruct xdata as [d|]; [|right; by apply mkdir_forwarded].
  destruct (dict_get_int8 d hashed_key) as [v|] eqn:Hv.
  { right. apply mkdir_forwarded. by eexists. }
  unfold ims_mkdir, m_bind at 1 4, get_priv, m_bind, m_get, m_ret, away, m_deref.
  cbn [forwarded]. unfold mkdir_mark. rewrite Hv.
  destruct (dir_hash (private s)); [by left|by right].
Qed.

Ltac unfold_fop :=
  unfold ims_fop, ims_unlink, ims_rmdir, ims_setxattr, ims_ftruncate, ims_create,
    ims_setattr, ims_fsetattr, ims_symlink, ims_link, ims_truncate, ims_writev, ims_rename,
    ims_mkdir_cbk, ims_unlink_cbk, ims_rmdir_cbk, ims_setxattr_cbk, ims_create_cbk,
    ims_setattr_cbk, ims_symlink_cbk, ims_link_cbk, ims_rename_cbk, insert_new_xdb_entry,
    unlink_from_xdb, get_priv, wind, calloc, warn, m_bind, m_get, m_deref, m_ret.

(** Synchronous updates: the operation is performed in the callback. *)

Lemma fop_sync r s rp c :
  async_update (private s) = false -> allocs s = [] -> req_ok strtod r = true ->
  child_call (forwarded (dir_hash (private s)) r) (first_child s) = (rp, c) ->
  ims_fop strtod r s =
    s' ← commit_sync (fop_xop strtod false (dir_hash (private s)) r rp) (with_child c s);
    Some (rp, s').
Proof.
  destruct s as [[x av dh ctx] c0 al]. cbn [private async_update dir_hash allocs first_child].
  intros -> -> Hok Hc. unfold fop_xop, commit_sync, stat_entry, new_entry, del_entry, on_xdb.
  destruct r.
  1: { cbn [req_ok ims_fop] in *. apply andb_true_iff in Hok as [Hok Hm].
       rewrite mkdir_forwarded by (destruct xdata; [exact (bool_decide_eq_true_1 _ Hm)|done]).
       cbn [private dir_hash]. unfold m_bind, wind. cbn [first_child]. rewrite Hc.
       unfold_fop. destruct (op_ret rp =? -1); [done|]. destruct (away dh _); [done|].
       unfold abs_path in Hok. destruct (l_path loc) as [p|]; [|done].
       cbn [mbind option_bind private async_update with_child p_xdb run_xop]. unfold on_xdb, gfid_of.
       cbn [private p_xdb with_child]. by destruct (ims_xdb_insert_new_file _ _ x) as [[ret x']|]. }
  all: cbn [forwarded] in Hc.
  all: unfold_fop; cbn [private first_child allocs alloc async_update dir_hash p_xdb with_child].
  3: { cbn [req_ok] in Hok. apply bool_decide_eq_true in Hok as [f Hf]. unfold xattr_entry.
       destruct (find_setxattr strtod dict) as [ret fl]. cbn [fst snd] in *. subst fl.
       cbv beta iota. cbn [first_child]. rewrite Hc. cbn [mbind option_bind private first_child async_update with_child p_xdb].
       destruct (op_ret rp =? -1); [done|]. destruct (negb _ || _); [done|].
       cbn [private async_update with_child p_xdb run_xop].
       unfold on_xdb. cbn [private p_xdb with_child]. by repeat case_match; simplify_eq. }
  all: rewrite Hc; cbn [private first_child async_update with_child p_xdb].
  all: destruct (op_ret rp =? -1); [done|].
  all: cbn [req_ok] in Hok; unfold abs_path in Hok.
  all: cbn [mbind option_bind run_xop private async_update with_child p_xdb].
  all: try (destruct (gf_uuid_is_null _); [done|]).
  all: unfold on_xdb; cbn [private p_xdb with_child async_update].
  all: repeat (case_match; simplify_eq; cbn [private async_update p_xdb with_child mbind option_bind
    run_xop] in *; unfold gfid_of in *); try done.
Qed.

(** Deferred updates: the operation is appended to the queue. *)

Lemma put_task_nil task s a :
  async_ctx (private s) = Some a -> allocs s = [] ->
  put_task task s = Some (0, with_ctx (set_queue (task_queue a ++ [task]) a) [] s).
Proof.
  intros Ha Hal. unfold put_task, ims_async_put_task. rewrite Ha, Hal, task_dup_nil. done.
Qed.

Lemma fop_async r s rp c a :
  async_update (private s) = true -> allocs s = [] -> async_ctx (private s) = Some a ->
  req_ok strtod r = true ->
  child_call (forwarded (dir_hash (private s)) r) (first_child s) = (rp, c) ->
  ims_fop strtod r s =
    s' ← commit_async (fop_xop strtod true (dir_hash (private s)) r rp) (with_child c s);
    Some (rp, s').
Proof.
  destruct s as [[x av dh ctx] c0 al].
  cbn [private async_update dir_hash allocs first_child async_ctx].
  intros -> -> -> Hok Hc. unfold fop_xop, commit_async, stat_entry, new_entry, del_entry.
  destruct r.
  1: { cbn [req_ok ims_fop] in *. apply andb_true_iff in Hok as [Hok Hm].
       rewrite mkdir_forwarded by (destruct xdata; [exact (bool_decide_eq_true_1 _ Hm)|done]).
       cbn [private dir_hash]. unfold m_bind, wind. cbn [first_child]. rewrite Hc.
       unfold_fop. destruct (op_ret rp =? -1); [done|]. destruct (away dh _); [done|].
       unfold abs_path in Hok. destruct (l_path loc) as [p|]; [|done].
       cbn [mbind option_bind private async_update with_child async_ctx]. by rewrite (put_task_nil _ _ a). }
  all: cbn [forwarded] in Hc.
  all: unfold_fop; cbn [private first_child allocs alloc async_update dir_hash p_xdb with_child].
  3: { cbn [req_ok] in Hok. apply bool_decide_eq_true in Hok as [f Hf]. unfold xattr_entry.
       destruct (find_setxattr strtod dict) as [ret fl]. cbn [fst snd] in *. subst fl.
       cbv beta iota. cbn [first_child]. rewrite Hc.
       cbn [mbind option_bind private first_child async_update with_child p_xdb].
       destruct (op_ret rp =? -1); [done|]. destruct (negb _ || _); [done|].
       cbn [private async_update with_child p_xdb async_ctx]. by rewrite (put_task_nil _ _ a). }
  all: rewrite Hc; cbn [private first_child async_update with_child p_xdb async_ctx].
  all: destruct (op_ret rp =? -1); [done|].
  all: cbn [req_ok] in Hok; unfold abs_path in Hok.
  all: cbn [mbind option_bind private async_update with_child async_ctx].
  all: try (destruct (gf_uuid_is_null _); [done|]).
  all: try (destruct (l_path loc); [cbn [mbind option_bind private async_update with_child async_ctx]|done]).
  all: cbn [private async_update with_child]; by rewrite (put_task_nil _ _ a).
Qed.

End modes.

(** ** A child that keeps a name space *)

(** What a successful request does to the map from paths to gfids, to the set
    of the gfids that have been in use and to the set of the paths of
    directories: a new object has a gfid that was never used, creating a file
    that exists opens it, a link has the gfid of its source, and directories
    are neither opened by [create] nor linked. Of a rename only the case is
    stated where the target is free and no other path lies below the source. A
    request that fails does nothing. *)

Definition below (o p : string) : bool := String.prefix (o ++ "/") p.

Definition new_name (rp : reply) (loc : loc_t) (m : gmap string string) (u : gset string)
    (m' : gmap string string) (u' : gset string) : Prop :=
  exists p, l_path loc = Some p /\ m !! p = None /\ ~ gfid_of rp ∈ u /\
    m' = <[p := gfid_of rp]> m /\ u' = {[gfid_of rp]} ∪ u.

Definition opened (rp : reply) (loc : loc_t) (m : gmap string string) (u d : gset string)
    (m' : gmap string string) (u' : gset string) : Prop :=
  exists p, l_path loc = Some p /\ ~ p ∈ d /\ m !! p = Some (gfid_of rp) /\ m' = m /\ u' = u.

Definition path_set (loc : loc_t) : gset string :=
  match l_path loc with Some p => {[p]} | None => ∅ end.

(** [moved o n d]: the paths of [d] when [o] has become [n]. *)

Definition moved (o n : string) (d : gset string) : gset string :=
  if decide (o ∈ d) then {[n]} ∪ d ∖ {[o]} else d.

Definition fs_post (r : request) (rp : reply) (m : gmap string string) (u d : gset string)
    (m' : gmap string string) (u' d' : gset string) : Prop :=
  if op_ret rp =? -1 then m' = m /\ u' = u /\ d' = d
  else match r with
  | Rmkdir loc _ _ _ => new_name rp loc m u m' u' /\ d' = path_set loc ∪ d
  | Rsymlink _ loc _ _ => new_name rp loc m u m' u' /\ d' = d
  | Rcreate loc _ _ _ _ _ => (new_name rp loc m u m' u' \/ opened rp loc m u d m' u') /\ d' = d
  | Runlink loc _ _ | Rrmdir loc _ _ =>
      exists p, l_path loc = Some p /\ m' = delete p m /\ u' = u /\ d' = d ∖ {[p]}
  | Rlink oldloc newloc _ =>
      exists o p, l_path oldloc = Some o /\ l_path newloc = Some p /\ ~ o ∈ d /\
        m !! o = Some (gfid_of rp) /\ m !! p = None /\
        m' = <[p := gfid_of rp]> m /\ u' = u /\ d' = d
  | Rrename oldloc newloc _ =>
      exists o n g, l_path oldloc = Some o /\ l_path newloc = Some n /\ m !! o = Some g /\
        u' = u /\
        (m !! n = None -> (forall p, is_Some (m !! p) -> below o p = false) ->
         m' = <[n := g]> (delete o m) /\ d' = moved o n d)
  | _ => m' = m /\ u' = u /\ d' = d
  end.

Class Namespace (C : Type) `{!Child C} := {
  ns : C -> gmap string string;
  used : C -> gset string;
  dirs : C -> gset string;
  ns_call : forall r c rp c', child_call r c = (rp, c') ->
    fs_post r rp (ns c) (used c) (dirs c) (ns c') (used c') (dirs c')
}.

(** The name space does not look at the extra data of a [mkdir]. *)

Lemma fs_post_forwarded hash r rp m u d m' u' d' :
  fs_post (forwarded hash r) rp m u d m' u' d' -> fs_post r rp m u d m' u' d'.
Proof. destruct r; cbn [forwarded]; try done. by destruct (mkdir_mark hash xdata). Qed.

(** The renames for which the index can follow: onto a free path, of an
    object without paths below it. *)

Definition calm (r : request) (m : gmap string string) : Prop :=
  match r with
  | Rrename oldloc newloc _ =>
      forall o n, l_path oldloc = Some o -> l_path newloc = Some n ->
        m !! n = None /\ (forall p, is_Some (m !! p) -> below o p = false)
  | _ => True
  end.

(** ** The index and the name space *)

(** The paths of the directories that another brick indexes. *)

Definition elsewhere (hash : bool) (r : request) (rp : reply) (e : gset string) : gset string :=
  if op_ret rp =? -1 then e
  else match r with
  | Rmkdir loc _ _ _ => if away hash r then path_set loc ∪ e else e
  | Runlink loc _ _ | Rrmdir loc _ _ => e ∖ path_set loc
  | Rrename oldloc newloc _ =>
      match l_path oldloc, l_path newloc with Some o, Some n => moved o n e | _, _ => e end
  | _ => e
  end.

(** The paths of the name space that this brick indexes. *)

Definition own_names (e : gset string) (m : gmap string string) : gmap string string :=
  filter (fun pg => ~ pg.1 ∈ e) m.

Lemma own_lookup e m p : own_names e m !! p = if decide (p ∈ e) then None else m !! p.
Proof.
  unfold own_names. rewrite map_lookup_filter. case_decide as Hp; destruct (m !! p) as [g|]; try done;
    cbn [mbind option_bind]; case_guard; cbn [fst] in *; naive_solver.
Qed.

Record follows (ix : index) (m : gmap string string) (u d e : gset string) : Prop := {
  fo_files : ix_files ix = own_names e m;
  fo_gfids : ix_gfids ix ⊆ u;
  fo_closed : forall p g, ~ p ∈ e -> m !! p = Some g -> g ∈ ix_gfids ix;
  fo_dirs : e ⊆ d;
  fo_known : forall p, p ∈ e -> is_Some (m !! p)
}.

(** An operation that the index refuses changes nothing. *)

Definition step_ix (ix : index) (o : xop) : index := default ix (spec_xop o ix).

Lemma spec_update_names g l ix :
  ix_files (spec_update g l ix) = ix_files ix /\ ix_gfids (spec_update g l ix) = ix_gfids ix.
Proof.
  unfold spec_update. revert ix. induction l as [|u l IH]; intros ix; [done|]. cbn [foldl].
  by destruct (IH (with_attrs ix (alter (put_ival (i64 u.2)) (g, stat_name u.1) (ix_attrs ix))))
    as [-> ->].
Qed.

Lemma follows_same ix ix' m u d e :
  ix_files ix' = ix_files ix -> ix_gfids ix' = ix_gfids ix -> follows ix m u d e ->
  follows ix' m u d e.
Proof. intros Hf Hg [? ? ? ? ?]. by split; rewrite ?Hf, ?Hg. Qed.

Lemma follows_update f sb op ix m u d e :
  follows ix m u d e -> follows (step_ix ix (OpUpdateStat f sb op)) m u d e.
Proof.
  intros Hfo. unfold step_ix. cbn [spec_xop]. destruct (xf_gfid f) as [g|]; [|done].
  cbn [mbind option_bind]. unfold spec_update_stat. case_decide; [|done].
  set (l := stat_updates _ _). destruct (spec_update_names g l ix) as [H1 H2].
  by apply (follows_same ix).
Qed.

Lemma follows_setxattr a ix m u d e :
  follows ix m u d e -> follows (step_ix ix (OpSetxattr a)) m u d e.
Proof.
  intros Hfo. unfold step_ix. cbn [spec_xop].
  destruct (xa_gfid a) as [g|]; [|done]. destruct (xa_name a) as [n|]; [|done].
  cbn [mbind option_bind]. unfold spec_setxattr. case_match; [|done]. by apply (follows_same ix).
Qed.

Lemma own_insert e p g m : ~ p ∈ e -> own_names e (<[p := g]> m) = <[p := g]> (own_names e m).
Proof.
  intros Hp. apply map_eq. intros q. rewrite own_lookup, !lookup_insert, own_lookup.
  repeat case_decide; naive_solver.
Qed.

Lemma follows_new rp p ix m u d d' e :
  follows ix m u d e -> m !! p = None -> ~ gfid_of rp ∈ u -> d ⊆ d' ->
  follows (step_ix ix (new_entry rp (Some p))) (<[p := gfid_of rp]> m) ({[gfid_of rp]} ∪ u) d' e.
Proof.
  intros [Hf Hg Hc Hd Hk] Hp Hn Hdd.
  assert (~ p ∈ e) as Hpe by (intros [? ?]%Hk; congruence).
  unfold step_ix, new_entry. cbn [spec_xop xf_gfid xf_path mbind option_bind].
  unfold spec_new_file. rewrite decide_False by set_solver.
  rewrite Hf, own_lookup, decide_False, Hp by done. cbn [from_option id].
  split; cbn [ix_files ix_gfids]; [by rewrite own_insert|set_solver| |set_solver|].
  - intros q g Hq. rewrite lookup_insert. case_decide; [intros [= <-]; set_solver|].
    intros Hm. pose proof (Hc q g Hq Hm). set_solver.
  - intros q Hq. rewrite lookup_insert. case_decide; [by eexists|by apply Hk].
Qed.

(** A new directory of another brick. *)

Lemma follows_away p g ix m u u' d e :
  follows ix m u d e -> m !! p = None -> u ⊆ u' ->
  follows ix (<[p := g]> m) u' ({[p]} ∪ d) ({[p]} ∪ e).
Proof.
  intros [Hf Hg Hc Hd Hk] Hp Hu. split; [| set_solver| |set_solver|].
  - rewrite Hf. apply map_eq. intros q. rewrite !own_lookup, lookup_insert.
    repeat case_decide; set_solver.
  - intros q h Hq. rewrite lookup_insert_ne by set_solver. apply Hc. set_solver.
  - intros q Hq. rewrite lookup_insert. case_decide; [by eexists|apply Hk; set_solver].
Qed.

Lemma follows_opened rp p ix m u d e :
  follows ix m u d e -> ~ p ∈ d -> m !! p = Some (gfid_of rp) ->
  follows (step_ix ix (new_entry rp (Some p))) m u d e.
Proof.
  intros Hfo Hd Hp. pose proof (fo_dirs _ _ _ _ _ Hfo) as He.
  assert (gfid_of rp ∈ ix_gfids ix) as Hin by (apply (fo_closed _ _ _ _ _ Hfo p); set_solver).
  unfold step_ix, new_entry. cbn [spec_xop xf_gfid xf_path mbind option_bind].
  unfold spec_new_file. by rewrite decide_True.
Qed.

Lemma follows_del p ix m u d e :
  follows ix m u d e ->
  follows (step_ix ix (del_entry (Some p))) (delete p m) u (d ∖ {[p]}) (e ∖ {[p]}).
Proof.
  intros [Hf Hg Hc Hd Hk]. split; cbn; [|done| |set_solver|].
  - rewrite Hf. apply map_eq. intros q. rewrite lookup_delete, !own_lookup, lookup_delete.
    repeat case_decide; set_solver.
  - intros q g Hq. rewrite lookup_delete. case_decide; [done|]. apply Hc. set_solver.
  - intros q Hq. rewrite lookup_delete_ne by set_solver. apply Hk. set_solver.
Qed.

Lemma follows_link o p g ix m u d e :
  follows ix m u d e -> ~ o ∈ d -> m !! o = Some g -> m !! p = None ->
  follows (step_ix ix (OpLinkFile {| xf_gfid := Some g; xf_path := Some p; xf_extra := None |}))
    (<[p := g]> m) u d e.
Proof.
  intros [Hf Hg Hc Hd Hk] Hod Ho Hp.
  assert (~ p ∈ e) as Hpe by (intros [? ?]%Hk; congruence).
  assert (g ∈ ix_gfids ix) as Hin by (apply (Hc o); set_solver).
  unfold step_ix. cbn [spec_xop xf_gfid xf_path mbind option_bind]. unfold spec_link.
  rewrite decide_True, Hf, own_lookup, decide_False, Hp by done. cbn [from_option id].
  split; cbn [with_files ix_files ix_gfids]; [by rewrite own_insert|done| |done|].
  - intros q h Hq. rewrite lookup_insert. case_decide; [by intros [= <-]|by apply Hc].
  - intros q Hq. rewrite lookup_insert. case_decide; [by eexists|by apply Hk].
Qed.

Lemma follows_rename o n g ix m u d e :
  follows ix m u d e -> m !! o = Some g -> m !! n = None ->
  follows (step_ix ix (OpRename {| xf_gfid := None; xf_path := Some o; xf_extra := Some n |}))
    (<[n := g]> (delete o m)) u (moved o n d) (moved o n e).
Proof.
  intros [Hf Hg Hc Hd Hk] Ho Hn.
  assert (~ n ∈ e) as Hne by (intros [? ?]%Hk; congruence).
  assert (n <> o) as Hno by congruence.
  unfold step_ix. cbn [spec_xop xf_path xf_extra mbind option_bind]. unfold spec_rename.
  rewrite Hf, own_lookup. unfold moved. destruct (decide (o ∈ e)) as [Hoe|Hoe].
  - rewrite (decide_True (P := o ∈ d)) by set_solver. cbn [mbind option_bind from_option id].
    split; [|done| |set_solver|].
    + rewrite Hf. apply map_eq. intros q. rewrite !own_lookup, lookup_insert, lookup_delete.
      repeat case_decide; set_solver.
    + intros q h Hq. rewrite lookup_insert_ne, lookup_delete by set_solver. case_decide; [done|].
      apply Hc. set_solver.
    + intros q Hq. rewrite lookup_insert. case_decide; [by eexists|].
      rewrite lookup_delete_ne by set_solver. apply Hk. set_solver.
  - rewrite Ho. rewrite decide_False by congruence. rewrite own_lookup, decide_False, Hn by done.
    cbn [from_option id].
    split; cbn [with_files ix_files ix_gfids]; [|done| | |].
    + rewrite own_insert by done. f_equal. apply map_eq. intros q.
      rewrite lookup_delete, !own_lookup, lookup_delete. repeat case_decide; naive_solver.
    + intros q h Hq. rewrite lookup_insert. case_decide; [intros [= <-]; by apply (Hc o)|].
      rewrite lookup_delete. case_decide; [done|by apply Hc].
    + case_decide; set_solver.
    + intros q Hq. rewrite lookup_insert. case_decide; [by eexists|].
      rewrite lookup_delete_ne by set_solver. by apply Hk.
Qed.

(** One request: the index makes the step of the name space. *)

Lemma follows_request strtod async hash r rp ix m u d m' u' d' e :
  fs_post r rp m u d m' u' d' -> calm r m -> follows ix m u d e ->
  follows (match fop_xop strtod async hash r rp with Some o => step_ix ix o | None => ix end)
    m' u' d' (elsewhere hash r rp e).
Proof.
  unfold fs_post, fop_xop, elsewhere. destruct (op_ret rp =? -1); [by intros (-> & -> & ->)|].
  destruct r; cbn [calm]; intros Hpost Hcalm Hfo;
    try (destruct Hpost as (-> & -> & ->); unfold stat_entry;
      destruct (gf_uuid_is_null _); [done|by apply follows_update]).
  - destruct Hpost as [(p & Hp & ? & ? & -> & ->) ->]. unfold path_set. rewrite Hp.
    destruct (away hash _); [apply (follows_away _ _ _ _ u); [done..|set_solver]|].
    apply (follows_new _ _ _ _ _ d); [done..|set_solver].
  - destruct Hpost as (p & Hp & -> & -> & ->). unfold path_set. rewrite Hp. by apply follows_del.
  - destruct Hpost as (p & Hp & -> & -> & ->). unfold path_set. rewrite Hp. by apply follows_del.
  - destruct Hpost as (-> & -> & ->). unfold xattr_entry.
    destruct (find_setxattr strtod dict).2 as [f|]; [cbn [mbind option_bind]|done].
    destruct (negb _ || _); [done|by apply follows_setxattr].
  - destruct Hpost as [[(p & -> & ? & ? & -> & ->)|(p & -> & ? & ? & -> & ->)] ->];
      [by eapply follows_new|by apply follows_opened].
  - destruct Hpost as [(p & -> & ? & ? & -> & ->) ->]. by eapply follows_new.
  - destruct Hpost as (o & p & Ho & -> & Hod & Hso & Hp & -> & -> & ->). by eapply follows_link.
  - destruct Hpost as (o & n & g & Ho & Hn & Hso & -> & Hm). rewrite Ho, Hn in *.
    destruct (Hcalm o n eq_refl eq_refl) as [Hfree Hbelow].
    destruct (Hm Hfree Hbelow) as [-> ->]. by apply follows_rename.
Qed.

(** ** Runs *)

Section runs.
Context {conn C : Type} `{!SqlEngine conn, !SqlLaws conn, !ReliableTx conn, !HealthyEngine conn}.
Context `{!Child C, !Namespace C}.
Variable strtod : list ascii -> Z.
Implicit Types (s : xlator conn C) (x : ims_xdb conn).

(** A connection whose tables represent an index, after at most [k]
    insertions. *)

Definition holds (x : ims_xdb conn) (ix : index) (k : Z) : Prop :=
  saved (xconn x) = None /\ repr (cur (xconn x)) ix /\ budget k (cur (xconn x)).

Lemma holds_step o x ix k :
  holds x ix k -> k < 2 ^ 31 - 1 -> xop_ok o = true ->
  exists r x', run_xop o x = Some (r, x') /\ holds x' (step_ix ix o) (k + 1).
Proof.
  intros (Hs & Hr & Hb) Hk Hok.
  destruct (wp_Some _ _ _ (xop_refines_healthy o x ix k Hok Hs Hr Hb Hk))
    as (r & x' & Hrun & Hs' & Hm).
  exists r, x'. split; [done|]. unfold holds, step_ix. destruct (spec_xop o ix) as [ix'|]; cbn.
  - by destruct Hm as (_ & ? & ?).
  - destruct Hm as [_ ->]. split_and!; [done..|]. eapply budget_mono; [done|lia].
Qed.

Lemma holds_steps os x ix k :
  holds x ix k -> k + Z.of_nat (length os) < 2 ^ 31 -> Forall (fun o => xop_ok o = true) os ->
  exists rs x', run_xops os x = Some (rs, x') /\
    holds x' (foldl step_ix ix os) (k + Z.of_nat (length os)).
Proof.
  revert x ix k. induction os as [|o os IH]; intros x ix k Hh Hk Hok; cbn [length] in *.
  { exists [], x. rewrite Z.add_0_r. done. }
  apply Forall_cons in Hok as [Ho Hok].
  destruct (holds_step o x ix k) as (r & x1 & H1 & Hh1); [done|lia|done|].
  destruct (IH x1 (step_ix ix o) (k + 1)) as (rs & x2 & H2 & Hh2); [done|lia|done|].
  exists (r :: rs), x2. cbn [run_xops foldl]. unfold m_bind. rewrite H1, H2. split; [done|].
  by replace (k + Z.of_nat (S (length os))) with (k + 1 + Z.of_nat (length os)) by lia.
Qed.

(** *** Synchronous updates *)

Definition follows_child (ix : index) (c : C) (e : gset string) : Prop :=
  follows ix (ns c) (used c) (dirs c) e.

Definition sync_state (hash : bool) s (k : Z) (e : gset string) : Prop :=
  async_update (private s) = false /\ dir_hash (private s) = hash /\ allocs s = [] /\
  exists ix, holds (p_xdb (private s)) ix k /\ follows_child ix (first_child s) e.

Lemma sync_step hash r s k e :
  sync_state hash s k e -> k < 2 ^ 31 - 1 -> req_ok strtod r = true ->
  calm r (ns (first_child s)) ->
  exists rp s', ims_fop strtod r s = Some (rp, s') /\
    sync_state hash s' (k + 1) (elsewhere hash r rp e) /\
    (rp, first_child s') = child_call (forwarded hash r) (first_child s).
Proof.
  intros (Has & <- & Hal & ix & Hh & Hfo) Hk Hok Hcalm.
  destruct (child_call _ (first_child s)) as [rp c] eqn:Hc.
  pose proof (fs_post_forwarded _ _ _ _ _ _ _ _ _ (ns_call _ _ _ _ Hc)) as Hpost.
  pose proof (follows_request strtod false (dir_hash (private s)) _ _ _ _ _ _ _ _ _ _ Hpost Hcalm
    Hfo) as Hfo'.
  rewrite (fop_sync strtod r s rp c) by done.
  destruct (fop_xop strtod false _ r rp) as [o|] eqn:Ho; cbn [commit_sync].
  - destruct (holds_step o (p_xdb (private s)) ix k) as (ret & x' & Hrun & Hh');
      [done|done|by eapply fop_xop_ok|].
    cbn [private with_child]. rewrite Hrun. eexists _, _. split_and!; [done| |done].
    by split_and!; [..|exists (step_ix ix o)].
  - eexists _, _. split_and!; [done| |done]. split_and!; [done..|]. exists ix.
    split; [|done]. destruct Hh as (?&?&?). split_and!; [done..|]. eapply budget_mono; [done|lia].
Qed.

(** *** Deferred updates *)

Definition pending (a : ims_async conn) (ix : index) (k : Z) : Prop :=
  exists ix0 os k0, mapM task_xop (task_queue a) = Some os /\
    Forall (fun o => xop_ok o = true) os /\ holds (a_xdb a) ix0 k0 /\
    k0 + Z.of_nat (length os) <= k /\ ix = foldl step_ix ix0 os.

Definition async_state (hash : bool) s (k : Z) (e : gset string) : Prop :=
  async_update (private s) = true /\ dir_hash (private s) = hash /\ allocs s = [] /\
  exists a ix, async_ctx (private s) = Some a /\ pending a ix k /\
    follows_child ix (first_child s) e.

Lemma async_step_fop hash r s k e :
  async_state hash s k e -> req_ok strtod r = true -> calm r (ns (first_child s)) ->
  exists rp s', ims_fop strtod r s = Some (rp, s') /\
    async_state hash s' (k + 1) (elsewhere hash r rp e) /\
    (rp, first_child s') = child_call (forwarded hash r) (first_child s).
Proof.
  intros (Has & <- & Hal & a & ix & Ha & (ix0 & os & k0 & Hos & Hoks & Hh & Hk & ->) & Hfo) Hok Hcalm.
  destruct (child_call _ (first_child s)) as [rp c] eqn:Hc.
  pose proof (fs_post_forwarded _ _ _ _ _ _ _ _ _ (ns_call _ _ _ _ Hc)) as Hpost.
  pose proof (follows_request strtod true (dir_hash (private s)) _ _ _ _ _ _ _ _ _ _ Hpost Hcalm
    Hfo) as Hfo'.
  rewrite (fop_async strtod r s rp c a) by done.
  destruct (fop_xop strtod true _ r rp) as [o|] eqn:Ho; cbn [commit_async private with_child].
  - rewrite Ha. eexists _, _. split_and!; [done| |done]. split_and!; [done..|].
    eexists _, (step_ix (foldl step_ix ix0 os) o). split_and!; [done| |done].
    exists ix0, (os ++ [o]), k0. cbn [set_queue task_queue a_xdb]. split_and!; [| |done| |].
    + apply mapM_Some_2, Forall2_app; [by apply mapM_Some|].
      constructor; [by eapply xop_task_xop|constructor].
    + apply Forall_app. split; [done|]. constructor; [by eapply fop_xop_ok|constructor].
    + rewrite length_app. cbn [length]. lia.
    + by rewrite foldl_snoc.
  - eexists _, _. split_and!; [done| |done]. split_and!; [done..|].
    exists a, (foldl step_ix ix0 os). split_and!; [done| |done]. exists ix0, os, k0.
    split_and!; try done. lia.
Qed.

Lemma async_step_work hash s k e :
  async_state hash s k e -> k < 2 ^ 31 ->
  exists b s', ims_worker s = Some (b, s') /\ async_state hash s' k e /\ first_child s' = first_child s.
Proof.
  intros (Has & Hdh & Hal & a & ix & Ha & (ix0 & os & k0 & Hos & Hoks & Hh & Hk & ->) & Hfo) Hlt.
  unfold ims_worker. rewrite Ha. destruct (task_queue a) as [|t q] eqn:Hq.
  - rewrite work_idle by done. eexists _, _. split_and!; [done| |done]. split_and!; [done..|].
    exists a, (foldl step_ix ix0 os). split_and!; [done| |done]. exists ix0, os, k0.
    by rewrite Hq.
  - cbn [mapM] in Hos. destruct (task_xop t) as [o|] eqn:Ho; [|done]. cbn in Hos.
    destruct (mapM task_xop q) as [os'|] eqn:Hos'; [|done]. cbn in Hos. injection Hos as <-.
    apply Forall_cons in Hoks as [Hok Hoks]. cbn [length] in Hk.
    destruct (holds_step o (a_xdb a) ix0 k0) as (r & x' & Hrun & Hh'); [done|lia|done|].
    rewrite (work_step t q o) by done. rewrite Hrun. eexists _, _.
    split_and!; [done| |done]. split_and!; [done..|].
    eexists _, (foldl step_ix ix0 (o :: os')). split_and!; [done| |done].
    exists (step_ix ix0 o), os', (k0 + 1). cbn [task_queue a_xdb foldl]. split_and!; try done. lia.
Qed.

Lemma async_drain hash s k e :
  async_state hash s k e -> k < 2 ^ 31 ->
  exists a x' ix, async_ctx (private s) = Some a /\
    drain (length (task_queue a)) a =
      Some (tt, {| a_xdb := x'; task_queue := []; a_latency_log := a_latency_log a |}) /\
    repr (cur (xconn x')) ix /\ ix_files ix = own_names e (ns (first_child s)).
Proof.
  intros (Has & Hdh & Hal & a & ix & Ha & (ix0 & os & k0 & Hos & Hoks & Hh & Hk & ->) & Hfo) Hlt.
  destruct (holds_steps os (a_xdb a) ix0 k0) as (rs & x' & Hrun & _ & Hr & _); [done|lia|done|].
  exists a, x', (foldl step_ix ix0 os). split_and!; [done| |done|by apply Hfo].
  apply drain_spec with (os := os) (rs := rs); [done| |done].
  apply mapM_Some, Forall2_length in Hos. lia.
Qed.

End runs.

(** Interleavings of operations and turns of the worker, with the number of
    operations and the directories that other bricks index. *)

Inductive arun {conn C} `{!SqlEngine conn, !Child C, !Namespace C} (strtod : list ascii -> Z)
    (s0 : xlator conn C) : Z -> gset string -> xlator conn C -> Prop :=
| arun_start : arun strtod s0 0 ∅ s0
| arun_fop n e s r rp s' :
    arun strtod s0 n e s -> req_ok strtod r = true -> calm r (ns (first_child s)) ->
    ims_fop strtod r s = Some (rp, s') ->
    arun strtod s0 (n + 1) (elsewhere (dir_hash (private s0)) r rp e) s'
| arun_work n e s b s' :
    arun strtod s0 n e s -> ims_worker s = Some (b, s') -> arun strtod s0 n e s'.

(** A sequence of operations. *)

Fixpoint run_fops {conn C} `{!SqlEngine conn, !Child C} (strtod : list ascii -> Z)
    (l : list request) : M (xlator conn C) (list reply) :=
  match l with
  | [] => m_ret []
  | r :: l' => rp <~ ims_fop strtod r;; rps <~ run_fops strtod l';; m_ret (rp :: rps)
  end.

(** The same sequence on the child alone. *)

Fixpoint child_calls {C} `{!Child C} (l : list request) (c : C) : list reply * C :=
  match l with
  | [] => ([], c)
  | r :: l' =>
      let '(rp, c1) := child_call r c in
      let '(rps, c2) := child_calls l' c1 in (rp :: rps, c2)
  end.

Fixpoint calm_all {C} `{!Child C, !Namespace C} (l : list request) (c : C) : Prop :=
  match l with
  | [] => True
  | r :: l' => calm r (ns c) /\ calm_all l' (child_call r c).2
  end.

(** The directories of other bricks after the requests and their replies. *)

Fixpoint elsewheres (hash : bool) (l : list request) (rps : list reply) (e : gset string)
    : gset string :=
  match l, rps with
  | r :: l', rp :: rps' => elsewheres hash l' rps' (elsewhere hash r rp e)
  | _, _ => e
  end.

(** A translator with a fresh database over an empty name space. *)

Definition fresh_xdb {conn} `{!SqlEngine conn} (x : ims_xdb conn) : Prop :=
  saved (xconn x) = None /\ cur (xconn x) = schema_tables.

Lemma holds_fresh {conn} `{!SqlEngine conn} (x : ims_xdb conn) :
  fresh_xdb x -> holds x empty_index 0.
Proof.
  intros [Hs Hc]. split_and!; [done|rewrite Hc; apply repr_schema|rewrite Hc; apply budget_schema].
Qed.

Lemma follows_empty u d : follows empty_index ∅ u d ∅.
Proof.
  split; [symmetry; apply map_filter_empty|set_solver| |set_solver|set_solver].
  intros p g _. by rewrite lookup_empty.
Qed.

Lemma sync_run {conn C} `{!SqlEngine conn, !SqlLaws conn, !ReliableTx conn, !HealthyEngine conn,
    !Child C, !Namespace C} strtod hash l (s : xlator conn C) k e :
  sync_state hash s k e -> k + Z.of_nat (length l) < 2 ^ 31 ->
  Forall (fun r => req_ok strtod r = true) l -> calm_all (forwarded hash <$> l) (first_child s) ->
  let rps := (child_calls (forwarded hash <$> l) (first_child s)).1 in
  exists s', run_fops strtod l s = Some (rps, s') /\
    first_child s' = (child_calls (forwarded hash <$> l) (first_child s)).2 /\
    sync_state hash s' (k + Z.of_nat (length l)) (elsewheres hash l rps e).
Proof.
  revert s k e. induction l as [|r l IH]; intros s k e Hs Hk Hok Hcalm; cbn [length] in *.
  { exists s. by rewrite Z.add_0_r. }
  apply Forall_cons in Hok as [Hr Hok]. destruct Hcalm as [Hc Hcalm].
  destruct (sync_step strtod hash r s k e) as (rp & s1 & Hf & Hs1 & Hch); [done|lia|done| |].
  { revert Hc. destruct r; cbn [forwarded]; done. }
  cbn [run_fops child_calls calm_all fmap list_fmap] in *. rewrite <- Hch in *. cbn [snd] in Hcalm.
  destruct (IH s1 (k + 1) (elsewhere hash r rp e)) as (s2 & Hrun & Hc2 & Hs2); [done|lia|done..|].
  unfold m_bind. rewrite Hf, Hrun. fold (forwarded hash <$> l) in *.
  destruct (child_calls (forwarded hash <$> l) (first_child s1)) as [rps c2].
  exists s2. split_and!; [done..|]. cbn [fst elsewheres].
  by replace (k + Z.of_nat (S (length l))) with (k + 1 + Z.of_nat (length l)) by lia.
Qed.

Lemma arun_state {conn C} `{!SqlEngine conn, !SqlLaws conn, !ReliableTx conn,
    !HealthyEngine conn, !Child C, !Namespace C} strtod (s0 s : xlator conn C) n e :
  async_state (dir_hash (private s0)) s0 0 ∅ -> arun strtod s0 n e s -> n < 2 ^ 31 ->
  0 <= n /\ async_state (dir_hash (private s0)) s n e.
Proof.
  intros H0 Hrun.
  induction Hrun as [|n e s r rp s' Hrun IH Hok Hcalm Hf|n e s b s' Hrun IH Hw]; intros Hn.
  - done.
  - destruct IH as [Hn0 Hs]; [lia|]. split; [lia|].
    destruct (async_step_fop strtod _ r s n e Hs Hok Hcalm) as (rp1 & s1 & Hf1 & Hs1 & _).
    naive_solver.
  - destruct IH as [Hn0 Hs]; [lia|]. split; [lia|].
    destruct (async_step_work (dir_hash (private s0)) s n e) as (b1 & s1 & Hw1 & Hs1 & _); [done|lia|]. naive_solver.
Qed.

(** ** Callbacks leave the child and the reply alone *)

Section quiet.
Context {conn C : Type} `{!SqlEngine conn, !Child C}.
Abbreviation X := (M (xlator conn C)).

Definition quiet {B} (P : B -> Prop) (m : X B) : Prop :=
  forall s b s', m s = Some (b, s') -> P b /\ first_child s' = first_child s.

Lemma quiet_ret {B} (P : B -> Prop) b : P b -> quiet P (m_ret b).
Proof. intros Hb s b' s' [= <- <-]. done. Qed.

Lemma quiet_bind {A B} (P : B -> Prop) (m : X A) (k : A -> X B) :
  quiet (fun _ => True) m -> (forall a, quiet P (k a)) -> quiet P (m_bind m k).
Proof.
  intros Hm Hk s b s' H. apply m_bind_Some in H as (a & s1 & H1 & H2).
  destruct (Hm _ _ _ H1) as [_ <-]. by apply (Hk a).
Qed.

Lemma quiet_if {B} (P : B -> Prop) (b : bool) (m1 m2 : X B) :
  quiet P m1 -> quiet P m2 -> quiet P (if b then m1 else m2).
Proof. by destruct b. Qed.

Lemma quiet_on_xdb {B} (m : M (ims_xdb conn) B) : quiet (fun _ => True) (on_xdb m).
Proof. intros s b s'. unfold on_xdb. by repeat case_match; intros [= <- <-]. Qed.

Lemma quiet_put task : quiet (fun _ => True) (put_task task).
Proof. intros s b s'. unfold put_task. by repeat case_match; intros [= <- <-]. Qed.

Lemma quiet_priv : quiet (fun _ => True) get_priv.
Proof. by intros s b s' [= <- <-]. Qed.

Lemma quiet_deref {B} (p : option B) : quiet (fun _ => True) (m_deref p).
Proof. destruct p; [by intros s b' s' [= <- <-]|done]. Qed.

End quiet.

Create HintDb quiet.
#[export] Hint Resolve quiet_ret quiet_bind quiet_if quiet_on_xdb quiet_put quiet_priv
  quiet_deref : quiet.

Ltac quiet :=
  repeat first
    [ progress intros | exact I | reflexivity
    | apply quiet_ret | apply quiet_on_xdb | apply quiet_put | apply quiet_priv
    | apply quiet_deref | apply quiet_if | apply quiet_bind
    | match goal with |- quiet _ (match ?x with _ => _ end) => destruct x end ].

Section callbacks.
Context {conn C : Type} `{!SqlEngine conn, !Child C}.

Lemma quiet_insert_new buf path :
  quiet (conn := conn) (C := C) (fun _ => True) (insert_new_xdb_entry buf path).
Proof. unfold insert_new_xdb_entry. quiet. Qed.

Lemma quiet_unlink path : quiet (conn := conn) (C := C) (fun _ => True) (unlink_from_xdb path).
Proof. unfold unlink_from_xdb. quiet. Qed.

Lemma quiet_warn ret x : quiet (conn := conn) (C := C) (fun _ => True) (warn ret x).
Proof. unfold warn. quiet. Qed.

(** A request passed on, and then a callback. *)

Lemma wind_quiet r (k : reply -> M (xlator conn C) reply) s rp s' :
  (forall rp, quiet (eq rp) (k rp)) ->
  m_bind (wind r) k s = Some (rp, s') -> (rp, first_child s') = child_call r (first_child s).
Proof.
  intros Hk H. apply m_bind_Some in H as (rp1 & s1 & H1 & H2). unfold wind in H1.
  destruct (child_call r (first_child s)) as [rp0 c] eqn:Hc. injection H1 as <- <-.
  apply Hk in H2 as [<- ->]. done.
Qed.

End callbacks.

Ltac quiet_cbk :=
  unfold ims_mkdir_cbk, ims_unlink_cbk, ims_rmdir_cbk, ims_setxattr_cbk, ims_create_cbk,
    ims_setattr_cbk, ims_symlink_cbk, ims_link_cbk, ims_rename_cbk;
  repeat first [ apply quiet_insert_new | apply quiet_unlink | apply quiet_warn | progress quiet ].

(** ** A child: a flat file system *)

(** Paths and their identifiers, the identifiers in use, the directories, and
    the next identifier. *)

Record flatfs := {
  ff_ns : gmap string uuid_t; ff_used : gset string; ff_dirs : gset string; ff_next : Z
}.

Definition flat_uuid (n : Z) : uuid_t :=
  repeat 0 12 ++ [u8 (Z.shiftr n 24); u8 (Z.shiftr n 16); u8 (Z.shiftr n 8); u8 n].

Definition flat_iatt (u : uuid_t) : iatt :=
  {| ia_ino := 0; ia_gfid := u; ia_dev := 0; ia_type := IA_IFREG;
     ia_prot := ia_prot_from_st_mode 420; ia_nlink := 1; ia_uid := 0; ia_gid := 0; ia_rdev := 0;
     ia_size := 0; ia_blksize := 4096; ia_blocks := 0; ia_atime := 0; ia_mtime := 0;
     ia_ctime := 0 |}.

Definition set_gfid (u : uuid_t) (ia : iatt) : iatt :=
  {| ia_ino := ia_ino ia; ia_gfid := u; ia_dev := ia_dev ia; ia_type := ia_type ia;
     ia_prot := ia_prot ia; ia_nlink := ia_nlink ia; ia_uid := ia_uid ia; ia_gid := ia_gid ia;
     ia_rdev := ia_rdev ia; ia_size := ia_size ia; ia_blksize := ia_blksize ia;
     ia_blocks := ia_blocks ia; ia_atime := ia_atime ia; ia_mtime := ia_mtime ia;
     ia_ctime := ia_ctime ia |}.

Definition flat_reply (ret errno : Z) (ia : iatt) : reply :=
  {| op_ret := ret; op_errno := errno; r_buf := ia; r_parents := []; r_xdata := None;
     r_utoa := None |}.

Definition flat_fail (errno : Z) : reply := flat_reply (-1) errno (flat_iatt (flat_uuid 0)).

Definition flat_new (loc : loc_t) (d : gset string) (c : flatfs) : reply * flatfs :=
  let u := flat_uuid (ff_next c) in
  match l_path loc with
  | Some p =>
      if bool_decide (ff_ns c !! p = None) && bool_decide (~ uuid_utoa u ∈ ff_used c) then
        (flat_reply 0 0 (flat_iatt u),
         {| ff_ns := <[p := u]> (ff_ns c); ff_used := {[uuid_utoa u]} ∪ ff_used c;
            ff_dirs := d ∪ ff_dirs c; ff_next := ff_next c + 1 |})
      else (flat_fail 17, c)
  | None => (flat_fail 22, c)
  end.

Definition flat_call (r : request) (c : flatfs) : reply * flatfs :=
  let with_ns m d := {| ff_ns := m; ff_used := ff_used c; ff_dirs := d; ff_next := ff_next c |} in
  match r with
  | Rmkdir loc _ _ _ => flat_new loc (path_set loc) c
  | Rsymlink _ loc _ _ => flat_new loc ∅ c
  | Rcreate loc _ _ _ _ _ =>
      match p ← l_path loc; u ← ff_ns c !! p; Some (p, u) with
      | Some (p, u) =>
          if bool_decide (p ∈ ff_dirs c) then (flat_fail 21, c)
          else (flat_reply 0 0 (flat_iatt u), c)
      | None => flat_new loc ∅ c
      end
  | Runlink loc _ _ | Rrmdir loc _ _ =>
      match l_path loc with
      | Some p =>
          (flat_reply 0 0 (flat_iatt (flat_uuid 0)),
           with_ns (delete p (ff_ns c)) (ff_dirs c ∖ {[p]}))
      | None => (flat_fail 22, c)
      end
  | Rlink oldloc newloc _ =>
      match l_path oldloc, l_path newloc with
      | Some o, Some p =>
          if bool_decide (o ∈ ff_dirs c) then (flat_fail 1, c)
          else match ff_ns c !! o, ff_ns c !! p with
          | Some u, None =>
              (flat_reply 0 0 (flat_iatt u), with_ns (<[p := u]> (ff_ns c)) (ff_dirs c))
          | _, _ => (flat_fail 2, c)
          end
      | _, _ => (flat_fail 22, c)
      end
  | Rrename oldloc newloc _ =>
      match l_path oldloc, l_path newloc with
      | Some o, Some n =>
          match ff_ns c !! o with
          | Some u =>
              (flat_reply 0 0 (flat_iatt u),
               with_ns (<[n := u]> (delete o (ff_ns c))) (moved o n (ff_dirs c)))
          | None => (flat_fail 2, c)
          end
      | _, _ => (flat_fail 22, c)
      end
  | Rsetattr loc stbuf _ _ =>
      match p ← l_path loc; ff_ns c !! p with
      | Some u => (flat_reply 0 0 (set_gfid u stbuf), c)
      | None => (flat_fail 2, c)
      end
  | _ => (flat_reply 0 0 (flat_iatt (flat_uuid 0)), c)
  end.

#[global] Instance flat_child : Child flatfs := flat_call.

Definition flat_names (c : flatfs) : gmap string string := uuid_utoa <$> ff_ns c.

Lemma flat_new_spec loc d c rp c' :
  flat_new loc d c = (rp, c') ->
  (op_ret rp = -1 /\ c' = c) \/
  (op_ret rp = 0 /\ new_name rp loc (flat_names c) (ff_used c) (flat_names c') (ff_used c') /\
   ff_dirs c' = d ∪ ff_dirs c).
Proof.
  unfold flat_new. destruct (l_path loc) as [p|] eqn:Hp; [|intros [= <- <-]; by left].
  case_match eqn:Hb; intros [= <- <-]; [right|by left].
  apply andb_true_iff in Hb as [Hf%bool_decide_eq_true Hu%bool_decide_eq_true].
  split; [done|]. split; [|done]. exists p. unfold flat_names. cbn [ff_ns ff_used].
  rewrite lookup_fmap, Hf, fmap_insert. done.
Qed.

Lemma flat_call_spec r c rp c' :
  flat_call r c = (rp, c') ->
  fs_post r rp (flat_names c) (ff_used c) (ff_dirs c) (flat_names c') (ff_used c') (ff_dirs c').
Proof.
  unfold fs_post, flat_call.
  destruct r; intros Hc; try (injection Hc as <- <-; done).
  - apply flat_new_spec in Hc as [[-> ->]|(-> & Hn & ->)]; done.
  - destruct (l_path loc) as [p|] eqn:Hp; injection Hc as <- <-; [|done].
    cbn [op_ret flat_reply]. exists p. unfold flat_names. cbn [ff_ns ff_used]. by rewrite fmap_delete.
  - destruct (l_path loc) as [p|] eqn:Hp; injection Hc as <- <-; [|done].
    cbn [op_ret flat_reply]. exists p. unfold flat_names. cbn [ff_ns ff_used]. by rewrite fmap_delete.
  - destruct (l_path loc ≫= _) as [[p u]|] eqn:Hu.
    + destruct (l_path loc) as [q|] eqn:Hp; [|done]. cbn in Hu.
      destruct (ff_ns c !! q) as [v|] eqn:Hv; [|done]. cbn in Hu. simplify_eq.
      case_bool_decide as Hd; injection Hc as <- <-; [done|]. cbn [op_ret flat_reply].
      split; [|done]. right. exists p. unfold flat_names. by rewrite lookup_fmap, Hv.
    + apply flat_new_spec in Hc as [[-> ->]|(-> & Hn & ->)]; [done|].
      split; [by left|set_solver].
  - destruct (l_path loc ≫= _) as [u|]; by injection Hc as <- <-.
  - apply flat_new_spec in Hc as [[-> ->]|(-> & Hn & ->)]; [done|]. split; [done|set_solver].
  - destruct (l_path oldloc) as [o|] eqn:Ho, (l_path newloc) as [p|] eqn:Hp;
      try (by injection Hc as <- <-).
    case_bool_decide as Hd; [by injection Hc as <- <-|].
    destruct (ff_ns c !! o) as [u|] eqn:Hu, (ff_ns c !! p) eqn:Hf; injection Hc as <- <-; try done.
    cbn [op_ret flat_reply]. exists o, p. unfold flat_names. cbn [ff_ns ff_used].
    by rewrite !lookup_fmap, Hu, Hf, fmap_insert.
  - destruct (l_path oldloc) as [o|] eqn:Ho, (l_path newloc) as [n|] eqn:Hn;
      try (by injection Hc as <- <-).
    destruct (ff_ns c !! o) as [u|] eqn:Hu; injection Hc as <- <-; [|done].
    cbn [op_ret flat_reply]. exists o, n, (uuid_utoa u). unfold flat_names. cbn [ff_ns ff_used].
    rewrite lookup_fmap, Hu. split_and!; [done..|]. intros _ _. by rewrite fmap_insert, fmap_delete.
Qed.

#[global] Instance flat_namespace : Namespace flatfs :=
  {| ns := flat_names; used := ff_used; dirs := ff_dirs; ns_call := flat_call_spec |}.

(** ** Attributes that are numbers *)

Section numbers.
Variable strtod : list ascii -> Z.
Abbreviation walk := (foreach_match dict_match_everything (ims_find_setxattr_kv strtod)).

Lemma kv_zero k v f : (ims_find_setxattr_kv strtod k v f).1 = 0.
Proof. unfold ims_find_setxattr_kv. by destruct (negb _). Qed.

Lemma walk_state l n f :
  (walk l n f).2 = foldl (fun f p => (ims_find_setxattr_kv strtod p.1 p.2 f).2) f l.
Proof.
  revert n f. induction l as [|[k v] l IH]; intros n f; [done|]. cbn [foreach_match foldl fst snd].
  change (dict_match_everything k v) with true. cbv beta iota.
  pose proof (kv_zero k v f) as Hz. destruct (ims_find_setxattr_kv strtod k v f) as [r f'].
  cbn [fst snd] in *. subst r. apply IH.
Qed.

Lemma fold_skip l f :
  Forall (fun p : string * data_t => XATTR_IS_IMESSXDB p.1 = false) l ->
  foldl (fun f p => (ims_find_setxattr_kv strtod p.1 p.2 f).2) f l = f.
Proof.
  intros Hl. revert f. induction Hl as [|[k v] l Hk Hl IH]; intros f; [done|]. cbn [foldl fst snd] in *.
  unfold ims_find_setxattr_kv at 2. rewrite Hk. apply IH.
Qed.

(** The decimal text of a number is stored as that number. *)

Lemma kv_integer k z f :
  XATTR_IS_IMESSXDB k = true -> in_s 64 z ->
  ims_find_setxattr_kv strtod k (text_data (dec z)) (Some f) =
  (0, Some {| f_count := i32 (f_count f + 1);
              f_xattr := {| xa_gfid := xa_gfid (f_xattr f); xa_type := IMS_XDB_TYPE_INTEGER;
                            xa_name := Some k; xa_ival := z; xa_rval := 0; xa_sval := None |} |}).
Proof.
  intros Hk Hz. assert (- 2 ^ 64 < z < 2 ^ 64) as Hz' by (unfold in_s in Hz; lia).
  unfold ims_find_setxattr_kv. rewrite Hk. cbn [negb mbind option_bind].
  assert (data_str (text_data (dec z)) = Some (dec z)) as ->.
  { unfold data_str. rewrite dec_data_text by done. cbn [mbind option_bind].
    pose proof (length_dec z). unfold text_data, PATH_MAX. cbn [d_len].
    rewrite swrap_small by (unfold in_s; lia).
    rewrite (proj2 (Z.leb_le _ _)), (proj2 (Z.ltb_lt _ _)) by lia. done. }
  cbn [mbind option_bind]. unfold classify. by rewrite dec_no_dot, scan_ld_dec.
Qed.

Lemma find_integer d l1 l2 k z :
  members_list d = l1 ++ (k, text_data (dec z)) :: l2 ->
  Z.of_nat (length (members_list d)) < 2 ^ 31 ->
  Forall (fun p => XATTR_IS_IMESSXDB p.1 = false) (l1 ++ l2) ->
  XATTR_IS_IMESSXDB k = true -> in_s 64 z ->
  find_setxattr strtod d =
  (0, Some {| f_count := 1;
              f_xattr := {| xa_gfid := None; xa_type := IMS_XDB_TYPE_INTEGER;
                            xa_name := Some k; xa_ival := z; xa_rval := 0; xa_sval := None |} |}).
Proof.
  intros Hm Hlen [H1 H2]%Forall_app Hk Hz. unfold find_setxattr, dict_foreach, dict_foreach_match.
  pose proof (foreach_match_ok dict_match_everything (ims_find_setxattr_kv strtod)
    (members_list d) 0 (Some {| f_count := 0; f_xattr := no_attr |})) as Hret.
  pose proof (walk_state (members_list d) 0 (Some {| f_count := 0; f_xattr := no_attr |})) as Hst.
  destruct (walk (members_list d) 0 _) as [ret f]. cbn [fst snd] in *.
  rewrite Hret by (intros; rewrite ?kv_zero; lia).
  rewrite Hst, Hm, foldl_app, (fold_skip l1) by done. cbn [foldl fst snd].
  rewrite kv_integer by done. cbn [snd]. rewrite fold_skip by done.
  by destruct (0 <? _) eqn:E; [|apply Z.ltb_ge in E; replace (0 + _) with 0 by lia].
Qed.

End numbers.
