(* ===== verification/ImsProps.v ===== *)
(** * What the indexing translator promises

    It never changes what the client sees; over a child that keeps a name
    space, the indexed paths are the paths of the name space, at once when
    updates are synchronous and as soon as the queue is empty when they are
    deferred; numbers in extended attributes are indexed as numbers. And what
    it does not do. *)

From Stdlib Require Import ZArith Lia Bool Ascii String.
From stdpp Require Import base list strings gmap.
From S2P Require Import Prelude Sqlite SqlFacts Xdb XdbSpec XdbRefine CLib Dict DictTyped Uuid.
From S2P Require Import Iatt ImsAsync ImsServer ImsIndex.

(** ** Properties *)

(** C38. The translator is transparent: whatever SQLite and the allocator do,
    a file operation that returns gives the client exactly the reply of the
    child, and the child sees exactly the client's request, but for one case:
    when directories are indexed by their hash and the extra data of a [mkdir]
    holds the mark [imess-dht-hashed], the child gets them without the mark. *)
Theorem ims_transparent {conn C} `{!SqlEngine conn, !Child C} (strtod : list ascii -> Z)
    (r : request) (s : xlator conn C) (rp : reply) (s' : xlator conn C) :
  ims_fop strtod r s = Some (rp, s') ->
  (rp, first_child s') = child_call (forwarded (dir_hash (private s)) r) (first_child s).
Proof.
  destruct r; cbn [ims_fop];
    try (intros H; apply wind_quiet in H; [exact H|intros; quiet_cbk]).
  - intros H. destruct (mkdir_readable loc mode umask xdata s) as [E|E]; rewrite E in H; [done|].
    apply wind_quiet in H; [exact H|intros; quiet_cbk].
  - unfold ims_setxattr. destruct (find_setxattr strtod dict) as [ret [f|]]; [|done]. intros H.
    apply m_bind_Some in H as (f' & s1 & [= <- <-] & H).
    apply wind_quiet in H; [exact H|intros; quiet_cbk].
  - unfold ims_rename. intros H. apply m_bind_Some in H as (ok & s1 & H1 & H).
    unfold calloc in H1. destruct (alloc (allocs s)) as [ok' al]. injection H1 as <- <-.
    apply wind_quiet in H; [exact H|intros; quiet_cbk].
Qed.



(** Setting an extended attribute whose name starts with [user.imess] and
    whose value is the decimal text of a 64-bit number, on an indexed file,
    stores exactly that number in the index under that name, whatever other
    attributes are set at the same time, and leaves the indexed paths alone
    (provided that the child leaves the thread's buffer of [uuid_utoa]). *)
Theorem setxattr_indexes_integer {conn C} `{!SqlEngine conn, !SqlLaws conn, !ReliableTx conn,
    !HealthyEngine conn, !Child C} (strtod : list ascii -> Z) (s : xlator conn C)
    (ix : index) (k : Z) (loc : loc_t) (d : dict_t) l1 l2 (key : string) (z flags : Z)
    (xdata : option dict_t) (rp : reply) (c : C) :
  async_update (private s) = false -> allocs s = [] ->
  holds (p_xdb (private s)) ix k -> k < 2 ^ 31 - 1 ->
  members_list d = l1 ++ (key, text_data (dec z)) :: l2 ->
  Z.of_nat (length (members_list d)) < 2 ^ 31 ->
  Forall (fun p => XATTR_IS_IMESSXDB p.1 = false) (l1 ++ l2) ->
  XATTR_IS_IMESSXDB key = true -> in_s 64 z ->
  child_call (Rsetxattr loc d flags xdata) (first_child s) = (rp, c) ->
  op_ret rp <> -1 -> r_utoa rp = None -> uuid_utoa (l_gfid loc) ∈ ix_gfids ix ->
  exists s' ix', ims_setxattr strtod loc d flags xdata s = Some (rp, s') /\
    holds (p_xdb (private s')) ix' (k + 1) /\ ix_files ix' = ix_files ix /\
    ix_attrs ix' = <[(uuid_utoa (l_gfid loc), key) := (Some z, None, None)]> (ix_attrs ix).
Proof.
  intros Has Hal Hh Hk Hm Hlen Hoth Hkey Hz Hc Hret Hu Hg.
  pose proof (find_integer strtod d l1 l2 key z Hm Hlen Hoth Hkey Hz) as Hfind.
  assert (req_ok strtod (Rsetxattr loc d flags xdata) = true) as Hok.
  { cbn [req_ok]. rewrite Hfind. done. }
  pose proof (fop_sync strtod _ s rp c Has Hal Hok Hc) as Hf. cbn [ims_fop] in Hf. rewrite Hf.
  unfold fop_xop, xattr_entry. rewrite (proj2 (Z.eqb_neq _ _) Hret), Hfind, Hu.
  cbn [fst snd mbind option_bind negb orb Z.eqb f_count commit_sync default from_option f_xattr
       xa_type xa_name xa_ival xa_rval xa_sval id private with_child].
  set (o := OpSetxattr _).
  destruct (holds_step o (p_xdb (private s)) ix k) as (r & x' & Hrun & Hh'); [done..|].
  rewrite Hrun. eexists _, (step_ix ix o). split_and!; [done|done| |].
  all: unfold step_ix; cbn [o spec_xop xa_gfid xa_name mbind option_bind]; unfold spec_setxattr;
    rewrite bool_decide_eq_true_2 by done;
    change (valid_type _) with true; cbn [andb from_option id with_attrs ix_files ix_attrs].
  - done.
  - unfold attr_values. cbn [xa_type xa_ival xa_rval xa_sval].
    by rewrite (swrap_small 64 z) by (done || lia).
Qed.

(** With deferred updates, when the allocation of a task fails, [setattr],
    [link] and [rename] dereference a null pointer: their warning reads the
    status of a connection that only the synchronous branch sets. *)
Theorem put_failure_undefined {conn C} `{!SqlEngine conn, !Child C} (s : xlator conn C)
    (a : ims_async conn) (al : list bool) (rp : reply) (cookie : option string)
    (paths : option string * option string) :
  async_update (private s) = true -> async_ctx (private s) = Some a ->
  allocs s = false :: al -> op_ret rp <> -1 -> gf_uuid_is_null (ia_gfid (r_buf rp)) = false ->
  ims_setattr_cbk rp s = None /\ ims_link_cbk cookie rp s = None /\
  ims_rename_cbk (Some paths) rp s = None /\
  is_Some (ims_create_cbk cookie rp s) /\ is_Some (ims_unlink_cbk cookie rp s).
Proof.
  intros Has Ha Hal Hret Hu.
  unfold ims_setattr_cbk, ims_link_cbk, ims_rename_cbk, ims_create_cbk, ims_unlink_cbk,
    insert_new_xdb_entry, unlink_from_xdb.
  rewrite (proj2 (Z.eqb_neq _ _) Hret), Hu. destruct paths as [o n].
  unfold m_bind, get_priv, m_bind, m_get, m_ret. rewrite Has.
  unfold put_task, ims_async_put_task, task_dup. rewrite Ha, Hal. cbn. by split_and!; [..|eexists|eexists].
Qed.

(** ** Examples *)

Definition flat_empty : flatfs := {| ff_ns := ∅; ff_used := ∅; ff_dirs := ∅; ff_next := 1 |}.

Definition sample_server (async : bool) : xlator Scripted.hconn flatfs :=
  {| private := {| p_xdb := sample_healthy; async_update := async; dir_hash := true;
                   async_ctx := Some {| a_xdb := sample_healthy; task_queue := [];
                                        a_latency_log := true |} |};
     first_child := flat_empty; allocs := [] |}.

Definition at_path (p : string) : loc_t := {| l_path := Some p; l_gfid := flat_uuid 1 |}.

Definition mode_600 : iatt :=
  {| ia_ino := 0; ia_gfid := flat_uuid 0; ia_dev := 0; ia_type := IA_IFREG;
     ia_prot := ia_prot_from_st_mode 384; ia_nlink := 1; ia_uid := 0; ia_gid := 0; ia_rdev := 0;
     ia_size := 0; ia_blksize := 4096; ia_blocks := 0; ia_atime := 0; ia_mtime := 0;
     ia_ctime := 0 |}.

(** No text of the examples is a real number. *)

Definition no_real (l : list ascii) : Z := 0.

Definition first_gfid : string := uuid_utoa (flat_uuid 1).

Definition second_gfid : string := uuid_utoa (flat_uuid 2).

Definition chmod_requests : list request :=
  [Rcreate (at_path "/f") 0 420 0 3 None; Rsetattr (at_path "/f") mode_600 1 None].

Definition indexed (x : ims_xdb Scripted.hconn) (name : string) : option value :=
  attr_named (cur (xconn x)) first_gfid name.

(** The translator after some requests, and its worker after some turns. *)

Definition after (async : bool) (l : list request) : option (xlator Scripted.hconn flatfs) :=
  snd <$> run_fops no_real l (sample_server async).

Definition drained (n : nat) (s : xlator Scripted.hconn flatfs)
    : option (ims_async Scripted.hconn) :=
  a ← async_ctx (private s); snd <$> drain n a.

(** The same change of the mode of a file reaches the index when updates
    are deferred and does not when they are synchronous: the synchronous
    callback updates only the attributes of a write. *)
Theorem sync_setattr_misses_mode :
  (s ← after false chmod_requests; Some (indexed (p_xdb (private s)) "st_mode")) =
    Some (Some (Some 33188, None, None)) /\
  (s ← after true chmod_requests; a ← drained 2 s; Some (indexed (a_xdb a) "st_mode")) =
    Some (Some (Some 33152, None, None)).
Proof. split; vm_compute; reflexivity. Qed.

Definition rename_over : list request :=
  [Rcreate (at_path "/a") 0 420 0 3 None; Rcreate (at_path "/b") 0 420 0 4 None;
   Rrename (at_path "/a") (at_path "/b") None].

(** A rename onto a path that exists is refused by the index, because paths
    are unique: the name space has the moved file under the new path only,
    the index still has both paths with their old files. *)
Theorem rename_over_leaves_stale_index :
  (s ← after false rename_over;
   let t := cur (xconn (p_xdb (private s))) in
   Some (ns (first_child s) !! "/a"%string, ns (first_child s) !! "/b"%string,
         idx t "/a", idx t "/b")) =
  Some (None, Some first_gfid, Some first_gfid, Some second_gfid).
Proof. vm_compute. reflexivity. Qed.

(** ** Witnesses *)

(** The extra data of a [mkdir] with the mark. *)

Definition marked (z : Z) : option dict_t := Some (dict_set_int8 dict_new hashed_key z).2.

Definition sample_requests : list request :=
  [Rmkdir (at_path "/d") 493 0 (marked 1); Rmkdir (at_path "/e") 493 0 (marked 0);
   Rcreate (at_path "/d/f") 0 420 0 3 None;
   Rlink (at_path "/d/f") (at_path "/g") None; Rrename (at_path "/d/f") (at_path "/d/h") None;
   Runlink (at_path "/g") 0 None].

Lemma ims_transparent_witness :
  exists rp s', ims_fop no_real (Rmkdir (at_path "/d") 493 0 (marked 0)) (sample_server false)
      = Some (rp, s') /\
    (rp, first_child s') =
      child_call (Rmkdir (at_path "/d") 493 0 (Some {| members_list := []; count := 0 |})) flat_empty.
Proof.
  assert (is_Some (ims_fop no_real (Rmkdir (at_path "/d") 493 0 (marked 0)) (sample_server false)))
    as [[rp s'] H] by (apply (bool_decide_eq_true_1 (is_Some _)); vm_compute; reflexivity).
  exists rp, s'. split; [exact H|]. exact (ims_transparent _ _ _ _ _ H).
Defined.

(** A decidable form of the condition on renames. *)

Lemma calm_dec oldloc newloc xdata (m : gmap string string) o n :
  l_path oldloc = Some o -> l_path newloc = Some n ->
  bool_decide (m !! n = None) && bool_decide (map_Forall (fun p _ => below o p = false) m) = true ->
  calm (Rrename oldloc newloc xdata) m.
Proof.
  intros Ho Hn [H1 H2]%andb_true_iff. apply bool_decide_eq_true in H1, H2.
  intros o' n' Ho' Hn'. simplify_eq. split; [done|]. intros p [g Hg]. by apply (H2 p g).
Qed.


(** A directory of another brick, a turn of the worker and a file. *)


(** A server with one file, and an attribute for it. *)

Definition tagged : dict_t :=
  {| members_list := [("user.imess.run"%string, text_data (dec 42))]; count := 1 |}.

Lemma setxattr_indexes_integer_witness :
  exists (s s' : xlator Scripted.hconn flatfs) ix' rp,
    ims_setxattr no_real (at_path "/f") tagged 0 None s = Some (rp, s') /\
    holds (p_xdb (private s')) ix' 2 /\
    ix_attrs ix' !! (first_gfid, "user.imess.run"%string) = Some (Some 42, None, None).
Proof.
  set (r := Rcreate (at_path "/f") 0 420 0 3 None).
  destruct (sync_step no_real true r (sample_server false) 0 ∅) as (rp1 & s1 & H1 & Hs & Hc);
    [|reflexivity|reflexivity|exact I|].
  { split_and!; [done..|]. exists empty_index.
    split; [apply holds_fresh; split; reflexivity|apply follows_empty]. }
  destruct Hs as (Has & Hdh & Hal & ix & Hh & Hfo).
  assert (first_gfid ∈ ix_gfids ix) as Hg.
  { apply (fo_closed _ _ _ _ _ Hfo "/f"); [unfold elsewhere; destruct (op_ret rp1 =? -1); apply not_elem_of_empty|]. injection Hc as _ ->. vm_compute. reflexivity. }
  destruct (setxattr_indexes_integer no_real s1 ix 1 (at_path "/f") tagged [] []
    "user.imess.run" 42 0 None (flat_reply 0 0 (flat_iatt (flat_uuid 0))) (first_child s1))
    as (s2 & ix2 & H2 & Hh2 & _ & Ha2); 
    [exact Has|exact Hal|exact Hh|reflexivity|reflexivity|reflexivity|constructor
    |reflexivity|unfold in_s; lia|reflexivity|discriminate|reflexivity|exact Hg|].
  exists s1, s2, ix2, (flat_reply 0 0 (flat_iatt (flat_uuid 0))).
  split; [exact H2|]. split; [exact Hh2|]. rewrite Ha2. apply lookup_insert_eq.
Defined.

Lemma put_failure_undefined_witness :
  ims_setattr_cbk (flat_reply 0 0 (flat_iatt (flat_uuid 1)))
    {| private := private (sample_server true); first_child := flat_empty; allocs := [false] |}
  = None.
Proof.
  destruct (put_failure_undefined
    {| private := private (sample_server true); first_child := flat_empty; allocs := [false] |}
    {| a_xdb := sample_healthy; task_queue := []; a_latency_log := true |} []
    (flat_reply 0 0 (flat_iatt (flat_uuid 1))) None (None, None))
    as [H _]; [reflexivity..|done|reflexivity|]. exact H.
Defined.
