(* ===== verification/Query.v ===== *)
(** * Queries on the index, one server

    The query path of the indexing translator: direct_query_callback and
    ims_xdb_direct_query (imess-server-xdb.c), the registered results of
    sessions (imess-server-xdb.h), and the paged fetch of
    imess-server-ipc.c. A result is a dictionary with one row per decimal key.

    A fetched row is put into the reply as a string that the reply owns, while
    the registered result keeps its pointer: once the reply has been sent and
    freed, the row of the result is a dangling pointer. The rows that have been
    freed in this way are part of a session's state, and reading one again is
    undefined. A double is kept as its [%f] text; the times that the code
    measures are arguments. *)

From Stdlib Require Import ZArith Lia Bool Ascii String.
From stdpp Require Import base list strings gmap.
From S2P Require Import Prelude Xdb CLib Dict DictTyped.

Definition EIO : Z := 5.

(** ** Doubles and static pointers in dictionaries *)

Definition dict_set_double (this : dict_t) (key : string) (val : list ascii) : Z * dict_t :=
  dict_set this key (Some (text_data val)).

Definition dict_get_double (this : dict_t) (key : string) : option (Z * option (list ascii)) :=
  let '(ret, data) := dict_get_with_ref this key in
  if negb (ret =? 0) then Some (ret, None)
  else match data with
       | None => Some (- EINVAL, None)
       | Some d => str ← data_text d; Some (0, Some str)
       end.

(** ** Rows *)

(** A row of a result: its columns as text, null pointers for NULL. *)

Definition row : Type := list (option (list ascii)).

(** [printf] prints a null string as [(null)]. *)

Definition cell_text (c : option (list ascii)) : list ascii :=
  default (list_ascii_of_string "(null)") c.

Fixpoint row_text (r : row) : list ascii :=
  match r with
  | [] => []
  | [c] => cell_text c
  | c :: r' => cell_text c ++ "|"%char :: row_text r'
  end.

(** The key of row [n]. *)

Definition key_of (n : Z) : string := string_of_list_ascii (dec n).

(** [direct_query_callback] on the state (xdata, rows): undefined when
    [keybuf] (10 bytes) or [buf] (1024 bytes) is too short. *)

Definition direct_query_callback (r : row) (st : dict_t * Z) : option (Z * (dict_t * Z)) :=
  let '(xdata, rows) := st in
  if (10 <? Z.of_nat (length (dec rows)) + 1) ||
     (negb (Nat.eqb (length r) 0) && (1024 <? Z.of_nat (length (row_text r)) + 2))
  then None
  else
    let '(ret, xdata') := dict_set_dynstr xdata (key_of rows) (Some (cut (row_text r))) in
    if negb (ret =? 0) then Some (ret, (xdata', rows))
    else Some (0, (xdata', u64 (rows + 1))).

(** The engine calls the callback for every row until it answers non-zero. *)

Fixpoint deliver (rs : list row) (st : dict_t * Z) : option (Z * (dict_t * Z)) :=
  match rs with
  | [] => Some (0, st)
  | r :: rs' =>
      '(ret, st') ← direct_query_callback r st;
      if ret =? 0 then deliver rs' st' else Some (ret, st')
  end.

(** What SQLite does with the text of a query: a result code, the rows that it
    delivered, and the connection afterwards. *)

Class SqlQuery (conn : Type) := sqlite3_query : list ascii -> conn -> (Z * list row) * conn.

Definition SQLITE_ABORT : Z := 4.

(** ** Sessions *)

Record session := { ss_result : dict_t; ss_freed : gset string }.

(** The query side of [ims_xdb_t]: the connection, the last result code and
    the registered results. *)

Record query_xdb (conn : Type) := { q_conn : conn; q_db_ret : Z; qrset : gmap string session }.
Arguments q_conn {conn}.
Arguments q_db_ret {conn}.
Arguments qrset {conn}.
Arguments Build_query_xdb {conn}.

Section server.
Context {conn : Type} `{!SqlQuery conn}.
Abbreviation Q := (M (query_xdb conn)).

Definition ims_xdb_direct_query (sql : option (list ascii)) (xdata : dict_t) : Q (Z * dict_t) :=
  fun x =>
  match sql with
  | None => Some ((-1, xdata), {| q_conn := q_conn x; q_db_ret := 0; qrset := qrset x |})
  | Some s =>
      let '((db_ret, rs), c) := sqlite3_query s (q_conn x) in
      '(cb, (d, n)) ← deliver rs (xdata, 0);
      let db_ret := if negb (cb =? 0) then SQLITE_ABORT else db_ret in
      let x' := {| q_conn := c; q_db_ret := db_ret; qrset := qrset x |} in
      if negb (db_ret =? 0) then Some ((-1, d), x')
      else
        let '(_, d1) := dict_set_uint64 d "count" n in
        Some (dict_set_int32 d1 "ret" db_ret, x')
  end.

Definition ims_xdb_register_result (key : option string) (s : session) : Q Z :=
  match key with
  | None => m_ret (-1)
  | Some k =>
      m_modify (fun x => {| q_conn := q_conn x; q_db_ret := q_db_ret x;
                            qrset := <[k := s]> (qrset x) |});;; m_ret 0
  end.

Definition ims_xdb_get_result (key : option string) : Q (option session) :=
  x <~ m_get;; m_ret (k ← key; qrset x !! k).

(** A string of a request. *)

Definition text_of (o : option (list ascii)) : option (list ascii) := cut <$> o.

Definition name_of (o : option (list ascii)) : option string :=
  (fun l => string_of_list_ascii (cut l)) <$> o.

(** [dbtime] is the time that the query takes. The result is the code, the
    error and the result dictionary. *)

Definition ims_ipc_new_query (xdata_in qres : dict_t) (dbtime : list ascii)
    : Q (Z * Z * dict_t) :=
  let '(r1, sql) := dict_get_str xdata_in "sql" in
  let '(r2, sess) := dict_get_str xdata_in "session" in
  if negb (Z.lor r1 r2 =? 0) then m_ret (Z.lor r1 r2, EINVAL, qres)
  else
    q <~ ims_xdb_direct_query (text_of sql) qres;;
    let '(ret, qres1) := q in
    if negb (ret =? 0) then m_ret (ret, EIO, qres1)
    else
      let '(ret, qres2) := dict_set_double qres1 "dbtime" dbtime in
      if negb (ret =? 0) then m_ret (ret, EIO, qres2)
      else
        ret <~ ims_xdb_register_result (name_of sess) {| ss_result := qres2; ss_freed := ∅ |};;
        if negb (ret =? 0) then m_ret (ret, EIO, qres2) else m_ret (ret, 0, qres2).

(** The loop over the rows of a page, from index [i]: the code, the index at
    which it stops, the last key, the reply and the keys that it handed over.
    It makes at most one turn more than the result has pairs. *)

Fixpoint fetch_rows (fuel : nat) (s : session) (offset count i : Z) (key : string)
    (xdata : dict_t) (taken : list string)
    : option (Z * Z * string * dict_t * list string) :=
  match fuel with
  | O => None
  | S fuel' =>
      if count <=? i then Some (0, i, key, xdata, taken)
      else
        let key1 := key_of (u64 (offset + i)) in
        let '(ret, r) := dict_get_str (ss_result s) key1 in
        if negb (ret =? 0) then Some (ret, i, key1, xdata, taken)
        else if bool_decide (key1 ∈ ss_freed s) then None
        else
          let '(ret, xdata') := dict_set_dynstr xdata (key_of i) (cut <$> r) in
          if negb (ret =? 0) then Some (ret, i, key_of i, xdata', taken)
          else fetch_rows fuel' s offset count (i + 1) (key_of i) xdata' (key1 :: taken)
  end.

Definition set_xdata32 (k : string) (v : Z) (p : Z * dict_t) : Z * dict_t :=
  let '(r, d) := p in let '(r', d') := dict_set_int32 d k v in (Z.lor r r', d').

(** The code and the reply; the session [name] has given the rows. A failure
    inside the loop leaves by [out], a row that is not there only ends it. *)

Definition ims_ipc_process_query_result (name : option string) (s : session) (xdata : dict_t)
    (offset count : Z) : Q (Z * dict_t) := fun x =>
  '(ret, total) ← dict_get_uint64 (ss_result s) "count";
  if negb (ret =? 0) then Some ((ret, xdata), x)
  else
    '(ret, xdata1) ←
      (if offset =? 0 then
         '(ret, dbtime) ← dict_get_double (ss_result s) "dbtime";
         if negb (ret =? 0) then Some (ret, xdata)
         else Some (dict_set_double xdata "dbtime" (default [] dbtime))
       else Some (ret, xdata));
    if negb (ret =? 0) then Some ((ret, xdata1), x)
    else
      '(ret, i, key, xdata2, taken) ←
        fetch_rows (S (S (length (members_list (ss_result s))))) s offset count 0 "" xdata1 [];
      let done := default 0 total <=? u64 (offset + i) in
      let freed := {| ss_result := ss_result s; ss_freed := list_to_set taken ∪ ss_freed s |} in
      let qr := (match name with Some k => <[k := freed]> | None => id end) (qrset x) in
      let x' := {| q_conn := q_conn x; q_db_ret := q_db_ret x;
                   qrset := if done then delete key qr else qr |} in
      let '(r1, d1) := dict_set_uint64 xdata2 "count" i in
      let '(r2, d2) := set_xdata32 "ret" r1 (r1, d1) in
      Some (set_xdata32 "comeback" (if done then 0 else 1) (r2, d2), x').

(** The code, the error and the reply. The rows are freed with the reply. *)

Definition ims_ipc_query (xdata_in xdata_out : dict_t) (dbtime runtime : list ascii)
    : Q (Z * Z * dict_t) :=
  let '(ret, sess) := dict_get_str xdata_in "session" in
  if negb (ret =? 0) then m_ret (ret, EINVAL, xdata_out)
  else
    o <~ m_deref (dict_get_uint64 xdata_in "offset");;
    c <~ m_deref (dict_get_uint64 xdata_in "count");;
    let '(r1, offset) := o in
    let '(r2, count) := c in
    if negb (Z.lor r1 r2 =? 0) then m_ret (Z.lor r1 r2, EINVAL, xdata_out)
    else
      found <~ ims_xdb_get_result (name_of sess);;
      n <~ (match found with
            | Some s => m_ret (0, s)
            | None =>
                n <~ ims_ipc_new_query xdata_in dict_new dbtime;;
                let '(ret, _, qres) := n in
                m_ret (ret, {| ss_result := qres; ss_freed := ∅ |})
            end);;
      let '(ret, s) := n in
      if negb (ret =? 0) then m_ret (ret, 0, xdata_out)
      else
        p <~ ims_ipc_process_query_result (name_of sess) s xdata_out (default 0 offset)
               (default 0 count);;
        let '(ret, xdata1) := p in
        if negb (ret =? 0) then m_ret (ret, 0, xdata1)
        else let '(ret, xdata2) := dict_set_double xdata1 "runtime" runtime in
             m_ret (ret, 0, xdata2).

(** The request of type [query]: [from] names the server. *)

Definition ims_ipc_query_reply (from : list ascii) (xdata_in : dict_t)
    (dbtime runtime : list ascii) : Q (Z * Z * dict_t) :=
  let '(ret, xdout) := dict_set_str dict_new "from" (Some from) in
  if negb (ret =? 0) then m_ret (ret, 0, xdout)
  else ims_ipc_query xdata_in xdout dbtime runtime.

End server.
