(* ===== verification/QuerySpec.v ===== *)
(** * What a server answers to a query

    The dictionaries that hold results and replies, described by the rows that
    they hold, and the paged fetch of Query.v in terms of those rows. *)

From Stdlib Require Import ZArith Lia Bool Ascii String.
From stdpp Require Import base list strings gmap.
From S2P Require Import Prelude Xdb CLib Dict DictTyped Query.

(** ** Keys *)

Lemma key_of_inj a b : in_u 64 a -> in_u 64 b -> key_of a = key_of b -> a = b.
Proof.
  intros Ha Hb E. apply (f_equal list_ascii_of_string) in E. unfold key_of in E.
  rewrite !list_ascii_of_string_of_list_ascii in E. apply (f_equal strtoul0) in E.
  rewrite !strtoul0_dec in E by done. by injection E.
Qed.

(** A key is not a name that has a character other than digits. *)

Definition not_number (c : ascii) : bool :=
  bool_decide (base_digit 10 c = None) && bool_decide (c <> "-"%char).

Definition is_name (k : string) : bool := existsb not_number (list_ascii_of_string k).

Lemma key_of_name a k : in_u 64 a -> is_name k = true -> key_of a <> k.
Proof.
  unfold in_u. intros Ha Hk <-. unfold is_name, key_of in Hk.
  rewrite list_ascii_of_string_of_list_ascii in Hk.
  apply existsb_exists in Hk as (c & Hin & Hc). apply list_elem_of_In in Hin.
  apply andb_true_iff in Hc as [H1%bool_decide_eq_true H2%bool_decide_eq_true].
  eapply dec_not_in; [exact H1|exact H2| |exact Hin]. lia.
Qed.

(** Lookups after an update, for keys and names. *)

Lemma set_dynstr d k t :
  dict_set_dynstr d k (Some t) = (0, (dict_set d k (Some (text_data t))).2).
Proof.
  unfold dict_set_dynstr, data_from_dynstr. cbn [fmap option_fmap option_map].
  unfold dict_set, _dict_set. by destruct (_ && _).
Qed.

Lemma set_zero d k v : dict_set d k (Some v) = (0, (dict_set d k (Some v)).2).
Proof. unfold dict_set, _dict_set. by destruct (_ && _). Qed.

Lemma get_set_eq d k v : dict_get (dict_set d k (Some v)).2 k = Some v.
Proof. rewrite get_set. by rewrite decide_True. Qed.

Lemma get_set_ne d k v k' : k <> k' -> dict_get (dict_set d k (Some v)).2 k' = dict_get d k'.
Proof. intros. rewrite get_set. by rewrite decide_False. Qed.

Lemma get_str_spec d k :
  dict_get_str d k =
  match dict_get d k with Some v => (0, d_data v) | None => (- ENOENT, None) end.
Proof. unfold dict_get_str, dict_get_with_ref, dict_get. by destruct (_dict_lookup d k). Qed.

Lemma get_uint64_spec d k n :
  in_u 64 n -> dict_get d k = Some (text_data (dec n)) ->
  dict_get_uint64 d k = Some (0, Some n).
Proof.
  intros Hn Hk. unfold dict_get_uint64, dict_get_with, dict_get_with_ref.
  unfold dict_get in Hk. rewrite Hk. cbn [negb Z.eqb]. by apply unsigned_roundtrip.
Qed.

Lemma get_int32_spec d k n :
  in_s 32 n -> dict_get d k = Some (text_data (dec n)) ->
  dict_get_int32 d k = Some (0, Some n).
Proof.
  intros Hn Hk. unfold dict_get_int32, dict_get_with, dict_get_with_ref.
  unfold dict_get in Hk. rewrite Hk. cbn [negb Z.eqb]. by apply signed_roundtrip.
Qed.

(** Texts without a zero that fit the length of a value. *)

Definition plain (t : list ascii) : Prop := ~ "000"%char ∈ t /\ Z.of_nat (length t) < 2 ^ 31 - 1.

Lemma get_double_spec d k t :
  plain t -> dict_get d k = Some (text_data t) -> dict_get_double d k = Some (0, Some t).
Proof.
  intros [Ht Hl] Hk. unfold dict_get_double, dict_get_with_ref. unfold dict_get in Hk.
  rewrite Hk. cbn [negb Z.eqb]. by rewrite text_data_text.
Qed.

Lemma cut_plain t : ~ "000"%char ∈ t -> cut t = t.
Proof.
  induction t as [|c t IH]; intros Ht; [done|]. rewrite not_elem_of_cons in Ht.
  cbn [cut]. destruct (Ascii.eqb_spec c "000") as [->|]; [naive_solver|].
  rewrite IH; naive_solver.
Qed.

Lemma cut_text t : plain t -> cut (t ++ ["000"%char]) = t.
Proof. intros [Ht _]. by apply cut_app. Qed.

(** ** Rows in a dictionary *)

Fixpoint put_rows (i : Z) (rows : list (list ascii)) (d : dict_t) : dict_t :=
  match rows with
  | [] => d
  | r :: rows' => put_rows (i + 1) rows' (dict_set d (key_of i) (Some (text_data r))).2
  end.

(** The rows of a dictionary, counted from [i]. *)

Definition rows_at (d : dict_t) (i : Z) (rows : list (list ascii)) : Prop :=
  forall k r, rows !! k = Some r -> dict_get d (key_of (i + Z.of_nat k)) = Some (text_data r).

Lemma put_rows_other i rows d k :
  (forall j, i <= j < i + Z.of_nat (length rows) -> key_of j <> k) ->
  dict_get (put_rows i rows d) k = dict_get d k.
Proof.
  revert i d. induction rows as [|r rows IH]; intros i d Hk; [done|]. cbn [put_rows length] in *.
  rewrite IH; [|intros j Hj; apply Hk; lia]. apply get_set_ne, Hk. lia.
Qed.

Lemma put_rows_name i rows d k :
  0 <= i -> i + Z.of_nat (length rows) < 2 ^ 64 -> is_name k = true ->
  dict_get (put_rows i rows d) k = dict_get d k.
Proof.
  intros Hi Hn Hk. apply put_rows_other. intros j Hj. apply key_of_name; [unfold in_u; lia|done].
Qed.

Lemma put_rows_at i rows d :
  0 <= i -> i + Z.of_nat (length rows) < 2 ^ 64 -> rows_at (put_rows i rows d) i rows.
Proof.
  revert i d. induction rows as [|r rows IH]; intros i d Hi Hn k r' Hk; [done|].
  cbn [put_rows length] in *. destruct k as [|k].
  - injection Hk as ->. rewrite Z.add_0_r, put_rows_other; [apply get_set_eq|].
    intros j Hj E. apply key_of_inj in E; unfold in_u; lia.
  - replace (i + Z.of_nat (S k)) with (i + 1 + Z.of_nat k) by lia. apply IH; [lia|lia|done].
Qed.

Lemma put_rows_missing i rows d j :
  0 <= i -> i + Z.of_nat (length rows) <= j -> in_u 64 j ->
  dict_get (put_rows i rows d) (key_of j) = dict_get d (key_of j).
Proof.
  unfold in_u. intros Hi Hj Hj'. apply put_rows_other. intros k Hk E.
  apply key_of_inj in E; unfold in_u; lia.
Qed.

Lemma put_rows_length i rows d :
  0 <= i -> i + Z.of_nat (length rows) < 2 ^ 64 ->
  (forall j, i <= j < i + Z.of_nat (length rows) -> dict_get d (key_of j) = None) ->
  length (members_list (put_rows i rows d)) = (length (members_list d) + length rows)%nat.
Proof.
  revert i d. induction rows as [|r rows IH]; intros i d Hi Hn Hf; cbn [put_rows length] in *; [lia|].
  rewrite IH; [|lia|lia|].
  - unfold dict_set, _dict_set. rewrite bool_decide_eq_false_2.
    + cbn. lia.
    + specialize (Hf i ltac:(lia)). unfold dict_get in Hf. rewrite Hf. by intros [? ?].
  - intros j Hj. rewrite get_set_ne; [apply Hf; lia|]. intros E.
    apply key_of_inj in E; unfold in_u; lia.
Qed.

(** ** Results *)

Definition row_ok (r : row) : Prop := Z.of_nat (length (row_text r)) <= 1022.

Definition row_string (r : row) : list ascii := cut (row_text r).

Lemma length_dec_pow f n k :
  0 <= n < 10 ^ Z.of_nat k -> (0 < k)%nat -> (length (dec_fuel f n) <= k)%nat.
Proof.
  revert n k. induction f as [|f IH]; intros n k Hn Hk; cbn [dec_fuel length]; [lia|].
  destruct (Z.ltb_spec n 10); cbn [length]; [lia|]. rewrite length_app. cbn [length].
  destruct k as [|k]; [lia|]. rewrite Nat2Z.inj_succ, Z.pow_succ_r in Hn by lia.
  assert (0 < k)%nat by (destruct k; [cbn in Hn; lia|lia]).
  assert (length (dec_fuel f (n / 10)) <= k)%nat; [|lia].
  apply IH; [|done]. split; [apply Z.div_pos; lia|apply Z.div_lt_upper_bound; lia].
Qed.

Lemma callback_spec r d k :
  row_ok r -> 0 <= k < 10 ^ 9 ->
  direct_query_callback r (d, k) =
  Some (0, ((dict_set d (key_of k) (Some (text_data (row_string r)))).2, k + 1)).
Proof.
  unfold row_ok. intros Hr Hk. unfold direct_query_callback.
  assert (length (dec k) <= 9)%nat as Hl.
  { unfold dec, dec_nat. rewrite (proj2 (Z.ltb_ge _ _)) by lia. apply length_dec_pow; lia. }
  rewrite (proj2 (Z.ltb_ge _ _)) by lia.
  assert (negb (Nat.eqb (length r) 0) && (1024 <? Z.of_nat (length (row_text r)) + 2) = false) as ->.
  { rewrite (proj2 (Z.ltb_ge _ _)) by lia. apply andb_false_r. }
  cbn [orb]. rewrite set_dynstr. cbn [negb Z.eqb].
  by rewrite uwrap_small by (unfold in_u; lia).
Qed.

Lemma deliver_spec rs d k :
  Forall row_ok rs -> 0 <= k -> k + Z.of_nat (length rs) <= 10 ^ 9 ->
  deliver rs (d, k) = Some (0, (put_rows k (row_string <$> rs) d, k + Z.of_nat (length rs))).
Proof.
  intros Hrs. revert d k. induction Hrs as [|r rs Hr Hrs IH]; intros d k Hk Hn; cbn [deliver].
  { by rewrite Z.add_0_r. }
  cbn [length] in Hn. rewrite callback_spec by (done || lia). cbn [mbind option_bind Z.eqb].
  rewrite IH by lia. cbn [fmap list_fmap put_rows length].
  by replace (k + 1 + Z.of_nat (length rs)) with (k + Z.of_nat (S (length rs))) by lia.
Qed.

Lemma cut_no_nul l : ~ "000"%char ∈ cut l.
Proof.
  induction l as [|c l IH]; cbn [cut]; [apply not_elem_of_nil|].
  destruct (Ascii.eqb_spec c "000") as [->|Hc]; [apply not_elem_of_nil|].
  rewrite not_elem_of_cons. naive_solver.
Qed.

Lemma length_cut l : (length (cut l) <= length l)%nat.
Proof. induction l as [|c l IH]; cbn [cut]; [done|]. destruct (Ascii.eqb c _); cbn [length]; lia. Qed.

Lemma row_string_plain r : row_ok r -> plain (row_string r).
Proof.
  unfold row_ok, row_string, plain. intros Hr. split; [apply cut_no_nul|].
  pose proof (length_cut (row_text r)). lia.
Qed.

(** A registered result with the given rows. *)

Record result_of (d : dict_t) (rows : list (list ascii)) : Prop := {
  ro_bound : Z.of_nat (length rows) <= 10 ^ 9;
  ro_plain : Forall plain rows;
  ro_count : dict_get d "count" = Some (text_data (dec (Z.of_nat (length rows))));
  ro_rows : rows_at d 0 rows;
  ro_end : forall j, Z.of_nat (length rows) <= j -> in_u 64 j -> dict_get d (key_of j) = None;
  ro_dbtime : exists t, plain t /\ dict_get d "dbtime" = Some (text_data t);
  ro_size : (length rows <= length (members_list d))%nat
}.

Definition query_result (rows : list (list ascii)) (dbtime : list ascii) : dict_t :=
  let d := put_rows 0 rows dict_new in
  let d1 := (dict_set d "count" (Some (text_data (dec (Z.of_nat (length rows)))))).2 in
  let d2 := (dict_set d1 "ret" (Some (text_data (dec 0)))).2 in
  (dict_set d2 "dbtime" (Some (text_data dbtime))).2.

Lemma length_set d k v : (length (members_list d) <= length (members_list (dict_set d k (Some v)).2))%nat.
Proof.
  unfold dict_set, _dict_set. destruct (_ && _); cbn [snd members_list length]; [|lia].
  pose proof (replace_keys (members_list d) k v) as H. apply (f_equal length) in H.
  rewrite !length_fmap in H. lia.
Qed.

Lemma query_result_spec rows dbtime :
  Z.of_nat (length rows) <= 10 ^ 9 -> Forall plain rows -> plain dbtime ->
  result_of (query_result rows dbtime) rows.
Proof.
  intros Hb Hp Ht. unfold query_result. split; [done|done| | | | |].
  - rewrite !get_set_ne by done. apply get_set_eq.
  - intros k r Hk. assert (in_u 64 (0 + Z.of_nat k)) as Hu.
    { apply lookup_lt_Some in Hk. unfold in_u. lia. }
    rewrite !get_set_ne; [by apply put_rows_at; [lia|lia|]|..];
      apply not_eq_sym, key_of_name; done.
  - intros j Hj Hu. rewrite !get_set_ne by (apply not_eq_sym, key_of_name; done).
    by rewrite put_rows_missing by (done || lia).
  - exists dbtime. split; [done|apply get_set_eq].
  - do 3 (etrans; [|apply length_set]). rewrite put_rows_length by (done || lia). cbn. lia.
Qed.

(** ** The rows of a page *)

Definition page (rows : list (list ascii)) (offset count : Z) : list (list ascii) :=
  take (Z.to_nat count) (drop (Z.to_nat offset) rows).

(** What the reading of a page needs of the freed rows: none from [offset] on. *)

Definition unread (s : session) (offset : Z) : Prop :=
  forall j, offset <= j -> in_u 64 j -> ~ key_of j ∈ ss_freed s.

Definition some_key (k : string) : Prop := k = ""%string \/ exists j, in_u 64 j /\ k = key_of j.

Definition handed (offset : Z) (n : nat) (l : list string) : Prop :=
  forall j, offset + Z.of_nat n <= j -> in_u 64 j -> ~ key_of j ∈ l.

Lemma page_step rows offset count r :
  0 <= offset -> 0 < count -> rows !! Z.to_nat offset = Some r ->
  page rows offset count = r :: page rows (offset + 1) (count - 1).
Proof.
  intros Ho Hc Hr. unfold page. rewrite (drop_S _ _ _ Hr).
  replace (Z.to_nat count) with (S (Z.to_nat (count - 1))) by lia.
  by replace (Z.to_nat (offset + 1)) with (S (Z.to_nat offset)) by lia.
Qed.

Lemma page_none rows offset count :
  0 <= offset -> rows !! Z.to_nat offset = None -> page rows offset count = [].
Proof.
  intros Ho Hr. unfold page. apply lookup_ge_None in Hr. by rewrite drop_ge, take_nil.
Qed.

Lemma fetch_rows_spec fuel s rows offset count i key xdata taken :
  result_of (ss_result s) rows -> 0 <= offset -> 0 <= i <= count -> offset + i + 10 ^ 9 < 2 ^ 64 ->
  unread s offset -> some_key key -> handed offset (Z.to_nat i) taken ->
  (length (page rows (offset + i) (count - i)) < fuel)%nat ->
  exists ret key' taken',
    fetch_rows fuel s offset count i key xdata taken =
      Some (ret, i + Z.of_nat (length (page rows (offset + i) (count - i))), key',
            put_rows i (page rows (offset + i) (count - i)) xdata, taken') /\
    some_key key' /\
    handed offset (Z.to_nat i + length (page rows (offset + i) (count - i))) taken'.
Proof.
  intros Hres Ho. revert i key xdata taken.
  induction fuel as [|fuel IH]; intros i key xdata taken Hi Hb Hun Hkey Htk Hf; [lia|].
  cbn [fetch_rows]. destruct (Z.leb_spec count i) as [Hle|Hlt].
  { replace count with i in * by lia. unfold page in *. rewrite Z.sub_diag. cbn [Z.to_nat take length].
    rewrite Z.add_0_r, Nat.add_0_r. by exists 0, key, taken. }
  assert (in_u 64 (offset + i)) as Hu by (unfold in_u; lia).
  rewrite uwrap_small by done. rewrite get_str_spec.
  destruct (rows !! Z.to_nat (offset + i)) as [r|] eqn:Hr.
  - pose proof (lookup_lt_Some _ _ _ Hr) as Hlen. pose proof (ro_bound _ _ Hres) as Hbound.
    pose proof (ro_rows _ _ Hres _ _ Hr) as Hget. rewrite Z.add_0_l, Z2Nat.id in Hget by lia.
    rewrite Hget. cbn [d_data text_data negb Z.eqb].
    rewrite bool_decide_eq_false_2 by (apply Hun; [lia|done]). cbn [fmap option_fmap option_map].
    rewrite cut_text by (eapply Forall_lookup_1; [apply Hres|done]).
    rewrite set_dynstr. cbn [negb Z.eqb].
    rewrite (page_step _ _ _ r) in Hf |- * by (done || lia). cbn [length] in Hf |- *.
    replace (offset + i + 1) with (offset + (i + 1)) in * by lia.
    replace (count - i - 1) with (count - (i + 1)) in * by lia.
    destruct (IH (i + 1) (key_of i) (dict_set xdata (key_of i) (Some (text_data r))).2
      (key_of (offset + i) :: taken)) as (ret & key' & taken' & -> & Hk & Ht); [lia|lia|done| | |lia|].
    { right. exists i. split; [unfold in_u; lia|done]. }
    { intros j Hj Hju. rewrite not_elem_of_cons. split; [|apply Htk; [lia|done]].
      intros E. apply key_of_inj in E; [lia|done|done]. }
    exists ret, key', taken'. split_and!; [|done|].
    + set (n := length (page _ _ _)). by replace (i + Z.of_nat (S n)) with (i + 1 + Z.of_nat n) by lia.
    + by replace (Z.to_nat i + S (length (page rows (offset + (i + 1)) (count - (i + 1)))))%nat
        with (Z.to_nat (i + 1) + length (page rows (offset + (i + 1)) (count - (i + 1))))%nat by lia.
  - rewrite (ro_end _ _ Hres) by (apply lookup_ge_None in Hr; (done || lia)). cbn [negb Z.eqb].
    rewrite page_none by (done || lia). cbn [length put_rows]. rewrite Z.add_0_r, Nat.add_0_r.
    eexists _, _, _. split_and!; [done| |done]. right. by exists (offset + i).
Qed.

Lemma some_key_name k name : some_key k -> is_name name = true -> k <> name.
Proof.
  intros [->|(j & Hj & ->)] Hn; [by intros <-|by apply key_of_name].
Qed.

Lemma length_page rows offset count :
  0 <= offset -> 0 <= count ->
  Z.of_nat (length (page rows offset count)) =
  Z.max 0 (Z.min count (Z.of_nat (length rows) - offset)).
Proof. intros Ho Hc. unfold page. rewrite length_take, length_drop. lia. Qed.

(** ** Replies *)

(** A reply that carries a page of rows from a server. *)

Record page_reply (d : dict_t) (from : list ascii) (rows : list (list ascii)) (more : bool)
    : Prop := {
  pr_from : dict_get d "from" = Some (text_data from);
  pr_count : dict_get d "count" = Some (text_data (dec (Z.of_nat (length rows))));
  pr_ret : dict_get d "ret" = Some (text_data (dec 0));
  pr_comeback : dict_get d "comeback" = Some (text_data (dec (if more then 1 else 0)));
  pr_dbtime : forall v, dict_get d "dbtime" = Some v -> exists t, plain t /\ v = text_data t;
  pr_rows : rows_at d 0 rows
}.

Definition more_rows (rows : list (list ascii)) (offset count : Z) : bool :=
  offset + Z.of_nat (length (page rows offset count)) <? Z.of_nat (length rows).

(** An update of a name that a reply does not use keeps it. *)

Lemma page_reply_set d from rows more k v :
  page_reply d from rows more -> Z.of_nat (length rows) < 2 ^ 64 -> is_name k = true ->
  k <> "from"%string -> k <> "count"%string -> k <> "ret"%string -> k <> "comeback"%string ->
  k <> "dbtime"%string ->
  page_reply (dict_set d k (Some v)).2 from rows more.
Proof.
  intros [Hf Hc Hr Hcb Hdb Hrows] Hl Hk H1 H2 H3 H4 H5.
  split; try (by rewrite get_set_ne by done).
  intros i r Hi. rewrite get_set_ne; [by apply Hrows|].
  apply lookup_lt_Some in Hi. apply not_eq_sym, key_of_name; [unfold in_u; lia|done].
Qed.

(** The tail of [ims_ipc_process_query_result]. *)

Lemma finish_reply d from rows more :
  Z.of_nat (length rows) < 2 ^ 64 ->
  dict_get d "from" = Some (text_data from) -> rows_at d 0 rows ->
  (forall v, dict_get d "dbtime" = Some v -> exists t, plain t /\ v = text_data t) ->
  exists d', (let '(r1, d1) := dict_set_uint64 d "count" (Z.of_nat (length rows)) in
              let '(r2, d2) := set_xdata32 "ret" r1 (r1, d1) in
              set_xdata32 "comeback" (if more : bool then 1 else 0) (r2, d2)) = (0, d') /\
    page_reply d' from rows more.
Proof.
  intros Hl Hf Hrows Hdb. unfold dict_set_uint64, set_xdata32, dict_set_int32.
  rewrite (set_zero d "count"). cbv beta iota. rewrite (set_zero _ "ret"). cbv beta iota.
  rewrite (set_zero _ "comeback"). eexists. split; [reflexivity|].
  assert (forall k, is_name k = true -> forall i, (i < length rows)%nat -> k <> key_of (0 + Z.of_nat i)) as Hn.
  { intros k Hk i Hi. apply not_eq_sym, key_of_name; [unfold in_u; lia|done]. }
  split; rewrite ?get_set_eq; try (by rewrite !get_set_ne by done).
  - rewrite !get_set_ne by done. apply get_set_eq.
  - rewrite !get_set_ne by done. apply get_set_eq.
  - done.
  - intros i r Hi. pose proof (lookup_lt_Some _ _ _ Hi) as Hlt.
    rewrite !get_set_ne by (by apply Hn). by apply Hrows.
Qed.

(** What a page leaves of the session, and of the sessions with other names. *)

Definition served {conn} (x x' : query_xdb conn) (name : string) (rows : list (list ascii))
    (offset : Z) : Prop :=
  q_conn x' = q_conn x /\
  (exists s', qrset x' !! name = Some s' /\ result_of (ss_result s') rows /\ unread s' offset) /\
  forall k, is_name k = true -> k <> name -> qrset x' !! k = qrset x !! k.

Section server.
Context {conn : Type} `{!SqlQuery conn}.
Implicit Types (x : query_xdb conn).

(** The time of the query is in the first page. *)

Lemma first_page_time s xdata offset rows from :
  result_of (ss_result s) rows ->
  dict_get xdata "from" = Some (text_data from) -> dict_get xdata "dbtime" = None ->
  exists xdata1,
    (if offset =? 0 then
       '(ret, dbtime) ← dict_get_double (ss_result s) "dbtime";
       if negb (ret =? 0) then Some (ret, xdata)
       else Some (dict_set_double xdata "dbtime" (default [] dbtime))
     else Some (0, xdata)) = Some (0, xdata1) /\
    dict_get xdata1 "from" = Some (text_data from) /\
    (forall v, dict_get xdata1 "dbtime" = Some v -> exists t, plain t /\ v = text_data t).
Proof.
  intros Hres Hfrom Hdb. destruct (ro_dbtime _ _ Hres) as (t & Ht & Hdbt).
  destruct (offset =? 0).
  - rewrite (get_double_spec _ _ t) by done. cbn [mbind option_bind negb Z.eqb default].
    unfold dict_set_double. rewrite set_zero. eexists. split_and!; [done| |].
    + by rewrite get_set_ne by done.
    + intros v. rewrite get_set_eq. intros [= <-]. by exists t.
  - exists xdata. split_and!; [done..|]. by rewrite Hdb.
Qed.

Lemma process_spec name s xdata offset count rows from x :
  result_of (ss_result s) rows -> unread s offset -> is_name name = true ->
  0 <= offset -> 0 <= count -> offset + 10 ^ 9 < 2 ^ 64 ->
  dict_get xdata "from" = Some (text_data from) -> dict_get xdata "dbtime" = None ->
  exists d x', ims_ipc_process_query_result (Some name) s xdata offset count x = Some ((0, d), x') /\
    page_reply d from (page rows offset count) (more_rows rows offset count) /\
    served x x' name rows (offset + Z.of_nat (length (page rows offset count))).
Proof.
  intros Hres Hun Hname Ho Hc Hb Hfrom Hdb. pose proof (ro_bound _ _ Hres) as Hbound.
  pose proof (length_page rows offset count Ho Hc) as Hlen.
  unfold ims_ipc_process_query_result.
  rewrite (get_uint64_spec _ _ (Z.of_nat (length rows))) by (unfold in_u; (lia || apply Hres)).
  cbn [mbind option_bind negb Z.eqb default from_option id].
  destruct (first_page_time s xdata offset rows from Hres Hfrom Hdb)
    as (xdata1 & -> & Hfrom1 & Hdb1).
  cbn [mbind option_bind negb Z.eqb].
  destruct (fetch_rows_spec (S (S (length (members_list (ss_result s))))) s rows offset count 0
    "" xdata1 []) as (ret & key & taken & Hf & Hk & Hh);
    [done|done|lia|lia|done|by left|intros j _ _; apply not_elem_of_nil| |].
  { rewrite Z.add_0_r, Z.sub_0_r. pose proof (ro_size _ _ Hres). lia. }
  rewrite Z.add_0_r, Z.sub_0_r in Hf, Hh. rewrite Z.add_0_l in Hf. rewrite Hf.
  cbn [mbind option_bind]. rewrite uwrap_small by (unfold in_u; lia).
  destruct (finish_reply (put_rows 0 (page rows offset count) xdata1) from (page rows offset count)
    (more_rows rows offset count)) as (d & Hd & Hpr);
    [lia|by rewrite put_rows_name by (done || lia)|by apply put_rows_at; lia|
     by rewrite put_rows_name by (done || lia)|].
  rewrite Z.leb_antisym. fold (more_rows rows offset count).
  destruct (dict_set_uint64 _ _ _) as [r1 d1]. destruct (set_xdata32 _ _ _) as [r2 d2].
  assert (set_xdata32 "comeback" (if negb (more_rows rows offset count) then 0 else 1) (r2, d2)
    = (0, d)) as -> by (rewrite <- Hd; by destruct (more_rows rows offset count)).
  eexists d, _. split_and!; [done|done|].
  pose proof (some_key_name _ _ Hk Hname) as Hne. split_and!; [done| |].
  - exists {| ss_result := ss_result s; ss_freed := list_to_set taken ∪ ss_freed s |}.
    split_and!; [|done|].
    + cbn [qrset]. destruct (negb _); [rewrite lookup_delete_ne by done|]; apply lookup_insert_eq.
    + intros j Hj Hu. cbn [ss_freed]. rewrite elem_of_union, elem_of_list_to_set.
      intros [Hin|Hin]; [by eapply (Hh j)|]. eapply (Hun j); [lia|done|done].
  - intros k Hkn Hk'. cbn [qrset]. pose proof (some_key_name _ _ Hk Hkn) as Hne'.
    destruct (negb _); [rewrite lookup_delete_ne by done|]; by rewrite lookup_insert_ne.
Qed.

(** A request for a page, as the clients make it. *)

Record page_request (d : dict_t) (sess sql : list ascii) (offset count : Z) : Prop := {
  rq_plain : plain sess /\ plain sql;
  rq_range : in_u 64 offset /\ in_u 64 count;
  rq_session : dict_get d "session" = Some (text_data sess);
  rq_sql : dict_get d "sql" = Some (text_data sql);
  rq_offset : dict_get d "offset" = Some (text_data (dec offset));
  rq_count : dict_get d "count" = Some (text_data (dec count))
}.

(** The server can give the rows of the query from [offset] on: the session is
    not registered and the database answers the query with these rows, or it
    is registered with them and has not handed them out. *)

Definition answers x (sess sql : list ascii) (rows : list (list ascii)) (offset : Z) : Prop :=
  let name := string_of_list_ascii sess in
  (qrset x !! name = None /\
   exists rs c, sqlite3_query sql (q_conn x) = ((0, rs), c) /\ Forall row_ok rs /\
     Z.of_nat (length rs) <= 10 ^ 9 /\ rows = row_string <$> rs) \/
  (exists s, qrset x !! name = Some s /\ result_of (ss_result s) rows /\ unread s offset).

Definition registered x (sess : list ascii) (rows : list (list ascii)) (offset : Z) : Prop :=
  exists s, qrset x !! string_of_list_ascii sess = Some s /\ result_of (ss_result s) rows /\
    unread s offset.

Lemma new_query_spec d sess sql offset count rs c dbtime x :
  page_request d sess sql offset count -> sqlite3_query sql (q_conn x) = ((0, rs), c) ->
  Forall row_ok rs -> Z.of_nat (length rs) <= 10 ^ 9 ->
  ims_ipc_new_query d dict_new dbtime x =
  Some ((0, 0, query_result (row_string <$> rs) dbtime),
    {| q_conn := c; q_db_ret := 0;
       qrset := <[string_of_list_ascii sess :=
         {| ss_result := query_result (row_string <$> rs) dbtime; ss_freed := ∅ |}]> (qrset x) |}).
Proof.
  intros [[Hps Hpq] _ Hse Hsq _ _] Hq Hrs Hn. unfold ims_ipc_new_query.
  rewrite !get_str_spec, Hse, Hsq. change (Z.lor 0 0) with 0.
  cbn [d_data text_data negb Z.eqb].
  unfold text_of, name_of. cbn [fmap option_fmap option_map].
  rewrite !cut_text by done. unfold m_bind, ims_xdb_direct_query. rewrite Hq.
  rewrite deliver_spec by (done || lia). cbn [mbind option_bind negb Z.eqb].
  unfold dict_set_uint64, dict_set_int32, dict_set_double.
  rewrite (set_zero _ "count"). cbv beta iota. rewrite (set_zero _ "ret"). cbn [negb Z.eqb].
  rewrite (set_zero _ "dbtime"). cbn [negb Z.eqb]. unfold ims_xdb_register_result, m_bind, m_modify, m_ret.
  cbn [negb Z.eqb]. unfold query_result. rewrite length_fmap, Z.add_0_l. done.
Qed.

(** The session with its rows, whether it was there or not. *)

Lemma session_ready d sess sql rows offset count dbtime x :
  page_request d sess sql offset count -> answers x sess sql rows offset -> plain dbtime ->
  exists s x1,
    m_bind (ims_xdb_get_result (Some (string_of_list_ascii sess))) (fun found =>
      match found with
      | Some s => m_ret (0, s)
      | None => n <~ ims_ipc_new_query d dict_new dbtime;;
                let '(ret, _, qres) := n in m_ret (ret, {| ss_result := qres; ss_freed := ∅ |})
      end) x = Some ((0, s), x1) /\
    result_of (ss_result s) rows /\ unread s offset /\
    forall k, k <> string_of_list_ascii sess -> qrset x1 !! k = qrset x !! k.
Proof.
  intros Hrq Hans Hdb. unfold m_bind at 1, ims_xdb_get_result, m_bind, m_get, m_ret.
  cbn [mbind option_bind].
  destruct Hans as [(Hnone & rs & c & Hq & Hrs & Hn & ->)|(s & Hs & Hres & Hun)].
  - rewrite Hnone. rewrite (new_query_spec _ _ _ _ _ _ _ _ _ Hrq Hq Hrs Hn).
    eexists _, _. split_and!; [done| | |].
    + apply query_result_spec; [by rewrite length_fmap| |done].
      apply Forall_fmap. eapply Forall_impl; [exact Hrs|]. apply row_string_plain.
    + intros j _ _. apply not_elem_of_empty.
    + intros k Hk. cbn [qrset]. by rewrite lookup_insert_ne.
  - rewrite Hs. by exists s, x.
Qed.

Lemma query_reply_spec d from sess sql rows offset count dbtime runtime x :
  page_request d sess sql offset count -> answers x sess sql rows offset ->
  is_name (string_of_list_ascii sess) = true -> offset + 10 ^ 9 < 2 ^ 64 -> plain dbtime ->
  exists r x', ims_ipc_query_reply from d dbtime runtime x = Some ((0, 0, r), x') /\
    page_reply r from (page rows offset count) (more_rows rows offset count) /\
    dict_get r "runtime" = Some (text_data runtime) /\
    registered x' sess rows (offset + Z.of_nat (length (page rows offset count))) /\
    forall k, is_name k = true -> k <> string_of_list_ascii sess -> qrset x' !! k = qrset x !! k.
Proof.
  intros Hrq Hans Hname Hb Hdb. pose proof (rq_range _ _ _ _ _ Hrq) as [[Ho _] [Hc _]].
  unfold ims_ipc_query_reply, dict_set_str, str_to_data. cbn [fmap option_fmap option_map].
  rewrite set_zero. cbn [negb Z.eqb]. unfold ims_ipc_query.
  rewrite get_str_spec, (rq_session _ _ _ _ _ Hrq). cbn [d_data text_data negb Z.eqb].
  rewrite (get_uint64_spec d "offset" offset) by apply Hrq.
  rewrite (get_uint64_spec d "count" count) by apply Hrq.
  cbn [m_deref]. rewrite !m_bind_ret. change (Z.lor 0 0) with 0.
  cbn [negb Z.eqb default from_option id].
  unfold name_of. cbn [fmap option_fmap option_map]. rewrite cut_text by apply Hrq.
  destruct (session_ready _ _ _ _ _ _ dbtime x Hrq Hans Hdb) as (s & x1 & H1 & Hres & Hun & Hoth).
  rewrite <- m_bind_assoc. unfold m_bind at 1. rewrite H1. cbn [negb Z.eqb].
  destruct (process_spec (string_of_list_ascii sess) s
    (dict_set dict_new "from" (Some (text_data from))).2 offset count rows from x1)
    as (r & x2 & H2 & Hpr & Hcn & Hreg & Hoth2); [done..|apply get_set_eq|done|].
  unfold m_bind. rewrite H2. cbn [negb Z.eqb]. unfold dict_set_double. rewrite set_zero.
  pose proof (ro_bound _ _ Hres). pose proof (length_page rows offset count Ho Hc).
  eexists _, _. split_and!; [done| |apply get_set_eq|done|].
  - apply page_reply_set; (done || lia).
  - intros k Hk Hne. rewrite Hoth2 by done. by apply Hoth.
Qed.

End server.
