(* ===== verification/DhtIpc.v ===== *)
(** * Queries over all servers

    dht_ipc and dht_ipc_cbk of xlators/cluster/dht/src/dht-common.c: a request
    goes to every subvolume of the mask, and the callbacks merge the replies,
    in the order in which they arrive, into one dictionary. Each callback
    holds the lock of the shared data, so it is one step. Arithmetic on times
    is left out: a time is its [%f] text. *)

From Stdlib Require Import ZArith Lia Bool Ascii String.
From stdpp Require Import base list strings gmap.
From S2P Require Import Prelude Xdb CLib Dict DictTyped Query QuerySpec.

(** ** State *)

Record dht_ipc_data := { ipc_xdata : dict_t; pos : Z; call_cnt : Z }.

(** A reply of a subvolume. *)

Record ipc_reply := { ir_ret : Z; ir_errno : Z; ir_xdata : option dict_t }.

(** Whether the [%f] text of a double is that of a positive number. *)

Definition positive_text (t : list ascii) : bool :=
  match t with
  | c :: _ =>
      negb (Ascii.eqb c "-") && existsb (fun c => (49 <=? code c) && (code c <=? 57)) t
  | [] => false
  end.

(** ** The callback *)

(** A key in [keybuf], 64 bytes. *)

Definition keybuf64 (xlname : list ascii) (suffix : string) : option string :=
  let l := xlname ++ list_ascii_of_string suffix in
  if Z.of_nat (length l) + 1 <=? 64 then Some (string_of_list_ascii l) else None.

(** The rows of a reply, from index [i]. A row that is not there is skipped,
    and its place in the merged result stays empty. *)

Fixpoint copy_rows (n : nat) (i : Z) (xdata : dict_t) (dict_req : dict_t) (p : Z) : dict_t * Z :=
  match n with
  | O => (dict_req, p)
  | S n' =>
      let '(_, dict_req') := dict_set dict_req (key_of p) (dict_get xdata (key_of i)) in
      copy_rows n' (i + 1) xdata dict_req' (u64 (p + 1))
  end.

(** The five fields that a reply must have: the combined code, the number of
    rows, the code of the query, the name, the time and whether to come back. *)

Definition reply_fields (xdata : option dict_t)
    : option (Z * Z * Z * list ascii * list ascii * Z) :=
  match xdata with
  | None => Some (- Xdb.EINVAL, 0, 0, [], [], 0)
  | Some d =>
      '(r1, xcnt) ← dict_get_uint64 d "count";
      '(r2, db_ret) ← dict_get_int32 d "ret";
      let '(r3, from) := dict_get_str d "from" in
      '(r4, runtime) ← dict_get_double d "runtime";
      '(r5, xcomeback) ← dict_get_int32 d "comeback";
      Some (Z.lor r1 (Z.lor r2 (Z.lor r3 (Z.lor r4 r5))), default 0 xcnt, default 0 db_ret,
            default (list_ascii_of_string "(null)") (cut <$> from), default [] runtime,
            default 0 xcomeback)
  end.

(** What the callback does under the lock, with a reply [d]. *)

Definition merge_reply (d : dict_t) (xcnt db_ret : Z) (xlname runtime latency : list ascii)
    (xcomeback : Z) (ipc : dht_ipc_data) : option dht_ipc_data :=
  '(_, dbtime) ← dict_get_double d "dbtime";
  let '(d0, p) := copy_rows (Z.to_nat xcnt) 0 d (ipc_xdata ipc) (pos ipc) in
  let done req := Some {| ipc_xdata := req; pos := p; call_cnt := call_cnt ipc |} in
  k_lat ← keybuf64 xlname ":latency";
  let '(ret, d1) := dict_set_double d0 k_lat latency in
  if negb (ret =? 0) then done d1 else
  '(ret, d2) ← (match dbtime with
                | Some t =>
                    if positive_text t then
                      k ← keybuf64 xlname ":dbtime"; Some (dict_set_double d1 k t)
                    else Some (0, d1)
                | None => Some (0, d1)
                end);
  if negb (ret =? 0) then done d2 else
  '(ret, count) ← dict_get_uint64 d2 "count";
  if negb (ret =? 0) then done d2 else
  let '(ret, d3) := dict_set_uint64 d2 "count" (u64 (default 0 count + xcnt)) in
  if negb (ret =? 0) then done d3 else
  '(ret, comeback) ← dict_get_int32 d3 "comeback";
  if negb (ret =? 0) then done d3 else
  let '(ret, d4) := dict_set_uint64 d3 "comeback" (u64 (i32 (default 0 comeback + xcomeback))) in
  if negb (ret =? 0) then done d4 else
  k_cnt ← keybuf64 xlname ":count";
  let '(ret, d5) := dict_set_uint64 d4 k_cnt xcnt in
  if negb (ret =? 0) then done d5 else
  k_ret ← keybuf64 xlname ":ret";
  let '(ret, d6) := dict_set_int32 d5 k_ret db_ret in
  if negb (ret =? 0) then done d6 else
  k_run ← keybuf64 xlname ":runtime";
  let '(_, d7) := dict_set_double d6 k_run runtime in done d7.

(** [Some r] when the callback was the last one and unwinds with [r], which is
    a null pointer unless this last reply was merged. *)

Definition dht_ipc_return (ipc : dht_ipc_data) : Z * dht_ipc_data :=
  let n := i32 (call_cnt ipc - 1) in
  (n, {| ipc_xdata := ipc_xdata ipc; pos := pos ipc; call_cnt := n |}).

Definition dht_ipc_cbk (rp : ipc_reply) (latency : list ascii)
    : M dht_ipc_data (option (option dict_t)) := fun ipc =>
  let leave (req : option dict_t) ipc :=
    let '(n, ipc') := dht_ipc_return ipc in
    Some (if n =? 0 then Some req else None, ipc') in
  if ir_ret rp =? -1 then leave None ipc
  else
    '(ret, xcnt, db_ret, xlname, runtime, xcomeback) ← reply_fields (ir_xdata rp);
    if negb (ret =? 0) then leave None ipc
    else match ir_xdata rp with
         | None => leave None ipc
         | Some d =>
             ipc' ← merge_reply d xcnt db_ret xlname runtime latency xcomeback ipc;
             leave (Some (ipc_xdata ipc')) ipc'
         end.

(** ** The request *)

(** The subvolumes that the mask selects; the mask is read at every index. *)

Fixpoint mask_calls (cmask : list ascii) (n : nat) (i : nat) : option (list nat) :=
  match n with
  | O => Some []
  | S n' =>
      match cmask with
      | [] => None
      | c :: m =>
          l ← mask_calls m n' (S i);
          Some (if Ascii.eqb c "000" then l else i :: l)
      end
  end.

(** The subvolumes that a request goes to, [None] when it goes the default way:
    without data, or without a mask. *)

Definition dht_ipc_targets (xdata : option dict_t) (subvolume_cnt : nat)
    : option (option (list nat)) :=
  match xdata with
  | None => Some None
  | Some d =>
      let '(ret, cmask) := dict_get_bin d "cmask" in
      if negb (ret =? 0) then Some None
      else cmask ← cmask; Some <$> mask_calls cmask subvolume_cnt 0
  end.

Definition dht_ipc_start (calls : nat) : dht_ipc_data :=
  let '(_, d) := dict_set_uint64 dict_new "count" 0 in
  let '(_, d1) := dict_set_int32 d "comeback" 0 in
  {| ipc_xdata := d1; pos := 0; call_cnt := Z.of_nat calls |}.

(** The callbacks in the order of arrival, until one of them unwinds. *)

Fixpoint dht_gather (rps : list (ipc_reply * list ascii))
    : M dht_ipc_data (option (option dict_t)) :=
  match rps with
  | [] => m_ret None
  | (rp, latency) :: rps' =>
      u <~ dht_ipc_cbk rp latency;;
      match u with
      | Some req => m_ret (Some req)
      | None => dht_gather rps'
      end
  end.

(** The wound part of a request, given the replies of the targets in the order
    of arrival: [None] is undefined behaviour, and the result is [None] when
    nothing is unwound. *)

Definition dht_ipc (rps : list (ipc_reply * list ascii)) : option (option (option dict_t)) :=
  fst <$> dht_gather rps (dht_ipc_start (length rps)).

(** ** The entries that count rows *)

(** [fnmatch] with the pattern [*] followed by a text without wildcards. *)

Fixpoint list_prefix (p l : list ascii) : bool :=
  match p, l with
  | [], _ => true
  | a :: p', b :: l' => Ascii.eqb a b && list_prefix p' l'
  | _ :: _, [] => false
  end.

Definition ends_with (suffix k : string) : bool :=
  list_prefix (rev (list_ascii_of_string suffix)) (rev (list_ascii_of_string k)).

Definition count_key (k : string) : bool := ends_with ":count" k.

Definition count_entries (d : dict_t) : list (string * data_t) :=
  List.filter (fun p => count_key p.1) (members_list d).

Lemma list_prefix_elem p l c : list_prefix p l = true -> c ∈ p -> c ∈ l.
Proof.
  revert l. induction p as [|a p IH]; intros [|b l] Hp Hc; try done.
  - by apply not_elem_of_nil in Hc.
  - cbn in Hp. apply andb_true_iff in Hp as [->%Ascii.eqb_eq Hp].
    rewrite elem_of_cons in *. destruct Hc as [->|Hc]; [by left|right; by apply IH].
Qed.

Lemma key_of_not_count j : in_u 64 j -> count_key (key_of j) = false.
Proof.
  unfold in_u. intros Hj. apply not_true_is_false. intros H.
  apply (list_prefix_elem _ _ ":"%char) in H; [|rewrite list_elem_of_In; cbn; tauto].
  unfold key_of in H. rewrite list_ascii_of_string_of_list_ascii in H.
  rewrite list_elem_of_In, <- in_rev, <- list_elem_of_In in H.
  eapply dec_not_in; [| | |exact H]; [done|done|lia].
Qed.

(** The names that a server's entries have. *)

Definition entry (xlname : list ascii) (suffix : string) : string :=
  string_of_list_ascii (xlname ++ list_ascii_of_string suffix).

Lemma entry_ends x s suffix :
  ends_with suffix (entry x s) =
  list_prefix (rev (list_ascii_of_string suffix)) (rev (list_ascii_of_string s) ++ rev x).
Proof. unfold ends_with, entry. by rewrite list_ascii_of_string_of_list_ascii, rev_app_distr. Qed.

Lemma entry_inj x y s : entry x s = entry y s -> x = y.
Proof.
  unfold entry. intros E. apply (f_equal list_ascii_of_string) in E.
  rewrite !list_ascii_of_string_of_list_ascii in E. by apply app_inv_tail in E.
Qed.

Lemma entry_is_name x s : is_name s = true -> is_name (entry x s) = true.
Proof.
  unfold is_name, entry. rewrite list_ascii_of_string_of_list_ascii, existsb_app.
  intros ->. apply orb_true_r.
Qed.

(** Two names that end differently are different. *)

Lemma ends_ne k k' s : ends_with s k = true -> ends_with s k' = false -> k <> k'.
Proof. congruence. Qed.

Lemma entries_set_other d k v :
  count_key k = false -> count_entries (dict_set d k (Some v)).2 = count_entries d.
Proof.
  intros Hk. unfold count_entries, dict_set, _dict_set. destruct (_ && _); cbn [snd members_list].
  - induction (members_list d) as [|[k' v'] l IH]; [done|]. cbn [replace_pair].
    destruct (decide (k' = k)) as [->|]; cbn [List.filter fst]; [by rewrite Hk|].
    by rewrite IH.
  - cbn [List.filter fst]. by rewrite Hk.
Qed.

Lemma entries_set_fresh d k v :
  count_key k = true -> dict_get d k = None ->
  count_entries (dict_set d k (Some v)).2 = (k, v) :: count_entries d.
Proof.
  intros Hk Hd. unfold count_entries, dict_set, _dict_set. unfold dict_get in Hd. rewrite Hd.
  cbn [andb bool_decide]. rewrite bool_decide_eq_false_2 by (by intros [? ?]).
  cbn [snd members_list List.filter fst]. by rewrite Hk.
Qed.

(** ** The merged result *)

(** The rows, the two counters, the names of the servers that have been merged
    and the counts of their rows. *)

Record shape (d : dict_t) (rows : list (list ascii)) (cnt mores : Z) (names : list (list ascii))
    (counts : list Z) : Prop := {
  sh_rows : rows_at d 0 rows;
  sh_end : forall j, Z.of_nat (length rows) <= j -> in_u 64 j -> dict_get d (key_of j) = None;
  sh_count : dict_get d "count" = Some (text_data (dec cnt));
  sh_comeback : dict_get d "comeback" = Some (text_data (dec mores));
  sh_fresh : forall x, ~ x ∈ names -> dict_get d (entry x ":count") = None;
  sh_entries : (count_entries d).*2 = (fun n => text_data (dec n)) <$> counts
}.

Lemma entry_count_key x : count_key (entry x ":count") = true.
Proof. unfold count_key. by rewrite entry_ends. Qed.

Lemma rows_at_name d rows k v :
  Z.of_nat (length rows) < 2 ^ 64 -> is_name k = true -> rows_at d 0 rows ->
  rows_at (dict_set d k (Some v)).2 0 rows.
Proof.
  intros Hl Hk Hr i r Hi. pose proof (lookup_lt_Some _ _ _ Hi).
  rewrite get_set_ne; [by apply Hr|]. apply not_eq_sym, key_of_name; [unfold in_u; lia|done].
Qed.

Lemma end_at_name d n k v :
  is_name k = true ->
  (forall j, n <= j -> in_u 64 j -> dict_get d (key_of j) = None) ->
  forall j, n <= j -> in_u 64 j -> dict_get (dict_set d k (Some v)).2 (key_of j) = None.
Proof.
  intros Hk He j Hj Hu. rewrite get_set_ne; [by apply He|]. by apply not_eq_sym, key_of_name.
Qed.

Lemma fresh_other d (names : list (list ascii)) k v :
  count_key k = false ->
  (forall x, ~ x ∈ names -> dict_get d (entry x ":count") = None) ->
  forall x, ~ x ∈ names -> dict_get (dict_set d k (Some v)).2 (entry x ":count") = None.
Proof.
  intros Hk Hf x Hx. rewrite get_set_ne; [by apply Hf|]. intros ->.
  by rewrite entry_count_key in Hk.
Qed.

(** An entry that the merged result does not use. *)

Lemma shape_other d rows cnt mores names counts k v :
  shape d rows cnt mores names counts -> Z.of_nat (length rows) < 2 ^ 64 ->
  is_name k = true -> count_key k = false -> k <> "count"%string -> k <> "comeback"%string ->
  shape (dict_set d k (Some v)).2 rows cnt mores names counts.
Proof.
  intros [Hr He Hc Hcb Hf Hen] Hl Hk Hck H1 H2.
  split; [by apply rows_at_name|by apply end_at_name|by rewrite get_set_ne|
    by rewrite get_set_ne|by apply fresh_other|by rewrite entries_set_other].
Qed.

Lemma shape_count d rows cnt mores names counts cnt' :
  shape d rows cnt mores names counts -> Z.of_nat (length rows) < 2 ^ 64 ->
  shape (dict_set d "count" (Some (text_data (dec cnt')))).2 rows cnt' mores names counts.
Proof.
  intros [Hr He Hc Hcb Hf Hen] Hl.
  split; [by apply rows_at_name|by apply end_at_name|apply get_set_eq|
    by rewrite get_set_ne|by apply fresh_other|by rewrite entries_set_other].
Qed.

Lemma shape_comeback d rows cnt mores names counts mores' :
  shape d rows cnt mores names counts -> Z.of_nat (length rows) < 2 ^ 64 ->
  shape (dict_set d "comeback" (Some (text_data (dec mores')))).2 rows cnt mores' names counts.
Proof.
  intros [Hr He Hc Hcb Hf Hen] Hl.
  split; [by apply rows_at_name|by apply end_at_name|by rewrite get_set_ne|apply get_set_eq|
    by apply fresh_other|by rewrite entries_set_other].
Qed.

Lemma shape_entry d rows cnt mores names counts x n :
  shape d rows cnt mores names counts -> Z.of_nat (length rows) < 2 ^ 64 -> ~ x ∈ names ->
  shape (dict_set d (entry x ":count") (Some (text_data (dec n)))).2 rows cnt mores
    (x :: names) (n :: counts).
Proof.
  intros [Hr He Hc Hcb Hf Hen] Hl Hx.
  assert (is_name (entry x ":count") = true) as Hk by (by apply entry_is_name).
  split; [by apply rows_at_name|by apply end_at_name| | | |].
  - rewrite get_set_ne; [done|]. apply (ends_ne _ _ ":count"); [apply entry_count_key|done].
  - rewrite get_set_ne; [done|]. apply (ends_ne _ _ ":count"); [apply entry_count_key|done].
  - intros y Hy. rewrite not_elem_of_cons in Hy. destruct Hy as [Hxy Hy].
    rewrite get_set_ne; [by apply Hf|]. intros E%entry_inj. congruence.
  - rewrite entries_set_fresh by (apply entry_count_key || by apply Hf). cbn. by rewrite Hen.
Qed.

Lemma entries_put i rows d :
  0 <= i -> i + Z.of_nat (length rows) < 2 ^ 64 -> count_entries (put_rows i rows d) = count_entries d.
Proof.
  revert i d. induction rows as [|r rows IH]; intros i d Hi Hl; [done|]. cbn [put_rows length] in *.
  rewrite IH by lia. apply entries_set_other, key_of_not_count. unfold in_u. lia.
Qed.

Lemma shape_rows d rows cnt mores names counts pg :
  shape d rows cnt mores names counts ->
  Z.of_nat (length rows) + Z.of_nat (length pg) < 2 ^ 64 ->
  shape (put_rows (Z.of_nat (length rows)) pg d) (rows ++ pg) cnt mores names counts.
Proof.
  intros [Hr He Hc Hcb Hf Hen] Hl. split.
  - intros k r Hk. destruct (decide (k < length rows)%nat) as [Hlt|Hge].
    + rewrite lookup_app_l in Hk by done. rewrite put_rows_other; [by apply Hr|].
      intros j Hj E. apply key_of_inj in E; unfold in_u; lia.
    + rewrite lookup_app_r in Hk by lia.
      replace (0 + Z.of_nat k) with (Z.of_nat (length rows) + Z.of_nat (k - length rows)) by lia.
      apply put_rows_at; [lia|lia|done].
  - intros j Hj Hu. rewrite length_app in Hj.
    rewrite put_rows_missing by (done || lia). apply He; [lia|done].
  - by rewrite put_rows_name by (done || lia).
  - by rewrite put_rows_name by (done || lia).
  - intros x Hx. rewrite put_rows_name; [by apply Hf|lia|lia|by apply entry_is_name].
  - by rewrite entries_put by lia.
Qed.

(** ** One reply *)

(** The setters answer 0. *)

Lemma set_double_ok d k t : dict_set_double d k t = (0, (dict_set d k (Some (text_data t))).2).
Proof. apply set_zero. Qed.

Lemma set_uint64_ok d k n :
  dict_set_uint64 d k n = (0, (dict_set d k (Some (text_data (dec n)))).2).
Proof. apply set_zero. Qed.

Lemma set_int32_ok d k n :
  dict_set_int32 d k n = (0, (dict_set d k (Some (text_data (dec n)))).2).
Proof. apply set_zero. Qed.

Record good_reply (d : dict_t) (from : list ascii) (pg : list (list ascii)) (more : bool)
    : Prop := {
  gr_page : page_reply d from pg more;
  gr_runtime : exists t, plain t /\ dict_get d "runtime" = Some (text_data t);
  gr_from : plain from;
  gr_short : Z.of_nat (length from) <= 55
}.

Lemma copy_rows_spec pg i xdata req p :
  rows_at xdata i pg -> 0 <= p -> p + Z.of_nat (length pg) < 2 ^ 64 ->
  copy_rows (length pg) i xdata req p = (put_rows p pg req, p + Z.of_nat (length pg)).
Proof.
  revert i req p. induction pg as [|r pg IH]; intros i req p Hr Hp Hl; cbn [copy_rows length] in *.
  { by rewrite Z.add_0_r. }
  pose proof (Hr 0%nat r eq_refl) as H0. rewrite Z.add_0_r in H0. rewrite H0, set_zero.
  rewrite uwrap_small by (unfold in_u; lia). rewrite IH; [cbn [put_rows]| |lia|lia].
  - by replace (p + 1 + Z.of_nat (length pg)) with (p + Z.of_nat (S (length pg))) by lia.
  - intros k r' Hk. replace (i + 1 + Z.of_nat k) with (i + Z.of_nat (S k)) by lia. by apply Hr.
Qed.

Lemma keybuf64_entry x s :
  Z.of_nat (length x) <= 55 -> (String.length s <= 8)%nat -> keybuf64 x s = Some (entry x s).
Proof.
  intros Hx Hs. unfold keybuf64. rewrite length_app, length_ascii.
  by rewrite (proj2 (Z.leb_le _ _)) by lia.
Qed.

Lemma reply_fields_spec d from pg more :
  good_reply d from pg more -> Z.of_nat (length pg) < 2 ^ 64 ->
  exists t, plain t /\ reply_fields (Some d) =
    Some (0, Z.of_nat (length pg), 0, from, t, if more then 1 else 0).
Proof.
  intros [[Hf Hc Hr Hcb Hdb Hrows] (t & Ht & Hrt) Hfp Hs] Hl. exists t. split; [done|].
  unfold reply_fields.
  rewrite (get_uint64_spec _ _ _ (conj (Nat2Z.is_nonneg _) Hl) Hc).
  rewrite (get_int32_spec _ _ 0 ltac:(unfold in_s; lia) Hr), get_str_spec, Hf.
  rewrite (get_double_spec _ _ t Ht Hrt).
  rewrite (get_int32_spec _ _ (if more then 1 else 0) ltac:(destruct more; unfold in_s; lia) Hcb).
  cbn [mbind option_bind d_data text_data fmap option_fmap option_map]. by rewrite cut_text.
Qed.

(** The entries about a server that no one counts. *)

Definition tags : list string := [":latency"; ":dbtime"; ":ret"; ":runtime"]%string.

Lemma shape_tag d rows cnt mores names counts x s v :
  s ∈ tags -> shape d rows cnt mores names counts -> Z.of_nat (length rows) < 2 ^ 64 ->
  shape (dict_set d (entry x s) (Some v)).2 rows cnt mores names counts.
Proof.
  intros Hs Hsh Hl.
  assert (is_name s = true /\ count_key (entry x s) = false /\ ends_with s "count" = false /\
    ends_with s "comeback" = false /\ ends_with s (entry x s) = true) as (H1 & H2 & H3 & H4 & H5).
  { unfold count_key. rewrite !entry_ends. unfold tags in Hs.
    repeat (apply elem_of_cons in Hs as [->|Hs]; [by split_and!|]). by apply not_elem_of_nil in Hs. }
  apply shape_other; [done|done|by apply entry_is_name|done|by eapply ends_ne|by eapply ends_ne].
Qed.

Ltac tag := apply list_elem_of_In; cbn; tauto.

(** The optional entry with the time of the query. *)

Lemma dbtime_entry d d1 from rows cnt mores names counts :
  (forall v, dict_get d "dbtime" = Some v -> exists t, plain t /\ v = text_data t) ->
  Z.of_nat (length from) <= 55 -> Z.of_nat (length rows) < 2 ^ 64 ->
  shape d1 rows cnt mores names counts ->
  exists r dbtime d2, dict_get_double d "dbtime" = Some (r, dbtime) /\
    (match dbtime with
     | Some t =>
         if positive_text t then k ← keybuf64 from ":dbtime"; Some (dict_set_double d1 k t)
         else Some (0, d1)
     | None => Some (0, d1)
     end) = Some (0, d2) /\ shape d2 rows cnt mores names counts.
Proof.
  intros Hdb Hf Hl Hsh. unfold dict_get_double, dict_get_with_ref. fold (dict_get d "dbtime").
  destruct (dict_get d "dbtime") as [v|] eqn:Hv; [|by eexists _, None, d1].
  destruct (Hdb v eq_refl) as (t & [Ht1 Ht2] & ->). cbn [negb Z.eqb].
  rewrite text_data_text by done. cbn [mbind option_bind].
  destruct (positive_text t) eqn:Hp; eexists _, (Some t), _; rewrite Hp; [|by split_and!].
  rewrite keybuf64_entry by (done || cbn; lia). cbn [mbind option_bind].
  unfold dict_set_double. rewrite set_zero. split_and!; [done|done|].
  apply shape_tag; [tag|done|done].
Qed.

Lemma merge_spec d from pg more rt lat rows mores names counts ipc :
  good_reply d from pg more -> ~ from ∈ names ->
  shape (ipc_xdata ipc) rows (Z.of_nat (length rows)) mores names counts ->
  pos ipc = Z.of_nat (length rows) ->
  Z.of_nat (length rows) + Z.of_nat (length pg) < 2 ^ 31 -> 0 <= mores < 2 ^ 31 - 1 ->
  exists ipc', merge_reply d (Z.of_nat (length pg)) 0 from rt lat (if more then 1 else 0) ipc
      = Some ipc' /\
    shape (ipc_xdata ipc') (rows ++ pg) (Z.of_nat (length (rows ++ pg)))
      (mores + if more then 1 else 0) (from :: names) (Z.of_nat (length pg) :: counts) /\
    pos ipc' = Z.of_nat (length (rows ++ pg)) /\ call_cnt ipc' = call_cnt ipc.
Proof.
  intros [[Hf Hc Hr Hcb Hdb Hrows] _ Hfp Hs] Hfresh Hsh Hpos Hl Hm. unfold merge_reply.
  assert (Z.of_nat (length (rows ++ pg)) < 2 ^ 31) as Hl' by (rewrite length_app; lia).
  rewrite Nat2Z.id, Hpos, copy_rows_spec by (done || lia).
  pose proof (shape_rows _ _ _ _ _ _ pg Hsh ltac:(lia)) as Hsh0.
  pose proof (shape_tag _ _ _ _ _ _ from ":latency" (text_data lat) ltac:(tag) Hsh0 ltac:(lia)) as Hsh1.
  destruct (dbtime_entry d _ from (rows ++ pg) _ _ _ _ Hdb Hs ltac:(lia) Hsh1)
    as (r & dbtime & d2 & -> & Hd2 & Hsh2). cbn [mbind option_bind].
  rewrite (keybuf64_entry from ":latency") by (done || cbn; lia). cbn [mbind option_bind].
  rewrite set_double_ok. cbn [negb Z.eqb]. rewrite Hd2. cbn [mbind option_bind negb Z.eqb].
  rewrite (get_uint64_spec _ _ (Z.of_nat (length rows))) by (unfold in_u; lia || apply Hsh2).
  cbn [mbind option_bind negb Z.eqb default from_option id].
  rewrite uwrap_small by (unfold in_u; lia). rewrite set_uint64_ok. cbn [negb Z.eqb].
  pose proof (shape_count _ _ _ _ _ _ (Z.of_nat (length rows) + Z.of_nat (length pg)) Hsh2
    ltac:(lia)) as Hsh3.
  rewrite (get_int32_spec _ _ mores) by (unfold in_s; lia || apply Hsh3).
  cbn [mbind option_bind negb Z.eqb default from_option id].
  rewrite swrap_small by (unfold in_s; destruct more; lia).
  rewrite uwrap_small by (unfold in_u; destruct more; lia).
  rewrite set_uint64_ok. cbn [negb Z.eqb].
  pose proof (shape_comeback _ _ _ _ _ _ (mores + if more then 1 else 0) Hsh3 ltac:(lia)) as Hsh4.
  rewrite !keybuf64_entry by (done || cbn; lia). cbn [mbind option_bind].
  pose proof (shape_entry _ _ _ _ _ _ from (Z.of_nat (length pg)) Hsh4 ltac:(lia) Hfresh) as Hsh5.
  rewrite set_uint64_ok. cbn [negb Z.eqb]. rewrite set_int32_ok. cbn [negb Z.eqb].
  rewrite set_double_ok. cbn [negb Z.eqb]. eexists. split; [done|]. cbn [ipc_xdata pos call_cnt].
  rewrite length_app, Nat2Z.inj_add in *. split_and!; [|done|done].
  apply shape_tag; [tag| |rewrite length_app; lia]. by apply shape_tag; [tag| |rewrite length_app; lia].
Qed.

(** ** All replies *)

(** What a server contributes: its name, a page and whether there is more. *)

Record part := { pt_from : list ascii; pt_rows : list (list ascii); pt_more : bool }.

Definition replies_with (rp : ipc_reply * list ascii) (p : part) : Prop :=
  ir_ret rp.1 <> -1 /\ exists d, ir_xdata rp.1 = Some d /\
    good_reply d (pt_from p) (pt_rows p) (pt_more p).

Definition more_count (ps : list part) : Z :=
  foldr (fun p n => (if pt_more p then 1 else 0) + n) 0 ps.

Lemma more_count_range ps : 0 <= more_count ps <= Z.of_nat (length ps).
Proof.
  unfold more_count. induction ps as [|p ps IH]; cbn [foldr length]; [lia|].
  destruct (pt_more p); lia.
Qed.

Definition part_rows (ps : list part) : list (list ascii) := concat (pt_rows <$> ps).

Lemma cbk_spec rp lat p rows mores names counts ipc :
  replies_with (rp, lat) p -> ~ pt_from p ∈ names ->
  shape (ipc_xdata ipc) rows (Z.of_nat (length rows)) mores names counts ->
  pos ipc = Z.of_nat (length rows) ->
  Z.of_nat (length rows) + Z.of_nat (length (pt_rows p)) < 2 ^ 31 -> 0 <= mores < 2 ^ 31 - 1 ->
  0 < call_cnt ipc < 2 ^ 31 ->
  exists ipc',
    dht_ipc_cbk rp lat ipc =
      Some (if call_cnt ipc =? 1 then Some (Some (ipc_xdata ipc')) else None, ipc') /\
    shape (ipc_xdata ipc') (rows ++ pt_rows p) (Z.of_nat (length (rows ++ pt_rows p)))
      (mores + if pt_more p then 1 else 0) (pt_from p :: names)
      (Z.of_nat (length (pt_rows p)) :: counts) /\
    pos ipc' = Z.of_nat (length (rows ++ pt_rows p)) /\ call_cnt ipc' = call_cnt ipc - 1.
Proof.
  intros (Hret & d & Hd & Hg) Hf Hsh Hpos Hl Hm Hcc. cbn [fst] in *. unfold dht_ipc_cbk.
  rewrite (proj2 (Z.eqb_neq _ _) Hret), Hd.
  destruct (reply_fields_spec _ _ _ _ Hg ltac:(lia)) as (t & _ & ->). cbn [mbind option_bind negb Z.eqb].
  destruct (merge_spec d _ _ _ t lat _ _ _ _ _ Hg Hf Hsh Hpos Hl Hm) as (ipc1 & -> & Hsh1 & Hp1 & Hc1).
  cbn [mbind option_bind]. unfold dht_ipc_return. rewrite Hc1.
  rewrite swrap_small by (unfold in_s; lia).
  assert ((call_cnt ipc - 1 =? 0) = (call_cnt ipc =? 1)) as ->
    by (apply Bool.eq_iff_eq_true; rewrite !Z.eqb_eq; lia).
  exists {| ipc_xdata := ipc_xdata ipc1; pos := pos ipc1; call_cnt := call_cnt ipc - 1 |}.
  split_and!; [reflexivity|exact Hsh1|exact Hp1|reflexivity].
Qed.

Lemma gather_spec rps ps rows mores names counts ipc :
  Forall2 replies_with rps ps -> rps <> [] ->
  NoDup (pt_from <$> ps) -> (forall p, p ∈ ps -> ~ pt_from p ∈ names) ->
  shape (ipc_xdata ipc) rows (Z.of_nat (length rows)) mores names counts ->
  pos ipc = Z.of_nat (length rows) ->
  Z.of_nat (length rows) + Z.of_nat (length (part_rows ps)) < 2 ^ 31 ->
  0 <= mores -> mores + Z.of_nat (length ps) < 2 ^ 31 - 1 -> call_cnt ipc = Z.of_nat (length ps) ->
  exists d ipc' counts', dht_gather rps ipc = Some (Some (Some d), ipc') /\
    shape d (rows ++ part_rows ps) (Z.of_nat (length (rows ++ part_rows ps)))
      (mores + more_count ps) (reverse (pt_from <$> ps) ++ names) (counts' ++ counts) /\
    Permutation counts' (Z.of_nat ∘ length ∘ pt_rows <$> ps).
Proof.
  intros Hrep. revert rows mores names counts ipc.
  induction Hrep as [|[rp lat] p rps ps Hp Hrep IH]; intros rows mores names counts ipc Hne Hnd Hfr
    Hsh Hpos Hl Hm0 Hm Hcc; [done|]. clear Hne. cbn [length] in *.
  change (part_rows (p :: ps)) with (pt_rows p ++ part_rows ps) in *. rewrite length_app in Hl.
  rewrite fmap_cons in Hnd. apply NoDup_cons in Hnd as [Hnp Hnd].
  destruct (cbk_spec rp lat p rows mores names counts ipc) as (ipc1 & Hc1 & Hsh1 & Hp1 & Hcc1);
    [done|apply Hfr; by left|done|done|lia|lia|lia|].
  cbn [dht_gather]. unfold m_bind. rewrite Hc1.
  change (more_count (p :: ps)) with ((if pt_more p then 1 else 0) + more_count ps).
  destruct (Z.eqb_spec (call_cnt ipc) 1) as [Hlast|Hmore].
  - destruct ps as [|]; [|cbn [length] in *; lia]. apply Forall2_nil_inv_r in Hrep as ->.
    eexists _, _, [_]. split; [done|]. cbn [fmap list_fmap more_count foldr part_rows concat].
    rewrite app_nil_r, Z.add_0_r. split; [exact Hsh1|done].
  - assert (rps <> []) as Hne.
    { intros ->. apply Forall2_nil_inv_l in Hrep as ->. cbn [length] in *. lia. }
    destruct (IH (rows ++ pt_rows p) (mores + if pt_more p then 1 else 0) (pt_from p :: names)
      (Z.of_nat (length (pt_rows p)) :: counts) ipc1 Hne Hnd) as (d & ipc' & counts' & Hg & Hsh' & Hperm);
      [|exact Hsh1|done|rewrite length_app; lia|destruct (pt_more p); lia..|lia|].
    { intros q Hq. rewrite not_elem_of_cons. split; [|apply Hfr; by right].
      intros E. apply Hnp. rewrite <- E. by apply (list_elem_of_fmap_2 pt_from). }
    exists d, ipc', (counts' ++ [Z.of_nat (length (pt_rows p))]). split; [done|].
    rewrite fmap_cons, reverse_cons, <- !app_assoc in *. cbn [app] in *.
    rewrite Z.add_assoc. split; [done|]. rewrite fmap_cons, Permutation_app_comm. cbn [app].
    by rewrite Hperm.
Qed.

Lemma start_shape calls : shape (ipc_xdata (dht_ipc_start calls)) [] 0 0 [] [].
Proof.
  unfold dht_ipc_start. rewrite set_uint64_ok, set_int32_ok. cbn [ipc_xdata].
  split; try done.
  - intros j _ Hj. by rewrite !get_set_ne by (by apply not_eq_sym, key_of_name).
  - intros x _. rewrite !get_set_ne; [done|..]; intros E;
      pose proof (entry_count_key x) as H; by rewrite <- E in H.
Qed.

Lemma start_calls calls : call_cnt (dht_ipc_start calls) = Z.of_nat calls.
Proof. unfold dht_ipc_start. by rewrite set_uint64_ok, set_int32_ok. Qed.

(** Replies before the last one. *)

Lemma gather_prefix rps ps tl rows mores names counts ipc :
  Forall2 replies_with rps ps ->
  NoDup (pt_from <$> ps) -> (forall p, p ∈ ps -> ~ pt_from p ∈ names) ->
  shape (ipc_xdata ipc) rows (Z.of_nat (length rows)) mores names counts ->
  pos ipc = Z.of_nat (length rows) ->
  Z.of_nat (length rows) + Z.of_nat (length (part_rows ps)) < 2 ^ 31 ->
  0 <= mores -> mores + Z.of_nat (length ps) < 2 ^ 31 - 1 ->
  Z.of_nat (length ps) < call_cnt ipc < 2 ^ 31 ->
  exists ipc', dht_gather (rps ++ tl) ipc = dht_gather tl ipc' /\
    call_cnt ipc' = call_cnt ipc - Z.of_nat (length ps).
Proof.
  intros Hrep. revert rows mores names counts ipc.
  induction Hrep as [|[rp lat] p rps ps Hp Hrep IH]; intros rows mores names counts ipc Hnd Hfr
    Hsh Hpos Hl Hm0 Hm Hcc; [exists ipc; split; [done|cbn [length]; lia]|]. cbn [length] in *.
  change (part_rows (p :: ps)) with (pt_rows p ++ part_rows ps) in *. rewrite length_app in Hl.
  rewrite fmap_cons in Hnd. apply NoDup_cons in Hnd as [Hnp Hnd].
  destruct (cbk_spec rp lat p rows mores names counts ipc) as (ipc1 & Hc1 & Hsh1 & Hp1 & Hcc1);
    [done|apply Hfr; by left|done|done|lia|lia|lia|].
  rewrite (proj2 (Z.eqb_neq _ _)) in Hc1 by lia.
  cbn [app dht_gather]. unfold m_bind. rewrite Hc1.
  destruct (IH (rows ++ pt_rows p) (mores + if pt_more p then 1 else 0) (pt_from p :: names)
    (Z.of_nat (length (pt_rows p)) :: counts) ipc1 Hnd) as (ipc' & Hg & Hc');
    [|exact Hsh1|done|rewrite length_app; lia|destruct (pt_more p); lia..|lia|].
  { intros q Hq. rewrite not_elem_of_cons. split; [|apply Hfr; by right].
    intros E. apply Hnp. rewrite <- E. by apply (list_elem_of_fmap_2 pt_from). }
  exists ipc'. split; [done|lia].
Qed.

(** The merged result of all replies. *)

Lemma sum_permutation l l' : Permutation l l' -> foldr Z.add 0 l = foldr Z.add 0 l'.
Proof. induction 1; cbn [foldr]; lia. Qed.

Lemma part_counts ps :
  foldr Z.add 0 (Z.of_nat ∘ length ∘ pt_rows <$> ps) = Z.of_nat (length (part_rows ps)).
Proof.
  induction ps as [|p ps IH]; [done|]. rewrite fmap_cons. cbn [foldr]. rewrite IH.
  change (part_rows (p :: ps)) with (pt_rows p ++ part_rows ps). rewrite length_app. cbn. lia.
Qed.

Lemma dht_ipc_shape rps ps :
  Forall2 replies_with rps ps -> rps <> [] -> NoDup (pt_from <$> ps) ->
  Z.of_nat (length (part_rows ps)) < 2 ^ 31 -> Z.of_nat (length ps) < 2 ^ 31 - 1 ->
  exists d names counts, dht_ipc rps = Some (Some (Some d)) /\
    shape d (part_rows ps) (Z.of_nat (length (part_rows ps))) (more_count ps) names counts /\
    foldr Z.add 0 counts = Z.of_nat (length (part_rows ps)) /\
    Forall (fun n => 0 <= n) counts /\ length counts = length ps.
Proof.
  intros Hrep Hne Hnd Hl Hp. pose proof (Forall2_length _ _ _ Hrep) as Hlen.
  destruct (gather_spec rps ps [] 0 [] [] (dht_ipc_start (length rps)))
    as (d & ipc' & counts & Hg & Hsh & Hperm);
    [done|done|done|intros p _; apply not_elem_of_nil|apply start_shape|done|
     cbn [length]; lia|done|lia|by rewrite <- Hlen|].
  unfold dht_ipc. rewrite Hg, !app_nil_r in *. eexists d, _, counts. split_and!; [done|exact Hsh| | |].
  - by rewrite (sum_permutation _ _ Hperm), part_counts.
  - rewrite Hperm. apply Forall_fmap, Forall_forall. intros p _. cbn. lia.
  - by rewrite Hperm, length_fmap.
Qed.

(** ** Properties *)

(** A request to all servers returns the union of their answers: when every
    reply has its fields and the servers have different names, then in whatever
    order the replies arrive nothing undefined happens, the last callback
    unwinds with a dictionary whose rows are exactly the rows of the replies in
    the order of arrival under the keys 0, 1, ..., whose count is their number,
    and whose [comeback] is the number of servers that have more rows. *)
Theorem dht_ipc_merges (rps : list (ipc_reply * list ascii)) (ps : list part) :
  Forall2 replies_with rps ps -> rps <> [] -> NoDup (pt_from <$> ps) ->
  Z.of_nat (length (part_rows ps)) < 2 ^ 31 -> Z.of_nat (length ps) < 2 ^ 31 - 1 ->
  exists d, dht_ipc rps = Some (Some (Some d)) /\
    rows_at d 0 (part_rows ps) /\
    (forall j, Z.of_nat (length (part_rows ps)) <= j -> in_u 64 j -> dict_get d (key_of j) = None) /\
    dict_get_uint64 d "count" = Some (0, Some (Z.of_nat (length (part_rows ps)))) /\
    dict_get_int32 d "comeback" = Some (0, Some (more_count ps)).
Proof.
  intros Hrep Hne Hnd Hl Hp.
  destruct (dht_ipc_shape rps ps Hrep Hne Hnd Hl Hp) as (d & names & counts & Hg & [Hr He Hc Hcb _ _] & _).
  pose proof (more_count_range ps).
  exists d. split_and!; [done|done|done|apply get_uint64_spec|apply get_int32_spec];
    (done || unfold in_u, in_s; lia).
Qed.

(** A reply that the child could not give, and one that it could. *)

Definition failed_reply : ipc_reply := {| ir_ret := -1; ir_errno := 107; ir_xdata := None |}.

(** When the last reply to arrive is a failure, the rows of all the other
    servers are lost: the request is unwound with a null dictionary and the
    code 0, because the result is only attached by a callback that merges. *)
Theorem dht_ipc_last_failure_loses_all (rps : list (ipc_reply * list ascii)) (ps : list part)
    (lat : list ascii) :
  Forall2 replies_with rps ps -> NoDup (pt_from <$> ps) ->
  Z.of_nat (length (part_rows ps)) < 2 ^ 31 -> Z.of_nat (length ps) < 2 ^ 31 - 2 ->
  dht_ipc (rps ++ [(failed_reply, lat)]) = Some (Some None).
Proof.
  intros Hrep Hnd Hl Hp. pose proof (Forall2_length _ _ _ Hrep) as Hlen.
  destruct (gather_prefix rps ps [(failed_reply, lat)] [] 0 [] []
    (dht_ipc_start (length (rps ++ [(failed_reply, lat)]))))
    as (ipc' & Hg & Hc); [done|done|intros p _; apply not_elem_of_nil|apply start_shape|done|
     cbn [length]; lia|done|lia|rewrite start_calls, length_app; cbn [length]; lia|].
  unfold dht_ipc. rewrite Hg. cbn [dht_gather]. unfold m_bind, dht_ipc_cbk, dht_ipc_return.
  cbn [ir_ret failed_reply Z.eqb]. rewrite Hc, start_calls, length_app.
  cbn [length].
  replace (Z.of_nat (length rps + 1) - Z.of_nat (length ps) - 1) with 0 by lia. done.
Qed.

(** ** Witnesses *)

Definition sample_reply : dict_t :=
  let set k (t : list ascii) d := (dict_set d k (Some (text_data t))).2 in
  set "from"%string (list_ascii_of_string "s1")
    (set "count"%string (dec 1) (set "ret"%string (dec 0) (set "comeback"%string (dec 0)
      (set "runtime"%string (list_ascii_of_string "0.5")
        (set (key_of 0) (list_ascii_of_string "/a|1") dict_new))))).

Definition sample_part : part :=
  {| pt_from := list_ascii_of_string "s1"; pt_rows := [list_ascii_of_string "/a|1"];
     pt_more := false |}.

Definition sample_rp : ipc_reply * list ascii :=
  ({| ir_ret := 0; ir_errno := 0; ir_xdata := Some sample_reply |}, list_ascii_of_string "0.6").

Lemma plain_check t :
  bool_decide (~ "000"%char ∈ t) && (Z.of_nat (length t) <? 2 ^ 31 - 1) = true -> plain t.
Proof.
  intros [H1 H2]%andb_true_iff. split; [by apply bool_decide_eq_true in H1|by apply Z.ltb_lt].
Qed.

Lemma sample_replies : Forall2 replies_with [sample_rp] [sample_part].
Proof.
  constructor; [|constructor]. split; [done|]. exists sample_reply. split; [done|].
  split; [|exists (list_ascii_of_string "0.5"); split|..]; try (apply plain_check; vm_compute; reflexivity);
    [|vm_compute; reflexivity|vm_compute; congruence].
  split; [vm_compute; reflexivity|vm_compute; reflexivity|vm_compute; reflexivity
    |vm_compute; reflexivity| |].
  - intros v Hv. vm_compute in Hv. discriminate.
  - intros [|k] r Hk; [injection Hk as <-; vm_compute; reflexivity|done].
Qed.

Lemma dht_ipc_merges_witness :
  exists d, dht_ipc [sample_rp] = Some (Some (Some d)) /\
    rows_at d 0 (part_rows [sample_part]) /\
    (forall j, 1 <= j -> in_u 64 j -> dict_get d (key_of j) = None) /\
    dict_get_uint64 d "count" = Some (0, Some 1) /\
    dict_get_int32 d "comeback" = Some (0, Some 0).
Proof.
  apply (dht_ipc_merges [sample_rp] [sample_part]).
  - apply sample_replies.
  - discriminate.
  - apply NoDup_singleton.
  - reflexivity.
  - reflexivity.
Defined.

Lemma dht_ipc_last_failure_loses_all_witness :
  dht_ipc ([sample_rp] ++ [(failed_reply, [])]) = Some (Some None).
Proof.
  apply (dht_ipc_last_failure_loses_all [sample_rp] [sample_part] []).
  - apply sample_replies.
  - apply NoDup_singleton.
  - reflexivity.
  - reflexivity.
Defined.
