(* ===== verification/Ixsql.v ===== *)
(** * The query tool, and a query from end to end

    tools/imess-cli/src: ixsql fetches the result of a query in slices through
    the distribution translator (DhtIpc.v) from every server (Query.v), and
    prints the rows of each slice. Replies may arrive in any order. *)

From Stdlib Require Import ZArith Lia Bool Ascii String.
From stdpp Require Import base list strings gmap.
From S2P Require Import Prelude Xdb CLib Dict DictTyped Query QuerySpec DhtIpc.

(** ** The request of a slice *)

Definition query_cmd (session sql : list ascii) (offset count : Z) (mask : list ascii)
    : dict_t :=
  let '(_, d) := dict_set_str dict_new "type" (Some (list_ascii_of_string "query")) in
  let '(_, d1) := dict_set_str d "session" (Some session) in
  let '(_, d2) := dict_set_str d1 "sql" (Some sql) in
  let '(_, d3) := dict_set_uint64 d2 "offset" offset in
  let '(_, d4) := dict_set_uint64 d3 "count" count in
  let '(_, d5) := dict_set_static_bin d4 "cmask" (Some mask) (Z.of_nat (length mask)) in d5.

(** ** The reply *)

(** The counts of all the servers are added to [*res_count]; the state is
    [None] when a value is read out of bounds. *)

Definition process_result_count_fn (key : string) (value : data_t) (res_count : option Z)
    : Z * option Z :=
  (0, r ← res_count; count ← data_to_uint64 (Some value); Some (u64 (r + count))).

(** The rows that are printed, from index [i]: a row that is not there ends the
    loop, an empty row is indexed at -1. *)

Fixpoint print_query_result (n : nat) (i : Z) (result : dict_t) : option (list (list ascii)) :=
  match n with
  | O => Some []
  | S n' =>
      let '(ret, row) := dict_get_str result (key_of i) in
      if negb (ret =? 0) then Some []
      else match cut <$> row with
           | None | Some [] => None
           | Some r => rest ← print_query_result n' (i + 1) result; Some (r :: rest)
           end
  end.

(** ** A cluster *)

Record server (conn : Type) := { sv_from : list ascii; sv_xdb : query_xdb conn }.
Arguments sv_from {conn}.
Arguments sv_xdb {conn}.
Arguments Build_server {conn}.

Section cluster.
Context {conn : Type} `{!SqlQuery conn}.
Variable clock : list ascii.

(** The replies of the servers among the targets to a request, and all servers
    afterwards; the first server has number [i]. *)

Fixpoint ask_all (cmd : dict_t) (targets : list nat) (i : nat) (svs : list (server conn))
    : option (list (ipc_reply * list ascii) * list (server conn)) :=
  match svs with
  | [] => Some ([], [])
  | sv :: svs' =>
      if negb (bool_decide (i ∈ targets)) then
        '(rps, svs'') ← ask_all cmd targets (S i) svs';
        Some (rps, sv :: svs'')
      else
      '((op_ret, op_errno, xd), x) ←
        ims_ipc_query_reply (sv_from sv) cmd clock clock (sv_xdb sv);
      '(rps, svs'') ← ask_all cmd targets (S i) svs';
      Some (({| ir_ret := op_ret; ir_errno := op_errno; ir_xdata := Some xd |}, clock) :: rps,
            {| sv_from := sv_from sv; sv_xdb := x |} :: svs'')
  end.

(** A slice, asked of all servers: [arrive k] is the order in which the replies
    to slice [k] arrive. The result dictionary is a null pointer when no server
    is active; the code is 0 in every case. *)

Variable arrive : nat -> list (ipc_reply * list ascii) -> list (ipc_reply * list ascii).

Definition ixsql_sql_query (k : nat) (session sql : list ascii) (offset count : Z)
    (svs : list (server conn)) : option (option dict_t * list (server conn)) :=
  let cmd := query_cmd session sql offset count (repeat "001"%char (length svs)) in
  if Z.of_nat (length svs) <=? 0 then Some (None, svs)
  else
    targets ← dht_ipc_targets (Some cmd) (length svs);
    targets ← targets;
    '(rps, svs') ← ask_all cmd targets 0 svs;
    reply ← dht_ipc (arrive k rps);
    result ← reply;
    Some (result, svs').

(** The loop of [process_sql_sliced]; the result is the code and the printed
    rows. A null result fails every access of the loop's body. *)

Fixpoint slices (fuel k : nat) (session sql : list ascii) (count offset res_count : Z)
    (svs : list (server conn)) : option (Z * list (list ascii)) :=
  match fuel with
  | O => None
  | S fuel' =>
      '(result, svs') ← ixsql_sql_query k session sql (u64 offset) (u64 count) svs;
      match result with
      | None => Some (- Xdb.EINVAL, [])
      | Some d =>
          let '(n, res) := dict_foreach_match d (fun k _ => count_key k)
                             process_result_count_fn (Some res_count) in
          res_count' ← res;
          if n =? 0 then Some (-1, [])
          else
            rows ← print_query_result (Z.to_nat res_count') 0 d;
            '(ret, comeback) ← dict_get_int32 d "comeback";
            if negb (ret =? 0) then Some (ret, rows)
            else if 0 <? default 0 comeback then
              '(ret, rest) ← slices fuel' (S k) session sql count (i32 (offset + count))
                               res_count' svs';
              Some (ret, rows ++ rest)
            else Some (0, rows)
      end
  end.

Definition process_sql_sliced (fuel : nat) (session sql : list ascii) (slice_count : Z)
    (svs : list (server conn)) : option (Z * list (list ascii)) :=
  slices fuel 0 session sql (i32 slice_count) 0 0 svs.

End cluster.

(** ** Lemmas *)

Lemma sliced_request session sql offset count mask :
  plain session -> plain sql -> in_u 64 offset -> in_u 64 count ->
  page_request (query_cmd session sql offset count mask) session sql offset count.
Proof.
  intros Hs Hq Ho Hc. unfold query_cmd, dict_set_str, dict_set_static_bin, str_to_data, bin_to_data.
  cbn [fmap option_fmap option_map].
  rewrite (set_zero _ "type"), (set_zero _ "session"), (set_zero _ "sql"), set_uint64_ok,
    set_uint64_ok, (set_zero _ "cmask").
  split; [done|done|..]; repeat (rewrite get_set_ne by done); apply get_set_eq.
Qed.

Lemma mask_calls_all n i : mask_calls (repeat "001"%char n) n i = Some (seq i n).
Proof. revert i. induction n as [|n IH]; intros i; [done|]. cbn. by rewrite IH. Qed.

Lemma targets_all session sql offset count n :
  dht_ipc_targets (Some (query_cmd session sql offset count (repeat "001"%char n))) n
  = Some (Some (seq 0 n)).
Proof.
  unfold query_cmd, dict_set_str, dict_set_static_bin, str_to_data, bin_to_data.
  cbn [fmap option_fmap option_map].
  rewrite (set_zero _ "type"), (set_zero _ "session"), (set_zero _ "sql"), set_uint64_ok,
    set_uint64_ok, (set_zero _ "cmask").
  unfold dht_ipc_targets. change dict_get_bin with dict_get_str. rewrite get_str_spec, get_set_eq.
  cbn. by rewrite mask_calls_all.
Qed.

Lemma foreach_counts (l : list (string * data_t)) counts n r :
  (List.filter (fun p => count_key p.1) l).*2 = (fun n => text_data (dec n)) <$> counts ->
  Forall (fun n => 0 <= n) counts -> 0 <= n -> 0 <= r -> n + Z.of_nat (length counts) < 2 ^ 31 ->
  r + foldr Z.add 0 counts < 2 ^ 63 ->
  foreach_match (fun k _ => count_key k) process_result_count_fn l n (Some r) =
  (n + Z.of_nat (length counts), Some (r + foldr Z.add 0 counts)).
Proof.
  revert counts n r. induction l as [|[k v] l IH]; intros counts n r Hl Hc Hn Hr Hb Hs;
    cbn [List.filter fst] in Hl; cbn [foreach_match length] in *.
  - destruct counts; [|done]. cbn. by rewrite !Z.add_0_r.
  - destruct (count_key k); [|apply (IH counts); (done || lia)].
    destruct counts as [|c counts]; [done|]. rewrite !fmap_cons in Hl. injection Hl as -> Hl.
    apply Forall_cons in Hc as [Hc0 Hc]. cbn [foldr length] in *.
    assert (0 <= foldr Z.add 0 counts) by (clear -Hc; induction Hc; cbn; lia).
    cbn [process_result_count_fn mbind option_bind].
    assert (data_to_uint64 (Some (text_data (dec c))) = Some c) as ->.
    { unfold data_to_uint64, data_to_old. rewrite dec_data_text by lia. cbn [mbind option_bind].
      rewrite strtol0_dec by (unfold in_s; lia). cbn [fst].
      by rewrite uwrap_small by (unfold in_u; lia). }
    cbn [mbind option_bind]. rewrite uwrap_small by (unfold in_u; lia).
    cbn [Z.ltb Z.compare]. rewrite swrap_small by (unfold in_s; lia).
    rewrite (IH counts) by (done || lia). f_equal; [lia|]. f_equal. lia.
Qed.

Lemma print_spec rows d n i :
  rows_at d i rows -> (length rows <= n)%nat -> 0 <= i ->
  Forall plain rows -> Forall (fun r => r <> []) rows ->
  (forall j, i + Z.of_nat (length rows) <= j -> in_u 64 j -> dict_get d (key_of j) = None) ->
  i + Z.of_nat n < 2 ^ 64 ->
  print_query_result n i d = Some rows.
Proof.
  revert rows i. induction n as [|n IH]; intros rows i Hr Hn Hi Hp Hne He Hb.
  { destruct rows; [done|]. cbn [length] in Hn. lia. }
  cbn [print_query_result]. rewrite get_str_spec. destruct rows as [|r rows].
  - rewrite He; [done|cbn [length]; lia|unfold in_u; lia].
  - pose proof (Hr 0%nat r eq_refl) as H0. rewrite Z.add_0_r in H0. rewrite H0.
    apply Forall_cons in Hp as [Hp0 Hp]. apply Forall_cons in Hne as [Hne0 Hne].
    cbn [d_data text_data negb Z.eqb fmap option_fmap option_map]. rewrite cut_text by done.
    cbn [length] in *. rewrite (IH rows (i + 1)); [by destruct r| |lia|lia|done|done| |lia].
    + intros k r' Hk. replace (i + 1 + Z.of_nat k) with (i + Z.of_nat (S k)) by lia. by apply Hr.
    + intros j Hj Hu. apply He; [lia|done].
Qed.

(** ** One slice *)

Section slice.
Context {conn : Type} `{!SqlQuery conn}.
Variable clock session sql : list ascii.
Hypothesis Hclock : plain clock.
Hypothesis Hsession : plain session /\ is_name (string_of_list_ascii session) = true.
Hypothesis Hsql : plain sql.

(** A server with a short name that can give the rows from [offset] on. *)

Definition can_serve (offset : Z) (sv : server conn) (rows : list (list ascii)) : Prop :=
  answers (sv_xdb sv) session sql rows offset /\ plain (sv_from sv) /\
  Z.of_nat (length (sv_from sv)) <= 55.

Definition part_of (offset count : Z) (sv : server conn) (rows : list (list ascii)) : part :=
  {| pt_from := sv_from sv; pt_rows := page rows offset count;
     pt_more := more_rows rows offset count |}.

Lemma can_serve_later o o' (x : query_xdb conn) rows :
  registered x session rows o -> o <= o' -> answers x session sql rows o'.
Proof.
  intros (s & Hs & Hr & Hu) Ho. right. exists s. split_and!; [done..|].
  intros j Hj. apply Hu. lia.
Qed.

Lemma ask_all_spec svs rss offset count mask targets i :
  (forall j, (i <= j < i + length svs)%nat -> j ∈ targets) ->
  Forall2 (can_serve offset) svs rss -> 0 <= offset -> 0 <= count -> offset + 10 ^ 9 < 2 ^ 64 ->
  in_u 64 count ->
  exists rps svs', ask_all clock (query_cmd session sql offset count mask) targets i svs
      = Some (rps, svs') /\
    Forall2 replies_with rps (zip_with (part_of offset count) svs rss) /\
    Forall2 (can_serve (offset + count)) svs' rss /\ (sv_from <$> svs') = (sv_from <$> svs).
Proof.
  intros Hin Hsv Ho Hc Hb Hcu. revert i Hin.
  induction Hsv as [|sv rows svs rss (Hans & Hfp & Hfs) Hsv IH]; intros i Hin.
  { by exists [], []. }
  cbn [length] in Hin. destruct (IH (S i)) as (rps & svs' & Hask & Hrep & Hnext & Hnames).
  { intros j Hj. apply Hin. lia. }
  cbn [ask_all]. rewrite bool_decide_eq_true_2 by (apply Hin; lia). cbn [negb].
  destruct (query_reply_spec (query_cmd session sql offset count mask) (sv_from sv) session
    sql rows offset count clock clock (sv_xdb sv)) as (r & x' & Hr & Hpr & Hrt & Hreg & _);
    [apply sliced_request; [apply Hsession|done|unfold in_u; lia|done]|done|apply Hsession|lia|done|].
  rewrite Hr. cbn [mbind option_bind]. rewrite Hask. cbn [mbind option_bind].
  eexists _, _. split; [done|]. pose proof (length_page rows offset count Ho Hc).
  split_and!; cbn [zip_with fmap list_fmap].
  - constructor; [|done]. split; [done|]. exists r. split; [done|].
    split; [done|by exists clock|done|done].
  - constructor; [|done]. split_and!; [|done|done]. eapply can_serve_later; [done|lia].
  - f_equal. exact Hnames.
Qed.

(** *** Rows of a slice *)

Lemma page_drop rows offset count :
  0 <= offset -> 0 <= count ->
  page rows offset count ++ drop (Z.to_nat (offset + count)) rows = drop (Z.to_nat offset) rows.
Proof.
  intros Ho Hc. unfold page. rewrite Z2Nat.inj_add, <- drop_drop by lia. apply take_drop.
Qed.

Lemma part_rows_zip offset count svs (rss : list (list (list ascii))) :
  length svs = length rss ->
  part_rows (zip_with (part_of offset count) svs rss) =
  concat ((fun rows => page rows offset count) <$> rss).
Proof.
  revert rss. induction svs as [|sv svs IH]; intros [|rows rss] Hl; try done.
  injection Hl as Hl. change (page rows offset count ++
    part_rows (zip_with (part_of offset count) svs rss) =
    page rows offset count ++ concat ((fun rows => page rows offset count) <$> rss)).
  by rewrite IH.
Qed.

Lemma concat_pages offset count (rss : list (list (list ascii))) :
  0 <= offset -> 0 <= count ->
  Permutation (concat ((fun rows => page rows offset count) <$> rss) ++
               concat (drop (Z.to_nat (offset + count)) <$> rss))
    (concat (drop (Z.to_nat offset) <$> rss)).
Proof.
  intros Ho Hc. induction rss as [|rows rss IH]; [done|]. rewrite !fmap_cons. cbn [concat].
  rewrite <- (page_drop rows offset count Ho Hc), <- IH, <- !app_assoc. apply Permutation_app_head.
  rewrite !app_assoc. apply Permutation_app_tail, Permutation_app_comm.
Qed.

(** Without more rows anywhere, the pages are all that is left. *)

Lemma no_more offset count svs (rss : list (list (list ascii))) :
  0 <= offset -> 0 <= count -> length svs = length rss ->
  more_count (zip_with (part_of offset count) svs rss) = 0 ->
  concat (drop (Z.to_nat (offset + count)) <$> rss) = [].
Proof.
  intros Ho Hc. revert rss. induction svs as [|sv svs IH]; intros [|rows rss] Hl Hm; try done.
  injection Hl as Hl. cbn [zip_with more_count foldr] in Hm.
  pose proof (more_count_range (zip_with (part_of offset count) svs rss)) as Hr.
  unfold more_count in *. cbn [part_of pt_more] in Hm.
  destruct (more_rows rows offset count) eqn:Hmore; [lia|].
  unfold more_rows in Hmore. apply Z.ltb_ge in Hmore. rewrite length_page in Hmore by lia.
  rewrite fmap_cons. cbn [concat]. rewrite drop_ge by lia. by apply IH.
Qed.

(** With more rows somewhere, the slice is not empty. *)

Lemma some_more offset count svs (rss : list (list (list ascii))) :
  0 <= offset -> 0 < count -> length svs = length rss ->
  0 < more_count (zip_with (part_of offset count) svs rss) ->
  (0 < length (concat ((fun rows => page rows offset count) <$> rss)))%nat /\
  offset + count < Z.of_nat (length (concat rss)).
Proof.
  intros Ho Hc. revert rss. induction svs as [|sv svs IH]; intros [|rows rss] Hl Hm; try done.
  injection Hl as Hl. cbn [zip_with more_count foldr] in Hm. cbn [part_of pt_more] in Hm.
  rewrite fmap_cons. cbn [concat]. rewrite !length_app.
  destruct (more_rows rows offset count) eqn:Hmore.
  - unfold more_rows in Hmore. apply Z.ltb_lt in Hmore.
    pose proof (length_page rows offset count Ho ltac:(lia)). lia.
  - destruct (IH rss Hl) as [H1 H2]; [unfold more_count; lia|]. lia.
Qed.

End slice.

(** ** All slices *)

Lemma Forall2_reorder {A B} (R : A -> B -> Prop) l l' k :
  Permutation l l' -> Forall2 R l k -> exists k', Permutation k k' /\ Forall2 R l' k'.
Proof.
  intros Hp. revert k. induction Hp as [|a l l' Hp IH|a b l|l1 l2 l3 Hp1 IH1 Hp2 IH2]; intros k Hk.
  - by exists k.
  - apply Forall2_cons_inv_l in Hk as (b & k1 & Hab & Hk & ->).
    destruct (IH k1 Hk) as (k' & Hk1 & Hk2). exists (b :: k'). split; [by constructor|by constructor].
  - apply Forall2_cons_inv_l in Hk as (x & k1 & Hax & Hk & ->).
    apply Forall2_cons_inv_l in Hk as (y & k2 & Hby & Hk & ->).
    exists (y :: x :: k2). split; [constructor|by repeat constructor].
  - destruct (IH1 k Hk) as (k1 & Hk1 & Hf1). destruct (IH2 k1 Hf1) as (k2 & Hk2 & Hf2).
    exists k2. split; [by etrans|done].
Qed.

Lemma part_rows_perm ps ps' : Permutation ps ps' -> Permutation (part_rows ps) (part_rows ps').
Proof.
  unfold part_rows. induction 1 as [|p ps ps' Hp IH|p q ps|]; [done| | |by etrans].
  - rewrite !fmap_cons. cbn [concat]. by rewrite IH.
  - rewrite !fmap_cons. cbn [concat]. rewrite !app_assoc. apply Permutation_app_tail, Permutation_app_comm.
Qed.

Lemma more_count_perm ps ps' : Permutation ps ps' -> more_count ps = more_count ps'.
Proof. unfold more_count. induction 1; cbn [foldr]; lia. Qed.

Section sliced.
Context {conn : Type} `{!SqlQuery conn}.
Variable clock session sql : list ascii.
Variable arrive : nat -> list (ipc_reply * list ascii) -> list (ipc_reply * list ascii).
Hypothesis Hclock : plain clock.
Hypothesis Hsession : plain session /\ is_name (string_of_list_ascii session) = true.
Hypothesis Hsql : plain sql.
Hypothesis Harrive : forall k l, Permutation (arrive k l) l.

(** Rows that can be printed. *)

Definition printable (rows : list (list ascii)) : Prop :=
  Forall (fun r => plain r /\ r <> []) rows.

#[global] Instance printable_proper : Proper (Permutation ==> iff) printable.
Proof. intros l l' Hl. unfold printable. by rewrite Hl. Qed.

Lemma printable_concat rss : Forall printable rss -> printable (concat rss).
Proof. induction 1 as [|rows rss H Hs IH]; [constructor|]. by apply Forall_app. Qed.

Lemma printable_pages offset count rss :
  Forall printable rss -> printable (concat ((fun rows => page rows offset count) <$> rss)).
Proof.
  intros H. apply printable_concat, Forall_fmap. eapply Forall_impl; [exact H|].
  intros rows Hr. apply Forall_take, Forall_drop, Hr.
Qed.

Lemma slice_merged k svs rss offset count mask :
  Forall2 (can_serve session sql offset) svs rss -> svs <> [] -> NoDup (sv_from <$> svs) ->
  0 <= offset -> 0 < count -> count < 2 ^ 31 -> offset + 10 ^ 9 < 2 ^ 64 ->
  Z.of_nat (length (concat ((fun rows => page rows offset count) <$> rss))) < 2 ^ 31 ->
  Z.of_nat (length svs) < 2 ^ 31 - 1 ->
  exists rps svs' d rows names counts,
    ask_all clock (query_cmd session sql offset count mask) (seq 0 (length svs)) 0 svs
      = Some (rps, svs') /\
    dht_ipc (arrive k rps) = Some (Some (Some d)) /\
    Forall2 (can_serve session sql (offset + count)) svs' rss /\
    (sv_from <$> svs') = (sv_from <$> svs) /\
    Permutation rows (concat ((fun rows => page rows offset count) <$> rss)) /\
    shape d rows (Z.of_nat (length rows)) (more_count (zip_with (part_of offset count) svs rss))
      names counts /\
    foldr Z.add 0 counts = Z.of_nat (length rows) /\ Forall (fun n => 0 <= n) counts /\
    length counts = length svs.
Proof.
  intros Hsv Hne Hnd Ho Hc Hc31 Hb Hl Hn. pose proof (Forall2_length _ _ _ Hsv) as Hlen.
  destruct (ask_all_spec clock session sql Hclock Hsession Hsql svs rss offset count mask
    (seq 0 (length svs)) 0) as (rps & svs' & Hask & Hrep & Hnext & Hnames);
    [intros j Hj; apply elem_of_seq; lia|done|lia|lia|lia|unfold in_u; lia|].
  destruct (Forall2_reorder _ rps (arrive k rps) _ (Permutation_sym (Harrive k rps)) Hrep) as (ps & Hps & Hrep').
  pose proof (part_rows_zip offset count svs rss Hlen) as Hzip.
  assert (length ps = length svs) as Hpl.
  { rewrite <- Hps, length_zip_with. lia. }
  assert (pt_from <$> zip_with (part_of offset count) svs rss = sv_from <$> svs) as Hfrom.
  { clear -Hlen. revert rss Hlen. induction svs as [|sv svs IH]; intros [|r rss] Hlen; try done.
    cbn [zip_with]. rewrite !fmap_cons. f_equal. apply IH. by injection Hlen. }
  destruct (dht_ipc_shape (arrive k rps) ps) as (d & names & counts & Hd & Hsh & Hsum & Hpos & Hcl).
  - done.
  - intros E. rewrite E in Hrep'. apply Forall2_nil_inv_l in Hrep' as ->. by destruct svs.
  - rewrite <- Hps, Hfrom. done.
  - by rewrite <- (part_rows_perm _ _ Hps), Hzip.
  - lia.
  - exists rps, svs', d, (part_rows ps), names, counts.
    rewrite <- (part_rows_perm _ _ Hps) at 1. rewrite Hzip.
    rewrite (more_count_perm _ _ Hps). split_and!; try done. lia.
Qed.

Lemma slices_spec fuel k svs rss offset count res :
  Forall2 (can_serve session sql offset) svs rss -> svs <> [] -> NoDup (sv_from <$> svs) ->
  Forall printable rss -> Z.of_nat (length svs) < 2 ^ 31 - 1 ->
  Z.of_nat (length (concat rss)) < 2 ^ 31 -> 0 < count < 2 ^ 31 ->
  0 <= offset <= Z.of_nat (length (concat rss)) -> 0 <= res ->
  res + Z.of_nat (length (concat (drop (Z.to_nat offset) <$> rss))) < 2 ^ 31 ->
  (length (concat (drop (Z.to_nat offset) <$> rss)) < fuel)%nat ->
  exists printed, slices clock arrive fuel k session sql count offset res svs = Some (0, printed) /\
    Permutation printed (concat (drop (Z.to_nat offset) <$> rss)).
Proof.
  revert k svs offset res. induction fuel as [|fuel IH];
    intros k svs offset res Hsv Hne Hnd Hpr Hn Htot Hc Ho Hres Hl Hfuel; [lia|].
  pose proof (Forall2_length _ _ _ Hsv) as Hlen.
  pose proof (concat_pages offset count rss ltac:(lia) ltac:(lia)) as Hcat.
  pose proof (f_equal Z.of_nat (Permutation_length Hcat)) as Hcl. rewrite length_app, Nat2Z.inj_add in Hcl.
  cbn [slices]. rewrite !uwrap_small by (unfold in_u; lia).
  destruct (slice_merged k svs rss offset count (repeat "001"%char (length svs)))
    as (rps & svs' & d & rows & names & counts & Hask & Hd & Hnext & Hnames & Hrows & Hsh & Hsum & Hpos & Hcnt);
    [done|done|done|lia|lia|lia|lia|lia|lia|].
  pose proof (f_equal Z.of_nat (Permutation_length Hrows)) as Hrl.
  pose proof (more_count_range (zip_with (part_of offset count) svs rss)) as Hmr.
  rewrite length_zip_with in Hmr.
  unfold ixsql_sql_query.
  rewrite (proj2 (Z.leb_gt _ _)) by (destruct svs; cbn [length] in *; (done || lia)).
  rewrite targets_all. cbn [mbind option_bind].
  rewrite Hask. cbn [mbind option_bind]. rewrite Hd. cbn [mbind option_bind].
  unfold dict_foreach_match.
  rewrite (foreach_counts _ counts) by (first [apply Hsh|done|lia]). cbn [mbind option_bind].
  rewrite (proj2 (Z.eqb_neq _ _)) by (rewrite Hcnt; destruct svs; cbn [length] in *; (done || lia)).
  assert (Forall plain rows /\ Forall (fun r => r <> []) rows) as [Hp1 Hp2].
  { pose proof (printable_pages offset count rss Hpr) as Hpp. rewrite <- Hrows in Hpp.
    split; eapply Forall_impl; try exact Hpp; naive_solver. }
  rewrite (print_spec rows) by (first [apply Hsh|done|lia]). cbn [mbind option_bind].
  rewrite (get_int32_spec _ _ (more_count (zip_with (part_of offset count) svs rss)))
    by (first [apply Hsh|unfold in_s; lia]).
  cbn [mbind option_bind negb Z.eqb default from_option id].
  destruct (Z.ltb_spec 0 (more_count (zip_with (part_of offset count) svs rss))) as [Hmore|Hlast].
  - destruct (some_more offset count svs rss ltac:(lia) ltac:(lia) Hlen Hmore) as [Hpos' Hoff].
    rewrite swrap_small by (unfold in_s; lia).
    destruct (IH (S k) svs' (offset + count) (res + foldr Z.add 0 counts)) as (rest & -> & Hrest);
      [done| |by rewrite Hnames|done| |done|done|lia|lia|lia|lia|].
    { intros ->. by destruct svs. }
    { apply (f_equal length) in Hnames. rewrite !length_fmap in Hnames. lia. }
    cbn [mbind option_bind]. exists (rows ++ rest). split; [done|]. by rewrite Hrows, Hrest.
  - exists rows. split; [done|]. rewrite Hrows, <- Hcat.
    by rewrite (no_more offset count svs rss), app_nil_r by lia.
Qed.

End sliced.

(** ** Properties *)

(** C9. A sliced query prints the union of the answers of all servers: every
    server's database answers the query with some rows (each row fits its
    buffer and is not empty), the session is new on every server, the servers
    have different names of at most 55 bytes. Then for every slice size, and whatever the order in
    which the replies to each slice arrive, the tool ends with code 0 after at
    most one slice more than there are rows, and has printed every row of every
    server exactly once. *)
Theorem sliced_query_complete {conn} `{!SqlQuery conn} (clock session sql : list ascii)
    (arrive : nat -> list (ipc_reply * list ascii) -> list (ipc_reply * list ascii))
    (svs : list (server conn)) (rss : list (list (list ascii))) (slice_count : Z) (fuel : nat) :
  plain clock -> plain session -> is_name (string_of_list_ascii session) = true -> plain sql ->
  (forall k l, Permutation (arrive k l) l) ->
  Forall2 (fun sv rows => answers (sv_xdb sv) session sql rows 0 /\ plain (sv_from sv) /\
    Z.of_nat (length (sv_from sv)) <= 55 /\ printable rows) svs rss ->
  svs <> [] -> NoDup (sv_from <$> svs) -> Z.of_nat (length svs) < 2 ^ 31 - 1 ->
  Z.of_nat (length (concat rss)) < 2 ^ 31 -> 0 < slice_count < 2 ^ 31 ->
  (length (concat rss) < fuel)%nat ->
  exists printed,
    process_sql_sliced clock arrive fuel session sql slice_count svs = Some (0, printed) /\
    Permutation printed (concat rss).
Proof.
  intros Hcl Hse Hn Hq Har Hsv Hne Hnd Hlen Htot Hsl Hf. unfold process_sql_sliced.
  rewrite swrap_small by (unfold in_s; lia).
  assert (drop (Z.to_nat 0) <$> rss = rss) as Hd.
  { rewrite <- (list_fmap_id rss) at 2. by apply list_fmap_ext. }
  destruct (slices_spec clock session sql arrive Hcl (conj Hse Hn) Hq Har fuel 0 svs rss 0
    slice_count 0) as (printed & Hs & Hp); rewrite ?Hd; try (done || lia).
  - eapply Forall2_impl; [exact Hsv|]. intros sv rows (?&?&?&?). by split_and!.
  - clear -Hsv. induction Hsv as [|sv rows svs rss (_ & _ & _ & H) _ IH]; by constructor.
  - rewrite Hd in Hp. by exists printed.
Qed.

(** A database that answers every query with the same rows. *)

#[global] Instance const_query : SqlQuery (Z * list row) := fun _ c => (c, c).

Definition lit (s : string) : list ascii := list_ascii_of_string s.

Definition new_server (from : string) (code : Z) (rows : list row) : server (Z * list row) :=
  {| sv_from := lit from;
     sv_xdb := {| q_conn := (code, rows); q_db_ret := 0; qrset := ∅ |} |}.

Definition two_rows : list row := [[Some (lit "/a"); Some (lit "1")]; [Some (lit "/b"); None]].

Definition sample_cmd (offset count : Z) : dict_t :=
  query_cmd (lit "host:7:0") (lit "select") offset count [].

Definition sample_clock : list ascii := lit "0.000020".

(** The first [n] answers of a server to the same request. *)

Fixpoint ask_again (n : nat) (cmd : dict_t) (sv : server (Z * list row))
    : option (list (Z * Z * nat)) :=
  match n with
  | O => Some []
  | S n' =>
      '((ret, err, d), x) ← ims_ipc_query_reply (sv_from sv) cmd sample_clock sample_clock (sv_xdb sv);
      l ← ask_again n' cmd {| sv_from := sv_from sv; sv_xdb := x |};
      Some ((ret, err, length (members_list d)) :: l)
  end.

(** A page can be read once: the reply takes the rows over from the
    registered result, so that asking for the same page again reads freed
    memory, while the next page is still there. *)
Theorem page_twice_undefined :
  is_Some (ask_again 1 (sample_cmd 0 1) (new_server "s1" 0 two_rows)) /\
  ask_again 2 (sample_cmd 0 1) (new_server "s1" 0 two_rows) = None.
Proof. split; [eexists|]; vm_compute; reflexivity. Qed.

(** When the database refuses a query, the request fails with the error
    number 0: the error that the query set is overwritten on the way out. *)
Theorem query_error_lost {conn} `{!SqlQuery conn} (from session sql dbtime runtime : list ascii)
    (offset count : Z) (d : dict_t) (x : query_xdb conn) (code : Z) (rs : list row) (c : conn) :
  page_request d session sql offset count ->
  qrset x !! string_of_list_ascii session = None ->
  sqlite3_query sql (q_conn x) = ((code, rs), c) -> code <> 0 ->
  Forall row_ok rs -> Z.of_nat (length rs) <= 10 ^ 9 ->
  exists r x', ims_ipc_query_reply from d dbtime runtime x = Some ((-1, 0, r), x') /\
    q_db_ret x' = code.
Proof.
  intros Hrq Hnone Hq Hcode Hrs Hn. pose proof (rq_plain _ _ _ _ _ Hrq) as [Hps Hpq].
  unfold ims_ipc_query_reply, dict_set_str, str_to_data. cbn [fmap option_fmap option_map].
  rewrite set_zero. cbn [negb Z.eqb]. unfold ims_ipc_query.
  rewrite get_str_spec, (rq_session _ _ _ _ _ Hrq). cbn [d_data text_data negb Z.eqb].
  rewrite (get_uint64_spec d "offset" offset) by apply Hrq.
  rewrite (get_uint64_spec d "count" count) by apply Hrq.
  cbn [m_deref]. rewrite !m_bind_ret. change (Z.lor 0 0) with 0. cbn [negb Z.eqb].
  unfold name_of. cbn [fmap option_fmap option_map]. rewrite cut_text by done.
  unfold m_bind at 1, ims_xdb_get_result, m_bind at 1, m_get, m_ret. cbn [mbind option_bind].
  rewrite Hnone. unfold m_bind, ims_ipc_new_query.
  rewrite !get_str_spec, (rq_session _ _ _ _ _ Hrq), (rq_sql _ _ _ _ _ Hrq).
  cbn [d_data text_data]. change (Z.lor 0 0) with 0. cbn [negb Z.eqb].
  unfold text_of. cbn [fmap option_fmap option_map]. rewrite cut_text by done.
  unfold m_bind, ims_xdb_direct_query. rewrite Hq, deliver_spec by (done || lia).
  cbn [mbind option_bind negb Z.eqb]. rewrite (proj2 (Z.eqb_neq _ _) Hcode). cbn [negb].
  by eexists _, _.
Qed.

(** ** Witnesses *)

Definition sample_servers : list (server (Z * list row)) :=
  [new_server "s1" 0 two_rows; new_server "s2" 0 [[Some (lit "/c")]]].

Definition sample_rows : list (list (list ascii)) :=
  [[lit "/a|1"; lit "/b|(null)"]; [lit "/c"]].

Definition backwards (k : nat) (l : list (ipc_reply * list ascii)) : list (ipc_reply * list ascii) :=
  if Nat.even k then rev l else l.

Lemma sample_answers :
  Forall2 (fun sv rows => answers (sv_xdb sv) (lit "host:7:0") (lit "select from") rows 0 /\
    plain (sv_from sv) /\ Z.of_nat (length (sv_from sv)) <= 55 /\ printable rows)
    sample_servers sample_rows.
Proof.
  repeat constructor; try (apply plain_check; vm_compute; reflexivity); try done.
  - exists two_rows, (0, two_rows). split_and!; [done| |done|done].
    repeat constructor; vm_compute; congruence.
  - exists [[Some (lit "/c")]], (0, [[Some (lit "/c")]]). split_and!; [done| |done|done].
    repeat constructor; vm_compute; congruence.
Qed.

Lemma sliced_query_complete_witness :
  exists printed,
    process_sql_sliced sample_clock backwards 4 (lit "host:7:0") (lit "select from") 1
      sample_servers = Some (0, printed) /\
    Permutation printed (concat sample_rows).
Proof.
  apply (sliced_query_complete sample_clock (lit "host:7:0") (lit "select from") backwards
    sample_servers sample_rows 1 4).
  - apply plain_check. vm_compute. reflexivity.
  - apply plain_check. vm_compute. reflexivity.
  - vm_compute. reflexivity.
  - apply plain_check. vm_compute. reflexivity.
  - intros k l. unfold backwards. destruct (Nat.even k); [|reflexivity].
    symmetry. apply Permutation_rev.
  - apply sample_answers.
  - discriminate.
  - apply (bool_decide_eq_true_1 (NoDup _)). vm_compute. reflexivity.
  - reflexivity.
  - reflexivity.
  - split; reflexivity.
  - cbn. lia.
Defined.

Lemma query_error_lost_witness :
  exists r x', ims_ipc_query_reply (lit "s1") (sample_cmd 0 1) [] []
      (sv_xdb (new_server "s1" 1 [])) = Some ((-1, 0, r), x') /\ q_db_ret x' = 1.
Proof.
  apply (query_error_lost (lit "s1") (lit "host:7:0") (lit "select") [] [] 0 1 (sample_cmd 0 1)
    (sv_xdb (new_server "s1" 1 [])) 1 [] (1, [])).
  - apply sliced_request; [apply plain_check; vm_compute; reflexivity..|split; lia|split; lia].
  - reflexivity.
  - reflexivity.
  - discriminate.
  - constructor.
  - discriminate.
Defined.
