(* ===== verification/EcField.v ===== *)
(** * The Galois field of the erasure code

    The field of 256 elements behind xlators/cluster/ec/src: the logarithm
    tables that ec_method_initialize builds, and multiplication and division
    through them (ec-method.c). The reference is multiplication of polynomials
    over two elements modulo the polynomial EC_GF_MOD, a number standing for
    the polynomial with its bits as coefficients. *)

From Stdlib Require Import ZArith Lia Bool.
From stdpp Require Import base list.
From S2P Require Import Prelude.

Definition EC_GF_BITS : Z := 8.
Definition EC_GF_MOD : Z := 0x11D.
Definition EC_GF_SIZE : Z := Z.shiftl 1 EC_GF_BITS.

(** ** The tables *)

Record gf_tables := { GfPow : list Z; GfLog : list Z }.

Definition get (t : list Z) (i : Z) : option Z := if i <? 0 then None else t !! Z.to_nat i.

(** Storing outside of a table is undefined. *)

Definition put (t : list Z) (i v : Z) : option (list Z) :=
  if (i <? 0) || (Z.of_nat (length t) <=? i) then None else Some (<[Z.to_nat i := u32 v]> t).

(** One turn of the loop of [ec_method_initialize]. *)

Definition initialize_turn (i : nat) (t : gf_tables) : option gf_tables :=
  let i := Z.of_nat i in
  p ← get (GfPow t) (i - 1);
  pw ← put (GfPow t) i (Z.shiftl p 1);
  v ← get pw i;
  pw ← (if EC_GF_SIZE <=? v then put pw i (Z.lxor v EC_GF_MOD) else Some pw);
  v ← get pw i;
  pw ← put pw (i + EC_GF_SIZE - 1) v;
  lg ← put (GfLog t) v i;
  lg ← put lg (v + EC_GF_SIZE - 1) i;
  Some {| GfPow := pw; GfLog := lg |}.

Definition ec_method_initialize : option gf_tables :=
  let zeros := repeat 0 (Z.to_nat (Z.shiftl EC_GF_SIZE 1)) in
  pw ← put zeros 0 1;
  lg ← put zeros 0 EC_GF_SIZE;
  for_loop (Z.to_nat (EC_GF_SIZE - 1)) 1 initialize_turn {| GfPow := pw; GfLog := lg |}.

(** The tables after initialization. *)

Definition tables : gf_tables :=
  Eval vm_compute in default {| GfPow := []; GfLog := [] |} ec_method_initialize.

(** ** Multiplication and division *)

Definition ec_method_mul (a b : Z) : option Z :=
  if negb (a =? 0) && negb (b =? 0) then
    la ← get (GfLog tables) a; lb ← get (GfLog tables) b;
    get (GfPow tables) (u32 (la + lb))
  else Some 0.

Definition ec_method_div (a b : Z) : option Z :=
  if negb (b =? 0) then
    if negb (a =? 0) then
      la ← get (GfLog tables) a; lb ← get (GfLog tables) b;
      get (GfPow tables) (u32 (EC_GF_SIZE - 1 + la - lb))
    else Some 0
  else Some EC_GF_SIZE.

(** ** Reference multiplication *)

(** Multiplication by the polynomial X. *)

Definition xtime (a : Z) : Z :=
  if 128 <=? a then Z.lxor (2 * a) EC_GF_MOD else 2 * a.

(** The sum of the [a] X^i over the bits [i] of [b]. *)

Fixpoint gmul_bits (n : nat) (a b : Z) : Z :=
  match n with
  | O => 0
  | S n' => Z.lxor (if Z.odd b then a else 0) (gmul_bits n' (xtime a) (Z.div2 b))
  end.

Definition gmul (a b : Z) : Z := gmul_bits 8 a b.

Fixpoint gpow (a : Z) (n : nat) : Z :=
  match n with O => 1 | S n' => gmul a (gpow a n') end.

Definition byte (a : Z) : Prop := 0 <= a < 256.

(** Powers and logarithms of the generator, from the tables. *)

Definition gexp (k : Z) : Z := default 0 (get (GfPow tables) k).
Definition glog (a : Z) : Z := default 0 (get (GfLog tables) a).
Definition ginv (a : Z) : Z := gexp (255 - glog a).

(** ** Lemmas *)

Lemma initialize_tables : ec_method_initialize = Some tables.
Proof. vm_compute. reflexivity. Qed.

Lemma lxor_byte a b : byte a -> byte b -> byte (Z.lxor a b).
Proof. apply (lxor_range 8). done. Qed.

Lemma check2 (p : Z -> Z -> bool) :
  check_below (fun a => check_below (p a) 256) 256 = true ->
  forall a b, byte a -> byte b -> p a b = true.
Proof.
  intros H a b Ha Hb. pose proof (check_below_spec _ _ H a Ha) as Hab. cbn beta in Hab.
  exact (check_below_spec _ _ Hab b Hb).
Qed.

Lemma xtime_lxor a b : byte a -> byte b -> xtime (Z.lxor a b) = Z.lxor (xtime a) (xtime b).
Proof.
  intros Ha Hb. apply Z.eqb_eq.
  apply (check2 (fun a b => xtime (Z.lxor a b) =? Z.lxor (xtime a) (xtime b))); [|done..].
  vm_compute. reflexivity.
Qed.

Lemma xtime_byte a : byte a -> byte (xtime a).
Proof.
  intros Ha. pose proof (check_below_spec (fun a => (0 <=? xtime a) && (xtime a <? 256)) 256) as H.
  specialize (H ltac:(vm_compute; reflexivity) a Ha). cbn beta in H. unfold byte. lia.
Qed.

Lemma gmul_bits_byte n a b : byte a -> byte (gmul_bits n a b).
Proof.
  revert a b. induction n as [|n IH]; intros a b Ha; cbn [gmul_bits]; [unfold byte; lia|].
  apply lxor_byte; [|by apply IH, xtime_byte]. by destruct (Z.odd b); [|unfold byte; lia].
Qed.

Lemma gmul_byte a b : byte a -> byte (gmul a b).
Proof. apply gmul_bits_byte. Qed.

Lemma lxor_swap a b c d : Z.lxor (Z.lxor a b) (Z.lxor c d) = Z.lxor (Z.lxor a c) (Z.lxor b d).
Proof.
  rewrite !Z.lxor_assoc. f_equal. rewrite <- !Z.lxor_assoc. f_equal. apply Z.lxor_comm.
Qed.

Lemma gmul_bits_lxor n a a' b :
  byte a -> byte a' -> gmul_bits n (Z.lxor a a') b = Z.lxor (gmul_bits n a b) (gmul_bits n a' b).
Proof.
  revert a a' b. induction n as [|n IH]; intros a a' b Ha Ha'; cbn [gmul_bits]; [done|].
  rewrite xtime_lxor, IH by auto using xtime_byte. rewrite lxor_swap. f_equal.
  by destruct (Z.odd b).
Qed.

Lemma gmul_lxor_l a a' b : byte a -> byte a' -> gmul (Z.lxor a a') b = Z.lxor (gmul a b) (gmul a' b).
Proof. apply gmul_bits_lxor. Qed.

Lemma gmul_comm a b : byte a -> byte b -> gmul a b = gmul b a.
Proof.
  intros Ha Hb. apply Z.eqb_eq. apply (check2 (fun a b => gmul a b =? gmul b a)); [|done..].
  vm_compute. reflexivity.
Qed.

Lemma gmul_lxor_r a b b' :
  byte a -> byte b -> byte b' -> gmul a (Z.lxor b b') = Z.lxor (gmul a b) (gmul a b').
Proof.
  intros Ha Hb Hb'. rewrite !(gmul_comm a) by auto using lxor_byte. by apply gmul_lxor_l.
Qed.

Lemma gmul_0_l b : gmul 0 b = 0.
Proof. unfold gmul. cbn. repeat case_match; done. Qed.

Lemma gmul_0_r a : byte a -> gmul a 0 = 0.
Proof. intros Ha. rewrite gmul_comm, gmul_0_l by (done || unfold byte; lia). done. Qed.

Lemma gmul_1_l b : byte b -> gmul 1 b = b.
Proof.
  intros Hb. apply Z.eqb_eq.
  apply (check_below_spec (fun b => gmul 1 b =? b) 256); [|done]. vm_compute. reflexivity.
Qed.

Lemma gmul_1_r a : byte a -> gmul a 1 = a.
Proof. intros Ha. rewrite gmul_comm, gmul_1_l by (done || unfold byte; lia). done. Qed.

(** Logarithms and powers. *)

Definition nonzero (a : Z) : Prop := 1 <= a < 256.

Definition log_ok (a : Z) : bool :=
  (a =? 0) || ((1 <=? glog a) && (glog a <=? 255) && (gexp (glog a) =? a) && (gexp (glog a mod 255) =? a)
               && bool_decide (get (GfLog tables) a = Some (glog a))).

Lemma glog_spec a :
  nonzero a -> 1 <= glog a <= 255 /\ gexp (glog a) = a /\ gexp (glog a mod 255) = a /\
    get (GfLog tables) a = Some (glog a).
Proof.
  intros Ha. assert (log_ok a = true) as H.
  { apply (check_below_spec log_ok 256); [vm_compute; reflexivity|]. unfold nonzero in Ha. lia. }
  unfold log_ok in H. unfold nonzero in Ha. rewrite (proj2 (Z.eqb_neq a 0)) in H by lia.
  cbn [orb] in H. rewrite !andb_true_iff in H. destruct H as [[[[H1 H2] H3] H4] H5].
  apply bool_decide_eq_true_1 in H5. repeat split; try lia; done.
Qed.

Definition exp_ok (k : Z) : bool :=
  (1 <=? gexp k) && (gexp k <? 256) && (glog (gexp k) mod 255 =? k mod 255)
  && bool_decide (get (GfPow tables) k = Some (gexp k)) && (gexp k =? gexp (k mod 255)).

Lemma gexp_spec k :
  0 <= k <= 510 -> nonzero (gexp k) /\ glog (gexp k) mod 255 = k mod 255 /\
    get (GfPow tables) k = Some (gexp k) /\ gexp k = gexp (k mod 255).
Proof.
  intros Hk. assert (exp_ok k = true) as H.
  { apply (check_below_spec exp_ok 511); [vm_compute; reflexivity|]. lia. }
  unfold exp_ok in H. rewrite !andb_true_iff in H. destruct H as [[[[H1 H2] H3] H4] H5].
  apply bool_decide_eq_true_1 in H4. unfold nonzero. repeat split; try lia; done.
Qed.

Lemma gmul_log a b : nonzero a -> nonzero b -> gmul a b = gexp ((glog a + glog b) mod 255).
Proof.
  intros Ha Hb. unfold nonzero in *.
  assert ((a =? 0) || (b =? 0) || (gmul a b =? gexp ((glog a + glog b) mod 255)) = true) as H; [|lia].
  apply (check2 (fun a b => (a =? 0) || (b =? 0) || (gmul a b =? gexp ((glog a + glog b) mod 255))));
    [|unfold byte; lia..]. vm_compute. reflexivity.
Qed.

Lemma nonzero_byte a : nonzero a -> byte a.
Proof. unfold nonzero, byte. lia. Qed.

Lemma mod_255 k : 0 <= k mod 255 <= 510.
Proof. pose proof (Z.mod_pos_bound k 255). lia. Qed.

Lemma gmul_nonzero a b : nonzero a -> nonzero b -> nonzero (gmul a b).
Proof. intros Ha Hb. rewrite gmul_log by done. apply gexp_spec, mod_255. Qed.

Lemma glog_gmul a b :
  nonzero a -> nonzero b -> glog (gmul a b) mod 255 = (glog a + glog b) mod 255.
Proof.
  intros Ha Hb. rewrite gmul_log by done.
  destruct (gexp_spec _ (mod_255 (glog a + glog b))) as (_ & -> & _). by rewrite Z.mod_mod.
Qed.

Lemma byte_cases a : byte a -> a = 0 \/ nonzero a.
Proof. unfold byte, nonzero. lia. Qed.

Lemma gmul_assoc a b c : byte a -> byte b -> byte c -> gmul a (gmul b c) = gmul (gmul a b) c.
Proof.
  intros Ha Hb Hc.
  destruct (byte_cases a Ha) as [->|Na]; [by rewrite !gmul_0_l|].
  destruct (byte_cases b Hb) as [->|Nb]; [by rewrite gmul_0_r, !gmul_0_l, gmul_0_r by done|].
  destruct (byte_cases c Hc) as [->|Nc]; [by rewrite !gmul_0_r by auto using gmul_byte|].
  rewrite (gmul_log a (gmul b c)), (gmul_log (gmul a b) c) by auto using gmul_nonzero.
  rewrite <- (Z.add_mod_idemp_r (glog a)), <- (Z.add_mod_idemp_l _ (glog c)), !glog_gmul by done.
  rewrite Z.add_mod_idemp_r, Z.add_mod_idemp_l by done. by rewrite Z.add_assoc.
Qed.

Lemma ginv_spec a : nonzero a -> nonzero (ginv a) /\ gmul (ginv a) a = 1.
Proof.
  intros Ha. destruct (glog_spec a Ha) as (Hl & He & _). unfold ginv.
  destruct (gexp_spec (255 - glog a)) as (Hn & Hlg & _); [lia|]. split; [done|].
  rewrite gmul_log by done. rewrite <- Z.add_mod_idemp_l, Hlg, Z.add_mod_idemp_l by done.
  by replace (255 - glog a + glog a) with 255 by lia.
Qed.

(** The C functions. *)

Lemma ec_method_mul_spec a b : byte a -> byte b -> ec_method_mul a b = Some (gmul a b).
Proof.
  intros Ha Hb. unfold ec_method_mul.
  destruct (byte_cases a Ha) as [->|Na]; [by rewrite gmul_0_l|].
  destruct (byte_cases b Hb) as [->|Nb].
  { rewrite gmul_0_r by done. by destruct (a =? 0). }
  unfold nonzero in *. rewrite !(proj2 (Z.eqb_neq _ _)) by lia. cbn [negb andb].
  destruct (glog_spec a Na) as (La & _ & _ & ->). destruct (glog_spec b Nb) as (Lb & _ & _ & ->).
  cbn [mbind option_bind]. rewrite uwrap_small by (unfold in_u; lia).
  destruct (gexp_spec (glog a + glog b)) as (_ & _ & -> & ->); [lia|]. by rewrite gmul_log.
Qed.

Lemma ec_method_div_spec a b : byte a -> nonzero b -> ec_method_div a b = Some (gmul a (ginv b)).
Proof.
  intros Ha Nb. unfold ec_method_div. unfold nonzero in Nb.
  rewrite (proj2 (Z.eqb_neq b 0)) by lia. cbn [negb].
  destruct (byte_cases a Ha) as [->|Na]; [by rewrite gmul_0_l|].
  unfold nonzero in Na. rewrite (proj2 (Z.eqb_neq a 0)) by lia. cbn [negb].
  destruct (glog_spec a Na) as (La & _ & _ & ->). destruct (glog_spec b Nb) as (Lb & _ & _ & ->).
  cbn [mbind option_bind]. change (EC_GF_SIZE - 1) with 255.
  rewrite uwrap_small by (unfold in_u; lia).
  destruct (gexp_spec (255 + glog a - glog b)) as (_ & _ & -> & ->); [lia|].
  destruct (ginv_spec b Nb) as [Ni _]. rewrite gmul_log by done. f_equal. f_equal. unfold ginv.
  destruct (gexp_spec (255 - glog b)) as (_ & Hlg & _); [lia|].
  rewrite <- Z.add_mod_idemp_r, Hlg, Z.add_mod_idemp_r by done. f_equal. lia.
Qed.

Lemma gmul_cancel a b : byte a -> nonzero b -> gmul (gmul a (ginv b)) b = a.
Proof.
  intros Ha Nb. destruct (ginv_spec b Nb) as [Ni Hi]. apply nonzero_byte in Ni, Nb.
  rewrite <- gmul_assoc by done. by rewrite Hi, gmul_1_r.
Qed.

Create HintDb field.
#[export] Hint Resolve lxor_byte gmul_byte nonzero_byte gmul_nonzero : field.
