(* ===== verification/EcGf.v ===== *)
(** * Multiplication of bit-sliced words

    xlators/cluster/ec/src/ec-gf.c: for every element c of the field, a
    function gf8_muladd_<c> that replaces every element x of [out] by c x + y,
    y being the element of [in] at the same place. Elements are bit-sliced:
    word [p * width + i] of a buffer holds the bits [p] of 64 elements, for
    i < width. A function is a circuit of exclusive ors on eight words, applied
    at every i.

    A buffer is the list of its 64-bit words, and a pointer an index into it. A
    circuit is written for any type of words with an exclusive or, so that the
    same definition runs on words and on single bits. *)

From Stdlib Require Import ZArith Lia Bool.
From stdpp Require Import base list.
From S2P Require Import Prelude EcField.

(** ** Eight words *)

Class Xor (W : Type) := xor : W -> W -> W.
Infix "⊕" := xor (at level 50, left associativity).

#[export] Instance xor_Z : Xor Z := Z.lxor.
#[export] Instance xor_bool : Xor bool := xorb.

Definition octet (W : Type) : Type := W * W * W * W * W * W * W * W.

Definition map8 {A B} (f : A -> B) (o : octet A) : octet B :=
  let '(a, b, c, d, e, g, h, i) := o in (f a, f b, f c, f d, f e, f g, f h, f i).

Definition xor8 {W} `{!Xor W} (o o' : octet W) : octet W :=
  let '(a, b, c, d, e, f, g, h) := o in
  let '(a', b', c', d', e', f', g', h') := o' in
  (a ⊕ a', b ⊕ b', c ⊕ c', d ⊕ d', e ⊕ e', f ⊕ f', g ⊕ g', h ⊕ h').

Definition circuit : Type := forall W, Xor W -> octet W -> octet W.

(** ** The loop *)

(** The eight words of place [i] of the elements at [off]. *)

Definition read8 (buf : list Z) (off width i : nat) : option (octet Z) :=
  w0 ← buf !! (off + i)%nat;
  w1 ← buf !! (off + width + i)%nat;
  w2 ← buf !! (off + width * 2 + i)%nat;
  w3 ← buf !! (off + width * 3 + i)%nat;
  w4 ← buf !! (off + width * 4 + i)%nat;
  w5 ← buf !! (off + width * 5 + i)%nat;
  w6 ← buf !! (off + width * 6 + i)%nat;
  w7 ← buf !! (off + width * 7 + i)%nat;
  Some (w0, w1, w2, w3, w4, w5, w6, w7).

Definition write8 (buf : list Z) (off width i : nat) (o : octet Z) : list Z :=
  let '(w0, w1, w2, w3, w4, w5, w6, w7) := o in
  <[(off + width * 7 + i)%nat := w7]> (<[(off + width * 6 + i)%nat := w6]>
  (<[(off + width * 5 + i)%nat := w5]> (<[(off + width * 4 + i)%nat := w4]>
  (<[(off + width * 3 + i)%nat := w3]> (<[(off + width * 2 + i)%nat := w2]>
  (<[(off + width + i)%nat := w1]> (<[(off + i)%nat := w0]> buf))))))).

(** A function of the table: the buffers of [out] and [in] with their offsets,
    and [width]; the result is the buffer of [out]. *)

Definition gf8_fn : Type := list Z -> nat -> list Z -> nat -> nat -> option (list Z).

Definition muladd (k : circuit) : gf8_fn := fun out outo inp ino width =>
  for_loop width 0 (fun i out =>
    o ← read8 out outo width i;
    n ← read8 inp ino width i;
    Some (write8 out outo width i (xor8 (k Z xor_Z o) n))) out.

(** ** The functions *)

(** [memcpy] of eight times [width] words. *)

Definition gf8_muladd_00 : gf8_fn := fun out outo inp ino width =>
  let n := (8 * width)%nat in
  if (Nat.leb (outo + n) (length out)) && (Nat.leb (ino + n) (length inp))
  then Some (take outo out ++ take n (drop ino inp) ++ drop (outo + n) out)
  else None.

Definition gf8_muladd_01 : gf8_fn := muladd (fun W X o => o).

Definition gf8_muladd_02 : gf8_fn := muladd (fun W X '(in0, in1, in2, in3, in4, in5, in6, in7) =>
  let out0 := in7 in let out1 := in0 in let out7 := in6 in let out5 := in4 in let out6 := in5 in
  let out3 := in2 ⊕ in7 in let out4 := in3 ⊕ in7 in let out2 := in1 ⊕ in7 in
  (out0, out1, out2, out3, out4, out5, out6, out7)).

Definition gf8_muladd_03 : gf8_fn := muladd (fun W X '(in0, in1, in2, in3, in4, in5, in6, in7) =>
  let out0 := in0 ⊕ in7 in let tmp0 := in2 ⊕ in7 in let out1 := in0 ⊕ in1 in
  let out7 := in6 ⊕ in7 in let out5 := in4 ⊕ in5 in let out6 := in5 ⊕ in6 in
  let out4 := in3 ⊕ in4 ⊕ in7 in let out2 := tmp0 ⊕ in1 in let out3 := tmp0 ⊕ in3 in
  (out0, out1, out2, out3, out4, out5, out6, out7)).

Definition gf8_muladd_04 : gf8_fn := muladd (fun W X '(in0, in1, in2, in3, in4, in5, in6, in7) =>
  let out0 := in6 in let out1 := in7 in let out7 := in5 in let out6 := in4 in
  let tmp0 := in6 ⊕ in7 in let out2 := in0 ⊕ in6 in let out5 := in3 ⊕ in7 in
  let out3 := tmp0 ⊕ in1 in let out4 := tmp0 ⊕ in2 in
  (out0, out1, out2, out3, out4, out5, out6, out7)).

Definition gf8_muladd_05 : gf8_fn := muladd (fun W X '(in0, in1, in2, in3, in4, in5, in6, in7) =>
  let out0 := in0 ⊕ in6 in let out1 := in1 ⊕ in7 in let out7 := in5 ⊕ in7 in
  let out6 := in4 ⊕ in6 in let out2 := out0 ⊕ in2 in let out3 := out1 ⊕ in3 ⊕ in6 in
  let out5 := out7 ⊕ in3 in let out4 := out6 ⊕ in2 ⊕ in7 in
  (out0, out1, out2, out3, out4, out5, out6, out7)).

Definition gf8_muladd_06 : gf8_fn := muladd (fun W X '(in0, in1, in2, in3, in4, in5, in6, in7) =>
  let out0 := in6 ⊕ in7 in let tmp0 := in1 ⊕ in6 in let out1 := in0 ⊕ in7 in
  let out7 := in5 ⊕ in6 in let out6 := in4 ⊕ in5 in let out4 := in2 ⊕ in3 ⊕ in6 in
  let out5 := in3 ⊕ in4 ⊕ in7 in let out3 := tmp0 ⊕ in2 in let out2 := tmp0 ⊕ out1 in
  (out0, out1, out2, out3, out4, out5, out6, out7)).

Definition gf8_muladd_07 : gf8_fn := muladd (fun W X '(in0, in1, in2, in3, in4, in5, in6, in7) =>
  let tmp0 := in2 ⊕ in6 in let tmp1 := in5 ⊕ in6 in let tmp2 := in0 ⊕ in7 in
  let tmp3 := tmp0 ⊕ in3 in let out6 := tmp1 ⊕ in4 in let out7 := tmp1 ⊕ in7 in
  let out0 := tmp2 ⊕ in6 in let out1 := tmp2 ⊕ in1 in let out3 := tmp3 ⊕ in1 in
  let out4 := tmp3 ⊕ in4 in let out5 := out4 ⊕ out7 ⊕ in2 in let out2 := tmp0 ⊕ out1 in
  (out0, out1, out2, out3, out4, out5, out6, out7)).

Definition gf8_muladd_08 : gf8_fn := muladd (fun W X '(in0, in1, in2, in3, in4, in5, in6, in7) =>
  let out0 := in5 in let out1 := in6 in let out7 := in4 in let out6 := in3 ⊕ in7 in
  let out3 := in0 ⊕ in5 ⊕ in6 in let out5 := in2 ⊕ in6 ⊕ in7 in let out2 := in5 ⊕ in7 in
  let out4 := out2 ⊕ in1 ⊕ in6 in
  (out0, out1, out2, out3, out4, out5, out6, out7)).

Definition gf8_muladd_09 : gf8_fn := muladd (fun W X '(in0, in1, in2, in3, in4, in5, in6, in7) =>
  let out0 := in0 ⊕ in5 in let tmp0 := in3 ⊕ in6 in let out1 := in1 ⊕ in6 in
  let out7 := in4 ⊕ in7 in let out2 := in2 ⊕ in5 ⊕ in7 in let out3 := tmp0 ⊕ out0 in
  let out6 := tmp0 ⊕ in7 in let out4 := out1 ⊕ out7 ⊕ in5 in let out5 := out2 ⊕ in6 in
  (out0, out1, out2, out3, out4, out5, out6, out7)).

Definition gf8_muladd_0A : gf8_fn := muladd (fun W X '(in0, in1, in2, in3, in4, in5, in6, in7) =>
  let out0 := in5 ⊕ in7 in let out1 := in0 ⊕ in6 in let out7 := in4 ⊕ in6 in
  let out2 := in1 ⊕ in5 in let out6 := out0 ⊕ in3 in let out3 := out0 ⊕ out1 ⊕ in2 in
  let out5 := out7 ⊕ in2 ⊕ in7 in let out4 := out2 ⊕ in3 ⊕ in6 in
  (out0, out1, out2, out3, out4, out5, out6, out7)).

Definition gf8_muladd_0B : gf8_fn := muladd (fun W X '(in0, in1, in2, in3, in4, in5, in6, in7) =>
  let tmp0 := in2 ⊕ in5 in let tmp1 := in0 ⊕ in6 in let tmp2 := in4 ⊕ in7 in
  let out0 := in0 ⊕ in5 ⊕ in7 in let out2 := tmp0 ⊕ in1 in let out1 := tmp1 ⊕ in1 in
  let out6 := tmp1 ⊕ out0 ⊕ in3 in let out7 := tmp2 ⊕ in6 in let out4 := tmp2 ⊕ out6 ⊕ in1 in
  let out3 := out6 ⊕ in0 ⊕ in2 in let out5 := tmp0 ⊕ out7 in
  (out0, out1, out2, out3, out4, out5, out6, out7)).

Definition gf8_muladd_0C : gf8_fn := muladd (fun W X '(in0, in1, in2, in3, in4, in5, in6, in7) =>
  let out0 := in5 ⊕ in6 in let out1 := in6 ⊕ in7 in let out7 := in4 ⊕ in5 in
  let tmp0 := in1 ⊕ in5 in let tmp1 := in0 ⊕ in7 in let out5 := in2 ⊕ in3 ⊕ in6 in
  let out6 := in3 ⊕ in4 ⊕ in7 in let out2 := tmp1 ⊕ out0 in let out4 := tmp0 ⊕ in2 in
  let out3 := tmp0 ⊕ tmp1 in
  (out0, out1, out2, out3, out4, out5, out6, out7)).

Definition gf8_muladd_0D : gf8_fn := muladd (fun W X '(in0, in1, in2, in3, in4, in5, in6, in7) =>
  let tmp0 := in4 ⊕ in5 in let tmp1 := in5 ⊕ in6 in let out1 := in1 ⊕ in6 ⊕ in7 in
  let out7 := tmp0 ⊕ in7 in let out4 := tmp0 ⊕ in1 ⊕ in2 in let out0 := tmp1 ⊕ in0 in
  let tmp2 := tmp1 ⊕ in3 in let out6 := tmp2 ⊕ out7 in let out2 := out0 ⊕ in2 ⊕ in7 in
  let out3 := out0 ⊕ out1 ⊕ in3 in let out5 := tmp2 ⊕ in2 in
  (out0, out1, out2, out3, out4, out5, out6, out7)).

Definition gf8_muladd_0E : gf8_fn := muladd (fun W X '(in0, in1, in2, in3, in4, in5, in6, in7) =>
  let tmp0 := in0 ⊕ in1 in let tmp1 := in2 ⊕ in5 in let tmp2 := in5 ⊕ in6 in
  let out1 := in0 ⊕ in6 ⊕ in7 in let out3 := tmp0 ⊕ tmp1 in let out2 := tmp0 ⊕ tmp2 in
  let tmp3 := tmp1 ⊕ in3 in let out7 := tmp2 ⊕ in4 in let out0 := tmp2 ⊕ in7 in
  let out4 := tmp3 ⊕ in1 ⊕ in7 in let out5 := tmp3 ⊕ out7 in let out6 := out0 ⊕ out5 ⊕ in2 in
  (out0, out1, out2, out3, out4, out5, out6, out7)).

Definition gf8_muladd_0F : gf8_fn := muladd (fun W X '(in0, in1, in2, in3, in4, in5, in6, in7) =>
  let tmp0 := in6 ⊕ in7 in let tmp1 := tmp0 ⊕ in1 in let tmp2 := tmp0 ⊕ in5 in
  let out1 := tmp1 ⊕ in0 in let out7 := tmp2 ⊕ in4 in let out0 := tmp2 ⊕ in0 in
  let out6 := out7 ⊕ in3 in let out5 := out6 ⊕ in2 ⊕ in7 in let tmp3 := tmp1 ⊕ out0 ⊕ in2 in
  let out4 := tmp1 ⊕ out5 in let out2 := tmp3 ⊕ in6 in let out3 := tmp3 ⊕ in3 in
  (out0, out1, out2, out3, out4, out5, out6, out7)).

Definition gf8_muladd_10 : gf8_fn := muladd (fun W X '(in0, in1, in2, in3, in4, in5, in6, in7) =>
  let out0 := in4 in let out1 := in5 in let out7 := in3 ⊕ in7 in let tmp0 := in6 ⊕ in7 in
  let out2 := in4 ⊕ in6 in let tmp1 := out2 ⊕ in5 in let out6 := tmp0 ⊕ in2 in
  let out3 := tmp0 ⊕ tmp1 in let out5 := out2 ⊕ out3 ⊕ in1 in let out4 := tmp1 ⊕ in0 in
  (out0, out1, out2, out3, out4, out5, out6, out7)).

Definition gf8_muladd_11 : gf8_fn := muladd (fun W X '(in0, in1, in2, in3, in4, in5, in6, in7) =>
  let out7 := in3 in let out0 := in0 ⊕ in4 in let out1 := in1 ⊕ in5 in let out6 := in2 ⊕ in7 in
  let out4 := in0 ⊕ in5 ⊕ in6 in let out5 := in1 ⊕ in6 ⊕ in7 in let out2 := in2 ⊕ in4 ⊕ in6 in
  let out3 := in3 ⊕ in4 ⊕ in5 ⊕ in7 in
  (out0, out1, out2, out3, out4, out5, out6, out7)).

Definition gf8_muladd_12 : gf8_fn := muladd (fun W X '(in0, in1, in2, in3, in4, in5, in6, in7) =>
  let out0 := in4 ⊕ in7 in let out1 := in0 ⊕ in5 in let out3 := in2 ⊕ in4 ⊕ in5 in
  let tmp0 := out0 ⊕ in6 in let out2 := tmp0 ⊕ in1 in let tmp1 := tmp0 ⊕ in3 in
  let out6 := tmp0 ⊕ out3 in let out5 := out2 ⊕ in5 in let out7 := tmp1 ⊕ in4 in
  let out4 := tmp1 ⊕ out1 in
  (out0, out1, out2, out3, out4, out5, out6, out7)).

Definition gf8_muladd_13 : gf8_fn := muladd (fun W X '(in0, in1, in2, in3, in4, in5, in6, in7) =>
  let out7 := in3 ⊕ in6 in let tmp0 := in0 ⊕ in5 in let tmp1 := in4 ⊕ in7 in
  let out6 := in2 ⊕ in5 ⊕ in7 in let out4 := tmp0 ⊕ out7 ⊕ in7 in let out1 := tmp0 ⊕ in1 in
  let out0 := tmp1 ⊕ in0 in let out5 := tmp1 ⊕ in1 ⊕ in6 in let out3 := tmp1 ⊕ out6 ⊕ in3 in
  let out2 := out5 ⊕ in2 in
  (out0, out1, out2, out3, out4, out5, out6, out7)).

Definition gf8_muladd_14 : gf8_fn := muladd (fun W X '(in0, in1, in2, in3, in4, in5, in6, in7) =>
  let out0 := in4 ⊕ in6 in let out1 := in5 ⊕ in7 in let out2 := in0 ⊕ in4 in
  let tmp0 := out0 ⊕ in5 in let out7 := out1 ⊕ in3 in let tmp1 := out1 ⊕ in2 in
  let out3 := tmp0 ⊕ in1 in let out6 := tmp0 ⊕ tmp1 in let out4 := tmp1 ⊕ out2 in
  let out5 := out3 ⊕ in3 ⊕ in4 in
  (out0, out1, out2, out3, out4, out5, out6, out7)).

Definition gf8_muladd_15 : gf8_fn := muladd (fun W X '(in0, in1, in2, in3, in4, in5, in6, in7) =>
  let out7 := in3 ⊕ in5 in let tmp0 := in0 ⊕ in4 in let out1 := in1 ⊕ in5 ⊕ in7 in
  let out5 := in1 ⊕ in3 ⊕ in6 in let out0 := tmp0 ⊕ in6 in let out2 := tmp0 ⊕ in2 in
  let out3 := out5 ⊕ in4 ⊕ in5 in let out6 := out2 ⊕ in0 ⊕ in7 in let out4 := tmp0 ⊕ out6 ⊕ in5 in
  (out0, out1, out2, out3, out4, out5, out6, out7)).

Definition gf8_muladd_16 : gf8_fn := muladd (fun W X '(in0, in1, in2, in3, in4, in5, in6, in7) =>
  let tmp0 := in0 ⊕ in5 in let tmp1 := in4 ⊕ in7 in let tmp2 := in2 ⊕ in3 ⊕ in4 in
  let out1 := tmp0 ⊕ in7 in let out4 := tmp0 ⊕ tmp2 in let out0 := tmp1 ⊕ in6 in
  let tmp3 := tmp1 ⊕ in1 in let out6 := out0 ⊕ in2 ⊕ in5 in let out2 := tmp3 ⊕ in0 in
  let out3 := out6 ⊕ in1 in let out7 := tmp2 ⊕ out6 in let out5 := tmp3 ⊕ out7 in
  (out0, out1, out2, out3, out4, out5, out6, out7)).

Definition gf8_muladd_17 : gf8_fn := muladd (fun W X '(in0, in1, in2, in3, in4, in5, in6, in7) =>
  let tmp0 := in2 ⊕ in5 in let tmp1 := in3 ⊕ in6 in let tmp2 := tmp0 ⊕ in4 in
  let out4 := tmp0 ⊕ in0 ⊕ in3 in let out7 := tmp1 ⊕ in5 in let tmp3 := tmp1 ⊕ in1 in
  let out6 := tmp2 ⊕ in7 in let out5 := tmp3 ⊕ in4 in let out3 := tmp3 ⊕ out6 in
  let out0 := out3 ⊕ out4 ⊕ in1 in let out2 := out3 ⊕ out7 ⊕ in0 in let out1 := tmp2 ⊕ out2 in
  (out0, out1, out2, out3, out4, out5, out6, out7)).

Definition gf8_muladd_18 : gf8_fn := muladd (fun W X '(in0, in1, in2, in3, in4, in5, in6, in7) =>
  let out0 := in4 ⊕ in5 in let out1 := in5 ⊕ in6 in let tmp0 := in4 ⊕ in7 in
  let out5 := in1 ⊕ in2 ⊕ in5 in let out6 := in2 ⊕ in3 ⊕ in6 in let out2 := tmp0 ⊕ out1 in
  let out7 := tmp0 ⊕ in3 in let tmp1 := tmp0 ⊕ in0 in let out3 := tmp1 ⊕ in6 in
  let out4 := tmp1 ⊕ in1 in
  (out0, out1, out2, out3, out4, out5, out6, out7)).

Definition gf8_muladd_19 : gf8_fn := muladd (fun W X '(in0, in1, in2, in3, in4, in5, in6, in7) =>
  let out5 := in1 ⊕ in2 in let out7 := in3 ⊕ in4 in let tmp0 := in0 ⊕ in7 in
  let out6 := in2 ⊕ in3 in let out1 := in1 ⊕ in5 ⊕ in6 in let out0 := in0 ⊕ in4 ⊕ in5 in
  let out4 := tmp0 ⊕ in1 in let tmp1 := tmp0 ⊕ in6 in let out2 := tmp1 ⊕ out0 ⊕ in2 in
  let out3 := tmp1 ⊕ out7 in
  (out0, out1, out2, out3, out4, out5, out6, out7)).

Definition gf8_muladd_1A : gf8_fn := muladd (fun W X '(in0, in1, in2, in3, in4, in5, in6, in7) =>
  let tmp0 := in4 ⊕ in5 in let tmp1 := in5 ⊕ in6 in let tmp2 := tmp0 ⊕ in1 in
  let out0 := tmp0 ⊕ in7 in let out1 := tmp1 ⊕ in0 in let tmp3 := tmp1 ⊕ in3 in
  let out5 := tmp2 ⊕ in2 in let out2 := tmp2 ⊕ in6 in let out7 := tmp3 ⊕ out0 in
  let out6 := tmp3 ⊕ in2 in let out4 := tmp3 ⊕ out2 ⊕ in0 in let out3 := tmp0 ⊕ out1 ⊕ in2 in
  (out0, out1, out2, out3, out4, out5, out6, out7)).

Definition gf8_muladd_1B : gf8_fn := muladd (fun W X '(in0, in1, in2, in3, in4, in5, in6, in7) =>
  let tmp0 := in2 ⊕ in4 in let tmp1 := in2 ⊕ in5 in let tmp2 := in3 ⊕ in6 in
  let out5 := tmp0 ⊕ in1 in let tmp3 := tmp0 ⊕ in0 in let out6 := tmp1 ⊕ in3 in
  let out0 := tmp1 ⊕ tmp3 ⊕ in7 in let out7 := tmp2 ⊕ in4 in let tmp4 := out5 ⊕ in6 in
  let out3 := tmp2 ⊕ tmp3 in let out2 := tmp4 ⊕ in5 in let out4 := tmp4 ⊕ out3 in
  let out1 := tmp3 ⊕ out2 in
  (out0, out1, out2, out3, out4, out5, out6, out7)).

Definition gf8_muladd_1C : gf8_fn := muladd (fun W X '(in0, in1, in2, in3, in4, in5, in6, in7) =>
  let tmp0 := in2 ⊕ in3 in let tmp1 := in4 ⊕ in6 in let tmp2 := in5 ⊕ in7 in
  let out6 := tmp0 ⊕ tmp1 in let out0 := tmp1 ⊕ in5 in let out1 := tmp2 ⊕ in6 in
  let tmp3 := tmp2 ⊕ in1 in let tmp4 := tmp2 ⊕ in4 in let out2 := tmp4 ⊕ in0 in
  let out7 := tmp4 ⊕ in3 in let out5 := tmp0 ⊕ tmp3 in let out3 := tmp3 ⊕ out2 in
  let out4 := out3 ⊕ in2 ⊕ in6 in
  (out0, out1, out2, out3, out4, out5, out6, out7)).

Definition gf8_muladd_1D : gf8_fn := muladd (fun W X '(in0, in1, in2, in3, in4, in5, in6, in7) =>
  let tmp0 := in1 ⊕ in3 in let tmp1 := in0 ⊕ in4 in let tmp2 := in3 ⊕ in4 in
  let tmp3 := in2 ⊕ in7 in let out3 := tmp0 ⊕ tmp1 in let out5 := tmp0 ⊕ tmp3 in
  let tmp4 := tmp1 ⊕ in5 in let out6 := tmp2 ⊕ in2 in let out7 := tmp2 ⊕ in5 in
  let out2 := tmp3 ⊕ tmp4 in let out4 := out3 ⊕ out6 ⊕ in6 in let out0 := tmp4 ⊕ in6 in
  let out1 := out2 ⊕ out4 ⊕ in4 in
  (out0, out1, out2, out3, out4, out5, out6, out7)).

Definition gf8_muladd_1E : gf8_fn := muladd (fun W X '(in0, in1, in2, in3, in4, in5, in6, in7) =>
  let tmp0 := in0 ⊕ in4 in let tmp1 := in2 ⊕ in7 in let tmp2 := tmp0 ⊕ in1 in
  let out3 := tmp1 ⊕ tmp2 in let out2 := tmp2 ⊕ in5 in let out4 := out3 ⊕ in3 ⊕ in6 in
  let tmp3 := out4 ⊕ in7 in let out6 := tmp3 ⊕ out2 ⊕ in4 in let out7 := tmp1 ⊕ out6 in
  let out0 := out7 ⊕ in3 in let out1 := tmp0 ⊕ out0 in let out5 := tmp3 ⊕ out1 in
  (out0, out1, out2, out3, out4, out5, out6, out7)).

Definition gf8_muladd_1F : gf8_fn := muladd (fun W X '(in0, in1, in2, in3, in4, in5, in6, in7) =>
  let tmp0 := in4 ⊕ in6 in let tmp1 := tmp0 ⊕ in5 in let out7 := tmp1 ⊕ in3 in
  let out0 := tmp1 ⊕ in0 ⊕ in7 in let out6 := out7 ⊕ in2 ⊕ in6 in let out1 := out0 ⊕ in1 ⊕ in4 in
  let out4 := out0 ⊕ out6 ⊕ in1 in let out3 := tmp0 ⊕ out4 in let out2 := out4 ⊕ out7 ⊕ in7 in
  let out5 := out3 ⊕ in0 in
  (out0, out1, out2, out3, out4, out5, out6, out7)).

Definition gf8_muladd_20 : gf8_fn := muladd (fun W X '(in0, in1, in2, in3, in4, in5, in6, in7) =>
  let out1 := in4 in let out0 := in3 ⊕ in7 in let tmp0 := in3 ⊕ in4 in let tmp1 := in6 ⊕ in7 in
  let out2 := out0 ⊕ in5 in let out4 := tmp0 ⊕ in5 in let out3 := tmp0 ⊕ tmp1 in
  let out7 := tmp1 ⊕ in2 in let out6 := tmp1 ⊕ in1 ⊕ in5 in let out5 := out2 ⊕ out3 ⊕ in0 in
  (out0, out1, out2, out3, out4, out5, out6, out7)).

Definition gf8_muladd_21 : gf8_fn := muladd (fun W X '(in0, in1, in2, in3, in4, in5, in6, in7) =>
  let out1 := in1 ⊕ in4 in let tmp0 := in4 ⊕ in6 in let out4 := in3 ⊕ in5 in
  let out7 := in2 ⊕ in6 in let out0 := in0 ⊕ in3 ⊕ in7 in let out6 := in1 ⊕ in5 ⊕ in7 in
  let out3 := tmp0 ⊕ in7 in let out5 := tmp0 ⊕ in0 in let out2 := out4 ⊕ in2 ⊕ in7 in
  (out0, out1, out2, out3, out4, out5, out6, out7)).

Definition gf8_muladd_22 : gf8_fn := muladd (fun W X '(in0, in1, in2, in3, in4, in5, in6, in7) =>
  let out0 := in3 in let out1 := in0 ⊕ in4 in let out7 := in2 ⊕ in7 in
  let out4 := in4 ⊕ in5 ⊕ in7 in let out5 := in0 ⊕ in5 ⊕ in6 in let out6 := in1 ⊕ in6 ⊕ in7 in
  let out3 := in2 ⊕ in3 ⊕ in4 ⊕ in6 in let out2 := in1 ⊕ in3 ⊕ in5 in
  (out0, out1, out2, out3, out4, out5, out6, out7)).

Definition gf8_muladd_23 : gf8_fn := muladd (fun W X '(in0, in1, in2, in3, in4, in5, in6, in7) =>
  let out7 := in2 in let out0 := in0 ⊕ in3 in let out4 := in5 ⊕ in7 in let out5 := in0 ⊕ in6 in
  let out6 := in1 ⊕ in7 in let out3 := in2 ⊕ in4 ⊕ in6 in let out1 := in0 ⊕ in1 ⊕ in4 in
  let out2 := out4 ⊕ out6 ⊕ in2 ⊕ in3 in
  (out0, out1, out2, out3, out4, out5, out6, out7)).

Definition gf8_muladd_24 : gf8_fn := muladd (fun W X '(in0, in1, in2, in3, in4, in5, in6, in7) =>
  let out1 := in4 ⊕ in7 in let tmp0 := in3 ⊕ in4 in let out0 := in3 ⊕ in6 ⊕ in7 in
  let out3 := tmp0 ⊕ in1 in let tmp1 := out0 ⊕ in5 in let out6 := tmp1 ⊕ out3 in
  let out2 := tmp1 ⊕ in0 in let out7 := tmp1 ⊕ in2 ⊕ in3 in let out5 := out2 ⊕ in4 in
  let out4 := tmp0 ⊕ out7 in
  (out0, out1, out2, out3, out4, out5, out6, out7)).

Definition gf8_muladd_25 : gf8_fn := muladd (fun W X '(in0, in1, in2, in3, in4, in5, in6, in7) =>
  let out3 := in1 ⊕ in4 in let tmp0 := in2 ⊕ in5 in let out1 := out3 ⊕ in7 in
  let out7 := tmp0 ⊕ in6 in let out6 := out1 ⊕ in5 in let out4 := out7 ⊕ in3 ⊕ in7 in
  let out2 := out4 ⊕ in0 in let out0 := tmp0 ⊕ out2 in let out5 := out0 ⊕ in4 in
  (out0, out1, out2, out3, out4, out5, out6, out7)).

Definition gf8_muladd_26 : gf8_fn := muladd (fun W X '(in0, in1, in2, in3, in4, in5, in6, in7) =>
  let out0 := in3 ⊕ in6 in let tmp0 := in4 ⊕ in7 in let out7 := in2 ⊕ in5 ⊕ in7 in
  let tmp1 := out0 ⊕ in0 ⊕ in5 in let out1 := tmp0 ⊕ in0 in let tmp2 := tmp0 ⊕ in6 in
  let out2 := tmp1 ⊕ in1 in let out5 := tmp1 ⊕ in7 in let out6 := tmp2 ⊕ in1 in
  let out4 := tmp2 ⊕ out7 in let out3 := out0 ⊕ out6 ⊕ in2 in
  (out0, out1, out2, out3, out4, out5, out6, out7)).

Definition gf8_muladd_27 : gf8_fn := muladd (fun W X '(in0, in1, in2, in3, in4, in5, in6, in7) =>
  let out7 := in2 ⊕ in5 in let out0 := in0 ⊕ in3 ⊕ in6 in let out6 := in1 ⊕ in4 ⊕ in7 in
  let out4 := out7 ⊕ in6 in let out2 := out0 ⊕ out7 ⊕ in1 in let out5 := out0 ⊕ in7 in
  let out1 := out6 ⊕ in0 in let out3 := out6 ⊕ in2 in
  (out0, out1, out2, out3, out4, out5, out6, out7)).

Definition gf8_muladd_28 : gf8_fn := muladd (fun W X '(in0, in1, in2, in3, in4, in5, in6, in7) =>
  let out2 := in3 in let out1 := in4 ⊕ in6 in let out0 := in3 ⊕ in5 ⊕ in7 in
  let tmp0 := out1 ⊕ in7 in let tmp1 := out0 ⊕ in4 in let out7 := tmp0 ⊕ in2 in
  let tmp2 := tmp0 ⊕ in1 in let out3 := tmp1 ⊕ in0 in let out6 := tmp1 ⊕ tmp2 in
  let out4 := tmp2 ⊕ in3 in let out5 := out3 ⊕ in2 ⊕ in3 in
  (out0, out1, out2, out3, out4, out5, out6, out7)).

Definition gf8_muladd_29 : gf8_fn := muladd (fun W X '(in0, in1, in2, in3, in4, in5, in6, in7) =>
  let out2 := in2 ⊕ in3 in let tmp0 := in1 ⊕ in3 in let tmp1 := in4 ⊕ in6 in
  let tmp2 := in0 ⊕ in4 ⊕ in7 in let out6 := tmp0 ⊕ in5 in let out4 := tmp0 ⊕ in6 ⊕ in7 in
  let out1 := tmp1 ⊕ in1 in let out7 := tmp1 ⊕ in2 in let out3 := tmp2 ⊕ in5 in
  let out5 := tmp2 ⊕ in2 in let out0 := out3 ⊕ in3 ⊕ in4 in
  (out0, out1, out2, out3, out4, out5, out6, out7)).

Definition gf8_muladd_2A : gf8_fn := muladd (fun W X '(in0, in1, in2, in3, in4, in5, in6, in7) =>
  let out0 := in3 ⊕ in5 in let tmp0 := in1 ⊕ in3 in let tmp1 := in0 ⊕ in4 in
  let out7 := in2 ⊕ in4 ⊕ in7 in let out3 := tmp1 ⊕ out0 ⊕ in2 in let out2 := tmp0 ⊕ in7 in
  let out6 := tmp0 ⊕ in6 in let out1 := tmp1 ⊕ in6 in let out5 := tmp1 ⊕ out7 ⊕ in5 in
  let out4 := out1 ⊕ in0 ⊕ in1 in
  (out0, out1, out2, out3, out4, out5, out6, out7)).

Definition gf8_muladd_2B : gf8_fn := muladd (fun W X '(in0, in1, in2, in3, in4, in5, in6, in7) =>
  let out4 := in1 ⊕ in6 in let out7 := in2 ⊕ in4 in let tmp0 := in0 ⊕ in5 in
  let tmp1 := in2 ⊕ in7 in let out6 := in1 ⊕ in3 in let out1 := out4 ⊕ in0 ⊕ in4 in
  let out3 := tmp0 ⊕ out7 in let out0 := tmp0 ⊕ in3 in let out5 := tmp1 ⊕ in0 in
  let out2 := tmp1 ⊕ out6 in
  (out0, out1, out2, out3, out4, out5, out6, out7)).

Definition gf8_muladd_2C : gf8_fn := muladd (fun W X '(in0, in1, in2, in3, in4, in5, in6, in7) =>
  let tmp0 := in2 ⊕ in5 in let tmp1 := in2 ⊕ in3 ⊕ in4 in let tmp2 := tmp0 ⊕ in6 in
  let out4 := tmp1 ⊕ in1 in let out5 := tmp1 ⊕ in0 ⊕ in5 in let tmp3 := tmp2 ⊕ in4 in
  let out6 := tmp2 ⊕ out4 in let out7 := tmp3 ⊕ in7 in let out2 := tmp3 ⊕ out5 in
  let out3 := out6 ⊕ in0 in let out0 := tmp1 ⊕ out7 in let out1 := tmp0 ⊕ out7 in
  (out0, out1, out2, out3, out4, out5, out6, out7)).

Definition gf8_muladd_2D : gf8_fn := muladd (fun W X '(in0, in1, in2, in3, in4, in5, in6, in7) =>
  let tmp0 := in2 ⊕ in3 in let out4 := tmp0 ⊕ in1 in let tmp1 := tmp0 ⊕ in0 in
  let out2 := tmp1 ⊕ in6 in let out5 := tmp1 ⊕ in4 in let tmp2 := out2 ⊕ in2 in
  let tmp3 := tmp2 ⊕ in5 in let out0 := tmp3 ⊕ in7 in let out7 := tmp3 ⊕ out5 in
  let out6 := out4 ⊕ out7 ⊕ in6 in let out3 := tmp2 ⊕ out6 in let out1 := out0 ⊕ out6 ⊕ in0 in
  (out0, out1, out2, out3, out4, out5, out6, out7)).

Definition gf8_muladd_2E : gf8_fn := muladd (fun W X '(in0, in1, in2, in3, in4, in5, in6, in7) =>
  let tmp0 := in4 ⊕ in7 in let out0 := in3 ⊕ in5 ⊕ in6 in let tmp1 := tmp0 ⊕ in0 in
  let tmp2 := tmp0 ⊕ in2 in let out1 := tmp1 ⊕ in6 in let out4 := tmp2 ⊕ in1 in
  let out7 := tmp2 ⊕ in5 in let out3 := out0 ⊕ out4 ⊕ in0 in let out2 := out3 ⊕ out7 ⊕ in7 in
  let out6 := tmp1 ⊕ out2 in let out5 := tmp1 ⊕ out7 ⊕ in3 in
  (out0, out1, out2, out3, out4, out5, out6, out7)).

Definition gf8_muladd_2F : gf8_fn := muladd (fun W X '(in0, in1, in2, in3, in4, in5, in6, in7) =>
  let tmp0 := in0 ⊕ in3 in let tmp1 := in2 ⊕ in5 in let out4 := in1 ⊕ in2 ⊕ in7 in
  let out6 := in1 ⊕ in3 ⊕ in4 in let out5 := tmp0 ⊕ in2 in let tmp2 := tmp0 ⊕ in6 in
  let out7 := tmp1 ⊕ in4 in let out0 := tmp2 ⊕ in5 in let out2 := tmp2 ⊕ out4 in
  let out1 := tmp2 ⊕ out6 ⊕ in7 in let out3 := tmp1 ⊕ out1 in
  (out0, out1, out2, out3, out4, out5, out6, out7)).

Definition gf8_muladd_30 : gf8_fn := muladd (fun W X '(in0, in1, in2, in3, in4, in5, in6, in7) =>
  let out1 := in4 ⊕ in5 in let tmp0 := in3 ⊕ in6 in let tmp1 := in4 ⊕ in7 in
  let out6 := in1 ⊕ in2 ⊕ in5 in let out3 := tmp0 ⊕ in5 in let out4 := tmp0 ⊕ in0 in
  let out7 := tmp0 ⊕ in2 in let out0 := tmp1 ⊕ in3 in let out2 := tmp1 ⊕ out3 in
  let out5 := tmp1 ⊕ in0 ⊕ in1 in
  (out0, out1, out2, out3, out4, out5, out6, out7)).

Definition gf8_muladd_31 : gf8_fn := muladd (fun W X '(in0, in1, in2, in3, in4, in5, in6, in7) =>
  let out3 := in5 ⊕ in6 in let tmp0 := in4 ⊕ in5 in let tmp1 := in0 ⊕ in3 ⊕ in4 in
  let tmp2 := out3 ⊕ in2 in let out1 := tmp0 ⊕ in1 in let out0 := tmp1 ⊕ in7 in
  let out4 := tmp1 ⊕ in6 in let out6 := tmp2 ⊕ in1 in let out2 := tmp2 ⊕ out0 ⊕ in0 in
  let out5 := out1 ⊕ in0 ⊕ in7 in let out7 := tmp0 ⊕ out2 in
  (out0, out1, out2, out3, out4, out5, out6, out7)).

Definition gf8_muladd_32 : gf8_fn := muladd (fun W X '(in0, in1, in2, in3, in4, in5, in6, in7) =>
  let out0 := in3 ⊕ in4 in let out7 := in2 ⊕ in3 in let tmp0 := in5 ⊕ in6 in
  let tmp1 := in0 ⊕ in7 in let out6 := in1 ⊕ in2 in let out1 := in0 ⊕ in4 ⊕ in5 in
  let out2 := tmp0 ⊕ out0 ⊕ in1 in let out3 := tmp0 ⊕ out7 ⊕ in7 in let out4 := tmp1 ⊕ in6 in
  let out5 := tmp1 ⊕ in1 in
  (out0, out1, out2, out3, out4, out5, out6, out7)).

Definition gf8_muladd_33 : gf8_fn := muladd (fun W X '(in0, in1, in2, in3, in4, in5, in6, in7) =>
  let tmp0 := in2 ⊕ in3 in let tmp1 := in0 ⊕ in4 in let tmp2 := in1 ⊕ in5 in
  let out6 := in1 ⊕ in2 ⊕ in6 in let out7 := tmp0 ⊕ in7 in let out0 := tmp1 ⊕ in3 in
  let out1 := tmp1 ⊕ tmp2 in let tmp3 := tmp2 ⊕ in7 in let tmp4 := tmp2 ⊕ in4 ⊕ in6 in
  let out5 := tmp3 ⊕ in0 in let out3 := tmp3 ⊕ out6 in let out4 := tmp4 ⊕ out5 in
  let out2 := tmp0 ⊕ tmp4 in
  (out0, out1, out2, out3, out4, out5, out6, out7)).

Definition gf8_muladd_34 : gf8_fn := muladd (fun W X '(in0, in1, in2, in3, in4, in5, in6, in7) =>
  let tmp0 := in3 ⊕ in4 in let tmp1 := in4 ⊕ in5 in let tmp2 := tmp0 ⊕ in1 in
  let tmp3 := tmp0 ⊕ in6 in let out1 := tmp1 ⊕ in7 in let tmp4 := tmp1 ⊕ in2 in
  let out5 := tmp2 ⊕ in0 in let out3 := tmp2 ⊕ out1 in let out0 := tmp3 ⊕ in7 in
  let out7 := tmp3 ⊕ tmp4 in let out6 := tmp4 ⊕ in1 in let out2 := out3 ⊕ out5 ⊕ in3 in
  let out4 := tmp4 ⊕ out2 in
  (out0, out1, out2, out3, out4, out5, out6, out7)).

Definition gf8_muladd_35 : gf8_fn := muladd (fun W X '(in0, in1, in2, in3, in4, in5, in6, in7) =>
  let tmp0 := in2 ⊕ in6 in let tmp1 := in5 ⊕ in7 in let out7 := tmp0 ⊕ tmp1 ⊕ in3 in
  let out3 := tmp1 ⊕ in1 in let out1 := out3 ⊕ in4 in let tmp2 := out1 ⊕ in7 in
  let out5 := tmp2 ⊕ in0 ⊕ in3 in let out6 := tmp0 ⊕ tmp2 in let out0 := out3 ⊕ out5 ⊕ in6 in
  let out4 := tmp0 ⊕ out0 in let out2 := out4 ⊕ in5 in
  (out0, out1, out2, out3, out4, out5, out6, out7)).

Definition gf8_muladd_36 : gf8_fn := muladd (fun W X '(in0, in1, in2, in3, in4, in5, in6, in7) =>
  let out4 := in0 ⊕ in2 in let tmp0 := in1 ⊕ in3 in let out0 := in3 ⊕ in4 ⊕ in6 in
  let out6 := in1 ⊕ in2 ⊕ in4 in let out5 := tmp0 ⊕ in0 in let tmp1 := out5 ⊕ in5 in
  let out2 := tmp1 ⊕ in4 in let out3 := tmp1 ⊕ out4 in let out1 := tmp0 ⊕ out2 ⊕ in7 in
  let out7 := out3 ⊕ in1 in
  (out0, out1, out2, out3, out4, out5, out6, out7)).

Definition gf8_muladd_37 : gf8_fn := muladd (fun W X '(in0, in1, in2, in3, in4, in5, in6, in7) =>
  let tmp0 := in1 ⊕ in2 in let tmp1 := in2 ⊕ in4 in let tmp2 := tmp0 ⊕ in6 in
  let out3 := tmp0 ⊕ in5 in let out4 := tmp1 ⊕ in0 in let out6 := tmp2 ⊕ in4 in
  let out1 := out3 ⊕ out4 ⊕ in7 in let tmp3 := out4 ⊕ in1 ⊕ in3 in let out7 := tmp3 ⊕ out1 in
  let out2 := tmp3 ⊕ in5 in let out5 := tmp1 ⊕ out2 in let out0 := tmp2 ⊕ tmp3 in
  (out0, out1, out2, out3, out4, out5, out6, out7)).

Definition gf8_muladd_38 : gf8_fn := muladd (fun W X '(in0, in1, in2, in3, in4, in5, in6, in7) =>
  let out3 := in0 ⊕ in3 in let tmp0 := in3 ⊕ in4 in let tmp1 := in5 ⊕ in7 in
  let tmp2 := out3 ⊕ in1 in let out2 := tmp0 ⊕ in6 in let out0 := tmp0 ⊕ tmp1 in
  let out4 := tmp1 ⊕ tmp2 in let out7 := out2 ⊕ in2 in let out1 := out2 ⊕ in3 ⊕ in5 in
  let out6 := out4 ⊕ in0 ⊕ in2 in let out5 := tmp2 ⊕ out7 in
  (out0, out1, out2, out3, out4, out5, out6, out7)).

Definition gf8_muladd_39 : gf8_fn := muladd (fun W X '(in0, in1, in2, in3, in4, in5, in6, in7) =>
  let out3 := in0 in let tmp0 := in1 ⊕ in5 in let tmp1 := tmp0 ⊕ in4 in let out1 := tmp1 ⊕ in6 in
  let out5 := out1 ⊕ in0 ⊕ in2 in let tmp2 := tmp0 ⊕ out5 in let out2 := tmp2 ⊕ in0 ⊕ in3 in
  let out7 := out2 ⊕ in7 in let out6 := tmp1 ⊕ out7 in let out4 := tmp2 ⊕ out6 in
  let out0 := out4 ⊕ in1 in
  (out0, out1, out2, out3, out4, out5, out6, out7)).

Definition gf8_muladd_3A : gf8_fn := muladd (fun W X '(in0, in1, in2, in3, in4, in5, in6, in7) =>
  let tmp0 := in0 ⊕ in1 in let tmp1 := in0 ⊕ in2 in let tmp2 := in3 ⊕ in4 in
  let tmp3 := in1 ⊕ in6 in let tmp4 := in3 ⊕ in7 in let out4 := tmp0 ⊕ in5 in
  let out5 := tmp1 ⊕ tmp3 in let out3 := tmp1 ⊕ tmp4 in let out0 := tmp2 ⊕ in5 in
  let out7 := tmp2 ⊕ in2 in let tmp5 := tmp3 ⊕ in4 in let out2 := tmp4 ⊕ tmp5 in
  let out1 := tmp5 ⊕ out4 in let out6 := tmp0 ⊕ out3 in
  (out0, out1, out2, out3, out4, out5, out6, out7)).

Definition gf8_muladd_3B : gf8_fn := muladd (fun W X '(in0, in1, in2, in3, in4, in5, in6, in7) =>
  let tmp0 := in1 ⊕ in6 in let tmp1 := in2 ⊕ in7 in let tmp2 := tmp0 ⊕ in3 in
  let out3 := tmp1 ⊕ in0 in let out6 := tmp1 ⊕ tmp2 in let out2 := out6 ⊕ in4 in
  let out7 := tmp0 ⊕ out2 in let out0 := out3 ⊕ out7 ⊕ in5 in let out5 := out0 ⊕ out2 ⊕ in7 in
  let out1 := tmp2 ⊕ out0 in let out4 := out1 ⊕ in6 in
  (out0, out1, out2, out3, out4, out5, out6, out7)).

Definition gf8_muladd_3C : gf8_fn := muladd (fun W X '(in0, in1, in2, in3, in4, in5, in6, in7) =>
  let tmp0 := in0 ⊕ in3 in let tmp1 := in2 ⊕ in7 in let tmp2 := in1 ⊕ in6 ⊕ in7 in
  let out2 := tmp0 ⊕ in4 in let out3 := tmp0 ⊕ tmp2 in let out4 := tmp1 ⊕ out3 ⊕ in5 in
  let out5 := tmp2 ⊕ out2 ⊕ in2 in let out1 := out4 ⊕ out5 ⊕ in6 in let out0 := out1 ⊕ in3 in
  let out7 := tmp1 ⊕ out0 in let out6 := tmp2 ⊕ out7 in
  (out0, out1, out2, out3, out4, out5, out6, out7)).

Definition gf8_muladd_3D : gf8_fn := muladd (fun W X '(in0, in1, in2, in3, in4, in5, in6, in7) =>
  let tmp0 := in0 ⊕ in2 in let tmp1 := tmp0 ⊕ in3 in let out2 := tmp1 ⊕ in4 in
  let tmp2 := out2 ⊕ in5 in let out4 := tmp2 ⊕ in1 ⊕ in6 in let out5 := out4 ⊕ in7 in
  let out6 := out5 ⊕ in0 in let out7 := out6 ⊕ in1 in let out0 := tmp0 ⊕ out7 in
  let out1 := tmp1 ⊕ out5 in let out3 := tmp2 ⊕ out6 in
  (out0, out1, out2, out3, out4, out5, out6, out7)).

Definition gf8_muladd_3E : gf8_fn := muladd (fun W X '(in0, in1, in2, in3, in4, in5, in6, in7) =>
  let tmp0 := in3 ⊕ in5 in let tmp1 := tmp0 ⊕ in4 in let out0 := tmp1 ⊕ in6 in
  let out7 := tmp1 ⊕ in2 in let out6 := out7 ⊕ in1 ⊕ in5 ⊕ in7 in let out2 := out6 ⊕ in0 ⊕ in2 in
  let out4 := out0 ⊕ out6 ⊕ in0 in let out5 := tmp0 ⊕ out4 in let out3 := out5 ⊕ in7 in
  let out1 := out3 ⊕ out6 ⊕ in5 in
  (out0, out1, out2, out3, out4, out5, out6, out7)).

Definition gf8_muladd_3F : gf8_fn := muladd (fun W X '(in0, in1, in2, in3, in4, in5, in6, in7) =>
  let tmp0 := in0 ⊕ in1 in let out3 := tmp0 ⊕ in2 ⊕ in6 in let tmp1 := out3 ⊕ in5 ⊕ in7 in
  let out4 := tmp1 ⊕ in4 in let out5 := tmp1 ⊕ in3 in let out1 := out4 ⊕ in2 in
  let out7 := out1 ⊕ out3 ⊕ in3 in let out2 := tmp0 ⊕ out7 ⊕ in5 in let tmp2 := out2 ⊕ in0 in
  let out6 := tmp2 ⊕ in6 in let out0 := tmp1 ⊕ tmp2 in
  (out0, out1, out2, out3, out4, out5, out6, out7)).

Definition gf8_muladd_40 : gf8_fn := muladd (fun W X '(in0, in1, in2, in3, in4, in5, in6, in7) =>
  let out1 := in3 ⊕ in7 in let tmp0 := in3 ⊕ in4 in let tmp1 := in6 ⊕ in7 in
  let out4 := tmp0 ⊕ in2 in let out5 := tmp0 ⊕ in5 in let out0 := tmp1 ⊕ in2 in
  let out7 := tmp1 ⊕ in1 ⊕ in5 in let out2 := out0 ⊕ in4 in let out3 := out2 ⊕ out5 ⊕ in7 in
  let out6 := out3 ⊕ out4 ⊕ in0 in
  (out0, out1, out2, out3, out4, out5, out6, out7)).

Definition gf8_muladd_41 : gf8_fn := muladd (fun W X '(in0, in1, in2, in3, in4, in5, in6, in7) =>
  let out4 := in2 ⊕ in3 in let tmp0 := in5 ⊕ in6 in let tmp1 := in6 ⊕ in7 in
  let out5 := in3 ⊕ in4 in let out1 := in1 ⊕ in3 ⊕ in7 in let out6 := in0 ⊕ in4 ⊕ in5 in
  let out3 := tmp0 ⊕ in2 in let out7 := tmp0 ⊕ in1 in let out2 := tmp1 ⊕ in4 in
  let out0 := tmp1 ⊕ in0 ⊕ in2 in
  (out0, out1, out2, out3, out4, out5, out6, out7)).

Definition gf8_muladd_42 : gf8_fn := muladd (fun W X '(in0, in1, in2, in3, in4, in5, in6, in7) =>
  let out0 := in2 ⊕ in6 in let out5 := in3 ⊕ in5 in let out1 := in0 ⊕ in3 ⊕ in7 in
  let out7 := in1 ⊕ in5 ⊕ in7 in let out4 := in2 ⊕ in4 ⊕ in7 in let out6 := in0 ⊕ in4 ⊕ in6 in
  let out2 := out0 ⊕ in1 ⊕ in4 in let out3 := out5 ⊕ in6 ⊕ in7 in
  (out0, out1, out2, out3, out4, out5, out6, out7)).

Definition gf8_muladd_43 : gf8_fn := muladd (fun W X '(in0, in1, in2, in3, in4, in5, in6, in7) =>
  let out5 := in3 in let out7 := in1 ⊕ in5 in let out4 := in2 ⊕ in7 in let out6 := in0 ⊕ in4 in
  let out0 := in0 ⊕ in2 ⊕ in6 in let out3 := in5 ⊕ in6 ⊕ in7 in let out2 := in1 ⊕ in4 ⊕ in6 in
  let out1 := in0 ⊕ in1 ⊕ in3 ⊕ in7 in
  (out0, out1, out2, out3, out4, out5, out6, out7)).

Definition gf8_muladd_44 : gf8_fn := muladd (fun W X '(in0, in1, in2, in3, in4, in5, in6, in7) =>
  let out1 := in3 in let out0 := in2 ⊕ in7 in let tmp0 := in4 ⊕ in7 in
  let out7 := in1 ⊕ in6 ⊕ in7 in let out6 := in0 ⊕ in5 ⊕ in6 in let out4 := tmp0 ⊕ in3 ⊕ in6 in
  let out3 := out0 ⊕ in1 ⊕ in3 ⊕ in5 in let out2 := out0 ⊕ in0 ⊕ in4 in let out5 := tmp0 ⊕ in5 in
  (out0, out1, out2, out3, out4, out5, out6, out7)).

Definition gf8_muladd_45 : gf8_fn := muladd (fun W X '(in0, in1, in2, in3, in4, in5, in6, in7) =>
  let out1 := in1 ⊕ in3 in let out7 := in1 ⊕ in6 in let out5 := in4 ⊕ in7 in
  let out6 := in0 ⊕ in5 in let out0 := in0 ⊕ in2 ⊕ in7 in let out4 := in3 ⊕ in6 ⊕ in7 in
  let out2 := out5 ⊕ in0 in let out3 := out0 ⊕ out6 ⊕ in1 in
  (out0, out1, out2, out3, out4, out5, out6, out7)).

Definition gf8_muladd_46 : gf8_fn := muladd (fun W X '(in0, in1, in2, in3, in4, in5, in6, in7) =>
  let out0 := in2 in let out1 := in0 ⊕ in3 in let out7 := in1 ⊕ in7 in let out4 := in4 ⊕ in6 in
  let out5 := in5 ⊕ in7 in let out6 := in0 ⊕ in6 in let out3 := in1 ⊕ in3 ⊕ in5 in
  let out2 := out4 ⊕ out6 ⊕ in1 ⊕ in2 in
  (out0, out1, out2, out3, out4, out5, out6, out7)).

Definition gf8_muladd_47 : gf8_fn := muladd (fun W X '(in0, in1, in2, in3, in4, in5, in6, in7) =>
  let out4 := in6 in let out7 := in1 in let out5 := in7 in let out6 := in0 in
  let tmp0 := in0 ⊕ in1 in let out3 := in1 ⊕ in5 in let out0 := in0 ⊕ in2 in
  let out1 := tmp0 ⊕ in3 in let out2 := tmp0 ⊕ in4 in
  (out0, out1, out2, out3, out4, out5, out6, out7)).

Definition gf8_muladd_48 : gf8_fn := muladd (fun W X '(in0, in1, in2, in3, in4, in5, in6, in7) =>
  let tmp0 := in2 ⊕ in3 in let out1 := in3 ⊕ in6 ⊕ in7 in let out3 := tmp0 ⊕ in0 in
  let out0 := tmp0 ⊕ out1 ⊕ in5 in let tmp1 := out0 ⊕ in4 in let out2 := tmp1 ⊕ in7 in
  let out5 := tmp1 ⊕ in3 in let out4 := out5 ⊕ in1 in let out7 := tmp0 ⊕ out4 in
  let out6 := tmp1 ⊕ out3 in
  (out0, out1, out2, out3, out4, out5, out6, out7)).

Definition gf8_muladd_49 : gf8_fn := muladd (fun W X '(in0, in1, in2, in3, in4, in5, in6, in7) =>
  let out3 := in0 ⊕ in2 in let tmp0 := in2 ⊕ in5 in let out2 := in4 ⊕ in5 ⊕ in6 in
  let tmp1 := tmp0 ⊕ out2 ⊕ in3 in let out7 := out2 ⊕ in1 in let out5 := tmp1 ⊕ in7 in
  let out4 := out5 ⊕ out7 ⊕ in6 in let out1 := tmp0 ⊕ out4 in let out6 := out1 ⊕ out7 ⊕ in0 in
  let out0 := tmp1 ⊕ out6 in
  (out0, out1, out2, out3, out4, out5, out6, out7)).

Definition gf8_muladd_4A : gf8_fn := muladd (fun W X '(in0, in1, in2, in3, in4, in5, in6, in7) =>
  let tmp0 := in2 ⊕ in6 in let tmp1 := in3 ⊕ in7 in let out0 := tmp0 ⊕ in5 in
  let out3 := tmp1 ⊕ in0 in let out5 := tmp1 ⊕ out0 in let out4 := out0 ⊕ in1 ⊕ in4 in
  let out1 := out3 ⊕ in6 in let out2 := out4 ⊕ in7 in let out6 := out1 ⊕ in4 in
  let out7 := tmp0 ⊕ out2 in
  (out0, out1, out2, out3, out4, out5, out6, out7)).

Definition gf8_muladd_4B : gf8_fn := muladd (fun W X '(in0, in1, in2, in3, in4, in5, in6, in7) =>
  let out3 := in0 ⊕ in7 in let tmp0 := in1 ⊕ in5 in let tmp1 := in2 ⊕ in6 in
  let tmp2 := out3 ⊕ in3 in let out7 := tmp0 ⊕ in4 in let out4 := tmp0 ⊕ tmp1 in
  let tmp3 := tmp1 ⊕ in0 in let out6 := tmp2 ⊕ in4 in let out5 := tmp2 ⊕ tmp3 in
  let out1 := tmp2 ⊕ in1 ⊕ in6 in let out2 := out7 ⊕ in6 ⊕ in7 in let out0 := tmp3 ⊕ in5 in
  (out0, out1, out2, out3, out4, out5, out6, out7)).

Definition gf8_muladd_4C : gf8_fn := muladd (fun W X '(in0, in1, in2, in3, in4, in5, in6, in7) =>
  let out1 := in3 ⊕ in6 in let tmp0 := in2 ⊕ in5 in let tmp1 := out1 ⊕ in5 ⊕ in7 in
  let out0 := tmp0 ⊕ in7 in let tmp2 := tmp0 ⊕ in4 in let out6 := tmp1 ⊕ in0 in
  let out2 := tmp2 ⊕ in0 in let out5 := tmp2 ⊕ in6 in let out3 := tmp0 ⊕ out6 ⊕ in1 in
  let out7 := out0 ⊕ out5 ⊕ in1 in let out4 := tmp1 ⊕ out7 in
  (out0, out1, out2, out3, out4, out5, out6, out7)).

Definition gf8_muladd_4D : gf8_fn := muladd (fun W X '(in0, in1, in2, in3, in4, in5, in6, in7) =>
  let tmp0 := in0 ⊕ in5 in let tmp1 := in1 ⊕ in6 in let out4 := in1 ⊕ in3 ⊕ in5 in
  let tmp2 := tmp0 ⊕ in7 in let out2 := tmp0 ⊕ in4 in let out1 := tmp1 ⊕ in3 in
  let out7 := tmp1 ⊕ in4 in let out0 := tmp2 ⊕ in2 in let out6 := tmp2 ⊕ in3 in
  let out5 := out7 ⊕ in1 ⊕ in2 in let out3 := tmp1 ⊕ out0 ⊕ in5 in
  (out0, out1, out2, out3, out4, out5, out6, out7)).

Definition gf8_muladd_4E : gf8_fn := muladd (fun W X '(in0, in1, in2, in3, in4, in5, in6, in7) =>
  let out0 := in2 ⊕ in5 in let out7 := in1 ⊕ in4 ⊕ in7 in let out1 := in0 ⊕ in3 ⊕ in6 in
  let out5 := out0 ⊕ in6 in let out4 := out7 ⊕ in5 in let out3 := out1 ⊕ in1 in
  let out6 := out1 ⊕ in7 in let out2 := out4 ⊕ in0 ⊕ in2 in
  (out0, out1, out2, out3, out4, out5, out6, out7)).

Definition gf8_muladd_4F : gf8_fn := muladd (fun W X '(in0, in1, in2, in3, in4, in5, in6, in7) =>
  let out5 := in2 ⊕ in6 in let out7 := in1 ⊕ in4 in let out3 := in0 ⊕ in1 ⊕ in6 in
  let out4 := in1 ⊕ in5 ⊕ in7 in let out0 := in0 ⊕ in2 ⊕ in5 in let out6 := in0 ⊕ in3 ⊕ in7 in
  let out1 := out3 ⊕ in3 in let out2 := out4 ⊕ in0 ⊕ in4 in
  (out0, out1, out2, out3, out4, out5, out6, out7)).

Definition gf8_muladd_50 : gf8_fn := muladd (fun W X '(in0, in1, in2, in3, in4, in5, in6, in7) =>
  let out2 := in2 ⊕ in7 in let tmp0 := in3 ⊕ in5 in let out0 := out2 ⊕ in4 ⊕ in6 in
  let out1 := tmp0 ⊕ in7 in let tmp1 := tmp0 ⊕ in6 in let out3 := out0 ⊕ in3 in
  let out7 := tmp1 ⊕ in1 in let tmp2 := tmp1 ⊕ in0 in let out5 := out3 ⊕ in1 ⊕ in2 in
  let out4 := tmp2 ⊕ in2 in let out6 := tmp2 ⊕ out3 in
  (out0, out1, out2, out3, out4, out5, out6, out7)).

Definition gf8_muladd_51 : gf8_fn := muladd (fun W X '(in0, in1, in2, in3, in4, in5, in6, in7) =>
  let out2 := in7 in let out3 := in2 ⊕ in4 ⊕ in6 ⊕ in7 in let out0 := out3 ⊕ in0 in
  let out6 := out0 ⊕ in5 in let out4 := out6 ⊕ in3 ⊕ in7 in let out1 := out0 ⊕ out4 ⊕ in1 in
  let out7 := out1 ⊕ in6 in let out5 := out7 ⊕ in4 in
  (out0, out1, out2, out3, out4, out5, out6, out7)).

Definition gf8_muladd_52 : gf8_fn := muladd (fun W X '(in0, in1, in2, in3, in4, in5, in6, in7) =>
  let out2 := in1 ⊕ in2 in let tmp0 := in2 ⊕ in4 in let tmp1 := in3 ⊕ in5 in
  let tmp2 := in3 ⊕ in6 in let tmp3 := in0 ⊕ in7 in let out0 := tmp0 ⊕ in6 in
  let out6 := tmp0 ⊕ tmp3 in let out7 := tmp1 ⊕ in1 in let out1 := tmp1 ⊕ tmp3 in
  let out3 := tmp2 ⊕ in4 in let out5 := tmp2 ⊕ in1 ⊕ in7 in let out4 := tmp2 ⊕ out1 ⊕ in2 in
  (out0, out1, out2, out3, out4, out5, out6, out7)).

Definition gf8_muladd_53 : gf8_fn := muladd (fun W X '(in0, in1, in2, in3, in4, in5, in6, in7) =>
  let out2 := in1 in let out3 := in4 ⊕ in6 in let out0 := out3 ⊕ in0 ⊕ in2 in
  let out6 := out0 ⊕ in7 in let out4 := out6 ⊕ in5 in let out7 := out0 ⊕ out4 ⊕ in1 ⊕ in3 in
  let out1 := out7 ⊕ in0 in let out5 := out7 ⊕ in6 in
  (out0, out1, out2, out3, out4, out5, out6, out7)).

Definition gf8_muladd_54 : gf8_fn := muladd (fun W X '(in0, in1, in2, in3, in4, in5, in6, in7) =>
  let out1 := in3 ⊕ in5 in let tmp0 := in1 ⊕ in3 in let tmp1 := in2 ⊕ in4 in
  let tmp2 := in0 ⊕ in7 in let out5 := in1 ⊕ in4 ⊕ in6 in let out4 := tmp2 ⊕ out1 in
  let out7 := tmp0 ⊕ in6 in let out3 := tmp0 ⊕ tmp1 in let out0 := tmp1 ⊕ in7 in
  let tmp3 := tmp2 ⊕ in2 in let out2 := tmp3 ⊕ in6 in let out6 := tmp3 ⊕ in5 in
  (out0, out1, out2, out3, out4, out5, out6, out7)).

Definition gf8_muladd_55 : gf8_fn := muladd (fun W X '(in0, in1, in2, in3, in4, in5, in6, in7) =>
  let tmp0 := in1 ⊕ in3 in let tmp1 := in1 ⊕ in4 in let tmp2 := in6 ⊕ in7 in
  let out7 := tmp0 ⊕ tmp2 in let out1 := tmp0 ⊕ in5 in let out3 := tmp1 ⊕ in2 in
  let out5 := tmp1 ⊕ in5 ⊕ in6 in let out2 := tmp2 ⊕ in0 in let out4 := out5 ⊕ out7 ⊕ in0 in
  let out6 := out2 ⊕ in2 ⊕ in5 in let out0 := out5 ⊕ out6 ⊕ in1 in
  (out0, out1, out2, out3, out4, out5, out6, out7)).

Definition gf8_muladd_56 : gf8_fn := muladd (fun W X '(in0, in1, in2, in3, in4, in5, in6, in7) =>
  let out0 := in2 ⊕ in4 in let tmp0 := in0 ⊕ in2 in let out4 := in0 ⊕ in5 in
  let out7 := in1 ⊕ in3 in let out5 := in1 ⊕ in6 in let out6 := tmp0 ⊕ in7 in
  let out2 := tmp0 ⊕ out5 in let out1 := out4 ⊕ in3 in let out3 := out7 ⊕ in4 ⊕ in7 in
  (out0, out1, out2, out3, out4, out5, out6, out7)).

Definition gf8_muladd_57 : gf8_fn := muladd (fun W X '(in0, in1, in2, in3, in4, in5, in6, in7) =>
  let tmp0 := in0 ⊕ in5 in let tmp1 := in1 ⊕ in7 in let out0 := in0 ⊕ in2 ⊕ in4 in
  let out5 := in1 ⊕ in5 ⊕ in6 in let out4 := tmp0 ⊕ in4 in let out1 := tmp0 ⊕ in1 ⊕ in3 in
  let out2 := tmp0 ⊕ out5 in let out3 := tmp1 ⊕ in4 in let out7 := tmp1 ⊕ in3 in
  let out6 := tmp1 ⊕ out2 ⊕ in2 in
  (out0, out1, out2, out3, out4, out5, out6, out7)).

Definition gf8_muladd_58 : gf8_fn := muladd (fun W X '(in0, in1, in2, in3, in4, in5, in6, in7) =>
  let out2 := in2 ⊕ in5 in let tmp0 := in2 ⊕ in3 ⊕ in4 in let out5 := tmp0 ⊕ in1 in
  let out6 := tmp0 ⊕ in0 ⊕ in5 in let out3 := out6 ⊕ in7 in let tmp1 := out2 ⊕ out5 in
  let out7 := tmp1 ⊕ in6 in let out4 := tmp1 ⊕ out3 ⊕ in3 in let out0 := out4 ⊕ out7 ⊕ in0 in
  let out1 := tmp0 ⊕ out0 in
  (out0, out1, out2, out3, out4, out5, out6, out7)).

Definition gf8_muladd_59 : gf8_fn := muladd (fun W X '(in0, in1, in2, in3, in4, in5, in6, in7) =>
  let out2 := in5 in let tmp0 := in0 ⊕ in5 ⊕ in7 in let out3 := tmp0 ⊕ in2 ⊕ in4 in
  let out0 := out3 ⊕ in6 in let tmp1 := out0 ⊕ in7 in let out6 := tmp1 ⊕ in3 in
  let out5 := out6 ⊕ in0 ⊕ in1 ⊕ in6 in let out4 := tmp0 ⊕ out5 in let out1 := tmp1 ⊕ out4 in
  let out7 := out1 ⊕ in4 in
  (out0, out1, out2, out3, out4, out5, out6, out7)).

Definition gf8_muladd_5A : gf8_fn := muladd (fun W X '(in0, in1, in2, in3, in4, in5, in6, in7) =>
  let tmp0 := in1 ⊕ in2 in let tmp1 := in2 ⊕ in5 in let out5 := tmp0 ⊕ in3 in
  let out4 := tmp0 ⊕ in0 in let tmp2 := tmp1 ⊕ in4 in let out2 := tmp1 ⊕ in1 ⊕ in7 in
  let out7 := tmp2 ⊕ out5 in let out6 := out4 ⊕ out7 ⊕ in5 in let out0 := tmp2 ⊕ in6 in
  let out1 := out0 ⊕ out6 ⊕ in7 in let out3 := tmp1 ⊕ out6 in
  (out0, out1, out2, out3, out4, out5, out6, out7)).

Definition gf8_muladd_5B : gf8_fn := muladd (fun W X '(in0, in1, in2, in3, in4, in5, in6, in7) =>
  let tmp0 := in2 ⊕ in3 in let tmp1 := in0 ⊕ in4 in let tmp2 := in1 ⊕ in5 in
  let out5 := tmp0 ⊕ tmp2 in let tmp3 := tmp1 ⊕ in6 in let out3 := tmp1 ⊕ in5 in
  let out2 := tmp2 ⊕ in7 in let tmp4 := out3 ⊕ in2 in let out7 := out2 ⊕ in3 ⊕ in4 in
  let out0 := tmp4 ⊕ in6 in let out6 := tmp0 ⊕ tmp3 in let out4 := tmp2 ⊕ tmp4 in
  let out1 := tmp3 ⊕ out7 in
  (out0, out1, out2, out3, out4, out5, out6, out7)).

Definition gf8_muladd_5C : gf8_fn := muladd (fun W X '(in0, in1, in2, in3, in4, in5, in6, in7) =>
  let tmp0 := in3 ⊕ in6 in let tmp1 := in0 ⊕ in2 ⊕ in5 in let out1 := tmp0 ⊕ in5 in
  let tmp2 := tmp0 ⊕ in1 in let out2 := tmp1 ⊕ in6 in let out6 := tmp1 ⊕ in3 in
  let out4 := tmp2 ⊕ in0 in let out7 := tmp2 ⊕ in4 in let out3 := tmp1 ⊕ out7 in
  let out0 := out3 ⊕ out4 ⊕ in7 in let out5 := out0 ⊕ in1 ⊕ in5 in
  (out0, out1, out2, out3, out4, out5, out6, out7)).

Definition gf8_muladd_5D : gf8_fn := muladd (fun W X '(in0, in1, in2, in3, in4, in5, in6, in7) =>
  let tmp0 := in0 ⊕ in1 in let tmp1 := in0 ⊕ in6 in let out2 := tmp1 ⊕ in5 in
  let tmp2 := out2 ⊕ in3 in let out6 := tmp2 ⊕ in2 in let out1 := tmp0 ⊕ tmp2 in
  let tmp3 := out1 ⊕ in4 ⊕ in5 in let out4 := tmp3 ⊕ in0 in let out7 := tmp3 ⊕ in7 in
  let tmp4 := out4 ⊕ out6 in let out5 := tmp4 ⊕ in7 in let out0 := tmp0 ⊕ out5 in
  let out3 := tmp1 ⊕ tmp4 in
  (out0, out1, out2, out3, out4, out5, out6, out7)).

Definition gf8_muladd_5E : gf8_fn := muladd (fun W X '(in0, in1, in2, in3, in4, in5, in6, in7) =>
  let tmp0 := in2 ⊕ in5 in let tmp1 := in3 ⊕ in5 in let tmp2 := in1 ⊕ in7 in
  let out7 := in1 ⊕ in3 ⊕ in4 in let out0 := tmp0 ⊕ in4 in let tmp3 := tmp1 ⊕ in0 in
  let out5 := tmp2 ⊕ in2 in let out1 := tmp3 ⊕ in6 in let out6 := tmp0 ⊕ tmp3 in
  let tmp4 := tmp2 ⊕ out1 in let out3 := tmp4 ⊕ in4 in let out4 := tmp1 ⊕ tmp4 in
  let out2 := tmp0 ⊕ out4 in
  (out0, out1, out2, out3, out4, out5, out6, out7)).

Definition gf8_muladd_5F : gf8_fn := muladd (fun W X '(in0, in1, in2, in3, in4, in5, in6, in7) =>
  let tmp0 := in1 ⊕ in5 in let tmp1 := in0 ⊕ in6 in let tmp2 := tmp0 ⊕ in7 in
  let tmp3 := tmp1 ⊕ in3 in let out2 := tmp1 ⊕ tmp2 in let out5 := tmp2 ⊕ in2 in
  let out6 := tmp3 ⊕ in2 in let out3 := out2 ⊕ in4 in let out4 := out3 ⊕ in5 in
  let out1 := tmp0 ⊕ tmp3 in let out7 := tmp3 ⊕ out4 in let out0 := out4 ⊕ out5 ⊕ in6 in
  (out0, out1, out2, out3, out4, out5, out6, out7)).

Definition gf8_muladd_60 : gf8_fn := muladd (fun W X '(in0, in1, in2, in3, in4, in5, in6, in7) =>
  let out4 := in2 ⊕ in5 in let tmp0 := in3 ⊕ in6 in let out1 := in3 ⊕ in4 ⊕ in7 in
  let out7 := out4 ⊕ in1 in let tmp1 := out4 ⊕ in4 in let out0 := tmp0 ⊕ in2 in
  let out5 := tmp0 ⊕ in0 in let out2 := tmp0 ⊕ tmp1 in let out3 := tmp1 ⊕ in7 in
  let out6 := out3 ⊕ out7 ⊕ in0 in
  (out0, out1, out2, out3, out4, out5, out6, out7)).

Definition gf8_muladd_61 : gf8_fn := muladd (fun W X '(in0, in1, in2, in3, in4, in5, in6, in7) =>
  let tmp0 := in2 ⊕ in5 in let out4 := tmp0 ⊕ in4 in let tmp1 := out4 ⊕ in3 in
  let out3 := tmp1 ⊕ in7 in let out2 := tmp1 ⊕ in2 ⊕ in6 in let out1 := tmp0 ⊕ out3 ⊕ in1 in
  let out0 := out2 ⊕ out4 ⊕ in0 in let out7 := tmp1 ⊕ out1 in let out6 := out0 ⊕ out1 ⊕ in2 in
  let out5 := tmp0 ⊕ out0 in
  (out0, out1, out2, out3, out4, out5, out6, out7)).

Definition gf8_muladd_62 : gf8_fn := muladd (fun W X '(in0, in1, in2, in3, in4, in5, in6, in7) =>
  let out3 := in4 ⊕ in5 in let tmp0 := in0 ⊕ in3 ⊕ in4 in let out1 := tmp0 ⊕ in7 in
  let out5 := tmp0 ⊕ in6 in let tmp1 := out1 ⊕ in0 in let tmp2 := tmp1 ⊕ out3 in
  let out4 := tmp2 ⊕ in2 in let tmp3 := tmp2 ⊕ in1 in let out0 := out4 ⊕ in5 ⊕ in6 in
  let out7 := tmp3 ⊕ out0 in let out6 := tmp0 ⊕ tmp3 in let out2 := tmp1 ⊕ out7 in
  (out0, out1, out2, out3, out4, out5, out6, out7)).

Definition gf8_muladd_63 : gf8_fn := muladd (fun W X '(in0, in1, in2, in3, in4, in5, in6, in7) =>
  let tmp0 := in3 ⊕ in4 in let tmp1 := in1 ⊕ in7 in let out3 := tmp0 ⊕ in5 in
  let tmp2 := out3 ⊕ in6 in let out4 := out3 ⊕ in2 ⊕ in7 in let out5 := tmp2 ⊕ in0 in
  let tmp3 := out5 ⊕ in3 in let out0 := tmp3 ⊕ out4 in let out2 := tmp1 ⊕ tmp2 in
  let out6 := tmp1 ⊕ tmp3 in let tmp4 := tmp0 ⊕ out2 in let out1 := tmp4 ⊕ out5 in
  let out7 := tmp4 ⊕ in2 in
  (out0, out1, out2, out3, out4, out5, out6, out7)).

Definition gf8_muladd_64 : gf8_fn := muladd (fun W X '(in0, in1, in2, in3, in4, in5, in6, in7) =>
  let out0 := in2 ⊕ in3 in let out1 := in3 ⊕ in4 in let out7 := in1 ⊕ in2 in
  let tmp0 := in4 ⊕ in5 in let tmp1 := in0 ⊕ in7 in let out4 := in5 ⊕ in6 ⊕ in7 in
  let out2 := tmp0 ⊕ out0 ⊕ in0 in let out3 := tmp0 ⊕ out7 ⊕ in6 in let out5 := tmp1 ⊕ in6 in
  let out6 := tmp1 ⊕ in1 in
  (out0, out1, out2, out3, out4, out5, out6, out7)).

Definition gf8_muladd_65 : gf8_fn := muladd (fun W X '(in0, in1, in2, in3, in4, in5, in6, in7) =>
  let tmp0 := in0 ⊕ in3 in let tmp1 := in4 ⊕ in5 in let tmp2 := in6 ⊕ in7 in
  let out7 := in1 ⊕ in2 ⊕ in7 in let out1 := in1 ⊕ in3 ⊕ in4 in let out0 := tmp0 ⊕ in2 in
  let out2 := tmp0 ⊕ tmp1 in let out4 := tmp1 ⊕ tmp2 in let tmp3 := tmp2 ⊕ in0 in
  let out3 := out4 ⊕ out7 ⊕ in3 in let out5 := tmp3 ⊕ in5 in let out6 := tmp3 ⊕ in1 in
  (out0, out1, out2, out3, out4, out5, out6, out7)).

Definition gf8_muladd_66 : gf8_fn := muladd (fun W X '(in0, in1, in2, in3, in4, in5, in6, in7) =>
  let tmp0 := in1 ⊕ in2 in let tmp1 := in2 ⊕ in3 in let tmp2 := in0 ⊕ in4 in
  let out7 := tmp0 ⊕ in6 in let out0 := tmp1 ⊕ in7 in let out1 := tmp2 ⊕ in3 in
  let tmp3 := tmp2 ⊕ in6 in let tmp4 := out1 ⊕ in5 in let out5 := tmp3 ⊕ in7 in
  let out4 := tmp3 ⊕ tmp4 in let out2 := tmp0 ⊕ tmp4 ⊕ in7 in let out6 := tmp1 ⊕ out2 ⊕ in4 in
  let out3 := tmp3 ⊕ out6 in
  (out0, out1, out2, out3, out4, out5, out6, out7)).

Definition gf8_muladd_67 : gf8_fn := muladd (fun W X '(in0, in1, in2, in3, in4, in5, in6, in7) =>
  let tmp0 := in0 ⊕ in3 in let tmp1 := tmp0 ⊕ in1 in let tmp2 := tmp0 ⊕ in7 in
  let out1 := tmp1 ⊕ in4 in let out0 := tmp2 ⊕ in2 in let tmp3 := out1 ⊕ in7 in
  let out2 := tmp3 ⊕ in5 in let out3 := out2 ⊕ in0 ⊕ in6 in let out7 := tmp1 ⊕ out0 ⊕ in6 in
  let out5 := tmp1 ⊕ out3 in let out4 := tmp2 ⊕ out5 in let out6 := tmp3 ⊕ out4 in
  (out0, out1, out2, out3, out4, out5, out6, out7)).

Definition gf8_muladd_68 : gf8_fn := muladd (fun W X '(in0, in1, in2, in3, in4, in5, in6, in7) =>
  let tmp0 := in3 ⊕ in4 in let tmp1 := in2 ⊕ in3 ⊕ in5 in let tmp2 := tmp0 ⊕ in1 in
  let tmp3 := tmp0 ⊕ in6 in let out0 := tmp1 ⊕ in6 in let out6 := tmp2 ⊕ in0 in
  let out7 := tmp1 ⊕ tmp2 in let out1 := tmp3 ⊕ in7 in let out2 := out1 ⊕ in2 in
  let out4 := tmp2 ⊕ out2 in let out3 := out4 ⊕ out6 ⊕ in3 in let out5 := tmp3 ⊕ out3 in
  (out0, out1, out2, out3, out4, out5, out6, out7)).

Definition gf8_muladd_69 : gf8_fn := muladd (fun W X '(in0, in1, in2, in3, in4, in5, in6, in7) =>
  let tmp0 := in6 ⊕ in7 in let out2 := tmp0 ⊕ in3 ⊕ in4 in let out1 := out2 ⊕ in1 in
  let out3 := out2 ⊕ in0 ⊕ in2 in let out4 := out1 ⊕ in2 ⊕ in3 in let out6 := out1 ⊕ in0 ⊕ in7 in
  let out7 := out4 ⊕ in5 ⊕ in6 in let out5 := out4 ⊕ out6 ⊕ in5 in let out0 := tmp0 ⊕ out5 in
  (out0, out1, out2, out3, out4, out5, out6, out7)).

Definition gf8_muladd_6A : gf8_fn := muladd (fun W X '(in0, in1, in2, in3, in4, in5, in6, in7) =>
  let tmp0 := in2 ⊕ in6 in let out3 := in0 ⊕ in4 ⊕ in6 in let tmp1 := tmp0 ⊕ in3 in
  let out4 := tmp1 ⊕ in1 in let tmp2 := tmp1 ⊕ in7 in let out2 := out4 ⊕ in4 in
  let out0 := tmp2 ⊕ in5 in let out5 := tmp2 ⊕ out3 in let out7 := out2 ⊕ in3 ⊕ in5 in
  let out1 := tmp0 ⊕ out5 in let out6 := tmp1 ⊕ out7 ⊕ in0 in
  (out0, out1, out2, out3, out4, out5, out6, out7)).

Definition gf8_muladd_6B : gf8_fn := muladd (fun W X '(in0, in1, in2, in3, in4, in5, in6, in7) =>
  let tmp0 := in4 ⊕ in6 in let out2 := tmp0 ⊕ in1 ⊕ in3 in let out4 := out2 ⊕ in2 in
  let tmp1 := out2 ⊕ in0 in let out7 := out4 ⊕ in3 ⊕ in5 ⊕ in7 in let out1 := tmp1 ⊕ in7 in
  let out3 := tmp1 ⊕ in1 in let out6 := tmp1 ⊕ in5 in let out0 := tmp1 ⊕ out7 ⊕ in6 in
  let out5 := tmp0 ⊕ out0 in
  (out0, out1, out2, out3, out4, out5, out6, out7)).

Definition gf8_muladd_6C : gf8_fn := muladd (fun W X '(in0, in1, in2, in3, in4, in5, in6, in7) =>
  let out4 := in1 in let tmp0 := in2 ⊕ in3 in let out5 := in0 ⊕ in2 in
  let out1 := in3 ⊕ in4 ⊕ in6 in let tmp1 := out5 ⊕ in1 in let out0 := tmp0 ⊕ in5 in
  let out6 := tmp0 ⊕ tmp1 in let out3 := tmp1 ⊕ in4 in let out7 := out3 ⊕ in0 in
  let out2 := out6 ⊕ out7 ⊕ in7 in
  (out0, out1, out2, out3, out4, out5, out6, out7)).

Definition gf8_muladd_6D : gf8_fn := muladd (fun W X '(in0, in1, in2, in3, in4, in5, in6, in7) =>
  let out4 := in1 ⊕ in4 in let tmp0 := in0 ⊕ in2 in let tmp1 := out4 ⊕ in3 in
  let out7 := out4 ⊕ in2 ⊕ in7 in let out5 := tmp0 ⊕ in5 in let out3 := tmp0 ⊕ tmp1 in
  let out1 := tmp1 ⊕ in6 in let out0 := out5 ⊕ in3 in let out2 := out3 ⊕ out7 ⊕ in4 in
  let out6 := out1 ⊕ in0 ⊕ in4 in
  (out0, out1, out2, out3, out4, out5, out6, out7)).

Definition gf8_muladd_6E : gf8_fn := muladd (fun W X '(in0, in1, in2, in3, in4, in5, in6, in7) =>
  let tmp0 := in1 ⊕ in3 in let tmp1 := in0 ⊕ in4 in let out4 := tmp0 ⊕ in7 in
  let out6 := tmp0 ⊕ in0 ⊕ in5 in let out5 := tmp1 ⊕ in2 in let tmp2 := tmp1 ⊕ in3 in
  let out3 := tmp2 ⊕ out4 in let out1 := tmp2 ⊕ in6 in let out2 := tmp0 ⊕ out5 in
  let out0 := out2 ⊕ out3 ⊕ in5 in let out7 := out1 ⊕ out2 ⊕ in4 in
  (out0, out1, out2, out3, out4, out5, out6, out7)).

Definition gf8_muladd_6F : gf8_fn := muladd (fun W X '(in0, in1, in2, in3, in4, in5, in6, in7) =>
  let tmp0 := in3 ⊕ in7 in let tmp1 := tmp0 ⊕ in4 in let tmp2 := tmp0 ⊕ in0 ⊕ in2 in
  let out4 := tmp1 ⊕ in1 in let out0 := tmp2 ⊕ in5 in let out3 := out4 ⊕ in0 in
  let out2 := out3 ⊕ in7 in let out1 := out2 ⊕ in6 in let out6 := out1 ⊕ in4 ⊕ in5 in
  let out7 := tmp2 ⊕ out1 in let out5 := tmp1 ⊕ out0 in
  (out0, out1, out2, out3, out4, out5, out6, out7)).

Definition gf8_muladd_70 : gf8_fn := muladd (fun W X '(in0, in1, in2, in3, in4, in5, in6, in7) =>
  let out3 := in2 in let tmp0 := in2 ⊕ in4 in let out2 := in2 ⊕ in3 ⊕ in5 in
  let tmp1 := tmp0 ⊕ in6 in let tmp2 := out2 ⊕ in7 in let out0 := tmp1 ⊕ in3 in
  let out4 := tmp1 ⊕ in0 in let out7 := tmp2 ⊕ in1 in let out6 := out4 ⊕ in1 in
  let out5 := out7 ⊕ in0 ⊕ in2 in let out1 := tmp0 ⊕ tmp2 in
  (out0, out1, out2, out3, out4, out5, out6, out7)).

Definition gf8_muladd_71 : gf8_fn := muladd (fun W X '(in0, in1, in2, in3, in4, in5, in6, in7) =>
  let out2 := in3 ⊕ in5 in let out3 := in2 ⊕ in3 in let tmp0 := in0 ⊕ in2 in
  let tmp1 := out2 ⊕ in1 in let out4 := tmp0 ⊕ in6 in let tmp2 := tmp0 ⊕ in1 in
  let out7 := tmp1 ⊕ in2 in let out1 := tmp1 ⊕ in4 ⊕ in7 in let out0 := out4 ⊕ in3 ⊕ in4 in
  let out6 := tmp2 ⊕ in4 in let out5 := tmp2 ⊕ out3 ⊕ in7 in
  (out0, out1, out2, out3, out4, out5, out6, out7)).

Definition gf8_muladd_72 : gf8_fn := muladd (fun W X '(in0, in1, in2, in3, in4, in5, in6, in7) =>
  let out3 := in7 in let tmp0 := in0 ⊕ in4 in let tmp1 := tmp0 ⊕ in3 ⊕ in7 in
  let out1 := tmp1 ⊕ in5 in let out5 := out1 ⊕ in1 in let tmp2 := tmp0 ⊕ out5 in
  let out2 := tmp2 ⊕ in2 in let out7 := out2 ⊕ in6 in let out6 := tmp1 ⊕ out7 in
  let out4 := tmp2 ⊕ out6 in let out0 := out4 ⊕ in0 in
  (out0, out1, out2, out3, out4, out5, out6, out7)).

Definition gf8_muladd_73 : gf8_fn := muladd (fun W X '(in0, in1, in2, in3, in4, in5, in6, in7) =>
  let out3 := in3 ⊕ in7 in let out2 := out3 ⊕ in1 ⊕ in5 in let out1 := out2 ⊕ in0 ⊕ in4 in
  let out5 := out1 ⊕ in5 in let out6 := out1 ⊕ out3 ⊕ in2 in let out0 := out2 ⊕ out6 ⊕ in6 in
  let out7 := out0 ⊕ out1 ⊕ in3 in let out4 := out0 ⊕ in4 in
  (out0, out1, out2, out3, out4, out5, out6, out7)).

Definition gf8_muladd_74 : gf8_fn := muladd (fun W X '(in0, in1, in2, in3, in4, in5, in6, in7) =>
  let tmp0 := in3 ⊕ in4 in let tmp1 := in1 ⊕ in2 ⊕ in6 in let out4 := in0 ⊕ in4 ⊕ in7 in
  let out5 := in0 ⊕ in1 ⊕ in5 in let out0 := tmp0 ⊕ in2 in let out1 := tmp0 ⊕ in5 in
  let out3 := tmp1 ⊕ in7 in let out6 := tmp1 ⊕ in0 in let out2 := tmp1 ⊕ out5 ⊕ in3 in
  let out7 := out3 ⊕ in3 ⊕ in6 in
  (out0, out1, out2, out3, out4, out5, out6, out7)).

Definition gf8_muladd_75 : gf8_fn := muladd (fun W X '(in0, in1, in2, in3, in4, in5, in6, in7) =>
  let out4 := in0 ⊕ in7 in let tmp0 := in1 ⊕ in3 in let out5 := in0 ⊕ in1 in
  let out7 := tmp0 ⊕ in2 in let tmp1 := tmp0 ⊕ in4 in let out6 := out5 ⊕ in2 in
  let tmp2 := out7 ⊕ in6 in let out1 := tmp1 ⊕ in5 in let out0 := tmp1 ⊕ out6 in
  let out3 := tmp2 ⊕ in7 in let out2 := tmp2 ⊕ out6 ⊕ in5 in
  (out0, out1, out2, out3, out4, out5, out6, out7)).

Definition gf8_muladd_76 : gf8_fn := muladd (fun W X '(in0, in1, in2, in3, in4, in5, in6, in7) =>
  let out3 := in1 ⊕ in6 in let tmp0 := in0 ⊕ in5 in let tmp1 := in3 ⊕ in7 in
  let tmp2 := tmp0 ⊕ in4 in let tmp3 := tmp1 ⊕ in2 in let out5 := tmp2 ⊕ in1 in
  let out1 := tmp2 ⊕ in3 in let out0 := tmp3 ⊕ in4 in let out4 := out1 ⊕ in5 in
  let out7 := tmp3 ⊕ out3 in let out2 := tmp0 ⊕ out7 in let out6 := tmp1 ⊕ out2 in
  (out0, out1, out2, out3, out4, out5, out6, out7)).

Definition gf8_muladd_77 : gf8_fn := muladd (fun W X '(in0, in1, in2, in3, in4, in5, in6, in7) =>
  let out4 := in0 ⊕ in3 in let tmp0 := in1 ⊕ in4 in let tmp1 := in1 ⊕ in6 in
  let tmp2 := out4 ⊕ in5 in let out5 := tmp0 ⊕ in0 in let out1 := tmp0 ⊕ tmp2 in
  let out3 := tmp1 ⊕ in3 in let out2 := tmp1 ⊕ tmp2 ⊕ in7 in let out7 := out3 ⊕ in2 in
  let tmp3 := out7 ⊕ in6 in let out6 := tmp2 ⊕ tmp3 in let out0 := tmp3 ⊕ out5 ⊕ in7 in
  (out0, out1, out2, out3, out4, out5, out6, out7)).

Definition gf8_muladd_78 : gf8_fn := muladd (fun W X '(in0, in1, in2, in3, in4, in5, in6, in7) =>
  let tmp0 := in0 ⊕ in3 in let tmp1 := in2 ⊕ in7 in let tmp2 := in0 ⊕ in5 ⊕ in6 in
  let out2 := tmp1 ⊕ in3 in let out3 := tmp2 ⊕ in2 in let out5 := out3 ⊕ in1 ⊕ in3 in
  let out0 := tmp0 ⊕ out3 ⊕ in4 in let out1 := tmp1 ⊕ out0 in let out4 := out1 ⊕ out5 ⊕ in5 in
  let out7 := tmp0 ⊕ out4 in let out6 := tmp2 ⊕ out7 in
  (out0, out1, out2, out3, out4, out5, out6, out7)).

Definition gf8_muladd_79 : gf8_fn := muladd (fun W X '(in0, in1, in2, in3, in4, in5, in6, in7) =>
  let out2 := in3 ⊕ in7 in let tmp0 := in3 ⊕ in4 in let tmp1 := in1 ⊕ in5 in
  let tmp2 := tmp1 ⊕ in2 in let out4 := tmp2 ⊕ in0 ⊕ in7 in let tmp3 := out4 ⊕ in5 in
  let out5 := tmp3 ⊕ out2 ⊕ in6 in let out7 := tmp0 ⊕ tmp2 in let out6 := tmp0 ⊕ tmp3 in
  let out3 := tmp1 ⊕ out5 in let out0 := out3 ⊕ in4 in let out1 := tmp3 ⊕ out0 in
  (out0, out1, out2, out3, out4, out5, out6, out7)).

Definition gf8_muladd_7A : gf8_fn := muladd (fun W X '(in0, in1, in2, in3, in4, in5, in6, in7) =>
  let tmp0 := in1 ⊕ in2 in let out2 := tmp0 ⊕ in3 in let tmp1 := out2 ⊕ in4 in
  let out4 := tmp1 ⊕ in0 ⊕ in5 in let out5 := out4 ⊕ in6 in let out6 := out5 ⊕ in7 in
  let out7 := out6 ⊕ in0 in let out0 := out7 ⊕ in1 in let out1 := tmp0 ⊕ out6 in
  let out3 := tmp1 ⊕ out6 in
  (out0, out1, out2, out3, out4, out5, out6, out7)).

Definition gf8_muladd_7B : gf8_fn := muladd (fun W X '(in0, in1, in2, in3, in4, in5, in6, in7) =>
  let out2 := in1 ⊕ in3 in let tmp0 := in0 ⊕ in5 in let out4 := tmp0 ⊕ out2 ⊕ in2 in
  let tmp1 := out4 ⊕ in4 in let out6 := tmp1 ⊕ in7 in let out5 := tmp1 ⊕ in5 ⊕ in6 in
  let out0 := out6 ⊕ in1 ⊕ in6 in let tmp2 := out0 ⊕ in2 in let out1 := tmp2 ⊕ in1 in
  let out3 := tmp2 ⊕ in4 in let out7 := tmp0 ⊕ out5 in
  (out0, out1, out2, out3, out4, out5, out6, out7)).

Definition gf8_muladd_7C : gf8_fn := muladd (fun W X '(in0, in1, in2, in3, in4, in5, in6, in7) =>
  let tmp0 := in3 ⊕ in5 in let tmp1 := tmp0 ⊕ in4 in let out0 := tmp1 ⊕ in2 in
  let out1 := tmp1 ⊕ in6 in let out7 := out0 ⊕ in1 ⊕ in5 ⊕ in7 in let out5 := out1 ⊕ out7 ⊕ in0 in
  let out3 := out5 ⊕ in6 in let out6 := tmp0 ⊕ out5 in let out2 := out6 ⊕ in1 in
  let out4 := out2 ⊕ out7 ⊕ in5 in
  (out0, out1, out2, out3, out4, out5, out6, out7)).

Definition gf8_muladd_7D : gf8_fn := muladd (fun W X '(in0, in1, in2, in3, in4, in5, in6, in7) =>
  let tmp0 := in1 ⊕ in2 in let tmp1 := tmp0 ⊕ in3 in let tmp2 := tmp0 ⊕ in6 in
  let out7 := tmp1 ⊕ in4 in let tmp3 := tmp2 ⊕ in0 in let out5 := tmp3 ⊕ in7 in
  let out4 := tmp3 ⊕ in2 ⊕ in5 in let out2 := tmp1 ⊕ out5 in let out6 := tmp2 ⊕ out2 in
  let out0 := out4 ⊕ out7 ⊕ in6 in let out1 := tmp3 ⊕ out0 in let out3 := out6 ⊕ in5 in
  (out0, out1, out2, out3, out4, out5, out6, out7)).

Definition gf8_muladd_7E : gf8_fn := muladd (fun W X '(in0, in1, in2, in3, in4, in5, in6, in7) =>
  let tmp0 := in3 ⊕ in4 in let tmp1 := in0 ⊕ in5 in let out1 := tmp0 ⊕ tmp1 ⊕ in6 in
  let out3 := tmp1 ⊕ in1 in let out4 := out1 ⊕ in1 ⊕ in7 in let tmp2 := out4 ⊕ in3 in
  let out5 := tmp2 ⊕ in2 in let out6 := tmp0 ⊕ out5 in let out7 := tmp1 ⊕ out4 ⊕ in2 in
  let out2 := out6 ⊕ in5 ⊕ in7 in let out0 := tmp2 ⊕ out2 in
  (out0, out1, out2, out3, out4, out5, out6, out7)).

Definition gf8_muladd_7F : gf8_fn := muladd (fun W X '(in0, in1, in2, in3, in4, in5, in6, in7) =>
  let tmp0 := in2 ⊕ in7 in let tmp1 := tmp0 ⊕ in3 ⊕ in5 in let tmp2 := tmp1 ⊕ in0 in
  let out0 := tmp2 ⊕ in4 in let out6 := tmp2 ⊕ in1 in let out3 := tmp0 ⊕ out6 in
  let tmp3 := out3 ⊕ in6 in let out1 := tmp3 ⊕ in4 in let out2 := tmp3 ⊕ in5 in
  let out4 := tmp3 ⊕ in7 in let out5 := tmp1 ⊕ out1 in let out7 := out0 ⊕ out4 ⊕ in3 in
  (out0, out1, out2, out3, out4, out5, out6, out7)).

Definition gf8_muladd_80 : gf8_fn := muladd (fun W X '(in0, in1, in2, in3, in4, in5, in6, in7) =>
  let tmp0 := in2 ⊕ in3 in let tmp1 := in4 ⊕ in5 in let out1 := in2 ⊕ in6 ⊕ in7 in
  let out5 := tmp0 ⊕ in4 in let tmp2 := tmp0 ⊕ in1 in let out6 := tmp1 ⊕ in3 in
  let out7 := tmp1 ⊕ in0 ⊕ in6 in let out4 := tmp2 ⊕ in7 in let out3 := tmp2 ⊕ out6 in
  let out2 := out3 ⊕ out5 ⊕ in6 in let out0 := out2 ⊕ in3 ⊕ in7 in
  (out0, out1, out2, out3, out4, out5, out6, out7)).

Definition gf8_muladd_81 : gf8_fn := muladd (fun W X '(in0, in1, in2, in3, in4, in5, in6, in7) =>
  let tmp0 := in4 ⊕ in6 in let tmp1 := tmp0 ⊕ in3 in let out6 := tmp1 ⊕ in5 in
  let out5 := out6 ⊕ in2 ⊕ in6 in let out3 := out5 ⊕ in1 in let out2 := tmp0 ⊕ out3 in
  let out1 := out3 ⊕ out6 ⊕ in7 in let out4 := tmp1 ⊕ out1 in let out7 := out2 ⊕ out4 ⊕ in0 in
  let out0 := out7 ⊕ in1 ⊕ in4 in
  (out0, out1, out2, out3, out4, out5, out6, out7)).

Definition gf8_muladd_82 : gf8_fn := muladd (fun W X '(in0, in1, in2, in3, in4, in5, in6, in7) =>
  let out4 := in1 ⊕ in2 in let tmp0 := in6 ⊕ in7 in let out5 := in2 ⊕ in3 in
  let out6 := in3 ⊕ in4 in let out7 := in0 ⊕ in4 ⊕ in5 in let out0 := in1 ⊕ in5 ⊕ in6 in
  let out1 := tmp0 ⊕ in0 ⊕ in2 in let out2 := tmp0 ⊕ in3 ⊕ in5 in let out3 := tmp0 ⊕ out0 ⊕ in4 in
  (out0, out1, out2, out3, out4, out5, out6, out7)).

Definition gf8_muladd_83 : gf8_fn := muladd (fun W X '(in0, in1, in2, in3, in4, in5, in6, in7) =>
  let tmp0 := in0 ⊕ in1 in let tmp1 := in2 ⊕ in5 in let tmp2 := in3 ⊕ in6 in
  let out4 := in1 ⊕ in2 ⊕ in4 in let out0 := tmp0 ⊕ in5 ⊕ in6 in let out5 := tmp1 ⊕ in3 in
  let tmp3 := tmp1 ⊕ in7 in let out6 := tmp2 ⊕ in4 in let out2 := tmp2 ⊕ tmp3 in
  let tmp4 := tmp3 ⊕ out4 in let out1 := tmp3 ⊕ out0 in let out3 := tmp4 ⊕ in3 in
  let out7 := tmp0 ⊕ tmp4 in
  (out0, out1, out2, out3, out4, out5, out6, out7)).

Definition gf8_muladd_84 : gf8_fn := muladd (fun W X '(in0, in1, in2, in3, in4, in5, in6, in7) =>
  let out1 := in2 ⊕ in6 in let out6 := in3 ⊕ in5 in let out0 := in1 ⊕ in5 ⊕ in7 in
  let out7 := in0 ⊕ in4 ⊕ in6 in let out4 := in1 ⊕ in3 ⊕ in6 in let out5 := in2 ⊕ in4 ⊕ in7 in
  let out2 := out6 ⊕ in0 ⊕ in1 in let out3 := out5 ⊕ in5 ⊕ in6 in
  (out0, out1, out2, out3, out4, out5, out6, out7)).

Definition gf8_muladd_85 : gf8_fn := muladd (fun W X '(in0, in1, in2, in3, in4, in5, in6, in7) =>
  let tmp0 := in1 ⊕ in6 in let tmp1 := in3 ⊕ in6 in let tmp2 := tmp0 ⊕ in4 in
  let out1 := tmp0 ⊕ in2 in let out6 := tmp1 ⊕ in5 in let out4 := tmp2 ⊕ in3 in
  let tmp3 := out1 ⊕ out6 in let out2 := tmp3 ⊕ in0 in let out3 := tmp2 ⊕ tmp3 ⊕ in7 in
  let out7 := out2 ⊕ out3 ⊕ in1 in let out5 := tmp1 ⊕ out3 in let out0 := tmp2 ⊕ out7 ⊕ in5 in
  (out0, out1, out2, out3, out4, out5, out6, out7)).

Definition gf8_muladd_86 : gf8_fn := muladd (fun W X '(in0, in1, in2, in3, in4, in5, in6, in7) =>
  let out6 := in3 in let out7 := in0 ⊕ in4 in let out0 := in1 ⊕ in5 in let out5 := in2 ⊕ in7 in
  let out3 := in4 ⊕ in5 ⊕ in6 in let out1 := in0 ⊕ in2 ⊕ in6 in let out4 := in1 ⊕ in6 ⊕ in7 in
  let out2 := in0 ⊕ in3 ⊕ in5 ⊕ in7 in
  (out0, out1, out2, out3, out4, out5, out6, out7)).

Definition gf8_muladd_87 : gf8_fn := muladd (fun W X '(in0, in1, in2, in3, in4, in5, in6, in7) =>
  let out6 := in3 ⊕ in6 in let tmp0 := in0 ⊕ in1 in let out7 := in0 ⊕ in4 ⊕ in7 in
  let out5 := in2 ⊕ in5 ⊕ in7 in let out3 := out6 ⊕ in4 ⊕ in5 in let out0 := tmp0 ⊕ in5 in
  let tmp1 := tmp0 ⊕ in6 in let out2 := out5 ⊕ in0 ⊕ in3 in let out1 := tmp1 ⊕ in2 in
  let out4 := tmp1 ⊕ out7 in
  (out0, out1, out2, out3, out4, out5, out6, out7)).

Definition gf8_muladd_88 : gf8_fn := muladd (fun W X '(in0, in1, in2, in3, in4, in5, in6, in7) =>
  let out1 := in2 ⊕ in7 in let tmp0 := in5 ⊕ in6 in let out0 := in1 ⊕ in6 ⊕ in7 in
  let out6 := in4 ⊕ in5 ⊕ in7 in let out3 := out0 ⊕ out1 ⊕ in0 ⊕ in4 in let out7 := tmp0 ⊕ in0 in
  let tmp1 := tmp0 ⊕ in3 in let out2 := out0 ⊕ in3 in let out4 := tmp1 ⊕ in2 in
  let out5 := tmp1 ⊕ out6 in
  (out0, out1, out2, out3, out4, out5, out6, out7)).

Definition gf8_muladd_89 : gf8_fn := muladd (fun W X '(in0, in1, in2, in3, in4, in5, in6, in7) =>
  let tmp0 := in0 ⊕ in7 in let tmp1 := in2 ⊕ in7 in let tmp2 := tmp0 ⊕ in6 in
  let out1 := tmp1 ⊕ in1 in let out7 := tmp2 ⊕ in5 in let out0 := tmp2 ⊕ in1 in
  let out2 := out1 ⊕ in3 ⊕ in6 in let out6 := out7 ⊕ in0 ⊕ in4 in let out5 := out6 ⊕ in3 in
  let out3 := tmp0 ⊕ out2 ⊕ in4 in let out4 := tmp1 ⊕ out5 in
  (out0, out1, out2, out3, out4, out5, out6, out7)).

Definition gf8_muladd_8A : gf8_fn := muladd (fun W X '(in0, in1, in2, in3, in4, in5, in6, in7) =>
  let out0 := in1 ⊕ in6 in let out7 := in0 ⊕ in5 in let out2 := in3 ⊕ in6 in
  let out6 := in4 ⊕ in7 in let out1 := in0 ⊕ in2 ⊕ in7 in let out3 := out0 ⊕ out6 ⊕ in0 in
  let out4 := out1 ⊕ out7 ⊕ in6 in let out5 := out2 ⊕ in7 in
  (out0, out1, out2, out3, out4, out5, out6, out7)).

Definition gf8_muladd_8B : gf8_fn := muladd (fun W X '(in0, in1, in2, in3, in4, in5, in6, in7) =>
  let tmp0 := in0 ⊕ in1 in let tmp1 := in3 ⊕ in6 in let tmp2 := in5 ⊕ in7 in
  let tmp3 := tmp0 ⊕ in7 in let out0 := tmp0 ⊕ in6 in let out2 := tmp1 ⊕ in2 in
  let out5 := tmp1 ⊕ tmp2 in let out7 := tmp2 ⊕ in0 in let tmp4 := tmp3 ⊕ in4 in
  let out1 := tmp3 ⊕ in2 in let out6 := tmp4 ⊕ out0 in let out4 := out6 ⊕ in2 ⊕ in5 in
  let out3 := tmp1 ⊕ tmp4 in
  (out0, out1, out2, out3, out4, out5, out6, out7)).

Definition gf8_muladd_8C : gf8_fn := muladd (fun W X '(in0, in1, in2, in3, in4, in5, in6, in7) =>
  let out1 := in2 in let out0 := in1 ⊕ in7 in let out7 := in0 ⊕ in6 in let out5 := in4 ⊕ in6 in
  let out6 := in5 ⊕ in7 in let out2 := out0 ⊕ in0 ⊕ in3 in let out3 := out5 ⊕ out7 ⊕ in2 ⊕ in7 in
  let out4 := out6 ⊕ in3 in
  (out0, out1, out2, out3, out4, out5, out6, out7)).

Definition gf8_muladd_8D : gf8_fn := muladd (fun W X '(in0, in1, in2, in3, in4, in5, in6, in7) =>
  let out1 := in1 ⊕ in2 in let tmp0 := in6 ⊕ in7 in let out0 := in0 ⊕ in1 ⊕ in7 in
  let out5 := in4 ⊕ in5 ⊕ in6 in let out6 := tmp0 ⊕ in5 in let out7 := tmp0 ⊕ in0 in
  let out4 := tmp0 ⊕ out5 ⊕ in3 in let out2 := out0 ⊕ in2 ⊕ in3 in let out3 := out2 ⊕ in1 ⊕ in4 in
  (out0, out1, out2, out3, out4, out5, out6, out7)).

Definition gf8_muladd_8E : gf8_fn := muladd (fun W X '(in0, in1, in2, in3, in4, in5, in6, in7) =>
  let out0 := in1 in let out4 := in5 in let out7 := in0 in let out5 := in6 in let out6 := in7 in
  let out3 := in0 ⊕ in4 in let out1 := in0 ⊕ in2 in let out2 := in0 ⊕ in3 in
  (out0, out1, out2, out3, out4, out5, out6, out7)).

Definition gf8_muladd_8F : gf8_fn := muladd (fun W X '(in0, in1, in2, in3, in4, in5, in6, in7) =>
  let out0 := in0 ⊕ in1 in let tmp0 := in0 ⊕ in3 in let out4 := in4 ⊕ in5 in
  let out7 := in0 ⊕ in7 in let out5 := in5 ⊕ in6 in let out6 := in6 ⊕ in7 in
  let out1 := out0 ⊕ in2 in let out2 := tmp0 ⊕ in2 in let out3 := tmp0 ⊕ in4 in
  (out0, out1, out2, out3, out4, out5, out6, out7)).

Definition gf8_muladd_90 : gf8_fn := muladd (fun W X '(in0, in1, in2, in3, in4, in5, in6, in7) =>
  let tmp0 := in1 ⊕ in2 in let tmp1 := in2 ⊕ in6 ⊕ in7 in let out3 := tmp0 ⊕ in7 in
  let out1 := tmp1 ⊕ in5 in let tmp2 := out1 ⊕ in4 in let out6 := tmp2 ⊕ in3 in
  let out5 := out6 ⊕ in1 in let out4 := out5 ⊕ in0 in let out0 := tmp0 ⊕ tmp2 in
  let out7 := tmp0 ⊕ out4 in let out2 := tmp1 ⊕ out5 in
  (out0, out1, out2, out3, out4, out5, out6, out7)).

Definition gf8_muladd_91 : gf8_fn := muladd (fun W X '(in0, in1, in2, in3, in4, in5, in6, in7) =>
  let tmp0 := in2 ⊕ in4 in let tmp1 := tmp0 ⊕ in3 ⊕ in5 in let out2 := tmp1 ⊕ in1 in
  let out6 := tmp1 ⊕ in7 in let tmp2 := out2 ⊕ in5 ⊕ in7 in let out3 := tmp2 ⊕ in4 in
  let out5 := tmp2 ⊕ in6 in let out1 := tmp1 ⊕ out5 ⊕ in2 in let tmp3 := out1 ⊕ in0 in
  let out4 := tmp3 ⊕ in3 in let out0 := tmp0 ⊕ tmp3 in let out7 := tmp2 ⊕ tmp3 in
  (out0, out1, out2, out3, out4, out5, out6, out7)).

Definition gf8_muladd_92 : gf8_fn := muladd (fun W X '(in0, in1, in2, in3, in4, in5, in6, in7) =>
  let out3 := in1 in let tmp0 := in4 ⊕ in5 in let tmp1 := tmp0 ⊕ in1 in
  let out2 := tmp0 ⊕ in3 ⊕ in7 in let out0 := tmp1 ⊕ in6 in let out7 := out2 ⊕ in0 in
  let out4 := out0 ⊕ in0 ⊕ in2 in let out5 := out4 ⊕ out7 ⊕ in5 in let out6 := tmp1 ⊕ out5 in
  let out1 := out6 ⊕ out7 ⊕ in7 in
  (out0, out1, out2, out3, out4, out5, out6, out7)).

Definition gf8_muladd_93 : gf8_fn := muladd (fun W X '(in0, in1, in2, in3, in4, in5, in6, in7) =>
  let out3 := in1 ⊕ in3 in let tmp0 := in2 ⊕ in7 in let tmp1 := out3 ⊕ in6 in
  let tmp2 := tmp0 ⊕ in4 in let out5 := tmp0 ⊕ tmp1 in let out6 := tmp2 ⊕ in3 in
  let out2 := out6 ⊕ in5 in let out0 := out2 ⊕ out5 ⊕ in0 in let out7 := tmp1 ⊕ out0 in
  let out1 := tmp2 ⊕ out0 in let out4 := out1 ⊕ in7 in
  (out0, out1, out2, out3, out4, out5, out6, out7)).

Definition gf8_muladd_94 : gf8_fn := muladd (fun W X '(in0, in1, in2, in3, in4, in5, in6, in7) =>
  let out3 := in2 ⊕ in6 in let tmp0 := in1 ⊕ in4 ⊕ in5 in let out1 := out3 ⊕ in5 in
  let out5 := tmp0 ⊕ out3 in let out0 := tmp0 ⊕ in7 in let out4 := tmp0 ⊕ in0 ⊕ in3 in
  let out6 := out1 ⊕ in3 ⊕ in7 in let out2 := out4 ⊕ in6 in let out7 := out0 ⊕ out2 ⊕ in4 in
  (out0, out1, out2, out3, out4, out5, out6, out7)).

Definition gf8_muladd_95 : gf8_fn := muladd (fun W X '(in0, in1, in2, in3, in4, in5, in6, in7) =>
  let tmp0 := in2 ⊕ in3 in let out3 := tmp0 ⊕ in6 in let tmp1 := tmp0 ⊕ in7 in
  let tmp2 := out3 ⊕ in0 in let out6 := tmp1 ⊕ in5 in let tmp3 := tmp2 ⊕ in4 in
  let out7 := tmp3 ⊕ in2 in let tmp4 := tmp3 ⊕ in5 in let out2 := tmp4 ⊕ in1 in
  let tmp5 := out2 ⊕ in6 in let out0 := tmp1 ⊕ tmp5 in let out1 := tmp5 ⊕ out7 in
  let out4 := tmp2 ⊕ out1 in let out5 := tmp4 ⊕ out4 in
  (out0, out1, out2, out3, out4, out5, out6, out7)).

Definition gf8_muladd_96 : gf8_fn := muladd (fun W X '(in0, in1, in2, in3, in4, in5, in6, in7) =>
  let out3 := in6 ⊕ in7 in let tmp0 := in1 ⊕ in5 in let tmp1 := in5 ⊕ in6 in
  let out6 := out3 ⊕ in2 ⊕ in3 in let out0 := tmp0 ⊕ in4 in let tmp2 := tmp1 ⊕ in2 in
  let out4 := out0 ⊕ in0 ⊕ in7 in let out1 := tmp2 ⊕ in0 in let out5 := tmp2 ⊕ in1 in
  let out7 := tmp0 ⊕ out4 ⊕ in3 in let out2 := tmp1 ⊕ out7 in
  (out0, out1, out2, out3, out4, out5, out6, out7)).

Definition gf8_muladd_97 : gf8_fn := muladd (fun W X '(in0, in1, in2, in3, in4, in5, in6, in7) =>
  let tmp0 := in0 ⊕ in4 in let tmp1 := in2 ⊕ in6 in let out3 := in3 ⊕ in6 ⊕ in7 in
  let out7 := tmp0 ⊕ in3 in let tmp2 := tmp0 ⊕ in5 in let out5 := tmp1 ⊕ in1 in
  let out6 := tmp1 ⊕ out3 in let out0 := tmp2 ⊕ in1 in let out2 := tmp2 ⊕ out3 ⊕ in2 in
  let tmp3 := out0 ⊕ in4 in let out4 := tmp3 ⊕ in7 in let out1 := tmp1 ⊕ tmp3 in
  (out0, out1, out2, out3, out4, out5, out6, out7)).

Definition gf8_muladd_98 : gf8_fn := muladd (fun W X '(in0, in1, in2, in3, in4, in5, in6, in7) =>
  let tmp0 := in5 ⊕ in7 in let tmp1 := in1 ⊕ in4 ⊕ in7 in let out1 := tmp0 ⊕ in2 in
  let out0 := tmp1 ⊕ in6 in let out2 := tmp1 ⊕ in3 in let out6 := out0 ⊕ out1 ⊕ in1 in
  let out5 := tmp0 ⊕ out2 in let out3 := tmp1 ⊕ out6 ⊕ in0 in let out7 := out0 ⊕ out5 ⊕ in0 in
  let out4 := out6 ⊕ out7 ⊕ in7 in
  (out0, out1, out2, out3, out4, out5, out6, out7)).

Definition gf8_muladd_99 : gf8_fn := muladd (fun W X '(in0, in1, in2, in3, in4, in5, in6, in7) =>
  let tmp0 := in0 ⊕ in3 in let out5 := in1 ⊕ in3 ⊕ in4 in let out6 := in2 ⊕ in4 ⊕ in5 in
  let out4 := tmp0 ⊕ in2 in let tmp1 := tmp0 ⊕ in6 in let tmp2 := out5 ⊕ in7 in
  let out7 := tmp1 ⊕ in5 in let out0 := tmp1 ⊕ tmp2 in let out2 := tmp2 ⊕ in2 in
  let out3 := out0 ⊕ out6 ⊕ in3 in let out1 := tmp1 ⊕ out3 in
  (out0, out1, out2, out3, out4, out5, out6, out7)).

Definition gf8_muladd_9A : gf8_fn := muladd (fun W X '(in0, in1, in2, in3, in4, in5, in6, in7) =>
  let out2 := in3 ⊕ in4 in let tmp0 := in0 ⊕ in5 in let tmp1 := in1 ⊕ in6 in
  let out5 := in1 ⊕ in3 ⊕ in5 in let tmp2 := tmp0 ⊕ in7 in let out3 := tmp0 ⊕ tmp1 in
  let out0 := tmp1 ⊕ in4 in let out7 := tmp2 ⊕ in3 in let out1 := tmp2 ⊕ in2 in
  let out6 := out0 ⊕ in1 ⊕ in2 in let out4 := out1 ⊕ in4 ⊕ in5 in
  (out0, out1, out2, out3, out4, out5, out6, out7)).

Definition gf8_muladd_9B : gf8_fn := muladd (fun W X '(in0, in1, in2, in3, in4, in5, in6, in7) =>
  let out5 := in1 ⊕ in3 in let tmp0 := in3 ⊕ in5 in let out6 := in2 ⊕ in4 in
  let out4 := in0 ⊕ in2 ⊕ in7 in let out7 := tmp0 ⊕ in0 in let out2 := out6 ⊕ in3 in
  let out1 := out4 ⊕ in1 ⊕ in5 in let out3 := out7 ⊕ in1 ⊕ in6 in let out0 := tmp0 ⊕ out3 ⊕ in4 in
  (out0, out1, out2, out3, out4, out5, out6, out7)).

Definition gf8_muladd_9C : gf8_fn := muladd (fun W X '(in0, in1, in2, in3, in4, in5, in6, in7) =>
  let out1 := in2 ⊕ in5 in let tmp0 := in0 ⊕ in3 ⊕ in6 in let out3 := out1 ⊕ in0 in
  let out6 := out1 ⊕ in6 in let out7 := tmp0 ⊕ in7 in let out4 := out7 ⊕ in4 in
  let out2 := out4 ⊕ in1 in let out0 := tmp0 ⊕ out2 in let out5 := out0 ⊕ in5 in
  (out0, out1, out2, out3, out4, out5, out6, out7)).

Definition gf8_muladd_9D : gf8_fn := muladd (fun W X '(in0, in1, in2, in3, in4, in5, in6, in7) =>
  let out6 := in2 ⊕ in5 in let tmp0 := in0 ⊕ in3 in let out5 := in1 ⊕ in4 ⊕ in7 in
  let out1 := out6 ⊕ in1 in let out3 := tmp0 ⊕ out6 in let out7 := tmp0 ⊕ in6 in
  let out0 := out5 ⊕ in0 in let out4 := out7 ⊕ in7 in let out2 := out5 ⊕ out7 ⊕ in2 in
  (out0, out1, out2, out3, out4, out5, out6, out7)).

Definition gf8_muladd_9E : gf8_fn := muladd (fun W X '(in0, in1, in2, in3, in4, in5, in6, in7) =>
  let out0 := in1 ⊕ in4 in let tmp0 := in0 ⊕ in5 in let out6 := in2 ⊕ in6 in
  let out7 := in0 ⊕ in3 ⊕ in7 in let out4 := in0 ⊕ in4 ⊕ in6 in let out5 := in1 ⊕ in5 ⊕ in7 in
  let out1 := tmp0 ⊕ in2 in let out3 := tmp0 ⊕ in7 in let out2 := out4 ⊕ in3 in
  (out0, out1, out2, out3, out4, out5, out6, out7)).

Definition gf8_muladd_9F : gf8_fn := muladd (fun W X '(in0, in1, in2, in3, in4, in5, in6, in7) =>
  let out6 := in2 in let out7 := in0 ⊕ in3 in let tmp0 := in0 ⊕ in1 in let out4 := in0 ⊕ in6 in
  let out5 := in1 ⊕ in7 in let out1 := tmp0 ⊕ in2 ⊕ in5 in let out2 := out7 ⊕ in2 ⊕ in4 ⊕ in6 in
  let out3 := out7 ⊕ in5 ⊕ in7 in let out0 := tmp0 ⊕ in4 in
  (out0, out1, out2, out3, out4, out5, out6, out7)).

Definition gf8_muladd_A0 : gf8_fn := muladd (fun W X '(in0, in1, in2, in3, in4, in5, in6, in7) =>
  let tmp0 := in1 ⊕ in6 in let out2 := tmp0 ⊕ in7 in let tmp1 := tmp0 ⊕ in5 in
  let out6 := out2 ⊕ in3 ⊕ in4 in let out0 := tmp1 ⊕ in3 in let tmp2 := out0 ⊕ in2 in
  let out3 := tmp2 ⊕ in7 in let tmp3 := tmp2 ⊕ in1 in let out5 := tmp3 ⊕ in0 in
  let out4 := tmp3 ⊕ out6 in let out7 := out5 ⊕ out6 ⊕ in1 in let out1 := tmp1 ⊕ out4 in
  (out0, out1, out2, out3, out4, out5, out6, out7)).

Definition gf8_muladd_A1 : gf8_fn := muladd (fun W X '(in0, in1, in2, in3, in4, in5, in6, in7) =>
  let tmp0 := in2 ⊕ in5 in let tmp1 := tmp0 ⊕ in1 in let tmp2 := tmp0 ⊕ in4 in
  let out4 := tmp1 ⊕ in7 in let out7 := tmp2 ⊕ in0 in let out6 := tmp2 ⊕ out4 ⊕ in3 in
  let out3 := out4 ⊕ in6 in let out2 := out3 ⊕ in5 in let out1 := out2 ⊕ in4 in
  let out5 := out1 ⊕ out6 ⊕ in0 in let out0 := tmp1 ⊕ out5 in
  (out0, out1, out2, out3, out4, out5, out6, out7)).

Definition gf8_muladd_A2 : gf8_fn := muladd (fun W X '(in0, in1, in2, in3, in4, in5, in6, in7) =>
  let out2 := in6 in let tmp0 := in1 ⊕ in3 ⊕ in5 in let out3 := tmp0 ⊕ in6 in
  let out4 := tmp0 ⊕ in2 ⊕ in4 in let out0 := out3 ⊕ in7 in let out6 := out0 ⊕ in4 in
  let out1 := out0 ⊕ out4 ⊕ in0 in let out7 := out1 ⊕ in5 in let out5 := out7 ⊕ in3 ⊕ in7 in
  (out0, out1, out2, out3, out4, out5, out6, out7)).

Definition gf8_muladd_A3 : gf8_fn := muladd (fun W X '(in0, in1, in2, in3, in4, in5, in6, in7) =>
  let out2 := in2 ⊕ in6 in let out3 := in1 ⊕ in5 ⊕ in6 in let tmp0 := out2 ⊕ in0 in
  let out4 := out2 ⊕ out3 ⊕ in3 in let tmp1 := tmp0 ⊕ in4 in let out0 := tmp0 ⊕ out4 ⊕ in7 in
  let out5 := tmp1 ⊕ in3 in let out7 := tmp1 ⊕ in5 in let out1 := tmp1 ⊕ in1 ⊕ in7 in
  let out6 := tmp1 ⊕ out0 ⊕ in2 in
  (out0, out1, out2, out3, out4, out5, out6, out7)).

Definition gf8_muladd_A4 : gf8_fn := muladd (fun W X '(in0, in1, in2, in3, in4, in5, in6, in7) =>
  let tmp0 := in1 ⊕ in3 in let tmp1 := in2 ⊕ in4 in let tmp2 := in2 ⊕ in5 in
  let tmp3 := in0 ⊕ in7 in let out0 := tmp0 ⊕ in5 in let out6 := tmp0 ⊕ in6 ⊕ in7 in
  let out1 := tmp1 ⊕ in6 in let out7 := tmp1 ⊕ tmp3 in let out3 := tmp2 ⊕ in3 in
  let tmp4 := tmp2 ⊕ out1 in let out2 := tmp3 ⊕ in1 in let out5 := tmp4 ⊕ out7 in
  let out4 := tmp4 ⊕ in1 in
  (out0, out1, out2, out3, out4, out5, out6, out7)).

Definition gf8_muladd_A5 : gf8_fn := muladd (fun W X '(in0, in1, in2, in3, in4, in5, in6, in7) =>
  let out3 := in2 ⊕ in5 in let tmp0 := in1 ⊕ in6 in let tmp1 := in0 ⊕ in1 in
  let tmp2 := in2 ⊕ in4 in let out6 := in1 ⊕ in3 ⊕ in7 in let out4 := tmp0 ⊕ in5 in
  let out1 := tmp0 ⊕ tmp2 in let out0 := tmp1 ⊕ in3 ⊕ in5 in let out2 := tmp1 ⊕ in2 ⊕ in7 in
  let out7 := tmp2 ⊕ in0 in let out5 := tmp0 ⊕ out2 in
  (out0, out1, out2, out3, out4, out5, out6, out7)).

Definition gf8_muladd_A6 : gf8_fn := muladd (fun W X '(in0, in1, in2, in3, in4, in5, in6, in7) =>
  let out2 := in0 in let out3 := in3 ⊕ in5 ⊕ in7 in let out1 := in0 ⊕ in2 ⊕ in4 ⊕ in6 in
  let out0 := out3 ⊕ in1 in let out7 := out1 ⊕ in7 in let out6 := out0 ⊕ in6 in
  let out5 := out7 ⊕ in5 in let out4 := out6 ⊕ in4 in
  (out0, out1, out2, out3, out4, out5, out6, out7)).

Definition gf8_muladd_A7 : gf8_fn := muladd (fun W X '(in0, in1, in2, in3, in4, in5, in6, in7) =>
  let out2 := in0 ⊕ in2 in let out3 := in5 ⊕ in7 in let out7 := out2 ⊕ in4 ⊕ in6 in
  let out6 := out3 ⊕ in1 ⊕ in3 in let out1 := out7 ⊕ in1 in let out5 := out7 ⊕ in7 in
  let out0 := out6 ⊕ in0 in let out4 := out6 ⊕ in6 in
  (out0, out1, out2, out3, out4, out5, out6, out7)).

Definition gf8_muladd_A8 : gf8_fn := muladd (fun W X '(in0, in1, in2, in3, in4, in5, in6, in7) =>
  let tmp0 := in2 ⊕ in4 in let tmp1 := in1 ⊕ in6 in let tmp2 := in0 ⊕ in2 ⊕ in7 in
  let out1 := tmp0 ⊕ in7 in let out4 := tmp0 ⊕ in6 in let out0 := tmp1 ⊕ in3 in
  let out2 := tmp1 ⊕ in5 in let out6 := tmp1 ⊕ in4 in let out7 := tmp2 ⊕ in5 in
  let out3 := tmp2 ⊕ out0 ⊕ in6 in let out5 := out7 ⊕ in2 ⊕ in3 in
  (out0, out1, out2, out3, out4, out5, out6, out7)).

Definition gf8_muladd_A9 : gf8_fn := muladd (fun W X '(in0, in1, in2, in3, in4, in5, in6, in7) =>
  let out4 := in2 ⊕ in6 in let out6 := in1 ⊕ in4 in let out7 := in0 ⊕ in2 ⊕ in5 in
  let out5 := in0 ⊕ in3 ⊕ in7 in let out2 := out4 ⊕ in1 ⊕ in5 in let out1 := out6 ⊕ in2 ⊕ in7 in
  let out0 := out2 ⊕ out7 ⊕ in3 in let out3 := out1 ⊕ in0 ⊕ in4 in
  (out0, out1, out2, out3, out4, out5, out6, out7)).

Definition gf8_muladd_AA : gf8_fn := muladd (fun W X '(in0, in1, in2, in3, in4, in5, in6, in7) =>
  let tmp0 := in0 ⊕ in2 in let tmp1 := in1 ⊕ in3 in let tmp2 := in6 ⊕ in7 in
  let out1 := tmp0 ⊕ in4 ⊕ in7 in let out3 := tmp1 ⊕ in0 in let out0 := tmp1 ⊕ tmp2 in
  let out2 := tmp2 ⊕ in5 in let out7 := tmp0 ⊕ out2 in let out6 := out1 ⊕ out7 ⊕ in1 in
  let out5 := out0 ⊕ out6 ⊕ in0 in let out4 := out5 ⊕ out7 ⊕ in7 in
  (out0, out1, out2, out3, out4, out5, out6, out7)).

Definition gf8_muladd_AB : gf8_fn := muladd (fun W X '(in0, in1, in2, in3, in4, in5, in6, in7) =>
  let out3 := in0 ⊕ in1 in let tmp0 := in1 ⊕ in4 in let tmp1 := in0 ⊕ in7 in
  let out6 := tmp0 ⊕ in5 in let out1 := tmp0 ⊕ tmp1 ⊕ in2 in let out5 := tmp1 ⊕ in3 ⊕ in4 in
  let out0 := tmp0 ⊕ out5 ⊕ in6 in let out4 := out0 ⊕ out3 ⊕ in2 in let out2 := out4 ⊕ in3 ⊕ in5 in
  let out7 := tmp1 ⊕ out2 in
  (out0, out1, out2, out3, out4, out5, out6, out7)).

Definition gf8_muladd_AC : gf8_fn := muladd (fun W X '(in0, in1, in2, in3, in4, in5, in6, in7) =>
  let out0 := in1 ⊕ in3 in let out1 := in2 ⊕ in4 in let tmp0 := in0 ⊕ in2 in
  let out4 := in4 ⊕ in7 in let out5 := in0 ⊕ in5 in let out6 := in1 ⊕ in6 in
  let out7 := tmp0 ⊕ in7 in let out3 := tmp0 ⊕ in3 ⊕ in6 in let out2 := out5 ⊕ in1 in
  (out0, out1, out2, out3, out4, out5, out6, out7)).

Definition gf8_muladd_AD : gf8_fn := muladd (fun W X '(in0, in1, in2, in3, in4, in5, in6, in7) =>
  let out4 := in7 in let out5 := in0 in let out6 := in1 in let out7 := in0 ⊕ in2 in
  let out0 := in0 ⊕ in1 ⊕ in3 in let out2 := out7 ⊕ in1 ⊕ in5 in let out1 := in1 ⊕ in2 ⊕ in4 in
  let out3 := out7 ⊕ in6 in
  (out0, out1, out2, out3, out4, out5, out6, out7)).

Definition gf8_muladd_AE : gf8_fn := muladd (fun W X '(in0, in1, in2, in3, in4, in5, in6, in7) =>
  let out4 := in3 ⊕ in4 in let tmp0 := in0 ⊕ in4 in let tmp1 := in0 ⊕ in7 in
  let out0 := in1 ⊕ in3 ⊕ in7 in let out1 := tmp0 ⊕ in2 in let out5 := tmp0 ⊕ in5 in
  let tmp2 := tmp1 ⊕ in6 in let out2 := tmp1 ⊕ in5 in let out3 := tmp2 ⊕ in3 in
  let out7 := tmp2 ⊕ in2 in let out6 := tmp2 ⊕ out2 ⊕ in1 in
  (out0, out1, out2, out3, out4, out5, out6, out7)).

Definition gf8_muladd_AF : gf8_fn := muladd (fun W X '(in0, in1, in2, in3, in4, in5, in6, in7) =>
  let out4 := in3 in let tmp0 := in0 ⊕ in7 in let out5 := in0 ⊕ in4 in let out6 := in1 ⊕ in5 in
  let out7 := in0 ⊕ in2 ⊕ in6 in let out0 := tmp0 ⊕ in1 ⊕ in3 in let out3 := tmp0 ⊕ in6 in
  let out2 := tmp0 ⊕ in2 ⊕ in5 in let out1 := out5 ⊕ in1 ⊕ in2 in
  (out0, out1, out2, out3, out4, out5, out6, out7)).

Definition gf8_muladd_B0 : gf8_fn := muladd (fun W X '(in0, in1, in2, in3, in4, in5, in6, in7) =>
  let tmp0 := in1 ⊕ in4 in let tmp1 := in3 ⊕ in6 in let out2 := tmp0 ⊕ in7 in
  let tmp2 := tmp0 ⊕ tmp1 in let out0 := tmp2 ⊕ in5 in let out3 := tmp2 ⊕ in2 in
  let out6 := out3 ⊕ in6 in let tmp3 := out6 ⊕ in0 ⊕ in1 in let out7 := tmp3 ⊕ in5 in
  let out5 := tmp3 ⊕ out2 in let out1 := out0 ⊕ out5 ⊕ in0 in let out4 := tmp1 ⊕ out5 in
  (out0, out1, out2, out3, out4, out5, out6, out7)).

Definition gf8_muladd_B1 : gf8_fn := muladd (fun W X '(in0, in1, in2, in3, in4, in5, in6, in7) =>
  let tmp0 := in1 ⊕ in4 in let out2 := tmp0 ⊕ in2 ⊕ in7 in let tmp1 := out2 ⊕ in6 in
  let out1 := tmp1 ⊕ in5 in let out3 := tmp1 ⊕ in7 in let out4 := tmp1 ⊕ in0 in
  let out6 := out3 ⊕ in3 in let out0 := out6 ⊕ in0 ⊕ in2 ⊕ in5 in let out5 := tmp1 ⊕ out0 ⊕ in1 in
  let out7 := tmp0 ⊕ out5 in
  (out0, out1, out2, out3, out4, out5, out6, out7)).

Definition gf8_muladd_B2 : gf8_fn := muladd (fun W X '(in0, in1, in2, in3, in4, in5, in6, in7) =>
  let out2 := in4 in let tmp0 := in4 ⊕ in7 in let tmp1 := in1 ⊕ in3 ⊕ in6 in
  let out3 := tmp0 ⊕ tmp1 in let tmp2 := tmp1 ⊕ in0 in let out0 := out3 ⊕ in5 in
  let out4 := tmp2 ⊕ in2 in let tmp3 := out4 ⊕ in6 in let out5 := tmp0 ⊕ tmp3 in
  let out1 := tmp3 ⊕ out0 in let tmp4 := out1 ⊕ in7 in let out7 := tmp4 ⊕ in3 in
  let out6 := tmp2 ⊕ tmp4 in
  (out0, out1, out2, out3, out4, out5, out6, out7)).

Definition gf8_muladd_B3 : gf8_fn := muladd (fun W X '(in0, in1, in2, in3, in4, in5, in6, in7) =>
  let out2 := in2 ⊕ in4 in let tmp0 := in0 ⊕ in5 in let tmp1 := in1 ⊕ in6 in
  let out3 := tmp1 ⊕ in4 ⊕ in7 in let tmp2 := tmp0 ⊕ out3 in let out0 := tmp2 ⊕ in3 in
  let out1 := tmp2 ⊕ in2 in let out5 := out0 ⊕ in2 ⊕ in6 in let out7 := tmp1 ⊕ out5 in
  let out4 := out7 ⊕ in1 ⊕ in5 ⊕ in7 in let out6 := tmp0 ⊕ out4 in
  (out0, out1, out2, out3, out4, out5, out6, out7)).

Definition gf8_muladd_B4 : gf8_fn := muladd (fun W X '(in0, in1, in2, in3, in4, in5, in6, in7) =>
  let out4 := in0 ⊕ in1 in let out5 := out4 ⊕ in2 in let tmp0 := out4 ⊕ in4 in
  let out6 := out5 ⊕ in0 ⊕ in3 in let out7 := tmp0 ⊕ out6 in let out2 := tmp0 ⊕ in6 ⊕ in7 in
  let out3 := out7 ⊕ in0 ⊕ in7 in let out0 := out5 ⊕ out7 ⊕ in5 in let out1 := out0 ⊕ out6 ⊕ in6 in
  (out0, out1, out2, out3, out4, out5, out6, out7)).

Definition gf8_muladd_B5 : gf8_fn := muladd (fun W X '(in0, in1, in2, in3, in4, in5, in6, in7) =>
  let tmp0 := in0 ⊕ in1 in let tmp1 := in2 ⊕ in4 in let out4 := tmp0 ⊕ in4 in
  let out3 := tmp1 ⊕ in7 in let tmp2 := out4 ⊕ in5 in let out7 := out3 ⊕ in0 ⊕ in3 in
  let out0 := tmp2 ⊕ in3 in let out2 := tmp0 ⊕ out3 ⊕ in6 in let out5 := tmp1 ⊕ tmp2 in
  let out6 := out2 ⊕ out7 ⊕ in2 in let out1 := tmp0 ⊕ out0 ⊕ out6 in
  (out0, out1, out2, out3, out4, out5, out6, out7)).

Definition gf8_muladd_B6 : gf8_fn := muladd (fun W X '(in0, in1, in2, in3, in4, in5, in6, in7) =>
  let out3 := in3 ⊕ in4 in let tmp0 := in1 ⊕ in2 in let tmp1 := in0 ⊕ in4 in
  let tmp2 := in3 ⊕ in5 in let tmp3 := out3 ⊕ in1 ⊕ in7 in let out5 := tmp0 ⊕ tmp1 in
  let out6 := tmp0 ⊕ tmp2 in let out2 := tmp1 ⊕ in6 in let out4 := tmp1 ⊕ tmp3 in
  let out0 := tmp3 ⊕ in5 in let out1 := out2 ⊕ in2 ⊕ in5 in let out7 := tmp2 ⊕ out1 in
  (out0, out1, out2, out3, out4, out5, out6, out7)).

Definition gf8_muladd_B7 : gf8_fn := muladd (fun W X '(in0, in1, in2, in3, in4, in5, in6, in7) =>
  let out3 := in4 in let tmp0 := in0 ⊕ in4 in let out2 := tmp0 ⊕ in2 ⊕ in6 in
  let tmp1 := out2 ⊕ in7 in let out1 := out2 ⊕ in1 ⊕ in5 in let out7 := tmp1 ⊕ in3 in
  let out5 := out1 ⊕ in6 in let out6 := tmp0 ⊕ out1 ⊕ in3 in let out0 := tmp1 ⊕ out6 in
  let out4 := out0 ⊕ in5 in
  (out0, out1, out2, out3, out4, out5, out6, out7)).

Definition gf8_muladd_B8 : gf8_fn := muladd (fun W X '(in0, in1, in2, in3, in4, in5, in6, in7) =>
  let tmp0 := in1 ⊕ in4 in let tmp1 := in2 ⊕ in5 in let out2 := tmp0 ⊕ in5 in
  let out4 := tmp1 ⊕ in0 in let tmp2 := tmp1 ⊕ in7 in let out6 := tmp2 ⊕ out2 in
  let out7 := out4 ⊕ in3 in let out1 := tmp2 ⊕ in4 in let out3 := tmp0 ⊕ out7 in
  let out0 := out3 ⊕ out4 ⊕ in6 in let out5 := out0 ⊕ in0 ⊕ in4 in
  (out0, out1, out2, out3, out4, out5, out6, out7)).

Definition gf8_muladd_B9 : gf8_fn := muladd (fun W X '(in0, in1, in2, in3, in4, in5, in6, in7) =>
  let tmp0 := in0 ⊕ in2 in let tmp1 := in4 ⊕ in5 in let out4 := tmp0 ⊕ tmp1 in
  let tmp2 := tmp0 ⊕ in3 ⊕ in7 in let out3 := out4 ⊕ in1 in let out7 := tmp2 ⊕ in5 in
  let out2 := out3 ⊕ in0 in let out1 := out2 ⊕ in7 in let out6 := out1 ⊕ in5 ⊕ in6 in
  let out0 := tmp2 ⊕ out6 in let out5 := tmp1 ⊕ out0 in
  (out0, out1, out2, out3, out4, out5, out6, out7)).

Definition gf8_muladd_BA : gf8_fn := muladd (fun W X '(in0, in1, in2, in3, in4, in5, in6, in7) =>
  let tmp0 := in5 ⊕ in7 in let out2 := tmp0 ⊕ in4 in let tmp1 := out2 ⊕ in2 in
  let out1 := tmp1 ⊕ in0 in let out6 := tmp1 ⊕ in1 in let out4 := out1 ⊕ in3 ⊕ in4 in
  let tmp2 := out4 ⊕ out6 in let out7 := out4 ⊕ in6 ⊕ in7 in let out5 := tmp2 ⊕ in6 in
  let out3 := tmp0 ⊕ tmp2 in let out0 := out6 ⊕ out7 ⊕ in0 in
  (out0, out1, out2, out3, out4, out5, out6, out7)).

Definition gf8_muladd_BB : gf8_fn := muladd (fun W X '(in0, in1, in2, in3, in4, in5, in6, in7) =>
  let out2 := in2 ⊕ in4 ⊕ in5 ⊕ in7 in let tmp0 := out2 ⊕ in1 in let out4 := out2 ⊕ in0 ⊕ in3 in
  let out1 := tmp0 ⊕ in0 in let out6 := tmp0 ⊕ in6 in let out3 := out1 ⊕ in2 in
  let tmp1 := out4 ⊕ out6 ⊕ in4 in let out0 := tmp1 ⊕ in7 in let out5 := tmp1 ⊕ in5 in
  let out7 := tmp0 ⊕ tmp1 in
  (out0, out1, out2, out3, out4, out5, out6, out7)).

Definition gf8_muladd_BC : gf8_fn := muladd (fun W X '(in0, in1, in2, in3, in4, in5, in6, in7) =>
  let tmp0 := in0 ⊕ in2 in let tmp1 := in2 ⊕ in4 in let out0 := in1 ⊕ in3 ⊕ in4 in
  let out6 := in1 ⊕ in2 ⊕ in7 in let out7 := tmp0 ⊕ in3 in let out5 := tmp0 ⊕ out6 ⊕ in6 in
  let out1 := tmp1 ⊕ in5 in let tmp2 := out1 ⊕ out5 ⊕ in1 in let out3 := tmp2 ⊕ in3 in
  let out4 := tmp1 ⊕ tmp2 in let out2 := tmp2 ⊕ out6 in
  (out0, out1, out2, out3, out4, out5, out6, out7)).

Definition gf8_muladd_BD : gf8_fn := muladd (fun W X '(in0, in1, in2, in3, in4, in5, in6, in7) =>
  let tmp0 := in0 ⊕ in3 in let tmp1 := in1 ⊕ in4 in let out0 := tmp0 ⊕ tmp1 in
  let out7 := tmp0 ⊕ in2 ⊕ in7 in let out1 := tmp1 ⊕ in2 ⊕ in5 in let tmp2 := out1 ⊕ in0 in
  let out2 := tmp2 ⊕ in6 in let out3 := out2 ⊕ in1 ⊕ in7 in let out4 := out3 ⊕ in2 in
  let out5 := tmp1 ⊕ out4 in let out6 := tmp2 ⊕ out4 in
  (out0, out1, out2, out3, out4, out5, out6, out7)).

Definition gf8_muladd_BE : gf8_fn := muladd (fun W X '(in0, in1, in2, in3, in4, in5, in6, in7) =>
  let tmp0 := in0 ⊕ in3 ⊕ in6 in let out4 := tmp0 ⊕ in5 in let out7 := tmp0 ⊕ in2 in
  let out3 := out4 ⊕ in4 in let out1 := out3 ⊕ out7 ⊕ in0 in let out2 := out3 ⊕ in3 ⊕ in7 in
  let out0 := out2 ⊕ out4 ⊕ in1 in let out5 := tmp0 ⊕ out0 in let out6 := out1 ⊕ out5 ⊕ in6 in
  (out0, out1, out2, out3, out4, out5, out6, out7)).

Definition gf8_muladd_BF : gf8_fn := muladd (fun W X '(in0, in1, in2, in3, in4, in5, in6, in7) =>
  let tmp0 := in0 ⊕ in4 in let out3 := tmp0 ⊕ in5 ⊕ in6 in let out4 := out3 ⊕ in3 in
  let tmp1 := out3 ⊕ in7 in let out2 := tmp1 ⊕ in2 in let out5 := tmp1 ⊕ in1 in
  let tmp2 := out2 ⊕ in5 in let out7 := tmp2 ⊕ in3 ⊕ in4 in let tmp3 := tmp0 ⊕ out5 in
  let out0 := tmp3 ⊕ out4 in let out1 := tmp2 ⊕ tmp3 in let out6 := tmp3 ⊕ in2 in
  (out0, out1, out2, out3, out4, out5, out6, out7)).

Definition gf8_muladd_C0 : gf8_fn := muladd (fun W X '(in0, in1, in2, in3, in4, in5, in6, in7) =>
  let out5 := in2 ⊕ in5 in let tmp0 := in1 ⊕ in4 in let tmp1 := in3 ⊕ in6 in
  let out0 := out5 ⊕ in1 in let out4 := tmp0 ⊕ in7 in let out3 := tmp0 ⊕ tmp1 in
  let out1 := tmp1 ⊕ in2 in let out6 := tmp1 ⊕ in0 in let out7 := out4 ⊕ in0 in
  let out2 := out4 ⊕ out5 ⊕ in3 in
  (out0, out1, out2, out3, out4, out5, out6, out7)).

Definition gf8_muladd_C1 : gf8_fn := muladd (fun W X '(in0, in1, in2, in3, in4, in5, in6, in7) =>
  let out5 := in2 in let tmp0 := in0 ⊕ in1 in let out4 := in1 ⊕ in7 in let out6 := in0 ⊕ in3 in
  let out3 := in1 ⊕ in4 ⊕ in6 in let tmp1 := tmp0 ⊕ in2 in let out7 := tmp0 ⊕ in4 in
  let out0 := tmp1 ⊕ in5 in let out1 := tmp1 ⊕ out6 ⊕ in6 in let out2 := out6 ⊕ out7 ⊕ in5 ⊕ in7 in
  (out0, out1, out2, out3, out4, out5, out6, out7)).

Definition gf8_muladd_C2 : gf8_fn := muladd (fun W X '(in0, in1, in2, in3, in4, in5, in6, in7) =>
  let out4 := in1 ⊕ in3 ⊕ in4 in let tmp0 := in0 ⊕ in3 ⊕ in6 in let out5 := in2 ⊕ in4 ⊕ in5 in
  let tmp1 := out4 ⊕ in7 in let out1 := tmp0 ⊕ in2 in let out6 := tmp0 ⊕ in5 in
  let out2 := out5 ⊕ in3 in let out7 := tmp0 ⊕ tmp1 in let out3 := tmp1 ⊕ in2 ⊕ in6 in
  let out0 := tmp1 ⊕ out2 in
  (out0, out1, out2, out3, out4, out5, out6, out7)).

Definition gf8_muladd_C3 : gf8_fn := muladd (fun W X '(in0, in1, in2, in3, in4, in5, in6, in7) =>
  let out4 := in1 ⊕ in3 in let tmp0 := in0 ⊕ in2 in let tmp1 := in3 ⊕ in5 in
  let out5 := in2 ⊕ in4 in let tmp2 := tmp0 ⊕ out4 in let out2 := tmp1 ⊕ in4 in
  let out6 := tmp1 ⊕ in0 in let out0 := tmp1 ⊕ tmp2 ⊕ in7 in let out1 := tmp2 ⊕ in6 in
  let out7 := out1 ⊕ out5 ⊕ in3 in let out3 := tmp0 ⊕ out7 ⊕ in7 in
  (out0, out1, out2, out3, out4, out5, out6, out7)).

Definition gf8_muladd_C4 : gf8_fn := muladd (fun W X '(in0, in1, in2, in3, in4, in5, in6, in7) =>
  let tmp0 := in3 ⊕ in7 in let out3 := tmp0 ⊕ in4 in let tmp1 := tmp0 ⊕ in2 in
  let out1 := tmp1 ⊕ in6 in let out5 := tmp1 ⊕ in5 in let out4 := out1 ⊕ out3 ⊕ in1 in
  let out0 := out4 ⊕ in4 ⊕ in5 in let out2 := out0 ⊕ out3 ⊕ in0 in let out7 := out1 ⊕ out2 ⊕ in7 in
  let out6 := tmp1 ⊕ out0 ⊕ out7 in
  (out0, out1, out2, out3, out4, out5, out6, out7)).

Definition gf8_muladd_C5 : gf8_fn := muladd (fun W X '(in0, in1, in2, in3, in4, in5, in6, in7) =>
  let out3 := in4 ⊕ in7 in let tmp0 := in3 ⊕ in7 in let out4 := in1 ⊕ in2 ⊕ in6 in
  let out6 := in0 ⊕ in3 ⊕ in4 in let out5 := tmp0 ⊕ in2 in let out1 := tmp0 ⊕ out4 in
  let out0 := out4 ⊕ in0 ⊕ in5 in let out2 := out0 ⊕ out5 ⊕ in4 in let out7 := tmp0 ⊕ out2 ⊕ in6 in
  (out0, out1, out2, out3, out4, out5, out6, out7)).

Definition gf8_muladd_C6 : gf8_fn := muladd (fun W X '(in0, in1, in2, in3, in4, in5, in6, in7) =>
  let tmp0 := in5 ⊕ in6 in let tmp1 := in1 ⊕ in7 in let tmp2 := tmp0 ⊕ in0 in
  let tmp3 := tmp0 ⊕ tmp1 in let tmp4 := tmp2 ⊕ in4 in let out0 := tmp3 ⊕ in2 in
  let out6 := tmp4 ⊕ in3 in let out2 := out6 ⊕ in2 in let out7 := tmp1 ⊕ tmp4 in
  let out3 := tmp2 ⊕ out2 in let tmp5 := out3 ⊕ in5 in let out5 := tmp5 ⊕ in7 in
  let out4 := tmp3 ⊕ tmp5 in let out1 := tmp4 ⊕ out5 in
  (out0, out1, out2, out3, out4, out5, out6, out7)).

Definition gf8_muladd_C7 : gf8_fn := muladd (fun W X '(in0, in1, in2, in3, in4, in5, in6, in7) =>
  let out3 := in2 ⊕ in4 in let tmp0 := in3 ⊕ in5 in let tmp1 := out3 ⊕ in7 in
  let out6 := tmp0 ⊕ in0 ⊕ in4 in let out5 := tmp1 ⊕ in3 in let out2 := out6 ⊕ in6 in
  let out7 := out2 ⊕ in1 ⊕ in3 in let out0 := tmp1 ⊕ out7 in let out1 := tmp0 ⊕ out0 in
  let out4 := out1 ⊕ in0 in
  (out0, out1, out2, out3, out4, out5, out6, out7)).

Definition gf8_muladd_C8 : gf8_fn := muladd (fun W X '(in0, in1, in2, in3, in4, in5, in6, in7) =>
  let out0 := in1 ⊕ in2 in let out1 := in2 ⊕ in3 in let tmp0 := in5 ⊕ in6 in
  let tmp1 := in0 ⊕ in7 in let out2 := out1 ⊕ in1 ⊕ in4 in let out4 := tmp0 ⊕ in4 in
  let out5 := tmp0 ⊕ in7 in let out6 := tmp1 ⊕ in6 in let out7 := tmp1 ⊕ in1 in
  let out3 := out2 ⊕ in0 ⊕ in2 ⊕ in5 in
  (out0, out1, out2, out3, out4, out5, out6, out7)).

Definition gf8_muladd_C9 : gf8_fn := muladd (fun W X '(in0, in1, in2, in3, in4, in5, in6, in7) =>
  let out4 := in5 ⊕ in6 in let out7 := in0 ⊕ in1 in let tmp0 := in1 ⊕ in3 in
  let out5 := in6 ⊕ in7 in let out6 := in0 ⊕ in7 in let out0 := out7 ⊕ in2 in
  let out3 := out7 ⊕ in4 ⊕ in5 in let out1 := tmp0 ⊕ in2 in let out2 := tmp0 ⊕ in4 in
  (out0, out1, out2, out3, out4, out5, out6, out7)).

Definition gf8_muladd_CA : gf8_fn := muladd (fun W X '(in0, in1, in2, in3, in4, in5, in6, in7) =>
  let tmp0 := in0 ⊕ in7 in let tmp1 := in2 ⊕ in7 in let tmp2 := tmp0 ⊕ in6 in
  let out0 := tmp1 ⊕ in1 in let tmp3 := tmp1 ⊕ in3 in let out6 := tmp2 ⊕ in5 in
  let out7 := tmp2 ⊕ in1 in let out2 := tmp3 ⊕ in4 in let out5 := out6 ⊕ in0 ⊕ in4 in
  let out4 := out5 ⊕ in3 in let out1 := tmp0 ⊕ tmp3 in let out3 := tmp3 ⊕ out5 ⊕ out7 in
  (out0, out1, out2, out3, out4, out5, out6, out7)).

Definition gf8_muladd_CB : gf8_fn := muladd (fun W X '(in0, in1, in2, in3, in4, in5, in6, in7) =>
  let tmp0 := in4 ⊕ in7 in let tmp1 := in5 ⊕ in7 in let out7 := in0 ⊕ in1 ⊕ in6 in
  let out5 := tmp0 ⊕ in6 in let out2 := tmp0 ⊕ in3 in let out6 := tmp1 ⊕ in0 in
  let out4 := tmp1 ⊕ in3 ⊕ in6 in let tmp2 := out5 ⊕ out7 ⊕ in2 in let out1 := tmp2 ⊕ out2 in
  let out0 := tmp2 ⊕ in4 in let out3 := tmp2 ⊕ in5 in
  (out0, out1, out2, out3, out4, out5, out6, out7)).

Definition gf8_muladd_CC : gf8_fn := muladd (fun W X '(in0, in1, in2, in3, in4, in5, in6, in7) =>
  let tmp0 := in3 ⊕ in5 in let tmp1 := in1 ⊕ in6 in let out1 := in2 ⊕ in3 ⊕ in7 in
  let out5 := tmp0 ⊕ in6 in let out0 := tmp1 ⊕ in2 in let tmp2 := out5 ⊕ in0 ⊕ in7 in
  let out3 := tmp2 ⊕ in4 in let out6 := tmp0 ⊕ out3 in let out7 := tmp1 ⊕ tmp2 ⊕ in3 in
  let tmp3 := out1 ⊕ out6 in let out4 := tmp2 ⊕ tmp3 in let out2 := tmp3 ⊕ in1 in
  (out0, out1, out2, out3, out4, out5, out6, out7)).

Definition gf8_muladd_CD : gf8_fn := muladd (fun W X '(in0, in1, in2, in3, in4, in5, in6, in7) =>
  let out5 := in3 ⊕ in6 in let tmp0 := in0 ⊕ in1 in let tmp1 := in2 ⊕ in7 in
  let out6 := in0 ⊕ in4 ⊕ in7 in let out2 := tmp0 ⊕ out5 ⊕ in4 in let out7 := tmp0 ⊕ in5 in
  let out0 := tmp0 ⊕ in2 ⊕ in6 in let out4 := tmp1 ⊕ in5 in let out1 := tmp1 ⊕ in1 ⊕ in3 in
  let out3 := out6 ⊕ in5 ⊕ in6 in
  (out0, out1, out2, out3, out4, out5, out6, out7)).

Definition gf8_muladd_CE : gf8_fn := muladd (fun W X '(in0, in1, in2, in3, in4, in5, in6, in7) =>
  let tmp0 := in2 ⊕ in5 in let tmp1 := tmp0 ⊕ in3 in let out4 := tmp1 ⊕ in4 in
  let tmp2 := out4 ⊕ in6 in let out3 := tmp2 ⊕ in0 in let out5 := tmp2 ⊕ in2 in
  let out2 := out3 ⊕ in5 ⊕ in7 in let out6 := tmp1 ⊕ out2 in let out7 := out2 ⊕ out4 ⊕ in1 in
  let out1 := tmp2 ⊕ out6 in let out0 := tmp0 ⊕ out7 ⊕ in0 in
  (out0, out1, out2, out3, out4, out5, out6, out7)).

Definition gf8_muladd_CF : gf8_fn := muladd (fun W X '(in0, in1, in2, in3, in4, in5, in6, in7) =>
  let tmp0 := in3 ⊕ in6 in let tmp1 := in0 ⊕ in1 ⊕ in5 in let out4 := in2 ⊕ in3 ⊕ in5 in
  let out5 := tmp0 ⊕ in4 in let out7 := tmp1 ⊕ in6 in let out1 := tmp1 ⊕ out4 ⊕ in7 in
  let tmp2 := out5 ⊕ in0 in let out2 := tmp2 ⊕ in7 in let out3 := tmp2 ⊕ out4 in
  let out6 := tmp0 ⊕ out2 ⊕ in5 in let out0 := tmp0 ⊕ out1 in
  (out0, out1, out2, out3, out4, out5, out6, out7)).

Definition gf8_muladd_D0 : gf8_fn := muladd (fun W X '(in0, in1, in2, in3, in4, in5, in6, in7) =>
  let tmp0 := in0 ⊕ in3 in let tmp1 := in1 ⊕ in4 in let tmp2 := in2 ⊕ in5 in
  let out7 := tmp0 ⊕ tmp1 in let out0 := tmp1 ⊕ tmp2 in let tmp3 := tmp2 ⊕ in3 in
  let out1 := tmp3 ⊕ in6 in let tmp4 := out1 ⊕ in1 in let out2 := tmp4 ⊕ in7 in
  let out3 := out2 ⊕ in2 in let out4 := tmp0 ⊕ out3 in let out5 := tmp3 ⊕ out3 in
  let out6 := tmp4 ⊕ out4 in
  (out0, out1, out2, out3, out4, out5, out6, out7)).

Definition gf8_muladd_D1 : gf8_fn := muladd (fun W X '(in0, in1, in2, in3, in4, in5, in6, in7) =>
  let tmp0 := in3 ⊕ in5 ⊕ in6 in let tmp1 := tmp0 ⊕ in1 in let out1 := tmp1 ⊕ in2 in
  let out2 := tmp1 ⊕ in7 in let out3 := out2 ⊕ in3 in let out5 := out3 ⊕ in2 in
  let tmp2 := out3 ⊕ in0 in let out4 := tmp2 ⊕ in4 in let out7 := tmp0 ⊕ out4 in
  let out6 := tmp2 ⊕ out1 ⊕ in6 in let out0 := out2 ⊕ out6 ⊕ in4 in
  (out0, out1, out2, out3, out4, out5, out6, out7)).

Definition gf8_muladd_D2 : gf8_fn := muladd (fun W X '(in0, in1, in2, in3, in4, in5, in6, in7) =>
  let tmp0 := in5 ⊕ in6 in let out2 := tmp0 ⊕ in2 ⊕ in3 in let out1 := out2 ⊕ in0 in
  let out3 := out2 ⊕ in1 in let out4 := out1 ⊕ in1 ⊕ in2 in let out6 := out1 ⊕ in6 ⊕ in7 in
  let out7 := out4 ⊕ in4 ⊕ in5 in let out5 := out4 ⊕ out6 ⊕ in4 in let out0 := tmp0 ⊕ out5 in
  (out0, out1, out2, out3, out4, out5, out6, out7)).

Definition gf8_muladd_D3 : gf8_fn := muladd (fun W X '(in0, in1, in2, in3, in4, in5, in6, in7) =>
  let out2 := in3 ⊕ in5 ⊕ in6 in let tmp0 := out2 ⊕ in2 in let tmp1 := tmp0 ⊕ in1 in
  let out1 := tmp1 ⊕ in0 in let out3 := tmp1 ⊕ in3 in let out4 := out1 ⊕ in2 ⊕ in4 in
  let tmp2 := out4 ⊕ in5 in let out7 := tmp2 ⊕ in7 in let out0 := tmp0 ⊕ out7 in
  let tmp3 := out0 ⊕ in0 in let out5 := tmp3 ⊕ in6 in let out6 := tmp2 ⊕ tmp3 in
  (out0, out1, out2, out3, out4, out5, out6, out7)).

Definition gf8_muladd_D4 : gf8_fn := muladd (fun W X '(in0, in1, in2, in3, in4, in5, in6, in7) =>
  let out3 := in3 ⊕ in5 in let tmp0 := in1 ⊕ in5 in let tmp1 := tmp0 ⊕ in2 in
  let out4 := tmp1 ⊕ in0 in let tmp2 := tmp1 ⊕ in6 in let out2 := out4 ⊕ in3 ⊕ in7 in
  let out0 := tmp2 ⊕ in4 in let out5 := tmp2 ⊕ out3 in let out1 := tmp0 ⊕ out5 ⊕ in7 in
  let out6 := tmp0 ⊕ out2 ⊕ in4 in let out7 := tmp1 ⊕ out6 ⊕ in7 in
  (out0, out1, out2, out3, out4, out5, out6, out7)).

Definition gf8_muladd_D5 : gf8_fn := muladd (fun W X '(in0, in1, in2, in3, in4, in5, in6, in7) =>
  let out3 := in5 in let tmp0 := in0 ⊕ in4 in let tmp1 := tmp0 ⊕ in1 ⊕ in5 in
  let out4 := tmp1 ⊕ in2 in let out0 := out4 ⊕ in6 in let tmp2 := tmp0 ⊕ out0 in
  let out5 := tmp2 ⊕ in3 in let out1 := out5 ⊕ in7 in let out6 := tmp1 ⊕ out1 in
  let out7 := tmp2 ⊕ out6 in let out2 := out7 ⊕ in4 in
  (out0, out1, out2, out3, out4, out5, out6, out7)).

Definition gf8_muladd_D6 : gf8_fn := muladd (fun W X '(in0, in1, in2, in3, in4, in5, in6, in7) =>
  let tmp0 := in1 ⊕ in2 ⊕ in4 ⊕ in6 in let out5 := tmp0 ⊕ in3 in let out0 := tmp0 ⊕ in5 ⊕ in7 in
  let out3 := out0 ⊕ out5 ⊕ in2 in let tmp1 := out3 ⊕ in0 in let out1 := tmp1 ⊕ in6 in
  let out2 := tmp1 ⊕ in7 in let out4 := tmp1 ⊕ in1 in let out6 := tmp1 ⊕ in4 in
  let out7 := tmp0 ⊕ out2 in
  (out0, out1, out2, out3, out4, out5, out6, out7)).

Definition gf8_muladd_D7 : gf8_fn := muladd (fun W X '(in0, in1, in2, in3, in4, in5, in6, in7) =>
  let tmp0 := in0 ⊕ in3 in let out3 := in2 ⊕ in5 ⊕ in7 in let out2 := tmp0 ⊕ in5 in
  let tmp1 := tmp0 ⊕ out3 ⊕ in1 in let out1 := tmp1 ⊕ in6 in let out4 := tmp1 ⊕ in4 in
  let tmp2 := out1 ⊕ in4 in let out6 := tmp2 ⊕ in1 in let out7 := tmp2 ⊕ in2 in
  let out0 := tmp2 ⊕ in3 in let out5 := tmp2 ⊕ in0 ⊕ in7 in
  (out0, out1, out2, out3, out4, out5, out6, out7)).

Definition gf8_muladd_D8 : gf8_fn := muladd (fun W X '(in0, in1, in2, in3, in4, in5, in6, in7) =>
  let out4 := in0 in let out5 := in1 in let tmp0 := in1 ⊕ in2 in let out6 := in0 ⊕ in2 in
  let out0 := tmp0 ⊕ in4 in let tmp1 := tmp0 ⊕ in3 in let out7 := tmp1 ⊕ out6 in
  let out2 := tmp1 ⊕ in6 in let out3 := out7 ⊕ in7 in let out1 := tmp1 ⊕ in1 ⊕ in5 in
  (out0, out1, out2, out3, out4, out5, out6, out7)).

Definition gf8_muladd_D9 : gf8_fn := muladd (fun W X '(in0, in1, in2, in3, in4, in5, in6, in7) =>
  let out4 := in0 ⊕ in4 in let out5 := in1 ⊕ in5 in let out2 := in1 ⊕ in3 ⊕ in6 in
  let out3 := in0 ⊕ in1 ⊕ in7 in let out6 := in0 ⊕ in2 ⊕ in6 in let out0 := out4 ⊕ in1 ⊕ in2 in
  let out1 := out5 ⊕ in2 ⊕ in3 in let out7 := out3 ⊕ in3 in
  (out0, out1, out2, out3, out4, out5, out6, out7)).

Definition gf8_muladd_DA : gf8_fn := muladd (fun W X '(in0, in1, in2, in3, in4, in5, in6, in7) =>
  let out5 := in1 ⊕ in4 in let tmp0 := in2 ⊕ in7 in let tmp1 := in0 ⊕ in2 ⊕ in3 in
  let out0 := tmp0 ⊕ out5 in let out4 := tmp0 ⊕ tmp1 in let out2 := tmp0 ⊕ in3 ⊕ in6 in
  let out1 := tmp1 ⊕ in5 in let out3 := tmp1 ⊕ in1 in let out6 := out1 ⊕ in3 in
  let out7 := out3 ⊕ in2 ⊕ in6 in
  (out0, out1, out2, out3, out4, out5, out6, out7)).

Definition gf8_muladd_DB : gf8_fn := muladd (fun W X '(in0, in1, in2, in3, in4, in5, in6, in7) =>
  let tmp0 := in0 ⊕ in1 in let tmp1 := in1 ⊕ in5 in let tmp2 := in3 ⊕ in7 in
  let out3 := tmp0 ⊕ in2 in let out5 := tmp1 ⊕ in4 in let out6 := tmp1 ⊕ out3 ⊕ in6 in
  let out2 := tmp2 ⊕ in6 in let tmp3 := tmp2 ⊕ in4 in let tmp4 := out3 ⊕ in3 in
  let out4 := tmp3 ⊕ in0 in let out1 := tmp4 ⊕ in5 in let out0 := tmp3 ⊕ tmp4 in
  let out7 := tmp0 ⊕ out2 in
  (out0, out1, out2, out3, out4, out5, out6, out7)).

Definition gf8_muladd_DC : gf8_fn := muladd (fun W X '(in0, in1, in2, in3, in4, in5, in6, in7) =>
  let tmp0 := in0 ⊕ in2 in let tmp1 := in0 ⊕ in3 in let out6 := tmp0 ⊕ in4 in
  let tmp2 := tmp0 ⊕ in7 in let out3 := tmp1 ⊕ in6 in let tmp3 := tmp1 ⊕ in1 in
  let out1 := tmp1 ⊕ tmp2 ⊕ in5 in let out4 := tmp2 ⊕ in6 in let out2 := tmp3 ⊕ in2 in
  let out7 := tmp3 ⊕ in5 in let out5 := tmp2 ⊕ out2 in let out0 := out2 ⊕ out3 ⊕ in4 in
  (out0, out1, out2, out3, out4, out5, out6, out7)).

Definition gf8_muladd_DD : gf8_fn := muladd (fun W X '(in0, in1, in2, in3, in4, in5, in6, in7) =>
  let out3 := in0 ⊕ in6 in let out2 := in0 ⊕ in1 ⊕ in3 in let out6 := out3 ⊕ in2 ⊕ in4 in
  let out7 := out2 ⊕ in5 ⊕ in7 in let out0 := out6 ⊕ in1 in let out4 := out6 ⊕ in7 in
  let out5 := out7 ⊕ in0 in let out1 := out5 ⊕ in2 in
  (out0, out1, out2, out3, out4, out5, out6, out7)).

Definition gf8_muladd_DE : gf8_fn := muladd (fun W X '(in0, in1, in2, in3, in4, in5, in6, in7) =>
  let tmp0 := in2 ⊕ in3 ⊕ in6 in let tmp1 := in3 ⊕ in4 ⊕ in7 in let out4 := tmp0 ⊕ in0 in
  let out5 := tmp1 ⊕ in1 in let out3 := out4 ⊕ in7 in let out2 := out3 ⊕ in6 in
  let out1 := out2 ⊕ in5 in let out6 := tmp1 ⊕ out1 in let out0 := tmp0 ⊕ out5 in
  let out7 := out0 ⊕ out1 ⊕ in4 in
  (out0, out1, out2, out3, out4, out5, out6, out7)).

Definition gf8_muladd_DF : gf8_fn := muladd (fun W X '(in0, in1, in2, in3, in4, in5, in6, in7) =>
  let out2 := in0 ⊕ in3 ⊕ in7 in let tmp0 := out2 ⊕ in1 ⊕ in5 in let out1 := tmp0 ⊕ in2 in
  let out7 := tmp0 ⊕ in6 in let out5 := tmp0 ⊕ in0 ⊕ in4 in let tmp1 := out1 ⊕ out5 ⊕ in6 in
  let out4 := tmp1 ⊕ in3 in let out6 := tmp1 ⊕ in5 in let tmp2 := tmp1 ⊕ in7 in
  let out0 := tmp2 ⊕ in1 in let out3 := tmp2 ⊕ in4 in
  (out0, out1, out2, out3, out4, out5, out6, out7)).

Definition gf8_muladd_E0 : gf8_fn := muladd (fun W X '(in0, in1, in2, in3, in4, in5, in6, in7) =>
  let out3 := in1 ⊕ in7 in let tmp0 := in2 ⊕ in4 in let out4 := out3 ⊕ in3 ⊕ in5 in
  let out2 := tmp0 ⊕ in1 in let tmp1 := tmp0 ⊕ in6 in let out0 := out4 ⊕ in2 in
  let out6 := out4 ⊕ in0 in let out1 := tmp1 ⊕ in3 in let out5 := tmp1 ⊕ in0 in
  let out7 := out5 ⊕ in1 in
  (out0, out1, out2, out3, out4, out5, out6, out7)).

Definition gf8_muladd_E1 : gf8_fn := muladd (fun W X '(in0, in1, in2, in3, in4, in5, in6, in7) =>
  let out2 := in1 ⊕ in4 in let tmp0 := in1 ⊕ in7 in let out3 := tmp0 ⊕ in3 in
  let tmp1 := out3 ⊕ in5 in let out4 := tmp1 ⊕ in4 in let tmp2 := tmp1 ⊕ in0 in
  let out0 := tmp2 ⊕ in2 in let out6 := tmp2 ⊕ in6 in let tmp3 := out0 ⊕ out4 ⊕ in6 in
  let out5 := tmp3 ⊕ in5 in let out7 := tmp0 ⊕ tmp3 in let out1 := tmp2 ⊕ out5 ⊕ in7 in
  (out0, out1, out2, out3, out4, out5, out6, out7)).

Definition gf8_muladd_E2 : gf8_fn := muladd (fun W X '(in0, in1, in2, in3, in4, in5, in6, in7) =>
  let out3 := in1 ⊕ in2 in let out4 := in1 ⊕ in5 in let out2 := in2 ⊕ in4 ⊕ in7 in
  let out5 := in0 ⊕ in2 ⊕ in6 in let out0 := out3 ⊕ in3 ⊕ in5 in let out7 := out3 ⊕ in0 ⊕ in4 in
  let out6 := out2 ⊕ out7 ⊕ in3 in let out1 := out5 ⊕ in3 ⊕ in4 in
  (out0, out1, out2, out3, out4, out5, out6, out7)).

Definition gf8_muladd_E3 : gf8_fn := muladd (fun W X '(in0, in1, in2, in3, in4, in5, in6, in7) =>
  let out2 := in4 ⊕ in7 in let tmp0 := in1 ⊕ in3 in let out3 := tmp0 ⊕ in2 in
  let tmp1 := out3 ⊕ in0 in let out0 := tmp1 ⊕ in5 in let tmp2 := tmp1 ⊕ in4 in
  let out1 := tmp2 ⊕ in6 in let tmp3 := tmp2 ⊕ in3 in let out7 := tmp3 ⊕ in7 in
  let out6 := out1 ⊕ out2 ⊕ in2 in let tmp4 := tmp0 ⊕ out0 in let out5 := tmp4 ⊕ in6 in
  let out4 := tmp3 ⊕ tmp4 in
  (out0, out1, out2, out3, out4, out5, out6, out7)).

Definition gf8_muladd_E4 : gf8_fn := muladd (fun W X '(in0, in1, in2, in3, in4, in5, in6, in7) =>
  let out3 := in6 in let tmp0 := in0 ⊕ in4 in let tmp1 := tmp0 ⊕ in2 ⊕ in6 in
  let out2 := tmp1 ⊕ in1 in let out7 := out2 ⊕ in5 in let tmp2 := tmp0 ⊕ out7 in
  let out4 := tmp2 ⊕ in3 in let out0 := out4 ⊕ in7 in let out6 := tmp1 ⊕ out0 in
  let out5 := tmp2 ⊕ out6 in let out1 := out5 ⊕ in0 in
  (out0, out1, out2, out3, out4, out5, out6, out7)).

Definition gf8_muladd_E5 : gf8_fn := muladd (fun W X '(in0, in1, in2, in3, in4, in5, in6, in7) =>
  let out3 := in3 ⊕ in6 in let tmp0 := in0 ⊕ in1 in let tmp1 := in5 ⊕ in7 in
  let out2 := tmp0 ⊕ in4 ⊕ in6 in let tmp2 := tmp1 ⊕ out2 in let out6 := tmp2 ⊕ in3 in
  let out7 := tmp2 ⊕ in2 in let out0 := out6 ⊕ in2 ⊕ in4 in let out5 := out6 ⊕ in1 ⊕ in2 in
  let out1 := tmp0 ⊕ out5 ⊕ in5 in let out4 := tmp1 ⊕ out1 in
  (out0, out1, out2, out3, out4, out5, out6, out7)).

Definition gf8_muladd_E6 : gf8_fn := muladd (fun W X '(in0, in1, in2, in3, in4, in5, in6, in7) =>
  let out3 := in2 ⊕ in6 ⊕ in7 in let out2 := out3 ⊕ in0 ⊕ in4 in let out4 := out3 ⊕ in1 ⊕ in5 in
  let out1 := out2 ⊕ in3 in let out7 := out2 ⊕ out4 ⊕ in2 in let out0 := out4 ⊕ in3 ⊕ in7 in
  let out5 := out1 ⊕ in4 in let out6 := out0 ⊕ out2 ⊕ in5 in
  (out0, out1, out2, out3, out4, out5, out6, out7)).

Definition gf8_muladd_E7 : gf8_fn := muladd (fun W X '(in0, in1, in2, in3, in4, in5, in6, in7) =>
  let tmp0 := in2 ⊕ in3 in let out3 := tmp0 ⊕ in6 ⊕ in7 in let tmp1 := out3 ⊕ in0 in
  let out5 := tmp1 ⊕ in5 in let tmp2 := tmp1 ⊕ in4 in let tmp3 := out5 ⊕ in7 in
  let out1 := tmp2 ⊕ in1 in let out0 := tmp3 ⊕ in1 in let out6 := out1 ⊕ in2 in
  let out2 := tmp0 ⊕ tmp2 in let tmp4 := tmp3 ⊕ out6 in let out4 := tmp4 ⊕ in6 in
  let out7 := tmp4 ⊕ in0 in
  (out0, out1, out2, out3, out4, out5, out6, out7)).

Definition gf8_muladd_E8 : gf8_fn := muladd (fun W X '(in0, in1, in2, in3, in4, in5, in6, in7) =>
  let out4 := in3 ⊕ in6 in let tmp0 := in4 ⊕ in7 in let out1 := in2 ⊕ in3 ⊕ in4 in
  let out5 := tmp0 ⊕ in0 in let tmp1 := tmp0 ⊕ in1 in let tmp2 := tmp1 ⊕ in5 in
  let out0 := tmp1 ⊕ out1 in let out2 := tmp2 ⊕ in2 in let out6 := tmp2 ⊕ out5 in
  let tmp3 := out6 ⊕ in6 in let out3 := tmp3 ⊕ in7 in let out7 := tmp3 ⊕ in2 ⊕ in5 in
  (out0, out1, out2, out3, out4, out5, out6, out7)).

Definition gf8_muladd_E9 : gf8_fn := muladd (fun W X '(in0, in1, in2, in3, in4, in5, in6, in7) =>
  let tmp0 := in0 ⊕ in1 in let tmp1 := in3 ⊕ in6 in let tmp2 := tmp0 ⊕ in6 in
  let out4 := tmp1 ⊕ in4 in let out6 := tmp2 ⊕ in5 in let out7 := tmp2 ⊕ in2 ⊕ in7 in
  let out3 := out6 ⊕ in3 ⊕ in7 in let out0 := tmp1 ⊕ out7 in let out2 := out3 ⊕ out4 ⊕ in0 in
  let out5 := tmp0 ⊕ out2 in let out1 := out0 ⊕ out5 ⊕ in5 in
  (out0, out1, out2, out3, out4, out5, out6, out7)).

Definition gf8_muladd_EA : gf8_fn := muladd (fun W X '(in0, in1, in2, in3, in4, in5, in6, in7) =>
  let out4 := in6 ⊕ in7 in let out5 := in0 ⊕ in7 in let out6 := in0 ⊕ in1 in
  let out0 := in1 ⊕ in2 ⊕ in3 in let out2 := in2 ⊕ in4 ⊕ in5 in let out7 := out6 ⊕ in2 in
  let out1 := out0 ⊕ out6 ⊕ in4 in let out3 := out7 ⊕ in5 ⊕ in6 in
  (out0, out1, out2, out3, out4, out5, out6, out7)).

Definition gf8_muladd_EB : gf8_fn := muladd (fun W X '(in0, in1, in2, in3, in4, in5, in6, in7) =>
  let out2 := in4 ⊕ in5 in let tmp0 := in0 ⊕ in1 in let out4 := in4 ⊕ in6 ⊕ in7 in
  let out5 := in0 ⊕ in5 ⊕ in7 in let out6 := tmp0 ⊕ in6 in let tmp1 := tmp0 ⊕ in2 in
  let out0 := tmp1 ⊕ in3 in let out7 := tmp1 ⊕ in7 in let out1 := out0 ⊕ in4 in
  let out3 := out0 ⊕ in5 ⊕ in6 in
  (out0, out1, out2, out3, out4, out5, out6, out7)).

Definition gf8_muladd_EC : gf8_fn := muladd (fun W X '(in0, in1, in2, in3, in4, in5, in6, in7) =>
  let out3 := in0 ⊕ in5 in let out4 := in2 ⊕ in3 ⊕ in7 in let out5 := in0 ⊕ in3 ⊕ in4 in
  let out6 := out3 ⊕ in1 ⊕ in4 in let out1 := out4 ⊕ in4 in let out0 := out4 ⊕ in1 ⊕ in6 in
  let out2 := out0 ⊕ out5 ⊕ in5 in let out7 := out2 ⊕ in4 ⊕ in7 in
  (out0, out1, out2, out3, out4, out5, out6, out7)).

Definition gf8_muladd_ED : gf8_fn := muladd (fun W X '(in0, in1, in2, in3, in4, in5, in6, in7) =>
  let tmp0 := in2 ⊕ in4 in let tmp1 := in3 ⊕ in5 in let out4 := tmp0 ⊕ in3 ⊕ in7 in
  let out3 := tmp1 ⊕ in0 in let out1 := out4 ⊕ in1 in let out5 := out3 ⊕ in4 in
  let out7 := out1 ⊕ out5 ⊕ in6 in let out2 := tmp0 ⊕ out7 in let out0 := tmp1 ⊕ out7 in
  let out6 := out2 ⊕ in7 in
  (out0, out1, out2, out3, out4, out5, out6, out7)).

Definition gf8_muladd_EE : gf8_fn := muladd (fun W X '(in0, in1, in2, in3, in4, in5, in6, in7) =>
  let out4 := in2 in let tmp0 := in0 ⊕ in1 in let out5 := in0 ⊕ in3 in let tmp1 := tmp0 ⊕ in2 in
  let out6 := tmp0 ⊕ in4 in let tmp2 := tmp1 ⊕ out5 in let out7 := tmp1 ⊕ in5 in
  let out1 := tmp2 ⊕ out6 ⊕ in7 in let out0 := tmp2 ⊕ in6 in let tmp3 := out7 ⊕ in1 in
  let out3 := tmp3 ⊕ in7 in let out2 := tmp3 ⊕ in4 ⊕ in6 in
  (out0, out1, out2, out3, out4, out5, out6, out7)).

Definition gf8_muladd_EF : gf8_fn := muladd (fun W X '(in0, in1, in2, in3, in4, in5, in6, in7) =>
  let out4 := in2 ⊕ in4 in let tmp0 := in0 ⊕ in5 in let tmp1 := in4 ⊕ in6 in
  let out5 := tmp0 ⊕ in3 in let out2 := tmp0 ⊕ tmp1 in let out6 := tmp1 ⊕ in0 ⊕ in1 in
  let out3 := out5 ⊕ in2 ⊕ in7 in let out7 := out3 ⊕ in1 ⊕ in3 in let out0 := out4 ⊕ out6 ⊕ in3 in
  let out1 := tmp1 ⊕ out0 ⊕ in7 in
  (out0, out1, out2, out3, out4, out5, out6, out7)).

Definition gf8_muladd_F0 : gf8_fn := muladd (fun W X '(in0, in1, in2, in3, in4, in5, in6, in7) =>
  let tmp0 := in1 ⊕ in2 in let tmp1 := in4 ⊕ in5 in let out2 := tmp0 ⊕ in6 in
  let out3 := tmp1 ⊕ in1 in let tmp2 := tmp1 ⊕ in7 in let out1 := out2 ⊕ out3 ⊕ in3 in
  let tmp3 := tmp0 ⊕ tmp2 in let out0 := tmp3 ⊕ in3 in let out5 := tmp3 ⊕ in0 in
  let out4 := out1 ⊕ out5 ⊕ in4 in let out7 := out4 ⊕ in2 in let out6 := tmp2 ⊕ out7 in
  (out0, out1, out2, out3, out4, out5, out6, out7)).

Definition gf8_muladd_F1 : gf8_fn := muladd (fun W X '(in0, in1, in2, in3, in4, in5, in6, in7) =>
  let out2 := in1 ⊕ in6 in let tmp0 := in3 ⊕ in5 in let out3 := tmp0 ⊕ in1 ⊕ in4 in
  let tmp1 := out3 ⊕ in2 in let out1 := tmp1 ⊕ in6 in let tmp2 := tmp1 ⊕ in0 in
  let tmp3 := out1 ⊕ in5 in let out0 := tmp2 ⊕ in7 in let out6 := tmp2 ⊕ in4 in
  let out7 := tmp3 ⊕ in0 in let out5 := tmp0 ⊕ out0 in let out4 := tmp3 ⊕ out5 ⊕ in1 in
  (out0, out1, out2, out3, out4, out5, out6, out7)).

Definition gf8_muladd_F2 : gf8_fn := muladd (fun W X '(in0, in1, in2, in3, in4, in5, in6, in7) =>
  let tmp0 := in4 ⊕ in5 in let out2 := in2 ⊕ in6 ⊕ in7 in let tmp1 := tmp0 ⊕ in1 in
  let tmp2 := tmp1 ⊕ in2 in let out0 := tmp2 ⊕ in3 in let out3 := tmp2 ⊕ in7 in
  let out5 := out3 ⊕ in0 ⊕ in4 in let tmp3 := tmp0 ⊕ out5 in let out7 := tmp3 ⊕ in3 in
  let out4 := tmp3 ⊕ out2 in let out1 := out0 ⊕ out4 ⊕ in4 in let out6 := tmp1 ⊕ out1 in
  (out0, out1, out2, out3, out4, out5, out6, out7)).

Definition gf8_muladd_F3 : gf8_fn := muladd (fun W X '(in0, in1, in2, in3, in4, in5, in6, in7) =>
  let out2 := in6 ⊕ in7 in let tmp0 := in0 ⊕ in1 in let out4 := tmp0 ⊕ in6 in
  let tmp1 := tmp0 ⊕ in2 in let out5 := tmp1 ⊕ in7 in let out6 := tmp1 ⊕ in3 in
  let out7 := out6 ⊕ in4 in let out0 := out7 ⊕ in5 in let out1 := out0 ⊕ in6 in
  let out3 := out0 ⊕ in0 ⊕ in7 in
  (out0, out1, out2, out3, out4, out5, out6, out7)).

Definition gf8_muladd_F4 : gf8_fn := muladd (fun W X '(in0, in1, in2, in3, in4, in5, in6, in7) =>
  let out2 := in0 ⊕ in1 ⊕ in2 in let tmp0 := out2 ⊕ in3 in let out4 := tmp0 ⊕ in4 in
  let out5 := out4 ⊕ in5 in let out6 := out5 ⊕ in6 in let out7 := out6 ⊕ in7 in
  let out0 := out7 ⊕ in0 in let out1 := out0 ⊕ in1 in let out3 := tmp0 ⊕ out7 in
  (out0, out1, out2, out3, out4, out5, out6, out7)).

Definition gf8_muladd_F5 : gf8_fn := muladd (fun W X '(in0, in1, in2, in3, in4, in5, in6, in7) =>
  let out2 := in0 ⊕ in1 in let tmp0 := out2 ⊕ in2 in let out4 := tmp0 ⊕ in3 in
  let out5 := out4 ⊕ in4 in let out6 := out5 ⊕ in5 in let out7 := out6 ⊕ in6 in
  let out0 := out7 ⊕ in7 in let out1 := out0 ⊕ in0 in let out3 := tmp0 ⊕ out0 in
  (out0, out1, out2, out3, out4, out5, out6, out7)).

Definition gf8_muladd_F6 : gf8_fn := muladd (fun W X '(in0, in1, in2, in3, in4, in5, in6, in7) =>
  let tmp0 := in0 ⊕ in7 in let out2 := tmp0 ⊕ in2 in let out4 := out2 ⊕ in1 ⊕ in4 in
  let out7 := out4 ⊕ in3 ⊕ in5 in let out5 := out7 ⊕ in4 ⊕ in7 in let out0 := tmp0 ⊕ out7 ⊕ in6 in
  let tmp1 := out0 ⊕ in1 in let out6 := out0 ⊕ in0 ⊕ in5 in let out3 := tmp1 ⊕ in3 in
  let out1 := tmp0 ⊕ tmp1 in
  (out0, out1, out2, out3, out4, out5, out6, out7)).

Definition gf8_muladd_F7 : gf8_fn := muladd (fun W X '(in0, in1, in2, in3, in4, in5, in6, in7) =>
  let out2 := in0 ⊕ in7 in let tmp0 := out2 ⊕ in1 in let out4 := tmp0 ⊕ in2 in
  let out5 := out4 ⊕ in3 ⊕ in7 in let out6 := out5 ⊕ in4 in let out7 := out6 ⊕ in5 in
  let out0 := out7 ⊕ in6 in let out1 := out0 ⊕ in7 in let out3 := tmp0 ⊕ out1 in
  (out0, out1, out2, out3, out4, out5, out6, out7)).

Definition gf8_muladd_F8 : gf8_fn := muladd (fun W X '(in0, in1, in2, in3, in4, in5, in6, in7) =>
  let tmp0 := in0 ⊕ in4 in let tmp1 := in3 ⊕ in5 in let tmp2 := tmp0 ⊕ in6 in
  let out4 := tmp0 ⊕ tmp1 in let out1 := tmp1 ⊕ in2 ⊕ in4 in let out3 := tmp2 ⊕ in1 in
  let out5 := out3 ⊕ in5 in let out7 := out1 ⊕ out5 ⊕ in7 in let out6 := tmp1 ⊕ out7 in
  let out0 := tmp2 ⊕ out7 in let out2 := out6 ⊕ in0 in
  (out0, out1, out2, out3, out4, out5, out6, out7)).

Definition gf8_muladd_F9 : gf8_fn := muladd (fun W X '(in0, in1, in2, in3, in4, in5, in6, in7) =>
  let tmp0 := in3 ⊕ in5 in let tmp1 := in0 ⊕ in6 in let out4 := tmp0 ⊕ in0 in
  let tmp2 := tmp1 ⊕ in4 in let tmp3 := tmp1 ⊕ in2 in let out5 := tmp2 ⊕ in1 in
  let out3 := out5 ⊕ in3 in let tmp4 := tmp3 ⊕ out3 in let out1 := tmp4 ⊕ in5 in
  let out0 := tmp4 ⊕ in0 ⊕ in7 in let out6 := tmp0 ⊕ out0 ⊕ in4 in let out7 := tmp2 ⊕ tmp4 in
  let out2 := tmp3 ⊕ out6 in
  (out0, out1, out2, out3, out4, out5, out6, out7)).

Definition gf8_muladd_FA : gf8_fn := muladd (fun W X '(in0, in1, in2, in3, in4, in5, in6, in7) =>
  let tmp0 := in0 ⊕ in1 in let tmp1 := tmp0 ⊕ in2 in let tmp2 := tmp0 ⊕ in5 in
  let tmp3 := tmp1 ⊕ in7 in let out5 := tmp2 ⊕ in6 in let out6 := tmp3 ⊕ in6 in
  let out7 := tmp3 ⊕ in3 in let out3 := out6 ⊕ in4 in let out2 := tmp1 ⊕ out5 in
  let out4 := out2 ⊕ out3 ⊕ in1 in let out0 := out4 ⊕ out7 ⊕ in5 in let out1 := tmp2 ⊕ out0 in
  (out0, out1, out2, out3, out4, out5, out6, out7)).

Definition gf8_muladd_FB : gf8_fn := muladd (fun W X '(in0, in1, in2, in3, in4, in5, in6, in7) =>
  let out2 := in5 ⊕ in6 in let tmp0 := in0 ⊕ in1 in let out4 := in0 ⊕ in5 ⊕ in7 in
  let out5 := tmp0 ⊕ in6 in let tmp1 := tmp0 ⊕ in2 in let out6 := tmp1 ⊕ in7 in
  let out7 := tmp1 ⊕ in3 in let out0 := out7 ⊕ in4 in let out1 := out0 ⊕ in5 in
  let out3 := out0 ⊕ in6 ⊕ in7 in
  (out0, out1, out2, out3, out4, out5, out6, out7)).

Definition gf8_muladd_FC : gf8_fn := muladd (fun W X '(in0, in1, in2, in3, in4, in5, in6, in7) =>
  let tmp0 := in1 ⊕ in2 in let tmp1 := in0 ⊕ in7 in let out2 := tmp0 ⊕ tmp1 ⊕ in5 in
  let out3 := tmp1 ⊕ in4 in let tmp2 := out2 ⊕ in6 in let out6 := tmp2 ⊕ in4 in
  let out7 := tmp2 ⊕ in3 in let out4 := out6 ⊕ in1 ⊕ in3 in let tmp3 := out4 ⊕ in0 in
  let out1 := tmp3 ⊕ in6 in let out0 := tmp3 ⊕ in1 ⊕ in5 in let out5 := tmp0 ⊕ out4 in
  (out0, out1, out2, out3, out4, out5, out6, out7)).

Definition gf8_muladd_FD : gf8_fn := muladd (fun W X '(in0, in1, in2, in3, in4, in5, in6, in7) =>
  let tmp0 := in0 ⊕ in5 in let tmp1 := in1 ⊕ in7 in let out2 := tmp0 ⊕ tmp1 in
  let out6 := out2 ⊕ in2 ⊕ in4 in let tmp2 := out6 ⊕ in0 in let out1 := tmp2 ⊕ in3 in
  let out0 := tmp0 ⊕ out1 ⊕ in6 in let out5 := out0 ⊕ in2 in let tmp3 := out5 ⊕ in1 in
  let out3 := tmp3 ⊕ in6 in let out7 := tmp2 ⊕ tmp3 in let out4 := tmp1 ⊕ out7 in
  (out0, out1, out2, out3, out4, out5, out6, out7)).

Definition gf8_muladd_FE : gf8_fn := muladd (fun W X '(in0, in1, in2, in3, in4, in5, in6, in7) =>
  let tmp0 := in0 ⊕ in2 in let out2 := tmp0 ⊕ in5 in let out3 := tmp0 ⊕ in4 in
  let tmp1 := out3 ⊕ in6 in let out4 := tmp1 ⊕ in5 in let tmp2 := tmp1 ⊕ in1 in
  let out6 := tmp2 ⊕ in7 in let tmp3 := tmp2 ⊕ in0 in let out0 := tmp3 ⊕ in3 in
  let tmp4 := out0 ⊕ out4 ⊕ in7 in let out5 := tmp4 ⊕ in6 in let out7 := tmp4 ⊕ in2 in
  let out1 := tmp3 ⊕ out5 in
  (out0, out1, out2, out3, out4, out5, out6, out7)).

Definition gf8_muladd_FF : gf8_fn := muladd (fun W X '(in0, in1, in2, in3, in4, in5, in6, in7) =>
  let out2 := in0 ⊕ in5 in let tmp0 := in4 ⊕ in7 in let tmp1 := out2 ⊕ in2 in
  let out4 := tmp1 ⊕ in6 in let out7 := tmp1 ⊕ in1 ⊕ in3 in let out1 := tmp0 ⊕ out7 in
  let tmp2 := out1 ⊕ in5 in let out6 := tmp2 ⊕ in3 in let tmp3 := tmp2 ⊕ in7 in
  let out0 := tmp3 ⊕ in6 in let out3 := tmp3 ⊕ in1 in let out5 := tmp0 ⊕ out0 ⊕ in2 in
  (out0, out1, out2, out3, out4, out5, out6, out7)).

(** ** The table *)

Definition ec_gf_muladd : list gf8_fn :=
  [gf8_muladd_00; gf8_muladd_01; gf8_muladd_02; gf8_muladd_03; gf8_muladd_04; gf8_muladd_05;
   gf8_muladd_06; gf8_muladd_07; gf8_muladd_08; gf8_muladd_09; gf8_muladd_0A; gf8_muladd_0B;
   gf8_muladd_0C; gf8_muladd_0D; gf8_muladd_0E; gf8_muladd_0F; gf8_muladd_10; gf8_muladd_11;
   gf8_muladd_12; gf8_muladd_13; gf8_muladd_14; gf8_muladd_15; gf8_muladd_16; gf8_muladd_17;
   gf8_muladd_18; gf8_muladd_19; gf8_muladd_1A; gf8_muladd_1B; gf8_muladd_1C; gf8_muladd_1D;
   gf8_muladd_1E; gf8_muladd_1F; gf8_muladd_20; gf8_muladd_21; gf8_muladd_22; gf8_muladd_23;
   gf8_muladd_24; gf8_muladd_25; gf8_muladd_26; gf8_muladd_27; gf8_muladd_28; gf8_muladd_29;
   gf8_muladd_2A; gf8_muladd_2B; gf8_muladd_2C; gf8_muladd_2D; gf8_muladd_2E; gf8_muladd_2F;
   gf8_muladd_30; gf8_muladd_31; gf8_muladd_32; gf8_muladd_33; gf8_muladd_34; gf8_muladd_35;
   gf8_muladd_36; gf8_muladd_37; gf8_muladd_38; gf8_muladd_39; gf8_muladd_3A; gf8_muladd_3B;
   gf8_muladd_3C; gf8_muladd_3D; gf8_muladd_3E; gf8_muladd_3F; gf8_muladd_40; gf8_muladd_41;
   gf8_muladd_42; gf8_muladd_43; gf8_muladd_44; gf8_muladd_45; gf8_muladd_46; gf8_muladd_47;
   gf8_muladd_48; gf8_muladd_49; gf8_muladd_4A; gf8_muladd_4B; gf8_muladd_4C; gf8_muladd_4D;
   gf8_muladd_4E; gf8_muladd_4F; gf8_muladd_50; gf8_muladd_51; gf8_muladd_52; gf8_muladd_53;
   gf8_muladd_54; gf8_muladd_55; gf8_muladd_56; gf8_muladd_57; gf8_muladd_58; gf8_muladd_59;
   gf8_muladd_5A; gf8_muladd_5B; gf8_muladd_5C; gf8_muladd_5D; gf8_muladd_5E; gf8_muladd_5F;
   gf8_muladd_60; gf8_muladd_61; gf8_muladd_62; gf8_muladd_63; gf8_muladd_64; gf8_muladd_65;
   gf8_muladd_66; gf8_muladd_67; gf8_muladd_68; gf8_muladd_69; gf8_muladd_6A; gf8_muladd_6B;
   gf8_muladd_6C; gf8_muladd_6D; gf8_muladd_6E; gf8_muladd_6F; gf8_muladd_70; gf8_muladd_71;
   gf8_muladd_72; gf8_muladd_73; gf8_muladd_74; gf8_muladd_75; gf8_muladd_76; gf8_muladd_77;
   gf8_muladd_78; gf8_muladd_79; gf8_muladd_7A; gf8_muladd_7B; gf8_muladd_7C; gf8_muladd_7D;
   gf8_muladd_7E; gf8_muladd_7F; gf8_muladd_80; gf8_muladd_81; gf8_muladd_82; gf8_muladd_83;
   gf8_muladd_84; gf8_muladd_85; gf8_muladd_86; gf8_muladd_87; gf8_muladd_88; gf8_muladd_89;
   gf8_muladd_8A; gf8_muladd_8B; gf8_muladd_8C; gf8_muladd_8D; gf8_muladd_8E; gf8_muladd_8F;
   gf8_muladd_90; gf8_muladd_91; gf8_muladd_92; gf8_muladd_93; gf8_muladd_94; gf8_muladd_95;
   gf8_muladd_96; gf8_muladd_97; gf8_muladd_98; gf8_muladd_99; gf8_muladd_9A; gf8_muladd_9B;
   gf8_muladd_9C; gf8_muladd_9D; gf8_muladd_9E; gf8_muladd_9F; gf8_muladd_A0; gf8_muladd_A1;
   gf8_muladd_A2; gf8_muladd_A3; gf8_muladd_A4; gf8_muladd_A5; gf8_muladd_A6; gf8_muladd_A7;
   gf8_muladd_A8; gf8_muladd_A9; gf8_muladd_AA; gf8_muladd_AB; gf8_muladd_AC; gf8_muladd_AD;
   gf8_muladd_AE; gf8_muladd_AF; gf8_muladd_B0; gf8_muladd_B1; gf8_muladd_B2; gf8_muladd_B3;
   gf8_muladd_B4; gf8_muladd_B5; gf8_muladd_B6; gf8_muladd_B7; gf8_muladd_B8; gf8_muladd_B9;
   gf8_muladd_BA; gf8_muladd_BB; gf8_muladd_BC; gf8_muladd_BD; gf8_muladd_BE; gf8_muladd_BF;
   gf8_muladd_C0; gf8_muladd_C1; gf8_muladd_C2; gf8_muladd_C3; gf8_muladd_C4; gf8_muladd_C5;
   gf8_muladd_C6; gf8_muladd_C7; gf8_muladd_C8; gf8_muladd_C9; gf8_muladd_CA; gf8_muladd_CB;
   gf8_muladd_CC; gf8_muladd_CD; gf8_muladd_CE; gf8_muladd_CF; gf8_muladd_D0; gf8_muladd_D1;
   gf8_muladd_D2; gf8_muladd_D3; gf8_muladd_D4; gf8_muladd_D5; gf8_muladd_D6; gf8_muladd_D7;
   gf8_muladd_D8; gf8_muladd_D9; gf8_muladd_DA; gf8_muladd_DB; gf8_muladd_DC; gf8_muladd_DD;
   gf8_muladd_DE; gf8_muladd_DF; gf8_muladd_E0; gf8_muladd_E1; gf8_muladd_E2; gf8_muladd_E3;
   gf8_muladd_E4; gf8_muladd_E5; gf8_muladd_E6; gf8_muladd_E7; gf8_muladd_E8; gf8_muladd_E9;
   gf8_muladd_EA; gf8_muladd_EB; gf8_muladd_EC; gf8_muladd_ED; gf8_muladd_EE; gf8_muladd_EF;
   gf8_muladd_F0; gf8_muladd_F1; gf8_muladd_F2; gf8_muladd_F3; gf8_muladd_F4; gf8_muladd_F5;
   gf8_muladd_F6; gf8_muladd_F7; gf8_muladd_F8; gf8_muladd_F9; gf8_muladd_FA; gf8_muladd_FB;
   gf8_muladd_FC; gf8_muladd_FD; gf8_muladd_FE; gf8_muladd_FF].

(** ** Lemmas *)

(** *** Elements *)

Definition bits8 (o : octet bool) : Z :=
  let '(b0, b1, b2, b3, b4, b5, b6, b7) := o in
  Z.b2z b0 + 2 * (Z.b2z b1 + 2 * (Z.b2z b2 + 2 * (Z.b2z b3 + 2 * (Z.b2z b4 + 2 * (Z.b2z b5
  + 2 * (Z.b2z b6 + 2 * Z.b2z b7)))))).

Definition octet_of (a : Z) : octet bool :=
  map8 (Z.testbit a) (0, 1, 2, 3, 4, 5, 6, 7).

Lemma octet_bits o : octet_of (bits8 o) = o /\ byte (bits8 o).
Proof.
  destruct o as [[[[[[[b0 b1] b2] b3] b4] b5] b6] b7]. unfold byte.
  destruct b0, b1, b2, b3, b4, b5, b6, b7; cbn; (split; [reflexivity|lia]).
Qed.

Lemma bits8_xor o o' : bits8 (xor8 o o') = Z.lxor (bits8 o) (bits8 o').
Proof.
  destruct (octet_bits o) as [E H], (octet_bits o') as [E' H'].
  rewrite <- E at 1. rewrite <- E' at 1. apply Z.eqb_eq.
  apply (check2 (fun a b => bits8 (xor8 (octet_of a) (octet_of b)) =? Z.lxor a b)); [|done..].
  vm_compute. reflexivity.
Qed.

(** *** Circuits *)

(** Bit [t] of what a circuit computes is what it computes on the bits [t]. *)

Definition bitwise (k : circuit) : Prop :=
  forall o t, map8 (fun w => Z.testbit w t) (k Z xor_Z o) =
              k bool xor_bool (map8 (fun w => Z.testbit w t) o).

Definition multiplies (c : Z) (k : circuit) : bool :=
  check_below (fun a => bits8 (k bool xor_bool (octet_of a)) =? gmul c a) 256.

Lemma testbit_xor a b t x y :
  Z.testbit a t = x -> Z.testbit b t = y -> Z.testbit (xor_Z a b) t = xor_bool x y.
Proof. intros <- <-. apply Z.lxor_spec. Qed.

Lemma pair_eq {A B} (a a' : A) (b b' : B) : a = a' -> b = b' -> (a, b) = (a', b').
Proof. by intros -> ->. Qed.

Ltac bitwise_tac :=
  intros [[[[[[[? ?] ?] ?] ?] ?] ?] ?] ?; unfold xor; cbv beta iota zeta delta [map8];
  repeat (apply pair_eq; [|repeat apply testbit_xor; reflexivity]);
  repeat apply testbit_xor; reflexivity.

Lemma multiplies_spec c k o :
  multiplies c k = true -> bits8 (k bool xor_bool o) = gmul c (bits8 o).
Proof.
  intros H. destruct (octet_bits o) as [E Hb]. rewrite <- E at 1. apply Z.eqb_eq.
  exact (check_below_spec _ _ H _ Hb).
Qed.

(** *** Buffers *)

Definition rd (buf : list Z) (off width i : nat) : octet Z :=
  map8 (fun p => buf !!! (off + width * p + i)%nat) (0, 1, 2, 3, 4, 5, 6, 7)%nat.

Lemma read8_rd buf off width i :
  (off + 8 * width <= length buf)%nat -> (i < width)%nat -> read8 buf off width i = Some (rd buf off width i).
Proof.
  intros Hl Hi. unfold read8, rd, map8.
  rewrite Nat.mul_0_r, Nat.add_0_r, Nat.mul_1_r.
  repeat (rewrite list_lookup_lookup_total_lt by lia; cbn [mbind option_bind]). done.
Qed.

Lemma length_write8 buf off width i o : length (write8 buf off width i o) = length buf.
Proof. destruct o as [[[[[[[? ?] ?] ?] ?] ?] ?] ?]. cbn [write8]. by rewrite !length_insert. Qed.

Lemma rd_write8 buf off width i o :
  (off + 8 * width <= length buf)%nat -> (i < width)%nat -> rd (write8 buf off width i o) off width i = o.
Proof.
  intros Hl Hi. destruct o as [[[[[[[w0 w1] w2] w3] w4] w5] w6] w7]. cbn [write8]. unfold rd, map8.
  rewrite Nat.mul_0_r, Nat.add_0_r, Nat.mul_1_r.
  repeat (apply pair_eq; [|repeat rewrite list_lookup_total_insert_ne by lia;
    apply list_lookup_total_insert_eq; rewrite ?length_insert; lia]).
  repeat rewrite list_lookup_total_insert_ne by lia.
  apply list_lookup_total_insert_eq; rewrite ?length_insert; lia.
Qed.

Lemma write8_other buf off width i o j :
  (forall p, (p < 8)%nat -> j <> (off + width * p + i)%nat) -> write8 buf off width i o !! j = buf !! j.
Proof.
  intros Hj. destruct o as [[[[[[[w0 w1] w2] w3] w4] w5] w6] w7]. cbn [write8].
  pose proof (Hj 0 ltac:(lia))%nat. pose proof (Hj 1 ltac:(lia))%nat.
  pose proof (Hj 2 ltac:(lia))%nat. pose proof (Hj 3 ltac:(lia))%nat.
  pose proof (Hj 4 ltac:(lia))%nat. pose proof (Hj 5 ltac:(lia))%nat.
  pose proof (Hj 6 ltac:(lia))%nat. pose proof (Hj 7 ltac:(lia))%nat.
  repeat rewrite list_lookup_insert_ne by lia. done.
Qed.

Lemma rd_ext buf buf' off off' width i :
  (forall p, (p < 8)%nat -> buf !! (off + width * p + i)%nat = buf' !! (off' + width * p + i)%nat) ->
  rd buf off width i = rd buf' off' width i.
Proof. intros H. unfold rd, map8. by rewrite !list_lookup_total_alt, !H by lia. Qed.

Lemma rd_write8_ne buf off width i q o :
  (i < width)%nat -> (q < width)%nat -> q <> i ->
  rd (write8 buf off width i o) off width q = rd buf off width q.
Proof.
  intros Hi Hq Hn. apply rd_ext. intros p Hp. apply write8_other. intros p' Hp' E.
  apply Hn. assert (p = p') as ->; [|lia]. nia.
Qed.

(** *** The functions *)

(** The element of place [i] and bit [t]. *)

Definition byte_at (buf : list Z) (off width i : nat) (t : Z) : Z :=
  bits8 (map8 (fun w => Z.testbit w t) (rd buf off width i)).

Lemma byte_at_byte buf off width i t : byte (byte_at buf off width i t).
Proof. apply octet_bits. Qed.

Definition muladds (c : Z) (f : gf8_fn) : Prop :=
  forall out outo inp ino width,
  (outo + 8 * width <= length out)%nat -> (ino + 8 * width <= length inp)%nat ->
  exists out', f out outo inp ino width = Some out' /\ length out' = length out /\
    (forall j, (j < outo \/ outo + 8 * width <= j)%nat -> out' !! j = out !! j) /\
    forall i t, (i < width)%nat ->
      byte_at out' outo width i t =
      Z.lxor (gmul c (byte_at out outo width i t)) (byte_at inp ino width i t).

Lemma muladds_00 : muladds 0 gf8_muladd_00.
Proof.
  intros out outo inp ino width Ho Hi. unfold gf8_muladd_00.
  rewrite !(proj2 (Nat.leb_le _ _)) by lia. cbn [andb]. eexists. split; [done|].
  split_and!.
  - rewrite !length_app, !length_take, !length_drop. lia.
  - intros j [Hj|Hj].
    + rewrite lookup_app_l by (rewrite length_take; lia). by rewrite lookup_take_lt.
    + rewrite !lookup_app_r; rewrite ?length_take, ?length_drop; try lia.
      rewrite lookup_drop. f_equal. lia.
  - intros i t Hlt. rewrite gmul_0_l, Z.lxor_0_l. unfold byte_at. f_equal. f_equal. apply rd_ext.
    intros p Hp. assert (width * p + i < 8 * width)%nat by nia.
    rewrite lookup_app_r by (rewrite length_take; lia).
    rewrite lookup_app_l by (rewrite ?length_take, ?length_drop; lia).
    rewrite lookup_take_lt, lookup_drop by (rewrite length_take; lia).
    f_equal. rewrite length_take. lia.
Qed.

Lemma map8_testbit_xor (o o' : octet Z) t :
  map8 (fun w => Z.testbit w t) (xor8 o o') =
  xor8 (map8 (fun w => Z.testbit w t) o) (map8 (fun w => Z.testbit w t) o').
Proof.
  destruct o as [[[[[[[? ?] ?] ?] ?] ?] ?] ?], o' as [[[[[[[? ?] ?] ?] ?] ?] ?] ?].
  unfold map8, xor8, xor, xor_Z, xor_bool. by rewrite !Z.lxor_spec.
Qed.

Lemma muladd_muladds c k : bitwise k -> multiplies c k = true -> muladds c (muladd k).
Proof.
  intros Hb Hm out outo inp ino width Ho Hi. unfold muladd.
  destruct (for_loop_inv (fun i b => length b = length out /\
      (forall j, (j < outo \/ outo + 8 * width <= j)%nat -> b !! j = out !! j) /\
      (forall q, (q < i)%nat -> rd b outo width q =
        xor8 (k Z xor_Z (rd out outo width q)) (rd inp ino width q)) /\
      (forall q, (i <= q < width)%nat -> rd b outo width q = rd out outo width q))
    (fun i out => o ← read8 out outo width i; n ← read8 inp ino width i;
      Some (write8 out outo width i (xor8 (k Z xor_Z o) n))) width 0 out)
    as (out' & Hr & Hl & Hother & Hdone & _).
  - split_and!; try done. intros q Hq. lia.
  - intros i b Hlt (Hl & Hother & Hdone & Hrest).
    rewrite !read8_rd by lia. cbn [mbind option_bind]. eexists. split; [done|].
    rewrite length_write8. split_and!; [done|..].
    + intros j Hj. rewrite write8_other; [by apply Hother|]. intros p Hp. nia.
    + intros q Hq. destruct (decide (q = i)) as [->|Hn].
      * rewrite rd_write8 by lia. by rewrite Hrest by lia.
      * rewrite rd_write8_ne by lia. apply Hdone. lia.
    + intros q Hq. rewrite rd_write8_ne by lia. apply Hrest. lia.
  - exists out'. split_and!; [done|done|done|]. intros i t Hlt. unfold byte_at.
    rewrite Hdone by lia. rewrite map8_testbit_xor, bits8_xor, Hb. by rewrite multiplies_spec with (c := c).
Qed.

Ltac entry_tac :=
  lazymatch goal with
  | |- muladds 0 _ => apply muladds_00
  | |- muladds _ ?f => unfold f; apply muladd_muladds; [bitwise_tac|vm_compute; reflexivity]
  end.

Lemma table_muladds : Forall2 muladds (Z.of_nat <$> seq 0 256) ec_gf_muladd.
Proof.
  assert (Z.of_nat <$> seq 0 256 = ltac:(let l := eval vm_compute in (Z.of_nat <$> seq 0 256) in exact l))
    as -> by (vm_compute; reflexivity).
  unfold ec_gf_muladd. repeat (apply Forall2_cons_2; [entry_tac|]). apply Forall2_nil_2.
Qed.

Lemma table_entry c : byte c -> exists f, ec_gf_muladd !! Z.to_nat c = Some f /\ muladds c f.
Proof.
  unfold byte. intros Hc.
  destruct (Forall2_lookup_l _ _ _ (Z.to_nat c) c table_muladds) as (f & Hf & Hm).
  - rewrite list_lookup_fmap, lookup_seq_lt by lia. cbn. f_equal. lia.
  - by exists f.
Qed.

(** C30. The function that the table of ec-gf.c holds for an element c of the
    field multiplies by c in the field: for buffers that are long enough and
    every width, it returns, each element of [out] becomes c times itself plus
    the element of [in], where the product is that of polynomials modulo
    EC_GF_MOD, and no other word of the buffer changes. *)
Theorem ec_gf_muladd_multiplies (c : Z) (out inp : list Z) (outo ino width : nat) :
  0 <= c < 256 -> (outo + 8 * width <= length out)%nat -> (ino + 8 * width <= length inp)%nat ->
  exists f out', ec_gf_muladd !! Z.to_nat c = Some f /\ f out outo inp ino width = Some out' /\
    length out' = length out /\
    (forall j, (j < outo \/ outo + 8 * width <= j)%nat -> out' !! j = out !! j) /\
    forall i t, (i < width)%nat ->
      byte_at out' outo width i t =
      Z.lxor (gmul c (byte_at out outo width i t)) (byte_at inp ino width i t).
Proof.
  intros Hc Ho Hi. destruct (table_entry c Hc) as (f & Hf & Hm).
  destruct (Hm out outo inp ino width Ho Hi) as (out' & ?). by exists f, out'.
Qed.

(** The function for 3 on the words 1 to 8 of [out], which add to the words of
    [in]. *)

Lemma ec_gf_muladd_multiplies_witness :
  exists f out', ec_gf_muladd !! 3%nat = Some f /\
    f [1; 2; 3; 4; 5; 6; 7; 8] 0%nat [9; 9; 9; 9; 9; 9; 9; 9] 0%nat 1%nat = Some out' /\
    length out' = 8%nat /\
    (forall j, (j < 0 \/ 8 <= j)%nat -> out' !! j = [1; 2; 3; 4; 5; 6; 7; 8] !! j) /\
    forall i t, (i < 1)%nat ->
      byte_at out' 0 1 i t =
      Z.lxor (gmul 3 (byte_at [1; 2; 3; 4; 5; 6; 7; 8] 0 1 i t))
        (byte_at [9; 9; 9; 9; 9; 9; 9; 9] 0 1 i t).
Proof.
  apply (ec_gf_muladd_multiplies 3 [1; 2; 3; 4; 5; 6; 7; 8] [9; 9; 9; 9; 9; 9; 9; 9] 0 0 1);
    [lia|cbn; lia|cbn; lia].
Defined.
