(* ===== verification/EcMethod.v ===== *)
(** * Encoding and decoding

    xlators/cluster/ec/src/ec-method.c. A buffer is cut into chunks of 512
    bytes (64 words), and [columns] chunks make a stripe. Fragment [row] gets,
    for every stripe, the value at row + 1 of the polynomial that has the
    chunks of the stripe as coefficients. Decoding takes [columns] fragments,
    inverts the matrix of the powers by Gauss-Jordan elimination and multiplies
    the fragments by it.

    Buffers are lists of 64-bit words and pointers are indices of words. The
    arrays on the stack are functions of their two indices: they have 16 rows,
    and decoding with more columns is undefined. *)

From Stdlib Require Import ZArith Lia Bool.
From stdpp Require Import base list.
From S2P Require Import Prelude EcField EcGf.

Definition EC_METHOD_MAX_FRAGMENTS : Z := 16.
Definition EC_METHOD_WORD_SIZE : Z := 64.
Definition EC_METHOD_CHUNK_SIZE : Z := EC_METHOD_WORD_SIZE * EC_GF_BITS.
Definition EC_GF_WORD_SIZE : Z := 8.
Definition EC_METHOD_WIDTH : nat := Z.to_nat (EC_METHOD_WORD_SIZE / EC_GF_WORD_SIZE).

(** The words of a chunk. *)

Definition chunk_words : nat := Z.to_nat (EC_METHOD_CHUNK_SIZE / EC_GF_WORD_SIZE).

(** A call through the table. *)

Definition gf_call (c : Z) (out : list Z) (outo : nat) (inp : list Z) (ino : nat) : option (list Z) :=
  if c <? 0 then None
  else match (ec_gf_muladd !! Z.to_nat c : option gf8_fn) with
       | None => None
       | Some f => f out outo inp ino EC_METHOD_WIDTH
       end.

(** ** Encoding *)

(** One stripe; the state is the buffer of [out] with the two pointers. *)

Definition encode_stripe (columns : nat) (row : Z) (inp : list Z) (st : list Z * nat * nat)
    : option (list Z * nat * nat) :=
  let '(out, ino, outo) := st in
  out ← gf_call 0 out outo inp ino;
  '(out, ino) ← for_loop (columns - 1) 1 (fun _ '(out, ino) =>
      out ← gf_call row out outo inp ino;
      Some (out, (ino + chunk_words)%nat)) (out, (ino + chunk_words)%nat);
  Some (out, ino, (outo + chunk_words)%nat).

(** [None] also when the size divides by zero, and when there are so many
    stripes that the 32-bit counter never reaches their number. *)

Definition ec_method_encode (size columns row : Z) (inp out : list Z) : option (Z * list Z) :=
  let d := u32 (EC_METHOD_CHUNK_SIZE * columns) in
  if d =? 0 then None else
  let size := size / d in
  let row := u32 (row + 1) in
  if 2 ^ 32 <=? size then None else
  '(out, _, _) ← for_loop (Z.to_nat size) 0
      (fun _ => encode_stripe (Z.to_nat columns) row inp) (out, 0%nat, 0%nat);
  Some (u64 (size * EC_METHOD_CHUNK_SIZE), out).

(** ** Decoding *)

Definition matrix : Type := nat -> nat -> Z.

Definition upd (m : matrix) (i j : nat) (v : Z) : matrix :=
  fun a b => if Nat.eqb a i && Nat.eqb b j then u8 v else m a b.

Definition zero_matrix : matrix := fun _ _ => 0.

Definition init_inv (columns : nat) : option matrix :=
  for_loop columns 0 (fun i inv => Some (upd (upd inv i i 1) i columns 1)) zero_matrix.

(** The inner loop counts [j] down from [columns - 1] to 1. *)

Definition init_mtx (columns : nat) (rows : list Z) : option matrix :=
  for_loop columns 0 (fun i mtx =>
    for_loop (columns - 1) 0 (fun t mtx =>
      let j := (columns - 1 - t)%nat in
      r ← rows !! i;
      v ← ec_method_mul (mtx i j) (u32 (r + 1));
      Some (upd mtx i (j - 1) v)) (upd mtx i (columns - 1) 1)) zero_matrix.

(** The pivot row [i] is divided by [f]. *)

Definition scale_row (columns i : nat) (f : Z) : matrix * matrix -> option (matrix * matrix) :=
  for_loop columns 0 (fun j '(mtx, inv) =>
    a ← ec_method_div (mtx i j) f;
    b ← ec_method_div (inv i j) f;
    Some (upd mtx i j a, upd inv i j b)).

(** Row [j] gets [f] times the pivot row [i] added. *)

Definition add_row (columns i j : nat) (f : Z) : matrix * matrix -> option (matrix * matrix) :=
  for_loop columns 0 (fun k '(mtx, inv) =>
    a ← ec_method_mul (mtx i k) f;
    b ← ec_method_mul (inv i k) f;
    Some (upd mtx j k (Z.lxor (mtx j k) a), upd inv j k (Z.lxor (inv j k) b))).

Definition eliminate (columns i : nat) (m : matrix * matrix) : option (matrix * matrix) :=
  m ← scale_row columns i (m.1 i i) m;
  for_loop columns 0 (fun j m =>
    if negb (Nat.eqb i j) then add_row columns i j (m.1 j i) m else Some m) m.

(** [while (inv[i][j] == 0) j++;] within the [columns + 1] columns of [inv]. *)

Fixpoint skip_zeros (n : nat) (inv : matrix) (i j : nat) : option nat :=
  match n with
  | O => None
  | S n' => if inv i j =? 0 then skip_zeros n' inv i (S j) else Some j
  end.

(** The loop that computes one chunk of the result: the buffer and [last]. *)

Fixpoint decode_chunk (fuel columns : nat) (inv : matrix) (i : nat) (inp : list (list Z))
    (off outo : nat) (j : nat) (last : Z) (out : list Z) : option (list Z * Z) :=
  match fuel with
  | O => None
  | S fuel' =>
      j ← skip_zeros (S columns - j) inv i j;
      if Nat.ltb j columns then
        value ← ec_method_div last (inv i j);
        b ← inp !! j;
        out ← gf_call value out outo b off;
        if Nat.ltb (S j) columns
        then decode_chunk fuel' columns inv i inp off outo (S j) (inv i j) out
        else Some (out, inv i j)
      else Some (out, last)
  end.

(** One stripe: [off] counts bytes in 32 bits. *)

Definition decode_stripe (columns : nat) (inv : matrix) (inp : list (list Z))
    (st : list Z * nat * Z) : option (list Z * nat * Z) :=
  let '(out, outo, off) := st in
  let offw := Z.to_nat (off / EC_GF_WORD_SIZE) in
  '(out, outo) ← for_loop columns 0 (fun i '(out, outo) =>
      '(out, last) ← decode_chunk columns columns inv i inp offw outo 0 0 out;
      out ← gf_call last out outo (repeat 0 chunk_words) 0;
      Some (out, (outo + chunk_words)%nat)) (out, outo);
  Some (out, outo, u32 (off + EC_METHOD_CHUNK_SIZE)).

Definition ec_method_decode (size columns : Z) (rows : list Z) (inp : list (list Z)) (out : list Z)
    : option (Z * list Z) :=
  let size := size / EC_METHOD_CHUNK_SIZE in
  let n := Z.to_nat columns in
  if (EC_METHOD_MAX_FRAGMENTS <? columns) || (2 ^ 32 <=? size) then None else
  inv ← init_inv n;
  mtx ← init_mtx n rows;
  '(_, inv) ← for_loop n 0 (eliminate n) (mtx, inv);
  '(out, _, _) ← for_loop (Z.to_nat size) 0 (fun _ => decode_stripe n inv inp) (out, 0%nat, 0);
  Some (u64 (size * EC_METHOD_CHUNK_SIZE * columns), out).
