(* ===== verification/EcInverse.v ===== *)
(** * The inverse of the matrix of powers

    Why ec_method_decode needs no pivoting: with distinct nonzero points, every
    leading square of the matrix of powers is regular, so that Gauss-Jordan
    elimination finds a nonzero pivot in every turn and ends with the inverse. *)

From Stdlib Require Import ZArith Lia Bool.
From stdpp Require Import base list.
From S2P Require Import Prelude EcField EcGf EcMethod.

(** ** Sums in the field *)

Fixpoint gsum (n : nat) (f : nat -> Z) : Z :=
  match n with O => 0 | S n' => Z.lxor (gsum n' f) (f n') end.

Lemma byte_0 : byte 0.
Proof. unfold byte. lia. Qed.

Lemma byte_1 : byte 1.
Proof. unfold byte. lia. Qed.

#[export] Hint Resolve byte_0 byte_1 : field.

Lemma gsum_byte n f : (forall b, (b < n)%nat -> byte (f b)) -> byte (gsum n f).
Proof.
  induction n as [|n IH]; intros H; cbn [gsum]; [apply byte_0|]. apply lxor_byte; [|by apply H; lia].
  apply IH. intros b Hb. apply H. lia.
Qed.

Lemma gsum_ext n f g : (forall b, (b < n)%nat -> f b = g b) -> gsum n f = gsum n g.
Proof.
  induction n as [|n IH]; intros H; cbn [gsum]; [done|]. rewrite (H n) by lia. f_equal.
  apply IH. intros b Hb. apply H. lia.
Qed.

Lemma gsum_zero n f : (forall b, (b < n)%nat -> f b = 0) -> gsum n f = 0.
Proof.
  intros H. rewrite (gsum_ext n f (fun _ => 0)) by done. induction n as [|n IH]; [done|].
  cbn [gsum]. rewrite IH by (intros; apply H; lia). done.
Qed.

Lemma gsum_lxor n f g : gsum n (fun b => Z.lxor (f b) (g b)) = Z.lxor (gsum n f) (gsum n g).
Proof. induction n as [|n IH]; cbn [gsum]; [done|]. by rewrite IH, lxor_swap. Qed.

Lemma gsum_mul n f c :
  byte c -> (forall b, (b < n)%nat -> byte (f b)) -> gmul c (gsum n f) = gsum n (fun b => gmul c (f b)).
Proof.
  intros Hc. induction n as [|n IH]; intros H; cbn [gsum]; [by apply gmul_0_r|].
  rewrite gmul_lxor_r by (first [done|apply H; lia|apply gsum_byte; intros; apply H; lia]).
  rewrite IH; [done|]. intros b Hb. apply H. lia.
Qed.

Lemma gsum_swap n m (f : nat -> nat -> Z) :
  gsum n (fun a => gsum m (f a)) = gsum m (fun b => gsum n (fun a => f a b)).
Proof.
  induction n as [|n IH]; cbn [gsum]; [by rewrite gsum_zero|]. by rewrite IH, gsum_lxor.
Qed.

Definition delta (a b : nat) : Z := if Nat.eqb a b then 1 else 0.

Lemma delta_same a : delta a a = 1.
Proof. unfold delta. by rewrite Nat.eqb_refl. Qed.

Lemma delta_ne a b : a <> b -> delta a b = 0.
Proof. intros H. unfold delta. by rewrite (proj2 (Nat.eqb_neq a b)). Qed.

Lemma gsum_single n k f :
  (k < n)%nat -> (forall b, (b < n)%nat -> b <> k -> f b = 0) -> gsum n f = f k.
Proof.
  induction n as [|n IH]; intros Hk H; [lia|]. cbn [gsum].
  destruct (decide (k = n)) as [->|Hn].
  - rewrite gsum_zero by (intros b Hb; apply H; lia). apply Z.lxor_0_l.
  - rewrite (H n), Z.lxor_0_r by lia. apply IH; [lia|]. intros b Hb. apply H. lia.
Qed.

(** ** Powers *)

Lemma gpow_byte a n : byte a -> byte (gpow a n).
Proof. intros Ha. destruct n; cbn [gpow]; eauto with field. Qed.

#[export] Hint Resolve gpow_byte gsum_byte : field.

Lemma gpow_nonzero a n : nonzero a -> nonzero (gpow a n).
Proof. intros Ha. induction n; cbn [gpow]; [unfold nonzero; lia|eauto with field]. Qed.

Lemma gpow_add a n m : byte a -> gpow a (n + m) = gmul (gpow a n) (gpow a m).
Proof.
  intros Ha. induction n as [|n IH]; cbn [gpow Nat.add].
  - by rewrite gmul_1_l by eauto with field.
  - by rewrite IH, gmul_assoc by eauto with field.
Qed.

(** ** Loops over rows *)

Definition bytes (m : matrix) : Prop := forall a b, byte (m a b).

Lemma upd_eq m i j v : byte v -> upd m i j v i j = v.
Proof. intros Hv. unfold upd. rewrite !Nat.eqb_refl. by apply uwrap_small. Qed.

Lemma upd_ne m i j v a b : a <> i \/ b <> j -> upd m i j v a b = m a b.
Proof.
  intros H. unfold upd. destruct (Nat.eqb_spec a i), (Nat.eqb_spec b j); cbn [andb]; try done.
  exfalso. destruct H; congruence.
Qed.

(** A matrix with the first [n] columns of row [i] replaced. *)

Definition with_row (m : matrix) (i n : nat) (r : nat -> Z) : matrix :=
  fun a b => if Nat.eqb a i && Nat.ltb b n then r b else m a b.

Definition same (m m' : matrix) : Prop := forall a b, m a b = m' a b.

Lemma with_row_S m m' i k r v :
  same m (with_row m' i k r) -> r k = v -> byte v -> same (upd m i k v) (with_row m' i (S k) r).
Proof.
  intros Hm Hr Hv a b. unfold with_row.
  destruct (decide (a = i /\ b = k)) as [[-> ->]|Hn].
  - rewrite upd_eq by done. rewrite Nat.eqb_refl. cbn [andb].
    by rewrite (proj2 (Nat.ltb_lt k (S k))) by lia.
  - rewrite upd_ne by lia. rewrite Hm. unfold with_row.
    destruct (Nat.eqb_spec a i); cbn [andb]; [|done].
    destruct (Nat.ltb_spec b k), (Nat.ltb_spec b (S k)); (done || lia).
Qed.

Lemma with_row_0 m i r : same m (with_row m i 0 r).
Proof. intros a b. unfold with_row. by rewrite andb_false_r. Qed.

(** A loop that computes rows of both matrices, column by column. *)

Lemma row_loop n i (mtx inv : matrix) (r s : nat -> Z) body :
  (forall k, byte (r k)) -> (forall k, byte (s k)) ->
  (forall k m v, (k < n)%nat -> same m (with_row mtx i k r) -> same v (with_row inv i k s) ->
    body k (m, v) = Some (upd m i k (r k), upd v i k (s k))) ->
  exists m v, for_loop n 0 body (mtx, inv) = Some (m, v) /\
    same m (with_row mtx i n r) /\ same v (with_row inv i n s).
Proof.
  intros Hr Hs Hb.
  destruct (for_loop_inv (fun k '(m, v) => same m (with_row mtx i k r) /\ same v (with_row inv i k s))
    body n 0 (mtx, inv)) as ([m v] & Hl & Hm & Hv).
  - split; apply with_row_0.
  - intros k [m v] Hk [Hm Hv]. rewrite (Hb k m v) by (done || lia). eexists. split; [done|].
    split; by apply with_row_S.
  - by exists m, v.
Qed.

Lemma scale_row_spec n i f mtx inv :
  bytes mtx -> bytes inv -> nonzero f ->
  exists m v, scale_row n i f (mtx, inv) = Some (m, v) /\
    same m (with_row mtx i n (fun b => gmul (mtx i b) (ginv f))) /\
    same v (with_row inv i n (fun b => gmul (inv i b) (ginv f))).
Proof.
  intros Hm Hv Hf. unfold scale_row. apply row_loop; [eauto with field..|].
  intros k m v Hk Em Ev. rewrite Em, Ev. unfold with_row.
  rewrite (proj2 (Nat.ltb_ge k k)), andb_false_r by lia.
  by rewrite !ec_method_div_spec.
Qed.

Lemma add_row_spec n i j f mtx inv :
  bytes mtx -> bytes inv -> byte f -> i <> j ->
  exists m v, add_row n i j f (mtx, inv) = Some (m, v) /\
    same m (with_row mtx j n (fun b => Z.lxor (mtx j b) (gmul (mtx i b) f))) /\
    same v (with_row inv j n (fun b => Z.lxor (inv j b) (gmul (inv i b) f))).
Proof.
  intros Hm Hv Hf Hij. unfold add_row. apply row_loop; [eauto with field..|].
  intros k m v Hk Em Ev. rewrite !Em, !Ev. unfold with_row.
  rewrite (proj2 (Nat.ltb_ge k k)), !andb_false_r by lia.
  by rewrite !ec_method_mul_spec.
Qed.

(** One turn of the elimination. *)

Definition eliminated (n i : nat) (f : Z) (mtx m : matrix) (a b : nat) : Z :=
  if Nat.ltb a n && Nat.ltb b n then
    if Nat.eqb a i then gmul (m i b) (ginv f)
    else Z.lxor (m a b) (gmul (gmul (m i b) (ginv f)) (mtx a i))
  else m a b.

(** The loop over the rows other than the pivot row has done the rows below [k]. *)

Definition partly (n i k : nat) (f : Z) (mtx m : matrix) (a b : nat) : Z :=
  if Nat.ltb a k || Nat.eqb a i then eliminated n i f mtx m a b else m a b.

Lemma partly_bytes n i k f mtx m : bytes mtx -> bytes m -> bytes (partly n i k f mtx m).
Proof.
  intros Hm Hv a b. unfold partly, eliminated. repeat case_match; eauto with field.
Qed.

Lemma partly_step n i k f mtx m m' m'' :
  (i < n)%nat -> (k < n)%nat -> i <> k -> same m' (partly n i k f mtx m) ->
  same m'' (with_row m' k n (fun b => Z.lxor (m' k b) (gmul (m' i b) (mtx k i)))) ->
  same m'' (partly n i (S k) f mtx m).
Proof.
  intros Hi Hk Hik Hm Hm' a b. rewrite Hm'. unfold with_row. rewrite !Hm.
  unfold partly, eliminated. rewrite Nat.eqb_refl, orb_true_r.
  rewrite (proj2 (Nat.ltb_lt i n)), (proj2 (Nat.ltb_ge k k)) by lia.
  rewrite (proj2 (Nat.eqb_neq k i)) by lia. cbn [orb andb].
  destruct (Nat.eqb_spec a k) as [->|Hak]; cbn [andb].
  - rewrite (proj2 (Nat.ltb_lt k (S k))), (proj2 (Nat.ltb_lt k n)), (proj2 (Nat.ltb_ge k k)) by lia.
    rewrite (proj2 (Nat.eqb_neq k i)) by lia. cbn [orb andb].
    by destruct (Nat.ltb b n).
  - replace (Nat.ltb a (S k)) with (Nat.ltb a k); [done|].
    destruct (Nat.ltb_spec a k), (Nat.ltb_spec a (S k)); (done || lia).
Qed.

Lemma partly_skip n i f mtx m : same (partly n i i f mtx m) (partly n i (S i) f mtx m).
Proof.
  intros a b. unfold partly. destruct (Nat.eqb_spec a i); [by rewrite !orb_true_r|].
  destruct (Nat.ltb_spec a i), (Nat.ltb_spec a (S i)); (done || lia).
Qed.

Lemma partly_start n i f mtx m :
  (i < n)%nat -> same (with_row m i n (fun b => gmul (m i b) (ginv f))) (partly n i 0 f mtx m).
Proof.
  intros Hi a b. unfold with_row, partly, eliminated. change (Nat.ltb a 0) with false. cbn [orb].
  destruct (Nat.eqb_spec a i) as [->|]; cbn [andb]; [|done].
  by rewrite (proj2 (Nat.ltb_lt i n)).
Qed.

Lemma partly_end n i f mtx m : (i < n)%nat -> same (partly n i n f mtx m) (eliminated n i f mtx m).
Proof.
  intros Hi a b. unfold partly, eliminated. destruct (Nat.ltb_spec a n); cbn [orb andb]; [done|].
  by destruct (Nat.eqb_spec a i).
Qed.

Lemma same_trans m m' m'' : same m m' -> same m' m'' -> same m m''.
Proof. intros H H' a b. by rewrite H, H'. Qed.

Lemma same_bytes m m' : same m m' -> bytes m' -> bytes m.
Proof. intros H Hb a b. rewrite H. apply Hb. Qed.

Lemma eliminate_spec n i mtx inv :
  bytes mtx -> bytes inv -> (i < n)%nat -> nonzero (mtx i i) ->
  exists m v, eliminate n i (mtx, inv) = Some (m, v) /\
    same m (eliminated n i (mtx i i) mtx mtx) /\ same v (eliminated n i (mtx i i) mtx inv).
Proof.
  intros Hm Hv Hi Hp. unfold eliminate. cbn [fst].
  destruct (scale_row_spec n i (mtx i i) mtx inv) as (m1 & v1 & -> & Em & Ev); [done..|].
  cbn [mbind option_bind].
  destruct (for_loop_inv (fun k '(m, v) => same m (partly n i k (mtx i i) mtx mtx) /\
      same v (partly n i k (mtx i i) mtx inv))
    (fun j m => if negb (Nat.eqb i j) then add_row n i j (m.1 j i) m else Some m) n 0 (m1, v1))
    as ([m v] & Hl & Em' & Ev').
  - split; (eapply same_trans; [eassumption|by apply partly_start]).
  - intros k [m v] Hk [Hmk Hvk]. destruct (Nat.eqb_spec i k) as [<-|Hik]; cbn [negb].
    + eexists. split; [done|]. split; (eapply same_trans; [eassumption|apply partly_skip]).
    + cbn [fst].
      destruct (add_row_spec n i k (m k i) m v) as (m' & v' & Ha & Em' & Ev');
        [by eapply same_bytes, partly_bytes|by eapply same_bytes, partly_bytes| |done|].
      { rewrite Hmk. by apply partly_bytes. }
      exists (m', v'). split; [done|].
      assert (m k i = mtx k i) as Ef.
      { rewrite Hmk. unfold partly. rewrite (proj2 (Nat.ltb_ge k k)) by lia.
        by rewrite (proj2 (Nat.eqb_neq k i)) by lia. }
      rewrite Ef in Em', Ev'. split; (eapply partly_step; [done|lia|done| |eassumption]); done.
  - exists m, v. split; [done|]. split; (eapply same_trans; [eassumption|by apply partly_end]).
Qed.

(** ** The invariant *)

Section inverse.
Variable n : nat.
Variable x : nat -> Z.
Hypothesis Hx : forall a, (a < n)%nat -> nonzero (x a).
Hypothesis Hdistinct : forall a b, (a < n)%nat -> (b < n)%nat -> x a = x b -> a = b.

(** The matrix of the powers. *)

Definition power (a j : nat) : Z := gpow (x a) (n - 1 - j).

Record gauss (i : nat) (mtx inv : matrix) : Prop := {
  g_mtx : bytes mtx;
  g_inv : bytes inv;
  g_product : forall a j, (a < n)%nat -> (j < n)%nat ->
    gsum n (fun b => gmul (inv a b) (power b j)) = mtx a j;
  g_done : forall a j, (a < n)%nat -> (j < i)%nat -> mtx a j = delta a j;
  g_rest : forall a b, (i <= a < n)%nat -> (i <= b < n)%nat -> inv a b = delta a b;
  g_end : forall a, (a < n)%nat -> inv a n = 1
}.

Lemma power_byte a j : (a < n)%nat -> byte (power a j).
Proof. intros Ha. apply gpow_byte, nonzero_byte, Hx, Ha. Qed.

Hint Resolve power_byte : field.

(** *** The pivot *)

(** The polynomial with the roots [x 0] to [x (m - 1)], at [x b]. *)

Fixpoint root_product (m b : nat) : Z :=
  match m with O => 1 | S m' => gmul (Z.lxor (x b) (x m')) (root_product m' b) end.

Lemma root_product_byte m b : (m <= n)%nat -> (b < n)%nat -> byte (root_product m b).
Proof.
  intros Hm Hb. destruct m; cbn [root_product]; [apply byte_1|].
  apply gmul_byte, lxor_byte; apply nonzero_byte, Hx; lia.
Qed.

Lemma root_product_zero m b : (b < m <= n)%nat -> root_product m b = 0.
Proof.
  induction m as [|m IH]; intros Hm; [lia|]. cbn [root_product].
  destruct (decide (b = m)) as [->|Hn]; [by rewrite Z.lxor_nilpotent, gmul_0_l|].
  rewrite IH, gmul_0_r; [done|apply lxor_byte; apply nonzero_byte, Hx; lia|lia].
Qed.

Lemma lxor_nonzero a b : byte a -> byte b -> a <> b -> nonzero (Z.lxor a b).
Proof.
  intros Ha Hb Hab. destruct (byte_cases _ (lxor_byte a b Ha Hb)) as [H|H]; [|done].
  by apply Z.lxor_eq in H.
Qed.

Lemma root_product_nonzero m b : (m <= b < n)%nat -> nonzero (root_product m b).
Proof.
  induction m as [|m IH]; intros Hm; cbn [root_product]; [unfold nonzero; lia|].
  apply gmul_nonzero; [|apply IH; lia].
  apply lxor_nonzero; [apply nonzero_byte, Hx; lia..|]. intros E. apply Hdistinct in E; lia.
Qed.

(** A row whose products with the first [i] + 1 columns of powers are zero has a
    zero product with every polynomial of degree at most [i]. *)

Definition pairing (i : nat) (r : nat -> Z) (k m : nat) : Z :=
  gsum n (fun b => gmul (r b) (gmul (gpow (x b) (n - 1 - i)) (gmul (gpow (x b) k) (root_product m b)))).

Lemma pairing_step i r k m :
  (forall b, byte (r b)) -> (m < n)%nat ->
  pairing i r k (S m) = Z.lxor (pairing i r (S k) m) (gmul (x m) (pairing i r k m)).
Proof.
  intros Hr Hm. unfold pairing.
  rewrite gsum_mul by (first [by apply nonzero_byte, Hx|intros; apply gmul_byte, Hr]).
  rewrite <- gsum_lxor. apply gsum_ext. intros b Hb. cbn [root_product gpow].
  pose proof (nonzero_byte _ (Hx b Hb)) as Xb. pose proof (nonzero_byte _ (Hx m Hm)) as Xm.
  pose proof (root_product_byte m b ltac:(lia) Hb) as Xr. pose proof (Hr b) as Xi.
  rewrite gmul_lxor_l by done.
  rewrite !gmul_lxor_r by eauto 8 with field. f_equal.
  - f_equal. f_equal. rewrite (gmul_comm (x b) (gpow (x b) k)) by eauto with field.
    by rewrite gmul_assoc by eauto with field.
  - rewrite (gmul_comm (x m) (gmul (r b) _)) by eauto 8 with field.
    rewrite <- !gmul_assoc by eauto 8 with field. f_equal. f_equal. f_equal.
    apply gmul_comm; eauto with field.
Qed.

Lemma pairing_zero i r k m :
  (forall b, byte (r b)) -> (i < n)%nat ->
  (forall j, (j <= i)%nat -> gsum n (fun b => gmul (r b) (power b j)) = 0) ->
  (m + k <= i)%nat -> pairing i r k m = 0.
Proof.
  intros Hr Hi Hz. revert k. induction m as [|m IH]; intros k Hk.
  - rewrite <- (Hz (i - k)%nat) by lia. apply gsum_ext. intros b Hb. cbn [root_product].
    pose proof (nonzero_byte _ (Hx b Hb)) as Xb.
    rewrite (gmul_1_r (gpow _ _)), <- gpow_add by eauto with field.
    unfold power. f_equal. f_equal. lia.
  - rewrite pairing_step by (done || lia). rewrite !IH by lia.
    by rewrite gmul_0_r by (apply nonzero_byte, Hx; lia).
Qed.

Lemma pivot_nonzero i mtx inv : gauss i mtx inv -> (i < n)%nat -> nonzero (mtx i i).
Proof.
  intros G Hi. destruct (byte_cases _ (g_mtx _ _ _ G i i)) as [H0|H]; [exfalso|done].
  assert (pairing i (inv i) 0 i = 0) as Hp.
  { apply pairing_zero; [apply G|done| |lia]. intros j Hj. rewrite (g_product _ _ _ G) by lia.
    destruct (decide (j = i)) as [->|Hn]; [done|]. rewrite (g_done _ _ _ G) by lia.
    apply delta_ne. lia. }
  unfold pairing in Hp. rewrite (gsum_single n i) in Hp; [|done|].
  - rewrite (g_rest _ _ _ G), delta_same, gmul_1_l in Hp by
      (lia || (apply gmul_byte, gpow_byte, nonzero_byte, Hx; lia)).
    pose proof (gmul_nonzero (gpow (x i) (n - 1 - i)) (gmul (gpow (x i) 0) (root_product i i))) as Hn.
    rewrite Hp in Hn. unfold nonzero in Hn at 3. enough (1 <= 0 < 256) by lia. apply Hn.
    + by apply gpow_nonzero, Hx.
    + apply gmul_nonzero; [by apply gpow_nonzero, Hx|apply root_product_nonzero; lia].
  - intros b Hb Hne. pose proof (nonzero_byte _ (Hx b Hb)) as Xb.
    destruct (Nat.lt_ge_cases b i) as [Hlt|Hge].
    + rewrite root_product_zero by lia. rewrite !gmul_0_r; eauto with field. apply (g_inv _ _ _ G).
    + rewrite (g_rest _ _ _ G), delta_ne by lia. apply gmul_0_l.
Qed.

(** *** A turn keeps the invariant *)

(** One step of the elimination keeps the product with the powers. *)

Lemma eliminated_at i mtx w a b :
  (a < n)%nat -> (b < n)%nat -> eliminated n i (mtx i i) mtx w a b =
    if Nat.eqb a i then gmul (w i b) (ginv (mtx i i))
    else Z.lxor (w a b) (gmul (gmul (w i b) (ginv (mtx i i))) (mtx a i)).
Proof. intros Ha Hab. unfold eliminated. by rewrite !(proj2 (Nat.ltb_lt _ _)) by done. Qed.

Lemma eliminated_product i mtx inv a j :
  gauss i mtx inv -> (i < n)%nat -> byte (ginv (mtx i i)) -> (a < n)%nat -> (j < n)%nat ->
  gsum n (fun b => gmul (eliminated n i (mtx i i) mtx inv a b) (power b j)) = eliminated n i (mtx i i) mtx mtx a j.
Proof.
  intros [Bm Bv Hprod _ _ _] Hi Hq Ha Hj. rewrite eliminated_at by done. set (q := ginv (mtx i i)) in *.
  assert (forall c, byte c -> gsum n (fun b => gmul (gmul (inv i b) c) (power b j)) = gmul c (mtx i j)) as Hrow.
  { intros c Hc. rewrite <- Hprod by done. rewrite gsum_mul by (eauto with field).
    apply gsum_ext. intros b Hlt. rewrite (gmul_comm (inv i b) c) by eauto with field.
    by rewrite gmul_assoc by eauto with field. }
  rewrite (gsum_ext _ _ (fun b => gmul (if Nat.eqb a i then gmul (inv i b) q else
    Z.lxor (inv a b) (gmul (gmul (inv i b) q) (mtx a i))) (power b j)))
    by (intros; by rewrite eliminated_at).
  destruct (Nat.eqb a i).
  - rewrite Hrow by done. apply gmul_comm; eauto with field.
  - rewrite (gsum_ext _ _ (fun b => Z.lxor (gmul (inv a b) (power b j))
      (gmul (gmul (inv i b) (gmul q (mtx a i))) (power b j)))).
    + rewrite gsum_lxor, Hprod, Hrow by eauto with field. f_equal.
      rewrite (gmul_comm (gmul q _)), gmul_assoc by eauto with field. done.
    + intros b Hlt. rewrite gmul_lxor_l by eauto with field.
      by rewrite (gmul_assoc (inv i b) q) by eauto with field.
Qed.


Lemma gauss_step i mtx inv m v :
  gauss i mtx inv -> (i < n)%nat ->
  same m (eliminated n i (mtx i i) mtx mtx) -> same v (eliminated n i (mtx i i) mtx inv) ->
  gauss (S i) m v.
Proof.
  intros G Hi Em Ev. pose proof (pivot_nonzero i mtx inv G Hi) as Hp.
  destruct (ginv_spec _ Hp) as [Hq Hpq]. apply nonzero_byte in Hq.
  destruct (id G) as [Bm Bv Hprod Hdone Hrest Hend]. set (q := ginv (mtx i i)) in *.
  assert (forall w, bytes w -> bytes (eliminated n i (mtx i i) mtx w)) as Hb.
  { intros w Hw a b. unfold eliminated. repeat case_match; eauto with field. }
  pose proof (eliminated_at i mtx) as He. fold q in He.
  split.
  - by eapply same_bytes, Hb.
  - by eapply same_bytes, Hb.
  - intros a j Ha Hj. rewrite Em, <- (eliminated_product i mtx inv a j G) by done.
    apply gsum_ext. intros. by rewrite Ev.
  - intros a j Ha Hj. rewrite Em, He by lia.
    destruct (decide (j = i)) as [->|Hji].
    + rewrite (gmul_comm (mtx i i)), Hpq by eauto with field.
      destruct (Nat.eqb_spec a i) as [->|Hai]; [by rewrite delta_same|].
      rewrite gmul_1_l, Z.lxor_nilpotent, delta_ne by eauto with field. done.
    + rewrite (Hdone i j), (delta_ne i j), !gmul_0_l by lia.
      destruct (Nat.eqb_spec a i) as [->|Hai]; [by rewrite delta_ne by lia|].
      rewrite Z.lxor_0_r. apply Hdone; lia.
  - intros a b Ha Hab. rewrite Ev, He by lia. rewrite (Hrest i b), (delta_ne i b), !gmul_0_l by lia.
    rewrite (proj2 (Nat.eqb_neq a i)) by lia. rewrite Z.lxor_0_r. apply Hrest; lia.
  - intros a Ha. rewrite Ev. unfold eliminated.
    rewrite (proj2 (Nat.ltb_ge n n)), andb_false_r by lia. by apply Hend.
Qed.

(** *** The start *)

Lemma init_inv_spec :
  exists inv, init_inv n = Some inv /\ bytes inv /\ (forall a, (a < n)%nat -> inv a n = 1) /\
    forall a b, (a < n)%nat -> (b < n)%nat -> inv a b = delta a b.
Proof.
  destruct (for_loop_inv (fun k inv => bytes inv /\ (forall a, (a < k)%nat -> inv a n = 1) /\
      forall a b, (a < n)%nat -> (b < n)%nat -> inv a b = if Nat.ltb a k then delta a b else 0)
    (fun i inv => Some (upd (upd inv i i 1) i n 1)) n 0 zero_matrix) as (inv & Hl & Hb & He & Hd).
  - split_and!; [intros a b; apply byte_0|lia|done].
  - intros k inv Hk (Hb & He & Hd). eexists. split; [done|]. split_and!.
    + intros a b. unfold upd. repeat case_match; [apply byte_1..|apply Hb].
    + intros a Ha. destruct (decide (a = k)) as [->|]; [apply upd_eq, byte_1|].
      rewrite !upd_ne by lia. apply He. lia.
    + intros a b Ha Hab. rewrite upd_ne by lia.
      destruct (decide (a = k)) as [->|Hak].
      * rewrite (proj2 (Nat.ltb_lt k (S k))) by lia. destruct (decide (b = k)) as [->|].
        -- by rewrite upd_eq, delta_same by apply byte_1.
        -- rewrite upd_ne, Hd by lia. rewrite (proj2 (Nat.ltb_ge k k)) by lia. by rewrite delta_ne.
      * rewrite upd_ne, Hd by lia. destruct (Nat.ltb_spec a k), (Nat.ltb_spec a (S k)); (done || lia).
  - exists inv. split_and!; [done|done|by apply He|]. intros a b Ha Hab. rewrite Hd by done.
    by rewrite (proj2 (Nat.ltb_lt a (0 + n))).
Qed.

(** The powers of row [i], from the last column to column [n - 1 - t]. *)

Lemma init_row_spec (rows : list Z) i mtx :
  (i < n)%nat -> rows !! i = Some (x i - 1) -> bytes mtx ->
  exists m, for_loop (n - 1) 0 (fun t mtx =>
      let j := (n - 1 - t)%nat in
      r ← rows !! i;
      v ← ec_method_mul (mtx i j) (u32 (r + 1));
      Some (upd mtx i (j - 1) v)) (upd mtx i (n - 1) 1) = Some m /\ bytes m /\
    (forall j, (j < n)%nat -> m i j = power i j) /\ forall a b, a <> i -> m a b = mtx a b.
Proof.
  intros Hi Hr Hb. pose proof (Hx i Hi) as Nx.
  destruct (for_loop_inv (fun t m => bytes m /\
      (forall j, (n - 1 - t <= j < n)%nat -> m i j = power i j) /\ forall a b, a <> i -> m a b = mtx a b)
    (fun t mtx => let j := (n - 1 - t)%nat in r ← rows !! i;
      v ← ec_method_mul (mtx i j) (u32 (r + 1)); Some (upd mtx i (j - 1) v))
    (n - 1) 0 (upd mtx i (n - 1) 1)) as (m & Hl & Bm & Hp & Ho).
  - split_and!.
    + intros a b. unfold upd. case_match; [apply byte_1|apply Hb].
    + intros j Hj. replace j with (n - 1)%nat by lia. rewrite upd_eq by apply byte_1.
      unfold power. by rewrite Nat.sub_diag.
    + intros a b Ha. apply upd_ne. by left.
  - intros t m Ht (Bm & Hp & Ho). rewrite Hr. cbn [mbind option_bind].
    replace (x i - 1 + 1) with (x i) by lia. rewrite uwrap_small by (unfold nonzero, in_u in *; lia).
    rewrite ec_method_mul_spec by (apply Bm || by apply nonzero_byte). cbn [mbind option_bind].
    eexists. split; [done|]. rewrite Hp by lia. split_and!.
    + intros a b. unfold upd. case_match; [|apply Bm]. apply (uwrap_range 8). lia.
    + intros j Hj. destruct (decide (j = n - 1 - t - 1)%nat) as [->|].
      * rewrite upd_eq by eauto with field. unfold power.
        replace (n - 1 - (n - 1 - t - 1))%nat with (S (n - 1 - (n - 1 - t))) by lia. cbn [gpow].
        apply gmul_comm; eauto with field.
      * rewrite upd_ne by lia. apply Hp. lia.
    + intros a b Ha. rewrite upd_ne by lia. by apply Ho.
  - exists m. split_and!; [done|done| |done]. intros j Hj. apply Hp. lia.
Qed.

Lemma init_mtx_spec (rows : list Z) :
  (forall a, (a < n)%nat -> rows !! a = Some (x a - 1)) ->
  exists mtx, init_mtx n rows = Some mtx /\ bytes mtx /\
    forall a j, (a < n)%nat -> (j < n)%nat -> mtx a j = power a j.
Proof.
  intros Hr. unfold init_mtx.
  destruct (for_loop_inv (fun k m => bytes m /\
      forall a j, (a < k)%nat -> (j < n)%nat -> m a j = power a j)
    (fun i mtx => for_loop (n - 1) 0 (fun t mtx => let j := (n - 1 - t)%nat in r ← rows !! i;
      v ← ec_method_mul (mtx i j) (u32 (r + 1)); Some (upd mtx i (j - 1) v))
      (upd mtx i (n - 1) 1)) n 0 zero_matrix) as (mtx & Hl & Bm & Hp).
  - split; [intros a b; apply byte_0|lia].
  - intros k m Hk (Bm & Hp).
    destruct (init_row_spec rows k m) as (m' & -> & Bm' & Hp' & Ho); [lia|apply Hr; lia|done|].
    exists m'. split_and!; [done|done|]. intros a j Ha Hj.
    destruct (decide (a = k)) as [->|]; [by apply Hp'|]. rewrite Ho by done. apply Hp; lia.
  - exists mtx. by split_and!.
Qed.

(** The elimination ends with the inverse of the matrix of powers. *)

Lemma inverse_spec (rows : list Z) :
  (forall a, (a < n)%nat -> rows !! a = Some (x a - 1)) ->
  exists mtx0 inv0 mtx inv, init_inv n = Some inv0 /\ init_mtx n rows = Some mtx0 /\
    for_loop n 0 (eliminate n) (mtx0, inv0) = Some (mtx, inv) /\ bytes inv /\
    (forall a, (a < n)%nat -> inv a n = 1) /\
    forall a j, (a < n)%nat -> (j < n)%nat ->
      gsum n (fun b => gmul (inv a b) (power b j)) = delta a j.
Proof.
  intros Hr. destruct init_inv_spec as (inv0 & Hi0 & Bi & Ei & Di).
  destruct (init_mtx_spec rows Hr) as (mtx0 & Hm0 & Bm & Pm).
  destruct (for_loop_inv (fun k '(m, v) => gauss k m v) (eliminate n) n 0 (mtx0, inv0))
    as ([mtx inv] & Hl & G).
  - split; [done|done| |lia| |done].
    + intros a j Ha Hj. rewrite Pm by done. rewrite (gsum_single n a); [|done|].
      * rewrite Di, delta_same by done. apply gmul_1_l. eauto with field.
      * intros b Hb Hn. rewrite Di, delta_ne by done. apply gmul_0_l.
    + intros a b Ha Hb. apply Di; lia.
  - intros k [m v] Hk G. pose proof (pivot_nonzero k m v G ltac:(lia)) as Hp.
    destruct (eliminate_spec n k m v) as (m' & v' & He & Em & Ev); [apply G|apply G|lia|done|].
    exists (m', v'). split; [done|]. eapply gauss_step; (done || lia).
  - exists mtx0, inv0, mtx, inv. split_and!; [done|done|done|apply G|apply G|].
    intros a j Ha Hj. rewrite (g_product _ _ _ G) by done. by apply (g_done _ _ _ G).
Qed.

End inverse.
