(* ===== verification/EcProps.v ===== *)
(** * Correctness of the erasure code

    Any [columns] different fragments give the data back. *)

From Stdlib Require Import ZArith Lia Bool.
From stdpp Require Import base list.
From S2P Require Import Prelude EcField EcGf EcMethod EcInverse.

(** ** Elements of a chunk *)

Definition elem (buf : list Z) (c i : nat) (t : Z) : Z := byte_at buf (64 * c) 8 i t.

Lemma elem_byte buf c i t : byte (elem buf c i t).
Proof. apply byte_at_byte. Qed.

#[export] Hint Resolve elem_byte : field.

Lemma gf_call_spec c out co inp ci :
  byte c -> (64 * (co + 1) <= length out)%nat -> (64 * (ci + 1) <= length inp)%nat ->
  exists out', gf_call c out (64 * co) inp (64 * ci) = Some out' /\ length out' = length out /\
    (forall d i t, d <> co -> (i < 8)%nat -> elem out' d i t = elem out d i t) /\
    forall i t, (i < 8)%nat ->
      elem out' co i t = Z.lxor (gmul c (elem out co i t)) (elem inp ci i t).
Proof.
  intros Hc Ho Hi. destruct (table_entry c Hc) as (f & Hf & Hm). unfold gf_call.
  unfold byte in Hc. rewrite (proj2 (Z.ltb_ge c 0)) by lia. rewrite Hf. cbn [mbind option_bind].
  destruct (Hm out (64 * co)%nat inp (64 * ci)%nat EC_METHOD_WIDTH) as (out' & Hr & Hl & Hs & He);
    [change EC_METHOD_WIDTH with 8%nat; lia..|].
  exists out'. split_and!; [done|done| |exact He].
  intros d i t Hd Hlt. unfold elem, byte_at. f_equal. f_equal. apply rd_ext. intros p Hp.
  apply Hs. change EC_METHOD_WIDTH with 8%nat. lia.
Qed.

Lemma elem_zeros i t : (i < 8)%nat -> elem (repeat 0 chunk_words) 0 i t = 0.
Proof.
  intros Hi. assert (forall j, (j < 64)%nat -> (repeat 0 chunk_words : list Z) !!! j = 0) as Hz.
  { intros j Hj. destruct (lookup_lt_is_Some_2 (repeat 0 chunk_words : list Z) j) as [z Hz].
    - rewrite repeat_length. exact Hj.
    - rewrite (list_lookup_total_correct _ _ _ Hz).
      by apply list_elem_of_lookup_2, list_elem_of_In, repeat_spec in Hz. }
  unfold elem, byte_at, rd, map8. by rewrite !Hz, !Z.bits_0 by lia.
Qed.

(** Two buffers with the same elements are the same. *)

Lemma bits8_inj o o' : bits8 o = bits8 o' -> o = o'.
Proof. intros H. by rewrite <- (proj1 (octet_bits o)), H, (proj1 (octet_bits o')). Qed.

Lemma octet_ext (o o' : octet Z) :
  (forall t, map8 (fun w => Z.testbit w t) o = map8 (fun w => Z.testbit w t) o') -> o = o'.
Proof.
  destruct o as [[[[[[[a b] c] d] e] f] g] h], o' as [[[[[[[a' b'] c'] d'] e'] f'] g'] h'].
  cbn [map8]. intros H.
  repeat (apply pair_eq; [|apply Z.bits_inj'; intros t _; by injection (H t)]).
  apply Z.bits_inj'. intros t _. by injection (H t).
Qed.

Lemma rd_lookup buf off i p :
  (p < 8)%nat -> exists f, f (rd buf off 8 i) = buf !!! (off + 8 * p + i)%nat /\
    forall buf' off', f (rd buf' off' 8 i) = buf' !!! (off' + 8 * p + i)%nat.
Proof.
  intros Hp. unfold rd, map8.
  exists (fun '(a, b, c, d, e, g, h, k) =>
    match p with 0 => a | 1 => b | 2 => c | 3 => d | 4 => e | 5 => g | 6 => h | _ => k end)%nat.
  do 8 (destruct p as [|p]; [done|]). lia.
Qed.

Lemma buffer_ext a b n :
  length a = (64 * n)%nat -> length b = (64 * n)%nat ->
  (forall c i t, (c < n)%nat -> (i < 8)%nat -> elem a c i t = elem b c i t) -> a = b.
Proof.
  intros Ha Hb He. apply list_eq_same_length with (n := (64 * n)%nat); [lia|lia|].
  intros j x y Hj Hx Hy.
  set (c := (j / 64)%nat). set (p := (j mod 64 / 8)%nat). set (i := ((j mod 64) mod 8)%nat).
  assert (j = 64 * c + 8 * p + i /\ p < 8 /\ i < 8 /\ c < n)%nat as (Ej & Hp & Hi & Hc).
  { subst c p i. pose proof (Nat.div_mod_eq j 64). pose proof (Nat.mod_upper_bound j 64).
    pose proof (Nat.div_mod_eq (j mod 64) 8). pose proof (Nat.mod_upper_bound (j mod 64) 8).
    split_and!; [lia|lia|lia|]. apply Nat.Div0.div_lt_upper_bound. lia. }
  assert (rd a (64 * c) 8 i = rd b (64 * c) 8 i) as Hrd.
  { apply octet_ext. intros t. apply bits8_inj. by apply He. }
  destruct (rd_lookup a (64 * c) i p Hp) as (f & Hf & Hf').
  apply list_lookup_total_correct in Hx, Hy. rewrite <- Hx, <- Hy, Ej, <- Hf, <- Hf'. by rewrite Hrd.
Qed.

(** ** Encoding *)

(** The element of a fragment: the polynomial of a stripe at [x]. *)

Definition horner (x : Z) (k : nat) (d : nat -> Z) : Z :=
  gsum k (fun b => gmul (gpow x (k - 1 - b)) (d b)).

Lemma horner_S x k d :
  byte x -> (forall b, byte (d b)) -> horner x (S k) d = Z.lxor (gmul x (horner x k d)) (d k).
Proof.
  intros Hx Hd. unfold horner. cbn [gsum].
  replace (S k - 1 - k)%nat with 0%nat by lia. cbn [gpow]. rewrite gmul_1_l by done. f_equal.
  rewrite gsum_mul by eauto with field. apply gsum_ext. intros b Hb.
  replace (S k - 1 - b)%nat with (S (k - 1 - b)) by lia. cbn [gpow].
  by rewrite gmul_assoc by eauto with field.
Qed.

Lemma encode_stripe_spec columns x inp out base co :
  byte x -> (0 < columns)%nat -> (64 * (co + 1) <= length out)%nat ->
  (64 * (base + columns) <= length inp)%nat ->
  exists out', encode_stripe columns x inp (out, 64 * base, 64 * co)%nat =
      Some (out', 64 * (base + columns), 64 * (co + 1))%nat /\ length out' = length out /\
    (forall d i t, d <> co -> (i < 8)%nat -> elem out' d i t = elem out d i t) /\
    forall i t, (i < 8)%nat ->
      elem out' co i t = horner x columns (fun b => elem inp (base + b) i t).
Proof.
  intros Hx Hc Ho Hi. unfold encode_stripe.
  destruct (gf_call_spec 0 out co inp base) as (o1 & -> & Hl1 & Hs1 & He1); [apply byte_0|lia|lia|].
  cbn [mbind option_bind].
  destruct (for_loop_inv (fun k '(o, ino) => ino = (64 * (base + k))%nat /\ length o = length out /\
      (forall d i t, d <> co -> (i < 8)%nat -> elem o d i t = elem out d i t) /\
      forall i t, (i < 8)%nat -> elem o co i t = horner x k (fun b => elem inp (base + b) i t))
    (fun _ '(out, ino) => out ← gf_call x out (64 * co)%nat inp ino; Some (out, (ino + chunk_words)%nat))
    (columns - 1) 1 (o1, (64 * base + chunk_words)%nat)) as ([o2 ino] & -> & Hino & Hl & Hs & He).
  - change chunk_words with 64%nat. split_and!; [lia|done|done|]. intros i t Hlt.
    rewrite He1, gmul_0_l, Z.lxor_0_l by done. unfold horner. cbn [gsum Nat.sub gpow].
    rewrite gmul_1_l, Z.lxor_0_l by apply elem_byte. by rewrite Nat.add_0_r.
  - intros k [o ino] Hk (-> & Hl & Hs & He).
    destruct (gf_call_spec x o co inp (base + k)) as (o' & -> & Hl' & Hs' & He'); [done|lia|lia|].
    cbn [mbind option_bind]. eexists. split; [done|]. change chunk_words with 64%nat.
    split_and!; [lia|congruence| |].
    + intros d i t Hd Hlt. by rewrite Hs', Hs.
    + intros i t Hlt. rewrite He', He by done. rewrite horner_S by eauto with field. done.
  - cbn [mbind option_bind]. exists o2. change chunk_words with 64%nat.
    replace (1 + (columns - 1))%nat with columns in * by lia.
    split_and!; [f_equal; f_equal; [f_equal|]; lia|done|done|done].
Qed.

Lemma encode_loop_spec columns x inp out s :
  byte x -> (0 < columns)%nat -> length inp = (64 * (columns * s))%nat -> length out = (64 * s)%nat ->
  exists out' ino outo, for_loop s 0 (fun _ => encode_stripe columns x inp) (out, 0, 0)%nat =
      Some (out', ino, outo) /\ length out' = length out /\
    forall j i t, (j < s)%nat -> (i < 8)%nat ->
      elem out' j i t = horner x columns (fun b => elem inp (j * columns + b) i t).
Proof.
  intros Hx Hc Hi Ho.
  destruct (for_loop_inv (fun k '(o, ino, outo) => ino = (64 * (k * columns))%nat /\
      outo = (64 * k)%nat /\ length o = length out /\
      forall j i t, (j < k)%nat -> (i < 8)%nat ->
        elem o j i t = horner x columns (fun b => elem inp (j * columns + b) i t))
    (fun _ => encode_stripe columns x inp) s 0 (out, 0, 0)%nat) as ([[o ino] outo] & Hl & _ & _ & Hlen & He).
  - split_and!; try lia; done.
  - intros k [[o ino] outo] Hk (-> & -> & Hl & He).
    destruct (encode_stripe_spec columns x inp o (k * columns) k) as (o' & -> & Hl' & Hs' & He');
      [done|done|nia|nia|].
    eexists. split; [done|]. split_and!; [nia|lia|congruence|]. intros j i t Hj Hlt.
    destruct (decide (j = k)) as [->|]; [by apply He'|]. rewrite Hs' by done. apply He; lia.
  - by exists o, ino, outo.
Qed.

Lemma encode_spec columns x row inp out s :
  (0 < columns <= 16)%nat -> nonzero x -> row = x - 1 ->
  length inp = (64 * (columns * s))%nat -> length out = (64 * s)%nat -> Z.of_nat s < 2 ^ 32 ->
  exists frag, ec_method_encode (512 * Z.of_nat (columns * s)) (Z.of_nat columns) row inp out =
      Some (512 * Z.of_nat s, frag) /\ length frag = (64 * s)%nat /\
    forall j i t, (j < s)%nat -> (i < 8)%nat ->
      elem frag j i t = horner x columns (fun b => elem inp (j * columns + b) i t).
Proof.
  intros Hc Hx -> Hi Ho Hs. unfold ec_method_encode. unfold nonzero in Hx.
  change EC_METHOD_CHUNK_SIZE with 512. rewrite (uwrap_small 32 (512 * _)) by (unfold in_u; lia).
  rewrite (proj2 (Z.eqb_neq _ _)) by lia.
  rewrite Nat2Z.inj_mul. replace (512 * (Z.of_nat columns * Z.of_nat s)) with
    (Z.of_nat s * (512 * Z.of_nat columns)) by lia.
  rewrite Z.div_mul by lia. rewrite (proj2 (Z.leb_gt _ _)) by lia.
  replace (x - 1 + 1) with x by lia. rewrite !uwrap_small by (unfold in_u; lia).
  rewrite !Nat2Z.id.
  destruct (encode_loop_spec columns x inp out s) as (o & ino & outo & -> & Hl & He);
    [unfold byte; lia|lia|done|done|].
  cbn [mbind option_bind]. exists o. split_and!; [|lia|done]. f_equal. f_equal. lia.
Qed.

(** ** Decoding *)

Lemma skip_zeros_spec n inv i j :
  (j <= n)%nat -> inv i n = 1 ->
  exists k, skip_zeros (S n - j) inv i j = Some k /\ (j <= k <= n)%nat /\ inv i k <> 0 /\
    forall b, (j <= b < k)%nat -> inv i b = 0.
Proof.
  intros Hj Hn. remember (n - j)%nat as d eqn:Hd. revert j Hj Hd.
  induction d as [|d IH]; intros j Hj Hd; replace (S n - j)%nat with (S (n - j)) by lia;
    cbn [skip_zeros]; destruct (Z.eqb_spec (inv i j) 0) as [H0|H0].
  - replace j with n in H0 by lia. lia.
  - exists j. split_and!; (done || lia).
  - destruct (IH (S j)) as (k & Hk & Hr & Hv & Hz); [lia|lia|].
    replace (S n - S j)%nat with (n - j)%nat in Hk by lia. exists k. split_and!; [done|lia|lia|done|].
    intros b Hb. destruct (decide (b = j)) as [->|]; [done|]. apply Hz. lia.
  - exists j. split_and!; (done || lia).
Qed.

Section decode.
Variable n : nat.
Variable inv : matrix.
Variable inp : list (list Z).
Variable s : nat.
Hypothesis Hinv : bytes inv.
Hypothesis Hend : forall a, (a < n)%nat -> inv a n = 1.
Hypothesis Hinp : length inp = n.
Hypothesis Hlen : forall b frag, inp !! b = Some frag -> length frag = (64 * s)%nat.

Definition frag (b : nat) : list Z := default [] (inp !! b).

Lemma frag_lookup b : (b < n)%nat -> inp !! b = Some (frag b) /\ length (frag b) = (64 * s)%nat.
Proof.
  intros Hb. unfold frag. destruct (lookup_lt_is_Some_2 inp b) as [f Hf]; [lia|]. rewrite Hf.
  split; [done|]. by apply Hlen in Hf.
Qed.

(** The part of the sum for row [i] over the fragments below [j]. *)

Definition row_sum (i c j q : nat) (t : Z) : Z :=
  gsum j (fun b => gmul (inv i b) (elem (frag b) c q t)).

Lemma row_sum_skip i c j k q t :
  (j <= k)%nat -> (forall b, (j <= b < k)%nat -> inv i b = 0) -> row_sum i c k q t = row_sum i c j q t.
Proof.
  induction k as [|k IH]; intros Hk Hz; [by replace j with 0%nat by lia|].
  destruct (decide (j = S k)) as [->|]; [done|]. unfold row_sum in *. cbn [gsum].
  rewrite (Hz k), gmul_0_l, Z.lxor_0_r by lia. apply IH; [lia|]. intros b Hb. apply Hz. lia.
Qed.

Lemma decode_chunk_spec fuel i c co j last out :
  (i < n)%nat -> (c < s)%nat -> (64 * (co + 1) <= length out)%nat -> (j < n)%nat ->
  (n - j <= fuel)%nat -> byte last ->
  (forall q t, (q < 8)%nat -> gmul last (elem out co q t) = row_sum i c j q t) ->
  exists out' last', decode_chunk fuel n inv i inp (64 * c) (64 * co) j last out = Some (out', last') /\
    length out' = length out /\ byte last' /\
    (forall d q t, d <> co -> (q < 8)%nat -> elem out' d q t = elem out d q t) /\
    forall q t, (q < 8)%nat -> gmul last' (elem out' co q t) = row_sum i c n q t.
Proof.
  revert j last out. induction fuel as [|fuel IH]; intros j last out Hi Hc Ho Hj Hf Hl Hs; [lia|].
  cbn [decode_chunk].
  destruct (skip_zeros_spec n inv i j) as (k & -> & Hk & Hnz & Hz); [lia|by apply Hend|].
  cbn [mbind option_bind]. destruct (Nat.ltb_spec k n) as [Hlt|Hge].
  - assert (nonzero (inv i k)) as Nk by (destruct (byte_cases _ (Hinv i k)); done).
    destruct (ginv_spec _ Nk) as [Ni _]. apply nonzero_byte in Ni.
    rewrite ec_method_div_spec by done. cbn [mbind option_bind].
    destruct (frag_lookup k Hlt) as [-> Hfl]. cbn [mbind option_bind].
    destruct (gf_call_spec (gmul last (ginv (inv i k))) out co (frag k) c)
      as (o & -> & Ho' & Hs' & He'); [eauto with field|lia|lia|]. cbn [mbind option_bind].
    assert (forall q t, (q < 8)%nat -> gmul (inv i k) (elem o co q t) = row_sum i c (S k) q t) as Hnext.
    { intros q t Hq. rewrite He' by done. rewrite gmul_lxor_r by eauto with field.
      unfold row_sum at 1. cbn [gsum]. f_equal. fold (row_sum i c k q t).
      rewrite (row_sum_skip i c j k) by (done || lia). rewrite <- Hs by done.
      rewrite (gmul_comm (inv i k)), <- gmul_assoc by eauto with field.
      rewrite (gmul_comm (elem out co q t)), gmul_assoc by eauto with field.
      rewrite gmul_cancel by done. done. }
    destruct (Nat.ltb_spec (S k) n) as [Hlt'|Hge'].
    + destruct (IH (S k) (inv i k) o) as (o' & last' & Hr & Hl' & Hb' & Hother & Hsum);
        [done|done|lia|done|lia|apply Hinv|done|].
      exists o', last'. split_and!; [done|congruence|done| |done].
      intros d q t Hd Hq. by rewrite Hother, Hs'.
    + exists o, (inv i k). split_and!; [done|done|apply Hinv|done|]. replace n with (S k) by lia. done.
  - exists out, last. split_and!; try done. intros q t Hq. replace n with k by lia.
    rewrite (row_sum_skip i c j k) by (done || lia). by apply Hs.
Qed.

Lemma decode_stripe_spec c out :
  (c < s)%nat -> length out = (64 * (n * s))%nat ->
  exists out', decode_stripe n inv inp (out, (64 * (c * n))%nat, 512 * Z.of_nat c) =
      Some (out', (64 * ((c + 1) * n))%nat, u32 (512 * (Z.of_nat c + 1))) /\ length out' = length out /\
    (forall d q t, (d < c * n)%nat -> (q < 8)%nat -> elem out' d q t = elem out d q t) /\
    forall i q t, (i < n)%nat -> (q < 8)%nat -> elem out' (c * n + i) q t = row_sum i c n q t.
Proof.
  intros Hc Ho. unfold decode_stripe.
  replace (Z.to_nat (512 * Z.of_nat c / EC_GF_WORD_SIZE)) with (64 * c)%nat
    by (change EC_GF_WORD_SIZE with 8; replace (512 * Z.of_nat c) with (64 * Z.of_nat c * 8) by lia;
        rewrite Z.div_mul by lia; lia).
  destruct (for_loop_inv (fun k '(o, outo) => outo = (64 * (c * n + k))%nat /\ length o = length out /\
      (forall d q t, (d < c * n)%nat -> (q < 8)%nat -> elem o d q t = elem out d q t) /\
      forall i q t, (i < k)%nat -> (q < 8)%nat -> elem o (c * n + i) q t = row_sum i c n q t)
    (fun i '(out, outo) => '(out, last) ← decode_chunk n n inv i inp (64 * c) outo 0 0 out;
      out ← gf_call last out outo (repeat 0 chunk_words) 0;
      Some (out, (outo + chunk_words)%nat)) n 0 (out, (64 * (c * n))%nat))
    as ([o outo] & -> & -> & Hl & Hother & Hsum).
  - split_and!; [lia|done|done|lia].
  - intros k [o outo] Hk (-> & Hl & Hother & Hsum).
    destruct (decode_chunk_spec n k c (c * n + k) 0 0 o) as (o1 & last & -> & Hl1 & Hb1 & Hs1 & He1);
      [lia|done|nia|lia|lia|apply byte_0|intros; apply gmul_0_l|].
    cbn [mbind option_bind].
    destruct (gf_call_spec last o1 (c * n + k) (repeat 0 chunk_words) 0) as (o2 & Hg & Hl2 & Hs2 & He2);
      [done|nia|by rewrite repeat_length|].
    rewrite Nat.mul_0_r in Hg. rewrite Hg. cbn [mbind option_bind]. eexists. split; [done|].
    change chunk_words with 64%nat. split_and!; [lia|congruence| |].
    + intros d q t Hd Hq. rewrite Hs2, Hs1 by (done || lia). by apply Hother.
    + intros i q t Hi Hq. destruct (decide (i = k)) as [->|].
      * rewrite He2, (elem_zeros q t Hq), Z.lxor_0_r by done. by apply He1.
      * rewrite Hs2, Hs1 by (done || lia). apply Hsum; (done || lia).
  - cbn [mbind option_bind]. exists o. change chunk_words with 64%nat.
    split_and!; [|done|done|done]. change EC_METHOD_CHUNK_SIZE with 512.
    f_equal; f_equal; [f_equal; lia|f_equal; lia].
Qed.

Lemma decode_loop_spec out :
  length out = (64 * (n * s))%nat -> Z.of_nat s <= 2 ^ 23 ->
  exists out' outo off, for_loop s 0 (fun _ => decode_stripe n inv inp) (out, 0%nat, 0) =
      Some (out', outo, off) /\ length out' = length out /\
    forall c i q t, (c < s)%nat -> (i < n)%nat -> (q < 8)%nat ->
      elem out' (c * n + i) q t = row_sum i c n q t.
Proof.
  intros Ho Hsz.
  destruct (for_loop_inv (fun k '(o, outo, off) => outo = (64 * (k * n))%nat /\ ((k < s)%nat -> off = 512 * Z.of_nat k) /\
      length o = length out /\
      forall c i q t, (c < k)%nat -> (i < n)%nat -> (q < 8)%nat ->
        elem o (c * n + i) q t = row_sum i c n q t)
    (fun _ => decode_stripe n inv inp) s 0 (out, 0%nat, 0))
    as ([[o outo] off] & Hr & _ & _ & Hl & Hsum).
  - split_and!; (done || lia).
  - intros k [[o outo] off] Hk (-> & Hoff & Hl & Hsum).
    rewrite Hoff by lia. destruct (decode_stripe_spec k o) as (o' & -> & Hl' & Hother & He); [lia|lia|].
    eexists. split; [done|]. split_and!; [lia| |congruence|].
    { intros Hks. rewrite uwrap_small by (unfold in_u; lia). lia. }
    intros c i q t Hc Hi Hq.
    destruct (decide (c = k)) as [->|]; [by apply He|]. rewrite Hother by nia. apply Hsum; (done || lia).
  - by exists o, outo, off.
Qed.

End decode.

(** ** The round trip *)

(** What the fragments of the rows hold, and that encoding gives them. *)

Definition encodes (columns s : nat) (data buf : list Z) (r : Z) (f : list Z) : Prop :=
  ec_method_encode (512 * Z.of_nat (columns * s)) (Z.of_nat columns) r data buf
    = Some (512 * Z.of_nat s, f) /\ length f = (64 * s)%nat /\
  forall j i t, (j < s)%nat -> (i < 8)%nat ->
    elem f j i t = horner (r + 1) columns (fun b => elem data (j * columns + b) i t).

Lemma encodes_all columns s data buf rows :
  (0 < columns <= 16)%nat -> Z.of_nat s < 2 ^ 32 ->
  length data = (64 * (columns * s))%nat -> length buf = (64 * s)%nat ->
  Forall (fun r => 0 <= r < 255) rows ->
  exists frags, Forall2 (encodes columns s data buf) rows frags.
Proof.
  intros Hc Hs Hd Hb Hr. induction Hr as [|r rows Hr _ [frags IH]]; [by exists []|].
  destruct (encode_spec columns (r + 1) r data buf s) as (f & Hf);
    [done|unfold nonzero; lia|lia|done|done|done|]. exists (f :: frags). by constructor.
Qed.

Section roundtrip.
Variable columns s : nat.
Variable data buf : list Z.
Variable rows : list Z.
Variable frags : list (list Z).
Hypothesis Hrows : length rows = columns.
Hypothesis Hf : Forall2 (encodes columns s data buf) rows frags.
Hypothesis Hrange : Forall (fun r => 0 <= r < 255) rows.

(** The point of fragment [a]. *)

Definition point (a : nat) : Z := default 0 (rows !! a) + 1.

Lemma point_lookup a : (a < columns)%nat -> rows !! a = Some (point a - 1).
Proof.
  intros Ha. unfold point. destruct (lookup_lt_is_Some_2 rows a) as [r Hr]; [lia|]. rewrite Hr. cbn.
  f_equal. lia.
Qed.

Lemma point_nonzero a : (a < columns)%nat -> nonzero (point a).
Proof.
  intros Ha. pose proof (Forall_lookup_1 _ _ _ _ Hrange (point_lookup a Ha)) as H. cbn in H.
  unfold nonzero. lia.
Qed.

Lemma frags_length : length frags = columns.
Proof. by rewrite <- (Forall2_length _ _ _ Hf). Qed.

Lemma frags_lookup b f : frags !! b = Some f -> length f = (64 * s)%nat.
Proof. intros Hb. destruct (Forall2_lookup_r _ _ _ _ _ Hf Hb) as (r & _ & _ & Hlen & _). done. Qed.

Lemma frag_elem b c q t :
  (b < columns)%nat -> (c < s)%nat -> (q < 8)%nat ->
  elem (frag frags b) c q t =
  gsum columns (fun j => gmul (power columns point b j) (elem data (c * columns + j) q t)).
Proof.
  intros Hb Hc Hq.
  destruct (frag_lookup columns frags s frags_length frags_lookup b Hb) as [Hfb _].
  destruct (Forall2_lookup_r _ _ _ _ _ Hf Hfb) as (r & Hrb & _ & _ & He).
  rewrite He by done. rewrite (point_lookup b Hb) in Hrb. injection Hrb as <-.
  by replace (point b - 1 + 1) with (point b) by lia.
Qed.

(** With the inverse, the sum for row [i] is the data. *)

Lemma row_sum_data inv i c q t :
  bytes inv ->
  (forall a j, (a < columns)%nat -> (j < columns)%nat ->
    gsum columns (fun b => gmul (inv a b) (power columns point b j)) = delta a j) ->
  (i < columns)%nat -> (c < s)%nat -> (q < 8)%nat ->
  row_sum inv frags i c columns q t = elem data (c * columns + i) q t.
Proof.
  intros Bi Hprod Hi Hc Hq. unfold row_sum.
  assert (forall b j, (b < columns)%nat -> byte (power columns point b j)) as Hpb.
  { intros b j Hb. apply gpow_byte, nonzero_byte, point_nonzero, Hb. }
  rewrite (gsum_ext _ _ (fun b => gsum columns (fun j =>
    gmul (elem data (c * columns + j) q t) (gmul (inv i b) (power columns point b j))))).
  - rewrite gsum_swap. rewrite (gsum_ext _ _ (fun j => gmul (elem data (c * columns + j) q t) (delta i j))).
    + rewrite (gsum_single columns i); [|done|].
      * rewrite delta_same. apply gmul_1_r, elem_byte.
      * intros j Hj Hn. rewrite delta_ne by done. apply gmul_0_r, elem_byte.
    + intros j Hj. rewrite <- gsum_mul by eauto with field. by rewrite Hprod.
  - intros b Hb. rewrite frag_elem by done. rewrite gsum_mul by eauto with field.
    apply gsum_ext. intros j Hj. rewrite gmul_assoc by eauto with field.
    apply gmul_comm; eauto with field.
Qed.

Lemma decode_encoded out :
  (0 < columns <= 16)%nat -> Z.of_nat s <= 2 ^ 23 -> NoDup rows ->
  length data = (64 * (columns * s))%nat -> length out = (64 * (columns * s))%nat ->
  ec_method_decode (512 * Z.of_nat s) (Z.of_nat columns) rows frags out
    = Some (512 * Z.of_nat (columns * s), data).
Proof.
  intros Hc Hs Hnd Hd Ho.
  destruct (inverse_spec columns point point_nonzero) with (rows := rows)
    as (mtx0 & inv0 & mtx & inv & Hi0 & Hm0 & Hel & Bi & Hend & Hprod); [|exact point_lookup|].
  { intros a b Ha Hb E. eapply (NoDup_lookup rows); [done|by apply point_lookup|].
    rewrite E. by apply point_lookup. }
  unfold ec_method_decode. change EC_METHOD_CHUNK_SIZE with 512.
  rewrite (Z.mul_comm 512 (Z.of_nat s)), Z.div_mul by lia. rewrite !Nat2Z.id.
  change EC_METHOD_MAX_FRAGMENTS with 16.
  rewrite (proj2 (Z.ltb_ge 16 _)), (proj2 (Z.leb_gt (2 ^ 32) _)) by lia.
  cbn [orb]. rewrite Hi0. cbn [mbind option_bind]. rewrite Hm0. cbn [mbind option_bind].
  rewrite Hel. cbn [mbind option_bind].
  destruct (decode_loop_spec columns inv frags s Bi Hend frags_length frags_lookup out)
    as (out' & outo & off & -> & Hl & Hsum); [done..|].
  cbn [mbind option_bind]. rewrite uwrap_small by (unfold in_u; nia). f_equal.
  f_equal; [lia|]. apply (buffer_ext out' data (columns * s)); [congruence|done|].
  intros c q t Hc' Hq.
  assert (c = c / columns * columns + c mod columns /\ c mod columns < columns /\ c / columns < s)%nat
    as (Ec & Hi & Hcs).
  { pose proof (Nat.div_mod_eq c columns). pose proof (Nat.mod_upper_bound c columns).
    split_and!; [lia|lia|]. by apply Nat.Div0.div_lt_upper_bound. }
  rewrite Ec, Hsum by done. by apply row_sum_data.
Qed.

End roundtrip.

(** C4. Any [columns] fragments with different numbers give the data back: for
    every buffer of whole stripes (at most 2^23, because the decoder counts the
    bytes of a fragment in 32 bits), encoding returns for each of the chosen
    rows (0 to 254, all different), and decoding these fragments returns and
    gives exactly the data, whatever the output buffers held before. No pivot
    of the elimination is zero and no access is out of bounds. *)
Theorem ec_any_fragments (columns s : nat) (data buf out : list Z) (rows : list Z) :
  (0 < columns <= 16)%nat -> Z.of_nat s <= 2 ^ 23 ->
  length data = (64 * (columns * s))%nat -> length buf = (64 * s)%nat ->
  length out = (64 * (columns * s))%nat ->
  length rows = columns -> NoDup rows -> Forall (fun r => 0 <= r < 255) rows ->
  exists frags,
    Forall2 (fun r f => ec_method_encode (512 * Z.of_nat (columns * s)) (Z.of_nat columns) r data buf
      = Some (512 * Z.of_nat s, f)) rows frags /\
    ec_method_decode (512 * Z.of_nat s) (Z.of_nat columns) rows frags out
      = Some (512 * Z.of_nat (columns * s), data).
Proof.
  intros Hc Hs Hd Hbuf Ho Hrows Hnd Hr.
  destruct (encodes_all columns s data buf rows) as [frags Hf]; [done|lia|done..|].
  exists frags. split; [eapply Forall2_impl; [exact Hf|]; by intros r f (He & _)|].
  by eapply decode_encoded.
Qed.

(** One stripe of three chunks, read from fragments 7, 200 and 31. *)

Lemma ec_any_fragments_witness :
  exists frags,
    Forall2 (fun r f => ec_method_encode 1536 3 r (Z.of_nat <$> seq 0 192) (repeat 0 64)
      = Some (512, f)) [7; 200; 31] frags /\
    ec_method_decode 512 3 [7; 200; 31] frags (repeat 5 192) = Some (1536, Z.of_nat <$> seq 0 192).
Proof.
  apply (ec_any_fragments 3 1 (Z.of_nat <$> seq 0 192) (repeat 0 64) (repeat 5 192) [7; 200; 31]);
    [lia|lia|reflexivity..| |].
  - apply (bool_decide_eq_true_1 (NoDup _)). reflexivity.
  - repeat constructor; discriminate.
Defined.

(** Multiplication and division through the tables that
    ec_method_initialize builds: initialization stays inside the tables, the
    product of two elements is that of polynomials modulo EC_GF_MOD, and
    dividing a product by a nonzero factor gives the other one back. *)
Theorem ec_method_tables (a b : Z) :
  0 <= a < 256 -> 0 < b < 256 ->
  ec_method_initialize = Some tables /\ ec_method_mul a b = Some (gmul a b) /\
  (q ← ec_method_div a b; ec_method_mul q b) = Some a /\
  (p ← ec_method_mul a b; ec_method_div p b) = Some a.
Proof.
  intros Ha Hb. assert (byte a) as Ba by done. assert (nonzero b) as Nb by (unfold nonzero; lia).
  destruct (ginv_spec b Nb) as [Ni Hi]. pose proof (nonzero_byte _ Nb). apply nonzero_byte in Ni.
  split; [apply initialize_tables|].
  rewrite ec_method_mul_spec, ec_method_div_spec by done. cbn [mbind option_bind].
  rewrite ec_method_mul_spec, ec_method_div_spec by eauto with field.
  split_and!; [done|by rewrite gmul_cancel|].
  rewrite <- gmul_assoc, (gmul_comm b), Hi, gmul_1_r by done. done.
Qed.

Lemma ec_method_tables_witness :
  ec_method_initialize = Some tables /\ ec_method_mul 200 3 = Some (gmul 200 3) /\
  (q ← ec_method_div 200 3; ec_method_mul q 3) = Some 200 /\
  (p ← ec_method_mul 200 3; ec_method_div p 3) = Some 200.
Proof. apply (ec_method_tables 200 3); lia. Defined.
