(* ===== verification/Locks.v ===== *)
(** * Byte-range locks

    The fcntl locks of xlators/features/locks/src: common.c (granting,
    splitting and merging of locks), reservelk.c, and the entry points of
    posix.c that use them (pl_lk, pl_flush, pl_release, reads and writes under
    mandatory locking). Every critical section of the mutex of the inode is a
    function of the state of the inode; an entry point is the sequence of its
    critical sections, and LocksRun.v interleaves the ones of different calls.

    A pointer to a client, to a frame or to an open file is a number; a lock
    owner is the list of its bytes. Allocations succeed. *)

From Stdlib Require Import ZArith Lia Bool.
From stdpp Require Import base list gmap.
From S2P Require Import Prelude.

Definition LLONG_MAX : Z := 2 ^ 63 - 1.
Definition EAGAIN : Z := 11.
Definition EINVAL : Z := 22.
Definition ENOLCK : Z := 37.

(** ** Data *)

(** The type of a lock; [GF_LK_EOL] ends the list of the locks of a file. *)

Inductive lk_type := F_RDLCK | F_WRLCK | F_UNLCK | GF_LK_EOL.

#[export] Instance lk_type_eq : EqDecision lk_type.
Proof. solve_decision. Defined.

Definition is_type (t t' : lk_type) : bool := bool_decide (t = t').

Record gf_flock := {
  l_type : lk_type; l_start : Z; l_len : Z; l_pid : Z; l_owner : list Z
}.

Definition no_flock : gf_flock :=
  {| l_type := F_RDLCK; l_start := 0; l_len := 0; l_pid := 0; l_owner := [] |}.

Record posix_lock := {
  fl_type : lk_type; fl_start : Z; fl_end : Z; blocked : bool; user_flock : gf_flock;
  fd_num : Z; frame : option Z; client : Z; owner : list Z; client_pid : Z
}.

(** A waiting read or write: the region, whether it reads, and its stub. *)

Record pl_rw_req := { region : posix_lock; rw_read : bool; stub : Z }.

Record pl_inode := {
  ext_list : list posix_lock;
  rw_list : list pl_rw_req;
  reservelk_list : list posix_lock;
  blocked_reservelks : list posix_lock;
  blocked_calls : list posix_lock;
  fdctx : gmap Z (list posix_lock)
}.

(** What a call does to the world: it answers a lock request or resumes a
    waiting read or write. *)

Inductive event :=
| Unwind (frame : option Z) (op_ret op_errno : Z) (flock : gf_flock)
| Resume (stub : Z).

(** ** Updates of fields *)

Definition set_blocked (b : bool) (l : posix_lock) : posix_lock :=
  {| fl_type := fl_type l; fl_start := fl_start l; fl_end := fl_end l; blocked := b;
     user_flock := user_flock l; fd_num := fd_num l; frame := frame l; client := client l;
     owner := owner l; client_pid := client_pid l |}.

Definition set_range (s e : Z) (l : posix_lock) : posix_lock :=
  {| fl_type := fl_type l; fl_start := s; fl_end := e; blocked := blocked l;
     user_flock := user_flock l; fd_num := fd_num l; frame := frame l; client := client l;
     owner := owner l; client_pid := client_pid l |}.

Definition set_type (t : lk_type) (l : posix_lock) : posix_lock :=
  {| fl_type := t; fl_start := fl_start l; fl_end := fl_end l; blocked := blocked l;
     user_flock := user_flock l; fd_num := fd_num l; frame := frame l; client := client l;
     owner := owner l; client_pid := client_pid l |}.

Definition set_user (f : gf_flock) (l : posix_lock) : posix_lock :=
  {| fl_type := fl_type l; fl_start := fl_start l; fl_end := fl_end l; blocked := blocked l;
     user_flock := f; fd_num := fd_num l; frame := frame l; client := client l;
     owner := owner l; client_pid := client_pid l |}.

Definition set_frame (f : option Z) (l : posix_lock) : posix_lock :=
  {| fl_type := fl_type l; fl_start := fl_start l; fl_end := fl_end l; blocked := blocked l;
     user_flock := user_flock l; fd_num := fd_num l; frame := f; client := client l;
     owner := owner l; client_pid := client_pid l |}.

Definition set_ext (l : list posix_lock) (p : pl_inode) : pl_inode :=
  {| ext_list := l; rw_list := rw_list p; reservelk_list := reservelk_list p;
     blocked_reservelks := blocked_reservelks p; blocked_calls := blocked_calls p;
     fdctx := fdctx p |}.

Definition set_rw (l : list pl_rw_req) (p : pl_inode) : pl_inode :=
  {| ext_list := ext_list p; rw_list := l; reservelk_list := reservelk_list p;
     blocked_reservelks := blocked_reservelks p; blocked_calls := blocked_calls p;
     fdctx := fdctx p |}.

Definition set_reserve (l b : list posix_lock) (p : pl_inode) : pl_inode :=
  {| ext_list := ext_list p; rw_list := rw_list p; reservelk_list := l;
     blocked_reservelks := b; blocked_calls := blocked_calls p; fdctx := fdctx p |}.

Definition set_calls (l : list posix_lock) (p : pl_inode) : pl_inode :=
  {| ext_list := ext_list p; rw_list := rw_list p; reservelk_list := reservelk_list p;
     blocked_reservelks := blocked_reservelks p; blocked_calls := l; fdctx := fdctx p |}.

Definition set_fdctx (c : gmap Z (list posix_lock)) (p : pl_inode) : pl_inode :=
  {| ext_list := ext_list p; rw_list := rw_list p; reservelk_list := reservelk_list p;
     blocked_reservelks := blocked_reservelks p; blocked_calls := blocked_calls p; fdctx := c |}.

(** ** Locks *)

(** The end of the range is computed in two's complement. *)

Definition new_posix_lock (flock : gf_flock) (cl : Z) (pid : Z) (own : list Z) (fd : Z)
    : posix_lock :=
  {| fl_type := l_type flock; fl_start := l_start flock;
     fl_end := if l_len flock =? 0 then LLONG_MAX else i64 (l_start flock + l_len flock - 1);
     blocked := false; user_flock := no_flock; fd_num := fd; frame := None;
     client := cl; owner := own; client_pid := pid |}.

Definition posix_lock_to_flock (lock : posix_lock) : gf_flock :=
  {| l_pid := client_pid lock; l_type := fl_type lock; l_start := fl_start lock;
     l_owner := owner lock;
     l_len := if fl_end lock =? LLONG_MAX then 0 else i64 (fl_end lock - fl_start lock + 1) |}.

Definition locks_overlap (l1 l2 : posix_lock) : bool :=
  (fl_start l2 <=? fl_end l1) && (fl_start l1 <=? fl_end l2).

Definition same_owner (l1 l2 : posix_lock) : bool :=
  bool_decide (owner l1 = owner l2) && (client l1 =? client l2).

Definition __insert_lock (ext : list posix_lock) (lock : posix_lock) : list posix_lock :=
  ext ++ [lock].

Definition __delete_unlck_locks (ext : list posix_lock) : list posix_lock :=
  List.filter (fun l => negb (is_type (fl_type l) F_UNLCK)) ext.

(** The hull of two locks; everything but the range is zero. *)

Definition add_locks (l1 l2 : posix_lock) : posix_lock :=
  {| fl_type := F_RDLCK; fl_start := Z.min (fl_start l1) (fl_start l2);
     fl_end := Z.max (fl_end l1) (fl_end l2); blocked := false; user_flock := no_flock;
     fd_num := 0; frame := None; client := 0; owner := []; client_pid := 0 |}.

(** [sum] with the identity of [l]. *)

Definition as_of (l sum : posix_lock) : posix_lock :=
  {| fl_type := fl_type l; fl_start := fl_start sum; fl_end := fl_end sum;
     blocked := blocked sum; user_flock := user_flock sum; fd_num := fd_num l;
     frame := frame sum; client := client l; owner := owner l; client_pid := client_pid l |}.

(** The non-null entries of the three. The last case fails an assertion. *)

Definition subtract_locks (big small : posix_lock) : list posix_lock :=
  if (fl_start big =? fl_start small) && (fl_end big =? fl_end small) then
    [set_type (fl_type small) big]
  else if (fl_start big <? fl_start small) && (fl_end small <? fl_end big) then
    [set_range (fl_start big) (i64 (fl_start small - 1)) big; small;
     set_range (i64 (fl_end small + 1)) (fl_end big) big]
  else if fl_start small =? fl_start big then
    [set_range (i64 (fl_end small + 1)) (fl_end big) big; small]
  else if fl_end small =? fl_end big then
    [set_range (fl_start big) (i64 (fl_start small - 1)) big; small]
  else [].

(** *** Searching the list *)

Definition first_conflicting_overlap (ext : list posix_lock) (lock : posix_lock)
    : option posix_lock :=
  List.find (fun l => negb (blocked l) && locks_overlap l lock && negb (same_owner l lock)
    && (is_type (fl_type l) F_WRLCK || is_type (fl_type lock) F_WRLCK)) ext.

Definition first_overlap (ext : list posix_lock) (lock : posix_lock) : option posix_lock :=
  List.find (fun l => negb (blocked l) && locks_overlap l lock) ext.

(** A granted lock of another owner that excludes [lock]. *)

Definition excludes (lock l : posix_lock) : bool :=
  negb (blocked l) && locks_overlap lock l
  && ((is_type (fl_type l) F_WRLCK || is_type (fl_type lock) F_WRLCK)
      && negb (is_type (fl_type lock) F_UNLCK) && negb (same_owner l lock)).

Definition __is_lock_grantable (ext : list posix_lock) (lock : posix_lock) : bool :=
  negb (existsb (excludes lock) ext).

(** *** Inserting a lock *)

(** Where the loop of [__insert_and_merge] stops: at a lock of the same owner,
    at a read lock of another owner that is shared, or not at all. *)

Inductive scan :=
| Same (pre : list posix_lock) (conf : posix_lock) (post : list posix_lock)
| Shared
| Clear.

Fixpoint scan_list (lock : posix_lock) (pre l : list posix_lock) : scan :=
  match l with
  | [] => Clear
  | conf :: post =>
      if blocked conf || negb (locks_overlap conf lock) then scan_list lock (pre ++ [conf]) post
      else if same_owner conf lock then Same pre conf post
      else if is_type (fl_type lock) F_UNLCK then scan_list lock (pre ++ [conf]) post
      else if is_type (fl_type conf) F_RDLCK && is_type (fl_type lock) F_RDLCK then Shared
      else scan_list lock (pre ++ [conf]) post
  end.

(** A lock with the range that it has put into its [user_flock]. *)

Definition refresh (l : posix_lock) : posix_lock := set_user (posix_lock_to_flock l) l.

Fixpoint insert_and_merge (fuel : nat) (ext : list posix_lock) (lock : posix_lock)
    : option (list posix_lock) :=
  match fuel with
  | O => None
  | S fuel' =>
      match scan_list lock [] ext with
      | Shared => Some (__insert_lock ext lock)
      | Clear =>
          Some (if is_type (fl_type lock) F_UNLCK then ext else __insert_lock ext lock)
      | Same pre conf post =>
          if is_type (fl_type conf) (fl_type lock) then
            insert_and_merge fuel' (pre ++ post) (refresh (as_of lock (add_locks lock conf)))
          else
            let sum := as_of conf (add_locks lock conf) in
            ext' ← foldl (fun acc l => e ← acc; insert_and_merge fuel' e (refresh l))
                     (Some (pre ++ post)) (subtract_locks sum lock);
            Some (__delete_unlck_locks ext')
      end
  end.

(** The recursion is bounded by the number of pairs of a lock and an end of a
    lock: see [insert_and_merge_returns]. *)

Definition merge_fuel (ext : list posix_lock) : nat :=
  S (S (length ext) * (2 * S (length ext)))%nat.

Definition __insert_and_merge (ext : list posix_lock) (lock : posix_lock)
    : option (list posix_lock) := insert_and_merge (merge_fuel ext) ext lock.

(** ** Waking blocked requests *)

(** The blocked locks that overlap no granted lock leave the list first; then
    they are inserted again one by one. The result is the list and the granted
    requests, the last one first. *)

Definition wakes (ext : list posix_lock) (l : posix_lock) : bool :=
  blocked l && bool_decide (first_overlap ext l = None).

Definition wake_one (acc : option (list posix_lock * list posix_lock)) (l : posix_lock)
    : option (list posix_lock * list posix_lock) :=
  '(ext, granted) ← acc;
  if __is_lock_grantable ext l then
    ext' ← __insert_and_merge ext (set_frame None l);
    Some (ext', set_user (posix_lock_to_flock l) l :: granted)
  else Some (__insert_lock ext (set_blocked true l), granted).

Definition __grant_blocked_locks (ext : list posix_lock)
    : option (list posix_lock * list posix_lock) :=
  foldl wake_one (Some (List.filter (fun l => negb (wakes ext l)) ext, []))
    (set_blocked false <$> List.filter (wakes ext) ext).

Definition granted_events (granted : list posix_lock) : list event :=
  (fun l => Unwind (frame l) 0 0 (user_flock l)) <$> granted.

Definition grant_blocked_locks (p : pl_inode) : option (pl_inode * list event) :=
  '(ext, granted) ← __grant_blocked_locks (ext_list p);
  Some (set_ext ext p, granted_events granted).

(** ** Reads and writes under mandatory locking *)

Definition __rw_allowable (ext : list posix_lock) (reg : posix_lock) (read : bool) : bool :=
  forallb (fun l => negb (locks_overlap l reg && negb (same_owner l reg)
    && negb (read && negb (is_type (fl_type l) F_WRLCK)))) ext.

Definition do_blocked_rw (p : pl_inode) : pl_inode * list event :=
  let ok rw := __rw_allowable (ext_list p) (region rw) (rw_read rw) in
  (set_rw (List.filter (fun rw => negb (ok rw)) (rw_list p)) p,
   (fun rw => Resume (stub rw)) <$> List.filter ok (rw_list p)).

(** A read or write goes on, waits or fails. *)

Inductive rw_outcome := Wind | Waits | Fails (op_errno : Z).

Definition pl_rw (read mandatory nonblock : bool) (offset size : Z) (cl fd pid : Z)
    (own : list Z) (st : Z) (p : pl_inode) : pl_inode * rw_outcome :=
  if negb mandatory then (p, Wind)
  else
    let reg := {| fl_type := F_RDLCK; fl_start := offset; fl_end := i64 (offset + size - 1);
                  blocked := false; user_flock := no_flock; fd_num := fd; frame := None;
                  client := cl; owner := own; client_pid := pid |} in
    if __rw_allowable (ext_list p) reg read then (p, Wind)
    else if nonblock then (p, Fails EAGAIN)
    else (set_rw (rw_list p ++ [{| region := reg; rw_read := read; stub := st |}]) p, Waits).

Definition pl_readv := pl_rw true.
Definition pl_writev := pl_rw false.

Definition truncate_allowed (ext : list posix_lock) (cl pid : Z) (own : list Z) (offset : Z) : bool :=
  let reg := {| fl_type := F_RDLCK; fl_start := offset; fl_end := LLONG_MAX; blocked := false;
                user_flock := no_flock; fd_num := 0; frame := None; client := cl; owner := own;
                client_pid := pid |} in
  negb (existsb (fun l => negb (blocked l) && locks_overlap reg l && negb (same_owner reg l)) ext).

(** ** Setting and testing locks *)

Definition pl_send_prelock_unlock (ext : list posix_lock) (old : posix_lock)
    : option (list posix_lock * list event) :=
  let flock := {| l_type := F_UNLCK; l_start := l_start (user_flock old);
                  l_len := l_len (user_flock old); l_pid := 0; l_owner := [] |} in
  let unlock_lock := new_posix_lock flock (client old) (client_pid old) (owner old) (fd_num old) in
  ext1 ← __insert_and_merge ext unlock_lock;
  '(ext2, granted) ← __grant_blocked_locks ext1;
  Some (ext2, granted_events granted).

(** The part of [pl_setlk] under the mutex: the code, the list and the events. *)

Definition setlk_locked (ext : list posix_lock) (lock : posix_lock) (can_block : bool)
    : option (Z * list posix_lock * list event) :=
  '(ext1, ev1) ←
    (if can_block && negb (__is_lock_grantable ext lock)
     then pl_send_prelock_unlock ext lock else Some (ext, []));
  if __is_lock_grantable ext1 lock then
    ext2 ← __insert_and_merge ext1 lock; Some (0, ext2, ev1)
  else if can_block then Some (-1, __insert_lock ext1 (set_blocked true lock), ev1)
  else Some (-1, ext1, ev1).

Definition pl_setlk (p : pl_inode) (lock : posix_lock) (can_block : bool)
    : option (Z * pl_inode * list event) :=
  '(ret, ext1, ev1) ← setlk_locked (ext_list p) lock can_block;
  '(p2, ev2) ← grant_blocked_locks (set_ext ext1 p);
  let '(p3, ev3) := do_blocked_rw p2 in
  Some (ret, p3, ev1 ++ ev2 ++ ev3).

Definition pl_getlk (ext : list posix_lock) (lock : posix_lock) : posix_lock :=
  match first_conflicting_overlap ext lock with
  | None => set_type F_UNLCK lock
  | Some conf => conf
  end.

(** ** Closing *)

Definition delete_fd_locked (ext : list posix_lock) (fd : Z) : list posix_lock * list event :=
  (List.filter (fun l => negb (fd_num l =? fd)) ext,
   (fun l => Unwind (frame l) (-1) EAGAIN (user_flock l)) <$>
     List.filter (fun l => (fd_num l =? fd) && blocked l) ext).

Definition delete_locks_of_fd (p : pl_inode) (fd : Z) : option (pl_inode * list event) :=
  let '(ext, ev0) := delete_fd_locked (ext_list p) fd in
  '(p1, ev1) ← grant_blocked_locks (set_ext ext p);
  let '(p2, ev2) := do_blocked_rw p1 in
  Some (p2, ev0 ++ ev1 ++ ev2).

Definition __delete_locks_of_owner (ext : list posix_lock) (cl : Z) (own : list Z)
    : list posix_lock :=
  List.filter (fun l => blocked l || negb ((client l =? cl) && bool_decide (owner l = own))) ext.

Definition pl_flush (p : pl_inode) (fd cl : Z) (own : list Z) : option (pl_inode * list event) :=
  if (Z.of_nat (length own) =? 0) then delete_locks_of_fd p fd
  else
    '(p1, ev1) ← grant_blocked_locks (set_ext (__delete_locks_of_owner (ext_list p) cl own) p);
    let '(p2, ev2) := do_blocked_rw p1 in
    Some (p2, ev1 ++ ev2).

Definition pl_release (p : pl_inode) (fd : Z) : option (pl_inode * list event) :=
  '(p1, ev) ← delete_locks_of_fd p fd;
  Some (set_fdctx (delete fd (fdctx p1)) p1, ev).

Definition pl_migrate_locks (p : pl_inode) (cl newfd oldfd : Z) : pl_inode :=
  set_ext ((fun l => if fd_num l =? oldfd then
      {| fl_type := fl_type l; fl_start := fl_start l; fl_end := fl_end l; blocked := blocked l;
         user_flock := user_flock l; fd_num := newfd; frame := frame l; client := cl;
         owner := owner l; client_pid := client_pid l |} else l) <$> ext_list p) p.

(** ** Reserve locks *)

Definition reservelks_equal (l1 l2 : posix_lock) : bool :=
  (fl_start l1 =? fl_start l2) && (fl_end l1 =? fl_end l2).

(** The first match of a list, and the list without it. *)

Fixpoint take_equal (lock : posix_lock) (l : list posix_lock)
    : option (posix_lock * list posix_lock) :=
  match l with
  | [] => None
  | r :: l' =>
      if reservelks_equal r lock then Some (r, l')
      else '(m, rest) ← take_equal lock l'; Some (m, r :: rest)
  end.

(** Undefined when the list is not empty and has no match: the loop variable
    then points at the head of the list, which is not a lock. *)

Definition pl_verify_reservelk (p : pl_inode) (lock : posix_lock) (can_block : bool)
    : option (Z * pl_inode) :=
  match reservelk_list p with
  | [] => Some (0, p)
  | l =>
      '(conf, rest) ← take_equal lock l;
      if bool_decide (owner lock = owner conf)
      then Some (0, set_reserve rest (blocked_reservelks p) p)
      else Some (-1, set_calls (blocked_calls p ++ [set_blocked can_block lock]) p)
  end.

Definition __lock_reservelk (p : pl_inode) (lock : posix_lock) (can_block : bool) : Z * pl_inode :=
  if existsb (reservelks_equal lock) (reservelk_list p) then
    (- EAGAIN, if can_block then set_reserve (reservelk_list p) (blocked_reservelks p ++ [lock]) p else p)
  else (0, set_reserve (lock :: reservelk_list p) (blocked_reservelks p) p).

Definition pl_reserve_setlk := __lock_reservelk.

Definition wake_reserve (acc : pl_inode * list posix_lock) (bl : posix_lock)
    : pl_inode * list posix_lock :=
  let '(p, granted) := acc in
  let '(ret, p') := __lock_reservelk p bl true in
  (p', if ret =? 0 then bl :: granted else granted).

Definition grant_blocked_reserve_locks (p : pl_inode) : pl_inode * list event :=
  let '(p', granted) :=
    foldl wake_reserve (set_reserve (reservelk_list p) [] p, []) (blocked_reservelks p) in
  (p', granted_events granted).

(** Waking blocked calls takes the blocked reserve locks in place of the calls,
    locks the mutex again for each of them, and then walks a list that was not
    initialised. *)

Definition grant_blocked_lock_calls (p : pl_inode) : option pl_inode :=
  match blocked_calls p with [] => Some p | _ => None end.

Definition pl_reserve_unlock (p : pl_inode) (lock : posix_lock) : option (Z * pl_inode * list event) :=
  let '(ret, p1) :=
    match take_equal lock (reservelk_list p) with
    | None => (- EINVAL, p)
    | Some (_, rest) => (0, set_reserve rest (blocked_reservelks p) p)
    end in
  let '(p2, ev) := grant_blocked_reserve_locks p1 in
  p3 ← grant_blocked_lock_calls p2;
  Some (ret, p3, ev).

(** ** The locks of an open file *)

Definition __fd_has_locks (ext : list posix_lock) (fd : Z) : bool :=
  existsb (fun l => fd_num l =? fd) ext.

Definition lock_dup (l : posix_lock) : posix_lock :=
  new_posix_lock (user_flock l) (client l) (client_pid l) (owner l) (fd_num l).

Definition __copy_locks_to_fdctx (ext : list posix_lock) (fd : Z) : list posix_lock :=
  lock_dup <$> List.filter (fun l => fd_num l =? fd) ext.

(** The request with the next lock of the list, and the list. *)

Definition __set_next_lock_fd (locks : list posix_lock) (req : posix_lock)
    : posix_lock * list posix_lock :=
  match locks with
  | [] =>
      let f := user_flock req in
      (set_user {| l_type := GF_LK_EOL; l_start := l_start f; l_len := l_len f; l_pid := l_pid f;
                   l_owner := l_owner f |} req, [])
  | l :: rest =>
      ({| fl_type := fl_type l; fl_start := fl_start l; fl_end := fl_end l; blocked := blocked req;
          user_flock := user_flock l; fd_num := fd_num req; frame := frame req;
          client := client req; owner := owner l; client_pid := client_pid req |}, rest)
  end.

(** Undefined when the file has locks and no context. *)

Definition pl_getlk_fd (p : pl_inode) (fd : Z) (req : posix_lock) : option (pl_inode * posix_lock) :=
  if negb (__fd_has_locks (ext_list p) fd) then Some (p, req)
  else
    locks ← fdctx p !! fd;
    let locks := match locks with [] => __copy_locks_to_fdctx (ext_list p) fd | _ => locks end in
    let '(req', rest) := __set_next_lock_fd locks req in
    Some (set_fdctx (<[fd := rest]> (fdctx p)) p, req').

(** ** The lock request *)

Inductive lk_cmd :=
| F_RESLK_LCKW | F_RESLK_LCK | F_RESLK_UNLCK | F_GETLK_FD | F_GETLK | F_SETLKW | F_SETLK.

#[export] Instance lk_cmd_eq : EqDecision lk_cmd.
Proof. solve_decision. Defined.

Definition pl_locks_by_fd := __fd_has_locks.

Definition with_type (t : lk_type) (f : gf_flock) : gf_flock :=
  {| l_type := t; l_start := l_start f; l_len := l_len f; l_pid := l_pid f; l_owner := l_owner f |}.

(** [fr] is the frame of the request, with its client, process and owner. A
    request for the locks of a file that meets a reserve lock fails an
    assertion, and is freed while it is queued. *)

Definition pl_lk (p : pl_inode) (fr cl pid : Z) (own : list Z) (fd : Z) (cmd : lk_cmd)
    (flock : gf_flock) : option (pl_inode * list event) :=
  let unwind p ev op_ret op_errno f := Some (p, ev ++ [Unwind (Some fr) op_ret op_errno f]) in
  if (l_start flock <? 0) || (l_len flock <? 0) then unwind p [] (-1) EINVAL flock
  else
    let req := new_posix_lock flock cl pid own fd in
    let can_block := bool_decide (cmd = F_RESLK_LCKW) || bool_decide (cmd = F_SETLKW) in
    match cmd with
    | F_RESLK_LCKW | F_RESLK_LCK =>
        let req := set_frame (Some fr) (set_user flock req) in
        let '(ret, p1) := pl_reserve_setlk p req can_block in
        if ret <? 0 then
          if can_block then Some (p1, []) else unwind p1 [] (-1) (- ret) flock
        else
          let conf := pl_getlk (ext_list p1) req in
          let p2 := match first_conflicting_overlap (ext_list p1) req, reservelk_list p1 with
                    | None, _ :: rest => set_reserve (conf :: rest) (blocked_reservelks p1) p1
                    | _, _ => p1
                    end in
          unwind p2 [] 0 0 (posix_lock_to_flock conf)
    | F_RESLK_UNLCK =>
        '(ret, p1, ev) ← pl_reserve_unlock p (set_frame (Some fr) req);
        if ret <? 0 then unwind p1 ev (-1) (- ret) flock else unwind p1 ev 0 0 flock
    | F_GETLK_FD =>
        '(ret, p1) ← pl_verify_reservelk p (set_frame (Some fr) req) can_block;
        if ret <? 0 then None else
        '(p2, req2) ← pl_getlk_fd p1 fd (set_frame (Some fr) req);
        unwind p2 [] 0 0 (posix_lock_to_flock req2)
    | F_GETLK => unwind p [] 0 0 (posix_lock_to_flock (pl_getlk (ext_list p) req))
    | F_SETLKW | F_SETLK =>
        let req := set_user flock (if can_block then set_frame (Some fr) req else req) in
        '(ret, p1) ← pl_verify_reservelk p req can_block;
        if ret <? 0 then Some (p1, [])
        else
          '(ret, p2, ev) ← pl_setlk p1 req can_block;
          if ret =? -1 then
            if can_block && negb (is_type (l_type flock) F_UNLCK) then Some (p2, ev)
            else unwind p2 ev (-1) EAGAIN flock
          else if (ret =? 0) && is_type (l_type flock) F_UNLCK then
            unwind p2 ev 0 0 (with_type
              (if pl_locks_by_fd (ext_list p2) fd then F_RDLCK else F_UNLCK) flock)
          else unwind p2 ev 0 0 flock
    end.
