(* ===== verification/LocksMerge.v ===== *)
(** * Inserting a lock

    What [__insert_and_merge] does: it returns for every list of locks, and the
    bytes that are locked afterwards. *)

From Stdlib Require Import ZArith Lia Bool.
From stdpp Require Import base list gmap.
From S2P Require Import Prelude Locks.

(** ** Locked bytes *)

Definition key (l : posix_lock) : list Z * Z := (owner l, client l).

Definition covers (l : posix_lock) (b : Z) : Prop := fl_start l <= b <= fl_end l.

(** A granted lock of type [t] of the owner [k] has byte [b]. *)

Definition cov (L : list posix_lock) (k : list Z * Z) (t : lk_type) (b : Z) : Prop :=
  exists l, l ∈ L /\ blocked l = false /\ key l = k /\ fl_type l = t /\ covers l b.

Definition valid (l : posix_lock) : Prop := 0 <= fl_start l <= fl_end l /\ fl_end l <= LLONG_MAX.

Definition locking (l : posix_lock) : Prop := fl_type l = F_RDLCK \/ fl_type l = F_WRLCK.

(** A list of locks, and a lock that is inserted into it. *)

Definition list_ok (L : list posix_lock) : Prop := Forall (fun l => valid l /\ locking l) L.

Definition lock_ok (x : posix_lock) : Prop :=
  valid x /\ blocked x = false /\ (locking x \/ fl_type x = F_UNLCK).

Lemma overlap_spec l l' :
  locks_overlap l l' = true <-> fl_start l' <= fl_end l /\ fl_start l <= fl_end l'.
Proof. unfold locks_overlap. rewrite andb_true_iff, !Z.leb_le. done. Qed.

Lemma overlap_sym l l' : locks_overlap l l' = locks_overlap l' l.
Proof. unfold locks_overlap. apply andb_comm. Qed.

Lemma overlap_byte l l' :
  valid l -> valid l' -> locks_overlap l l' = true <-> exists b, covers l b /\ covers l' b.
Proof.
  unfold valid, covers. intros Hl Hl'. rewrite overlap_spec. split.
  - intros H. exists (Z.max (fl_start l) (fl_start l')). lia.
  - intros (b & H & H'). lia.
Qed.

Lemma same_owner_spec l l' : same_owner l l' = true <-> key l = key l'.
Proof.
  unfold same_owner, key. rewrite andb_true_iff, bool_decide_eq_true, Z.eqb_eq.
  split; [by intros [-> ->]|by intros [= -> ->]].
Qed.

Lemma is_type_spec t t' : is_type t t' = true <-> t = t'.
Proof. unfold is_type. apply bool_decide_eq_true. Qed.

Lemma is_type_false t t' : is_type t t' = false <-> t <> t'.
Proof. unfold is_type. apply bool_decide_eq_false. Qed.

Lemma not_locking_unlck x : lock_ok x -> fl_type x <> F_UNLCK -> locking x.
Proof. intros (_ & _ & [H|H]) Hn; done. Qed.

Lemma locking_not_unlck l : locking l -> fl_type l <> F_UNLCK.
Proof. intros [H|H]; rewrite H; done. Qed.

(** ** The search *)

Lemma scan_same x pre l pre' conf post :
  scan_list x pre l = Same pre' conf post ->
  pre ++ l = pre' ++ conf :: post /\ blocked conf = false /\ locks_overlap conf x = true /\
  key conf = key x.
Proof.
  revert pre. induction l as [|c l IH]; intros pre H; cbn [scan_list] in H; [done|].
  assert (forall p, (p ++ [c]) ++ l = p ++ c :: l) as Happ by (intros; by rewrite <- app_assoc).
  destruct (blocked c) eqn:Hb; cbn [orb] in H; [by apply IH in H; rewrite Happ in H|].
  destruct (locks_overlap c x) eqn:Ho; cbn [negb] in H; [|by apply IH in H; rewrite Happ in H].
  destruct (same_owner c x) eqn:Hs.
  - injection H as <- <- <-. by apply same_owner_spec in Hs.
  - repeat case_match; try done; apply IH in H; by rewrite Happ in H.
Qed.

Lemma scan_shared x pre l :
  scan_list x pre l = Shared ->
  fl_type x = F_RDLCK /\ exists c, c ∈ l /\ blocked c = false /\ locks_overlap c x = true /\
    key c <> key x /\ fl_type c = F_RDLCK.
Proof.
  revert pre. induction l as [|c l IH]; intros pre H; cbn [scan_list] in H; [done|].
  assert (forall p, scan_list x p l = Shared -> fl_type x = F_RDLCK /\ exists c', c' ∈ c :: l /\
    blocked c' = false /\ locks_overlap c' x = true /\ key c' <> key x /\ fl_type c' = F_RDLCK) as Hrec.
  { intros p Hp. destruct (IH p Hp) as (Ht & c' & Hc & Hr). split; [done|]. exists c'.
    split; [by apply list_elem_of_further|done]. }
  destruct (blocked c) eqn:Hb; cbn [orb] in H; [by eapply Hrec|].
  destruct (locks_overlap c x) eqn:Ho; cbn [negb] in H; [|by eapply Hrec].
  destruct (same_owner c x) eqn:Hs; [done|].
  destruct (is_type (fl_type x) F_UNLCK); [by eapply Hrec|].
  destruct (is_type (fl_type c) F_RDLCK && is_type (fl_type x) F_RDLCK) eqn:Ht; [|by eapply Hrec].
  apply andb_true_iff in Ht as [Hc Hx]. apply is_type_spec in Hc, Hx. split; [done|].
  exists c. split_and!; [apply list_elem_of_here|done|done| |done].
  intros E. apply same_owner_spec in E. congruence.
Qed.

Lemma scan_clear x pre l :
  scan_list x pre l = Clear ->
  forall c, c ∈ l -> blocked c = false -> key c = key x -> locks_overlap c x = false.
Proof.
  revert pre. induction l as [|c l IH]; intros pre H d Hd Hb Hk; cbn [scan_list] in H;
    [by apply elem_of_nil in Hd|].
  apply elem_of_cons in Hd as [->|Hd].
  - rewrite Hb in H. cbn [orb] in H. destruct (locks_overlap c x); [|done]. cbn [negb] in H.
    by rewrite (proj2 (same_owner_spec c x) Hk) in H.
  - repeat case_match; try done; by eapply IH.
Qed.

(** ** Sums and differences *)

Definition hull (x conf sum : posix_lock) : Prop :=
  fl_start sum = Z.min (fl_start x) (fl_start conf) /\ fl_end sum = Z.max (fl_end x) (fl_end conf).

Lemma hull_covers x conf sum b :
  hull x conf sum -> locks_overlap conf x = true ->
  covers sum b <-> covers x b \/ covers conf b.
Proof. rewrite overlap_spec. unfold hull, covers. intros [-> ->] [? ?]. lia. Qed.

(** The parts into which [sum] falls when [x], which is inside of it, is cut
    out, in the order in which they are inserted. *)

Inductive parts (sum x : posix_lock) : list posix_lock -> Prop :=
| parts_all y :
    key y = key sum -> fl_type y = fl_type x -> blocked y = blocked sum -> valid y ->
    fl_start y = fl_start x -> fl_end y = fl_end x ->
    fl_start sum = fl_start x -> fl_end sum = fl_end x -> parts sum x [y]
| parts_some l r :
    Forall (fun y => key y = key sum /\ fl_type y = fl_type sum /\ blocked y = blocked sum /\ valid y) (l ++ r) ->
    (forall b, covers sum b <-> covers x b \/ exists y, y ∈ l ++ r /\ covers y b) ->
    (forall y b, y ∈ l ++ r -> covers y b -> ~ covers x b) ->
    parts sum x (l ++ x :: r).

Lemma i64_small z : 0 <= z <= LLONG_MAX -> i64 z = z.
Proof. unfold LLONG_MAX. intros H. apply swrap_small; [done|]. unfold in_s. lia. Qed.

Lemma subtract_parts sum x :
  valid sum -> valid x -> fl_start sum <= fl_start x -> fl_end x <= fl_end sum ->
  parts sum x (subtract_locks sum x).
Proof.
  intros [Vs1 Vs2] [Vx1 Vx2] Hs He. unfold subtract_locks.
  destruct ((fl_start sum =? fl_start x) && (fl_end sum =? fl_end x)) eqn:Hall.
  { apply andb_true_iff in Hall as [E1%Z.eqb_eq E2%Z.eqb_eq]. by apply parts_all; try done; split. }
  destruct ((fl_start sum <? fl_start x) && (fl_end x <? fl_end sum)) eqn:Hin.
  { apply andb_true_iff in Hin as [E1%Z.ltb_lt E2%Z.ltb_lt]. rewrite !i64_small by lia.
    apply (parts_some sum x [_] [_]); cbn [app].
    - repeat constructor; cbn; lia.
    - intros b. unfold covers. split.
      + intros Hb. destruct (Z.lt_ge_cases b (fl_start x)); [right|destruct (Z.lt_ge_cases (fl_end x) b);
          [right|left; lia]].
        * eexists. split; [apply list_elem_of_here|]. cbn. lia.
        * eexists. split; [apply list_elem_of_further, list_elem_of_here|]. cbn. lia.
      + intros [Hb|(y & Hy & Hb)]; [lia|].
        apply elem_of_cons in Hy as [->|[->|[]%elem_of_nil]%elem_of_cons]; cbn in Hb; lia.
    - intros y b Hy Hb. unfold covers in *.
      apply elem_of_cons in Hy as [->|[->|[]%elem_of_nil]%elem_of_cons]; cbn in Hb; lia. }
  destruct (Z.eqb_spec (fl_start x) (fl_start sum)) as [E|E].
  { assert (fl_end x < fl_end sum) by (destruct (Z.eqb_spec (fl_start sum) (fl_start x)); [|lia];
      destruct (Z.eqb_spec (fl_end sum) (fl_end x)); [done|lia]). rewrite i64_small by lia.
    apply (parts_some sum x [_] []); rewrite ?app_nil_r; cbn [app].
    - repeat constructor; cbn; lia.
    - intros b. unfold covers. split.
      + intros Hb. destruct (Z.lt_ge_cases (fl_end x) b); [right|left; lia].
        eexists. split; [apply list_elem_of_here|]. cbn. lia.
      + intros [Hb|(y & [->|[]%elem_of_nil]%elem_of_cons & Hb)]; cbn in *; lia.
    - intros y b [->|[]%elem_of_nil]%elem_of_cons Hb; unfold covers in *; cbn in *; lia. }
  destruct (Z.eqb_spec (fl_end x) (fl_end sum)) as [E'|E'].
  { rewrite i64_small by lia. apply (parts_some sum x [_] []); rewrite ?app_nil_r; cbn [app].
    - repeat constructor; cbn; lia.
    - intros b. unfold covers. split.
      + intros Hb. destruct (Z.lt_ge_cases b (fl_start x)); [right|left; lia].
        eexists. split; [apply list_elem_of_here|]. cbn. lia.
      + intros [Hb|(y & [->|[]%elem_of_nil]%elem_of_cons & Hb)]; cbn in *; lia.
    - intros y b [->|[]%elem_of_nil]%elem_of_cons Hb; unfold covers in *; cbn in *; lia. }
  exfalso. apply andb_false_iff in Hin as [Hin%Z.ltb_ge|Hin%Z.ltb_ge]; lia.
Qed.

(** ** Termination

    Every lock is weighed by the points of a list [E] that it covers; all ends
    of locks are in [E]. A turn of the recursion removes a lock that overlaps
    the inserted one, and together the locks of the list and those still to be
    inserted get lighter. *)

Definition cnt (l : posix_lock) (e : Z) : Z := Z.b2z ((fl_start l <=? e) && (e <=? fl_end l)).

Definition weight (E : list Z) (l : posix_lock) : Z := foldr (fun e n => cnt l e + n) 0 E.

Definition total (E : list Z) (L : list posix_lock) : Z := foldr (fun l n => weight E l + n) 0 L.

Definition ends_in (E : list Z) (l : posix_lock) : Prop := fl_start l ∈ E /\ fl_end l + 1 ∈ E.

Lemma cnt_range l e : 0 <= cnt l e <= 1.
Proof. unfold cnt. destruct (_ && _); cbn; lia. Qed.

Lemma weight_range E l : 0 <= weight E l <= Z.of_nat (length E).
Proof.
  induction E as [|e E IH]; cbn [weight foldr length]; [lia|]. fold (weight E l).
  pose proof (cnt_range l e). lia.
Qed.

Lemma weight_pos E l : valid l -> ends_in E l -> 1 <= weight E l.
Proof.
  intros [Hv _] [Hs _]. induction E as [|e E IH]; [by apply elem_of_nil in Hs|].
  cbn [weight foldr]. fold (weight E l). pose proof (cnt_range l e).
  apply elem_of_cons in Hs as [<-|Hs]; [|specialize (IH Hs); lia].
  pose proof (weight_range E l). unfold cnt. rewrite !(proj2 (Z.leb_le _ _)) by lia. cbn. lia.
Qed.

Lemma weight_same E l l' :
  fl_start l = fl_start l' -> fl_end l = fl_end l' -> weight E l = weight E l'.
Proof. intros H H'. unfold weight, cnt. by rewrite H, H'. Qed.

Lemma total_app E L L' : total E (L ++ L') = total E L + total E L'.
Proof. induction L as [|l L IH]; cbn [total foldr app]; [done|]. fold (total E (L ++ L')) (total E L). lia. Qed.

Lemma total_range E L : 0 <= total E L <= Z.of_nat (length L * length E).
Proof.
  induction L as [|l L IH]; cbn [total foldr length]; [lia|]. fold (total E L).
  pose proof (weight_range E l). lia.
Qed.

Ltac cnt_tac :=
  unfold cnt, set_type, set_range; cbn [fl_start fl_end];
  repeat match goal with |- context [?a <=? ?b] => destruct (Z.leb_spec a b) end; cbn; lia.

Lemma hull_weight E x conf sum :
  valid x -> valid conf -> ends_in E x -> ends_in E conf -> hull x conf sum ->
  locks_overlap conf x = true -> weight E sum + 1 <= weight E x + weight E conf.
Proof.
  intros [Vx _] [Vc _] [Sx _] [Sc _] [Hs He] Ho%overlap_spec.
  assert (Z.max (fl_start x) (fl_start conf) ∈ E) as Hm.
  { destruct (Z.max_spec (fl_start x) (fl_start conf)) as [[_ ->]|[_ ->]]; done. }
  assert (forall E, weight E sum <= weight E x + weight E conf) as Hle.
  { clear Hm Sx Sc E. induction E as [|e E IH]; cbn [weight foldr]; [lia|].
    fold (weight E sum) (weight E x) (weight E conf).
    assert (cnt sum e <= cnt x e + cnt conf e) by (unfold cnt; rewrite Hs, He; cnt_tac). lia. }
  clear Sx Sc. induction E as [|e E IH]; [by apply elem_of_nil in Hm|].
  cbn [weight foldr]. fold (weight E sum) (weight E x) (weight E conf).
  apply elem_of_cons in Hm as [<-|Hm].
  - pose proof (Hle E). set (m := Z.max (fl_start x) (fl_start conf)) in *.
    assert (cnt sum m + 1 <= cnt x m + cnt conf m) by (subst m; unfold cnt; rewrite Hs, He; cnt_tac). lia.
  - specialize (IH Hm).
    assert (cnt sum e <= cnt x e + cnt conf e) by (unfold cnt; rewrite Hs, He; cnt_tac). lia.
Qed.

Lemma total_cons E l L : total E (l :: L) = weight E l + total E L.
Proof. done. Qed.

Lemma subtract_weight E sum x :
  valid sum -> valid x -> fl_start sum <= fl_start x -> fl_end x <= fl_end sum ->
  total E (subtract_locks sum x) <= weight E sum.
Proof.
  intros [Vs1 Vs2] [Vx1 Vx2] Hs He.
  assert (forall l, (forall e, foldr (fun y n => cnt y e + n) 0 l <= cnt sum e) ->
    total E l <= weight E sum) as Hsum.
  { intros l H. induction E as [|e E IH].
    - clear H. induction l as [|y l IHl]; [done|]. exact IHl.
    - assert (total (e :: E) l = foldr (fun y n => cnt y e + n) 0 l + total E l) as ->.
      { clear. induction l as [|y l IHl]; [done|]. rewrite !total_cons, IHl. cbn [weight foldr].
        fold (weight E y). lia. }
      cbn [weight foldr]. fold (weight E sum). pose proof (H e). lia. }
  apply Hsum. intros e. unfold subtract_locks.
  repeat match goal with
  | |- context [(?a =? ?b) && _] => destruct (Z.eqb_spec a b); cbn [andb]
  | |- context [(?a <? ?b) && _] => destruct (Z.ltb_spec a b); cbn [andb]
  | |- context [if ?a =? ?b then _ else _] => destruct (Z.eqb_spec a b)
  | |- context [if ?a <? ?b then _ else _] => destruct (Z.ltb_spec a b)
  end; rewrite ?i64_small by lia; cbn [foldr]; cnt_tac.
Qed.

Lemma subtract_ends E sum x :
  valid sum -> valid x -> fl_start sum <= fl_start x -> fl_end x <= fl_end sum ->
  ends_in E sum -> ends_in E x -> Forall (ends_in E) (subtract_locks sum x).
Proof.
  intros [Vs1 Vs2] [Vx1 Vx2] Hs He [Ss Es] [Sx Ex]. unfold subtract_locks.
  repeat match goal with
  | |- context [(?a =? ?b) && _] => destruct (Z.eqb_spec a b); cbn [andb]
  | |- context [(?a <? ?b) && _] => destruct (Z.ltb_spec a b); cbn [andb]
  | |- context [if ?a =? ?b then _ else _] => destruct (Z.eqb_spec a b)
  | |- context [if ?a <? ?b then _ else _] => destruct (Z.ltb_spec a b)
  end; rewrite ?i64_small by lia; repeat constructor; cbn; try done;
    match goal with |- ?a ∈ _ => by (replace a with (fl_start x) by lia) end.
Qed.

Lemma delete_unlck_ok L : list_ok L -> __delete_unlck_locks L = L.
Proof.
  intros H. unfold __delete_unlck_locks. induction H as [|l L [_ Hl] _ IH]; cbn [List.filter]; [done|].
  apply locking_not_unlck, is_type_false in Hl. rewrite Hl. cbn [negb]. by rewrite IH.
Qed.

(** *** The locks of a turn *)

Lemma sum_valid x conf sum :
  valid x -> valid conf -> hull x conf sum -> valid sum.
Proof. unfold valid, hull. intros ? ? [-> ->]. lia. Qed.

Lemma as_of_hull l x conf : hull x conf (as_of l (add_locks x conf)).
Proof. done. Qed.

Lemma sum_ends E x conf sum : ends_in E x -> ends_in E conf -> hull x conf sum -> ends_in E sum.
Proof.
  unfold ends_in, hull. intros [Hx Hx'] [Hc Hc'] [-> ->].
  destruct (Z.min_spec (fl_start x) (fl_start conf)) as [[_ ->]|[_ ->]];
    destruct (Z.max_spec (fl_end x) (fl_end conf)) as [[_ ->]|[_ ->]]; done.
Qed.

Lemma list_ok_remove L pre conf post :
  L = pre ++ conf :: post -> list_ok L -> list_ok (pre ++ post) /\ valid conf /\ locking conf.
Proof.
  intros -> H. apply Forall_app in H as [Hp Hq]. apply Forall_cons in Hq as [Hc Hq].
  split; [by apply Forall_app|done].
Qed.

Lemma parts_ok sum x ys :
  parts sum x ys -> valid sum -> locking sum -> blocked sum = false -> lock_ok x -> Forall lock_ok ys.
Proof.
  intros Hp Vs Ls Bs (Vx & Bx & Lx). destruct Hp as [y Hk Ht Hb Hv Hs He _ _|l r H Hc Hd].
  - constructor; [|constructor]. split_and!; [done|congruence|]. unfold locking. by rewrite Ht.
  - assert (forall m, Forall (fun y => key y = key sum /\ fl_type y = fl_type sum /\
      blocked y = blocked sum /\ valid y) m -> Forall lock_ok m) as Hm.
    { intros m Hm. eapply Forall_impl; [exact Hm|]. intros y (Hk & Ht & Hb & Hv). split_and!; [done|congruence|].
      left. unfold locking. by rewrite Ht. }
    apply Forall_app in H as [Hl Hr]. apply Forall_app. split; [by apply Hm|].
    constructor; [by split_and!|by apply Hm].
Qed.

Lemma split_parts x conf :
  lock_ok x -> valid conf -> locking conf ->
  let sum := as_of conf (add_locks x conf) in
  valid sum /\ fl_start sum <= fl_start x /\ fl_end x <= fl_end sum /\
  parts sum x (subtract_locks sum x) /\ Forall lock_ok (subtract_locks sum x).
Proof.
  intros Hx Vc Lc sum. pose proof Hx as (Vx & _).
  assert (valid sum) as Vs by (eapply sum_valid; [exact Vx|exact Vc|apply as_of_hull]).
  assert (fl_start sum <= fl_start x /\ fl_end x <= fl_end sum) as [Hs He].
  { subst sum. cbn [as_of add_locks fl_start fl_end]. lia. }
  assert (parts sum x (subtract_locks sum x)) as Hp by by apply subtract_parts.
  split_and!; try done. by eapply parts_ok.
Qed.

Section returns.
Variable E : list Z.

Definition fits (L : list posix_lock) : Prop := list_ok L /\ Forall (ends_in E) L.

Lemma fits_snoc L x : fits L -> lock_ok x -> locking x -> ends_in E x -> fits (L ++ [x]).
Proof.
  intros [H H'] (Vx & _) Lx Ex. split; apply Forall_app; (split; [done|]); by apply Forall_singleton.
Qed.

(** [insert_and_merge] returns with the given fuel. *)

Definition returns (fuel : nat) : Prop :=
  forall L x, fits L -> lock_ok x -> ends_in E x -> total E L + weight E x < Z.of_nat fuel ->
  exists R, insert_and_merge fuel L x = Some R /\ fits R /\ total E R <= total E L + weight E x.

Lemma returns_all fuel ys L :
  returns fuel -> fits L -> Forall lock_ok ys -> Forall (ends_in E) ys ->
  total E L + total E ys < Z.of_nat fuel ->
  exists R, foldl (fun acc l => e ← acc; insert_and_merge fuel e (refresh l)) (Some L) ys = Some R /\
    fits R /\ total E R <= total E L + total E ys.
Proof.
  intros HR. revert L. induction ys as [|y ys IH]; intros L HL Hy Ey Ht; cbn [foldl].
  - exists L. split_and!; [done..|]. cbn. lia.
  - apply Forall_cons in Hy as [Hy Hys]. apply Forall_cons in Ey as [Ey Eys].
    rewrite total_cons in Ht. pose proof (total_range E ys).
    assert (weight E (refresh y) = weight E y) as Ew by done.
    destruct (HR L (refresh y)) as (L1 & H1 & HL1 & Ht1); [done|done|done|lia|].
    cbn [mbind option_bind]. rewrite H1.
    destruct (IH L1) as (R & HR1 & HR2 & HR3); [done|done|done|lia|].
    exists R. split_and!; [done|done|]. rewrite total_cons. lia.
Qed.

Lemma total_remove L pre conf post :
  L = pre ++ conf :: post -> total E L = total E (pre ++ post) + weight E conf.
Proof. intros ->. rewrite !total_app, total_cons. lia. Qed.

Lemma insert_returns fuel : returns fuel.
Proof.
  induction fuel as [|fuel IH]; intros L x HL Hx Ex Ht.
  { pose proof (total_range E L). pose proof (weight_range E x). lia. }
  cbn [insert_and_merge]. pose proof (weight_range E x) as Hw.
  destruct (scan_list x [] L) as [pre conf post| |] eqn:Hs.
  - apply scan_same in Hs as (Eq & Bc & Ho & Kc). cbn [app] in Eq.
    destruct HL as [HL EL]. pose proof EL as EL'. rewrite Eq in EL'.
    apply Forall_app in EL' as [Ep [Ec Eq']%Forall_cons].
    destruct (list_ok_remove L pre conf post Eq HL) as (HL' & Vc & Lc).
    assert (fits (pre ++ post)) as HF by (split; [done|by apply Forall_app]).
    pose proof (total_remove L pre conf post Eq) as Htot. pose proof Hx as (Vx & _).
    destruct (is_type (fl_type conf) (fl_type x)) eqn:Hty.
    + set (sum := refresh (as_of x (add_locks x conf))).
      assert (hull x conf sum) as Hh by done.
      pose proof (hull_weight E x conf sum Vx Vc Ex Ec Hh Ho) as Hw'.
      destruct (IH (pre ++ post) sum) as (R & -> & HR & HtR); [done| |by eapply (sum_ends E x conf)|lia|].
      { apply is_type_spec in Hty. split_and!; [by eapply (sum_valid x conf)|done|left].
        unfold locking in *. cbn. by rewrite <- Hty. }
      exists R. split_and!; [done|done|lia].
    + destruct (split_parts x conf Hx Vc Lc) as (Vs & Hs1 & Hs2 & _ & Hok).
      set (sum := as_of conf (add_locks x conf)) in *.
      assert (hull x conf sum) as Hh by done.
      pose proof (hull_weight E x conf sum Vx Vc Ex Ec Hh Ho) as Hw'.
      pose proof (subtract_weight E sum x Vs Vx Hs1 Hs2) as Hw2.
      assert (ends_in E sum) as Es by by eapply (sum_ends E x conf).
      destruct (returns_all fuel (subtract_locks sum x) (pre ++ post)) as (R & -> & HR & HtR);
        [done|done|done|by apply subtract_ends|lia|].
      cbn [mbind option_bind]. exists R. rewrite delete_unlck_ok by apply HR.
      split_and!; [done|done|lia].
  - apply scan_shared in Hs as [Tx _]. eexists. split; [done|]. unfold __insert_lock.
    split; [apply fits_snoc; try done; by left|]. rewrite total_app, total_cons. cbn. lia.
  - eexists. split; [done|]. destruct (is_type (fl_type x) F_UNLCK) eqn:Hty; [by split; [|lia]|].
    apply is_type_false in Hty. unfold __insert_lock.
    split; [apply fits_snoc; try done; by apply not_locking_unlck|].
    rewrite total_app, total_cons. cbn. lia.
Qed.

End returns.

(** The ends of all locks. *)

Definition all_ends (L : list posix_lock) : list Z :=
  flat_map (fun l => [fl_start l; fl_end l + 1]) L.

Lemma all_ends_length L : length (all_ends L) = (2 * length L)%nat.
Proof. unfold all_ends. induction L as [|l L IH]; cbn [flat_map length app]; [done|]. rewrite IH. lia. Qed.

Lemma all_ends_in L l : l ∈ L -> ends_in (all_ends L) l.
Proof.
  intros Hl%list_elem_of_In. unfold ends_in, all_ends. rewrite !list_elem_of_In, !in_flat_map.
  split; exists l; cbn; tauto.
Qed.

Lemma insert_and_merge_returns L x :
  list_ok L -> lock_ok x -> exists R, __insert_and_merge L x = Some R /\ list_ok R.
Proof.
  intros HL Hx. set (E := all_ends (x :: L)).
  destruct (insert_returns E (merge_fuel L) L x) as (R & HR & [HR' _] & _).
  - split; [done|]. apply Forall_forall. intros l Hl. apply all_ends_in. by apply list_elem_of_further.
  - done.
  - apply all_ends_in, list_elem_of_here.
  - pose proof (total_range E L). pose proof (weight_range E x).
    assert (length E = 2 * S (length L))%nat as HE by (unfold E; by rewrite all_ends_length).
    rewrite HE in *. unfold merge_fuel. lia.
  - by exists R.
Qed.
