(* ===== verification/LocksCover.v ===== *)
(** * Which bytes are locked after an insertion

    The runs of [__insert_and_merge] as an inductive relation, and what holds
    of the locked bytes by induction on it. *)

From Stdlib Require Import ZArith Lia Bool.
From stdpp Require Import base list gmap.
From S2P Require Import Prelude Locks LocksMerge.

(** ** Runs *)

Inductive merges : list posix_lock -> posix_lock -> list posix_lock -> Prop :=
| M_shared L x : scan_list x [] L = Shared -> merges L x (L ++ [x])
| M_insert L x : scan_list x [] L = Clear -> fl_type x <> F_UNLCK -> merges L x (L ++ [x])
| M_unlock L x : scan_list x [] L = Clear -> fl_type x = F_UNLCK -> merges L x L
| M_join L x pre conf post R :
    scan_list x [] L = Same pre conf post -> fl_type conf = fl_type x ->
    merges (pre ++ post) (refresh (as_of x (add_locks x conf))) R -> merges L x R
| M_split L x pre conf post R :
    scan_list x [] L = Same pre conf post -> fl_type conf <> fl_type x ->
    merges_all (pre ++ post) (subtract_locks (as_of conf (add_locks x conf)) x) R ->
    merges L x (__delete_unlck_locks R)
with merges_all : list posix_lock -> list posix_lock -> list posix_lock -> Prop :=
| MA_nil L : merges_all L [] L
| MA_cons L y ys L1 R : merges L (refresh y) L1 -> merges_all L1 ys R -> merges_all L (y :: ys) R.

Scheme merges_mut := Induction for merges Sort Prop
with merges_all_mut := Induction for merges_all Sort Prop.

Lemma foldl_None fuel ys :
  foldl (fun acc l => e ← acc; insert_and_merge fuel e (refresh l)) None ys = None.
Proof. by induction ys. Qed.

Lemma insert_merges fuel L x R : insert_and_merge fuel L x = Some R -> merges L x R.
Proof.
  revert L x R. induction fuel as [|fuel IH]; intros L x R H; [done|]. cbn [insert_and_merge] in H.
  destruct (scan_list x [] L) as [pre conf post| |] eqn:Hs.
  - destruct (is_type (fl_type conf) (fl_type x)) eqn:Ht.
    + apply is_type_spec in Ht. eapply M_join; [done|done|by apply IH].
    + apply is_type_false in Ht.
      destruct (foldl _ _ _) as [R'|] eqn:Hf; [|done]. injection H as <-.
      eapply M_split; [done|done|]. clear Hs Ht. revert Hf. generalize (pre ++ post).
      induction (subtract_locks (as_of conf (add_locks x conf)) x) as [|y ys IHy]; intros L0 Hf; cbn [foldl] in Hf.
      { injection Hf as <-. constructor. }
      cbn [mbind option_bind] in Hf. destruct (insert_and_merge fuel L0 (refresh y)) as [L1|] eqn:H1.
      * econstructor; [by apply IH|by apply IHy].
      * by rewrite foldl_None in Hf.
  - injection H as <-. by constructor.
  - injection H as <-. destruct (is_type (fl_type x) F_UNLCK) eqn:Ht.
    + apply is_type_spec in Ht. by constructor.
    + apply is_type_false in Ht. by constructor.
Qed.

(** ** Facts that do not depend on the order of the list *)

Lemma cov_app L L' k t b : cov (L ++ L') k t b <-> cov L k t b \/ cov L' k t b.
Proof. unfold cov. setoid_rewrite elem_of_app. naive_solver. Qed.

Lemma cov_cons l L k t b :
  cov (l :: L) k t b <-> (blocked l = false /\ key l = k /\ fl_type l = t /\ covers l b) \/ cov L k t b.
Proof. unfold cov. setoid_rewrite elem_of_cons. naive_solver. Qed.

Lemma cov_nil k t b : ~ cov [] k t b.
Proof. intros (l & []%elem_of_nil & _). Qed.

Lemma cov_snoc L x k t b :
  cov (L ++ [x]) k t b <->
  cov L k t b \/ (blocked x = false /\ key x = k /\ fl_type x = t /\ covers x b).
Proof. rewrite cov_app, cov_cons. pose proof (cov_nil k t b). tauto. Qed.

Lemma cov_remove L pre conf post k t b :
  L = pre ++ conf :: post -> blocked conf = false ->
  cov L k t b <-> cov (pre ++ post) k t b \/ (key conf = k /\ fl_type conf = t /\ covers conf b).
Proof. intros -> Hb. rewrite !cov_app, cov_cons. naive_solver. Qed.

Lemma cov_locking L k t b : list_ok L -> cov L k t b -> t = F_RDLCK \/ t = F_WRLCK.
Proof.
  intros HL (l & Hl & _ & _ & <- & _). unfold list_ok in HL. rewrite Forall_forall in HL.
  apply HL in Hl as [_ Hl]. exact Hl.
Qed.

(** What a turn of the recursion works with. *)

Lemma turn_facts L x pre conf post :
  list_ok L -> lock_ok x -> scan_list x [] L = Same pre conf post ->
  L = pre ++ conf :: post /\ list_ok (pre ++ post) /\ valid conf /\ locking conf /\
  blocked conf = false /\ key conf = key x /\ locks_overlap conf x = true.
Proof.
  intros HL Hx Hs. apply scan_same in Hs as (E & Bc & Ho & Kc). cbn [app] in E.
  destruct (list_ok_remove L pre conf post E HL) as (HL' & Vc & Lc). by split_and!.
Qed.

Lemma join_ok x conf :
  lock_ok x -> valid conf -> locking conf -> fl_type conf = fl_type x ->
  lock_ok (refresh (as_of x (add_locks x conf))).
Proof.
  intros (Vx & _) Vc Lc Ht. split_and!; [by eapply (sum_valid x conf)|done|left].
  unfold locking in *. cbn. by rewrite <- Ht.
Qed.

(** *** The rest of the list *)

(** Insertion keeps the list well-formed and does not touch blocked locks. *)

Definition blocked_of (L : list posix_lock) : list posix_lock := List.filter blocked L.

Lemma blocked_app L L' : blocked_of (L ++ L') = blocked_of L ++ blocked_of L'.
Proof. apply List.filter_app. Qed.

Lemma merges_ok L x R :
  merges L x R -> list_ok L -> lock_ok x -> list_ok R /\ blocked_of R = blocked_of L.
Proof.
  intros H. induction H using merges_mut with
    (P0 := fun L ys R _ => list_ok L -> Forall lock_ok ys -> list_ok R /\ blocked_of R = blocked_of L);
    intros HL Hx; try pose proof Hx as (Vx & Bx & Lx).
  - apply scan_shared in e as [Tx _]. split.
    + apply Forall_app. split; [done|]. apply Forall_singleton. split; [done|by left].
    + rewrite blocked_app. cbn. by rewrite Bx, app_nil_r.
  - split.
    + apply Forall_app. split; [done|]. apply Forall_singleton. split; [done|by apply not_locking_unlck].
    + rewrite blocked_app. cbn. by rewrite Bx, app_nil_r.
  - done.
  - destruct (turn_facts L x pre conf post HL Hx e) as (-> & HL' & Vc & Lc & Bc & Kc & Ho).
    destruct IHmerges as [HR Hb]; [done|by apply join_ok|]. split; [done|].
    rewrite Hb, !blocked_app. cbn. by rewrite Bc.
  - destruct (turn_facts L x pre conf post HL Hx e) as (-> & HL' & Vc & Lc & Bc & Kc & Ho).
    destruct (split_parts x conf Hx Vc Lc) as (_ & _ & _ & _ & Hok).
    destruct IHmerges as [HR Hb]; [done|done|]. rewrite delete_unlck_ok by done. split; [done|].
    rewrite Hb, !blocked_app. cbn. by rewrite Bc.
  - done.
  - apply Forall_cons in Hx as [Hy Hys]. destruct IHmerges as [H1 Hb1]; [done|done|].
    destruct IHmerges0 as [H2 Hb2]; [done|done|]. split; [done|congruence].
Qed.

Lemma merges_all_ok L ys R :
  merges_all L ys R -> list_ok L -> Forall lock_ok ys -> list_ok R.
Proof.
  induction 1 as [|L y ys L1 R H1 _ IH]; intros HL Hys; [done|].
  apply Forall_cons in Hys as [Hy Hys]. apply IH; [|done]. by apply (merges_ok _ _ _ H1).
Qed.

(** *** Upper bound *)

(** Nothing is locked that was not locked or asked for. *)

Definition asked (x : posix_lock) (k : list Z * Z) (t : lk_type) (b : Z) : Prop :=
  key x = k /\ fl_type x = t /\ covers x b /\ t <> F_UNLCK.

Lemma merges_upper L x R k t b :
  merges L x R -> list_ok L -> lock_ok x -> cov R k t b -> cov L k t b \/ asked x k t b.
Proof.
  intros H. revert k t b. induction H using merges_mut with
    (P0 := fun L ys R _ => forall k t b, list_ok L -> Forall lock_ok ys -> cov R k t b ->
      cov L k t b \/ exists y, y ∈ ys /\ asked y k t b);
    intros k t b HL Hx HR; try pose proof Hx as (Vx & Bx & Lx).
  - apply scan_shared in e as [Tx _]. apply cov_snoc in HR as [HR|(_ & ? & <- & ?)]; [by left|].
    right. split_and!; try done. by rewrite Tx.
  - apply cov_snoc in HR as [HR|(_ & ? & <- & ?)]; [by left|]. by right.
  - by left.
  - destruct (turn_facts L x pre conf post HL Hx e) as (E & HL' & Vc & Lc & Bc & Kc & Ho).
    rewrite (cov_remove L pre conf post) by done.
    apply IHmerges in HR as [HR|(Hk & Ht & Hc & Hu)]; [by do 2 left| |done|by apply join_ok].
    change (key x = k) in Hk. change (fl_type x = t) in Ht. apply (hull_covers x conf) in Hc as [Hc|Hc]; [by right|left; right|done|done].
    split_and!; [congruence|congruence|done].
  - destruct (turn_facts L x pre conf post HL Hx e) as (E & HL' & Vc & Lc & Bc & Kc & Ho).
    destruct (split_parts x conf Hx Vc Lc) as (Vs & _ & _ & Hp & Hok).
    rewrite delete_unlck_ok in HR by (by eapply merges_all_ok).
    rewrite (cov_remove L pre conf post) by done.
    apply IHmerges in HR as [HR|(y & Hy & Ha)]; [by do 2 left| |done|done].
    destruct Hp as [z Hk Ht Hb Hv Hs He _ _|l r Hall Hc Hd].
    + apply list_elem_of_singleton in Hy as ->. right. destruct Ha as (Hk' & Ht' & Hc' & Hu').
      split_and!; [|congruence| |done].
      * rewrite <- Hk', Hk. symmetry. exact Kc.
      * unfold covers in *. by rewrite <- Hs, <- He.
    + apply elem_of_app in Hy as [Hy|[->|Hy]%elem_of_cons]; [|by right|];
        (left; right; destruct Ha as (Hk' & Ht' & Hc' & Hu');
         assert (y ∈ l ++ r) as Hy' by (apply elem_of_app; tauto);
         rewrite Forall_forall in Hall; destruct (Hall y Hy') as (Hky & Hty & _);
         assert (covers (as_of conf (add_locks x conf)) b) as Hcs by (apply Hc; right; by exists y);
         apply (hull_covers x conf) in Hcs as [Hcs|Hcs];
         [by apply (Hd y b) in Hcs|split_and!; [by rewrite <- Hk', Hky|by rewrite <- Ht', Hty|done]|done|done]).
  - by left.
  - apply Forall_cons in Hx as [Hy Hys].
    apply IHmerges0 in HR as [HR|(z & Hz & Ha)]; [|right|by eapply merges_ok|done].
    + apply IHmerges in HR as [HR|Ha]; [by left|right|done|done].
      exists y. split; [apply list_elem_of_here|done].
    + exists z. split; [by apply list_elem_of_further|done].
Qed.

Lemma merges_all_upper L ys R k t b :
  merges_all L ys R -> list_ok L -> Forall lock_ok ys -> cov R k t b ->
  cov L k t b \/ exists y, y ∈ ys /\ asked y k t b.
Proof.
  intros H. induction H as [L|L y ys L1 R H1 H2 IH]; intros HL Hys HR; [by left|].
  apply Forall_cons in Hys as [Hy Hys].
  apply IH in HR as [HR|(z & Hz & Ha)]; [|right|by eapply merges_ok|done].
  - apply (merges_upper _ _ _ _ _ _ H1) in HR as [HR|Ha]; [by left|right|done|done].
    exists y. split; [apply list_elem_of_here|done].
  - exists z. split; [by apply list_elem_of_further|done].
Qed.

(** The parts of a split, by the byte. *)

Lemma parts_cases x conf ys y :
  parts (as_of conf (add_locks x conf)) x ys -> key conf = key x -> y ∈ ys ->
  key y = key x /\
  ((fl_type y = fl_type x /\ forall b, covers y b <-> covers x b) \/
   (fl_type y = fl_type conf /\ forall b, covers y b -> ~ covers x b /\
      (locks_overlap conf x = true -> covers conf b))).
Proof.
  intros Hp Kc Hy. destruct Hp as [z Hk Ht Hb Hv Hs He _ _|l r Hall Hc Hd].
  - apply list_elem_of_singleton in Hy as ->. split; [rewrite Hk; exact Kc|]. left. split; [done|].
    intros b. unfold covers. by rewrite Hs, He.
  - apply elem_of_app in Hy as [Hy|[->|Hy]%elem_of_cons]; [|split; [done|left; done]|];
      (assert (y ∈ l ++ r) as Hy' by (apply elem_of_app; tauto);
       rewrite Forall_forall in Hall; destruct (Hall y Hy') as (Hky & Hty & _);
       split; [rewrite Hky; exact Kc|right]; split; [done|]; intros b Hb; split; [by apply (Hd y)|];
       intros Ho; assert (covers (as_of conf (add_locks x conf)) b) as Hcs by (apply Hc; right; by exists y);
       apply (hull_covers x conf) in Hcs as [Hcs|Hcs]; [by apply (Hd y b) in Hcs|done|done|done]).
Qed.

Lemma parts_cover x conf ys b :
  parts (as_of conf (add_locks x conf)) x ys -> locks_overlap conf x = true ->
  covers x b \/ covers conf b ->
  exists y, y ∈ ys /\ covers y b /\ (fl_type y = fl_type conf \/ (fl_type y = fl_type x /\ covers x b)).
Proof.
  intros Hp Ho Hb. assert (covers (as_of conf (add_locks x conf)) b) as Hs by by apply (hull_covers x conf).
  destruct Hp as [z Hk Ht Hbl Hv Hst He Hst' He'|l r Hall Hc Hd].
  - exists z. split; [apply list_elem_of_here|].
    unfold covers in *. rewrite Hst, He. rewrite Hst', He' in Hs. split; [done|]. right. by split.
  - apply Hc in Hs as [Hs|(y & Hy & Hyb)].
    + exists x. split; [apply elem_of_app; right; apply list_elem_of_here|]. split; [done|]. right. by split.
    + exists y. rewrite Forall_forall in Hall. destruct (Hall y Hy) as (_ & Hty & _).
      split; [apply elem_of_app in Hy; apply elem_of_app; rewrite elem_of_cons; tauto|].
      split; [done|]. left. done.
Qed.

(** *** Lower bound *)

Definition locked (L : list posix_lock) (k : list Z * Z) (b : Z) : Prop := exists t, cov L k t b.

Definition gives (x : posix_lock) (k : list Z * Z) (b : Z) : Prop :=
  key x = k /\ covers x b /\ fl_type x <> F_UNLCK.

Definition frees (x : posix_lock) (k : list Z * Z) (b : Z) : Prop :=
  key x = k /\ covers x b /\ fl_type x = F_UNLCK.

(** One turn keeps what is locked or asked for: it joins two locks of one kind,
    or cuts one out of the other. *)

Lemma turn_keeps L x pre conf post (Q : Prop) k b :
  scan_list x [] L = Same pre conf post -> list_ok L -> lock_ok x ->
  (key x = k -> covers conf b -> Q) -> (gives x k b -> Q) ->
  locked L k b \/ gives x k b -> locked (pre ++ post) k b \/ Q.
Proof.
  intros e HL Hx H1 H2 Hb. destruct (turn_facts L x pre conf post HL Hx e) as (E & HL' & Vc & Lc & Bc & Kc & Ho).
  destruct Hb as [[t Ht]|Hg]; [|by right; apply H2]. rewrite (cov_remove L pre conf post) in Ht by done.
  destruct Ht as [Ht|(Hk & Ht & Hc)]; [left; by exists t|right; apply H1; [congruence|done]].
Qed.

Lemma split_gives L x pre conf post k b :
  scan_list x [] L = Same pre conf post -> list_ok L -> lock_ok x ->
  key x = k -> covers x b \/ covers conf b -> ~ frees x k b ->
  exists y, y ∈ subtract_locks (as_of conf (add_locks x conf)) x /\ gives y k b.
Proof.
  intros e HL Hx Hk Hc Hnf. destruct (turn_facts L x pre conf post HL Hx e) as (E & HL' & Vc & Lc & Bc & Kc & Ho).
  destruct (split_parts x conf Hx Vc Lc) as (Vs & _ & _ & Hp & Hok).
  destruct (parts_cover x conf _ b Hp Ho Hc) as (y & Hy & Hyc & Ht).
  exists y. split; [done|]. destruct (parts_cases x conf _ y Hp Kc Hy) as (Hky & _).
  split_and!; [congruence|done|]. destruct Ht as [Ht|[Ht Hxc]].
  - rewrite Ht. by apply locking_not_unlck.
  - rewrite Ht. intros Hu. by apply Hnf.
Qed.

(** A byte stays locked by its owner unless it is unlocked, and the bytes that
    are asked for get locked. *)

Lemma merges_lower L x R k b :
  merges L x R -> list_ok L -> lock_ok x -> locked L k b \/ gives x k b -> ~ frees x k b ->
  locked R k b.
Proof.
  intros H. revert k b. induction H using merges_mut with
    (P0 := fun L ys R _ => forall k b, list_ok L -> Forall lock_ok ys ->
      locked L k b \/ (exists y, y ∈ ys /\ gives y k b) -> (forall y, y ∈ ys -> ~ frees y k b) ->
      locked R k b);
    intros k b HL Hx Hb Hf; try pose proof Hx as (Vx & Bx & Lx).
  - unfold locked. setoid_rewrite cov_snoc.
    destruct Hb as [[t Ht]|(Hk & Hc & Hu)]; [by exists t; left|]. exists (fl_type x). by right.
  - unfold locked. setoid_rewrite cov_snoc.
    destruct Hb as [[t Ht]|(Hk & Hc & Hu)]; [by exists t; left|]. exists (fl_type x). by right.
  - destruct Hb as [Hb|(Hk & Hc & Hu)]; done.
  - destruct (turn_facts L x pre conf post HL Hx e) as (E & HL' & Vc & Lc & Bc & Kc & Ho).
    apply IHmerges; [done|by apply join_ok| |].
    + assert (Hh : covers x b \/ covers conf b -> covers (refresh (as_of x (add_locks x conf))) b)
        by (by apply (hull_covers x conf)).
      apply (turn_keeps L x pre conf post _ k b e HL Hx); [| |done].
      * intros Hk Hc. split_and!; [done|by apply Hh; right|]. cbn. rewrite <- e0. by apply locking_not_unlck.
      * intros (Hk & Hc & Hu). split_and!; [done|by apply Hh; left|done].
    + intros (_ & _ & Hu). cbn in Hu. rewrite <- e0 in Hu. by apply locking_not_unlck in Hu.
  - destruct (turn_facts L x pre conf post HL Hx e) as (E & HL' & Vc & Lc & Bc & Kc & Ho).
    destruct (split_parts x conf Hx Vc Lc) as (Vs & _ & _ & Hp & Hok).
    rewrite delete_unlck_ok by (by eapply merges_all_ok).
    apply IHmerges; [done|done| |].
    + apply (turn_keeps L x pre conf post _ k b e HL Hx); [| |done].
      * intros Hk Hc. apply (split_gives L x pre conf post); auto.
      * intros (Hk & Hc & Hu). apply (split_gives L x pre conf post); auto.
    + intros y Hy (Hk & Hc & Hu). destruct (parts_cases x conf _ y Hp Kc Hy) as (Hky & [[Ht Hcx]|[Ht Hcx]]).
      * apply Hf. split_and!; [congruence|by apply Hcx|congruence].
      * rewrite Ht in Hu. by apply locking_not_unlck in Hu.
  - destruct Hb as [Hb|(y & []%elem_of_nil & _)]. done.
  - apply Forall_cons in Hx as [Hy Hys].
    apply IHmerges0; [by eapply merges_ok|done| |].
    + destruct Hb as [Hb|(z & [->|Hz]%elem_of_cons & Hg)].
      * left. apply IHmerges; [done|done|by left|]. apply (Hf y), list_elem_of_here.
      * left. apply IHmerges; [done|done|by right|]. apply (Hf y), list_elem_of_here.
      * right. by exists z.
    + intros z Hz. by apply Hf, list_elem_of_further.
Qed.

(** Locks of other owners do not change. *)

Lemma merges_foreign L x R k t b :
  merges L x R -> list_ok L -> lock_ok x -> key x <> k -> cov L k t b -> cov R k t b.
Proof.
  intros H. revert k t b. induction H using merges_mut with
    (P0 := fun L ys R _ => forall k t b, list_ok L -> Forall lock_ok ys ->
      (forall y, y ∈ ys -> key y <> k) -> cov L k t b -> cov R k t b);
    intros k t b HL Hx Hk Hb; try pose proof Hx as (Vx & Bx & Lx).
  - apply cov_snoc. by left.
  - apply cov_snoc. by left.
  - done.
  - destruct (turn_facts L x pre conf post HL Hx e) as (E & HL' & Vc & Lc & Bc & Kc & Ho).
    apply IHmerges; [done|by apply join_ok|done|].
    rewrite (cov_remove L pre conf post) in Hb by done. destruct Hb as [Hb|(Hk' & _)]; [done|congruence].
  - destruct (turn_facts L x pre conf post HL Hx e) as (E & HL' & Vc & Lc & Bc & Kc & Ho).
    destruct (split_parts x conf Hx Vc Lc) as (Vs & _ & _ & Hp & Hok).
    rewrite delete_unlck_ok by (by eapply merges_all_ok).
    apply IHmerges; [done|done| |].
    + intros y Hy. destruct (parts_cases x conf _ y Hp Kc Hy) as (Hky & _). congruence.
    + rewrite (cov_remove L pre conf post) in Hb by done. destruct Hb as [Hb|(Hk' & _)]; [done|congruence].
  - done.
  - apply Forall_cons in Hx as [Hy Hys]. apply IHmerges0; [by eapply merges_ok|done| |].
    + intros z Hz. by apply Hk, list_elem_of_further.
    + apply IHmerges; [done|done| |done]. apply (Hk y), list_elem_of_here.
Qed.

(** Nothing of an unlocked range stays. *)

Lemma merges_unlock L x R t b :
  merges L x R -> list_ok L -> lock_ok x -> fl_type x = F_UNLCK -> covers x b -> ~ cov R (key x) t b.
Proof.
  intros H. revert t b. induction H using merges_mut with
    (P0 := fun L ys R _ => forall x t b, list_ok L -> Forall lock_ok ys -> x ∈ ys ->
      fl_type x = F_UNLCK -> covers x b -> (forall y, y ∈ ys -> fl_type y <> F_UNLCK -> ~ covers y b) ->
      ~ cov R (key x) t b).
  - intros t b HL Hx Hu. apply scan_shared in e as [Tx _]. congruence.
  - done.
  - intros t b HL Hx _ Hc (l & Hl & Bl & Kl & Tl & Cl).
    pose proof (scan_clear x [] L e l Hl Bl Kl) as Ho. unfold list_ok in HL. rewrite Forall_forall in HL.
    assert (locks_overlap l x = true) by (apply overlap_spec; unfold covers in *; lia). congruence.
  - intros t b HL Hx Hu. destruct (turn_facts L x pre conf post HL Hx e) as (_ & _ & _ & Lc & _).
    rewrite <- e0 in Hu. by apply locking_not_unlck in Hu.
  - intros t b HL Hx Hu Hc.
    destruct (turn_facts L x pre conf post HL Hx e) as (E & HL' & Vc & Lc & Bc & Kc & Ho).
    destruct (split_parts x conf Hx Vc Lc) as (Vs & _ & _ & Hp & Hok).
    rewrite delete_unlck_ok by (by eapply merges_all_ok).
    destruct (parts_cover x conf _ b Hp Ho (or_introl Hc)) as (y & Hy & Hyc & Ht).
    destruct (parts_cases x conf _ y Hp Kc Hy) as (Hky & [[Hty Hcx]|[Hty Hcx]]);
      [|destruct (Hcx b Hyc); done]. rewrite <- Hky.
    apply (IHmerges y); [done|done|done|congruence|done|]. intros z Hz Huz Hcz.
    destruct (parts_cases x conf _ z Hp Kc Hz) as (_ & [[Htz _]|[_ Hcz']]); [congruence|].
    by destruct (Hcz' b Hcz).
  - intros x t b _ _ []%elem_of_nil.
  - intros x t b HL Hys Hx Hu Hc Hd HR. apply Forall_cons in Hys as [Hy Hys].
    apply elem_of_cons in Hx as [->|Hx].
    + apply (merges_all_upper _ _ _ _ _ _ m) in HR as [HR|(z & Hz & _ & Hzt & Hzc & Hzu)];
        [| |by eapply merges_ok|done].
      * by apply (IHmerges t b) in HR.
      * apply (Hd z); [by apply list_elem_of_further| |done]. congruence.
    + apply (IHmerges0 x t b) in HR; try done; [by eapply merges_ok|].
      intros z Hz. by apply Hd, list_elem_of_further.
Qed.

(** ** The exact result

    When no byte has two types of locks of one owner, an insertion changes the
    bytes of the inserted range to its type and nothing else. The exception is
    a read lock that replaces a write lock of its owner while another owner has
    a read lock: see [scan_shared]. *)

Definition uniform (L : list posix_lock) : Prop :=
  forall k t t' b, cov L k t b -> cov L k t' b -> t = t'.

Definition unshared (x : posix_lock) (L : list posix_lock) : Prop :=
  fl_type x = F_RDLCK ->
  (forall k b, k <> key x -> ~ cov L k F_RDLCK b) \/ (forall b, covers x b -> ~ cov L (key x) F_WRLCK b).

(** The locked bytes after [x] has been set. *)

Definition after (S : list Z * Z -> lk_type -> Z -> Prop) (x : posix_lock)
    (k : list Z * Z) (t : lk_type) (b : Z) : Prop :=
  asked x k t b \/ (~ (key x = k /\ covers x b) /\ S k t b).

Lemma uniform_after L x R :
  uniform L -> (forall k t b, cov R k t b <-> after (cov L) x k t b) -> uniform R.
Proof.
  intros HU HR k t t' b. rewrite !HR. intros [(? & Ht & ? & _)|[Hn Hc]] [(? & Ht' & ? & _)|[Hn' Hc']].
  - congruence.
  - by exfalso; apply Hn'.
  - by exfalso; apply Hn.
  - by eapply HU.
Qed.

Lemma covers_dec x k b : {key x = k /\ covers x b} + {~ (key x = k /\ covers x b)}.
Proof.
  destruct (decide (key x = k)); [|right; tauto]. unfold covers.
  destruct (Z_le_dec (fl_start x) b), (Z_le_dec b (fl_end x)); first [left; done|right; tauto].
Qed.

(** A sequence of locks of one owner. *)

Definition seq_ok (L ys : list posix_lock) (k0 : list Z * Z) : Prop :=
  forall y, y ∈ ys -> key y = k0 /\ (fl_type y = F_RDLCK ->
    (forall k b, k <> k0 -> ~ cov L k F_RDLCK b) \/
    forall b, covers y b -> ~ cov L k0 F_WRLCK b /\
      forall z, z ∈ ys -> fl_type z = F_WRLCK -> ~ covers z b).

Definition after_all (S : list Z * Z -> lk_type -> Z -> Prop) (ys : list posix_lock) :=
  foldl after S ys.

Lemma after_ext S S' x k t b :
  (forall k t b, S k t b <-> S' k t b) -> after S x k t b <-> after S' x k t b.
Proof. intros H. unfold after. by rewrite H. Qed.

Lemma after_all_ext S S' ys k t b :
  (forall k t b, S k t b <-> S' k t b) -> after_all S ys k t b <-> after_all S' ys k t b.
Proof.
  revert S S'. induction ys as [|y ys IH]; intros S S' H; cbn [after_all foldl]; [apply H|].
  apply IH. intros. by apply after_ext.
Qed.

Lemma seq_ok_step L y ys L1 k0 :
  seq_ok L (y :: ys) k0 -> (forall k t b, cov L1 k t b <-> after (cov L) y k t b) -> seq_ok L1 ys k0.
Proof.
  intros H HL1 z Hz. destruct (H y (list_elem_of_here _ _)) as [Ky _].
  destruct (H z (list_elem_of_further _ _ _ Hz)) as [Kz Hr]. split; [done|].
  intros Tz. destruct (Hr Tz) as [Hf|Hw].
  - left. intros k b Hk. rewrite HL1. intros [(Hk' & _)|[_ Hc]]; [congruence|by apply (Hf k b)].
  - right. intros b Hb. destruct (Hw b Hb) as [Hc Hz']. split.
    + rewrite HL1. intros [(_ & Ht & Hcy & _)|[_ Hc']]; [|done].
      by apply (Hz' y (list_elem_of_here _ _) Ht).
    + intros w Hwin. apply Hz'. by apply list_elem_of_further.
Qed.

Lemma shared_exact L x k t b :
  scan_list x [] L = Shared -> list_ok L -> lock_ok x -> unshared x L ->
  cov (L ++ [x]) k t b <-> after (cov L) x k t b.
Proof.
  intros Hs HL (Vx & Bx & _) Hu. apply scan_shared in Hs as (Tx & c & Hc & Bc & Oc & Kc & Tc).
  rewrite cov_snoc. unfold after, asked. split.
  - intros [H|(_ & Hk & Ht & Hb)].
    + destruct (covers_dec x k b) as [[Hk Hb]|Hn]; [left|by right].
      split_and!; [done| |done|]; destruct (cov_locking L k t b HL H) as [->| ->]; try done.
      destruct (Hu Tx) as [Hf|Hw].
      * exfalso. unfold list_ok in HL. rewrite Forall_forall in HL. destruct (HL c Hc) as [Vc _].
        apply (Hf (key c) (fl_start c)); [done|]. exists c. unfold covers, valid in *.
        split_and!; try done; lia.
      * subst k. by apply Hw in Hb.
    + left. split_and!; try done. congruence.
  - intros [(Hk & Ht & Hb & _)|[_ H]]; [right|by left]. by split_and!.
Qed.

Lemma clear_exact L x k t b :
  scan_list x [] L = Clear -> list_ok L -> lock_ok x ->
  cov (if is_type (fl_type x) F_UNLCK then L else L ++ [x]) k t b <-> after (cov L) x k t b.
Proof.
  intros Hs HL (Vx & Bx & _).
  assert (cov L k t b -> ~ (key x = k /\ covers x b)) as Hn.
  { intros (l & Hl & Bl & Kl & Tl & Cl) [Hk Hb].
    pose proof (scan_clear x [] L Hs l Hl Bl ltac:(congruence)) as Ho.
    assert (locks_overlap l x = true) by (apply overlap_spec; unfold covers in *; lia). congruence. }
  unfold after, asked. destruct (is_type (fl_type x) F_UNLCK) eqn:Ht.
  - apply is_type_spec in Ht. split; [intros H; right; by split; [apply Hn|]|].
    intros [(_ & Ht' & _ & Hu)|[_ H]]; [congruence|done].
  - apply is_type_false in Ht. rewrite cov_snoc. split.
    + intros [H|(_ & Hk & Ht' & Hb)]; [right; by split; [apply Hn|]|left]. split_and!; congruence || done.
    + intros [(Hk & Ht' & Hb & _)|[_ H]]; [right|by left]. by split_and!.
Qed.

Lemma join_exact L x pre conf post k t b :
  list_ok L -> uniform L -> L = pre ++ conf :: post -> blocked conf = false -> key conf = key x ->
  locks_overlap conf x = true -> locking conf -> fl_type conf = fl_type x ->
  after (cov (pre ++ post)) (refresh (as_of x (add_locks x conf))) k t b <-> after (cov L) x k t b.
Proof.
  intros HL HU E Bc Kc Ho Lc Ht. unfold after, asked.
  pose proof (cov_remove L pre conf post k t b E Bc) as Hrem.
  assert (covers (refresh (as_of x (add_locks x conf))) b <-> covers x b \/ covers conf b) as Hh
    by by apply (hull_covers x conf).
  change (key (refresh (as_of x (add_locks x conf)))) with (key x).
  change (fl_type (refresh (as_of x (add_locks x conf)))) with (fl_type x). rewrite Hh, Hrem.
  apply locking_not_unlck in Lc. split.
  - intros [(Hk & Ht' & [Hb|Hb] & Hu)|[Hn Hc]].
    + by left.
    + destruct (covers_dec x k b) as [[_ Hxb]|Hn]; [by left|right]. split; [done|]. right.
      split_and!; congruence || done.
    + right. split; [tauto|]. by left.
  - intros [(Hk & Ht' & Hb & Hu)|[Hn [Hc|(Hk & Ht' & Hb)]]].
    + left. split_and!; try done. by left.
    + destruct (decide (key x = k)) as [Hk|Hk]; [|right; split; [tauto|done]].
      destruct (covers_dec conf k b) as [[Hkc Hcb]|Hnc].
      * left. assert (t = fl_type conf) as ->.
        { apply (HU k t (fl_type conf) b); rewrite (cov_remove L pre conf post) by done; [by left|by right]. }
        split_and!; [done|congruence|by right|congruence].
      * right. split; [|done]. intros [_ [Hb|Hb]]; [by apply Hn|]. apply Hnc. split; [congruence|done].
    + left. split_and!; [congruence|congruence|by right|congruence].
Qed.

#[local] Instance covers_decision x b : Decision (covers x b).
Proof. unfold covers. apply _. Defined.

(** Locks of one owner and one type, one after the other. *)

Lemma after_pieces S p k0 t0 k t b :
  t0 <> F_UNLCK -> Forall (fun y => key y = k0 /\ fl_type y = t0) p ->
  after_all S p k t b <->
  (k = k0 /\ t = t0 /\ Exists (fun y => covers y b) p) \/
  (~ (k = k0 /\ Exists (fun y => covers y b) p) /\ S k t b).
Proof.
  intros Hu. revert S. induction p as [|y p IH]; intros S Hp; cbn [after_all foldl].
  - rewrite Exists_nil. tauto.
  - apply Forall_cons in Hp as [[Ky Ty] Hp]. fold (after_all (after S y) p). rewrite IH by done.
    rewrite Exists_cons. unfold after at 1, asked. rewrite Ky, Ty.
    destruct (decide (Exists (fun y => covers y b) p)), (decide (covers y b)),
      (decide (k = k0)); naive_solver.
Qed.

Lemma split_exact L x pre conf post ys k t b :
  uniform L -> L = pre ++ conf :: post -> blocked conf = false -> key conf = key x ->
  locks_overlap conf x = true -> locking conf ->
  parts (as_of conf (add_locks x conf)) x ys ->
  after_all (cov (pre ++ post)) ys k t b <-> after (cov L) x k t b.
Proof.
  intros HU E Bc Kc Ho Lc Hp. pose proof (cov_remove L pre conf post k t b E Bc) as Hrem.
  assert (covers (as_of conf (add_locks x conf)) b <-> covers x b \/ covers conf b) as Hh
    by by apply (hull_covers x conf).
  apply locking_not_unlck in Lc.
  destruct Hp as [y Hk Ht Hb Hv Hs He Hs' He'|l r Hall Hc Hd].
  - cbn [after_all foldl]. unfold after, asked. rewrite Hk, Ht.
    change (key (as_of conf (add_locks x conf))) with (key conf). rewrite Hrem, Kc.
    assert (covers y b <-> covers x b) as -> by (unfold covers; by rewrite Hs, He).
    assert (covers conf b -> covers x b) as Hcx.
    { intros H. unfold covers. rewrite <- Hs', <- He'. apply Hh. by right. }
    destruct (decide (covers x b)), (decide (key x = k)); tauto.
  - apply Forall_app in Hall as Hall'. destruct Hall' as [Hl Hr].
    assert (forall m, Forall (fun y => key y = key (as_of conf (add_locks x conf)) /\
      fl_type y = fl_type (as_of conf (add_locks x conf)) /\
      blocked y = blocked (as_of conf (add_locks x conf)) /\ valid y) m ->
      Forall (fun y => key y = key x /\ fl_type y = fl_type conf) m) as Hm.
    { intros m H. eapply Forall_impl; [exact H|]. intros y (Ky & Ty & _). split; [by rewrite Ky|by rewrite Ty]. }
    unfold after_all. rewrite foldl_app. cbn [foldl]. fold (after_all (cov (pre ++ post)) l).
    fold (after_all (after (after_all (cov (pre ++ post)) l) x) r).
    rewrite (after_pieces _ r (key x) (fl_type conf)) by auto.
    unfold after. rewrite (after_pieces _ l (key x) (fl_type conf)) by auto.
    assert (Exists (fun y => covers y b) l \/ Exists (fun y => covers y b) r <->
      covers conf b /\ ~ covers x b) as Hlr.
    { rewrite <- Exists_app, Exists_exists. specialize (Hc b). split.
      - intros (y & Hy & Hyb). pose proof (Hd y b Hy Hyb). split; [|done].
        assert (covers x b \/ covers conf b) as [|]; [apply Hh, Hc; right; by exists y|done|done].
      - intros [H1 H2]. apply proj1 in Hc. destruct Hc as [|H]; [apply Hh; by right|done|exact H]. }
    assert (forall t', cov L k t' b -> k = key x -> covers conf b -> t' = fl_type conf) as Hun.
    { intros t' Ht' -> Hcb. apply (HU (key x) t' (fl_type conf) b); [done|].
      apply (cov_remove L pre conf post); [done|done|]. by right. }
    specialize (Hun t). rewrite Hrem, Kc in *. unfold asked.
    assert (key x = k <-> k = key x) as -> by (split; congruence).
    assert (fl_type conf = t <-> t = fl_type conf) as EqT by (split; congruence).
    rewrite EqT in *. clear - Hlr Hun.
    destruct (decide (Exists (fun y => covers y b) l)), (decide (Exists (fun y => covers y b) r)),
      (decide (covers x b)), (decide (covers conf b)), (decide (k = key x)); tauto.
Qed.

Lemma cov_rest L pre conf post k t b :
  L = pre ++ conf :: post -> blocked conf = false -> cov (pre ++ post) k t b -> cov L k t b.
Proof. intros E Bc H. rewrite (cov_remove L pre conf post) by done. by left. Qed.

Lemma cov_conf L pre conf post b :
  L = pre ++ conf :: post -> blocked conf = false -> covers conf b ->
  cov L (key conf) (fl_type conf) b.
Proof. intros E Bc H. rewrite (cov_remove L pre conf post) by done. by right. Qed.

Lemma uniform_rest L pre conf post :
  L = pre ++ conf :: post -> blocked conf = false -> uniform L -> uniform (pre ++ post).
Proof. intros E Bc HU k t t' b H1 H2. apply (HU k t t' b); by eapply cov_rest. Qed.

(** The conditions of an exact result hold for the locks of the next turn. *)

Lemma join_unshared L x pre conf post :
  L = pre ++ conf :: post -> blocked conf = false -> key conf = key x ->
  locks_overlap conf x = true -> fl_type conf = fl_type x -> uniform L -> unshared x L ->
  unshared (refresh (as_of x (add_locks x conf))) (pre ++ post).
Proof.
  intros E Bc Kc Ho Ht HU Hu Tx. change (fl_type x = F_RDLCK) in Tx.
  change (key (refresh (as_of x (add_locks x conf)))) with (key x). destruct (Hu Tx) as [Hf|Hw].
  - left. intros k b Hk H1. apply (Hf k b); [done|by eapply cov_rest].
  - right. intros b Hb H1. apply (cov_rest L pre conf post) in H1; [|done|done].
    apply (hull_covers x conf) in Hb as [Hb|Hb]; [by apply (Hw b)| |done|done].
    pose proof (cov_conf L pre conf post b E Bc Hb) as H2. rewrite Kc in H2.
    pose proof (HU _ _ _ _ H1 H2). congruence.
Qed.

Lemma split_seq_ok L x pre conf post ys :
  L = pre ++ conf :: post -> blocked conf = false -> key conf = key x ->
  locks_overlap conf x = true -> fl_type conf <> fl_type x -> valid x -> valid conf -> locking conf ->
  parts (as_of conf (add_locks x conf)) x ys -> uniform L -> unshared x L ->
  seq_ok (pre ++ post) ys (key x).
Proof.
  intros E Bc Kc Ho Hne Vx Vc Lc Hp HU Hu y Hy. apply overlap_spec in Ho as Ho'.
  destruct (parts_cases x conf _ y Hp Kc Hy) as (Hky & Hcase). split; [done|]. intros Ty.
  destruct Hcase as [[Htx Hcx]|[Htc Hcc]].
  - left. destruct (Hu ltac:(congruence)) as [Hf|Hw].
    + intros k b Hk H1. apply (Hf k b); [done|by eapply cov_rest].
    + exfalso. unfold valid in Vx, Vc. set (m := Z.max (fl_start x) (fl_start conf)).
      assert (covers conf m) as Hm by (unfold covers; lia).
      pose proof (cov_conf L pre conf post m E Bc Hm) as H1. rewrite Kc in H1.
      apply (Hw m); [unfold covers; lia|]. destruct Lc as [Tc|Tc]; [congruence|by rewrite <- Tc].
  - right. intros b Hb. destruct (Hcc b Hb) as [Hnx Hcb]. split.
    + intros H1. apply (cov_rest L pre conf post) in H1; [|done|done].
      pose proof (cov_conf L pre conf post b E Bc (Hcb Ho)) as H2. rewrite Kc in H2.
      pose proof (HU _ _ _ _ H1 H2). congruence.
    + intros z Hz Tz Hzb. destruct (parts_cases x conf _ z Hp Kc Hz) as (_ & [[_ Hzx]|[Htz _]]);
        [by apply Hnx, Hzx|congruence].
Qed.

Lemma merges_exact L x R :
  merges L x R -> list_ok L -> lock_ok x -> uniform L -> unshared x L ->
  forall k t b, cov R k t b <-> after (cov L) x k t b.
Proof.
  intros H. induction H using merges_mut with
    (P0 := fun L ys R _ => forall k0, list_ok L -> Forall lock_ok ys -> uniform L -> seq_ok L ys k0 ->
      forall k t b, cov R k t b <-> after_all (cov L) ys k t b).
  - intros HL Hx HU Hu k t b. by apply shared_exact.
  - intros HL Hx HU Hu k t b. rewrite <- clear_exact by done.
    apply is_type_false in n. by rewrite n.
  - intros HL Hx HU Hu k t b. rewrite <- clear_exact by done.
    apply is_type_spec in e0. by rewrite e0.
  - intros HL Hx HU Hu k t b.
    destruct (turn_facts L x pre conf post HL Hx e) as (E & HL' & Vc & Lc & Bc & Kc & Ho).
    rewrite IHmerges; [by apply (join_exact L x pre conf post)|done|by apply join_ok| |].
    + by eapply uniform_rest.
    + by eapply join_unshared.
  - intros HL Hx HU Hu k t b.
    destruct (turn_facts L x pre conf post HL Hx e) as (E & HL' & Vc & Lc & Bc & Kc & Ho).
    destruct (split_parts x conf Hx Vc Lc) as (Vs & _ & _ & Hp & Hok).
    rewrite delete_unlck_ok by (by eapply merges_all_ok).
    rewrite (IHmerges (key x)); [by apply (split_exact L x pre conf post)|done|done| |].
    + by eapply uniform_rest.
    + eapply (split_seq_ok L x pre conf post); try done. apply Hx.
  - intros k0 _ _ _ _ k t b. done.
  - intros k0 HL Hys HU Hseq k t b. apply Forall_cons in Hys as [Hy Hys].
    assert (forall k t b, cov L1 k t b <-> after (cov L) y k t b) as H1.
    { destruct (Hseq y (list_elem_of_here _ _)) as [Ky Hr]. intros k' t' b'.
      rewrite IHmerges; [done|done|done|done|]. intros Ty. change (key (refresh y)) with (key y).
      rewrite Ky. destruct (Hr Ty) as [Hf|Hw]; [by left|right]. intros b2 Hb2. by apply Hw. }
    rewrite (IHmerges0 k0); [|by eapply merges_ok|done|by eapply uniform_after|by eapply seq_ok_step].
    cbn [after_all foldl]. by apply after_all_ext.
Qed.
