(* ===== verification/LocksProps.v ===== *)
(** * Critical sections of the lock translator

    What granting, inserting, waking and closing do to the locked bytes, to the
    requests that wait and to the answers that are sent. LocksRun.v interleaves
    them. *)

From Stdlib Require Import ZArith Lia Bool.
From stdpp Require Import base list gmap.
From S2P Require Import Prelude Locks LocksMerge LocksCover.

(** ** Exclusion *)

Definition exclusive (L : list posix_lock) : Prop :=
  forall k k' t t' b, cov L k t b -> cov L k' t' b -> k <> k' -> t = F_RDLCK /\ t' = F_RDLCK.

Lemma grantable_spec L x :
  __is_lock_grantable L x = true <->
  fl_type x = F_UNLCK \/
  forall l, l ∈ L -> blocked l = false -> locks_overlap x l = true -> key l <> key x ->
    fl_type l <> F_WRLCK /\ fl_type x <> F_WRLCK.
Proof.
  unfold __is_lock_grantable. rewrite negb_true_iff, <- not_true_iff_false, existsb_exists. split.
  - intros H. destruct (decide (fl_type x = F_UNLCK)) as [|Hu]; [by left|right]. intros l Hl Bl Ho Hk.
    assert (excludes x l = false) as He.
    { apply not_true_is_false. intros He. apply H. exists l. by rewrite <- list_elem_of_In. }
    unfold excludes in He. rewrite Bl, Ho in He. cbn [negb andb] in He.
    apply is_type_false in Hu. rewrite Hu in He. cbn [negb] in He.
    assert (same_owner l x = false) as Hs by (apply not_true_is_false; by rewrite same_owner_spec).
    rewrite Hs in He. cbn [negb] in He. rewrite !andb_true_r in He.
    apply orb_false_iff in He as [H1%is_type_false H2%is_type_false]. done.
  - intros H (l & Hl%list_elem_of_In & He). unfold excludes in He.
    rewrite !andb_true_iff, !negb_true_iff in He. destruct He as [[Bl Ho] [[Ht Hu] Hs]].
    apply is_type_false in Hu. destruct H as [H|H]; [done|].
    destruct (H l Hl Bl Ho) as [H1 H2]; [intros Hk; apply same_owner_spec in Hk; congruence|].
    apply is_type_false in H1, H2. by rewrite H1, H2 in Ht.
Qed.

Lemma asked_locking x k t b : lock_ok x -> asked x k t b -> t = F_RDLCK \/ t = F_WRLCK.
Proof. intros (_ & _ & Lx) (_ & <- & _ & Hu). destruct Lx as [Lx|Lx]; [exact Lx|done]. Qed.

Lemma merges_exclusive L x R :
  merges L x R -> list_ok L -> lock_ok x -> exclusive L -> __is_lock_grantable L x = true -> exclusive R.
Proof.
  intros Hm HL Hx HE Hg.
  assert (forall k k' t t' b, asked x k t b -> cov L k' t' b -> k <> k' -> t = F_RDLCK /\ t' = F_RDLCK) as Hone.
  { intros k k' t t' b Ha Hc Hk. pose proof (asked_locking x k t b Hx Ha) as Ht.
    pose proof (cov_locking L k' t' b HL Hc) as Ht'. destruct Ha as (<- & <- & Hb & Hu).
    destruct Hc as (l & Hl & Bl & <- & <- & Hlb).
    apply grantable_spec in Hg as [Hg|Hg]; [done|].
    destruct (Hg l Hl Bl) as [H1 H2]; [apply overlap_spec; unfold covers in *; lia|done|].
    destruct Ht, Ht'; done. }
  intros k k' t t' b Hc Hc' Hk.
  apply (merges_upper _ _ _ _ _ _ Hm) in Hc as [Hc|Ha]; [| |done|done];
    (apply (merges_upper _ _ _ _ _ _ Hm) in Hc' as [Hc'|Ha']; [| |done|done]).
  - by eapply HE.
  - destruct (Hone k' k t' t b Ha' Hc) as [? ?]; [done|]. done.
  - by eapply Hone.
  - destruct Ha as (? & _), Ha' as (? & _). congruence.
Qed.

(** An insertion of a lock that can be granted. *)

Lemma insert_spec L x :
  list_ok L -> lock_ok x -> exclusive L -> __is_lock_grantable L x = true ->
  exists R, __insert_and_merge L x = Some R /\ merges L x R /\ list_ok R /\ exclusive R /\
    blocked_of R = blocked_of L.
Proof.
  intros HL Hx HE Hg. destruct (insert_and_merge_returns L x HL Hx) as (R & HR & HRok).
  pose proof (insert_merges _ _ _ _ HR) as Hm. exists R.
  split_and!; [done|done|done|by eapply merges_exclusive|by eapply merges_ok].
Qed.

(** ** Waking *)

(** A granted lock covers a byte of [l]. *)

Definition overlapped (L : list posix_lock) (l : posix_lock) : Prop :=
  exists k b, locked L k b /\ covers l b.

(** Every waiting request waits for a granted lock. *)

Definition waits_for (L : list posix_lock) : Prop :=
  forall l, l ∈ blocked_of L -> overlapped L l.

Definition grows (L R : list posix_lock) : Prop := forall k b, locked L k b -> locked R k b.

Lemma overlapped_grows L R l : grows L R -> overlapped L l -> overlapped R l.
Proof. intros HG (k & b & Hl & Hc). exists k, b. split; [by apply HG|done]. Qed.

Lemma cov_blocked L L' k t b :
  (forall l, l ∈ L' -> blocked l = true) -> cov (L ++ L') k t b <-> cov L k t b.
Proof.
  intros H. rewrite cov_app. split; [|by left]. intros [Hc|(l & Hl & Bl & _)]; [done|].
  apply H in Hl. congruence.
Qed.

Lemma not_grantable_overlapped L x :
  list_ok L -> valid x -> __is_lock_grantable L x = false -> overlapped L x.
Proof.
  intros HL Hv Hg. unfold __is_lock_grantable in Hg. apply negb_false_iff, existsb_exists in Hg.
  destruct Hg as (l & Hl%list_elem_of_In & He). unfold excludes in He. rewrite !andb_true_iff in He.
  destruct He as [[Bl%negb_true_iff Ho] _].
  unfold list_ok in HL. rewrite Forall_forall in HL. destruct (HL l Hl) as [Vl _].
  apply overlap_byte in Ho as (b & Hx & Hb); [|done|done].
  exists (key l), b. split; [|done]. exists (fl_type l), l. by split_and!.
Qed.

(** One request that is woken. *)

Lemma wake_spec L G w :
  list_ok L -> exclusive L -> valid w -> locking w -> blocked w = false ->
  exists L' G', wake_one (Some (L, G)) w = Some (L', G') /\ list_ok L' /\ exclusive L' /\ grows L L' /\
    ((blocked_of L' = blocked_of L /\ frame <$> G' = frame w :: (frame <$> G)) \/
     (blocked_of L' = blocked_of L ++ [set_blocked true w] /\ G' = G /\ overlapped L' w)).
Proof.
  intros HL HE Vw Lw Bw. unfold wake_one. cbn [mbind option_bind].
  destruct (__is_lock_grantable L w) eqn:Hg.
  - assert (lock_ok (set_frame None w)) as Hw by (split_and!; [done|done|by left]).
    destruct (insert_spec L (set_frame None w)) as (R & -> & Hm & HR & HER & Hb); [done|done|done|done|].
    cbn [mbind option_bind]. eexists _, _. split; [done|]. split_and!; [done|done| |by left].
    intros k b Hk. eapply merges_lower; [done|done|done|by left|].
    intros (_ & _ & Hu). by apply locking_not_unlck in Lw.
  - eexists _, _. split; [done|]. unfold __insert_lock.
    assert (forall k t b, cov (L ++ [set_blocked true w]) k t b <-> cov L k t b) as Hc.
    { intros k t b. apply cov_blocked. intros l Hl. apply list_elem_of_singleton in Hl as ->. done. }
    split_and!.
    + apply Forall_app. split; [done|]. by apply Forall_singleton.
    + intros k k' t t' b. rewrite !Hc. apply HE.
    + intros k b [t Ht]. exists t. by apply Hc.
    + right. rewrite blocked_app. cbn. split_and!; [done|done|].
      destruct (not_grantable_overlapped L w HL Vw Hg) as (k & b & [t Ht] & Hcw).
      exists k, b. split; [exists t; by apply Hc|done].
Qed.

Lemma wake_all L G ws :
  list_ok L -> exclusive L -> waits_for L ->
  Forall (fun w => valid w /\ locking w /\ blocked w = false) ws ->
  exists L' G', foldl wake_one (Some (L, G)) ws = Some (L', G') /\ list_ok L' /\ exclusive L' /\
    waits_for L' /\ grows L L' /\
    Permutation (frame <$> (blocked_of L' ++ G')) (frame <$> (blocked_of L ++ G ++ ws)).
Proof.
  intros HL HE HW Hws. revert L G HL HE HW. induction Hws as [|w ws (Vw & Lw & Bw) _ IH]; intros L G HL HE HW.
  { exists L, G. cbn [foldl]. split_and!; try done; [by intros k b Hk|by rewrite app_nil_r]. }
  cbn [foldl]. destruct (wake_spec L G w HL HE Vw Lw Bw) as (L1 & G1 & -> & HL1 & HE1 & Hg1 & Hcase).
  assert (waits_for L1) as HW1.
  { intros l Hl. destruct Hcase as [[Hb _]|(Hb & _ & Ho)]; rewrite Hb in Hl.
    - by eapply overlapped_grows, HW.
    - apply elem_of_app in Hl as [Hl|Hl]; [by eapply overlapped_grows, HW|].
      apply list_elem_of_singleton in Hl as ->. exact Ho. }
  destruct (IH L1 G1 HL1 HE1 HW1) as (L' & G' & Hf & HL' & HE' & HW' & Hg' & HP).
  exists L', G'. split_and!; try done; [intros k b Hk; by apply Hg', Hg1|]. rewrite HP.
  rewrite !fmap_app, fmap_cons. destruct Hcase as [[-> ->]|(-> & -> & _)].
  - cbn [app]. by rewrite Permutation_middle.
  - rewrite fmap_app. cbn. rewrite <- !app_assoc. cbn [app]. by rewrite Permutation_middle.
Qed.

Lemma first_overlap_spec L l :
  list_ok L -> valid l -> first_overlap L l <> None -> overlapped L l.
Proof.
  intros HL Vl H. unfold first_overlap in H. destruct (List.find _ L) as [c|] eqn:Hf; [|done].
  apply List.find_some in Hf as [Hc%list_elem_of_In Hb]. apply andb_true_iff in Hb as [Bc%negb_true_iff Ho].
  unfold list_ok in HL. rewrite Forall_forall in HL. destruct (HL c Hc) as [Vc _].
  apply overlap_byte in Ho as (b & Hcb & Hlb); [|done|done].
  exists (key c), b. split; [|done]. exists (fl_type c), c. by split_and!.
Qed.

Lemma wakes_blocked ext ws :
  Forall (fun l => blocked l = true) (List.filter (wakes ext) ws).
Proof.
  apply Forall_forall. intros l Hl. apply elem_filter in Hl as [_ Hl]. unfold wakes in Hl.
  by apply andb_true_iff in Hl as [? _].
Qed.

Lemma blocked_all L : Forall (fun l => blocked l = true) L -> blocked_of L = L.
Proof. unfold blocked_of. induction 1 as [|l L Hl _ IH]; cbn; [done|]. by rewrite Hl, IH. Qed.

Lemma grant_spec ext :
  list_ok ext -> exclusive ext ->
  exists ext' G, __grant_blocked_locks ext = Some (ext', G) /\ list_ok ext' /\ exclusive ext' /\
    waits_for ext' /\ grows ext ext' /\
    Permutation (frame <$> (blocked_of ext' ++ G)) (frame <$> blocked_of ext).
Proof.
  intros HL HE. unfold __grant_blocked_locks.
  set (rest := List.filter (fun l => negb (wakes ext l)) ext).
  assert (forall k t b, cov rest k t b <-> cov ext k t b) as Hc.
  { intros k t b. split; intros (l & Hl & Bl & Hr); exists l; (split; [|done]).
    - by apply elem_filter in Hl as [Hl _].
    - apply elem_filter. split; [done|]. unfold wakes. by rewrite Bl. }
  assert (Forall (fun w => valid w /\ locking w) ext) as HL' by exact HL. rewrite Forall_forall in HL'.
  destruct (wake_all rest [] (set_blocked false <$> List.filter (wakes ext) ext))
    as (ext' & G & -> & HLr & HEr & HWr & HGr & HP).
  - apply Forall_forall. intros l Hl. apply elem_filter in Hl as [Hl _]. by apply HL'.
  - intros k k' t t' b. rewrite !Hc. apply HE.
  - intros l Hl. apply elem_filter in Hl as [Hl Bl]. apply elem_filter in Hl as [Hl Hw].
    assert (overlapped ext l) as (k & b & [t Ht] & Hb).
    { apply first_overlap_spec; [done|by apply HL'|]. intros Hn. unfold wakes in Hw.
      rewrite Bl, (bool_decide_eq_true_2 _ Hn) in Hw. done. }
    exists k, b. split; [exists t; by apply Hc|done].
  - apply Forall_fmap, Forall_forall. intros l Hl. apply elem_filter in Hl as [Hl _]. cbn.
    destruct (HL' l Hl). by split_and!.
  - exists ext', G. split_and!; try done.
    + intros k b [t Ht]. apply HGr. exists t. by apply Hc.
    + rewrite HP. cbn [app]. rewrite fmap_app, <- list_fmap_compose.
      assert (Permutation (blocked_of ext) (blocked_of (rest ++ List.filter (wakes ext) ext))) as ->
        by (apply list_filter_perm, filter_split).
      rewrite blocked_app, fmap_app. f_equiv.
      rewrite (blocked_all (List.filter _ _)) by apply wakes_blocked. done.
Qed.

(** ** The critical sections *)

(** The requests that the events of a call answer, and the reads and writes
    that they resume. *)

Definition answered (ev : list event) : list (option Z) :=
  omap (fun e => match e with Unwind f _ _ _ => Some f | Resume _ => None end) ev.

Definition resumed (ev : list event) : list Z :=
  omap (fun e => match e with Unwind _ _ _ _ => None | Resume s => Some s end) ev.

Lemma answered_granted G : answered (granted_events G) = frame <$> G.
Proof. unfold answered, granted_events. induction G as [|l G IH]; [done|]. cbn. by rewrite IH. Qed.

Lemma resumed_granted G : resumed (granted_events G) = [].
Proof. unfold resumed, granted_events. induction G as [|l G IH]; [done|]. exact IH. Qed.

Definition flock_ok (f : gf_flock) : Prop :=
  0 <= l_start f /\ 0 <= l_len f /\ l_start f + l_len f <= 2 ^ 63 /\ l_start f < 2 ^ 63 /\
  l_type f <> GF_LK_EOL.

(** The lock of a request of [pl_lk]. *)

Definition request (fr cl pid : Z) (own : list Z) (fd : Z) (can_block : bool) (flock : gf_flock)
    : posix_lock :=
  set_user flock (if can_block then set_frame (Some fr) (new_posix_lock flock cl pid own fd)
                  else new_posix_lock flock cl pid own fd).

Lemma new_lock_valid f cl pid own fd : flock_ok f -> valid (new_posix_lock f cl pid own fd).
Proof.
  intros (Hs & Hl & He & Hm & _). unfold valid, new_posix_lock, LLONG_MAX. cbn [fl_start fl_end].
  destruct (Z.eqb_spec (l_len f) 0); [lia|]. rewrite i64_small; unfold LLONG_MAX; lia.
Qed.

Lemma request_ok fr cl pid own fd cb f :
  flock_ok f -> lock_ok (request fr cl pid own fd cb f).
Proof.
  intros H. assert (valid (request fr cl pid own fd cb f)) as Hv.
  { pose proof (new_lock_valid f cl pid own fd H). by destruct cb. }
  destruct H as (_ & _ & _ & _ & Ht). split_and!; [done|by destruct cb|].
  unfold locking. replace (fl_type _) with (l_type f) by (by destruct cb).
  destruct (l_type f); tauto.
Qed.

Lemma prelock_spec L fr cl pid own fd cb f :
  list_ok L -> exclusive L -> flock_ok f ->
  exists L' ev, pl_send_prelock_unlock L (request fr cl pid own fd cb f) = Some (L', ev) /\
    list_ok L' /\ exclusive L' /\ resumed ev = [] /\
    Permutation ((frame <$> blocked_of L') ++ answered ev) (frame <$> blocked_of L).
Proof.
  intros HL HE Hf. unfold pl_send_prelock_unlock.
  replace (user_flock (request fr cl pid own fd cb f)) with f by (by destruct cb).
  match goal with |- context [__insert_and_merge L ?u] => set (ul := u) end.
  assert (lock_ok ul) as Hu.
  { split_and!; [|done|by right]. apply new_lock_valid. unfold flock_ok in *. cbn. naive_solver. }
  destruct (insert_spec L ul HL Hu HE) as (R & -> & _ & HR & HER & Hb); [apply grantable_spec; by left|].
  cbn [mbind option_bind].
  destruct (grant_spec R HR HER) as (L' & G & -> & HL' & HE' & _ & _ & HP).
  cbn [mbind option_bind]. eexists _, _. split; [done|]. split_and!; [done|done|apply resumed_granted|].
  by rewrite answered_granted, <- fmap_app, HP, Hb.
Qed.

(** The frames that a call adds to the waiting ones. *)

Definition waits (ret : Z) (can_block : bool) (fr : Z) : list (option Z) :=
  if (ret =? -1) && can_block then [Some fr] else [].

Lemma insert_blocked_spec L w :
  list_ok L -> exclusive L -> valid w -> locking w ->
  let L' := __insert_lock L (set_blocked true w) in
  list_ok L' /\ exclusive L' /\ blocked_of L' = blocked_of L ++ [set_blocked true w].
Proof.
  intros HL HE Hv Hl L'. unfold L', __insert_lock. split_and!.
  - apply Forall_app. split; [done|]. by apply Forall_singleton.
  - intros k k' t t' b. rewrite !cov_blocked by
      (intros l Hin; apply list_elem_of_singleton in Hin as ->; done). apply HE.
  - by rewrite blocked_app.
Qed.

Lemma setlk_spec L fr cl pid own fd cb f :
  list_ok L -> exclusive L -> flock_ok f ->
  exists ret L' ev, setlk_locked L (request fr cl pid own fd cb f) cb = Some (ret, L', ev) /\
    list_ok L' /\ exclusive L' /\ resumed ev = [] /\
    Permutation ((frame <$> blocked_of L') ++ answered ev) ((frame <$> blocked_of L) ++ waits ret cb fr).
Proof.
  intros HL HE Hf. unfold setlk_locked. set (x := request fr cl pid own fd cb f).
  pose proof (request_ok fr cl pid own fd cb f Hf) as Hx. fold x in Hx.
  assert (exists L1 ev1,
    (if cb && negb (__is_lock_grantable L x) then pl_send_prelock_unlock L x else Some (L, []))
      = Some (L1, ev1) /\ list_ok L1 /\ exclusive L1 /\ resumed ev1 = [] /\
    Permutation ((frame <$> blocked_of L1) ++ answered ev1) (frame <$> blocked_of L)) as
    (L1 & ev1 & -> & HL1 & HE1 & Hr & HP).
  { destruct (cb && negb _); [by apply prelock_spec|]. exists L, []. split_and!; try done. by rewrite app_nil_r. }
  cbn [mbind option_bind]. destruct (__is_lock_grantable L1 x) eqn:Hg.
  - destruct (insert_spec L1 x HL1 Hx HE1 Hg) as (R & -> & _ & HR & HER & Hb). cbn [mbind option_bind].
    eexists _, _, _. split; [done|]. unfold waits. cbn. rewrite app_nil_r, Hb. by split_and!.
  - assert (locking x) as Hlx.
    { destruct Hx as (_ & _ & [Hlx|Hu]); [done|].
      assert (__is_lock_grantable L1 x = true) by (apply grantable_spec; by left). congruence. }
    destruct cb; (eexists _, _, _; split; [done|]).
    + destruct (insert_blocked_spec L1 x HL1 HE1) as (H1 & H2 & H3); [apply Hx|done|].
      split_and!; [done|done|done|]. rewrite H3, fmap_app, <- HP, <- !app_assoc.
      apply Permutation_app_head, Permutation_app_comm.
    + unfold waits. cbn [Z.eqb andb]. rewrite andb_false_r, app_nil_r. by split_and!.
Qed.

(** Deleting locks. *)

Lemma filter_locks_ok (p : posix_lock -> bool) L :
  list_ok L -> exclusive L -> list_ok (List.filter p L) /\ exclusive (List.filter p L).
Proof.
  intros HL HE. split.
  - unfold list_ok in *. rewrite Forall_forall in *. intros l Hl. apply HL. by apply elem_filter in Hl as [? _].
  - assert (forall k t b, cov (List.filter p L) k t b -> cov L k t b) as Hc.
    { intros k t b (l & Hl & Hr). exists l. by apply elem_filter in Hl as [? _]. }
    intros k k' t t' b H1%Hc H2%Hc. by eapply HE.
Qed.

Lemma close_fd_spec L fd :
  list_ok L -> exclusive L ->
  let '(L', ev) := delete_fd_locked L fd in
  list_ok L' /\ exclusive L' /\ resumed ev = [] /\
  Permutation ((frame <$> blocked_of L') ++ answered ev) (frame <$> blocked_of L).
Proof.
  intros HL HE. unfold delete_fd_locked.
  destruct (filter_locks_ok (fun l => negb (fd_num l =? fd)) L HL HE). split_and!; [done|done| |].
  - generalize (List.filter (fun l => (fd_num l =? fd) && blocked l) L) as G.
    induction G as [|l G IH]; [done|exact IH].
  - unfold blocked_of, answered. clear. induction L as [|l L IH]; [done|]. cbn [List.filter].
    destruct (fd_num l =? fd), (blocked l) eqn:B; cbn [negb List.filter andb]; try rewrite B; cbn; try done.
    + rewrite <- Permutation_middle. by constructor.
    + by constructor.
Qed.

Lemma flush_spec L cl own :
  list_ok L -> exclusive L ->
  let L' := __delete_locks_of_owner L cl own in
  list_ok L' /\ exclusive L' /\ blocked_of L' = blocked_of L.
Proof.
  intros HL HE. unfold __delete_locks_of_owner. cbv zeta.
  split_and!; [by apply filter_locks_ok|by apply filter_locks_ok|]. unfold blocked_of.
  induction L as [|l L IH]; [done|]. apply Forall_cons in HL as [_ HL]. cbn [List.filter].
  assert (exclusive L) as HE' by (intros k k' t t' b (a & ? & ?) (a' & ? & ?);
    apply (HE k k' t t' b); [exists a|exists a']; (split; [by right|done])).
  destruct (blocked l) eqn:B; cbn [orb List.filter]; [by rewrite B, IH|].
  destruct (negb _); cbn [List.filter]; [by rewrite B, IH|by rewrite IH].
Qed.
