(* ===== verification/LocksRun.v ===== *)
(** * Runs of the lock translator

    The critical sections of concurrent calls on one inode, interleaved in any
    order. A call that has changed the list of locks still has to wake the
    waiting lock requests, and then the waiting reads and writes. *)

From Stdlib Require Import ZArith Lia Bool Relations.
From stdpp Require Import base list gmap.
From Stdlib Require Import ZArith Bool.
From S2P Require Import Prelude Locks LocksMerge LocksCover LocksProps.

(** ** The state *)

(** The inode, the number of calls that are about to wake lock requests and of
    the ones that are about to wake reads and writes, what has been answered,
    and the frames and stubs that have been put into a queue. *)

Record machine := {
  ino : pl_inode; grants : nat; resumes : nat; log : list event;
  queued : list (option Z); rw_queued : list Z
}.

Definition empty_inode : pl_inode :=
  {| ext_list := []; rw_list := []; reservelk_list := []; blocked_reservelks := [];
     blocked_calls := []; fdctx := ∅ |}.

Definition start : machine :=
  {| ino := empty_inode; grants := 0; resumes := 0; log := []; queued := []; rw_queued := [] |}.

(** A call that has changed the list. *)

Definition changed (ext : list posix_lock) (ev : list event) (q : list (option Z)) (m : machine) : machine :=
  {| ino := set_ext ext (ino m); grants := S (grants m); resumes := resumes m; log := log m ++ ev;
     queued := queued m ++ q; rw_queued := rw_queued m |}.

Definition rw_waits (out : rw_outcome) (st : Z) : list Z := match out with Waits => [st] | _ => [] end.

(** The range of a request ends at the largest offset at the latest: past it the
    sum [l_start + l_len - 1], which the code does not check, overflows. *)

Inductive step : machine -> machine -> Prop :=
| step_setlk m fr cl pid own fd can_block flock ret ext ev :
    flock_ok flock ->
    setlk_locked (ext_list (ino m)) (request fr cl pid own fd can_block flock) can_block
      = Some (ret, ext, ev) ->
    step m (changed ext ev (waits ret can_block fr) m)
| step_close m fd ext ev :
    delete_fd_locked (ext_list (ino m)) fd = (ext, ev) ->
    step m (changed ext ev [] m)
| step_flush m cl own :
    step m (changed (__delete_locks_of_owner (ext_list (ino m)) cl own) [] [] m)
| step_grant m g p ev :
    grants m = S g -> grant_blocked_locks (ino m) = Some (p, ev) ->
    step m {| ino := p; grants := g; resumes := S (resumes m); log := log m ++ ev;
              queued := queued m; rw_queued := rw_queued m |}
| step_resume m r p ev :
    resumes m = S r -> do_blocked_rw (ino m) = (p, ev) ->
    step m {| ino := p; grants := grants m; resumes := r; log := log m ++ ev;
              queued := queued m; rw_queued := rw_queued m |}
| step_rw m read mandatory nonblock offset size cl fd pid own st p out :
    pl_rw read mandatory nonblock offset size cl fd pid own st (ino m) = (p, out) ->
    step m {| ino := p; grants := grants m; resumes := resumes m; log := log m;
              queued := queued m; rw_queued := rw_queued m ++ rw_waits out st |}.

Definition reachable : machine -> Prop := clos_refl_trans_1n machine step start.

Definition quiet (m : machine) : Prop := grants m = 0%nat /\ resumes m = 0%nat.

(** ** The invariant *)

Definition rw_stuck (p : pl_inode) : Prop :=
  forall rw, rw ∈ rw_list p -> __rw_allowable (ext_list p) (region rw) (rw_read rw) = false.

Record inv (m : machine) : Prop := {
  inv_ok : list_ok (ext_list (ino m));
  inv_exclusive : exclusive (ext_list (ino m));
  inv_waits : grants m = 0%nat -> waits_for (ext_list (ino m));
  inv_stuck : quiet m -> rw_stuck (ino m);
  inv_queued : Permutation ((frame <$> blocked_of (ext_list (ino m))) ++ answered (log m)) (queued m);
  inv_rw_queued : Permutation ((stub <$> rw_list (ino m)) ++ resumed (log m)) (rw_queued m);
  inv_reserve : reservelk_list (ino m) = []
}.

Lemma answered_app ev ev' : answered (ev ++ ev') = answered ev ++ answered ev'.
Proof. apply omap_app. Qed.

Lemma resumed_app ev ev' : resumed (ev ++ ev') = resumed ev ++ resumed ev'.
Proof. apply omap_app. Qed.

Lemma inv_start : inv start.
Proof.
  split; cbn; try done.
  - constructor.
  - intros k k' t t' b (l & Hl & _). by apply not_elem_of_nil in Hl.
  - intros _ l Hl. by apply not_elem_of_nil in Hl.
  - intros _ rw Hrw. by apply not_elem_of_nil in Hrw.
Qed.

Lemma inv_changed m ext ev q :
  inv m -> list_ok ext -> exclusive ext -> resumed ev = [] ->
  Permutation ((frame <$> blocked_of ext) ++ answered ev) ((frame <$> blocked_of (ext_list (ino m))) ++ q) ->
  inv (changed ext ev q m).
Proof.
  intros [_ _ _ _ Hq Hr Hv] HL HE Hev HP. split; cbn; try done.
  - intros [H _]. done.
  - rewrite answered_app, <- Hq, <- app_assoc, (Permutation_app_comm (answered (log m)) q).
    rewrite (app_assoc _ q), <- HP, <- app_assoc. apply Permutation_app_head, Permutation_app_comm.
  - by rewrite resumed_app, Hev, app_nil_r.
Qed.

Lemma resume_parts p p' ev :
  do_blocked_rw p = (p', ev) ->
  ext_list p' = ext_list p /\ answered ev = [] /\ rw_stuck p' /\
  Permutation ((stub <$> rw_list p') ++ resumed ev) (stub <$> rw_list p) /\ reservelk_list p' = reservelk_list p.
Proof.
  intros [= <- <-]. cbn [ext_list rw_list set_rw].
  set (ok := fun rw => __rw_allowable (ext_list p) (region rw) (rw_read rw)).
  assert (forall l : list pl_rw_req, answered ((fun rw => Resume (stub rw)) <$> l) = [] /\
    resumed ((fun rw => Resume (stub rw)) <$> l) = stub <$> l) as Hl.
  { induction l as [|rw l [IH1 IH2]]; [done|]. unfold answered, resumed in *. cbn. by rewrite IH1, IH2. }
  split_and!; [done|apply Hl| | |done].
  - intros rw Hrw. cbn in *. apply elem_filter in Hrw as [_ Hrw]. by apply negb_true_iff.
  - destruct (Hl (List.filter ok (rw_list p))) as [_ Hres]. rewrite Hres, <- fmap_app.
    apply fmap_Permutation. symmetry. apply (filter_split ok).
Qed.

Lemma grant_parts p :
  list_ok (ext_list p) -> exclusive (ext_list p) ->
  exists p' ev, grant_blocked_locks p = Some (p', ev) /\ list_ok (ext_list p') /\
    exclusive (ext_list p') /\ waits_for (ext_list p') /\ rw_list p' = rw_list p /\ resumed ev = [] /\
    Permutation ((frame <$> blocked_of (ext_list p')) ++ answered ev) (frame <$> blocked_of (ext_list p)) /\
    reservelk_list p' = reservelk_list p.
Proof.
  intros HL HE. unfold grant_blocked_locks.
  destruct (grant_spec (ext_list p) HL HE) as (ext' & G & -> & HL' & HE' & HW & _ & HP).
  cbn [mbind option_bind]. eexists _, _. split; [done|]. cbn [ext_list set_ext rw_list].
  split_and!; try done; [apply resumed_granted|]. by rewrite answered_granted, <- fmap_app.
Qed.

Lemma rw_parts read mandatory nonblock offset size cl fd pid own st p p' out :
  pl_rw read mandatory nonblock offset size cl fd pid own st p = (p', out) ->
  ext_list p' = ext_list p /\ (rw_stuck p -> rw_stuck p') /\
  stub <$> rw_list p' = (stub <$> rw_list p) ++ rw_waits out st /\
  reservelk_list p' = reservelk_list p.
Proof.
  unfold pl_rw. destruct mandatory; cbn [negb]; [|by intros [= <- <-]; rewrite app_nil_r].
  destruct (__rw_allowable _ _ _) eqn:Ha; [by intros [= <- <-]; rewrite app_nil_r|].
  destruct nonblock; intros [= <- <-]; [by rewrite app_nil_r|]. cbn [ext_list rw_list set_rw rw_waits].
  split_and!; [done| |by rewrite fmap_app|done].
  intros Hs rw Hrw. cbn in *. apply elem_of_app in Hrw as [Hrw|Hrw]; [by apply Hs|].
  apply list_elem_of_singleton in Hrw as ->. done.
Qed.

Lemma inv_step m m' : step m m' -> inv m -> inv m'.
Proof.
  intros Hs HI. pose proof (inv_ok m HI) as HL. pose proof (inv_exclusive m HI) as HE.
  destruct Hs as [m fr cl pid own fd cb f ret ext ev Hf Hset|m fd ext ev Hc|m cl own|m g p ev Hg Hgr
                 |m r p ev Hr Hrw|m read mand nb off sz cl fd pid own st p out Hrw].
  - destruct (setlk_spec _ fr cl pid own fd cb f HL HE Hf) as (r & L' & e & Heq & H1 & H2 & H3 & H4).
    rewrite Hset in Heq. injection Heq as <- <- <-. by apply inv_changed.
  - pose proof (close_fd_spec _ fd HL HE) as Hx. rewrite Hc in Hx. destruct Hx as (H1 & H2 & H3 & H4).
    apply inv_changed; try done. by rewrite app_nil_r.
  - destruct (flush_spec _ cl own HL HE) as (H1 & H2 & H3). apply inv_changed; try done. by rewrite H3.
  - destruct (grant_parts _ HL HE) as (p' & e & Heq & H1 & H2 & H3 & H4 & H5 & H6 & H7).
    rewrite Hgr in Heq. injection Heq as <- <-. destruct HI as [_ _ _ _ Hq Hr Hv]. split; cbn; rewrite ?H7; try done.
    + intros [_ H]. done.
    + rewrite answered_app, <- Hq, <- H6, <- app_assoc. apply Permutation_app_head, Permutation_app_comm.
    + by rewrite resumed_app, H5, app_nil_r, H4.
  - destruct (resume_parts _ _ _ Hrw) as (H1 & H2 & H3 & H4 & H5). destruct HI as [_ _ Hw _ Hq Hr' Hv].
    split; cbn; rewrite ?H1, ?H5; try done.
    + by rewrite answered_app, H2, app_nil_r.
    + rewrite resumed_app, <- Hr', <- H4, <- app_assoc. apply Permutation_app_head, Permutation_app_comm.
  - destruct (rw_parts _ _ _ _ _ _ _ _ _ _ _ _ _ Hrw) as (H1 & H2 & H3 & H4). destruct HI as [_ _ Hw Hst Hq Hr' Hv].
    split; cbn; rewrite ?H1, ?H4; try done.
    + intros H. by apply H2, Hst.
    + rewrite H3, <- Hr', <- !app_assoc. apply Permutation_app_head, Permutation_app_comm.
Qed.

Lemma inv_run m m' : clos_refl_trans_1n machine step m m' -> inv m -> inv m'.
Proof. induction 1 as [|m1 m2 m3 Hs _ IH]; [done|]. intros H. by apply IH, (inv_step m1). Qed.

Lemma inv_reachable m : reachable m -> inv m.
Proof. intros H. by apply (inv_run start), inv_start. Qed.

(** ** Exclusion *)

(** C6. At any point of any interleaving of lock requests, closes, reads and
    writes on an inode, two granted locks of different owners share a byte
    only when both are read locks. *)
Theorem locks_exclude m :
  reachable m ->
  forall l l', l ∈ ext_list (ino m) -> l' ∈ ext_list (ino m) ->
    blocked l = false -> blocked l' = false -> locks_overlap l l' = true -> same_owner l l' = false ->
    fl_type l = F_RDLCK /\ fl_type l' = F_RDLCK.
Proof.
  intros Hm l l' Hl Hl' Bl Bl' Ho Hk. destruct (inv_reachable m Hm) as [HL HE _ _ _ _ _].
  unfold list_ok in HL. rewrite Forall_forall in HL.
  destruct (HL l Hl) as [Vl _], (HL l' Hl') as [Vl' _].
  apply overlap_byte in Ho as (b & Hb & Hb'); [|done|done].
  apply (HE (key l) (key l') _ _ b); [by exists l|by exists l'|].
  intros E. apply not_true_iff_false in Hk. by apply Hk, same_owner_spec.
Qed.

(** ** Progress *)

(** Steps that only finish calls that have begun. *)

Inductive settle : machine -> machine -> Prop :=
| settle_grant m g p ev :
    grants m = S g -> grant_blocked_locks (ino m) = Some (p, ev) ->
    settle m {| ino := p; grants := g; resumes := S (resumes m); log := log m ++ ev;
                queued := queued m; rw_queued := rw_queued m |}
| settle_resume m r p ev :
    resumes m = S r -> do_blocked_rw (ino m) = (p, ev) ->
    settle m {| ino := p; grants := grants m; resumes := r; log := log m ++ ev;
                queued := queued m; rw_queued := rw_queued m |}.

Lemma settle_step m m' : settle m m' -> step m m'.
Proof. destruct 1; [by eapply step_grant|by eapply step_resume]. Qed.

Lemma settles_first m m1 :
  settle m m1 -> inv m ->
  (inv m1 -> exists m', clos_refl_trans_1n machine settle m1 m' /\ quiet m' /\ inv m') ->
  exists m', clos_refl_trans_1n machine settle m m' /\ quiet m' /\ inv m'.
Proof.
  intros Hs HI H. destruct H as (m' & Hm' & H); [by eapply inv_step; [apply settle_step|]|].
  exists m'. split; [|done]. by eapply Relation_Operators.rt1n_trans.
Qed.

Lemma settles m : inv m -> exists m', clos_refl_trans_1n machine settle m m' /\ quiet m' /\ inv m'.
Proof.
  assert (exists n, n = 2 * grants m + resumes m)%nat as [n Hn] by eauto. revert m Hn.
  induction n as [n IH] using lt_wf_ind. intros m Hn HI.
  destruct (grants m) as [|g] eqn:Hg; [destruct (resumes m) as [|r] eqn:Hr|].
  - exists m. split; [constructor|]. done.
  - destruct (do_blocked_rw (ino m)) as [p ev] eqn:Hd.
    eapply settles_first; [by eapply settle_resume|done|]. eapply IH; [|reflexivity]. cbn. lia.
  - destruct (grant_parts (ino m)) as (p & ev & Hp & _); [by apply inv_ok|by apply inv_exclusive|].
    eapply settles_first; [by eapply settle_grant|done|]. eapply IH; [|reflexivity]. cbn. lia.
Qed.

(** C32. From any state of any interleaving, the calls that have begun finish;
    then every lock request that still waits overlaps a granted lock, every
    read or write that still waits is forbidden by a lock, and when no lock is
    granted no lock request waits. The granted lock may be one of the same owner
    or one that is compatible: the code wakes a request only when it overlaps no
    granted lock at all, which is less than fcntl asks for. *)
Theorem waiters_held_back m :
  reachable m ->
  exists m', clos_refl_trans_1n machine settle m m' /\ quiet m' /\
    (forall l, l ∈ ext_list (ino m') -> blocked l = true ->
       exists c, c ∈ ext_list (ino m') /\ blocked c = false /\ locks_overlap c l = true) /\
    rw_stuck (ino m') /\
    ((forall l, l ∈ ext_list (ino m') -> blocked l = true) -> ext_list (ino m') = []).
Proof.
  intros Hm. destruct (settles m (inv_reachable m Hm)) as (m' & Hr & Hq & HI).
  exists m'. destruct HI as [HL _ HW HS _ _ _]. specialize (HW (proj1 Hq)). specialize (HS Hq).
  assert (forall l, l ∈ ext_list (ino m') -> blocked l = true ->
    exists c, c ∈ ext_list (ino m') /\ blocked c = false /\ locks_overlap c l = true) as Hw.
  { intros l Hl Bl. destruct (HW l) as (k & b & (t & c & Hc & Bc & _ & _ & Hcb) & Hlb).
    { by apply elem_filter. }
    exists c. split_and!; [done|done|]. apply overlap_spec. unfold covers in *. lia. }
  split_and!; [done|done|done|done|].
  - intros Hall. destruct (ext_list (ino m')) as [|l ls] eqn:He; [done|].
    destruct (Hw l) as (c & Hc & Bc & _); [by left|apply Hall; by left|]. specialize (Hall c Hc). congruence.
Qed.

(** C25. In any interleaving every lock request that was put into the queue
    is either still waiting or has been answered exactly once, and the same
    holds for reads and writes. *)
Theorem requests_answered_once m :
  reachable m ->
  Permutation ((frame <$> blocked_of (ext_list (ino m))) ++ answered (log m)) (queued m) /\
  Permutation ((stub <$> rw_list (ino m)) ++ resumed (log m)) (rw_queued m).
Proof. intros Hm. by destruct (inv_reachable m Hm). Qed.

(** ** The entry points *)

Definition run : machine -> machine -> Prop := clos_refl_trans_1n machine step.

Lemma run_three m m1 m2 m3 : step m m1 -> step m1 m2 -> step m2 m3 -> run m m3.
Proof. intros. do 3 (eapply Relation_Operators.rt1n_trans; [done|]). constructor. Qed.

(** Waking, after a call has changed the list. *)

Lemma finish m m1 ext ev q :
  inv m -> step m m1 -> m1 = changed ext ev q m ->
  exists p2 ev2 p3 ev3 m', grant_blocked_locks (set_ext ext (ino m)) = Some (p2, ev2) /\
    do_blocked_rw p2 = (p3, ev3) /\ run m m' /\ ino m' = p3 /\ grants m' = grants m /\
    resumes m' = resumes m /\ queued m' = queued m ++ q /\ log m' = log m ++ (ev ++ ev2 ++ ev3).
Proof.
  intros HI Hs ->. pose proof (inv_step _ _ Hs HI) as HI1.
  destruct (grant_parts _ (inv_ok _ HI1) (inv_exclusive _ HI1)) as (p2 & ev2 & Hg & _).
  destruct (do_blocked_rw p2) as [p3 ev3] eqn:Hd. eexists p2, ev2, p3, ev3, _.
  split_and!; [done|done| |..].
  - eapply run_three; [done|by eapply step_grant|by eapply step_resume].
  - done.
  - done.
  - done.
  - done.
  - cbn. by rewrite <- !app_assoc.
Qed.

Lemma setlk_ret L x can_block ret ext ev :
  setlk_locked L x can_block = Some (ret, ext, ev) -> ret = 0 \/ (ret = -1 /\ fl_type x <> F_UNLCK).
Proof.
  unfold setlk_locked. destruct (if can_block && _ then _ else _) as [[L1 ev1]|]; [|done].
  cbn [mbind option_bind]. destruct (__is_lock_grantable L1 x) eqn:Hg.
  - destruct (__insert_and_merge L1 x); [|done]. cbn. intros [= <- _ _]. by left.
  - assert (fl_type x <> F_UNLCK) as Hu.
    { intros Hu. apply not_true_iff_false in Hg. apply Hg, grantable_spec. by left. }
    destruct can_block; intros [= <- _ _]; by right.
Qed.

Lemma pl_lk_setlk p fr cl pid own fd (can_block : bool) flock :
  reservelk_list p = [] -> flock_ok flock ->
  pl_lk p fr cl pid own fd (if can_block then F_SETLKW else F_SETLK) flock =
  ('(ret, p2, ev) ← pl_setlk p (request fr cl pid own fd can_block flock) can_block;
   if ret =? -1 then
     if can_block && negb (is_type (l_type flock) F_UNLCK) then Some (p2, ev)
     else Some (p2, ev ++ [Unwind (Some fr) (-1) EAGAIN flock])
   else if (ret =? 0) && is_type (l_type flock) F_UNLCK then
     Some (p2, ev ++ [Unwind (Some fr) 0 0
       (with_type (if pl_locks_by_fd (ext_list p2) fd then F_RDLCK else F_UNLCK) flock)])
   else Some (p2, ev ++ [Unwind (Some fr) 0 0 flock])).
Proof.
  intros Hr (Hs & Hl & _). unfold pl_lk, pl_verify_reservelk.
  rewrite (proj2 (Z.ltb_ge _ _) Hs), (proj2 (Z.ltb_ge _ _) Hl). cbn [orb].
  destruct can_block; by rewrite Hr.
Qed.

(** In any state without reserve locks a request to set or release a
    range returns; its effect is the one of its critical sections; and it is
    either queued, when it may wait, or answered once by the call itself. *)
Theorem pl_lk_returns m fr cl pid own fd (can_block : bool) flock :
  reachable m -> flock_ok flock ->
  exists p ev m', pl_lk (ino m) fr cl pid own fd (if can_block then F_SETLKW else F_SETLK) flock = Some (p, ev) /\
    run m m' /\ ino m' = p /\ grants m' = grants m /\ resumes m' = resumes m /\
    ((can_block = true /\ l_type flock <> F_UNLCK /\ log m' = log m ++ ev /\
        queued m' = queued m ++ [Some fr]) \/
     (exists ev' ret err f, log m' = log m ++ ev' /\ ev = ev' ++ [Unwind (Some fr) ret err f] /\
        queued m' = queued m /\ (ret = 0 \/ (ret = -1 /\ can_block = false)))).
Proof.
  intros Hm Hf. pose proof (inv_reachable m Hm) as HI.
  rewrite pl_lk_setlk by (done || by apply inv_reserve). set (x := request fr cl pid own fd can_block flock).
  destruct (setlk_spec (ext_list (ino m)) fr cl pid own fd can_block flock) as (ret & ext & ev & Hset & _);
    [by apply inv_ok|by apply inv_exclusive|done|].
  destruct (finish m _ ext ev _ HI (step_setlk m fr cl pid own fd can_block flock ret ext ev Hf Hset) eq_refl)
    as (p2 & ev2 & p3 & ev3 & m' & Hg & Hd & Hrun & Hi & Hgr & Hre & Hq & Hlog).
  assert (pl_setlk (ino m) x can_block = Some (ret, p3, ev ++ ev2 ++ ev3)) as ->.
  { unfold pl_setlk. unfold x. rewrite Hset. cbn [mbind option_bind]. rewrite Hg. cbn [mbind option_bind].
    by rewrite Hd. }
  apply setlk_ret in Hset as Hret.
  replace (fl_type (request fr cl pid own fd can_block flock)) with (l_type flock) in Hret by (by destruct can_block).
  exists p3. cbn [mbind option_bind]. destruct Hret as [->|[-> Hu]]; cbn [Z.eqb andb].
  - unfold waits in Hq. cbn in Hq. rewrite app_nil_r in Hq.
    destruct (is_type (l_type flock) F_UNLCK);
      (eexists _, m'; split_and!; [done..|right; eexists _, 0, _, _; split_and!; [done|done|done|by left]]).
  - pose proof (proj2 (is_type_false _ _) Hu) as Hu'. change (-1 =? -1) with true. cbv iota. rewrite Hu'. cbn [negb].
    destruct can_block; unfold waits in Hq; cbn in Hq; rewrite ?app_nil_r in Hq; cbn [andb].
    + eexists _, m'. split_and!; [done..|]. by left.
    + eexists _, m'. split_and!; [done..|]. right. eexists _, (-1), _, _. split_and!; [done|done|done|by right].
Qed.

(** ** A run *)

(** Owner [1] has a write lock on the first ten bytes, owner [2] waits for the
    first byte, and a write of owner [3] waits too. *)

Definition first_bytes (t : lk_type) (n : Z) : gf_flock :=
  {| l_type := t; l_start := 0; l_len := n; l_pid := 0; l_owner := [] |}.

Definition holder : posix_lock := request 1 1 1 [1] 1 true (first_bytes F_WRLCK 10).

Definition waiter : posix_lock := set_blocked true (request 2 2 2 [2] 2 true (first_bytes F_WRLCK 1)).

Definition blocked_write : pl_rw_req :=
  {| region := {| fl_type := F_RDLCK; fl_start := 5; fl_end := 6; blocked := false; user_flock := no_flock;
       fd_num := 3; frame := None; client := 3; owner := [3]; client_pid := 3 |};
     rw_read := false; stub := 9 |}.

Definition contended : machine :=
  {| ino := set_rw [blocked_write] (set_ext [holder; waiter] empty_inode); grants := 2; resumes := 0;
     log := []; queued := [Some 2]; rw_queued := [9] |}.

Lemma contended_reachable : reachable contended.
Proof.
  eapply Relation_Operators.rt1n_trans.
  { apply (step_setlk start 1 1 1 [1] 1 true (first_bytes F_WRLCK 10) 0 [holder] []);
      [unfold flock_ok; cbn; intuition (lia || discriminate)|vm_compute; reflexivity]. }
  eapply Relation_Operators.rt1n_trans.
  { apply (step_setlk _ 2 2 2 [2] 2 true (first_bytes F_WRLCK 1) (-1) [holder; waiter] []);
      [unfold flock_ok; cbn; intuition (lia || discriminate)|vm_compute; reflexivity]. }
  eapply Relation_Operators.rt1n_trans; [|apply rt1n_refl].
  match goal with |- step ?m _ =>
    refine (step_rw m false true false 5 2 3 3 3 [3] 9 (ino contended) Waits _) end.
  vm_compute. reflexivity.
Qed.

(** Two owners read the first ten bytes. *)

Definition reader (n : Z) : posix_lock := request n n n [n] n false (first_bytes F_RDLCK 10).

Definition sharing : machine :=
  {| ino := set_ext [reader 1; reader 2] empty_inode; grants := 2; resumes := 0;
     log := []; queued := []; rw_queued := [] |}.

Lemma sharing_reachable : reachable sharing.
Proof.
  eapply Relation_Operators.rt1n_trans.
  { apply (step_setlk start 1 1 1 [1] 1 false (first_bytes F_RDLCK 10) 0 [reader 1] []);
      [unfold flock_ok; cbn; intuition (lia || discriminate)|vm_compute; reflexivity]. }
  eapply Relation_Operators.rt1n_trans; [|apply rt1n_refl].
  match goal with |- step ?m _ =>
    refine (step_setlk m 2 2 2 [2] 2 false (first_bytes F_RDLCK 10) 0 [reader 1; reader 2] [] _ _) end;
    [unfold flock_ok; cbn; intuition (lia || discriminate)|vm_compute; reflexivity].
Qed.

Lemma locks_exclude_witness :
  reachable sharing /\ fl_type (reader 1) = F_RDLCK /\ fl_type (reader 2) = F_RDLCK.
Proof.
  split; [exact sharing_reachable|].
  apply (locks_exclude sharing sharing_reachable (reader 1) (reader 2));
    [by left|by right; left|vm_compute; reflexivity..].
Defined.

Lemma waiters_held_back_witness :
  reachable contended /\ exists m', clos_refl_trans_1n machine settle contended m' /\ quiet m'.
Proof.
  split; [exact contended_reachable|].
  destruct (waiters_held_back contended contended_reachable) as (m' & H1 & H2 & _). by exists m'.
Defined.

Lemma requests_answered_once_witness :
  reachable contended /\ Permutation ([Some 2] ++ []) (queued contended).
Proof.
  split; [exact contended_reachable|]. exact (proj1 (requests_answered_once contended contended_reachable)).
Defined.

Lemma pl_lk_returns_witness :
  reachable contended /\
  exists p ev, pl_lk (ino contended) 4 1 1 [1] 1 F_SETLK (first_bytes F_UNLCK 0) = Some (p, ev).
Proof.
  split; [exact contended_reachable|].
  destruct (pl_lk_returns contended 4 1 1 [1] 1 false (first_bytes F_UNLCK 0) contended_reachable)
    as (p & ev & _ & H & _); [unfold flock_ok; cbn; intuition (lia || discriminate)|]. by exists p, ev.
Defined.

(** ** One insertion *)

(** C37. Inserting a lock ends: the recursion that joins and splits the locks
    of the owner never needs more than [merge_fuel] calls in depth, for any
    list of valid locks. *)
Theorem merge_terminates L x :
  list_ok L -> lock_ok x -> exists R, __insert_and_merge L x = Some R /\ list_ok R /\ blocked_of R = blocked_of L.
Proof.
  intros HL Hx. destruct (insert_and_merge_returns L x HL Hx) as (R & HR & Hok). exists R.
  split_and!; [done|done|]. by eapply merges_ok; [eapply insert_merges|..].
Qed.

(** C31. When the bytes of every owner have one type and a read lock does not
    both share a byte with a foreign reader and downgrade the owner's write
    lock, inserting a lock gives its owner exactly the bytes asked for with
    the type asked for, or frees exactly these bytes, and leaves every other
    byte of every owner as it was. *)
Theorem insert_and_merge_exact L x :
  list_ok L -> lock_ok x -> uniform L -> unshared x L ->
  exists R, __insert_and_merge L x = Some R /\ uniform R /\
    forall k t b, cov R k t b <-> after (cov L) x k t b.
Proof.
  intros HL Hx HU Hs. destruct (insert_and_merge_returns L x HL Hx) as (R & HR & Hok). exists R.
  assert (forall k t b, cov R k t b <-> after (cov L) x k t b) as H.
  { apply merges_exact; try done. by eapply insert_merges. }
  split_and!; [done|by eapply uniform_after|done].
Qed.

(** Testing a lock agrees with setting it: the answer is the request with
    the type "unlocked" when the request could be granted, and otherwise a
    granted lock of another owner that keeps it from being granted. *)
Theorem pl_getlk_spec L x :
  fl_type x <> F_UNLCK ->
  (__is_lock_grantable L x = true /\ pl_getlk L x = set_type F_UNLCK x) \/
  (__is_lock_grantable L x = false /\ pl_getlk L x ∈ L /\ excludes x (pl_getlk L x) = true).
Proof.
  intros Hu. apply is_type_false in Hu. unfold pl_getlk, first_conflicting_overlap, __is_lock_grantable.
  assert (forall l, negb (blocked l) && locks_overlap l x && negb (same_owner l x)
    && (is_type (fl_type l) F_WRLCK || is_type (fl_type x) F_WRLCK) = excludes x l) as He.
  { intros l. unfold excludes. rewrite Hu. unfold locks_overlap. rewrite (andb_comm (fl_start x <=? fl_end l)).
    destruct (blocked l), (fl_start l <=? fl_end x), (fl_start x <=? fl_end l), (same_owner l x),
      (is_type (fl_type l) F_WRLCK), (is_type (fl_type x) F_WRLCK); done. }
  destruct (List.find _ L) as [c|] eqn:Hf; [right|left].
  - apply List.find_some in Hf as [Hc Hx]. rewrite He in Hx. split_and!; [|by apply list_elem_of_In|done].
    apply negb_false_iff, existsb_exists. eauto.
  - split; [|done]. apply negb_true_iff, not_true_iff_false. rewrite existsb_exists. intros (l & Hl & Hx).
    eapply List.find_none in Hf; [|done]. cbn in Hf. rewrite He in Hf. congruence.
Qed.

Lemma holder_ok : list_ok [holder] /\ lock_ok (set_frame None holder).
Proof.
  assert (valid holder) as Hv by (unfold valid, LLONG_MAX; vm_compute; intuition discriminate).
  split; [apply Forall_singleton|]; split_and!; try done; [by right|left; by right].
Qed.

Lemma holder_uniform : uniform [holder] /\ unshared (set_frame None holder) [holder].
Proof.
  split; [|done]. intros k t t' b (l & Hl & _ & _ & <- & _) (l' & Hl' & _ & _ & <- & _).
  apply list_elem_of_singleton in Hl as ->, Hl' as ->. done.
Qed.

Lemma merge_terminates_witness : exists R, __insert_and_merge [holder] (set_frame None holder) = Some R.
Proof.
  destruct (merge_terminates [holder] (set_frame None holder)) as (R & HR & _);
    [apply holder_ok|apply holder_ok|]. by exists R.
Defined.

Lemma insert_and_merge_exact_witness :
  exists R, __insert_and_merge [holder] (set_frame None holder) = Some R /\ uniform R.
Proof.
  destruct (insert_and_merge_exact [holder] (set_frame None holder)) as (R & HR & HU & _);
    [apply holder_ok|apply holder_ok|apply holder_uniform|apply holder_uniform|]. by exists R.
Defined.

Lemma pl_getlk_spec_witness : pl_getlk [holder] waiter ∈ [holder].
Proof.
  destruct (pl_getlk_spec [holder] waiter) as [[H _]|(_ & H & _)]; [discriminate|by vm_compute in H|done].
Defined.

(** ** The list of locks *)

(** Whatever the interleaving, the list of an inode holds only read and
    write locks, whose ranges are not empty and end at the largest offset at
    the latest; a request to unlock is never in it. *)
Theorem lock_list_ok m :
  reachable m ->
  forall l, l ∈ ext_list (ino m) ->
    (fl_type l = F_RDLCK \/ fl_type l = F_WRLCK) /\ 0 <= fl_start l <= fl_end l /\ fl_end l <= LLONG_MAX.
Proof.
  intros Hm l Hl. pose proof (inv_ok _ (inv_reachable m Hm)) as HL. unfold list_ok in HL.
  rewrite Forall_forall in HL. destruct (HL l Hl) as [[? ?] ?]. done.
Qed.

Lemma lock_list_ok_witness : reachable contended /\ fl_end holder <= LLONG_MAX.
Proof.
  split; [exact contended_reachable|].
  exact (proj2 (proj2 (lock_list_ok contended contended_reachable holder (list_elem_of_here _ _)))).
Defined.

(** ** Where byte-range locks differ from fcntl

    Runs of the entry points, evaluated. *)

(** A request of the client, process and owner [n]. *)

Definition ask (n : Z) (cmd : lk_cmd) (t : lk_type) (s len : Z) (st : option (pl_inode * list event))
    : option (pl_inode * list event) :=
  '(p, ev) ← st;
  '(p', ev') ← pl_lk p n n n [n] n cmd {| l_type := t; l_start := s; l_len := len; l_pid := n; l_owner := [n] |};
  Some (p', ev ++ ev').

Definition replies (st : option (pl_inode * list event)) : option (list (option Z * Z * Z)) :=
  option_map (fun st' => omap (fun e => match e with Unwind f r e _ => Some (f, r, e) | Resume _ => None end)
    (snd st' : list event)) st.

Definition fresh : option (pl_inode * list event) := Some (empty_inode, []).

(** Owner 1 has a write lock on bytes 0 to 4 and asks for a read lock on bytes
    0 to 9, of which another owner reads some. The request is answered with
    success and the write lock stays: a reader of byte 0 is refused. *)

Example downgrade_lost :
  replies (ask 3 F_SETLK F_RDLCK 0 1 (ask 1 F_SETLK F_RDLCK 0 10
    (ask 1 F_SETLK F_WRLCK 0 5 (ask 2 F_SETLK F_RDLCK 5 5 fresh))))
  = Some [(Some 2, 0, 0); (Some 1, 0, 0); (Some 1, 0, 0); (Some 3, -1, EAGAIN)].
Proof. vm_compute. reflexivity. Qed.

(** Owner 2 waits to read what owner 1 writes. When owner 1 downgrades to a
    read lock, owner 2 is not woken, while a new reader gets the lock. *)

Example reader_not_woken :
  replies (ask 3 F_SETLK F_RDLCK 0 10 (ask 1 F_SETLK F_RDLCK 0 10
    (ask 2 F_SETLKW F_RDLCK 0 10 (ask 1 F_SETLK F_WRLCK 0 10 fresh))))
  = Some [(Some 1, 0, 0); (Some 1, 0, 0); (Some 3, 0, 0)].
Proof. vm_compute. reflexivity. Qed.

(** The end of a range that passes the largest offset wraps to a negative
    number. The lock then overlaps nothing, and two owners get it. *)

Example overflowed_range_never_conflicts :
  replies (ask 2 F_SETLK F_WRLCK (2 ^ 63 - 1) 2 (ask 1 F_SETLK F_WRLCK (2 ^ 63 - 1) 2 fresh))
  = Some [(Some 1, 0, 0); (Some 2, 0, 0)].
Proof. vm_compute. reflexivity. Qed.

(** Under mandatory locking a write of the owner of a lock waits for a request
    that itself waits for that lock. *)

Example own_write_waits :
  ('(p, _) ← ask 2 F_SETLKW F_WRLCK 0 10 (ask 1 F_SETLK F_WRLCK 0 10 fresh);
   Some (snd (pl_writev true false 0 1 1 1 1 [1] 7 p))) = Some Waits.
Proof. vm_compute. reflexivity. Qed.

(** A request that matches no reserve lock, while there is one, uses the head
    of the list as a lock. *)

Example unmatched_reserve_undefined :
  ask 2 F_SETLK F_RDLCK 20 10 (ask 1 F_RESLK_LCK F_WRLCK 0 10 fresh) = None.
Proof. vm_compute. reflexivity. Qed.

(** A request that meets a reserve lock of another owner and must not wait is
    queued, and gets no answer. *)

Example nonblocking_request_unanswered :
  replies (ask 2 F_SETLK F_RDLCK 0 10 (ask 1 F_RESLK_LCK F_WRLCK 0 10 fresh)) = Some [(Some 1, 0, 0)].
Proof. vm_compute. reflexivity. Qed.
