(* ===== verification/DhtHash.v ===== *)
(** * The hash of file names

    The Davies-Meyer hash of libglusterfs/src/hashfn.c and the hash of a name
    of xlators/cluster/dht/src/dht-hashfn.c, with a reference definition by
    blocks of 16 bytes. A message is the list of its bytes; a read beyond it
    is undefined. [char] is signed and memory is little-endian. *)

From Stdlib Require Import ZArith Lia Bool Ascii.
From stdpp Require Import base list.
From S2P Require Import Prelude CLib.

Definition DM_DELTA : Z := 0x9E3779B9.
Definition DM_FULLROUNDS : nat := 10.
Definition DM_PARTROUNDS : nat := 6.

(** ** Rounds *)

Record quad := { a0 : Z; a1 : Z; a2 : Z; a3 : Z }.

(** The new value of one half from the other half [b]. *)

Definition dm_mix (b sum p q : Z) : Z :=
  Z.lxor (Z.lxor (u32 (u32 (Z.shiftl b 4) + p)) (u32 (b + sum))) (u32 (Z.shiftr b 5 + q)).

Fixpoint dm_loop (n : nat) (array : quad) (sum b0 b1 : Z) : Z * Z :=
  match n with
  | O => (b0, b1)
  | S n' =>
      let sum := u32 (sum + DM_DELTA) in
      let b0 := u32 (b0 + dm_mix b1 sum (a0 array) (a1 array)) in
      let b1 := u32 (b1 + dm_mix b0 sum (a2 array) (a3 array)) in
      dm_loop n' array sum b0 b1
  end.

Definition dm_round (rounds : nat) (array : quad) (h : Z * Z) : Z * Z :=
  let '(b0, b1) := dm_loop rounds array 0 h.1 h.2 in (u32 (h.1 + b0), u32 (h.2 + b1)).

(** ** The message *)

Definition __pad (len : Z) : Z :=
  let pad := Z.lor (u32 len) (u32 (Z.shiftl (u32 len) 8)) in
  Z.lor pad (u32 (Z.shiftl pad 16)).

(** A word at an offset, and a byte as a [char] promoted to an unsigned word. *)

Definition word_le (l : list ascii) : Z :=
  foldr (fun c acc => code c + 256 * acc) 0 l.

Definition load32 (msg : list ascii) (off : Z) : option Z :=
  if (0 <=? off) && (off + 4 <=? Z.of_nat (length msg))
  then Some (word_le (take 4 (drop (Z.to_nat off) msg))) else None.

Definition char_word (c : ascii) : Z := u32 (i8 (code c)).

Definition load8 (msg : list ascii) (off : Z) : option Z :=
  if 0 <=? off then char_word <$> msg !! Z.to_nat off else None.

(** The pointer [intmsg] as an offset, and the two counters. *)

Record cursor := { intmsg : Z; full_words : Z; full_bytes : Z }.

Definition next_word (msg : list ascii) (c : cursor) : option (Z * cursor) :=
  word ← load32 msg (intmsg c);
  Some (word, {| intmsg := intmsg c + 4; full_words := full_words c - 1;
                 full_bytes := full_bytes c - 4 |}).

Definition next_quad (msg : list ascii) (c : cursor) : option (quad * cursor) :=
  '(w0, c) ← next_word msg c;
  '(w1, c) ← next_word msg c;
  '(w2, c) ← next_word msg c;
  '(w3, c) ← next_word msg c;
  Some ({| a0 := w0; a1 := w1; a2 := w2; a3 := w3 |}, c).

Fixpoint full_quads (n : nat) (msg : list ascii) (c : cursor) (h : Z * Z)
    : option (cursor * (Z * Z)) :=
  match n with
  | O => Some (c, h)
  | S n' =>
      '(array, c) ← next_quad msg c;
      full_quads n' msg c (dm_round DM_PARTROUNDS array h)
  end.

(** The bytes that are left, shifted into a word; [k] counts [full_bytes] down. *)

Fixpoint tail_bytes (k : nat) (msg : list ascii) (len : Z) (w : Z) : option Z :=
  match k with
  | O => Some w
  | S k' =>
      b ← load8 msg (len - Z.of_nat k);
      tail_bytes k' msg len (Z.lor (u32 (Z.shiftl w 8)) b)
  end.

Definition last_word (msg : list ascii) (len pad : Z) (c : cursor) : option (Z * cursor) :=
  if negb (full_words c =? 0) then next_word msg c
  else
    w ← tail_bytes (Z.to_nat (full_bytes c)) msg len pad;
    Some (w, {| intmsg := intmsg c; full_words := full_words c; full_bytes := 0 |}).

Definition gf_dm_hashfn (msg : list ascii) (len : Z) : option Z :=
  let pad := __pad len in
  let c := {| intmsg := 0; full_words := Z.quot len 4; full_bytes := len |} in
  '(c, h) ← full_quads (Z.to_nat (Z.quot len 16)) msg c (0x9464a485, 0x542e1a94);
  '(w0, c) ← last_word msg len pad c;
  '(w1, c) ← last_word msg len pad c;
  '(w2, c) ← last_word msg len pad c;
  '(w3, c) ← last_word msg len pad c;
  let h := dm_round DM_FULLROUNDS {| a0 := w0; a1 := w1; a2 := w2; a3 := w3 |} h in
  Some (Z.lxor h.1 h.2).

(** ** The hash of a name *)

Definition DHT_HASH_TYPE_DM : Z := 0.
Definition DHT_HASH_TYPE_DM_USER : Z := 1.

(** The code and the hash, which is set when the code is 0. *)

Definition dht_hash_compute_internal (type : Z) (name : list ascii) : option (Z * Z) :=
  if (type =? DHT_HASH_TYPE_DM) || (type =? DHT_HASH_TYPE_DM_USER) then
    hash ← gf_dm_hashfn name (Z.of_nat (length name));
    Some (0, hash)
  else Some (-1, 0).

(** A compiled regular expression as what [regexec] says of a name: no match,
    or a match whose first group, if it took part, has two offsets. *)

Definition regex := list ascii -> option (option (Z * Z)).

(** The modified name when it was munged. *)

Definition dht_munge_name (original : list ascii) (len : Z) (re : regex) : option (list ascii) :=
  match re original with
  | Some (Some (so, eo)) =>
      if eo - so <? len then Some (take (Z.to_nat (eo - so)) (drop (Z.to_nat so) original)) else None
  | _ => None
  end.

(** [extra_regex] and [rsync_regex] are there when they are valid. *)

Definition dht_hash_compute (extra_regex rsync_regex : option regex) (type : Z) (name : list ascii)
    : option (Z * Z) :=
  let len := Z.of_nat (length name) + 1 in
  let munged := re ← extra_regex; dht_munge_name name len re in
  let munged := match munged with
                | Some n => Some n
                | None => re ← rsync_regex; dht_munge_name name len re
                end in
  dht_hash_compute_internal type (default name munged).

(** ** A reference definition *)

Definition word_at (msg : list ascii) (k : nat) : Z := word_le (take 4 (drop (4 * k) msg)).

Definition tail_word (pad : Z) (t : list ascii) : Z :=
  foldl (fun w c => Z.lor (u32 (Z.shiftl w 8)) (char_word c)) pad t.

(** Word [k] of the padded message. *)

Definition padded_word (msg : list ascii) (k : nat) : Z :=
  let pad := __pad (Z.of_nat (length msg)) in
  if (k <? length msg / 4)%nat then word_at msg k
  else if (k =? length msg / 4)%nat then tail_word pad (drop (4 * k) msg) else pad.

Definition block (msg : list ascii) (i : nat) : quad :=
  {| a0 := padded_word msg (4 * i); a1 := padded_word msg (4 * i + 1);
     a2 := padded_word msg (4 * i + 2); a3 := padded_word msg (4 * i + 3) |}.

Definition dm_hash (msg : list ascii) : Z :=
  let n := (length msg / 16)%nat in
  let h := foldl (fun h i => dm_round DM_PARTROUNDS (block msg i) h) (0x9464a485, 0x542e1a94) (seq 0 n) in
  let h := dm_round DM_FULLROUNDS (block msg n) h in
  Z.lxor h.1 h.2.

(** ** The code follows the reference *)

Section refines.
Context (msg : list ascii).
Local Abbreviation len := (length msg).

Definition at_word (k : nat) : cursor :=
  {| intmsg := 4 * Z.of_nat k; full_words := Z.of_nat (len / 4) - Z.of_nat k;
     full_bytes := Z.of_nat len - 4 * Z.of_nat k |}.

Lemma next_word_at k : (k < len / 4)%nat -> next_word msg (at_word k) = Some (padded_word msg k, at_word (S k)).
Proof.
  intros Hk. assert (4 * S k <= len)%nat as Hl by (pose proof (Nat.Div0.div_mod len 4); lia).
  unfold next_word, load32. cbn [intmsg at_word].
  destruct (Z.leb_spec 0 (4 * Z.of_nat k)); [|lia].
  destruct (Z.leb_spec (4 * Z.of_nat k + 4) (Z.of_nat len)); [|lia]. cbn [andb mbind option_bind].
  unfold padded_word. destruct (Nat.ltb_spec k (len / 4)); [|lia]. unfold word_at.
  replace (Z.to_nat (4 * Z.of_nat k)) with (4 * k)%nat by lia. do 2 f_equal.
  unfold at_word. f_equal; cbn [full_words full_bytes]; lia.
Qed.

Lemma full_quads_at n i h :
  (4 * (i + n) <= len / 4)%nat ->
  full_quads n msg (at_word (4 * i)) h =
  Some (at_word (4 * (i + n)), foldl (fun h i => dm_round DM_PARTROUNDS (block msg i) h) h (seq i n)).
Proof.
  revert i h. induction n as [|n IH]; intros i h Hi; cbn [full_quads seq foldl].
  { by rewrite Nat.add_0_r. }
  unfold next_quad. repeat (rewrite next_word_at by lia; cbn [mbind option_bind]).
  replace (S (S (S (S (4 * i))))) with (4 * S i)%nat by lia. rewrite IH by lia.
  unfold block. do 4 f_equal; try lia. repeat f_equal; lia.
Qed.

Lemma tail_bytes_at k w :
  (k <= len)%nat -> tail_bytes k msg (Z.of_nat len) w = Some (tail_word w (drop (len - k) msg)).
Proof.
  revert w. induction k as [|k IH]; intros w Hk; cbn [tail_bytes].
  { by rewrite Nat.sub_0_r, drop_all. }
  unfold load8. destruct (Z.leb_spec 0 (Z.of_nat len - Z.of_nat (S k))); [|lia].
  replace (Z.to_nat (Z.of_nat len - Z.of_nat (S k))) with (len - S k)%nat by lia.
  destruct (lookup_lt_is_Some_2 msg (len - S k)) as [c Hc]; [lia|]. rewrite Hc.
  cbn [fmap option_fmap option_map mbind option_bind]. rewrite IH by lia.
  rewrite (drop_S _ _ _ Hc). replace (S (len - S k)) with (len - k)%nat by lia. done.
Qed.

(** After the words have been used up. *)

Definition used_up (k : nat) : cursor :=
  {| intmsg := 4 * Z.of_nat (len / 4); full_words := 0;
     full_bytes := if (k <=? len / 4)%nat then Z.of_nat len - 4 * Z.of_nat (len / 4) else 0 |}.

Definition final (k : nat) : cursor := if (k <? len / 4)%nat then at_word k else used_up k.

Lemma last_word_at k :
  last_word msg (Z.of_nat len) (__pad (Z.of_nat len)) (final k) = Some (padded_word msg k, final (S k)).
Proof.
  pose proof (Nat.Div0.div_mod len 4) as Hd. pose proof (Nat.mod_upper_bound len 4 ltac:(lia)) as Hm.
  unfold last_word, final. destruct (Nat.ltb_spec k (len / 4)) as [Hk|Hk].
  - replace (full_words (at_word k) =? 0) with false by (symmetry; apply Z.eqb_neq; cbn [full_words at_word]; lia). cbn [negb].
    rewrite next_word_at by done. destruct (Nat.ltb_spec (S k) (len / 4)); [done|].
    do 2 f_equal. unfold at_word, used_up. destruct (Nat.leb_spec (S k) (len / 4)); [|lia]. f_equal; lia.
  - destruct (Nat.ltb_spec (S k) (len / 4)); [lia|]. cbn [used_up full_words Z.eqb negb full_bytes intmsg].
    destruct (Nat.leb_spec (S k) (len / 4)); [lia|]. unfold padded_word.
    destruct (Nat.ltb_spec k (len / 4)); [lia|]. destruct (Nat.leb_spec k (len / 4)) as [Hk'|Hk'].
    + destruct (Nat.eqb_spec k (len / 4)); [|lia]. rewrite tail_bytes_at by lia. cbn [mbind option_bind].
      assert (used_up (S k) = {| intmsg := 4 * Z.of_nat (len / 4); full_words := 0; full_bytes := 0 |}) as ->
        by (unfold used_up; by rewrite (proj2 (Nat.leb_gt _ _))).
      do 4 f_equal. lia.
    + destruct (Nat.eqb_spec k (len / 4)); [lia|]. unfold used_up. rewrite (proj2 (Nat.leb_gt (S k) _)) by lia. done.
Qed.

Lemma dm_hashfn_reference : gf_dm_hashfn msg (Z.of_nat len) = Some (dm_hash msg).
Proof.
  unfold gf_dm_hashfn. set (n := (len / 16)%nat).
  assert (4 * n <= len / 4)%nat as Hn.
  { unfold n. replace 16%nat with (4 * 4)%nat by lia. rewrite <- Nat.Div0.div_div.
    pose proof (Nat.Div0.div_mod (len / 4) 4). lia. }
  rewrite !Z.quot_div_nonneg by lia. change 4 with (Z.of_nat 4). change 16 with (Z.of_nat 16).
  rewrite <- !Nat2Z.inj_div, Nat2Z.id. fold n.
  assert ({| intmsg := 0; full_words := Z.of_nat (len / 4); full_bytes := Z.of_nat len |} = at_word (4 * 0))
    as -> by (unfold at_word; f_equal; lia).
  rewrite full_quads_at by done. cbn [mbind option_bind]. rewrite Nat.add_0_l.
  assert (at_word (4 * n) = final (4 * n)) as ->.
  { unfold final. destruct (Nat.ltb_spec (4 * n) (len / 4)); [done|]. unfold at_word, used_up.
    destruct (Nat.leb_spec (4 * n) (len / 4)); [|lia]. f_equal; lia. }
  do 4 (rewrite last_word_at; cbn [mbind option_bind]). unfold dm_hash. fold n. unfold block.
  replace (4 * n + 1)%nat with (S (4 * n)) by lia. replace (4 * n + 2)%nat with (S (S (4 * n))) by lia.
  replace (4 * n + 3)%nat with (S (S (S (4 * n)))) by lia. done.
Qed.
End refines.

Lemma dm_round_range r q h : in_u 32 (dm_round r q h).1 /\ in_u 32 (dm_round r q h).2.
Proof. unfold dm_round. destruct (dm_loop _ _ _ _ _). split; by apply uwrap_range. Qed.

Lemma dm_hash_range msg : in_u 32 (dm_hash msg).
Proof. unfold dm_hash. apply lxor_range; [lia| |]; apply dm_round_range. Qed.

