(* ===== verification/DhtLayout.v ===== *)
(** * Layouts of directories

    xlators/cluster/dht/src/dht-layout.c: which subvolume a name of a directory
    belongs to, reading and writing the ranges that are stored on the
    subvolumes, and finding the anomalies of what was read.

    A pointer to a subvolume is a number, [None] when it is null. The number of
    entries of a layout is the length of its list. Reference counts are left
    out. *)

From Stdlib Require Import ZArith Lia Bool Ascii.
From stdpp Require Import base list.
From S2P Require Import Prelude CLib Dict DhtHash.

Definition ENOENT : Z := 2.
Definition ENOSPC : Z := 28.
Definition ENOTCONN : Z := 107.
Definition ESTALE : Z := 116.

Definition DHT_LAYOUT_HASH_INVALID : Z := 1.

(** ** Data *)

Record entry := { err : Z; start : Z; stop : Z; entry_hash : Z; xlator : option Z }.

Record dht_layout := {
  spread_cnt : Z; preset : bool; commit_hash : Z; gen : Z; type : Z; entries : list entry
}.

(** [vname] is the name of a subvolume; [du_stats] has the size of each child. *)

Record dht_conf := {
  subvolumes : list Z;
  decommissioned_bricks : list (option Z);
  decommission_subvols_cnt : Z;
  dir_spread_cnt : Z;
  conf_gen : Z;
  do_weighting : bool;
  children : list Z;
  du_stats : option (list Z);
  randomize_by_gfid : bool;
  extra_regex : option regex;
  rsync_regex : option regex;
  vname : Z -> list ascii
}.

Definition cnt (l : dht_layout) : Z := Z.of_nat (length (entries l)).

Definition set_entries (es : list entry) (l : dht_layout) : dht_layout :=
  {| spread_cnt := spread_cnt l; preset := preset l; commit_hash := commit_hash l; gen := gen l;
     type := type l; entries := es |}.

Definition set_hash (h : Z) (l : dht_layout) : dht_layout :=
  {| spread_cnt := spread_cnt l; preset := preset l; commit_hash := h; gen := gen l;
     type := type l; entries := entries l |}.

Definition set_layout_type (t : Z) (l : dht_layout) : dht_layout :=
  {| spread_cnt := spread_cnt l; preset := preset l; commit_hash := commit_hash l; gen := gen l;
     type := t; entries := entries l |}.

Definition set_err (r : Z) (e : entry) : entry :=
  {| err := r; start := start e; stop := stop e; entry_hash := entry_hash e; xlator := xlator e |}.

Definition set_span (s t : Z) (e : entry) : entry :=
  {| err := err e; start := s; stop := t; entry_hash := entry_hash e; xlator := xlator e |}.

Definition set_all (s t h : Z) (e : entry) : entry :=
  {| err := err e; start := s; stop := t; entry_hash := h; xlator := xlator e |}.

(** ** Making and searching *)

Definition no_entry : entry :=
  {| err := 0; start := 0; stop := 0; entry_hash := 0; xlator := None |}.

Definition dht_layout_new (conf : dht_conf) (n : nat) : dht_layout :=
  {| spread_cnt := dir_spread_cnt conf; preset := false; commit_hash := 0; gen := conf_gen conf;
     type := DHT_HASH_TYPE_DM; entries := repeat no_entry n |}.

Definition in_range (h : Z) (e : entry) : bool := (start e <=? h) && (h <=? stop e).

(** The hash is in no range, or the type is not known: null. *)

Definition dht_layout_search (conf : dht_conf) (l : dht_layout) (name : list ascii)
    : option (option Z) :=
  '(ret, hash) ← dht_hash_compute (extra_regex conf) (rsync_regex conf) (type l) name;
  if negb (ret =? 0) then Some None
  else Some (e ← List.find (in_range hash) (entries l); xlator e).

Definition dht_layout_index_for_subvol (l : dht_layout) (subvol : Z) : option nat :=
  fst <$> list_find (fun e => xlator e = Some subvol) (entries l).

(** ** Layouts on disk *)

(** Four words in network order; undefined past the end of the list. *)

Definition dht_disk_layout_extract (l : dht_layout) (pos : nat) : option (list ascii) :=
  e ← entries l !! pos;
  Some (hton32 (entry_hash e) ++ hton32 (type l) ++ hton32 (start e) ++ hton32 (stop e)).

(** Word [i] of a disk layout. *)

Definition disk_word (raw : list ascii) (i : nat) : Z := ntoh32 (take 4 (drop (4 * i) raw)).

(** A value of another length overruns the local array, or leaves a part of it
    without a value. *)

Definition dht_disk_layout_merge (l : dht_layout) (pos : nat) (raw : option (list ascii))
    : option (Z * dht_layout) :=
  match raw with
  | None => Some (-1, l)
  | Some raw =>
      if negb (length raw =? 16)%nat then None else
      let t := disk_word raw 1 in
      if (t =? DHT_HASH_TYPE_DM_USER) || (t =? DHT_HASH_TYPE_DM) then
        e ← entries l !! pos;
        let l := if t =? DHT_HASH_TYPE_DM_USER then set_layout_type t l else l in
        Some (0, set_entries (<[pos := set_all (u32 (disk_word raw 2)) (u32 (disk_word raw 3))
                                        (u32 (disk_word raw 0)) e]> (entries l)) l)
      else Some (-1, l)
  end.

(** The reply of a subvolume, with the layout in its dictionary if it has one. *)

Definition claim_slot (l : dht_layout) (subvol : Z) (r : Z) : nat * dht_layout :=
  match list_find (fun e => xlator e = None) (entries l) with
  | None => (length (entries l), l)
  | Some (i, e) =>
      (i, set_entries (<[i := {| err := r; start := start e; stop := stop e;
                                 entry_hash := entry_hash e; xlator := Some subvol |}]> (entries l)) l)
  end.

Definition dht_layout_merge (l : dht_layout) (subvol op_ret op_errno : Z) (xattr : option (list ascii))
    : option (Z * dht_layout) :=
  let '(i, l) := claim_slot l subvol (if negb (op_ret =? 0) then op_errno else -1) in
  if negb (op_ret =? 0) then Some (0, l)
  else match xattr with
  | None =>
      e ← entries l !! i;
      Some (0, set_entries (<[i := set_err 0 e]> (entries l)) l)
  | Some raw =>
      '(ret, l) ← dht_disk_layout_merge l i (Some raw);
      if negb (ret =? 0) then Some (ret, l)
      else
        e ← entries l !! i;
        let l := if commit_hash l =? 0 then set_hash (entry_hash e) l
                 else if negb (commit_hash l =? entry_hash e) then set_hash DHT_LAYOUT_HASH_INVALID l
                 else l in
        Some (ret, set_entries (<[i := set_err 0 e]> (entries l)) l)
  end.

Definition dht_layout_dir_mismatch (l : dht_layout) (subvol : Z) (have_dict : bool)
    (xattr : option (list ascii)) : option Z :=
  match list_find (fun e => xlator e = Some subvol) (entries l) with
  | None => Some 1
  | Some (_, e) =>
      if negb have_dict then Some (if err e =? 0 then -1 else 0)
      else match xattr with
      | None => Some (if (err e =? 0) && negb (stop e =? 0) then -1 else 0)
      | Some raw =>
          if (length raw <? 16)%nat then None
          else Some (if negb (start e =? u32 (disk_word raw 2)) || negb (stop e =? u32 (disk_word raw 3))
                        || negb (entry_hash e =? u32 (disk_word raw 0)) then 1 else 0)
      end
  end.

(** ** Sorting *)

(** The two loops that exchange entries in the wrong order; [gt] tells that the
    first entry has to come after the second one. *)

Definition swap {A} (i j : nat) (es : list A) : list A :=
  match es !! i, es !! j with
  | Some a, Some b => <[j := a]> (<[i := b]> es)
  | _, _ => es
  end.

Definition exchange (gt : entry -> entry -> bool) (i : nat) (es : list entry) (j : nat) : list entry :=
  match es !! i, es !! j with
  | Some a, Some b => if gt a b then swap i j es else es
  | _, _ => es
  end.

Definition exchange_row (gt : entry -> entry -> bool) (es : list entry) (i : nat) : list entry :=
  foldl (exchange gt i) es (seq (S i) (length es - S i)).

Definition exchange_sort (gt : entry -> entry -> bool) (es : list entry) : list entry :=
  foldl (exchange_row gt) es (seq 0 (length es - 1)).

(** The ranges that are zero come first. *)

Definition dht_layout_entry_cmp (a b : entry) : Z :=
  if (start b =? 0) && (stop b =? 0) then stop a - stop b else start a - start b.

Definition dht_layout_sort (l : dht_layout) : dht_layout :=
  set_entries (exchange_sort (fun a b => 0 <? dht_layout_entry_cmp a b) (entries l)) l.

(** [strcmp], on the bytes before the terminators. *)

Fixpoint strcmp (a b : list ascii) : Z :=
  match a, b with
  | [], [] => 0
  | [], _ :: _ => -1
  | _ :: _, [] => 1
  | c :: a', d :: b' => if code c =? code d then strcmp a' b' else code c - code d
  end.

(** The name of an entry that is not null: sorting asks for [no_null]. *)

Definition entry_name (conf : dht_conf) (e : entry) : list ascii :=
  match xlator e with Some x => vname conf x | None => [] end.

Definition dht_layout_entry_cmp_volname (conf : dht_conf) (a b : entry) : Z :=
  strcmp (entry_name conf a) (entry_name conf b).

(** Every entry is compared when there are two: none may be null. *)

Definition no_null (l : dht_layout) : bool :=
  (length (entries l) <? 2)%nat || forallb (fun e => bool_decide (is_Some (xlator e))) (entries l).

Definition dht_layout_sort_volname (conf : dht_conf) (l : dht_layout) : option dht_layout :=
  if no_null l
  then Some (set_entries (exchange_sort (fun a b => 0 <? dht_layout_entry_cmp_volname conf a b) (entries l)) l)
  else None.

(** ** Anomalies *)

Record anomalies := {
  hole_cnt : Z; overlap_cnt : Z; missing : Z; down : Z; misc : Z; no_space : Z;
  prev_stop : Z; is_virgin : bool
}.

(** What the loop does for an entry. *)

Definition note (a : anomalies) (e : entry) : anomalies :=
  if (err e =? -1) || (err e =? ENOENT) || (err e =? ESTALE) then
    {| hole_cnt := hole_cnt a; overlap_cnt := overlap_cnt a; missing := u32 (missing a + 1);
       down := down a; misc := misc a; no_space := no_space a; prev_stop := prev_stop a;
       is_virgin := is_virgin a |}
  else if err e =? ENOTCONN then
    {| hole_cnt := hole_cnt a; overlap_cnt := overlap_cnt a; missing := missing a;
       down := u32 (down a + 1); misc := misc a; no_space := no_space a; prev_stop := prev_stop a;
       is_virgin := is_virgin a |}
  else if err e =? ENOSPC then
    {| hole_cnt := hole_cnt a; overlap_cnt := overlap_cnt a; missing := missing a; down := down a;
       misc := misc a; no_space := u32 (no_space a + 1); prev_stop := prev_stop a;
       is_virgin := is_virgin a |}
  else if negb (err e =? 0) then
    {| hole_cnt := hole_cnt a; overlap_cnt := overlap_cnt a; missing := missing a; down := down a;
       misc := u32 (misc a + 1); no_space := no_space a; prev_stop := prev_stop a;
       is_virgin := is_virgin a |}
  else if start e =? stop e then a
  else
    {| hole_cnt := if u32 (prev_stop a + 1) <? start e then u32 (hole_cnt a + 1) else hole_cnt a;
       overlap_cnt := if start e <? u32 (prev_stop a + 1) then u32 (overlap_cnt a + 1) else overlap_cnt a;
       missing := missing a; down := down a; misc := misc a; no_space := no_space a;
       prev_stop := stop e; is_virgin := false |}.

(** Undefined for a layout without entries, whose first entry is read. *)

Definition dht_layout_anomalies (l : dht_layout) : option anomalies :=
  first ← entries l !! 0%nat;
  let last_stop := u32 (start first - 1) in
  let a := foldl note {| hole_cnt := 0; overlap_cnt := 0; missing := 0; down := 0; misc := 0;
                         no_space := 0; prev_stop := last_stop; is_virgin := true |} (entries l) in
  Some {| hole_cnt := if negb (u32 (last_stop - prev_stop a) =? 0) || is_virgin a
                      then u32 (hole_cnt a + 1) else hole_cnt a;
          overlap_cnt := overlap_cnt a; missing := missing a; down := down a; misc := misc a;
          no_space := no_space a; prev_stop := prev_stop a; is_virgin := is_virgin a |}.

Definition dht_layout_missing_dirs (l : dht_layout) : Z :=
  Z.of_nat (length (List.filter (fun e => (err e =? ENOENT)
    || ((err e =? -1) && (start e =? 0) && (stop e =? 0))) (entries l))).

Definition dht_layout_normalize (l : dht_layout) : option (Z * dht_layout) :=
  let l := dht_layout_sort l in
  a ← dht_layout_anomalies l;
  if negb (hole_cnt a =? 0) || negb (overlap_cnt a =? 0) then Some (-1, l)
  else Some (dht_layout_missing_dirs l, l).
