(* ===== verification/DhtHeal.v ===== *)
(** * Healing layouts

    The parts of xlators/cluster/dht/src/dht-selfheal.c that compute with
    layouts: giving ranges to a new directory, changing the ranges of an
    existing one so that little has to move, and choosing what to write to
    which subvolume. Locking and the calls to the subvolumes are not part of
    this: what a call would write is a value. *)

From Stdlib Require Import ZArith Lia Bool Ascii String.
From stdpp Require Import base list.
From S2P Require Import Prelude CLib Dict Uuid DhtHash DhtLayout.

Definition EINVAL : Z := 22.

(** ** Reading layouts *)

Definition live_range (e : entry) : bool := negb (start e =? stop e).

Definition dht_layout_span (l : dht_layout) : Z :=
  Z.of_nat (length (List.filter (fun e => (err e =? 0) && live_range e) (entries l))).

Definition dht_overlap_calc (old : list entry) (o : nat) (new : list entry) (n : nat) : Z :=
  match old !! o, new !! n with
  | Some a, Some b =>
      if (0 <? err a) || (0 <? err b) then 0
      else if start a =? stop a then 0
      else if start b =? stop b then 0
      else if (stop b <? start a) || (stop a <? start b) then 0
      else u32 (Z.min (stop a) (stop b) - Z.max (start a) (start b) + 1)
  | _, _ => 0
  end.

(** The entry with the name of a subvolume and its index. Names are compared
    up to the first match; the name of a null entry is undefined. *)

Fixpoint find_name (conf : dht_conf) (x : Z) (i : nat) (es : list entry) : option (option (nat * entry)) :=
  match es with
  | [] => Some None
  | e :: es' =>
      y ← xlator e;
      if strcmp (vname conf y) (vname conf x) =? 0 then Some (Some (i, e)) else find_name conf x (S i) es'
  end.

Definition dht_is_subvol_in_layout (conf : dht_conf) (l : dht_layout) (x : Z) : option bool :=
  r ← find_name conf x 0 (entries l);
  Some (match r with Some (_, e) => live_range e | None => false end).

Definition dht_is_subvol_part_of_layout (conf : dht_conf) (l : dht_layout) (x : Z) : option bool :=
  r ← find_name conf x 0 (entries l); Some (bool_decide (is_Some r)).

Definition dht_layout_index_from_conf (conf : dht_conf) (l : dht_layout) (x : Z) : option (option nat) :=
  r ← find_name conf x 0 (entries l); Some (match r with Some (i, _) => Some i | None => None end).

Definition is_decommissioned (conf : dht_conf) (e : entry) : bool :=
  existsb (fun d => bool_decide (is_Some d) && bool_decide (d = xlator e)) (decommissioned_bricks conf).

Definition dht_decommissioned_bricks_in_layout (conf : dht_conf) (l : dht_layout) : Z :=
  Z.of_nat (length (mjoin ((fun e => List.filter (fun d => bool_decide (is_Some d)
    && bool_decide (d = xlator e)) (decommissioned_bricks conf)) <$> entries l))).

(** [true] for a weighted distribution; [abs] takes a signed number. *)

Fixpoint distribution (n : Z) (start_range : Z) (es : list entry) : bool :=
  match es with
  | [] => false
  | e :: es' =>
      let range := u32 (stop e - start e) in
      if start_range =? 0 then distribution n range es'
      else
        let diff := u32 (Z.abs (i32 (u32 (range - start_range)))) in
        if negb (range =? 0) && (n <? diff) then true else distribution n start_range es'
  end.

Definition dht_distribution_type (l : dht_layout) : bool := distribution (cnt l) 0 (entries l).

(** ** What has to be healed *)

(** The layout to heal, the one on disk, and whether to heal. *)

Definition dht_should_heal_layout (force_mkdir : Z) (heal ondisk : dht_layout)
    : option (dht_layout * dht_layout * bool) :=
  a ← dht_layout_anomalies ondisk;
  let heal_missing_dirs := if force_mkdir =? 0 then dht_layout_missing_dirs heal else force_mkdir in
  let broken := negb (hole_cnt a =? 0) || negb (overlap_cnt a =? 0) in
  let fixit := broken || negb (heal_missing_dirs =? 0) in
  if negb broken && negb (heal_missing_dirs =? 0) then Some (ondisk, heal, fixit)
  else Some (heal, ondisk, fixit).

Definition dht_should_fix_layout (conf : dht_conf) (inmem ondisk : dht_layout) : option bool :=
  a ← dht_layout_anomalies ondisk;
  if negb (down a =? 0) || negb (misc a =? 0) then Some false
  else if negb (hole_cnt a =? 0) || negb (overlap_cnt a =? 0) then Some true
  else if negb (commit_hash inmem =? commit_hash ondisk) then Some true
  else Some (negb ((dht_decommissioned_bricks_in_layout conf ondisk =? 0)
    && (dht_layout_span ondisk =? Z.of_nat (length (subvolumes conf)) - decommission_subvols_cnt conf)
    && Bool.eqb (dht_distribution_type inmem) (dht_distribution_type ondisk))).

(** ** Ranges for a new directory *)

Record loc := { path : list ascii; gfid : uuid_t }.

(** Where the ranges begin; undefined for a layout without entries. *)

Definition dht_selfheal_layout_alloc_start (conf : dht_conf) (lo : loc) (l : dht_layout) : option Z :=
  let str := if randomize_by_gfid conf then String.list_ascii_of_string (gf_uuid_unparse (gfid lo)) else path lo in
  '(ret, hashval) ← dht_hash_compute (extra_regex conf) (rsync_regex conf) (type l) str;
  if ret =? 0 then if cnt l =? 0 then None else Some (hashval mod cnt l) else Some 0.

(** The number of subvolumes to use, with the ones to use marked with an error
    of -1 or [ENOENT]. *)

Definition mark_decommissioned (conf : dht_conf) (e : entry) : entry :=
  if is_decommissioned conf e then set_err EINVAL e else e.

Definition countable (e : entry) : bool := (err e =? -1) || (err e =? 0) || (err e =? ENOENT).

Definition mark_countable (e : entry) : entry := if err e =? 0 then set_err (-1) e else e.

Definition mark_full (e : entry) : entry := if err e =? ENOSPC then set_err (-1) e else e.

Definition count_of (p : entry -> bool) (es : list entry) : Z := Z.of_nat (length (List.filter p es)).

Definition dht_get_layout_count (conf : dht_conf) (l : dht_layout) (new_layout : bool) : Z * dht_layout :=
  let es := mark_decommissioned conf <$> entries l in
  let count := count_of countable es in
  let es := mark_countable <$> es in
  let '(count, es) :=
    if (count =? 0) || negb new_layout
    then (count + count_of (fun e => err e =? ENOSPC) es, mark_full <$> es) else (count, es) in
  let count := if negb (spread_cnt l =? 0) && (spread_cnt l <=? count) then spread_cnt l
               else if count =? 0 then 1 else count in
  (count, set_entries es l).

(** The size of a subvolume in chunks; undefined past the end of [du_stats]. *)

Definition dht_get_chunks_from_xl (conf : dht_conf) (x : option Z) : option Z :=
  match du_stats conf with
  | None => Some 0
  | Some stats =>
      match list_find (fun c => Some c = x) (children conf) with
      | Some (i, _) => stats !! i
      | None => Some 0
      end
  end.

(** An entry that takes a range. *)

Definition takes (e : entry) : bool := (err e =? -1) || (err e =? ENOENT).

(** Whether all sizes are known, and their sum. *)

Fixpoint weigh (conf : dht_conf) (es : list entry) (bricks_to_use bricks_used total_size : Z)
    : option (bool * Z) :=
  match es with
  | [] => Some (true, total_size)
  | e :: es' =>
      if negb (takes e) then weigh conf es' bricks_to_use bricks_used total_size
      else
        curr_size ← dht_get_chunks_from_xl conf (xlator e);
        if curr_size =? 0 then Some (false, total_size)
        else
          let total_size := u32 (total_size + curr_size) in
          if bricks_to_use <=? bricks_used + 1 then Some (true, total_size)
          else weigh conf es' bricks_to_use (bricks_used + 1) total_size
  end.

(** The loop that gives the ranges, over the indices in their order; the names
    of the subvolumes that get one are logged, so that they must not be null. *)

Fixpoint give_ranges (size : entry -> option Z) (chunk bricks_to_use hash : Z) (idx : list nat)
    (bricks_used from : Z) (es : list entry) : option (list entry) :=
  match idx with
  | [] => Some es
  | i :: idx' =>
      e ← es !! i;
      if negb (takes e) then give_ranges size chunk bricks_to_use hash idx' bricks_used from es
      else
        curr_size ← size e;
        if curr_size =? 0 then give_ranges size chunk bricks_to_use hash idx' bricks_used from es
        else
          _ ← xlator e;
          let width := u32 (chunk * curr_size) in
          if bricks_to_use <=? bricks_used + 1
          then Some (<[i := set_all from 0xffffffff hash e]> es)
          else
            give_ranges size chunk bricks_to_use hash idx' (bricks_used + 1) (u32 (from + width))
              (<[i := set_all from (u32 (from + width - 1)) hash e]> es)
  end.

(** The indices from [start_subvol], around the list. *)

Definition rotated (n : nat) (start_subvol : Z) : list nat :=
  (fun real_i => Z.to_nat ((Z.of_nat real_i + start_subvol) mod Z.of_nat n)) <$> seq 0 n.

Definition dht_selfheal_layout_new_directory (conf : dht_conf) (lo : loc) (l : dht_layout)
    : option dht_layout :=
  let '(bricks_to_use, l) := dht_get_layout_count conf l true in
  '(known, total_size) ← weigh conf (entries l) bricks_to_use 0 0;
  let weight_by_size := do_weighting conf && known && negb (total_size =? 0) in
  let chunk := if weight_by_size then 0xffffffff / total_size else 0xffffffff / bricks_to_use in
  start_subvol ← dht_selfheal_layout_alloc_start conf lo l;
  let size e := if weight_by_size then dht_get_chunks_from_xl conf (xlator e) else Some 1 in
  es ← give_ranges size chunk bricks_to_use (commit_hash l)
         (rotated (length (entries l)) start_subvol) 0 0 (set_span 0 0 <$> entries l);
  Some (set_entries es l).

(** ** Moving little *)

Definition dht_layout_range_swap (i j : nat) (es : list entry) : list entry :=
  match es !! i, es !! j with
  | Some a, Some b => <[j := set_span (start a) (stop a) b]> (<[i := set_span (start b) (stop b) a]> es)
  | _, _ => es
  end.

(** The table of overlaps, in one piece; [n] is the number of new entries, the
    length of a row. Undefined outside. *)

Definition ov_entry (t : list Z) (n x y : nat) : option Z := t !! (x * n + y)%nat.

Definition set_ov (n x y : nat) (v : Z) (t : list Z) : option (list Z) :=
  if (x * n + y <? length t)%nat then Some (<[(x * n + y)%nat := v]> t) else None.

Definition overlap_table (new old : list entry) : option (list Z) :=
  for_loop (length new) 0 (fun i t =>
      for_loop (length old) 0 (fun j t => set_ov (length new) i j (dht_overlap_calc old j new i) t) t)
    (repeat 0 (length old * length new)).

Definition swap_rows (n i k : nat) (j : nat) (t : list Z) : option (list Z) :=
  overlap ← ov_entry t n i j;
  other ← ov_entry t n k j;
  t ← set_ov n i j other t;
  set_ov n k j overlap t.

(** The best partner [j] of [i] so far and what the exchange wins. *)

Definition better (new : list entry) (t : list Z) (i : nat) (acc : option (Z * nat)) (j : nat)
    : option (Z * nat) :=
  '(max_overlap, idx) ← acc;
  e ← new !! j;
  if 0 <? err e then Some (max_overlap, idx)
  else
    let n := length new in
    ii ← ov_entry t n i i; jj ← ov_entry t n j j; ij ← ov_entry t n i j; ji ← ov_entry t n j i;
    let curr_overlap := u32 (ii + jj) in
    let overlap := u32 (ij + ji) in
    if curr_overlap <? overlap then
      let overlap := u32 (overlap - curr_overlap) in
      if max_overlap <? overlap then Some (overlap, j) else Some (max_overlap, idx)
    else Some (max_overlap, idx).

Definition swap_best (old_cnt i : nat) (acc : list entry * list Z) : option (list entry * list Z) :=
  let '(new, t) := acc in
  e ← new !! i;
  if 0 <? err e then Some (new, t)
  else
    '(_, idx) ← foldl (better new t i) (Some (0, i)) (seq (S i) (length new - S i));
    if (idx =? i)%nat then Some (new, t)
    else
      t ← for_loop old_cnt 0 (swap_rows (length new) i idx) t;
      Some (dht_layout_range_swap i idx new, t).

Definition dht_selfheal_layout_maximize_overlap (conf : dht_conf) (new old : dht_layout)
    : option (dht_layout * dht_layout) :=
  old ← dht_layout_sort_volname conf old;
  t ← overlap_table (entries new) (entries old);
  '(es, _) ← for_loop (length (entries new)) 0 (swap_best (length (entries old))) (entries new, t);
  Some (set_entries es new, old).

(** The new layout, or the old one when it was set by a user; null when a
    subvolume is down. *)

Definition dht_fix_layout_of_directory (conf : dht_conf) (lo : loc) (l : dht_layout)
    : option (option dht_layout) :=
  if type l =? DHT_HASH_TYPE_DM_USER then Some (Some l)
  else
    a ← dht_layout_anomalies l;
    if negb (down a =? 0) then Some None
    else
      let n := length (subvolumes conf) in
      if (length (entries l) <? n)%nat then None else
      let copy e := {| err := if err e =? ENOSPC then -1 else err e; start := 0; stop := 0;
                       entry_hash := 0; xlator := xlator e |} in
      let new := set_hash (commit_hash l) (set_entries (copy <$> take n (entries l)) (dht_layout_new conf n)) in
      new ← dht_layout_sort_volname conf new;
      new ← dht_selfheal_layout_new_directory conf lo new;
      '(new, _) ← dht_selfheal_layout_maximize_overlap conf new l;
      Some (Some new).

(** ** What is written *)

(** Entry [i] of a layout, for a subvolume; a null one gets nothing. *)

Definition write := (Z * list ascii)%type.

Definition dht_selfheal_dir_xattr_persubvol (l : dht_layout) (i : nat) (subvol : option Z)
    : option (list write) :=
  raw ← dht_disk_layout_extract l i;
  Some (match subvol with Some x => [(x, raw)] | None => [] end).

Fixpoint concat_writes (ws : list (option (list write))) : option (list write) :=
  match ws with
  | [] => Some []
  | w :: ws' => a ← w; b ← concat_writes ws'; Some (a ++ b)
  end.

(** The entries whose ranges are not on disk, and the subvolumes that have
    none. *)

Definition unwritten (e : entry) : bool := (err e =? -1) && negb (stop e =? 0).

Definition dht_selfheal_dir_xattr (conf : dht_conf) (l : dht_layout) : option (list write) :=
  let own := imap (fun i e => if unwritten e then [dht_selfheal_dir_xattr_persubvol l i (xlator e)] else [])
               (entries l) in
  let dummy := dht_layout_new conf 1 in
  let other := (fun x => b ← dht_is_subvol_in_layout conf l x;
                         if b : bool then Some [] else dht_selfheal_dir_xattr_persubvol dummy 0 (Some x)) <$>
                 subvolumes conf in
  concat_writes (mjoin own ++ other).

Definition dht_selfheal_dir_getafix (conf : dht_conf) (lo : loc) (holes overlaps : Z) (l : dht_layout)
    : option (Z * dht_layout) :=
  '(ret, l) ← (if negb (holes =? 0) || negb (overlaps =? 0) then
      l ← dht_selfheal_layout_new_directory conf lo (set_hash DHT_LAYOUT_HASH_INVALID l); Some (0, l)
    else Some (-1, l));
  Some (if existsb (fun e => err e =? ENOENT) (entries l) then 0 else ret, l).
