(* ===== verification/DhtAssign.v ===== *)
(** * New directories get complete layouts

    The ranges that [dht_selfheal_layout_new_directory] gives are disjoint and
    cover all hashes. *)

From Stdlib Require Import ZArith Lia Bool Ascii.
From stdpp Require Import base list.
From S2P Require Import Prelude CLib Dict Uuid DhtHash DhtLayout DhtHeal.

(** ** Owners of hashes *)

(** Entry [i] has a range and the hash [h] is in it. *)

Definition owner (es : list entry) (h : Z) (i : nat) : Prop :=
  exists e, es !! i = Some e /\ live_range e = true /\ in_range h e = true.

(** Every hash has one owner. *)

Definition partition (es : list entry) : Prop :=
  forall h, in_u 32 h -> exists i, owner es h i /\ forall j, owner es h j -> j = i.

Lemma in_range_spec h e : in_range h e = true <-> start e <= h <= stop e.
Proof. unfold in_range. rewrite andb_true_iff, !Z.leb_le. done. Qed.

Lemma live_range_spec e : live_range e = true <-> start e <> stop e.
Proof. unfold live_range. by rewrite negb_true_iff, Z.eqb_neq. Qed.

(** ** The loop that gives ranges *)

Section give.
Context (size : entry -> option Z) (chunk hash : Z).

(** The sizes of the entries that can take a range, in the order of [idx]. *)

Definition want (es : list entry) (i : nat) : option Z :=
  e ← es !! i; if takes e then s ← size e; if s =? 0 then None else Some s else None.

Definition demand (es : list entry) (idx : list nat) : list Z := omap (want es) idx.

Definition sizes_known (es : list entry) (idx : list nat) : Prop :=
  forall i, i ∈ idx -> exists e, es !! i = Some e /\ start e = stop e /\
    (takes e = true -> is_Some (xlator e) /\ exists s, size e = Some s /\ 0 <= s).

Definition sum (l : list Z) : Z := foldr Z.add 0 l.

(** What the loop does to the entries with the indices [idx]. *)

Record given (from : Z) (idx : list nat) (es es' : list entry) : Prop := {
  given_other : forall i, i ∉ idx -> es' !! i = es !! i;
  given_same : forall i e, es !! i = Some e -> exists s t h, es' !! i = Some (set_all s t h e);
  given_cover : forall h, from <= h < 2 ^ 32 -> exists i, i ∈ idx /\ owner es' h i;
  given_bound : forall h i, i ∈ idx -> owner es' h i -> from <= h < 2 ^ 32;
  given_one : forall h i j, i ∈ idx -> j ∈ idx -> owner es' h i -> owner es' h j -> i = j;
  given_takes : forall i e, i ∈ idx -> es' !! i = Some e -> live_range e = true ->
    takes e = true /\ 0 <= start e < stop e /\ stop e < 2 ^ 32 /\ entry_hash e = hash;
  given_idle : forall i e, i ∈ idx -> es' !! i = Some e -> live_range e = false -> es !! i = Some e
}.

Lemma set_all_id e : set_all (start e) (stop e) (entry_hash e) e = e.
Proof. by destruct e. Qed.

Lemma sizes_known_tail es i idx e :
  sizes_known es (i :: idx) -> NoDup (i :: idx) -> sizes_known (<[i := e]> es) idx.
Proof.
  intros H Hn j Hj. apply NoDup_cons in Hn as [Hi _].
  rewrite list_lookup_insert_ne by (intros ->; done). apply H. by right.
Qed.

Lemma demand_tail es i idx e :
  NoDup (i :: idx) -> demand (<[i := e]> es) idx = demand es idx.
Proof.
  intros Hn. apply NoDup_cons in Hn as [Hi _]. unfold demand.
  induction idx as [|j idx IH]; [done|]. apply not_elem_of_cons in Hi as [Hij Hi]. cbn [omap list_omap].
  rewrite (IH Hi). unfold want. by rewrite list_lookup_insert_ne.
Qed.

(** An entry that is passed over keeps its empty range. *)

Lemma given_skip from i idx es es' :
  NoDup (i :: idx) -> sizes_known es (i :: idx) -> given from idx es es' -> given from (i :: idx) es es'.
Proof.
  intros Hn Hk [Ho Hs Hc Hb H1 Ht Hd]. apply NoDup_cons in Hn as [Hi _].
  destruct (Hk i) as (e & He & Hse & _); [by left|].
  assert (es' !! i = Some e) as He' by (by rewrite Ho).
  assert (forall h, ~ owner es' h i) as Hni.
  { intros h (e1 & He1 & Hl & _). rewrite He' in He1. injection He1 as <-. by apply live_range_spec in Hl. }
  split.
  - intros j Hj. apply not_elem_of_cons in Hj as [_ Hj]. by apply Ho.
  - done.
  - intros h Hh. destruct (Hc h Hh) as (j & Hj & Hw). exists j. split; [by right|done].
  - intros h j [->|Hj]%elem_of_cons Hw; [by apply Hni in Hw|by eapply Hb].
  - intros h j k [->|Hj]%elem_of_cons [->|Hk']%elem_of_cons Hw Hw'; [done|by apply Hni in Hw|by apply Hni in Hw'|].
    by eapply H1.
  - intros j e1 [->|Hj]%elem_of_cons Hj1 Hl; [|by eapply Ht].
    rewrite He' in Hj1. injection Hj1 as <-. by apply live_range_spec in Hl.
  - intros j e1 [->|Hj]%elem_of_cons Hj1 Hl; [congruence|by apply Hd].
Qed.

(** An entry gets the range from [from] to [mid - 1], and the others the rest. *)

Lemma given_step from mid i idx es es' e :
  NoDup (i :: idx) -> es !! i = Some e -> takes e = true -> 0 <= from -> from + 1 < mid <= 2 ^ 32 ->
  given mid idx (<[i := set_all from (mid - 1) hash e]> es) es' -> given from (i :: idx) es es'.
Proof.
  intros Hn He Hte Hf Hm [Ho Hs Hc Hb H1 Ht Hd]. apply NoDup_cons in Hn as [Hi _].
  pose proof (lookup_lt_Some _ _ _ He) as Hlt. set (e1 := set_all from (mid - 1) hash e) in *.
  assert (es' !! i = Some e1) as He' by (by rewrite Ho, list_lookup_insert_eq).
  assert (forall h, owner es' h i <-> from <= h < mid) as Hw.
  { intros h. split.
    - intros (e2 & He2 & _ & Hr). rewrite He' in He2. injection He2 as <-. apply in_range_spec in Hr. cbn in Hr. lia.
    - intros Hh. exists e1. split_and!; [done|apply live_range_spec; cbn; lia|apply in_range_spec; cbn; lia]. }
  split.
  - intros j Hj. apply not_elem_of_cons in Hj as [Hji Hj]. by rewrite Ho, list_lookup_insert_ne.
  - intros j e2 Hj. destruct (decide (j = i)) as [->|Hne].
    + rewrite He in Hj. injection Hj as <-. by exists from, (mid - 1), hash.
    + apply Hs. by rewrite list_lookup_insert_ne.
  - intros h Hh. destruct (Z_lt_le_dec h mid) as [Hlo|Hhi].
    + exists i. split; [by left|apply Hw; lia].
    + destruct (Hc h) as (j & Hj & Hj'); [lia|]. exists j. split; [by right|done].
  - intros h j [->|Hj]%elem_of_cons Hj'; [apply Hw in Hj'; lia|]. specialize (Hb h j Hj Hj'). lia.
  - intros h j k [->|Hj]%elem_of_cons [->|Hk]%elem_of_cons Hj' Hk'; [done| | |by eapply H1].
    + apply Hw in Hj'. specialize (Hb h k Hk Hk'). lia.
    + apply Hw in Hk'. specialize (Hb h j Hj Hj'). lia.
  - intros j e2 [->|Hj]%elem_of_cons Hj2 Hl; [|by eapply Ht].
    rewrite He' in Hj2. injection Hj2 as <-. split_and!; [exact Hte|cbn; lia..|done].
  - intros j e2 [->|Hj]%elem_of_cons Hj2 Hl.
    + rewrite He' in Hj2. injection Hj2 as <-. apply not_true_iff_false in Hl. exfalso. apply Hl, live_range_spec. cbn. lia.
    + specialize (Hd j e2 Hj Hj2 Hl). by rewrite list_lookup_insert_ne in Hd by (by intros ->).
Qed.

Lemma given_nil es : given (2 ^ 32) [] es es.
Proof.
  split; try done.
  - intros i e He. exists (start e), (stop e), (entry_hash e). by rewrite set_all_id.
  - intros h Hh. lia.
  - intros h i Hi. by apply not_elem_of_nil in Hi.
  - intros h i j Hi. by apply not_elem_of_nil in Hi.
  - intros i e Hi. by apply not_elem_of_nil in Hi.
Qed.

(** The entries after the last one keep their empty ranges. *)

Lemma given_rest idx es : NoDup idx -> sizes_known es idx -> given (2 ^ 32) idx es es.
Proof.
  induction idx as [|i idx IH]; intros Hn Hk; [apply given_nil|]. apply given_skip; [done|done|].
  apply NoDup_cons in Hn as Hn'. apply IH; [tauto|]. intros j Hj. apply Hk. by right.
Qed.

Lemma demand_nonneg es idx k : sizes_known es idx -> 0 <= sum (take k (demand es idx)).
Proof.
  intros Hk. assert (Forall (fun s => 0 <= s) (demand es idx)) as Hall.
  { unfold demand. apply Forall_forall. intros s (j & Hj & Hw)%list_elem_of_omap.
    destruct (Hk j Hj) as (e & He & _ & Hsz). unfold want in Hw. rewrite He in Hw. cbn in Hw.
    destruct (takes e); [|done]. destruct (Hsz eq_refl) as (_ & s' & Hss & Hs'). rewrite Hss in Hw. cbn in Hw.
    destruct (s' =? 0); [done|]. by injection Hw as <-. }
  apply (Forall_take _ k) in Hall. induction Hall; cbn [sum foldr]; [lia|]. unfold sum in *. lia.
Qed.

Lemma give_spec to_use idx used from es :
  NoDup idx -> sizes_known es idx -> 2 <= chunk -> 0 <= from -> used < to_use ->
  to_use - used <= Z.of_nat (length (demand es idx)) ->
  from + chunk * sum (take (Z.to_nat (to_use - used)) (demand es idx)) <= 0xffffffff ->
  exists es', give_ranges size chunk to_use hash idx used from es = Some es' /\ given from idx es es'.
Proof.
  intros Hn Hk Hch. revert used from es Hk. induction idx as [|i idx IH]; intros used from es Hk Hf Hu Hd Hs.
  { cbn in Hd. lia. }
  cbn [give_ranges]. destruct (Hk i) as (e & He & Hse & Hsz); [by left|]. rewrite He. cbn [mbind option_bind].
  assert (NoDup idx) as Hn' by (by apply NoDup_cons in Hn as [_ ?]).
  assert (sizes_known es idx) as Hk' by (intros j Hj; apply Hk; by right).
  unfold demand in Hd, Hs. cbn [omap list_omap] in Hd, Hs. unfold want at 1 in Hd. unfold want at 1 in Hs.
  rewrite He in Hd, Hs. cbn [mbind option_bind] in Hd, Hs.
  destruct (takes e) eqn:Ht; cbn [negb].
  2: { destruct (IH Hn' used from es) as (es' & -> & Hg); [done..|]. exists es'. split; [done|by apply given_skip]. }
  destruct (Hsz eq_refl) as ([x Hx] & s & Hss & Hs0). rewrite Hss in Hd, Hs |- *. cbn [mbind option_bind] in Hd, Hs |- *.
  destruct (Z.eqb_spec s 0) as [Hz|Hs1].
  { destruct (IH Hn' used from es) as (es' & -> & Hg); [done..|]. exists es'. split; [done|by apply given_skip]. }
  rewrite Hx. cbn [mbind option_bind]. fold (demand es idx) in Hd, Hs.
  replace (Z.to_nat (to_use - used)) with (S (Z.to_nat (to_use - (used + 1)))) in Hs by lia.
  cbn [take sum foldr] in Hs. fold (sum (take (Z.to_nat (to_use - (used + 1))) (demand es idx))) in Hs.
  set (rest := sum (take (Z.to_nat (to_use - (used + 1))) (demand es idx))) in *.
  assert (0 <= rest) as Hrest by (by apply demand_nonneg).
  assert (2 <= chunk * s) by nia. assert (0 <= chunk * rest) by nia. rewrite Z.mul_add_distr_l in Hs.
  destruct (Z.leb_spec to_use (used + 1)) as [Hlast|Hmore].
  - eexists. split; [done|]. apply (given_step from (2 ^ 32) i idx es _ e); try done; [lia|].
    apply given_rest; [done|]. by apply sizes_known_tail.
  - rewrite !(uwrap_small 32) by (unfold in_u; rewrite ?(uwrap_small 32) by (unfold in_u; lia); lia).
    destruct (IH Hn' (used + 1) (from + chunk * s) (<[i := set_all from (from + chunk * s - 1) hash e]> es))
      as (es' & -> & Hg).
    + by apply sizes_known_tail.
    + lia.
    + lia.
    + rewrite demand_tail by done. cbn [length] in Hd. lia.
    + rewrite demand_tail by done. fold rest. lia.
    + exists es'. split; [done|]. by apply (given_step from (from + chunk * s) i idx es es' e); try done; lia.
Qed.
End give.

(** ** The order of the subvolumes *)

Lemma rotated_elem n s i : (0 < n)%nat -> i ∈ rotated n s <-> (i < n)%nat.
Proof.
  intros Hn. unfold rotated. rewrite list_elem_of_fmap. split.
  - intros (r & -> & Hr). pose proof (Z.mod_pos_bound (Z.of_nat r + s) (Z.of_nat n)). lia.
  - intros Hi. exists (Z.to_nat ((Z.of_nat i - s) mod Z.of_nat n)).
    pose proof (Z.mod_pos_bound (Z.of_nat i - s) (Z.of_nat n)). split; [|apply elem_of_seq; lia].
    rewrite Z2Nat.id by lia. rewrite Z.add_mod_idemp_l by lia.
    replace (Z.of_nat i - s + s) with (Z.of_nat i) by lia. rewrite Z.mod_small by lia. lia.
Qed.

Lemma rotated_perm n s : (0 < n)%nat -> Permutation (rotated n s) (seq 0 n).
Proof.
  intros Hn. assert (NoDup (rotated n s)) as Hd.
  { apply (NoDup_fmap_2_strong _ (seq 0 n)); [|apply NoDup_seq].
    intros a b Ha%elem_of_seq Hb%elem_of_seq Hab.
    pose proof (Z.mod_pos_bound (Z.of_nat a + s) (Z.of_nat n)).
    pose proof (Z.mod_pos_bound (Z.of_nat b + s) (Z.of_nat n)).
    assert ((Z.of_nat a + s) mod Z.of_nat n = (Z.of_nat b + s) mod Z.of_nat n) as He by lia.
    assert ((Z.of_nat a - Z.of_nat b) mod Z.of_nat n = 0) as Hz.
    { replace (Z.of_nat a - Z.of_nat b) with ((Z.of_nat a + s) - (Z.of_nat b + s)) by lia.
      rewrite Zminus_mod, He, Z.sub_diag. by apply Z.mod_0_l; lia. }
    apply Z.mod_divide in Hz as [k Hk]; [|lia]. assert (k = 0) by nia. lia. }
  apply NoDup_Permutation; [done|apply NoDup_seq|]. intros i. rewrite rotated_elem, elem_of_seq by done. lia.
Qed.

(** The demand in the order of the list. *)

Definition entry_demand (size : entry -> option Z) (e : entry) : option Z :=
  if takes e then s ← size e; if s =? 0 then None else Some s else None.

Lemma demand_list size pre es :
  demand size (pre ++ es) (seq (length pre) (length es)) = omap (entry_demand size) es.
Proof.
  revert pre. induction es as [|e es IH]; intros pre; [done|]. unfold demand in *. cbn [length seq omap list_omap].
  specialize (IH (pre ++ [e])). rewrite length_app, <- app_assoc in IH. cbn [length app] in IH.
  rewrite Nat.add_1_r in IH. rewrite IH. unfold want, entry_demand.
  rewrite lookup_app_r, Nat.sub_diag by lia. done.
Qed.

Lemma demand_rotated size es s :
  es <> [] -> Permutation (demand size es (rotated (length es) s)) (omap (entry_demand size) es).
Proof.
  intros Hn. assert (0 < length es)%nat by (destruct es; [done|cbn; lia]).
  rewrite <- (demand_list size [] es). unfold demand. cbn [app length].
  by rewrite (rotated_perm (length es) s) by done.
Qed.

Lemma sum_perm l l' : Permutation l l' -> sum l = sum l'.
Proof. unfold sum. induction 1; cbn; lia. Qed.

Lemma sum_app l l' : sum (l ++ l') = sum l + sum l'.
Proof. unfold sum. induction l as [|x l IH]; cbn; lia. Qed.

(** ** Counting *)

Lemma count_cons p e es : count_of p (e :: es) = (if p e then 1 else 0) + count_of p es.
Proof. unfold count_of. cbn [List.filter]. destruct (p e); cbn [length]; lia. Qed.

Lemma count_fmap p q f es :
  (forall e, e ∈ es -> p (f e) = q e) -> count_of p (f <$> es) = count_of q es.
Proof.
  induction es as [|e es IH]; intros H; [done|]. rewrite fmap_cons, !count_cons, IH, H;
    [done|by left|intros e' He'; apply H; by right].
Qed.

Lemma count_pos p es : 0 < count_of p es <-> exists e, e ∈ es /\ p e = true.
Proof.
  induction es as [|e es IH].
  - unfold count_of. cbn. split; [lia|]. intros (e & He & _). by apply not_elem_of_nil in He.
  - rewrite count_cons. assert (0 <= count_of p es) by (unfold count_of; lia). split.
    + intros H'. destruct (p e) eqn:Hp; [exists e; split; [by left|done]|].
      destruct IH as [IH _]. destruct IH as (e' & He' & Hp'); [lia|]. exists e'. split; [by right|done].
    + intros (e' & [->|He']%elem_of_cons & Hp'); [rewrite Hp'; lia|]. destruct (p e); [lia|]. apply IH. eauto.
Qed.

(** A subvolume that can be used. *)

Definition usable (conf : dht_conf) (e : entry) : bool :=
  negb (is_decommissioned conf e) && (countable e || (err e =? ENOSPC)).

Definition same_subvols (es es' : list entry) : Prop := xlator <$> es' = xlator <$> es.

Lemma same_subvols_fmap (f : entry -> entry) es :
  (forall e, xlator (f e) = xlator e) -> same_subvols es (f <$> es).
Proof. intros H. unfold same_subvols. rewrite <- list_fmap_compose. apply list_fmap_ext. intros. apply H. Qed.

Lemma takes_mark e : takes (mark_countable e) = countable e.
Proof.
  unfold takes, countable, mark_countable. destruct (err e =? 0) eqn:E; cbn [err set_err].
  - by rewrite orb_true_r.
  - by rewrite orb_false_r.
Qed.

Lemma takes_full e : countable e = false -> takes (mark_full (mark_countable e)) = (err (mark_countable e) =? ENOSPC).
Proof.
  intros Hc. unfold mark_countable. pose proof Hc as Hc'. unfold countable in Hc'.
  apply orb_false_iff in Hc' as [[H1 H0]%orb_false_iff H2]. rewrite H0. unfold mark_full, takes.
  destruct (err e =? ENOSPC); [done|]. by rewrite H1, H2.
Qed.

Lemma mark_xlator conf e : xlator (mark_decommissioned conf e) = xlator e.
Proof. unfold mark_decommissioned. by destruct (is_decommissioned conf e). Qed.

Lemma decommissioned_not_usable conf e :
  usable conf e = (countable (mark_decommissioned conf e) || (err (mark_decommissioned conf e) =? ENOSPC)).
Proof. unfold usable, mark_decommissioned. by destruct (is_decommissioned conf e). Qed.

Lemma takes_marks e :
  takes (mark_full (mark_countable e)) = true -> countable e || (err e =? ENOSPC) = true.
Proof.
  destruct (countable e) eqn:Hc; [done|]. rewrite takes_full by done. cbn [orb].
  unfold mark_countable. unfold countable in Hc. apply orb_false_iff in Hc as [[_ ->]%orb_false_iff _]. done.
Qed.

(** How many subvolumes are used, when [n] can be. *)

Definition clip (spread n : Z) : Z :=
  if negb (spread =? 0) && (spread <=? n) then spread else if n =? 0 then 1 else n.

Lemma clip_spec s n : 0 <= s -> 1 <= n -> 1 <= clip s n <= n /\ (s = 0 -> clip s n = n).
Proof. intros. unfold clip. destruct (Z.eqb_spec s 0), (Z.leb_spec s n), (Z.eqb_spec n 0); cbn; lia. Qed.

(** What the marking is, and that it leaves as many takers as it counts. *)

Definition marks (conf : dht_conf) (l : dht_layout) (e : entry) : entry :=
  let e := mark_countable (mark_decommissioned conf e) in
  if count_of countable (mark_decommissioned conf <$> entries l) =? 0 then mark_full e else e.

Lemma marks_xlator conf l e : xlator (marks conf l e) = xlator e.
Proof.
  rewrite <- (mark_xlator conf e). unfold marks, mark_full, mark_countable. by repeat case_match.
Qed.

Lemma marks_usable conf l e : takes (marks conf l e) = true -> usable conf e = true.
Proof.
  rewrite decommissioned_not_usable. unfold marks. destruct (_ =? 0); [apply takes_marks|].
  rewrite takes_mark. by intros ->.
Qed.

Lemma marks_takers conf l e :
  e ∈ entries l -> usable conf e = true -> 1 <= count_of takes (marks conf l <$> entries l).
Proof.
  intros He Hu. rewrite decommissioned_not_usable in Hu.
  enough (0 < count_of takes (marks conf l <$> entries l)) by lia. apply count_pos.
  destruct (Z.eqb_spec (count_of countable (mark_decommissioned conf <$> entries l)) 0) as [Hz|Hz].
  - exists (marks conf l e). split; [by apply list_elem_of_fmap_2|]. unfold marks. rewrite Hz. cbn [Z.eqb].
    assert (countable (mark_decommissioned conf e) = false) as Hc.
    { apply not_true_is_false. intros Hc.
      assert (0 < count_of countable (mark_decommissioned conf <$> entries l)); [|lia].
      apply count_pos. eexists. split; [by apply list_elem_of_fmap_2|done]. }
    rewrite takes_full by done. rewrite Hc in Hu. cbn [orb] in Hu. apply Z.eqb_eq in Hu.
    unfold mark_countable. rewrite Hu. cbn [Z.eqb ENOSPC]. by rewrite Hu.
  - assert (0 < count_of countable (mark_decommissioned conf <$> entries l)) as Hc by (unfold count_of in *; lia).
    apply count_pos in Hc as (e' & (e1 & -> & He1)%list_elem_of_fmap & Hc).
    exists (marks conf l e1). split; [by apply list_elem_of_fmap_2|]. unfold marks.
    apply Z.eqb_neq in Hz. by rewrite Hz, takes_mark.
Qed.

Lemma layout_count_marks conf l :
  dht_get_layout_count conf l true =
  (clip (spread_cnt l) (count_of takes (marks conf l <$> entries l)), set_entries (marks conf l <$> entries l) l).
Proof.
  unfold dht_get_layout_count, marks. set (es := mark_decommissioned conf <$> entries l).
  rewrite orb_false_r. destruct (Z.eqb_spec (count_of countable es) 0) as [Hz|Hz]; cbv iota beta.
  - assert (forall e, e ∈ es -> countable e = false) as Hno.
    { intros e He. apply not_true_is_false. intros Hce.
      assert (0 < count_of countable es) by (apply count_pos; eauto). lia. }
    rewrite Hz, Z.add_0_l. unfold clip.
    rewrite (list_fmap_compose (mark_decommissioned conf) (fun e => mark_full (mark_countable e))). fold es.
    rewrite (count_fmap takes (fun e => err (mark_countable e) =? ENOSPC))
      by (intros e He; apply takes_full; by apply Hno).
    rewrite (count_fmap (fun e => err e =? ENOSPC) (fun e => err (mark_countable e) =? ENOSPC)) by done.
    by rewrite <- list_fmap_compose.
  - unfold clip. rewrite (list_fmap_compose (mark_decommissioned conf) mark_countable). fold es.
    by rewrite (count_fmap takes countable) by (intros; apply takes_mark).
Qed.

(** ** Weights *)

Definition chunks_of (conf : dht_conf) (e : entry) : option Z := dht_get_chunks_from_xl conf (xlator e).

Definition stats_ok (conf : dht_conf) : Prop :=
  match du_stats conf with
  | None => True
  | Some stats => (length (children conf) <= length stats)%nat /\ Forall (fun s => 0 <= s) stats
  end.

Lemma chunks_known conf x : stats_ok conf -> exists s, dht_get_chunks_from_xl conf x = Some s /\ 0 <= s.
Proof.
  unfold stats_ok, dht_get_chunks_from_xl. destruct (du_stats conf) as [stats|]; [|by exists 0].
  intros [Hl Hs]. destruct (list_find _ _) as [[i c]|] eqn:Hf; [|by exists 0].
  apply list_find_Some in Hf as (Hi & _ & _). apply lookup_lt_Some in Hi.
  destruct (lookup_lt_is_Some_2 stats i) as [s Hss]; [lia|]. exists s. split; [done|].
  rewrite Forall_lookup in Hs. by eapply Hs.
Qed.

Lemma no_demand size es : count_of takes es = 0 -> omap (entry_demand size) es = [].
Proof.
  induction es as [|e es IH]; [done|]. rewrite count_cons. cbn [omap list_omap]. unfold entry_demand at 1.
  assert (0 <= count_of takes es) by (unfold count_of; lia). destruct (takes e); [lia|]. intros H'. apply IH. lia.
Qed.

Lemma weigh_spec conf es m used tot :
  stats_ok conf -> in_u 32 tot ->
  exists b t, weigh conf es m used tot = Some (b, t) /\
    (b = true -> m - used = count_of takes es ->
     t = u32 (tot + sum (omap (entry_demand (chunks_of conf)) es)) /\
     Z.of_nat (length (omap (entry_demand (chunks_of conf)) es)) = count_of takes es).
Proof.
  intros Hst. revert used tot. induction es as [|e es IH]; intros used tot Ht.
  { exists true, tot. split; [done|]. intros _ _. cbn. rewrite Z.add_0_r, uwrap_small by done. done. }
  cbn [weigh]. rewrite count_cons. cbn [omap list_omap].
  destruct (chunks_known conf (xlator e) Hst) as (s & Hs & Hs0).
  assert (entry_demand (chunks_of conf) e = if takes e then if s =? 0 then None else Some s else None) as ->
    by (unfold entry_demand, chunks_of; by rewrite Hs).
  destruct (takes e) eqn:Hte; cbn [negb].
  2: { destruct (IH used tot Ht) as (b & t & -> & H). by exists b, t. }
  rewrite Hs. cbn [mbind option_bind].
  destruct (Z.eqb_spec s 0); [by exists false, tot|]. cbn [length sum foldr].
  fold (sum (omap (entry_demand (chunks_of conf)) es)).
  destruct (Z.leb_spec m (used + 1)) as [Hl|Hl].
  - exists true, (u32 (tot + s)). split; [done|]. intros _ Hc.
    assert (count_of takes es = 0) as Hc0 by (unfold count_of in *; lia).
    rewrite (no_demand _ _ Hc0). cbn. rewrite Hc0, Z.add_0_r. done.
  - destruct (IH (used + 1) (u32 (tot + s))) as (b & t & -> & H); [by apply uwrap_range|].
    exists b, t. split; [done|]. intros Hb Hc. destruct (H Hb) as [-> <-]; [lia|]. split; [|lia].
    unfold uwrap. rewrite Zplus_mod_idemp_l. f_equal. lia.
Qed.

(** ** New directories *)

Lemma demand_ones es :
  omap (entry_demand (fun _ => Some 1)) es = repeat 1 (Z.to_nat (count_of takes es)).
Proof.
  induction es as [|e es IH]; [done|]. rewrite count_cons. cbn [omap list_omap].
  assert (0 <= count_of takes es) by (unfold count_of; lia).
  unfold entry_demand at 1. destruct (takes e); cbn [mbind option_bind Z.eqb].
  - by rewrite IH, Z2Nat.inj_add by lia.
  - by rewrite IH, Z.add_0_l.
Qed.

Lemma sum_const c l : Forall (fun x => x = c) l -> sum l = Z.of_nat (length l) * c.
Proof. unfold sum. induction 1 as [|x l -> _ IH]; cbn [foldr length]; lia. Qed.

(** What the code weighs: the sizes of all subvolumes of the layout. *)

Definition weight (conf : dht_conf) (l : dht_layout) : Z :=
  sum ((fun e => default 0 (chunks_of conf e)) <$> entries l).

(** The weights are not used, or all subvolumes are, and the sizes add up to
    less than 2^31. *)

Definition weights_ok (conf : dht_conf) (l : dht_layout) : Prop :=
  stats_ok conf /\ (do_weighting conf = false \/ (spread_cnt l = 0 /\ weight conf l < 2 ^ 31)).

Lemma demand_weight conf l :
  stats_ok conf ->
  0 <= sum (omap (entry_demand (chunks_of conf)) (marks conf l <$> entries l)) <= weight conf l.
Proof.
  intros Hst. unfold weight. generalize (entries l) as es.
  induction es as [|e es IH]; [done|]. rewrite !fmap_cons. cbn [omap list_omap].
  destruct (chunks_known conf (xlator e) Hst) as (s & Hs & Hs0).
  assert (entry_demand (chunks_of conf) (marks conf l e) =
    if takes (marks conf l e) then if s =? 0 then None else Some s else None) as ->
    by (unfold entry_demand, chunks_of; by rewrite marks_xlator, Hs).
  replace (chunks_of conf e) with (Some s) by done. unfold sum in *.
  destruct (takes _); [destruct (s =? 0)|]; cbn [foldr default]; change (id s) with s; lia.
Qed.

Lemma hash_defined e r t name : exists ret h, dht_hash_compute e r t name = Some (ret, h).
Proof.
  unfold dht_hash_compute, dht_hash_compute_internal. destruct (_ || _); [|by exists (-1), 0].
  rewrite dm_hashfn_reference. cbn [mbind option_bind]. by eexists 0, _.
Qed.

Lemma alloc_start_defined conf lo l : entries l <> [] -> exists s, dht_selfheal_layout_alloc_start conf lo l = Some s.
Proof.
  intros Hn. unfold dht_selfheal_layout_alloc_start.
  destruct (hash_defined (extra_regex conf) (rsync_regex conf) (type l)
    (if randomize_by_gfid conf then String.list_ascii_of_string (gf_uuid_unparse (gfid lo)) else path lo))
    as (ret & h & ->).
  cbn [mbind option_bind]. unfold cnt. destruct (ret =? 0), (entries l); [done| |done|]; by eexists.
Qed.

(** The two ways of giving ranges fit into the hash space. *)

Lemma fits conf l :
  weights_ok conf l -> 0 <= spread_cnt l -> Z.of_nat (length (entries l)) < 2 ^ 31 ->
  (exists e, e ∈ entries l /\ usable conf e = true) ->
  let es := marks conf l <$> entries l in
  let m := clip (spread_cnt l) (count_of takes es) in
  exists known total, weigh conf es m 0 0 = Some (known, total) /\
    let w := do_weighting conf && known && negb (total =? 0) in
    let chunk := if w then 0xffffffff / total else 0xffffffff / m in
    let size e := if w then chunks_of conf e else Some 1 in
    2 <= chunk /\ 1 <= m <= Z.of_nat (length (omap (entry_demand size) es)) /\
    forall d, Permutation d (omap (entry_demand size) es) -> chunk * sum (take (Z.to_nat m) d) <= 0xffffffff.
Proof.
  intros [Hst Hw] Hsp Hcnt (e0 & He0 & Hu0) es m.
  pose proof (marks_takers conf l e0 He0 Hu0) as Htk. fold es in Htk.
  destruct (clip_spec (spread_cnt l) (count_of takes es) Hsp Htk) as [Hm Hm0]. fold m in Hm, Hm0.
  destruct (weigh_spec conf es m 0 0 Hst) as (known & total & Hwe & Hks); [by unfold in_u|].
  exists known, total. split; [done|]. set (w := do_weighting conf && known && negb (total =? 0)).
  assert (count_of takes es <= Z.of_nat (length (entries l))) as Hle.
  { unfold count_of, es. pose proof (List.filter_length_le takes (marks conf l <$> entries l)) as H.
    rewrite length_fmap in H. lia. }
  destruct w eqn:Ew; subst w; cbv zeta.
  - apply andb_true_iff in Ew as [[Ew Ek]%andb_true_iff Et%negb_true_iff%Z.eqb_neq].
    destruct Hw as [Hw|[Hs0 Hwt]]; [congruence|]. specialize (Hm0 Hs0).
    destruct (Hks Ek) as [Htot Hlen]; [lia|]. pose proof (demand_weight conf l Hst) as Hd. fold es in Hd.
    rewrite Z.add_0_l, uwrap_small in Htot by (unfold in_u; lia).
    split_and!; [apply Z.div_le_lower_bound; lia|lia|change (m <= Z.of_nat (length (omap (entry_demand (chunks_of conf)) es))); lia|].
    intros d Hp. change (omap (entry_demand _) es) with (omap (entry_demand (chunks_of conf)) es) in Hp.
    rewrite take_ge by (rewrite Hp; lia). rewrite (sum_perm _ _ Hp), <- Htot.
    rewrite Z.mul_comm. apply Z.mul_div_le. lia.
  - change (entry_demand _) with (entry_demand (fun _ => Some 1)). rewrite demand_ones, repeat_length.
    split_and!; [apply Z.div_le_lower_bound; lia|lia|lia|]. intros d Hp.
    assert (Forall (fun x => x = 1) d) as Hall.
    { rewrite Hp. apply Forall_forall. intros x Hx%list_elem_of_In. by apply repeat_spec in Hx. }
    rewrite (sum_const 1) by (by apply Forall_take).
    rewrite length_take, Hp, repeat_length, Nat.min_l, Z2Nat.id, Z.mul_1_r by lia.
    rewrite Z.mul_comm. apply Z.mul_div_le. lia.
Qed.

(** What is given to the marked entries, all indices being tried. *)

Definition cleared (conf : dht_conf) (l : dht_layout) : list entry :=
  set_span 0 0 <$> (marks conf l <$> entries l).

Lemma cleared_lookup conf l i e' :
  cleared conf l !! i = Some e' -> exists e, entries l !! i = Some e /\ e' = set_span 0 0 (marks conf l e).
Proof.
  unfold cleared. intros (e1 & -> & (e & -> & He)%list_lookup_fmap_Some)%list_lookup_fmap_Some. by exists e.
Qed.

Lemma cleared_demand size conf l :
  (forall e, size (set_span 0 0 e) = size e) ->
  omap (entry_demand size) (cleared conf l) = omap (entry_demand size) (marks conf l <$> entries l).
Proof.
  intros Hs. unfold cleared. induction (marks conf l <$> entries l) as [|e k IH]; [done|].
  rewrite fmap_cons. cbn [omap list_omap]. rewrite IH. unfold entry_demand. by rewrite Hs.
Qed.

Lemma new_directory_given conf lo l :
  weights_ok conf l -> 0 <= spread_cnt l -> Z.of_nat (length (entries l)) < 2 ^ 31 ->
  (exists e, e ∈ entries l /\ usable conf e = true) -> Forall (fun e => is_Some (xlator e)) (entries l) ->
  exists es' idx, dht_selfheal_layout_new_directory conf lo l = Some (set_entries es' l) /\
    (forall i, i ∈ idx <-> (i < length (entries l))%nat) /\ given (commit_hash l) 0 idx (cleared conf l) es'.
Proof.
  intros Hw Hsp Hcnt Hex Hxl.
  assert (entries l <> []) as Hne by (destruct Hex as (e & He & _); intros E; rewrite E in He; by apply not_elem_of_nil in He).
  destruct (fits conf l Hw Hsp Hcnt Hex) as (known & total & Hwe & Hfit).
  unfold dht_selfheal_layout_new_directory. rewrite layout_count_marks.
  cbn [entries set_entries commit_hash]. rewrite Hwe. cbn [mbind option_bind]. cbv zeta in Hfit |- *.
  set (w := do_weighting conf && known && negb (total =? 0)) in *.
  set (m := clip _ _) in *. set (chunk := if w then _ else _) in *. destruct Hfit as (Hch & Hm & Hfit).
  destruct (alloc_start_defined conf lo (set_entries (marks conf l <$> entries l) l)) as [s ->].
  { cbn. by destruct (entries l). }
  cbn [mbind option_bind]. rewrite length_fmap. fold (cleared conf l).
  set (size := fun e => if w then chunks_of conf e else Some 1) in *.
  assert (length (cleared conf l) = length (entries l)) as Hlen by (unfold cleared; by rewrite !length_fmap).
  assert (0 < length (entries l))%nat as Hpos by (destruct (entries l); [done|cbn; lia]).
  assert (Permutation (demand size (cleared conf l) (rotated (length (entries l)) s))
    (omap (entry_demand size) (marks conf l <$> entries l))) as Hp.
  { rewrite <- Hlen, <- (cleared_demand size) by done. apply demand_rotated. intros E. rewrite E in Hlen. cbn in Hlen. lia. }
  destruct (give_spec size chunk (commit_hash l) m (rotated (length (entries l)) s) 0 0 (cleared conf l))
    as (es' & Hg & Hgv).
  - rewrite (rotated_perm _ s Hpos). apply NoDup_seq.
  - intros i Hi%rotated_elem; [|done]. rewrite <- Hlen in Hi. apply lookup_lt_is_Some_2 in Hi as [e He].
    exists e. split; [done|]. apply cleared_lookup in He as (e1 & He1 & ->). split; [done|]. intros _.
    split; [cbn; rewrite marks_xlator; rewrite Forall_lookup in Hxl; by eapply Hxl|]. unfold size. destruct w; [apply chunks_known, Hw|by exists 1].
  - exact Hch.
  - done.
  - lia.
  - rewrite Hp. lia.
  - rewrite Z.add_0_l, Z.sub_0_r. by apply Hfit.
  - exists es', (rotated (length (entries l)) s). split_and!; [|intros i; by apply rotated_elem|done].
    fold (chunks_of conf). change (fun e : entry => _) with size. rewrite Hg. done.
Qed.

Lemma given_lookup conf l hash from idx es' :
  given hash from idx (cleared conf l) es' -> (forall i, i ∈ idx <-> (i < length (entries l))%nat) ->
  forall i e', es' !! i = Some e' -> exists e, entries l !! i = Some e /\ i ∈ idx /\
    err e' = err (marks conf l e) /\ xlator e' = xlator e.
Proof.
  intros [Ho Hs _ _ _ _ _] Hidx i e' He'.
  destruct (entries l !! i) as [e|] eqn:He.
  - destruct (Hs i (set_span 0 0 (marks conf l e))) as (s & t & h & Hi).
    { unfold cleared. by rewrite !list_lookup_fmap, He. }
    rewrite He' in Hi. injection Hi as ->. exists e. split_and!; [done| |done|cbn; apply marks_xlator].
    apply Hidx. by apply lookup_lt_Some in He.
  - assert (i ∉ idx) as Hn by (rewrite Hidx; apply lookup_ge_None in He; lia).
    rewrite Ho in He' by done. apply cleared_lookup in He' as (e & He1 & _). congruence.
Qed.

Lemma new_directory_facts conf lo l :
  weights_ok conf l -> 0 <= spread_cnt l -> Z.of_nat (length (entries l)) < 2 ^ 31 ->
  (exists e, e ∈ entries l /\ usable conf e = true) -> Forall (fun e => is_Some (xlator e)) (entries l) ->
  exists l', dht_selfheal_layout_new_directory conf lo l = Some l' /\ type l' = type l /\
    partition (entries l') /\ same_subvols (entries l) (entries l') /\
    forall i e', entries l' !! i = Some e' -> exists e, entries l !! i = Some e /\
      if live_range e' then
        usable conf e = true /\ err e' = err (marks conf l e) /\ takes e' = true /\
        0 <= start e' < stop e' /\ stop e' < 2 ^ 32 /\ entry_hash e' = commit_hash l
      else start e' = 0 /\ stop e' = 0.
Proof.
  intros Hw Hsp Hcnt Hex Hxl.
  destruct (new_directory_given conf lo l Hw Hsp Hcnt Hex Hxl) as (es' & idx & -> & Hidx & Hgv).
  pose proof Hgv as [Ho Hs Hc Hb H1 Ht Hd]. exists (set_entries es' l). cbn [entries set_entries type].
  assert (forall i e', es' !! i = Some e' -> exists e, entries l !! i = Some e /\ i ∈ idx /\
    err e' = err (marks conf l e) /\ xlator e' = xlator e) as Hes by (by eapply given_lookup).
  split_and!; [done|done| | |].
  - intros h Hh. destruct (Hc h) as (i & Hi & Hw'); [unfold in_u in Hh; lia|]. exists i. split; [done|].
    intros j Hj. pose proof Hj as (e' & He' & _). apply Hes in He' as (_ & _ & Hj' & _). by eapply H1.
  - apply list_eq. intros i. rewrite !list_lookup_fmap. destruct (es' !! i) as [e'|] eqn:He'.
    + apply Hes in He' as (e & -> & _ & _ & Hx). cbn. by rewrite Hx.
    + destruct (entries l !! i) as [e|] eqn:He; [|done].
      destruct (Hs i (set_span 0 0 (marks conf l e))) as (? & ? & ? & Hsome); [|congruence].
      unfold cleared. by rewrite !list_lookup_fmap, He.
  - intros i e' He'. destruct (Hes i e' He') as (e & He & Hi & Herr & _). exists e. split; [done|].
    destruct (live_range e') eqn:Hl.
    + destruct (Ht i e' Hi He' Hl) as (Htk & Hr & Hr' & Hh). split_and!; try done; [|lia..].
      apply (marks_usable conf l). unfold takes in *. by rewrite <- Herr.
    + specialize (Hd i e' Hi He' Hl). apply cleared_lookup in Hd as (e1 & _ & ->). done.
Qed.

(** C16. Giving ranges to a new directory is defined whatever the path, the
    errors of the subvolumes and the position of the first range, as soon as
    one subvolume can be used and, when ranges are weighted by size, there is no
    spread count and the sizes are in bounds ([weights_ok]); then every hash is in
    the range of exactly one subvolume, and the subvolumes with a range are among
    the ones that can be used. *)
Theorem new_directory_partitions conf lo l :
  weights_ok conf l -> 0 <= spread_cnt l -> Z.of_nat (length (entries l)) < 2 ^ 31 ->
  (exists e, e ∈ entries l /\ usable conf e = true) -> Forall (fun e => is_Some (xlator e)) (entries l) ->
  exists l', dht_selfheal_layout_new_directory conf lo l = Some l' /\ partition (entries l') /\
    same_subvols (entries l) (entries l') /\
    forall i e e', entries l !! i = Some e -> entries l' !! i = Some e' -> live_range e' = true ->
      usable conf e = true.
Proof.
  intros Hw Hsp Hcnt Hex Hxl.
  destruct (new_directory_facts conf lo l Hw Hsp Hcnt Hex Hxl) as (l' & H1 & _ & H2 & H3 & H4).
  exists l'. split_and!; [done..|]. intros i e e' He He' Hl.
  destruct (H4 i e' He') as (e1 & He1 & Hf). rewrite Hl in Hf. destruct Hf as [Hu _]. congruence.
Qed.

(** Three subvolumes on which a directory has just been made. *)

Definition sample_conf : dht_conf :=
  {| subvolumes := [1; 2; 3]; decommissioned_bricks := [None; None; None]; decommission_subvols_cnt := 0;
     dir_spread_cnt := 0; conf_gen := 0; do_weighting := true; children := [1; 2; 3];
     du_stats := Some [10; 20; 30]; randomize_by_gfid := false; extra_regex := None; rsync_regex := None;
     vname := fun x => [ascii_of_N (Z.to_N x)] |}.

Definition sample_loc : loc := {| path := ["/"; "d"]%char; gfid := repeat 0 16 |}.

Definition made_on (x : Z) : entry :=
  {| err := 0; start := 0; stop := 0; entry_hash := 0; xlator := Some x |}.

Definition sample_layout : dht_layout :=
  {| spread_cnt := 0; preset := false; commit_hash := 7; gen := 0; type := DHT_HASH_TYPE_DM;
     entries := [made_on 1; made_on 2; made_on 3] |}.

Lemma sample_weights : weights_ok sample_conf sample_layout.
Proof.
  split; [|right; split; [reflexivity|vm_compute; reflexivity]].
  split; [cbn; lia|]. repeat apply Forall_cons_2; [lia..|apply Forall_nil_2].
Qed.

Lemma sample_usable : exists e, e ∈ entries sample_layout /\ usable sample_conf e = true.
Proof. exists (made_on 1). split; [by left|done]. Qed.

Lemma sample_known : Forall (fun e => is_Some (xlator e)) (entries sample_layout).
Proof. repeat apply Forall_cons_2; [by eexists..|apply Forall_nil_2]. Qed.

Lemma new_directory_partitions_witness :
  exists l', dht_selfheal_layout_new_directory sample_conf sample_loc sample_layout = Some l' /\ partition (entries l').
Proof.
  destruct (new_directory_partitions sample_conf sample_loc sample_layout) as (l' & H1 & H2 & _);
    [exact sample_weights|cbn; lia|cbn; lia|exact sample_usable|exact sample_known|]. exists l'. split; [exact H1|exact H2].
Defined.
