(* ===== verification/DhtCheck.v ===== *)
(** * Checking layouts

    [dht_layout_normalize] sorts the entries that were read from the
    subvolumes and accepts them exactly when every hash has one owner. *)

From Stdlib Require Import ZArith Lia Bool Ascii Sorting.Sorted.
From stdpp Require Import base list.
From S2P Require Import Prelude CLib Dict Uuid DhtHash DhtLayout DhtHeal DhtAssign.

(** ** Sorting *)

Section sort.
Context (gt : entry -> entry -> bool) (P : entry -> Prop).
Context (gt_trans : forall a b c, P a -> P b -> P c -> gt a b = false -> gt b c = false -> gt a c = false).
Context (gt_asym : forall a b, P a -> P b -> gt a b = true -> gt b a = false).

(** The entries from [i] on are exchanged among themselves. *)

Record shuffled (i : nat) (es es' : list entry) : Prop := {
  shuffled_perm : Permutation es' es;
  shuffled_head : forall k, (k < i)%nat -> es' !! k = es !! k;
  shuffled_tail : forall k, (i <= k)%nat -> exists k', (i <= k')%nat /\ es' !! k = es !! k'
}.

Lemma shuffled_refl i es : shuffled i es es.
Proof. split; [done|done|]. intros k Hk. by exists k. Qed.

Lemma shuffled_trans i es es1 es2 : shuffled i es es1 -> shuffled i es1 es2 -> shuffled i es es2.
Proof.
  intros [P1 H1 T1] [P2 H2 T2]. split.
  - by rewrite P2.
  - intros k Hk. by rewrite H2, H1.
  - intros k Hk. destruct (T2 k Hk) as (k1 & Hk1 & ->). by apply T1.
Qed.

Lemma swap_lookup i j (es : list entry) a b k :
  es !! i = Some a -> es !! j = Some b ->
  swap i j es !! k = if decide (k = j) then Some a else if decide (k = i) then Some b else es !! k.
Proof.
  intros Ha Hb. unfold swap. rewrite Ha, Hb. apply lookup_lt_Some in Ha as La, Hb as Lb.
  destruct (decide (k = j)) as [->|Hj].
  - apply list_lookup_insert_eq. by rewrite length_insert.
  - rewrite list_lookup_insert_ne by done. destruct (decide (k = i)) as [->|Hi]; [by apply list_lookup_insert_eq|].
    by rewrite list_lookup_insert_ne.
Qed.

Lemma swap_shuffled i j es : (i <= j)%nat -> shuffled i es (swap i j es).
Proof.
  intros Hij. destruct (es !! i) as [a|] eqn:Ha; [|unfold swap; rewrite Ha; apply shuffled_refl].
  destruct (es !! j) as [b|] eqn:Hb; [|unfold swap; rewrite Ha, Hb; apply shuffled_refl]. split.
  - unfold swap. rewrite Ha, Hb. by apply Permutation_insert_swap.
  - intros k Hk. rewrite (swap_lookup i j es a b) by done.
    destruct (decide (k = j)); [lia|]. destruct (decide (k = i)); [lia|done].
  - intros k Hk. rewrite (swap_lookup i j es a b) by done. destruct (decide (k = j)) as [->|]; [by exists i|].
    destruct (decide (k = i)) as [->|]; [exists j; done|by exists k].
Qed.

(** After a row, entry [i] is in order with the ones after it. *)

Definition least_until (i j : nat) (es : list entry) : Prop :=
  forall k a b, (i < k < j)%nat -> es !! i = Some a -> es !! k = Some b -> gt a b = false.

Lemma exchange_spec i j es :
  Forall P es -> (i < j)%nat -> least_until i j es ->
  shuffled i es (exchange gt i es j) /\ least_until i (S j) (exchange gt i es j).
Proof.
  intros HP Hij Hl. rewrite Forall_lookup in HP. unfold exchange.
  destruct (es !! i) as [a|] eqn:Ha; [|split; [apply shuffled_refl|intros k a' b Hk Ha'; congruence]].
  destruct (es !! j) as [b|] eqn:Hb.
  2: { split; [apply shuffled_refl|]. intros k a' b' Hk Ha' Hb'. destruct (decide (k = j)) as [->|]; [congruence|].
       eapply Hl; [|done|done]. lia. }
  destruct (gt a b) eqn:Hg.
  - split; [apply swap_shuffled; lia|]. intros k a' b' Hk.
    rewrite !(swap_lookup i j es a b) by done. destruct (decide (i = j)); [lia|]. destruct (decide (i = i)); [|done].
    intros [= <-]. destruct (decide (k = j)) as [->|Hkj]; [intros [= <-]; apply gt_asym; eauto|].
    destruct (decide (k = i)); [lia|]. intros Hk'. apply (gt_trans b a b'); eauto. eapply Hl; [|done|done]. lia.
  - split; [apply shuffled_refl|]. intros k a' b' Hk Ha' Hb'. destruct (decide (k = j)) as [->|].
    + congruence.
    + eapply Hl; [|done|done]. lia.
Qed.

Lemma row_spec i es :
  Forall P es ->
  shuffled i es (exchange_row gt es i) /\ least_until i (length es) (exchange_row gt es i).
Proof.
  intros HP. unfold exchange_row.
  assert (forall n j es1, (i < j)%nat -> shuffled i es es1 -> least_until i j es1 ->
    shuffled i es (foldl (exchange gt i) es1 (seq j n)) /\
    least_until i (j + n) (foldl (exchange gt i) es1 (seq j n))) as Hn.
  { induction n as [|n IH]; intros j es1 Hj Hs Hl; cbn [seq foldl]; [by rewrite Nat.add_0_r|].
    destruct (exchange_spec i j es1) as [Hs1 Hl1]; [by rewrite (shuffled_perm _ _ _ Hs)|done|done|].
    rewrite <- Nat.add_succ_comm. apply IH; [lia|by eapply shuffled_trans|done]. }
  destruct (Hn (length es - S i)%nat (S i) es) as [Hs Hl]; [lia|apply shuffled_refl|intros k a b Hk; lia|].
  split; [done|]. intros k a b Hk Ha Hb. eapply Hl; [|done|done].
  lia.
Qed.

Definition in_order (es : list entry) : Prop :=
  forall i j a b, (i < j)%nat -> es !! i = Some a -> es !! j = Some b -> gt a b = false.

Lemma sort_spec es :
  Forall P es -> Permutation (exchange_sort gt es) es /\ in_order (exchange_sort gt es).
Proof.
  intros HP. unfold exchange_sort.
  assert (forall n i es1, Permutation es1 es -> (i + n <= length es)%nat ->
    (forall p k a b, (p < i)%nat -> (p < k)%nat -> es1 !! p = Some a -> es1 !! k = Some b -> gt a b = false) ->
    let es2 := foldl (exchange_row gt) es1 (seq i n) in Permutation es2 es /\
    (forall p k a b, (p < i + n)%nat -> (p < k)%nat -> es2 !! p = Some a -> es2 !! k = Some b -> gt a b = false)) as Hn.
  { induction n as [|n IH]; intros i es1 Hp Hi Hord; cbn [seq foldl]; [by rewrite Nat.add_0_r|].
    destruct (row_spec i es1) as [[Hs Hh Ht] Hl]; [by rewrite Hp|].
    rewrite <- Nat.add_succ_comm. apply IH; [by rewrite Hs|lia|].
    intros p k a b Hpi Hpk Ha Hb. destruct (decide (p = i)) as [->|Hne].
    - apply (Hl k a b); [|done|done]. apply lookup_lt_Some in Hb. rewrite Hs in Hb. lia.
    - rewrite Hh in Ha by lia. destruct (decide (k < i)%nat) as [Hki|Hki].
      + rewrite Hh in Hb by done. eapply (Hord p k); [lia|done|done|done].
      + destruct (Ht k) as (k' & Hk' & Heq); [lia|]. rewrite Heq in Hb. eapply (Hord p k'); [lia|lia|done|done]. }
  destruct (Hn (length es - 1)%nat 0%nat es) as [Hp Hord]; [done|lia|intros; lia|]. split; [done|].
  intros i j a b Hij Ha Hb. eapply (Hord i j); [|done|done|done].
  apply lookup_lt_Some in Hb. rewrite Hp in Hb. lia.
Qed.
End sort.

(** Sorting by names. *)

Lemma strcmp_sign a b : (strcmp a b < 0 <-> 0 < strcmp b a) /\ (strcmp a b = 0 <-> strcmp b a = 0).
Proof.
  revert b. induction a as [|c a IH]; intros [|d b]; cbn [strcmp]; try lia.
  destruct (Z.eqb_spec (code c) (code d)), (Z.eqb_spec (code d) (code c)); try lia. apply IH.
Qed.

Lemma strcmp_trans a b c : strcmp a b <= 0 -> strcmp b c <= 0 -> strcmp a c <= 0.
Proof.
  revert b c. induction a as [|x a IH]; intros [|y b] [|z c]; cbn [strcmp]; try lia.
  destruct (Z.eqb_spec (code x) (code y)), (Z.eqb_spec (code y) (code z)), (Z.eqb_spec (code x) (code z)); try lia.
  apply IH.
Qed.

Lemma sort_volname_spec conf es :
  let gt := fun a b => 0 <? dht_layout_entry_cmp_volname conf a b in
  Permutation (exchange_sort gt es) es /\ in_order gt (exchange_sort gt es).
Proof.
  apply (sort_spec _ (fun _ => True)); [| |by apply Forall_forall].
  - intros a b c _ _ _. unfold dht_layout_entry_cmp_volname. rewrite !Z.ltb_ge. apply strcmp_trans.
  - intros a b _ _. unfold dht_layout_entry_cmp_volname. rewrite Z.ltb_lt, Z.ltb_ge. intros H. apply strcmp_sign in H. lia.
Qed.

(** ** Owners, counted *)

Definition owns (h : Z) (e : entry) : bool := live_range e && in_range h e.

Lemma one_index (p : entry -> bool) es :
  count_of p es = 1 <->
  exists i, (exists e, es !! i = Some e /\ p e = true) /\ forall j e, es !! j = Some e -> p e = true -> j = i.
Proof.
  split.
  - induction es as [|e es IH]; [done|]. rewrite count_cons.
    assert (0 <= count_of p es) by (unfold count_of; lia). destruct (p e) eqn:Hp; intros Hc.
    + exists 0%nat. split; [by exists e|]. intros [|j] e' He' Hp'; [done|].
      assert (0 < count_of p es); [|lia]. apply count_pos. exists e'. split; [by eapply list_elem_of_lookup_2|done].
    + destruct IH as (i & (e1 & He1 & Hp1) & Hu); [lia|]. exists (S i). split; [by exists e1|].
      intros [|j] e' He' Hp'; [cbn in He'; congruence|]. f_equal. by eapply Hu.
  - intros (i & (e & He & Hp) & Hu). revert i He Hu. induction es as [|e0 es IH]; intros i He Hu; [done|].
    rewrite count_cons. destruct i as [|i].
    + cbn in He. injection He as ->. rewrite Hp. enough (count_of p es = 0) by lia.
      destruct (Z_lt_le_dec 0 (count_of p es)) as [Hc|Hc]; [|unfold count_of in *; lia].
      apply count_pos in Hc as (e' & (j & Hj)%list_elem_of_lookup_1 & Hp'). by specialize (Hu (S j) e' Hj Hp').
    + destruct (p e0) eqn:Hp0; [by specialize (Hu 0%nat e0 eq_refl Hp0)|]. rewrite (IH i); [done|done|].
      intros j e' Hj Hp'. specialize (Hu (S j) e' Hj Hp'). lia.
Qed.

Lemma partition_count es : partition es <-> forall h, in_u 32 h -> count_of (owns h) es = 1.
Proof.
  unfold partition, owner, owns. split.
  - intros H h Hh. apply one_index. destruct (H h Hh) as (i & (e & He & Hl & Hr) & Hu). exists i. split.
    + exists e. split; [done|]. by rewrite Hl, Hr.
    + intros j e' Hj [Hl' Hr']%andb_true_iff. apply Hu. by exists e'.
  - intros H h Hh. specialize (H h Hh). apply one_index in H as (i & (e & He & [Hl Hr]%andb_true_iff) & Hu).
    exists i. split; [by exists e|]. intros j (e' & Hj & Hl' & Hr'). eapply Hu; [done|]. by rewrite Hl', Hr'.
Qed.

Lemma count_perm p es es' : Permutation es es' -> count_of p es = count_of p es'.
Proof. induction 1; rewrite ?count_cons in *; lia. Qed.

Lemma partition_perm es es' : Permutation es es' -> partition es -> partition es'.
Proof. intros Hp. rewrite !partition_count. intros H h Hh. rewrite <- (count_perm _ _ _ Hp). by apply H. Qed.

(** ** The order of ranges *)

(** A range, and no range when the subvolume had an error. *)

Definition entry_ok (e : entry) : Prop :=
  0 <= start e <= stop e /\ stop e < 2 ^ 32 /\ (err e <> 0 -> start e = stop e).

Definition range_gt (a b : entry) : bool := 0 <? dht_layout_entry_cmp a b.

(** The zero ranges come first, then the others by their starts. *)

Definition range_key (e : entry) : Z := if stop e =? 0 then -1 else start e.

Lemma range_gt_key a b : entry_ok a -> entry_ok b -> range_gt a b = (range_key b <? range_key a).
Proof.
  intros (Ha & _) (Hb & _). unfold range_gt, dht_layout_entry_cmp, range_key.
  destruct (Z.eqb_spec (start b) 0), (Z.eqb_spec (stop b) 0), (Z.eqb_spec (stop a) 0); cbn [andb];
    repeat match goal with |- context [?x <? ?y] => destruct (Z.ltb_spec x y) end; (done || lia).
Qed.

Lemma layout_sort_spec l :
  Forall entry_ok (entries l) ->
  Permutation (entries (dht_layout_sort l)) (entries l) /\
  forall i j a b, (i < j)%nat -> entries (dht_layout_sort l) !! i = Some a ->
    entries (dht_layout_sort l) !! j = Some b -> range_key a <= range_key b.
Proof.
  intros Hok. destruct (sort_spec range_gt entry_ok) with (es := entries l) as [Hp Ho]; [| |done|].
  - intros a b c Ha Hb Hc. rewrite !range_gt_key by done. rewrite !Z.ltb_ge. lia.
  - intros a b Ha Hb. rewrite !range_gt_key by done. rewrite Z.ltb_lt, Z.ltb_ge. lia.
  - split; [done|]. intros i j a b Hij Hi Hj.
    assert (Forall entry_ok (entries (dht_layout_sort l))) as Hok'
      by (change (entries (dht_layout_sort l)) with (exchange_sort range_gt (entries l)); by rewrite Hp).
    rewrite Forall_lookup in Hok'. specialize (Ho i j a b Hij Hi Hj).
    rewrite range_gt_key in Ho by eauto. by apply Z.ltb_ge in Ho.
Qed.

(** ** Anomalies *)

(** The ranges follow each other, the first one after [prev], and the end of
    the last one. *)

Fixpoint links (prev : Z) (es : list entry) : Prop :=
  match es with
  | [] => True
  | e :: es' => if live_range e then start e = u32 (prev + 1) /\ links (stop e) es' else links prev es'
  end.

Definition final_stop (prev : Z) (es : list entry) : Z :=
  foldl (fun p e => if live_range e then stop e else p) prev es.

Definition some_live (es : list entry) : bool := existsb live_range es.

Lemma note_idle a e :
  live_range e = false ->
  hole_cnt (note a e) = hole_cnt a /\ overlap_cnt (note a e) = overlap_cnt a /\
  prev_stop (note a e) = prev_stop a /\ is_virgin (note a e) = is_virgin a.
Proof.
  intros Hl%negb_false_iff. unfold note. rewrite Hl. by repeat case_match.
Qed.

Lemma note_live a e :
  entry_ok e -> live_range e = true ->
  note a e =
    {| hole_cnt := if u32 (prev_stop a + 1) <? start e then u32 (hole_cnt a + 1) else hole_cnt a;
       overlap_cnt := if start e <? u32 (prev_stop a + 1) then u32 (overlap_cnt a + 1) else overlap_cnt a;
       missing := missing a; down := down a; misc := misc a; no_space := no_space a;
       prev_stop := stop e; is_virgin := false |}.
Proof.
  intros (_ & _ & Hz) Hl. pose proof Hl as Hl'. apply live_range_spec in Hl'.
  assert (err e = 0) as He by (destruct (Z.eq_dec (err e) 0); tauto).
  unfold note. rewrite He. cbn [Z.eqb orb negb ENOENT ESTALE ENOTCONN ENOSPC].
  apply negb_true_iff in Hl. by rewrite Hl.
Qed.

Lemma note_counts a es :
  Forall entry_ok es -> 0 <= hole_cnt a -> 0 <= overlap_cnt a ->
  hole_cnt a + Z.of_nat (length es) < 2 ^ 32 -> overlap_cnt a + Z.of_nat (length es) < 2 ^ 32 ->
  let b := foldl note a es in
  hole_cnt a <= hole_cnt b <= hole_cnt a + Z.of_nat (length es) /\ overlap_cnt a <= overlap_cnt b /\
  is_virgin b = is_virgin a && negb (some_live es) /\
  (hole_cnt b = 0 /\ overlap_cnt b = 0 <->
   hole_cnt a = 0 /\ overlap_cnt a = 0 /\ links (prev_stop a) es) /\
  prev_stop b = final_stop (prev_stop a) es.
Proof.
  intros Hok. revert a. induction Hok as [|e es He _ IH]; intros a H1 H2 H3 H4.
  { cbn. rewrite andb_true_r. split_and!; [lia..|done|tauto|done]. }
  cbn [foldl links some_live existsb final_stop]. rewrite length_cons in *. destruct (live_range e) eqn:Hl.
  - rewrite note_live by done. cbn [orb negb].
    assert (u32 (hole_cnt a + 1) = hole_cnt a + 1) as E1 by (apply uwrap_small; unfold in_u; lia).
    assert (u32 (overlap_cnt a + 1) = overlap_cnt a + 1) as E2 by (apply uwrap_small; unfold in_u; lia).
    rewrite E1, E2. set (n := {| hole_cnt := _ |}).
    destruct (IH n) as (I1 & I2 & I3 & I4 & I5); try (subst n; cbn [hole_cnt overlap_cnt]; repeat case_match; lia).
    rewrite I3, I4, I5, andb_false_r. subst n. cbn [hole_cnt overlap_cnt is_virgin prev_stop] in *.
    destruct (Z.ltb_spec (u32 (prev_stop a + 1)) (start e)), (Z.ltb_spec (start e) (u32 (prev_stop a + 1)));
      (split_and!; [lia|lia|lia|done| |done]); [lia|split; [lia|intros (_ & _ & ? & _); lia]..|].
    split; [intros (? & ? & ?); split_and!; (done || lia)|intros (? & ? & _ & ?); done].
  - destruct (note_idle a e Hl) as (N1 & N2 & N3 & N4).
    destruct (IH (note a e)) as (I1 & I2 & I3 & I4 & I5); [lia..|].
    rewrite I3, I4, I5, N1, N2, N3, N4. rewrite N1 in I1. rewrite N2 in I2. by split_and!; [lia|lia|lia|..].
Qed.

Lemma final_stop_range prev es : Forall entry_ok es -> in_u 32 prev -> in_u 32 (final_stop prev es).
Proof.
  intros Hok. revert prev. induction Hok as [|e es (He & He' & _) _ IH]; intros p Hp; cbn [final_stop foldl]; [done|].
  apply IH. destruct (live_range e); [unfold in_u; lia|done].
Qed.

(** No anomaly is counted when there is a range and the ranges follow each
    other around all hashes. *)

Lemma anomalies_spec l f :
  Forall entry_ok (entries l) -> Z.of_nat (length (entries l)) < 2 ^ 31 -> entries l !! 0%nat = Some f ->
  let last := u32 (start f - 1) in
  exists a, dht_layout_anomalies l = Some a /\
    (hole_cnt a = 0 /\ overlap_cnt a = 0 <->
     some_live (entries l) = true /\ links last (entries l) /\ final_stop last (entries l) = last).
Proof.
  intros Hok Hlen Hf last. unfold dht_layout_anomalies. rewrite Hf. cbn [mbind option_bind]. eexists. split; [done|].
  cbn [hole_cnt overlap_cnt]. fold last. set (a0 := {| hole_cnt := 0 |}).
  destruct (note_counts a0 (entries l) Hok) as (H1 & H2 & H3 & H4 & H5); [cbn; lia..|].
  set (b := foldl note a0 (entries l)) in *. cbn [hole_cnt overlap_cnt is_virgin prev_stop a0] in H1, H2, H3, H4, H5.
  assert (u32 (hole_cnt b + 1) = hole_cnt b + 1) as -> by (apply uwrap_small; unfold in_u; lia).
  assert (in_u 32 last) as Hla by (by apply uwrap_range).
  pose proof (final_stop_range last (entries l) Hok Hla) as Hfi. rewrite H3, H5. cbn [andb].
  destruct (some_live (entries l)); cbn [negb]; rewrite ?orb_true_r, ?orb_false_r.
  2: { split; [lia|]. intros [? _]. done. }
  destruct (Z.eqb_spec (u32 (last - final_stop last (entries l))) 0) as [Hz|Hz]; cbn [negb].
  - assert (final_stop last (entries l) = last) as ->.
    { unfold in_u, uwrap in *. apply Z.mod_divide in Hz as [k Hk]; [|lia]. assert (k = 0) by nia. lia. }
    rewrite H4. tauto.
  - split; [lia|]. intros (_ & _ & E). by rewrite E, Z.sub_diag in Hz.
Qed.

(** ** Sorted ranges that follow each other *)

Definition sorted (es : list entry) : Prop :=
  forall i j a b, (i < j)%nat -> es !! i = Some a -> es !! j = Some b -> range_key a <= range_key b.

Lemma sorted_tail e es : sorted (e :: es) -> sorted es.
Proof. intros H i j a b Hij Hi Hj. apply (H (S i) (S j)); [lia|done|done]. Qed.

Lemma live_key e : entry_ok e -> live_range e = true -> range_key e = start e /\ 0 <= start e < stop e.
Proof.
  intros (He & _) Hl%live_range_spec. unfold range_key. destruct (Z.eqb_spec (stop e) 0); lia.
Qed.

Lemma sorted_start e es e' :
  Forall entry_ok (e :: es) -> sorted (e :: es) -> live_range e = true -> e' ∈ es -> live_range e' = true ->
  start e <= start e'.
Proof.
  intros Hok Hs Hl He' Hl'. apply Forall_cons in Hok as [Hoe Hok]. rewrite Forall_forall in Hok.
  apply list_elem_of_lookup_1 in He' as Hj. destruct Hj as [j Hj].
  specialize (Hs 0%nat (S j) e e' ltac:(lia) eq_refl Hj).
  destruct (live_key e Hoe Hl) as [<- _]. destruct (live_key e' (Hok e' He') Hl') as [<- _]. done.
Qed.

(** Ranges that stop before the end are followed by later ones, so that they
    cover the hashes after [prev] once. *)

Definition ends (es : list entry) : Prop :=
  forall i j a b, (i < j)%nat -> es !! i = Some a -> es !! j = Some b ->
    live_range a = true -> live_range b = true -> stop a < 2 ^ 32 - 1.

Lemma owns_spec h e : entry_ok e -> owns h e = true <-> live_range e = true /\ start e <= h <= stop e.
Proof. intros _. unfold owns. rewrite andb_true_iff, in_range_spec. done. Qed.

Lemma links_count prev es :
  Forall entry_ok es -> -1 <= prev < 2 ^ 32 -> (some_live es = true -> prev < 2 ^ 32 - 1) -> ends es ->
  links prev es -> final_stop prev es = 2 ^ 32 - 1 ->
  forall h, in_u 32 h -> count_of (owns h) es = if prev <? h then 1 else 0.
Proof.
  intros Hok. revert prev. induction Hok as [|e es He _ IH]; intros p Hp Hlv Hen Hli Hfi h Hh.
  { cbn in Hfi |- *. unfold in_u in Hh. destruct (Z.ltb_spec p h); [lia|done]. }
  rewrite count_cons. cbn [links final_stop foldl some_live existsb] in *.
  assert (ends es) as Hen' by (intros i j a b Hij Hi Hj; apply (Hen (S i) (S j)); [lia|done|done]).
  destruct (live_range e) eqn:Hl.
  - destruct Hli as [Hst Hli]. specialize (Hlv eq_refl). rewrite uwrap_small in Hst by (unfold in_u; lia).
    rewrite (IH (stop e)); [|destruct He; lia| |done|done|done|done].
    + unfold owns. rewrite Hl. unfold in_range. cbn [andb].
      destruct (live_key e He Hl) as [_ ?].
      destruct (Z.leb_spec (start e) h), (Z.leb_spec h (stop e)), (Z.ltb_spec (stop e) h), (Z.ltb_spec p h); cbn [andb]; lia.
    + intros (e' & (j & Hj)%list_elem_of_In%list_elem_of_lookup_1 & Hl')%existsb_exists.
      eapply (Hen 0%nat (S j)); [lia|done|done|done|done].
  - rewrite (IH p); [|done|done|done|done|done|done]. unfold owns. rewrite Hl. cbn [andb]. lia.
Qed.

Lemma count_links prev es :
  Forall entry_ok es -> sorted es -> -1 <= prev < 2 ^ 32 ->
  (forall h, in_u 32 h -> count_of (owns h) es = if prev <? h then 1 else 0) ->
  links prev es /\ final_stop prev es = 2 ^ 32 - 1.
Proof.
  intros Hok. revert prev. induction Hok as [|e es He Hok IH]; intros p Hs Hp Hc.
  { split; [done|]. specialize (Hc (2 ^ 32 - 1) ltac:(unfold in_u; lia)). unfold count_of in Hc.
    cbn [List.filter length final_stop foldl] in Hc |- *. destruct (Z.ltb_spec p (2 ^ 32 - 1)); lia. }
  cbn [links final_stop foldl]. pose proof (sorted_tail e es Hs) as Hs'.
  assert (forall h, 0 <= count_of (owns h) es) as Hpos by (intros h; unfold count_of; lia).
  destruct (live_range e) eqn:Hl.
  2: { apply IH; [done|done|]. intros h Hh. rewrite <- (Hc h Hh), count_cons. unfold owns at 2. by rewrite Hl. }
  destruct (live_key e He Hl) as [_ Hr]. destruct He as (He & He' & Hz).
  assert (forall h, owns h e = (start e <=? h) && (h <=? stop e)) as Hown by (intros h; unfold owns; by rewrite Hl).
  assert (p < start e) as Hp1.
  { specialize (Hc (start e) ltac:(unfold in_u; lia)). rewrite count_cons, Hown in Hc. specialize (Hpos (start e)).
    rewrite Z.leb_refl, (proj2 (Z.leb_le _ _)) in Hc by lia. destruct (Z.ltb_spec p (start e)); [done|]. cbn in Hc. lia. }
  assert (start e <= p + 1) as Hp2.
  { apply Z.nlt_ge. intros Hlt. specialize (Hc (p + 1) ltac:(unfold in_u; lia)). rewrite count_cons, Hown in Hc.
    destruct (Z.leb_spec (start e) (p + 1)); [lia|]. cbn [andb] in Hc. destruct (Z.ltb_spec p (p + 1)); [|lia].
    assert (0 < count_of (owns (p + 1)) es) as (e' & Hin & [Hl' Hr']%andb_true_iff)%count_pos by lia.
    apply in_range_spec in Hr'. pose proof (sorted_start e es e' ltac:(by constructor) Hs Hl Hin Hl'). lia. }
  rewrite uwrap_small by (unfold in_u; lia).
  destruct (IH (stop e)) as [H1 H2]; [done|lia| |split; [split; [lia|done]|done]].
  intros h Hh. specialize (Hc h Hh). rewrite count_cons, Hown in Hc. specialize (Hpos h).
  destruct (Z.leb_spec (start e) h), (Z.leb_spec h (stop e)), (Z.ltb_spec p h), (Z.ltb_spec (stop e) h); cbn [andb] in Hc; lia.
Qed.

Lemma links_first p es :
  links p es -> some_live es = true -> exists e, e ∈ es /\ live_range e = true /\ start e = u32 (p + 1).
Proof.
  induction es as [|e es IH]; [done|]. cbn [links some_live existsb]. destruct (live_range e) eqn:Hl.
  - intros [He _] _. exists e. split_and!; [by left|done|done].
  - intros H1 H2. destruct (IH H1 H2) as (e' & He' & H). exists e'. split; [by right|done].
Qed.

Lemma final_stop_live p es :
  some_live es = true -> exists e, e ∈ es /\ live_range e = true /\ final_stop p es = stop e.
Proof.
  revert p. induction es as [|e es IH]; intros p; [done|]. cbn [some_live existsb final_stop foldl].
  intros H. destruct (some_live es) eqn:Hs.
  - destruct (IH (if live_range e then stop e else p) eq_refl) as (e' & He' & H'). exists e'. split; [by right|done].
  - unfold some_live in Hs. rewrite Hs, orb_false_r in H. exists e. rewrite H. split_and!; [by left|done|].
    clear - Hs. generalize (stop e). induction es as [|e' es IH]; intros q; [done|].
    cbn in Hs |- *. apply orb_false_iff in Hs as [-> Hs]. by apply IH.
Qed.

Lemma final_stop_any p q es : some_live es = true -> final_stop p es = final_stop q es.
Proof.
  revert p q. induction es as [|e es IH]; intros p q; [done|]. cbn [some_live existsb final_stop foldl].
  destruct (live_range e); [done|]. cbn [orb]. apply IH.
Qed.

(** A range of all hashes is the only range. *)

Definition no_double (es : list entry) : Prop :=
  forall e, e ∈ es -> start e = 0 -> stop e = 2 ^ 32 - 1 -> count_of live_range es <= 1.

Lemma links_ends p es : Forall entry_ok es -> sorted es -> no_double es -> links p es -> ends es.
Proof.
  intros Hok. revert p. induction Hok as [|e es He Hok IH]; intros p Hs Hd Hl; [by intros i j a b _ Hi|].
  assert (ends es) as Hen.
  { assert (exists q, links q es) as [q Hq].
    { cbn [links] in Hl. destruct (live_range e); [exists (stop e); apply Hl|by exists p]. }
    apply (IH q); [by eapply sorted_tail| |done].
    intros e' He' H1 H2. specialize (Hd e' ltac:(by right) H1 H2). rewrite count_cons in Hd.
    destruct (live_range e); lia. }
  intros [|i] [|j] a b Hij Hi Hj Ha Hb; [lia| |lia|apply (Hen i j a b); [lia|done..]].
  cbn in Hi. injection Hi as ->. cbn [links] in Hl. rewrite Ha in Hl. destruct Hl as [_ Hl].
  change (es !! j = Some b) in Hj. pose proof (list_elem_of_lookup_2 _ _ _ Hj) as Hin. destruct He as (He1 & He2 & He3).
  destruct (Z_lt_le_dec (stop a) (2 ^ 32 - 1)) as [|Hfull]; [done|]. exfalso.
  destruct (links_first _ _ Hl) as (e1 & He1' & Hl1 & Hst); [apply existsb_exists; exists b; split; [by apply list_elem_of_In|done]|].
  assert (stop a = 2 ^ 32 - 1) as Hsa by lia. rewrite Hsa in Hst. change (u32 (2 ^ 32 - 1 + 1)) with 0 in Hst.
  pose proof (sorted_start a es e1 ltac:(constructor; [split_and!; (done || lia)|done]) Hs Ha He1' Hl1).
  specialize (Hd a ltac:(by left) ltac:(lia) Hsa). rewrite count_cons, Ha in Hd.
  assert (0 < count_of live_range es) by (apply count_pos; eauto). lia.
Qed.

Lemma links_wrap es : links (2 ^ 32 - 1) es <-> links (-1) es.
Proof. induction es as [|e es IH]; [done|]. cbn [links]. destruct (live_range e); [|done]. reflexivity. Qed.

(** ** Sorted layouts *)

Section sorted_layout.
Context (es : list entry) (f : entry).
Context (Hok : Forall entry_ok es) (Hs : sorted es) (Hf : es !! 0%nat = Some f).

Lemma first_least e : e ∈ es -> range_key f <= range_key e.
Proof using Hs Hf.
  intros [j Hj]%list_elem_of_lookup_1. destruct j as [|j]; [rewrite Hf in Hj; by injection Hj as ->|].
  by apply (Hs 0%nat (S j)); [lia|..].
Qed.

Lemma first_zero e : e ∈ es -> start e = 0 -> start f = 0.
Proof using Hok Hs Hf.
  intros He H0. pose proof (first_least e He) as Hle. rewrite Forall_forall in Hok.
  destruct (Hok f) as ((? & ?) & _); [by eapply list_elem_of_lookup_2|].
  unfold range_key in Hle. destruct (Z.eqb_spec (stop f) 0), (Z.eqb_spec (stop e) 0); lia.
Qed.

Lemma partition_links :
  partition es -> start f = 0 /\ some_live es = true /\ links (2 ^ 32 - 1) es /\
    final_stop (2 ^ 32 - 1) es = 2 ^ 32 - 1.
Proof using Hok Hs Hf.
  intros Hp. rewrite partition_count in Hp.
  destruct (count_links (-1) es Hok Hs) as [H1 H2]; [lia|intros h Hh; rewrite Hp by done; unfold in_u in Hh; by destruct (Z.ltb_spec (-1) h); [|lia]|].
  assert (0 < count_of (owns 0) es) as (e & He & [Hl Hr]%andb_true_iff)%count_pos by (rewrite Hp; [lia|by unfold in_u]).
  apply in_range_spec in Hr. pose proof Hok as Hok'. rewrite Forall_forall in Hok'. destruct (Hok' e He) as ((? & ?) & _).
  assert (some_live es = true) as Hlv by (apply existsb_exists; exists e; split; [by apply list_elem_of_In|done]).
  split_and!; [apply (first_zero e He); lia|done|by apply links_wrap|].
  by rewrite (final_stop_any _ (-1)).
Qed.

Lemma links_partition last :
  last = u32 (start f - 1) -> some_live es = true -> links last es -> final_stop last es = last ->
  no_double es -> start f = 0 /\ partition es.
Proof using Hok Hs Hf.
  intros El Hlv Hli Hfi Hd. pose proof Hok as Hok'. rewrite Forall_forall in Hok'.
  destruct (Hok' f) as ((Hf1 & Hf2) & Hf3 & _); [by eapply list_elem_of_lookup_2|].
  assert (start f = 0) as H0.
  { destruct (Z.eq_dec (start f) 0) as [|Hn]; [done|]. exfalso.
    rewrite uwrap_small in El by (unfold in_u; lia).
    destruct (final_stop_live last es Hlv) as (e & He & Hl & E). rewrite Hfi in E.
    pose proof (first_least e He) as Hle. destruct (live_key e (Hok' e He) Hl) as [Hk Hr].
    rewrite Hk in Hle. unfold range_key in Hle. destruct (Z.eqb_spec (stop f) 0); lia. }
  split; [done|]. rewrite H0 in El. change (u32 (0 - 1)) with (2 ^ 32 - 1) in El. subst last.
  rewrite partition_count. intros h Hh. pose proof (links_ends _ _ Hok Hs Hd Hli) as Hen.
  rewrite (links_count (-1) es); [|done|lia|lia|done|by apply links_wrap| |done].
  - unfold in_u in Hh. by destruct (Z.ltb_spec (-1) h); [|lia].
  - by rewrite (final_stop_any _ (2 ^ 32 - 1)).
Qed.
End sorted_layout.

Lemma normalize_facts l :
  Forall entry_ok (entries l) -> entries l <> [] -> Z.of_nat (length (entries l)) < 2 ^ 31 ->
  exists r l', dht_layout_normalize l = Some (r, l') /\ Permutation (entries l') (entries l) /\ type l' = type l /\
    (0 <= r -> r = dht_layout_missing_dirs l') /\
    (partition (entries l) -> 0 <= r) /\
    (0 <= r -> no_double (entries l) -> partition (entries l')).
Proof.
  intros Hok Hne Hlen. destruct (layout_sort_spec l Hok) as [Hp Hs]. unfold dht_layout_normalize.
  set (l1 := dht_layout_sort l) in *. fold (sorted (entries l1)) in Hs.
  assert (Forall entry_ok (entries l1)) as Hok1 by (by rewrite Hp).
  assert (length (entries l1) = length (entries l)) as Hl1 by (by rewrite Hp).
  destruct (entries l1 !! 0%nat) as [f|] eqn:Hf.
  2: { apply lookup_ge_None in Hf. destruct (entries l); [done|]. rewrite length_cons in Hl1. lia. }
  destruct (anomalies_spec l1 f Hok1 ltac:(lia) Hf) as (a & -> & Ha). cbn [mbind option_bind].
  assert (0 <= dht_layout_missing_dirs l1) as Hmd by (unfold dht_layout_missing_dirs; lia).
  destruct (Z.eqb_spec (hole_cnt a) 0) as [H1|H1], (Z.eqb_spec (overlap_cnt a) 0) as [H2|H2]; cbn [negb orb];
    (eexists _, l1; split; [done|]; split; [done|]; split; [done|]; split; [by intros|]).
  2-4: split; [|lia]; intros Hpa; apply (partition_perm _ (entries l1)) in Hpa; [|done];
    destruct (partition_links _ f Hok1 Hs Hf Hpa) as (E & B1 & B2 & B3); rewrite E in Ha; tauto.
  destruct Ha as [Ha _]. destruct (Ha (conj H1 H2)) as (A1 & A2 & A3). split; [done|]. intros _ Hd.
  enough (start f = 0 /\ partition (entries l1)) as [_ ?] by done.
  apply (links_partition (entries l1) f Hok1 Hs Hf _ eq_refl A1 A2 A3).
  intros e He E1 E2. rewrite (count_perm _ _ _ Hp). apply (Hd e); [by rewrite <- Hp|done|done].
Qed.


Definition two_halves : dht_layout :=
  {| spread_cnt := 0; preset := false; commit_hash := 0; gen := 0; type := DHT_HASH_TYPE_DM;
     entries := [{| err := 0; start := 0x80000000; stop := 0xffffffff; entry_hash := 0; xlator := Some 2 |};
                 {| err := 0; start := 0; stop := 0x7fffffff; entry_hash := 0; xlator := Some 1 |}] |}.

Lemma two_halves_ok : Forall entry_ok (entries two_halves).
Proof. repeat apply Forall_cons_2; [split_and!; cbn; lia..|apply Forall_nil_2]. Qed.

Lemma two_halves_single : no_double (entries two_halves).
Proof.
  intros e [->|[->|H]%elem_of_cons]%elem_of_cons; [discriminate|discriminate|by apply not_elem_of_nil in H].
Qed.

