(* ===== verification/DhtLookup.v ===== *)
(** * Storing and reading layouts

    A layout that was given to a directory and stored on its subvolumes is
    found again by a lookup, in whatever order the subvolumes answer, and
    every name is looked for where the layout puts it. *)

From Stdlib Require Import ZArith Lia Bool Ascii.
From stdpp Require Import base list.
From S2P Require Import Prelude CLib Dict Uuid DhtHash DhtLayout DhtHeal DhtAssign DhtCheck.

(** ** Words on disk *)

Lemma ntoh_unsigned z : in_u 32 z -> u32 (ntoh32 (hton32 z)) = z.
Proof.
  intros Hz. unfold ntoh32, hton32. cbn [foldl]. rewrite !byte_at_value, Z.mul_0_l, Z.add_0_l, four_bytes.
  unfold uwrap, swrap, in_u in *. rewrite (Z.mod_small z) by lia.
  rewrite Zminus_mod_idemp_l. replace (z + 2 ^ (32 - 1) - 2 ^ (32 - 1)) with z by lia. apply Z.mod_small. lia.
Qed.

Definition disk_of (t : Z) (e : entry) : list ascii :=
  hton32 (entry_hash e) ++ hton32 t ++ hton32 (start e) ++ hton32 (stop e).

Lemma disk_word_of t e :
  disk_word (disk_of t e) 0 = ntoh32 (hton32 (entry_hash e)) /\ disk_word (disk_of t e) 1 = ntoh32 (hton32 t) /\
  disk_word (disk_of t e) 2 = ntoh32 (hton32 (start e)) /\ disk_word (disk_of t e) 3 = ntoh32 (hton32 (stop e)).
Proof. done. Qed.

Definition words_ok (e : entry) : Prop :=
  in_u 32 (entry_hash e) /\ in_u 32 (start e) /\ in_u 32 (stop e).

(** ** Merging the answers *)

(** What an answer makes of an entry. *)

Definition reread (e : entry) : entry :=
  {| err := 0; start := start e; stop := stop e; entry_hash := entry_hash e; xlator := xlator e |}.

Definition answers (conf : dht_conf) (n : nat) (replies : list (Z * list ascii)) : option dht_layout :=
  foldl (fun acc r => l ← acc; '(_, l) ← dht_layout_merge l r.1 0 0 (Some r.2); Some l)
    (Some (dht_layout_new conf n)) replies.

Lemma claim_next l subvol r pre rest :
  entries l = pre ++ no_entry :: rest -> Forall (fun e => is_Some (xlator e)) pre ->
  claim_slot l subvol r =
  (length pre, set_entries (pre ++ {| err := r; start := 0; stop := 0; entry_hash := 0; xlator := Some subvol |} :: rest) l).
Proof.
  intros Hl Hp. unfold claim_slot. rewrite Hl.
  assert (list_find (fun e => xlator e = None) (pre ++ no_entry :: rest) = Some (length pre, no_entry)) as ->.
  { apply list_find_Some. split_and!; [by rewrite lookup_app_r, Nat.sub_diag by lia|done|].
    intros j y Hj Hlt. rewrite lookup_app_l in Hj by done. rewrite Forall_lookup in Hp.
    destruct (Hp j y Hj) as [x ->]. done. }
  by rewrite insert_app_r_alt, Nat.sub_diag by lia.
Qed.

Lemma merge_next l pre rest e x t :
  entries l = pre ++ no_entry :: rest -> Forall (fun e => is_Some (xlator e)) pre ->
  words_ok e -> xlator e = Some x -> t = DHT_HASH_TYPE_DM -> type l = t ->
  exists h, dht_layout_merge l x 0 0 (Some (disk_of t e)) =
    Some (0, set_hash h (set_entries (pre ++ reread e :: rest) l)).
Proof.
  intros Hl Hp (W0 & W2 & W3) Hx -> Ht. unfold dht_layout_merge. cbn [Z.eqb negb].
  rewrite (claim_next l x (-1) pre rest) by done. unfold dht_disk_layout_merge.
  destruct (disk_word_of DHT_HASH_TYPE_DM e) as (D0 & D1 & D2 & D3).
  replace (length (disk_of DHT_HASH_TYPE_DM e) =? 16)%nat with true by done. cbn [negb].
  rewrite D0, D1, D2, D3, !ntoh_unsigned by done.
  assert (ntoh32 (hton32 DHT_HASH_TYPE_DM) = DHT_HASH_TYPE_DM) as -> by (by apply ntoh32_hton32).
  cbn [Z.eqb DHT_HASH_TYPE_DM DHT_HASH_TYPE_DM_USER orb entries set_entries].
  assert (forall y : entry, (pre ++ y :: rest) !! length pre = Some y) as Hlk
    by (intros y; by rewrite lookup_app_r, Nat.sub_diag by lia).
  assert (forall y z : entry, <[length pre := z]> (pre ++ y :: rest) = pre ++ z :: rest) as Hin
    by (intros y z; by rewrite insert_app_r_alt, Nat.sub_diag by lia).
  rewrite Hlk. cbn [mbind option_bind entries set_entries]. rewrite Hin.
  cbn [Z.eqb negb entries set_entries]. rewrite Hlk. cbn [mbind option_bind].
  match goal with |- context [if ?c then set_hash ?h ?l1 else if ?c' then _ else _] =>
    exists (if c then h else if c' then DHT_LAYOUT_HASH_INVALID else commit_hash l); destruct c, c' end;
    unfold set_entries, set_hash, set_err, set_all, reread; cbn; rewrite Hin, Hx; done.
Qed.

Definition reply (e : entry) : Z * list ascii := (default 0 (xlator e), disk_of DHT_HASH_TYPE_DM e).

Lemma answers_spec conf es :
  Forall (fun e => words_ok e /\ is_Some (xlator e)) es ->
  exists l, answers conf (length es) (reply <$> es) = Some l /\ entries l = reread <$> es /\ type l = DHT_HASH_TYPE_DM.
Proof.
  intros Hes. unfold answers.
  assert (forall pre l, entries l = pre ++ repeat no_entry (length es) -> Forall (fun e => is_Some (xlator e)) pre ->
    type l = DHT_HASH_TYPE_DM -> exists l',
    foldl (fun acc r => l ← acc; '(_, l) ← dht_layout_merge l r.1 0 0 (Some r.2); Some l) (Some l) (reply <$> es) = Some l' /\
    entries l' = pre ++ (reread <$> es) /\ type l' = DHT_HASH_TYPE_DM) as H.
  { induction Hes as [|e es [We [x Hx]] _ IH]; intros pre l Hl Hp Ht; cbn [length repeat fmap list_fmap foldl] in *.
    { exists l. by rewrite Hl. }
    destruct (merge_next l pre (repeat no_entry (length es)) e x DHT_HASH_TYPE_DM) as [h Hm]; [done..|].
    cbn [mbind option_bind reply fst snd]. rewrite Hx. cbn [default]. change (id x) with x. rewrite Hm.
    cbn [mbind option_bind]. destruct (IH (pre ++ [reread e])
      (set_hash h (set_entries (pre ++ reread e :: repeat no_entry (length es)) l))) as (l' & H1 & H2 & H3).
    - cbn. by rewrite <- app_assoc.
    - apply Forall_app. split; [done|]. apply Forall_singleton. cbn. by rewrite Hx.
    - done.
    - exists l'. split_and!; [done|by rewrite H2, <- app_assoc|done]. }
  apply (H []); [done|constructor|done].
Qed.

(** ** What is stored *)

(** The entry that a subvolume of the layout ends up with: an empty one when
    it has no range. *)

Definition stored (e : entry) : entry :=
  if live_range e then e
  else {| err := err e; start := 0; stop := 0; entry_hash := 0; xlator := xlator e |}.

Lemma strcmp_eq a b : strcmp a b = 0 <-> a = b.
Proof.
  revert b. induction a as [|c a IH]; intros [|d b]; cbn [strcmp]; try done.
  destruct (Z.eqb_spec (code c) (code d)) as [E|E].
  - rewrite IH. assert (c = d) as ->; [|split; [by intros ->|by intros [= ->]]].
    unfold code in E. rewrite <- (ascii_N_embedding c), <- (ascii_N_embedding d). f_equal. lia.
  - split; [lia|]. intros [= -> ->]. done.
Qed.

(** The layout has one entry for each subvolume, and their names differ. *)

Definition covers_subvols (conf : dht_conf) (es : list entry) : Prop :=
  Permutation (Some <$> subvolumes conf) (xlator <$> es) /\ NoDup (xlator <$> es) /\
  forall x y, x ∈ subvolumes conf -> y ∈ subvolumes conf -> vname conf x = vname conf y -> x = y.

Lemma in_layout_spec conf l e x :
  covers_subvols conf (entries l) -> e ∈ entries l -> xlator e = Some x ->
  dht_is_subvol_in_layout conf l x = Some (live_range e).
Proof.
  intros (Hp & Hn & Hv) He Hx. unfold dht_is_subvol_in_layout.
  assert (forall e', e' ∈ entries l -> exists y, xlator e' = Some y /\ y ∈ subvolumes conf) as Hsub.
  { intros e' He'. assert (xlator e' ∈ Some <$> subvolumes conf) as Hin by (rewrite Hp; by apply list_elem_of_fmap_2).
    apply list_elem_of_fmap in Hin as (y & Hy & Hin). eauto. }
  destruct (Hsub e He) as (x' & Hx' & Hinx). rewrite Hx in Hx'. injection Hx' as <-.
  enough (forall i es, (forall e', e' ∈ es -> e' ∈ entries l) -> NoDup (xlator <$> es) -> e ∈ es ->
            exists k, find_name conf x i es = Some (Some (k, e))) as Hfind.
  { destruct (Hfind 0%nat (entries l)) as [k ->]; done. }
  intros i es Hes Hnd Hine. revert i. induction es as [|e' es IH]; intros i; [by apply not_elem_of_nil in Hine|].
  cbn [find_name]. rewrite fmap_cons in Hnd. apply NoDup_cons in Hnd as [Hni Hnd].
  destruct (Hsub e') as (y & Hy & Hin); [apply Hes; by left|]. rewrite Hy. cbn [mbind option_bind].
  destruct (Z.eqb_spec (strcmp (vname conf y) (vname conf x)) 0) as [E|E].
  - apply strcmp_eq, Hv in E as ->; [|done..]. apply elem_of_cons in Hine as [->|Hine]; [by eexists|].
    destruct Hni. rewrite Hy, <- Hx. by apply list_elem_of_fmap_2.
  - apply elem_of_cons in Hine as [->|Hine].
    + destruct E. rewrite Hx in Hy. injection Hy as ->. by apply strcmp_eq.
    + apply IH; [|done..]. intros e1 He1. apply Hes. by right.
Qed.

Lemma concat_somes (wss : list (list write)) : concat_writes (Some <$> wss) = Some (mjoin wss).
Proof. induction wss as [|ws wss IH]; [done|]. rewrite fmap_cons. cbn [concat_writes mbind option_bind]. by rewrite IH. Qed.

Lemma mjoin_singles (ws : list write) : mjoin ((fun w => [w]) <$> ws) = ws.
Proof. induction ws as [|w ws IH]; [done|]. rewrite fmap_cons. cbn [mjoin list_join app]. f_equal. exact IH. Qed.

Lemma mjoin_filter (b : Z -> bool) (f : Z -> write) xs :
  mjoin ((fun x => if b x then [] else [f x]) <$> xs) = f <$> List.filter (fun x => negb (b x)) xs.
Proof.
  induction xs as [|x xs IH]; [done|]. rewrite fmap_cons. cbn [mjoin list_join List.filter].
  destruct (b x); cbn [negb app]; [exact IH|]. rewrite fmap_cons. f_equal. exact IH.
Qed.

(** A layout whose ranges are all still to be stored. *)

Definition fresh_layout (l : dht_layout) : Prop :=
  type l = DHT_HASH_TYPE_DM /\
  forall e, e ∈ entries l ->
    is_Some (xlator e) /\
    if live_range e then err e = -1 /\ 0 <= start e < stop e /\ stop e < 2 ^ 32 /\ in_u 32 (entry_hash e)
    else start e = 0 /\ stop e = 0.

Lemma fresh_unwritten l e : fresh_layout l -> e ∈ entries l -> unwritten e = live_range e.
Proof.
  intros [_ H] He. destruct (H e He) as [_ H']. unfold unwritten. destruct (live_range e).
  - destruct H' as (-> & Hr & _). destruct (Z.eqb_spec (stop e) 0); [lia|done].
  - destruct H' as [_ ->]. by rewrite andb_false_r.
Qed.

Lemma own_writes l :
  fresh_layout l ->
  mjoin (imap (fun i e => if unwritten e then [dht_selfheal_dir_xattr_persubvol l i (xlator e)] else []) (entries l))
  = Some <$> ((fun w => [w]) <$> (reply <$> List.filter live_range (entries l))).
Proof.
  intros Hf. pose proof Hf as [Ht He].
  rewrite (imap_ext _ (const (fun e => if live_range e then [Some [reply e]] else []))).
  - rewrite imap_const. clear. induction (entries l) as [|e es IH]; [done|]. rewrite fmap_cons. cbn [mjoin list_join List.filter].
    destruct (live_range e); [|exact IH]. cbn [fmap list_fmap app]. f_equal. exact IH.
  - intros i e Hi. pose proof (list_elem_of_lookup_2 _ _ _ Hi) as Hin. cbn [const].
    rewrite (fresh_unwritten l) by done. destruct (live_range e); [|done].
    destruct (He e Hin) as [[x Hx] _]. unfold dht_selfheal_dir_xattr_persubvol, dht_disk_layout_extract, reply.
    rewrite Hi, Hx, Ht. done.
Qed.

Lemma dir_xattr_spec conf l :
  fresh_layout l -> covers_subvols conf (entries l) ->
  exists ws, dht_selfheal_dir_xattr conf l = Some ws /\ Permutation ws (reply <$> (stored <$> entries l)).
Proof.
  intros Hf Hcv. pose proof Hcv as (Hp & _ & _). unfold dht_selfheal_dir_xattr. rewrite own_writes by done.
  set (inl := fun x => default false (dht_is_subvol_in_layout conf l x)).
  set (zero := fun x : Z => (x, disk_of DHT_HASH_TYPE_DM no_entry) : write).
  rewrite (list_fmap_ext _ (fun x => Some (if inl x then [] else [zero x])) (subvolumes conf)).
  2: { intros i x Hx%list_elem_of_lookup_2. assert (Some x ∈ xlator <$> entries l) as Hin
         by (rewrite <- Hp; by apply list_elem_of_fmap_2).
       apply list_elem_of_fmap in Hin as (e & He & Hin). unfold inl.
       rewrite (in_layout_spec conf l e x) by done. cbn [mbind option_bind default from_option id].
       by destruct (live_range e). }
  rewrite (list_fmap_compose (fun x => if inl x then [] else [zero x]) Some (subvolumes conf)
    : (fun x => Some (if inl x then [] else [zero x])) <$> subvolumes conf = _).
  rewrite <- fmap_app, concat_somes, join_app, mjoin_singles, mjoin_filter. eexists. split; [done|].
  set (idle := List.filter (fun x => negb (inl x)) (subvolumes conf)).
  set (xl := fun e => default 0 (xlator e)).
  assert (Permutation (subvolumes conf) (xl <$> entries l)) as Hp'.
  { apply (fmap_Permutation (default 0)) in Hp. rewrite <- !list_fmap_compose in Hp.
    etransitivity; [|exact Hp]. by rewrite (list_fmap_id (subvolumes conf) : default 0 ∘ Some <$> subvolumes conf = _). }
  assert (Permutation idle (xl <$> List.filter (fun e => negb (live_range e)) (entries l))) as ->.
  { unfold idle. rewrite (list_filter_perm _ _ _ Hp'), filter_fmap. f_equiv.
    enough (List.filter (fun e => negb (inl (xl e))) (entries l)
      = List.filter (fun e => negb (live_range e)) (entries l)) as -> by done.
    apply List.filter_ext_in. intros e He%list_elem_of_In. destruct Hf as [_ He']. destruct (He' e He) as [[x Hx] _].
    f_equal. unfold inl. rewrite (in_layout_spec conf l e); [done|done|done|]. unfold xl. by rewrite Hx. }
  rewrite (filter_split live_range (entries l)) at 3. rewrite !fmap_app, Permutation_app_comm.
  rewrite <- !list_fmap_compose. apply Permutation_app; apply Permutation_refl'; apply list_fmap_ext; intros i e Hi;
    apply list_elem_of_lookup_2, elem_filter in Hi as [_ Hl]; unfold compose, stored.
  - apply negb_true_iff in Hl. by rewrite Hl.
  - by rewrite Hl.
Qed.

(** ** Looking up *)

Lemma stored_entry l e :
  fresh_layout l -> e ∈ entries l -> words_ok (stored e) /\ is_Some (xlator (stored e)) /\ entry_ok (reread (stored e)).
Proof.
  intros [_ H] He. destruct (H e He) as [Hx H']. unfold stored, words_ok, entry_ok, in_u in *.
  destruct (live_range e); cbn; [|split_and!; (done || lia)].
  destruct H' as (_ & ? & ? & ?). split_and!; (done || lia).
Qed.

Lemma owns_reread h e : owns h (reread (stored e)) = owns h e.
Proof. unfold stored. destruct (live_range e) eqn:Hl; [done|]. unfold owns. rewrite Hl. done. Qed.

Lemma partition_reread es : partition es -> partition (reread ∘ stored <$> es).
Proof.
  rewrite !partition_count. intros H h Hh. rewrite (count_fmap _ (owns h)); [by apply H|]. intros e _. apply owns_reread.
Qed.

Lemma find_owner l es h :
  fresh_layout l -> partition (entries l) -> Permutation es (reread ∘ stored <$> entries l) -> 0 < h < 2 ^ 32 ->
  exists i e e', entries l !! i = Some e /\ owner (entries l) h i /\
    List.find (in_range h) es = Some e' /\ xlator e' = xlator e.
Proof.
  intros [_ Hf] Hpa Hp Hh. destruct (Hpa h) as (i & Hw & Hu); [unfold in_u; lia|].
  pose proof Hw as (e & He & Hl & Hr).
  assert (forall e1, e1 ∈ entries l -> in_range h (reread (stored e1)) = true ->
    live_range e1 = true /\ in_range h e1 = true) as Hin.
  { intros e1 He1. unfold stored. destruct (live_range e1) eqn:Hl1; [done|]. intros Hr1%in_range_spec. cbn in Hr1. lia. }
  destruct (List.find (in_range h) es) as [e'|] eqn:Hfi.
  - apply List.find_some in Hfi as [Hm%list_elem_of_In Hr'].
    rewrite Hp in Hm. apply list_elem_of_fmap in Hm as (e1 & -> & [j Hj]%list_elem_of_lookup). cbn in Hr'.
    destruct (Hin e1) as [Hl1 Hr1]; [by eapply list_elem_of_lookup_2|done|].
    assert (j = i) as -> by (apply Hu; by exists e1). rewrite He in Hj. injection Hj as <-.
    exists i, e, (reread (stored e)). split_and!; [done|done|done|]. cbn. unfold stored. by rewrite Hl.
  - exfalso.
    assert (reread (stored e) ∈ es) as Hes.
    { rewrite Hp. apply (list_elem_of_fmap_2 (reread ∘ stored)). by eapply list_elem_of_lookup_2. }
    apply list_elem_of_In in Hes. pose proof (List.find_none _ _ Hfi _ Hes) as Hn. cbn in Hn.
    unfold stored in Hn. rewrite Hl in Hn. unfold in_range in *. cbn in Hn. congruence.
Qed.

(** ** From a new directory to a lookup *)

(** The subvolumes on which the directory was made. *)

Definition made (l : dht_layout) : Prop :=
  forall e, e ∈ entries l -> is_Some (xlator e) /\ (err e = -1 \/ err e = 0).

Lemma made_known l : made l -> Forall (fun e => is_Some (xlator e)) (entries l).
Proof. intros H. apply Forall_forall. intros e He. by apply H. Qed.

Lemma marks_made conf l e :
  err e = -1 \/ err e = 0 -> err (marks conf l e) = -1 \/ err (marks conf l e) = EINVAL.
Proof.
  intros H. unfold marks, mark_decommissioned.
  destruct (is_decommissioned conf e), (_ =? 0); unfold mark_full, mark_countable; cbn; [by right..| |];
    destruct H as [E|E]; rewrite E; cbn; rewrite ?E; cbn; by left.
Qed.

Lemma new_layout_fresh conf lo l l' :
  weights_ok conf l -> 0 <= spread_cnt l -> Z.of_nat (length (entries l)) < 2 ^ 31 ->
  (exists e, e ∈ entries l /\ usable conf e = true) -> made l -> type l = DHT_HASH_TYPE_DM -> in_u 32 (commit_hash l) ->
  dht_selfheal_layout_new_directory conf lo l = Some l' ->
  fresh_layout l' /\ partition (entries l') /\ same_subvols (entries l) (entries l').
Proof.
  intros Hw Hsp Hcnt Hex Hmd Ht Hch Hl'.
  destruct (new_directory_facts conf lo l Hw Hsp Hcnt Hex (made_known l Hmd)) as (l1 & E & Ht' & Hpa & Hsv & Hfa).
  rewrite Hl' in E. injection E as <-. split_and!; [|done|done]. split; [congruence|].
  intros e' [i Hi]%list_elem_of_lookup. destruct (Hfa i e' Hi) as (e & He & Hc).
  destruct (Hmd e) as [Hx Herr]; [by eapply list_elem_of_lookup_2|]. split.
  - assert (xlator e' = xlator e) as ->; [|done]. apply (f_equal (fun k => k !! i)) in Hsv.
    rewrite !list_lookup_fmap, Hi, He in Hsv. cbn in Hsv. congruence.
  - destruct (live_range e'); [|done]. destruct Hc as (_ & Hme & Htk & Hr & Hs & ->). split_and!; try done; [|lia..].
    unfold takes in Htk. rewrite Hme in Htk |- *. destruct (marks_made conf l e Herr) as [E|E]; [done|].
    by rewrite E in Htk.
Qed.

Lemma hash_range e r name ret h :
  dht_hash_compute e r DHT_HASH_TYPE_DM name = Some (ret, h) -> in_u 32 h.
Proof.
  unfold dht_hash_compute, dht_hash_compute_internal. cbn [Z.eqb DHT_HASH_TYPE_DM orb].
  rewrite dm_hashfn_reference. cbn [mbind option_bind].
  match goal with |- context [dm_hash ?m] => pose proof (dm_hash_range m) as Hr; revert Hr; generalize (dm_hash m) end.
  by intros z Hz [= _ <-].
Qed.

Lemma lookup_layout conf l replies :
  fresh_layout l -> partition (entries l) -> Permutation replies (reply <$> (stored <$> entries l)) ->
  0 < Z.of_nat (length (entries l)) < 2 ^ 31 ->
  exists l2 l3, answers conf (length (entries l)) replies = Some l2 /\ dht_layout_normalize l2 = Some (0, l3) /\
    type l3 = DHT_HASH_TYPE_DM /\ Permutation (entries l3) (reread ∘ stored <$> entries l).
Proof.
  intros Hf Hpa Hr Hlen. apply Permutation_map_inv in Hr as (es & -> & Hes).
  assert (Forall (fun e => words_ok e /\ is_Some (xlator e) /\ entry_ok (reread e)) es) as Hok.
  { rewrite <- Hes. apply Forall_fmap, Forall_forall. intros e He. by apply (stored_entry l). }
  assert (length es = length (entries l)) as Hl by (by rewrite <- Hes, length_fmap).
  destruct (answers_spec conf es) as (l2 & E2 & Hl2 & Ht2); [eapply Forall_impl; [exact Hok|cbn; tauto]|].
  rewrite Hl in E2.
  assert (Permutation (entries l2) (reread ∘ stored <$> entries l)) as Hp2
    by (rewrite Hl2, <- Hes, list_fmap_compose; done).
  destruct (normalize_facts l2) as (r & l3 & E3 & Hp3 & Ht3 & Hr0 & Hacc & _).
  - rewrite Hl2. apply Forall_fmap. eapply Forall_impl; [exact Hok|cbn; tauto].
  - rewrite Hl2. destruct es; [cbn in Hl; lia|done].
  - rewrite Hl2, length_fmap. lia.
  - assert (r = 0) as ->.
    { rewrite Hr0 by (apply Hacc; eapply partition_perm; [symmetry; exact Hp2|by apply partition_reread]).
      unfold dht_layout_missing_dirs. fold (count_of (fun e => (err e =? ENOENT) || ((err e =? -1) && (start e =? 0) && (stop e =? 0))) (entries l3)).
      rewrite (count_perm _ _ _ Hp3), (count_perm _ _ _ Hp2), (count_fmap _ (fun _ => false)) by done.
      unfold count_of. clear. induction (entries l) as [|e es IH]; [done|exact IH]. }
    exists l2, l3. split_and!; [done|done|congruence|by rewrite Hp3].
Qed.

(** C5. A directory that is made on all subvolumes, one of which can be used,
    gets a layout and stores it; whenever it is looked up afterwards and all
    subvolumes answer, in whatever order, the layout is complete, and every name
    whose hash is not zero is looked for on the subvolume whose range in the
    layout has the hash. When ranges are weighted by size there is no spread count
    and the sizes add up to less than 2^31 ([weights_ok]). *)
Theorem layout_survives_lookup conf lo l :
  weights_ok conf l -> 0 <= spread_cnt l -> Z.of_nat (length (entries l)) < 2 ^ 31 ->
  (exists e, e ∈ entries l /\ usable conf e = true) -> made l -> type l = DHT_HASH_TYPE_DM ->
  in_u 32 (commit_hash l) -> covers_subvols conf (entries l) ->
  exists l1 ws, dht_selfheal_layout_new_directory conf lo l = Some l1 /\
    dht_selfheal_dir_xattr conf l1 = Some ws /\
    forall replies, Permutation replies ws ->
    exists l2 l3, answers conf (length (entries l)) replies = Some l2 /\ dht_layout_normalize l2 = Some (0, l3) /\
      forall name h, dht_hash_compute (extra_regex conf) (rsync_regex conf) DHT_HASH_TYPE_DM name = Some (0, h) ->
        h <> 0 -> exists i e, owner (entries l1) h i /\ entries l1 !! i = Some e /\
          dht_layout_search conf l3 name = Some (xlator e).
Proof.
  intros Hw Hsp Hcnt Hex Hmd Ht Hch Hcv.
  destruct (new_directory_facts conf lo l Hw Hsp Hcnt Hex (made_known l Hmd)) as (l1 & Hl1 & _).
  destruct (new_layout_fresh conf lo l l1) as (Hfr & Hpa & Hsv); [done..|].
  assert (covers_subvols conf (entries l1)) as Hcv1 by (unfold covers_subvols, same_subvols in *; by rewrite Hsv).
  destruct (dir_xattr_spec conf l1 Hfr Hcv1) as (ws & Hws & Hp). exists l1, ws. split_and!; [done|done|].
  intros replies Hr. rewrite Hp in Hr.
  assert (length (entries l1) = length (entries l)) as Hlen
    by (rewrite <- (length_fmap xlator (entries l1)), Hsv; apply length_fmap).
  destruct (lookup_layout conf l1 replies Hfr Hpa Hr) as (l2 & l3 & E2 & E3 & Ht3 & Hp3).
  { destruct Hex as (e0 & [j Hj%lookup_lt_Some]%list_elem_of_lookup & _). lia. }
  exists l2, l3. rewrite <- Hlen. split_and!; [done|done|]. intros name h Hh Hn0.
  destruct (find_owner l1 (entries l3) h Hfr Hpa Hp3) as (i & e & e' & He & Hw' & Hfi & Hx).
  { pose proof (hash_range _ _ _ _ _ Hh) as Hb. unfold in_u in Hb. lia. }
  exists i, e. split_and!; [done|done|]. unfold dht_layout_search. rewrite Ht3, Hh. cbn [mbind option_bind Z.eqb negb].
  rewrite Hfi. cbn [mbind option_bind]. by rewrite Hx.
Qed.

Lemma sample_subvols : covers_subvols sample_conf (entries sample_layout).
Proof.
  split_and!; [done|by apply (bool_decide_unpack _); vm_compute|].
  intros x y Hx Hy. cbn in Hx, Hy. rewrite !elem_of_cons, elem_of_nil in Hx, Hy.
  destruct Hx as [->|[->|[->|[]]]], Hy as [->|[->|[->|[]]]]; done.
Qed.

Lemma layout_survives_lookup_witness :
  exists l1 ws, dht_selfheal_layout_new_directory sample_conf sample_loc sample_layout = Some l1 /\
    dht_selfheal_dir_xattr sample_conf l1 = Some ws.
Proof.
  destruct (layout_survives_lookup sample_conf sample_loc sample_layout) as (l1 & ws & H1 & H2 & _);
    [exact sample_weights|cbn; lia|cbn; lia|exact sample_usable| |done|by unfold in_u|exact sample_subvols|].
  - intros e He. cbn in He. rewrite !elem_of_cons, elem_of_nil in He. destruct He as [->|[->|[->|[]]]]; (split; [by eexists|by right]).
  - exists l1, ws. split; [exact H1|exact H2].
Defined.
