(* ===== verification/DhtOverlap.v ===== *)
(** * Changing layouts moves little

    [dht_selfheal_layout_maximize_overlap] exchanges the ranges of a new layout
    so that more hashes stay where the old layout had them. *)

From Stdlib Require Import ZArith Lia Bool Ascii.
From stdpp Require Import base list.
From S2P Require Import Prelude CLib Dict Uuid DhtHash DhtLayout DhtHeal DhtAssign DhtCheck.

(** ** The table *)

Definition tab (n : nat) (t : list Z) (f : nat -> nat -> Z) : Prop :=
  length t = (n * n)%nat /\ forall x y, (x < n)%nat -> (y < n)%nat -> ov_entry t n x y = Some (f x y).

Lemma index_inj n x y i j : (y < n)%nat -> (j < n)%nat -> (x * n + y = i * n + j)%nat -> x = i /\ y = j.
Proof. intros Hy Hj E. assert (x = i) as -> by nia. split; [done|lia]. Qed.

Lemma set_ov_spec n x y v t :
  length t = (n * n)%nat -> (x < n)%nat -> (y < n)%nat ->
  exists t', set_ov n x y v t = Some t' /\ length t' = (n * n)%nat /\
    forall a b, (a < n)%nat -> (b < n)%nat ->
      ov_entry t' n a b = if decide (a = x /\ b = y) then Some v else ov_entry t n a b.
Proof.
  intros Hl Hx Hy. unfold set_ov. destruct (Nat.ltb_spec (x * n + y) (length t)) as [Hlt|]; [|nia].
  eexists. split; [done|]. split; [by rewrite length_insert|]. intros a b Ha Hb. unfold ov_entry.
  destruct (decide (a = x /\ b = y)) as [[-> ->]|Hne]; [by apply list_lookup_insert_eq|].
  apply list_lookup_insert_ne. intros E. apply Hne. apply index_inj in E; [naive_solver|done|done].
Qed.

Lemma overlap_table_spec new old n :
  length new = n -> length old = n ->
  exists t, overlap_table new old = Some t /\ tab n t (fun i j => dht_overlap_calc old j new i).
Proof.
  intros Hn Ho. unfold overlap_table. rewrite Hn, Ho. set (f := fun i j => dht_overlap_calc old j new i).
  destruct (for_loop_inv (fun i t => length t = (n * n)%nat /\
      forall x y, (x < i)%nat -> (y < n)%nat -> ov_entry t n x y = Some (f x y))
    (fun i t => for_loop n 0 (fun j t => set_ov n i j (dht_overlap_calc old j new i) t) t)
    n 0 (repeat 0 (n * n))) as (t & Ht & Hl & Hf).
  - split; [by rewrite repeat_length|]. intros x y Hx. lia.
  - intros i t Hi [Hl Hf].
    destruct (for_loop_inv (fun j t => length t = (n * n)%nat /\
        forall x y, (x < i \/ (x = i /\ y < j))%nat -> (y < n)%nat -> ov_entry t n x y = Some (f x y))
      (fun j t => set_ov n i j (dht_overlap_calc old j new i) t) n 0 t) as (t' & Ht' & Hl' & Hf').
    + split; [done|]. intros x y [Hx|[_ Hy]] Hyn; [by apply Hf|lia].
    + intros j u Hj [Hlu Hfu]. destruct (set_ov_spec n i j (f i j) u) as (u' & Hu & Hlu' & Hv); [done|lia|lia|].
      exists u'. split_and!; [done|done|]. intros x y Hx Hyn. rewrite Hv by lia.
      destruct (decide (x = i /\ y = j)) as [[-> ->]|Hne]; [done|]. apply Hfu; [|done]. lia.
    + exists t'. split_and!; [done|done|]. intros x y Hx Hy. apply Hf'; lia.
  - exists t. split; [done|]. split; [done|]. intros x y Hx Hy. by apply Hf.
Qed.

(** A table with two rows exchanged. *)

Definition swap_row (i k : nat) (f : nat -> nat -> Z) : nat -> nat -> Z :=
  fun x y => if decide (x = i) then f k y else if decide (x = k) then f i y else f x y.

Lemma swap_rows_spec n i k t f :
  tab n t f -> (i < n)%nat -> (k < n)%nat -> i <> k ->
  exists t', for_loop n 0 (swap_rows n i k) t = Some t' /\ tab n t' (swap_row i k f).
Proof.
  intros [Hl Hf] Hi Hk Hik.
  destruct (for_loop_inv (fun j t => length t = (n * n)%nat /\ forall x y, (x < n)%nat -> (y < n)%nat ->
      ov_entry t n x y = Some (if decide (y < j)%nat then swap_row i k f x y else f x y))
    (swap_rows n i k) n 0 t) as (t' & Ht & Hl' & Hf').
  - split; [done|]. intros x y Hx Hy. destruct (decide (y < 0)%nat); [lia|]. by apply Hf.
  - intros j u Hj [Hlu Hfu]. unfold swap_rows.
    pose proof (Hfu i j Hi ltac:(lia)) as Hij. pose proof (Hfu k j Hk ltac:(lia)) as Hkj.
    destruct (decide (j < j)%nat) as [|_]; [lia|]. rewrite Hij, Hkj. cbn [mbind option_bind].
    destruct (set_ov_spec n i j (f k j) u) as (u1 & -> & Hl1 & Hv1); [done|done|lia|]. cbn [mbind option_bind].
    destruct (set_ov_spec n k j (f i j) u1) as (u2 & -> & Hl2 & Hv2); [done|done|lia|].
    exists u2. split_and!; [done|done|]. intros x y Hx Hy. rewrite Hv2, Hv1, Hfu by done. unfold swap_row.
    destruct (decide (x = k /\ y = j)) as [[-> ->]|N1].
    { destruct (decide (j < S j)%nat); [|lia]. destruct (decide (k = i)); [done|]. by destruct (decide (k = k)). }
    destruct (decide (x = i /\ y = j)) as [[-> ->]|N2].
    { destruct (decide (j < S j)%nat); [|lia]. by destruct (decide (i = i)). }
    destruct (decide (y < j)%nat), (decide (y < S j)%nat); try done; [lia|].
    assert (y = j) as -> by lia. destruct (decide (x = i)); [naive_solver|]. by destruct (decide (x = k)); [naive_solver|].
  - exists t'. split; [done|]. split; [done|]. intros x y Hx Hy. rewrite Hf' by done. by destruct (decide _); [|lia].
Qed.

(** ** Exchanging ranges *)

Definition range (e : entry) : Z * Z := (start e, stop e).

Definition identity (e : entry) : Z * option Z := (err e, xlator e).

Lemma range_swap_lookup i k es a b x :
  i <> k -> es !! i = Some a -> es !! k = Some b ->
  dht_layout_range_swap i k es !! x =
  if decide (x = k) then Some (set_span (start a) (stop a) b)
  else if decide (x = i) then Some (set_span (start b) (stop b) a) else es !! x.
Proof.
  intros Hik Ha Hb. unfold dht_layout_range_swap. rewrite Ha, Hb. apply lookup_lt_Some in Ha as La, Hb as Lb.
  destruct (decide (x = k)) as [->|]; [apply list_lookup_insert_eq; by rewrite length_insert|].
  rewrite list_lookup_insert_ne by done. destruct (decide (x = i)) as [->|]; [by apply list_lookup_insert_eq|].
  by rewrite list_lookup_insert_ne.
Qed.

Lemma range_swap_facts i k es a b :
  i <> k -> es !! i = Some a -> es !! k = Some b ->
  let es' := dht_layout_range_swap i k es in
  identity <$> es' = identity <$> es /\ Permutation (range <$> es') (range <$> es).
Proof.
  intros Hik Ha Hb es'. split.
  - apply list_eq. intros x. rewrite !list_lookup_fmap. unfold es'. rewrite (range_swap_lookup i k es a b) by done.
    destruct (decide (x = k)) as [->|]; [by rewrite Hb|]. destruct (decide (x = i)) as [->|]; [by rewrite Ha|done].
  - unfold es', dht_layout_range_swap. rewrite Ha, Hb, !list_fmap_insert.
    change (range (set_span (start a) (stop a) b)) with (range a).
    change (range (set_span (start b) (stop b) a)) with (range b).
    apply Permutation_insert_swap; rewrite list_lookup_fmap; [by rewrite Ha|by rewrite Hb].
Qed.

Lemma count_ranges h es es' :
  Permutation (range <$> es') (range <$> es) -> count_of (owns h) es' = count_of (owns h) es.
Proof.
  intros Hp. set (p := fun r : Z * Z => negb (r.1 =? r.2) && ((r.1 <=? h) && (h <=? r.2))).
  assert (forall k, count_of (owns h) k = Z.of_nat (length (List.filter p (range <$> k)))) as Hc.
  { intros k. rewrite filter_fmap, length_fmap. done. }
  by rewrite !Hc, (list_filter_perm p _ _ Hp).
Qed.

(** ** Sums of overlaps *)

Definition range_ok (e : entry) : Prop := 0 <= start e <= stop e /\ stop e < 2 ^ 32.

Definition apart (es : list entry) : Prop :=
  forall i j a b, i <> j -> es !! i = Some a -> es !! j = Some b ->
    live_range a = true -> live_range b = true -> stop a < start b \/ stop b < start a.

Lemma partition_apart es : Forall range_ok es -> partition es -> apart es.
Proof.
  intros Hok Hp i j a b Hij Ha Hb La Lb. rewrite Forall_lookup in Hok.
  destruct (Hok i a Ha) as [? ?], (Hok j b Hb) as [? ?].
  destruct (Z_lt_le_dec (stop a) (start b)); [by left|]. destruct (Z_lt_le_dec (stop b) (start a)); [by right|].
  destruct (Hp (Z.max (start a) (start b))) as (k & _ & Hu); [unfold in_u; lia|]. exfalso. apply Hij.
  transitivity k; [|symmetry]; apply Hu; [exists a|exists b]; (split_and!; [done|done|]); apply in_range_spec; lia.
Qed.

Definition shared (a b : entry) : Z :=
  if live_range a && live_range b then Z.max 0 (Z.min (stop a) (stop b) - Z.max (start a) (start b) + 1) else 0.

(** The hashes that two entries without an error have in common; the code
    counts them in 32 bits. *)

Definition common (c a : entry) : Z := if (0 <? err c) || (0 <? err a) then 0 else shared a c.

Definition commons (old es : list entry) (x y : nat) : Z :=
  match old !! y, es !! x with Some c, Some a => common c a | _, _ => 0 end.

Lemma overlap_exact old new x y :
  Forall range_ok new -> Forall range_ok old -> dht_overlap_calc old y new x = u32 (commons old new x y).
Proof.
  intros Hn Ho. rewrite Forall_lookup in Hn, Ho.
  unfold dht_overlap_calc, commons, common, shared, live_range.
  destruct (old !! y) as [c|] eqn:Ec, (new !! x) as [a|] eqn:Ea; try done.
  destruct (Hn x a Ea), (Ho y c Ec). destruct (_ || _); [done|].
  destruct (Z.eqb_spec (start c) (stop c)); [by rewrite andb_false_r|].
  destruct (Z.eqb_spec (start a) (stop a)); [done|]. cbn [negb andb].
  destruct (Z.ltb_spec (stop a) (start c)); cbn [orb]; [by rewrite Z.max_l by lia|].
  destruct (Z.ltb_spec (stop c) (start a)); [by rewrite Z.max_l by lia|].
  f_equal. lia.
Qed.

Lemma common_bounds c a : 0 <= common c a <= shared a c.
Proof. unfold common, shared. destruct (_ || _), (_ && _); lia. Qed.

Lemma commons_swap old i k es a b x y :
  i <> k -> es !! i = Some a -> es !! k = Some b -> err a <= 0 -> err b <= 0 ->
  commons old (dht_layout_range_swap i k es) x y = swap_row i k (commons old es) x y.
Proof.
  intros Hik Ha Hb Ea Eb. unfold commons, swap_row. rewrite (range_swap_lookup i k es a b) by done.
  destruct (old !! y) as [c|]; [|by repeat case_match].
  destruct (Z.ltb_spec 0 (err a)) as [|Ea']; [lia|]. destruct (Z.ltb_spec 0 (err b)) as [|Eb']; [lia|].
  apply Z.ltb_ge in Ea', Eb'.
  destruct (decide (x = k)) as [->|]; [|destruct (decide (x = i)) as [->|]; [|done]].
  - destruct (decide (k = i)); [done|]. rewrite Ha. unfold common. cbn [err set_span]. by rewrite Ea', Eb'.
  - rewrite Hb. unfold common. cbn [err set_span]. by rewrite Ea', Eb'.
Qed.

Definition size (e : entry) : Z := if live_range e then stop e - start e + 1 else 0.

Lemma shared_size a c d :
  range_ok a -> range_ok c -> range_ok d ->
  (live_range c = true -> live_range d = true -> stop c < start d \/ stop d < start c) ->
  shared a c + shared a d <= size a.
Proof.
  unfold range_ok, shared, size. intros Ha Hc Hd H.
  destruct (live_range a), (live_range c), (live_range d); cbn [andb].
  all: lia.
Qed.

Lemma shared_bound a b c d :
  range_ok a -> range_ok b -> range_ok c -> range_ok d ->
  (live_range a = true -> live_range b = true -> stop a < start b \/ stop b < start a) ->
  (live_range c = true -> live_range d = true -> stop c < start d \/ stop d < start c) ->
  shared a c + shared b d + shared a d + shared b c <= 2 ^ 32.
Proof.
  intros Ha Hb Hc Hd H1 H2. pose proof (shared_size a c d Ha Hc Hd H2). pose proof (shared_size b c d Hb Hc Hd H2).
  enough (size a + size b <= 2 ^ 32) by lia. unfold size, range_ok in *.
  destruct (live_range a), (live_range b); lia.
Qed.

(** An exchange that the code makes is one that wins, although the code adds
    in 32 bits. *)

Lemma exchange_wins ii jj ij ji :
  0 <= ii -> 0 <= jj -> 0 <= ij -> 0 <= ji -> ii + jj + ij + ji <= 2 ^ 32 ->
  u32 (u32 ii + u32 jj) < u32 (u32 ij + u32 ji) -> ii + jj < ij + ji.
Proof.
  intros H1 H2 H3 H4 Hs Hlt. unfold uwrap in Hlt. rewrite <- !Zplus_mod in Hlt.
  pose proof (Z.mod_pos_bound (ii + jj) (2 ^ 32) ltac:(lia)).
  destruct (Z.eq_dec (ij + ji) (2 ^ 32)) as [E|N2]; [rewrite E, Z.mod_same in Hlt; lia|].
  rewrite (Z.mod_small (ij + ji)) in Hlt by lia.
  destruct (Z.eq_dec (ii + jj) (2 ^ 32)) as [E|N1]; [lia|]. rewrite (Z.mod_small (ii + jj)) in Hlt; lia.
Qed.

(** The hashes that stay where they were. *)

Definition total (n : nat) (f : nat -> nat -> Z) : Z := sum ((fun x => f x x) <$> seq 0 n).

Lemma sum_update (g g' : nat -> Z) i s n :
  (s <= i < s + n)%nat -> (forall x, x <> i -> g' x = g x) ->
  sum (g' <$> seq s n) = sum (g <$> seq s n) + g' i - g i.
Proof.
  intros Hi Hg. revert s Hi. induction n as [|n IH]; intros s Hi; [lia|]. cbn [seq fmap list_fmap].
  unfold sum in *. cbn [foldr]. destruct (decide (s = i)) as [->|Hne].
  - enough (g' <$> seq (S i) n = g <$> seq (S i) n) as -> by lia.
    apply list_fmap_ext. intros k x Hx%list_elem_of_lookup_2%elem_of_seq. apply Hg. lia.
  - rewrite (IH (S s)) by lia. rewrite (Hg s) by done. lia.
Qed.

Lemma total_swap n i k f :
  (i < n)%nat -> (k < n)%nat -> i <> k ->
  total n (swap_row i k f) = total n f + f k i + f i k - f i i - f k k.
Proof.
  intros Hi Hk Hik. unfold total.
  rewrite (sum_update (fun x => if decide (x = i) then f k i else f x x) _ k 0 n); [|lia|].
  - rewrite (sum_update (fun x => f x x) (fun x => if decide (x = i) then f k i else f x x) i 0 n); [|lia|].
    + unfold swap_row. repeat (destruct (decide _); [|try lia]); try done; lia.
    + intros x Hx. by destruct (decide (x = i)).
  - intros x Hx. unfold swap_row. destruct (decide (x = i)) as [->|]; [done|]. by destruct (decide (x = k)).
Qed.

Lemma total_ext n f g : (forall x, (x < n)%nat -> f x x = g x x) -> total n f = total n g.
Proof.
  intros H. unfold total. f_equal. apply list_fmap_ext. intros i x Hx%list_elem_of_lookup_2%elem_of_seq. apply H. lia.
Qed.

(** ** The search for a partner *)

Lemma better_spec new t f n i e :
  length new = n -> tab n t f -> new !! i = Some e ->
  exists m idx, foldl (better new t i) (Some (0, i)) (seq (S i) (length new - S i)) = Some (m, idx) /\
    (idx = i \/ exists e', (i < idx < n)%nat /\ new !! idx = Some e' /\ err e' <= 0 /\
      u32 (f i i + f idx idx) < u32 (f i idx + f idx i)).
Proof.
  intros Hn [_ Ht] He. apply lookup_lt_Some in He as Hi. rewrite Hn in Hi.
  assert (forall c j m idx, (i < j)%nat -> (j + c <= n)%nat ->
    (idx = i \/ exists e', (i < idx < n)%nat /\ new !! idx = Some e' /\ err e' <= 0 /\
      u32 (f i i + f idx idx) < u32 (f i idx + f idx i)) ->
    exists m' idx', foldl (better new t i) (Some (m, idx)) (seq j c) = Some (m', idx') /\
    (idx' = i \/ exists e', (i < idx' < n)%nat /\ new !! idx' = Some e' /\ err e' <= 0 /\
      u32 (f i i + f idx' idx') < u32 (f i idx' + f idx' i))) as H.
  { induction c as [|c IH]; intros j m idx Hj Hc Hidx; cbn [seq foldl]; [by exists m, idx|].
    unfold better at 2. cbn [mbind option_bind].
    destruct (lookup_lt_is_Some_2 new j) as [e' He']; [lia|]. rewrite He'. cbn [mbind option_bind].
    destruct (Z.ltb_spec 0 (err e')); [apply IH; (done || lia)|].
    rewrite Hn, !Ht by lia. cbn [mbind option_bind].
    destruct (Z.ltb_spec (u32 (f i i + f j j)) (u32 (f i j + f j i))) as [Hlt|]; [|apply IH; (done || lia)].
    destruct (_ <? _); [|apply IH; (done || lia)]. apply IH; [lia|lia|]. right. exists e'. by split_and!; [lia|lia|..]. }
  apply H; [lia|rewrite Hn; lia|by left].
Qed.

(** ** The result *)

Section improve.
Context (new0 old : list entry) (n : nat).
Context (Hn : length new0 = n) (Ho : length old = n).
Context (Hok : Forall range_ok new0) (Hoko : Forall range_ok old).
Context (Hp : partition new0) (Ha : apart old).

Abbreviation overlaps es := (fun x y => dht_overlap_calc old y es x).

Record improved (es : list entry) (t : list Z) : Prop := {
  im_identity : identity <$> es = identity <$> new0;
  im_ranges : Permutation (range <$> es) (range <$> new0);
  im_failed : forall i e, new0 !! i = Some e -> 0 < err e -> es !! i = Some e;
  im_table : tab n t (overlaps es);
  im_total : total n (commons old new0) <= total n (commons old es)
}.

Lemma ranges_ok es : Permutation (range <$> es) (range <$> new0) -> Forall range_ok es.
Proof using Hok.
  intros Hr. assert (Forall (fun r : Z * Z => 0 <= r.1 <= r.2 /\ r.2 < 2 ^ 32) (range <$> es)) as H
    by (rewrite Hr; by apply Forall_fmap). by apply Forall_fmap in H.
Qed.

Lemma ranges_partition es : Permutation (range <$> es) (range <$> new0) -> partition es.
Proof using Hp.
  intros Hr. apply partition_count. intros h Hh. rewrite (count_ranges h new0 es) by done.
  pose proof Hp as Hp0. rewrite partition_count in Hp0. by apply Hp0.
Qed.

Lemma identity_err es i e e' :
  identity <$> es = identity <$> new0 -> es !! i = Some e -> new0 !! i = Some e' -> err e = err e'.
Proof.
  intros H He He'. apply (f_equal (fun k => k !! i)) in H. rewrite !list_lookup_fmap, He, He' in H.
  cbn in H. by injection H.
Qed.

(** The four overlaps of an exchange. *)

Lemma four_overlaps es i k :
  Permutation (range <$> es) (range <$> new0) -> (i < n)%nat -> (k < n)%nat -> i <> k ->
  let f := commons old es in
  0 <= f i i /\ 0 <= f k k /\ 0 <= f i k /\ 0 <= f k i /\ f i i + f k k + f i k + f k i <= 2 ^ 32.
Proof using Hn Ho Hok Hoko Hp Ha.
  intros Hr Hi Hk Hik f. pose proof (ranges_ok es Hr) as Hes.
  pose proof (partition_apart es Hes (ranges_partition es Hr)) as Hae.
  assert (length es = n) as Hle by (rewrite <- Hn, <- (length_fmap range es), Hr; apply length_fmap).
  destruct (lookup_lt_is_Some_2 es i) as [a Ea]; [lia|]. destruct (lookup_lt_is_Some_2 es k) as [b Eb]; [lia|].
  destruct (lookup_lt_is_Some_2 old i) as [c Ec]; [lia|]. destruct (lookup_lt_is_Some_2 old k) as [d Ed]; [lia|].
  rewrite Forall_lookup in Hes. pose proof Hoko as Hok'. rewrite Forall_lookup in Hok'.
  pose proof (Hes i a Ea) as Ra. pose proof (Hes k b Eb) as Rb.
  pose proof (Hok' i c Ec) as Rc. pose proof (Hok' k d Ed) as Rd.
  pose proof (shared_bound a b c d Ra Rb Rc Rd (Hae i k a b Hik Ea Eb) (Ha i k c d Hik Ec Ed)).
  pose proof (common_bounds c a). pose proof (common_bounds d b). pose proof (common_bounds d a).
  pose proof (common_bounds c b). unfold f, commons. rewrite Ea, Eb, Ec, Ed. lia.
Qed.

Lemma swap_best_spec i es t :
  (i < n)%nat -> improved es t -> exists es' t', swap_best n i (es, t) = Some (es', t') /\ improved es' t'.
Proof using Hn Ho Hok Hoko Hp Ha.
  intros Hi HI. pose proof HI as [H1 H2 H3 H4 H5]. unfold swap_best.
  assert (length es = n) as Hle by (rewrite <- Hn, <- (length_fmap range es), H2; apply length_fmap).
  destruct (lookup_lt_is_Some_2 es i) as [e He]; [lia|]. rewrite He. cbn [mbind option_bind].
  destruct (Z.ltb_spec 0 (err e)) as [|Hee]; [by exists es, t|].
  destruct (better_spec es t (overlaps es) n i e Hle H4 He) as (m & k & -> & Hk). cbn [mbind option_bind].
  destruct Hk as [->|(b & Hik & Hb & Heb & Hlt)]; [rewrite Nat.eqb_refl; by exists es, t|].
  destruct (Nat.eqb_spec k i); [lia|]. rewrite Hle.
  destruct (swap_rows_spec n i k t (overlaps es) H4) as (t' & -> & Ht'); [lia..|]. cbn [mbind option_bind].
  eexists _, t'. split; [done|].
  destruct (range_swap_facts i k es e b ltac:(lia) He Hb) as [F1 F2].
  pose proof (ranges_ok es H2) as Hes.
  assert (Forall range_ok (dht_layout_range_swap i k es)) as Hes' by (apply ranges_ok; by rewrite F2).
  assert (forall x y, commons old (dht_layout_range_swap i k es) x y = swap_row i k (commons old es) x y) as Hov
    by (intros x y; apply (commons_swap old i k es e b); (done || lia)).
  split; [by rewrite F1|by rewrite F2| | |].
  - intros j e0 Hj He0. rewrite (range_swap_lookup i k es e b) by (done || lia). pose proof (H3 j e0 Hj He0) as Hj'.
    destruct (decide (j = k)) as [->|]; [rewrite Hb in Hj'; injection Hj' as ->; lia|].
    destruct (decide (j = i)) as [->|]; [rewrite He in Hj'; injection Hj' as ->; lia|done].
  - destruct Ht' as [Ht1 Ht2]. split; [done|]. intros x y Hx Hy. rewrite Ht2, (overlap_exact _ (dht_layout_range_swap i k es)), Hov by done.
    unfold swap_row. repeat case_decide; by rewrite overlap_exact.
  - rewrite (total_ext n (commons old (dht_layout_range_swap i k es)) (swap_row i k (commons old es))) by (intros; apply Hov).
    rewrite total_swap by lia.
    destruct (four_overlaps es i k H2) as (P1 & P2 & P3 & P4 & P5); [lia..|].
    rewrite !overlap_exact in Hlt by done. pose proof (exchange_wins _ _ _ _ P1 P2 P3 P4 P5 Hlt). lia.
Qed.

Lemma improve_all :
  exists t es' t', overlap_table new0 old = Some t /\
    for_loop n 0 (swap_best n) (new0, t) = Some (es', t') /\ improved es' t'.
Proof using Hn Ho Hok Hoko Hp Ha.
  destruct (overlap_table_spec new0 old n Hn Ho) as (t & Et & Ht).
  destruct (for_loop_inv (fun _ s => improved s.1 s.2) (swap_best n) n 0 (new0, t)) as ([es' t'] & E & HI).
  - split; try done.
  - intros j [es u] Hj HI. destruct (swap_best_spec j es u) as (es' & u' & E & HI'); [lia|done|]. by exists (es', u').
  - exists t, es', t'. done.
Qed.
End improve.

(** ** Hashes that stay *)

(** How many hashes two layouts give to the same subvolume, neither entry of it
    having an error. *)

Definition kept (old new : list entry) : Z :=
  sum ((fun a => sum ((fun c => if decide (xlator c = xlator a) then common c a else 0) <$> old)) <$> new).

Lemma kept_perm old old' new : Permutation old' old -> kept old' new = kept old new.
Proof.
  intros Hp. unfold kept. f_equal. apply list_fmap_ext. intros _ a _. apply sum_perm. by rewrite Hp.
Qed.

Lemma sum_single (g : entry -> Z) l x c :
  l !! x = Some c -> (forall y d, l !! y = Some d -> y <> x -> g d = 0) -> sum (g <$> l) = g c.
Proof.
  unfold sum. revert x. induction l as [|d l IH]; intros x Hx Hz; [done|]. cbn [fmap list_fmap foldr].
  destruct x as [|x]; cbn in Hx.
  - injection Hx as ->. enough (foldr Z.add 0 (g <$> l) = 0) by lia.
    assert (forall y d, l !! y = Some d -> g d = 0) as Hl by (intros y d Hy; apply (Hz (S y)); [done|lia]).
    clear -Hl. induction l as [|e l IH]; [done|]. cbn [fmap list_fmap foldr].
    rewrite (Hl 0%nat e), IH; [done| |done]. intros y d Hy. by apply (Hl (S y)).
  - rewrite (Hz 0%nat d) by (done || lia). rewrite (IH x); [lia|done|].
    intros y e Hy Hne. apply (Hz (S y)); [done|lia].
Qed.

Lemma kept_aligned old new :
  xlator <$> new = xlator <$> old -> NoDup (xlator <$> old) ->
  kept old new = total (length new) (commons old new).
Proof.
  intros Hal Hnd. unfold kept, total. f_equal. apply list_eq. intros x. rewrite !list_lookup_fmap.
  destruct (decide (x < length new)%nat) as [Hx|Hx].
  2: { rewrite !lookup_ge_None_2; [done|rewrite length_seq; lia|lia]. }
  rewrite (lookup_seq_lt 0 _ x Hx). destruct (lookup_lt_is_Some_2 new x Hx) as [a Ea]. rewrite Ea.
  assert (exists c, old !! x = Some c /\ xlator c = xlator a) as (c & Ec & Hc).
  { apply (f_equal (fun l => l !! x)) in Hal. rewrite !list_lookup_fmap, Ea in Hal.
    destruct (old !! x) as [c|]; [|done]. exists c. split; [done|]. by injection Hal. }
  cbn [fmap option_fmap option_map Nat.add]. f_equal. rewrite (sum_single _ old x c Ec).
  - rewrite decide_True by done. unfold commons. by rewrite Ec, Ea.
  - intros y d Hy Hne. rewrite decide_False; [done|]. intros Hd. apply Hne.
    eapply NoDup_lookup; [exact Hnd|rewrite list_lookup_fmap, Hy; cbn; by rewrite Hd, <- Hc|by rewrite list_lookup_fmap, Ec].
Qed.


Definition layout_of (es : list entry) : dht_layout :=
  {| spread_cnt := 0; preset := false; commit_hash := 0; gen := 0; type := DHT_HASH_TYPE_DM; entries := es |}.

Definition part (x a b : Z) : entry :=
  {| err := 0; start := a; stop := b; entry_hash := 0; xlator := Some x |}.

(** Three parts of the hashes; the new layout has the first two the other way
    round, and they are exchanged. *)

Definition old_thirds : dht_layout :=
  layout_of [part 1 0 0x55555554; part 2 0x55555555 0xaaaaaaa9; part 3 0xaaaaaaaa 0xffffffff].

Definition new_thirds : dht_layout :=
  layout_of [part 1 0x55555555 0xaaaaaaa9; part 2 0 0x55555554; part 3 0xaaaaaaaa 0xffffffff].

Lemma old_thirds_partition : partition (entries old_thirds).
Proof.
  apply partition_count. intros h Hh. unfold in_u in Hh. unfold count_of, old_thirds, owns, live_range, in_range.
  cbn [entries layout_of List.filter part start stop negb Z.eqb Pos.eqb andb].
  repeat match goal with |- context [?a <=? ?b] => destruct (Z.leb_spec a b) end; cbn; try lia.
Qed.

Lemma new_thirds_partition : partition (entries new_thirds).
Proof.
  apply (ranges_partition (entries old_thirds) old_thirds_partition). apply perm_swap.
Qed.

