(* ===== verification/DhtFaults.v ===== *)
(** * Where layouts go wrong

    Concrete layouts on which the code does not do what it means to. *)

From Stdlib Require Import ZArith Lia Bool Ascii String.
From stdpp Require Import base list.
From S2P Require Import Prelude CLib Dict Uuid DhtHash DhtLayout DhtHeal DhtAssign DhtCheck DhtLookup DhtOverlap.

Definition plain_conf (spread : Z) (sizes : list Z) : dht_conf :=
  {| subvolumes := Z.of_nat <$> seq 1 (length sizes); decommissioned_bricks := [];
     decommission_subvols_cnt := 0; dir_spread_cnt := spread; conf_gen := 0; do_weighting := true;
     children := Z.of_nat <$> seq 1 (length sizes); du_stats := Some sizes; randomize_by_gfid := false;
     extra_regex := None; rsync_regex := None; vname := fun x => [ascii_of_N (Z.to_N x)] |}.

Definition plain_layout (spread : Z) (es : list entry) : dht_layout :=
  {| spread_cnt := spread; preset := false; commit_hash := 0; gen := 0; type := DHT_HASH_TYPE_DM; entries := es |}.

Definition piece (s t h x : Z) : entry := {| err := 0; start := s; stop := t; entry_hash := h; xlator := Some x |}.

(** ** The hash zero *)

Definition zero_name : list ascii := String.list_ascii_of_string "wgkqsbwb".

(** There is a name whose hash is zero. As soon as a directory has a
    subvolume without a range, which sorting puts first, that name is looked
    for on the subvolume that has no part in the directory. *)
Theorem zero_hash_misplaced conf l e es :
  extra_regex conf = None -> rsync_regex conf = None -> type l = DHT_HASH_TYPE_DM ->
  entries l = e :: es -> start e = 0 -> stop e = 0 ->
  dht_layout_search conf l zero_name = Some (xlator e).
Proof.
  intros He Hr Ht Hes Hs Hp. unfold dht_layout_search. rewrite He, Hr, Ht.
  assert (dht_hash_compute None None DHT_HASH_TYPE_DM zero_name = Some (0, 0)) as -> by (vm_compute; reflexivity).
  cbn [mbind option_bind Z.eqb negb]. rewrite Hes. cbn [List.find]. unfold in_range. by rewrite Hs, Hp.
Qed.

Lemma zero_hash_misplaced_witness :
  dht_layout_search (plain_conf 0 []) (plain_layout 0 [piece 0 0 0 2; piece 0 0xffffffff 0 1]) zero_name = Some (Some 2).
Proof.
  apply (zero_hash_misplaced (plain_conf 0 []) (plain_layout 0 [piece 0 0 0 2; piece 0 0xffffffff 0 1])
    (piece 0 0 0 2) [piece 0 0xffffffff 0 1]); reflexivity.
Defined.

(** ** Exchanges that are not made *)

Definition halves (x y : Z) : list entry := [piece 0 0x7ffffffe 0 x; piece 0x7fffffff 0xffffffff 0 y].

Definition halves_back (x y : Z) : list entry := [piece 0x7fffffff 0xffffffff 0 x; piece 0 0x7ffffffe 0 y].

(** With two subvolumes whose new ranges are the old ones the other way
    round, exchanging them would leave all 2^32 hashes in place; but the two
    overlaps add up to zero in 32 bits, the ranges are left as they are, and
    every hash moves. *)
Theorem full_exchange_not_made :
  let conf := plain_conf 0 [1; 1] in
  let new := plain_layout 0 (halves 1 2) in
  let old := plain_layout 0 (halves_back 1 2) in
  dht_selfheal_layout_maximize_overlap conf new old = Some (new, old) /\
  kept (entries old) (entries new) = 0 /\
  kept (entries old) (dht_layout_range_swap 0 1 (entries new)) = 2 ^ 32.
Proof. split_and!; vm_compute; reflexivity. Qed.

(** ** Ranges that overlap *)

Definition at_path (s : string) : loc := {| path := String.list_ascii_of_string s; gfid := repeat 0 16 |}.

Definition owners_of (h : Z) (l : option dht_layout) : option Z := (fun l => count_of (owns h) (entries l)) <$> l.

(** With a spread count the sizes of the first subvolumes are added up, and the
    ranges are given to others. *)

Example spread_weights_overlap :
  owners_of 2000000000 (dht_selfheal_layout_new_directory (plain_conf 3 [1; 1; 1; 2; 2]) (at_path "/c")
    (plain_layout 3 (made_on <$> [1; 2; 3; 4; 5]))) = Some 2.
Proof. vm_compute. reflexivity. Qed.

(** The sum of the sizes wraps around at 2^32 chunks. *)

Example large_weights_overlap :
  owners_of 5 (dht_selfheal_layout_new_directory (plain_conf 0 [2 ^ 31; 2 ^ 31; 2 ^ 31]) (at_path "/a")
    (plain_layout 0 (made_on <$> [1; 2; 3]))) = Some 2.
Proof. vm_compute. reflexivity. Qed.

(** Two subvolumes that both claim all hashes are no anomaly. *)

Example double_claim_accepted :
  fst <$> dht_layout_normalize (plain_layout 0 [piece 0 0xffffffff 0 1; piece 0 0xffffffff 0 2]) = Some 0.
Proof. vm_compute. reflexivity. Qed.

(** ** Commit hashes *)

(** A subvolume without a range is written with the commit hash 0, and the
    commit hash that a lookup finds depends on the order of the answers. *)

Example commit_hash_depends_on_order :
  commit_hash <$> answers (plain_conf 0 [1; 1; 1]) 3
    [reply (piece 0 10 5 1); reply (piece 0 0 0 2); reply (piece 11 0xffffffff 5 3)] = Some DHT_LAYOUT_HASH_INVALID /\
  commit_hash <$> answers (plain_conf 0 [1; 1; 1]) 3
    [reply (piece 0 0 0 2); reply (piece 0 10 5 1); reply (piece 11 0xffffffff 5 3)] = Some 5.
Proof. split; vm_compute; reflexivity. Qed.
