(* ===== verification/Afr.v ===== *)
(** * Replication: transactions

    The data transactions of xlators/cluster/afr/src on one file: locking
    decides which bricks take part, a pre-operation marks the file dirty on
    them, the operation runs, and a post-operation removes the mark and counts
    the bricks that failed (afr-transaction.c, afr-inode-write.c). The counters
    are extended attributes of the file on every brick, three numbers each (for
    data, metadata and entries), and are added to by
    xlators/storage/posix/src/posix.c.

    An array over the children is a list of [child_count] elements. A counter
    that a brick does not have reads as zero. The conversions to network byte
    order of both sides cancel. What a brick does with a call, and whether its
    answer arrives, is an argument. *)

From Stdlib Require Import ZArith Lia Bool.
From stdpp Require Import base list.
From S2P Require Import Prelude.

Open Scope Z_scope.

(** ** Arrays over the children *)

Definition tab {A} (n : nat) (f : nat -> A) : list A := f <$> seq 0 n.

Definition bit (l : list bool) (i : nat) : bool := nth i l false.

Definition AFR_COUNT (l : list bool) : Z := Z.of_nat (length (List.filter (fun b => b) l)).

(** ** Counters *)

Record three (A : Type) := Three { t_data : A; t_metadata : A; t_entry : A }.
Arguments Three {A} _ _ _.
Arguments t_data {A} _.
Arguments t_metadata {A} _.
Arguments t_entry {A} _.

Inductive afr_transaction_type :=
| AFR_DATA_TRANSACTION
| AFR_METADATA_TRANSACTION
| AFR_ENTRY_TRANSACTION
| AFR_ENTRY_RENAME_TRANSACTION.

Definition afr_index_for_transaction_type (type : afr_transaction_type) : nat :=
  match type with
  | AFR_DATA_TRANSACTION => 0
  | AFR_METADATA_TRANSACTION => 1
  | AFR_ENTRY_TRANSACTION => 2
  | AFR_ENTRY_RENAME_TRANSACTION => 2
  end.

Definition get3 {A} (idx : nat) (t : three A) : A :=
  match idx with O => t_data t | S O => t_metadata t | _ => t_entry t end.

Definition set3 {A} (idx : nat) (a : A) (t : three A) : three A :=
  match idx with
  | O => Three a (t_metadata t) (t_entry t)
  | S O => Three (t_data t) a (t_entry t)
  | _ => Three (t_data t) (t_metadata t) a
  end.

Definition zero3 : three Z := Three 0 0 0.

(** The extended attributes of a file on a brick: the dirty counter, and for
    every child the count of operations that it missed. *)

Record changelog := { cl_dirty : three Z; cl_pending : list (three Z) }.

(** What an xattrop request adds; the dirty counter may be left out. *)

Record xattr := { xa_dirty : option (three Z); xa_pending : list (three Z) }.

Definition __add_array (dest src : three Z) : three Z :=
  Three (i32 (t_data dest + t_data src)) (i32 (t_metadata dest + t_metadata src))
    (i32 (t_entry dest + t_entry src)).

Definition mem_0filled (t : three Z) : bool :=
  (t_data t =? 0) && (t_metadata t =? 0) && (t_entry t =? 0).

Definition _posix_handle_xattr_keyvalue_pair (array v : three Z) : three Z :=
  if mem_0filled v then array else __add_array array v.

(** A brick performs a request and answers, or its answer is a failure after
    some of the keys were handled. *)

Inductive xanswer :=
| XDone
| XFailed (dirty : bool) (keys : list bool).

Definition do_xattrop (a : xanswer) (x : xattr) (c : changelog) : changelog :=
  let n := length (cl_pending c) in
  let add (j : nat) (p : three Z) : three Z := _posix_handle_xattr_keyvalue_pair p (nth j (xa_pending x) zero3) in
  let dirtied := match xa_dirty x with
                 | Some d => _posix_handle_xattr_keyvalue_pair (cl_dirty c) d
                 | None => cl_dirty c end in
  match a with
  | XDone => {| cl_dirty := dirtied; cl_pending := imap add (cl_pending c) |}
  | XFailed dirty keys =>
      {| cl_dirty := if dirty then dirtied else cl_dirty c;
         cl_pending := imap (fun j p => if bit keys j then add j p else p) (cl_pending c) |}
  end.

(** ** Operations on the data of a file *)

Inductive operation :=
| Write (offset : nat) (bytes : list Z)
| Truncate (size : nat).

Definition resize (n : nat) (c : list Z) : list Z := take n c ++ replicate (n - length c) 0.

Definition pwrite (off : nat) (bs c : list Z) : list Z :=
  if decide (bs = []) then c
  else resize off c ++ bs ++ drop (off + length bs) c.

(** [perform op k] is the operation, a write being cut after [k] bytes. *)

Definition perform (op : operation) (k : nat) (c : list Z) : list Z :=
  match op with
  | Write off bs => pwrite off (take k bs) c
  | Truncate n => resize n c
  end.

(** A brick performs the operation and answers, for a write with the number of
    bytes that it wrote, or its answer is a failure, after it may have performed
    the operation or a part of it. *)

Inductive fanswer :=
| FDone (k : nat)
| FFailed (op_errno : Z) (performed : option nat).

Definition done_bytes (op : operation) (k : nat) : nat :=
  match op with Write _ bs => Nat.min k (length bs) | Truncate _ => 0 end.

Definition fop_ret (op : operation) (a : fanswer) : Z :=
  match a with FDone k => Z.of_nat (done_bytes op k) | FFailed _ _ => -1 end.

Definition fop_errno (a : fanswer) : Z := match a with FDone _ => 0 | FFailed e _ => e end.

Definition performed_of (op : operation) (a : fanswer) : option nat :=
  match a with FDone k => Some (done_bytes op k) | FFailed _ p => p end.

Record brick := { content : list Z; logs : changelog }.

(** ** The translator's state *)

Record afr_private := {
  child_count : nat;
  arbiter_count : Z;
  quorum_count : Z;
  quorum_reads : bool;
  data_change_log : bool;
  metadata_change_log : bool;
  entry_change_log : bool
}.

Definition AFR_QUORUM_AUTO : Z := 2 ^ 31 - 1.
Definition ARBITER_BRICK_INDEX : nat := 2.
Definition ENOTCONN : Z := 107.
Definition EROFS : Z := 30.
Definition EIO : Z := 5.
Definition ENOENT : Z := 2.
Definition ENODATA : Z := 61.
Definition ESTALE : Z := 116.

(** Per open file and kind of transaction: the bricks of the marks that later
    transactions may share, how many share them and how many are on disk. *)

Record marks := { pre_op_done : list bool; inherited_count : Z; on_disk : Z }.

Definition afr_fd_ctx : Type := three marks.

Record afr_reply := { valid : bool; r_op_ret : Z; r_op_errno : Z }.

Definition no_reply : afr_reply := {| valid := false; r_op_ret := 0; r_op_errno := 0 |}.

Record txn_flags := {
  dirtied : bool;
  inherited : bool;
  no_uninherit : bool;
  uninherit_done : bool;
  uninherit_value : bool
}.

Record afr_local := {
  type : afr_transaction_type;
  is_flush : bool;
  fd : option nat;
  optimistic : bool;
  pre_op_compat : bool;
  pre_op : list bool;
  failed_subvols : list bool;
  flags : txn_flags;
  replies : list afr_reply;
  pre_op_xdata : list (option (list (three Z)));
  pre_op_sources : list bool;
  op_ret : Z;
  op_errno : Z
}.

Definition with_pre_op (v w : list bool) (l : afr_local) : afr_local :=
  {| type := type l; is_flush := is_flush l; fd := fd l; optimistic := optimistic l;
     pre_op_compat := pre_op_compat l; pre_op := v; failed_subvols := w; flags := flags l;
     replies := replies l; pre_op_xdata := pre_op_xdata l; pre_op_sources := pre_op_sources l;
     op_ret := op_ret l; op_errno := op_errno l |}.

Definition with_failed (v : list bool) (l : afr_local) : afr_local :=
  {| type := type l; is_flush := is_flush l; fd := fd l; optimistic := optimistic l;
     pre_op_compat := pre_op_compat l; pre_op := pre_op l; failed_subvols := v; flags := flags l;
     replies := replies l; pre_op_xdata := pre_op_xdata l; pre_op_sources := pre_op_sources l;
     op_ret := op_ret l; op_errno := op_errno l |}.

Definition with_flags (v : txn_flags) (l : afr_local) : afr_local :=
  {| type := type l; is_flush := is_flush l; fd := fd l; optimistic := optimistic l;
     pre_op_compat := pre_op_compat l; pre_op := pre_op l; failed_subvols := failed_subvols l;
     flags := v; replies := replies l; pre_op_xdata := pre_op_xdata l;
     pre_op_sources := pre_op_sources l; op_ret := op_ret l; op_errno := op_errno l |}.

Definition with_replies (v : list afr_reply) (l : afr_local) : afr_local :=
  {| type := type l; is_flush := is_flush l; fd := fd l; optimistic := optimistic l;
     pre_op_compat := pre_op_compat l; pre_op := pre_op l; failed_subvols := failed_subvols l;
     flags := flags l; replies := v; pre_op_xdata := pre_op_xdata l;
     pre_op_sources := pre_op_sources l; op_ret := op_ret l; op_errno := op_errno l |}.

Definition with_xdata (v : list (option (list (three Z)))) (l : afr_local) : afr_local :=
  {| type := type l; is_flush := is_flush l; fd := fd l; optimistic := optimistic l;
     pre_op_compat := pre_op_compat l; pre_op := pre_op l; failed_subvols := failed_subvols l;
     flags := flags l; replies := replies l; pre_op_xdata := v; pre_op_sources := pre_op_sources l;
     op_ret := op_ret l; op_errno := op_errno l |}.

Definition with_sources (v : list bool) (l : afr_local) : afr_local :=
  {| type := type l; is_flush := is_flush l; fd := fd l; optimistic := optimistic l;
     pre_op_compat := pre_op_compat l; pre_op := pre_op l; failed_subvols := failed_subvols l;
     flags := flags l; replies := replies l; pre_op_xdata := pre_op_xdata l; pre_op_sources := v;
     op_ret := op_ret l; op_errno := op_errno l |}.

Definition with_result (r e : Z) (l : afr_local) : afr_local :=
  {| type := type l; is_flush := is_flush l; fd := fd l; optimistic := optimistic l;
     pre_op_compat := pre_op_compat l; pre_op := pre_op l; failed_subvols := failed_subvols l;
     flags := flags l; replies := replies l; pre_op_xdata := pre_op_xdata l;
     pre_op_sources := pre_op_sources l; op_ret := r; op_errno := e |}.

(** ** Quorum *)

Section transactions.

Context (priv : afr_private).

Abbreviation n := (child_count priv).

Definition afr_quorum_errno : Z := if quorum_reads priv then ENOTCONN else EROFS.

Definition afr_has_quorum (subvols : list bool) : bool :=
  let up_children_count := AFR_COUNT subvols in
  let auto := quorum_count priv =? AFR_QUORUM_AUTO in
  if auto && Nat.even n && (up_children_count =? Z.of_nat n / 2) then bit subvols 0
  else (if auto then Z.of_nat n / 2 + 1 else quorum_count priv) <=? up_children_count.

(** ** Failures of a transaction *)

Definition afr_transaction_fop_failed (i : nat) (l : afr_local) : afr_local :=
  with_failed (<[i := true]> (failed_subvols l)) l.

Definition __mark_all_success (l : afr_local) : afr_local := with_failed (replicate n false) l.

Definition afr_txn_nothing_failed (l : afr_local) : bool :=
  negb (AFR_COUNT (pre_op l) <? Z.of_nat n) && negb (existsb (fun b => b) (failed_subvols l)).

(** The loop of afr_handle_symmetric_errors; [e] is the error seen so far. *)

Fixpoint matching_errors (rs : list afr_reply) (e : Z) : bool :=
  match rs with
  | [] => true
  | r :: rs =>
      if negb (valid r) then matching_errors rs e
      else if negb (r_op_ret r =? -1) then false
      else if r_op_errno r =? ENOTCONN then false
      else if e =? 0 then matching_errors rs (r_op_errno r)
      else if negb (e =? r_op_errno r) then false
      else matching_errors rs e
  end.

Definition afr_handle_symmetric_errors (l : afr_local) : afr_local :=
  if matching_errors (replies l) 0 then __mark_all_success l else l.

Definition afr_has_fop_cbk_quorum (l : afr_local) : bool :=
  afr_has_quorum (tab n (fun i => bit (pre_op l) i && negb (bit (failed_subvols l) i))).

Definition afr_handle_quorum (l : afr_local) : afr_local :=
  if quorum_count priv =? 0 then l
  else if op_ret l =? -1 then l
  else if afr_has_fop_cbk_quorum l then l
  else with_result (-1) afr_quorum_errno
         (with_failed (tab n (fun i => bit (pre_op l) i || bit (failed_subvols l) i)) l).

(** ** Sharing the marks of earlier transactions on the same open file *)

Definition set_marks (k : nat) (idx : nat) (m : marks) (ctxs : list afr_fd_ctx) : list afr_fd_ctx :=
  match ctxs !! k with Some c => <[k := set3 idx m c]> ctxs | None => ctxs end.

Definition afr_changelog_pre_op_inherit (ctxs : list afr_fd_ctx) (l : afr_local)
    : bool * list afr_fd_ctx * afr_local :=
  match type l, fd l with
  | AFR_DATA_TRANSACTION, Some k =>
      match ctxs !! k with
      | None => (false, ctxs, l)
      | Some c =>
          let m := get3 0 c in
          if on_disk m =? 0 then (false, ctxs, l)
          else if negb (bool_decide (pre_op l = pre_op_done m)) then (false, ctxs, l)
          else
            (true,
             set_marks k 0 {| pre_op_done := pre_op_done m; inherited_count := i32 (inherited_count m + 1);
                              on_disk := on_disk m |} ctxs,
             with_flags {| dirtied := dirtied (flags l); inherited := true;
                           no_uninherit := no_uninherit (flags l);
                           uninherit_done := uninherit_done (flags l);
                           uninherit_value := uninherit_value (flags l) |} l)
      end
  | _, _ => (false, ctxs, l)
  end.

Definition with_no_uninherit (l : afr_local) : afr_local :=
  with_flags {| dirtied := dirtied (flags l); inherited := inherited (flags l); no_uninherit := true;
                uninherit_done := uninherit_done (flags l);
                uninherit_value := uninherit_value (flags l) |} l.

Definition afr_changelog_pre_op_update (ctxs : list afr_fd_ctx) (l : afr_local)
    : bool * list afr_fd_ctx * afr_local :=
  match fd l with
  | None => (false, ctxs, l)
  | Some k =>
      match ctxs !! k with
      | None => (false, ctxs, l)
      | Some c =>
          if inherited (flags l) then (false, ctxs, l)
          else if negb (dirtied (flags l)) then (false, ctxs, l)
          else if negb (afr_txn_nothing_failed l) then (false, ctxs, l)
          else
            let idx := afr_index_for_transaction_type (type l) in
            let m := get3 idx c in
            if negb (on_disk m =? 0) && negb (bool_decide (pre_op_done m = pre_op l))
            then (false, ctxs, with_no_uninherit l)
            else
              (true,
               set_marks k idx
                 {| pre_op_done := if on_disk m =? 0 then pre_op l else pre_op_done m;
                    inherited_count := inherited_count m; on_disk := i32 (on_disk m + 1) |} ctxs,
               l)
      end
  end.

(** The critical section of afr_changelog_pre_op_uninherit. *)

Definition uninherit_marks (l : afr_local) (m : marks) : bool * marks :=
  if negb (bool_decide (pre_op l = pre_op_done m)) then (negb (dirtied (flags l)), m)
  else
    let '(ret, i, d) :=
      if negb (inherited_count m =? 0) then (true, i32 (inherited_count m - 1), on_disk m)
      else if negb (on_disk m =? 0) then (false, inherited_count m, i32 (on_disk m - 1))
      else (false, inherited_count m, on_disk m) in
    (ret, {| pre_op_done := if (i =? 0) && (d =? 0) then replicate n false else pre_op_done m;
             inherited_count := i; on_disk := d |}).

Definition afr_changelog_pre_op_uninherit (ctxs : list afr_fd_ctx) (l : afr_local)
    : bool * list afr_fd_ctx * afr_local :=
  match type l, fd l with
  | AFR_DATA_TRANSACTION, Some k =>
      match ctxs !! k with
      | None => (false, ctxs, l)
      | Some c =>
          if no_uninherit (flags l) then (false, ctxs, l)
          else if uninherit_done (flags l) then (uninherit_value (flags l), ctxs, l)
          else
            let '(ret, m) := uninherit_marks l (get3 0 c) in
            (ret, set_marks k 0 m ctxs,
             with_flags {| dirtied := dirtied (flags l); inherited := inherited (flags l);
                           no_uninherit := no_uninherit (flags l);
                           uninherit_done := true; uninherit_value := ret |} l)
      end
  | _, _ => (negb (dirtied (flags l)), ctxs, l)
  end.

(** ** Before the operation *)

Definition __changelog_enabled (t : afr_transaction_type) : bool :=
  match t with
  | AFR_DATA_TRANSACTION => data_change_log priv
  | AFR_METADATA_TRANSACTION => metadata_change_log priv
  | AFR_ENTRY_TRANSACTION | AFR_ENTRY_RENAME_TRANSACTION => entry_change_log priv
  end.

Definition __fop_changelog_needed (l : afr_local) : bool :=
  __changelog_enabled (type l) && negb (is_flush l).

Definition afr_set_pending_dict (d : option (three Z)) (pending : list (three Z)) : xattr :=
  {| xa_dirty := d; xa_pending := pending |}.

(** How a transaction goes on after the locks are taken: it fails, it performs
    the operation at once or with the changelog in the request of the operation,
    or it first changes the changelog. *)

Inductive pre_op_outcome :=
| PreError (l : afr_local)
| PreNext (ctxs : list afr_fd_ctx) (l : afr_local)
| PreCarried (ctxs : list afr_fd_ctx) (l : afr_local) (x : xattr)
| PreXattrop (ctxs : list afr_fd_ctx) (l : afr_local) (x : xattr).

Definition is_data (t : afr_transaction_type) : bool :=
  match t with AFR_DATA_TRANSACTION => true | _ => false end.

Definition afr_changelog_pre_op (ctxs : list afr_fd_ctx) (locked_nodes : list bool) (l : afr_local)
    : pre_op_outcome :=
  let idx := afr_index_for_transaction_type (type l) in
  let l := with_pre_op (tab n (fun i => bit locked_nodes i || bit (pre_op l) i))
             (tab n (fun i => negb (bit locked_nodes i) || bit (failed_subvols l) i)) l in
  let call_count := AFR_COUNT (tab n (bit locked_nodes)) in
  if call_count =? 0 then PreError (with_result (-1) ENOTCONN l)
  else if negb (quorum_count priv =? 0) && negb (afr_has_quorum (tab n (bit locked_nodes)))
  then PreError (with_result (-1) afr_quorum_errno l)
  else
    let '(shared, ctxs, l) := afr_changelog_pre_op_inherit ctxs l in
    if shared then PreNext ctxs l
    else
      let mark := (1 <? call_count) && (is_data (type l) || negb (optimistic l)) in
      let pre_nop := negb (call_count <? Z.of_nat n) && negb mark in
      let x := afr_set_pending_dict (if mark then Some (set3 idx 1 zero3) else None) (replicate n zero3) in
      let l := with_flags {| dirtied := mark || dirtied (flags l); inherited := inherited (flags l);
                             no_uninherit := no_uninherit (flags l);
                             uninherit_done := uninherit_done (flags l);
                             uninherit_value := uninherit_value (flags l) |} l in
      if pre_nop then PreNext ctxs l
      else if negb (pre_op_compat l) then PreCarried ctxs l x
      else PreXattrop ctxs l x.

(** ** Changing the changelogs of the bricks

    The request goes to the bricks of the transaction, and afr_changelog_cbk
    handles the answer of each. *)

Definition afr_changelog_cbk (i : nat) (a : xanswer) (after : changelog) (l : afr_local) : afr_local :=
  match a with
  | XFailed _ _ => afr_transaction_fop_failed i l
  | XDone =>
      if arbiter_count priv =? 1
      then with_xdata (<[i := Some (cl_pending after)]> (pre_op_xdata l)) l else l
  end.

Fixpoint changelog_calls (x : xattr) (answers : list xanswer) (i : nat) (bs : list brick) (l : afr_local)
    : list brick * afr_local :=
  match answers, bs with
  | a :: answers, b :: bs =>
      if bit (pre_op l) i then
        let after := do_xattrop a x (logs b) in
        let '(bs, l) := changelog_calls x answers (S i) bs (afr_changelog_cbk i a after l) in
        ({| content := content b; logs := after |} :: bs, l)
      else
        let '(bs, l) := changelog_calls x answers (S i) bs l in (b :: bs, l)
  | _, bs => (bs, l)
  end.

Definition afr_changelog_do (x : xattr) (answers : list xanswer) (bs : list brick) (l : afr_local)
    : list brick * afr_local := changelog_calls x answers 0 bs l.

(** ** The arbiter

    With an arbiter, the third brick keeps no data. *)

Definition pending_at (l : list (three Z)) (idx j : nat) : Z := get3 idx (nth j l zero3).

Definition afr_compute_pre_op_sources (l : afr_local) : afr_local :=
  let idx := afr_index_for_transaction_type (type l) in
  let blamed (j : nat) : bool :=
    existsb (fun x => match x with Some p => negb (pending_at p idx j =? 0) | None => false end)
      (pre_op_xdata l) in
  with_xdata (replicate n None)
    (with_sources (tab n (fun i => negb (bit (failed_subvols l) i) && negb (blamed i))) l).

Definition afr_txn_arbitrate_fop_cbk (l : afr_local) : afr_local :=
  if negb (arbiter_count priv =? 1) || (op_ret l <? 0) then l
  else
    let sources := tab n (fun i => bit (pre_op_sources l) i && negb (bit (failed_subvols l) i)) in
    let l := with_sources sources l in
    let count := AFR_COUNT sources in
    if (count =? 0) || ((count =? 1) && bit sources ARBITER_BRICK_INDEX)
    then with_result (-1) ENOTCONN l else l.

(** ** The operation *)

(** [false]: the transaction is not allowed to go on. *)

Definition afr_txn_arbitrate_fop (l : afr_local) : bool * afr_local :=
  let l := afr_compute_pre_op_sources l in
  if (AFR_COUNT (pre_op_sources l) <? 2) && bit (pre_op_sources l) ARBITER_BRICK_INDEX
  then (false, with_result (-1) ENOTCONN l) else (true, l).

Definition afr_transaction_perform_fop (ctxs : list afr_fd_ctx) (l : afr_local)
    : bool * list afr_fd_ctx * afr_local :=
  let '(ctxs, l) := if pre_op_compat l then let '(_, ctxs, l) := afr_changelog_pre_op_update ctxs l in (ctxs, l)
                    else (ctxs, l) in
  if arbiter_count priv =? 1
  then let '(go, l) := afr_txn_arbitrate_fop l in (go, ctxs, l)
  else (true, ctxs, l).

Definition __afr_inode_write_fill (i : nat) (r e : Z) (l : afr_local) : afr_local :=
  let l := with_replies (<[i := {| valid := true; r_op_ret := r; r_op_errno := e |}]> (replies l)) l in
  if 0 <=? r then l else afr_transaction_fop_failed i l.

(** The operation is sent to the bricks of the transaction, and every answer
    is recorded. *)

Fixpoint fop_calls (op : operation) (answers : list fanswer) (i : nat) (bs : list brick) (l : afr_local)
    : list brick * afr_local :=
  match answers, bs with
  | a :: answers, b :: bs =>
      if bit (pre_op l) i then
        let c := match performed_of op a with Some k => perform op k (content b) | None => content b end in
        let '(bs, l) := fop_calls op answers (S i) bs (__afr_inode_write_fill i (fop_ret op a) (fop_errno a) l) in
        ({| content := c; logs := logs b |} :: bs, l)
      else
        let '(bs, l) := fop_calls op answers (S i) bs l in (b :: bs, l)
  | _, bs => (bs, l)
  end.

Definition __afr_txn_write_fop (op : operation) (answers : list fanswer) (bs : list brick) (l : afr_local)
    : list brick * afr_local := fop_calls op answers 0 bs l.

Definition afr_higher_errno (old_errno new_errno : Z) : Z :=
  if (old_errno =? ENODATA) || (new_errno =? ENODATA) then ENODATA
  else if (old_errno =? ENOENT) || (new_errno =? ENOENT) then ENOENT
  else if (old_errno =? ESTALE) || (new_errno =? ESTALE) then ESTALE
  else new_errno.

Definition afr_final_errno (l : afr_local) : Z :=
  foldl (fun e r => if negb (valid r) then e else if 0 <=? r_op_ret r then e else afr_higher_errno e (r_op_errno r))
    0 (replies l).

(** The best reply, with preference for the brick [read_subvol] among equals. *)

Definition best_reply (read_subvol : Z) (acc : Z * Z) (ir : nat * afr_reply) : Z * Z :=
  let '(i, r) := ir in
  if negb (valid r) then acc
  else if r_op_ret r <? 0 then acc
  else if (acc.1 <? r_op_ret r) || ((acc.1 =? r_op_ret r) && (Z.of_nat i =? read_subvol))
  then (r_op_ret r, r_op_errno r) else acc.

Definition __afr_inode_write_finalize (read_subvol : Z) (l : afr_local) : afr_local :=
  let '(r, e) := foldl (best_reply read_subvol) (-1, afr_final_errno l) (imap pair (replies l)) in
  afr_txn_arbitrate_fop_cbk (with_result r e l).

Definition afr_writev_handle_short_writes (l : afr_local) : afr_local :=
  with_failed
    (tab n (fun i =>
       let r := nth i (replies l) no_reply in
       bit (failed_subvols l) i || (valid r && negb (r_op_ret r =? -1) && (r_op_ret r <? op_ret l)))) l.

(** What happens when the last brick has answered: a write and any other data
    operation differ in the treatment of short results. *)

Definition afr_fop_done (read_subvol : Z) (op : operation) (l : afr_local) : afr_local :=
  let l := __afr_inode_write_finalize read_subvol l in
  match op with Write _ _ => afr_writev_handle_short_writes l | Truncate _ => l end.

Definition afr_transaction_resume (ctxs : list afr_fd_ctx) (l : afr_local) : list afr_fd_ctx * afr_local :=
  let l := afr_handle_symmetric_errors l in
  if negb (pre_op_compat l) then let '(_, ctxs, l) := afr_changelog_pre_op_update ctxs l in (ctxs, l)
  else (ctxs, l).

(** ** After the operation *)

(** An fsync that fails counts as a failure of the operation. *)

Definition afr_changelog_fsync (answers : list bool) (l : afr_local) : afr_local :=
  with_failed (tab n (fun i => bit (failed_subvols l) i || (bit (pre_op l) i && negb (bit answers i)))) l.

(** The request of the post-operation, if one is needed. *)

Definition afr_changelog_post_op_now (ctxs : list afr_fd_ctx) (l : afr_local)
    : option xattr * list afr_fd_ctx * afr_local :=
  let l := afr_handle_quorum l in
  let idx := afr_index_for_transaction_type (type l) in
  let nothing_failed := afr_txn_nothing_failed l in
  let '(shared, ctxs, l) := afr_changelog_pre_op_uninherit ctxs l in
  if op_ret l <? 0 then (None, ctxs, l)
  else if nothing_failed && shared then (None, ctxs, l)
  else
    (Some (afr_set_pending_dict (Some (set3 idx (if shared then 0 else -1) zero3))
             (tab n (fun i => if bit (failed_subvols l) i then set3 idx 1 zero3 else zero3))),
     ctxs, l).

End transactions.
