(* ===== verification/AfrHeal.v ===== *)
(** * Replication: self-heal of data

    afr-self-heal-common.c and afr-self-heal-data.c: which copies of a file are
    sources and which are sinks, the choice of one source, the copy of its data
    block by block, and the update of the counters afterwards. Locking decides
    which bricks take part and is an argument.

    The lock of the whole file is held until the sinks are truncated; each block
    is copied under a lock of its own and the counters are updated under none.
    What transactions of other clients do to the contents before a block and to
    the counters before their update is an argument too. *)

From Stdlib Require Import ZArith Lia Bool String.
From stdpp Require Import base list strings.
From S2P Require Import Prelude.
From S2P Require Import Afr.

Open Scope Z_scope.

(** What a lookup on a brick returned. *)

Record lookup_reply := {
  lk_valid : bool;
  lk_op_ret : Z;
  xdata : option changelog;
  ia_size : Z;
  ia_blocks : Z;
  ia_ctime : Z
}.

Definition no_lookup : lookup_reply :=
  {| lk_valid := false; lk_op_ret := 0; xdata := None; ia_size := 0; ia_blocks := 0; ia_ctime := 0 |}.

Definition AFR_SH_MIN_PARTICIPANTS : Z := 2.

(** A request to resolve a split brain. *)

Inductive heal_request :=
| NoHealOp
| GF_SHD_OP_SBRAIN_HEAL_FROM_BIGGER_FILE
| GF_SHD_OP_SBRAIN_HEAL_FROM_BRICK (name : string)
| OtherHealOp.

Section heal.

Context (priv : afr_private) (names : list string).

Abbreviation n := (child_count priv).

Definition reply_at (rs : list lookup_reply) (i : nat) : lookup_reply := nth i rs no_lookup.

Definition cell (m : list (list Z)) (i j : nat) : Z := nth j (nth i m []) 0.

(** ** The matrix of accusations *)

Definition afr_selfheal_fill_dirty (idx : nat) (c : changelog) : Z := get3 idx (cl_dirty c).

Definition afr_selfheal_fill_matrix (idx : nat) (c : changelog) : list Z :=
  tab n (fun j => pending_at (cl_pending c) idx j).

Definition afr_selfheal_extract_xattr (rs : list lookup_reply) (type : afr_transaction_type)
    : list Z * list (list Z) :=
  let idx := afr_index_for_transaction_type type in
  (tab n (fun i => match xdata (reply_at rs i) with
                   | Some c => afr_selfheal_fill_dirty idx c | None => 0 end),
   tab n (fun i => match xdata (reply_at rs i) with
                   | Some c => afr_selfheal_fill_matrix idx c | None => replicate n 0 end)).

Definition afr_success_count (rs : list lookup_reply) : Z :=
  AFR_COUNT (tab n (fun i => lk_valid (reply_at rs i) && (lk_op_ret (reply_at rs i) =? 0))).

Definition exists_child (f : nat -> bool) : bool := existsb f (seq 0 n).

Record direction := { sources : list bool; sinks : list bool; witness : list Z }.

Definition sum_child (f : nat -> Z) : Z := foldl (fun a j => u64 (a + f j)) 0 (seq 0 n).

Definition afr_selfheal_find_direction (rs : list lookup_reply) (type : afr_transaction_type)
    (locked_on : list bool) : Z + direction :=
  if afr_success_count rs <? AFR_SH_MIN_PARTICIPANTS then inl (- ENOTCONN)
  else
    let '(dirty, matrix) := afr_selfheal_extract_xattr rs type in
    let says (i j : nat) : bool := negb (cell matrix i j =? 0) in
    let self_accused (i : nat) : bool := says i i in
    let accused (j : nat) : bool := exists_child (fun i => says i j && negb (self_accused i)) in
    let pending (i : nat) : bool := exists_child (fun j => says i j && negb (Nat.eqb i j)) in
    let srcs := tab n (fun i => negb (accused i) && bit locked_on i) in
    let snks := tab n (fun j => exists_child (fun i => bit srcs i && negb (self_accused i) && says i j)) in
    let w1 (i : nat) : Z := if self_accused i then sum_child (fun j => if Nat.eqb i j then 0 else cell matrix i j) else 0 in
    let w2 (i : nat) : Z := if self_accused i && negb (pending i) then u64 (w1 i + cell matrix i i) else w1 i in
    inr {| sources := srcs;
           sinks := if AFR_COUNT srcs =? 0 then tab n (fun i => bit locked_on i || bit snks i) else snks;
           witness := tab n (fun i => u64 (w2 i + nth i dirty 0)) |}.

(** ** Choosing one source *)

Definition afr_mark_largest_file_as_source (rs : list lookup_reply) (srcs : list bool) : list bool :=
  let size := foldl (fun s i => if bit srcs i && (s <=? ia_size (reply_at rs i))
                                then ia_size (reply_at rs i) else s) 0 (seq 0 n) in
  tab n (fun i => bit srcs i && negb (ia_size (reply_at rs i) <? size)).

Definition afr_mark_biggest_witness_as_source (w : list Z) (srcs : list bool) : list bool :=
  let biggest_witness := foldl (fun b i => if bit srcs i && (b <? nth i w 0) then nth i w 0 else b) 0 (seq 0 n) in
  tab n (fun i => bit srcs i && negb (nth i w 0 <? biggest_witness)).

(** Without any source the code would write before the start of the array. *)

Definition afr_mark_newest_file_as_source (rs : list lookup_reply) (srcs : list bool) : option (list bool) :=
  '(source, _) ←
    foldl (fun acc i =>
             if bit srcs i && (match acc with Some (_, c) => c | None => 0 end <=? ia_ctime (reply_at rs i))
             then Some (i, ia_ctime (reply_at rs i)) else acc) None (seq 0 n);
  Some (tab n (Nat.eqb source)).

Definition afr_mark_active_sinks (srcs locked_on : list bool) : list bool :=
  tab n (fun i => negb (bit srcs i) && bit locked_on i).

Definition afr_has_source_witnesses (srcs : list bool) (w : list Z) : bool :=
  exists_child (fun i => bit srcs i && negb (nth i w 0 =? 0)).

Definition afr_does_size_mismatch (rs : list lookup_reply) (srcs : list bool) : bool :=
  let step (acc : option (Z * Z)) (i : nat) : option (Z * Z) :=
    let r := reply_at rs i in
    if negb (lk_valid r) || (lk_op_ret r <? 0) || negb (bit srcs i) then acc
    else
      let '(mn, mx) := match acc with Some p => p | None => (ia_size r, ia_size r) end in
      Some (if ia_size r <? mn then ia_size r else mn, if mx <? ia_size r then ia_size r else mx) in
  match foldl step None (seq 0 n) with
  | Some (mn, mx) => negb (mn =? mx)
  | None => false
  end.

Definition first_true (l : list bool) : option nat := List.find (bit l) (seq 0 n).

Definition last_true (l : list bool) : option nat := List.find (bit l) (rev (seq 0 n)).

Definition afr_get_child_index_from_name (name : string) : option nat :=
  List.find (fun i => String.eqb (nth i names ""%string) name) (seq 0 (List.length names)).

(** The source, with the new sources, sinks and sinks to heal; [None] is a
    failure. *)

Definition afr_mark_split_brain_source_sinks (req : heal_request) (rs : list lookup_reply)
    (type : afr_transaction_type) (locked_on srcs snks healed : list bool)
    : option (nat * list bool * list bool * list bool) :=
  match req with
  | NoHealOp => None
  | _ =>
      if exists_child (fun i => bit locked_on i && (bit srcs i || negb (bit snks i) || negb (bit healed i)))
      then None
      else match req with
      | GF_SHD_OP_SBRAIN_HEAL_FROM_BIGGER_FILE =>
          match type with
          | AFR_METADATA_TRANSACTION => None
          | _ =>
              let srcs := afr_mark_largest_file_as_source rs
                            (tab n (fun i => bit locked_on i || bit srcs i)) in
              if negb (AFR_COUNT srcs =? 1) then None
              else
                source ← last_true srcs;
                Some (source, srcs, <[source := false]> snks, <[source := false]> healed)
          end
      | GF_SHD_OP_SBRAIN_HEAL_FROM_BRICK name =>
          source ← afr_get_child_index_from_name name;
          if negb (bit locked_on source) then None
          else Some (source, <[source := true]> srcs, <[source := false]> snks, <[source := false]> healed)
      | _ => None
      end
  end.

(** The result of preparing a heal: an error, or the source, the sources, the
    sinks and the sinks to heal. [None] is undefined behaviour. *)

Definition prepared : Type := Z + (nat * list bool * list bool * list bool).

Definition __afr_selfheal_data_finalize_source (req : heal_request) (rs : list lookup_reply)
    (locked_on srcs snks healed : list bool) (w : list Z) : option prepared :=
  if bool_decide (tab n (bit locked_on) = healed) || (AFR_COUNT srcs =? 0) then
    match afr_mark_split_brain_source_sinks req rs AFR_DATA_TRANSACTION locked_on srcs snks healed with
    | None => Some (inl (- EIO))
    | Some r => Some (inr r)
    end
  else match req with
  | NoHealOp =>
      srcs ← (if negb (afr_does_size_mismatch rs srcs) && negb (afr_has_source_witnesses srcs w)
              then Some srcs
              else afr_mark_newest_file_as_source rs
                     (afr_mark_biggest_witness_as_source w (afr_mark_largest_file_as_source rs srcs)));
      let healed := afr_mark_active_sinks srcs locked_on in
      match first_true srcs with
      | Some source => Some (inr (source, srcs, snks, healed))
      | None => Some (inl (- EIO))
      end
  | _ => Some (inl (- EIO))
  end.

Definition __afr_selfheal_data_prepare (req : heal_request) (rs : list lookup_reply)
    (locked_on : list bool) : option prepared :=
  match afr_selfheal_find_direction rs AFR_DATA_TRANSACTION locked_on with
  | inl ret => Some (inl ret)
  | inr d =>
      __afr_selfheal_data_finalize_source req rs locked_on (sources d) (sinks d)
        (tab n (fun i => bit (sinks d) i && bit locked_on i)) (witness d)
  end.

(** ** Copying the data

    The contents of the file on the bricks are a list. What fails is given by
    the answers of the bricks: for each block, how many bricks could be locked,
    and for each brick whether its checksum and its reads succeed and what
    happens to a write. *)

Inductive wanswer :=
| WDone
| WShort (k : nat)
| WFailed (op_errno : positive) (k : nat).

(** A truncation is performed and answered, or its answer is a failure. *)

Inductive tanswer :=
| TDone
| TFailed (performed : bool).

Record block_env := {
  be_locked : Z;
  be_checksum : list bool;
  be_read : option positive;
  be_zero_read : list bool;
  be_write : list wanswer
}.

Inductive heal_type := AFR_SELFHEAL_DATA_FULL | AFR_SELFHEAL_DATA_DIFF.

Context (rchecksum : list Z -> list Z) (data_self_heal_algorithm : option string).

Definition block_of (off size : nat) (c : list Z) : list Z := take size (drop off c).

Definition content_at (cs : list (list Z)) (i : nat) : list Z := nth i cs [].

Definition HAS_HOLES (r : lookup_reply) : bool := ia_blocks r * 512 <? ia_size r.

Definition is_last_block (o b s : Z) : bool := (o <=? s) && (s <=? o + b).

Definition iov_0filled (bs : list Z) : bool := forallb (Z.eqb 0) bs.

Definition __afr_selfheal_data_checksums_match (env : block_env) (source : nat) (healed : list bool)
    (off size : nat) (cs : list (list Z)) : bool :=
  let sum (i : nat) : list Z := rchecksum (block_of off size (content_at cs i)) in
  bit (be_checksum env) source &&
  forallb (fun i =>
    if Nat.eqb i source || negb (bit healed i) then true
    else bool_decide (sum source = if bit (be_checksum env) i then sum i else replicate 16 0)) (seq 0 n).

Definition __afr_is_sink_zero_filled (env : block_env) (off size sink : nat) (cs : list (list Z)) : bool :=
  bit (be_zero_read env) sink && iov_0filled (block_of off size (content_at cs sink)).

(** The state of the loop over the sinks: contents, sinks to heal, result. *)

Definition heal_sink (rs : list lookup_reply) (env : block_env) (type : heal_type) (source off size : nat)
    (iovec : list Z) (st : list (list Z) * list bool * Z) (i : nat) : list (list Z) * list bool * Z :=
  let '(cs, healed, ret) := st in
  let src := reply_at rs source in
  let snk := reply_at rs i in
  if negb (bit healed i) then (cs, healed, ret)
  else if HAS_HOLES src && (ia_size snk <=? Z.of_nat off)
          && negb (is_last_block (Z.of_nat off) (Z.of_nat size) (ia_size src)) && iov_0filled iovec
  then (cs, healed, ret)
  else if (match type with AFR_SELFHEAL_DATA_FULL => true | AFR_SELFHEAL_DATA_DIFF => false end)
          && HAS_HOLES src && (Z.of_nat off + Z.of_nat size <=? ia_size snk) && iov_0filled iovec
          && __afr_is_sink_zero_filled env off size i cs
  then (cs, healed, ret)
  else
    let put (k : nat) : list (list Z) := <[i := pwrite off (take k iovec) (content_at cs i)]> cs in
    let len := length iovec in
    let '(cs, ret) :=
      match nth i (be_write env) WDone with
      | WDone => (put len, Z.of_nat len)
      | WShort k => (put k, Z.of_nat k)
      | WFailed e k => (put k, Z.neg e)
      end in
    (cs, if negb (ret =? Z.of_nat len) then <[i := false]> healed else healed, ret).

Definition __afr_selfheal_data_read_write (rs : list lookup_reply) (env : block_env) (type : heal_type)
    (source off size : nat) (cs : list (list Z)) (healed : list bool) : list (list Z) * list bool * Z :=
  match be_read env with
  | Some e => (cs, healed, Z.neg e)
  | None =>
      let iovec := block_of off size (content_at cs source) in
      if decide (iovec = []) then (cs, healed, 0)
      else foldl (heal_sink rs env type source off size iovec) (cs, healed, Z.of_nat (length iovec)) (seq 0 n)
  end.

Definition afr_selfheal_data_block (rs : list lookup_reply) (env : block_env) (type : heal_type)
    (source off size : nat) (cs : list (list Z)) (healed : list bool) : list (list Z) * list bool * Z :=
  if be_locked env <? AFR_COUNT healed then (cs, healed, - ENOTCONN)
  else if (match type with AFR_SELFHEAL_DATA_DIFF => true | AFR_SELFHEAL_DATA_FULL => false end)
          && __afr_selfheal_data_checksums_match env source healed off size cs
  then (cs, healed, 0)
  else __afr_selfheal_data_read_write rs env type source off size cs healed.

Definition afr_data_self_heal_type_get (rs : list lookup_reply) (healed : list bool) (source : nat) : heal_type :=
  match data_self_heal_algorithm with
  | None =>
      if exists_child (fun i => (bit healed i || Nat.eqb i source) && negb (ia_size (reply_at rs i) =? 0))
      then AFR_SELFHEAL_DATA_DIFF else AFR_SELFHEAL_DATA_FULL
  | Some a => if String.eqb a "full" then AFR_SELFHEAL_DATA_FULL
              else if String.eqb a "diff" then AFR_SELFHEAL_DATA_DIFF else AFR_SELFHEAL_DATA_FULL
  end.

Definition BLOCK : nat := Z.to_nat (128 * 1024).

(** The loop over the blocks of the source, [k] of them from [off] on; the
    result is negative when it was left early. [others off] is what other
    clients do before the block at [off] is locked, or after the last one. *)

Fixpoint heal_blocks (rs : list lookup_reply) (type : heal_type) (source block : nat)
    (others : nat -> list (list Z) -> list (list Z)) (envs : nat -> block_env) (k off : nat) (cs : list (list Z)) (healed : list bool)
    : list (list Z) * list bool * Z :=
  match k with
  | O => (others off cs, healed, 0)
  | S k =>
      if AFR_COUNT healed =? 0 then (cs, healed, - ENOTCONN)
      else
        let '(cs, healed, ret) :=
          afr_selfheal_data_block rs (envs off) type source off block (others off cs) healed in
        if ret <? 0 then (cs, healed, ret)
        else heal_blocks rs type source block others envs k (off + block) cs healed
  end.

Definition block_count (size : Z) (block : nat) : nat :=
  Z.to_nat ((size + Z.of_nat block - 1) / Z.of_nat block).

Definition afr_selfheal_data_fsync (answers : list bool) (healed : list bool) : list bool :=
  tab n (fun i => bit healed i && bit answers i).

Definition afr_selfheal_data_do (rs : list lookup_reply) (source block : nat)
    (others : nat -> list (list Z) -> list (list Z)) (envs : nat -> block_env)
    (fsyncs : list bool) (cs : list (list Z)) (healed : list bool) : list (list Z) * list bool * Z :=
  let type := afr_data_self_heal_type_get rs healed source in
  let '(cs, healed, ret) := heal_blocks rs type source block others envs
    (block_count (ia_size (reply_at rs source)) block) 0 cs healed in
  if ret <? 0 then (cs, healed, ret)
  else (cs, afr_selfheal_data_fsync fsyncs healed, 0).

Definition __afr_selfheal_truncate_sinks (answers : list tanswer) (size : Z) (cs : list (list Z))
    (healed : list bool) : list (list Z) * list bool :=
  (imap (fun i c =>
           if bit healed i && (match nth i answers TDone with TDone => true | TFailed p => p end)
           then resize (Z.to_nat size) c else c) cs,
   tab n (fun i => bit healed i && (match nth i answers TDone with TDone => true | TFailed _ => false end))).

(** ** Updating the counters *)

Definition afr_selfheal_output_xattr (type : afr_transaction_type) (output_dirty : list Z)
    (output_matrix : list (list Z)) (subvol : nat) : xattr :=
  let idx := afr_index_for_transaction_type type in
  {| xa_dirty := Some (set3 idx (nth subvol output_dirty 0) zero3);
     xa_pending := tab n (fun j => set3 idx (cell output_matrix subvol j) zero3) |}.

Definition afr_selfheal_undo_pending (type : afr_transaction_type) (rs : list lookup_reply)
    (snks healed locked_on : list bool) (answers : list xanswer) (bs : list changelog) : list changelog :=
  let '(input_dirty, input_matrix) := afr_selfheal_extract_xattr rs type in
  let pending (i : nat) : bool := bit snks i && negb (bit healed i) in
  let output_matrix := tab n (fun i => tab n (fun j => if pending j then 1 else i32 (- cell input_matrix i j))) in
  let output_dirty := tab n (fun i => if pending i then 0 else i32 (- nth i input_dirty 0)) in
  imap (fun i c => if bit locked_on i
                   then do_xattrop (nth i answers XDone)
                          (afr_selfheal_output_xattr type output_dirty output_matrix i) c
                   else c) bs.

(** ** A self-heal of the data *)

Record heal_env := {
  he_truncate : list tanswer;
  he_blocks : nat -> block_env;
  he_fsync : list bool;
  he_post_op : list xanswer;
  he_others : nat -> list (list Z) -> list (list Z);
  he_marks : list changelog -> list changelog
}.

Definition set_contents (cs : list (list Z)) (bs : list brick) : list brick :=
  zip_with (fun c b => {| content := c; logs := logs b |}) cs bs.

Definition set_logs (ls : list changelog) (bs : list brick) : list brick :=
  zip_with (fun c b => {| content := content b; logs := c |}) ls bs.

(** The result, the bricks and the sinks that count as healed. *)

Definition __afr_selfheal_data (req : heal_request) (rs : list lookup_reply) (data_lock : list bool)
    (env : heal_env) (bs : list brick) : option (Z * list brick * list bool) :=
  if AFR_COUNT data_lock <? AFR_SH_MIN_PARTICIPANTS then Some (- ENOTCONN, bs, [])
  else
    p ← __afr_selfheal_data_prepare req rs data_lock;
    match p with
    | inl ret => Some (ret, bs, [])
    | inr (source, srcs, snks, healed) =>
        if AFR_COUNT healed =? 0 then Some (1, bs, healed)
        else if (arbiter_count priv =? 1) && (source =? ARBITER_BRICK_INDEX)%nat && (AFR_COUNT srcs =? 1)
        then Some (1, bs, healed)
        else
          let '(cs, healed) := __afr_selfheal_truncate_sinks (he_truncate env)
                                 (ia_size (reply_at rs source)) (content <$> bs) healed in
          let '(cs, healed, ret) := afr_selfheal_data_do rs source BLOCK (he_others env) (he_blocks env)
                                      (he_fsync env) cs healed in
          let bs := set_contents cs (set_logs (he_marks env (logs <$> bs)) bs) in
          if negb (ret =? 0) then Some (ret, bs, healed)
          else Some (0, set_logs (afr_selfheal_undo_pending AFR_DATA_TRANSACTION rs snks healed data_lock
                                    (he_post_op env) (logs <$> bs)) bs, healed)
    end.

End heal.
