(* ===== verification/AfrRead.v ===== *)
(** * Replication: which copy is read

    afr-common.c: lookups record for every file which bricks can be read, in
    two bit maps and a generation that are kept in one 64-bit number, and a read
    goes to one of them. *)

From Stdlib Require Import ZArith Lia Bool.
From stdpp Require Import base list.
From S2P Require Import Prelude.
From S2P Require Import Afr.
From S2P Require Import AfrHeal.

Open Scope Z_scope.

Section reads.

Context (priv : afr_private).

Abbreviation n := (child_count priv).

(** ** The record of a file *)

Definition map_of (l : list bool) : Z :=
  foldl (fun m i => if bit l i then u16 (Z.lor m (Z.shiftl 1 (Z.of_nat i))) else m) 0 (seq 0 n).

Definition __afr_inode_read_subvol_set_small (data metadata : list bool) (event : Z) : Z :=
  Z.lor (Z.lor (map_of metadata) (u64 (Z.shiftl (map_of data) 16))) (u64 (Z.shiftl (u64 event) 32)).

Definition bits_of (m : Z) : list bool := tab n (fun i => negb (Z.land (Z.shiftr m (Z.of_nat i)) 1 =? 0)).

Definition __afr_inode_read_subvol_get_small (val : Z) : list bool * list bool * Z :=
  (bits_of (u16 (Z.shiftr (Z.land val 0xffff0000) 16)), bits_of (u16 (Z.land val 0xffff)),
   u32 (Z.shiftr (Z.land val 0xffffffff00000000) 32)).

Definition __afr_inode_read_subvol_reset_small (val : Z) : Z :=
  Z.lor (Z.land val 0xffff) (u64 (Z.shiftl (u16 (Z.shiftr (Z.land val 0xffff0000) 16)) 16)).

(** With more than 16 children nothing is recorded. *)

Definition __afr_inode_read_subvol_get (val : Z) : option (list bool * list bool * Z) :=
  if (n <=? 16)%nat then Some (__afr_inode_read_subvol_get_small val) else None.

Definition __afr_inode_read_subvol_set (data metadata : list bool) (event val : Z) : Z * Z :=
  if (n <=? 16)%nat then (0, __afr_inode_read_subvol_set_small data metadata event) else (-1, val).

(** ** Interpreting the replies of a lookup *)

Definition afr_accused_fill (x : option changelog) (accused : list bool) (type : afr_transaction_type)
    : list bool :=
  match x with
  | None => accused
  | Some c =>
      tab n (fun i => bit accused i ||
                      negb (pending_at (cl_pending c) (afr_index_for_transaction_type type) i =? 0))
  end.

Definition afr_accuse_smallfiles (rs : list lookup_reply) (data_accused : list bool) : list bool :=
  let maxsize := foldl (fun m i => if negb (bit data_accused i) && (m <? ia_size (reply_at rs i))
                                   then ia_size (reply_at rs i) else m) 0 (seq 0 n) in
  tab n (fun i =>
    bit data_accused i ||
    (negb ((arbiter_count priv =? 1) && (i =? ARBITER_BRICK_INDEX)%nat) && (ia_size (reply_at rs i) <? maxsize))).

Definition answered (r : lookup_reply) : bool := lk_valid r && negb (lk_op_ret r =? -1).

(** [dirs] says which replies are about a directory, and [is_dir] what the file
    is known to be. The result says whether some brick is accused. *)

Definition afr_replies_interpret (rs : list lookup_reply) (dirs : list bool) (is_dir : bool)
    : bool * list bool * list bool :=
  let fill (f : nat -> afr_transaction_type) : list bool :=
    foldl (fun acc i => if answered (reply_at rs i)
                        then afr_accused_fill (xdata (reply_at rs i)) acc (f i) else acc)
      (replicate n false) (seq 0 n) in
  let data_accused := fill (fun i => if bit dirs i then AFR_ENTRY_TRANSACTION else AFR_DATA_TRANSACTION) in
  let metadata_accused := fill (fun _ => AFR_METADATA_TRANSACTION) in
  let data_accused := if is_dir then data_accused else afr_accuse_smallfiles rs data_accused in
  (exists_child priv (fun i => bit data_accused i || bit metadata_accused i),
   tab n (fun i => answered (reply_at rs i) && negb (bit data_accused i)),
   tab n (fun i => answered (reply_at rs i) && negb (bit metadata_accused i))).

(** ** Choosing a brick *)

Definition afr_inode_get_readable (is_dir : bool) (type : afr_transaction_type) (child_up : list bool)
    (record : option (list bool * list bool * Z)) : Z + (list bool * Z) :=
  match type with
  | AFR_ENTRY_TRANSACTION | AFR_ENTRY_RENAME_TRANSACTION => inr ([], 0)
  | _ =>
      match record with
      | None => inl (- EIO)
      | Some (data, metadata, event) =>
          if (if is_dir then (if is_data type then false else AFR_COUNT metadata =? 0)
              else (AFR_COUNT data =? 0) || (AFR_COUNT metadata =? 0))
          then inl (- EIO)
          else inr (if is_data type then (if AFR_COUNT data =? 0 then child_up else data) else metadata, event)
      end
  end.

(** [read_child] is the configured child and [hashed] the one of the hash, both
    negative when there is none. *)

Definition afr_read_subvol_select_by_policy (read_child hashed : Z) (readable : list bool) : option nat :=
  if (0 <=? read_child) && bit readable (Z.to_nat read_child) then Some (Z.to_nat read_child)
  else if (0 <=? hashed) && bit readable (Z.to_nat hashed) then Some (Z.to_nat hashed)
  else List.find (bit readable) (seq 0 n).

Definition afr_read_subvol_get (read_child hashed : Z) (type : afr_transaction_type)
    (record : option (list bool * list bool * Z)) : option nat :=
  let '(data, metadata, _) := match record with
                              | Some r => r
                              | None => (replicate n false, replicate n false, 0) end in
  let readable := match type with AFR_METADATA_TRANSACTION => metadata | _ => data end in
  let intersection := tab n (fun i => bit data i && bit metadata i) in
  afr_read_subvol_select_by_policy read_child hashed
    (if 0 <? AFR_COUNT intersection then intersection else readable).

End reads.
