(* ===== verification/AfrFacts.v ===== *)
(** * Replication: facts about arrays, counters and quorums

    The arrays over the children, what an xattrop does to a counter, and that
    two groups of bricks cannot both have a quorum. *)

From Stdlib Require Import ZArith Lia Bool.
From stdpp Require Import base list.
From S2P Require Import Prelude.
From S2P Require Import Afr.

Open Scope Z_scope.

(** ** Arrays *)

Section arrays.

Context {A : Type}.

Lemma tab_lookup n (f : nat -> A) i : (i < n)%nat -> tab n f !! i = Some (f i).
Proof. intros Hi. unfold tab. rewrite list_lookup_fmap, lookup_seq_lt by done. done. Qed.

Lemma tab_length n (f : nat -> A) : length (tab n f) = n.
Proof. unfold tab. by rewrite length_fmap, length_seq. Qed.

Lemma nth_tab n (f : nat -> A) i d : nth i (tab n f) d = if (i <? n)%nat then f i else d.
Proof.
  destruct (Nat.ltb_spec i n) as [H|H].
  - apply nth_lookup_Some. by apply tab_lookup.
  - apply nth_overflow. by rewrite tab_length.
Qed.

Lemma tab_ext n (f g : nat -> A) : (forall i, (i < n)%nat -> f i = g i) -> tab n f = tab n g.
Proof. intros H. unfold tab. apply list_fmap_ext. intros k x Hx. apply lookup_seq in Hx as [-> ?]. apply H. lia. Qed.

End arrays.

Lemma bit_tab n f i : bit (tab n f) i = (i <? n)%nat && f i.
Proof. unfold bit. rewrite nth_tab. by destruct (i <? n)%nat. Qed.

Lemma tab_bit n l : length l = n -> tab n (bit l) = l.
Proof.
  intros <-. apply list_eq. intros i. destruct (decide (i < length l)%nat) as [Hi|Hi].
  - rewrite tab_lookup by done. destruct (lookup_lt_is_Some_2 l i Hi) as [b Hb]. rewrite Hb. f_equal.
    unfold bit. by apply nth_lookup_Some.
  - rewrite !lookup_ge_None_2; [done|lia|rewrite tab_length; lia].
Qed.

Lemma bit_insert l i b j : (i < length l)%nat -> bit (<[i := b]> l) j = if Nat.eqb i j then b else bit l j.
Proof.
  intros Hi. unfold bit. destruct (Nat.eqb_spec i j) as [<-|Hne].
  - apply nth_lookup_Some. by apply list_lookup_insert_eq.
  - destruct (decide (j < length l)%nat) as [Hj|Hj].
    + destruct (lookup_lt_is_Some_2 l j Hj) as [c Hc]. rewrite (nth_lookup_Some l j false c Hc).
      apply nth_lookup_Some. by rewrite list_lookup_insert_ne.
    + rewrite !nth_overflow; [done|lia|rewrite length_insert; lia].
Qed.

Lemma bit_length l i : bit l i = true -> (i < length l)%nat.
Proof. unfold bit. intros H. destruct (decide (i < length l)%nat) as [|Hn]; [done|]. rewrite nth_overflow in H; [done|lia]. Qed.

Lemma bit_replicate n b i : bit (replicate n b) i = (i <? n)%nat && b.
Proof.
  unfold bit. destruct (Nat.ltb_spec i n) as [H|H].
  - cbn. apply nth_lookup_Some. by apply lookup_replicate_2.
  - rewrite nth_overflow; [done|]. rewrite length_replicate. lia.
Qed.

Lemma bits_eq n l l' : length l = n -> length l' = n -> (forall i, (i < n)%nat -> bit l i = bit l' i) -> l = l'.
Proof. intros H H' He. rewrite <- (tab_bit n l), <- (tab_bit n l') by done. by apply tab_ext. Qed.

(** ** Counting *)

Lemma bits_count_cons b l : AFR_COUNT (b :: l) = (if b then 1 else 0) + AFR_COUNT l.
Proof. unfold AFR_COUNT. destruct b; cbn [List.filter length]; lia. Qed.

Lemma count_bounds l : 0 <= AFR_COUNT l <= Z.of_nat (length l).
Proof. induction l as [|b l IH]; [done|]. rewrite bits_count_cons. cbn [length]. destruct b; lia. Qed.

Lemma count_0 l : AFR_COUNT l = 0 <-> (forall i, bit l i = false).
Proof.
  induction l as [|b l IH]; [split; [by intros _ []|done]|]. rewrite bits_count_cons. pose proof (count_bounds l).
  split.
  - intros Hc [|i]; [by destruct b; [lia|]|]. cbn. apply IH. by destruct b; lia.
  - intros Hb. pose proof (Hb 0%nat) as H0. cbn in H0. subst b. rewrite (proj2 IH); [done|]. intros i. exact (Hb (S i)).
Qed.

Lemma bits_count_pos l i : bit l i = true -> 0 < AFR_COUNT l.
Proof.
  intros H. destruct (Z.eq_dec (AFR_COUNT l) 0) as [E|E]; [|pose proof (count_bounds l); lia].
  pose proof (proj1 (count_0 l) E i). congruence.
Qed.

Lemma count_pos_inv l : 0 < AFR_COUNT l -> exists i, bit l i = true.
Proof.
  induction l as [|b l IH]; [done|]. rewrite bits_count_cons. destruct b; [by exists 0%nat|].
  intros H. destruct (IH ltac:(lia)) as [i Hi]. by exists (S i).
Qed.

Lemma count_full l : AFR_COUNT l = Z.of_nat (length l) <-> (forall i, (i < length l)%nat -> bit l i = true).
Proof.
  induction l as [|b l IH]; [split; [cbn; lia|done]|]. rewrite bits_count_cons. pose proof (count_bounds l). cbn [length].
  split.
  - intros Hc [|i] Hi; [by destruct b; [|lia]|]. cbn. apply IH; [destruct b; lia|lia].
  - intros Hb. pose proof (Hb 0%nat ltac:(lia)) as H0. cbn in H0. subst b. rewrite (proj2 IH); [lia|].
    intros i Hi. exact (Hb (S i) ltac:(lia)).
Qed.

Lemma count_disjoint l l' :
  length l = length l' -> (forall i, bit l i && bit l' i = false) ->
  AFR_COUNT l + AFR_COUNT l' <= Z.of_nat (length l).
Proof.
  revert l'. induction l as [|b l IH]; intros [|b' l'] Hl Hd; try done.
  rewrite !bits_count_cons. injection Hl as Hl. pose proof (Hd 0%nat) as H0. cbn in H0.
  specialize (IH l' Hl (fun i => Hd (S i))). cbn [length]. destruct b, b'; try done; lia.
Qed.

Lemma exists_bit (l : list bool) : existsb (fun b => b) l = false <-> (forall i, bit l i = false).
Proof.
  induction l as [|b l IH]; [split; [by intros _ []|done]|]. cbn [existsb]. rewrite orb_false_iff, IH. split.
  - intros [-> H] [|i]; [done|]. apply H.
  - intros H. split; [exact (H 0%nat)|]. intros i. exact (H (S i)).
Qed.

(** ** Quorum *)

(** Two groups of bricks that both have a quorum have a brick in common,
    for automatic quorum and for a fixed one of more than half of the bricks;
    so the sides of a network split cannot both go on writing. *)
Theorem quorum_exclusive (priv : afr_private) (s s' : list bool) :
  quorum_count priv = AFR_QUORUM_AUTO \/
    (quorum_count priv < AFR_QUORUM_AUTO /\ Z.of_nat (child_count priv) < 2 * quorum_count priv) ->
  length s = child_count priv -> length s' = child_count priv ->
  afr_has_quorum priv s = true -> afr_has_quorum priv s' = true ->
  exists i, bit s i = true /\ bit s' i = true.
Proof.
  intros Hq Hs Hs' H H'.
  assert (Hd : Z.of_nat (child_count priv) < AFR_COUNT s + AFR_COUNT s' \/ (bit s 0 = true /\ bit s' 0 = true)).
  { pose proof (Z.div_mod (Z.of_nat (child_count priv)) 2 ltac:(lia)).
    pose proof (Z.mod_pos_bound (Z.of_nat (child_count priv)) 2 ltac:(lia)).
    unfold afr_has_quorum in H, H'. destruct Hq as [Hq|[Hq Hm]].
    - rewrite Hq, Z.eqb_refl in H, H'. cbn [andb] in H, H'.
      destruct (Nat.even (child_count priv)) eqn:He; cbn [andb] in H, H';
        [|apply Z.leb_le in H, H'; left; lia].
      destruct (AFR_COUNT s =? _) eqn:E1; destruct (AFR_COUNT s' =? _) eqn:E2; [by right|left..];
        rewrite ?Z.eqb_eq, ?Z.leb_le in *; apply Nat.even_spec in He as [m Hm]; lia.
    - replace (quorum_count priv =? AFR_QUORUM_AUTO) with false in H, H' by (symmetry; apply Z.eqb_neq; lia).
      cbn [andb] in H, H'. apply Z.leb_le in H, H'. left. lia. }
  destruct Hd as [Hd|[H0 H0']]; [|by exists 0%nat].
  destruct (existsb (fun i => bit s i && bit s' i) (seq 0 (child_count priv))) eqn:E.
  - apply existsb_exists in E as (i & _ & Hi). apply andb_true_iff in Hi as [? ?]. by exists i.
  - exfalso. pose proof (count_disjoint s s' ltac:(congruence)) as Hc. rewrite Hs in Hc.
    enough (AFR_COUNT s + AFR_COUNT s' <= Z.of_nat (child_count priv)) by lia. apply Hc. intros i.
    destruct (bit s i && bit s' i) eqn:Ei; [|done]. pose proof (proj1 (andb_true_iff _ _) Ei) as [Hb _].
    apply bit_length in Hb. rewrite <- E. symmetry. apply existsb_exists. exists i. split; [|done].
    apply in_seq. lia.
Qed.

Definition four_bricks : afr_private :=
  {| child_count := 4; arbiter_count := 0; quorum_count := AFR_QUORUM_AUTO; quorum_reads := false;
     data_change_log := true; metadata_change_log := true; entry_change_log := true |}.

Lemma quorum_exclusive_witness :
  afr_has_quorum four_bricks [true; true; false; false] = true /\
  afr_has_quorum four_bricks [false; false; true; true] = false /\
  exists i, bit [true; true; false; false] i = true /\ bit [false; true; true; true] i = true.
Proof.
  split; [reflexivity|]. split; [reflexivity|].
  apply (quorum_exclusive four_bricks); [by left|reflexivity..].
Defined.
