(* ===== verification/AfrReadProps.v ===== *)
(** * Replication: the record of readable bricks

    The two bit maps and the generation of a file survive being packed into one
    number, and the brick that is read is one of the readable ones. *)

From Stdlib Require Import ZArith Lia Bool ZifyBool.
From stdpp Require Import base list.
From S2P Require Import Prelude.
From S2P Require Import Afr.
From S2P Require Import AfrHeal.
From S2P Require Import AfrRead.
From S2P Require Import AfrFacts.

Open Scope Z_scope.

Lemma uwrap_testbit w z i : 0 <= w -> 0 <= i -> Z.testbit (uwrap w z) i = (i <? w) && Z.testbit z i.
Proof.
  intros Hw Hi. unfold uwrap. destruct (Z.ltb_spec i w) as [H|H].
  - by rewrite Z.mod_pow2_bits_low by lia.
  - by rewrite Z.mod_pow2_bits_high by lia.
Qed.

Lemma map_of_range priv l : in_u 16 (map_of priv l).
Proof.
  unfold map_of. assert (H : forall js a, in_u 16 a -> in_u 16 (foldl (fun m i =>
    if bit l i then u16 (Z.lor m (Z.shiftl 1 (Z.of_nat i))) else m) a js)).
  { induction js as [|i js IH]; intros a Ha; [done|]. cbn [foldl]. apply IH.
    destruct (bit l i); [by apply uwrap_range|done]. }
  apply H. unfold in_u. lia.
Qed.

Section maps.

Context (priv : afr_private) (Hn : (child_count priv <= 16)%nat).

Abbreviation n := (child_count priv).

Lemma map_of_testbit l i : 0 <= i -> Z.testbit (map_of priv l) i = (i <? Z.of_nat n) && bit l (Z.to_nat i).
Proof.
  intros Hi. unfold map_of.
  assert (H : forall m, (m <= n)%nat ->
    Z.testbit (foldl (fun a i => if bit l i then u16 (Z.lor a (Z.shiftl 1 (Z.of_nat i))) else a) 0 (seq 0 m)) i =
    (i <? Z.of_nat m) && bit l (Z.to_nat i)).
  { induction m as [|m IH]; intros Hm.
    { cbn [seq foldl]. rewrite Z.testbit_0_l. by rewrite (proj2 (Z.ltb_ge i (Z.of_nat 0))) by lia. }
    rewrite seq_S, foldl_app. cbn [foldl Nat.add]. specialize (IH ltac:(lia)).
    assert (Hs : i = Z.of_nat m \/ (i <? Z.of_nat (S m)) = (i <? Z.of_nat m)) by lia.
    destruct (bit l m) eqn:Hb.
    - rewrite uwrap_testbit, Z.lor_spec, IH, Z.shiftl_spec by lia.
      destruct Hs as [->|Hs].
      + rewrite Z.sub_diag, Nat2Z.id, Hb. cbn. rewrite orb_true_r.
        replace (Z.of_nat m <? 16) with true by lia. by replace (Z.of_nat m <? Z.of_nat (S m)) with true by lia.
      + rewrite Hs. destruct (Z.eq_dec i (Z.of_nat m)) as [->|Hne].
        * replace (Z.of_nat m <? Z.of_nat (S m)) with true in Hs by lia. lia.
        * replace (Z.testbit 1 (i - Z.of_nat m)) with false.
          2: { symmetry. destruct (Z_lt_le_dec i (Z.of_nat m)); [by rewrite Z.testbit_neg_r by lia|].
               rewrite Z.bits_above_log2; [done|lia|cbn; lia]. }
          rewrite orb_false_r. destruct (Z.ltb_spec i 16); [done|].
          replace (i <? Z.of_nat m) with false by lia. done.
    - rewrite IH. destruct Hs as [-> | ->]; [|done]. rewrite Nat2Z.id, Hb, !andb_false_r. done. }
  by apply H.
Qed.

Lemma bits_of_spec m (l : list bool) :
  length l = n -> (forall i, (i < n)%nat -> Z.testbit m (Z.of_nat i) = bit l i) -> bits_of priv m = l.
Proof.
  intros Hl H. apply (bits_eq n); [apply tab_length|done|]. intros i Hi. unfold bits_of.
  rewrite bit_tab, (proj2 (Nat.ltb_lt _ _) Hi), <- (H i Hi). cbn [andb].
  rewrite Z.testbit_eqb, Z.shiftr_div_pow2 by lia. change 1 with (Z.ones 1) at 1. rewrite Z.land_ones by lia.
  change (2 ^ 1) with 2. pose proof (Z.mod_pos_bound (m / 2 ^ Z.of_nat i) 2 ltac:(lia)).
  destruct (Z.eqb_spec ((m / 2 ^ Z.of_nat i) mod 2) 0), (Z.eqb_spec ((m / 2 ^ Z.of_nat i) mod 2) 1); lia.
Qed.

Lemma packed_testbit data metadata event i :
  0 <= i ->
  Z.testbit (__afr_inode_read_subvol_set_small priv data metadata event) i =
    (Z.testbit (map_of priv metadata) i ||
     ((i <? 64) && ((16 <=? i) && Z.testbit (map_of priv data) (i - 16)))) ||
    ((i <? 64) && ((32 <=? i) && ((i - 32 <? 64) && Z.testbit event (i - 32)))).
Proof.
  intros Hi. unfold __afr_inode_read_subvol_set_small. rewrite !Z.lor_spec, !uwrap_testbit, !Z.shiftl_spec by lia.
  f_equal; [f_equal|]; f_equal.
  - destruct (Z.leb_spec 16 i); [done|]. by rewrite Z.testbit_neg_r by lia.
  - destruct (Z.leb_spec 32 i); cbn [andb]; [by rewrite uwrap_testbit by lia|]. by rewrite Z.testbit_neg_r by lia.
Qed.

Lemma map_of_high l i : Z.of_nat n <= i -> Z.testbit (map_of priv l) i = false.
Proof. intros Hi. rewrite map_of_testbit by lia. by rewrite (proj2 (Z.ltb_ge _ _) Hi). Qed.

Lemma map_of_low l i : (i < n)%nat -> Z.testbit (map_of priv l) (Z.of_nat i) = bit l i.
Proof. intros Hi. rewrite map_of_testbit, Nat2Z.id by lia. by rewrite (proj2 (Z.ltb_lt _ _)) by lia. Qed.

Lemma get_set_small data metadata event :
  length data = n -> length metadata = n ->
  __afr_inode_read_subvol_get_small priv (__afr_inode_read_subvol_set_small priv data metadata event) =
    (data, metadata, u32 event).
Proof.
  intros Hd Hm. unfold __afr_inode_read_subvol_get_small.
  set (v := __afr_inode_read_subvol_set_small priv data metadata event). f_equal; [f_equal|].
  - apply bits_of_spec; [done|]. intros i Hi. rewrite uwrap_testbit, Z.shiftr_spec, Z.land_spec by lia.
    unfold v. rewrite packed_testbit, map_of_high by lia. change 0xffff0000 with (Z.shiftl (Z.ones 16) 16).
    rewrite Z.shiftl_spec, Z.ones_spec_low by lia. replace (Z.of_nat i + 16 - 16) with (Z.of_nat i) by lia.
    rewrite map_of_low by done. rewrite (proj2 (Z.ltb_lt (Z.of_nat i) 16)), (proj2 (Z.ltb_lt (Z.of_nat i + 16) 64)),
      (proj2 (Z.leb_le 16 (Z.of_nat i + 16))), (proj2 (Z.leb_gt 32 (Z.of_nat i + 16))) by lia.
    cbn [andb orb]. by rewrite andb_true_r, orb_false_r.
  - apply bits_of_spec; [done|]. intros i Hi. rewrite uwrap_testbit, Z.land_spec by lia.
    unfold v. rewrite packed_testbit, map_of_low by (done || lia). change 0xffff with (Z.ones 16).
    rewrite Z.ones_spec_low by lia. rewrite (proj2 (Z.ltb_lt (Z.of_nat i) 16)), (proj2 (Z.leb_gt 16 (Z.of_nat i))),
      (proj2 (Z.leb_gt 32 (Z.of_nat i))) by lia. by rewrite !andb_false_l, !andb_false_r, !orb_false_r, andb_true_r.
  - apply Z.bits_inj'. intros i Hi. rewrite !uwrap_testbit, Z.shiftr_spec, Z.land_spec by lia.
    destruct (Z.ltb_spec i 32) as [Hlt|]; [|done]. cbn [andb]. unfold v. rewrite packed_testbit, map_of_high by lia.
    rewrite (map_of_high data) by lia. change 0xffffffff00000000 with (Z.shiftl (Z.ones 32) 32).
    rewrite Z.shiftl_spec, Z.ones_spec_low by lia. replace (i + 32 - 32) with i by lia.
    rewrite (proj2 (Z.ltb_lt (i + 32) 64)), (proj2 (Z.leb_le 32 (i + 32))), (proj2 (Z.ltb_lt i 64)) by lia.
    by rewrite !andb_false_r, andb_true_r.
Qed.

End maps.

(** The record of a file gives back the bricks from which data and
    metadata can be read and the generation of that knowledge, for up to 16
    bricks, and forgetting the generation keeps the bricks. *)
Theorem read_record_roundtrip (priv : afr_private) (data metadata : list bool) (event : Z) :
  (child_count priv <= 16)%nat -> length data = child_count priv -> length metadata = child_count priv ->
  0 <= event < 2 ^ 32 ->
  let val := __afr_inode_read_subvol_set_small priv data metadata event in
  0 <= val < 2 ^ 64 /\
  __afr_inode_read_subvol_get_small priv val = (data, metadata, event) /\
  __afr_inode_read_subvol_get_small priv (__afr_inode_read_subvol_reset_small val) = (data, metadata, 0).
Proof.
  intros Hn Hd Hm He. cbn zeta.
  assert (Hreset : __afr_inode_read_subvol_reset_small (__afr_inode_read_subvol_set_small priv data metadata event) =
                   __afr_inode_read_subvol_set_small priv data metadata 0).
  { apply Z.bits_inj'. intros i Hi. unfold __afr_inode_read_subvol_reset_small.
    rewrite Z.lor_spec, Z.land_spec, uwrap_testbit, Z.shiftl_spec by lia. change 0xffff with (Z.ones 16).
    rewrite !packed_testbit, Z.testbit_0_l by (done || lia). rewrite !andb_false_r, orb_false_r.
    destruct (Z_lt_le_dec i 16) as [Hlt|Hge].
    - rewrite Z.ones_spec_low, (Z.testbit_neg_r (u16 _) (i - 16)), (proj2 (Z.leb_gt 16 i)), (proj2 (Z.leb_gt 32 i)) by lia.
      by rewrite !andb_false_l, !andb_false_r, !orb_false_r, andb_true_r.
    - rewrite Z.ones_spec_high, uwrap_testbit, Z.shiftr_spec, Z.land_spec, packed_testbit by (done || lia).
      replace (i - 16 + 16) with i by lia. rewrite andb_false_r. cbn [orb].
      rewrite (map_of_high priv Hn metadata i), (proj2 (Z.leb_le 16 i)) by lia. cbn [orb andb].
      change 0xffff0000 with (Z.shiftl (Z.ones 16) 16). rewrite Z.shiftl_spec by lia.
      destruct (Z.ltb_spec (i - 16) 16) as [H16|H16]; cbn [andb].
      + rewrite Z.ones_spec_low, (proj2 (Z.leb_gt 32 i)), (proj2 (Z.ltb_lt i 64)) by lia.
        by rewrite !andb_false_l, !andb_false_r, orb_false_r, andb_true_r.
      + rewrite (map_of_high priv Hn data) by lia. by rewrite !andb_false_r. }
  rewrite Hreset, !get_set_small by done. rewrite !uwrap_small by (unfold in_u; lia). split; [|done].
  unfold __afr_inode_read_subvol_set_small.
  pose proof (map_of_range priv metadata) as Hr. unfold in_u in Hr.
  apply lor_bound; [lia|apply lor_bound; [lia|lia|by apply uwrap_range]|by apply uwrap_range].
Qed.

Definition two_bricks : afr_private :=
  {| child_count := 2; arbiter_count := 0; quorum_count := 0; quorum_reads := false;
     data_change_log := true; metadata_change_log := true; entry_change_log := true |}.

Lemma read_record_roundtrip_witness :
  __afr_inode_read_subvol_set_small two_bricks [true; false] [true; true] 7 = 7 * 2 ^ 32 + 2 ^ 16 + 3 /\
  __afr_inode_read_subvol_get_small two_bricks
    (__afr_inode_read_subvol_set_small two_bricks [true; false] [true; true] 7) = ([true; false], [true; true], 7).
Proof.
  split; [reflexivity|].
  apply (read_record_roundtrip two_bricks [true; false] [true; true] 7); [cbn; lia|reflexivity|reflexivity|lia].
Defined.

(** ** The brick that is read *)

Lemma select_readable priv read_child hashed readable i :
  afr_read_subvol_select_by_policy priv read_child hashed readable = Some i -> bit readable i = true.
Proof.
  unfold afr_read_subvol_select_by_policy. destruct (0 <=? read_child); cbn [andb].
  - destruct (bit readable (Z.to_nat read_child)) eqn:E; [by intros [= <-]|].
    destruct (0 <=? hashed); cbn [andb]; [|intros H; by apply List.find_some in H as [_ H]].
    destruct (bit readable (Z.to_nat hashed)) eqn:E2; [by intros [= <-]|intros H; by apply List.find_some in H as [_ H]].
  - destruct (0 <=? hashed); cbn [andb]; [|intros H; by apply List.find_some in H as [_ H]].
    destruct (bit readable (Z.to_nat hashed)) eqn:E2; [by intros [= <-]|intros H; by apply List.find_some in H as [_ H]].
Qed.

Lemma read_subvol_data priv read_child hashed data metadata event i :
  afr_read_subvol_get priv read_child hashed AFR_DATA_TRANSACTION (Some (data, metadata, event)) = Some i ->
  bit data i = true.
Proof.
  unfold afr_read_subvol_get. intros H. apply select_readable in H. destruct (0 <? _); [|done].
  rewrite bit_tab in H. rewrite !andb_true_iff in H. by destruct H as (_ & H & _).
Qed.

(** A brick that can be read is accused by no brick that answered. *)

Lemma interpret_readable priv rs is_dir i k c :
  let '(_, data, _) := afr_replies_interpret priv rs (replicate (child_count priv) false) is_dir in
  bit data i = true -> (k < child_count priv)%nat -> answered (reply_at rs k) = true ->
  xdata (reply_at rs k) = Some c -> pending_at (cl_pending c) 0 i = 0.
Proof.
  cbn [afr_replies_interpret]. set (n := child_count priv).
  set (fill := foldl _ _ _). intros Hd Hk Ha Hx. rewrite bit_tab in Hd. rewrite !andb_true_iff, negb_true_iff in Hd.
  destruct Hd as (Hi & _ & Hd).
  assert (Hf : bit fill i = false).
  { destruct is_dir; [done|]. unfold afr_accuse_smallfiles in Hd. fold n in Hd. rewrite bit_tab, Hi in Hd. cbn [andb] in Hd.
    by apply orb_false_iff in Hd as [Hd _]. }
  assert (Hstep : forall l acc, bit acc i = true \/ k ∈ l -> bit (foldl (fun acc j =>
      if answered (reply_at rs j)
      then afr_accused_fill priv (xdata (reply_at rs j)) acc
             (if bit (replicate n false) j then AFR_ENTRY_TRANSACTION else AFR_DATA_TRANSACTION)
      else acc) acc l) i = false -> pending_at (cl_pending c) 0 i = 0).
  { induction l as [|j l IH]; intros acc Hor; cbn [foldl].
    - destruct Hor as [Hor|Hor]; [congruence|by apply not_elem_of_nil in Hor].
    - assert (Hrep : (if bit (replicate n false) j then AFR_ENTRY_TRANSACTION else AFR_DATA_TRANSACTION) = AFR_DATA_TRANSACTION).
      { rewrite bit_replicate. by rewrite andb_false_r. }
      rewrite Hrep. intros Hres. destruct (decide (pending_at (cl_pending c) 0 i = 0)) as [|Hne]; [done|].
      revert Hres. apply IH. destruct Hor as [Hor|Hor].
      + left. destruct (answered (reply_at rs j)); [|done]. destruct (xdata (reply_at rs j)); [|done].
        unfold afr_accused_fill. fold n. by rewrite bit_tab, Hi, Hor.
      + apply elem_of_cons in Hor as [<-|Hor]; [|by right]. left. rewrite Ha, Hx. unfold afr_accused_fill. fold n.
        rewrite bit_tab, Hi. cbn [afr_index_for_transaction_type andb]. rewrite (proj2 (Z.eqb_neq _ _) Hne). by rewrite orb_true_r. }
  apply (Hstep (seq 0 n) (replicate n false)); [|exact Hf]. right. apply elem_of_seq. lia.
Qed.
