(* ===== verification/AfrCopy.v ===== *)
(** * Replication: healing copies the source

    Every sink that still counts as healed when a heal ends has the content of
    the source, whatever failed in between, and whichever blocks were skipped
    because they are holes or because their checksums agree. *)

From Stdlib Require Import ZArith Lia Bool String.
From stdpp Require Import base list strings.
From S2P Require Import Prelude.
From S2P Require Import Afr.
From S2P Require Import AfrHeal.
From S2P Require Import AfrFacts.

Open Scope Z_scope.

(** ** Contents *)

Lemma resize_length m c : length (resize m c) = m.
Proof. unfold resize. rewrite length_app, length_take, length_replicate. lia. Qed.

Lemma resize_lookup m c k :
  (k < m)%nat -> resize m c !! k = if decide (k < length c)%nat then c !! k else Some 0.
Proof.
  intros Hk. unfold resize. destruct (decide (k < length c)%nat) as [H|H].
  - rewrite lookup_app_l by (rewrite length_take; lia). by rewrite lookup_take_lt.
  - rewrite lookup_app_r by (rewrite length_take; lia). rewrite length_take. apply lookup_replicate_2. lia.
Qed.

Lemma pwrite_length off bs c :
  (off + length bs <= length c)%nat -> length (pwrite off bs c) = length c.
Proof.
  intros H. unfold pwrite. case_decide; [done|]. rewrite !length_app, length_drop, resize_length. lia.
Qed.

Lemma pwrite_lookup off bs c k :
  (off + length bs <= length c)%nat ->
  pwrite off bs c !! k = if decide (off <= k < off + length bs)%nat then bs !! (k - off)%nat else c !! k.
Proof.
  intros H. unfold pwrite. destruct (decide (bs = [])) as [->|Hne].
  { cbn [length]. by rewrite decide_False by lia. }
  destruct (decide (k < off)%nat) as [Hk|Hk].
  - rewrite lookup_app_l by (rewrite resize_length; lia). rewrite resize_lookup by done.
    rewrite decide_True, decide_False by lia. done.
  - rewrite lookup_app_r by (rewrite resize_length; lia). rewrite resize_length.
    destruct (decide (k < off + length bs)%nat) as [Hk2|Hk2].
    + rewrite lookup_app_l by lia. by rewrite decide_True by lia.
    + rewrite lookup_app_r by lia. rewrite lookup_drop, decide_False by lia. f_equal. lia.
Qed.

Lemma block_lookup off size c k :
  block_of off size c !! k = if decide (k < size)%nat then c !! (off + k)%nat else None.
Proof.
  unfold block_of. destruct (decide (k < size)%nat) as [H|H].
  - by rewrite lookup_take_lt, lookup_drop.
  - rewrite lookup_take_ge by lia. done.
Qed.

Lemma block_length off size c : length (block_of off size c) = Nat.min size (length c - off).
Proof. unfold block_of. by rewrite length_take, length_drop. Qed.

Lemma zero_filled bs : iov_0filled bs = true -> bs = replicate (length bs) 0.
Proof.
  intros H. symmetry. apply replicate_as_elem_of. split; [done|]. intros x Hx.
  unfold iov_0filled in H. rewrite forallb_forall in H. apply list_elem_of_In, H in Hx. lia.
Qed.

(** ** Operations of other clients *)

(** Operations that every brick performs alike. *)

Definition perform_all (ops : list (operation * nat)) (c : list Z) : list Z :=
  foldl (fun c x => perform x.1 x.2 c) c ops.

(** A byte after an operation depends on the byte before it and on the length
    of the content. *)

Lemma perform_local op b c d k :
  length c = length d ->
  length (perform op b c) = length (perform op b d) /\
  (c !! k = d !! k -> perform op b c !! k = perform op b d !! k) /\
  (c !! k = Some 0 -> perform op b c !! k = perform op b d !! k \/ perform op b c !! k = Some 0).
Proof.
  intros Hl.
  assert (Hr : forall m, (c !! k = d !! k -> resize m c !! k = resize m d !! k) /\
    (c !! k = Some 0 -> resize m c !! k = resize m d !! k \/ resize m c !! k = Some 0)).
  { intros m. destruct (decide (k < m)%nat) as [Hk|Hk].
    - rewrite !resize_lookup, <- Hl by done. case_decide; [|by split; [|left]]. by split; [|right].
    - rewrite !(lookup_ge_None_2 (resize _ _)) by (rewrite resize_length; lia). by split; [|left]. }
  destruct op as [off bs|m]; cbn [perform]; [|split; [by rewrite !resize_length|apply Hr]].
  unfold pwrite. case_decide as Hn; [split; [done|]; by split; [|right]|].
  split; [by rewrite !length_app, !resize_length, !length_drop, Hl|].
  destruct (decide (k < off)%nat) as [Hk|Hk].
  { rewrite !lookup_app_l by (rewrite resize_length; lia). apply Hr. }
  rewrite !(lookup_app_r (resize _ _)) by (rewrite resize_length; lia). rewrite !resize_length.
  destruct (decide (k - off < length (take b bs))%nat) as [Hk2|Hk2].
  - rewrite !lookup_app_l by done. by split; [|left].
  - rewrite !lookup_app_r by lia. rewrite !lookup_drop.
    replace (off + length (take b bs) + (k - off - length (take b bs)))%nat with k by lia. by split; [|right].
Qed.

Lemma perform_all_length ops c d : length c = length d -> length (perform_all ops c) = length (perform_all ops d).
Proof.
  unfold perform_all. revert c d. induction ops as [|[op b] ops IH]; intros c d Hl; [done|]. cbn [foldl fst snd].
  apply IH. by apply (perform_local op b c d 0).
Qed.

(** ** The state of a sink *)

Section copy.

Context (priv : afr_private) (rchecksum : list Z -> list Z).
Context (rs : list lookup_reply) (source : nat) (end_ : nat) (old : nat -> nat).

Abbreviation n := (child_count priv).

(** Bytes before [off] are those of the source, and so are those after the end
    that the source had when the sinks were truncated; where a sink had no bytes
    it has zeros or the bytes of the source. *)

Record upto (S : list Z) (i off : nat) (c : list Z) : Prop := {
  upto_length : length c = length S;
  upto_same : forall k, (k < off)%nat \/ (end_ <= k)%nat -> c !! k = S !! k;
  upto_rest : forall k, (old i <= k)%nat -> c !! k = S !! k \/ c !! k = Some 0
}.

Lemma upto_block S i off size c :
  upto S i off c -> block_of off size c = block_of off size S -> upto S i (off + size) c.
Proof.
  intros [Hl Hs Hz] Hb. split; [done| |done].
  intros k Hk. destruct (decide (k < off)%nat) as [|Hge]; [apply Hs; lia|].
  destruct (decide (k < off + size)%nat) as [Hlt|]; [|apply Hs; lia].
  apply (f_equal (fun l => l !! (k - off)%nat)) in Hb. rewrite !block_lookup, !decide_True in Hb by lia.
  by replace (off + (k - off))%nat with k in Hb by lia.
Qed.

Lemma upto_write S i off size c :
  upto S i off c -> (off <= length S)%nat -> upto S i (off + size) (pwrite off (block_of off size S) c).
Proof.
  intros [Hl Hs Hz] Ho. pose proof (block_length off size S) as Hbl.
  assert (Hfit : (off + length (block_of off size S) <= length c)%nat) by lia.
  assert (Hin : forall k, (off <= k < off + length (block_of off size S))%nat ->
            block_of off size S !! (k - off)%nat = S !! k).
  { intros k Hk. rewrite block_lookup, decide_True by lia. f_equal. lia. }
  split; [by rewrite pwrite_length| |].
  - intros k Hk. rewrite pwrite_lookup by done. case_decide as Hd; [by apply Hin|].
    destruct (decide (k < off)%nat); [apply Hs; lia|]. destruct (decide (end_ <= k)%nat); [apply Hs; lia|].
    rewrite !lookup_ge_None_2; [done|lia..].
  - intros k Hk. rewrite pwrite_lookup by done. case_decide as Hd; [left; by apply Hin|by apply Hz].
Qed.

Lemma upto_end S i off c : upto S i off c -> (end_ <= off)%nat -> c = S.
Proof. intros [Hl Hs _] Ho. apply list_eq. intros k. apply Hs. lia. Qed.

Lemma upto_perform S i off c ops : upto S i off c -> upto (perform_all ops S) i off (perform_all ops c).
Proof.
  unfold perform_all. revert S c. induction ops as [|[op b] ops IH]; intros S c Hu; [done|]. cbn [foldl fst snd].
  apply IH. destruct Hu as [Hl Hs Hz]. split.
  - by apply (perform_local op b c S 0).
  - intros k Hk. destruct (perform_local op b c S k Hl) as (_ & H & _). by apply H, Hs.
  - intros k Hk. destruct (perform_local op b c S k Hl) as (_ & H1 & H2).
    destruct (Hz k Hk) as [H|H]; [left; by apply H1|by apply H2].
Qed.

Lemma zero_blocks S off size c :
  length c = length S -> iov_0filled (block_of off size S) = true ->
  (forall k, (k < length (block_of off size S))%nat -> c !! (off + k)%nat = Some 0) ->
  block_of off size c = block_of off size S.
Proof.
  intros Hl Hz Hc. rewrite (zero_filled _ Hz). apply list_eq. intros k.
  pose proof (block_length off size S). pose proof (block_length off size c).
  destruct (decide (k < length (block_of off size S))%nat) as [Hk|Hk].
  - rewrite block_lookup, decide_True by lia. rewrite Hc by done. symmetry. by apply lookup_replicate_2.
  - rewrite !lookup_ge_None_2; [done|rewrite length_replicate; lia|lia].
Qed.

(** ** One block *)

(** The contents while a block is healed: the sinks in [done] are finished. *)

Record block_inv (S : list Z) (off size : nat) (done : nat -> bool) (cs0 cs : list (list Z)) (healed0 healed : list bool)
    : Prop := {
  bi_length : length cs = length cs0;
  bi_healed : length healed = length healed0;
  bi_sub : forall i, bit healed i = true -> bit healed0 i = true;
  bi_other : forall i, bit healed0 i = false -> content_at cs i = content_at cs0 i;
  bi_sink : forall i, bit healed i = true -> upto S i (if done i then off + size else off) (content_at cs i)
}.

Lemma content_insert cs i c j :
  (i < length cs)%nat -> content_at (<[i := c]> cs) j = if Nat.eqb i j then c else content_at cs j.
Proof.
  intros Hi. unfold content_at. destruct (Nat.eqb_spec i j) as [<-|Hne].
  - apply nth_lookup_Some. by apply list_lookup_insert_eq.
  - destruct (decide (j < length cs)%nat) as [Hj|Hj].
    + destruct (lookup_lt_is_Some_2 cs j Hj) as [d Hd]. rewrite (nth_lookup_Some cs j [] d Hd).
      apply nth_lookup_Some. by rewrite list_lookup_insert_ne.
    + rewrite !nth_overflow; [done|lia|rewrite length_insert; lia].
Qed.

Section block.

Context (S : list Z) (cs0 : list (list Z)) (healed0 : list bool).
Context (Hn : length cs0 = n) (Hh : length healed0 = n) (Hs0 : bit healed0 source = false).
Context (HS : content_at cs0 source = S).
Context (Hold : forall i, bit healed0 i = true -> ia_size (reply_at rs i) = Z.of_nat (old i)).

Definition finish (i : nat) (done : nat -> bool) : nat -> bool := fun j => Nat.eqb i j || done j.

(** A sink that needs no write, or that got all of it, is finished. *)

Lemma block_inv_finish off size done cs healed i :
  block_inv S off size done cs0 cs healed0 healed -> done i = false ->
  (bit healed i = true -> upto S i (off + size) (content_at cs i)) ->
  block_inv S off size (finish i done) cs0 cs healed0 healed.
Proof.
  intros [H1 H2 H3 H4 H5] Hd Hi. split; try done. intros j Hj. unfold finish.
  destruct (Nat.eqb_spec i j) as [<-|Hne]; cbn [orb]; [by apply Hi|by apply H5].
Qed.

Lemma block_inv_write off size done cs healed i c (b : bool) :
  block_inv S off size done cs0 cs healed0 healed -> done i = false -> bit healed i = true ->
  (b = true -> upto S i (off + size) c) ->
  block_inv S off size (finish i done) cs0 (<[i := c]> cs) healed0 (if b then healed else <[i := false]> healed).
Proof.
  intros [H1 H2 H3 H4 H5] Hd Hi Hb.
  assert (Hl : (i < length cs)%nat) by (apply H3, bit_length in Hi; lia).
  assert (Hl' : (i < length healed)%nat) by (by apply bit_length).
  split.
  - by rewrite length_insert.
  - destruct b; [done|]. by rewrite length_insert.
  - intros j Hj. destruct b; [by apply H3|]. rewrite bit_insert in Hj by done. destruct (Nat.eqb i j); [done|by apply H3].
  - intros j Hj. rewrite content_insert by done. destruct (Nat.eqb_spec i j) as [<-|]; [|by apply H4].
    apply H3 in Hi. congruence.
  - intros j Hj. rewrite content_insert by done. unfold finish. destruct (Nat.eqb_spec i j) as [<-|Hne].
    + destruct b; [by apply Hb|]. rewrite bit_insert, Nat.eqb_refl in Hj by done. done.
    + cbn [orb]. apply H5. destruct b; [done|]. rewrite bit_insert in Hj by done.
      by destruct (Nat.eqb_spec i j).
Qed.

Lemma heal_sink_inv env type off size done cs healed ret i :
  block_inv S off size done cs0 cs healed0 healed -> done i = false ->
  (off < length S)%nat ->
  let '(cs', healed', _) :=
    heal_sink rs env type source off size (block_of off size S) (cs, healed, ret) i in
  block_inv S off size (finish i done) cs0 cs' healed0 healed'.
Proof.
  intros Hinv Hd Ho. unfold heal_sink. pose proof (block_length off size S) as Hbl.
  destruct (bit healed i) eqn:Hi; cbn [negb]; [|apply block_inv_finish; [done..|congruence]].
  pose proof (bi_sub _ _ _ _ _ _ _ _ Hinv i Hi) as Hi0. rewrite (Hold i Hi0).
  pose proof (bi_sink _ _ _ _ _ _ _ _ Hinv i Hi) as Hu. rewrite Hd in Hu.
  match goal with |- context [if ?b then (cs, healed, ret) else _] => destruct b eqn:E1 end.
  { apply block_inv_finish; [done..|]. intros _. apply upto_block; [done|].
    rewrite !andb_true_iff, negb_true_iff in E1. destruct E1 as [[[_ E1] E2] E3].
    apply zero_blocks; [apply Hu|done|]. intros k Hk.
    assert (Hz : S !! (off + k)%nat = Some 0).
    { pose proof (zero_filled _ E3) as Hz. apply (f_equal (fun l => l !! k)) in Hz.
      rewrite block_lookup, decide_True, lookup_replicate_2 in Hz by lia. exact Hz. }
    destruct (upto_rest _ _ _ _ Hu (off + k)) as [->|]; [lia|done..]. }
  match goal with |- context [if ?b then (cs, healed, ret) else _] => destruct b eqn:E2 end.
  { apply block_inv_finish; [done..|]. intros _. apply upto_block; [done|].
    rewrite !andb_true_iff in E2. destruct E2 as [[_ E2] E3]. apply zero_blocks; [apply Hu|done|].
    intros k Hk. unfold __afr_is_sink_zero_filled in E3. apply andb_true_iff in E3 as [_ E3].
    pose proof (zero_filled _ E3) as Hz. apply (f_equal (fun l => l !! k)) in Hz.
    pose proof (block_length off size (content_at cs i)). pose proof (upto_length _ _ _ _ Hu).
    rewrite block_lookup, decide_True, lookup_replicate_2 in Hz by lia. exact Hz. }
  set (iov := block_of off size S) in *.
  assert (Hw : forall k, k = length iov -> upto S i (off + size) (pwrite off (take k iov) (content_at cs i))).
  { intros k ->. rewrite take_ge by lia. apply upto_write; [done|lia]. }
  destruct (nth i (be_write env) WDone) as [|k|e k].
  - rewrite Z.eqb_refl. cbn [negb]. apply (block_inv_write off size done cs healed i _ true); auto.
  - destruct (Z.eqb_spec (Z.of_nat k) (Z.of_nat (length iov))) as [E|E]; cbn [negb].
    + apply (block_inv_write off size done cs healed i _ true); auto. intros _. apply Hw. lia.
    + by apply (block_inv_write off size done cs healed i _ false).
  - destruct (Z.eqb_spec (Z.neg e) (Z.of_nat (length iov))) as [E|E]; [lia|]. cbn [negb].
    by apply (block_inv_write off size done cs healed i _ false).
Qed.

Lemma block_inv_ext off size done done' cs healed :
  (forall i, done i = done' i) -> block_inv S off size done cs0 cs healed0 healed ->
  block_inv S off size done' cs0 cs healed0 healed.
Proof. intros He [H1 H2 H3 H4 H5]. split; try done. intros i Hi. rewrite <- He. by apply H5. Qed.

Lemma heal_sinks_inv env type off size m a cs healed ret :
  block_inv S off size (fun j => (j <? a)%nat) cs0 cs healed0 healed -> (off < length S)%nat ->
  let '(cs', healed', _) :=
    foldl (heal_sink rs env type source off size (block_of off size S)) (cs, healed, ret) (seq a m) in
  block_inv S off size (fun j => (j <? a + m)%nat) cs0 cs' healed0 healed'.
Proof.
  intros Hinv Ho. revert a cs healed ret Hinv. induction m as [|m IH]; intros a cs healed ret Hinv.
  - cbn [seq foldl]. by rewrite Nat.add_0_r.
  - cbn [seq foldl]. pose proof (heal_sink_inv env type off size _ cs healed ret a Hinv (Nat.ltb_irrefl a) Ho) as Hs.
    destruct (heal_sink _ _ _ _ _ _ _ _ a) as [[cs1 healed1] ret1].
    replace (a + Datatypes.S m)%nat with (Datatypes.S a + m)%nat by lia. apply IH. refine (block_inv_ext _ _ _ _ _ _ _ Hs).
    intros j. unfold finish. destruct (Nat.eqb_spec a j), (Nat.ltb_spec j a), (Nat.ltb_spec j (Datatypes.S a)); cbn; lia.
Qed.

End block.

(** Before and after a block, for all sinks, with the source as it is then. *)

Record blocks_inv (S : list Z) (off : nat) (cs : list (list Z)) (healed : list bool) : Prop := {
  bs_length : length cs = n;
  bs_healed : length healed = n;
  bs_source : content_at cs source = S;
  bs_not_source : bit healed source = false;
  bs_sizes : forall i, bit healed i = true -> ia_size (reply_at rs i) = Z.of_nat (old i);
  bs_sink : forall i, bit healed i = true -> upto S i off (content_at cs i)
}.

(** Other clients perform operations on all bricks alike. *)

Lemma content_perform ops cs i :
  (i < length cs)%nat -> content_at (perform_all ops <$> cs) i = perform_all ops (content_at cs i).
Proof.
  intros Hi. destruct (lookup_lt_is_Some_2 cs i Hi) as [c Hc]. unfold content_at.
  rewrite (nth_lookup_Some cs i [] c Hc). apply nth_lookup_Some. by rewrite list_lookup_fmap, Hc.
Qed.

Lemma blocks_inv_perform S off cs healed ops :
  (source < n)%nat -> blocks_inv S off cs healed ->
  blocks_inv (perform_all ops S) off (perform_all ops <$> cs) healed.
Proof.
  intros Hsrc [H1 H2 H3 H4 H5 H6]. split; try done.
  - by rewrite length_fmap.
  - rewrite content_perform by lia. by rewrite H3.
  - intros i Hi. assert (i < n)%nat by (apply bit_length in Hi; lia).
    rewrite content_perform by lia. by apply upto_perform, H6.
Qed.

Lemma blocks_inv_same S off size cs healed :
  blocks_inv S off cs healed ->
  (forall i, bit healed i = true -> block_of off size (content_at cs i) = block_of off size S) ->
  blocks_inv S (off + size) cs healed.
Proof. intros [H1 H2 H3 H4 H5 H6] Hb. split; try done. intros i Hi. apply upto_block; [by apply H6|by apply Hb]. Qed.

(** Where checksums are compared, equal ones mean equal blocks. A sink whose
    checksum could not be had counts as sixteen zeros. *)

Definition trusted_block (off size : nat) (cs : list (list Z)) (healed : list bool) : Prop :=
  let sum i := rchecksum (block_of off size (content_at cs i)) in
  sum source <> replicate 16 0 /\
  forall i, bit healed i = true -> sum source = sum i ->
    block_of off size (content_at cs source) = block_of off size (content_at cs i).

Lemma matching_blocks env off size cs healed i :
  trusted_block off size cs healed -> length healed = n -> bit healed source = false ->
  __afr_selfheal_data_checksums_match priv rchecksum env source healed off size cs = true ->
  bit healed i = true -> block_of off size (content_at cs i) = block_of off size (content_at cs source).
Proof.
  intros [Hnz Hsum] Hl Hs E Hi. unfold __afr_selfheal_data_checksums_match in E.
  apply andb_true_iff in E as [_ E]. rewrite forallb_forall in E.
  assert (Hlt : (i < n)%nat) by (apply bit_length in Hi; lia).
  specialize (E i ltac:(apply in_seq; lia)).
  destruct (Nat.eqb_spec i source) as [->|Hne]; [congruence|]. rewrite Hi in E. cbn [orb negb] in E.
  apply bool_decide_eq_true in E. destruct (bit (be_checksum env) i); [by rewrite <- Hsum|by destruct Hnz].
Qed.

Context (size : nat).

Lemma data_block_inv S env type off cs healed :
  blocks_inv S off cs healed -> (type = AFR_SELFHEAL_DATA_DIFF -> trusted_block off size cs healed) ->
  let '(cs', healed', ret) := afr_selfheal_data_block priv rchecksum rs env type source off size cs healed in
  0 <= ret ->
  blocks_inv S (off + size) cs' healed' /\ (forall i, bit healed' i = true -> bit healed i = true) /\
  (forall i, bit healed i = false -> content_at cs' i = content_at cs i).
Proof.
  intros Hinv Htr. pose proof Hinv as [H1 H2 H3 H4 H5 H6]. unfold afr_selfheal_data_block.
  destruct (be_locked env <? AFR_COUNT healed); [unfold ENOTCONN; lia|].
  match goal with |- context [if ?b then (cs, healed, 0) else _] => destruct b eqn:E end.
  - intros _. split_and!; [|done..]. apply blocks_inv_same; [done|]. intros i Hi. destruct type; [done|].
    cbn [andb] in E. rewrite <- H3. by apply (matching_blocks env off size cs healed i (Htr eq_refl)).
  - unfold __afr_selfheal_data_read_write. destruct (be_read env); [lia|]. rewrite H3. case_decide as Hnil.
    + intros _. split_and!; [|done..]. apply blocks_inv_same; [done|]. intros i Hi. rewrite Hnil.
      pose proof (upto_length _ _ _ _ (H6 i Hi)) as Hl.
      apply nil_length_inv. rewrite block_length, Hl, <- block_length, Hnil. done.
    + assert (Ho : (off < length S)%nat).
      { destruct (decide (off < length S)%nat) as [|Hge]; [done|]. destruct Hnil. apply nil_length_inv. rewrite block_length. lia. }
      pose proof (heal_sinks_inv S cs healed H1 H2 H5 env type off size n 0 cs healed
        (Z.of_nat (length (block_of off size S)))) as Hf.
      destruct (foldl _ _ _) as [[cs1 healed1] ret1]. intros _.
      destruct Hf as [B1 B2 B3 B4 B5]; [by split|done|]. split_and!; [|done..]. split.
      * congruence.
      * congruence.
      * by rewrite B4.
      * destruct (bit healed1 source) eqn:Es; [|done]. apply B3 in Es. congruence.
      * intros i Hi. by apply H5, B3.
      * intros i Hi. specialize (B5 i Hi). rewrite (proj2 (Nat.ltb_lt i (0 + n))) in B5; [done|].
        apply B3, bit_length in Hi. lia.
Qed.

(** The loop, with operations of other clients between the blocks. *)

Section loop.

Context (type : heal_type) (others : nat -> list (list Z) -> list (list Z)) (envs : nat -> block_env).

(** No checksums collide in a run of the loop. *)

Fixpoint trusted (k off : nat) (cs : list (list Z)) (healed : list bool) : Prop :=
  match k with
  | O => True
  | Datatypes.S k =>
      trusted_block off size (others off cs) healed /\
      let '(cs', healed', _) :=
        afr_selfheal_data_block priv rchecksum rs (envs off) type source off size (others off cs) healed in
      trusted k (off + size) cs' healed'
  end.

Context (ops : nat -> list (operation * nat)) (Hops : forall off cs, others off cs = perform_all (ops off) <$> cs).

(** The operations during the loop. *)

Fixpoint during (k off : nat) : list (operation * nat) :=
  match k with O => ops off | Datatypes.S k => ops off ++ during k (off + size) end.

Lemma heal_blocks_inv S k off cs healed :
  (source < n)%nat -> blocks_inv S off cs healed ->
  (type = AFR_SELFHEAL_DATA_DIFF -> trusted k off cs healed) ->
  let '(cs', healed', ret) := heal_blocks priv rchecksum rs type source size others envs k off cs healed in
  ret <= 0 /\
  (0 <= ret -> blocks_inv (perform_all (during k off) S) (off + k * size) cs' healed' /\
     (forall i, bit healed' i = true -> bit healed i = true) /\
     (forall i, (i < n)%nat -> bit healed i = false ->
        content_at cs' i = perform_all (during k off) (content_at cs i))).
Proof.
  intros Hsrc. revert S off cs healed. induction k as [|k IH]; intros S off cs healed Hinv Htr; cbn [heal_blocks during].
  - split; [done|]. intros _. replace (off + 0 * size)%nat with off by lia. rewrite Hops.
    split_and!; [by apply blocks_inv_perform|done|]. intros i Hi _. apply content_perform.
    by rewrite (bs_length _ _ _ _ Hinv).
  - destruct (AFR_COUNT healed =? 0); [unfold ENOTCONN; split; lia|].
    assert (Hl : forall i, (i < n)%nat -> (i < length cs)%nat) by (by rewrite (bs_length _ _ _ _ Hinv)).
    pose proof (data_block_inv _ (envs off) type off _ healed (blocks_inv_perform S off cs healed (ops off) Hsrc Hinv)) as Hb.
    cbn [trusted] in Htr. rewrite Hops in Htr |- *.
    destruct (afr_selfheal_data_block _ _ _ _ _ _ _ _ _ _) as [[cs1 healed1] ret1].
    destruct (Z.ltb_spec ret1 0); [split; lia|].
    destruct Hb as (Hb1 & Hb2 & Hb3); [intros Ht; by apply Htr|lia|].
    specialize (IH _ (off + size)%nat cs1 healed1 Hb1 ltac:(intros Ht; by apply Htr)).
    replace (off + Datatypes.S k * size)%nat with (off + size + k * size)%nat by lia.
    destruct (heal_blocks _ _ _ _ _ _ _ _ _ _ _ _) as [[cs2 healed2] ret2]. destruct IH as [Hle IH]. split; [done|].
    intros H0. destruct (IH H0) as (I1 & I2 & I3). unfold perform_all at 1. rewrite foldl_app. split_and!; [done|by auto|].
    intros i Hi Hh.
    assert (Hh1 : bit healed1 i = false) by (destruct (bit healed1 i) eqn:E; [apply Hb2 in E; congruence|done]).
    rewrite I3, Hb3, content_perform by auto. unfold perform_all. by rewrite foldl_app.
Qed.

End loop.

End copy.

(** ** A whole file *)

Lemma truncate_contents priv answers size cs healed i :
  length cs = child_count priv ->
  content_at (__afr_selfheal_truncate_sinks priv answers size cs healed).1 i =
    (if bit healed i && (match nth i answers TDone with TDone => true | TFailed p => p end) && (i <? length cs)%nat
     then resize (Z.to_nat size) (content_at cs i) else content_at cs i).
Proof.
  intros Hn. cbn [__afr_selfheal_truncate_sinks fst]. unfold content_at.
  destruct (Nat.ltb_spec i (length cs)) as [Hi|Hi].
  - destruct (lookup_lt_is_Some_2 cs i Hi) as [c Hc]. rewrite (nth_lookup_Some cs i [] c Hc), andb_true_r.
    apply nth_lookup_Some. by rewrite list_lookup_imap, Hc.
  - rewrite andb_false_r, !nth_overflow; [done|lia|rewrite length_imap; lia].
Qed.

Lemma block_count_enough size block :
  (0 < block)%nat -> (size <= block_count (Z.of_nat size) block * block)%nat.
Proof.
  intros Hb. unfold block_count.
  pose proof (Z.div_mod (Z.of_nat size + Z.of_nat block - 1) (Z.of_nat block) ltac:(lia)).
  pose proof (Z.mod_pos_bound (Z.of_nat size + Z.of_nat block - 1) (Z.of_nat block) ltac:(lia)). nia.
Qed.

Lemma BLOCK_pos : (0 < BLOCK)%nat.
Proof. apply (Z2Nat.inj_lt 0 (128 * 1024)); lia. Qed.

Lemma truncated_inv priv rs source answers cs healed :
  length cs = child_count priv -> length healed = child_count priv -> bit healed source = false ->
  (forall i, bit healed i = true -> ia_size (reply_at rs i) = Z.of_nat (length (content_at cs i))) ->
  let '(cs1, healed1) :=
    __afr_selfheal_truncate_sinks priv answers (Z.of_nat (length (content_at cs source))) cs healed in
  (forall i, bit healed1 i = true -> bit healed i = true) /\
  blocks_inv priv rs source (length (content_at cs source)) (fun i => length (content_at cs i))
    (content_at cs source) 0 cs1 healed1.
Proof.
  intros Hn Hh Hs Hsize. set (S := content_at cs source).
  pose proof (fun i => truncate_contents priv answers (Z.of_nat (length S)) cs healed i Hn) as Ht.
  destruct (__afr_selfheal_truncate_sinks _ _ _ _ _) as [cs1 healed1] eqn:E. cbn [fst] in Ht.
  unfold __afr_selfheal_truncate_sinks in E. injection E as Ecs Eh.
  assert (Hb : forall i, bit healed1 i = true ->
            bit healed i = true /\ nth i answers TDone = TDone /\ (i < length cs)%nat).
  { intros i Hi. rewrite <- Eh, bit_tab in Hi. rewrite !andb_true_iff in Hi. destruct Hi as (Hi & Hj & Hk).
    apply Nat.ltb_lt in Hi. destruct (nth i answers TDone); [|done]. by rewrite Hn. }
  split; [intros i Hi; by apply Hb|]. split.
  - by rewrite <- Ecs, length_imap.
  - by rewrite <- Eh, tab_length.
  - by rewrite Ht, Hs.
  - destruct (bit healed1 source) eqn:E; [|done]. apply Hb in E as [E _]. congruence.
  - intros i Hi. by apply Hsize, Hb.
  - intros i Hi. apply Hb in Hi as (Hi & Ha & Hl). apply Nat.ltb_lt in Hl.
    rewrite Ht, Hi, Ha, Hl, Nat2Z.id. cbn [andb]. split.
    + by rewrite resize_length.
    + intros k Hk. rewrite !lookup_ge_None_2; [done|lia|rewrite resize_length; lia].
    + intros k Hk. destruct (decide (k < length S)%nat) as [Hlt|Hge].
      * right. rewrite resize_lookup by done. by rewrite decide_False by lia.
      * left. rewrite !lookup_ge_None_2; [done|lia|rewrite resize_length; lia].
Qed.

Section whole.

Context (priv : afr_private) (rchecksum : list Z -> list Z) (algorithm : option string).

(** The sinks are truncated, the blocks are copied, and the result is what
    __afr_selfheal_data uses. *)

Definition heal_file (rs : list lookup_reply) (source : nat) (env : heal_env) (cs : list (list Z))
    (healed : list bool) : list (list Z) * list bool * Z :=
  let '(cs, healed) := __afr_selfheal_truncate_sinks priv (he_truncate env)
                         (ia_size (reply_at rs source)) cs healed in
  afr_selfheal_data_do priv rchecksum algorithm rs source BLOCK (he_others env) (he_blocks env) (he_fsync env) cs healed.

(** Checksums, where they are used, do not collide. *)

Definition no_collision (rs : list lookup_reply) (source : nat) (env : heal_env) (cs : list (list Z))
    (healed : list bool) : Prop :=
  let '(cs, healed) := __afr_selfheal_truncate_sinks priv (he_truncate env)
                         (ia_size (reply_at rs source)) cs healed in
  afr_data_self_heal_type_get priv algorithm rs healed source = AFR_SELFHEAL_DATA_DIFF ->
  trusted priv rchecksum rs source BLOCK AFR_SELFHEAL_DATA_DIFF (he_others env) (he_blocks env)
    (block_count (ia_size (reply_at rs source)) BLOCK) 0 cs healed.

(** Other clients perform operations on all bricks alike, and have ended their
    transactions before the counters are updated. *)

Record alike (ops : nat -> list (operation * nat)) (env : heal_env) : Prop := {
  al_contents : forall off cs, he_others env off cs = perform_all (ops off) <$> cs;
  al_marks : forall ls, he_marks env ls = ls
}.

(** All of them, in order. *)

Definition meanwhile (ops : nat -> list (operation * nat)) (size : Z) : list (operation * nat) :=
  during BLOCK ops (block_count size BLOCK) 0.

Lemma heal_file_copies rs source env ops cs healed :
  alike ops env -> no_collision rs source env cs healed -> (source < child_count priv)%nat ->
  length cs = child_count priv -> length healed = child_count priv -> bit healed source = false ->
  (forall i, i = source \/ bit healed i = true ->
     ia_size (reply_at rs i) = Z.of_nat (length (content_at cs i))) ->
  let done := meanwhile ops (ia_size (reply_at rs source)) in
  let '(cs', healed', ret) := heal_file rs source env cs healed in
  ret = 0 ->
  length cs' = child_count priv /\ length healed' = child_count priv /\
  (forall i, bit healed' i = true ->
     bit healed i = true /\ content_at cs' i = perform_all done (content_at cs source)) /\
  (forall i, (i < child_count priv)%nat -> bit healed i = false ->
     content_at cs' i = perform_all done (content_at cs i)).
Proof.
  intros Hal Hcol Hlt Hn Hh Hs Hsize. unfold heal_file, no_collision, meanwhile in *.
  rewrite (Hsize source) in * by (by left).
  pose proof (truncated_inv priv rs source (he_truncate env) cs healed Hn Hh Hs (fun i Hi => Hsize i (or_intror Hi))) as Ht.
  pose proof (fun i => truncate_contents priv (he_truncate env) (Z.of_nat (length (content_at cs source))) cs healed i Hn)
    as Hc.
  destruct (__afr_selfheal_truncate_sinks _ _ _ _ _) as [cs1 healed1]. destruct Ht as (Hsub & Hinv).
  cbn [fst] in Hc. unfold afr_selfheal_data_do. rewrite (Hsize source) by (by left).
  set (type := afr_data_self_heal_type_get _ _ _ _ _) in *.
  pose proof (heal_blocks_inv priv rchecksum rs source _ _ BLOCK type (he_others env) (he_blocks env) ops (al_contents _ _ Hal)
    _ (block_count (Z.of_nat (length (content_at cs source))) BLOCK) 0 cs1 healed1 Hlt Hinv) as Hb.
  destruct (heal_blocks _ _ _ _ _ _ _ _ _ _ _ _) as [[cs2 healed2] ret2].
  destruct Hb as [Hle Hb]; [intros Ht; rewrite Ht in *; by apply Hcol|].
  destruct (Z.ltb_spec ret2 0) as [Hneg|Hge]; [intros ->; lia|]. intros _.
  destruct Hb as (Hb & Hsub2 & Hoth); [lia|]. split_and!.
  - apply Hb.
  - unfold afr_selfheal_data_fsync. by rewrite tab_length.
  - intros i Hi. unfold afr_selfheal_data_fsync in Hi. rewrite bit_tab in Hi. apply andb_true_iff in Hi as [_ Hi].
    apply andb_true_iff in Hi as [Hi _]. split; [by apply Hsub, Hsub2|].
    apply (upto_end _ _ _ _ _ _ (bs_sink _ _ _ _ _ _ _ _ _ Hb i Hi)).
    apply block_count_enough, BLOCK_pos.
  - intros i Hi Hf. assert (Hi1 : bit healed1 i = false).
    { destruct (bit healed1 i) eqn:E; [|done]. apply Hsub in E. congruence. }
    by rewrite (Hoth i Hi Hi1), Hc, Hf.
Qed.

End whole.
