(* ===== verification/AfrDirection.v ===== *)
(** * Replication: the direction of a heal

    Which bricks a heal can take as its source, and that the choice of one is
    always defined. *)

From Stdlib Require Import ZArith Lia Bool String.
From stdpp Require Import base list strings.
From S2P Require Import Prelude.
From S2P Require Import Afr.
From S2P Require Import AfrHeal.
From S2P Require Import AfrFacts.

Open Scope Z_scope.

(** ** Maxima *)

Section maxima.

Context (f : nat -> Z) (p : nat -> bool).

(** Both comparisons of the code, strict and not, find a maximum. *)

Lemma fold_max (le : Z -> Z -> bool) l b0 :
  (forall a b, a < b -> le a b = true) -> (forall a b, le a b = true -> a <= b) ->
  let m := foldl (fun b i => if p i && le b (f i) then f i else b) b0 l in
  b0 <= m /\ (m = b0 \/ exists i, i ∈ l /\ p i = true /\ m = f i) /\ (forall i, i ∈ l -> p i = true -> f i <= m).
Proof.
  intros H1 H2. revert b0. induction l as [|x l IH]; intros b0; cbn [foldl].
  { split; [lia|]. split; [by left|]. intros i Hi. by apply not_elem_of_nil in Hi. }
  set (b1 := if p x && le b0 (f x) then f x else b0). destruct (IH b1) as (A & B & C).
  assert (Hb : b0 <= b1 /\ (b1 = b0 \/ (p x = true /\ b1 = f x)) /\ (p x = true -> f x <= b1)).
  { unfold b1. destruct (p x) eqn:Hp; cbn [andb]; [|split_and!; [lia|by left|done]].
    destruct (le b0 (f x)) eqn:E; [apply H2 in E; split_and!; [lia|by right|lia]|].
    split_and!; [lia|by left|]. intros _. destruct (Z_lt_le_dec b0 (f x)) as [Hlt|]; [|lia].
    apply H1 in Hlt. congruence. }
  destruct Hb as (Hb1 & Hb2 & Hb3). split_and!; [lia| |].
  - destruct B as [B|(i & Hi & B)]; [|right; exists i; split; [by apply list_elem_of_further|done]].
    destruct Hb2 as [E|(Hp & E)]; [left; congruence|]. right. exists x. split_and!; [apply list_elem_of_here|done|congruence].
  - intros i Hi Hp. apply elem_of_cons in Hi as [->|Hi]; [specialize (Hb3 Hp); lia|by apply C].
Qed.

End maxima.

Lemma elem_of_children n i : i ∈ seq 0 n <-> (i < n)%nat.
Proof. rewrite elem_of_seq. lia. Qed.

Section direction.

Context (priv : afr_private) (names : list string).

Abbreviation n := (child_count priv).

Lemma exists_child_true f : exists_child priv f = true <-> exists i, (i < n)%nat /\ f i = true.
Proof.
  unfold exists_child. rewrite existsb_exists. split; intros (i & H1 & H2); exists i; (split; [|done]).
  - apply in_seq in H1. lia.
  - apply in_seq. lia.
Qed.

Lemma exists_child_false f : exists_child priv f = false <-> forall i, (i < n)%nat -> f i = false.
Proof.
  rewrite <- not_true_iff_false, exists_child_true. split.
  - intros H i Hi. destruct (f i) eqn:E; [|done]. destruct H. by exists i.
  - intros H (i & Hi & E). rewrite H in E; done.
Qed.

(** ** Accusations *)

(** The value that brick [k] holds for brick [i] in a lookup. *)

Definition accusation (rs : list lookup_reply) (k i : nat) : Z :=
  match xdata (reply_at rs k) with
  | Some c => pending_at (cl_pending c) 0 i
  | None => 0
  end.

Lemma cell_extract rs i j :
  (i < n)%nat -> (j < n)%nat ->
  cell (afr_selfheal_extract_xattr priv rs AFR_DATA_TRANSACTION).2 i j = accusation rs i j.
Proof.
  intros Hi Hj. unfold cell, afr_selfheal_extract_xattr, accusation. cbn [snd afr_index_for_transaction_type].
  rewrite nth_tab. apply Nat.ltb_lt in Hi. rewrite Hi. destruct (xdata (reply_at rs i)) as [c|].
  - unfold afr_selfheal_fill_matrix. rewrite nth_tab. apply Nat.ltb_lt in Hj. by rewrite Hj.
  - apply nth_lookup_Some. by apply lookup_replicate_2.
Qed.

(** A brick is innocent when only bricks that accuse themselves accuse it. *)

Definition innocent (rs : list lookup_reply) (i : nat) : Prop :=
  forall k, (k < n)%nat -> accusation rs k i <> 0 -> accusation rs k k <> 0.

Lemma direction_spec rs locked_on :
  2 <= afr_success_count priv rs ->
  exists d, afr_selfheal_find_direction priv rs AFR_DATA_TRANSACTION locked_on = inr d /\
    length (sources d) = n /\ length (sinks d) = n /\
    (forall i, 0 <= nth i (witness d) 0) /\
    (forall i, bit (sources d) i = true <-> (i < n)%nat /\ bit locked_on i = true /\ innocent rs i) /\
    (forall i, bit (sources d) i = true -> bit (sinks d) i = false) /\
    (forall i j, bit (sources d) i = true -> accusation rs i i = 0 -> (j < n)%nat -> accusation rs i j <> 0 ->
       bit (sinks d) j = true).
Proof.
  intros Hc. unfold afr_selfheal_find_direction.
  replace (afr_success_count priv rs <? AFR_SH_MIN_PARTICIPANTS) with false
    by (symmetry; apply Z.ltb_ge; exact Hc).
  pose proof (cell_extract rs) as Hcell.
  destruct (afr_selfheal_extract_xattr priv rs AFR_DATA_TRANSACTION) as [dirty matrix]. cbn [snd] in Hcell.
  eexists. split; [reflexivity|]. cbn [sources sinks witness].
  match goal with |- context [tab n (fun i => negb _ && bit locked_on i)] =>
    set (srcs := tab n (fun i => negb _ && bit locked_on i)) end.
  assert (Hsrc : forall i, bit srcs i = true <-> (i < n)%nat /\ bit locked_on i = true /\ innocent rs i).
  { intros i. unfold srcs. rewrite bit_tab, !andb_true_iff, Nat.ltb_lt, negb_true_iff, exists_child_false.
    unfold innocent. split; intros (H1 & H2); [destruct H2 as [H2 H3]|destruct H2 as [H3 H2]]; split_and!; try done.
    - intros k Hk Ha. specialize (H2 k Hk). rewrite !Hcell in H2 by done.
      destruct (Z.eqb_spec (accusation rs k i) 0); [done|]. by destruct (Z.eqb_spec (accusation rs k k) 0).
    - intros k Hk. specialize (H2 k Hk). rewrite !Hcell by done.
      destruct (Z.eqb_spec (accusation rs k i) 0); [done|].
      destruct (Z.eqb_spec (accusation rs k k) 0); [by destruct H2|done]. }
  split_and!; try done.
  - apply tab_length.
  - by destruct (AFR_COUNT srcs =? 0); apply tab_length.
  - intros i. rewrite nth_tab. destruct (i <? n)%nat; [|done]. unfold uwrap. apply Z.mod_pos_bound. lia.
  - intros i Hi. replace (AFR_COUNT srcs =? 0) with false
      by (symmetry; apply Z.eqb_neq; pose proof (bits_count_pos srcs i Hi); lia).
    rewrite bit_tab. apply Hsrc in Hi as (Hi & _ & Hin). apply andb_false_iff. right. apply exists_child_false.
    intros k Hk. rewrite !Hcell by done. specialize (Hin k Hk).
    destruct (Z.eqb_spec (accusation rs k i) 0); [by rewrite andb_false_r|].
    destruct (Z.eqb_spec (accusation rs k k) 0); [by destruct Hin|]. by rewrite andb_false_r.
  - intros i j Hi H0 Hj Ha. replace (AFR_COUNT srcs =? 0) with false
      by (symmetry; apply Z.eqb_neq; pose proof (bits_count_pos srcs i Hi); lia).
    assert (Hin : (i < n)%nat) by (by apply Hsrc).
    rewrite bit_tab. apply andb_true_iff. split; [by apply Nat.ltb_lt|]. apply exists_child_true. exists i.
    split; [done|]. rewrite Hi, !Hcell, H0 by done. by destruct (Z.eqb_spec (accusation rs i j) 0).
Qed.

(** ** Choosing one source *)

Definition subset (l l' : list bool) : Prop := forall i, bit l i = true -> bit l' i = true.

Definition nonempty (l : list bool) : Prop := exists i, bit l i = true /\ (i < n)%nat.

Lemma largest_spec rs srcs :
  (forall i, 0 <= ia_size (reply_at rs i)) -> nonempty srcs ->
  let l := afr_mark_largest_file_as_source priv rs srcs in subset l srcs /\ nonempty l.
Proof.
  intros Hs (i & Hi & Hn). unfold afr_mark_largest_file_as_source.
  pose proof (fold_max (fun i => ia_size (reply_at rs i)) (bit srcs) Z.leb (seq 0 n) 0
    ltac:(intros; lia) ltac:(intros; lia)) as Hm. cbn zeta in Hm.
  set (size := foldl _ _ _) in *. destruct Hm as (H0 & Hatt & Hmax). split.
  - intros k Hk. rewrite bit_tab, !andb_true_iff in Hk. by destruct Hk as (_ & Hk & _).
  - pose proof (Hmax i (proj2 (elem_of_children n i) Hn) Hi) as Hle.
    destruct Hatt as [E|(k & Hk & Hb & E)].
    + exists i. split; [|done]. rewrite bit_tab, Hi, !andb_true_iff, Nat.ltb_lt, negb_true_iff, Z.ltb_ge.
      split_and!; [done|done|]. specialize (Hs i). lia.
    + exists k. apply elem_of_children in Hk. split; [|done].
      rewrite bit_tab, Hb, !andb_true_iff, Nat.ltb_lt, negb_true_iff, Z.ltb_ge. split_and!; [done|done|lia].
Qed.

Lemma biggest_witness_spec w srcs :
  (forall i, 0 <= nth i w 0) -> nonempty srcs ->
  let l := afr_mark_biggest_witness_as_source priv w srcs in subset l srcs /\ nonempty l.
Proof.
  intros Hs (i & Hi & Hn). unfold afr_mark_biggest_witness_as_source.
  pose proof (fold_max (fun i => nth i w 0) (bit srcs) Z.ltb (seq 0 n) 0
    ltac:(intros; lia) ltac:(intros; lia)) as Hm. cbn zeta in Hm.
  set (size := foldl _ _ _) in *. destruct Hm as (H0 & Hatt & Hmax). split.
  - intros k Hk. rewrite bit_tab, !andb_true_iff in Hk. by destruct Hk as (_ & Hk & _).
  - pose proof (Hmax i (proj2 (elem_of_children n i) Hn) Hi) as Hle.
    destruct Hatt as [E|(k & Hk & Hb & E)].
    + exists i. split; [|done]. rewrite bit_tab, Hi, !andb_true_iff, Nat.ltb_lt, negb_true_iff, Z.ltb_ge.
      split_and!; [done|done|]. specialize (Hs i). lia.
    + exists k. apply elem_of_children in Hk. split; [|done].
      rewrite bit_tab, Hb, !andb_true_iff, Nat.ltb_lt, negb_true_iff, Z.ltb_ge. split_and!; [done|done|lia].
Qed.

(** The loop of afr_mark_newest_file_as_source ends with a source, if there is
    one. *)

Lemma newest_spec rs srcs :
  (forall i, 0 <= ia_ctime (reply_at rs i)) -> nonempty srcs ->
  exists k, bit srcs k = true /\ (k < n)%nat /\
    afr_mark_newest_file_as_source priv rs srcs = Some (tab n (Nat.eqb k)).
Proof.
  intros Hs (i & Hi & Hn). unfold afr_mark_newest_file_as_source.
  set (step := fun (acc : option (nat * Z)) (i : nat) => _).
  assert (Hf : forall l acc,
    (forall k c, acc = Some (k, c) -> bit srcs k = true /\ (k < n)%nat) -> (forall j, j ∈ l -> (j < n)%nat) ->
    (acc <> None \/ i ∈ l) ->
    exists k c, foldl step acc l = Some (k, c) /\ bit srcs k = true /\ (k < n)%nat).
  { induction l as [|x l IH]; intros acc Ha Hl Hor; cbn [foldl].
    - destruct Hor as [Hor|Hor]; [|by apply not_elem_of_nil in Hor]. destruct acc as [[k c]|]; [|by destruct Hor].
      exists k, c. split; [done|]. by apply (Ha k c).
    - apply IH; [|intros j Hj; apply Hl; by apply list_elem_of_further|].
      + intros k c. unfold step. destruct (bit srcs x) eqn:Ex; cbn [andb]; [|apply Ha].
        case_match; [|apply Ha]. intros [= <- <-]. split; [done|]. apply Hl, list_elem_of_here.
      + destruct Hor as [Hor|Hor].
        * left. unfold step. destruct acc as [[k c]|]; [|done]. by case_match.
        * apply elem_of_cons in Hor as [<-|Hor]; [|by right]. left. unfold step. rewrite Hi. cbn [andb].
          destruct acc as [[k c]|]; [by case_match|]. specialize (Hs i). by rewrite (proj2 (Z.leb_le _ _) Hs). }
  destruct (Hf (seq 0 n) None) as (k & c & E & H1 & H2); [done|intros j; apply elem_of_children|right; by apply elem_of_children|].
  exists k. split_and!; [done..|]. by rewrite E.
Qed.

Lemma first_true_spec l : nonempty l -> exists k, first_true priv l = Some k /\ bit l k = true /\ (k < n)%nat.
Proof.
  intros (i & Hi & Hn). unfold first_true. destruct (List.find (bit l) (seq 0 n)) as [k|] eqn:E.
  - apply List.find_some in E as [H1 H2]. exists k. apply in_seq in H1. split_and!; [done..|lia].
  - pose proof (List.find_none _ _ E i ltac:(apply in_seq; lia)). congruence.
Qed.

(** The sources that are left after breaking ties. *)

Lemma tie_break_spec rs w srcs :
  (forall i, 0 <= ia_size (reply_at rs i)) -> (forall i, 0 <= ia_ctime (reply_at rs i)) ->
  (forall i, 0 <= nth i w 0) -> nonempty srcs ->
  exists l,
    (if negb (afr_does_size_mismatch priv rs srcs) && negb (afr_has_source_witnesses priv srcs w)
     then Some srcs
     else afr_mark_newest_file_as_source priv rs
            (afr_mark_biggest_witness_as_source priv w (afr_mark_largest_file_as_source priv rs srcs))) = Some l /\
    subset l srcs /\ nonempty l.
Proof.
  intros Hs Hc Hw Hne. destruct (negb _ && negb _); [exists srcs; split_and!; [done|by intros i|done]|].
  destruct (largest_spec rs srcs Hs Hne) as [A1 B1].
  destruct (biggest_witness_spec w _ Hw B1) as [A2 B2].
  destruct (newest_spec rs _ Hc B2) as (k & Hk & Hn & E). exists (tab n (Nat.eqb k)). split; [exact E|]. split.
  - intros i Hi. rewrite bit_tab in Hi. apply andb_true_iff in Hi as [_ Hi]. apply Nat.eqb_eq in Hi. subst i.
    by apply A1, A2.
  - exists k. split; [|done]. rewrite bit_tab, Nat.eqb_refl. by rewrite (proj2 (Nat.ltb_lt _ _) Hn).
Qed.

(** ** Preparing a heal *)

Lemma prepare_cases rs locked_on :
  length locked_on = n ->
  (forall i, 0 <= ia_size (reply_at rs i)) -> (forall i, 0 <= ia_ctime (reply_at rs i)) ->
  exists p, __afr_selfheal_data_prepare priv names NoHealOp rs locked_on = Some p /\
    match p with
    | inl ret =>
        (ret = - ENOTCONN /\ afr_success_count priv rs < 2) \/
        (ret = - EIO /\ forall i, (i < n)%nat -> bit locked_on i = true -> ~ innocent rs i)
    | inr (source, srcs, snks, healed) =>
        exists d, afr_selfheal_find_direction priv rs AFR_DATA_TRANSACTION locked_on = inr d /\
          snks = sinks d /\ subset srcs (sources d) /\ bit srcs source = true /\ (source < n)%nat /\
          healed = afr_mark_active_sinks priv srcs locked_on
    end.
Proof.
  intros Hl Hs Hc. unfold __afr_selfheal_data_prepare.
  destruct (Z_lt_le_dec (afr_success_count priv rs) 2) as [Hlt|Hge].
  { unfold afr_selfheal_find_direction. unfold AFR_SH_MIN_PARTICIPANTS. rewrite (proj2 (Z.ltb_lt _ _) Hlt).
    eexists. split; [reflexivity|]. by left. }
  destruct (direction_spec rs locked_on Hge) as (d & -> & Hl1 & Hl2 & Hw & Hsrc & Hdis & _).
  unfold __afr_selfheal_data_finalize_source.
  destruct (Z.eqb_spec (AFR_COUNT (sources d)) 0) as [E0|E0].
  { rewrite orb_true_r. eexists. split; [reflexivity|]. right. split; [done|]. intros i Hi Hb Hin.
    pose proof (proj1 (count_0 _) E0 i) as H0. rewrite (proj2 (Hsrc i)) in H0; done. }
  assert (Hne : nonempty (sources d)).
  { destruct (count_pos_inv (sources d)) as [i Hi]; [pose proof (count_bounds (sources d)); lia|].
    exists i. split; [done|]. by apply Hsrc. }
  rewrite orb_false_r, bool_decide_eq_false_2.
  2: { intros E. destruct Hne as (i & Hi & Hn). apply (f_equal (fun l => bit l i)) in E.
       rewrite !bit_tab, (Hdis i Hi) in E. apply Hsrc in Hi as (_ & Hi & _). rewrite Hi in E.
       by rewrite (proj2 (Nat.ltb_lt _ _) Hn) in E. }
  destruct (tie_break_spec rs (witness d) (sources d) Hs Hc Hw Hne) as (l & -> & Hsub & Hnl). cbn [mbind option_bind].
  destruct (first_true_spec l Hnl) as (k & -> & Hk & Hkn). eexists. split; [reflexivity|]. exists d. done.
Qed.

End direction.


(** Three bricks; the third one missed an operation and the first two know. *)

Definition three_bricks : afr_private :=
  {| child_count := 3; arbiter_count := 0; quorum_count := 0; quorum_reads := false;
     data_change_log := true; metadata_change_log := true; entry_change_log := true |}.

Definition data_log (d : Z) (ps : list Z) : changelog :=
  {| cl_dirty := Three d 0 0; cl_pending := (fun p => Three p 0 0) <$> ps |}.

Definition found (size : Z) (c : changelog) : lookup_reply :=
  {| lk_valid := true; lk_op_ret := 0; xdata := Some c; ia_size := size; ia_blocks := 8; ia_ctime := 5 |}.

Lemma found_sizes (rs : list lookup_reply) :
  Forall (fun r => 0 <= ia_size r /\ 0 <= ia_ctime r) rs ->
  (forall i, 0 <= ia_size (reply_at rs i)) /\ (forall i, 0 <= ia_ctime (reply_at rs i)).
Proof.
  intros H. assert (Ha : forall i, 0 <= ia_size (reply_at rs i) /\ 0 <= ia_ctime (reply_at rs i)).
  { intros i. unfold reply_at. destruct (decide (i < length rs)%nat) as [Hi|Hi].
    - destruct (lookup_lt_is_Some_2 rs i Hi) as [r Hr]. rewrite (nth_lookup_Some rs i no_lookup r Hr).
      by apply (Forall_lookup_1 _ _ _ _ H Hr).
    - rewrite nth_overflow by lia. done. }
  split; intros i; apply Ha.
Qed.

