(* ===== verification/AfrRun.v ===== *)
(** * Replication: runs of transactions and heals

    Any number of transactions on one file, from any number of open files, whose
    phases (pre-operation, operation, post-operation) interleave, and heals in
    between. Calls to bricks may fail at any point. The history of the run says
    which operations were answered with success and what every brick did with
    each operation.

    Each phase of a transaction is one step, whatever its calls answer
    ([step]). The operation of a transaction is performed on all bricks in one
    step, since overlapping operations are kept apart by the locks of the
    transactions. Heals are restricted ([clean_heal]): a heal starts when no
    transaction is in progress (it takes the lock of the whole file) and none of
    its calls fails; transactions that come in between its blocks succeed on all
    bricks and end before it updates the counters.

    The properties hold for runs that are kept by a brick ([run]): when an
    operation is acknowledged although it failed somewhere, the keeper performed
    it and its post-operation succeeded; the keeper is a source of every heal;
    and another brick can become the keeper when the keeper does not accuse it
    and it accuses the bricks that the keeper accuses, and not itself. Without a
    keeper acknowledged data can be lost, see AfrFaults.v. *)

From Stdlib Require Import ZArith Lia Bool String.
From stdpp Require Import base list strings.
From S2P Require Import Prelude Afr AfrHeal AfrRead AfrFacts AfrCopy AfrDirection.

Open Scope Z_scope.

(** ** Histories *)

Record entry := { e_op : operation; e_did : list (option nat); e_ack : option Z }.

Definition did_by (i : nat) (e : entry) : option nat := nth i (e_did e) None.

Definition replay_one (c : list Z) (x : operation * option nat) : list Z :=
  match x.2 with Some k => perform x.1 k c | None => c end.

Definition replay (c0 : list Z) (h : list (operation * option nat)) : list Z := foldl replay_one c0 h.

(** A content is explained by a history when it is what is left of a file after
    every acknowledged operation, as it was acknowledged, in order; other
    operations may have been performed, wholly or partly, or not. *)

Definition explained (h : list entry) (c0 c : list Z) : Prop :=
  exists did : list (option nat),
    Forall2 (fun e d => forall r, e_ack e = Some r -> d = Some (Z.to_nat r)) h did /\
    c = replay c0 (zip (e_op <$> h) did).

(** ** Machines *)

Inductive txn :=
| Marked (op : operation) (l : afr_local)
| Performed (pos : nat) (l : afr_local).

Record machine := {
  bricks : list brick;
  ctxs : list afr_fd_ctx;
  txns : list txn;
  history : list entry
}.

Section run.

Context (priv : afr_private) (names : list string) (rchecksum : list Z -> list Z) (algorithm : option string).
Context (c0 : list Z).

Abbreviation n := (child_count priv).

Definition new_local (k : option nat) (opt : bool) : afr_local :=
  {| type := AFR_DATA_TRANSACTION; is_flush := false; fd := k; optimistic := opt; pre_op_compat := true;
     pre_op := replicate n false; failed_subvols := replicate n false;
     flags := {| dirtied := false; inherited := false; no_uninherit := false;
                 uninherit_done := false; uninherit_value := false |};
     replies := replicate n no_reply; pre_op_xdata := replicate n None;
     pre_op_sources := replicate n false; op_ret := 0; op_errno := 0 |}.

Definition no_marks : marks := {| pre_op_done := replicate n false; inherited_count := 0; on_disk := 0 |}.

Definition clean_log : changelog := {| cl_dirty := zero3; cl_pending := replicate n zero3 |}.

Definition start (fds : nat) : machine :=
  {| bricks := replicate n {| content := c0; logs := clean_log |};
     ctxs := replicate fds (Three no_marks no_marks no_marks); txns := []; history := [] |}.

(** What brick [k] counts for brick [i]. *)

Definition brick_at (bs : list brick) (i : nat) : brick :=
  nth i bs {| content := []; logs := {| cl_dirty := zero3; cl_pending := [] |} |}.

Definition counter (bs : list brick) (k i : nat) : Z := pending_at (cl_pending (logs (brick_at bs k))) 0 i.

(** *** Transactions *)

Definition pre_step (m : machine) (op : operation) (k : option nat) (opt : bool) (locked : list bool)
    (answers : list xanswer) : machine :=
  match afr_changelog_pre_op priv (ctxs m) locked (new_local k opt) with
  | PreError _ => m
  | PreNext c l | PreCarried c l _ =>
      {| bricks := bricks m; ctxs := c; txns := txns m ++ [Marked op l]; history := history m |}
  | PreXattrop c l x =>
      let '(bs, l) := afr_changelog_do priv x answers (bricks m) l in
      {| bricks := bs; ctxs := c; txns := txns m ++ [Marked op l]; history := history m |}
  end.

Definition what_was_done (op : operation) (l : afr_local) (answers : list fanswer) : list (option nat) :=
  tab n (fun i => if bit (pre_op l) i then performed_of op (nth i answers (FFailed 0 None)) else None).

(** The client is answered at once when nothing failed. *)

Definition fop_step (m : machine) (t : nat) (op : operation) (l : afr_local) (answers : list fanswer)
    (read_subvol : Z) : machine :=
  let '(_, c, l) := afr_transaction_perform_fop priv (ctxs m) l in
  let '(bs, l1) := __afr_txn_write_fop op answers (bricks m) l in
  let l1 := afr_fop_done priv read_subvol op l1 in
  let ack := if afr_txn_nothing_failed priv l1 && (0 <=? op_ret l1) then Some (op_ret l1) else None in
  let '(c, l2) := afr_transaction_resume priv c l1 in
  {| bricks := bs; ctxs := c; txns := <[t := Performed (length (history m)) l2]> (txns m);
     history := history m ++ [{| e_op := op; e_did := what_was_done op l answers; e_ack := ack |}] |}.

Definition acknowledge (r : Z) (e : entry) : entry :=
  {| e_op := e_op e; e_did := e_did e;
     e_ack := match e_ack e with Some r => Some r | None => if 0 <=? r then Some r else None end |}.

(** Otherwise it is answered after the post-operation. *)

Definition post_step (m : machine) (t pos : nat) (l : afr_local) (fsyncs : option (list bool))
    (answers : list xanswer) : machine :=
  let l := match fsyncs with Some f => afr_changelog_fsync priv f l | None => l end in
  let '(x, c, l) := afr_changelog_post_op_now priv (ctxs m) l in
  let bs := match x with Some x => (afr_changelog_do priv x answers (bricks m) l).1 | None => bricks m end in
  {| bricks := bs; ctxs := c; txns := delete t (txns m);
     history := alter (acknowledge (op_ret l)) pos (history m) |}.

(** The transaction as it is after the fsync and the check for a quorum. *)

Definition post_local (m : machine) (l : afr_local) (fsyncs : option (list bool)) : afr_local :=
  afr_handle_quorum priv (match fsyncs with Some f => afr_changelog_fsync priv f l | None => l end).

(** A phase of a transaction; a post-operation is labelled with the
    transaction that it ends and the answers of the bricks. *)

Inductive step : machine -> option (afr_local * list xanswer) -> machine -> Prop :=
| step_pre m op k opt locked answers :
    length locked = n -> length answers = n ->
    step m None (pre_step m op k opt locked answers)
| step_fop m t op l answers read_subvol :
    txns m !! t = Some (Marked op l) -> length answers = n ->
    step m None (fop_step m t op l answers read_subvol)
| step_post m t pos l fsyncs answers :
    txns m !! t = Some (Performed pos l) -> length answers = n ->
    step m (Some (post_local m l fsyncs, answers)) (post_step m t pos l fsyncs answers).

(** *** Heals *)

(** The replies of a lookup on the bricks that are up. *)

Definition lookups (bs : list brick) (up : list bool) (rs : list lookup_reply) : Prop :=
  forall i, (i < n)%nat ->
    if bit up i then
      lk_valid (reply_at rs i) = true /\ lk_op_ret (reply_at rs i) = 0 /\
      xdata (reply_at rs i) = Some (logs (brick_at bs i)) /\
      ia_size (reply_at rs i) = Z.of_nat (length (content (brick_at bs i))) /\ 0 <= ia_ctime (reply_at rs i)
    else reply_at rs i = no_lookup.

Definition copy_did (source : nat) (healed : list bool) (e : entry) : entry :=
  {| e_op := e_op e;
     e_did := tab n (fun i => did_by (if bit healed i then source else i) e);
     e_ack := e_ack e |}.

(** A transaction that came in during a heal: all bricks performed [k] bytes. *)

Definition overlapping (x : operation * nat) : entry :=
  {| e_op := x.1; e_did := replicate n (Some x.2); e_ack := Some (Z.of_nat x.2) |}.

(** A heal none of whose calls fails and in which no checksums collide, with
    the sources that it found and the operations [ops] of the transactions that
    came in between its blocks; they leave some contexts of open files. *)

Inductive clean_heal : machine -> list bool -> machine -> Prop :=
| heal_done m up locked rs env ops source srcs snks healed bs healed' d fds :
    txns m = [] -> length locked = n -> length up = n ->
    (forall i, bit locked i = true -> bit up i = true) ->
    length rs = n -> lookups (bricks m) up rs ->
    __afr_selfheal_data_prepare priv names NoHealOp rs locked = Some (inr (source, srcs, snks, healed)) ->
    afr_selfheal_find_direction priv rs AFR_DATA_TRANSACTION locked = inr d ->
    alike ops env -> no_collision priv rchecksum algorithm rs source env (content <$> bricks m) healed ->
    __afr_selfheal_data priv names rchecksum algorithm NoHealOp rs locked env (bricks m) = Some (0, bs, healed') ->
    (forall i, bit healed i = true -> bit healed' i = true) ->
    (forall i, (i < n)%nat -> nth i (he_post_op env) XDone = XDone) ->
    clean_heal m (sources d)
      {| bricks := bs; ctxs := fds; txns := [];
         history := (copy_did source healed <$> history m) ++
                    (overlapping <$> meanwhile ops (ia_size (reply_at rs source))) |}.

(** *** Kept runs *)

(** The keeper takes part in an operation that is acknowledged although it
    failed somewhere, to the end. *)

Definition attended (g : nat) (post : option (afr_local * list xanswer)) : Prop :=
  match post with
  | Some (l, answers) =>
      op_ret l < 0 \/ afr_txn_nothing_failed priv l = true \/
      (bit (pre_op l) g = true /\ bit (failed_subvols l) g = false /\
       nth g answers (XFailed false []) = XDone)
  | None => True
  end.

(** Brick [g'] can take over from [g]: what the changelogs say. *)

Definition takes_over (bs : list brick) (g g' : nat) : Prop :=
  (g' < n)%nat /\ counter bs g g' = 0 /\ counter bs g' g' = 0 /\
  forall j, (j < n)%nat -> counter bs g j <> 0 -> counter bs g' j <> 0.

(** [run k g m]: [m] after [k] phases and heals, with keeper [g]. *)

Inductive run : nat -> nat -> machine -> Prop :=
| run_start fds g : (g < n)%nat -> run 0 g (start fds)
| run_step k g m post m' : run k g m -> step m post m' -> attended g post -> run (S k) g m'
| run_heal k g m srcs m' : run k g m -> clean_heal m srcs m' -> bit srcs g = true -> run (S k) g m'
| run_keeper k g g' m : run k g m -> takes_over (bricks m) g g' -> run k g' m.

End run.

(** ** What the phases of a transaction do

    The calls of each phase, brick by brick: which counters and contents change,
    and which failures are recorded. *)

Open Scope Z_scope.

(** ** Counters *)

Lemma xattrop_length a x c : length (cl_pending (do_xattrop a x c)) = length (cl_pending c).
Proof. by destruct a; cbn; rewrite length_imap. Qed.

Lemma pending_lookup l j : (j < length l)%nat -> exists p, l !! j = Some p /\ forall idx, pending_at l idx j = get3 idx p.
Proof.
  intros Hj. destruct (lookup_lt_is_Some_2 l j Hj) as [p Hp]. exists p. split; [done|]. intros idx.
  unfold pending_at. by rewrite (nth_lookup_Some l j zero3 p Hp).
Qed.

Lemma pending_imap (f : nat -> three Z -> three Z) l j :
  (j < length l)%nat -> exists p, l !! j = Some p /\ pending_at (imap f l) 0 j = t_data (f j p).
Proof.
  intros Hj. destruct (lookup_lt_is_Some_2 l j Hj) as [p Hp]. exists p. split; [done|].
  unfold pending_at. erewrite nth_lookup_Some; [|by rewrite list_lookup_imap, Hp]. done.
Qed.

(** Adding [v] to the data counter for [j]: a call that fails may have done it
    or not. *)

Lemma xattrop_counter a x c j v :
  (j < length (cl_pending c))%nat -> nth j (xa_pending x) zero3 = Three v 0 0 -> in_s 32 (pending_at (cl_pending c) 0 j) ->
  let old := pending_at (cl_pending c) 0 j in
  let new := pending_at (cl_pending (do_xattrop a x c)) 0 j in
  (a = XDone -> new = i32 (old + v)) /\ (new = old \/ new = i32 (old + v)).
Proof.
  intros Hj Hv Hr. cbn zeta. destruct (pending_lookup _ _ Hj) as (p & Hp & Hg). rewrite (Hg 0%nat) in *. cbn [get3] in *.
  assert (Hadd : t_data (_posix_handle_xattr_keyvalue_pair p (nth j (xa_pending x) zero3)) = i32 (t_data p + v)).
  { rewrite Hv. unfold _posix_handle_xattr_keyvalue_pair, mem_0filled. cbn [t_data t_metadata t_entry].
    rewrite Z.eqb_refl, !andb_true_r. destruct (Z.eqb_spec v 0) as [->|]; [|done].
    by rewrite Z.add_0_r, swrap_small. }
  destruct a as [|dirty keys]; cbn [do_xattrop cl_pending].
  - match goal with |- context [imap ?f _] => destruct (pending_imap f _ _ Hj) as (q & Hq & ->) end.
    rewrite Hp in Hq. injection Hq as <-. rewrite Hadd. split; [done|by right].
  - match goal with |- context [imap ?f _] => destruct (pending_imap f _ _ Hj) as (q & Hq & ->) end.
    rewrite Hp in Hq. injection Hq as <-. split; [done|]. destruct (bit keys j); [right; exact Hadd|by left].
Qed.

(** ** Transactions that only differ in what failed *)

Record extends (l l' : afr_local) : Prop := {
  ext_type : type l' = type l;
  ext_fd : fd l' = fd l;
  ext_compat : pre_op_compat l' = pre_op_compat l;
  ext_pre_op : pre_op l' = pre_op l;
  ext_flags : flags l' = flags l;
  ext_replies : replies l' = replies l;
  ext_ret : op_ret l' = op_ret l;
  ext_failed_length : length (failed_subvols l') = length (failed_subvols l);
  ext_failed : forall i, bit (failed_subvols l) i = true -> bit (failed_subvols l') i = true
}.

Lemma extends_refl l : extends l l.
Proof. by split. Qed.

Lemma extends_trans l l' l'' : extends l l' -> extends l' l'' -> extends l l''.
Proof. intros [] []. split; try congruence. intros i Hi. auto. Qed.

Lemma failed_extends i l : extends l (afr_transaction_fop_failed i l).
Proof.
  split; try done; [by cbn; rewrite length_insert|]. intros j Hj. change (bit (<[i := true]> (failed_subvols l)) j = true).
  destruct (decide (i < length (failed_subvols l))%nat) as [Hi|Hi].
  - rewrite bit_insert by done. by destruct (Nat.eqb i j).
  - rewrite list_insert_ge by lia. done.
Qed.

(** Sharing marks only changes the flags of a transaction. *)

Record same_but_flags (l l' : afr_local) : Prop := {
  sf_type : type l' = type l;
  sf_fd : fd l' = fd l;
  sf_compat : pre_op_compat l' = pre_op_compat l;
  sf_pre_op : pre_op l' = pre_op l;
  sf_failed : failed_subvols l' = failed_subvols l;
  sf_replies : replies l' = replies l;
  sf_ret : op_ret l' = op_ret l
}.

Lemma inherit_same cs l : same_but_flags l (afr_changelog_pre_op_inherit cs l).2.
Proof.
  unfold afr_changelog_pre_op_inherit. destruct (type l); try by split. destruct (fd l) as [k|]; [|by split].
  destruct (cs !! k) as [c|]; [|by split]. destruct (on_disk _ =? 0); [by split|].
  by destruct (negb _); split.
Qed.

Lemma update_same priv cs l : same_but_flags l (afr_changelog_pre_op_update priv cs l).2.
Proof.
  unfold afr_changelog_pre_op_update. destruct (fd l) as [k|] eqn:E; [|by split].
  destruct (cs !! k) as [c|]; [|by split]. destruct (inherited _); [by split|].
  destruct (negb (dirtied _)); [by split|]. destruct (negb (afr_txn_nothing_failed _ _)); [by split|].
  by destruct (_ && _); split.
Qed.

Lemma uninherit_same priv cs l : same_but_flags l (afr_changelog_pre_op_uninherit priv cs l).2.
Proof.
  unfold afr_changelog_pre_op_uninherit. destruct (type l); try by split. destruct (fd l) as [k|]; [|by split].
  destruct (cs !! k) as [c|]; [|by split]. destruct (no_uninherit _); [by split|].
  destruct (uninherit_done _); [by split|]. destruct (uninherit_marks _ _ _). by split.
Qed.

Section phases.

Context (priv : afr_private).

Abbreviation n := (child_count priv).

Lemma cbk_extends i a after l : extends l (afr_changelog_cbk priv i a after l).
Proof.
  destruct a; [|apply failed_extends]. cbn. destruct (arbiter_count priv =? 1); [|apply extends_refl]. by split.
Qed.

(** ** Changing the changelogs *)

Lemma brick_at_lookup bs i b : bs !! i = Some b -> brick_at bs i = b.
Proof. intros H. by apply nth_lookup_Some. Qed.

Lemma changelog_calls_spec x answers i bs l :
  length answers = length bs ->
  let '(bs', l') := changelog_calls priv x answers i bs l in
  length bs' = length bs /\ extends l l' /\
  forall k b, bs !! k = Some b ->
    bs' !! k = Some {| content := content b;
                       logs := if bit (pre_op l) (i + k)
                               then do_xattrop (nth k answers (XFailed false [])) x (logs b) else logs b |}.
Proof.
  revert i bs l. induction answers as [|a answers IH]; intros i [|b bs] l Hl; try done.
  injection Hl as Hl. cbn [changelog_calls]. destruct (bit (pre_op l) i) eqn:Hb.
  - set (l1 := afr_changelog_cbk priv i a _ l). pose proof (cbk_extends i a (do_xattrop a x (logs b)) l : extends l l1) as He.
    specialize (IH (S i) bs l1 Hl). destruct (changelog_calls priv x answers (S i) bs l1) as [bs' l'].
    destruct IH as (H1 & H2 & H3). split_and!; [by cbn; rewrite H1|by apply (extends_trans l l1)|].
    intros [|k] b' Hk.
    + injection Hk as <-. by rewrite Nat.add_0_r, Hb.
    + etransitivity; [exact (H3 k b' Hk)|]. rewrite (ext_pre_op _ _ He).
      by replace (i + S k)%nat with (S i + k)%nat by lia.
  - specialize (IH (S i) bs l Hl). destruct (changelog_calls priv x answers (S i) bs l) as [bs' l'].
    destruct IH as (H1 & H2 & H3). split_and!; [by cbn; rewrite H1|done|].
    intros [|k] b' Hk.
    + injection Hk as <-. rewrite Nat.add_0_r, Hb. by destruct b.
    + etransitivity; [exact (H3 k b' Hk)|]. by replace (i + S k)%nat with (S i + k)%nat by lia.
Qed.

(** ** The operation *)

(** What is the same before and after the calls of the operation. *)

Record same_request (l l' : afr_local) : Prop := {
  sr_type : type l' = type l;
  sr_fd : fd l' = fd l;
  sr_compat : pre_op_compat l' = pre_op_compat l;
  sr_pre_op : pre_op l' = pre_op l;
  sr_flags : flags l' = flags l;
  sr_replies : length (replies l') = length (replies l);
  sr_failed : length (failed_subvols l') = length (failed_subvols l)
}.

Lemma same_request_trans l l' l'' : same_request l l' -> same_request l' l'' -> same_request l l''.
Proof. intros [] []. split; congruence. Qed.

Lemma fill_same i r e l : same_request l (__afr_inode_write_fill i r e l).
Proof. unfold __afr_inode_write_fill. destruct (0 <=? r); split; cbn; rewrite ?length_insert; done. Qed.

Lemma fill_reply i r e l j :
  replies (__afr_inode_write_fill i r e l) !! j =
    <[i := {| valid := true; r_op_ret := r; r_op_errno := e |}]> (replies l) !! j.
Proof. unfold __afr_inode_write_fill. by destruct (0 <=? r). Qed.

Lemma fill_failed i r e l j :
  (i < length (failed_subvols l))%nat ->
  bit (failed_subvols (__afr_inode_write_fill i r e l)) j =
    bit (failed_subvols l) j || (Nat.eqb i j && (r <? 0)).
Proof.
  intros Hi. unfold __afr_inode_write_fill. destruct (Z.leb_spec 0 r) as [H|H].
  - rewrite (proj2 (Z.ltb_ge _ _) H), andb_false_r, orb_false_r. done.
  - rewrite (proj2 (Z.ltb_lt _ _) H), andb_true_r.
    change (bit (<[i := true]> (failed_subvols l)) j = bit (failed_subvols l) j || Nat.eqb i j).
    rewrite bit_insert by done. destruct (Nat.eqb i j); [by rewrite orb_true_r|by rewrite orb_false_r].
Qed.

Lemma fop_calls_spec op answers i bs l :
  length answers = length bs -> (i + length bs <= length (failed_subvols l))%nat ->
  (i + length bs <= length (replies l))%nat ->
  let '(bs', l') := fop_calls op answers i bs l in
  length bs' = length bs /\ same_request l l' /\
  (forall k b, bs !! k = Some b ->
    bs' !! k = Some {| content := if bit (pre_op l) (i + k)
                                  then match performed_of op (nth k answers (FFailed 0 None)) with
                                       | Some z => perform op z (content b) | None => content b end
                                  else content b;
                       logs := logs b |}) /\
  (forall j, (j < i \/ i + length bs <= j)%nat \/ bit (pre_op l) j = false ->
    replies l' !! j = replies l !! j /\ bit (failed_subvols l') j = bit (failed_subvols l) j) /\
  (forall k, (k < length bs)%nat -> bit (pre_op l) (i + k) = true ->
    replies l' !! (i + k)%nat =
      Some {| valid := true; r_op_ret := fop_ret op (nth k answers (FFailed 0 None));
              r_op_errno := fop_errno (nth k answers (FFailed 0 None)) |} /\
    bit (failed_subvols l') (i + k) =
      bit (failed_subvols l) (i + k) || (fop_ret op (nth k answers (FFailed 0 None)) <? 0)).
Proof.
  revert i bs l. induction answers as [|a answers IH]; intros i [|b bs] l Hl Hf Hr; try done.
  { cbn [fop_calls]. split_and!; try done. intros k Hk. cbn in Hk. lia. }
  injection Hl as Hl. cbn [length] in Hf, Hr. cbn [fop_calls]. destruct (bit (pre_op l) i) eqn:Hb.
  - set (l1 := __afr_inode_write_fill i _ _ l).
    pose proof (fill_same i (fop_ret op a) (fop_errno a) l : same_request l l1) as Hs.
    specialize (IH (S i) bs l1 Hl). rewrite (sr_failed _ _ Hs), (sr_replies _ _ Hs), (sr_pre_op _ _ Hs) in IH.
    specialize (IH ltac:(lia) ltac:(lia)). destruct (fop_calls op answers (S i) bs l1) as [bs' l'].
    destruct IH as (H1 & H2 & H3 & H4 & H5).
    assert (Hrep : forall j, replies l1 !! j = <[i := {| valid := true; r_op_ret := fop_ret op a;
      r_op_errno := fop_errno a |}]> (replies l) !! j) by (intros j; apply fill_reply).
    assert (Hfl : forall j, bit (failed_subvols l1) j = bit (failed_subvols l) j || (Nat.eqb i j && (fop_ret op a <? 0)))
      by (intros j; apply fill_failed; lia).
    split_and!; [by cbn; rewrite H1|by apply (same_request_trans l l1)| | |].
    + intros [|k] b' Hk; [injection Hk as <-; by rewrite Nat.add_0_r, Hb|].
      etransitivity; [exact (H3 k b' Hk)|]. by replace (i + S k)%nat with (S i + k)%nat by lia.
    + intros j Hj. cbn [length] in Hj. assert (i <> j) by (intros <-; destruct Hj; [lia|congruence]).
      destruct (H4 j) as [-> ->]; [destruct Hj; [left; lia|by right]|]. rewrite Hrep, Hfl.
      rewrite list_lookup_insert_ne by done. rewrite (proj2 (Nat.eqb_neq i j)) by done. by rewrite orb_false_r.
    + intros [|k] Hk Hp.
      * rewrite Nat.add_0_r. destruct (H4 i) as [-> ->]; [left; lia|]. rewrite Hrep, Hfl, Nat.eqb_refl.
        rewrite list_lookup_insert_eq by lia. done.
      * replace (i + S k)%nat with (S i + k)%nat in * by lia. cbn [length] in Hk.
        destruct (H5 k ltac:(lia) Hp) as [-> ->]. rewrite Hfl.
        rewrite (proj2 (Nat.eqb_neq i (S i + k))) by lia. by rewrite orb_false_r.
  - specialize (IH (S i) bs l Hl ltac:(lia) ltac:(lia)). destruct (fop_calls op answers (S i) bs l) as [bs' l'].
    destruct IH as (H1 & H2 & H3 & H4 & H5). split_and!; [by cbn; rewrite H1|done| | |].
    + intros [|k] b' Hk; [injection Hk as <-; rewrite Nat.add_0_r, Hb; by destruct b|].
      etransitivity; [exact (H3 k b' Hk)|]. by replace (i + S k)%nat with (S i + k)%nat by lia.
    + intros j Hj. cbn [length] in Hj. apply H4. destruct Hj as [[Hj|Hj]|Hj]; [left; lia|left; lia|by right].
    + intros [|k] Hk Hp; [rewrite Nat.add_0_r in Hp; congruence|].
      replace (i + S k)%nat with (S i + k)%nat in * by lia. cbn [length] in Hk. apply H5; [lia|done].
Qed.

End phases.
