(* ===== verification/AfrSafe.v ===== *)
(** * Replication: acknowledged operations are kept

    The invariant of the runs of AfrRun.v: some brick has everything that was
    acknowledged and accuses every brick that has not. Hence the sources of a
    heal have everything, and so has the brick that is read. *)

From Stdlib Require Import ZArith Lia Bool String.
From stdpp Require Import base list strings.
From S2P Require Import Prelude.
From S2P Require Import Afr.
From S2P Require Import AfrHeal.
From S2P Require Import AfrRead.
From S2P Require Import AfrFacts.
From S2P Require Import AfrReadProps.
From S2P Require Import AfrCopy.
From S2P Require Import AfrDirection.
From S2P Require Import AfrRun.

Open Scope Z_scope.

(** ** The result of an operation *)

Lemma best_spec read_subvol l acc :
  let m := (foldl (best_reply read_subvol) acc l).1 in
  acc.1 <= m /\
  (m = acc.1 \/ exists i r, (i, r) ∈ l /\ valid r = true /\ 0 <= r_op_ret r /\ m = r_op_ret r) /\
  (forall i r, (i, r) ∈ l -> valid r = true -> 0 <= r_op_ret r -> r_op_ret r <= m).
Proof.
  revert acc. induction l as [|[i r] l IH]; intros acc; cbn [foldl].
  { split; [lia|]. split; [by left|]. intros i r Hi. by apply not_elem_of_nil in Hi. }
  set (acc' := best_reply read_subvol acc (i, r)). destruct (IH acc') as (A & B & C).
  assert (H : acc.1 <= acc'.1 /\ (acc'.1 = acc.1 \/ (valid r = true /\ 0 <= r_op_ret r /\ acc'.1 = r_op_ret r)) /\
              (valid r = true -> 0 <= r_op_ret r -> r_op_ret r <= acc'.1)).
  { unfold acc', best_reply. destruct (valid r); cbn [negb]; [|split_and!; [lia|by left|done]].
    destruct (Z.ltb_spec (r_op_ret r) 0); [split_and!; [lia|by left|lia]|].
    destruct (Z.ltb_spec acc.1 (r_op_ret r)); cbn [orb fst]; [split_and!; [lia|by right|lia]|].
    destruct (Z.eqb_spec acc.1 (r_op_ret r)); cbn [andb]; [|split_and!; [lia|by left|lia]].
    destruct (Z.of_nat i =? read_subvol); cbn [fst]; split_and!; try lia; by left. }
  destruct H as (H1 & H2 & H3). split_and!; [lia| |].
  - destruct B as [B|(j & q & Hj & B)]; [|right; exists j, q; split; [by apply list_elem_of_further|done]].
    destruct H2 as [E|(E1 & E2 & E3)]; [left; congruence|]. right. exists i, r.
    split_and!; [apply list_elem_of_here|done|done|congruence].
  - intros j q Hj Hv Hq. apply elem_of_cons in Hj as [[= -> ->]|Hj]; [specialize (H3 Hv Hq); lia|by apply (C j q)].
Qed.

Lemma matching_errors_spec rs e :
  matching_errors rs e = true -> forall r, r ∈ rs -> valid r = true -> r_op_ret r = -1.
Proof.
  revert e. induction rs as [|r rs IH]; intros e H q Hq Hv; [by apply not_elem_of_nil in Hq|].
  cbn [matching_errors] in H. apply elem_of_cons in Hq as [->|Hq].
  - rewrite Hv in H. cbn [negb] in H. destruct (Z.eqb_spec (r_op_ret r) (-1)); [done|]. done.
  - destruct (valid r); cbn [negb] in H; [|by apply (IH e)].
    destruct (r_op_ret r =? -1); cbn [negb] in H; [|done].
    destruct (r_op_errno r =? ENOTCONN); [done|].
    destruct (e =? 0); [by apply (IH (r_op_errno r))|].
    destruct (e =? r_op_errno r); cbn [negb] in H; [by apply (IH e)|done].
Qed.

Section ops.

Context (priv : afr_private).

Abbreviation n := (child_count priv).

Context (Harb : arbiter_count priv <> 1).

Lemma finalize_spec read_subvol l :
  let l1 := __afr_inode_write_finalize priv read_subvol l in
  failed_subvols l1 = failed_subvols l /\ replies l1 = replies l /\ pre_op l1 = pre_op l /\ type l1 = type l /\
  fd l1 = fd l /\ pre_op_compat l1 = pre_op_compat l /\ flags l1 = flags l /\ -1 <= op_ret l1 /\
  (0 <= op_ret l1 -> exists i r, replies l !! i = Some r /\ valid r = true /\ op_ret l1 = r_op_ret r) /\
  (forall i r, replies l !! i = Some r -> valid r = true -> 0 <= r_op_ret r -> r_op_ret r <= op_ret l1).
Proof.
  cbn zeta. unfold __afr_inode_write_finalize.
  pose proof (best_spec read_subvol (imap pair (replies l)) (-1, afr_final_errno l)) as Hb. cbn zeta in Hb.
  destruct (foldl _ _ _) as [r e]. cbn [fst] in Hb. destruct Hb as (H1 & H2 & H3).
  unfold afr_txn_arbitrate_fop_cbk. rewrite (proj2 (Z.eqb_neq _ _) Harb). cbn [negb orb].
  assert (Hin : forall i q, (i, q) ∈ imap pair (replies l) <-> replies l !! i = Some q).
  { intros i q. rewrite elem_of_lookup_imap. split.
    - intros (j & x & [= -> ->] & Hx). done.
    - intros Hx. by exists i, q. }
  split_and!; try done.
  - intros H0. cbn in H0. destruct H2 as [H2|(i & q & Hi & Hv & Hq & H2)]; [lia|]. exists i, q. by rewrite <- Hin.
  - intros i q Hi Hv Hq. apply (H3 i q); [by apply Hin|done..].
Qed.

(** A brick that did not fail did what was answered. *)

Lemma fop_done_spec read_subvol op l (ret : nat -> Z) :
  length (failed_subvols l) = n -> length (replies l) = n ->
  (forall i, (i < n)%nat -> bit (failed_subvols l) i = false ->
     exists e k, replies l !! i = Some {| valid := true; r_op_ret := ret i; r_op_errno := e |} /\
       ret i = Z.of_nat (done_bytes op k)) ->
  (forall i r, replies l !! i = Some r -> valid r = true -> 0 <= r_op_ret r -> exists k, r_op_ret r = Z.of_nat (done_bytes op k)) ->
  let l1 := afr_fop_done priv read_subvol op l in
  pre_op l1 = pre_op l /\ type l1 = type l /\ fd l1 = fd l /\ pre_op_compat l1 = pre_op_compat l /\
  flags l1 = flags l /\ replies l1 = replies l /\ length (failed_subvols l1) = n /\ -1 <= op_ret l1 /\
  (0 <= op_ret l1 -> exists i r, replies l !! i = Some r /\ valid r = true /\ op_ret l1 = r_op_ret r) /\
  (forall i, bit (failed_subvols l) i = true -> (i < n)%nat -> bit (failed_subvols l1) i = true) /\
  (0 <= op_ret l1 -> forall i, (i < n)%nat -> bit (failed_subvols l1) i = false -> ret i = op_ret l1).
Proof.
  intros Hf Hr Hgood Hval. cbn zeta. unfold afr_fop_done.
  destruct (finalize_spec read_subvol l) as (E1 & E2 & E3 & E4 & E5 & E6 & E7 & H1 & H2 & H3).
  set (l1 := __afr_inode_write_finalize priv read_subvol l) in *. destruct op as [off bs|size].
  - unfold afr_writev_handle_short_writes. cbn [pre_op type fd pre_op_compat flags replies failed_subvols op_ret with_failed].
    rewrite E1, E2, E3, E4, E5, E6, E7. split_and!; try done.
    + by rewrite tab_length.
    + intros i Hi Hn. by rewrite bit_tab, Hi, (proj2 (Nat.ltb_lt _ _) Hn).
    + intros H0 i Hi Hb. rewrite bit_tab, (proj2 (Nat.ltb_lt _ _) Hi) in Hb. cbn [andb] in Hb.
      apply orb_false_iff in Hb as [Hb1 Hb2]. destruct (Hgood i Hi Hb1) as (e & k & Hl & Hk).
      rewrite (nth_lookup_Some _ _ _ _ Hl) in Hb2. cbn [valid r_op_ret] in Hb2.
      rewrite (proj2 (Z.eqb_neq (ret i) (-1))) in Hb2 by lia. cbn [andb negb] in Hb2. apply Z.ltb_ge in Hb2.
      pose proof (H3 i _ Hl eq_refl ltac:(cbn; lia)). cbn in H. lia.
  - rewrite E1, E2, E3, E4, E5, E6, E7. split_and!; try done. intros H0 i Hi Hb.
    destruct (Hgood i Hi Hb) as (e & k & Hl & Hk). cbn [done_bytes] in Hk.
    destruct (H2 H0) as (j & q & Hj & Hv & Hq). destruct (Hval j q Hj Hv ltac:(lia)) as (k' & Hk').
    cbn [done_bytes] in Hk'. lia.
Qed.

End ops.

(** ** Counters of all bricks *)

Section counters.

Context (priv : afr_private).

Abbreviation n := (child_count priv).

Record bricks_ok (k : Z) (bs : list brick) : Prop := {
  bo_length : length bs = n;
  bo_logs : forall i, (i < n)%nat -> length (cl_pending (logs (brick_at bs i))) = n;
  bo_counters : forall i j, (i < n)%nat -> (j < n)%nat -> 0 <= counter bs i j <= k
}.

Lemma bricks_ok_lookup k bs i : bricks_ok k bs -> (i < n)%nat -> bs !! i = Some (brick_at bs i).
Proof.
  intros H Hi. destruct (lookup_lt_is_Some_2 bs i) as [b Hb]; [by rewrite (bo_length _ _ H)|].
  by rewrite (brick_at_lookup _ _ _ Hb).
Qed.

Lemma bricks_ok_le k k' bs : bricks_ok k bs -> k <= k' -> bricks_ok k' bs.
Proof. intros [H1 H2 H3] Hk. split; try done. intros i j Hi Hj. specialize (H3 i j Hi Hj). lia. Qed.

Lemma changelog_do_spec k x v answers bs l :
  bricks_ok k bs -> k + 1 < 2 ^ 31 -> length answers = n ->
  (forall j, (j < n)%nat -> nth j (xa_pending x) zero3 = Three (v j) 0 0) -> (forall j, 0 <= v j <= 1) ->
  let '(bs', l') := afr_changelog_do priv x answers bs l in
  extends l l' /\ bricks_ok (k + 1) bs' /\
  (forall i, (i < n)%nat -> content (brick_at bs' i) = content (brick_at bs i)) /\
  (forall i j, (i < n)%nat -> (j < n)%nat ->
     counter bs' i j = counter bs i j \/ counter bs' i j = counter bs i j + v j) /\
  (forall g j, (g < n)%nat -> (j < n)%nat -> bit (pre_op l) g = true -> nth g answers (XFailed false []) = XDone ->
     counter bs' g j = counter bs g j + v j).
Proof.
  intros Hok Hk Ha Hx Hv. unfold afr_changelog_do.
  pose proof (changelog_calls_spec priv x answers 0 bs l) as Hs.
  destruct (changelog_calls priv x answers 0 bs l) as [bs' l'].
  destruct Hs as (H1 & H2 & H3); [by rewrite Ha, (bo_length _ _ Hok)|].
  assert (Hat : forall i, (i < n)%nat -> brick_at bs' i =
    {| content := content (brick_at bs i);
       logs := if bit (pre_op l) i then do_xattrop (nth i answers (XFailed false [])) x (logs (brick_at bs i))
               else logs (brick_at bs i) |}).
  { intros i Hi. apply brick_at_lookup. exact (H3 i _ (bricks_ok_lookup _ _ _ Hok Hi)). }
  assert (Hc : forall i j, (i < n)%nat -> (j < n)%nat ->
    (counter bs' i j = counter bs i j \/ counter bs' i j = counter bs i j + v j) /\
    (bit (pre_op l) i = true -> nth i answers (XFailed false []) = XDone -> counter bs' i j = counter bs i j + v j)).
  { intros i j Hi Hj. pose proof (bo_counters _ _ Hok i j Hi Hj) as Hr. specialize (Hv j). unfold counter.
    rewrite (Hat i Hi). cbn [logs]. destruct (bit (pre_op l) i); [|split; [by left|done]].
    destruct (xattrop_counter (nth i answers (XFailed false [])) x (logs (brick_at bs i)) j (v j)) as [Hd Ho].
    - by rewrite (bo_logs _ _ Hok i Hi).
    - by apply Hx.
    - unfold counter in Hr. unfold in_s. lia.
    - fold (counter bs i j) in Hd, Ho |- *. rewrite swrap_small in Hd, Ho by (unfold in_s; lia). tauto. }
  split_and!; try done.
  - split.
    + by rewrite H1, (bo_length _ _ Hok).
    + intros i Hi. rewrite (Hat i Hi). cbn [logs]. destruct (bit (pre_op l) i); [rewrite xattrop_length|];
        by apply (bo_logs _ _ Hok).
    + intros i j Hi Hj. pose proof (bo_counters _ _ Hok i j Hi Hj). specialize (Hv j).
      destruct (Hc i j Hi Hj) as [[-> | ->] _]; lia.
  - intros i Hi. by rewrite (Hat i Hi).
  - intros i j Hi Hj. by apply Hc.
  - intros g j Hg Hj H4 H5. by apply Hc.
Qed.

End counters.

(** ** The invariant *)

Section safe.

Context (priv : afr_private) (names : list string) (rchecksum : list Z -> list Z) (algorithm : option string).
Context (c0 : list Z).

Abbreviation n := (child_count priv).

Record basic (l : afr_local) : Prop := {
  b_type : type l = AFR_DATA_TRANSACTION;
  b_compat : pre_op_compat l = true;
  b_failed : length (failed_subvols l) = n;
  b_pre_op : length (pre_op l) = n;
  b_replies : length (replies l) = n
}.

(** A transaction between its phases: before the operation, a brick that did
    not fail takes part; after it, a brick that did not fail did what is going
    to be answered. *)

Definition txn_ok (h : list entry) (t : txn) : Prop :=
  match t with
  | Marked op l =>
      basic l /\ replies l = replicate n no_reply /\
      forall i, (i < n)%nat -> bit (failed_subvols l) i = false -> bit (pre_op l) i = true
  | Performed pos l =>
      basic l /\ -1 <= op_ret l /\ exists e, h !! pos = Some e /\ length (e_did e) = n /\
        (e_ack e = None \/ (0 <= op_ret l /\ e_ack e = Some (op_ret l))) /\
        (0 <= op_ret l -> forall i, (i < n)%nat -> bit (failed_subvols l) i = false ->
           did_by i e = Some (Z.to_nat (op_ret l)))
  end.

Definition position (t : txn) : option nat := match t with Marked _ _ => None | Performed pos _ => Some pos end.

Definition story (i : nat) (h : list entry) : list (operation * option nat) :=
  (fun e => (e_op e, did_by i e)) <$> h.

(** Brick [i] performed every acknowledged operation as it was acknowledged. *)

Definition holds (h : list entry) (i : nat) : Prop :=
  forall e r, e ∈ h -> e_ack e = Some r -> did_by i e = Some (Z.to_nat r).

(** Brick [g] has everything, and knows which bricks have not. *)

Definition good (m : machine) (g : nat) : Prop :=
  (g < n)%nat /\ holds (history m) g /\ counter (bricks m) g g = 0 /\
  forall j, (j < n)%nat -> ~ holds (history m) j -> counter (bricks m) g j <> 0.

(** The invariant of a kept run: the keeper is good. *)

Record inv (k : Z) (g : nat) (m : machine) : Prop := {
  inv_bricks : bricks_ok priv k (bricks m);
  inv_content : forall i, (i < n)%nat -> content (brick_at (bricks m) i) = replay c0 (story i (history m));
  inv_txns : forall t, t ∈ txns m -> txn_ok (history m) t;
  inv_positions : NoDup (omap position (txns m));
  inv_good : good m g
}.

Lemma brick_at_replicate b i : (i < n)%nat -> brick_at (replicate n b) i = b.
Proof. intros Hi. apply brick_at_lookup. by apply lookup_replicate_2. Qed.

Lemma afr_inv_start fds g : (g < n)%nat -> inv 0 g (start priv c0 fds).
Proof.
  intros Hn. assert (Hc : forall i j, (i < n)%nat -> (j < n)%nat -> counter (bricks (start priv c0 fds)) i j = 0).
  { intros i j Hi Hj. unfold counter. cbn [start bricks]. rewrite brick_at_replicate by done. cbn [logs clean_log cl_pending].
    unfold pending_at. by rewrite (nth_lookup_Some _ j zero3 zero3) by (by apply lookup_replicate_2). }
  split; cbn [start txns history omap list_omap].
  - split.
    + cbn. by rewrite length_replicate.
    + intros i Hi. cbn [start bricks]. rewrite brick_at_replicate by done. cbn. by rewrite length_replicate.
    + intros i j Hi Hj. rewrite Hc by done. lia.
  - intros i Hi. cbn [start bricks]. by rewrite brick_at_replicate.
  - intros t Ht. by apply not_elem_of_nil in Ht.
  - constructor.
  - split_and!; [done| |by apply Hc|].
    + intros e r He. by apply not_elem_of_nil in He.
    + intros j Hj Hh. destruct Hh. intros e r He. by apply not_elem_of_nil in He.
Qed.

(** *** Histories *)

#[local] Instance holds_dec h i : Decision (holds h i).
Proof.
  destruct (forallb (fun e => match e_ack e with
                              | Some r => bool_decide (did_by i e = Some (Z.to_nat r)) | None => true end) h) eqn:H.
  - left. intros e r He Ha. rewrite forallb_forall in H. apply list_elem_of_In, H in He. rewrite Ha in He.
    by apply bool_decide_eq_true in He.
  - right. intros Hh. rewrite <- not_true_iff_false in H. apply H, forallb_forall. intros e He.
    destruct (e_ack e) as [r|] eqn:Ha; [|done]. apply bool_decide_eq_true, Hh; [by apply list_elem_of_In|done].
Defined.

Lemma holds_app h e i :
  holds (h ++ [e]) i <-> holds h i /\ (forall r, e_ack e = Some r -> did_by i e = Some (Z.to_nat r)).
Proof.
  unfold holds. split.
  - intros H. split; intros; eapply H; [by apply elem_of_app; left|done|apply elem_of_app; right; by apply list_elem_of_singleton|done].
  - intros [H1 H2] e' r He. apply elem_of_app in He as [He|He]; [by apply H1|].
    apply list_elem_of_singleton in He as ->. apply H2.
Qed.

Lemma holds_alter h pos e r i :
  h !! pos = Some e -> e_ack e = None \/ e_ack e = Some r -> 0 <= r ->
  holds (alter (acknowledge r) pos h) i <-> holds h i /\ did_by i e = Some (Z.to_nat r).
Proof.
  intros He Ha Hr.
  assert (Hnew : acknowledge r e = {| e_op := e_op e; e_did := e_did e; e_ack := Some r |}).
  { unfold acknowledge. destruct Ha as [-> | ->]; [by rewrite (proj2 (Z.leb_le _ _) Hr)|done]. }
  assert (Hpos : alter (acknowledge r) pos h !! pos = Some (acknowledge r e)) by (rewrite list_lookup_alter_eq, He; done).
  unfold holds. split.
  - intros H. split.
    + intros e' r' He' Ha'. apply list_elem_of_lookup in He' as [p Hp]. destruct (decide (p = pos)) as [->|Hne].
      * rewrite He in Hp. injection Hp as <-. assert (r' = r) as -> by (destruct Ha; congruence).
        rewrite <- (H (acknowledge r e) r); [by rewrite Hnew|by apply (list_elem_of_lookup_2 _ pos)|by rewrite Hnew].
      * apply H; [|done]. apply (list_elem_of_lookup_2 _ p). by rewrite list_lookup_alter_ne.
    + rewrite <- (H (acknowledge r e) r); [by rewrite Hnew|by apply (list_elem_of_lookup_2 _ pos)|by rewrite Hnew].
  - intros [H1 H2] e' r' He' Ha'. apply list_elem_of_lookup in He' as [p Hp]. destruct (decide (p = pos)) as [->|Hne].
    + rewrite Hpos in Hp. injection Hp as <-. rewrite Hnew in Ha' |- *. cbn in Ha'. injection Ha' as <-. exact H2.
    + rewrite list_lookup_alter_ne in Hp by done. apply H1; [by apply (list_elem_of_lookup_2 _ p)|done].
Qed.

Lemma story_alter i r pos h : story i (alter (acknowledge r) pos h) = story i h.
Proof.
  unfold story. apply list_eq. intros p. rewrite !list_lookup_fmap. destruct (decide (p = pos)) as [->|Hne].
  - rewrite list_lookup_alter_eq. by destruct (h !! pos).
  - by rewrite list_lookup_alter_ne.
Qed.

Lemma story_app i h e : story i (h ++ [e]) = story i h ++ [(e_op e, did_by i e)].
Proof. unfold story. by rewrite fmap_app. Qed.

Lemma replay_app c h x : replay c (h ++ [x]) = replay_one (replay c h) x.
Proof. unfold replay. by rewrite foldl_app. Qed.

(** Good bricks stay good when neither the counters nor what is held change. *)

Lemma good_same m m' g :
  (forall i j, (i < n)%nat -> (j < n)%nat -> counter (bricks m') i j = counter (bricks m) i j) ->
  (forall i, (i < n)%nat -> holds (history m') i <-> holds (history m) i) ->
  good m g -> good m' g.
Proof.
  intros Hc Hh (H1 & H2 & H3 & H4). split_and!; [done|by apply Hh|by rewrite Hc|].
  intros j Hj Hn. rewrite Hc by done. apply H4; [done|]. by rewrite <- Hh.
Qed.

(** *** Before the operation *)

Lemma zero_pending j : nth j (replicate n zero3) zero3 = Three 0 0 0.
Proof.
  destruct (decide (j < n)%nat) as [Hj|Hj].
  - by apply nth_lookup_Some, lookup_replicate_2.
  - rewrite nth_overflow; [done|]. rewrite length_replicate. lia.
Qed.

Definition ready (l : afr_local) : Prop :=
  basic l /\ replies l = replicate n no_reply /\
  forall i, (i < n)%nat -> bit (failed_subvols l) i = false -> bit (pre_op l) i = true.

Lemma pre_op_ready cs locked k opt :
  match afr_changelog_pre_op priv cs locked (new_local priv k opt) with
  | PreError _ => True
  | PreNext _ l => ready l
  | PreCarried _ _ _ => False
  | PreXattrop _ l x => ready l /\ xa_pending x = replicate n zero3
  end.
Proof.
  unfold afr_changelog_pre_op. set (l0 := with_pre_op _ _ _).
  assert (H0 : ready l0).
  { unfold ready. split_and!; [|reflexivity|].
    - split; cbn; rewrite ?tab_length, ?length_replicate; done.
    - intros i Hi Hb. unfold l0 in Hb |- *. cbn [failed_subvols pre_op with_pre_op] in Hb |- *.
      rewrite bit_tab, (proj2 (Nat.ltb_lt _ _) Hi) in Hb |- *. cbn [andb] in Hb |- *.
      apply orb_false_iff in Hb as [Hb _]. apply negb_false_iff in Hb. by rewrite Hb. }
  destruct (_ =? 0); [done|]. destruct (_ && _); [done|].
  pose proof (inherit_same cs l0) as Hs. destruct (afr_changelog_pre_op_inherit cs l0) as [[shared cs'] l]. cbn [snd] in Hs.
  assert (H1 : ready l).
  { destruct Hs as [E1 E2 E3 E4 E5 E6 E7], H0 as ([] & Hr & Hb). split_and!; [split; congruence|congruence|].
    rewrite E4, E5. done. }
  destruct shared; [done|]. cbn zeta.
  set (l1 := with_flags _ l). assert (H2 : ready l1) by (destruct H1 as ([] & Hr & Hb); split_and!; [by split|done|done]).
  match goal with |- context [if ?b then PreNext _ l1 else _] => destruct b end; [done|].
  rewrite (b_compat _ (proj1 H2)). cbn [negb]. done.
Qed.

Lemma ready_extends l l' : ready l -> extends l l' -> ready l'.
Proof.
  intros ([] & Hr & Hb) [E1 E2 E3 E4 E5 E6 E7 E8 E9]. split_and!; [split; congruence|congruence|].
  intros i Hi Hf. rewrite E4. apply Hb; [done|]. destruct (bit (failed_subvols l) i) eqn:E; [|done].
  apply E9 in E. congruence.
Qed.

Lemma inv_pre k g m op fd opt locked answers :
  inv k g m -> k + 1 < 2 ^ 31 -> length answers = n -> inv (k + 1) g (pre_step priv m op fd opt locked answers).
Proof.
  intros [H1 H2 H3 H4 H5] Hk Ha. unfold pre_step. pose proof (pre_op_ready (ctxs m) locked fd opt) as Hp.
  assert (Hpos : forall l, NoDup (omap position (txns m ++ [Marked op l]))).
  { intros l. rewrite omap_app. cbn. by rewrite app_nil_r. }
  assert (Htx : forall l, ready l -> forall t, t ∈ txns m ++ [Marked op l] -> txn_ok (history m) t).
  { intros l Hl t Ht. apply elem_of_app in Ht as [Ht|Ht]; [by apply H3|]. by apply list_elem_of_singleton in Ht as ->. }
  destruct (afr_changelog_pre_op _ _ _ _) as [l|c l|c l x|c l x]; [| |done|].
  - split; try done. apply (bricks_ok_le _ k); [done|lia].
  - split; cbn [bricks ctxs txns history];
      [apply (bricks_ok_le _ k); [done|lia]|done|by apply Htx|apply Hpos|exact H5].
  - destruct Hp as [Hl Hx].
    pose proof (changelog_do_spec priv k x (fun _ => 0) answers (bricks m) l H1 Hk Ha) as Hd.
    destruct (afr_changelog_do priv x answers (bricks m) l) as [bs l']. destruct Hd as (Hd1 & Hd2 & Hd3 & Hd4 & _).
    { intros j Hj. rewrite Hx. apply zero_pending. }
    { intros _. lia. }
    split; cbn [bricks ctxs txns history]; try done.
    + intros i Hi. rewrite Hd3 by done. by apply H2.
    + apply Htx. by apply (ready_extends l).
    + apply (good_same m); [|done|done]. intros i j Hi Hj. cbn [bricks].
      destruct (Hd4 i j Hi Hj) as [-> | ->]; lia.
Qed.

(** *** The operation *)

Context (Harb : arbiter_count priv <> 1).

Lemma perform_same cs l :
  exists c l', afr_transaction_perform_fop priv cs l = (true, c, l') /\ same_but_flags l l'.
Proof.
  unfold afr_transaction_perform_fop. rewrite (proj2 (Z.eqb_neq _ _) Harb).
  destruct (pre_op_compat l).
  - pose proof (update_same priv cs l) as Hs. destruct (afr_changelog_pre_op_update priv cs l) as [[b c] l'].
    by exists c, l'.
  - exists cs, l. by split.
Qed.

Lemma txns_insert t op l p (ts : list txn) :
  ts !! t = Some (Marked op l) ->
  exists a b, ts = a ++ Marked op l :: b /\ <[t := p]> ts = a ++ p :: b.
Proof.
  intros Ht. exists (take t ts), (drop (S t) ts). split; [by rewrite take_drop_middle|].
  rewrite insert_take_drop; [done|]. by apply lookup_lt_Some in Ht.
Qed.

(** What a brick did, as the history records it. *)

Lemma did_done op l answers i e :
  (i < n)%nat -> e_did e = what_was_done priv op l answers ->
  did_by i e = if bit (pre_op l) i then performed_of op (nth i answers (FFailed 0 None)) else None.
Proof.
  intros Hi He. unfold did_by. rewrite He. unfold what_was_done. rewrite nth_tab.
  by rewrite (proj2 (Nat.ltb_lt _ _) Hi).
Qed.

Lemma fop_ret_done op a : 0 <= fop_ret op a -> exists k, a = FDone k /\ fop_ret op a = Z.of_nat (done_bytes op k).
Proof. destruct a as [k|e p]; cbn [fop_ret]; [by exists k|lia]. Qed.

(** The calls of the operation: the bricks, and the replies in the
    transaction. *)

Definition answer_at (answers : list fanswer) (i : nat) : fanswer := nth i answers (FFailed 0 None).

Lemma what_was_done_at op l answers i :
  (i < n)%nat -> nth i (what_was_done priv op l answers) None =
    if bit (pre_op l) i then performed_of op (answer_at answers i) else None.
Proof. intros Hi. unfold what_was_done. rewrite nth_tab. by rewrite (proj2 (Nat.ltb_lt _ _) Hi). Qed.

Record called (op : operation) (answers : list fanswer) (bs bs' : list brick) (l l1 : afr_local) : Prop := {
  ca_length : length bs' = length bs;
  ca_bricks : forall i, (i < n)%nat -> brick_at bs' i =
     {| content := replay_one (content (brick_at bs i)) (op, nth i (what_was_done priv op l answers) None);
        logs := logs (brick_at bs i) |};
  ca_same : same_request l l1;
  ca_good : forall i, (i < n)%nat -> bit (failed_subvols l1) i = false ->
    bit (pre_op l) i = true /\ 0 <= fop_ret op (answer_at answers i) /\
    replies l1 !! i = Some {| valid := true; r_op_ret := fop_ret op (answer_at answers i);
                              r_op_errno := fop_errno (answer_at answers i) |};
  ca_reply : forall i r, replies l1 !! i = Some r -> valid r = true -> r_op_ret r = fop_ret op (answer_at answers i)
}.

Lemma fop_called op answers bs l k :
  ready l -> bricks_ok priv k bs -> length answers = n ->
  let '(bs', l1) := __afr_txn_write_fop op answers bs l in called op answers bs bs' l l1.
Proof.
  intros (Hb & Hr & Hm) Hok Ha. unfold __afr_txn_write_fop.
  pose proof (fop_calls_spec op answers 0 bs l) as Hs. cbn [Nat.add] in Hs.
  destruct (fop_calls op answers 0 bs l) as [bs' l1]. rewrite (bo_length _ _ _ Hok) in Hs.
  destruct Hs as (H1 & H2 & H3 & H4 & H5); [done|by rewrite (b_failed _ Hb)|by rewrite (b_replies _ Hb)|].
  split; [by rewrite H1, (bo_length _ _ _ Hok)| |done| |].
  - intros i Hi. apply brick_at_lookup. rewrite (H3 i _ (bricks_ok_lookup _ _ _ _ Hok Hi)).
    rewrite what_was_done_at by done. unfold replay_one. cbn [fst snd]. by destruct (bit (pre_op l) i).
  - intros i Hi Hf. destruct (bit (pre_op l) i) eqn:Hp.
    + destruct (H5 i Hi Hp) as [Hrep Hfl]. rewrite Hfl in Hf. apply orb_false_iff in Hf as [_ Hf].
      apply Z.ltb_ge in Hf. done.
    + destruct (H4 i) as [_ Hfl]; [by right|]. rewrite Hfl in Hf. rewrite Hm in Hp; done.
  - intros i r Hi Hv. assert (Hin : (i < n)%nat).
    { apply lookup_lt_Some in Hi. by rewrite (sr_replies _ _ H2), (b_replies _ Hb) in Hi. }
    destruct (bit (pre_op l) i) eqn:Hp.
    + destruct (H5 i Hin Hp) as [Hrep _]. rewrite Hrep in Hi. by injection Hi as <-.
    + destruct (H4 i) as [Hrep _]; [by right|]. rewrite Hrep, Hr in Hi.
      apply lookup_replicate_1 in Hi as [-> _]. done.
Qed.

Lemma called_ok op answers bs bs' l l1 k :
  called op answers bs bs' l l1 -> bricks_ok priv k bs -> bricks_ok priv k bs'.
Proof.
  intros [H1 H2 _ _ _] Hok. split; [by rewrite H1, (bo_length _ _ _ Hok)| |].
  - intros i Hi. rewrite H2 by done. by apply (bo_logs _ _ _ Hok).
  - intros i j Hi Hj. unfold counter. rewrite H2 by done. by apply (bo_counters _ _ _ Hok).
Qed.

(** After the operation: what the transaction, the contents and the history
    say. *)

Lemma fop_phase l op answers bs read_subvol k :
  ready l -> bricks_ok priv k bs -> length answers = n ->
  let '(bs', l1) := __afr_txn_write_fop op answers bs l in
  let l2 := afr_fop_done priv read_subvol op l1 in
  bricks_ok priv k bs' /\
  (forall i, (i < n)%nat -> brick_at bs' i =
     {| content := replay_one (content (brick_at bs i)) (op, nth i (what_was_done priv op l answers) None);
        logs := logs (brick_at bs i) |}) /\
  basic l2 /\ -1 <= op_ret l2 /\
  (0 <= op_ret l2 -> matching_errors (replies l2) 0 = false) /\
  (0 <= op_ret l2 -> forall i, (i < n)%nat -> bit (failed_subvols l2) i = false ->
     nth i (what_was_done priv op l answers) None = Some (Z.to_nat (op_ret l2))).
Proof.
  intros Hrd Hok Ha. pose proof (fop_called op answers bs l k Hrd Hok Ha) as Hc. destruct Hrd as (Hb & _ & _).
  destruct (__afr_txn_write_fop op answers bs l) as [bs' l1].
  pose proof (ca_same _ _ _ _ _ _ Hc) as H2. pose proof (ca_good _ _ _ _ _ _ Hc) as Hgood.
  destruct (fop_done_spec priv Harb read_subvol op l1 (fun i => fop_ret op (answer_at answers i)))
    as (F1 & F2 & F3 & F4 & F5 & F6 & F7 & F8 & F9 & F10 & F11).
  { by rewrite (sr_failed _ _ H2), (b_failed _ Hb). }
  { by rewrite (sr_replies _ _ H2), (b_replies _ Hb). }
  { intros i Hi Hf. destruct (Hgood i Hi Hf) as (_ & H0 & Hrep). destruct (fop_ret_done _ _ H0) as (z & _ & Hz).
    eexists _, z. split; [exact Hrep|done]. }
  { intros i r Hi Hv H0. rewrite (ca_reply _ _ _ _ _ _ Hc i r Hi Hv) in H0 |- *.
    destruct (fop_ret_done _ _ H0) as (z & _ & Hz). by exists z. }
  split_and!; try done.
  - by apply (called_ok _ _ _ _ _ _ _ Hc).
  - apply Hc.
  - split; [by rewrite F2, (sr_type _ _ H2), (b_type _ Hb)|by rewrite F4, (sr_compat _ _ H2), (b_compat _ Hb)|done|
      by rewrite F1, (sr_pre_op _ _ H2), (b_pre_op _ Hb)|by rewrite F6, (sr_replies _ _ H2), (b_replies _ Hb)].
  - intros H0. destruct (matching_errors _ 0) eqn:E; [|done]. exfalso. destruct (F9 H0) as (i & r & Hi & Hv & Hq).
    rewrite F6 in E. pose proof (matching_errors_spec _ _ E r (list_elem_of_lookup_2 _ _ _ Hi) Hv). lia.
  - intros H0 i Hi Hf. pose proof (F11 H0 i Hi Hf) as Hret.
    assert (Hf1 : bit (failed_subvols l1) i = false).
    { destruct (bit (failed_subvols l1) i) eqn:E; [|done]. rewrite F10 in Hf; done. }
    destruct (Hgood i Hi Hf1) as (Hp & H0' & _). rewrite what_was_done_at, Hp by done.
    destruct (fop_ret_done _ _ H0') as (z & Hz1 & Hz2). rewrite Hz1. cbn [performed_of]. f_equal. lia.
Qed.

Lemma nothing_failed_spec l i :
  afr_txn_nothing_failed priv l = true -> bit (failed_subvols l) i = false.
Proof.
  unfold afr_txn_nothing_failed. intros H. apply andb_true_iff in H as [_ H]. apply negb_true_iff in H.
  by apply exists_bit.
Qed.

Lemma resume_spec cs l :
  basic l -> (0 <= op_ret l -> matching_errors (replies l) 0 = false) ->
  exists c l', afr_transaction_resume priv cs l = (c, l') /\ basic l' /\ op_ret l' = op_ret l /\
    (0 <= op_ret l -> failed_subvols l' = failed_subvols l).
Proof.
  intros Hb Hm. unfold afr_transaction_resume, afr_handle_symmetric_errors.
  destruct (matching_errors (replies l) 0) eqn:E.
  - cbn [pre_op_compat __mark_all_success with_failed]. rewrite (b_compat _ Hb). cbn [negb].
    eexists _, _. split; [reflexivity|]. split_and!; [|done|].
    + destruct Hb. split; try done. cbn. by rewrite length_replicate.
    + intros H0. specialize (Hm H0). congruence.
  - rewrite (b_compat _ Hb). cbn [negb]. by eexists _, _.
Qed.

(** Appending an entry keeps the other transactions. *)

Lemma txn_ok_app h e t : txn_ok h t -> txn_ok (h ++ [e]) t.
Proof.
  destruct t as [op l|pos l]; [done|]. intros (Hb & H0 & x & Hx & H). split_and!; [done..|]. exists x.
  split; [|done]. by apply lookup_app_l_Some.
Qed.

Lemma position_lt h t pos : txn_ok h t -> position t = Some pos -> (pos < length h)%nat.
Proof.
  destruct t as [op l|p l]; [done|]. intros (Hb & H0 & x & Hx & H) [= ->]. by apply lookup_lt_Some in Hx.
Qed.

Lemma positions_insert t op l l' (ts : list txn) h :
  ts !! t = Some (Marked op l) -> NoDup (omap position ts) -> (forall t, t ∈ ts -> txn_ok h t) ->
  NoDup (omap position (<[t := Performed (length h) l']> ts)).
Proof.
  intros Ht Hnd Hok. destruct (txns_insert t op l (Performed (length h) l') ts Ht) as (a & b & E & ->).
  rewrite E, omap_app in Hnd. cbn [omap list_omap position] in Hnd. rewrite omap_app.
  cbn [omap list_omap position]. rewrite <- Permutation_middle. constructor; [|done].
  intros Hin. rewrite <- omap_app in Hin. apply list_elem_of_omap in Hin as (x & Hx & Hp).
  apply (position_lt h) in Hp; [lia|]. apply Hok. rewrite E.
  apply elem_of_app in Hx as [Hx|Hx]; apply elem_of_app; [by left|right; by apply list_elem_of_further].
Qed.

Lemma inv_fop k g m t op l answers read_subvol :
  inv k g m -> txns m !! t = Some (Marked op l) -> length answers = n ->
  inv k g (fop_step priv m t op l answers read_subvol).
Proof.
  intros [H1 H2 H3 H4 H5] Ht Ha. unfold fop_step.
  pose proof (H3 _ (list_elem_of_lookup_2 _ _ _ Ht) : ready l) as Hl.
  destruct (perform_same (ctxs m) l) as (c & l' & -> & Hs).
  assert (Hl' : ready l').
  { destruct Hs as [E1 E2 E3 E4 E5 E6 E7], Hl as ([] & Hr & Hb). split_and!; [split; congruence|congruence|].
    rewrite E4, E5. done. }
  pose proof (fop_phase l' op answers (bricks m) read_subvol k Hl' H1 Ha) as Hp.
  destruct (__afr_txn_write_fop op answers (bricks m) l') as [bs' l1].
  set (l2 := afr_fop_done priv read_subvol op l1) in *. destruct Hp as (P1 & P2 & P3 & P4 & P5 & P6).
  destruct (resume_spec c l2 P3 P5) as (c' & l3 & -> & R1 & R2 & R3).
  set (e := {| e_op := op; e_did := what_was_done priv op l' answers; e_ack := _ |}).
  assert (Hack : e_ack e = None \/ (0 <= op_ret l2 /\ e_ack e = Some (op_ret l2) /\
                   forall i, (i < n)%nat -> did_by i e = Some (Z.to_nat (op_ret l2)))).
  { unfold e. cbn [e_ack]. destruct (afr_txn_nothing_failed priv l2) eqn:En; cbn [andb]; [|by left].
    destruct (Z.leb_spec 0 (op_ret l2)) as [H0|]; [|by left]. right. split_and!; [done..|].
    intros i Hi. apply P6; [done..|]. by apply nothing_failed_spec. }
  split; cbn [bricks ctxs txns history].
  - done.
  - intros i Hi. rewrite P2 by done. cbn [content]. rewrite H2, story_app, replay_app by done. done.
  - intros x Hx. apply list_elem_of_lookup in Hx as [j Hj]. destruct (decide (j = t)) as [->|Hne].
    + rewrite list_lookup_insert_eq in Hj by (by apply lookup_lt_Some in Ht). injection Hj as <-.
      split_and!; [done|lia|]. exists e. split_and!.
      * by rewrite lookup_app_r, Nat.sub_diag by lia.
      * apply tab_length.
      * rewrite R2. destruct Hack as [|(? & ? & _)]; [by left|by right].
      * rewrite R2. intros H0 i Hi Hf. rewrite R3 in Hf by done. by apply P6.
    + rewrite list_lookup_insert_ne in Hj by done. apply txn_ok_app, H3. by apply (list_elem_of_lookup_2 _ j).
  - by apply (positions_insert t op l).
  - apply (good_same m); [| |done].
    + intros i j Hi Hj. unfold counter. cbn [bricks]. by rewrite P2.
    + intros i Hi. cbn [history]. rewrite holds_app. split; [by intros [? _]|]. intros Hh. split; [done|].
      intros r Hr. destruct Hack as [|(_ & Hr' & Hd)]; [congruence|]. rewrite Hr' in Hr. injection Hr as <-. by apply Hd.
Qed.

(** *** After the operation *)

Definition synced (fsyncs : option (list bool)) (l : afr_local) : afr_local :=
  match fsyncs with Some f => afr_changelog_fsync priv f l | None => l end.

Lemma synced_spec fsyncs l :
  basic l -> basic (synced fsyncs l) /\ op_ret (synced fsyncs l) = op_ret l /\
  forall i, bit (failed_subvols (synced fsyncs l)) i = false -> (i < n)%nat -> bit (failed_subvols l) i = false.
Proof.
  intros Hb. destruct fsyncs as [f|]; [|by split_and!]. cbn [synced]. split_and!.
  - destruct Hb. split; try done. apply tab_length.
  - done.
  - intros i Hi Hn. cbn [failed_subvols afr_changelog_fsync with_failed] in Hi.
    rewrite bit_tab, (proj2 (Nat.ltb_lt _ _) Hn) in Hi. cbn [andb] in Hi. by apply orb_false_iff in Hi as [Hi _].
Qed.

Lemma quorum_spec l :
  basic l -> -1 <= op_ret l ->
  basic (afr_handle_quorum priv l) /\ -1 <= op_ret (afr_handle_quorum priv l) /\
  (0 <= op_ret (afr_handle_quorum priv l) -> afr_handle_quorum priv l = l).
Proof.
  intros Hb H0. unfold afr_handle_quorum. destruct (quorum_count priv =? 0); [by split_and!|].
  destruct (op_ret l =? -1); [by split_and!|]. destruct (afr_has_fop_cbk_quorum priv l); [by split_and!|].
  split_and!; [|done|cbn; lia]. destruct Hb. split; try done. apply tab_length.
Qed.

Lemma post_op_shape cs l :
  basic (afr_handle_quorum priv l) ->
  let lq := afr_handle_quorum priv l in
  exists x c l', afr_changelog_post_op_now priv cs l = (x, c, l') /\ same_but_flags lq l' /\
    match x with
    | None => op_ret lq < 0 \/ afr_txn_nothing_failed priv lq = true
    | Some x => 0 <= op_ret lq /\ forall j, (j < n)%nat ->
        nth j (xa_pending x) zero3 = Three (if bit (failed_subvols lq) j then 1 else 0) 0 0
    end.
Proof.
  intros Hb. cbn zeta. unfold afr_changelog_post_op_now. set (lq := afr_handle_quorum priv l) in *.
  pose proof (uninherit_same priv cs lq) as Hs.
  destruct (afr_changelog_pre_op_uninherit priv cs lq) as [[shared c] l']. cbn [snd] in Hs.
  rewrite (b_type _ Hb). cbn [afr_index_for_transaction_type].
  destruct (Z.ltb_spec (op_ret l') 0) as [H0|H0].
  { eexists _, _, _. split; [reflexivity|]. split; [done|]. left. rewrite <- (sf_ret _ _ Hs). done. }
  destruct (afr_txn_nothing_failed priv lq) eqn:En; cbn [andb].
  - destruct shared; eexists _, _, _; (split; [reflexivity|]); (split; [done|]); [by right|].
    split; [by rewrite <- (sf_ret _ _ Hs)|]. intros j Hj. cbn [xa_pending afr_set_pending_dict].
    rewrite nth_tab, (proj2 (Nat.ltb_lt _ _) Hj), (sf_failed _ _ Hs). by destruct (bit _ j).
  - eexists _, _, _. split; [reflexivity|]. split; [done|].
    split; [by rewrite <- (sf_ret _ _ Hs)|]. intros j Hj. cbn [xa_pending afr_set_pending_dict].
    rewrite nth_tab, (proj2 (Nat.ltb_lt _ _) Hj), (sf_failed _ _ Hs). by destruct (bit _ j).
Qed.

Lemma acknowledge_negative r (pos : nat) (h : list entry) : r < 0 -> alter (acknowledge r) pos h = h.
Proof.
  intros Hr. apply list_eq. intros p. destruct (decide (p = pos)) as [->|Hne].
  - rewrite list_lookup_alter_eq. destruct (h !! pos) as [[op did ack]|]; [|done]. cbn. unfold acknowledge. cbn.
    rewrite (proj2 (Z.leb_gt _ _) Hr). by destruct ack.
  - by rewrite list_lookup_alter_ne.
Qed.

Lemma positions_delete t pos l (ts : list txn) :
  ts !! t = Some (Performed pos l) -> NoDup (omap position ts) ->
  NoDup (omap position (delete t ts)) /\
  forall t', t' ∈ delete t ts -> t' ∈ ts /\ position t' <> Some pos.
Proof.
  intros Ht Hnd. rewrite <- (take_drop_middle ts t _ Ht) in Hnd. rewrite delete_take_drop.
  rewrite omap_app in Hnd |- *. cbn [omap list_omap position] in Hnd. rewrite <- Permutation_middle in Hnd.
  apply NoDup_cons in Hnd as [Hni Hnd]. split; [done|]. intros t' Ht'. split.
  - rewrite <- (take_drop_middle ts t _ Ht). apply elem_of_app in Ht' as [Ht'|Ht']; apply elem_of_app; [by left|].
    right. by apply list_elem_of_further.
  - intros Hp. apply Hni. rewrite <- omap_app. apply list_elem_of_omap. by exists t'.
Qed.

Lemma txn_ok_alter (h : list entry) r pos t : position t <> Some pos -> txn_ok h t -> txn_ok (alter (acknowledge r) pos h) t.
Proof.
  destruct t as [op l|p l]; [done|]. intros Hp (Hb & H0 & e & He & H). split_and!; [done..|]. exists e.
  split; [|done]. rewrite list_lookup_alter_ne; [done|]. intros ->. by apply Hp.
Qed.

(** The witness of an acknowledged operation stays good. *)

Lemma good_witness m m' l e pos r (v : nat -> Z) k g :
  history m !! pos = Some e -> e_ack e = None \/ e_ack e = Some r -> 0 <= r ->
  history m' = alter (acknowledge r) pos (history m) ->
  bricks_ok priv k (bricks m) ->
  (forall j, v j = if bit (failed_subvols l) j then 1 else 0) ->
  (forall i, (i < n)%nat -> bit (failed_subvols l) i = false -> did_by i e = Some (Z.to_nat r)) ->
  (forall j, (j < n)%nat -> counter (bricks m') g j = counter (bricks m) g j + v j) ->
  bit (failed_subvols l) g = false -> good m g -> good m' g.
Proof.
  intros He Ha Hr Hh Hok Hv Hdid Hc Hg (G1 & G2 & G3 & G4). split_and!.
  - done.
  - rewrite Hh. apply (holds_alter _ _ e); [done..|]. split; [done|]. by apply Hdid.
  - rewrite Hc, G3, Hv, Hg by done. done.
  - intros j Hj Hn. rewrite Hc, Hv by done. pose proof (bo_counters _ _ _ Hok g j G1 Hj) as Hb.
    destruct (bit (failed_subvols l) j) eqn:Hf; [lia|]. rewrite Z.add_0_r. apply G4; [done|].
    intros Hold. apply Hn. rewrite Hh. apply (holds_alter _ _ e); [done..|]. split; [done|]. by apply Hdid.
Qed.

Definition post_bricks (x : option xattr) (answers : list xanswer) (bs : list brick) (l : afr_local) : list brick :=
  match x with Some x => (afr_changelog_do priv x answers bs l).1 | None => bs end.

Lemma post_bricks_spec k x v answers bs l :
  bricks_ok priv k bs -> k + 1 < 2 ^ 31 -> length answers = n -> (forall j, 0 <= v j <= 1) ->
  (forall y, x = Some y -> forall j, (j < n)%nat -> nth j (xa_pending y) zero3 = Three (v j) 0 0) ->
  let bs' := post_bricks x answers bs l in
  bricks_ok priv (k + 1) bs' /\
  (forall i, (i < n)%nat -> content (brick_at bs' i) = content (brick_at bs i)) /\
  (forall i j, (i < n)%nat -> (j < n)%nat -> counter bs' i j = counter bs i j \/
     (x <> None /\ counter bs' i j = counter bs i j + v j)) /\
  (forall w j, (w < n)%nat -> (j < n)%nat -> x <> None -> bit (pre_op l) w = true ->
     nth w answers (XFailed false []) = XDone -> counter bs' w j = counter bs w j + v j).
Proof.
  intros Hok Hk Ha Hv Hx. unfold post_bricks. cbn zeta. destruct x as [x|].
  - pose proof (changelog_do_spec priv k x v answers bs l Hok Hk Ha (Hx x eq_refl) Hv) as Hd.
    destruct (afr_changelog_do priv x answers bs l) as [bs' l4]. cbn [fst]. destruct Hd as (_ & D2 & D3 & D4 & D5).
    split_and!; [done|done| |by intros; apply D5].
    intros i j Hi Hj. destruct (D4 i j Hi Hj); [by left|by right].
  - split_and!; [apply (bricks_ok_le _ k); [done|lia]|done|by left|done].
Qed.

(** The keeper is good after a post-operation. *)

Lemma good_post k g m m' (x : option xattr) (e : entry) pos l answers :
  inv k g m -> history m !! pos = Some e -> history m' = alter (acknowledge (op_ret l)) pos (history m) ->
  (0 <= op_ret l -> e_ack e = None \/ e_ack e = Some (op_ret l)) ->
  (0 <= op_ret l -> forall i, (i < n)%nat -> bit (failed_subvols l) i = false ->
     did_by i e = Some (Z.to_nat (op_ret l))) ->
  match x with
  | None => op_ret l < 0 \/ afr_txn_nothing_failed priv l = true
  | Some x => 0 <= op_ret l
  end ->
  let v j := if bit (failed_subvols l) j then 1 else 0 in
  (forall i j, (i < n)%nat -> (j < n)%nat -> counter (bricks m') i j = counter (bricks m) i j \/
     (x <> None /\ counter (bricks m') i j = counter (bricks m) i j + v j)) ->
  (forall w j, (w < n)%nat -> (j < n)%nat -> x <> None -> bit (pre_op l) w = true ->
     nth w answers (XFailed false []) = XDone -> counter (bricks m') w j = counter (bricks m) w j + v j) ->
  attended priv g (Some (l, answers)) -> good m' g.
Proof.
  intros [H1 H2 H3 H4 H5] He Hh Hack Hdid Hx v B3 B4 Hw.
  destruct (Z_lt_le_dec (op_ret l) 0) as [Hneg|Hpos].
  { apply (good_same m); [| |done].
    - intros i j Hi Hj. destruct (B3 i j Hi Hj) as [|[Hn _]]; [done|]. destruct x; [lia|done].
    - intros i Hi. by rewrite Hh, acknowledge_negative. }
  specialize (Hack Hpos). specialize (Hdid Hpos).
  assert (Hsame : afr_txn_nothing_failed priv l = true -> good m' g).
  { intros Hnf. apply (good_same m); [| |done].
    - intros i j Hi Hj. destruct (B3 i j Hi Hj) as [|[_ ->]]; [done|]. unfold v. rewrite (nothing_failed_spec _ j Hnf). lia.
    - intros i Hi. rewrite Hh, (holds_alter _ _ e) by done. split; [by intros [? _]|].
      intros Hi'. split; [done|]. apply Hdid; [done|]. by apply nothing_failed_spec. }
  destruct Hw as [Hw|[Hw|(W2 & W3 & W4)]]; [lia|by apply Hsame|].
  destruct x as [x|].
  - apply (good_witness m _ l e pos (op_ret l) v k); try done. intros j Hj. apply B4; [apply H5|done..].
  - destruct Hx as [Hx|Hx]; [lia|]. by apply Hsame.
Qed.

Lemma inv_post k g m t pos l fsyncs answers :
  inv k g m -> k + 1 < 2 ^ 31 -> txns m !! t = Some (Performed pos l) -> length answers = n ->
  attended priv g (Some (post_local priv m l fsyncs, answers)) ->
  inv (k + 1) g (post_step priv m t pos l fsyncs answers).
Proof.
  intros Hinv Hk Ht Ha Hw. pose proof Hinv as [H1 H2 H3 H4 _].
  destruct (H3 _ (list_elem_of_lookup_2 _ _ _ Ht)) as (Hb & Hret & e & He & Hlen & Hack & Hdid).
  destruct (positions_delete t pos l (txns m) Ht H4) as [Hnd Hrest].
  unfold post_step. fold (synced fsyncs l). unfold post_local in Hw. fold (synced fsyncs l) in Hw.
  destruct (synced_spec fsyncs l Hb) as (S1 & S2 & S3).
  destruct (quorum_spec (synced fsyncs l) S1 ltac:(lia)) as (Q1 & Q2 & Q3).
  destruct (post_op_shape (ctxs m) (synced fsyncs l) Q1) as (x & c & l3 & -> & Hs & Hx). cbn zeta in Hx.
  set (lq := afr_handle_quorum priv (synced fsyncs l)) in *. rewrite (sf_ret _ _ Hs).
  fold (post_bricks x answers (bricks m) l3). set (v := fun j => if bit (failed_subvols lq) j then 1 else 0).
  destruct (post_bricks_spec k x v answers (bricks m) l3 H1 Hk Ha) as (B1 & B2 & B3 & B4).
  { intros j. unfold v. destruct (bit _ j); lia. }
  { intros y -> j Hj. by apply Hx. }
  rewrite (sf_pre_op _ _ Hs) in B4.
  assert (Er : 0 <= op_ret lq -> op_ret lq = op_ret l) by (intros H0; by rewrite (Q3 H0), S2).
  split; cbn [bricks ctxs txns history]; [done| | |done|].
  - intros i Hi. rewrite B2, story_alter by done. by apply H2.
  - intros t' Ht'. destruct (Hrest t' Ht') as [Hin Hp]. apply txn_ok_alter; [done|]. by apply H3.
  - apply (good_post k g m _ x e pos lq answers); try done.
    + intros H0. rewrite (Er H0). tauto.
    + intros H0 i Hi Hf. rewrite (Er H0). apply Hdid; [rewrite <- (Er H0); done|done|]. apply S3; [|done].
      by rewrite <- (Q3 H0).
    + destruct x; [apply Hx|done].
Qed.

(** *** Heals *)

Lemma accusation_counter bs up rs i j :
  lookups priv bs up rs -> (i < n)%nat ->
  accusation rs i j = if bit up i then counter bs i j else 0.
Proof.
  intros Hl Hi. specialize (Hl i Hi). unfold accusation, counter. destruct (bit up i).
  - by destruct Hl as (_ & _ & -> & _).
  - by rewrite Hl.
Qed.

Lemma did_copy source healed i e :
  (i < n)%nat -> did_by i (copy_did priv source healed e) = did_by (if bit healed i then source else i) e.
Proof.
  intros Hi. unfold did_by at 1. cbn [copy_did e_did]. rewrite nth_tab. by rewrite (proj2 (Nat.ltb_lt _ _) Hi).
Qed.

Lemma holds_copy source healed h i :
  (i < n)%nat -> holds (copy_did priv source healed <$> h) i <-> holds h (if bit healed i then source else i).
Proof.
  intros Hi. unfold holds. split.
  - intros H e r He Ha. rewrite <- (did_copy source healed i e Hi). apply H; [|done]. by apply list_elem_of_fmap_2.
  - intros H e r He Ha. apply list_elem_of_fmap in He as (e' & -> & He'). rewrite did_copy by done. by apply H.
Qed.

Lemma story_copy source healed h i :
  (i < n)%nat -> story i (copy_did priv source healed <$> h) = story (if bit healed i then source else i) h.
Proof.
  intros Hi. unfold story. rewrite <- list_fmap_compose. apply list_fmap_ext. intros p e _. cbn [compose].
  by rewrite did_copy.
Qed.

Lemma content_at_bricks bs i : content_at (content <$> bs) i = content (brick_at bs i).
Proof.
  unfold content_at, brick_at. destruct (decide (i < length bs)%nat) as [Hi|Hi].
  - destruct (lookup_lt_is_Some_2 bs i Hi) as [b Hb]. rewrite (nth_lookup_Some bs i _ b Hb).
    apply nth_lookup_Some. by rewrite list_lookup_fmap, Hb.
  - rewrite !nth_overflow; [done|lia|rewrite length_fmap; lia].
Qed.

Lemma undo_length rs snks healed locked answers ls :
  length (afr_selfheal_undo_pending priv AFR_DATA_TRANSACTION rs snks healed locked answers ls) = length ls.
Proof. unfold afr_selfheal_undo_pending. destruct (afr_selfheal_extract_xattr _ _ _). apply length_imap. Qed.

(** What is added to the counters of the bricks that were locked. *)

Lemma undo_counters k bs up rs snks healed locked answers i j :
  bricks_ok priv k bs -> k + 1 < 2 ^ 31 -> lookups priv bs up rs ->
  (forall i, bit locked i = true -> bit up i = true) -> (i < n)%nat -> (j < n)%nat ->
  nth i answers XDone = XDone ->
  forall c, afr_selfheal_undo_pending priv AFR_DATA_TRANSACTION rs snks healed locked answers (logs <$> bs) !! i = Some c ->
  length (cl_pending c) = n /\
  pending_at (cl_pending c) 0 j =
    if bit locked i then (if bit snks j && negb (bit healed j) then counter bs i j + 1 else 0) else counter bs i j.
Proof.
  intros Hok Hk Hl Hup Hi Hj Ha c. unfold afr_selfheal_undo_pending.
  pose proof (cell_extract priv rs i j Hi Hj) as Hcell.
  destruct (afr_selfheal_extract_xattr priv rs AFR_DATA_TRANSACTION) as [dirty matrix]. cbn [snd] in Hcell.
  rewrite list_lookup_imap, list_lookup_fmap, (bricks_ok_lookup _ _ _ _ Hok Hi). cbn [fmap option_fmap option_map].
  intros [= <-]. destruct (bit locked i) eqn:Hlock.
  2: { split; [by apply (bo_logs _ _ _ Hok)|done]. }
  rewrite xattrop_length. split; [by apply (bo_logs _ _ _ Hok)|]. rewrite Ha.
  pose proof (bo_counters _ _ _ Hok i j Hi Hj) as Hc.
  set (p := bit snks j && negb (bit healed j)).
  destruct (xattrop_counter XDone
    (afr_selfheal_output_xattr priv AFR_DATA_TRANSACTION
       (tab n (fun i => if bit snks i && negb (bit healed i) then 0 else i32 (- nth i dirty 0)))
       (tab n (fun i => tab n (fun j => if bit snks j && negb (bit healed j) then 1 else i32 (- cell matrix i j)))) i)
    (logs (brick_at bs i)) j (if p then 1 else i32 (- counter bs i j))) as [Hd _].
  - by rewrite (bo_logs _ _ _ Hok).
  - cbn [xa_pending afr_selfheal_output_xattr afr_index_for_transaction_type]. rewrite nth_tab, (proj2 (Nat.ltb_lt _ _) Hj).
    unfold cell. rewrite !nth_tab, (proj2 (Nat.ltb_lt _ _) Hi), nth_tab, (proj2 (Nat.ltb_lt _ _) Hj).
    fold (cell matrix i j). rewrite Hcell, (accusation_counter bs up) by done. rewrite Hup by done. done.
  - unfold counter in Hc. unfold in_s. lia.
  - rewrite Hd by done. fold (counter bs i j). destruct p; [by rewrite swrap_small by (unfold in_s; lia)|].
    rewrite (swrap_small 32 (- counter bs i j)) by (unfold in_s; lia). rewrite Z.add_opp_diag_r. reflexivity.
Qed.

Lemma healed_bricks k bs cs up rs snks healed locked answers :
  bricks_ok priv k bs -> k + 1 < 2 ^ 31 -> lookups priv bs up rs -> length cs = n ->
  (forall i, bit locked i = true -> bit up i = true) ->
  (forall i, (i < n)%nat -> nth i answers XDone = XDone) ->
  let bs1 := set_contents cs bs in
  let bs' := set_logs (afr_selfheal_undo_pending priv AFR_DATA_TRANSACTION rs snks healed locked answers
                         (logs <$> bs1)) bs1 in
  bricks_ok priv (k + 1) bs' /\
  forall i, (i < n)%nat -> content (brick_at bs' i) = content_at cs i /\
    forall j, (j < n)%nat -> counter bs' i j =
      if bit locked i then (if bit snks j && negb (bit healed j) then counter bs i j + 1 else 0) else counter bs i j.
Proof.
  intros Hok Hk Hl Hcs Hup Ha. cbn zeta. set (bs1 := set_contents cs bs).
  assert (H1 : forall i, (i < n)%nat -> bs1 !! i = Some {| content := content_at cs i; logs := logs (brick_at bs i) |}).
  { intros i Hi. unfold bs1, set_contents. destruct (lookup_lt_is_Some_2 cs i) as [c Hc]; [by rewrite Hcs|].
    apply lookup_zip_with_Some. exists c, (brick_at bs i). split_and!; [|done|by apply (bricks_ok_lookup priv k)].
    unfold content_at. by rewrite (nth_lookup_Some cs i [] c Hc). }
  assert (Hlen1 : length bs1 = n).
  { unfold bs1, set_contents. rewrite length_zip_with, Hcs, (bo_length _ _ _ Hok). lia. }
  assert (Hlogs : logs <$> bs1 = logs <$> bs).
  { apply list_eq. intros i. rewrite !list_lookup_fmap. destruct (decide (i < n)%nat) as [Hi|Hi].
    - rewrite H1, (bricks_ok_lookup _ _ _ _ Hok) by done. done.
    - rewrite !lookup_ge_None_2; [done|rewrite (bo_length _ _ _ Hok); lia|lia]. }
  rewrite Hlogs. set (ls := afr_selfheal_undo_pending _ _ _ _ _ _ _ _).
  assert (Hls : length ls = n) by (unfold ls; by rewrite undo_length, length_fmap, (bo_length _ _ _ Hok)).
  assert (Hat : forall i, (i < n)%nat -> exists c, ls !! i = Some c /\
    brick_at (set_logs ls bs1) i = {| content := content_at cs i; logs := c |}).
  { intros i Hi. destruct (lookup_lt_is_Some_2 ls i) as [c Hc]; [by rewrite Hls|]. exists c. split; [done|].
    apply brick_at_lookup. apply lookup_zip_with_Some. exists c, {| content := content_at cs i; logs := logs (brick_at bs i) |}.
    split_and!; [done..|]. by apply H1. }
  assert (Hcnt : forall i, (i < n)%nat -> content (brick_at (set_logs ls bs1) i) = content_at cs i /\
    length (cl_pending (logs (brick_at (set_logs ls bs1) i))) = n /\
    forall j, (j < n)%nat -> counter (set_logs ls bs1) i j =
      if bit locked i then (if bit snks j && negb (bit healed j) then counter bs i j + 1 else 0) else counter bs i j).
  { intros i Hi. destruct (Hat i Hi) as (c & Hc & E). unfold counter at 1. rewrite E. cbn [content logs].
    split; [done|]. split.
    - by apply (undo_counters k bs up rs snks healed locked answers i i Hok Hk Hl Hup Hi Hi (Ha i Hi) c).
    - intros j Hj. by apply (undo_counters k bs up rs snks healed locked answers i j Hok Hk Hl Hup Hi Hj (Ha i Hi) c). }
  split; [split|].
  - unfold set_logs. rewrite length_zip_with, Hls, Hlen1. lia.
  - intros i Hi. by apply Hcnt.
  - intros i j Hi Hj. destruct (Hcnt i Hi) as (_ & _ & Hc). rewrite (Hc j Hj).
    pose proof (bo_counters _ _ _ Hok i j Hi Hj). destruct (bit locked i); [destruct (_ && _)|]; lia.
  - intros i Hi. destruct (Hcnt i Hi) as (Hc1 & _ & Hc2). exact (conj Hc1 Hc2).
Qed.

Lemma lookups_nonneg bs up rs :
  lookups priv bs up rs -> length rs = n ->
  (forall i, 0 <= ia_size (reply_at rs i)) /\ (forall i, 0 <= ia_ctime (reply_at rs i)).
Proof.
  intros Hl Hn. assert (H : forall i, 0 <= ia_size (reply_at rs i) /\ 0 <= ia_ctime (reply_at rs i)).
  { intros i. destruct (decide (i < n)%nat) as [Hi|Hi].
    - specialize (Hl i Hi). destruct (bit up i); [|by rewrite Hl]. destruct Hl as (_ & _ & _ & -> & ?). split; lia.
    - unfold reply_at. rewrite nth_overflow by lia. done. }
  split; intros i; apply H.
Qed.

Lemma set_logs_same bs : set_logs (logs <$> bs) bs = bs.
Proof.
  unfold set_logs. induction bs as [|[c l] bs IH]; [done|]. cbn [fmap list_fmap zip_with logs content]. by f_equal.
Qed.

Lemma heal_result req rs locked env ops bs source srcs snks healed bs' healed' :
  alike ops env ->
  __afr_selfheal_data_prepare priv names req rs locked = Some (inr (source, srcs, snks, healed)) ->
  __afr_selfheal_data priv names rchecksum algorithm req rs locked env bs = Some (0, bs', healed') ->
  exists cs, heal_file priv rchecksum algorithm rs source env (content <$> bs) healed = (cs, healed', 0) /\
    bs' = set_logs (afr_selfheal_undo_pending priv AFR_DATA_TRANSACTION rs snks healed' locked (he_post_op env)
                      (logs <$> set_contents cs bs)) (set_contents cs bs).
Proof.
  intros Hal Hp. unfold __afr_selfheal_data. destruct (_ <? _); [done|]. rewrite Hp. cbn [mbind option_bind].
  rewrite (al_marks _ _ Hal), set_logs_same.
  destruct (AFR_COUNT healed =? 0); [done|]. rewrite (proj2 (Z.eqb_neq _ _) Harb). cbn [andb]. unfold heal_file.
  destruct (__afr_selfheal_truncate_sinks _ _ _ _ _) as [cs1 healed1].
  destruct (afr_selfheal_data_do _ _ _ _ _ _ _ _ _ _ _) as [[cs2 healed2] ret].
  destruct (Z.eqb_spec ret 0) as [->|Hne]; cbn [negb].
  - intros [= <- <-]. by exists cs2.
  - intros [= -> _ _]. done.
Qed.

Lemma heal_contents bs up rs locked env ops source srcs snks healed cs healed' k :
  bricks_ok priv k bs -> lookups priv bs up rs -> length rs = n -> length locked = n ->
  (forall i, bit locked i = true -> bit up i = true) ->
  __afr_selfheal_data_prepare priv names NoHealOp rs locked = Some (inr (source, srcs, snks, healed)) ->
  alike ops env -> no_collision priv rchecksum algorithm rs source env (content <$> bs) healed ->
  heal_file priv rchecksum algorithm rs source env (content <$> bs) healed = (cs, healed', 0) ->
  let ops := meanwhile ops (ia_size (reply_at rs source)) in
  length cs = n /\ (source < n)%nat /\ bit healed source = false /\
  (forall i, bit healed' i = true -> bit healed i = true) /\
  (forall i, (i < n)%nat -> bit healed' i = true ->
     content_at cs i = perform_all ops (content (brick_at bs source))) /\
  (forall i, (i < n)%nat -> bit healed i = false -> content_at cs i = perform_all ops (content (brick_at bs i))).
Proof.
  intros Hok Hl Hrs Hlk Hup Hp Hal Hsum Hf. destruct (lookups_nonneg _ _ _ Hl Hrs) as [Hs Hc].
  destruct (prepare_cases priv names rs locked Hlk Hs Hc) as (p & Hp' & Hcase). rewrite Hp in Hp'. injection Hp' as <-.
  destruct Hcase as (d & Hd & -> & Hsub & Hsrc & Hsn & ->).
  assert (Hhs : bit (afr_mark_active_sinks priv srcs locked) source = false).
  { unfold afr_mark_active_sinks. rewrite bit_tab, Hsrc. by rewrite andb_false_r. }
  assert (Hlock : bit locked source = true).
  { destruct (Z_lt_le_dec (afr_success_count priv rs) 2) as [Hlt|Hge].
    { unfold afr_selfheal_find_direction, AFR_SH_MIN_PARTICIPANTS in Hd. by rewrite (proj2 (Z.ltb_lt _ _) Hlt) in Hd. }
    destruct (direction_spec priv rs locked Hge) as (d' & Hd' & _ & _ & _ & Hspec & _). rewrite Hd in Hd'.
    injection Hd' as <-. by apply Hspec, Hsub. }
  pose proof (heal_file_copies priv rchecksum algorithm rs source env ops (content <$> bs)
    (afr_mark_active_sinks priv srcs locked) Hal Hsum) as Hcopy. rewrite Hf in Hcopy.
  destruct Hcopy as (C1 & C2 & C3 & C4);
    [done|by rewrite length_fmap, (bo_length _ _ _ Hok)|apply tab_length|done| |done|].
  { intros i Hi. assert (Hin : (i < n)%nat /\ bit locked i = true).
    { destruct Hi as [->|Hi]; [done|]. unfold afr_mark_active_sinks in Hi. rewrite bit_tab, !andb_true_iff in Hi.
      destruct Hi as (Hi & _ & Hi'). by apply Nat.ltb_lt in Hi. }
    destruct Hin as [Hin Hlk']. specialize (Hl i Hin). rewrite (Hup i Hlk') in Hl. rewrite content_at_bricks.
    by destruct Hl as (_ & _ & _ & ? & _). }
  split_and!; [done..| | |].
  - intros i Hi. by apply C3.
  - intros i Hi Hh. destruct (C3 i Hh) as [_ ->]. by rewrite content_at_bricks.
  - intros i Hi Hh. rewrite C4 by done. by rewrite content_at_bricks.
Qed.

(** The transactions that came in during a heal. *)

Lemma overlapping_held h ops i :
  (i < n)%nat -> holds (h ++ (overlapping priv <$> ops)) i <-> holds h i.
Proof.
  intros Hi. unfold holds. split.
  - intros H e r He. apply H, elem_of_app. by left.
  - intros H e r He Ha. apply elem_of_app in He as [He|He]; [by apply H|].
    apply list_elem_of_fmap in He as ([op b] & -> & _). cbn [overlapping e_ack] in Ha. injection Ha as <-.
    rewrite Nat2Z.id. unfold did_by. cbn [overlapping e_did snd].
    by rewrite (nth_lookup_Some _ i None (Some b)) by (by apply lookup_replicate_2).
Qed.

Lemma overlapping_story h ops i :
  (i < n)%nat ->
  replay c0 (story i (h ++ (overlapping priv <$> ops))) = perform_all ops (replay c0 (story i h)).
Proof.
  intros Hi. unfold story, replay, perform_all. rewrite fmap_app, foldl_app.
  generalize (foldl replay_one c0 ((fun e => (e_op e, did_by i e)) <$> h)).
  induction ops as [|[op b] ops IH]; intros c; [done|]. cbn [fmap list_fmap foldl]. rewrite <- IH. f_equal.
  unfold replay_one, did_by. cbn [overlapping e_op e_did fst snd].
  by rewrite (nth_lookup_Some _ i None (Some b)) by (by apply lookup_replicate_2).
Qed.

Lemma inv_heal k m up locked rs env ops source srcs snks healed bs healed' d g fds :
  inv k g m -> k + 1 < 2 ^ 31 -> length locked = n ->
  (forall i, bit locked i = true -> bit up i = true) -> length rs = n -> lookups priv (bricks m) up rs ->
  __afr_selfheal_data_prepare priv names NoHealOp rs locked = Some (inr (source, srcs, snks, healed)) ->
  afr_selfheal_find_direction priv rs AFR_DATA_TRANSACTION locked = inr d ->
  bit (sources d) g = true ->
  alike ops env -> no_collision priv rchecksum algorithm rs source env (content <$> bricks m) healed ->
  __afr_selfheal_data priv names rchecksum algorithm NoHealOp rs locked env (bricks m) = Some (0, bs, healed') ->
  (forall i, bit healed i = true -> bit healed' i = true) ->
  (forall i, (i < n)%nat -> nth i (he_post_op env) XDone = XDone) ->
  inv (k + 1) g
    {| bricks := bs; ctxs := fds; txns := [];
       history := (copy_did priv source healed <$> history m) ++
                  (overlapping priv <$> meanwhile ops (ia_size (reply_at rs source))) |}.
Proof.
  intros [H1 H2 H3 H4 Hg] Hk Hlk Hup Hrs Hl Hp Hd Hgs Hal Hsum Hres Hall Hpost.
  destruct (heal_result _ _ _ _ _ _ _ _ _ _ _ _ Hal Hp Hres) as (cs & Hf & ->).
  destruct (heal_contents _ _ _ _ _ _ _ _ _ _ _ _ _ H1 Hl Hrs Hlk Hup Hp Hal Hsum Hf) as (C1 & C2 & C3 & C4 & C5 & C6).
  destruct (healed_bricks k (bricks m) cs up rs snks healed' locked (he_post_op env) H1 Hk Hl C1 Hup Hpost) as [B1 B2].
  destruct (lookups_nonneg _ _ _ Hl Hrs) as [Hs Hc].
  destruct (prepare_cases priv names rs locked Hlk Hs Hc) as (p & Hp' & Hcase). rewrite Hp in Hp'. injection Hp' as <-.
  destruct Hcase as (d' & Hd' & -> & Hsub & Hsrc & _ & ->). rewrite Hd in Hd'. injection Hd' as <-.
  destruct (Z_lt_le_dec (afr_success_count priv rs) 2) as [Hlt|Hge].
  { unfold afr_selfheal_find_direction, AFR_SH_MIN_PARTICIPANTS in Hd. by rewrite (proj2 (Z.ltb_lt _ _) Hlt) in Hd. }
  destruct (direction_spec priv rs locked Hge) as (d' & Hd' & _ & _ & _ & Hspec & Hdis & Hsink). rewrite Hd in Hd'.
  injection Hd' as <-. destruct (proj1 (Hspec g) Hgs) as (G1 & Glock & Gin).
  destruct Hg as (_ & G2 & G3 & G4).
  assert (Hacc : forall j, accusation rs g j = counter (bricks m) g j).
  { intros j. rewrite (accusation_counter (bricks m) up) by done. by rewrite (Hup g Glock). }
  assert (Hheld : holds (history m) source).
  { destruct (proj1 (Hspec source) (Hsub source Hsrc)) as (_ & _ & Hin).
    destruct (decide (counter (bricks m) g source = 0)) as [Hz|Hz].
    - destruct (decide (holds (history m) source)) as [|Hno]; [done|]. by destruct (G4 source C2 Hno).
    - exfalso. apply (Hin g G1); [by rewrite Hacc|]. by rewrite Hacc. }
  assert (Hheld' : forall i, (i < n)%nat -> bit (afr_mark_active_sinks priv srcs locked) i = true ->
    holds (copy_did priv source (afr_mark_active_sinks priv srcs locked) <$> history m) i).
  { intros i Hi Hh. apply holds_copy; [done|]. by rewrite Hh. }
  split; cbn [bricks ctxs txns history]; [done| |by intros t Ht; apply not_elem_of_nil in Ht|constructor|].
  - intros i Hi. destruct (B2 i Hi) as [-> _]. rewrite overlapping_story, story_copy by done.
    destruct (bit (afr_mark_active_sinks priv srcs locked) i) eqn:Hh; [rewrite C5 by auto|rewrite C6 by done]; f_equal; by apply H2.
  - split_and!; cbn [bricks history].
    + done.
    + apply overlapping_held, holds_copy; [done..|]. by destruct (bit (afr_mark_active_sinks priv srcs locked) g).
    + destruct (B2 g G1) as [_ Hcnt]. by rewrite (Hcnt g G1), Glock, (Hdis g Hgs).
    + intros j Hj Hno. destruct (B2 g G1) as [_ Hcnt]. rewrite (Hcnt j Hj), Glock.
      destruct (bit (afr_mark_active_sinks priv srcs locked) j) eqn:Hh; [by destruct Hno; apply overlapping_held; [|apply Hheld']|].
      assert (Hbad : counter (bricks m) g j <> 0).
      { apply G4; [done|]. intros Hold. apply Hno, overlapping_held, holds_copy; [done..|]. by rewrite Hh. }
      rewrite (Hsink g j Hgs) by (rewrite ?Hacc; done). destruct (bit healed' j) eqn:Hh'; [apply C4 in Hh'; congruence|].
      cbn [negb andb]. pose proof (bo_counters _ _ _ H1 g j G1 Hj). lia.
Qed.

(** ** Runs *)

Lemma inv_le k k' g m : inv k g m -> k <= k' -> inv k' g m.
Proof. intros [] Hk. split; try done. by apply (bricks_ok_le _ k). Qed.

(** A brick that takes over is good. *)

Lemma inv_keeper k g g' m : inv k g m -> takes_over priv (bricks m) g g' -> inv k g' m.
Proof.
  intros [H1 H2 H3 H4 (G1 & G2 & G3 & G4)] (T1 & T2 & T3 & T4). split; try done.
  split_and!; [done| |done|].
  - destruct (decide (holds (history m) g')) as [|Hno]; [done|]. by destruct (G4 g' T1 Hno).
  - intros j Hj Hno. apply T4; [done|]. by apply G4.
Qed.

Lemma afr_inv_run k g m :
  run priv names rchecksum algorithm c0 k g m -> Z.of_nat k < 2 ^ 31 -> inv (Z.of_nat k) g m.
Proof.
  induction 1 as [fds g Hg|k g m post m' Hrun IH Hstep Hatt|k g m srcs m' Hrun IH Hheal Hg|k g g' m Hrun IH Ht];
    intros Hk; [by apply afr_inv_start| | |].
  1, 2: specialize (IH ltac:(lia)); replace (Z.of_nat (S k)) with (Z.of_nat k + 1) in * by lia.
  - destruct Hstep.
    + by apply inv_pre.
    + apply (inv_le (Z.of_nat k)); [by apply inv_fop|lia].
    + by apply inv_post.
  - destruct Hheal as [m up locked rs env ops source srcs snks healed bs healed' d fds].
    by apply (inv_heal _ m up locked rs env ops source srcs snks healed bs healed' d g fds).
  - apply (inv_keeper _ g); [by apply IH|done].
Qed.

Lemma holds_explained k g m i :
  inv k g m -> (i < n)%nat -> holds (history m) i -> explained (history m) c0 (content (brick_at (bricks m) i)).
Proof.
  intros Hinv Hi Hh. exists (did_by i <$> history m). split.
  - rewrite Forall2_fmap_r. apply Forall_Forall2_diag, Forall_forall. intros e He r. by apply Hh.
  - rewrite (inv_content _ _ _ Hinv i Hi). unfold story. f_equal. by rewrite zip_with_fmap_r, zip_with_fmap_l, zip_with_diag.
Qed.

(** A brick that the keeper does not accuse has everything. *)

Lemma unaccused_holds k g m up rs i :
  inv k g m -> (forall j, (j < n)%nat -> bit up j = true) -> lookups priv (bricks m) up rs -> (i < n)%nat ->
  (forall j, (j < n)%nat -> accusation rs j i <> 0 -> accusation rs j j <> 0) ->
  explained (history m) c0 (content (brick_at (bricks m) i)).
Proof.
  intros Hinv Hup Hl Hi Hacc. destruct (inv_good _ _ _ Hinv) as (G1 & G2 & G3 & G4).
  apply (holds_explained k g); [done..|]. destruct (decide (holds (history m) i)) as [|Hno]; [done|]. exfalso.
  apply (Hacc g G1); rewrite (accusation_counter (bricks m) up) by done; rewrite (Hup g G1); [by apply G4|done].
Qed.

End safe.

(** ** A run: a write that one of three bricks misses, and a heal *)

Module Missed.

Definition sum (b : list Z) : list Z := 1 :: b.

Definition write : operation := Write 1 [7; 8; 9].

Definition next (t : nat) (m : machine) : afr_local :=
  match txns m !! t with Some (Marked _ l) | Some (Performed _ l) => l | None => new_local three_bricks None false end.

Definition marked : machine :=
  Eval vm_compute in pre_step three_bricks (start three_bricks [1; 2] 1) write (Some 0%nat) false
    [true; true; true] [XDone; XDone; XDone].

Definition performed : machine :=
  Eval vm_compute in fop_step three_bricks marked 0 write (next 0 marked) [FDone 3; FDone 3; FFailed 28 None] 0.

Definition counted : machine :=
  Eval vm_compute in post_step three_bricks performed 0 0 (next 0 performed) None [XDone; XDone; XDone].

Definition replied (m : machine) : list lookup_reply :=
  (fun b => found (Z.of_nat (length (content b))) (logs b)) <$> bricks m.

(** A transaction that comes in before the block is locked. *)

Definition busy (off : nat) : list (operation * nat) :=
  match off with O => [(Write 0 [6], 1%nat)] | _ => [] end.

Definition calm : heal_env :=
  {| he_truncate := []; he_post_op := []; he_fsync := [true; true; true];
     he_blocks := fun _ => {| be_locked := 3; be_checksum := [true; true; true]; be_read := None;
                              be_zero_read := []; be_write := [] |};
     he_others := fun off cs => perform_all (busy off) <$> cs; he_marks := fun ls => ls |}.

Definition healed : machine :=
  Eval vm_compute in
  {| bricks := match __afr_selfheal_data three_bricks [] sum None NoHealOp (replied counted) [true; true; true] calm
                       (bricks counted) with Some (_, bs, _) => bs | None => [] end;
     ctxs := ctxs counted; txns := [];
     history := (copy_did three_bricks 0 [false; false; true] <$> history counted) ++
                (overlapping three_bricks <$> meanwhile busy 4) |}.

Lemma lookups_replied m : length (bricks m) = 3%nat -> lookups three_bricks (bricks m) [true; true; true] (replied m).
Proof.
  intros H. destruct m as [bs ? ? ?]. destruct bs as [|b0 [|b1 [|b2 []]]]; try done. intros i Hi.
  destruct i as [|[|[|i]]]; [by cbn..|cbn in Hi; lia].
Qed.

Lemma sum_no_collision priv algorithm rs source env cs healed :
  no_collision priv sum algorithm rs source env cs healed.
Proof.
  unfold no_collision. destruct (__afr_selfheal_truncate_sinks _ _ _ _ _) as [cs1 healed1]. intros _.
  generalize (block_count (ia_size (reply_at rs source)) BLOCK) 0%nat cs1 healed1. clear.
  induction n as [|k IH]; intros off cs healed; cbn [trusted]; [done|]. split.
  - unfold trusted_block, sum. split; [done|]. by intros i _ [= ->].
  - destruct (afr_selfheal_data_block _ _ _ _ _ _ _ _ _ _) as [[cs' healed'] ret]. apply IH.
Qed.

(** The first brick keeps the run. *)

Lemma marked_run : run three_bricks [] sum None [1; 2] 1 0 marked.
Proof.
  apply (run_step _ _ _ _ _ 0 0 (start three_bricks [1; 2] 1) None); [constructor; cbn; lia| |done].
  by refine (step_pre three_bricks _ write (Some 0%nat) false [true; true; true] [XDone; XDone; XDone] _ _).
Qed.

Lemma performed_run : run three_bricks [] sum None [1; 2] 2 0 performed.
Proof.
  apply (run_step _ _ _ _ _ 1 0 marked None); [exact marked_run| |done].
  by refine (step_fop three_bricks marked 0 write (next 0 marked) [FDone 3; FDone 3; FFailed 28 None] 0 _ _).
Qed.

Lemma counted_run : run three_bricks [] sum None [1; 2] 3 0 counted.
Proof.
  eapply (run_step _ _ _ _ _ 2 0 performed); [exact performed_run| |].
  - by refine (step_post three_bricks performed 0 0 (next 0 performed) None [XDone; XDone; XDone] _ _).
  - by right; right.
Qed.

Lemma healed_run : run three_bricks [] sum None [1; 2] 4 0 healed.
Proof.
  apply (run_heal _ _ _ _ _ 3 0 counted [true; true; false]); [exact counted_run| |done].
  apply (heal_done three_bricks [] sum None counted [true; true; true] [true; true; true] (replied counted) calm busy 0
    [true; true; false] [false; false; true] [false; false; true] (bricks healed) [false; false; true]
    {| sources := [true; true; false]; sinks := [false; false; true]; witness := [0; 0; 1] |} (ctxs healed)).
  1-3, 5: reflexivity.
  3-4: reflexivity.
  - done.
  - by apply lookups_replied.
  - by split.
  - apply sum_no_collision.
  - vm_compute. reflexivity.
  - done.
  - intros i _. cbn. by destruct i.
Qed.

(** After the heal the healed brick takes over. *)

Lemma kept_by_healed : run three_bricks [] sum None [1; 2] 4 2 healed.
Proof.
  apply (run_keeper _ _ _ _ _ 4 0 2); [exact healed_run|]. split_and!; [cbn; lia|done|done|].
  intros [|[|[|j]]] Hj Hz; [done..|cbn in Hj; lia].
Qed.

End Missed.




