(* ===== verification/AfrConverge.v ===== *)
(** * Replication: a heal without failures converges

    When every brick answers and no call fails, a self-heal ends with success,
    every copy that is not among the chosen sources is the copy of the source,
    and all counters and marks are zero, also when other clients perform
    operations on all bricks while the blocks are copied. AfrCopy.v shows what a heal that ends
    with success has done; here it is shown that it does. *)

From Stdlib Require Import ZArith Lia Bool String.
From stdpp Require Import base list strings.
From S2P Require Import Prelude.
From S2P Require Import Afr.
From S2P Require Import AfrHeal.
From S2P Require Import AfrFacts.
From S2P Require Import AfrCopy.
From S2P Require Import AfrDirection.
From S2P Require Import AfrRun.
From S2P Require Import AfrSafe.

Open Scope Z_scope.

Section converge.

Context (priv : afr_private) (names : list string) (rchecksum : list Z -> list Z) (algorithm : option string).

Abbreviation n := (child_count priv).

(** No call of the heal fails. *)

Record undisturbed (env : heal_env) : Prop := {
  un_truncate : forall i, nth i (he_truncate env) TDone = TDone;
  un_locked : forall off, Z.of_nat n <= be_locked (he_blocks env off);
  un_read : forall off, be_read (he_blocks env off) = None;
  un_write : forall off i, nth i (be_write (he_blocks env off)) WDone = WDone;
  un_fsync : forall i, (i < n)%nat -> bit (he_fsync env) i = true;
  un_post_op : forall i, (i < n)%nat -> nth i (he_post_op env) XDone = XDone
}.

Section env.

Context (env : heal_env) (Hun : undisturbed env).

Lemma sink_undisturbed rs type source off size iov cs healed ret i :
  0 <= ret ->
  exists cs' ret', heal_sink rs (he_blocks env off) type source off size iov (cs, healed, ret) i = (cs', healed, ret') /\
    0 <= ret'.
Proof.
  intros Hr. unfold heal_sink. destruct (negb (bit healed i)); [by exists cs, ret|].
  destruct (_ && _ && _ && _); [by exists cs, ret|]. destruct (_ && _ && _ && _ && _); [by exists cs, ret|].
  rewrite (un_write _ Hun). rewrite Z.eqb_refl. cbn [negb]. eexists _, _. split; [reflexivity|lia].
Qed.

Lemma sinks_undisturbed rs type source off size iov todo cs healed ret :
  0 <= ret ->
  exists cs' ret', foldl (heal_sink rs (he_blocks env off) type source off size iov) (cs, healed, ret) todo
      = (cs', healed, ret') /\ 0 <= ret'.
Proof.
  revert cs ret. induction todo as [|i todo IH]; intros cs ret Hr; cbn [foldl]; [by exists cs, ret|].
  destruct (sink_undisturbed rs type source off size iov cs healed ret i Hr) as (cs1 & ret1 & -> & H1). by apply IH.
Qed.

Lemma blocks_undisturbed rs type source size k off cs healed :
  length healed = n -> AFR_COUNT healed <> 0 ->
  exists cs', heal_blocks priv rchecksum rs type source size (he_others env) (he_blocks env) k off cs healed = (cs', healed, 0).
Proof.
  intros Hh Hc. revert off cs. induction k as [|k IH]; intros off cs; cbn [heal_blocks]; [by eexists|].
  rewrite (proj2 (Z.eqb_neq _ _) Hc). unfold afr_selfheal_data_block.
  rewrite (proj2 (Z.ltb_ge _ _)) by (pose proof (un_locked _ Hun off); pose proof (count_bounds healed); lia).
  destruct (_ && _); [by rewrite Z.ltb_irrefl|]. unfold __afr_selfheal_data_read_write. rewrite (un_read _ Hun).
  case_decide; [by rewrite Z.ltb_irrefl|].
  match goal with |- context [foldl (heal_sink _ _ _ _ _ _ ?iov) (_, _, ?r) ?t] =>
    destruct (sinks_undisturbed rs type source off size iov t (he_others env off cs) healed r ltac:(lia)) as (cs1 & ret1 & -> & H1) end.
  rewrite (proj2 (Z.ltb_ge _ _)) by done. apply IH.
Qed.

Lemma file_undisturbed rs source cs healed :
  length healed = n -> AFR_COUNT healed <> 0 ->
  exists cs', heal_file priv rchecksum algorithm rs source env cs healed = (cs', healed, 0).
Proof.
  intros Hh Hc. unfold heal_file, __afr_selfheal_truncate_sinks.
  rewrite (tab_ext n _ (bit healed)) by (intros i Hi; rewrite (un_truncate _ Hun); by rewrite andb_true_r).
  rewrite tab_bit by done. unfold afr_selfheal_data_do.
  match goal with |- context [heal_blocks priv rchecksum rs ?t source BLOCK _ _ ?k 0 ?cs1 healed] =>
    destruct (blocks_undisturbed rs t source BLOCK k 0 cs1 healed Hh Hc) as (cs2 & ->) end.
  rewrite Z.ltb_irrefl. exists cs2. f_equal. f_equal. unfold afr_selfheal_data_fsync.
  rewrite (tab_ext n _ (bit healed)) by (intros i Hi; rewrite (un_fsync _ Hun) by done; by rewrite andb_true_r).
  by apply tab_bit.
Qed.

End env.

Lemma sources_not_sinks rs locked d :
  afr_selfheal_find_direction priv rs AFR_DATA_TRANSACTION locked = inr d ->
  forall i, bit (sources d) i = true -> bit (sinks d) i = false.
Proof.
  intros Hd. destruct (Z_lt_le_dec (afr_success_count priv rs) 2) as [Hlt|Hge].
  { unfold afr_selfheal_find_direction, AFR_SH_MIN_PARTICIPANTS in Hd. by rewrite (proj2 (Z.ltb_lt _ _) Hlt) in Hd. }
  destruct (direction_spec priv rs locked Hge) as (d' & Hd' & _ & _ & _ & _ & Hdis & _). rewrite Hd in Hd'.
  by injection Hd' as <-.
Qed.

Lemma heal_runs rs locked env ops bs source srcs snks healed cs :
  alike ops env -> arbiter_count priv <> 1 -> 2 <= AFR_COUNT locked ->
  __afr_selfheal_data_prepare priv names NoHealOp rs locked = Some (inr (source, srcs, snks, healed)) ->
  AFR_COUNT healed <> 0 ->
  heal_file priv rchecksum algorithm rs source env (content <$> bs) healed = (cs, healed, 0) ->
  __afr_selfheal_data priv names rchecksum algorithm NoHealOp rs locked env bs =
    Some (0, set_logs (afr_selfheal_undo_pending priv AFR_DATA_TRANSACTION rs snks healed locked
                         (he_post_op env) (logs <$> set_contents cs bs)) (set_contents cs bs), healed).
Proof.
  intros Hal Harb Hl Hp Hc Hf. unfold __afr_selfheal_data, AFR_SH_MIN_PARTICIPANTS.
  rewrite (proj2 (Z.ltb_ge _ _)), Hp by done. cbn [mbind option_bind].
  rewrite (al_marks _ _ Hal), set_logs_same.
  rewrite (proj2 (Z.eqb_neq _ _) Hc), (proj2 (Z.eqb_neq _ _) Harb). cbn [andb]. unfold heal_file in Hf.
  destruct (__afr_selfheal_truncate_sinks _ _ _ _ _) as [cs1 healed1]. by rewrite Hf.
Qed.

(** ** The mark of a brick *)

Definition dirty_of (bs : list brick) (i : nat) : Z := t_data (cl_dirty (logs (brick_at bs i))).

Lemma undo_dirty bs rs snks healed locked answers i :
  length bs = n -> (i < n)%nat -> bit locked i = true -> bit snks i && negb (bit healed i) = false ->
  xdata (reply_at rs i) = Some (logs (brick_at bs i)) -> in_s 32 (dirty_of bs i) -> nth i answers XDone = XDone ->
  forall c, afr_selfheal_undo_pending priv AFR_DATA_TRANSACTION rs snks healed locked answers (logs <$> bs) !! i = Some c ->
  t_data (cl_dirty c) = 0.
Proof.
  intros Hn Hi Hlk Hp Hx Hr Ha c. unfold afr_selfheal_undo_pending, afr_selfheal_extract_xattr.
  rewrite list_lookup_imap, list_lookup_fmap. destruct (lookup_lt_is_Some_2 bs i) as [b Hb]; [by rewrite Hn|].
  rewrite Hb. unfold dirty_of in Hr. rewrite (brick_at_lookup _ _ _ Hb) in Hx, Hr.
  cbn [fmap option_fmap option_map]. rewrite Hlk, Ha. intros [= <-].
  cbn [do_xattrop afr_selfheal_output_xattr afr_index_for_transaction_type xa_dirty cl_dirty].
  rewrite !nth_tab, (proj2 (Nat.ltb_lt _ _) Hi), Hp, Hx.
  cbn [afr_selfheal_fill_dirty get3 set3 zero3 t_data t_metadata t_entry].
  set (d := t_data (cl_dirty (logs b))) in *. unfold afr_selfheal_fill_dirty, _posix_handle_xattr_keyvalue_pair, mem_0filled.
  cbn [get3 t_data t_metadata t_entry]. fold d. rewrite !andb_true_r.
  destruct (Z.eqb_spec (i32 (- d)) 0) as [E|E].
  - unfold in_s in Hr. destruct (decide (d = - 2 ^ 31)) as [->|]; [by vm_compute in E|].
    rewrite swrap_small in E by (unfold in_s; lia). lia.
  - cbn [__add_array t_data]. fold d. unfold in_s in Hr. destruct (decide (d = - 2 ^ 31)) as [->|]; [done|].
    rewrite (swrap_small 32 (- d)) by (unfold in_s; lia). by rewrite Z.add_opp_diag_r.
Qed.

Lemma set_logs_dirty ls bs i c :
  ls !! i = Some c -> is_Some (bs !! i) -> dirty_of (set_logs ls bs) i = t_data (cl_dirty c).
Proof.
  intros Hc [b Hb]. unfold dirty_of. erewrite (brick_at_lookup _ _ {| content := content b; logs := c |}); [done|].
  apply lookup_zip_with_Some. by exists c, b.
Qed.

Lemma set_contents_logs cs bs : length cs = length bs -> logs <$> set_contents cs bs = logs <$> bs.
Proof.
  unfold set_contents. revert bs. induction cs as [|c cs IH]; intros [|b bs] H; try done.
  cbn. f_equal. apply IH. by injection H.
Qed.

Lemma undisturbed_dirty bs cs rs snks healed env i :
  length bs = n -> length cs = n -> lookups priv bs (replicate n true) rs -> undisturbed env -> (i < n)%nat ->
  bit snks i && negb (bit healed i) = false -> in_s 32 (dirty_of bs i) ->
  dirty_of (set_logs (afr_selfheal_undo_pending priv AFR_DATA_TRANSACTION rs snks healed (replicate n true)
              (he_post_op env) (logs <$> set_contents cs bs)) (set_contents cs bs)) i = 0.
Proof.
  intros Hn Hc Hl Hun Hi Hp Hr. rewrite set_contents_logs by congruence.
  assert (Hlk : bit (replicate n true) i = true) by (rewrite bit_replicate; by rewrite (proj2 (Nat.ltb_lt _ _) Hi)).
  set (ls := afr_selfheal_undo_pending _ _ _ _ _ _ _ _).
  destruct (lookup_lt_is_Some_2 ls i) as [c Hls]; [unfold ls; by rewrite undo_length, length_fmap, Hn|].
  rewrite (set_logs_dirty _ _ _ c Hls).
  - refine (undo_dirty bs rs snks healed (replicate n true) (he_post_op env) i Hn Hi Hlk Hp _ Hr (un_post_op _ Hun i Hi) c Hls).
    specialize (Hl i Hi). rewrite Hlk in Hl. apply Hl.
  - apply lookup_lt_is_Some_2. unfold set_contents. rewrite length_zip_with. lia.
Qed.

End converge.

(** C10. When all bricks answer and no call fails, a heal that has a source and
    something to do succeeds, also when other clients perform operations [ops]
    between its blocks, on all bricks alike, and end them before the counters are
    updated: every copy that is not a chosen source becomes the copy of the
    source with these operations performed, so do the copies of the sources with
    their own contents, and no brick is marked or accuses another any more.
    There is no arbiter, and where checksums are compared they do not collide. *)
Theorem heal_converges (priv : afr_private) (names : list string) (rchecksum : list Z -> list Z)
    (algorithm : option string) (k : Z) (bs : list brick) (rs : list lookup_reply) (env : heal_env)
    (ops : nat -> list (operation * nat)) (source : nat) (srcs snks healed : list bool) :
  let all := replicate (child_count priv) true in
  arbiter_count priv <> 1 -> (2 <= child_count priv)%nat ->
  bricks_ok priv k bs -> k + 1 < 2 ^ 31 ->
  (forall i, (i < child_count priv)%nat -> in_s 32 (dirty_of bs i)) ->
  lookups priv bs all rs -> length rs = child_count priv ->
  __afr_selfheal_data_prepare priv names NoHealOp rs all = Some (inr (source, srcs, snks, healed)) ->
  AFR_COUNT healed <> 0 -> undisturbed priv env -> alike ops env ->
  no_collision priv rchecksum algorithm rs source env (content <$> bs) healed ->
  exists bs', __afr_selfheal_data priv names rchecksum algorithm NoHealOp rs all env bs = Some (0, bs', healed) /\
    forall i, (i < child_count priv)%nat ->
      content (brick_at bs' i) =
        perform_all (meanwhile ops (ia_size (reply_at rs source)))
          (content (brick_at bs (if bit srcs i then i else source))) /\
      dirty_of bs' i = 0 /\ forall j, (j < child_count priv)%nat -> counter bs' i j = 0.
Proof.
  intros all Harb Hn Hok Hk Hd Hl Hrs Hp Hc Hun Hal Hsum.
  destruct (lookups_nonneg priv _ _ _ Hl Hrs) as [Hs Ht].
  assert (Hall : forall i, (i < child_count priv)%nat -> bit all i = true).
  { intros i Hi. unfold all. rewrite bit_replicate. by rewrite (proj2 (Nat.ltb_lt _ _) Hi). }
  destruct (prepare_cases priv names rs all (length_replicate _ _) Hs Ht) as (p & Hp' & Hcase).
  rewrite Hp in Hp'. injection Hp' as <-. destruct Hcase as (d & Hdir & -> & Hsub & Hsrc & Hsn & Hh).
  assert (Hbit : forall i, (i < child_count priv)%nat -> bit healed i = negb (bit srcs i)).
  { intros i Hi. rewrite Hh. unfold afr_mark_active_sinks. rewrite bit_tab, (proj2 (Nat.ltb_lt _ _) Hi), Hall by done.
    by rewrite andb_true_r. }
  assert (Hpend : forall i, (i < child_count priv)%nat -> bit (sinks d) i && negb (bit healed i) = false).
  { intros i Hi. rewrite Hbit, negb_involutive by done. destruct (bit srcs i) eqn:E; [|by rewrite andb_false_r].
    by rewrite (sources_not_sinks priv rs all d Hdir i) by (by apply Hsub). }
  destruct (file_undisturbed priv rchecksum algorithm env Hun rs source (content <$> bs) healed) as (cs & Hf);
    [by rewrite Hh; apply tab_length|done|].
  destruct (heal_contents priv names rchecksum algorithm bs all rs all env ops source srcs (sinks d) healed cs healed k)
    as (C1 & _ & _ & _ & C5 & C6); try done; [apply length_replicate|].
  destruct (healed_bricks priv k bs cs all rs (sinks d) healed all (he_post_op env) Hok Hk Hl C1 (fun i Hi => Hi)
    (un_post_op _ _ Hun)) as [_ B].
  assert (Htwo : 2 <= AFR_COUNT all).
  { rewrite (proj2 (count_full all)); unfold all; rewrite length_replicate; [lia|]. by apply Hall. }
  eexists. split; [by apply (heal_runs priv names rchecksum algorithm rs all env ops bs source srcs (sinks d) healed cs)|].
  intros i Hi. destruct (B i Hi) as [-> B2]. split_and!.
  - pose proof (Hbit i Hi) as E. destruct (bit srcs i); [by apply C6|by apply C5].
  - apply undisturbed_dirty; auto. by apply (bo_length _ k).
  - intros j Hj. by rewrite (B2 j Hj), Hall, Hpend.
Qed.

Lemma heal_converges_witness :
  exists bs', __afr_selfheal_data three_bricks [] Missed.sum None NoHealOp (Missed.replied Missed.counted)
      [true; true; true] Missed.calm (bricks Missed.counted) = Some (0, bs', [false; false; true]) /\
    content (brick_at bs' 2) = [6; 7; 8; 9] /\ counter bs' 0 2 = 0.
Proof.
  destruct (heal_converges three_bricks [] Missed.sum None 1 (bricks Missed.counted) (Missed.replied Missed.counted)
    Missed.calm Missed.busy 0 [true; true; false] [false; false; true] [false; false; true]) as (bs' & E & H).
  - done.
  - cbn; lia.
  - split; [done|..].
    + intros [|[|[|i]]] Hi; [done..|cbn in Hi; lia].
    + intros [|[|[|i]]] [|[|[|j]]] Hi Hj; try (cbn in Hi, Hj; lia); by vm_compute.
  - lia.
  - intros [|[|[|i]]] Hi; try (cbn in Hi; lia); by vm_compute.
  - by apply Missed.lookups_replied.
  - done.
  - by vm_compute.
  - done.
  - split; try done; [by intros []|by intros ? []| |by intros []].
    intros [|[|[|i]]] Hi; [done..|cbn in Hi; lia].
  - by split.
  - apply Missed.sum_no_collision.
  - exists bs'. split; [exact E|]. split; [apply (H 2%nat); cbn; lia|apply (H 0%nat); cbn; lia].
Defined.
