(* ===== verification/AfrFaults.v ===== *)
(** * Replication: how acknowledged data can be lost

    The theorems of AfrSafe.v ask for conditions on a run. The runs here leave
    one of them out each: an operation that fails on the keeper, a heal without
    the keeper, and a heal in which a write to a sink fails. *)

From Stdlib Require Import ZArith Lia Bool String.
From stdpp Require Import base list strings.
From S2P Require Import Prelude.
From S2P Require Import Afr.
From S2P Require Import AfrHeal.
From S2P Require Import AfrFacts.
From S2P Require Import AfrReadProps.
From S2P Require Import AfrDirection.
From S2P Require Import AfrRun.

Open Scope Z_scope.

Section faults.

Context (priv : afr_private).

(** What the bricks do with the three phases of a transaction. *)

Record weather := {
  w_up : list bool;
  w_pre : list xanswer;
  w_fop : list fanswer;
  w_post : list xanswer
}.

(** A whole transaction while no other is in progress. *)

Definition transaction (op : operation) (w : weather) (m : machine) : machine :=
  let m := pre_step priv m op (Some 0%nat) false (w_up w) (w_pre w) in
  match txns m !! 0%nat with
  | Some (Marked op l) =>
      let m := fop_step priv m 0 op l (w_fop w) 0 in
      match txns m !! 0%nat with
      | Some (Performed pos l) => post_step priv m 0 pos l None (w_post w)
      | _ => m
      end
  | _ => m
  end.

Definition looked_up (m : machine) (up : list bool) : list lookup_reply :=
  imap (fun i b => if bit up i then found (Z.of_nat (length (content b))) (logs b) else no_lookup) (bricks m).

(** A heal of the bricks that are up; all its calls succeed but for the writes. *)

Definition calm_heal (writes : list wanswer) : heal_env :=
  {| he_truncate := []; he_post_op := []; he_fsync := replicate (child_count priv) true;
     he_blocks := fun _ => {| be_locked := Z.of_nat (child_count priv);
                              be_checksum := replicate (child_count priv) true; be_read := None;
                              be_zero_read := []; be_write := writes |};
     he_others := fun _ cs => cs; he_marks := fun ls => ls |}.

Definition heal (up : list bool) (writes : list wanswer) (m : machine) : option machine :=
  '(_, bs, _) ← __afr_selfheal_data priv [] (fun b => 1 :: b) None NoHealOp (looked_up m up) up
                  (calm_heal writes) (bricks m);
  Some {| bricks := bs; ctxs := ctxs m; txns := txns m; history := history m |}.

Definition acks (m : machine) : list (option Z) := e_ack <$> history m.

Definition contents (m : machine) : list (list Z) := content <$> bricks m.

(** The counters for data of every brick, and its mark. *)

Definition accusations (m : machine) : list (list Z) :=
  (fun b => t_data <$> cl_pending (logs b)) <$> bricks m.

Definition dirty_marks (m : machine) : list Z := (fun b => t_data (cl_dirty (logs b))) <$> bricks m.

Definition sources_of (m : machine) : option (list bool) :=
  match afr_selfheal_find_direction priv (looked_up m (replicate (child_count priv) true)) AFR_DATA_TRANSACTION
          (replicate (child_count priv) true) with
  | inr d => Some (sources d)
  | inl _ => None
  end.

End faults.

(** ** The only good brick fails *)

Definition fine (up : list bool) : weather :=
  {| w_up := up; w_pre := (fun _ => XDone) <$> up; w_fop := (fun _ => FDone 1) <$> up;
     w_post := (fun _ => XDone) <$> up |}.

(** The second brick misses a write; then a write fails on the first. *)

Definition first_then_second : machine :=
  transaction two_bricks (Write 1 [2])
    {| w_up := [true; true]; w_pre := [XDone; XDone]; w_fop := [FFailed 28 None; FDone 1]; w_post := [XDone; XDone] |}
    (transaction two_bricks (Write 0 [1]) (fine [true; false]) (start two_bricks [0; 0] 1)).

(** Both writes are acknowledged, and the only source is the brick that
    lacks the first: a heal overwrites the other copy, and the acknowledged
    write is gone from both although it was on disk. The brick that knows of the
    miss counts a miss of its own, which makes the choice of a source disregard
    all that it says. *)
Theorem good_brick_disregarded :
  acks first_then_second = [Some 1; Some 1] /\
  contents first_then_second = [[1; 0]; [0; 2]] /\
  accusations first_then_second = [[1; 1]; [1; 0]] /\
  sources_of two_bricks first_then_second = Some [false; true] /\
  (contents <$> heal two_bricks [true; true] [] first_then_second) = Some [[0; 2]; [0; 2]] /\
  (accusations <$> heal two_bricks [true; true] [] first_then_second) = Some [[0; 0]; [0; 0]].
Proof. vm_compute. done. Qed.

(** ** A heal forgets a brick that is down *)

Definition four_bricks : afr_private :=
  {| child_count := 4; arbiter_count := 0; quorum_count := 0; quorum_reads := false;
     data_change_log := true; metadata_change_log := true; entry_change_log := true |}.

(** The first brick misses a write and is healed while the third is down; then
    the last two miss a write, whose count reaches the first brick only. *)

Definition healed_once : option machine :=
  heal four_bricks [true; true; false; true] []
    (transaction four_bricks (Write 0 [1])
       {| w_up := [true; true; true; true]; w_pre := [XDone; XDone; XDone; XDone];
          w_fop := [FFailed 107 None; FDone 1; FDone 1; FDone 1];
          w_post := [XFailed false []; XDone; XDone; XDone] |}
       (start four_bricks [0; 0] 1)).

Definition last_two_miss (m : machine) : machine :=
  transaction four_bricks (Write 1 [2])
    {| w_up := [true; true; false; false]; w_pre := [XDone; XDone; XDone; XDone];
       w_fop := [FDone 1; FDone 1; FDone 1; FDone 1];
       w_post := [XDone; XFailed false []; XDone; XDone] |} m.

Definition forgotten : option machine :=
  m ← healed_once; heal four_bricks [true; true; true; false] [] (last_two_miss m).

(** The heal while the last brick is down clears the only count of the
    write that this brick misses, since the source that was chosen does not
    accuse it: no brick accuses any other, the last one is a source, and it
    lacks an acknowledged write. *)
Theorem heal_forgets_down_brick :
  (acks <$> forgotten) = Some [Some 1; Some 1] /\
  (accusations ∘ last_two_miss <$> healed_once) =
    Some [[0; 0; 1; 1]; [0; 0; 0; 0]; [1; 0; 0; 0]; [0; 0; 0; 0]] /\
  (contents <$> forgotten) = Some [[1; 2]; [1; 2]; [1; 2]; [1; 0]] /\
  (accusations <$> forgotten) = Some (replicate 4 [0; 0; 0; 0]) /\
  (dirty_marks <$> forgotten) = Some [0; 0; 0; 0] /\
  (m ← forgotten; sources_of four_bricks m) = Some [true; true; true; true].
Proof. vm_compute. done. Qed.

(** ** A write to a sink fails *)

(** The client stops after the operation, which one brick has not performed. *)

Definition stopped : machine :=
  let m := pre_step two_bricks (start two_bricks [0; 0] 1) (Write 0 [1]) (Some 0%nat) false
             [true; true] [XDone; XDone] in
  match txns m !! 0%nat with
  | Some (Marked op l) => fop_step two_bricks m 0 op l [FDone 1; FFailed 107 None] 0
  | _ => m
  end.

(** A copy that is to be healed because it is marked, and not because
    another brick accuses it, counts as healed although the write to it failed:
    the heal succeeds, the marks are cleared and the copies differ. *)
Theorem failed_sink_forgotten :
  dirty_marks stopped = [1; 1] /\ accusations stopped = [[0; 0]; [0; 0]] /\
  contents stopped = [[1; 0]; [0; 0]] /\
  (contents <$> heal two_bricks [true; true] [WShort 0; WDone] stopped) = Some [[1; 0]; [0; 0]] /\
  (dirty_marks <$> heal two_bricks [true; true] [WShort 0; WDone] stopped) = Some [0; 0] /\
  (accusations <$> heal two_bricks [true; true] [WShort 0; WDone] stopped) = Some [[0; 0]; [0; 0]].
Proof. vm_compute. done. Qed.

(** ** An operation that fails in the same way on all bricks *)

Definition all_full : machine :=
  transaction two_bricks (Write 0 [1])
    {| w_up := [true; true]; w_pre := [XDone; XDone]; w_fop := [FFailed 28 None; FFailed 28 None];
       w_post := [XDone; XDone] |} (start two_bricks [0] 1).

(** No failure is counted, since the copies are still the same, but the marks of
    the pre-operation stay. *)

Lemma failed_operation_stays_marked :
  acks all_full = [None] /\ contents all_full = [[0]; [0]] /\
  accusations all_full = [[0; 0]; [0; 0]] /\ dirty_marks all_full = [1; 1] /\ txns all_full = [].
Proof. vm_compute. done. Qed.
