(* ===== verification/DomTable.v ===== *)
(** * Inode and entry locks: shared state

    The locks that translators take on files and directory names
    (xlators/features/locks/src, inodelk.c and entrylk.c). Both kinds are kept in
    domains of an inode, with a list of granted and a list of waiting locks, and
    in a list of all locks of a client, which is used when the client
    disconnects. A lock is a structure with a count of references that is freed
    when the count is zero, so the lists hold pointers into a heap, and reading
    through a pointer to a freed lock is undefined ([None]).

    [LockKind] is what the two kinds provide: their critical sections, defined
    in Inodelk.v and Entrylk.v. This file has what a thread does between and
    around them, and the machine that interleaves any number of threads: the
    mutex of an inode is held for one section, and the mutex of a client is held
    by a cleanup for as long as it walks the list of the client. *)

From Stdlib Require Import ZArith Lia Bool String.
From stdpp Require Import base list gmap strings.
From S2P Require Import Prelude.
From S2P Require Import Locks.

Open Scope Z_scope.

(** ** Data *)

Notation ptr := nat (only parsing).

(** A lock as it was asked for, with the fields that change: the count of
    references, and whether its frame is still to be answered. *)

Record lock (L : Type) := { body : L; ref : Z; pending : bool }.
Arguments body {L} _.
Arguments ref {L} _.
Arguments pending {L} _.

(** A domain of an inode. [key] is the inode and the name of the domain; a
    domain that was never used is an empty one. *)

Definition key : Type := (nat * string)%type.

Record dom := { granted : list ptr; waiting : list ptr }.

Definition no_dom : dom := {| granted := []; waiting := [] |}.

Record table (L : Type) := {
  heap : gmap ptr (lock L);
  dom_list : gmap key dom;
  locker_list : gmap nat (list ptr);
  held : list nat;
  inode_refs : gmap nat Z;
  replied : list (ptr * Z * Z);
  next : ptr
}.
Arguments heap {L} _.
Arguments dom_list {L} _.
Arguments locker_list {L} _.
Arguments held {L} _.
Arguments inode_refs {L} _.
Arguments replied {L} _.
Arguments next {L} _.

Definition new_table {L} : table L :=
  {| heap := ∅; dom_list := ∅; locker_list := ∅; held := []; inode_refs := ∅; replied := []; next := 0%nat |}.

Section table.

Context {L : Type}.
Implicit Types t : table L.

Definition doms t (k : key) : dom := default no_dom (dom_list t !! k).

Definition lockers t (c : nat) : list ptr := default [] (locker_list t !! c).

Definition irefs t (i : nat) : Z := default 0 (inode_refs t !! i).

Definition set_heap (h : gmap ptr (lock L)) t : table L :=
  {| heap := h; dom_list := dom_list t; locker_list := locker_list t; held := held t;
     inode_refs := inode_refs t; replied := replied t; next := next t |}.

Definition set_dom (k : key) (d : dom) t : table L :=
  {| heap := heap t; dom_list := <[k := d]> (dom_list t); locker_list := locker_list t; held := held t;
     inode_refs := inode_refs t; replied := replied t; next := next t |}.

Definition set_lockers (c : nat) (ps : list ptr) t : table L :=
  {| heap := heap t; dom_list := dom_list t; locker_list := <[c := ps]> (locker_list t); held := held t;
     inode_refs := inode_refs t; replied := replied t; next := next t |}.

Definition set_held (cs : list nat) t : table L :=
  {| heap := heap t; dom_list := dom_list t; locker_list := locker_list t; held := cs;
     inode_refs := inode_refs t; replied := replied t; next := next t |}.

Definition add_iref (i : nat) (z : Z) t : table L :=
  {| heap := heap t; dom_list := dom_list t; locker_list := locker_list t; held := held t;
     inode_refs := <[i := irefs t i + z]> (inode_refs t); replied := replied t; next := next t |}.

Definition add_reply (p : ptr) (r e : Z) t : table L :=
  {| heap := heap t; dom_list := dom_list t; locker_list := locker_list t; held := held t;
     inode_refs := inode_refs t; replied := replied t ++ [(p, r, e)]; next := next t |}.

(** ** Lists of pointers *)

(** list_del of one element, and list_add at the head or the tail. *)

Definition unlink (p : ptr) (ps : list ptr) : list ptr := List.filter (fun q => negb (Nat.eqb q p)) ps.

Definition linked (p : ptr) (ps : list ptr) : bool := existsb (Nat.eqb p) ps.

Definition body_of t (p : ptr) : option L := body <$> heap t !! p.

(** The first lock of a list with a property. *)

Fixpoint find_lock (f : L -> bool) t (ps : list ptr) : option (option ptr) :=
  match ps with
  | [] => Some None
  | p :: ps => b ← body_of t p; if f b then Some (Some p) else find_lock f t ps
  end.

(** ** References *)

Definition ref_lock (p : ptr) t : option (table L) :=
  o ← heap t !! p;
  Some (set_heap (<[p := {| body := body o; ref := ref o + 1; pending := pending o |}]> (heap t)) t).

Definition unref_lock (p : ptr) t : option (table L) :=
  o ← heap t !! p;
  if ref o - 1 =? 0 then Some (set_heap (delete p (heap t)) t)
  else Some (set_heap (<[p := {| body := body o; ref := ref o - 1; pending := pending o |}]> (heap t)) t).

Fixpoint unref_locks (ps : list ptr) t : option (table L) :=
  match ps with
  | [] => Some t
  | p :: ps => t ← unref_lock p t; unref_locks ps t
  end.

(** lock->frame = NULL *)

Definition clear_frame (p : ptr) t : option (table L) :=
  o ← heap t !! p;
  Some (set_heap (<[p := {| body := body o; ref := ref o; pending := false |}]> (heap t)) t).

(** Unwinding the frame of a lock does nothing when it is null. *)

Definition unwind_frame (p : ptr) (r e : Z) t : option (table L) :=
  o ← heap t !! p; Some (if pending o then add_reply p r e t else t).

End table.

(** ** What a thread does *)

(** - [ALock] and [AUnlock] are the critical sections of a request.
    - [AAnswer] unwinds the frame of the request itself.
    - [AGrant] is the first critical section of granting the waiting locks of a
      domain; [AFinish todo all] unwinds the frames of those that were granted,
      and is then the second section, which drops their references.
    - [AClean] takes the mutex of a client, [ACleaning] walks its list, one lock
      after the other, and collects those that were granted and those that
      waited; [ACleaned] unwinds the frames of the latter; [AReleased] grants
      other locks and drops the references of all. *)

Inductive action :=
| ALock (can_block : bool) (p : ptr)
| AUnlock (p : ptr)
| AAnswer (p : ptr) (op_ret op_errno : Z)
| AGrant (k : key)
| AFinish (todo all : list ptr)
| AClean (c : nat)
| ACleaning (c : nat) (released unwind : list ptr)
| ACleaned (unwind released : list ptr)
| AReleased (ps : list ptr)
| ADrop (p : ptr) (i : nat)
| AInodeUnref (i : nat).

(** A request is refused with an error, or goes on with a lock or an unlock. *)

Inductive request (L : Type) :=
| Refused (op_errno : Z)
| Lock (can_block : bool) (l : L)
| Unlock (l : L).
Arguments Refused {L} _.
Arguments Lock {L} _ _.
Arguments Unlock {L} _.

(** ** The two kinds of locks *)

Class LockKind (L : Type) := {
  lk_client : L -> option nat;
  lk_inode : L -> nat;
  lk_volume : L -> string;
  lock_section : bool -> ptr -> table L -> option (Z * table L);
  unlock_section : ptr -> table L -> option (Z * table L);
  after_unlock : Z -> ptr -> key -> list action;
  grant_section : key -> table L -> option (list ptr * table L);
  clean_section : ptr -> table L -> option (bool * table L)
}.

Section machine.

Context {L : Type} `{LockKind L}.

Definition lk_key (l : L) : key := (lk_inode l, lk_volume l).

(** A request waits while a cleanup holds the mutex of its client. *)

Definition client_free (t : table L) (p : ptr) : bool :=
  match lk_client <$> body_of t p with
  | Some (Some c) => negb (existsb (Nat.eqb c) (held t))
  | _ => true
  end.

Definition enabled (a : action) (t : table L) : bool :=
  match a with
  | ALock _ p | AUnlock p => client_free t p
  | AClean c => negb (existsb (Nat.eqb c) (held t))
  | _ => true
  end.

(** One action, with what the thread goes on with. An action is a critical
    section with the mutexes of the client and of the inode taken at its start
    and given back at its end, but for the mutex of a client that is cleaned up,
    which is kept over several actions ([held]); the order in which a section
    takes its two mutexes is not expressed. *)

Definition exec (a : action) (t : table L) : option (table L * list action) :=
  match a with
  | ALock can_block p =>
      b ← body_of t p;
      '(ret, t) ← lock_section can_block p t;
      Some (t, if 0 <=? ret then [AAnswer p 0 0]
               else if can_block then []
               else [AInodeUnref (lk_inode b); AAnswer p (-1) (- ret)])
  | AUnlock p =>
      b ← body_of t p;
      '(ret, t) ← unlock_section p t;
      Some (t, after_unlock ret p (lk_key b))
  | AAnswer p r e => Some (add_reply p r e t, [])
  | AGrant k => '(ps, t) ← grant_section k t; Some (t, [AFinish ps ps])
  | AFinish (p :: todo) all =>
      t ← unwind_frame p 0 0 t; t ← clear_frame p t; Some (t, [AFinish todo all])
  | AFinish [] all => t ← unref_locks all t; Some (t, [])
  | AClean c => Some (set_held (c :: held t) t, [ACleaning c [] []])
  | ACleaning c released unwind =>
      match lockers t c with
      | [] => Some (set_held (unlink c (held t)) t, [ACleaned unwind released])
      | p :: ps =>
          '(was_granted, t) ← clean_section p (set_lockers c ps t);
          Some (t, [if (was_granted : bool) then ACleaning c (released ++ [p]) unwind
                    else ACleaning c released (unwind ++ [p])])
      end
  | ACleaned (p :: unwind) released =>
      t ← unwind_frame p (-1) EAGAIN t; Some (t, [ACleaned unwind (released ++ [p])])
  | ACleaned [] released => Some (t, [AReleased released])
  | AReleased (p :: ps) =>
      b ← body_of t p; Some (t, [AGrant (lk_key b); ADrop p (lk_inode b); AReleased ps])
  | AReleased [] => Some (t, [])
  | ADrop p i => t ← unref_lock p t; Some (t, [AInodeUnref i])
  | AInodeUnref i => Some (add_iref i (-1) t, [])
  end.

(** ** Machines *)

Record machine := { tab : table L; threads : list (list action) }.

(** A new lock, with one reference, and one on its inode. *)

Definition new_lock (b : L) (t : table L) : table L :=
  let t := add_iref (lk_inode b) 1 t in
  {| heap := <[next t := {| body := b; ref := 1; pending := true |}]> (heap t); dom_list := dom_list t;
     locker_list := locker_list t; held := held t; inode_refs := inode_refs t; replied := replied t;
     next := S (next t) |}.

Inductive step : machine -> machine -> Prop :=
| step_lock m b can_block :
    step m {| tab := new_lock b (tab m); threads := threads m ++ [[ALock can_block (next (tab m))]] |}
| step_unlock m b :
    step m {| tab := new_lock b (tab m); threads := threads m ++ [[AUnlock (next (tab m))]] |}
| step_disconnect m c :
    step m {| tab := tab m; threads := threads m ++ [[AClean c]] |}
| step_exec m n a rest t acts :
    threads m !! n = Some (a :: rest) -> enabled a (tab m) = true -> exec a (tab m) = Some (t, acts) ->
    step m {| tab := t; threads := <[n := acts ++ rest]> (threads m) |}.

Definition start : machine := {| tab := new_table; threads := [] |}.

Inductive reachable : machine -> Prop :=
| reachable_start : reachable start
| reachable_step m m' : reachable m -> step m m' -> reachable m'.

End machine.
