(* ===== verification/Inodelk.v ===== *)
(** * Inode locks

    xlators/features/locks/src/inodelk.c: locks on ranges of a file that other
    translators take, among them replication for its transactions and heals. *)

From Stdlib Require Import ZArith Lia Bool Ascii String.
From stdpp Require Import base list gmap strings.
From S2P Require Import Prelude.
From S2P Require Import Locks.
From S2P Require Import DomTable.

Open Scope Z_scope.

Record pl_inode_lock := {
  fl_type : lk_type;
  fl_start : Z;
  fl_end : Z;
  pl_inode : nat;
  volume : string;
  user_flock : gf_flock;
  client : option nat;
  owner : list Z
}.

Definition dom_key (l : pl_inode_lock) : key := (pl_inode l, volume l).

(** ** Conflicts *)

Definition inodelk_type_conflict (l1 l2 : pl_inode_lock) : bool :=
  is_type (fl_type l2) F_WRLCK || is_type (fl_type l1) F_WRLCK.

Definition inodelk_overlap (l1 l2 : pl_inode_lock) : bool :=
  (fl_start l2 <=? fl_end l1) && (fl_start l1 <=? fl_end l2).

Definition same_inodelk_owner (l1 l2 : pl_inode_lock) : bool :=
  bool_decide (owner l1 = owner l2) && bool_decide (client l1 = client l2).

Definition inodelk_conflict (l1 l2 : pl_inode_lock) : bool :=
  inodelk_overlap l1 l2 && inodelk_type_conflict l1 l2.

Section domain.

Implicit Types t : table pl_inode_lock.

Definition __inodelk_grantable t (d : dom) (lock : pl_inode_lock) : option (option ptr) :=
  find_lock (fun l => inodelk_conflict lock l && negb (same_inodelk_owner lock l)) t (granted d).

Definition __blocked_lock_conflict t (d : dom) (lock : pl_inode_lock) : option (option ptr) :=
  find_lock (fun l => inodelk_conflict lock l) t (waiting d).

Definition __owner_has_lock t (d : dom) (newlock : pl_inode_lock) : option bool :=
  g ← find_lock (fun lock => same_inodelk_owner lock newlock) t (granted d);
  match g with
  | Some _ => Some true
  | None =>
      w ← find_lock (fun lock => same_inodelk_owner lock newlock) t (waiting d);
      Some (bool_decide (is_Some w))
  end.

(** ** Granting and releasing *)

Definition __lock_inodelk (p : ptr) (can_block : bool) t : option (Z * table pl_inode_lock) :=
  lock ← body_of t p;
  let d := doms t (dom_key lock) in
  let block := if can_block
               then set_dom (dom_key lock) {| granted := granted d; waiting := waiting d ++ [p] |} t
               else t in
  conf ← __inodelk_grantable t d lock;
  match conf with
  | Some _ => Some (- EAGAIN, block)
  | None =>
      starved ← __blocked_lock_conflict t d lock;
      nested ← (match starved with Some _ => __owner_has_lock t d lock | None => Some true end);
      if negb nested then Some (- EAGAIN, block)
      else
        t ← ref_lock p t;
        Some (0, set_dom (dom_key lock) {| granted := p :: granted d; waiting := waiting d |} t)
  end.

Definition inodelks_equal (l1 l2 : pl_inode_lock) : bool :=
  (fl_start l1 =? fl_start l2) && (fl_end l1 =? fl_end l2).

Definition find_matching_inodelk t (lock : pl_inode_lock) (d : dom) : option (option ptr) :=
  find_lock (fun l => inodelks_equal l lock && same_inodelk_owner l lock) t (granted d).

Definition __inode_unlock_lock (p : ptr) t : option (option ptr * table pl_inode_lock) :=
  lock ← body_of t p;
  let d := doms t (dom_key lock) in
  conf ← find_matching_inodelk t lock d;
  match conf with
  | None => Some (None, t)
  | Some q => Some (Some q, set_dom (dom_key lock) {| granted := unlink q (granted d); waiting := waiting d |} t)
  end.

(** The waiting locks are tried again in their order. *)

Fixpoint grant_inode_loop (blocked_list : list ptr) (gl : list ptr) t : option (list ptr * table pl_inode_lock) :=
  match blocked_list with
  | [] => Some (gl, t)
  | bl :: blocked_list =>
      '(bl_ret, t) ← __lock_inodelk bl true t;
      grant_inode_loop blocked_list (if bl_ret =? 0 then bl :: gl else gl) t
  end.

Definition __grant_blocked_inode_locks (k : key) t : option (list ptr * table pl_inode_lock) :=
  let d := doms t k in
  grant_inode_loop (waiting d) [] (set_dom k {| granted := granted d; waiting := [] |} t).

(** ** Requests *)

(** The critical section of pl_inode_setlk for a lock, and for an unlock. *)

Definition pl_inode_setlk (can_block : bool) (p : ptr) t : option (Z * table pl_inode_lock) :=
  lock ← body_of t p;
  '(ret, t) ← __lock_inodelk p can_block t;
  t ← (if ret =? 0 then clear_frame p t else Some t);
  let t := match client lock with
           | Some c => if (ret =? 0) || can_block then set_lockers c (lockers t c ++ [p]) t else t
           | None => t
           end in
  t ← (if (ret =? - EAGAIN) && can_block then Some t else unref_lock p t);
  Some (ret, t).

Definition pl_inode_unlock (p : ptr) t : option (Z * table pl_inode_lock) :=
  '(retlock, t) ← __inode_unlock_lock p t;
  match retlock with
  | None => t ← unref_lock p t; Some (- EINVAL, t)
  | Some q =>
      r ← body_of t q;
      let t := match client r with Some c => set_lockers c (unlink q (lockers t c)) t | None => t end in
      t ← unref_lock q t;
      t ← unref_lock p t;
      Some (0, t)
  end.

Definition after_inode_unlock (ret : Z) (p : ptr) (k : key) : list action :=
  if ret =? 0
  then [AInodeUnref k.1; AInodeUnref k.1; AGrant k; AAnswer p 0 0]
  else [AInodeUnref k.1; AAnswer p (-1) (- ret)].

(** One turn of pl_inodelk_client_cleanup: the lock is taken from the list that
    it is in, [true] when it was granted. *)

Definition clean_inodelk (p : ptr) t : option (bool * table pl_inode_lock) :=
  l ← body_of t p;
  let d := doms t (dom_key l) in
  if linked p (granted d)
  then Some (true, set_dom (dom_key l) {| granted := unlink p (granted d); waiting := waiting d |} t)
  else Some (false, set_dom (dom_key l) {| granted := granted d; waiting := unlink p (waiting d) |} t).

End domain.

#[export] Instance inodelk_kind : LockKind pl_inode_lock := {|
  lk_client := client;
  lk_inode := pl_inode;
  lk_volume := volume;
  lock_section := pl_inode_setlk;
  unlock_section := pl_inode_unlock;
  after_unlock := after_inode_unlock;
  grant_section := __grant_blocked_inode_locks;
  clean_section := clean_inodelk
|}.

(** ** Reading a request *)

Definition new_inode_lock (flock : gf_flock) (cl : option nat) (own : list Z) (inode : nat) (vol : string)
    : pl_inode_lock :=
  {| fl_type := l_type flock; fl_start := l_start flock;
     fl_end := if l_len flock =? 0 then LLONG_MAX else i64 (l_start flock + l_len flock - 1);
     pl_inode := inode; volume := vol; user_flock := flock; client := cl; owner := own |}.

(** The part of a name from its last colon on. *)

Fixpoint strrchr_colon (s : string) : option string :=
  match s with
  | EmptyString => None
  | String c s' =>
      match strrchr_colon s' with
      | Some r => Some r
      | None => if Ascii.eqb c ":"%char then Some s else None
      end
  end.

Definition _pl_convert_volume (vol : string) : option string :=
  if bool_decide (strrchr_colon vol = Some ":metadata"%string) then None
  else Some (vol ++ ":metadata")%string.

Definition _pl_convert_volume_for_special_range (flock : gf_flock) (vol : string) : option string :=
  if (l_start flock =? LLONG_MAX - 1) && (l_len flock =? 0) then _pl_convert_volume vol else None.

Inductive lk_cmd := F_GETLK | F_SETLK | F_SETLKW.

Definition ENOTSUP : Z := 95.

Definition pl_common_inodelk (cl : option nat) (own : list Z) (vol : string) (inode : nat) (cmd : lk_cmd)
    (flock : gf_flock) : request pl_inode_lock :=
  if (l_start flock <? 0) || (l_len flock <? 0) then Refused EINVAL
  else
    let vol := default vol (_pl_convert_volume_for_special_range flock vol) in
    let reqlock := new_inode_lock flock cl own inode vol in
    match cmd with
    | F_GETLK => Refused ENOTSUP
    | F_SETLKW => if is_type (l_type flock) F_UNLCK then Unlock reqlock else Lock true reqlock
    | F_SETLK => if is_type (l_type flock) F_UNLCK then Unlock reqlock else Lock false reqlock
    end.

(** ** Counts *)

Definition __get_inodelk_dom_count (d : dom) : Z :=
  Z.of_nat (length (granted d)) + Z.of_nat (length (waiting d)).

Definition __get_inodelk_count (ds : list (string * dom)) (domname : option string) : Z :=
  match domname with
  | Some s => match List.find (fun d => bool_decide (d.1 = s)) ds with
              | Some d => __get_inodelk_dom_count d.2
              | None => 0
              end
  | None => foldl (fun n d => i32 (n + __get_inodelk_dom_count d.2)) 0 ds
  end.
