(* ===== verification/Entrylk.v ===== *)
(** * Entry locks

    xlators/features/locks/src/entrylk.c: locks on names in a directory, or on
    all names of it, that other translators take. *)

From Stdlib Require Import ZArith Lia Bool String.
From stdpp Require Import base list gmap strings.
From S2P Require Import Prelude.
From S2P Require Import Locks.
From S2P Require Import DomTable.

Open Scope Z_scope.

Inductive entrylk_type := ENTRYLK_RDLCK | ENTRYLK_WRLCK.

Inductive entrylk_cmd := ENTRYLK_LOCK | ENTRYLK_UNLOCK | ENTRYLK_LOCK_NB.

#[export] Instance entrylk_type_eq : EqDecision entrylk_type.
Proof. solve_decision. Defined.

(** No base name stands for all names. *)

Record pl_entry_lock := {
  basename : option string;
  type : entrylk_type;
  pinode : nat;
  volume : string;
  client : option nat;
  owner : list Z
}.

Definition dom_key (l : pl_entry_lock) : key := (pinode l, volume l).

(** ** Conflicts *)

Definition all_names (n : option string) : bool := match n with None => true | Some _ => false end.

Definition names_conflict (n1 n2 : option string) : bool :=
  all_names n1 || all_names n2 || bool_decide (n1 = n2).

Definition __same_entrylk_owner (l1 l2 : pl_entry_lock) : bool :=
  bool_decide (owner l1 = owner l2) && bool_decide (client l1 = client l2).

Definition __conflicting_entrylks (l1 l2 : pl_entry_lock) : bool :=
  names_conflict (basename l1) (basename l2) && negb (__same_entrylk_owner l1 l2).

Definition names_equal (n1 n2 : option string) : bool := bool_decide (n1 = n2).

Section domain.

Implicit Types t : table pl_entry_lock.

Definition __entrylk_grantable t (d : dom) (lock : pl_entry_lock) : option (option ptr) :=
  find_lock (fun tmp => __conflicting_entrylks tmp lock) t (granted d).

Definition __blocked_entrylk_conflict t (d : dom) (lock : pl_entry_lock) : option bool :=
  w ← find_lock (fun tmp => names_conflict (basename tmp) (basename lock)) t (waiting d);
  Some (bool_decide (is_Some w)).

Definition __owner_has_lock t (d : dom) (newlock : pl_entry_lock) : option bool :=
  g ← find_lock (fun lock => __same_entrylk_owner lock newlock) t (granted d);
  match g with
  | Some _ => Some true
  | None =>
      w ← find_lock (fun lock => __same_entrylk_owner lock newlock) t (waiting d);
      Some (bool_decide (is_Some w))
  end.

(** The lock on a name, or else one on all names; the last of the list counts. *)

Fixpoint most_matching (name : string) t (ps : list ptr) (all exact : option ptr) : option (option ptr) :=
  match ps with
  | [] => Some (match exact with Some p => Some p | None => all end)
  | p :: ps =>
      lock ← body_of t p;
      if all_names (basename lock) then most_matching name t ps (Some p) exact
      else if names_equal (basename lock) (Some name) then most_matching name t ps all (Some p)
      else most_matching name t ps all exact
  end.

Definition __find_most_matching_lock t (d : dom) (name : string) : option (option ptr) :=
  most_matching name t (granted d) None None.

(** Whether a name of a directory is locked in any of its domains. *)

Fixpoint check_entrylk_on_basename t (parent : nat) (domains : list string) (name : string) : option bool :=
  match domains with
  | [] => Some false
  | v :: domains =>
      conf ← __find_most_matching_lock t (doms t (parent, v)) name;
      match conf with
      | Some p =>
          lock ← body_of t p;
          if all_names (basename lock) then check_entrylk_on_basename t parent domains name else Some true
      | None => check_entrylk_on_basename t parent domains name
      end
  end.

Definition __find_matching_lock t (d : dom) (lock : pl_entry_lock) : option (option ptr) :=
  find_lock (fun tmp => names_equal (basename lock) (basename tmp) && __same_entrylk_owner lock tmp
                        && bool_decide (type lock = type tmp)) t (granted d).

(** ** Granting and releasing *)

Definition __lock_entrylk (p : ptr) (nonblock : bool) t : option (Z * table pl_entry_lock) :=
  lock ← body_of t p;
  let d := doms t (dom_key lock) in
  let block := if nonblock then t
               else set_dom (dom_key lock) {| granted := granted d; waiting := waiting d ++ [p] |} t in
  conf ← __entrylk_grantable t d lock;
  match conf with
  | Some _ => Some (- EAGAIN, block)
  | None =>
      starved ← __blocked_entrylk_conflict t d lock;
      nested ← (if (starved : bool) then __owner_has_lock t d lock else Some true);
      if negb nested then Some (- EAGAIN, block)
      else
        t ← ref_lock p t;
        Some (0, set_dom (dom_key lock) {| granted := p :: granted d; waiting := waiting d |} t)
  end.

Definition __unlock_entrylk (p : ptr) t : option (option ptr * table pl_entry_lock) :=
  lock ← body_of t p;
  let d := doms t (dom_key lock) in
  ret_lock ← __find_matching_lock t d lock;
  match ret_lock with
  | None => Some (None, t)
  | Some q => Some (Some q, set_dom (dom_key lock) {| granted := unlink q (granted d); waiting := waiting d |} t)
  end.

(** The waiting locks are tried again in their order. *)

Fixpoint grant_entry_loop (blocked_list : list ptr) (gl : list ptr) t : option (list ptr * table pl_entry_lock) :=
  match blocked_list with
  | [] => Some (gl, t)
  | bl :: blocked_list =>
      '(bl_ret, t) ← __lock_entrylk bl false t;
      grant_entry_loop blocked_list (if bl_ret =? 0 then bl :: gl else gl) t
  end.

Definition __grant_blocked_entry_locks (k : key) t : option (list ptr * table pl_entry_lock) :=
  let d := doms t k in
  grant_entry_loop (waiting d) [] (set_dom k {| granted := granted d; waiting := [] |} t).

(** ** Requests *)

(** The critical sections of pl_common_entrylk for a lock, and for an unlock. *)

Definition entrylk_lock (can_block : bool) (p : ptr) t : option (Z * table pl_entry_lock) :=
  reqlock ← body_of t p;
  let nonblock := negb can_block in
  '(ret, t) ← __lock_entrylk p nonblock t;
  t ← (if ret =? 0 then clear_frame p t else Some t);
  let t := match client reqlock with
           | Some c => if (ret =? 0) || negb nonblock then set_lockers c (p :: lockers t c) t else t
           | None => t
           end in
  t ← (if (ret =? - EAGAIN) && negb nonblock then Some t else unref_lock p t);
  Some (ret, t).

Definition entrylk_unlock (p : ptr) t : option (Z * table pl_entry_lock) :=
  '(unlocked, t) ← __unlock_entrylk p t;
  match unlocked with
  | None => t ← unref_lock p t; Some (- EINVAL, t)
  | Some q =>
      r ← body_of t q;
      let t := match client r with Some c => set_lockers c (unlink q (lockers t c)) t | None => t end in
      t ← unref_lock q t;
      t ← unref_lock p t;
      Some (0, t)
  end.

(** Waiting locks are granted whether the unlock succeeded or not. *)

Definition after_entry_unlock (ret : Z) (p : ptr) (k : key) : list action :=
  if ret =? 0
  then [AGrant k; AInodeUnref k.1; AInodeUnref k.1; AAnswer p 0 0]
  else [AGrant k; AInodeUnref k.1; AAnswer p (-1) (- ret)].

(** One turn of pl_entrylk_client_cleanup. *)

Definition clean_entrylk (p : ptr) t : option (bool * table pl_entry_lock) :=
  l ← body_of t p;
  let d := doms t (dom_key l) in
  if linked p (granted d)
  then Some (true, set_dom (dom_key l) {| granted := unlink p (granted d); waiting := waiting d |} t)
  else Some (false, set_dom (dom_key l) {| granted := granted d; waiting := unlink p (waiting d) |} t).

End domain.

#[export] Instance entrylk_kind : LockKind pl_entry_lock := {|
  lk_client := client;
  lk_inode := pinode;
  lk_volume := volume;
  lock_section := entrylk_lock;
  unlock_section := entrylk_unlock;
  after_unlock := after_entry_unlock;
  grant_section := __grant_blocked_entry_locks;
  clean_section := clean_entrylk
|}.

Definition new_entrylk_lock (inode : nat) (name : option string) (ty : entrylk_type) (vol : string)
    (cl : option nat) (own : list Z) : pl_entry_lock :=
  {| basename := name; type := ty; pinode := inode; volume := vol; client := cl; owner := own |}.

Definition pl_common_entrylk (cl : option nat) (own : list Z) (vol : string) (inode : nat) (name : option string)
    (cmd : entrylk_cmd) (ty : entrylk_type) : request pl_entry_lock :=
  let reqlock := new_entrylk_lock inode name ty vol cl own in
  match cmd with
  | ENTRYLK_LOCK_NB => Lock false reqlock
  | ENTRYLK_LOCK => Lock true reqlock
  | ENTRYLK_UNLOCK => Unlock reqlock
  end.

Definition __get_entrylk_count (ds : list (string * dom)) : Z :=
  foldl (fun n d => i32 (n + Z.of_nat (length (granted d.2)) + Z.of_nat (length (waiting d.2)))) 0 ds.
