(* ===== verification/DomSpec.v ===== *)
(** * Inode and entry locks: what the two kinds promise

    [LockLaws] is the contract of a kind of locks, over an abstract conflict and
    an abstract owner: when a lock is granted, when it waits and why, which lock
    an unlock removes. Inode locks and entry locks keep it; DomInv.v and
    DomProps.v use nothing else of them. *)

From Stdlib Require Import ZArith Lia Bool String.
From stdpp Require Import base list gmap strings.
From S2P Require Import Prelude.
From S2P Require Import Locks.
From S2P Require Import DomTable.
From S2P Require Import Inodelk.
From S2P Require Import Entrylk.

Open Scope Z_scope.

(** ** Looking through lists of locks *)

Section look.

Context {L : Type}.
Implicit Types t : table L.

Definition live_all t (ps : list ptr) : Prop := forall p, p ∈ ps -> is_Some (heap t !! p).

Lemma live_body t ps p : live_all t ps -> p ∈ ps -> exists b, body_of t p = Some b.
Proof. intros H Hp. destruct (H p Hp) as [o Ho]. exists (body o). unfold body_of. by rewrite Ho. Qed.

Lemma live_cons t p ps : live_all t (p :: ps) -> is_Some (heap t !! p) /\ live_all t ps.
Proof. intros H. split; [apply H, list_elem_of_here|]. intros q Hq. by apply H, list_elem_of_further. Qed.

Lemma find_lock_spec (f : L -> bool) t ps :
  live_all t ps ->
  (exists q b, find_lock f t ps = Some (Some q) /\ q ∈ ps /\ body_of t q = Some b /\ f b = true) \/
  (find_lock f t ps = Some None /\ forall q b, q ∈ ps -> body_of t q = Some b -> f b = false).
Proof.
  induction ps as [|p ps IH]; intros Hl; cbn [find_lock].
  { right. split; [done|]. by intros q b ?%not_elem_of_nil. }
  destruct (live_body t (p :: ps) p Hl (list_elem_of_here _ _)) as [b Hb]. rewrite Hb. cbn [mbind option_bind].
  destruct (f b) eqn:Hf.
  - left. exists p, b. split_and!; [done|apply list_elem_of_here|done..].
  - destruct (IH (proj2 (live_cons _ _ _ Hl))) as [(q & b' & E & Hq & Hb' & Hf')|[E Hno]].
    + left. exists q, b'. split_and!; [done|by apply list_elem_of_further|done..].
    + right. split; [done|]. intros q b' [->|Hq]%elem_of_cons Hb'; [congruence|by apply (Hno q)].
Qed.

Lemma find_lock_elem (f : L -> bool) t ps q : find_lock f t ps = Some (Some q) -> q ∈ ps.
Proof.
  induction ps as [|p ps IH]; cbn [find_lock]; [done|]. destruct (body_of t p) as [b|]; [|done]. cbn [mbind option_bind].
  destruct (f b); [intros [= ->]; apply list_elem_of_here|]. intros Hq. apply list_elem_of_further. by apply IH.
Qed.

Lemma find_lock_ext (f g : L -> bool) t ps : (forall b, f b = g b) -> find_lock f t ps = find_lock g t ps.
Proof.
  intros H. induction ps as [|p ps IH]; [done|]. cbn [find_lock]. destruct (body_of t p); [|done].
  cbn [mbind option_bind]. by rewrite H, IH.
Qed.

End look.

(** ** The contract *)

Section contract.

Context {L : Type} (conflict same_owner : L -> L -> bool).
Implicit Types t : table L.

(** A granted lock of another owner is in the way. *)

Definition obstructs t (l : L) (q : ptr) : Prop :=
  exists b, body_of t q = Some b /\ conflict l b = true /\ same_owner l b = false.

Definition collides t (l : L) (q : ptr) : Prop := exists b, body_of t q = Some b /\ conflict l b = true.

(** A lock that could be granted still waits for one that waits before it. *)

Definition obstructed t (l : L) (g w : list ptr) : Prop :=
  (exists q, q ∈ g /\ obstructs t l q) \/ (exists q, q ∈ w /\ collides t l q).

Definition owns t (l : L) (q : ptr) : Prop := exists b, body_of t q = Some b /\ same_owner b l = true.

(** It is granted when nothing is in the way, and before others that wait for
    it only when its owner has or waits for another lock. *)

Definition takes t (l : L) (g w : list ptr) : Prop :=
  (forall q, q ∈ g -> ~ obstructs t l q) /\
  ((exists q, q ∈ w /\ collides t l q) -> exists q, q ∈ g ++ w /\ owns t l q).

Definition grant_in (k : key) (p : ptr) t : table L :=
  set_dom k {| granted := p :: granted (doms t k); waiting := waiting (doms t k) |} t.

Definition queue_in (k : key) (p : ptr) t : table L :=
  set_dom k {| granted := granted (doms t k); waiting := waiting (doms t k) ++ [p] |} t.

Definition drop_granted (k : key) (p : ptr) t : table L :=
  set_dom k {| granted := unlink p (granted (doms t k)); waiting := waiting (doms t k) |} t.

Definition drop_waiting (k : key) (p : ptr) t : table L :=
  set_dom k {| granted := granted (doms t k); waiting := unlink p (waiting (doms t k)) |} t.

Fixpoint grant_loop (try : ptr -> table L -> option (Z * table L)) (todo gl : list ptr) t
    : option (list ptr * table L) :=
  match todo with
  | [] => Some (gl, t)
  | p :: todo =>
      '(ret, t) ← try p t; grant_loop try todo (if ret =? 0 then p :: gl else gl) t
  end.

Lemma find_obstacle t (l : L) ps (f : L -> bool) :
  (forall b, f b = conflict l b && negb (same_owner l b)) -> live_all t ps ->
  (exists q, find_lock f t ps = Some (Some q) /\ q ∈ ps /\ obstructs t l q) \/
  (find_lock f t ps = Some None /\ forall q, q ∈ ps -> ~ obstructs t l q).
Proof.
  intros Hf Hl. destruct (find_lock_spec f t ps Hl) as [(q & b & E & Hq & Hb & Hfb)|[E Hno]].
  - left. exists q. split_and!; [done..|]. exists b. rewrite Hf, andb_true_iff, negb_true_iff in Hfb. by split.
  - right. split; [done|]. intros q Hq (b & Hb & H1 & H2). specialize (Hno q b Hq Hb). by rewrite Hf, H1, H2 in Hno.
Qed.

Lemma find_collision t (l : L) ps (f : L -> bool) :
  (forall b, f b = conflict l b) -> live_all t ps ->
  (exists q, find_lock f t ps = Some (Some q) /\ q ∈ ps /\ collides t l q) \/
  (find_lock f t ps = Some None /\ forall q, q ∈ ps -> ~ collides t l q).
Proof.
  intros Hf Hl. destruct (find_lock_spec f t ps Hl) as [(q & b & E & Hq & Hb & Hfb)|[E Hno]].
  - left. exists q. split_and!; [done..|]. exists b. by rewrite <- Hf.
  - right. split; [done|]. intros q Hq (b & Hb & H1). specialize (Hno q b Hq Hb). by rewrite Hf, H1 in Hno.
Qed.

Lemma find_owned t (l : L) ps :
  live_all t ps ->
  (exists q, find_lock (fun b => same_owner b l) t ps = Some (Some q) /\ q ∈ ps /\ owns t l q) \/
  (find_lock (fun b => same_owner b l) t ps = Some None /\ forall q, q ∈ ps -> ~ owns t l q).
Proof.
  intros Hl. destruct (find_lock_spec (fun b => same_owner b l) t ps Hl) as [(q & b & E & Hq & Hb & Hfb)|[E Hno]].
  - left. exists q. split_and!; [done..|]. by exists b.
  - right. split; [done|]. intros q Hq (b & Hb & H1). specialize (Hno q b Hq Hb). congruence.
Qed.

(** What a request for a lock does. *)

Definition try_generic (k : L -> key) (b : bool) (p : ptr) t : option (Z * table L) :=
  l ← body_of t p;
  let g := granted (doms t (k l)) in
  let w := waiting (doms t (k l)) in
  let block := if b then queue_in (k l) p t else t in
  conf ← find_lock (fun l' => conflict l l' && negb (same_owner l l')) t g;
  match conf with
  | Some _ => Some (- EAGAIN, block)
  | None =>
      starved ← find_lock (conflict l) t w;
      nested ← (match starved with
                | None => Some true
                | Some _ =>
                    mine ← find_lock (fun l' => same_owner l' l) t g;
                    match mine with
                    | Some _ => Some true
                    | None => mine ← find_lock (fun l' => same_owner l' l) t w; Some (bool_decide (is_Some mine))
                    end
                end);
      if negb nested then Some (- EAGAIN, block)
      else t ← ref_lock p t; Some (0, grant_in (k l) p t)
  end.

Lemma ref_lock_live t p l : body_of t p = Some l -> exists t1, ref_lock p t = Some t1 /\ dom_list t1 = dom_list t.
Proof. unfold body_of, ref_lock. destruct (heap t !! p); [|done]. intros _. eexists. by split. Qed.

Lemma try_generic_law (k : L -> key) b p t l :
  body_of t p = Some l -> live_all t (granted (doms t (k l))) -> live_all t (waiting (doms t (k l))) ->
  (takes t l (granted (doms t (k l))) (waiting (doms t (k l))) /\
   exists t1, ref_lock p t = Some t1 /\ try_generic k b p t = Some (0, grant_in (k l) p t1)) \/
  (obstructed t l (granted (doms t (k l))) (waiting (doms t (k l))) /\
   try_generic k b p t = Some (- EAGAIN, if b then queue_in (k l) p t else t)).
Proof.
  intros Hp Hg Hw. unfold try_generic. rewrite Hp. cbn [mbind option_bind].
  destruct (ref_lock_live t p l Hp) as (t1 & -> & _). cbn [mbind option_bind].
  destruct (find_obstacle t l _ _ (fun _ => eq_refl) Hg) as [(q & -> & Hq & Ho)|[-> Hno]]; cbn [mbind option_bind].
  { right. split; [left; by exists q|done]. }
  destruct (find_collision t l _ (conflict l) (fun _ => eq_refl) Hw) as [(q & -> & Hq & Ho)|[-> Hno']]; cbn [mbind option_bind negb].
  2: { left. split; [|by exists t1]. split; [done|]. intros (q & Hq & Hc). by destruct (Hno' q). }
  destruct (find_owned t l _ Hg) as [(g & -> & Hgin & Hown)|[-> Hno2]]; cbn [mbind option_bind negb].
  { left. split; [|by exists t1]. split; [done|]. intros _. exists g. split; [apply elem_of_app; by left|done]. }
  destruct (find_owned t l _ Hw) as [(g & -> & Hgin & Hown)|[-> Hno3]]; cbn [mbind option_bind negb].
  - rewrite bool_decide_true by done. cbn [negb]. left. split; [|by exists t1].
    split; [done|]. intros _. exists g. split; [apply elem_of_app; by right|done].
  - rewrite bool_decide_false by (by intros [? ?]). cbn [negb]. right. split; [right; by exists q|done].
Qed.

End contract.

(** ** The law of a kind *)

Class LockLaws (L : Type) `{LockKind L} := {
  conflict : L -> L -> bool;
  same_owner : L -> L -> bool;
  matches : L -> L -> bool;
  enlist : ptr -> list ptr -> list ptr;
  try_lock : bool -> ptr -> table L -> option (Z * table L);
  conflict_sym l l' : conflict l l' = conflict l' l;
  same_owner_sym l l' : same_owner l l' = same_owner l' l;
  same_owner_client l l' : same_owner l l' = true -> lk_client l = lk_client l';
  matches_owner l l' : matches l l' = true -> same_owner l l' = true;
  enlist_perm p ps : enlist p ps ≡ₚ p :: ps;
  try_law b p t l :
    body_of t p = Some l ->
    live_all t (granted (doms t (lk_key l))) -> live_all t (waiting (doms t (lk_key l))) ->
    (takes conflict same_owner t l (granted (doms t (lk_key l))) (waiting (doms t (lk_key l))) /\
     exists t1, ref_lock p t = Some t1 /\ try_lock b p t = Some (0, grant_in (lk_key l) p t1)) \/
    (obstructed conflict same_owner t l (granted (doms t (lk_key l))) (waiting (doms t (lk_key l))) /\
     try_lock b p t = Some (- EAGAIN, if b then queue_in (lk_key l) p t else t));
  lock_law b p t :
    lock_section b p t =
      (l ← body_of t p;
       '(ret, t) ← try_lock b p t;
       t ← (if ret =? 0 then clear_frame p t else Some t);
       let t := match lk_client l with
                | Some c => if (ret =? 0) || b then set_lockers c (enlist p (lockers t c)) t else t
                | None => t
                end in
       t ← (if (ret =? - EAGAIN) && b then Some t else unref_lock p t);
       Some (ret, t));
  unlock_law p t :
    unlock_section p t =
      (l ← body_of t p;
       q ← find_lock (fun b => matches l b) t (granted (doms t (lk_key l)));
       match q with
       | None => t ← unref_lock p t; Some (- EINVAL, t)
       | Some q =>
           r ← body_of t q;
           let t := drop_granted (lk_key l) q t in
           let t := match lk_client r with Some c => set_lockers c (unlink q (lockers t c)) t | None => t end in
           t ← unref_lock q t;
           t ← unref_lock p t;
           Some (0, t)
       end);
  after_law ret p k :
    exists acts r e,
      after_unlock ret p k ≡ₚ AAnswer p r e :: acts ++ (if ret =? 0 then [AInodeUnref k.1; AInodeUnref k.1] else [AInodeUnref k.1]) /\
      (acts = [AGrant k] \/ (acts = [] /\ ret <> 0));
  grant_law k t :
    grant_section k t =
      grant_loop (try_lock true) (waiting (doms t k)) []
        (set_dom k {| granted := granted (doms t k); waiting := [] |} t);
  clean_law p t :
    clean_section p t =
      (l ← body_of t p;
       Some (if linked p (granted (doms t (lk_key l))) then (true, drop_granted (lk_key l) p t)
             else (false, drop_waiting (lk_key l) p t)))
}.

(** ** Inode locks *)

Lemma inodelk_conflict_sym l l' : inodelk_conflict l l' = inodelk_conflict l' l.
Proof.
  unfold inodelk_conflict, inodelk_overlap, inodelk_type_conflict.
  by rewrite (andb_comm (_ <=? _)), (orb_comm (is_type _ _)).
Qed.

Lemma same_inodelk_owner_sym l l' : same_inodelk_owner l l' = same_inodelk_owner l' l.
Proof. unfold same_inodelk_owner. f_equal; by apply bool_decide_ext. Qed.

Lemma inodelk_try b p t :
  __lock_inodelk p b t = try_generic inodelk_conflict same_inodelk_owner lk_key b p t.
Proof.
  unfold __lock_inodelk, try_generic, __inodelk_grantable, __blocked_lock_conflict, Inodelk.__owner_has_lock.
  destruct (body_of t p) as [l|] eqn:Hp; [|done]. cbn [mbind option_bind]. change (Inodelk.dom_key l) with (lk_key l).
  destruct (ref_lock_live t p l Hp) as (t1 & Ht1 & Hd). rewrite Ht1. cbn [mbind option_bind]. unfold grant_in, doms. by rewrite Hd.
Qed.

Lemma inode_grant_loop todo gl t :
  grant_inode_loop todo gl t = grant_loop (fun p => __lock_inodelk p true) todo gl t.
Proof.
  revert gl t. induction todo as [|p todo IH]; intros gl t; [done|]. cbn [grant_inode_loop grant_loop].
  destruct (__lock_inodelk p true t) as [[ret t']|]; [|done]. cbn [mbind option_bind]. apply IH.
Qed.

#[export, refine] Instance inodelk_laws : LockLaws pl_inode_lock := {|
  conflict := inodelk_conflict;
  same_owner := same_inodelk_owner;
  matches := fun l l' => inodelks_equal l' l && same_inodelk_owner l' l;
  enlist := fun p ps => ps ++ [p];
  try_lock := fun b p => __lock_inodelk p b
|}.
Proof.
  - apply inodelk_conflict_sym.
  - apply same_inodelk_owner_sym.
  - intros l l' H. unfold same_inodelk_owner in H. apply andb_true_iff in H as [_ H]. by apply bool_decide_eq_true in H.
  - intros l l' H. rewrite same_inodelk_owner_sym. by apply andb_true_iff in H as [_ H].
  - intros p ps. by rewrite Permutation_app_comm.
  - intros b p t l. rewrite inodelk_try. apply try_generic_law.
  - done.
  - intros p t. cbn [unlock_section inodelk_kind]. unfold pl_inode_unlock, __inode_unlock_lock, find_matching_inodelk.
    destruct (body_of t p) as [l|]; [|done]. cbn [mbind option_bind]. change (Inodelk.dom_key l) with (lk_key l).
    destruct (find_lock _ t _) as [[q|]|]; done.
  - intros ret p k. cbn [after_unlock inodelk_kind]. unfold after_inode_unlock.
    destruct (Z.eqb_spec ret 0) as [->|Hne].
    + exists [AGrant k], 0, 0. split; [|by left]. cbn. solve_Permutation.
    + exists [], (-1), (- ret). split; [|by right]. cbn. solve_Permutation.
  - intros k t. cbn [grant_section inodelk_kind]. unfold __grant_blocked_inode_locks. apply inode_grant_loop.
  - intros p t. cbn [clean_section inodelk_kind]. unfold clean_inodelk. destruct (body_of t p) as [l|]; [|done].
    cbn [mbind option_bind]. change (Inodelk.dom_key l) with (lk_key l). by destruct (linked _ _).
Defined.

(** ** Entry locks *)

Lemma names_conflict_sym n n' : names_conflict n n' = names_conflict n' n.
Proof. unfold names_conflict. rewrite (orb_comm (all_names n)). f_equal. by apply bool_decide_ext. Qed.

Lemma same_entrylk_owner_sym l l' : __same_entrylk_owner l l' = __same_entrylk_owner l' l.
Proof. unfold __same_entrylk_owner. f_equal; by apply bool_decide_ext. Qed.

Definition entrylk_conflict (l l' : pl_entry_lock) : bool := names_conflict (basename l) (basename l').

Lemma entrylk_try b p t :
  __lock_entrylk p (negb b) t = try_generic entrylk_conflict __same_entrylk_owner lk_key b p t.
Proof.
  unfold __lock_entrylk, try_generic, __entrylk_grantable, __blocked_entrylk_conflict, Entrylk.__owner_has_lock.
  destruct (body_of t p) as [l|] eqn:Hp; [|done]. cbn [mbind option_bind]. change (Entrylk.dom_key l) with (lk_key l).
  rewrite (find_lock_ext (fun tmp => __conflicting_entrylks tmp l)
    (fun l' => entrylk_conflict l l' && negb (__same_entrylk_owner l l'))).
  2: { intros l'. unfold __conflicting_entrylks, entrylk_conflict. by rewrite names_conflict_sym, same_entrylk_owner_sym. }
  rewrite (find_lock_ext (fun tmp => names_conflict (basename tmp) (basename l)) (entrylk_conflict l))
    by (intros l'; apply names_conflict_sym).
  destruct (ref_lock_live t p l Hp) as (t1 & Ht1 & Hd). rewrite Ht1. cbn [mbind option_bind]. unfold grant_in, doms. rewrite Hd.
  destruct (find_lock (fun l' => entrylk_conflict l l' && _) t _) as [[q|]|]; cbn [mbind option_bind]; [destruct b; reflexivity| |reflexivity].
  destruct (find_lock (entrylk_conflict l) t _) as [[q|]|]; cbn [mbind option_bind]; [|destruct b; reflexivity|reflexivity].
  rewrite bool_decide_true by done. destruct b; reflexivity.
Qed.

Lemma entry_grant_loop todo gl t :
  grant_entry_loop todo gl t = grant_loop (fun p => __lock_entrylk p false) todo gl t.
Proof.
  revert gl t. induction todo as [|p todo IH]; intros gl t; [done|]. cbn [grant_entry_loop grant_loop].
  destruct (__lock_entrylk p false t) as [[ret t']|]; [|done]. cbn [mbind option_bind]. apply IH.
Qed.

#[export, refine] Instance entrylk_laws : LockLaws pl_entry_lock := {|
  conflict := entrylk_conflict;
  same_owner := __same_entrylk_owner;
  matches := fun l l' => names_equal (basename l) (basename l') && __same_entrylk_owner l l'
                         && bool_decide (type l = type l');
  enlist := fun p ps => p :: ps;
  try_lock := fun b p => __lock_entrylk p (negb b)
|}.
Proof.
  - intros l l'. apply names_conflict_sym.
  - apply same_entrylk_owner_sym.
  - intros l l' H. unfold __same_entrylk_owner in H. apply andb_true_iff in H as [_ H]. by apply bool_decide_eq_true in H.
  - intros l l' H. by apply andb_true_iff in H as [[_ H]%andb_true_iff _].
  - done.
  - intros b p t l. rewrite entrylk_try. apply try_generic_law.
  - intros b p t. cbn [lock_section entrylk_kind]. unfold entrylk_lock. by rewrite negb_involutive.
  - intros p t. cbn [unlock_section entrylk_kind]. unfold entrylk_unlock, __unlock_entrylk, __find_matching_lock.
    destruct (body_of t p) as [l|]; [|done]. cbn [mbind option_bind]. change (Entrylk.dom_key l) with (lk_key l).
    destruct (find_lock _ t _) as [[q|]|]; done.
  - intros ret p k. cbn [after_unlock entrylk_kind]. unfold after_entry_unlock.
    destruct (Z.eqb_spec ret 0) as [->|Hne].
    + exists [AGrant k], 0, 0. split; [|by left]. cbn. solve_Permutation.
    + exists [AGrant k], (-1), (- ret). split; [|by left]. cbn. solve_Permutation.
  - intros k t. cbn [grant_section entrylk_kind]. unfold __grant_blocked_entry_locks. apply entry_grant_loop.
  - intros p t. cbn [clean_section entrylk_kind]. unfold clean_entrylk. destruct (body_of t p) as [l|]; [|done].
    cbn [mbind option_bind]. change (Entrylk.dom_key l) with (lk_key l). by destruct (linked _ _).
Defined.
