(* ===== verification/DomInv.v ===== *)
(** * Inode and entry locks: the invariant

    What holds in every state of every interleaving: the count of a lock is the
    number of lists and threads that hold it, so that nothing freed is reachable;
    a lock is in the list of its client exactly while it is granted or waits;
    every request is owed one answer; granted locks do not conflict; and a lock
    that waits has a reason, or somebody is about to try it again. *)

From Stdlib Require Import ZArith Lia Bool String List.
From stdpp Require Import base list gmap strings.
From S2P Require Import Prelude.
From S2P Require Import Locks.
From S2P Require Import DomTable.
From S2P Require Import DomSpec.

Open Scope Z_scope.

(** ** Counting *)

Definition cnt (p : nat) (l : list nat) : nat := count_occ Nat.eq_dec l p.

Lemma cnt_nil p : cnt p [] = 0%nat.
Proof. done. Qed.

Lemma cnt_cons p q l : cnt p (q :: l) = ((if decide (q = p) then 1 else 0) + cnt p l)%nat.
Proof. unfold cnt. cbn. destruct (Nat.eq_dec q p), (decide (q = p)); done. Qed.

Lemma cnt_app p l l' : cnt p (l ++ l') = (cnt p l + cnt p l')%nat.
Proof. apply count_occ_app. Qed.

Lemma cnt_perm p l l' : l ≡ₚ l' -> cnt p l = cnt p l'.
Proof. intros Hp. by apply (Permutation_count_occ Nat.eq_dec). Qed.

Lemma cnt_elem p l : p ∈ l <-> (0 < cnt p l)%nat.
Proof. rewrite list_elem_of_In. unfold cnt. by rewrite (count_occ_In Nat.eq_dec). Qed.

Lemma cnt_unlink p q l : cnt p (unlink q l) = if decide (p = q) then 0%nat else cnt p l.
Proof.
  unfold unlink. induction l as [|r l IH]; cbn [List.filter]; [by case_decide|].
  destruct (Nat.eqb_spec r q) as [->|Hr]; cbn [negb]; rewrite ?cnt_cons, IH.
  - repeat case_decide; subst; done || lia.
  - repeat case_decide; subst; done || lia.
Qed.

Lemma unlink_fresh p l : cnt p l = 0%nat -> unlink p l = l.
Proof.
  unfold unlink. induction l as [|q l IH]; [done|]. rewrite cnt_cons. cbn [List.filter].
  case_decide; [lia|]. intros Hc. rewrite (proj2 (Nat.eqb_neq q p)) by done. cbn [negb]. f_equal. by apply IH.
Qed.

Lemma linked_cnt p l : linked p l = true <-> (0 < cnt p l)%nat.
Proof.
  rewrite <- cnt_elem. unfold linked. rewrite existsb_exists. split.
  - intros (x & Hx & E). apply Nat.eqb_eq in E as ->. by apply list_elem_of_In.
  - intros Hp. exists p. split; [by apply list_elem_of_In|apply Nat.eqb_refl].
Qed.

(** ** What actions hold, owe and promise *)

(** References to locks. *)

Definition tokens (a : action) : list ptr :=
  match a with
  | ALock _ p | AUnlock p | ADrop p _ => [p]
  | AFinish _ all => all
  | ACleaning _ r u => r ++ u
  | ACleaned u r => u ++ r
  | AReleased ps => ps
  | _ => []
  end.

(** Answers. *)

Definition owes (a : action) : list ptr :=
  match a with
  | ALock _ p | AUnlock p | AAnswer p _ _ => [p]
  | AFinish todo _ => todo
  | ACleaning _ _ u | ACleaned u _ => u
  | _ => []
  end.

(** Those that are given through the frame of the lock. *)

Definition asks (a : action) : list ptr :=
  match a with
  | ALock _ p => [p]
  | AFinish todo _ => todo
  | ACleaning _ _ u | ACleaned u _ => u
  | _ => []
  end.

(** Requests whose lock is not yet in a list. *)

Definition asked (a : action) : list ptr := match a with ALock _ p | AUnlock p => [p] | _ => [] end.

Definition cleans (a : action) : list nat := match a with ACleaning c _ _ => [c] | _ => [] end.

Definition gathered (a : action) : list ptr :=
  match a with ACleaning _ r u => r ++ u | ACleaned u r => u ++ r | AReleased ps => ps | _ => [] end.

Definition all (f : action -> list nat) (A : list action) : list nat := flat_map f A.

Lemma cnt_all_cons f p a A : cnt p (all f (a :: A)) = (cnt p (f a) + cnt p (all f A))%nat.
Proof. apply cnt_app. Qed.

Lemma cnt_all_app f p A B : cnt p (all f (A ++ B)) = (cnt p (all f A) + cnt p (all f B))%nat.
Proof. unfold all. by rewrite flat_map_app, cnt_app. Qed.

Lemma cnt_all_nil f p : cnt p (all f []) = 0%nat.
Proof. done. Qed.

Lemma cnt_all_perm f p A B : A ≡ₚ B -> cnt p (all f A) = cnt p (all f B).
Proof. intros Hp. apply cnt_perm. unfold all. by apply Permutation_flat_map. Qed.

Section invariant.

Context {L : Type} `{LockLaws L}.
Implicit Types t : table L.

Definition home t (k : key) (p : ptr) : nat :=
  (cnt p (granted (doms t k)) + cnt p (waiting (doms t k)))%nat.

Definition key_of t (p : ptr) : option key := lk_key <$> body_of t p.

(** Somebody is about to grant the waiting locks of a domain. *)

Definition promises t (k : key) (a : action) : Prop :=
  a = AGrant k \/ exists p, p ∈ gathered a /\ key_of t p = Some k.

Definition promised t (A : list action) (k : key) : Prop := exists a, a ∈ A /\ promises t k a.

(** Every lock that waits has a reason. *)

Definition reasons t (g w : list ptr) : Prop :=
  forall w1 p w2 l, w = w1 ++ p :: w2 -> body_of t p = Some l -> obstructed conflict same_owner t l g w1.

Definition exclusive t (g : list ptr) : Prop :=
  forall p q l l', p ∈ g -> q ∈ g -> body_of t p = Some l -> body_of t q = Some l' ->
    conflict l l' = true -> same_owner l l' = true \/ p = q.

Definition answers t (p : ptr) : nat := cnt p ((fun r => r.1.1) <$> replied t).

Definition waits t (p : ptr) : nat := match key_of t p with Some k => cnt p (waiting (doms t k)) | None => 0%nat end.

Definition sound (a : action) : Prop :=
  match a with AFinish todo all => forall p, (cnt p todo <= cnt p all)%nat | _ => True end.

Record inv t (A : list action) : Prop := {
  i_ref p : match heap t !! p with
            | Some o => ref o = Z.of_nat (home t (lk_key (body o)) p + cnt p (all tokens A)) /\ 0 < ref o
            | None => cnt p (all tokens A) = 0%nat
            end;
  i_home k p : (0 < home t k p)%nat -> key_of t p = Some k;
  i_one k p : (home t k p <= 1)%nat;
  i_fresh p : (next t <= p)%nat -> heap t !! p = None;
  i_lockers c p : cnt p (lockers t c) =
    match heap t !! p with
    | Some o => if decide (lk_client (body o) = Some c) then home t (lk_key (body o)) p else 0%nat
    | None => 0%nat
    end;
  i_pend p o : heap t !! p = Some o -> (0 < waits t p + cnt p (all asks A))%nat -> pending o = true;
  i_once p : (p < next t)%nat -> (answers t p + waits t p + cnt p (all owes A) = 1)%nat;
  i_new p : (next t <= p)%nat -> answers t p = 0%nat /\ cnt p (all owes A) = 0%nat;
  i_sound a : a ∈ A -> sound a;
  i_out k p : (0 < cnt p (all asked A))%nat -> home t k p = 0%nat;
  i_excl k : exclusive t (granted (doms t k));
  i_wake k : promised t A k \/ reasons t (granted (doms t k)) (waiting (doms t k));
  i_held c : cnt c (all cleans A) = cnt c (held t) /\ (cnt c (held t) <= 1)%nat
}.

Lemma promised_perm t A B k : A ≡ₚ B -> promised t A k -> promised t B k.
Proof. intros Hp (a & Ha & Hk). exists a. by rewrite <- Hp. Qed.

(** The actions may be relabelled as long as they hold and owe the same. *)

Lemma inv_relabel t A B :
  inv t A ->
  (forall p, cnt p (all tokens B) = cnt p (all tokens A)) ->
  (forall p, cnt p (all owes B) = cnt p (all owes A)) ->
  (forall p, (cnt p (all asks B) <= cnt p (all asks A))%nat) ->
  (forall p, (cnt p (all asked B) <= cnt p (all asked A))%nat) ->
  (forall c, cnt c (all cleans B) = cnt c (all cleans A)) ->
  (forall a, a ∈ B -> sound a) ->
  (forall k, promised t A k -> promised t B k) -> inv t B.
Proof.
  intros [] HT HO HA HF HC HS HP. split; try done.
  - intros p. specialize (i_ref0 p). rewrite HT. done.
  - intros p o Ho Hp. apply (i_pend0 p o Ho). specialize (HA p). lia.
  - intros p Hp. rewrite HO. by apply i_once0.
  - intros p Hp. rewrite HO. by apply i_new0.
  - intros k p Hp. apply i_out0. specialize (HF p). lia.
  - intros k. destruct (i_wake0 k) as [Hk|Hk]; [left; by apply HP|by right].
  - intros c. rewrite HC. apply i_held0.
Qed.

Lemma inv_perm t A B : A ≡ₚ B -> inv t A -> inv t B.
Proof.
  intros Hp Hi. apply (inv_relabel t A); try done.
  - intros p. by apply cnt_all_perm.
  - intros p. by apply cnt_all_perm.
  - intros p. apply Nat.eq_le_incl. by apply cnt_all_perm.
  - intros p. apply Nat.eq_le_incl. by apply cnt_all_perm.
  - intros p. by apply cnt_all_perm.
  - intros a Ha. apply (i_sound _ _ Hi). by rewrite Hp.
  - intros k. by apply promised_perm.
Qed.

(** ** Reading *)

Lemma key_of_live t p k : key_of t p = Some k <-> exists o, heap t !! p = Some o /\ lk_key (body o) = k.
Proof.
  unfold key_of, body_of. destruct (heap t !! p) as [o|]; cbn; [|split; [done|by intros (? & ? & _)]].
  split; [intros [= <-]; by exists o|by intros (? & [= <-] & <-)].
Qed.

Lemma home_live t A k p : inv t A -> (0 < home t k p)%nat -> exists o, heap t !! p = Some o /\ lk_key (body o) = k.
Proof. intros Hi Hp. by apply key_of_live, (i_home _ _ Hi). Qed.

Lemma lists_live t A k :
  inv t A -> live_all t (granted (doms t k)) /\ live_all t (waiting (doms t k)).
Proof.
  intros Hi. split; intros p Hp; apply cnt_elem in Hp;
    destruct (home_live t A k p Hi ltac:(unfold home; lia)) as (o & Ho & _); by exists o.
Qed.

Lemma token_live t A (p : ptr) : inv t A -> (0 < cnt p (all tokens A))%nat -> exists o, heap t !! p = Some o.
Proof. intros Hi Hp. pose proof (i_ref _ _ Hi p) as Hr. destruct (heap t !! p) as [o|]; [by exists o|lia]. Qed.

Lemma waits_home t k p : key_of t p = Some k -> waits t p = cnt p (waiting (doms t k)).
Proof. unfold waits. by intros ->. Qed.

End invariant.
