(* ===== verification/DomActs.v ===== *)
(** * Inode and entry locks: every action keeps the invariant

    First what a change of one lock or one list does to the invariant, then the
    actions: each that is enabled has a result in every state with the invariant,
    and keeps it. *)

From Stdlib Require Import ZArith Lia Bool String List.
From stdpp Require Import base list gmap strings.
From S2P Require Import Prelude Locks DomTable DomSpec DomInv.

Open Scope Z_scope.

Section steps.

Context {L : Type} `{LockLaws L}.
Implicit Types (t : table L) (p q : ptr).

(** ** States in which the locks of a list look the same *)

Definition agree t t' (ps : list ptr) : Prop := forall q, q ∈ ps -> body_of t' q = body_of t q.

Lemma agree_app t t' ps qs : agree t t' (ps ++ qs) -> agree t t' ps /\ agree t t' qs.
Proof. intros Ha. split; intros q Hq; apply Ha, elem_of_app; auto. Qed.

Lemma obstructed_agree t t' l g w :
  agree t t' (g ++ w) -> obstructed conflict same_owner t l g w -> obstructed conflict same_owner t' l g w.
Proof.
  intros (Hg & Hw)%agree_app [(q & Hq & b & Hb & Hc)|(q & Hq & b & Hb & Hc)].
  - left. exists q. split; [done|]. exists b. by rewrite Hg.
  - right. exists q. split; [done|]. exists b. by rewrite Hw.
Qed.

Lemma reasons_agree t t' g w : agree t t' (g ++ w) -> reasons t g w -> reasons t' g w.
Proof.
  intros Ha Hr w1 p w2 l -> Hl. rewrite Ha in Hl by (rewrite !elem_of_app, elem_of_cons; auto).
  apply (obstructed_agree t).
  - intros q Hq. apply Ha. rewrite !elem_of_app in *. destruct Hq; auto.
  - by apply (Hr w1 p w2).
Qed.

Lemma exclusive_agree t t' g : agree t t' g -> exclusive t g -> exclusive t' g.
Proof. intros Ha He p q l l' Hp Hq. rewrite !Ha by done. by apply He. Qed.

Lemma promised_agree t t' R k :
  (forall a q, a ∈ R -> q ∈ gathered a -> body_of t' q = body_of t q) -> promised t R k -> promised t' R k.
Proof.
  intros Ha (a & Hin & [->|(q & Hq & Hk)]).
  - exists (AGrant k). split; [done|by left].
  - exists a. split; [done|]. right. exists q. split; [done|]. unfold key_of. by rewrite (Ha a).
Qed.

Lemma gathered_tokens a q : q ∈ gathered a -> (0 < cnt q (tokens a))%nat.
Proof. intros Hq. apply cnt_elem. destruct a; done || by apply not_elem_of_nil in Hq. Qed.

Lemma all_elem f (R : list action) a q : a ∈ R -> q ∈ f a -> (0 < cnt q (all f R))%nat.
Proof.
  intros Ha Hq. apply cnt_elem, list_elem_of_In. unfold all. apply in_flat_map. exists a. by rewrite <- !list_elem_of_In.
Qed.

Lemma gathered_token R a q : a ∈ R -> q ∈ gathered a -> (0 < cnt q (all tokens R))%nat.
Proof. intros Ha Hq. apply (all_elem _ R a); [done|]. by apply cnt_elem, gathered_tokens. Qed.

(** ** Changing the heap *)

Lemma doms_set_heap h t k : doms (set_heap h t) k = doms t k.
Proof. done. Qed.

Lemma inv_set_heap h t A B :
  inv t A ->
  (forall p, match h !! p with
             | Some o => ref o = Z.of_nat (home t (lk_key (body o)) p + cnt p (all tokens B)) /\ 0 < ref o
             | None => cnt p (all tokens B) = 0%nat
             end) ->
  (forall p, body <$> h !! p = body_of t p \/ (h !! p = None /\ forall k, home t k p = 0%nat)) ->
  (forall p o, h !! p = Some o -> (0 < waits t p + cnt p (all asks B))%nat -> pending o = true) ->
  (forall p, cnt p (all owes B) = cnt p (all owes A)) ->
  (forall p, (cnt p (all asked B) <= cnt p (all asked A))%nat) ->
  (forall c, cnt c (all cleans B) = cnt c (all cleans A)) ->
  (forall a, a ∈ B -> sound a) ->
  (forall k, promised t A k -> promised t B k) -> inv (set_heap h t) B.
Proof.
  intros Hi HR HB HP HO HF HC HS HK. set (t' := set_heap h t).
  assert (Hsome : forall p o, h !! p = Some o -> body_of t p = Some (body o)).
  { intros p o Ho. destruct (HB p) as [E|[E _]]; [by rewrite Ho in E|congruence]. }
  assert (Hhome : forall k p, (0 < home t k p)%nat -> body_of t' p = body_of t p).
  { intros k p Hp. destruct (HB p) as [E|[_ E]]; [done|]. specialize (E k). lia. }
  assert (Hag : forall k, agree t t' (granted (doms t k) ++ waiting (doms t k))).
  { intros k q Hq. apply (Hhome k). unfold home. apply cnt_elem in Hq. by rewrite cnt_app in Hq. }
  assert (Hw : forall p, waits t' p = waits t p).
  { intros p. destruct (HB p) as [E|[E1 E2]].
    - unfold waits, key_of. change (body_of t' p) with (body <$> h !! p). by rewrite E.
    - unfold waits, key_of. change (body_of t' p) with (body <$> h !! p). rewrite E1. cbn.
      destruct (body_of t p) as [b|]; [|done]. cbn. specialize (E2 (lk_key b)). unfold home in E2. lia. }
  split; try done.
  - intros k p Hp. pose proof (i_home _ _ Hi k p Hp) as Hk. unfold key_of in *. by rewrite (Hhome k).
  - apply Hi.
  - intros p Hp. destruct (h !! p) as [o|] eqn:E; [|done]. pose proof (i_fresh _ _ Hi p Hp) as Hf.
    apply Hsome in E. unfold body_of in E. by rewrite Hf in E.
  - intros c p. change (lockers t' c) with (lockers t c). change (heap t') with h. rewrite (i_lockers _ _ Hi).
    destruct (HB p) as [E|[E1 E2]].
    + unfold body_of in E. destruct (h !! p) as [o|], (heap t !! p) as [o'|]; cbn in E; try done. by injection E as ->.
    + rewrite E1. destruct (heap t !! p); [|done]. case_decide; [apply E2|done].
  - intros p o Ho Hp. rewrite Hw in Hp. by apply (HP p).
  - intros p Hp. rewrite Hw, HO. by apply (i_once _ _ Hi).
  - intros p Hp. rewrite HO. by apply (i_new _ _ Hi).
  - intros k p Hp. apply (i_out _ _ Hi). specialize (HF p). lia.
  - intros k. apply (exclusive_agree t); [apply (agree_app _ _ _ _ (Hag k))|apply Hi].
  - intros k. destruct (i_wake _ _ Hi k) as [Hk|Hk]; [left|right; apply (reasons_agree t); [apply Hag|done]].
    apply (promised_agree t); [|by apply HK]. intros a q Ha Hq. pose proof (gathered_token B a q Ha Hq) as Hc.
    destruct (HB q) as [E|[E _]]; [done|]. specialize (HR q). rewrite E in HR. lia.
  - intros c. rewrite HC. apply Hi.
Qed.

(** ** Dropping a reference *)

Lemma promised_drop t a A k : promised t (a :: A) k -> (forall k, a <> AGrant k) -> gathered a = [] -> promised t A k.
Proof.
  intros (b & [->|Hb]%elem_of_cons & Hk) H1 H2; [|by exists b].
  destruct Hk as [Hk|(q & Hq & _)]; [by destruct (H1 k)|]. rewrite H2 in Hq. by apply not_elem_of_nil in Hq.
Qed.

Lemma unref_inv t p i R :
  inv t (ADrop p i :: R) -> exists t', unref_lock p t = Some t' /\ inv t' R.
Proof.
  intros Hi. pose proof (i_ref _ _ Hi p) as Hp. rewrite cnt_all_cons in Hp. cbn [tokens] in Hp.
  rewrite cnt_cons, decide_True, cnt_nil in Hp by done. unfold unref_lock.
  destruct (heap t !! p) as [o|] eqn:Ho; [|lia]. destruct Hp as [Hp Hpos]. cbn [mbind option_bind].
  assert (Hother : forall q, q <> p -> cnt q (all tokens (ADrop p i :: R)) = cnt q (all tokens R)).
  { intros q Hq. rewrite cnt_all_cons. cbn [tokens]. by rewrite cnt_cons, decide_False, cnt_nil by done. }
  assert (Hgen : forall h, (forall q, q <> p -> h !! q = heap t !! q) ->
    (match h !! p with
     | Some o' => body o' = body o /\ ref o' = ref o - 1 /\ pending o' = pending o /\ ref o - 1 <> 0
     | None => ref o - 1 = 0 end) -> inv (set_heap h t) R).
  { intros h Hne Heq. apply (inv_set_heap h t (ADrop p i :: R)); try done.
    - intros q. destruct (decide (q = p)) as [->|Hq].
      + destruct (h !! p) as [o'|]; [|lia]. destruct Heq as (-> & -> & _ & Hz). split; lia.
      + rewrite Hne, <- Hother by done. apply Hi.
    - intros q. destruct (decide (q = p)) as [->|Hq]; [|left; by rewrite Hne].
      destruct (h !! p) as [o'|].
      + left. cbn. unfold body_of. rewrite Ho. cbn. by destruct Heq as (-> & _).
      + right. split; [done|]. intros k. destruct (decide (home t k p = 0)%nat) as [|Hk]; [done|].
        destruct (home_live _ _ k p Hi ltac:(lia)) as (o' & Ho' & <-). rewrite Ho in Ho'. injection Ho' as <-. lia.
    - intros q o' Hq Hw. destruct (decide (q = p)) as [->|Hqp].
      + rewrite Hq in Heq. destruct Heq as (_ & _ & -> & _). by apply (i_pend _ _ Hi p).
      + rewrite Hne in Hq by done. by apply (i_pend _ _ Hi q).
    - intros a Ha. apply (i_sound _ _ Hi). by apply list_elem_of_further.
    - intros k Hk. by apply (promised_drop t (ADrop p i)). }
  destruct (Z.eqb_spec (ref o - 1) 0) as [E|E]; eexists; (split; [reflexivity|]); apply Hgen.
  - intros q Hq. by rewrite lookup_delete_ne.
  - by rewrite lookup_delete_eq.
  - intros q Hq. by rewrite lookup_insert_ne.
  - by rewrite lookup_insert_eq.
Qed.

Definition drops (ps : list ptr) : list action := (fun p => ADrop p 0) <$> ps.

Lemma drops_tokens ps p : cnt p (all tokens (drops ps)) = cnt p ps.
Proof.
  induction ps as [|q ps IH]; [done|]. cbn [drops fmap list_fmap]. rewrite cnt_all_cons. cbn [tokens].
  rewrite (cnt_cons p q ps), (cnt_cons p q []), cnt_nil. rewrite <- IH. unfold drops. lia.
Qed.

Lemma drops_none f ps p : (forall p i, f (ADrop p i) = []) -> cnt p (all f (drops ps)) = 0%nat.
Proof. intros Hf. induction ps as [|q ps IH]; [done|]. cbn [drops fmap list_fmap]. rewrite cnt_all_cons, Hf. exact IH. Qed.

Lemma unrefs_inv ps t R : inv t (drops ps ++ R) -> exists t', unref_locks ps t = Some t' /\ inv t' R.
Proof.
  revert t. induction ps as [|p ps IH]; intros t Hi; cbn [unref_locks]; [by exists t|].
  destruct (unref_inv t p 0 (drops ps ++ R) Hi) as (t1 & -> & H1). cbn [mbind option_bind]. by apply IH.
Qed.

(** ** Answers *)

Lemma answer_inv t p r e R : inv t (AAnswer p r e :: R) -> inv (add_reply p r e t) R.
Proof.
  intros Hi. assert (Hown : forall q, cnt q (all owes (AAnswer p r e :: R)) = ((if decide (p = q) then 1 else 0) + cnt q (all owes R))%nat).
  { intros q. rewrite cnt_all_cons. cbn [owes]. rewrite cnt_cons, cnt_nil. lia. }
  assert (Hans : forall q, answers (add_reply p r e t) q = (answers t q + (if decide (p = q) then 1 else 0))%nat).
  { intros q. unfold answers, add_reply. cbn [replied]. rewrite fmap_app, cnt_app. cbn [fmap list_fmap fst]. rewrite cnt_cons, cnt_nil. lia. }
  destruct Hi as [R1 H1 O1 F1 L1 P1 N1 W1 S1 U1 X1 K1 D1]. split; try done.
  - intros q Hq. specialize (N1 q Hq). rewrite Hown in N1. rewrite Hans.
    change (waits (add_reply p r e t) q) with (waits t q). lia.
  - intros q Hq. specialize (W1 q Hq). rewrite Hown in W1. rewrite Hans. lia.
  - intros a Ha. apply S1. by apply list_elem_of_further.
  - intros k. destruct (K1 k) as [Hk|Hk]; [left|by right]. by apply (promised_drop t (AAnswer p r e)).
Qed.

Lemma asks_owes p A : (cnt p (all asks A) <= cnt p (all owes A))%nat.
Proof.
  induction A as [|a A IH]; [done|]. rewrite !cnt_all_cons.
  enough (cnt p (asks a) <= cnt p (owes a))%nat by lia. destruct a; cbn [asks owes]; rewrite ?cnt_nil; lia.
Qed.

Lemma clear_frame_inv t p A o :
  inv t A -> heap t !! p = Some o -> (waits t p + cnt p (all asks A) = 0)%nat ->
  exists t', clear_frame p t = Some t' /\ inv t' A.
Proof.
  intros Hi Ho Hw. unfold clear_frame. rewrite Ho. cbn [mbind option_bind]. eexists. split; [reflexivity|].
  apply (inv_set_heap _ t A); try done.
  - intros q. pose proof (i_ref _ _ Hi q) as Hq. destruct (decide (q = p)) as [->|Hqp].
    + rewrite lookup_insert_eq. cbn. by rewrite Ho in Hq.
    + by rewrite lookup_insert_ne.
  - intros q. left. unfold body_of. destruct (decide (q = p)) as [->|Hqp].
    + by rewrite lookup_insert_eq, Ho.
    + by rewrite lookup_insert_ne.
  - intros q o' Hq Hp. destruct (decide (q = p)) as [->|Hqp]; [lia|].
    rewrite lookup_insert_ne in Hq by done. by apply (i_pend _ _ Hi q).
  - apply Hi.
Qed.

(** ** Changing the lists of one domain *)

Definition rehome (h : gmap ptr (lock L)) (k : key) (d : dom) (ll : gmap nat (list ptr)) t : table L :=
  {| heap := h; dom_list := <[k := d]> (dom_list t); locker_list := ll; held := held t;
     inode_refs := inode_refs t; replied := replied t; next := next t |}.

Lemma doms_rehome h k d ll t k' : doms (rehome h k d ll t) k' = if decide (k' = k) then d else doms t k'.
Proof.
  unfold doms. cbn [dom_list rehome]. case_decide as Hk; [by rewrite Hk, lookup_insert_eq|by rewrite lookup_insert_ne].
Qed.

Lemma home_rehome h k d ll t k' p :
  home (rehome h k d ll t) k' p =
    if decide (k' = k) then (cnt p (granted d) + cnt p (waiting d))%nat else home t k' p.
Proof. unfold home. rewrite doms_rehome. by case_decide. Qed.

Lemma inv_rehome h k d ll t A B :
  let t' := rehome h k d ll t in
  inv t A ->
  (forall q, body <$> h !! q = body_of t q) ->
  (forall q, (0 < home t' k q)%nat -> key_of t q = Some k /\ (home t' k q <= 1)%nat) ->
  (forall q, match h !! q with
             | Some o => ref o = Z.of_nat (home t' (lk_key (body o)) q + cnt q (all tokens B)) /\ 0 < ref o
             | None => cnt q (all tokens B) = 0%nat
             end) ->
  (forall c q, cnt q (lockers t' c) =
    match h !! q with
    | Some o => if decide (lk_client (body o) = Some c) then home t' (lk_key (body o)) q else 0%nat
    | None => 0%nat
    end) ->
  (forall q o, h !! q = Some o -> (0 < waits t' q + cnt q (all asks B))%nat -> pending o = true) ->
  (forall q, (waits t' q + cnt q (all owes B) = waits t q + cnt q (all owes A))%nat) ->
  (forall a, a ∈ B -> sound a) ->
  (forall k' q, (0 < cnt q (all asked B))%nat -> home t' k' q = 0%nat) ->
  exclusive t (granted d) ->
  (promised t B k \/ reasons t (granted d) (waiting d)) ->
  (forall k', k' <> k -> promised t A k' -> promised t B k') ->
  (forall c, cnt c (all cleans B) = cnt c (all cleans A)) ->
  inv t' B.
Proof.
  intros t' Hi HB Hhome Href Hll Hpend Howes HS Hout Hexcl Hwake Hprom HC.
  assert (Hb : forall q, body_of t' q = body_of t q) by exact HB.
  assert (Hk : forall q, key_of t' q = key_of t q) by (intros q; unfold key_of; by rewrite Hb).
  assert (Hpr : forall k', promised t B k' -> promised t' B k').
  { intros k' Hp. apply (promised_agree t); [|done]. intros a q _ _. apply Hb. }
  assert (Hag : forall ps, agree t t' ps) by (intros ps q _; apply Hb).
  pose proof (doms_rehome h k d ll t) as Hd. fold t' in Hd.
  split; try done.
  - intros k' q Hq. destruct (decide (k' = k)) as [->|Hne]; [rewrite Hk; by apply Hhome|].
    unfold t' in Hq. rewrite home_rehome, decide_False in Hq by done. rewrite Hk. by apply (i_home _ _ Hi).
  - intros k' q. destruct (decide (k' = k)) as [->|Hne].
    + destruct (decide (home t' k q = 0)%nat); [lia|]. by apply Hhome; lia.
    + unfold t'. rewrite home_rehome, decide_False by done. apply Hi.
  - intros q Hq. pose proof (i_fresh _ _ Hi q Hq) as Hf. specialize (HB q). unfold body_of in HB. rewrite Hf in HB.
    change (heap t') with h. by destruct (h !! q).
  - intros q Hq. specialize (Howes q). pose proof (i_once _ _ Hi q Hq). change (answers t' q) with (answers t q). lia.
  - intros q Hq. change (answers t' q) with (answers t q). pose proof (i_new _ _ Hi q Hq) as [H1 H2]. split; [done|].
    specialize (Howes q). assert (waits t q = 0%nat) as Hw; [|lia].
    unfold waits, key_of, body_of. by rewrite (i_fresh _ _ Hi q Hq).
  - intros k'. rewrite Hd. case_decide; apply (exclusive_agree t); done || apply Hi || apply Hag.
  - intros k'. rewrite Hd. case_decide as Hkk.
    + subst k'. destruct Hwake as [Hw|Hw]; [left; by apply Hpr|right]. apply (reasons_agree t); [apply Hag|done].
    + destruct (i_wake _ _ Hi k') as [Hw|Hw]; [left; by apply Hpr, Hprom|right]. apply (reasons_agree t); [apply Hag|done].
  - intros c. rewrite HC. apply Hi.
Qed.

End steps.

(** ** No action is undefined *)

Open Scope Z_scope.

Section acts.

Context {L : Type} `{LockLaws L}.
Implicit Types (t : table L) (p q : ptr).

(** ** A lock enters the lists of its domain *)

Definition enlisted (l : L) (p : ptr) t : gmap nat (list ptr) :=
  match lk_client l with Some c => <[c := enlist p (lockers t c)]> (locker_list t) | None => locker_list t end.

Lemma enlisted_cnt l p h k d t c q :
  cnt q (lockers (rehome h k d (enlisted l p t) t) c) =
    (cnt q (lockers t c) + (if decide (lk_client l = Some c) then if decide (p = q) then 1 else 0 else 0))%nat.
Proof.
  unfold enlisted, lockers, rehome. cbn [locker_list]. destruct (lk_client l) as [c'|]; [|rewrite decide_False by done; lia].
  destruct (decide (c' = c)) as [->|Hne].
  - rewrite lookup_insert_eq, decide_True by done. cbn [from_option id]. rewrite (cnt_perm _ _ _ (enlist_perm _ _)), cnt_cons.
    unfold lockers. lia.
  - rewrite lookup_insert_ne by done. rewrite decide_False by congruence. lia.
Qed.

Lemma asked_owes p A : (cnt p (all asked A) <= cnt p (all owes A))%nat.
Proof.
  induction A as [|a A IH]; [done|]. rewrite !cnt_all_cons.
  enough (cnt p (asked a) <= cnt p (owes a))%nat by lia. destruct a; cbn [asked owes]; rewrite ?cnt_nil; lia.
Qed.

(** A pending request is counted once. *)

Lemma lock_once t b p R :
  inv t (ALock b p :: R) ->
  waits t p = 0%nat /\ cnt p (all owes R) = 0%nat /\ (forall k, home t k p = 0%nat) /\
  exists o, heap t !! p = Some o /\ pending o = true.
Proof.
  intros Hi. assert (Ht : (0 < cnt p (all tokens (ALock b p :: R)))%nat).
  { rewrite cnt_all_cons. cbn [tokens]. rewrite cnt_cons, decide_True by done. lia. }
  destruct (token_live _ _ p Hi Ht) as [o Ho].
  assert (Hlt : (p < next t)%nat).
  { destruct (decide (p < next t)%nat) as [|Hge]; [done|]. rewrite (i_fresh _ _ Hi) in Ho by lia. done. }
  pose proof (i_once _ _ Hi p Hlt) as Hone. rewrite cnt_all_cons in Hone. cbn [owes] in Hone.
  rewrite cnt_cons, decide_True, cnt_nil in Hone by done. split_and!; [lia|lia| |].
  - intros k. apply (i_out _ _ Hi). rewrite cnt_all_cons. cbn [asked]. rewrite cnt_cons, decide_True by done. lia.
  - exists o. split; [done|]. apply (i_pend _ _ Hi p); [done|]. rewrite cnt_all_cons. cbn [asks].
    rewrite cnt_cons, decide_True by done. lia.
Qed.

Lemma lock_tokens b p R q :
  cnt q (all tokens (ALock b p :: R)) = ((if decide (p = q) then 1 else 0) + cnt q (all tokens R))%nat.
Proof. rewrite cnt_all_cons. cbn [tokens]. rewrite cnt_cons, cnt_nil. lia. Qed.

Lemma body_update t p o o' q :
  heap t !! p = Some o -> body o' = body o -> body <$> <[p := o']> (heap t) !! q = body_of t q.
Proof.
  intros Ho Hb. unfold body_of. destruct (decide (q = p)) as [->|Hq].
  - rewrite lookup_insert_eq, Ho. cbn. by rewrite Hb.
  - by rewrite lookup_insert_ne.
Qed.

Lemma enter_inv t b p o o' d R B :
  inv t (ALock b p :: R) -> heap t !! p = Some o -> body o' = body o ->
  (forall q, (cnt q (granted d) + cnt q (waiting d) = home t (lk_key (body o)) q + if decide (p = q) then 1 else 0)%nat) ->
  (forall q, q <> p -> cnt q (waiting d) = cnt q (waiting (doms t (lk_key (body o))))) ->
  ref o' = Z.of_nat (1 + cnt p (all tokens B)) ->
  (forall q, q <> p -> cnt q (all tokens B) = cnt q (all tokens R)) ->
  (cnt p (waiting d) + cnt p (all owes B) = 1)%nat ->
  (forall q, q <> p -> cnt q (all owes B) = cnt q (all owes R)) ->
  (cnt p (waiting d) = 0%nat \/ pending o' = true) -> cnt p (all asks B) = 0%nat ->
  (forall q, (cnt q (all asks B) <= cnt q (all asks R))%nat) ->
  (forall q, (cnt q (all asked B) <= cnt q (all asked R))%nat) ->
  (forall c, cnt c (all cleans B) = cnt c (all cleans R)) ->
  (forall a, a ∈ B -> sound a) ->
  exclusive t (granted d) ->
  (promised t B (lk_key (body o)) \/ reasons t (granted d) (waiting d)) ->
  (forall k, promised t R k -> promised t B k) ->
  inv (rehome (<[p := o']> (heap t)) (lk_key (body o)) d (enlisted (body o) p t) t) B.
Proof.
  intros Hi Ho Hbody Hcnt Hwne Href Htne Hone Hone' Hpend Hasks Hle Hlea Hcl HS Hex Hw Hpr.
  destruct (lock_once _ _ _ _ Hi) as (W1 & W2 & W3 & _). set (k := lk_key (body o)) in *.
  assert (Hko : key_of t p = Some k) by (apply key_of_live; by exists o).
  assert (Hh : forall k' q, home (rehome (<[p := o']> (heap t)) k d (enlisted (body o) p t) t) k' q =
    (home t k' q + if decide (k' = k) then if decide (p = q) then 1 else 0 else 0)%nat).
  { intros k' q. rewrite home_rehome. destruct (decide (k' = k)) as [->|]; [apply Hcnt|lia]. }
  assert (Hbd : forall q, body <$> <[p := o']> (heap t) !! q = body_of t q) by (intros q; by apply (body_update t p o)).
  assert (Hwt : forall q, waits (rehome (<[p := o']> (heap t)) k d (enlisted (body o) p t) t) q =
    if decide (q = p) then cnt p (waiting d) else waits t q).
  { intros q. unfold waits, key_of. change (body_of (rehome _ _ _ _ _) q) with (body <$> <[p := o']> (heap t) !! q).
    rewrite Hbd. fold (key_of t q). case_decide as Hq.
    - subst q. rewrite Hko, doms_rehome. by rewrite decide_True.
    - destruct (key_of t q) as [k'|] eqn:Hk'; [|done]. rewrite doms_rehome. case_decide; [|done]. subst k'. by apply Hwne. }
  assert (Htok : forall q, cnt q (all tokens (ALock b p :: R)) = ((if decide (p = q) then 1 else 0) + cnt q (all tokens R))%nat)
    by (intros q; apply lock_tokens).
  apply (inv_rehome _ _ _ _ _ (ALock b p :: R)); try done.
  - intros q Hq. rewrite Hh, decide_True in Hq |- * by done. pose proof (i_one _ _ Hi k q). pose proof (W3 k).
    destruct (decide (p = q)) as [<-|Hpq]; [split; [done|lia]|]. split; [apply (i_home _ _ Hi)|]; lia.
  - intros q. pose proof (i_ref _ _ Hi q) as Hr. rewrite Htok in Hr. destruct (decide (q = p)) as [->|Hq].
    + rewrite lookup_insert_eq, Hh, Hbody. rewrite !decide_True by done. rewrite (W3 _). lia.
    + rewrite lookup_insert_ne by done. rewrite decide_False in Hr by done. rewrite Htne by done.
      destruct (heap t !! q) as [oq|]; [|lia]. rewrite Hh, (decide_False (P := p = q)) by done.
      destruct (decide _); lia.
  - intros c q. rewrite enlisted_cnt, (i_lockers _ _ Hi). destruct (decide (q = p)) as [->|Hq].
    + rewrite lookup_insert_eq, Ho, Hbody. case_decide; [|done]. rewrite Hh. by rewrite !decide_True by done.
    + rewrite lookup_insert_ne by done. rewrite (decide_False (P := p = q)) by done.
      destruct (heap t !! q) as [oq|]; [|by case_decide]. rewrite Hh, (decide_False (P := p = q)) by done.
      repeat case_decide; lia.
  - intros q oq Hq Hp. rewrite Hwt in Hp. destruct (decide (q = p)) as [->|Hqp].
    + rewrite lookup_insert_eq in Hq. injection Hq as <-. destruct Hpend as [Hz|Hz]; [lia|done].
    + rewrite lookup_insert_ne in Hq by done. apply (i_pend _ _ Hi q); [done|].
      rewrite cnt_all_cons. specialize (Hle q). lia.
  - intros q. rewrite Hwt, cnt_all_cons. cbn [owes]. rewrite cnt_cons, cnt_nil. destruct (decide (q = p)) as [->|Hq].
    + rewrite decide_True by done. lia.
    + rewrite decide_False by done. rewrite Hone' by done. lia.
  - intros k' q Hq. specialize (Hlea q). rewrite Hh. destruct (decide (p = q)) as [<-|Hpq].
    + pose proof (asked_owes p R). lia.
    + rewrite (i_out _ _ Hi); [by case_decide|]. rewrite cnt_all_cons. lia.
  - intros k' _ Hp. apply Hpr. by apply (promised_drop t (ALock b p)).
Qed.

(** ** Why a lock waits *)

Lemma obstructed_more t l g g' w w' :
  (forall q, q ∈ g -> q ∈ g') -> (forall q, q ∈ w -> q ∈ w') ->
  obstructed conflict same_owner t l g w -> obstructed conflict same_owner t l g' w'.
Proof. intros Hg Hw [(q & Hq & Ho)|(q & Hq & Ho)]; [left|right]; exists q; auto. Qed.

Lemma reasons_grant t p g w : reasons t g w -> reasons t (p :: g) w.
Proof.
  intros Hr w1 q w2 l Hw Hl. apply (obstructed_more t l g _ w1); [|done|by apply (Hr w1 q w2)].
  intros r Hin. by apply list_elem_of_further.
Qed.

Lemma reasons_queue t p l g w :
  reasons t g w -> body_of t p = Some l -> obstructed conflict same_owner t l g w -> reasons t g (w ++ [p]).
Proof.
  intros Hr Hp Ho w1 q w2 l' Hw Hl. destruct w2 as [|x w2] using rev_ind.
  - apply app_inj_tail in Hw as [-> ->]. rewrite Hp in Hl. by injection Hl as <-.
  - rewrite app_comm_cons, app_assoc in Hw. apply app_inj_tail in Hw as [-> _]. by apply (Hr w1 q w2).
Qed.

Lemma exclusive_grant t p l g :
  exclusive t g -> body_of t p = Some l -> (forall q, q ∈ g -> ~ obstructs conflict same_owner t l q) ->
  exclusive t (p :: g).
Proof.
  intros He Hp Hno q r lq lr [->|Hq]%elem_of_cons [->|Hr]%elem_of_cons Hlq Hlr Hc; [by right| | |by apply (He q r lq lr)].
  - rewrite Hp in Hlq. injection Hlq as <-. left. destruct (same_owner l lr) eqn:E; [done|].
    destruct (Hno r Hr). by exists lr.
  - rewrite Hp in Hlr. injection Hlr as <-. left. rewrite same_owner_sym. destruct (same_owner l lq) eqn:E; [done|].
    destruct (Hno q Hq). exists lq. rewrite conflict_sym. done.
Qed.

(** ** Requests for locks *)

Lemma cnt_snoc q w p : cnt q (w ++ [p]) = (cnt q w + if decide (p = q) then 1 else 0)%nat.
Proof. rewrite cnt_app, cnt_cons, cnt_nil. lia. Qed.

Lemma wake_kept t b p R k g w :
  inv t (ALock b p :: R) -> g = granted (doms t k) -> w = waiting (doms t k) -> promised t R k \/ reasons t g w.
Proof.
  intros Hi -> ->. destruct (i_wake _ _ Hi k) as [Hk|Hk]; [left|by right]. by apply (promised_drop t (ALock b p)).
Qed.

Lemma queue_inv t b p o R :
  inv t (ALock b p :: R) -> heap t !! p = Some o ->
  let k := lk_key (body o) in
  obstructed conflict same_owner t (body o) (granted (doms t k)) (waiting (doms t k)) ->
  inv (rehome (heap t) k {| granted := granted (doms t k); waiting := waiting (doms t k) ++ [p] |}
         (enlisted (body o) p t) t) R.
Proof.
  intros Hi Ho k Hob. destruct (lock_once _ _ _ _ Hi) as (W1 & W2 & W3 & o' & Ho' & Hp').
  rewrite Ho in Ho'. injection Ho' as <-.
  assert (Hw : cnt p (waiting (doms t k)) = 0%nat) by (specialize (W3 k); unfold home in W3; lia).
  pose proof (i_ref _ _ Hi p) as Hr. rewrite Ho, cnt_all_cons, (W3 _) in Hr. cbn [tokens] in Hr.
  rewrite cnt_cons, decide_True, cnt_nil in Hr by done.
  rewrite <- (insert_id (heap t) p o Ho). apply (enter_inv t b p o o _ R R); try done; cbn [granted waiting].
  - intros q. rewrite cnt_snoc. unfold home. fold k. lia.
  - intros q Hq. rewrite cnt_snoc, decide_False by done. fold k. lia.
  - lia.
  - rewrite cnt_snoc, decide_True by done. lia.
  - by right.
  - pose proof (asks_owes p R). lia.
  - intros a Ha. apply (i_sound _ _ Hi). by apply list_elem_of_further.
  - apply Hi.
  - fold k. destruct (wake_kept t b p R k _ _ Hi eq_refl eq_refl) as [Hk|Hk]; [by left|right].
    apply (reasons_queue t p (body o)); [done|unfold body_of; by rewrite Ho|done].
Qed.

Lemma grant_inv t b p o R :
  inv t (ALock b p :: R) -> heap t !! p = Some o ->
  let k := lk_key (body o) in
  takes conflict same_owner t (body o) (granted (doms t k)) (waiting (doms t k)) ->
  inv (rehome (<[p := {| body := body o; ref := ref o + 1; pending := false |}]> (heap t)) k
         {| granted := p :: granted (doms t k); waiting := waiting (doms t k) |}
         (enlisted (body o) p t) t) (ADrop p 0 :: AAnswer p 0 0 :: R).
Proof.
  intros Hi Ho k [Htk _]. destruct (lock_once _ _ _ _ Hi) as (W1 & W2 & W3 & _).
  assert (Hw : cnt p (waiting (doms t k)) = 0%nat) by (specialize (W3 k); unfold home in W3; lia).
  pose proof (i_ref _ _ Hi p) as Hr. rewrite Ho, cnt_all_cons, (W3 _) in Hr. cbn [tokens] in Hr.
  rewrite cnt_cons, decide_True, cnt_nil in Hr by done.
  assert (Htok : forall q, cnt q (all tokens (ADrop p 0 :: AAnswer p 0 0 :: R)) =
    ((if decide (p = q) then 1 else 0) + cnt q (all tokens R))%nat).
  { intros q. rewrite !cnt_all_cons. cbn [tokens]. rewrite cnt_cons, cnt_nil. lia. }
  assert (Hown : forall q, cnt q (all owes (ADrop p 0 :: AAnswer p 0 0 :: R)) =
    ((if decide (p = q) then 1 else 0) + cnt q (all owes R))%nat).
  { intros q. rewrite !cnt_all_cons. cbn [owes]. rewrite cnt_cons, cnt_nil. lia. }
  apply (enter_inv t b p o _ _ R); try done; cbn [granted waiting ref pending].
  - intros q. rewrite cnt_cons. unfold home. fold k. lia.
  - rewrite Htok, decide_True by done. lia.
  - intros q Hq. by rewrite Htok, decide_False by done.
  - rewrite Hown, decide_True by done. lia.
  - intros q Hq. by rewrite Hown, decide_False by done.
  - by left.
  - rewrite !cnt_all_cons. cbn [asks]. rewrite cnt_nil. pose proof (asks_owes p R). lia.
  - intros a [->|[->|Ha]%elem_of_cons]%elem_of_cons; [done..|]. apply (i_sound _ _ Hi). by apply list_elem_of_further.
  - apply (exclusive_grant t p (body o)); [apply Hi|unfold body_of; by rewrite Ho|done].
  - fold k. destruct (wake_kept t b p R k _ _ Hi eq_refl eq_refl) as [(a & Ha & Hk)|Hk].
    + left. exists a. split; [|done]. by do 2 apply list_elem_of_further.
    + right. by apply reasons_grant.
  - intros k' (a & Ha & Hk). exists a. split; [|done]. by do 2 apply list_elem_of_further.
Qed.

Lemma body_of_heap t p o : heap t !! p = Some o -> body_of t p = Some (body o).
Proof. intros Ho. unfold body_of. by rewrite Ho. Qed.

(** The relabelling of a request whose lock is not kept. *)

Lemma refused_inv t b p i r e R :
  inv t (ALock b p :: R) -> inv t (ADrop p i :: AInodeUnref i :: AAnswer p r e :: R).
Proof.
  intros Hi. apply (inv_relabel t (ALock b p :: R)); [done|..].
  1-5: intros q; rewrite !cnt_all_cons; cbn [tokens owes asks asked cleans]; rewrite ?cnt_nil; lia.
  - intros a [->|[->|[->|Ha]%elem_of_cons]%elem_of_cons]%elem_of_cons; [done..|].
    apply (i_sound _ _ Hi). by apply list_elem_of_further.
  - intros k Hk. apply promised_drop in Hk as (a & Ha & Hk); [|done..]. exists a. split; [|done].
    by do 3 apply list_elem_of_further.
Qed.

Lemma lock_act t b p R :
  inv t (ALock b p :: R) -> exists t' acts, exec (ALock b p) t = Some (t', acts) /\ inv t' (acts ++ R).
Proof.
  intros Hi. destruct (lock_once _ _ _ _ Hi) as (_ & _ & _ & o & Ho & _). pose proof (body_of_heap t p o Ho) as Hb.
  cbn [exec]. rewrite Hb. cbn [mbind option_bind]. rewrite lock_law, Hb. cbn [mbind option_bind].
  destruct (lists_live t _ (lk_key (body o)) Hi) as [Lg Lw].
  destruct (try_law b p t (body o) Hb Lg Lw) as [(Htk & t1 & Ht1 & ->)|[Hob ->]]; cbn [mbind option_bind].
  - unfold ref_lock in Ht1. rewrite Ho in Ht1. cbn [mbind option_bind] in Ht1. injection Ht1 as <-.
    rewrite Z.eqb_refl. cbn [orb]. unfold clear_frame. cbn [heap grant_in set_dom set_heap].
    rewrite lookup_insert_eq. cbn [mbind option_bind body ref pending].
    destruct (unref_inv _ p 0 _ (grant_inv t b p o R Hi Ho Htk)) as (t4 & Ht4 & Hi4).
    match goal with |- context [unref_lock p ?s] => replace s with
      (rehome (<[p := {| body := body o; ref := ref o + 1; pending := false |}]> (heap t)) (lk_key (body o))
         {| granted := p :: granted (doms t (lk_key (body o))); waiting := waiting (doms t (lk_key (body o))) |}
         (enlisted (body o) p t) t) end.
    + rewrite Ht4. cbn. eexists _, _. split; [reflexivity|]. exact Hi4.
    + unfold rehome, enlisted, set_lockers, set_heap, grant_in, set_dom. destruct (lk_client (body o)); cbn;
        by rewrite insert_insert_eq.
  - change (- EAGAIN =? 0) with false. change (- EAGAIN =? - EAGAIN) with true. cbn. destruct b; cbn [andb].
    + eexists _, _. split; [reflexivity|]. cbn [app].
      replace (match lk_client (body o) with Some c => _ | None => _ end) with
        (rehome (heap t) (lk_key (body o)) {| granted := granted (doms t (lk_key (body o)));
           waiting := waiting (doms t (lk_key (body o))) ++ [p] |} (enlisted (body o) p t) t);
        [by apply (queue_inv t true)|]. unfold rehome, enlisted, set_lockers, queue_in, set_dom. by destruct (lk_client (body o)).
    + destruct (unref_inv t p _ _ (refused_inv t false p (lk_inode (body o)) (-1) EAGAIN R Hi)) as (t4 & Ht4 & Hi4).
      replace (match lk_client (body o) with Some c => t | None => t end) with t by (by destruct (lk_client (body o))).
      rewrite Ht4. cbn. eexists _, _. split; [reflexivity|]. exact Hi4.
Qed.

End acts.
