(* ===== verification/DomSafe.v ===== *)
(** * Inode and entry locks: unlocking, cleaning up and granting *)

From Stdlib Require Import ZArith Lia Bool String List.
From stdpp Require Import base list gmap strings.
From S2P Require Import Prelude Locks DomTable DomSpec DomInv DomActs.

Open Scope Z_scope.

Section leave.

Context {L : Type} `{LockLaws L}.
Implicit Types (t : table L) (p q : ptr).

(** ** A lock leaves the lists of its domain *)

Definition delisted (l : L) (q : ptr) t : gmap nat (list ptr) :=
  match lk_client l with Some c => <[c := unlink q (lockers t c)]> (locker_list t) | None => locker_list t end.

Lemma delisted_cnt l q h k d t c r :
  cnt r (lockers (rehome h k d (delisted l q t) t) c) =
    if decide (lk_client l = Some c /\ r = q) then 0%nat else cnt r (lockers t c).
Proof.
  unfold delisted, lockers, rehome. cbn [locker_list]. destruct (lk_client l) as [c'|]; [|by rewrite decide_False by (by intros [? _])].
  destruct (decide (c' = c)) as [->|Hne].
  - rewrite lookup_insert_eq. cbn [from_option id]. rewrite cnt_unlink. repeat case_decide; done || (exfalso; tauto).
  - rewrite lookup_insert_ne by done. rewrite decide_False by (intros [? _]; congruence). done.
Qed.

Lemma leave_inv t A q o d B :
  inv t A -> heap t !! q = Some o ->
  let k := lk_key (body o) in
  (0 < home t k q)%nat ->
  (forall r, cnt r (granted d) = if decide (r = q) then 0%nat else cnt r (granted (doms t k))) ->
  (forall r, cnt r (waiting d) = if decide (r = q) then 0%nat else cnt r (waiting (doms t k))) ->
  (forall r, cnt r (all tokens B) = (cnt r (all tokens A) + if decide (r = q) then 1 else 0)%nat) ->
  (forall r, cnt r (all owes B) = (cnt r (all owes A) + if decide (r = q) then waits t q else 0)%nat) ->
  (forall r, (cnt r (all asks B) <= cnt r (all asks A) + if decide (r = q) then waits t q else 0)%nat) ->
  (forall r, (cnt r (all asked B) <= cnt r (all asked A))%nat) ->
  (forall c, cnt c (all cleans B) = cnt c (all cleans A)) ->
  (forall a, a ∈ B -> sound a) -> promised t B k -> (forall k', promised t A k' -> promised t B k') ->
  inv (rehome (heap t) k d (delisted (body o) q t) t) B.
Proof.
  intros Hi Ho k Hq Hg Hw Htok Hown Hask Hle Hcl HS Hpk Hpr.
  assert (Hkq : key_of t q = Some k) by (apply key_of_live; by exists o).
  set (t' := rehome (heap t) k d (delisted (body o) q t) t).
  assert (Hh : forall k' r, home t' k' r = if decide (k' = k /\ r = q) then 0%nat else home t k' r).
  { intros k' r. unfold t'. rewrite home_rehome. destruct (decide (k' = k)) as [->|Hne].
    - unfold home. rewrite Hg, Hw. repeat case_decide; done || (exfalso; tauto) || lia.
    - rewrite decide_False; [done|]. tauto. }
  assert (Hother : forall k', k' <> k -> home t k' q = 0%nat).
  { intros k' Hk'. destruct (decide (home t k' q = 0)%nat) as [|Hz]; [done|].
    pose proof (i_home _ _ Hi k' q ltac:(lia)). congruence. }
  assert (Hwt : forall r, waits t' r = if decide (r = q) then 0%nat else waits t r).
  { intros r. unfold waits. change (key_of t' r) with (key_of t r). destruct (key_of t r) as [k'|] eqn:Hk'; [|by case_decide].
    unfold t'. rewrite doms_rehome. case_decide as E; [subst k'; apply Hw|]. case_decide; [|done]. congruence. }
  apply (inv_rehome _ _ _ _ _ A); fold t'; try done.
  - intros r Hr. rewrite Hh in Hr |- *. case_decide; [lia|]. split; [by apply (i_home _ _ Hi)|apply Hi].
  - intros r. pose proof (i_ref _ _ Hi r) as Hr. rewrite Htok. destruct (decide (r = q)) as [->|Hrq].
    + rewrite Ho in Hr |- *. rewrite Hh, decide_True by done. pose proof (i_one _ _ Hi k q). fold k in Hr. lia.
    + destruct (heap t !! r); [|lia]. rewrite Hh, decide_False by tauto. lia.
  - intros c r. unfold t' at 1. rewrite delisted_cnt. rewrite (i_lockers _ _ Hi). destruct (decide (r = q)) as [->|Hrq].
    + rewrite Ho. rewrite Hh. fold k. repeat case_decide; done || (exfalso; tauto).
    + rewrite decide_False by tauto. destruct (heap t !! r); [|done]. rewrite Hh, (decide_False (P := _ /\ r = q)) by tauto. done.
  - intros r o' Ho' Hp. rewrite Hwt in Hp. specialize (Hask r). apply (i_pend _ _ Hi r); [done|].
    destruct (decide (r = q)) as [->|]; lia.
  - intros r. rewrite Hwt, Hown. destruct (decide (r = q)) as [->|]; lia.
  - intros k' r Hr. rewrite Hh. case_decide; [done|]. apply (i_out _ _ Hi). specialize (Hle r). lia.
  - intros p r l l' Hp Hr. assert (Hsub : forall x, x ∈ granted d -> x ∈ granted (doms t k)).
    { intros x Hx. apply cnt_elem in Hx. apply cnt_elem. rewrite Hg in Hx. case_decide; [lia|done]. }
    apply (i_excl _ _ Hi k); auto.
  - by left.
  - intros k' _. apply Hpr.
Qed.

(** A granted lock is released, and somebody is going to grant others. *)

Lemma home_split t A k q : inv t A -> (0 < cnt q (granted (doms t k)))%nat -> cnt q (waiting (doms t k)) = 0%nat.
Proof. intros Hi Hq. pose proof (i_one _ _ Hi k q) as Ho. unfold home in Ho. lia. Qed.

Lemma release_inv t A q o i :
  inv t A -> heap t !! q = Some o ->
  let k := lk_key (body o) in
  (0 < cnt q (granted (doms t k)))%nat ->
  inv (rehome (heap t) k {| granted := unlink q (granted (doms t k)); waiting := waiting (doms t k) |}
         (delisted (body o) q t) t) (ADrop q i :: AGrant k :: A).
Proof.
  intros Hi Ho k Hq. pose proof (home_split t A k q Hi Hq) as Hw.
  assert (Hkq : key_of t q = Some k) by (apply key_of_live; by exists o).
  assert (Hwt : waits t q = 0%nat) by (by rewrite (waits_home t k q Hkq)).
  apply (leave_inv t A q o); try done; cbn [granted waiting].
  - fold k. unfold home. lia.
  - intros r. apply cnt_unlink.
  - intros r. fold k. case_decide; [by subst|done].
  - intros r. rewrite !cnt_all_cons. cbn [tokens]. rewrite cnt_cons, cnt_nil. repeat case_decide; subst; done || lia.
  - intros r. rewrite !cnt_all_cons. cbn [owes]. rewrite cnt_nil, Hwt. case_decide; lia.
  - intros r. rewrite !cnt_all_cons. cbn [asks]. rewrite cnt_nil. lia.
  - intros a [->|[->|Ha]%elem_of_cons]%elem_of_cons; [done..|]. by apply (i_sound _ _ Hi).
  - exists (AGrant k). split; [apply list_elem_of_further, list_elem_of_here|by left].
  - intros k' (a & Ha & Hk). exists a. split; [by do 2 apply list_elem_of_further|done].
Qed.

(** A waiting lock is taken away, to be answered by who took it. *)

Lemma withdraw_inv t A q o :
  inv t A -> heap t !! q = Some o ->
  let k := lk_key (body o) in
  (0 < cnt q (waiting (doms t k)))%nat ->
  inv (rehome (heap t) k {| granted := granted (doms t k); waiting := unlink q (waiting (doms t k)) |}
         (delisted (body o) q t) t) (ACleaned [q] [] :: A).
Proof.
  intros Hi Ho k Hq. assert (Hkq : key_of t q = Some k) by (apply key_of_live; by exists o).
  pose proof (i_one _ _ Hi k q) as Hone. unfold home in Hone.
  assert (Hwt : waits t q = 1%nat) by (rewrite (waits_home t k q Hkq); lia).
  apply (leave_inv t A q o); try done; cbn [granted waiting].
  - fold k. unfold home. lia.
  - intros r. fold k. case_decide; [subst; lia|done].
  - intros r. apply cnt_unlink.
  - intros r. rewrite !cnt_all_cons. cbn [tokens app]. rewrite cnt_cons, cnt_nil. repeat case_decide; subst; done || lia.
  - intros r. rewrite !cnt_all_cons. cbn [owes]. rewrite cnt_cons, cnt_nil, Hwt. repeat case_decide; subst; done || lia.
  - intros r. rewrite !cnt_all_cons. cbn [asks]. rewrite cnt_cons, cnt_nil, Hwt. repeat case_decide; subst; done || lia.
  - intros a [->|Ha]%elem_of_cons; [done|]. by apply (i_sound _ _ Hi).
  - exists (ACleaned [q] []). split; [apply list_elem_of_here|]. right. exists q. split; [apply list_elem_of_here|done].
  - intros k' (a & Ha & Hk). exists a. split; [by apply list_elem_of_further|done].
Qed.

(** ** Granting the locks that wait *)

Definition bump (new : list ptr) (q : ptr) (o : lock L) : lock L :=
  {| body := body o; ref := ref o + Z.of_nat (cnt q new); pending := pending o |}.

Lemma bump_nil t q : heap t !! q = bump [] q <$> heap t !! q.
Proof.
  destruct (heap t !! q) as [o|]; [|done]. cbn. unfold bump. rewrite cnt_nil. f_equal. destruct o. cbn. f_equal. lia.
Qed.

Lemma bump_snoc t p o new q :
  heap t !! p = Some o ->
  bump new q <$> <[p := {| body := body o; ref := ref o + 1; pending := pending o |}]> (heap t) !! q =
    bump (new ++ [p]) q <$> heap t !! q.
Proof.
  intros Ho. unfold bump. rewrite cnt_snoc. destruct (decide (q = p)) as [->|Hq].
  - rewrite lookup_insert_eq, Ho. cbn. rewrite decide_True by done. do 2 f_equal. lia.
  - rewrite lookup_insert_ne by done. rewrite decide_False by done. destruct (heap t !! q); [|done]. cbn. do 2 f_equal. lia.
Qed.

Lemma rehome_same t k d : dom_list t !! k = Some d -> rehome (heap t) k d (locker_list t) t = t.
Proof. intros Hd. unfold rehome. rewrite (insert_id _ _ _ Hd). by destruct t. Qed.

Lemma granted_table t p o k d :
  heap t !! p = Some o -> dom_list t !! k = Some d ->
  let t2 := grant_in k p (set_heap (<[p := {| body := body o; ref := ref o + 1; pending := pending o |}]> (heap t)) t) in
  (forall q, body_of t2 q = body_of t q) /\ (forall ps, live_all t ps -> live_all t2 ps) /\
  dom_list t2 !! k = Some {| granted := p :: granted d; waiting := waiting d |}.
Proof.
  intros Ho Hd t2. split_and!.
  - intros q. unfold body_of. cbn [heap t2 grant_in set_dom set_heap]. destruct (decide (q = p)) as [->|Hq].
    + by rewrite lookup_insert_eq, Ho.
    + by rewrite lookup_insert_ne.
  - intros ps Hps q Hq. destruct (Hps q Hq) as [oq Hoq]. cbn [heap t2 grant_in set_dom set_heap].
    destruct (decide (q = p)) as [->|Hqp]; [rewrite lookup_insert_eq; by eexists|].
    rewrite lookup_insert_ne by done. by eexists.
  - cbn [dom_list t2 grant_in set_dom set_heap]. rewrite lookup_insert_eq. unfold doms. cbn. by rewrite Hd.
Qed.

Lemma grant_loop_spec k todo gl t d :
  dom_list t !! k = Some d ->
  (forall p, p ∈ todo -> key_of t p = Some k) ->
  live_all t (granted d) -> live_all t (waiting d) -> exclusive t (granted d) -> reasons t (granted d) (waiting d) ->
  exists new kept h,
    grant_loop (try_lock true) todo gl t =
      Some (new ++ gl, rehome h k {| granted := new ++ granted d; waiting := waiting d ++ kept |} (locker_list t) t) /\
    todo ≡ₚ new ++ kept /\ (forall q, h !! q = bump new q <$> heap t !! q) /\
    exclusive t (new ++ granted d) /\ reasons t (new ++ granted d) (waiting d ++ kept).
Proof.
  revert gl t d. induction todo as [|p todo IH]; intros gl t d Hd Hkey Lg Lw Hex Hre; cbn [grant_loop].
  { exists [], [], (heap t). rewrite app_nil_r. cbn [app]. split_and!; try done.
    - rewrite rehome_same; [done|]. by destruct d.
    - intros q. apply bump_nil. }
  destruct (proj1 (key_of_live t p k) (Hkey p (list_elem_of_here _ _))) as (o & Ho & Hk).
  pose proof (body_of_heap t p o Ho) as Hb.
  assert (Hdk : doms t (lk_key (body o)) = d) by (unfold doms; by rewrite Hk, Hd).
  destruct (try_law true p t (body o) Hb) as [([Htk _] & t1 & Ht1 & ->)|[Hob ->]]; rewrite ?Hdk in *; try done;
    cbn [mbind option_bind].
  - rewrite Hk. unfold ref_lock in Ht1. rewrite Ho in Ht1. cbn [mbind option_bind] in Ht1. injection Ht1 as <-.
    set (t1 := set_heap _ t). set (t2 := grant_in k p t1).
    destruct (granted_table t p o k d Ho Hd) as (Hb2 & Hl2 & Hd2). fold t1 t2 in Hb2, Hl2, Hd2.
    assert (Hag : forall ps, agree t2 t ps) by (intros ps q _; by rewrite Hb2).
    assert (Hag' : forall ps, agree t t2 ps) by (intros ps q _; by rewrite Hb2).
    destruct (IH (p :: gl) t2 _ Hd2) as (new & kept & h & E & Hperm & Hh & Hex' & Hre').
    + intros q Hq. unfold key_of. rewrite Hb2. apply Hkey. by apply list_elem_of_further.
    + apply Hl2. intros q [->|Hq]%elem_of_cons; [by eexists|by apply Lg].
    + by apply Hl2.
    + apply (exclusive_agree t); [apply Hag'|]. by apply (exclusive_grant t p (body o)).
    + apply (reasons_agree t); [apply Hag'|]. by apply reasons_grant.
    + cbn [granted waiting] in *. exists (new ++ [p]), kept, h. rewrite Z.eqb_refl, E. rewrite <- !app_assoc. cbn [app].
      split_and!.
      * do 2 f_equal. unfold rehome. cbn [dom_list t2 t1 grant_in set_dom set_heap locker_list held inode_refs replied next].
        by rewrite insert_insert_eq.
      * rewrite Hperm. by rewrite Permutation_middle.
      * intros q. rewrite Hh. by apply bump_snoc.
      * apply (exclusive_agree t2); [apply Hag|done].
      * apply (reasons_agree t2); [apply Hag|done].
  - change (- EAGAIN =? 0) with false. cbn match. rewrite Hk. set (t2 := queue_in k p t).
    assert (Hd2 : dom_list t2 !! k = Some {| granted := granted d; waiting := waiting d ++ [p] |}).
    { cbn [dom_list t2 queue_in set_dom]. rewrite lookup_insert_eq. unfold doms. by rewrite Hd. }
    destruct (IH gl t2 _ Hd2) as (new & kept & h & E & Hperm & Hh & Hex' & Hre'); cbn [granted waiting] in *; try done.
    + intros q Hq. apply Hkey. by apply list_elem_of_further.
    + intros q [Hq|Hq]%elem_of_app; [by apply Lw|]. apply list_elem_of_singleton in Hq as ->. by eexists.
    + by apply (reasons_queue t p (body o)).
    + exists new, (p :: kept), h. rewrite E. rewrite <- app_assoc in *. cbn [app] in *. split_and!; try done.
      * do 2 f_equal. unfold rehome. cbn [dom_list t2 queue_in set_dom locker_list held inode_refs replied next].
        by rewrite insert_insert_eq.
      * rewrite Hperm. by rewrite Permutation_middle.
Qed.

End leave.

(** ** All actions *)

Open Scope Z_scope.

(** Counts of what relabelled actions hold. *)

Ltac recount :=
  intros; rewrite ?cnt_all_cons, ?cnt_all_app, ?cnt_all_cons, ?cnt_all_nil;
  cbn [tokens owes asks asked cleans gathered app]; rewrite ?cnt_app, ?cnt_cons, ?cnt_nil, ?cnt_app, ?cnt_nil;
  cbn [tokens owes asks asked cleans]; lia.

Section safe.

Context {L : Type} `{LockLaws L}.
Implicit Types (t : table L) (p q : ptr).

Lemma sound_tail t a A B :
  inv t (a :: A) -> (forall b, b ∈ B -> sound b) -> forall b, b ∈ B ++ A -> sound b.
Proof.
  intros Hi HB b [Hb|Hb]%elem_of_app; [by apply HB|]. apply (i_sound _ _ Hi). by apply list_elem_of_further.
Qed.

Lemma promised_tail t A B k : promised t A k -> promised t (B ++ A) k.
Proof. intros (a & Ha & Hk). exists a. split; [apply elem_of_app; by right|done]. Qed.

(** A promise may be kept by another action. *)

Lemma promised_via t a A B k :
  (promises t k a -> promised t (B ++ A) k) -> promised t (a :: A) k -> promised t (B ++ A) k.
Proof.
  intros Ha (b & [->|Hb]%elem_of_cons & Hk); [by apply Ha|]. exists b. split; [apply elem_of_app; by right|done].
Qed.

Lemma gathered_promise t a A k q : a ∈ A -> q ∈ gathered a -> key_of t q = Some k -> promised t A k.
Proof. intros Ha Hq Hk. exists a. split; [done|]. right. by exists q. Qed.

(** ** Unlocking *)

Lemma unlock_relabel t p i k r e us A :
  inv t (AUnlock p :: A) -> (forall a, a ∈ us -> exists j, a = AInodeUnref j) ->
  inv t (ADrop p i :: AAnswer p r e :: us ++ A) /\ inv t (ADrop p i :: AAnswer p r e :: AGrant k :: us ++ A).
Proof.
  intros Hi Hus.
  assert (Hz : forall f q, (forall j, f (AInodeUnref j) = []) -> cnt q (all f us) = 0%nat).
  { intros f q Hf. clear Hi. induction us as [|a us IH]; [done|].
    destruct (Hus a (list_elem_of_here _ _)) as [j ->]. rewrite cnt_all_cons, Hf. apply IH.
    intros b Hb. apply Hus. by apply list_elem_of_further. }
  assert (Hsd : forall a, a ∈ us -> sound a) by (intros a Ha; destruct (Hus a Ha) as [j ->]; done).
  split; (apply (inv_relabel t (AUnlock p :: A)); [done|..]).
  1-5, 8-12: intros q; rewrite ?cnt_all_cons, ?cnt_all_app, ?cnt_all_cons, Hz by done;
    cbn [tokens owes asks asked cleans]; rewrite ?cnt_nil; lia.
  - intros a [->|[->|Ha]%elem_of_cons]%elem_of_cons; [done..|]. by apply (sound_tail t (AUnlock p) A us).
  - intros k' Hk. apply (promised_via t (AUnlock p) A ([ADrop p i; AAnswer p r e] ++ us)) in Hk; [by rewrite <- app_assoc in Hk|].
    intros [?|(q & Hq & _)]; [done|by apply not_elem_of_nil in Hq].
  - intros a [->|[->|[->|Ha]%elem_of_cons]%elem_of_cons]%elem_of_cons; [done..|]. by apply (sound_tail t (AUnlock p) A us).
  - intros k' Hk. apply (promised_via t (AUnlock p) A ([ADrop p i; AAnswer p r e; AGrant k] ++ us)) in Hk; [by rewrite <- app_assoc in Hk|].
    intros [?|(q & Hq & _)]; [done|by apply not_elem_of_nil in Hq].
Qed.

Lemma unlock_act t p R :
  inv t (AUnlock p :: R) -> exists t' acts, exec (AUnlock p) t = Some (t', acts) /\ inv t' (acts ++ R).
Proof.
  intros Hi. assert (Ht : (0 < cnt p (all tokens (AUnlock p :: R)))%nat).
  { rewrite cnt_all_cons. cbn [tokens]. rewrite cnt_cons, decide_True by done. lia. }
  destruct (token_live _ _ p Hi Ht) as [o Ho]. pose proof (body_of_heap t p o Ho) as Hb.
  cbn [exec]. rewrite Hb. cbn [mbind option_bind]. rewrite unlock_law, Hb. cbn [mbind option_bind].
  set (k := lk_key (body o)). destruct (lists_live t _ k Hi) as [Lg _].
  destruct (find_lock_spec (fun b => matches (body o) b) t _ Lg) as [(q & b & -> & Hq & Hbq & _)|[-> _]];
    cbn [mbind option_bind].
  - rewrite Hbq. cbn [mbind option_bind]. apply cnt_elem in Hq.
    destruct (home_live t _ k q Hi ltac:(unfold home; lia)) as (oq & Hoq & Hkq).
    rewrite (body_of_heap t q oq Hoq) in Hbq. injection Hbq as <-.
    pose proof (release_inv t _ q oq 0 Hi Hoq) as Hrel. cbn zeta in Hrel. rewrite Hkq in Hrel. specialize (Hrel Hq).
    destruct (unref_inv _ q 0 _ Hrel) as (t2 & Ht2 & Hi2).
    match goal with |- context [unref_lock q ?s] => replace s with (rehome (heap t) k
      {| granted := unlink q (granted (doms t k)); waiting := waiting (doms t k) |} (delisted (body oq) q t) t)
      by (unfold rehome, delisted, set_lockers, drop_granted, set_dom; by destruct (lk_client (body oq))) end.
    rewrite Ht2. cbn [mbind option_bind].
    destruct (after_law 0 p k) as (acts & r & e & Hperm & [->|[_ ?]]); [|done]. cbn in Hperm.
    destruct (unlock_relabel t2 p 0 k r e [AInodeUnref k.1; AInodeUnref k.1] (AGrant k :: R)) as [Hi3 _].
    { apply (inv_perm t2 (AGrant k :: AUnlock p :: R)); [apply Permutation_swap|done]. }
    { intros a [->|[->|Ha]%elem_of_cons]%elem_of_cons; [by eexists..|by apply not_elem_of_nil in Ha]. }
    destruct (unref_inv _ _ _ _ Hi3) as (t3 & -> & Hi4). cbn [mbind option_bind]. eexists _, _. split; [reflexivity|].
    refine (inv_perm t3 _ _ _ Hi4). rewrite Hperm. cbn [app]. solve_Permutation.
  - destruct (after_law (- EINVAL) p k) as (acts & r & e & Hperm & Hacts). cbn in Hperm.
    destruct (unlock_relabel t p 0 k r e [AInodeUnref k.1] R Hi) as [Hi3 Hi4].
    { intros a [->|Ha]%elem_of_cons; [by eexists|by apply not_elem_of_nil in Ha]. }
    destruct Hacts as [->|[-> _]].
    + destruct (unref_inv _ _ _ _ Hi4) as (t3 & -> & Hi5). cbn [mbind option_bind]. eexists _, _. split; [reflexivity|].
      refine (inv_perm t3 _ _ _ Hi5). rewrite Hperm. cbn [app]. solve_Permutation.
    + destruct (unref_inv _ _ _ _ Hi3) as (t3 & -> & Hi5). cbn [mbind option_bind]. eexists _, _. split; [reflexivity|].
      refine (inv_perm t3 _ _ _ Hi5). rewrite Hperm. cbn [app]. solve_Permutation.
Qed.

(** ** Granting *)

Lemma grant_shape t A k :
  inv t A ->
  exists new kept h,
    exec (AGrant k) t =
      Some (rehome h k {| granted := new ++ granted (doms t k); waiting := kept |} (locker_list t) t, [AFinish new new]) /\
    waiting (doms t k) ≡ₚ new ++ kept /\ (forall q, h !! q = bump new q <$> heap t !! q) /\
    exclusive t (new ++ granted (doms t k)) /\ reasons t (new ++ granted (doms t k)) kept.
Proof.
  intros Hi. cbn [exec]. rewrite grant_law. destruct (lists_live t _ k Hi) as [Lg Lw].
  set (t0 := set_dom k {| granted := granted (doms t k); waiting := [] |} t).
  assert (Hd0 : dom_list t0 !! k = Some {| granted := granted (doms t k); waiting := [] |}) by apply lookup_insert_eq.
  destruct (grant_loop_spec k (waiting (doms t k)) [] t0 _ Hd0) as (new & kept & h & -> & Hperm & Hh & Hex & Hre);
    cbn [granted waiting] in *; try done.
  { intros q Hq. apply cnt_elem in Hq. apply (i_home _ _ Hi k q). unfold home. lia. }
  { by intros q ?%not_elem_of_nil. }
  { apply Hi. }
  { intros w1 q w2 l Hw. by destruct w1. }
  exists new, kept, h. split_and!; try done. cbn [mbind option_bind]. rewrite app_nil_r. do 2 f_equal.
  unfold rehome. cbn [t0 set_dom dom_list locker_list held inode_refs replied next]. by rewrite insert_insert_eq.
Qed.

Lemma grant_act t k R :
  inv t (AGrant k :: R) -> exists t' acts, exec (AGrant k) t = Some (t', acts) /\ inv t' (acts ++ R).
Proof.
  intros Hi. destruct (grant_shape t _ k Hi) as (new & kept & h & -> & Hperm & Hh & Hex & Hre).
  eexists _, _. split; [reflexivity|]. cbn [app].
  assert (Hcnt : forall q, cnt q (waiting (doms t k)) = (cnt q new + cnt q kept)%nat).
  { intros q. by rewrite (cnt_perm q _ _ Hperm), cnt_app. }
  set (t' := rehome h k _ _ t).
  assert (Hhome : forall k' q, home t' k' q = home t k' q).
  { intros k' q. unfold t'. rewrite home_rehome. case_decide as E; [|done]. cbn [granted waiting]. rewrite cnt_app, E.
    unfold home. rewrite Hcnt. lia. }
  assert (Hwt : forall q, (waits t' q + cnt q new = waits t q)%nat).
  { intros q. unfold waits. replace (key_of t' q) with (key_of t q).
    2: { unfold key_of, body_of. change (heap t') with h. rewrite Hh. by destruct (heap t !! q). }
    destruct (decide (key_of t q = Some k)) as [Hk|Hk].
    - rewrite Hk. unfold t'. rewrite doms_rehome, decide_True by done. cbn [waiting]. rewrite Hcnt. lia.
    - assert (cnt q new = 0%nat) as ->.
      { destruct (decide (cnt q new = 0)%nat) as [|Hz]; [done|]. destruct Hk. apply (i_home _ _ Hi). unfold home. rewrite Hcnt. lia. }
      destruct (key_of t q) as [k'|]; [|done]. unfold t'. rewrite doms_rehome, decide_False by congruence. lia. }
  apply (inv_rehome _ _ _ _ _ (AGrant k :: R)); fold t'; try done; cbn [granted waiting].
  - intros q. rewrite Hh. unfold body_of. by destruct (heap t !! q).
  - intros q Hq. rewrite Hhome in *. split; [by apply (i_home _ _ Hi)|apply Hi].
  - intros q. pose proof (i_ref _ _ Hi q) as Hr. rewrite cnt_all_cons in *. cbn [tokens] in *. rewrite cnt_nil in Hr.
    rewrite Hh. destruct (heap t !! q) as [o|] eqn:Ho; cbn [fmap option_fmap option_map].
    + unfold bump. cbn [ref body]. rewrite Hhome. lia.
    + assert (cnt q new = 0%nat); [|lia]. destruct (decide (cnt q new = 0)%nat) as [|Hz]; [done|].
      destruct (home_live t _ k q Hi) as (o & Ho' & _); [unfold home; rewrite Hcnt; lia|congruence].
  - intros c q. change (lockers t' c) with (lockers t c). rewrite (i_lockers _ _ Hi), Hh.
    destruct (heap t !! q); [|done]. cbn. by rewrite Hhome.
  - intros q o. rewrite Hh. destruct (heap t !! q) as [o'|] eqn:Ho; cbn [fmap option_fmap option_map]; [|done]. intros [= <-] Hp. cbn [pending bump].
    apply (i_pend _ _ Hi q); [done|]. specialize (Hwt q). rewrite cnt_all_cons in *. cbn [asks] in *. lia.
  - intros q. specialize (Hwt q). rewrite !cnt_all_cons. cbn [owes]. rewrite cnt_nil. lia.
  - intros a [->|Ha]%elem_of_cons; [by intros r|]. apply (i_sound _ _ Hi). by apply list_elem_of_further.
  - intros k' q Hq. rewrite Hhome. apply (i_out _ _ Hi). rewrite cnt_all_cons in *. cbn [asked] in *. lia.
  - by right.
  - intros k' Hk'. apply (promised_via t (AGrant k) R [AFinish new new]).
    intros [[= Hkk]|(q & Hq & _)]; [congruence|by apply not_elem_of_nil in Hq].
Qed.

(** ** Finishing a grant *)

Lemma finish_act t todo ps R :
  inv t (AFinish todo ps :: R) -> exists t' acts, exec (AFinish todo ps) t = Some (t', acts) /\ inv t' (acts ++ R).
Proof.
  intros Hi. pose proof (i_sound _ _ Hi _ (list_elem_of_here _ _)) as Hs. cbn [sound] in Hs.
  destruct todo as [|p todo]; cbn [exec].
  - destruct (unrefs_inv ps t R) as (t' & -> & Hi'); [|by eexists _, []].
    apply (inv_relabel t (AFinish [] ps :: R)); [done|..].
    1-5: intros q; rewrite cnt_all_app, cnt_all_cons, ?drops_tokens, ?(drops_none _ ps q) by done;
      cbn [tokens owes asks asked cleans]; rewrite ?cnt_nil; lia.
    + apply (sound_tail t (AFinish [] ps)); [done|]. intros b Hb. apply list_elem_of_fmap in Hb as (x & -> & _). done.
    + intros k. apply promised_via. intros [?|(q & Hq & _)]; [done|by apply not_elem_of_nil in Hq].
  - assert (Htok : (0 < cnt p (all tokens (AFinish (p :: todo) ps :: R)))%nat).
    { rewrite cnt_all_cons. cbn [tokens]. specialize (Hs p). rewrite cnt_cons, decide_True in Hs by done. lia. }
    destruct (token_live _ _ p Hi Htok) as [o Ho].
    assert (Hp : pending o = true).
    { apply (i_pend _ _ Hi p); [done|]. rewrite cnt_all_cons. cbn [asks]. rewrite cnt_cons, decide_True by done. lia. }
    unfold unwind_frame. rewrite Ho. cbn [mbind option_bind]. rewrite Hp.
    assert (Hi1 : inv t (AAnswer p 0 0 :: AFinish todo ps :: R)).
    { apply (inv_relabel t (AFinish (p :: todo) ps :: R)); [done|recount..| |].
      - apply (sound_tail t (AFinish (p :: todo) ps) R [AAnswer p 0 0; AFinish todo ps]); [done|].
        intros b [->|[->|Hb]%elem_of_cons]%elem_of_cons; [done| |by apply not_elem_of_nil in Hb].
        intros q. specialize (Hs q). rewrite cnt_cons in Hs. lia.
      - intros k. apply (promised_via t (AFinish (p :: todo) ps) R [AAnswer p 0 0; AFinish todo ps]).
        intros [?|(q & Hq & _)]; [done|by apply not_elem_of_nil in Hq]. }
    assert (Hlt : (p < next t)%nat).
    { destruct (decide (p < next t)%nat) as [|Hge]; [done|]. rewrite (i_fresh _ _ Hi) in Ho by lia. done. }
    pose proof (i_once _ _ Hi1 p Hlt) as Hone. rewrite cnt_all_cons in Hone. cbn [owes] in Hone.
    rewrite (cnt_cons p p), decide_True, cnt_nil in Hone by done.
    apply answer_inv in Hi1. destruct (clear_frame_inv (add_reply p 0 0 t) p _ o Hi1 Ho) as (t' & -> & Hi').
    { change (waits (add_reply p 0 0 t) p) with (waits t p). pose proof (asks_owes p (AFinish todo ps :: R)). lia. }
    cbn [mbind option_bind]. eexists _, _. split; [reflexivity|]. exact Hi'.
Qed.

(** ** The mutex of a client *)

Lemma inv_set_held t a A B cs :
  inv t (a :: A) ->
  (forall p, cnt p (all tokens B) = cnt p (tokens a)) ->
  (forall p, cnt p (all owes B) = cnt p (owes a)) ->
  (forall p, (cnt p (all asks B) <= cnt p (asks a))%nat) ->
  (forall p, (cnt p (all asked B) <= cnt p (asked a))%nat) ->
  (forall c, (cnt c (all cleans B) + cnt c (all cleans A) = cnt c cs)%nat /\ (cnt c cs <= 1)%nat) ->
  (forall b, b ∈ B -> sound b) ->
  (forall k, promises t k a -> promised t (B ++ A) k) -> inv (set_held cs t) (B ++ A).
Proof.
  intros Hi HT HO HA HF HC HS HP. destruct Hi as [R1 H1 O1 F1 L1 P1 N1 W1 S1 U1 X1 K1 D1]. split; try done.
  - intros p. specialize (R1 p). cbn [heap set_held]. rewrite cnt_all_app, HT. by rewrite cnt_all_cons in R1.
  - intros p o Ho Hp. apply (P1 p o Ho). specialize (HA p). change (waits (set_held cs t) p) with (waits t p) in Hp.
    rewrite cnt_all_app in Hp. rewrite cnt_all_cons. lia.
  - intros p Hp. rewrite cnt_all_app, HO. specialize (N1 p Hp). by rewrite cnt_all_cons in N1.
  - intros p Hp. rewrite cnt_all_app, HO. specialize (W1 p Hp). by rewrite cnt_all_cons in W1.
  - intros b [Hb|Hb]%elem_of_app; [by apply HS|]. apply S1. by apply list_elem_of_further.
  - intros k p Hp. apply U1. specialize (HF p). rewrite cnt_all_app in Hp. rewrite cnt_all_cons. lia.
  - intros k. destruct (K1 k) as [Hk|Hk]; [left|by right]. change (promised t (B ++ A) k). revert Hk. apply promised_via, HP.
  - intros c. specialize (HC c). rewrite cnt_all_app. cbn [held set_held]. lia.
Qed.

Lemma held_linked c cs : existsb (Nat.eqb c) cs = linked c cs.
Proof. done. Qed.

Lemma clean_act t c R :
  inv t (AClean c :: R) -> enabled (L := L) (AClean c) t = true ->
  exists t' acts, exec (AClean c) t = Some (t', acts) /\ inv t' (acts ++ R).
Proof.
  intros Hi He. cbn [enabled] in He. rewrite held_linked, negb_true_iff in He. eexists _, _. split; [reflexivity|].
  apply (inv_set_held t (AClean c)); try done.
  - intros c'. destruct (i_held _ _ Hi c') as [H1 H2]. rewrite cnt_all_cons in H1. cbn [cleans] in H1. rewrite cnt_nil in H1.
    rewrite cnt_all_cons, cnt_all_nil. cbn [cleans]. rewrite !cnt_cons, cnt_nil. case_decide as E; [|lia]. subst c'.
    enough (cnt c (held t) = 0%nat) by lia. destruct (decide (cnt c (held t) = 0)%nat) as [|Hz]; [done|].
    rewrite (proj2 (linked_cnt c (held t))) in He by lia. done.
  - intros b [->|Hb]%elem_of_cons; [done|by apply not_elem_of_nil in Hb].
  - intros k [?|(q & Hq & _)]; [done|by apply not_elem_of_nil in Hq].
Qed.

(** ** Walking the list of a client *)

Lemma cleaned_list_act t c r u R :
  inv t (ACleaning c r u :: R) -> inv (set_held (unlink c (held t)) t) (ACleaned u r :: R).
Proof.
  intros Hi. apply (inv_set_held t (ACleaning c r u) R [ACleaned u r]); try done.
  - recount.
  - recount.
  - recount.
  - intros c'. destruct (i_held _ _ Hi c') as [H1 H2]. rewrite cnt_all_cons in H1. cbn [cleans] in H1.
    rewrite cnt_all_cons, cnt_all_nil, cnt_unlink. cbn [cleans]. rewrite cnt_nil. rewrite cnt_cons, cnt_nil in H1.
    repeat case_decide; subst; done || lia.
  - intros b [->|Hb]%elem_of_cons; [done|by apply not_elem_of_nil in Hb].
  - intros k [?|(q & Hq & Hk)]; [done|]. apply (gathered_promise t (ACleaned u r) _ _ q); [apply list_elem_of_here| |done].
    cbn [gathered] in *. rewrite elem_of_app in *. tauto.
Qed.

(** The head of the list of a client is one of its locks, in one list of its
    domain. *)

Lemma locker_live t A c p ps :
  inv t A -> lockers t c = p :: ps ->
  exists o, heap t !! p = Some o /\ lk_client (body o) = Some c /\ home t (lk_key (body o)) p = 1%nat /\
    delisted (body o) p t = <[c := ps]> (locker_list t).
Proof.
  intros Hi Hl. pose proof (i_lockers _ _ Hi c p) as Hc. rewrite Hl, cnt_cons, decide_True in Hc by done.
  destruct (heap t !! p) as [o|]; [|done]. case_decide as E; [|done]. pose proof (i_one _ _ Hi (lk_key (body o)) p).
  exists o. split_and!; [done..|lia|]. unfold delisted. rewrite E, Hl. f_equal. unfold unlink. cbn [List.filter].
  rewrite Nat.eqb_refl. cbn [negb]. apply unlink_fresh. lia.
Qed.

Lemma cleaning_act t c r u R :
  inv t (ACleaning c r u :: R) ->
  exists t' acts, exec (ACleaning c r u) t = Some (t', acts) /\ inv t' (acts ++ R).
Proof.
  intros Hi. cbn [exec]. destruct (lockers t c) as [|p ps] eqn:Hl.
  { eexists _, _. split; [reflexivity|]. by apply cleaned_list_act. }
  destruct (locker_live t _ c p ps Hi Hl) as (o & Ho & Hc & Hh & Hd). rewrite clean_law.
  change (body_of (set_lockers c ps t) p) with (body_of t p). rewrite (body_of_heap t p o Ho). cbn [mbind option_bind].
  set (k := lk_key (body o)) in *. change (doms (set_lockers c ps t) k) with (doms t k).
  assert (Hk : key_of t p = Some k) by (apply key_of_live; by exists o).
  destruct (linked p (granted (doms t k))) eqn:Hg; eexists _, _; (split; [reflexivity|]); cbn [app].
  - apply linked_cnt in Hg. pose proof (release_inv t _ p o 0 Hi Ho Hg) as Hr. cbn zeta in Hr. fold k in Hr. rewrite Hd in Hr.
    apply (inv_relabel _ _ (ACleaning c (r ++ [p]) u :: R)) in Hr; [exact Hr|recount..| |].
    + apply (sound_tail t (ACleaning c r u) R [_]); [done|].
      intros b [->|Hb]%elem_of_cons; [done|by apply not_elem_of_nil in Hb].
    + intros k' (a & [->|[->|[->|Ha]%elem_of_cons]%elem_of_cons]%elem_of_cons & Hka).
      * destruct Hka as [?|(q & Hq & _)]; [done|by apply not_elem_of_nil in Hq].
      * destruct Hka as [[= <-]|(q & Hq & _)]; [|by apply not_elem_of_nil in Hq].
        eapply gathered_promise; [apply list_elem_of_here| |exact Hk]. cbn [gathered]. rewrite !elem_of_app, list_elem_of_singleton. auto.
      * destruct Hka as [?|(q & Hq & Hq')]; [done|]. eapply gathered_promise; [apply list_elem_of_here| |exact Hq'].
        cbn [gathered] in *. rewrite !elem_of_app in *. tauto.
      * exists a. split; [by apply list_elem_of_further|done].
  - assert (Hw : (0 < cnt p (waiting (doms t k)))%nat).
    { enough (cnt p (granted (doms t k)) = 0%nat) by (unfold home in Hh; lia).
      destruct (decide (cnt p (granted (doms t k)) = 0)%nat) as [|Hz]; [done|].
      by rewrite (proj2 (linked_cnt p _)) in Hg by lia. }
    pose proof (withdraw_inv t _ p o Hi Ho Hw) as Hr. cbn zeta in Hr. fold k in Hr. rewrite Hd in Hr.
    apply (inv_relabel _ _ (ACleaning c r (u ++ [p]) :: R)) in Hr; [exact Hr|recount..| |].
    + apply (sound_tail t (ACleaning c r u) R [_]); [done|].
      intros b [->|Hb]%elem_of_cons; [done|by apply not_elem_of_nil in Hb].
    + intros k' (a & [->|[->|Ha]%elem_of_cons]%elem_of_cons & Hka); [..|exists a; split; [by apply list_elem_of_further|done]];
        (destruct Hka as [?|(q & Hq & Hq')]; [done|]; eapply gathered_promise; [apply list_elem_of_here| |exact Hq']);
        cbn [gathered app] in *; rewrite !elem_of_app, ?list_elem_of_singleton, ?elem_of_nil in *; tauto.
Qed.

End safe.
