(* ===== verification/DomRun.v ===== *)
(** * Inode and entry locks: every interleaving keeps the invariant

    And what an action changes. *)

From Stdlib Require Import ZArith Lia Bool String List.
From stdpp Require Import base list gmap strings.
From stdpp Require Import base list gmap strings relations numbers.
From S2P Require Import Prelude Locks DomTable DomSpec DomInv DomActs DomSafe.

Open Scope Z_scope.

Section run.

Context {L : Type} `{LockLaws L}.
Implicit Types (t : table L) (p q : ptr).

(** ** The rest of a cleanup *)

Lemma cleaned_act t u r R :
  inv t (ACleaned u r :: R) -> exists t' acts, exec (ACleaned u r) t = Some (t', acts) /\ inv t' (acts ++ R).
Proof.
  intros Hi. destruct u as [|p u]; cbn [exec].
  - eexists _, _. split; [reflexivity|]. cbn [app]. apply (inv_relabel _ _ (AReleased r :: R)) in Hi as Hi'; [done|recount..| |].
    + apply (sound_tail t (ACleaned [] r) R [AReleased r]); [done|].
      intros b [->|Hb]%elem_of_cons; [done|by apply not_elem_of_nil in Hb].
    + intros k. apply (promised_via t (ACleaned [] r) R [AReleased r]). intros [?|(q & Hq & Hk)]; [done|].
      by apply (gathered_promise t (AReleased r) _ _ q); [apply list_elem_of_here|..].
  - assert (Htok : (0 < cnt p (all tokens (ACleaned (p :: u) r :: R)))%nat).
    { rewrite cnt_all_cons. cbn [tokens app]. rewrite cnt_cons, decide_True by done. lia. }
    destruct (token_live _ _ p Hi Htok) as [o Ho].
    assert (Hp : pending o = true).
    { apply (i_pend _ _ Hi p); [done|]. rewrite cnt_all_cons. cbn [asks]. rewrite cnt_cons, decide_True by done. lia. }
    unfold unwind_frame. rewrite Ho. cbn [mbind option_bind]. rewrite Hp. eexists _, _. split; [reflexivity|].
    apply answer_inv. apply (inv_relabel t (ACleaned (p :: u) r :: R)); [done|recount..| |].
    + apply (sound_tail t (ACleaned (p :: u) r) R [_; _]); [done|].
      intros b [->|[->|Hb]%elem_of_cons]%elem_of_cons; [done..|by apply not_elem_of_nil in Hb].
    + intros k. apply (promised_via t (ACleaned (p :: u) r) R [_; _]). intros [?|(q & Hq & Hk)]; [done|].
      apply (gathered_promise t (ACleaned u (r ++ [p])) _ _ q); [apply list_elem_of_further, list_elem_of_here| |done].
      cbn [gathered app] in *. rewrite elem_of_cons in Hq. rewrite !elem_of_app, list_elem_of_singleton in *. tauto.
Qed.

Lemma released_act t ps R :
  inv t (AReleased ps :: R) -> exists t' acts, exec (AReleased ps) t = Some (t', acts) /\ inv t' (acts ++ R).
Proof.
  intros Hi. destruct ps as [|p ps]; cbn [exec].
  - eexists _, _. split; [reflexivity|]. cbn [app]. apply (inv_relabel _ _ R) in Hi as Hi'; [done|recount..| |].
    + by apply (sound_tail t (AReleased []) R []); [|intros b Hb; by apply not_elem_of_nil in Hb].
    + intros k Hk. by apply promised_drop in Hk.
  - assert (Htok : (0 < cnt p (all tokens (AReleased (p :: ps) :: R)))%nat).
    { rewrite cnt_all_cons. cbn [tokens]. rewrite cnt_cons, decide_True by done. lia. }
    destruct (token_live _ _ p Hi Htok) as [o Ho]. rewrite (body_of_heap t p o Ho). cbn [mbind option_bind].
    eexists _, _. split; [reflexivity|]. cbn [app]. apply (inv_relabel t (AReleased (p :: ps) :: R)); [done|recount..| |].
    + apply (sound_tail t (AReleased (p :: ps)) R [_; _; _]); [done|].
      intros b [->|[->|[->|Hb]%elem_of_cons]%elem_of_cons]%elem_of_cons; [done..|by apply not_elem_of_nil in Hb].
    + intros k. apply (promised_via t (AReleased (p :: ps)) R [_; _; _]).
      intros [?|(q & [->|Hq]%elem_of_cons & Hk)]; [done|..].
      * apply key_of_live in Hk as (o' & Ho' & <-). rewrite Ho in Ho'. injection Ho' as <-.
        exists (AGrant (lk_key (body o))). split; [apply list_elem_of_here|by left].
      * by apply (gathered_promise t (AReleased ps) _ _ q); [do 2 apply list_elem_of_further; apply list_elem_of_here|..].
Qed.

Lemma iref_inv t i z R : inv t (AInodeUnref i :: R) -> inv (add_iref i z t) R.
Proof.
  intros Hi. apply (inv_relabel _ _ R) in Hi as [R1 H1 O1 F1 L1 P1 N1 W1 S1 U1 X1 K1 D1]; [by split|recount..| |].
  - by apply (sound_tail t (AInodeUnref i) R []); [|intros b Hb; by apply not_elem_of_nil in Hb].
  - intros k Hk. by apply promised_drop in Hk.
Qed.

Lemma drop_act t p i R :
  inv t (ADrop p i :: R) -> exists t' acts, exec (ADrop p i) t = Some (t', acts) /\ inv t' (acts ++ R).
Proof.
  intros Hi. cbn [exec]. destruct (unref_inv t p i R Hi) as (t' & -> & Hi'). cbn [mbind option_bind].
  eexists _, _. split; [reflexivity|]. cbn [app]. apply (inv_relabel t' R); [done|recount..| |].
  - intros b [->|Hb]%elem_of_cons; [done|by apply (i_sound _ _ Hi')].
  - intros k Hk. by apply (promised_tail t' R [_]).
Qed.

(** ** Every action *)

Lemma exec_inv t a R :
  inv t (a :: R) -> enabled (L := L) a t = true -> exists t' acts, exec a t = Some (t', acts) /\ inv t' (acts ++ R).
Proof.
  intros Hi He. destruct a.
  - by apply lock_act.
  - by apply unlock_act.
  - eexists _, _. split; [reflexivity|]. by apply answer_inv.
  - by apply grant_act.
  - by apply finish_act.
  - by apply clean_act.
  - by apply cleaning_act.
  - by apply cleaned_act.
  - by apply released_act.
  - by apply drop_act.
  - eexists _, _. split; [reflexivity|]. by apply iref_inv.
Qed.

(** ** Requests that arrive *)

Lemma new_lock_body b t q : q <> next t -> body_of (new_lock b t) q = body_of t q.
Proof. intros Hq. unfold body_of, new_lock. cbn [heap add_iref next]. by rewrite lookup_insert_ne. Qed.

Lemma fresh_home t A k p : inv t A -> (next t <= p)%nat -> home t k p = 0%nat.
Proof.
  intros Hi Hp. destruct (decide (home t k p = 0)%nat) as [|Hz]; [done|].
  destruct (home_live t A k p Hi ltac:(lia)) as (o & Ho & _). by rewrite (i_fresh _ _ Hi) in Ho.
Qed.

Lemma fresh_token t A p : inv t A -> (next t <= p)%nat -> cnt p (all tokens A) = 0%nat.
Proof.
  intros Hi Hp. destruct (decide (cnt p (all tokens A) = 0)%nat) as [|Hz]; [done|].
  destruct (token_live t A p Hi ltac:(lia)) as [o Ho]. by rewrite (i_fresh _ _ Hi) in Ho.
Qed.

Lemma new_lock_agree b t A ps : inv t A -> live_all t ps -> agree t (new_lock b t) ps.
Proof.
  intros Hi Hl q Hq. apply new_lock_body. intros ->. destruct (Hl _ Hq) as [o E]. by rewrite (i_fresh _ _ Hi) in E.
Qed.

Lemma new_lock_promised b t A k : inv t A -> promised t A k -> promised (new_lock b t) A k.
Proof.
  intros Hi. apply promised_agree. intros x q Hx Hq. apply new_lock_body. intros ->.
  pose proof (gathered_token A x _ Hx Hq) as Htk. rewrite (fresh_token t A) in Htk by done || lia. lia.
Qed.

Lemma new_lock_waits b t A q : inv t A -> waits (new_lock b t) q = waits t q.
Proof.
  intros Hi. unfold waits, key_of. destruct (decide (q = next t)) as [->|Hq]; [|by rewrite new_lock_body].
  unfold body_of at 2. rewrite (i_fresh _ _ Hi) by lia. cbn [fmap option_fmap option_map].
  destruct (lk_key <$> _) as [k|]; [|done]. pose proof (fresh_home t A k (next t) Hi ltac:(lia)) as Hh.
  unfold home in Hh. change (doms (new_lock b t) k) with (doms t k). lia.
Qed.

Lemma request_inv b t A a :
  inv t A -> asked a = [next t] -> tokens a = [next t] -> owes a = [next t] -> cleans a = [] ->
  (asks a = [next t] \/ asks a = []) -> gathered a = [] -> sound a -> inv (new_lock b t) (a :: A).
Proof.
  intros Hi Ha Ht Ho Hc Hs Hg Hsd. set (t' := new_lock b t).
  assert (Hh : forall k p, home t' k p = home t k p) by done.
  assert (Hnew : heap t' !! next t = Some {| body := b; ref := 1; pending := true |}) by apply lookup_insert_eq.
  assert (Hold : forall p, p <> next t -> heap t' !! p = heap t !! p) by (intros p Hp; by apply lookup_insert_ne).
  assert (Hagree : forall ps, live_all t ps -> agree t t' ps) by (intros ps; by apply (new_lock_agree b t A)).
  split.
  - intros p. rewrite cnt_all_cons, Ht, cnt_cons, cnt_nil. pose proof (i_ref _ _ Hi p) as Hr.
    destruct (decide (next t = p)) as [<-|Hp].
    + rewrite Hnew. cbn [body ref]. rewrite Hh, (fresh_home t A), (fresh_token t A) by done || lia. lia.
    + by rewrite Hold.
  - intros k p Hp. rewrite Hh in Hp. destruct (decide (p = next t)) as [->|Hne].
    + rewrite (fresh_home t A) in Hp by done || lia. lia.
    + unfold key_of, t'. rewrite new_lock_body by done. by apply (i_home _ _ Hi).
  - intros k p. rewrite Hh. apply Hi.
  - intros p Hp. change (S (next t) <= p)%nat in Hp. rewrite Hold by lia. apply (i_fresh _ _ Hi). lia.
  - intros c p. change (lockers t' c) with (lockers t c). rewrite (i_lockers _ _ Hi).
    destruct (decide (p = next t)) as [->|Hne]; [|by rewrite Hold].
    rewrite Hnew, (i_fresh _ _ Hi) by lia. cbn [body]. rewrite Hh, (fresh_home t A) by done || lia. by case_decide.
  - intros p o Hp. unfold t'. rewrite (new_lock_waits b t A) by done. fold t'. destruct (decide (p = next t)) as [->|Hne].
    + rewrite Hnew in Hp. by injection Hp as <-.
    + rewrite Hold in Hp by done. rewrite cnt_all_cons. intros Hw. apply (i_pend _ _ Hi p o Hp).
      destruct Hs as [E|E]; rewrite E, ?cnt_cons, ?cnt_nil, ?decide_False in Hw by congruence; lia.
  - intros p Hp. unfold t'. rewrite (new_lock_waits b t A) by done. rewrite cnt_all_cons, Ho, cnt_cons, cnt_nil.
    change (answers (new_lock b t) p) with (answers t p). change (p < S (next t))%nat in Hp.
    case_decide as E; [subst p|pose proof (i_once _ _ Hi p ltac:(lia)); lia].
    destruct (i_new _ _ Hi (next t) ltac:(lia)) as [-> ->]. unfold waits, key_of, body_of.
    by rewrite (i_fresh _ _ Hi) by lia.
  - intros p Hp. change (S (next t) <= p)%nat in Hp. rewrite cnt_all_cons, Ho, cnt_cons, cnt_nil, decide_False by lia.
    apply (i_new _ _ Hi). lia.
  - intros x [->|Hx]%elem_of_cons; [done|by apply (i_sound _ _ Hi)].
  - intros k p Hp. rewrite Hh. rewrite cnt_all_cons, Ha, cnt_cons, cnt_nil in Hp. case_decide as E; [subst p|].
    + by apply (fresh_home t A).
    + apply (i_out _ _ Hi). lia.
  - intros k. destruct (lists_live t A k Hi) as [Lg _]. apply (exclusive_agree t); [by apply Hagree|apply Hi].
  - intros k. destruct (i_wake _ _ Hi k) as [Hk|Hk]; [left|right].
    + apply (promised_tail t' A [a]). by apply new_lock_promised.
    + destruct (lists_live t A k Hi) as [Lg Lw]. apply (reasons_agree t); [|done]. apply Hagree.
      intros q [Hq|Hq]%elem_of_app; auto.
  - intros c. rewrite cnt_all_cons, Hc, cnt_nil. apply Hi.
Qed.

(** ** Machines *)

Definition todo (m : machine (L := L)) : list action := concat (threads m).

Lemma thread_split (ths : list (list action)) n a rest :
  ths !! n = Some (a :: rest) ->
  exists R, concat ths ≡ₚ a :: R /\ forall acts, concat (<[n := acts ++ rest]> ths) ≡ₚ acts ++ R.
Proof.
  intros Hn. exists (rest ++ concat (take n ths) ++ concat (drop (S n) ths)). split.
  - rewrite <- (take_drop_middle ths n _ Hn) at 1. rewrite concat_app. cbn [concat app]. solve_Permutation.
  - intros acts. rewrite insert_take_drop by (by eapply lookup_lt_Some). rewrite concat_app. cbn [concat]. solve_Permutation.
Qed.

Lemma dom_inv_start : inv (L := L) new_table [].
Proof.
  assert (Hd : forall k, doms (L := L) new_table k = no_dom) by (intros k; unfold doms, new_table; cbn; by rewrite lookup_empty).
  split; try done.
  - intros k p Hp. unfold home in Hp. rewrite Hd in Hp. cbn in Hp. lia.
  - intros k p. unfold home. rewrite Hd. cbn. lia.
  - intros p Hp. cbn in Hp. lia.
  - intros a Ha. by apply not_elem_of_nil in Ha.
  - intros k. right. intros w1 p w2 l Hw. rewrite Hd in Hw. by destruct w1.
  - intros c. cbn. lia.
Qed.

Lemma step_inv m m' : inv (tab m) (todo m) -> step m m' -> inv (tab m') (todo m').
Proof.
  intros Hi Hs. unfold todo in *. destruct Hs as [m b cb|m b|m c|m n a rest t acts Hn He Hx]; cbn [tab threads].
  - rewrite concat_app. cbn [concat app]. eapply inv_perm; [apply Permutation_cons_append|]. apply request_inv; try done. by left.
  - rewrite concat_app. cbn [concat app]. eapply inv_perm; [apply Permutation_cons_append|]. apply request_inv; try done. by right.
  - rewrite concat_app. cbn [concat app]. eapply inv_perm; [apply Permutation_cons_append|].
    apply (inv_relabel (tab m) (concat (threads m))); [done|recount..| |].
    + intros b [->|Hb]%elem_of_cons; [done|by apply (i_sound _ _ Hi)].
    + intros k Hk. by apply (promised_tail (tab m) _ [_]).
  - destruct (thread_split _ _ _ _ Hn) as (R & HR & Hacts). apply (inv_perm _ _ _ HR) in Hi.
    destruct (exec_inv _ _ _ Hi He) as (t' & acts' & Hx' & Hi'). rewrite Hx in Hx'. injection Hx' as <- <-.
    eapply inv_perm; [symmetry; apply Hacts|done].
Qed.

Lemma reachable_inv m : reachable m -> inv (tab m) (todo m).
Proof. induction 1 as [|m m' _ IH Hs]; [apply dom_inv_start|by apply (step_inv m)]. Qed.

Lemma reachable_exec m n a rest :
  reachable m -> threads m !! n = Some (a :: rest) -> enabled a (tab m) = true -> is_Some (exec a (tab m)).
Proof.
  intros Hr Hn He. apply reachable_inv in Hr. destruct (thread_split _ _ _ _ Hn) as (R & HR & _).
  unfold todo in Hr. apply (inv_perm _ _ _ HR) in Hr. destruct (exec_inv _ _ _ Hr He) as (t' & acts & -> & _). by eexists.
Qed.

(** ** Nobody is at work *)

Definition quiet (m : machine (L := L)) : Prop := Forall (fun th => th = []) (threads m).

Lemma quiet_todo m : quiet m -> todo m = [].
Proof. unfold quiet, todo. induction 1 as [|th ths -> _ IH]; [done|]. exact IH. Qed.

Lemma quiet_inv m : reachable m -> quiet m -> inv (tab m) [].
Proof. intros Hr%reachable_inv Hq. by rewrite (quiet_todo m Hq) in Hr. Qed.

End run.

(** ** What an action changes

    The domains, the references to inodes and the locks that are live after an
    action. DomLive.v measures and counts them. *)

Open Scope Z_scope.

Section shape.

Context {L : Type} `{LockLaws L}.
Implicit Types (t : table L) (p q : ptr).

(** Only counts, frames and lists of clients differ, and locks that are gone. *)

Definition keeps t t' : Prop :=
  dom_list t' = dom_list t /\ inode_refs t' = inode_refs t /\
  forall p b, body_of t' p = Some b -> body_of t p = Some b.

Lemma keeps_refl t : keeps t t.
Proof. done. Qed.

Lemma keeps_trans t t' t'' : keeps t t' -> keeps t' t'' -> keeps t t''.
Proof. intros (D & I & B) (D' & I' & B'). split_and!; [congruence..|]. intros p b Hb. by apply B, B'. Qed.

Lemma keeps_update t p o o' :
  heap t !! p = Some o -> body o' = body o -> keeps t (set_heap (<[p := o']> (heap t)) t).
Proof.
  intros Ho Hb. split_and!; [done..|]. intros q b. unfold body_of. cbn [heap set_heap].
  destruct (decide (q = p)) as [->|Hq]; [|by rewrite lookup_insert_ne]. rewrite lookup_insert_eq, Ho. cbn. by rewrite Hb.
Qed.

Lemma keeps_ref p t t' : ref_lock p t = Some t' -> keeps t t'.
Proof.
  unfold ref_lock. destruct (heap t !! p) as [o|] eqn:Ho; [|done]. intros [= <-]. by apply (keeps_update t p o).
Qed.

Lemma keeps_unref p t t' : unref_lock p t = Some t' -> keeps t t'.
Proof.
  unfold unref_lock. destruct (heap t !! p) as [o|] eqn:Ho; [|done]. cbn [mbind option_bind].
  destruct (_ =? _); intros [= <-]; [|by apply (keeps_update t p o)].
  split_and!; [done..|]. intros q b. unfold body_of. cbn [heap set_heap].
  destruct (decide (q = p)) as [->|Hq]; [by rewrite lookup_delete_eq|by rewrite lookup_delete_ne].
Qed.

Lemma keeps_clear p t t' : clear_frame p t = Some t' -> keeps t t'.
Proof.
  unfold clear_frame. destruct (heap t !! p) as [o|] eqn:Ho; [|done]. intros [= <-]. by apply (keeps_update t p o).
Qed.

Lemma keeps_unwind p r e t t' : unwind_frame p r e t = Some t' -> keeps t t'.
Proof. unfold unwind_frame. destruct (heap t !! p) as [o|]; [|done]. cbn. destruct (pending o); by intros [= <-]. Qed.

Lemma keeps_unrefs ps t t' : unref_locks ps t = Some t' -> keeps t t'.
Proof.
  revert t. induction ps as [|p ps IH]; intros t; [by intros [= <-]|]. cbn [unref_locks].
  destruct (unref_lock p t) as [t1|] eqn:E; [|done]. cbn [mbind option_bind]. intros Ht. apply (keeps_trans t t1); [by apply (keeps_unref p)|by apply IH].
Qed.

Lemma keeps_grant k p t t' : keeps t t' -> keeps (grant_in k p t) (grant_in k p t').
Proof. intros (D & I & B). split_and!; [|done..]. cbn [dom_list grant_in set_dom]. unfold doms. by rewrite D. Qed.

Lemma keeps_lockers c ps t : keeps t (set_lockers c ps t).
Proof. done. Qed.

(** ** Requests *)

Lemma lock_shape t b p R t' acts :
  inv t (ALock b p :: R) -> exec (ALock b p) t = Some (t', acts) ->
  exists l, body_of t p = Some l /\
    ((acts = [AAnswer p 0 0] /\ keeps (grant_in (lk_key l) p t) t') \/
     (acts = [] /\ keeps (queue_in (lk_key l) p t) t') \/
     (acts = [AInodeUnref (lk_inode l); AAnswer p (-1) EAGAIN] /\ keeps t t')).
Proof.
  intros Hi. destruct (lock_once _ _ _ _ Hi) as (_ & _ & _ & o & Ho & _). pose proof (body_of_heap t p o Ho) as Hb.
  cbn [exec]. rewrite Hb. cbn [mbind option_bind]. rewrite lock_law, Hb. cbn [mbind option_bind].
  destruct (lists_live t _ (lk_key (body o)) Hi) as [Lg Lw]. intros Hx. exists (body o). split; [done|]. revert Hx.
  destruct (try_law b p t (body o) Hb Lg Lw) as [(_ & t1 & Ht1 & ->)|[_ ->]]; cbn [mbind option_bind].
  - rewrite Z.eqb_refl. destruct (clear_frame p _) as [t2|] eqn:E2; [|done]. cbn [mbind option_bind orb].
    change (0 =? - EAGAIN) with false. cbn [andb]. destruct (unref_lock p _) as [t3|] eqn:E3; [|done].
    cbn [mbind option_bind]. intros [= <- <-]. left. split; [done|].
    apply (keeps_trans _ (grant_in (lk_key (body o)) p t1)); [by apply keeps_grant, (keeps_ref p)|].
    apply (keeps_trans _ t2); [by apply (keeps_clear p)|]. apply keeps_unref in E3. by destruct (lk_client (body o)).
  - change (- EAGAIN =? 0) with false. cbn match. cbn [mbind option_bind orb]. rewrite Z.eqb_refl. cbn [andb].
    intros Hx. right. destruct b; cbn match in Hx; cbn [mbind option_bind] in Hx.
    + left. injection Hx as <- <-. split; [done|]. by destruct (lk_client (body o)).
    + right. destruct (unref_lock p _) as [t3|] eqn:E3; [|done]. cbn [mbind option_bind] in Hx. injection Hx as <- <-.
      split; [done|]. apply keeps_unref in E3. by destruct (lk_client (body o)).
Qed.

Lemma unlock_shape t p t' acts :
  exec (AUnlock p) t = Some (t', acts) ->
  exists l ret, body_of t p = Some l /\ acts = after_unlock ret p (lk_key l) /\
    ((ret = 0 /\ exists q, q ∈ granted (doms t (lk_key l)) /\ keeps (drop_granted (lk_key l) q t) t') \/
     (ret <> 0 /\ keeps t t')).
Proof.
  cbn [exec]. destruct (body_of t p) as [l|] eqn:Hb; [|done]. cbn [mbind option_bind].
  rewrite unlock_law, Hb. cbn [mbind option_bind]. intros Hx. exists l. revert Hx.
  destruct (find_lock _ t _) as [[q|]|] eqn:Hf; [|..|done]; cbn [mbind option_bind].
  - destruct (body_of t q) as [r|] eqn:Hr; [|done]. cbn [mbind option_bind].
    destruct (unref_lock q _) as [t2|] eqn:E2; [|done]. cbn [mbind option_bind].
    destruct (unref_lock p t2) as [t3|] eqn:E3; [|done]. cbn [mbind option_bind]. intros [= <- <-].
    exists 0. split_and!; [done..|]. left. split; [done|]. exists q. split; [by apply find_lock_elem in Hf|].
    apply (keeps_trans _ t2); [|by apply (keeps_unref p)]. apply keeps_unref in E2. by destruct (lk_client r).
  - destruct (unref_lock p t) as [t3|] eqn:E3; [|done]. cbn [mbind option_bind]. intros [= <- <-].
    exists (- EINVAL). split_and!; [done..|]. right. split; [done|by apply (keeps_unref p)].
Qed.

(** ** Granting and cleaning up *)

Lemma grant_keeps t A k :
  inv t A ->
  exists new kept t',
    exec (AGrant k) t = Some (t', [AFinish new new]) /\ waiting (doms t k) ≡ₚ new ++ kept /\
    keeps (set_dom k {| granted := new ++ granted (doms t k); waiting := kept |} t) t'.
Proof.
  intros Hi. destruct (grant_shape t A k Hi) as (new & kept & h & Hx & Hp & Hh & _).
  exists new, kept. eexists. split_and!; [exact Hx|done|]. split_and!; [done..|]. intros q b. unfold body_of.
  cbn [heap rehome set_dom]. rewrite Hh. by destruct (heap t !! q).
Qed.

Lemma cleaning_shape t c r u R t' acts :
  inv t (ACleaning c r u :: R) -> exec (ACleaning c r u) t = Some (t', acts) ->
  (acts = [ACleaned u r] /\ keeps t t') \/
  exists p l, body_of t p = Some l /\
    ((p ∈ granted (doms t (lk_key l)) /\ acts = [ACleaning c (r ++ [p]) u] /\ keeps (drop_granted (lk_key l) p t) t') \/
     (p ∈ waiting (doms t (lk_key l)) /\ acts = [ACleaning c r (u ++ [p])] /\ keeps (drop_waiting (lk_key l) p t) t')).
Proof.
  intros Hi. cbn [exec]. destruct (lockers t c) as [|p ps] eqn:Hl; [intros [= <- <-]; by left|]. intros Hx. right.
  destruct (locker_live t _ c p ps Hi Hl) as (o & Ho & _ & Hh & _). rewrite clean_law in Hx. exists p, (body o).
  change (body_of (set_lockers c ps t) p) with (body_of t p) in Hx. rewrite (body_of_heap t p o Ho) in *.
  split; [done|]. cbn [mbind option_bind] in Hx. change (doms (set_lockers c ps t)) with (doms t) in Hx.
  destruct (linked p (granted (doms t (lk_key (body o))))) eqn:Hg; injection Hx as <- <-.
  - left. split_and!; [by apply cnt_elem, linked_cnt|done..].
  - right. split_and!; [|done..]. apply cnt_elem.
    enough (cnt p (granted (doms t (lk_key (body o)))) = 0%nat) by (unfold home in Hh; lia).
    destruct (decide (cnt p (granted (doms t (lk_key (body o)))) = 0)%nat) as [|Hz]; [done|].
    by rewrite (proj2 (linked_cnt p _)) in Hg by lia.
Qed.

(** The structure of a lock is what it was asked for as long as it is live. *)

Lemma exec_bodies t a R t' acts p b :
  inv t (a :: R) -> exec a t = Some (t', acts) -> body_of t' p = Some b -> body_of t p = Some b.
Proof.
  intros Hi Hx. destruct a as [cb q|q|q r e|k|[|q todo] ps|c|c r u|[|q u] r|[|q ps]|q i|i].
  - destruct (lock_shape t cb q R t' acts Hi Hx) as (l & _ & [(_ & _ & _ & Hb)|[(_ & _ & _ & Hb)|(_ & _ & _ & Hb)]]); apply Hb.
  - destruct (unlock_shape t q t' acts Hx) as (l & ret & _ & _ & [(_ & x & _ & _ & _ & Hb)|(_ & _ & _ & Hb)]); apply Hb.
  - by injection Hx as <- <-.
  - destruct (grant_keeps t _ k Hi) as (new & kept & t1 & Hx1 & _ & _ & _ & Hb). rewrite Hx in Hx1. injection Hx1 as -> ->. apply Hb.
  - cbn [exec] in Hx. destruct (unref_locks ps t) as [t1|] eqn:E; [|done]. injection Hx as <- <-. by apply (keeps_unrefs ps).
  - cbn [exec] in Hx. destruct (unwind_frame q 0 0 t) as [t1|] eqn:E1; [|done]. cbn [mbind option_bind] in Hx.
    destruct (clear_frame q t1) as [t2|] eqn:E2; [|done]. injection Hx as <- <-. intros Hb.
    by apply (keeps_unwind q 0 0 t t1 E1), (keeps_clear q t1 t2 E2).
  - by injection Hx as <- <-.
  - destruct (cleaning_shape t c r u R t' acts Hi Hx) as [(_ & _ & _ & Hb)|(x & l & _ & [(_ & _ & _ & _ & Hb)|(_ & _ & _ & _ & Hb)])]; apply Hb.
  - by injection Hx as <- <-.
  - cbn [exec] in Hx. destruct (unwind_frame q _ _ t) as [t1|] eqn:E1; [|done]. injection Hx as <- <-.
    by apply (keeps_unwind q (-1) EAGAIN).
  - by injection Hx as <- <-.
  - cbn [exec] in Hx. destruct (body_of t q) as [l|]; [|done]. by injection Hx as <- <-.
  - cbn [exec] in Hx. destruct (unref_lock q t) as [t1|] eqn:E1; [|done]. injection Hx as <- <-. by apply (keeps_unref q).
  - by injection Hx as <- <-.
Qed.

(** ** Sums over domains *)

Section sums.

Context (w : key -> dom -> nat) (w_none : forall k, w k no_dom = 0%nat).

Definition dom_sum t : nat := sum_list_with (fun kd => w kd.1 kd.2) (map_to_list (dom_list t)).

Lemma dom_sum_set t t' k d :
  keeps (set_dom k d t) t' -> (dom_sum t' + w k (doms t k) = dom_sum t + w k d)%nat.
Proof using w_none.
  intros (E & _). unfold dom_sum, doms. rewrite E. cbn [dom_list set_dom].
  rewrite <- insert_delete_eq, (map_to_list_insert (delete k (dom_list t)) k d) by apply lookup_delete_eq.
  cbn [sum_list_with fst snd]. destruct (dom_list t !! k) as [d0|] eqn:Hk; cbn [from_option id].
  - rewrite <- (map_to_list_delete _ _ _ Hk). cbn [sum_list_with fst snd]. lia.
  - rewrite delete_id, w_none by done. lia.
Qed.

Lemma dom_sum_keeps t t' : keeps t t' -> dom_sum t' = dom_sum t.
Proof. intros (E & _). unfold dom_sum. by rewrite E. Qed.

End sums.

Lemma length_unlink p (ps : list ptr) : (length (unlink p ps) + cnt p ps = length ps)%nat.
Proof.
  unfold unlink. induction ps as [|q ps IH]; [done|]. rewrite cnt_cons. cbn [List.filter].
  destruct (Nat.eqb_spec q p) as [->|Hq]; cbn [negb length].
  - rewrite decide_True by done. lia.
  - rewrite decide_False by done. lia.
Qed.

End shape.
