(* ===== verification/DomLive.v ===== *)
(** * Inode and entry locks: references to inodes, and threads that finish

    A lock keeps a reference to its inode from the request on until it is
    refused, unlocked or cleaned up. The references that are kept are exactly
    those of the locks that are granted or wait, and of the threads that are
    still at work on one. *)

From Stdlib Require Import ZArith Lia Bool String List.
From stdpp Require Import base list gmap strings relations numbers.
From S2P Require Import Prelude Locks DomTable DomSpec DomInv DomActs DomSafe DomRun.

Open Scope Z_scope.

(** ** What is kept *)

Definition pinned (a : action) : list ptr := match a with ALock _ p | AUnlock p => [p] | _ => gathered a end.

Definition unpins (a : action) : list nat := match a with ADrop _ i | AInodeUnref i => [i] | _ => [] end.

Lemma pinned_tokens a q : q ∈ pinned a -> q ∈ tokens a.
Proof. destruct a; cbn [pinned gathered tokens]; done || by intros ?%not_elem_of_nil. Qed.

Definition dom_size (i : nat) (k : key) (d : dom) : nat :=
  if decide (k.1 = i) then (length (granted d) + length (waiting d))%nat else 0%nat.

Section refs.

Context {L : Type} `{LockLaws L}.
Implicit Types (t : table L) (p q : ptr).

(** How many locks of an inode are in the lists of its domains, and how many of
    a list of locks are on it. *)

Definition listed t (i : nat) : nat := dom_sum (dom_size i) t.

Definition on_inode t (i : nat) (p : ptr) : nat := if decide (lk_inode <$> body_of t p = Some i) then 1%nat else 0%nat.

Definition at_inode t (i : nat) (ps : list ptr) : nat := sum_list_with (on_inode t i) ps.

Lemma at_inode_app t i ps qs : at_inode t i (ps ++ qs) = (at_inode t i ps + at_inode t i qs)%nat.
Proof. apply sum_list_with_app. Qed.

Lemma at_inode_one t i p l : body_of t p = Some l -> at_inode t i [p] = if decide (lk_inode l = i) then 1%nat else 0%nat.
Proof.
  intros Hl. unfold at_inode, on_inode. cbn [sum_list_with]. rewrite Hl. cbn [fmap option_fmap option_map].
  repeat case_decide; congruence || lia.
Qed.

Lemma at_inode_live t t' i ps :
  (forall p, p ∈ ps -> exists b, body_of t' p = Some b /\ body_of t p = Some b) -> at_inode t' i ps = at_inode t i ps.
Proof.
  unfold at_inode. induction ps as [|p ps IH]; intros Hps; [done|]. cbn [sum_list_with]. rewrite IH.
  - destruct (Hps p (list_elem_of_here _ _)) as (b & Hb' & Hb). unfold on_inode. by rewrite Hb, Hb'.
  - intros q Hq. apply Hps. by apply list_elem_of_further.
Qed.

Definition refs_exact t (A : list action) : Prop :=
  forall i, irefs t i = Z.of_nat (listed t i + at_inode t i (all pinned A) + cnt i (all unpins A)).

Lemma listed_set t t' k d i :
  keeps (set_dom k d t) t' -> (listed t' i + dom_size i k (doms t k) = listed t i + dom_size i k d)%nat.
Proof. apply (dom_sum_set (dom_size i)). intros k'. unfold dom_size. by case_decide. Qed.

Lemma listed_keeps t t' i : keeps t t' -> listed t' i = listed t i.
Proof. apply dom_sum_keeps. Qed.

Lemma irefs_keeps t t' i : keeps t t' -> irefs t' i = irefs t i.
Proof. intros (_ & E & _). unfold irefs. by rewrite E. Qed.

Lemma irefs_set t t' k d i : keeps (set_dom k d t) t' -> irefs t' i = irefs t i.
Proof. intros Hk. by rewrite (irefs_keeps _ _ i Hk). Qed.

(** ** What an action does to it *)

(** What is taken from the lists and threads, counted in the state before. *)

Definition balanced t a t' (acts : list action) : Prop :=
  forall i, irefs t' i + Z.of_nat (listed t i + at_inode t i (pinned a) + cnt i (unpins a)) =
            irefs t i + Z.of_nat (listed t' i + at_inode t i (all pinned acts) + cnt i (all unpins acts)).

Lemma lock_balanced t b p R t' acts :
  inv t (ALock b p :: R) -> exec (ALock b p) t = Some (t', acts) -> balanced t (ALock b p) t' acts.
Proof.
  intros Hi Hx i. destruct (lock_shape t b p R t' acts Hi Hx) as (l & Hl & Hk). cbn [pinned unpins].
  rewrite (at_inode_one t i p l Hl). destruct Hk as [[-> Hk]|[[-> Hk]|[-> Hk]]].
  - rewrite (irefs_set _ _ _ _ i Hk). apply (listed_set _ _ _ _ i) in Hk. unfold dom_size in Hk. cbn in *. case_decide; lia.
  - rewrite (irefs_set _ _ _ _ i Hk). apply (listed_set _ _ _ _ i) in Hk. unfold dom_size in Hk. cbn [granted waiting] in Hk.
    rewrite length_app in Hk. cbn in *. case_decide; lia.
  - rewrite (irefs_keeps _ _ i Hk), (listed_keeps _ _ i Hk). cbn [all flat_map pinned unpins gathered app].
    rewrite cnt_cons. cbn. case_decide; lia.
Qed.

Lemma granted_once t A k q : inv t A -> q ∈ granted (doms t k) -> cnt q (granted (doms t k)) = 1%nat.
Proof. intros Hi Hq%cnt_elem. pose proof (i_one _ _ Hi k q) as Ho. unfold home in Ho. lia. Qed.

Lemma waiting_once t A k q : inv t A -> q ∈ waiting (doms t k) -> cnt q (waiting (doms t k)) = 1%nat.
Proof. intros Hi Hq%cnt_elem. pose proof (i_one _ _ Hi k q) as Ho. unfold home in Ho. lia. Qed.

Lemma unlock_balanced t p R t' acts :
  inv t (AUnlock p :: R) -> exec (AUnlock p) t = Some (t', acts) -> balanced t (AUnlock p) t' acts.
Proof.
  intros Hi Hx i. destruct (unlock_shape t p t' acts Hx) as (l & ret & Hl & -> & Hk). cbn [pinned unpins].
  rewrite (at_inode_one t i p l Hl), cnt_nil. destruct (after_law ret p (lk_key l)) as (x & r & e & Hp & Hacts).
  assert (at_inode t i (all pinned (after_unlock ret p (lk_key l))) = 0%nat) as ->.
  { assert (all pinned (after_unlock ret p (lk_key l)) ≡ₚ []) as E; [|by rewrite (proj1 (Permutation_nil_r _) E)].
    unfold all. rewrite Hp. destruct (ret =? 0), Hacts as [->|[-> _]]; done. }
  rewrite (cnt_all_perm _ _ _ _ Hp), cnt_all_cons, cnt_all_app. cbn [unpins].
  replace (cnt i (all unpins x)) with 0%nat by (destruct Hacts as [->|[-> _]]; done).
  destruct Hk as [(-> & q & Hq & Hk)|[Hne Hk]].
  - rewrite (irefs_set _ _ _ _ i Hk). apply (listed_set _ _ _ _ i) in Hk. unfold dom_size in Hk. cbn [granted waiting] in Hk.
    pose proof (length_unlink q (granted (doms t (lk_key l)))) as Hlen. rewrite (granted_once t _ _ q Hi Hq) in Hlen.
    cbn [Z.eqb all flat_map unpins app]. rewrite !cnt_cons, !cnt_nil. cbn [lk_key fst] in *. case_decide; lia.
  - rewrite (irefs_keeps _ _ i Hk), (listed_keeps _ _ i Hk). apply Z.eqb_neq in Hne. rewrite Hne.
    cbn [all flat_map unpins app]. rewrite !cnt_cons, !cnt_nil. cbn [lk_key fst] in *. case_decide; lia.
Qed.

Lemma cleaning_balanced t c r u R t' acts :
  inv t (ACleaning c r u :: R) -> exec (ACleaning c r u) t = Some (t', acts) -> balanced t (ACleaning c r u) t' acts.
Proof.
  intros Hi Hx i.
  destruct (cleaning_shape t c r u R t' acts Hi Hx) as [[-> Hk]|(p & l & Hl & [(Hp & -> & Hk)|(Hp & -> & Hk)])];
    cbn [pinned unpins all flat_map gathered app]; rewrite ?app_nil_r, !at_inode_app, ?(at_inode_one t i p l Hl), !cnt_nil.
  - rewrite (irefs_keeps _ _ i Hk), (listed_keeps _ _ i Hk). lia.
  - rewrite (irefs_set _ _ _ _ i Hk). apply (listed_set _ _ _ _ i) in Hk. unfold dom_size in Hk. cbn [granted waiting] in Hk.
    pose proof (length_unlink p (granted (doms t (lk_key l)))) as Hlen. rewrite (granted_once t _ _ p Hi Hp) in Hlen.
    cbn [lk_key fst] in *. case_decide; lia.
  - rewrite (irefs_set _ _ _ _ i Hk). apply (listed_set _ _ _ _ i) in Hk. unfold dom_size in Hk. cbn [granted waiting] in Hk.
    pose proof (length_unlink p (waiting (doms t (lk_key l)))) as Hlen. rewrite (waiting_once t _ _ p Hi Hp) in Hlen.
    cbn [lk_key fst] in *. case_decide; lia.
Qed.

Lemma grant_balanced t k R t' acts :
  inv t (AGrant k :: R) -> exec (AGrant k) t = Some (t', acts) -> balanced t (AGrant k) t' acts.
Proof.
  intros Hi Hx i. destruct (grant_keeps t _ k Hi) as (new & kept & t1 & Hx1 & Hperm & Hk). rewrite Hx in Hx1.
  injection Hx1 as -> ->. apply Permutation_length in Hperm. rewrite length_app in Hperm.
  rewrite (irefs_set _ _ _ _ i Hk). apply (listed_set _ _ _ _ i) in Hk. unfold dom_size in Hk. cbn [granted waiting] in Hk.
  rewrite length_app in Hk. cbn. case_decide; lia.
Qed.

Lemma keeps_balanced t a t' acts :
  keeps t t' -> pinned a ≡ₚ all pinned acts -> unpins a = all unpins acts -> balanced t a t' acts.
Proof. intros Hk Hp Hu i. rewrite (irefs_keeps _ _ i Hk), (listed_keeps _ _ i Hk), Hu. unfold at_inode. by rewrite Hp. Qed.

Lemma exec_balanced t a R t' acts : inv t (a :: R) -> exec a t = Some (t', acts) -> balanced t a t' acts.
Proof.
  intros Hi Hx. destruct a as [cb q|q|q r e|k|[|q todo] ps|c|c r u|[|q u] r|[|q ps]|q i|i].
  - by apply (lock_balanced t cb q R).
  - by apply (unlock_balanced t q R).
  - injection Hx as <- <-. by apply keeps_balanced.
  - by apply (grant_balanced t k R).
  - cbn [exec] in Hx. destruct (unref_locks ps t) as [t1|] eqn:E; [|done]. injection Hx as <- <-.
    apply keeps_balanced; [by apply (keeps_unrefs ps)|done..].
  - cbn [exec] in Hx. destruct (unwind_frame q 0 0 t) as [t1|] eqn:E1; [|done]. cbn [mbind option_bind] in Hx.
    destruct (clear_frame q t1) as [t2|] eqn:E2; [|done]. injection Hx as <- <-. apply keeps_balanced; [|done..].
    apply (keeps_trans t t1); [by apply (keeps_unwind q 0 0)|by apply (keeps_clear q)].
  - injection Hx as <- <-. by apply keeps_balanced.
  - by apply (cleaning_balanced t c r u R).
  - injection Hx as <- <-. apply keeps_balanced; [done| |done]. cbn. by rewrite app_nil_r.
  - cbn [exec] in Hx. destruct (unwind_frame q _ _ t) as [t1|] eqn:E1; [|done]. injection Hx as <- <-.
    apply keeps_balanced; [by apply (keeps_unwind q (-1) EAGAIN)| |done]. cbn. rewrite app_nil_r. solve_Permutation.
  - injection Hx as <- <-. by apply keeps_balanced.
  - cbn [exec] in Hx. destruct (body_of t q) as [l|] eqn:Hl; [|done]. injection Hx as <- <-. intros i.
    cbn [pinned unpins all flat_map gathered app]. rewrite app_nil_r, cnt_cons, cnt_nil.
    change (q :: ps) with ([q] ++ ps). rewrite at_inode_app, (at_inode_one t i q l Hl). case_decide; lia.
  - cbn [exec] in Hx. destruct (unref_lock q t) as [t1|] eqn:E1; [|done]. injection Hx as <- <-.
    apply keeps_balanced; [by apply (keeps_unref q)|done..].
  - injection Hx as <- <-. intros j. change (listed (add_iref i (-1) t) j) with (listed t j).
    cbn [pinned unpins all flat_map gathered app]. rewrite cnt_cons, cnt_nil. unfold irefs at 1. cbn [inode_refs add_iref].
    destruct (decide (i = j)) as [->|Hne]; [rewrite lookup_insert_eq|rewrite lookup_insert_ne by done]; cbn [from_option id];
      unfold irefs; cbn; lia.
Qed.

(** ** Machines *)

Lemma pinned_live t A p : inv t A -> p ∈ all pinned A -> exists b, body_of t p = Some b.
Proof.
  intros Hi Hp. apply list_elem_of_In, in_flat_map in Hp as (a & Ha%list_elem_of_In & Hp%list_elem_of_In).
  apply pinned_tokens in Hp. destruct (token_live t A p Hi (all_elem tokens A a p Ha Hp)) as [o Ho].
  exists (body o). by apply body_of_heap.
Qed.

Lemma exec_refs t a R t' acts :
  inv t (a :: R) -> inv t' (acts ++ R) -> exec a t = Some (t', acts) -> refs_exact t (a :: R) -> refs_exact t' (acts ++ R).
Proof.
  intros Hi Hi' Hx Hr i. specialize (Hr i). pose proof (exec_balanced t a R t' acts Hi Hx i) as Hb.
  assert (Hsame : at_inode t' i (all pinned (acts ++ R)) = at_inode t i (all pinned (acts ++ R))).
  { apply at_inode_live. intros p Hp. destruct (pinned_live t' _ p Hi' Hp) as [b Hb']. exists b. split; [done|].
    by apply (exec_bodies t a R t' acts). }
  rewrite Hsame. unfold all in *. rewrite flat_map_app in *. cbn [flat_map] in Hr. rewrite at_inode_app in *. rewrite cnt_app in *. rewrite flat_map_app, cnt_app. lia.
Qed.

Lemma refs_perm t A B : A ≡ₚ B -> refs_exact t A -> refs_exact t B.
Proof.
  intros Hp Hr i. rewrite (Hr i), (cnt_all_perm unpins i A B Hp). unfold at_inode, all. by rewrite Hp.
Qed.

Lemma request_refs b t A a :
  inv t A -> refs_exact t A -> pinned a = [next t] -> unpins a = [] -> refs_exact (new_lock b t) (a :: A).
Proof.
  intros Hi Hr Hp Hu i. specialize (Hr i). unfold all. cbn [flat_map]. rewrite Hp, Hu, at_inode_app. cbn [app].
  assert (Hn : body_of (new_lock b t) (next t) = Some b).
  { unfold body_of, new_lock. cbn [heap add_iref next]. by rewrite lookup_insert_eq. }
  rewrite (at_inode_one _ i _ b Hn). rewrite (at_inode_live t (new_lock b t)).
  - change (listed (new_lock b t) i) with (listed t i). unfold irefs at 1, new_lock. cbn [inode_refs add_iref].
    unfold all in Hr. destruct (decide (lk_inode b = i)) as [->|Hne];
      [rewrite lookup_insert_eq|rewrite lookup_insert_ne by done]; cbn [from_option id]; unfold irefs in *; lia.
  - intros p Hpin. destruct (pinned_live t A p Hi Hpin) as [l Hl]. exists l. split; [|done]. rewrite new_lock_body; [done|].
    intros ->. unfold body_of in Hl. by rewrite (i_fresh _ _ Hi) in Hl.
Qed.

Lemma step_refs m m' :
  inv (tab m) (todo m) -> step m m' -> refs_exact (tab m) (todo m) -> refs_exact (tab m') (todo m').
Proof.
  intros Hi Hs Hr. pose proof (step_inv m m' Hi Hs) as Hi'. unfold todo in *.
  destruct Hs as [m b cb|m b|m c|m n a rest t acts Hn He Hx]; cbn [tab threads] in *.
  - rewrite concat_app. cbn [concat app]. eapply refs_perm; [apply Permutation_cons_append|]. by apply request_refs.
  - rewrite concat_app. cbn [concat app]. eapply refs_perm; [apply Permutation_cons_append|]. by apply request_refs.
  - rewrite concat_app. cbn [concat app]. eapply refs_perm; [apply Permutation_cons_append|]. exact Hr.
  - destruct (thread_split _ _ _ _ Hn) as (R & HR & Hacts). apply (refs_perm _ _ _ HR) in Hr.
    eapply refs_perm; [symmetry; apply Hacts|]. apply (exec_refs (tab m) a R); [by apply (inv_perm _ _ _ HR)| |done..].
    by apply (inv_perm _ _ _ (Hacts acts)).
Qed.

Lemma reachable_refs m : reachable m -> refs_exact (tab m) (todo m).
Proof.
  induction 1 as [|m m' Hr IH Hs]; [|by apply (step_refs m); [apply reachable_inv|..]].
  intros i. unfold irefs. cbn. by rewrite lookup_empty.
Qed.

End refs.

(** ** Threads finish

    However threads are scheduled, each of the actions they have begun lowers a
    measure, and while one of them is left some thread can go on: the mutex of a
    client is held only by a cleanup, which waits for nothing. *)

Open Scope Z_scope.

(** ** The measure *)

Definition cost (a : action) : nat :=
  match a with
  | ALock _ _ => 11
  | AUnlock _ => 6
  | AAnswer _ _ _ | AInodeUnref _ => 1
  | AGrant _ | ADrop _ _ => 2
  | AFinish todo _ => 1 + length todo
  | AClean _ => 4
  | ACleaning _ r u => 3 + 5 * length r + 6 * length u
  | ACleaned u r => 2 + 6 * length u + 5 * length r
  | AReleased ps => 1 + 5 * length ps
  end%nat.

Definition costs (acts : list action) : nat := sum_list_with cost acts.

Definition dom_weight (d : dom) : nat := (7 * length (granted d) + 9 * length (waiting d))%nat.

Section live.

Context {L : Type} `{LockLaws L}.
Implicit Types (t : table L) (p q : ptr).

Definition weight t : nat := dom_sum (fun _ => dom_weight) t.

Lemma weight_set t t' k d :
  keeps (set_dom k d t) t' ->
  (weight t' + (7 * length (granted (doms t k)) + 9 * length (waiting (doms t k))) =
   weight t + (7 * length (granted d) + 9 * length (waiting d)))%nat.
Proof. intros Hk. by apply (dom_sum_set (fun _ => dom_weight)). Qed.

Lemma weight_keeps t t' : keeps t t' -> weight t' = weight t.
Proof. apply dom_sum_keeps. Qed.

(** ** Every action lowers it *)

Lemma lock_cost t b p R t' acts :
  inv t (ALock b p :: R) -> exec (ALock b p) t = Some (t', acts) -> (costs acts + weight t' < 11 + weight t)%nat.
Proof.
  intros Hi Hx. destruct (lock_shape t b p R t' acts Hi Hx) as (l & _ & [[-> Hk]|[[-> Hk]|[-> Hk]]]).
  - apply weight_set in Hk. cbn [granted waiting length] in Hk. cbn. lia.
  - apply weight_set in Hk. cbn [granted waiting] in Hk. rewrite length_app in Hk. cbn in *. lia.
  - apply weight_keeps in Hk. cbn. lia.
Qed.

Lemma unlock_cost t p t' acts :
  exec (AUnlock p) t = Some (t', acts) -> (costs acts + weight t' < 6 + weight t)%nat.
Proof.
  intros Hx. destruct (unlock_shape t p t' acts Hx) as (l & ret & _ & -> & Hk).
  assert (Hc : (costs (after_unlock ret p (lk_key l)) <= 5)%nat).
  { destruct (after_law ret p (lk_key l)) as (x & r & e & Hp & Hacts). unfold costs. rewrite Hp.
    cbn [sum_list_with cost]. rewrite sum_list_with_app. destruct (ret =? 0), Hacts as [->|[-> _]]; cbn; lia. }
  destruct Hk as [(_ & q & _ & Hk)|[_ Hk]]; [|apply weight_keeps in Hk; lia].
  apply weight_set in Hk. cbn [granted waiting] in Hk. pose proof (length_unlink q (granted (doms t (lk_key l)))). lia.
Qed.

Lemma cleaning_cost t c r u R t' acts :
  inv t (ACleaning c r u :: R) -> exec (ACleaning c r u) t = Some (t', acts) ->
  (costs acts + weight t' < cost (ACleaning c r u) + weight t)%nat.
Proof.
  intros Hi Hx. destruct (cleaning_shape t c r u R t' acts Hi Hx) as [[-> Hk]|(p & l & _ & [(Hp & -> & Hk)|(Hp & -> & Hk)])].
  - apply weight_keeps in Hk. cbn. lia.
  - apply weight_set in Hk. cbn [granted waiting] in Hk. apply cnt_elem in Hp.
    pose proof (length_unlink p (granted (doms t (lk_key l)))). cbn [costs sum_list_with cost]. rewrite length_app. cbn [length]. lia.
  - apply weight_set in Hk. cbn [granted waiting] in Hk. apply cnt_elem in Hp.
    pose proof (length_unlink p (waiting (doms t (lk_key l)))). cbn [costs sum_list_with cost]. rewrite length_app. cbn [length]. lia.
Qed.

Lemma grant_cost t k R t' acts :
  inv t (AGrant k :: R) -> exec (AGrant k) t = Some (t', acts) -> (costs acts + weight t' < 2 + weight t)%nat.
Proof.
  intros Hi. destruct (grant_keeps t _ k Hi) as (new & kept & t1 & -> & Hperm & Hk). intros [= <- <-].
  apply Permutation_length in Hperm. rewrite length_app in Hperm. apply weight_set in Hk. cbn [granted waiting] in Hk.
  rewrite length_app in Hk. cbn [costs sum_list_with cost]. lia.
Qed.

Lemma exec_cost t a R t' acts :
  inv t (a :: R) -> exec a t = Some (t', acts) -> (costs acts + weight t' < cost a + weight t)%nat.
Proof.
  intros Hi. destruct a as [b p|p|p r e|k|[|p todo] ps|c|c r u|[|p u] r|[|p ps]|p i|i].
  - by apply (lock_cost t b p R).
  - by apply (unlock_cost t p).
  - intros [= <- <-]. rewrite (weight_keeps t) by done. cbn. lia.
  - by apply (grant_cost t k R).
  - cbn [exec]. destruct (unref_locks ps t) as [t1|] eqn:E; [|done]. cbn [mbind option_bind]. intros [= <- <-].
    rewrite (weight_keeps t) by (by apply (keeps_unrefs ps)). cbn. lia.
  - cbn [exec]. destruct (unwind_frame p 0 0 t) as [t1|] eqn:E1; [|done]. cbn [mbind option_bind].
    destruct (clear_frame p t1) as [t2|] eqn:E2; [|done]. cbn [mbind option_bind]. intros [= <- <-].
    rewrite (weight_keeps t); [cbn; lia|]. by apply (keeps_trans t t1); [apply (keeps_unwind p 0 0)|apply (keeps_clear p)].
  - intros [= <- <-]. rewrite (weight_keeps t) by done. cbn. lia.
  - by apply (cleaning_cost t c r u R).
  - intros [= <- <-]. cbn. lia.
  - cbn [exec]. destruct (unwind_frame p _ _ t) as [t1|] eqn:E1; [|done]. cbn [mbind option_bind]. intros [= <- <-].
    rewrite (weight_keeps t) by (by apply (keeps_unwind p (-1) EAGAIN)). cbn. rewrite length_app. cbn. lia.
  - intros [= <- <-]. cbn. lia.
  - cbn [exec]. destruct (body_of t p) as [b|]; [|done]. cbn [mbind option_bind]. intros [= <- <-]. cbn. lia.
  - cbn [exec]. destruct (unref_lock p t) as [t1|] eqn:E1; [|done]. cbn [mbind option_bind]. intros [= <- <-].
    rewrite (weight_keeps t) by (by apply (keeps_unref p)). cbn. lia.
  - intros [= <- <-]. change (weight (add_iref i (-1) t)) with (weight t). cbn. lia.
Qed.

(** ** Somebody can go on *)

Inductive advance : machine (L := L) -> machine (L := L) -> Prop :=
| advance_exec m n a rest t acts :
    threads m !! n = Some (a :: rest) -> enabled a (tab m) = true -> exec a (tab m) = Some (t, acts) ->
    advance m {| tab := t; threads := <[n := acts ++ rest]> (threads m) |}.

Lemma advance_step m m' : advance m m' -> step m m'.
Proof. destruct 1. by eapply step_exec. Qed.

Lemma advance_lowers m m' :
  reachable m -> advance m m' -> (costs (todo m') + weight (tab m') < costs (todo m) + weight (tab m))%nat.
Proof.
  intros Hr Ha. apply reachable_inv in Hr. destruct Ha as [m n a rest t acts Hn He Hx].
  destruct (thread_split _ _ _ _ Hn) as (R & HR & Hacts). unfold todo in *. cbn [threads tab]. unfold costs.
  rewrite (Hacts acts), HR. apply (inv_perm _ _ _ HR) in Hr. pose proof (exec_cost _ _ _ _ _ Hr Hx) as Hc.
  rewrite sum_list_with_app. cbn [sum_list_with]. unfold costs in Hc. lia.
Qed.

(** A cleanup is what its thread does first, so it can always go on. *)

Definition cleaning (a : action) : bool := match a with ACleaning _ _ _ => true | _ => false end.

Definition shaped (th : list action) : Prop := forall a, a ∈ tail th -> cleaning a = false.

Lemma exec_shaped a t t' acts : exec a t = Some (t', acts) -> shaped acts.
Proof.
  intros Hx b Hb. destruct a as [cb p|p|p r e|k|[|p todo] ps|c|c r u|[|p u] r|[|p ps]|p i|i]; cbn [exec] in Hx.
  2: { destruct (body_of t p) as [l|]; [|done]. cbn [mbind option_bind] in Hx.
       destruct (unlock_section p t) as [[ret t1]|]; [|done]. cbn [mbind option_bind] in Hx. injection Hx as _ <-.
       destruct (after_law ret p (lk_key l)) as (x & r & e & Hp & Hxs).
       assert (Hin : b ∈ after_unlock ret p (lk_key l)) by (destruct (after_unlock _ _ _); [done|by apply list_elem_of_further]).
       rewrite Hp in Hin. rewrite elem_of_cons, elem_of_app in Hin.
       destruct (ret =? 0), Hxs as [->|[-> _]]; rewrite !elem_of_cons, !elem_of_nil in Hin; naive_solver. }
  all: repeat match type of Hx with
       | mbind _ ?o = Some _ => let v := fresh in destruct o as [v|]; [|done]; try destruct v; cbn [mbind option_bind] in Hx
       | match lockers ?t ?c with _ => _ end = _ => destruct (lockers t c)
       end; injection Hx as _ <-;
       repeat match goal with H : _ ∈ tail (if ?c then _ else _) |- _ => destruct c end;
       cbn [tail] in Hb; rewrite ?elem_of_cons, ?elem_of_nil in Hb; naive_solver.
Qed.

Lemma reachable_shaped m : reachable m -> forall th, th ∈ threads m -> shaped th.
Proof.
  induction 1 as [|m m' _ IH Hs]; intros th Hth; [by apply not_elem_of_nil in Hth|].
  destruct Hs as [m b cb|m b|m c|m n a rest t acts Hn He Hx]; cbn [threads] in Hth.
  1-3: apply elem_of_app in Hth as [Hth|Hth]; [by apply IH|]; apply list_elem_of_singleton in Hth as ->;
    intros a Ha; by apply not_elem_of_nil in Ha.
  apply list_elem_of_lookup in Hth as [j Hj]. destruct (decide (n = j)) as [<-|Hne].
  - rewrite list_lookup_insert_eq in Hj by (by eapply lookup_lt_Some). injection Hj as <-.
    assert (Hrest : shaped (a :: rest)) by (apply IH; by eapply list_elem_of_lookup_2).
    intros b Hb. destruct acts as [|x acts]; cbn [app tail] in Hb.
    + apply Hrest. cbn [tail]. destruct rest; [done|by apply list_elem_of_further].
    + apply elem_of_app in Hb as [Hb|Hb]; [by apply (exec_shaped _ _ _ _ Hx)|by apply Hrest].
  - rewrite list_lookup_insert_ne in Hj by done. apply IH. by eapply list_elem_of_lookup_2.
Qed.

Lemma disabled_held a t : enabled (L := L) a t = false -> exists c, (0 < cnt c (held t))%nat.
Proof.
  assert (Hx : forall c, negb (existsb (Nat.eqb c) (held t)) = false -> exists c, (0 < cnt c (held t))%nat).
  { intros c Hc. exists c. apply linked_cnt. by apply negb_false_iff in Hc. }
  assert (Hp : forall p, client_free t p = false -> exists c, (0 < cnt c (held t))%nat).
  { intros p. unfold client_free. destruct (lk_client <$> body_of t p) as [[c|]|]; [apply Hx|done..]. }
  destruct a; cbn [enabled]; done || apply Hp || apply Hx.
Qed.

Lemma cleans_inv c A : (0 < cnt c (all cleans A))%nat -> exists r u, ACleaning c r u ∈ A.
Proof.
  intros Hc%cnt_elem. apply list_elem_of_In, in_flat_map in Hc as (a & Ha%list_elem_of_In & Hc%list_elem_of_In).
  destruct a; cbn [cleans] in Hc; try by apply not_elem_of_nil in Hc. apply list_elem_of_singleton in Hc as ->. eauto.
Qed.

Lemma head_advances m n a rest :
  reachable m -> threads m !! n = Some (a :: rest) -> enabled a (tab m) = true -> exists m', advance m m'.
Proof.
  intros Hr Hn He. destruct (reachable_exec m n a rest Hr Hn He) as [[t acts] Hx]. eexists. by eapply advance_exec.
Qed.

Lemma advances m : reachable m -> ~ quiet m -> exists m', advance m m'.
Proof.
  intros Hr Hq. assert (exists n a rest, threads m !! n = Some (a :: rest)) as (n & a & rest & Hn).
  { unfold quiet in Hq. destruct (Forall_Exists_dec (fun th => th = []) (fun th => decide (th = [])) (threads m)) as [|He]; [done|].
    apply Exists_exists in He as (th & Hth & Hne). apply list_elem_of_In, list_elem_of_lookup in Hth as [n Hn].
    destruct th as [|a rest]; [done|]. by exists n, a, rest. }
  destruct (enabled a (tab m)) eqn:He; [by apply (head_advances m n a rest)|].
  apply disabled_held in He as [c Hc]. pose proof (reachable_inv m Hr) as Hi. rewrite <- (proj1 (i_held _ _ Hi c)) in Hc.
  apply cleans_inv in Hc as (r & u & Hin). unfold todo in Hin. apply list_elem_of_In, in_concat in Hin as (th & Hth & Hin).
  apply list_elem_of_In in Hth, Hin. pose proof (reachable_shaped m Hr th Hth) as Hsh.
  apply list_elem_of_lookup in Hth as [j Hj]. destruct th as [|b th]; [by apply not_elem_of_nil in Hin|].
  apply elem_of_cons in Hin as [<-|Hin]; [by apply (head_advances m j (ACleaning c r u) th)|].
  specialize (Hsh _ Hin). done.
Qed.

Lemma advance_acc m : reachable m -> Acc (flip advance) m.
Proof.
  remember (costs (todo m) + weight (tab m))%nat as n eqn:Hn. revert m Hn.
  induction n as [n IH] using lt_wf_ind. intros m -> Hr. constructor. intros m' Ha. cbn [flip] in Ha.
  eapply IH; [|reflexivity|]; [by apply advance_lowers|]. eapply reachable_step; [done|by apply advance_step].
Qed.

Lemma advance_reachable m m' : reachable m -> rtc advance m m' -> reachable m'.
Proof. intros Hr. induction 1 as [|m m1 m' Ha _ IH]; [done|]. apply IH. eapply reachable_step; [done|by apply advance_step]. Qed.

End live.
