(* ===== verification/DomProps.v ===== *)
(** * Inode and entry locks: what they guarantee

    For both kinds of locks and every interleaving of requests, unlocks, grants
    and disconnects: nothing that was freed is used, and nothing is leaked;
    locks that conflict are not held by two owners; a request is answered once;
    a lock that waits has somebody to wait for; threads finish; and a client
    that has been cleaned up has no locks. *)

From Stdlib Require Import ZArith Lia Bool String List.
From stdpp Require Import base list gmap strings relations.
From S2P Require Import Prelude.
From S2P Require Import Locks.
From S2P Require Import DomTable.
From S2P Require Import Inodelk.
From S2P Require Import Entrylk.
From S2P Require Import DomSpec.
From S2P Require Import DomInv.
From S2P Require Import DomActs.
From S2P Require Import DomSafe.
From S2P Require Import DomRun.
From S2P Require Import DomLive.

Open Scope Z_scope.

(** ** Schedules *)

Inductive move (L : Type) :=
| MLock (can_block : bool) (b : L)
| MUnlock (b : L)
| MDisconnect (c : nat)
| MGo (n : nat).
Arguments MLock {L} _ _.
Arguments MUnlock {L} _.
Arguments MDisconnect {L} _.
Arguments MGo {L} _.

Section schedule.

Context {L : Type} `{LockKind L}.

Definition play1 (v : move L) (m : machine (L := L)) : option (machine (L := L)) :=
  match v with
  | MLock cb b => Some {| tab := new_lock b (tab m); threads := threads m ++ [[ALock cb (next (tab m))]] |}
  | MUnlock b => Some {| tab := new_lock b (tab m); threads := threads m ++ [[AUnlock (next (tab m))]] |}
  | MDisconnect c => Some {| tab := tab m; threads := threads m ++ [[AClean c]] |}
  | MGo n =>
      match threads m !! n with
      | Some (a :: rest) =>
          if enabled a (tab m)
          then '(t, acts) ← exec a (tab m); Some {| tab := t; threads := <[n := acts ++ rest]> (threads m) |}
          else None
      | _ => None
      end
  end.

Fixpoint play (vs : list (move L)) (m : machine (L := L)) : option (machine (L := L)) :=
  match vs with [] => Some m | v :: vs => m ← play1 v m; play vs m end.

Lemma play1_step v m m' : play1 v m = Some m' -> step m m'.
Proof.
  destruct v as [cb b|b|c|n]; cbn [play1]; [intros [= <-]; constructor..|].
  destruct (threads m !! n) as [[|a rest]|] eqn:Hn; [done| |done]. destruct (enabled a (tab m)) eqn:He; [|done].
  destruct (exec a (tab m)) as [[t acts]|] eqn:Hx; [|done]. cbn [mbind option_bind]. intros [= <-]. by eapply step_exec.
Qed.

Lemma play_reachable vs m m' : reachable m -> play vs m = Some m' -> reachable m'.
Proof.
  revert m. induction vs as [|v vs IH]; intros m Hr; cbn [play]; [by intros [= <-]|].
  destruct (play1 v m) as [m1|] eqn:E; [|done]. cbn [mbind option_bind]. apply IH.
  eapply reachable_step; [done|by apply (play1_step v)].
Qed.

Definition after (vs : list (move L)) : machine (L := L) := default start (play vs start).

Lemma after_reachable vs : reachable (after vs).
Proof.
  unfold after. destruct (play vs start) as [m|] eqn:E; [|apply reachable_start].
  apply (play_reachable vs start); [apply reachable_start|done].
Qed.

End schedule.

(** ** Examples *)

Module Example.

Definition ino (ty : lk_type) (start len : Z) (c : nat) : pl_inode_lock :=
  new_inode_lock {| l_type := ty; l_start := start; l_len := len; l_pid := 0; l_owner := [] |} (Some c) [Z.of_nat c] 1 "d".

Definition ent (name : option string) (c : nat) : pl_entry_lock :=
  new_entrylk_lock 1 name ENTRYLK_WRLCK "d" (Some c) [Z.of_nat c].

(** Client 1 writes, clients 2 and 3 wait to read. *)

Definition readers_wait : list (move pl_inode_lock) :=
  [MLock true (ino F_WRLCK 0 100 1); MGo 0; MGo 0;
   MLock true (ino F_RDLCK 50 0 2); MGo 1; MLock true (ino F_RDLCK 0 0 3); MGo 2].

(** Client 1 disconnects, and both are granted. *)

Definition cleaning_up : list (move pl_inode_lock) := readers_wait ++ [MDisconnect 1; MGo 3; MGo 3].

Definition readers_granted : list (move pl_inode_lock) := cleaning_up ++ repeat (MGo 3) 10.

(** Client 1 has a name and then the directory, client 2 waits for another name. *)

Definition directory_waits : list (move pl_entry_lock) :=
  [MLock true (ent (Some "a"%string) 1); MGo 0; MGo 0; MLock false (ent None 1); MGo 1; MGo 1;
   MLock true (ent (Some "b"%string) 2); MGo 2].

End Example.

Section props.

Context {L : Type} `{LockLaws L}.

(** C8. Whatever a thread does next is defined in every state, so no list and no
    thread has a lock that was freed. When no thread is at work the locks that
    exist are those that are granted or wait, each with one reference, and each
    keeps one reference to its inode. *)

Theorem locks_never_dangle (m : machine (L := L)) :
  reachable m ->
  (forall n a rest, threads m !! n = Some (a :: rest) -> enabled a (tab m) = true -> is_Some (exec a (tab m))) /\
  (quiet m -> forall p,
     (is_Some (heap (tab m) !! p) <-> exists k, p ∈ granted (doms (tab m) k) ++ waiting (doms (tab m) k)) /\
     forall o, heap (tab m) !! p = Some o -> ref o = 1) /\
  (quiet m -> forall i, irefs (tab m) i = Z.of_nat (listed (tab m) i)).
Proof.
  intros Hr. split_and!; [intros n a rest; by apply reachable_exec| |].
  2: { intros Hq i. pose proof (reachable_refs m Hr i) as E. rewrite (quiet_todo m Hq) in E. cbn in E. rewrite E. lia. }
  intros Hq p. pose proof (quiet_inv m Hr Hq) as Hi.
  pose proof (i_ref _ _ Hi p) as Hp. rewrite cnt_all_nil in Hp. split; [split|].
  - intros [o Ho]. rewrite Ho in Hp. exists (lk_key (body o)). apply cnt_elem. rewrite cnt_app. unfold home in Hp. lia.
  - intros [k Hk]. apply cnt_elem in Hk. rewrite cnt_app in Hk. destruct (home_live (tab m) [] k p Hi) as (o & Ho & _); [done|by exists o].
  - intros o Ho. rewrite Ho in Hp. pose proof (i_one _ _ Hi (lk_key (body o)) p). lia.
Qed.

(** C27. No request is answered twice; and when no thread is at work the requests
    that have not been answered are those whose lock waits. *)

Theorem lock_requests_answered (m : machine (L := L)) p :
  reachable m -> (p < next (tab m))%nat ->
  (answers (tab m) p <= 1)%nat /\
  (quiet m -> answers (tab m) p = 0%nat <-> exists k, p ∈ waiting (doms (tab m) k)).
Proof.
  intros Hr Hp. split; [pose proof (i_once _ _ (reachable_inv m Hr) p Hp); lia|]. intros Hq.
  pose proof (quiet_inv m Hr Hq) as Hi. pose proof (i_once _ _ Hi p Hp) as Ho. rewrite cnt_all_nil in Ho. split.
  - intros Hz. unfold waits in Ho. destruct (key_of (tab m) p) as [k|]; [|lia]. exists k. apply cnt_elem. lia.
  - intros [k Hk%cnt_elem]. enough (waits (tab m) p <> 0%nat) by lia.
    rewrite (waits_home (tab m) k); [lia|]. apply (i_home _ _ Hi). unfold home. lia.
Qed.

(** C18. When no thread is at work a lock that waits conflicts with one that is
    granted to another owner, or with one that waits before it. In a domain
    where nothing is granted nobody waits. *)

Theorem lock_waits_for_a_reason (m : machine (L := L)) k :
  reachable m -> quiet m ->
  (forall w1 p w2, waiting (doms (tab m) k) = w1 ++ p :: w2 ->
     exists l, body_of (tab m) p = Some l /\
       ((exists q l', q ∈ granted (doms (tab m) k) /\ body_of (tab m) q = Some l' /\
           conflict l l' = true /\ same_owner l l' = false) \/
        (exists q l', q ∈ w1 /\ body_of (tab m) q = Some l' /\ conflict l l' = true))) /\
  (granted (doms (tab m) k) = [] -> waiting (doms (tab m) k) = []).
Proof.
  intros Hr Hq. pose proof (quiet_inv m Hr Hq) as Hi. destruct (lists_live _ _ k Hi) as [_ Lw].
  destruct (i_wake _ _ Hi k) as [(a & Ha & _)|Hre]; [by apply not_elem_of_nil in Ha|]. split.
  - intros w1 p w2 Hw. destruct (live_body _ _ p Lw) as [l Hl]; [rewrite Hw, elem_of_app, elem_of_cons; auto|].
    exists l. split; [done|]. destruct (Hre w1 p w2 l Hw Hl) as [(q & Hq' & b & Hb)|(q & Hq' & b & Hb)]; [left|right]; exists q, b; tauto.
  - intros Hg. destruct (waiting (doms (tab m) k)) as [|p w] eqn:Hw; [done|].
    destruct (live_body _ _ p Lw (list_elem_of_here _ _)) as [l Hl]. rewrite Hg in Hre.
    destruct (Hre [] p w l eq_refl Hl) as [(q & Hq' & _)|(q & Hq' & _)]; by apply not_elem_of_nil in Hq'.
Qed.

(** C28. However the threads are scheduled, without new requests they come to an end,
    and they do not come to it before each of them has done all of its work: as
    long as one has something left to do, one of them can go on. *)

Theorem lock_threads_finish (m : machine (L := L)) :
  reachable m ->
  Acc (flip advance) m /\ forall m', rtc advance m m' -> ~ quiet m' -> exists m'', advance m' m''.
Proof.
  intros Hr. split; [by apply advance_acc|]. intros m' Hm. apply advances. by apply (advance_reachable m).
Qed.

(** Who gives the mutex of a client back. *)

Lemma releases_mutex (m m' : machine (L := L)) c :
  reachable m -> step m m' -> c ∈ held (tab m) -> c ∉ held (tab m') ->
  lockers (tab m) c = [] /\ doms (tab m') = doms (tab m) /\ heap (tab m') = heap (tab m).
Proof.
  intros Hr Hs Hc Hc'. pose proof (reachable_inv m Hr) as Hi. pose proof (step_inv m m' Hi Hs) as Hi'. unfold todo in *.
  destruct Hs as [m b cb|m b|m c0|m n a rest t acts Hn He Hx]; cbn [tab threads] in *; [by destruct Hc'..|].
  destruct (thread_split _ _ _ _ Hn) as (R & HR & Hacts).
  apply (inv_perm _ _ _ HR) in Hi. apply (inv_perm _ _ _ (Hacts acts)) in Hi'.
  pose proof (proj1 (i_held _ _ Hi c)) as E. pose proof (proj1 (i_held _ _ Hi' c)) as E'.
  apply cnt_elem in Hc. rewrite cnt_elem in Hc'. rewrite cnt_all_cons in E. rewrite cnt_all_app in E'.
  assert (Ha : (0 < cnt c (cleans a))%nat) by lia. apply cnt_elem in Ha.
  destruct a as [| | | | | |c1 r u| | | |]; cbn [cleans] in Ha; try by apply not_elem_of_nil in Ha.
  apply list_elem_of_singleton in Ha as <-. cbn [exec] in Hx. destruct (lockers (tab m) c) as [|p ps].
  - by injection Hx as <- <-.
  - destruct (clean_section _ _) as [[g t1]|]; [|done]. cbn [mbind option_bind] in Hx. injection Hx as <- <-.
    rewrite cnt_all_cons in E'. destruct g; cbn [cleans] in E'; rewrite cnt_cons, decide_True in E' by done; lia.
Qed.

(** C26. When the cleanup of a client gives its mutex back, no lock of the client is
    granted or waits, on any inode. *)

Theorem disconnect_releases_all (m m' : machine (L := L)) c :
  reachable m -> step m m' -> c ∈ held (tab m) -> c ∉ held (tab m') ->
  forall k p l, p ∈ granted (doms (tab m') k) ++ waiting (doms (tab m') k) ->
    body_of (tab m') p = Some l -> lk_client l <> Some c.
Proof.
  intros Hr Hs Hc Hc' k p l Hp Hl Hcl. destruct (releases_mutex m m' c Hr Hs Hc Hc') as (Hlk & Hd & Hh).
  unfold body_of in Hl. rewrite Hd in Hp. rewrite Hh in Hl. pose proof (reachable_inv m Hr) as Hi.
  apply cnt_elem in Hp. rewrite cnt_app in Hp. destruct (home_live _ _ k p Hi Hp) as (o & Ho & <-).
  rewrite Ho in Hl. injection Hl as <-. pose proof (i_lockers _ _ Hi c p) as E. rewrite Hlk, Ho, decide_True in E by done.
  rewrite cnt_nil in E. unfold home in E. lia.
Qed.

End props.

(** ** Exclusion *)

(** C17. Two owners have inode locks on a common byte of a file, in one domain, only
    when both are read locks. *)

Theorem inodelks_exclude (m : machine (L := pl_inode_lock)) k p q l l' x :
  reachable m -> p ∈ granted (doms (tab m) k) -> q ∈ granted (doms (tab m) k) ->
  body_of (tab m) p = Some l -> body_of (tab m) q = Some l' -> same_inodelk_owner l l' = false ->
  Inodelk.fl_start l <= x <= Inodelk.fl_end l -> Inodelk.fl_start l' <= x <= Inodelk.fl_end l' ->
  Inodelk.fl_type l <> F_WRLCK /\ Inodelk.fl_type l' <> F_WRLCK.
Proof.
  intros Hr Hp Hq Hl Hl' Ho Hx Hx'. pose proof (i_excl _ _ (reachable_inv m Hr) k p q l l' Hp Hq Hl Hl') as He.
  cbn [conflict same_owner inodelk_laws] in He. unfold inodelk_conflict, inodelk_overlap, inodelk_type_conflict in He.
  rewrite (proj2 (Z.leb_le _ _)), (proj2 (Z.leb_le _ _)) in He by lia. cbn [andb] in He.
  destruct (is_type (Inodelk.fl_type l') F_WRLCK || is_type (Inodelk.fl_type l) F_WRLCK) eqn:E.
  - destruct (He eq_refl) as [?|<-]; [congruence|]. rewrite Hl in Hl'. injection Hl' as <-.
    unfold same_inodelk_owner in Ho. by rewrite !bool_decide_true in Ho.
  - apply orb_false_iff in E as [E1 E2]. split; intros Ht; rewrite Ht in *; done.
Qed.

(** C29. A name of a directory is locked by one owner in a domain. *)

Theorem entrylks_exclude (m : machine (L := pl_entry_lock)) k p q l l' name :
  reachable m -> p ∈ granted (doms (tab m) k) -> q ∈ granted (doms (tab m) k) ->
  body_of (tab m) p = Some l -> body_of (tab m) q = Some l' ->
  (basename l = None \/ basename l = Some name) -> (basename l' = None \/ basename l' = Some name) ->
  Entrylk.owner l = Entrylk.owner l' /\ Entrylk.client l = Entrylk.client l'.
Proof.
  intros Hr Hp Hq Hl Hl' Hn Hn'. pose proof (i_excl _ _ (reachable_inv m Hr) k p q l l' Hp Hq Hl Hl') as He.
  cbn [conflict same_owner entrylk_laws] in He.
  destruct He as [He|<-]; [|..|rewrite Hl in Hl'; by injection Hl' as <-].
  - unfold entrylk_conflict, names_conflict. destruct Hn as [->| ->], Hn' as [->| ->]; cbn [all_names orb]; try done. by apply bool_decide_true.
  - unfold __same_entrylk_owner in He. rewrite andb_true_iff, !bool_decide_eq_true in He. done.
Qed.

(** ** Witnesses *)

Lemma readers_wait_quiet : quiet (after Example.readers_wait).
Proof. vm_compute. repeat constructor. Qed.

Lemma locks_never_dangle_witness :
  (forall o, heap (tab (after Example.readers_wait)) !! 1%nat = Some o -> ref o = 1) /\
  irefs (tab (after Example.readers_wait)) 1 = Z.of_nat (listed (tab (after Example.readers_wait)) 1).
Proof.
  destruct (locks_never_dangle (after Example.readers_wait) (after_reachable _)) as (_ & H1 & H2).
  split; [apply (H1 readers_wait_quiet 1%nat)|apply (H2 readers_wait_quiet)].
Defined.

Lemma lock_requests_answered_witness :
  (answers (tab (after Example.readers_granted)) 1 <= 1)%nat /\
  (answers (tab (after Example.readers_wait)) 1 = 0%nat <-> exists k, 1%nat ∈ waiting (doms (tab (after Example.readers_wait)) k)).
Proof.
  split.
  - apply (lock_requests_answered (after Example.readers_granted) 1 (after_reachable _)). vm_compute. lia.
  - apply (lock_requests_answered (after Example.readers_wait) 1 (after_reachable _)); [vm_compute; lia|].
    exact readers_wait_quiet.
Defined.

Lemma lock_waits_for_a_reason_witness :
  let t := tab (after Example.readers_wait) in
  waiting (doms t (1%nat, "d"%string)) = [1%nat] ++ 2%nat :: [] /\
  exists l, body_of t 2 = Some l /\
    ((exists q l', q ∈ granted (doms t (1%nat, "d"%string)) /\ body_of t q = Some l' /\ conflict l l' = true /\ same_owner l l' = false) \/
     (exists q l', q ∈ [1%nat] /\ body_of t q = Some l' /\ conflict l l' = true)).
Proof.
  split; [vm_compute; reflexivity|].
  apply (lock_waits_for_a_reason (after Example.readers_wait) (1%nat, "d"%string) (after_reachable _) readers_wait_quiet)
    with (w2 := []).
  vm_compute. reflexivity.
Defined.

Lemma lock_threads_finish_witness :
  Acc (flip advance) (after Example.cleaning_up) /\ exists m, advance (after Example.cleaning_up) m.
Proof.
  destruct (lock_threads_finish (after Example.cleaning_up) (after_reachable _)) as [H1 H2]. split; [exact H1|].
  apply H2; [apply rtc_refl|]. intros Hq. vm_compute in Hq.
  repeat match goal with H : Forall _ (_ :: _) |- _ => inversion H; clear H; subst end. discriminate.
Defined.

Lemma disconnect_releases_all_witness :
  linked 1 (waiting (doms (tab (after (Example.cleaning_up ++ [MGo 3]))) (1%nat, "d"%string))) = true /\
  lk_client (Example.ino F_RDLCK 50 0 2) <> Some 1%nat.
Proof.
  split; [vm_compute; reflexivity|].
  apply (disconnect_releases_all (after Example.cleaning_up) (after (Example.cleaning_up ++ [MGo 3])) 1)
    with (k := (1%nat, "d"%string)) (p := 1%nat).
  - apply after_reachable.
  - apply (play1_step (MGo 3)). vm_compute. reflexivity.
  - apply list_elem_of_In. vm_compute. by left.
  - rewrite list_elem_of_In. vm_compute. tauto.
  - apply list_elem_of_In. vm_compute. tauto.
  - vm_compute. reflexivity.
Defined.

Lemma inodelks_exclude_witness : Inodelk.fl_type (Example.ino F_RDLCK 50 0 2) <> F_WRLCK.
Proof.
  apply (inodelks_exclude (after Example.readers_granted) (1%nat, "d"%string) 1 2
           (Example.ino F_RDLCK 50 0 2) (Example.ino F_RDLCK 0 0 3) 60).
  - apply after_reachable.
  - apply list_elem_of_In. vm_compute. tauto.
  - apply list_elem_of_In. vm_compute. tauto.
  - vm_compute. reflexivity.
  - vm_compute. reflexivity.
  - vm_compute. reflexivity.
  - vm_compute. split; discriminate.
  - vm_compute. split; discriminate.
Defined.

Lemma entrylks_exclude_witness :
  Entrylk.owner (Example.ent (Some "a"%string) 1) = Entrylk.owner (Example.ent None 1) /\
  Entrylk.client (Example.ent (Some "a"%string) 1) = Entrylk.client (Example.ent None 1).
Proof.
  apply (entrylks_exclude (after Example.directory_waits) (1%nat, "d"%string) 0 1
           (Example.ent (Some "a"%string) 1) (Example.ent None 1) "a").
  - apply after_reachable.
  - apply list_elem_of_In. vm_compute. tauto.
  - apply list_elem_of_In. vm_compute. tauto.
  - vm_compute. reflexivity.
  - vm_compute. reflexivity.
  - by right.
  - by left.
Defined.
