(* ===== verification/DomClear.v ===== *)
(** * Inode and entry locks: clearing locks

    The clear-locks command of an administrator
    (xlators/features/locks/src/clear.c) takes locks out of the lists of a domain
    in one thread, with the mutex of the inode held while it goes through a list.

    The command is defined on its own and is not a step of the machine of
    DomTable.v, because it does not keep what the machine keeps:
    [clear_inodelk_spec] says what it does to a domain when no thread is at work,
    and that the client of a cleared lock still lists it after it is freed;
    [cleared_lock_used] and [cleared_entries_used] are the runs that follow. *)

From Stdlib Require Import ZArith Lia Bool String List.
From stdpp Require Import base list gmap strings relations.
From S2P Require Import Prelude.
From S2P Require Import Locks.
From S2P Require Import DomTable.
From S2P Require Import Inodelk.
From S2P Require Import Entrylk.
From S2P Require Import DomSpec.
From S2P Require Import DomInv.
From S2P Require Import DomRun.
From S2P Require Import DomProps.

Open Scope Z_scope.

(** ** Arguments *)

Definition CLRLK_BLOCKED : Z := 1.
Definition CLRLK_GRANTED : Z := 2.
Definition CLRLK_ALL : Z := 3.
Definition CLRLK_KIND_MAX : Z := 4.

Definition clrlk_get_kind (kind : string) : Z :=
  if String.eqb "blocked" kind then CLRLK_BLOCKED
  else if String.eqb "granted" kind then CLRLK_GRANTED
  else if String.eqb "all" kind then CLRLK_ALL
  else CLRLK_KIND_MAX.

Lemma clrlk_get_kind_range s : clrlk_get_kind s <> CLRLK_KIND_MAX -> 1 <= clrlk_get_kind s <= 3.
Proof. unfold clrlk_get_kind. repeat case_match; unfold CLRLK_BLOCKED, CLRLK_GRANTED, CLRLK_ALL; lia || done. Qed.

Definition asks_for (kind bit : Z) : bool := negb (Z.land kind bit =? 0).

Section clear.

Context {L : Type}.
Implicit Types t : table L.

(** The locks of a list that are asked for, and the others. [sel] is the test
    of the loop: the range of the lock, or its base name, is the one that was
    given, or none was given. *)

Fixpoint select (sel : L -> bool) t (ps : list ptr) : option (list ptr * list ptr) :=
  match ps with
  | [] => Some ([], [])
  | p :: ps =>
      l ← body_of t p;
      '(yes, no) ← select sel t ps;
      Some (if sel l then (p :: yes, no) else (yes, p :: no))
  end.

(** The locks that waited are answered and dropped. *)

Fixpoint clear_blocked (ps : list ptr) t : option (table L) :=
  match ps with
  | [] => Some t
  | p :: ps =>
      t ← unwind_frame p (-1) EAGAIN t;
      t ← unref_lock p t;
      clear_blocked ps t
  end.

End clear.

(** ** Inode locks *)

(** The part that goes on after the locks that wait, or that is all of it. *)

Definition clear_granted_inodelks (sel : pl_inode_lock -> bool) (k : key) (t : table pl_inode_lock)
    : option (Z * table pl_inode_lock) :=
  '(yes, no) ← select sel t (granted (doms t k));
  let t := set_dom k {| granted := no; waiting := waiting (doms t k) |} t in
  t ← unref_locks (reverse yes) t;
  Some (Z.of_nat (length yes), t).

(** The numbers of locks cleared, and what is left to do: to grant others. *)

Definition clrlk_clear_inodelk (kind : Z) (sel : pl_inode_lock -> bool) (k : key) (t : table pl_inode_lock)
    : option (Z * Z * table pl_inode_lock * list action) :=
  if negb (asks_for kind CLRLK_BLOCKED) && asks_for kind CLRLK_GRANTED
  then '(gcount, t) ← clear_granted_inodelks sel k t; Some (0, gcount, t, [AGrant k])
  else
    '(yes, no) ← select sel t (waiting (doms t k));
    let t := set_dom k {| granted := granted (doms t k); waiting := no |} t in
    t ← clear_blocked (reverse yes) t;
    let bcount := Z.of_nat (length yes) in
    if negb (asks_for kind CLRLK_GRANTED) then Some (bcount, 0, t, [AGrant k])
    else '(gcount, t) ← clear_granted_inodelks sel k t; Some (bcount, gcount, t, [AGrant k]).

(** ** Entry locks *)

(** A lock is put at the tail of a list, which writes to the lock before it, and
    is then dropped in the same loop. [last] is the tail of that list. *)

Fixpoint remove_entrylks (last : option ptr) (ps : list ptr) (t : table pl_entry_lock) : option (table pl_entry_lock) :=
  match ps with
  | [] => Some t
  | p :: ps =>
      _ ← (match last with Some q => ref <$> heap t !! q | None => Some 0 end);
      t ← unref_lock p t;
      remove_entrylks (Some p) ps t
  end.

Definition clear_granted_entrylks (sel : pl_entry_lock -> bool) (k : key) (t : table pl_entry_lock)
    : option (Z * table pl_entry_lock) :=
  '(yes, no) ← select sel t (granted (doms t k));
  let t := set_dom k {| granted := no; waiting := waiting (doms t k) |} t in
  t ← remove_entrylks None yes t;
  Some (Z.of_nat (length yes), t).

Definition clrlk_clear_entrylk (kind : Z) (sel : pl_entry_lock -> bool) (k : key) (t : table pl_entry_lock)
    : option (Z * Z * table pl_entry_lock * list action) :=
  if negb (asks_for kind CLRLK_BLOCKED) && asks_for kind CLRLK_GRANTED
  then '(gcount, t) ← clear_granted_entrylks sel k t; Some (0, gcount, t, [AGrant k])
  else
    '(yes, no) ← select sel t (waiting (doms t k));
    let t := set_dom k {| granted := granted (doms t k); waiting := no |} t in
    t ← clear_blocked yes t;
    let bcount := Z.of_nat (length yes) in
    if negb (asks_for kind CLRLK_GRANTED) then Some (bcount, 0, t, [])
    else '(gcount, t) ← clear_granted_entrylks sel k t; Some (bcount, gcount, t, [AGrant k]).

(** ** What clearing does *)

Section spec.

Context {L : Type} `{LockLaws L}.
Implicit Types t : table L.

Definition chosen (sel : L -> bool) t (p : ptr) : bool :=
  match body_of t p with Some l => sel l | None => false end.

Definition others (sel : L -> bool) t (p : ptr) : bool := negb (chosen sel t p).

Lemma select_live sel t ps :
  live_all t ps -> select sel t ps = Some (List.filter (chosen sel t) ps, List.filter (others sel t) ps).
Proof.
  induction ps as [|p ps IH]; intros Hl; [done|]. cbn [select List.filter].
  destruct (live_body t _ p Hl (list_elem_of_here _ _)) as [l Hb]. rewrite Hb. cbn [mbind option_bind].
  rewrite IH by (by apply (live_cons t p)). cbn [mbind option_bind]. assert (chosen sel t p = sel l) as E by (unfold chosen; by rewrite Hb).
  assert (others sel t p = negb (sel l)) as -> by (unfold others; by rewrite E). rewrite E. by destruct (sel l).
Qed.

(** Locks with one reference are dropped. *)

Definition single t (p : ptr) : Prop := exists o, heap t !! p = Some o /\ ref o = 1.

Definition freed (ps : list ptr) t : table L := set_heap (foldr delete (heap t) ps) t.

Lemma foldr_delete_lookup ps (h : gmap ptr (lock L)) q :
  foldr delete h ps !! q = if decide (q ∈ ps) then None else h !! q.
Proof.
  induction ps as [|p ps IH]; cbn [foldr]; [by rewrite decide_False by apply not_elem_of_nil|].
  destruct (decide (q = p)) as [->|Hq].
  - rewrite lookup_delete_eq, decide_True; [done|apply list_elem_of_here].
  - rewrite lookup_delete_ne, IH by done. repeat case_decide; [done|..|done]; exfalso; rewrite elem_of_cons in *; tauto.
Qed.

Lemma foldr_delete_comm ps (h : gmap ptr (lock L)) p : foldr delete (delete p h) ps = delete p (foldr delete h ps).
Proof. induction ps as [|q ps IH]; [done|]. cbn [foldr]. rewrite IH. apply delete_delete. Qed.

Lemma unref_single t p : single t p -> unref_lock p t = Some (freed [p] t).
Proof. intros (o & Ho & Hr). unfold unref_lock. rewrite Ho. cbn [mbind option_bind]. by rewrite Hr. Qed.

Lemma unrefs_single ps t : NoDup ps -> (forall p, p ∈ ps -> single t p) -> unref_locks ps t = Some (freed ps t).
Proof.
  revert t. induction ps as [|p ps IH]; intros t Hnd Hs; [by destruct t|]. apply NoDup_cons in Hnd as [Hp Hnd].
  cbn [unref_locks]. rewrite unref_single by (apply Hs, list_elem_of_here). cbn [mbind option_bind]. rewrite IH; [|done|].
  - unfold freed. cbn [foldr heap set_heap]. by rewrite foldr_delete_comm.
  - intros q Hq. destruct (Hs q) as (o & Ho & Hr); [by apply list_elem_of_further|]. exists o. split; [|done].
    cbn [heap freed set_heap foldr]. rewrite lookup_delete_ne; [done|]. by intros ->.
Qed.

Definition answered (ps : list ptr) t : table L :=
  {| heap := heap t; dom_list := dom_list t; locker_list := locker_list t; held := held t; inode_refs := inode_refs t;
     replied := replied t ++ ((fun p => (p, -1, EAGAIN)) <$> ps); next := next t |}.

Lemma clear_blocked_single ps t :
  NoDup ps -> (forall p, p ∈ ps -> exists o, heap t !! p = Some o /\ ref o = 1 /\ pending o = true) ->
  clear_blocked ps t = Some (answered ps (freed ps t)).
Proof.
  revert t. induction ps as [|p ps IH]; intros t Hnd Hs.
  { unfold answered, freed. cbn. rewrite app_nil_r. by destruct t. }
  apply NoDup_cons in Hnd as [Hp Hnd]. destruct (Hs p (list_elem_of_here _ _)) as (o & Ho & Hr & Hpe).
  cbn [clear_blocked]. unfold unwind_frame. rewrite Ho. cbn [mbind option_bind]. rewrite Hpe.
  rewrite unref_single by (exists o; done). cbn [mbind option_bind]. rewrite IH; [|done|].
  - unfold answered, freed. cbn [foldr heap set_heap add_reply replied fmap list_fmap]. rewrite foldr_delete_comm, <- app_assoc. done.
  - intros q Hq. destruct (Hs q) as (o' & Ho' & Hr'); [by apply list_elem_of_further|]. exists o'. split; [|done].
    cbn [heap freed set_heap foldr add_reply]. rewrite lookup_delete_ne; [done|]. by intros ->.
Qed.

(** In a quiet state the lists of a domain have no lock twice, and each of their
    locks has one reference; those that wait are to be answered. *)

Lemma cnt_NoDup (ps : list ptr) : (forall p, (cnt p ps <= 1)%nat) -> NoDup ps.
Proof.
  induction ps as [|p ps IH]; intros Hc; [constructor|]. apply NoDup_cons. split.
  - intros Hp%cnt_elem. specialize (Hc p). rewrite cnt_cons, decide_True in Hc by done. lia.
  - apply IH. intros q. specialize (Hc q). rewrite cnt_cons in Hc. lia.
Qed.

Lemma quiet_lists t k :
  inv t [] ->
  NoDup (granted (doms t k)) /\ NoDup (waiting (doms t k)) /\
  (forall p, p ∈ granted (doms t k) -> single t p /\ p ∉ waiting (doms t k)) /\
  (forall p, p ∈ waiting (doms t k) -> exists o, heap t !! p = Some o /\ ref o = 1 /\ pending o = true).
Proof.
  intros Hi. assert (Hone : forall p, (cnt p (granted (doms t k)) + cnt p (waiting (doms t k)) <= 1)%nat) by apply (i_one _ _ Hi k).
  assert (Hs : forall p, (0 < cnt p (granted (doms t k)) + cnt p (waiting (doms t k)))%nat -> single t p).
  { intros p Hp. destruct (home_live t [] k p Hi Hp) as (o & Ho & Hk). exists o. split; [done|].
    pose proof (i_ref _ _ Hi p) as Hr. rewrite Ho, cnt_all_nil in Hr. pose proof (i_one _ _ Hi (lk_key (body o)) p). lia. }
  split_and!.
  - apply cnt_NoDup. intros p. specialize (Hone p). lia.
  - apply cnt_NoDup. intros p. specialize (Hone p). lia.
  - intros p Hp%cnt_elem. split; [apply Hs; lia|]. rewrite cnt_elem. specialize (Hone p). lia.
  - intros p Hp%cnt_elem. destruct (Hs p) as (o & Ho & Hr); [lia|]. exists o. split_and!; [done..|].
    apply (i_pend _ _ Hi p); [done|]. rewrite (waits_home t k); [lia|]. apply (i_home _ _ Hi). unfold home. lia.
Qed.

End spec.

Lemma filter_elem {A} (f : A -> bool) l x : x ∈ List.filter f l <-> x ∈ l /\ f x = true.
Proof. rewrite !list_elem_of_In. apply filter_In. Qed.

Lemma NoDup_picked {A} (f : A -> bool) l : NoDup l -> NoDup (reverse (List.filter f l)).
Proof. intros Hl. rewrite reverse_Permutation. by apply NoDup_ListNoDup, List.NoDup_filter, NoDup_ListNoDup. Qed.

Lemma clear_granted_spec sel k t :
  NoDup (granted (doms t k)) -> (forall p, p ∈ granted (doms t k) -> single t p) ->
  let gs := List.filter (chosen sel t) (granted (doms t k)) in
  clear_granted_inodelks sel k t =
    Some (Z.of_nat (length gs),
      freed (reverse gs) (set_dom k {| granted := List.filter (others sel t) (granted (doms t k)); waiting := waiting (doms t k) |} t)).
Proof.
  intros Hnd Hs gs. unfold clear_granted_inodelks. rewrite select_live; [|intros p Hp; destruct (Hs p Hp) as (o & Ho & _); by exists o].
  cbn [mbind option_bind]. rewrite unrefs_single; [done|..].
  - by apply NoDup_picked.
  - intros p. rewrite elem_of_reverse, filter_elem. intros [Hp _]. by apply Hs.
Qed.

(** The locks that wait are cleared before those that are granted. *)

Lemma chosen_freed sel (t : table pl_inode_lock) k d ps p : p ∉ ps -> chosen sel (answered ps (freed ps (set_dom k d t))) p = chosen sel t p.
Proof.
  intros Hp. unfold chosen, body_of. cbn [heap answered freed set_heap set_dom]. by rewrite foldr_delete_lookup, decide_False.
Qed.

Lemma clear_both_spec sel k (t : table pl_inode_lock) :
  inv t [] ->
  let ws := List.filter (chosen sel t) (waiting (doms t k)) in
  let gs := List.filter (chosen sel t) (granted (doms t k)) in
  let t1 := answered (reverse ws)
    (freed (reverse ws) (set_dom k {| granted := granted (doms t k); waiting := List.filter (others sel t) (waiting (doms t k)) |} t)) in
  doms t1 k = {| granted := granted (doms t k); waiting := List.filter (others sel t) (waiting (doms t k)) |} /\
  clear_granted_inodelks sel k t1 =
    Some (Z.of_nat (length gs), freed (reverse gs) (set_dom k {| granted := List.filter (others sel t) (granted (doms t k));
      waiting := List.filter (others sel t) (waiting (doms t k)) |} t1)).
Proof.
  intros Hi ws gs t1. destruct (quiet_lists t k Hi) as (Ng & Nw & Hg & Hw).
  assert (Hd : doms t1 k = {| granted := granted (doms t k); waiting := List.filter (others sel t) (waiting (doms t k)) |}).
  { unfold doms at 1. cbn [dom_list t1 answered freed set_heap set_dom]. by rewrite lookup_insert_eq. }
  assert (Hout : forall p, p ∈ granted (doms t k) -> p ∉ reverse ws).
  { intros p Hp. rewrite elem_of_reverse. unfold ws. rewrite filter_elem. intros [Hp' _]. by destruct (Hg p Hp). }
  assert (Hc : forall p, p ∈ granted (doms t k) -> chosen sel t1 p = chosen sel t p) by (intros p Hp; by apply chosen_freed, Hout).
  split; [done|]. rewrite clear_granted_spec; rewrite ?Hd; cbn [granted waiting]; [|done|].
  - replace (List.filter (chosen sel t1) (granted (doms t k))) with gs
      by (apply List.filter_ext_in; intros p Hp; symmetry; apply Hc; by apply list_elem_of_In).
    replace (List.filter (others sel t1) (granted (doms t k))) with (List.filter (others sel t) (granted (doms t k))); [done|].
    apply List.filter_ext_in. intros p Hp. unfold others. f_equal. symmetry. apply Hc. by apply list_elem_of_In.
  - intros p Hp. destruct (Hg p Hp) as [(o & Ho & Hr) _]. exists o. split; [|done].
    cbn [heap t1 answered freed set_heap set_dom]. rewrite foldr_delete_lookup, decide_False; [done|]. by apply Hout.
Qed.

(** Clearing the inode locks of a domain, when no thread is at work: the locks
    asked for leave the domain, the others stay in their order; those that waited
    are answered EAGAIN; the cleared locks are freed and counted; other locks and
    domains are untouched, and the waiting locks are tried next. The lists of the
    clients and the references to the inode are what they were: a client still
    lists a lock that is freed, and the reference of a cleared lock is lost. *)

Theorem clear_inodelk_spec (m : machine (L := pl_inode_lock)) kind sel k :
  reachable m -> quiet m -> 1 <= kind <= 3 ->
  let t := tab m in
  let pick (b : bool) ps := if b then List.filter (chosen sel t) ps else [] in
  let keep (b : bool) ps := if b then List.filter (others sel t) ps else ps in
  let ws := pick (asks_for kind CLRLK_BLOCKED) (waiting (doms t k)) in
  let gs := pick (asks_for kind CLRLK_GRANTED) (granted (doms t k)) in
  exists t',
    clrlk_clear_inodelk kind sel k t = Some (Z.of_nat (length ws), Z.of_nat (length gs), t', [AGrant k]) /\
    dom_list t' = <[k := {| granted := keep (asks_for kind CLRLK_GRANTED) (granted (doms t k));
                            waiting := keep (asks_for kind CLRLK_BLOCKED) (waiting (doms t k)) |}]> (dom_list t) /\
    replied t' = replied t ++ ((fun p => (p, -1, EAGAIN)) <$> reverse ws) /\
    (forall p, heap t' !! p = if decide (p ∈ ws ++ gs) then None else heap t !! p) /\
    locker_list t' = locker_list t /\ inode_refs t' = inode_refs t.
Proof.
  intros Hr Hq Hk t pick keep ws gs. pose proof (quiet_inv m Hr Hq) as Hi. fold t in Hi.
  destruct (quiet_lists t k Hi) as (Ng & Nw & Hg & Hw). destruct (lists_live t [] k Hi) as [_ Lw].
  assert (Hwait : forall d, clear_blocked (reverse (List.filter (chosen sel t) (waiting (doms t k)))) (set_dom k d t) =
    Some (answered (reverse (List.filter (chosen sel t) (waiting (doms t k))))
            (freed (reverse (List.filter (chosen sel t) (waiting (doms t k)))) (set_dom k d t)))).
  { intros d. apply clear_blocked_single; [by apply NoDup_picked|]. intros p. rewrite elem_of_reverse, filter_elem.
    intros [Hp _]. by apply Hw. }
  unfold clrlk_clear_inodelk. assert (kind = 1 \/ kind = 2 \/ kind = 3) as [->|[->| ->]] by lia;
    cbn [asks_for CLRLK_BLOCKED CLRLK_GRANTED Z.land Z.eqb negb andb Pos.land Pos.eqb] in *.
  - rewrite select_live by done. cbn [mbind option_bind]. rewrite Hwait. cbn [mbind option_bind].
    eexists. split; [reflexivity|]. split_and!; try done. intros p. cbn [heap answered freed set_heap set_dom].
    rewrite foldr_delete_lookup. unfold ws, gs, pick. rewrite app_nil_r. repeat case_decide; rewrite elem_of_reverse in *; done.
  - rewrite clear_granted_spec; [|done|intros p Hp; by apply Hg]. cbn [mbind option_bind].
    eexists. split; [reflexivity|]. split_and!; try done; [cbn; by rewrite app_nil_r|]. intros p. cbn [heap freed set_heap set_dom].
    rewrite foldr_delete_lookup. unfold ws, gs, pick. cbn [app]. repeat case_decide; rewrite elem_of_reverse in *; done.
  - rewrite select_live by done. cbn [mbind option_bind]. rewrite Hwait. cbn [mbind option_bind].
    destruct (clear_both_spec sel k t Hi) as [_ ->]. cbn [mbind option_bind].
    eexists. split; [reflexivity|]. split_and!; try done.
    + cbn [dom_list freed set_heap set_dom answered]. by rewrite insert_insert_eq.
    + intros p. cbn [heap answered freed set_heap set_dom]. rewrite !foldr_delete_lookup. unfold ws, gs, pick.
      repeat case_decide; rewrite ?elem_of_app, ?elem_of_reverse in *; tauto.
Qed.

Lemma clear_inodelk_spec_witness :
  exists t', clrlk_clear_inodelk CLRLK_ALL (fun _ => true) (1%nat, "d"%string) (tab (after Example.readers_wait)) =
    Some (2, 1, t', [AGrant (1%nat, "d"%string)]) /\ locker_list t' = locker_list (tab (after Example.readers_wait)).
Proof.
  destruct (clear_inodelk_spec (after Example.readers_wait) CLRLK_ALL (fun _ => true) (1%nat, "d"%string)
              (after_reachable _) readers_wait_quiet) as (t' & E & _ & _ & _ & Hl & _); [vm_compute; split; discriminate|].
  exists t'. split; [|exact Hl]. rewrite E. f_equal.
Defined.

(** ** What follows *)

(** A lock of client 1 is granted and is cleared; when the client disconnects its
    cleanup reads the freed lock. *)

Lemma cleared_lock_used :
  exists t', clrlk_clear_inodelk CLRLK_GRANTED (fun _ => true) (1%nat, "d"%string) (tab (after Example.readers_wait)) =
      Some (0, 1, t', [AGrant (1%nat, "d"%string)]) /\
    exec (AClean 1) t' = Some (set_held [1%nat] t', [ACleaning 1 [] []]) /\
    exec (ACleaning 1 [] []) (set_held [1%nat] t') = None.
Proof. eexists. split; [vm_compute; reflexivity|]. split; vm_compute; reflexivity. Qed.

(** When two granted entry locks of a domain are cleared, the first is freed while
    it is the tail of the list that the second is added to. *)

Lemma cleared_entries_used :
  length (granted (doms (tab (after Example.directory_waits)) (1%nat, "d"%string))) = 2%nat /\
  clrlk_clear_entrylk CLRLK_GRANTED (fun _ => true) (1%nat, "d"%string) (tab (after Example.directory_waits)) = None.
Proof. split; vm_compute; reflexivity. Qed.
