(* ===== verification/Active.v ===== *)
(** * Programs on indexed files

    The active part of xlators/features/imess-server/src/imess-server-ipc.c: a
    request of type [exec] or [extractor] selects files by a query and runs a
    program on every one of them. The lines that the program prints become the
    rows of the reply ([exec]), or extended attributes of the file and of the
    index ([extractor]). And [ims_ipc] of imess-server.c, which tells the types
    of requests apart.

    The programs and the attributes of the files belong to the operating
    system: they are the class [Host], with the documented behaviour of the
    system calls as the laws of [HostLaws]. What a program prints is taken as a
    whole when it starts. *)

From Stdlib Require Import ZArith Lia Bool Ascii String.
From stdpp Require Import base list strings gmap.
From S2P Require Import Prelude Sqlite Xdb XdbSpec CLib Dict DictTyped Uuid ImsAsync ImsServer.
From S2P Require Import Query QuerySpec DhtIpc.

(** ** The host *)

Definition EEXIST : Z := 17.
Definition XATTR_CREATE : Z := 1.
Definition XATTR_REPLACE : Z := 2.

(** [run_program operator path]: [None] when [runner_start] fails, and
    otherwise what the program prints and what [runner_end] returns. A system
    call gives its result and [errno]; [sys_lgetxattr] gives the bytes. *)

Class Host (F : Type) := {
  run_program : list ascii -> list ascii -> F -> option (list ascii * Z) * F;
  sys_lsetxattr : list ascii -> string -> list ascii -> Z -> Z -> F -> Z * Z * F;
  sys_lgetxattr : list ascii -> string -> F -> option (list ascii)
}.

(** A call that succeeds has set the attribute to the first [size] bytes of the
    buffer, and no attribute of another name or of another file (one with
    another gfid); one that fails has changed nothing;
    [XATTR_CREATE] is refused with [EEXIST] when the attribute exists. The
    status of a program is an [int]. *)

Class HostLaws (F : Type) `{!Host F} : Prop := {
  set_done p n v size flags f e f' :
    sys_lsetxattr p n v size flags f = (0, e, f') -> 0 <= size <= Z.of_nat (length v) ->
    sys_lgetxattr p n f' = Some (take (Z.to_nat size) v) /\
    forall p' n', n' <> n \/ sys_lgetxattr p' "trusted.gfid" f <> sys_lgetxattr p "trusted.gfid" f ->
      sys_lgetxattr p' n' f' = sys_lgetxattr p' n' f;
  set_failed p n v size flags f r e f' :
    sys_lsetxattr p n v size flags f = (r, e, f') -> r <> 0 -> r = -1 /\ f' = f;
  set_exists p n v size f old :
    sys_lgetxattr p n f = Some old -> 0 <= size <= Z.of_nat (length v) ->
    exists f', sys_lsetxattr p n v size XATTR_CREATE f = (-1, EEXIST, f');
  status_int op p f out st f' :
    run_program op p f = (Some (out, st), f') -> in_s 32 st
}.

(** The names that a user may give to attributes, and a host on which the
    attributes of the files of the brick (those with a gfid) can be set. *)

Definition user_name (n : string) : bool := String.prefix "user." n.

Class HealthyHost (F : Type) `{!Host F} : Prop := {
  create_ok p n v size f :
    is_Some (sys_lgetxattr p "trusted.gfid" f) -> user_name n = true ->
    sys_lgetxattr p n f = None -> 0 <= size <= Z.of_nat (length v) -> size < PATH_MAX ->
    exists e f', sys_lsetxattr p n v size XATTR_CREATE f = (0, e, f');
  replace_ok p n v size f :
    is_Some (sys_lgetxattr p n f) -> user_name n = true ->
    0 <= size <= Z.of_nat (length v) -> size < PATH_MAX ->
    exists e f', sys_lsetxattr p n v size XATTR_REPLACE f = (0, e, f')
}.

(** ** Lines *)

Definition newline : ascii := "010"%char.

(** [fgets] with room for [n] characters: the line and the rest. *)

Fixpoint fgets (n : nat) (l : list ascii) : list ascii * list ascii :=
  match n, l with
  | S n', c :: l' =>
      if Ascii.eqb c newline then ([c], l')
      else let '(a, rest) := fgets n' l' in (c :: a, rest)
  | _, _ => ([], l)
  end.

Definition LINE : nat := Z.to_nat (PATH_MAX - 1).

(** [strchr (line, '=')]: what stands before and after. *)

Fixpoint split_eq (l : list ascii) : option (list ascii * list ascii) :=
  match l with
  | [] => None
  | c :: l' =>
      if Ascii.eqb c "=" then Some ([], l')
      else '(k, v) ← split_eq l'; Some (c :: k, v)
  end.

(** A key in a buffer of 12 bytes. *)

Definition keybuf12 (n : Z) : option string :=
  if Z.of_nat (length (dec n)) + 1 <=? 12 then Some (key_of n) else None.

(** [brick_path] and the path of the file, in [PATH_MAX] bytes. *)

Definition brick_file (brick_path : list ascii) (file : option (list ascii))
    : option (list ascii) :=
  let path := brick_path ++ cell_text file in
  if Z.of_nat (length path) + 1 <=? PATH_MAX then Some path else None.

(** The copy of the string cannot fail here. *)

Definition dict_set_dynstr_with_alloc (this : dict_t) (key : string) (str : list ascii)
    : Z * dict_t := dict_set_dynstr this key (Some (cut str)).

(** ** State *)

(** The query side of the connection, the worker of deferred updates (a null
    pointer when updates are synchronous), the answers of the allocator and the
    host. *)

Record active (conn F : Type) := {
  ac_query : query_xdb conn; ac_ctx : option (ims_async conn); ac_allocs : list bool; ac_host : F
}.
Arguments ac_query {conn F}.
Arguments ac_ctx {conn F}.
Arguments ac_allocs {conn F}.
Arguments ac_host {conn F}.
Arguments Build_active {conn F}.

Definition IMS_IPC_TYPE_EXEC : Z := 1.
Definition IMS_IPC_TYPE_FILTER : Z := 2.
Definition IMS_IPC_TYPE_EXTRACTOR : Z := 3.

Section active.
Context {conn F : Type} `{!SqlQuery conn, !SqlEngine conn, !Host F}.

(** [strtod] and [fmt_lf] convert doubles from and to text, [brick_path] is the
    directory of the brick and [errno] what a library call has left there. *)

Variable strtod : list ascii -> Z.
Variable fmt_lf : Z -> list ascii.
Variable brick_path : list ascii.
Variable errno : Z.
Abbreviation V := (M (active conn F)).

Definition on_host {B} (m : F -> B * F) : V B := fun s =>
  let '(b, f) := m (ac_host s) in
  Some (b, {| ac_query := ac_query s; ac_ctx := ac_ctx s; ac_allocs := ac_allocs s;
              ac_host := f |}).

Definition on_query {B} (m : M (query_xdb conn) B) : V B := fun s =>
  match m (ac_query s) with
  | Some (b, q) =>
      Some (b, {| ac_query := q; ac_ctx := ac_ctx s; ac_allocs := ac_allocs s;
                  ac_host := ac_host s |})
  | None => None
  end.

Definition dup (s : option string) : V (option string) := fun st =>
  let '(r, al) := strdup s (ac_allocs st) in
  Some (r, {| ac_query := ac_query st; ac_ctx := ac_ctx st; ac_allocs := al;
              ac_host := ac_host st |}).

(** *** Running a program for its output *)

(** The rows that the lines of [out] become: the reply and the next row. *)

Fixpoint exec_lines (fuel : nat) (out : list ascii) (result : dict_t) (count : Z)
    : option (dict_t * Z) :=
  match fuel, out with
  | _, [] => Some (result, count)
  | O, _ => None
  | S fuel', _ =>
      let '(ptr, rest) := fgets LINE out in
      rkey ← keybuf12 count;
      let '(ret, result') := dict_set_dynstr_with_alloc result rkey ptr in
      if negb (ret =? 0) then Some (result', count)
      else exec_lines fuel' rest result' (u64 (count + 1))
  end.

(** The path of file [i]; a key that is not there leaves [file] alone. *)

Definition next_file (xfiles : dict_t) (i : Z) (file : option (list ascii))
    : option (option (list ascii)) :=
  key ← keybuf12 i;
  let '(ret, f) := dict_get_str xfiles key in
  Some (if ret =? 0 then match f with Some t => Some (cut t) | None => file end else file).

Fixpoint exec_files (n : nat) (i : Z) (operator : list ascii) (xfiles : dict_t)
    (file : option (list ascii)) (op_ret : Z) (result : dict_t) (count : Z)
    : V (Z * dict_t * Z) :=
  match n with
  | O => m_ret (op_ret, result, count)
  | S n' =>
      file <~ m_deref (next_file xfiles i file);;
      path <~ m_deref (brick_file brick_path file);;
      r <~ on_host (run_program operator path);;
      match r with
      | None => exec_files n' (i + 1) operator xfiles file (-1) result count
      | Some (out, status) =>
          q <~ m_deref (exec_lines (length out) out result count);;
          let '(result, count) := q in
          exec_files n' (i + 1) operator xfiles file status result count
      end
  end.

(** The end of both loops: the code, the error and the reply. *)

Definition finish_files (q : Z * dict_t * Z) (err : Z) : Z * Z * dict_t :=
  let '(op_ret, result, count) := q in
  let '(r1, d1) := dict_set_int32 result "ret" op_ret in
  let '(r2, d2) := dict_set_uint64 d1 "count" count in
  (Z.lor r1 r2, if Z.lor r1 r2 =? 0 then err else errno, d2).

Definition ipc_active_work_files_exec (operator : list ascii) (xfiles result : dict_t) (err : Z)
    : V (Z * Z * dict_t) :=
  n <~ m_deref (dict_get_uint64 xfiles "count");;
  let '(op_ret, n_files) := n in
  q <~ exec_files (Z.to_nat (default 0 n_files)) 0 operator xfiles None op_ret result 0;;
  m_ret (finish_files q err).

(** *** Running a program for attributes *)

(** The name, the type and the values of a line; the string is a copy. *)

Definition parse_line_to_xattr (line : list ascii) : V (Z * Z * ims_xdb_attr) :=
  match split_eq (cut line) with
  | None => m_ret (-1, EINVAL, no_attr)
  | Some (key, val) =>
      if PATH_MAX <? Z.of_nat (length val) + 1 then m_undef
      else
        let '(type, ival, rval, sval) := classify strtod val in
        sval <~ dup sval;;
        m_ret (0, 0, {| xa_gfid := None; xa_type := type;
                        xa_name := Some (string_of_list_ascii key);
                        xa_ival := ival; xa_rval := rval; xa_sval := sval |})
  end.

(** The text of a value, in [PATH_MAX] bytes. *)

Definition value_text (x : ims_xdb_attr) : option (list ascii) :=
  if xa_type x =? IMS_XDB_TYPE_INTEGER then Some (dec (xa_ival x))
  else if xa_type x =? IMS_XDB_TYPE_REAL then Some (fmt_lf (xa_rval x))
  else if xa_type x =? IMS_XDB_TYPE_STRING
  then Some (cell_text (list_ascii_of_string <$> xa_sval x))
  else None.

(** The first sixteen bytes of a buffer of zeros that [sys_lgetxattr] has
    written to. *)

Definition gfid_bytes (v : option (list ascii)) : uuid_t :=
  code <$> take 16 (default [] v ++ replicate 16 "000"%char).

Definition with_gfid (x : ims_xdb_attr) (g : string) : ims_xdb_attr :=
  {| xa_gfid := Some g; xa_type := xa_type x; xa_name := xa_name x; xa_ival := xa_ival x;
     xa_rval := xa_rval x; xa_sval := xa_sval x |}.

Definition set_attr (path : list ascii) (x : ims_xdb_attr) (value : list ascii) (size flags : Z)
    : V (Z * Z) :=
  name <~ m_deref (xa_name x);;
  on_host (fun f => let '(r, e, f') := sys_lsetxattr path name value size flags f in ((r, e), f')).

Definition ims_sys_setxattr (path : list ascii) (x : ims_xdb_attr) : V (Z * ims_xdb_attr) :=
  match value_text x with
  | None => m_ret (-1, x)
  | Some value =>
      if PATH_MAX <? Z.of_nat (length value) + 1 then m_undef
      else
        let size := Z.of_nat (length value) in
        let size := if xa_type x =? IMS_XDB_TYPE_STRING then u64 (size - 1) else size in
        r <~ set_attr path x value size XATTR_CREATE;;
        let '(op_ret, e) := r in
        r <~ (if (op_ret =? -1) && (e =? EEXIST)
              then r <~ set_attr path x value size XATTR_REPLACE;;
                   m_ret (r.1, negb (r.1 =? 0))
              else m_ret (op_ret, false));;
        let '(op_ret, out) := r in
        if out : bool then m_ret (op_ret, x)
        else
          s <~ m_get;;
          m_ret (op_ret, with_gfid x (uuid_utoa (gfid_bytes
            (sys_lgetxattr path "trusted.gfid" (ac_host s)))))
  end.

(** [ims_async_put_task (priv->async_ctx, ..)], where the context may be a null
    pointer. *)

Definition put_xattr_task (task : ims_task) : V Z := fun s =>
  let keep ctx al := {| ac_query := ac_query s; ac_ctx := ctx; ac_allocs := al;
                        ac_host := ac_host s |} in
  match ac_ctx s with
  | Some a =>
      '((r, al), a') ← ims_async_put_task task (ac_allocs s) a;
      Some (r, keep (Some a') al)
  | None =>
      let '(cp, al) := task_dup task (ac_allocs s) in
      match cp with
      | None => Some (-1, keep None al)
      | Some _ => None
      end
  end.

(** The code and the error. *)

Definition extractor_setxattr (path line : list ascii) : V (Z * Z) :=
  p <~ parse_line_to_xattr line;;
  let '(op_ret, op_errno, x) := p in
  if negb (op_ret =? 0) then m_ret (op_ret, op_errno)
  else
    r <~ ims_sys_setxattr path x;;
    let '(op_ret, x) := r in
    if negb (op_ret =? 0) then m_ret (op_ret, errno)
    else
      r <~ put_xattr_task {| t_op := IMS_TASK_INSERT_XATTR; t_file := no_file; t_sb := no_stat;
                             t_attr := x |};;
      m_ret (r, op_errno).

(** The lines of one program: how many attributes have been set, and the last
    error. A line that fails ends the loop. *)

Fixpoint extract_lines (fuel : nat) (path out : list ascii) (err count : Z) : V (Z * Z) :=
  match fuel, out with
  | _, [] => m_ret (err, count)
  | O, _ => m_undef
  | S fuel', _ =>
      let '(ptr, rest) := fgets LINE out in
      r <~ extractor_setxattr path ptr;;
      let '(op_ret, err) := r in
      if negb (op_ret =? 0) then m_ret (err, count)
      else extract_lines fuel' path rest err (u64 (count + 1))
  end.

Fixpoint extract_files (n : nat) (i : Z) (operator : list ascii) (xfiles : dict_t)
    (file : option (list ascii)) (op_ret err count : Z) : V (Z * Z * Z) :=
  match n with
  | O => m_ret (op_ret, err, count)
  | S n' =>
      file <~ m_deref (next_file xfiles i file);;
      path <~ m_deref (brick_file brick_path file);;
      r <~ on_host (run_program operator path);;
      match r with
      | None => extract_files n' (i + 1) operator xfiles file (-1) err count
      | Some (out, status) =>
          q <~ extract_lines (length out) path out err count;;
          let '(err, count) := q in
          extract_files n' (i + 1) operator xfiles file status err count
      end
  end.

Definition ipc_active_work_files_extract (operator : list ascii) (xfiles result : dict_t)
    (err : Z) : V (Z * Z * dict_t) :=
  n <~ m_deref (dict_get_uint64 xfiles "count");;
  let '(op_ret, n_files) := n in
  q <~ extract_files (Z.to_nat (default 0 n_files)) 0 operator xfiles None op_ret err 0;;
  let '(op_ret, err, count) := q in
  m_ret (finish_files (op_ret, result, count) err).

(** *** Requests *)

Definition zero_time : list ascii := list_ascii_of_string "0.000000".

(** [latency] is the time that the programs take. *)

Definition ims_ipc_active_exec (xdata_in xdata_out : dict_t) (type : Z) (latency : list ascii)
    : V (Z * Z * dict_t) :=
  let done (op_errno : Z) (xdata_out : dict_t) (latency : list ascii) : V (Z * Z * dict_t) :=
    let '(op_ret, d) := dict_set_double xdata_out "runtime" latency in
    m_ret (op_ret, op_errno, d) in
  let '(op_ret, sql) := dict_get_str xdata_in "sql" in
  if negb (op_ret =? 0) then m_ret (op_ret, EINVAL, xdata_out)
  else
  let '(op_ret, operator) := dict_get_str xdata_in "operator" in
  if negb (op_ret =? 0) then m_ret (op_ret, EINVAL, xdata_out)
  else
  q <~ on_query (ims_xdb_direct_query (text_of sql) dict_new);;
  let '(op_ret, xfiles) := q in
  if negb (op_ret =? 0) then m_ret (op_ret, EIO, xdata_out)
  else
  c <~ m_deref (dict_get_uint64 xfiles "count");;
  let '(op_ret, count) := c in
  if negb (op_ret =? 0) then m_ret (op_ret, EINVAL, xdata_out)
  else if default 0 count =? 0 then
    let '(_, d1) := dict_set_int32 xdata_out "ret" 0 in
    let '(_, d2) := dict_set_uint64 d1 "count" 0 in
    done 0 d2 zero_time
  else if type =? IMS_IPC_TYPE_EXEC then
    operator <~ m_deref (text_of operator);;
    r <~ ipc_active_work_files_exec operator xfiles xdata_out 0;;
    let '(_, op_errno, d) := r in done op_errno d latency
  else if type =? IMS_IPC_TYPE_EXTRACTOR then
    operator <~ m_deref (text_of operator);;
    r <~ ipc_active_work_files_extract operator xfiles xdata_out 0;;
    let '(_, op_errno, d) := r in done op_errno d latency
  else if type =? IMS_IPC_TYPE_FILTER then done 0 xdata_out latency
  else m_ret (op_ret, EINVAL, xdata_out).

(** [strncmp (type, name, strlen (name)) == 0]. *)

Definition has_type (name : string) (type : list ascii) : bool :=
  list_prefix (list_ascii_of_string name) type.

(** A request for the index: [from] is the name of the server, the times are
    those that the request takes. *)

Definition ims_ipc (from : list ascii) (xdata : dict_t) (dbtime latency : list ascii)
    : V ipc_reply :=
  let out (r : Z * Z * dict_t) : ipc_reply :=
    let '(op_ret, op_errno, d) := r in
    {| ir_ret := op_ret; ir_errno := op_errno; ir_xdata := Some d |} in
  let '(op_ret, type) := dict_get_str xdata "type" in
  if negb (op_ret =? 0)
  then m_ret {| ir_ret := op_ret; ir_errno := EINVAL; ir_xdata := None |}
  else
    let '(op_ret, xdout) := dict_set_str dict_new "from" (Some from) in
    if negb (op_ret =? 0) then m_ret (out (op_ret, 0, xdout))
    else
      type <~ m_deref (text_of type);;
      if has_type "query" type then
        r <~ on_query (ims_ipc_query xdata xdout dbtime latency);; m_ret (out r)
      else if has_type "exec" type then
        r <~ ims_ipc_active_exec xdata xdout IMS_IPC_TYPE_EXEC latency;; m_ret (out r)
      else if has_type "filter" type then
        r <~ ims_ipc_active_exec xdata xdout IMS_IPC_TYPE_FILTER latency;; m_ret (out r)
      else if has_type "extractor" type then
        r <~ ims_ipc_active_exec xdata xdout IMS_IPC_TYPE_EXTRACTOR latency;; m_ret (out r)
      else m_ret (out (op_ret, EINVAL, xdout)).

End active.

(** ** A host

    The attributes in a map, and what a program prints for a path. *)

Module MapHost.

Record host := {
  attrs : gmap (string * string) (list ascii); prints : gmap string (list ascii * Z)
}.

Definition ENODATA : Z := 61.

Definition get (p : list ascii) (n : string) (f : host) : option (list ascii) :=
  attrs f !! (string_of_list_ascii p, n).

Definition set (p : list ascii) (n : string) (v : list ascii) (size flags : Z) (f : host)
    : Z * Z * host :=
  let put := (0, 0, {| attrs := <[(string_of_list_ascii p, n) := take (Z.to_nat size) v]> (attrs f);
                       prints := prints f |}) in
  match get p n f with
  | Some _ => if flags =? XATTR_CREATE then (-1, EEXIST, f) else put
  | None => if flags =? XATTR_REPLACE then (-1, ENODATA, f) else put
  end.

Definition run (operator path : list ascii) (f : host) : option (list ascii * Z) * host :=
  ('(out, st) ← prints f !! string_of_list_ascii path; Some (out, i32 st), f).

#[global] Instance map_host : Host host :=
  {| run_program := run; sys_lsetxattr := set; sys_lgetxattr := get |}.

Lemma string_of_inj (a b : list ascii) : string_of_list_ascii a = string_of_list_ascii b -> a = b.
Proof.
  intros E. apply (f_equal list_ascii_of_string) in E.
  by rewrite !list_ascii_of_string_of_list_ascii in E.
Qed.

#[global] Instance map_host_laws : HostLaws host.
Proof.
  split.
  - intros p n v size flags f e f'. cbn. unfold set. intros H _.
    assert (f' = {| attrs := <[(string_of_list_ascii p, n) := take (Z.to_nat size) v]> (attrs f);
                    prints := prints f |}) as -> by (repeat case_match; by simplify_eq).
    unfold get. cbn [attrs]. split; [apply lookup_insert_eq|].
    intros p' n' Hn. rewrite lookup_insert_ne; [done|]. intros [= Ep <-].
    destruct Hn as [|Hn]; [done|]. by rewrite Ep in Hn.
  - intros p n v size flags f r e f'. cbn. unfold set. intros H Hr. repeat case_match; by simplify_eq.
  - intros p n v size f old Hg _. cbn in *. unfold set. rewrite Hg. by eexists.
  - intros op p f out st f'. cbn. unfold run. destruct (prints f !! _) as [[o s]|]; [|done].
    intros [= <- <- <-]. by apply swrap_range.
Qed.

#[global] Instance map_host_healthy : HealthyHost host.
Proof.
  split.
  - intros p n v size f _ _ Hg _ _. cbn in *. unfold set. rewrite Hg. by eexists _, _.
  - intros p n v size f [w Hg] _ _ _. cbn in *. unfold set. rewrite Hg. by eexists _, _.
Qed.

End MapHost.
