(* ===== verification/ActiveProps.v ===== *)
(** * What the active requests do

    The output of programs in the reply, the attributes that an extraction
    gives to the files and to the index, and what the client gets of it. *)

From Stdlib Require Import ZArith Lia Bool Ascii String.
From stdpp Require Import base list strings gmap.
From S2P Require Import Prelude Sqlite SqlFacts Xdb XdbSpec XdbRefine CLib Dict DictTyped Uuid.
From S2P Require Import ImsAsync ImsServer ImsIndex Query QuerySpec DhtIpc Active.

(** ** Lines *)

(** A line that fits the buffer, with its newline. *)

Definition line (l : list ascii) : Prop :=
  exists b, l = b ++ [newline] /\ ~ newline ∈ b /\ ~ "000"%char ∈ b /\
    Z.of_nat (length l) < PATH_MAX.

Lemma fgets_line n b rest :
  ~ newline ∈ b -> (length b < n)%nat -> fgets n (b ++ newline :: rest) = (b ++ [newline], rest).
Proof.
  revert n. induction b as [|c b IH]; intros n Hb Hn; (destruct n as [|n]; [cbn in Hn; lia|]);
    cbn [fgets app].
  - by rewrite Ascii.eqb_refl.
  - rewrite not_elem_of_cons in Hb. destruct Hb as [Hc Hb].
    destruct (Ascii.eqb_spec c newline) as [->|]; [done|].
    cbn [length] in Hn. by rewrite IH by (done || lia).
Qed.

Lemma fgets_next l rest : line l -> fgets LINE (l ++ rest) = (l, rest).
Proof.
  intros (b & -> & Hb & _ & Hl). rewrite length_app in Hl. cbn [length] in Hl.
  rewrite <- (assoc_L (++)). cbn [app]. apply fgets_line; [done|].
  unfold LINE, PATH_MAX in *. lia.
Qed.

Lemma line_no_nul l : line l -> ~ "000"%char ∈ l.
Proof.
  intros (b & -> & _ & Hb & _). rewrite elem_of_app, list_elem_of_singleton. by intros [?|?].
Qed.

Lemma line_cons l : line l -> exists c l', l = c :: l'.
Proof. intros (b & -> & _). destruct b; by eexists _, _. Qed.

Lemma keybuf12_small n : 0 <= n < 10 ^ 11 -> keybuf12 n = Some (key_of n).
Proof.
  intros Hn. unfold keybuf12.
  assert (length (dec n) <= 11)%nat as Hl.
  { unfold dec, dec_nat. rewrite (proj2 (Z.ltb_ge _ _)) by lia. apply length_dec_pow; lia. }
  by rewrite (proj2 (Z.leb_le _ _)) by lia.
Qed.

(** A check that a text is plain. *)

Lemma plain_text t :
  negb (existsb (Ascii.eqb "000") t) && (Z.of_nat (length t) <? 2 ^ 31 - 1) = true -> plain t.
Proof.
  rewrite andb_true_iff, negb_true_iff, Z.ltb_lt. intros [Ht Hl]. split; [|done]. intros Hin.
  apply not_true_iff_false in Ht. apply Ht, existsb_exists. exists "000"%char.
  by rewrite <- list_elem_of_In.
Qed.

(** ** The output of the programs *)

Lemma exec_lines_spec ls fuel d n :
  Forall line ls -> (length (concat ls) <= fuel)%nat -> 0 <= n ->
  n + Z.of_nat (length ls) < 10 ^ 11 ->
  exec_lines fuel (concat ls) d n = Some (put_rows n ls d, n + Z.of_nat (length ls)).
Proof.
  intros Hls. revert fuel d n. induction Hls as [|l ls Hl Hls IH]; intros fuel d n Hf Hn Hb.
  { rewrite Z.add_0_r. by destruct fuel. }
  destruct (line_cons l Hl) as (c & l' & E). cbn [concat length] in *.
  rewrite length_app in Hf. destruct fuel as [|fuel]; [rewrite E in Hf; cbn in Hf; lia|].
  assert (exists c' r, l ++ concat ls = c' :: r) as (c' & r & Er) by (rewrite E; by eexists _, _).
  cbn [exec_lines]. rewrite Er. rewrite <- Er. rewrite fgets_next by done.
  rewrite keybuf12_small by lia. cbn [mbind option_bind].
  unfold dict_set_dynstr_with_alloc. rewrite (cut_plain l) by (by apply line_no_nul).
  rewrite set_dynstr. cbn [negb Z.eqb put_rows]. rewrite uwrap_small by (unfold in_u; lia).
  assert (length l <> 0)%nat by (rewrite E; done).
  rewrite IH by lia. by replace (n + 1 + Z.of_nat (length ls)) with (n + Z.of_nat (S (length ls))) by lia.
Qed.

Section runs.
Context {F : Type} `{!Host F}.
Variables operator brick_path : list ascii.

(** The program runs on the files one after the other, and prints these lines
    with this status for each. *)

Inductive runs : list (list ascii) -> F -> list (list (list ascii) * Z) -> F -> Prop :=
| runs_nil f : runs [] f [] f
| runs_cons p ps f ls st f1 outs f2 :
    run_program operator (brick_path ++ p) f = (Some (concat ls, st), f1) ->
    Forall line ls -> runs ps f1 outs f2 ->
    runs (p :: ps) f ((ls, st) :: outs) f2.

End runs.

(** A path that fits its buffer. *)

Definition fits (brick_path p : list ascii) : Prop :=
  plain p /\ Z.of_nat (length (brick_path ++ p)) < PATH_MAX.

Lemma next_file_row xfiles i p file :
  plain p -> 0 <= i < 10 ^ 11 -> dict_get xfiles (key_of i) = Some (text_data p) ->
  next_file xfiles i file = Some (Some p).
Proof.
  intros Hp Hi Hg. unfold next_file. rewrite keybuf12_small by done. cbn [mbind option_bind].
  rewrite get_str_spec, Hg. cbn [d_data text_data Z.eqb]. by rewrite cut_text.
Qed.

Lemma brick_file_fits brick p : fits brick p -> brick_file brick (Some p) = Some (brick ++ p).
Proof.
  intros [_ Hl]. unfold brick_file. cbn [cell_text default from_option id].
  by rewrite (proj2 (Z.leb_le _ _)) by lia.
Qed.

(** The rows from [i] on are these. *)

Lemma rows_at_cons d i r rows :
  rows_at d i (r :: rows) -> dict_get d (key_of i) = Some (text_data r) /\ rows_at d (i + 1) rows.
Proof.
  intros H. split.
  - specialize (H 0%nat r eq_refl). by rewrite Z.add_0_r in H.
  - intros k r' Hk. specialize (H (S k) r' Hk).
    by replace (i + 1 + Z.of_nat k) with (i + Z.of_nat (S k)) by lia.
Qed.

Definition all_lines (outs : list (list (list ascii) * Z)) : list (list ascii) := concat outs.*1.

(** The status of the last program. *)

Definition last_status (r : Z) (outs : list (list (list ascii) * Z)) : Z :=
  default r (last outs.*2).

Lemma last_status_cons r ls st outs : last_status r ((ls, st) :: outs) = last_status st outs.
Proof. unfold last_status. cbn [fmap list_fmap snd]. rewrite last_cons. by destruct (last _). Qed.

Lemma put_rows_app n a b d : put_rows n (a ++ b) d = put_rows (n + Z.of_nat (length a)) b (put_rows n a d).
Proof.
  revert n d. induction a as [|r a IH]; intros n d; cbn [app put_rows length]; [by rewrite Z.add_0_r|].
  rewrite IH. by replace (n + 1 + Z.of_nat (length a)) with (n + Z.of_nat (S (length a))) by lia.
Qed.

Section exec.
Context {conn F : Type} `{!SqlQuery conn, !SqlEngine conn, !Host F}.
Variables (brick_path : list ascii) (errno : Z).
Implicit Types (s : active conn F).

Definition with_host s (f : F) : active conn F :=
  {| ac_query := ac_query s; ac_ctx := ac_ctx s; ac_allocs := ac_allocs s; ac_host := f |}.

Lemma exec_files_spec operator ps f outs f' xfiles i file r d n s :
  runs operator brick_path ps f outs f' -> Forall (fits brick_path) ps -> ac_host s = f ->
  rows_at xfiles i ps -> 0 <= i -> i + Z.of_nat (length ps) < 10 ^ 11 ->
  0 <= n -> n + Z.of_nat (length (all_lines outs)) < 10 ^ 11 ->
  exec_files brick_path (length ps) i operator xfiles file r d n s =
  Some ((last_status r outs, put_rows n (all_lines outs) d, n + Z.of_nat (length (all_lines outs))),
        with_host s f').
Proof.
  intros Hr. revert i file r d n s.
  induction Hr as [f|p ps f ls st f1 outs f2 Hrun Hls Hr IH];
    intros i file r d n s Hfit Hs Hrows Hi Hib Hn Hnb; cbn [length exec_files].
  { rewrite Z.add_0_r. unfold m_ret. subst f. by destruct s. }
  apply Forall_cons in Hfit as [Hp Hfit]. apply rows_at_cons in Hrows as [Hrow Hrows].
  cbn [length] in Hib. unfold all_lines in *. cbn [fmap list_fmap fst concat] in *.
  rewrite length_app in Hnb.
  rewrite (next_file_row _ _ p) by (apply Hp || lia || done). cbn [m_deref]. rewrite m_bind_ret.
  rewrite brick_file_fits by done. cbn [m_deref]. rewrite m_bind_ret.
  unfold m_bind at 1, on_host. rewrite Hs, Hrun. cbv beta iota.
  rewrite exec_lines_spec by (done || lia). cbn [m_deref]. rewrite m_bind_ret.
  rewrite (IH _ _ _ _ _ (with_host s f1)) by (done || lia).
  rewrite last_status_cons, put_rows_app, length_app.
  by replace (n + Z.of_nat (length ls) + Z.of_nat (length (concat outs.*1)))
    with (n + Z.of_nat (length ls + length (concat outs.*1))) by lia.
Qed.

(** *** The files that a query selects *)

Definition selected (rows : list (list ascii)) : dict_t :=
  let d := put_rows 0 rows dict_new in
  let d1 := (dict_set d "count" (Some (text_data (dec (Z.of_nat (length rows)))))).2 in
  (dict_set d1 "ret" (Some (text_data (dec 0)))).2.

Lemma selected_count rows : dict_get (selected rows) "count" = Some (text_data (dec (Z.of_nat (length rows)))).
Proof. unfold selected. rewrite get_set_ne by done. apply get_set_eq. Qed.

Lemma selected_rows rows : Z.of_nat (length rows) <= 10 ^ 9 -> rows_at (selected rows) 0 rows.
Proof.
  intros Hl k r Hk. unfold selected. assert (in_u 64 (0 + Z.of_nat k)) as Hu.
  { apply lookup_lt_Some in Hk. unfold in_u. lia. }
  rewrite !get_set_ne by (apply not_eq_sym, key_of_name; done). by apply put_rows_at; [lia|lia|].
Qed.

(** The database answers the query [sql] with these rows. *)

Definition selects (x : query_xdb conn) (sql : list ascii) (rows : list (list ascii)) (c : conn)
    : Prop :=
  exists rs, Query.sqlite3_query sql (q_conn x) = ((0, rs), c) /\ Forall row_ok rs /\
    Z.of_nat (length rs) <= 10 ^ 9 /\ rows = row_string <$> rs.

Lemma direct_query_spec x sql rows c :
  selects x sql rows c ->
  ims_xdb_direct_query (Some sql) dict_new x =
  Some ((0, selected rows), {| q_conn := c; q_db_ret := 0; qrset := qrset x |}) /\
  Z.of_nat (length rows) <= 10 ^ 9.
Proof.
  intros (rs & Hq & Hrs & Hn & ->). rewrite length_fmap. split; [|done].
  unfold ims_xdb_direct_query. rewrite Hq, deliver_spec by (done || lia).
  cbn [mbind option_bind negb Z.eqb]. unfold dict_set_uint64, dict_set_int32.
  rewrite (set_zero _ "count"). cbv beta iota. rewrite (set_zero _ "ret").
  unfold selected. by rewrite length_fmap, Z.add_0_l.
Qed.

(** A request to run [operator] on the files that [sql] selects. *)

Record active_request (d : dict_t) (type : string) (sql operator : list ascii) : Prop := {
  ar_plain : plain sql /\ plain operator;
  ar_type : dict_get d "type" = Some (text_data (list_ascii_of_string type));
  ar_sql : dict_get d "sql" = Some (text_data sql);
  ar_operator : dict_get d "operator" = Some (text_data operator)
}.

Definition with_query s (c : conn) : active conn F :=
  {| ac_query := {| q_conn := c; q_db_ret := 0; qrset := qrset (ac_query s) |};
     ac_ctx := ac_ctx s; ac_allocs := ac_allocs s; ac_host := ac_host s |}.

(** The reply to an active request that has worked. *)

Definition work_reply (from : list ascii) (rows : list (list ascii)) (ret count : Z)
    (latency : list ascii) : dict_t :=
  let d := put_rows 0 rows (dict_set dict_new "from" (Some (text_data from))).2 in
  let d1 := (dict_set d "ret" (Some (text_data (dec ret)))).2 in
  let d2 := (dict_set d1 "count" (Some (text_data (dec count)))).2 in
  (dict_set d2 "runtime" (Some (text_data latency))).2.

Lemma work_reply_gets from rows ret count latency :
  Z.of_nat (length rows) < 10 ^ 11 ->
  let d := work_reply from rows ret count latency in
  rows_at d 0 rows /\ dict_get d "count" = Some (text_data (dec count)) /\
  dict_get d "ret" = Some (text_data (dec ret)) /\
  dict_get d "from" = Some (text_data from) /\
  dict_get d "runtime" = Some (text_data latency) /\ dict_get d "comeback" = None.
Proof.
  intros Hl. unfold work_reply. split_and!.
  - intros k r Hk. assert (in_u 64 (0 + Z.of_nat k)) as Hu.
    { apply lookup_lt_Some in Hk. unfold in_u. lia. }
    rewrite !get_set_ne by (apply not_eq_sym, key_of_name; done). by apply put_rows_at; [lia|lia|].
  - rewrite get_set_ne by done. apply get_set_eq.
  - rewrite !get_set_ne by done. apply get_set_eq.
  - rewrite !get_set_ne by done. rewrite put_rows_name by (done || lia). apply get_set_eq.
  - apply get_set_eq.
  - rewrite !get_set_ne by done. rewrite put_rows_name by (done || lia). by rewrite get_set_ne.
Qed.

(** [ims_ipc_active_exec] up to the work itself. *)

Lemma active_exec_select strtod fmt_lf d type sql operator rows c xdout ty latency s :
  active_request d type sql operator -> selects (ac_query s) sql rows c ->
  ims_ipc_active_exec strtod fmt_lf brick_path errno d xdout ty latency s =
  (let done (op_errno : Z) (d : dict_t) latency :=
     m_ret (0, op_errno, (dict_set d "runtime" (Some (text_data latency))).2) in
   if Z.of_nat (length rows) =? 0 then
     done 0 (dict_set (dict_set xdout "ret" (Some (text_data (dec 0)))).2 "count"
               (Some (text_data (dec 0)))).2 zero_time
   else if ty =? IMS_IPC_TYPE_EXEC then
     r <~ ipc_active_work_files_exec brick_path errno operator (selected rows) xdout 0;;
     let '(_, op_errno, d) := r in done op_errno d latency
   else if ty =? IMS_IPC_TYPE_EXTRACTOR then
     r <~ ipc_active_work_files_extract strtod fmt_lf brick_path errno operator (selected rows)
            xdout 0;;
     let '(_, op_errno, d) := r in done op_errno d latency
   else if ty =? IMS_IPC_TYPE_FILTER then done 0 xdout latency
   else m_ret (0, EINVAL, xdout)) (with_query s c).
Proof.
  intros [[Hp1 Hp2] _ Hsql Hop] Hsel. destruct (direct_query_spec _ _ _ _ Hsel) as [Hq Hl].
  unfold ims_ipc_active_exec. rewrite !get_str_spec, Hsql, Hop. cbn [d_data text_data negb Z.eqb].
  unfold text_of. cbn [fmap option_fmap option_map]. rewrite !cut_text by done.
  unfold m_bind at 1, on_query. rewrite Hq. cbn [negb Z.eqb].
  rewrite (get_uint64_spec _ _ (Z.of_nat (length rows)))
    by (apply selected_count || (unfold in_u; lia)).
  cbn [m_deref]. rewrite m_bind_ret. cbn [negb Z.eqb default from_option id].
  unfold dict_set_int32, dict_set_uint64, dict_set_double.
  destruct (Z.of_nat (length rows) =? 0).
  { rewrite (set_zero _ "ret"). cbv beta iota. rewrite (set_zero _ "count"). cbv beta iota.
    by rewrite (set_zero _ "runtime"). }
  destruct (ty =? IMS_IPC_TYPE_EXEC); [|destruct (ty =? IMS_IPC_TYPE_EXTRACTOR)].
  1,2: rewrite m_bind_ret; unfold m_bind, with_query; repeat case_match; try done;
    rewrite (set_zero _ "runtime") in *; by simplify_eq.
  destruct (ty =? IMS_IPC_TYPE_FILTER); [by rewrite (set_zero _ "runtime")|done].
Qed.

Lemma finish_files_spec r d n err :
  finish_files errno (r, d, n) err =
  (0, err, (dict_set (dict_set d "ret" (Some (text_data (dec r)))).2 "count"
              (Some (text_data (dec n)))).2).
Proof.
  unfold finish_files, dict_set_int32, dict_set_uint64. rewrite (set_zero _ "ret"). cbv beta iota.
  by rewrite (set_zero _ "count").
Qed.

Lemma work_exec_spec operator rows outs f' d s :
  Z.of_nat (length rows) <= 10 ^ 9 -> Forall (fits brick_path) rows ->
  runs operator brick_path rows (ac_host s) outs f' ->
  Z.of_nat (length (all_lines outs)) < 10 ^ 11 ->
  ipc_active_work_files_exec brick_path errno operator (selected rows) d 0 s =
  Some ((0, 0,
    (dict_set (dict_set (put_rows 0 (all_lines outs) d) "ret"
       (Some (text_data (dec (last_status 0 outs))))).2 "count"
       (Some (text_data (dec (Z.of_nat (length (all_lines outs))))))).2), with_host s f').
Proof.
  intros Hl Hfit Hruns Hb. unfold ipc_active_work_files_exec.
  rewrite (get_uint64_spec _ _ (Z.of_nat (length rows)))
    by (apply selected_count || (unfold in_u; lia)).
  cbn [m_deref]. rewrite m_bind_ret. cbn [default from_option id]. rewrite Nat2Z.id.
  unfold m_bind. rewrite (exec_files_spec operator rows (ac_host s) outs f')
    by (done || lia || by apply selected_rows).
  unfold m_ret. by rewrite finish_files_spec, Z.add_0_l.
Qed.

(** The dispatch of a request by its type. *)

Lemma ims_ipc_active strtod fmt_lf from d type sql operator dbtime latency s ty :
  active_request d type sql operator -> plain (list_ascii_of_string type) ->
  has_type "query" (list_ascii_of_string type) = false ->
  (if has_type "exec" (list_ascii_of_string type) then ty = IMS_IPC_TYPE_EXEC
   else if has_type "filter" (list_ascii_of_string type) then ty = IMS_IPC_TYPE_FILTER
   else has_type "extractor" (list_ascii_of_string type) = true /\ ty = IMS_IPC_TYPE_EXTRACTOR) ->
  ims_ipc strtod fmt_lf brick_path errno from d dbtime latency s =
  match ims_ipc_active_exec strtod fmt_lf brick_path errno d
          (dict_set dict_new "from" (Some (text_data from))).2 ty latency s with
  | Some ((r, e, d'), s') => Some ({| ir_ret := r; ir_errno := e; ir_xdata := Some d' |}, s')
  | None => None
  end.
Proof.
  intros Hrq Hp Hq Hty. unfold ims_ipc. rewrite get_str_spec, (ar_type _ _ _ _ Hrq).
  cbn [d_data text_data negb Z.eqb]. unfold dict_set_str, str_to_data.
  cbn [fmap option_fmap option_map]. rewrite set_zero. cbn [negb Z.eqb].
  unfold text_of. cbn [fmap option_fmap option_map]. rewrite cut_text by done.
  cbn [m_deref]. rewrite m_bind_ret, Hq. unfold m_bind, m_ret.
  destruct (has_type "exec" _); [subst ty|destruct (has_type "filter" _); [subst ty|]].
  3: destruct Hty as [-> ->].
  all: by destruct (ims_ipc_active_exec _ _ _ _ _ _ _ _ _) as [[[[r e] d'] s']|].
Qed.

Lemma exec_request strtod fmt_lf from d sql operator rows c outs f' dbtime latency s :
  active_request d "exec" sql operator -> selects (ac_query s) sql rows c ->
  Forall (fits brick_path) rows -> runs operator brick_path rows (ac_host s) outs f' ->
  Z.of_nat (length (all_lines outs)) < 10 ^ 11 ->
  exists t, ims_ipc strtod fmt_lf brick_path errno from d dbtime latency s =
    Some ({| ir_ret := 0; ir_errno := 0;
             ir_xdata := Some (work_reply from (all_lines outs) (last_status 0 outs)
               (Z.of_nat (length (all_lines outs))) t) |}, with_host (with_query s c) f').
Proof.
  intros Hrq Hsel Hfit Hruns Hb. destruct (direct_query_spec _ _ _ _ Hsel) as [_ Hl].
  rewrite (ims_ipc_active _ _ _ _ "exec" sql operator _ _ _ IMS_IPC_TYPE_EXEC)
    by (done || by apply plain_text).
  rewrite (active_exec_select _ _ _ _ _ _ rows c _ _ _ _ Hrq Hsel).
  destruct rows as [|p rows].
  { inversion Hruns; subst. exists zero_time. cbn. done. }
  rewrite (proj2 (Z.eqb_neq _ _)) by (cbn [length]; lia). exists latency.
  change (IMS_IPC_TYPE_EXEC =? IMS_IPC_TYPE_EXEC) with true. cbv beta iota. unfold m_bind.
  by rewrite (work_exec_spec operator (p :: rows) outs f').
Qed.

End exec.

(** ** Property *)

(** C33. A request of type [exec]: when the query selects the files [rows] and the
    program prints lines for each of them, the server's reply holds exactly
    these lines, all of them, in the order of the files and of the lines,
    their number, the status of the last program and the name of the server;
    it does not hold the field [comeback]. *)
Theorem exec_returns_output {conn F} `{!SqlQuery conn, !SqlEngine conn, !Host F}
    (strtod : list ascii -> Z) (fmt_lf : Z -> list ascii) (brick_path : list ascii) (errno : Z)
    (from : list ascii) (d : dict_t) (sql operator : list ascii) (rows : list (list ascii))
    (c : conn) (outs : list (list (list ascii) * Z)) (f' : F) (dbtime latency : list ascii)
    (s : active conn F) :
  active_request d "exec" sql operator -> selects (ac_query s) sql rows c ->
  Forall (fits brick_path) rows -> runs operator brick_path rows (ac_host s) outs f' ->
  Z.of_nat (length (all_lines outs)) < 10 ^ 11 ->
  exists reply s', ims_ipc strtod fmt_lf brick_path errno from d dbtime latency s =
      Some ({| ir_ret := 0; ir_errno := 0; ir_xdata := Some reply |}, s') /\
    rows_at reply 0 (all_lines outs) /\
    dict_get reply "count" = Some (text_data (dec (Z.of_nat (length (all_lines outs))))) /\
    dict_get reply "ret" = Some (text_data (dec (last_status 0 outs))) /\
    dict_get reply "from" = Some (text_data from) /\ dict_get reply "comeback" = None /\
    ac_host s' = f' /\ ac_ctx s' = ac_ctx s.
Proof.
  intros Hrq Hsel Hfit Hruns Hb.
  destruct (exec_request brick_path errno strtod fmt_lf from d sql operator rows c outs f' dbtime
    latency s) as (t & Hx); [done..|].
  destruct (work_reply_gets from (all_lines outs) (last_status 0 outs)
    (Z.of_nat (length (all_lines outs))) t Hb) as (H1 & H2 & H3 & H4 & _ & H6).
  eexists _, _. split; [exact Hx|]. done.
Qed.

(** ** An example *)

Module Sample.

Definition text (s : string) : list ascii := list_ascii_of_string s.

(** The database answers every query with the rows of the connection. *)

#[export] Instance hconn_query : SqlQuery Scripted.hconn := fun _ h =>
  ((0, map (map (fun c => Some (list_ascii_of_string c))) (Scripted.h_rows h)), h).

Definition brick : list ascii := text "/brick".

Definition request_of (type : string) : dict_t :=
  {| members_list := [("type"%string, text_data (text type));
                      ("sql"%string, text_data (text "select path from xfile"));
                      ("operator"%string, text_data (text "/bin/op"))];
     count := 3 |}.

Definition gfid : list ascii := replicate 16 "001"%char.

Definition a_line (s : string) : list ascii := text s ++ [newline].

Definition printed : list (list ascii) := [a_line "user.run=42"; a_line "user.site=ornl"].

Definition files : MapHost.host :=
  {| MapHost.attrs := {[("/brick/f"%string, "trusted.gfid"%string) := gfid]};
     MapHost.prints := {["/brick/f"%string := (concat printed, 0)]} |}.

Definition conn_f : Scripted.hconn :=
  {| Scripted.h_cur := schema_tables; Scripted.h_saved := None; Scripted.h_rows := [["/f"%string]] |}.

Definition worker (x : ims_xdb Scripted.hconn) : ims_async Scripted.hconn :=
  {| a_xdb := x; task_queue := []; a_latency_log := false |}.

Definition server (x : ims_xdb Scripted.hconn) : active Scripted.hconn MapHost.host :=
  {| ac_query := {| q_conn := conn_f; q_db_ret := 0; qrset := ∅ |}; ac_ctx := Some (worker x);
     ac_allocs := []; ac_host := files |}.

Definition no_double (l : list ascii) : Z := 0.
Definition no_text (z : Z) : list ascii := [].

Lemma active_request_ok type :
  active_request (request_of type) type (text "select path from xfile") (text "/bin/op").
Proof. split; [split; by apply plain_text|done..]. Qed.

Lemma selects_f x : selects (ac_query (server x)) (text "select path from xfile") [text "/f"] conn_f.
Proof. exists [[Some (text "/f")]]. split_and!; [done|by repeat constructor|done|done]. Qed.

Lemma fits_f : Forall (fits brick) [text "/f"].
Proof. constructor; [split; [by apply plain_text|done]|done]. Qed.

Lemma line_check s :
  negb (existsb (fun c => Ascii.eqb c newline || Ascii.eqb c "000") (text s)) = true ->
  Z.of_nat (length (a_line s)) <? PATH_MAX = true -> line (a_line s).
Proof.
  intros Hs Hl. apply negb_true_iff, not_true_iff_false in Hs. apply Z.ltb_lt in Hl.
  exists (text s). split_and!; [done| | |done]; intros Hin; apply Hs, existsb_exists; eexists;
    (split; [by apply list_elem_of_In|]); rewrite Ascii.eqb_refl; [done|apply orb_true_r].
Qed.

Lemma printed_lines_ok : Forall line printed.
Proof. repeat constructor; by apply line_check. Qed.

End Sample.
Import Sample.

Lemma exec_returns_output_witness :
  exists reply s', ims_ipc no_double no_text brick 0 (text "host-db") (request_of "exec") [] []
      (server sample_healthy) = Some ({| ir_ret := 0; ir_errno := 0; ir_xdata := Some reply |}, s') /\
    rows_at reply 0 printed.
Proof.
  destruct (exec_returns_output no_double no_text brick 0 (text "host-db") (request_of "exec")
    (text "select path from xfile") (text "/bin/op") [text "/f"] conn_f [(printed, 0)] files [] []
    (server sample_healthy)) as (reply & s' & H1 & H2 & _).
  - apply active_request_ok.
  - apply selects_f.
  - apply fits_f.
  - eapply runs_cons; [vm_compute; reflexivity|apply printed_lines_ok|constructor].
  - reflexivity.
  - exists reply, s'. split; [exact H1|exact H2].
Defined.
