(* ===== verification/ActiveLost.v ===== *)
(** * What the client gets of an active request

    dht_ipc merges only replies that say whether to come back, and the replies
    to active requests do not say it. *)

From Stdlib Require Import ZArith Lia Bool Ascii String.
From stdpp Require Import base list strings gmap.
From S2P Require Import Prelude Sqlite SqlFacts Xdb XdbSpec XdbRefine CLib Dict DictTyped Uuid.
From S2P Require Import ImsAsync ImsServer Query QuerySpec DhtIpc Active ActiveProps.

(** ** Replies without the field *)

Definition number (v : data_t) : Prop := exists z, - 2 ^ 64 < z < 2 ^ 64 /\ v = text_data (dec z).

Definition timed (v : data_t) : Prop := exists t, plain t /\ v = text_data t.

Record silent (d : dict_t) : Prop := {
  si_comeback : dict_get d "comeback" = None;
  si_count v : dict_get d "count" = Some v -> number v;
  si_ret v : dict_get d "ret" = Some v -> number v;
  si_time v : dict_get d "runtime" = Some v -> timed v
}.

Lemma silent_set d k v :
  silent d -> k <> "comeback"%string -> (k = "count"%string \/ k = "ret"%string -> number v) ->
  (k = "runtime"%string -> timed v) -> silent (dict_set d k (Some v)).2.
Proof.
  intros [H1 H2 H3 H4] Hk Hn Ht. split.
  - by rewrite get_set_ne.
  - intros w. rewrite get_set. case_decide; [intros [= <-]; auto|auto].
  - intros w. rewrite get_set. case_decide; [intros [= <-]; auto|auto].
  - intros w. rewrite get_set. case_decide; [intros [= <-]; auto|auto].
Qed.

Lemma silent_row d n v : silent d -> in_u 64 n -> silent (dict_set d (key_of n) (Some v)).2.
Proof.
  intros Hd Hn. apply silent_set; [done|by apply key_of_name|..].
  - intros [E|E]; exfalso; revert E; by apply key_of_name.
  - intros E; exfalso; revert E; by apply key_of_name.
Qed.

Lemma silent_from from : silent (dict_set dict_new "from" (Some (text_data from))).2.
Proof. apply silent_set; [by split|done|by intros [?|?]|done]. Qed.

(** The fields of such a reply are not all there. *)

Lemma lor_neg a b : b < 0 -> Z.lor a b < 0.
Proof. intros Hb. apply Z.lor_neg. by right. Qed.

Lemma number_read k d :
  (forall v, dict_get d k = Some v -> number v) ->
  is_Some (dict_get_uint64 d k) /\ is_Some (dict_get_int32 d k).
Proof.
  intros H. unfold dict_get_uint64, dict_get_int32, dict_get_with, dict_get_with_ref.
  fold (dict_get d k). destruct (dict_get d k) as [v|]; [|by split; eexists].
  destruct (H v eq_refl) as (z & Hz & ->). cbn [negb Z.eqb].
  unfold _data_to_uint64, _data_to_int32, data_to. rewrite dec_data_text by done.
  cbn [mbind option_bind]. by destruct (strtoul0 (dec z)), (strtol0 (dec z)).
Qed.

Lemma time_read k d : (forall v, dict_get d k = Some v -> timed v) -> is_Some (dict_get_double d k).
Proof.
  intros H. unfold dict_get_double, dict_get_with_ref. fold (dict_get d k).
  destruct (dict_get d k) as [v|]; [|by eexists].
  destruct (H v eq_refl) as (t & [Ht Hl] & ->). cbn [negb Z.eqb]. by rewrite text_data_text.
Qed.

Lemma silent_fields d :
  silent d -> exists ret xcnt db_ret x rt cb,
    reply_fields (Some d) = Some (ret, xcnt, db_ret, x, rt, cb) /\ ret < 0.
Proof.
  intros [H1 H2 H3 H4]. unfold reply_fields.
  destruct (number_read "count" d H2) as [[[r1 c] ->] _].
  destruct (number_read "ret" d H3) as [_ [[r2 db] ->]].
  destruct (dict_get_str d "from") as [r3 from]. destruct (time_read "runtime" d H4) as [[r4 t] ->].
  unfold dict_get_int32, dict_get_with, dict_get_with_ref. fold (dict_get d "comeback"). rewrite H1.
  cbn [mbind option_bind negb Z.eqb]. eexists _, _, _, _, _, _. split; [done|].
  do 4 apply lor_neg. done.
Qed.

Definition dropped (rp : ipc_reply) : Prop :=
  match ir_xdata rp with Some d => silent d | None => True end.

Lemma cbk_dropped rp lat ipc :
  dropped rp -> 0 < call_cnt ipc < 2 ^ 31 ->
  dht_ipc_cbk rp lat ipc =
  Some (if call_cnt ipc =? 1 then Some None else None,
        {| ipc_xdata := ipc_xdata ipc; pos := pos ipc; call_cnt := call_cnt ipc - 1 |}).
Proof.
  intros Hd Hc. unfold dht_ipc_cbk, dht_ipc_return. rewrite swrap_small by (unfold in_s; lia).
  assert ((call_cnt ipc - 1 =? 0) = (call_cnt ipc =? 1)) as ->
    by (apply Bool.eq_iff_eq_true; rewrite !Z.eqb_eq; lia).
  destruct (ir_ret rp =? -1); [done|]. unfold dropped in Hd. destruct (ir_xdata rp) as [d|]; [|done].
  destruct (silent_fields d Hd) as (ret & xcnt & db & x & rt & cb & -> & Hneg).
  cbn [mbind option_bind]. by rewrite (proj2 (Z.eqb_neq _ _)) by lia.
Qed.

Lemma gather_dropped rps ipc :
  rps <> [] -> Forall (fun rp => dropped rp.1) rps -> call_cnt ipc = Z.of_nat (length rps) ->
  Z.of_nat (length rps) < 2 ^ 31 -> exists ipc', dht_gather rps ipc = Some (Some None, ipc').
Proof.
  intros Hne Hd. revert ipc Hne. induction Hd as [|[rp lat] rps Hrp Hd IH]; intros ipc Hne Hc Hl; [done|].
  cbn [fst length] in *. cbn [dht_gather]. unfold m_bind. rewrite cbk_dropped by (done || lia).
  destruct rps as [|rp' rps].
  - rewrite Hc. cbn. by eexists.
  - rewrite (proj2 (Z.eqb_neq _ _)) by (cbn [length] in *; lia). apply IH; [done| |lia].
    cbn [call_cnt]. lia.
Qed.

(** ** The replies to active requests *)

Section replies.
Context {conn F : Type} `{!SqlQuery conn, !SqlEngine conn, !Host F, !HostLaws F}.
Variables (strtod : list ascii -> Z) (fmt_lf : Z -> list ascii) (brick_path : list ascii)
  (errno : Z).
Implicit Types (s : active conn F).

Lemma exec_lines_silent fuel out d n d' n' :
  exec_lines fuel out d n = Some (d', n') -> silent d -> in_u 64 n -> silent d' /\ in_u 64 n'.
Proof.
  revert out d n. induction fuel as [|fuel IH]; intros out d n Hx Hd Hn;
    destruct out as [|c out]; cbn [exec_lines] in Hx; simplify_eq; [done|done|].
  destruct (fgets LINE (c :: out)) as [ptr rest]. unfold keybuf12 in Hx.
  case_match; [|done]. cbn [mbind option_bind] in Hx. unfold dict_set_dynstr_with_alloc in Hx.
  rewrite set_dynstr in Hx. cbn [negb Z.eqb] in Hx.
  apply (IH _ _ _ Hx); [by apply silent_row|by apply uwrap_range].
Qed.

Lemma exec_files_silent k i operator xfiles file r d n s r' d' n' s' :
  exec_files brick_path k i operator xfiles file r d n s = Some ((r', d', n'), s') ->
  silent d -> in_u 64 n -> in_s 32 r -> silent d' /\ in_u 64 n' /\ in_s 32 r'.
Proof.
  revert i file r d n s. induction k as [|k IH]; intros i file r d n s Hx Hd Hn Hr;
    cbn [exec_files] in Hx.
  { unfold m_ret in Hx. by simplify_eq. }
  apply m_bind_Some in Hx as (f & s1 & _ & Hx). apply m_bind_Some in Hx as (path & s2 & _ & Hx).
  apply m_bind_Some in Hx as (o & s3 & Ho & Hx). unfold on_host in Ho.
  destruct (run_program operator path (ac_host s2)) as [o' f'] eqn:Hrun. simplify_eq.
  destruct o as [[out st]|]; [|eapply IH; [done..|unfold in_s; lia]].
  apply m_bind_Some in Hx as ([d1 n1] & s4 & Hl & Hx).
  destruct (exec_lines (length out) out d n) as [[d1' n1']|] eqn:He; [|done].
  cbn [m_deref] in Hl. unfold m_ret in Hl. simplify_eq.
  destruct (exec_lines_silent _ _ _ _ _ _ He Hd Hn) as [Hd1 Hn1].
  eapply IH; [done..|by eapply status_int].
Qed.

(** An extraction does not touch the reply before its end. *)

Lemma extract_lines_count fuel path out err n s err' n' s' :
  extract_lines strtod fmt_lf errno fuel path out err n s = Some ((err', n'), s') ->
  in_u 64 n -> in_u 64 n'.
Proof.
  revert out err n s. induction fuel as [|fuel IH]; intros out err n s Hx Hn;
    destruct out as [|c out]; cbn [extract_lines] in Hx; unfold m_ret in Hx; simplify_eq; [done..|].
  destruct (fgets LINE (c :: out)) as [ptr rest].
  apply m_bind_Some in Hx as ([r e] & s1 & _ & Hx). destruct (negb (r =? 0)).
  - unfold m_ret in Hx. by simplify_eq.
  - apply (IH _ _ _ _ Hx). by apply uwrap_range.
Qed.

Lemma extract_files_range k i operator xfiles file r err n s r' err' n' s' :
  extract_files strtod fmt_lf brick_path errno k i operator xfiles file r err n s =
    Some ((r', err', n'), s') ->
  in_u 64 n -> in_s 32 r -> in_u 64 n' /\ in_s 32 r'.
Proof.
  revert i file r err n s. induction k as [|k IH]; intros i file r err n s Hx Hn Hr;
    cbn [extract_files] in Hx.
  { unfold m_ret in Hx. by simplify_eq. }
  apply m_bind_Some in Hx as (f & s1 & _ & Hx). apply m_bind_Some in Hx as (path & s2 & _ & Hx).
  apply m_bind_Some in Hx as (o & s3 & Ho & Hx). unfold on_host in Ho.
  destruct (run_program operator path (ac_host s2)) as [o' f'] eqn:Hrun. simplify_eq.
  destruct o as [[out st]|]; [|eapply IH; [done..|unfold in_s; lia]].
  apply m_bind_Some in Hx as ([err1 n1] & s4 & Hl & Hx).
  eapply IH; [done|by eapply extract_lines_count|by eapply status_int].
Qed.

Lemma number_s32 z : in_s 32 z -> number (text_data (dec z)).
Proof. unfold in_s. intros. exists z. split; [lia|done]. Qed.

Lemma number_u64 z : in_u 64 z -> number (text_data (dec z)).
Proof. unfold in_u. intros. exists z. split; [lia|done]. Qed.

Lemma finish_silent r d n err ret e d' :
  finish_files errno (r, d, n) err = (ret, e, d') -> silent d -> in_s 32 r -> in_u 64 n -> silent d'.
Proof.
  rewrite finish_files_spec. intros [= <- <- <-] Hd Hr Hn.
  apply silent_set; [apply silent_set; [done|done|intros _; by apply number_s32|done]|done|
    intros _; by apply number_u64|done].
Qed.

Lemma work_exec_silent operator xfiles d cnt err s r e d' s' :
  ipc_active_work_files_exec brick_path errno operator xfiles d err s = Some ((r, e, d'), s') ->
  dict_get_uint64 xfiles "count" = Some (0, cnt) -> silent d -> silent d'.
Proof.
  intros Hx Hc Hd. unfold ipc_active_work_files_exec in Hx. rewrite Hc in Hx. cbn [m_deref] in Hx.
  rewrite m_bind_ret in Hx. apply m_bind_Some in Hx as ([[r1 d1] n1] & s1 & Hf & Hx).
  destruct (exec_files_silent _ _ _ _ _ _ _ _ _ _ _ _ _ Hf) as (Hd1 & Hn1 & Hr1);
    [done|unfold in_u; lia|unfold in_s; lia|].
  unfold m_ret in Hx. injection Hx as Hx <-. by apply (finish_silent _ _ _ _ _ _ _ Hx).
Qed.

Lemma work_extract_silent operator xfiles d cnt err s r e d' s' :
  ipc_active_work_files_extract strtod fmt_lf brick_path errno operator xfiles d err s =
    Some ((r, e, d'), s') ->
  dict_get_uint64 xfiles "count" = Some (0, cnt) -> silent d -> silent d'.
Proof.
  intros Hx Hc Hd. unfold ipc_active_work_files_extract in Hx. rewrite Hc in Hx. cbn [m_deref] in Hx.
  rewrite m_bind_ret in Hx. apply m_bind_Some in Hx as ([[r1 err1] n1] & s1 & Hf & Hx).
  destruct (extract_files_range _ _ _ _ _ _ _ _ _ _ _ _ _ Hf) as (Hn1 & Hr1);
    [unfold in_u; lia|unfold in_s; lia|].
  unfold m_ret in Hx. injection Hx as Hx <-. by apply (finish_silent _ _ _ _ _ _ _ Hx).
Qed.

Lemma silent_runtime d t : silent d -> plain t -> silent (dict_set d "runtime" (Some (text_data t))).2.
Proof. intros Hd Ht. apply silent_set; [done|done|by intros [?|?]|intros _; by exists t]. Qed.

Lemma active_exec_silent d xdout ty latency s r e d' s' :
  ims_ipc_active_exec strtod fmt_lf brick_path errno d xdout ty latency s = Some ((r, e, d'), s') ->
  silent xdout -> plain latency -> silent d'.
Proof.
  intros Hx Hd Hp. unfold ims_ipc_active_exec in Hx.
  destruct (dict_get_str d "sql") as [r1 sql]. destruct (negb (r1 =? 0)).
  { unfold m_ret in Hx. by simplify_eq. }
  destruct (dict_get_str d "operator") as [r2 op]. destruct (negb (r2 =? 0)).
  { unfold m_ret in Hx. by simplify_eq. }
  apply m_bind_Some in Hx as ([r3 xfiles] & s1 & _ & Hx). destruct (negb (r3 =? 0)).
  { unfold m_ret in Hx. by simplify_eq. }
  apply m_bind_Some in Hx as ([r4 cnt] & s2 & Hc & Hx).
  destruct (dict_get_uint64 xfiles "count") as [[r4' cnt']|] eqn:Hcnt; [|done].
  cbn [m_deref] in Hc. unfold m_ret in Hc. simplify_eq.
  destruct (Z.eqb_spec r4 0) as [->|]; cbn [negb] in Hx; [|unfold m_ret in Hx; by simplify_eq].
  unfold dict_set_double, dict_set_int32, dict_set_uint64 in Hx.
  destruct (default 0 cnt =? 0).
  { rewrite (set_zero _ "ret") in Hx. cbv beta iota in Hx. rewrite (set_zero _ "count") in Hx.
    cbv beta iota in Hx. rewrite (set_zero _ "runtime") in Hx. unfold m_ret in Hx. simplify_eq.
    apply silent_runtime; [|by apply plain_text].
    apply silent_set; [apply silent_set; [done|done|intros _; apply number_s32; unfold in_s; lia|done]
      |done|intros _; apply number_u64; unfold in_u; lia|done]. }
  destruct (ty =? IMS_IPC_TYPE_EXEC); [|destruct (ty =? IMS_IPC_TYPE_EXTRACTOR)].
  1,2: apply m_bind_Some in Hx as (operator & s3 & _ & Hx);
    apply m_bind_Some in Hx as ([[r5 e5] d5] & s4 & Hw & Hx);
    rewrite (set_zero _ "runtime") in Hx; unfold m_ret in Hx; simplify_eq;
    apply silent_runtime; [|done].
  - by apply (work_exec_silent _ _ _ _ _ _ _ _ _ _ Hw Hcnt).
  - by apply (work_extract_silent _ _ _ _ _ _ _ _ _ _ Hw Hcnt).
  - destruct (ty =? IMS_IPC_TYPE_FILTER); [rewrite (set_zero _ "runtime") in Hx|];
      unfold m_ret in Hx; simplify_eq; [by apply silent_runtime|done].
Qed.

(** A request that is not a query. *)

Definition not_query (d : dict_t) : Prop :=
  forall t, dict_get_str d "type" = (0, Some t) -> has_type "query" (cut t) = false.

Lemma ims_ipc_dropped from d dbtime latency s rp s' :
  not_query d -> plain latency ->
  ims_ipc strtod fmt_lf brick_path errno from d dbtime latency s = Some (rp, s') -> dropped rp.
Proof.
  intros Hq Hp Hx. unfold ims_ipc in Hx. unfold not_query in Hq.
  destruct (dict_get_str d "type") as [r0 type].
  destruct (Z.eqb_spec r0 0) as [->|]; cbn [negb] in Hx; [|unfold m_ret in Hx; by simplify_eq].
  unfold dict_set_str, str_to_data in Hx. cbn [fmap option_fmap option_map] in Hx.
  rewrite set_zero in Hx. cbn [negb Z.eqb] in Hx.
  destruct type as [t|]; [|done]. unfold text_of in Hx. cbn [fmap option_fmap option_map m_deref] in Hx.
  rewrite m_bind_ret, (Hq t eq_refl) in Hx.
  assert (forall ty, m_bind (ims_ipc_active_exec strtod fmt_lf brick_path errno d
      (dict_set dict_new "from" (Some (text_data from))).2 ty latency) (fun r => m_ret
      (let '(op_ret, op_errno, d0) := r in
       {| ir_ret := op_ret; ir_errno := op_errno; ir_xdata := Some d0 |})) s = Some (rp, s') ->
    dropped rp) as Hact.
  { intros ty Hy. apply m_bind_Some in Hy as ([[r e] d'] & s1 & Hy & Hz). unfold m_ret in Hz.
    simplify_eq. by apply (active_exec_silent _ _ _ _ _ _ _ _ _ Hy (silent_from from)). }
  repeat (case_match; [by eapply Hact|]). unfold m_ret in Hx. simplify_eq. apply silent_from.
Qed.

End replies.

(** ** Property *)

(** A reply of some server to a request that is not a query: any state of the
    server, any programs and any times. *)

Definition active_reply {conn F : Type} `{!SqlQuery conn, !SqlEngine conn, !Host F}
    (rp : ipc_reply) : Prop :=
  exists strtod fmt_lf brick_path errno from d dbtime latency (s s' : active conn F),
    not_query d /\ plain latency /\
    ims_ipc strtod fmt_lf brick_path errno from d dbtime latency s = Some (rp, s').

(** C34. The output of programs never reaches the client: whatever the servers
    answer to requests of type [exec], [filter] or [extractor] (or of an
    unknown type), and in whatever order the answers arrive, the client gets a
    null pointer in place of the merged result, because the callback takes a
    reply only when it has the field [comeback], which only queries set. *)
Theorem exec_output_lost {conn F} `{!SqlQuery conn, !SqlEngine conn, !Host F, !HostLaws F}
    (rps : list (ipc_reply * list ascii)) :
  rps <> [] -> Z.of_nat (length rps) < 2 ^ 31 ->
  Forall (fun rp => active_reply (conn := conn) (F := F) rp.1) rps ->
  dht_ipc rps = Some (Some None).
Proof.
  intros Hne Hl Hall. unfold dht_ipc.
  destruct (gather_dropped rps (dht_ipc_start (length rps))) as [ipc' ->]; [done| |done|done|done].
  eapply Forall_impl; [exact Hall|]. intros rp (sd & fm & b & er & fr & d & db & lt & s & s' & Hq & Hp & Hx).
  by eapply ims_ipc_dropped.
Qed.

Import Sample.

(** One server that has run the program. *)

Lemma exec_output_lost_witness :
  exists rp, active_reply (conn := Scripted.hconn) (F := MapHost.host) rp /\ ir_ret rp = 0 /\
    (forall d, ir_xdata rp = Some d -> dict_get d "0" = Some (text_data (a_line "user.run=42"))) /\
    dht_ipc [(rp, [])] = Some (Some None).
Proof.
  set (m := ims_ipc no_double no_text brick 0 (text "host-db") (request_of "exec") [] []
    (server sample_healthy)).
  assert (is_Some m) as [[rp s'] Hm]
    by (apply (bool_decide_eq_true_1 (is_Some _)); vm_compute; reflexivity).
  assert (active_reply (conn := Scripted.hconn) (F := MapHost.host) rp) as Hrp.
  { exists no_double, no_text, brick, 0, (text "host-db"), (request_of "exec"), [], [],
      (server sample_healthy), s'. split; [|split; [|exact Hm]].
    - intros t [= <-]. reflexivity.
    - by apply plain_text. }
  exists rp. split; [exact Hrp|]. vm_compute in Hm. injection Hm as <- _.
  split; [reflexivity|]. split; [intros d [= <-]; vm_compute; reflexivity|].
  apply (exec_output_lost (conn := Scripted.hconn) (F := MapHost.host)).
  - discriminate.
  - reflexivity.
  - constructor; [exact Hrp|constructor].
Defined.
