(* ===== verification/ActiveExtract.v ===== *)
(** * What an extraction does

    Every line that a program prints for a file becomes an attribute of the
    file and, once the worker has run, of the file's entry in the index. *)

From Stdlib Require Import ZArith Lia Bool Ascii String.
From stdpp Require Import base list strings gmap.
From S2P Require Import Prelude Sqlite SqlFacts Xdb XdbSpec XdbRefine CLib Dict DictTyped Uuid.
From S2P Require Import ImsAsync ImsServer ImsIndex Query QuerySpec DhtIpc Active ActiveProps.

(** ** One line *)

Lemma split_eq_line b k v :
  split_eq (b ++ [newline]) = Some (k, v) ->
  exists v', v = v' ++ [newline] /\ b = k ++ "="%char :: v'.
Proof.
  revert k v. induction b as [|c b IH]; intros k v H; cbn [app split_eq] in H.
  { destruct (Ascii.eqb_spec newline "="); [done|]. by cbn in H. }
  destruct (Ascii.eqb_spec c "=") as [->|Hc].
  - injection H as <- <-. by exists b.
  - destruct (split_eq (b ++ [newline])) as [[k' v']|] eqn:E; [|done]. cbn in H. injection H as <- <-.
    destruct (IH k' v' eq_refl) as (v'' & -> & ->). by exists v''.
Qed.

Section lines.
Variable strtod : list ascii -> Z.
Variable fmt_lf : Z -> list ascii.

(** The attribute that a line stands for. *)

Definition line_attr (l : list ascii) : option ims_xdb_attr :=
  '(k, v) ← split_eq l;
  let '(type, ival, rval, sval) := classify strtod v in
  Some {| xa_gfid := None; xa_type := type; xa_name := Some (string_of_list_ascii k);
          xa_ival := ival; xa_rval := rval; xa_sval := sval |}.

Definition attr_line (l : list ascii) : Prop :=
  line l /\ exists x n, line_attr l = Some x /\ xa_name x = Some n /\ user_name n = true.

(** What the file gets: the text of the number, or the string without its last
    character. *)

Definition stored_text (x : ims_xdb_attr) : list ascii :=
  match value_text fmt_lf x with
  | Some v => if xa_type x =? IMS_XDB_TYPE_STRING then take (pred (length v)) v else v
  | None => []
  end.

Lemma classify_cases v :
  (exists z, scan_ld v = Some z /\ classify strtod v = (IMS_XDB_TYPE_INTEGER, z, 0, None)) \/
  classify strtod v = (IMS_XDB_TYPE_REAL, 0, strtod v, None) \/
  classify strtod v = (IMS_XDB_TYPE_STRING, 0, 0, Some (string_of_list_ascii v)).
Proof.
  unfold classify. destruct (existsb _ v), (scan_lf_ok v), (scan_ld v) as [z|]; eauto.
Qed.

(** The value of a line has a text that fits, and a string is not empty. *)

Lemma line_attr_text l x :
  (forall z, Z.of_nat (length (fmt_lf z)) < PATH_MAX) -> line l -> line_attr l = Some x ->
  exists v, value_text fmt_lf x = Some v /\ Z.of_nat (length v) < PATH_MAX /\
    (xa_type x = IMS_XDB_TYPE_STRING -> (0 < length v)%nat).
Proof.
  intros Hfmt (b & -> & _ & _ & Hl) Hx. unfold line_attr in Hx.
  destruct (split_eq (b ++ [newline])) as [[k v]|] eqn:E; [|done]. cbn in Hx.
  destruct (split_eq_line _ _ _ E) as (v' & -> & ->).
  destruct (classify_cases (v' ++ [newline])) as [(z & _ & Hc)|[Hc|Hc]]; rewrite Hc in Hx;
    injection Hx as <-; unfold value_text; cbn; eexists; (split; [reflexivity|]).
  - split; [|done]. pose proof (length_dec z). unfold PATH_MAX. lia.
  - split; [apply Hfmt|done].
  - rewrite list_ascii_of_string_of_list_ascii. rewrite !length_app in *. cbn [length] in *. lia.
Qed.

End lines.

(** The gfid of a file of the brick, as the index has it. *)

Definition file_gfid (g : list ascii) : string := uuid_utoa (gfid_bytes (Some g)).

Section extract.
Context {conn F : Type} `{!SqlQuery conn, !SqlEngine conn, !Host F, !HostLaws F, !HealthyHost F}.
Variable strtod : list ascii -> Z.
Variable fmt_lf : Z -> list ascii.
Variable brick_path : list ascii.
Variable errno : Z.
Hypothesis fmt_short : forall z, Z.of_nat (length (fmt_lf z)) < PATH_MAX.
Implicit Types (s : active conn F) (f : F).

(** Only the attribute [n] of the file at [p] may have changed. *)

Definition only_attr (p : list ascii) (n : string) f f' : Prop :=
  forall p' n', n' <> n \/ sys_lgetxattr p' "trusted.gfid" f <> sys_lgetxattr p "trusted.gfid" f ->
    sys_lgetxattr p' n' f' = sys_lgetxattr p' n' f.

(** Properties of the host that setting attributes of users does not end, and
    hosts that differ by such settings only. *)

Definition stable (inv : F -> Prop) : Prop :=
  forall p n v size flags f r e f', sys_lsetxattr p n v size flags f = (r, e, f') ->
    user_name n = true -> inv f -> inv f'.

Definition moved f f' : Prop := forall inv, stable inv -> inv f -> inv f'.

Lemma set_attr_host p x n v size flags s :
  xa_name x = Some n ->
  set_attr p x v size flags s =
  let '(r, e, f') := sys_lsetxattr p n v size flags (ac_host s) in Some ((r, e), with_host s f').
Proof.
  intros Hn. unfold set_attr. rewrite Hn. cbn [m_deref]. rewrite m_bind_ret. unfold on_host.
  by destruct (sys_lsetxattr _ _ _ _ _ _) as [[r e] f'].
Qed.

(** Creating the attribute, or replacing it. *)

Lemma set_or_replace p x n v size s :
  xa_name x = Some n -> user_name n = true -> 0 <= size <= Z.of_nat (length v) ->
  size < PATH_MAX -> is_Some (sys_lgetxattr p "trusted.gfid" (ac_host s)) ->
  exists f', (r <~ set_attr p x v size XATTR_CREATE;;
    let '(op_ret, e) := r in
    if (op_ret =? -1) && (e =? EEXIST)
    then r <~ set_attr p x v size XATTR_REPLACE;; m_ret (r.1, negb (r.1 =? 0))
    else m_ret (op_ret, false)) s = Some ((0, false), with_host s f') /\
    sys_lgetxattr p n f' = Some (take (Z.to_nat size) v) /\ only_attr p n (ac_host s) f' /\
    moved (ac_host s) f'.
Proof.
  intros Hn Hu Hs Hm Hg. destruct (sys_lgetxattr p n (ac_host s)) as [old|] eqn:Ho.
  - destruct (set_exists p n v size _ old Ho Hs) as [f1 H1].
    destruct (set_failed _ _ _ _ _ _ _ _ _ H1) as [_ ->]; [done|].
    destruct (replace_ok p n v size (ac_host s)) as (e & f2 & H2); [by eexists|done..|].
    destruct (set_done _ _ _ _ _ _ _ _ H2 Hs) as [Hd Hoth]. exists f2.
    split; [|split_and!; [done|done|intros inv Hinv; by eapply Hinv]].
    unfold m_bind at 1. rewrite (set_attr_host p x n) by done. rewrite H1. cbv beta iota.
    change ((-1 =? -1) && (EEXIST =? EEXIST)) with true. cbv beta iota. unfold m_bind.
    rewrite (set_attr_host p x n) by done. cbn [ac_host with_host]. by rewrite H2.
  - destruct (create_ok p n v size (ac_host s)) as (e & f2 & H2); [done..|].
    destruct (set_done _ _ _ _ _ _ _ _ H2 Hs) as [Hd Hoth]. exists f2.
    split; [|split_and!; [done|done|intros inv Hinv; by eapply Hinv]].
    unfold m_bind at 1. rewrite (set_attr_host p x n) by done. by rewrite H2.
Qed.

Lemma user_not_trusted n : user_name n = true -> "trusted.gfid"%string <> n.
Proof. by intros H <-. Qed.

Lemma sys_setxattr_spec p x n v g s :
  xa_name x = Some n -> user_name n = true -> value_text fmt_lf x = Some v ->
  Z.of_nat (length v) < PATH_MAX -> (xa_type x = IMS_XDB_TYPE_STRING -> (0 < length v)%nat) ->
  sys_lgetxattr p "trusted.gfid" (ac_host s) = Some g ->
  exists f', ims_sys_setxattr fmt_lf p x s = Some ((0, with_gfid x (file_gfid g)), with_host s f') /\
    sys_lgetxattr p n f' = Some (stored_text fmt_lf x) /\ only_attr p n (ac_host s) f' /\
    moved (ac_host s) f'.
Proof.
  intros Hn Hu Hv Hl Hstr Hg. unfold ims_sys_setxattr, stored_text. rewrite Hv.
  rewrite (proj2 (Z.ltb_ge _ _)) by lia.
  set (size := if xa_type x =? IMS_XDB_TYPE_STRING then u64 (Z.of_nat (length v) - 1)
               else Z.of_nat (length v)).
  assert (0 <= size <= Z.of_nat (length v) /\
    take (Z.to_nat size) v = if xa_type x =? IMS_XDB_TYPE_STRING then take (pred (length v)) v else v)
    as [Hs Ht].
  { unfold size. destruct (Z.eqb_spec (xa_type x) IMS_XDB_TYPE_STRING) as [E|E].
    - specialize (Hstr E). rewrite uwrap_small by (unfold in_u, PATH_MAX in *; lia).
      split; [lia|]. f_equal. lia.
    - split; [lia|]. rewrite Nat2Z.id. by rewrite firstn_all. }
  destruct (set_or_replace p x n v size s) as (f' & Hset & Hget & Honly & Hmov); [done..|lia|by eexists|].
  exists f'. rewrite <- Ht. split; [|done].
  transitivity (m_bind (r <~ set_attr p x v size XATTR_CREATE;;
    let '(op_ret, e) := r in
    if (op_ret =? -1) && (e =? EEXIST)
    then r <~ set_attr p x v size XATTR_REPLACE;; m_ret (r.1, negb (r.1 =? 0))
    else m_ret (op_ret, false)) (fun r => let '(op_ret, out) := r in
    if out : bool then m_ret (op_ret, x)
    else s <~ m_get;; m_ret (op_ret, with_gfid x (uuid_utoa (gfid_bytes
            (sys_lgetxattr p "trusted.gfid" (ac_host s)))))) s).
  { rewrite m_bind_assoc. unfold m_bind. destruct (set_attr _ _ _ _ _ s) as [[[r e] s1]|]; done. }
  unfold m_bind at 1. rewrite Hset. unfold m_bind, m_get, m_ret. cbn [ac_host with_host].
  rewrite Honly by (left; by apply user_not_trusted). by rewrite Hg.
Qed.

Lemma parse_line_spec l x s :
  line l -> line_attr strtod l = Some x -> ac_allocs s = [] ->
  parse_line_to_xattr strtod l s = Some ((0, 0, x), s).
Proof.
  intros Hl Hx Hal. unfold parse_line_to_xattr. rewrite cut_plain by (by apply line_no_nul).
  unfold line_attr in Hx. destruct (split_eq l) as [[k v]|] eqn:E; [|done]. cbn in Hx.
  destruct Hl as (b & -> & _ & _ & Hl). destruct (split_eq_line _ _ _ E) as (v' & -> & ->).
  rewrite (proj2 (Z.ltb_ge _ _)) by (rewrite !length_app in *; cbn [length] in *; lia).
  destruct (classify strtod (v' ++ [newline])) as [[[ty iv] rv] sv]. injection Hx as <-.
  unfold m_bind, dup, m_ret. rewrite Hal. destruct s as [q c al h]. cbn in Hal. subst al.
  by destruct sv.
Qed.

(** The task for an attribute. *)

Definition attr_task (x : ims_xdb_attr) : ims_task :=
  {| t_op := IMS_TASK_INSERT_XATTR; t_file := no_file; t_sb := no_stat; t_attr := x |}.

Definition queued s (a : ims_async conn) (xs : list ims_xdb_attr) f' : active conn F :=
  {| ac_query := ac_query s; ac_ctx := Some (set_queue (task_queue a ++ (attr_task <$> xs)) a);
     ac_allocs := []; ac_host := f' |}.

Lemma extractor_line p l x n a g s :
  line l -> line_attr strtod l = Some x -> xa_name x = Some n -> user_name n = true ->
  ac_ctx s = Some a -> ac_allocs s = [] ->
  sys_lgetxattr p "trusted.gfid" (ac_host s) = Some g ->
  exists f', extractor_setxattr strtod fmt_lf errno p l s =
      Some ((0, 0), queued s a [with_gfid x (file_gfid g)] f') /\
    sys_lgetxattr p n f' = Some (stored_text fmt_lf x) /\ only_attr p n (ac_host s) f' /\
    moved (ac_host s) f'.
Proof.
  intros Hl Hx Hn Hu Ha Hal Hg.
  destruct (line_attr_text strtod fmt_lf l x fmt_short Hl Hx) as (v & Hv & Hlen & Hstr).
  destruct (sys_setxattr_spec p x n v g s Hn Hu Hv Hlen Hstr Hg) as (f' & Hset & Hrest).
  exists f'. split; [|done]. unfold extractor_setxattr, m_bind at 1.
  rewrite (parse_line_spec l x) by done. cbn [negb Z.eqb]. unfold m_bind at 1. rewrite Hset.
  cbn [negb Z.eqb]. unfold m_bind, put_xattr_task. cbn [ac_ctx ac_allocs with_host]. rewrite Ha, Hal.
  unfold ims_async_put_task. rewrite task_dup_nil. done.
Qed.

(** ** All lines *)

(** The attributes that the lines give to the file with gfid [g]. *)

Definition line_attrs (g : list ascii) (ls : list (list ascii)) : list ims_xdb_attr :=
  omap (fun l => (fun x => with_gfid x (file_gfid g)) <$> line_attr strtod l) ls.

Lemma queued_nil s a : ac_ctx s = Some a -> ac_allocs s = [] -> queued s a [] (ac_host s) = s.
Proof.
  destruct s as [q c al h], a as [x tq lat]. cbn. intros -> ->. unfold queued, set_queue. cbn.
  by rewrite app_nil_r.
Qed.

Lemma queued_app s a xs ys f' f'' :
  queued (queued s a xs f') (set_queue (task_queue a ++ (attr_task <$> xs)) a) ys f'' =
  queued s a (xs ++ ys) f''.
Proof.
  unfold queued, set_queue. cbn [ac_query ac_ctx ac_allocs a_xdb task_queue a_latency_log].
  by rewrite fmap_app, (assoc_L (++)).
Qed.

(** The attribute [m] of a file for which the program printed these lines. *)

Definition disk_after (m : string) (ls : list (list ascii)) (old : option (list ascii))
    : option (list ascii) :=
  foldl (fun v l => match line_attr strtod l with
                    | Some x => if decide (xa_name x = Some m) then Some (stored_text fmt_lf x) else v
                    | None => v
                    end) old ls.

(** The lines changed the attributes of the file at [p] and of no other. *)

Definition lines_stored p (ls : list (list ascii)) f f' : Prop :=
  (forall m, sys_lgetxattr p m f' = disk_after m ls (sys_lgetxattr p m f)) /\
  forall p' m, sys_lgetxattr p' "trusted.gfid" f <> sys_lgetxattr p "trusted.gfid" f ->
    sys_lgetxattr p' m f' = sys_lgetxattr p' m f.

Lemma extract_lines_spec ls fuel p n a g s :
  Forall (attr_line strtod) ls -> (length (concat ls) <= fuel)%nat ->
  ac_ctx s = Some a -> ac_allocs s = [] ->
  sys_lgetxattr p "trusted.gfid" (ac_host s) = Some g -> 0 <= n ->
  n + Z.of_nat (length ls) < 2 ^ 64 ->
  exists f', extract_lines strtod fmt_lf errno fuel p (concat ls) 0 n s =
      Some ((0, n + Z.of_nat (length ls)), queued s a (line_attrs g ls) f') /\
    moved (ac_host s) f' /\ lines_stored p ls (ac_host s) f'.
Proof.
  intros Hls. revert fuel n a s. induction Hls as [|l ls (Hl & x & nm & Hx & Hnm & Hu) Hls IH];
    intros fuel n a s Hf Ha Hal Hg Hn Hb.
  { exists (ac_host s). cbn [concat length line_attrs omap list_omap]. rewrite Z.add_0_r, queued_nil by done.
    split_and!; [by destruct fuel|by intros inv|done]. }
  destruct (line_cons l Hl) as (c & l' & E). cbn [concat length] in *.
  rewrite length_app in Hf. destruct fuel as [|fuel]; [rewrite E in Hf; cbn in Hf; lia|].
  assert (exists c' r, l ++ concat ls = c' :: r) as (c' & r & Er) by (rewrite E; by eexists _, _).
  assert (length l <> 0)%nat by (rewrite E; done).
  destruct (extractor_line p l x nm a g s Hl Hx Hnm Hu Ha Hal Hg) as (f1 & H1 & Hget & Honly & Hmov).
  assert (forall q, sys_lgetxattr q "trusted.gfid" f1 = sys_lgetxattr q "trusted.gfid" (ac_host s)) as Hgf
    by (intros q; apply Honly; left; by apply user_not_trusted).
  destruct (IH fuel (n + 1) _ (queued s a [with_gfid x (file_gfid g)] f1) ltac:(lia) eq_refl eq_refl)
    as (f2 & H2 & Hs2 & Hd2 & Ho2); [by rewrite <- Hg; apply Hgf|lia|lia|].
  exists f2. split_and!.
  - cbn [extract_lines]. rewrite Er. rewrite <- Er. rewrite fgets_next by done.
    unfold m_bind. rewrite H1. cbn [negb Z.eqb]. rewrite uwrap_small by (unfold in_u; lia).
    rewrite H2. unfold line_attrs. cbn [omap list_omap]. rewrite Hx.
    cbn [fmap option_fmap option_map]. rewrite queued_app. cbn [app].
    by replace (n + 1 + Z.of_nat (length ls)) with (n + Z.of_nat (S (length ls))) by lia.
  - intros inv Hinv Hi. apply (Hs2 inv Hinv). by apply (Hmov inv Hinv).
  - split.
    + intros m. rewrite Hd2. cbn [queued ac_host disk_after foldl]. rewrite Hx. fold (disk_after m ls).
      unfold disk_after. f_equal. case_decide as Hm.
      * rewrite Hnm in Hm. by injection Hm as <-.
      * apply Honly. left. congruence.
    + intros p' m Hp'. rewrite Ho2 by (cbn [queued ac_host]; by rewrite !Hgf). cbn [queued ac_host].
      apply Honly. by right.
Qed.

(** *** All files *)

Section files.
Variable operator : list ascii.

(** What the program prints for a file, its status, and the gfid of the file. *)

Variable prints : list ascii -> list (list ascii).
Variable status : list ascii -> Z.
Variable gfid : list ascii -> list ascii.

(** As long as [inv] holds the files have their gfids and the program prints
    these lines, and neither the program nor the attributes end it. *)

Record workload (inv : F -> Prop) (ps : list (list ascii)) : Prop := {
  wl_gfid p f : p ∈ ps -> inv f ->
    sys_lgetxattr (brick_path ++ p) "trusted.gfid" f = Some (gfid p);
  wl_prints p f : p ∈ ps -> inv f ->
    exists f1, run_program operator (brick_path ++ p) f = (Some (concat (prints p), status p), f1) /\
      inv f1;
  wl_stable : stable inv
}.

Definition printed_lines (ps : list (list ascii)) : list (list ascii) := concat (prints <$> ps).

Definition printed_attrs (ps : list (list ascii)) : list ims_xdb_attr :=
  concat ((fun p => line_attrs (gfid p) (prints p)) <$> ps).

(** The program leaves the attributes of the files alone. *)

Definition only_reads (ps : list (list ascii)) : Prop :=
  forall p q m f r f1, p ∈ ps -> q ∈ ps -> run_program operator (brick_path ++ p) f = (r, f1) ->
    sys_lgetxattr (brick_path ++ q) m f1 = sys_lgetxattr (brick_path ++ q) m f.

(** Then the files [ps] among [all] have got the attributes of their lines, and
    the other ones have kept theirs. *)

Definition files_stored (all ps : list (list ascii)) f f' : Prop :=
  only_reads all -> NoDup (gfid <$> ps) -> forall q m, q ∈ all ->
    (q ∈ ps -> sys_lgetxattr (brick_path ++ q) m f' =
       disk_after m (prints q) (sys_lgetxattr (brick_path ++ q) m f)) /\
    (~ gfid q ∈ gfid <$> ps -> sys_lgetxattr (brick_path ++ q) m f' = sys_lgetxattr (brick_path ++ q) m f).

Lemma files_stored_cons inv all p ps f r f1 f2 f3 :
  workload inv all -> p ∈ all -> inv f1 ->
  run_program operator (brick_path ++ p) f = (r, f1) ->
  lines_stored (brick_path ++ p) (prints p) f1 f2 -> files_stored all ps f2 f3 ->
  files_stored all (p :: ps) f f3.
Proof.
  intros Hwl Hp Hi Hrun [Hl1 Hl2] Hfs Hr Hnd q m Hq. rewrite fmap_cons in Hnd |- *.
  apply NoDup_cons in Hnd as [Hni Hnd]. destruct (Hfs Hr Hnd q m Hq) as [H1 H2].
  pose proof (wl_gfid _ _ Hwl p f1 Hp Hi) as Hgp. pose proof (wl_gfid _ _ Hwl q f1 Hq Hi) as Hgq.
  assert (gfid q <> gfid p -> sys_lgetxattr (brick_path ++ q) m f2 = sys_lgetxattr (brick_path ++ q) m f) as Hoth.
  { intros Hne. rewrite Hl2 by (rewrite Hgp, Hgq; congruence). by apply (Hr p q m f r). }
  split.
  - intros [->|Hin]%elem_of_cons.
    + rewrite H2, Hl1 by done. f_equal. by apply (Hr p p m f r).
    + rewrite H1 by done. f_equal. apply Hoth. intros E. apply Hni. rewrite <- E. by apply list_elem_of_fmap_2.
  - intros Hn. rewrite not_elem_of_cons in Hn. destruct Hn as [Hne Hn]. rewrite H2 by done. by apply Hoth.
Qed.

Lemma extract_files_spec inv all ps xfiles i file r n a s :
  workload inv all -> ps ⊆ all -> inv (ac_host s) ->
  Forall (fun p => Forall (attr_line strtod) (prints p)) ps -> Forall (fits brick_path) ps ->
  rows_at xfiles i ps -> 0 <= i -> i + Z.of_nat (length ps) < 10 ^ 11 ->
  ac_ctx s = Some a -> ac_allocs s = [] ->
  0 <= n -> n + Z.of_nat (length (printed_lines ps)) < 2 ^ 64 ->
  exists f', extract_files strtod fmt_lf brick_path errno (length ps) i operator xfiles file r 0 n s =
    Some ((default r (last (status <$> ps)), 0, n + Z.of_nat (length (printed_lines ps))),
          queued s a (printed_attrs ps) f') /\
    files_stored all ps (ac_host s) f'.
Proof.
  intros Hwl. pose proof Hwl as [Hgf Hprog Hst]. revert i file r n a s.
  induction ps as [|p ps IH]; intros i file r n a s Hsub Hk Hl Hfit Hrows Hi Hib Ha Hal Hn Hb.
  { exists (ac_host s). cbn [length extract_files printed_lines printed_attrs fmap list_fmap concat last].
    rewrite Z.add_0_r, queued_nil by done. split; [done|]. intros _ _ q m _. split; [|done].
    intros Hq. by apply not_elem_of_nil in Hq. }
  apply Forall_cons in Hl as [Hlp Hl]. apply Forall_cons in Hfit as [Hp Hfit].
  apply rows_at_cons in Hrows as [Hrow Hrows]. unfold printed_lines, printed_attrs in *.
  cbn [fmap list_fmap concat length] in *. rewrite length_app in Hb.
  destruct (Hprog p (ac_host s)) as (f1 & Hrun & Hk1); [apply Hsub; left|done|].
  pose proof (Hgf p f1 ltac:(apply Hsub; left) Hk1) as Hg.
  destruct (extract_lines_spec (prints p) (length (concat (prints p))) (brick_path ++ p) n a (gfid p)
    (with_host s f1)) as (f2 & H2 & Hs2 & Hst2); [done|done|done|done|done|done|lia|].
  destruct (IH (i + 1) (Some p) (status p) (n + Z.of_nat (length (prints p)))
    (set_queue (task_queue a ++ (attr_task <$> line_attrs (gfid p) (prints p))) a)
    (queued s a (line_attrs (gfid p) (prints p)) f2)) as (f3 & H3 & Hst3);
    [set_solver|by apply (Hs2 inv Hst)|done|done|done|lia|lia|reflexivity|reflexivity|lia|lia|].
  exists f3. split; [|by apply (files_stored_cons inv all p ps _ (Some (concat (prints p), status p)) f1 f2);
    [..|apply Hsub; left|done|done|done|done]].
  cbn [extract_files]. rewrite (next_file_row _ _ p) by (apply Hp || lia || done).
  cbn [m_deref]. rewrite m_bind_ret, brick_file_fits by done. cbn [m_deref]. rewrite m_bind_ret.
  unfold m_bind at 1, on_host. rewrite Hrun. cbv beta iota. fold (with_host s f1).
  unfold m_bind. rewrite H2. cbv beta iota. unfold queued in H3 |- *.
  cbn [ac_query with_host ac_ctx ac_allocs ac_host] in *. rewrite H3.
  rewrite length_app, fmap_app. unfold set_queue. cbn [task_queue a_xdb a_latency_log].
  rewrite <- (assoc_L (++)), last_cons.
  replace (n + Z.of_nat (length (prints p)) + Z.of_nat (length (concat (prints <$> ps))))
    with (n + Z.of_nat (length (prints p) + length (concat (prints <$> ps)))) by lia.
  by destruct (last (status <$> ps)).
Qed.

End files.
End extract.

(** ** The work of the worker *)

Lemma attr_tasks_xops xs : mapM task_xop (attr_task <$> xs) = Some (OpSetxattr <$> xs).
Proof. induction xs as [|x xs IH]; [done|]. cbn [fmap list_fmap mapM]. by rewrite IH. Qed.

Lemma line_attrs_ok strtod g ls :
  Forall (attr_line strtod) ls ->
  Forall (fun o => xop_ok o = true) (OpSetxattr <$> line_attrs strtod g ls) /\
  length (line_attrs strtod g ls) = length ls.
Proof.
  induction 1 as [|l ls (_ & x & n & Hx & Hn & _) Hls [IH1 IH2]]; [done|].
  unfold line_attrs in *. cbn [omap list_omap]. rewrite Hx. cbn [fmap option_fmap option_map list_fmap length].
  split; [|lia]. constructor; [|done]. cbn [xop_ok xa_gfid xa_name with_gfid]. by rewrite Hn.
Qed.

Lemma printed_attrs_ok strtod prints gfid ps :
  Forall (fun p => Forall (attr_line strtod) (prints p)) ps ->
  Forall (fun o => xop_ok o = true) (OpSetxattr <$> printed_attrs strtod prints gfid ps) /\
  length (printed_attrs strtod prints gfid ps) = length (printed_lines prints ps).
Proof.
  induction 1 as [|p ps Hp Hps [IH1 IH2]]; [done|]. unfold printed_attrs, printed_lines in *.
  cbn [fmap list_fmap concat]. destruct (line_attrs_ok strtod (gfid p) (prints p) Hp) as [H1 H2].
  rewrite fmap_app, !length_app. split; [by apply Forall_app_2|lia].
Qed.

Lemma drain_attrs {conn} `{!SqlEngine conn, !SqlLaws conn, !ReliableTx conn, !HealthyEngine conn}
    (a : ims_async conn) xs ix k :
  holds (a_xdb a) ix k -> k + Z.of_nat (length xs) < 2 ^ 31 ->
  Forall (fun o => xop_ok o = true) (OpSetxattr <$> xs) -> task_queue a = attr_task <$> xs ->
  exists x', drain (length xs) a =
      Some (tt, {| a_xdb := x'; task_queue := []; a_latency_log := a_latency_log a |}) /\
    holds x' (foldl step_ix ix (OpSetxattr <$> xs)) (k + Z.of_nat (length xs)).
Proof.
  intros Hh Hk Hok Hq. destruct (holds_steps (OpSetxattr <$> xs) (a_xdb a) ix k)
    as (rs & x' & Hrun & Hh'); [done|by rewrite length_fmap|done|].
  rewrite length_fmap in Hh'. exists x'. split; [|done].
  apply (drain_spec _ _ (OpSetxattr <$> xs) rs); [by rewrite Hq, attr_tasks_xops| |done].
  by rewrite length_fmap.
Qed.

(** The server's side of a request of type [extractor]. *)

Lemma extract_request {conn F} `{!SqlQuery conn, !SqlEngine conn, !Host F, !HostLaws F,
    !HealthyHost F} strtod fmt_lf brick_path errno from d sql operator rows (c : conn) prints status
    gfid inv a dbtime latency (s : active conn F) :
  (forall z, Z.of_nat (length (fmt_lf z)) < PATH_MAX) ->
  active_request d "extractor" sql operator -> selects (ac_query s) sql rows c ->
  Forall (fits brick_path) rows -> workload brick_path operator prints status gfid inv rows ->
  inv (ac_host s) ->
  Forall (fun p => Forall (attr_line strtod) (prints p)) rows ->
  ac_ctx s = Some a -> ac_allocs s = [] -> Z.of_nat (length (printed_lines prints rows)) < 2 ^ 64 ->
  exists t f', ims_ipc strtod fmt_lf brick_path errno from d dbtime latency s =
    Some ({| ir_ret := 0; ir_errno := 0;
             ir_xdata := Some (work_reply from [] (default 0 (last (status <$> rows)))
               (Z.of_nat (length (printed_lines prints rows))) t) |},
          queued (with_query s c) a (printed_attrs strtod prints gfid rows) f') /\
    files_stored strtod fmt_lf brick_path operator prints gfid rows rows (ac_host s) f'.
Proof.
  intros Hfmt Hrq Hsel Hfit Hwl Hinv Hlines Ha Hal Hb.
  destruct (direct_query_spec _ _ _ _ Hsel) as [_ Hl].
  rewrite (ims_ipc_active brick_path errno strtod fmt_lf from d "extractor" sql operator dbtime latency
    s IMS_IPC_TYPE_EXTRACTOR) by (done || by apply plain_text).
  rewrite (active_exec_select brick_path errno strtod fmt_lf d "extractor" sql operator rows c
    _ _ latency s Hrq Hsel).
  destruct rows as [|p0 rows']; [|set (rows := p0 :: rows') in *].
  { exists zero_time, (ac_host (with_query s c)). rewrite queued_nil by done. split; [done|].
    intros _ _ q m Hq. by apply not_elem_of_nil in Hq. }
  rewrite (proj2 (Z.eqb_neq _ _)) by (unfold rows; cbn [length]; lia).
  change (IMS_IPC_TYPE_EXTRACTOR =? IMS_IPC_TYPE_EXEC) with false.
  change (IMS_IPC_TYPE_EXTRACTOR =? IMS_IPC_TYPE_EXTRACTOR) with true. cbv beta iota.
  destruct (extract_files_spec strtod fmt_lf brick_path errno Hfmt operator prints status gfid inv rows rows
    (selected rows) 0 None 0 0 a (with_query s c)) as (f' & Hx & Hfs);
    [done|done|done|done|done|by apply selected_rows|lia|lia|done|done|lia|lia|].
  unfold ipc_active_work_files_extract.
  rewrite (get_uint64_spec _ _ (Z.of_nat (length rows)))
    by (apply selected_count || (unfold in_u; lia)).
  cbn [m_deref]. unfold m_bind, m_ret. cbn [default from_option id]. rewrite Nat2Z.id, Hx.
  cbv beta iota. rewrite finish_files_spec. by exists latency, f'.
Qed.

(** ** Properties *)

(** One line of an extraction, [name=value] with its newline, on a host
    that can set attributes: the attribute of the file is set to the text of
    the number, or to the string without the newline, no attribute of another
    name changes, and the worker gets the task to index the attribute under
    the gfid of the file; the string in the task keeps the newline. *)
Theorem extractor_line_spec {conn F} `{!SqlQuery conn, !SqlEngine conn, !Host F, !HostLaws F,
    !HealthyHost F} (strtod : list ascii -> Z) (fmt_lf : Z -> list ascii) (errno : Z)
    (p name value : list ascii) (n : string) (g : list ascii) (a : ims_async conn)
    (s : active conn F) :
  (forall z, Z.of_nat (length (fmt_lf z)) < PATH_MAX) ->
  line (name ++ "="%char :: value ++ [newline]) -> ~ "="%char ∈ name ->
  n = string_of_list_ascii name -> user_name n = true ->
  ac_ctx s = Some a -> ac_allocs s = [] ->
  sys_lgetxattr p "trusted.gfid" (ac_host s) = Some g ->
  exists type ival rval sval s',
    classify strtod (value ++ [newline]) = (type, ival, rval, sval) /\
    extractor_setxattr strtod fmt_lf errno p (name ++ "="%char :: value ++ [newline]) s =
      Some ((0, 0), s') /\
    ac_ctx s' = Some (set_queue (task_queue a ++
      [attr_task {| xa_gfid := Some (uuid_utoa (gfid_bytes (Some g))); xa_type := type;
                    xa_name := Some n; xa_ival := ival; xa_rval := rval; xa_sval := sval |}]) a) /\
    sys_lgetxattr p n (ac_host s') =
      Some (if type =? IMS_XDB_TYPE_INTEGER then dec ival
            else if type =? IMS_XDB_TYPE_REAL then fmt_lf rval else value) /\
    (forall p' n', n' <> n -> sys_lgetxattr p' n' (ac_host s') = sys_lgetxattr p' n' (ac_host s)).
Proof.
  intros Hfmt Hl Hne -> Hu Ha Hal Hg.
  assert (split_eq (name ++ "="%char :: value ++ [newline]) = Some (name, value ++ [newline])) as Hsp.
  { clear -Hne. induction name as [|c name IH]; [done|]. rewrite not_elem_of_cons in Hne.
    cbn [app split_eq]. destruct (Ascii.eqb_spec c "=") as [->|]; [naive_solver|].
    by rewrite IH by naive_solver. }
  destruct (classify strtod (value ++ [newline])) as [[[ty iv] rv] sv] eqn:Hc.
  set (x := {| xa_gfid := None; xa_type := ty; xa_name := Some (string_of_list_ascii name);
               xa_ival := iv; xa_rval := rv; xa_sval := sv |}).
  assert (line_attr strtod (name ++ "="%char :: value ++ [newline]) = Some x) as Hx.
  { unfold line_attr. rewrite Hsp. cbn [mbind option_bind]. by rewrite Hc. }
  destruct (extractor_line strtod fmt_lf errno Hfmt p _ x _ a g s Hl Hx eq_refl Hu Ha Hal Hg)
    as (f' & Hext & Hget & Honly & _).
  exists ty, iv, rv, sv, (queued s a [with_gfid x (file_gfid g)] f').
  split_and!; [done|done|done| |intros p' n' Hn; apply Honly; by left].
  cbn [queued ac_host]. rewrite Hget. f_equal.
  unfold stored_text, value_text, x. cbn [xa_type xa_ival xa_rval xa_sval].
  destruct (classify_cases strtod (value ++ [newline])) as [(z & _ & Hc')|[Hc'|Hc']];
    rewrite Hc' in Hc; simplify_eq; cbn -[length]; [done|done|].
  rewrite list_ascii_of_string_of_list_ascii, length_app, Nat.add_comm. cbn [length pred Nat.add].
  by rewrite take_app_length.
Qed.

(** C21. A request of type [extractor], where updates are deferred: on a healthy
    database with working transactions and a host that can set attributes of
    users, when the query selects the files [rows] and the program prints
    [name=value] lines with names that begin with [user.] for each of them, the
    server replies with the number of lines and the status of the last program;
    the files have got the attributes of their lines on disk, when they have
    different gfids and the program itself leaves the attributes alone; and once
    the worker has drained its queue the tables represent the index after
    setting the attribute of every line, in order, for the gfid of its file. *)
Theorem extract_indexes {conn F} `{!SqlQuery conn, !SqlEngine conn, !SqlLaws conn, !ReliableTx conn,
    !HealthyEngine conn, !Host F, !HostLaws F, !HealthyHost F}
    (strtod : list ascii -> Z) (fmt_lf : Z -> list ascii) (brick_path : list ascii) (errno : Z)
    (from : list ascii) (d : dict_t) (sql operator : list ascii) (rows : list (list ascii))
    (c : conn) (prints : list ascii -> list (list ascii)) (status : list ascii -> Z)
    (gfid : list ascii -> list ascii) (inv : F -> Prop) (a : ims_async conn) (ix : index) (k : Z)
    (dbtime latency : list ascii) (s : active conn F) :
  (forall z, Z.of_nat (length (fmt_lf z)) < PATH_MAX) ->
  active_request d "extractor" sql operator -> selects (ac_query s) sql rows c ->
  Forall (fits brick_path) rows -> workload brick_path operator prints status gfid inv rows ->
  inv (ac_host s) ->
  Forall (fun p => Forall (attr_line strtod) (prints p)) rows ->
  ac_ctx s = Some a -> ac_allocs s = [] -> task_queue a = [] ->
  holds (a_xdb a) ix k -> k + Z.of_nat (length (printed_lines prints rows)) < 2 ^ 31 ->
  let attrs := printed_attrs strtod prints gfid rows in
  exists reply s' a' x',
    ims_ipc strtod fmt_lf brick_path errno from d dbtime latency s =
      Some ({| ir_ret := 0; ir_errno := 0; ir_xdata := Some reply |}, s') /\
    dict_get reply "count" = Some (text_data (dec (Z.of_nat (length (printed_lines prints rows))))) /\
    dict_get reply "ret" = Some (text_data (dec (default 0 (last (status <$> rows))))) /\
    (only_reads brick_path operator rows -> NoDup (gfid <$> rows) -> forall p m, p ∈ rows ->
       sys_lgetxattr (brick_path ++ p) m (ac_host s') =
       disk_after strtod fmt_lf m (prints p) (sys_lgetxattr (brick_path ++ p) m (ac_host s))) /\
    ac_ctx s' = Some a' /\ length (task_queue a') = length (printed_lines prints rows) /\
    drain (length (task_queue a')) a' =
      Some (tt, {| a_xdb := x'; task_queue := []; a_latency_log := a_latency_log a |}) /\
    holds x' (foldl step_ix ix (OpSetxattr <$> attrs)) (k + Z.of_nat (length attrs)).
Proof.
  intros Hfmt Hrq Hsel Hfit Hwl Hinv Hlines Ha Hal Hq Hh Hb attrs.
  assert (0 <= k) as Hk0 by (destruct Hh as (_ & _ & Hbud); apply Hbud).
  destruct (printed_attrs_ok strtod prints gfid rows Hlines) as [Hok Hlen]. fold attrs in Hok, Hlen.
  destruct (drain_attrs (set_queue (attr_task <$> attrs) a) attrs ix k) as (x' & Hdr & Hh');
    [done|by rewrite Hlen|done|done|].
  destruct (extract_request strtod fmt_lf brick_path errno from d sql operator rows c prints status gfid
    inv a dbtime latency s) as (t & f' & Hx & Hfs); [done..|lia|]. fold attrs in Hx.
  eexists _, _, (set_queue (attr_task <$> attrs) a), x'. split; [exact Hx|].
  destruct (work_reply_gets from [] (default 0 (last (status <$> rows)))
    (Z.of_nat (length (printed_lines prints rows))) t) as (_ & Hcnt & Hret & _); [done|].
  cbn [set_queue task_queue]. rewrite length_fmap, Hlen in *.
  split_and!; [done|done| | |done|done|done]; [intros Hr Hnd p m Hp; by apply (Hfs Hr Hnd p m Hp)|].
  unfold queued. cbn [ac_ctx]. by rewrite Hq.
Qed.

(** Extraction needs the worker of deferred updates: when updates are
    synchronous there is none, and the first line whose attribute could be set
    dereferences a null pointer. *)
Theorem extract_needs_worker {conn F} `{!SqlQuery conn, !SqlEngine conn, !Host F, !HostLaws F,
    !HealthyHost F} (strtod : list ascii -> Z) (fmt_lf : Z -> list ascii) (errno : Z)
    (p l g : list ascii) (s : active conn F) :
  (forall z, Z.of_nat (length (fmt_lf z)) < PATH_MAX) -> attr_line strtod l ->
  sys_lgetxattr p "trusted.gfid" (ac_host s) = Some g -> ac_allocs s = [] -> ac_ctx s = None ->
  extractor_setxattr strtod fmt_lf errno p l s = None.
Proof.
  intros Hfmt (Hl & x & n & Hx & Hn & Hu) Hg Hal Ha.
  destruct (line_attr_text strtod fmt_lf l x Hfmt Hl Hx) as (v & Hv & Hlen & Hstr).
  destruct (sys_setxattr_spec fmt_lf p x n v g s Hn Hu Hv Hlen Hstr Hg) as (f' & Hset & _).
  unfold extractor_setxattr, m_bind at 1. rewrite (parse_line_spec strtod l x) by done.
  cbn [negb Z.eqb]. unfold m_bind at 1. rewrite Hset. cbn [negb Z.eqb].
  unfold m_bind, put_xattr_task. cbn [ac_ctx ac_allocs with_host]. by rewrite Ha, Hal, task_dup_nil.
Qed.

(** ** Examples *)

Import Sample.

Lemma no_text_short z : Z.of_nat (length (no_text z)) < PATH_MAX.
Proof. done. Qed.

Lemma printed_attr_lines : Forall (attr_line no_double) printed.
Proof.
  repeat constructor; try (by apply line_check); eexists _, _; split_and!; vm_compute; reflexivity.
Qed.

Definition f_gfid : string := file_gfid gfid.

Lemma extractor_line_spec_witness :
  exists s', extractor_setxattr no_double no_text 0 (text "/brick/f") (a_line "user.site=ornl")
      (server sample_healthy) = Some ((0, 0), s') /\
    sys_lgetxattr (text "/brick/f") "user.site" (ac_host s') = Some (text "ornl") /\
    ac_ctx s' = Some (set_queue [attr_task {| xa_gfid := Some f_gfid;
      xa_type := IMS_XDB_TYPE_STRING; xa_name := Some "user.site"%string; xa_ival := 0; xa_rval := 0;
      xa_sval := Some (string_of_list_ascii (a_line "ornl")) |}] (worker sample_healthy)).
Proof.
  destruct (extractor_line_spec no_double no_text 0 (text "/brick/f") (text "user.site") (text "ornl")
    "user.site" gfid (worker sample_healthy) (server sample_healthy))
    as (type & iv & rv & sv & s' & Hc & H1 & H2 & H3 & _).
  - apply no_text_short.
  - change (line (a_line "user.site=ornl")). by apply line_check.
  - apply (bool_decide_eq_true_1 (~ _)). vm_compute. reflexivity.
  - reflexivity.
  - reflexivity.
  - reflexivity.
  - reflexivity.
  - vm_compute. reflexivity.
  - exists s'. vm_compute in Hc. injection Hc as <- <- <- <-. split; [exact H1|].
    split; [exact H3|]. exact H2.
Defined.

(** The file [/f] in the index. *)

Definition f_entry : xop :=
  OpInsertNewFile {| xf_gfid := Some f_gfid; xf_path := Some "/f"%string; xf_extra := None |} no_stat.

(** The file keeps its gfid and the program prints the two lines. *)

Definition known (f : MapHost.host) : Prop :=
  sys_lgetxattr (text "/brick/f") "trusted.gfid" f = Some gfid /\
  MapHost.prints f !! "/brick/f"%string = Some (concat printed, 0).

Lemma known_workload :
  workload brick (text "/bin/op") (fun _ => printed) (fun _ => 0) (fun _ => gfid) known [text "/f"].
Proof.
  split.
  - intros p f ->%list_elem_of_singleton [Hg _]. exact Hg.
  - intros p f ->%list_elem_of_singleton Hf. exists f. split; [|done].
    cbn. unfold MapHost.run. change (string_of_list_ascii _) with "/brick/f"%string.
    by destruct Hf as [_ ->].
  - intros p n v size flags f r e f' Hset Hu [Hg Hp]. split.
    + cbn in *. unfold MapHost.set, MapHost.get in *.
      repeat case_match; simplify_eq; cbn [MapHost.attrs]; try done.
      all: rewrite lookup_insert_ne; [done|]. all: intros E; by simplify_eq.
    + cbn in Hset. unfold MapHost.set in Hset. repeat case_match; by simplify_eq.
Qed.

Lemma extract_indexes_witness :
  exists x reply s' a' x',
    ims_ipc no_double no_text brick 0 (text "host-db") (request_of "extractor") [] [] (server x) =
      Some ({| ir_ret := 0; ir_errno := 0; ir_xdata := Some reply |}, s') /\
    ac_ctx s' = Some a' /\
    drain 2 a' = Some (tt, {| a_xdb := x'; task_queue := []; a_latency_log := false |}) /\
    sys_lgetxattr (text "/brick/f") "user.run" (ac_host s') = Some (text "42") /\
    exists ix, holds x' ix 3 /\ ix_attrs ix !! (f_gfid, "user.run"%string) = Some (Some 42, None, None).
Proof.
  destruct (holds_step f_entry sample_healthy empty_index 0) as (r & x & _ & Hh);
    [apply holds_fresh; split; reflexivity|reflexivity|vm_compute; reflexivity|].
  exists x.
  destruct (extract_indexes no_double no_text brick 0 (text "host-db") (request_of "extractor")
    (text "select path from xfile") (text "/bin/op") [text "/f"] conn_f (fun _ => printed)
    (fun _ => 0) (fun _ => gfid) known (worker x) (step_ix empty_index f_entry) 1 [] [] (server x))
    as (reply & s' & a' & x' & H1 & _ & _ & Hd & H2 & Hl & H3 & H4).
  - apply no_text_short.
  - apply active_request_ok.
  - apply selects_f.
  - apply fits_f.
  - apply known_workload.
  - split; vm_compute; reflexivity.
  - constructor; [apply printed_attr_lines|constructor].
  - reflexivity.
  - reflexivity.
  - reflexivity.
  - exact Hh.
  - reflexivity.
  - exists reply, s', a', x'. split; [exact H1|]. split; [exact H2|]. rewrite Hl in H3.
    split; [exact H3|]. split; [|eexists; split; [exact H4|]; vm_compute; reflexivity].
    change (text "/brick/f") with (brick ++ text "/f"). rewrite Hd; [vm_compute; reflexivity| | |by left].
    + intros p q m f r1 f1 _ _ [= _ <-]. reflexivity.
    + apply (bool_decide_eq_true_1 (NoDup _)). vm_compute. reflexivity.
Defined.

Lemma extract_needs_worker_witness :
  extractor_setxattr no_double no_text 0 (text "/brick/f") (a_line "user.site=ornl")
    {| ac_query := ac_query (server sample_healthy); ac_ctx := None; ac_allocs := [];
       ac_host := files |} = None.
Proof.
  apply (extract_needs_worker no_double no_text 0 _ _ gfid).
  - apply no_text_short.
  - split; [by apply line_check|]. eexists _, _. split_and!; vm_compute; reflexivity.
  - vm_compute. reflexivity.
  - reflexivity.
  - reflexivity.
Defined.
