(* ===== verification/StrFd.v ===== *)
(** * Growing strings

    libglusterfs/src/strfd.c and gf_roundup_next_power_of_two of
    common-utils.c: a string that grows with every formatted print. The buffer
    is modelled with all its bytes, so that a copy that leaves it is visible;
    allocations succeed. *)

From Stdlib Require Import ZArith Lia Bool Ascii String.
From stdpp Require Import base list strings.
From S2P Require Import Prelude CLib Dict.

(** [data] is a null pointer until the first print; its length is
    [alloc_size]. *)

Record strfd_t := { sf_data : option (list ascii); sf_alloc_size : Z; sf_size : Z }.

Definition strfd_open : strfd_t := {| sf_data := None; sf_alloc_size := 0; sf_size := 0 |}.

(** The loop doubles [result] while it is not above [nr]; doubling beyond the
    32 bits of [result] is undefined. *)

Fixpoint roundup_loop (fuel : nat) (result nr : Z) : option Z :=
  if result <=? nr then
    match fuel with
    | O => None
    | S fuel' => if result * 2 <? 2 ^ 31 then roundup_loop fuel' (result * 2) nr else None
    end
  else Some result.

Definition gf_roundup_next_power_of_two (nr : Z) : option Z :=
  if nr <? 0 then Some (-1) else roundup_loop 31 1 nr.

(** [max] of a [size_t] and an [int], as unsigned 64-bit numbers. *)

Definition max_size (a b : Z) : Z := if u64 b <? a then a else u64 b.

(** The buffer and its size before [size] characters and a zero are copied. *)

Definition make_room (strfd : strfd_t) (size : Z) : option (list ascii * Z) :=
  let first := if sf_alloc_size strfd =? 0 then Z.max (size + 1) 4096 else sf_alloc_size strfd in
  data ← (if sf_alloc_size strfd =? 0 then Some (replicate (Z.to_nat first) NUL)
          else sf_data strfd);
  if first <=? sf_size strfd + size then
    r ← gf_roundup_next_power_of_two (i32 (sf_size strfd + size + 1));
    let new_size := i32 (max_size (first * 2) r) in
    if new_size <? 0 then None
    else Some (take (Z.to_nat new_size) (data ++ replicate (Z.to_nat new_size) NUL), new_size)
  else Some (data, first).

(** [str] is the formatted text: the result of the call and the string. *)

Definition strvprintf (strfd : strfd_t) (str : list ascii) : option (Z * strfd_t) :=
  let size := Z.of_nat (length str) in
  '(data, alloc_size) ← make_room strfd size;
  data' ← memcpy_to data (sf_size strfd) (str ++ [NUL]);
  Some (size, {| sf_data := Some data'; sf_alloc_size := alloc_size;
                 sf_size := sf_size strfd + size |}).

(** A sequence of prints. *)

Fixpoint strprintfs (strfd : strfd_t) (l : list (list ascii)) : option strfd_t :=
  match l with
  | [] => Some strfd
  | str :: l' => '(_, s) ← strvprintf strfd str; strprintfs s l'
  end.

(** ** Lemmas *)

Lemma roundup_loop_spec fuel k nr :
  0 <= nr < 2 ^ 30 -> 0 <= k -> k + Z.of_nat fuel >= 31 -> k <= 30 ->
  exists r, roundup_loop fuel (2 ^ k) nr = Some r /\ nr < r /\ 0 < r <= 2 ^ 30.
Proof.
  revert k. induction fuel as [|fuel IH]; intros k Hnr Hk Hf Hk30; cbn [roundup_loop];
    (destruct (Z.leb_spec (2 ^ k) nr) as [Hle|Hgt];
     [|exists (2 ^ k); split_and!; [done|done|apply Z.pow_pos_nonneg; lia|
        apply Z.pow_le_mono_r; lia]]); [lia|].
  assert (k < 30) by (apply (Z.pow_lt_mono_r_iff 2); lia).
  replace (2 ^ k * 2) with (2 ^ (k + 1)) by (rewrite Z.pow_add_r; lia).
  assert (2 ^ (k + 1) <= 2 ^ 30) by (apply Z.pow_le_mono_r; lia).
  rewrite (proj2 (Z.ltb_lt _ _)) by lia. apply IH; lia.
Qed.

Lemma roundup_spec nr :
  0 <= nr < 2 ^ 30 -> exists r, gf_roundup_next_power_of_two nr = Some r /\ nr < r /\ 0 < r <= 2 ^ 30.
Proof.
  intros Hnr. unfold gf_roundup_next_power_of_two. rewrite (proj2 (Z.ltb_ge _ _)) by lia.
  apply (roundup_loop_spec 31 0); lia.
Qed.

(** A string that holds a text, with its terminating zero, in a buffer of the
    recorded length. *)

Record holds_text (s : strfd_t) (t : list ascii) : Prop := {
  ht_size : sf_size s = Z.of_nat (length t);
  ht_open : sf_data s = None -> sf_alloc_size s = 0 /\ t = [];
  ht_data d : sf_data s = Some d ->
    Z.of_nat (length d) = sf_alloc_size s /\ exists rest, d = t ++ NUL :: rest
}.

Lemma holds_open : holds_text strfd_open [].
Proof. by split. Qed.

(** The buffer before the copy: it starts with the text and has room for the
    print and the zero. *)

Lemma room_spec s t n :
  holds_text s t -> 0 <= n -> Z.of_nat (length t) + n < 2 ^ 30 - 1 ->
  exists rest alloc, make_room s n = Some (t ++ rest, alloc) /\
    Z.of_nat (length (t ++ rest)) = alloc /\ 0 < alloc /\ Z.of_nat (length t) + n + 1 <= alloc.
Proof.
  intros [Hsz Hop Hd] Hn Hb. unfold make_room.
  set (first := if sf_alloc_size s =? 0 then Z.max (n + 1) 4096 else sf_alloc_size s).
  set (data := if sf_alloc_size s =? 0 then Some (replicate (Z.to_nat first) NUL) else sf_data s).
  assert (exists rest, data = Some (t ++ rest) /\ Z.of_nat (length (t ++ rest)) = first /\ 0 < first)
    as (rest & Hdata & Hfirst & Hpos).
  { unfold data, first. destruct (sf_data s) as [d|] eqn:Hs.
    - destruct (Hd d eq_refl) as (Hl & rest & ->). rewrite length_app in Hl. cbn [length] in Hl.
      rewrite (proj2 (Z.eqb_neq _ _)) by lia. exists (NUL :: rest).
      split_and!; [done|rewrite length_app; cbn [length]; lia|lia].
    - destruct (Hop eq_refl) as [-> ->]. cbn [Z.eqb app]. eexists. split_and!; [done| |lia].
      rewrite length_replicate. lia. }
  rewrite Hsz, Hdata. cbn [mbind option_bind].
  destruct (Z.leb_spec first (Z.of_nat (length t) + n)) as [Hg|Hg].
  2: { exists rest, first. split_and!; [done|done|done|lia]. }
  rewrite (swrap_small 32) by (unfold in_s; lia).
  destruct (roundup_spec (Z.of_nat (length t) + n + 1)) as (r & -> & Hr & Hr30); [lia|].
  cbn [mbind option_bind].
  assert (exists m, i32 (max_size (first * 2) r) = m /\ first < m /\ r <= m) as (m & -> & Hm & Hrm).
  { unfold max_size. rewrite uwrap_small by (unfold in_u; lia).
    destruct (Z.ltb_spec r (first * 2)); rewrite swrap_small by (unfold in_s; lia); eexists; split; [done|lia|done|lia]. }
  rewrite (proj2 (Z.ltb_ge _ _)) by lia.
  exists (take (Z.to_nat m - length t) (rest ++ replicate (Z.to_nat m) NUL)), m.
  assert (length t <= Z.to_nat m)%nat as Hlt by lia.
  split_and!; [|rewrite length_app, length_take, length_app, length_replicate; lia|lia|lia].
  rewrite <- (assoc_L (++)). rewrite take_app_ge by done. done.
Qed.

Lemma strvprintf_spec s t str :
  holds_text s t -> Z.of_nat (length t) + Z.of_nat (length str) < 2 ^ 30 - 1 ->
  exists s', strvprintf s str = Some (Z.of_nat (length str), s') /\ holds_text s' (t ++ str).
Proof.
  intros Ht Hb. destruct (room_spec s t (Z.of_nat (length str)) Ht) as (rest & alloc & Hr & Hl & Hp & Ha);
    [lia|done|]. rewrite length_app in Hl.
  unfold strvprintf. rewrite Hr. cbn [mbind option_bind].
  rewrite (memcpy_next t rest (str ++ [NUL])) by (apply Ht || (rewrite length_app; cbn [length]; lia)).
  cbn [mbind option_bind]. eexists. split; [done|]. split; cbn [sf_size sf_data sf_alloc_size].
  - rewrite (ht_size _ _ Ht), length_app. lia.
  - done.
  - intros d [= <-]. split.
    + repeat rewrite ?length_app, ?length_drop. cbn [length]. lia.
    + eexists. rewrite <- !(assoc_L (++)). cbn [app]. done.
Qed.

(** ** Property *)

(** Printing into a string: any sequence of prints of less than
    2^30 - 1 characters in all stays inside the buffer, whose text is then the
    concatenation of what was printed, terminated by a zero. *)
Theorem strprintf_appends (l : list (list ascii)) :
  Z.of_nat (length (concat l)) < 2 ^ 30 - 1 ->
  exists s, strprintfs strfd_open l = Some s /\ holds_text s (concat l).
Proof.
  assert (forall l s t, holds_text s t -> Z.of_nat (length (t ++ concat l)) < 2 ^ 30 - 1 ->
    exists s', strprintfs s l = Some s' /\ holds_text s' (t ++ concat l)) as H.
  { clear l. induction l as [|str l IH]; intros s t Ht Hb; cbn [strprintfs concat] in *.
    { exists s. by rewrite app_nil_r. }
    rewrite !length_app in Hb. destruct (strvprintf_spec s t str Ht) as (s1 & -> & Ht1); [lia|].
    cbn [mbind option_bind]. destruct (IH s1 (t ++ str) Ht1) as (s' & Hs' & Ht');
      [rewrite !length_app; lia|]. exists s'. by rewrite (assoc_L (++)). }
  intros Hb. apply (H l strfd_open []); [apply holds_open|done].
Qed.

Lemma strprintf_appends_witness :
  exists s, strprintfs strfd_open [list_ascii_of_string "42"; ["010"%char]] = Some s /\
    holds_text s (list_ascii_of_string "42" ++ ["010"%char]).
Proof. apply (strprintf_appends [list_ascii_of_string "42"; ["010"%char]]). reflexivity. Defined.
