(* ===== verification/Meta.v ===== *)
(** * The virtual file system of the client

    xlators/meta/src/meta-helpers.c and meta-defaults.c: the directory [.meta]
    in which the client shows its own state. A virtual file, directory or link
    is an inode with a table of operations and a context; looking up an entry
    of a directory runs the hook of the entry, which gives the new inode its
    operations. Open files and directories keep what they were first filled
    with. The contexts and the hooks are parameters of this file; Views.v has
    those of TagIt. Allocations succeed; times are whole seconds. *)

From Stdlib Require Import ZArith Lia Bool Ascii String.
From stdpp Require Import base list strings gmap.
From S2P Require Import Prelude CLib Dict DictTyped Uuid Iatt.

Definition EPERM : Z := 1.
Definition ENOMEM : Z := 12.
Definition ENODATA : Z := 61.

(** ** Data *)

(** An entry of a directory. In a table of fixed entries the entry without a
    name, which ends the table, is [None]. *)

Record meta_dirent (H : Type) := { de_name : string; de_type : ia_type_t; de_hook : option H }.
Arguments de_name {H}.
Arguments de_type {H}.
Arguments de_hook {H}.
Arguments Build_meta_dirent {H}.

(** The operations of an inode, on its context. A fill gives its code and what
    it has stored; [None] is undefined behaviour. *)

Record meta_ops (C H : Type) := {
  fixed_dirents : option (list (option (meta_dirent H)));
  dir_fill : option (C -> option (Z * option (list (meta_dirent H))));
  file_fill : option (C -> option (Z * option (list ascii)));
  link_fill : option (C -> option (option (list ascii)))
}.
Arguments fixed_dirents {C H}.
Arguments dir_fill {C H}.
Arguments file_fill {C H}.
Arguments link_fill {C H}.
Arguments Build_meta_ops {C H}.

(** What an open file or directory keeps; [md_size] counts bytes or entries. *)

Record meta_fd (H : Type) := {
  md_data : option (list ascii); md_dirents : option (list (meta_dirent H)); md_size : Z
}.
Arguments md_data {H}.
Arguments md_dirents {H}.
Arguments md_size {H}.
Arguments Build_meta_fd {H}.

Definition new_fd {H} : meta_fd H := {| md_data := None; md_dirents := None; md_size := 0 |}.

(** An entry of a listing. *)

Record gf_dirent := { d_name : string; d_off : Z; d_ino : Z; d_type : Z }.

Definition DT_of (type : ia_type_t) : Z :=
  match type with
  | IA_IFDIR => 4 | IA_IFCHR => 2 | IA_IFBLK => 6 | IA_IFIFO => 1 | IA_IFLNK => 10
  | IA_IFREG => 8 | IA_IFSOCK => 12 | IA_INVAL => 0
  end.

Section files.
Context {C H : Type}.
Implicit Types (ops : option (meta_ops C H)) (ctx : C).

(** [sizeof (gf_dirent_t)] *)

Variable sizeof_gf_dirent : Z.

(** ** Filling *)

Definition meta_dir_fill ops ctx : M (meta_fd H) Z :=
  fd <~ m_get;;
  match md_dirents fd, ops with
  | Some _, _ => m_ret (md_size fd)
  | None, None => m_ret (-1)
  | None, Some o =>
      r <~ (match dir_fill o with Some fill => m_deref (fill ctx) | None => m_ret (0, None) end);;
      let '(ret, dp) := r in
      match dp with
      | Some l =>
          m_put {| md_data := md_data fd; md_dirents := Some l; md_size := ret |};;; m_ret ret
      | None => m_ret (md_size fd)
      end
  end.

Definition meta_file_fill ops ctx : M (meta_fd H) Z :=
  fd <~ m_get;;
  match md_data fd, ops with
  | Some _, _ => m_ret (md_size fd)
  | None, None => m_ret (-1)
  | None, Some o =>
      r <~ (match file_fill o with Some fill => m_deref (fill ctx) | None => m_ret (0, None) end);;
      let '(ret, data) := r in
      if 0 <=? ret then
        let size := Z.of_nat (length (default [] data)) in
        m_put {| md_data := data; md_dirents := md_dirents fd; md_size := size |};;; m_ret size
      else m_ret (md_size fd)
  end.

(** The length of a table of fixed entries: undefined when nothing ends it. *)

Fixpoint fixed_dirents_len (l : list (option (meta_dirent H))) : option nat :=
  match l with
  | [] => None
  | None :: _ => Some O
  | Some _ :: l' => S <$> fixed_dirents_len l'
  end.

Definition fixed_entries (l : option (list (option (meta_dirent H))))
    : option (list (meta_dirent H)) :=
  match l with
  | None => Some []
  | Some l => n ← fixed_dirents_len l; Some (omap id (take n l))
  end.

(** ** Listing a directory *)

Definition dirent_size (d : meta_dirent H) : Z :=
  sizeof_gf_dirent + Z.of_nat (String.length (de_name d)) + 1.

(** The inner loop, over the entries that are left of a table: the entries
    listed, the next index, the bytes used, and whether the buffer is full. *)

Fixpoint fill_dirents (l : list (meta_dirent H)) (i filled size : Z)
    : option (list gf_dirent * Z * Z * bool) :=
  match l with
  | [] => Some ([], i, filled, false)
  | d :: l' =>
      let this_size := dirent_size d in
      if 2 ^ 31 <=? this_size + filled then None
      else if size <? this_size + filled then Some ([], i, filled, true)
      else
        '(es, i', filled', full) ← fill_dirents l' (i + 1) (filled + this_size) size;
        Some ({| d_name := de_name d; d_off := i + 1; d_ino := i + 42;
                 d_type := DT_of (de_type d) |} :: es, i', filled', full)
  end.

(** The result, [errno] and the entries. The size that the directory keeps is
    what its fill returned; one that is not a number of its entries is
    undefined here. *)

Definition meta_default_readdir ops ctx (size off : Z) : M (meta_fd H) (Z * Z * list gf_dirent) :=
  match ops with
  | None => m_ret (-1, ENOMEM, [])
  | Some o =>
      meta_dir_fill ops ctx;;;
      fixed <~ m_deref (fixed_entries (fixed_dirents o));;
      fd <~ m_get;;
      let dyn := take (Z.to_nat (md_size fd)) (default [] (md_dirents fd)) in
      let fixed_size := Z.of_nat (length fixed) in
      let i := i32 off in
      if negb (md_size fd =? Z.of_nat (length dyn)) then m_undef
      else if i <? 0 then m_undef
      else
        q <~ m_deref (fill_dirents (drop (Z.to_nat i) fixed) i 0 size);;
        let '(es, i', filled, full) := q in
        if full : bool then m_ret (Z.of_nat (length es), 0, es)
        else
          q <~ m_deref (fill_dirents (drop (Z.to_nat (i' - fixed_size)) dyn) i' filled size);;
          let '(es', _, _, _) := q in
          m_ret (Z.of_nat (length (es ++ es')), 0, es ++ es')
  end.

(** ** Reading *)

(** The bytes read, at most [size] from [offset] on. *)

Definition meta_default_readv ops ctx (size offset : Z) : M (meta_fd H) (list ascii) :=
  fd <~ m_get;;
  (if md_size fd =? 0 then meta_file_fill ops ctx else m_ret 0);;;
  fd <~ m_get;;
  let copy_offset := Z.min (u64 (md_size fd)) (u64 offset) in
  let copy_size := Z.min size (u64 (md_size fd - copy_offset)) in
  if copy_size =? 0 then m_ret []
  else
    data <~ m_deref (md_data fd);;
    m_deref (read_at data copy_offset copy_size).

(** The result, [errno] and the text of a link. *)

Definition meta_default_readlink ops ctx : option (Z * Z * list ascii) :=
  o ← ops;
  match link_fill o with
  | None => Some (-1, EPERM, [])
  | Some fill =>
      text ← fill ctx;
      match text with
      | Some t => Some (Z.of_nat (length (cut t)), 0, cut t)
      | None => Some (-1, ENODATA, [])
      end
  end.

(** ** Attributes *)

Definition gfid_to_ino (gfid : uuid_t) : Z :=
  let byte i := default 0 (gfid !! i) in
  u64 (byte 15%nat + Z.shiftl (byte 14%nat) 8 + Z.shiftl (byte 13%nat) 16 +
       Z.shiftl (byte 12%nat) 24 + Z.shiftl (byte 11%nat) 32 + Z.shiftl (byte 10%nat) 40 +
       Z.shiftl (byte 9%nat) 48 + Z.shiftl (byte 8%nat) 56).

(** [fresh] is the identifier that [gf_uuid_generate] would give. *)

Definition meta_uuid_copy (src fresh : uuid_t) : uuid_t := if gf_uuid_is_null src then fresh else src.

Definition no_prot : ia_prot_t := ia_prot_from_st_mode 0.

Definition no_iatt : iatt :=
  {| ia_ino := 0; ia_gfid := replicate 16 0; ia_dev := 0; ia_type := IA_INVAL; ia_prot := no_prot;
     ia_nlink := 0; ia_uid := 0; ia_gid := 0; ia_rdev := 0; ia_size := 0; ia_blksize := 0;
     ia_blocks := 0; ia_atime := 0; ia_mtime := 0; ia_ctime := 0 |}.

Definition default_meta_iatt_fill (gfid : uuid_t) (type : ia_type_t) (fresh : uuid_t) (now : Z)
    : iatt :=
  let '(prot, nlink) :=
    match type with
    | IA_IFDIR => (493, 2)
    | IA_IFLNK => (511, 1)
    | _ => (420, 1)
    end in
  let g := meta_uuid_copy gfid fresh in
  {| ia_ino := gfid_to_ino g; ia_gfid := g; ia_dev := 0; ia_type := type;
     ia_prot := ia_prot_from_st_mode prot; ia_nlink := nlink; ia_uid := 0; ia_gid := 0;
     ia_rdev := 0; ia_size := 0; ia_blksize := 0; ia_blocks := 0; ia_atime := now;
     ia_mtime := now; ia_ctime := now |}.

(** No operations: the attributes stay zero. *)

Definition meta_iatt_fill ops (gfid : uuid_t) (type : ia_type_t) (fresh : uuid_t) (now : Z) : iatt :=
  match ops with
  | None => no_iatt
  | Some _ => default_meta_iatt_fill gfid type fresh now
  end.

(** ** Looking up *)

(** The entry called [name] in a table of fixed entries; [None] is undefined
    behaviour, which is reached when nothing ends the table. *)

Fixpoint find_fixed (l : list (option (meta_dirent H))) (name : string)
    : option (option (meta_dirent H)) :=
  match l with
  | [] => None
  | None :: _ => Some None
  | Some d :: l' => if decide (de_name d = name) then Some (Some d) else find_fixed l' name
  end.

(** The first [ret] entries of a filled table. *)

Definition find_dynamic (ret : Z) (dp : option (list (meta_dirent H))) (name : string)
    : option (option (meta_dirent H)) :=
  if ret <=? 0 then Some None
  else
    l ← dp;
    if Z.of_nat (length l) <? ret then None
    else Some (head (filter (fun d => de_name d = name) (take (Z.to_nat ret) l))).

(** The entry that a lookup of [name] in a directory finds. *)

Definition find_dirent (o : meta_ops C H) ctx (name : string) : option (option (meta_dirent H)) :=
  d ← (match fixed_dirents o with Some l => find_fixed l name | None => Some None end);
  match d with
  | Some d => Some (Some d)
  | None =>
      match dir_fill o with
      | None => Some None
      | Some fill => '(ret, dp) ← fill ctx; find_dynamic ret dp name
      end
  end.

End files.

(** ** Inodes *)

Record meta_inode (C H : Type) := {
  in_ops : option (meta_ops C H); in_ctx : C; in_gfid : uuid_t; in_type : ia_type_t
}.
Arguments in_ops {C H}.
Arguments in_ctx {C H}.
Arguments in_gfid {C H}.
Arguments in_type {C H}.
Arguments Build_meta_inode {C H}.

(** The inodes and what is below the translator. *)

Record meta_state (C H E : Type) := { inodes : gmap Z (meta_inode C H); below_meta : E }.
Arguments inodes {C H E}.
Arguments below_meta {C H E}.
Arguments Build_meta_state {C H E}.

(** The reply to a lookup. *)

Inductive lookup_reply := LookupOk (stbuf : iatt) | LookupFail (errno : Z).

Section lookup.
Context {C H E : Type}.
Abbreviation S := (meta_state C H E).

Definition inode_get (i : Z) : M S (meta_inode C H) := s <~ m_get;; m_deref (inodes s !! i).

Definition inode_update (i : Z) (f : meta_inode C H -> meta_inode C H) : M S unit :=
  n <~ inode_get i;;
  m_modify (fun s => {| inodes := <[i := f n]> (inodes s); below_meta := below_meta s |}).

Definition meta_ops_set (i : Z) (ops : meta_ops C H) : M S Z :=
  inode_update i (fun n => {| in_ops := Some ops; in_ctx := in_ctx n; in_gfid := in_gfid n;
                              in_type := in_type n |});;; m_ret 0.

Definition meta_ctx_get (i : Z) : M S C := n <~ inode_get i;; m_ret (in_ctx n).

Definition meta_ctx_set (i : Z) (ctx : C) : M S Z :=
  inode_update i (fun n => {| in_ops := in_ops n; in_ctx := ctx; in_gfid := in_gfid n;
                              in_type := in_type n |});;; m_ret 0.

(** What the hook of an entry does: parent, inode and name of the location. *)

Variable run_hook : H -> Z -> Z -> string -> M S Z.

Definition meta_inode_discover (inode : Z) (fresh : uuid_t) (now : Z) : M S lookup_reply :=
  n <~ inode_get inode;;
  m_ret (LookupOk (meta_iatt_fill (in_ops n) (in_gfid n) (in_type n) fresh now)).

(** The result of the hook is not looked at. *)

Definition meta_default_lookup (parent inode : Z) (name : option string) (fresh : uuid_t) (now : Z)
    : M S lookup_reply :=
  match name with
  | None => meta_inode_discover inode fresh now
  | Some name =>
      p <~ inode_get parent;;
      match in_ops p with
      | None => m_ret (LookupFail EPERM)
      | Some o =>
          d <~ m_deref (find_dirent o (in_ctx p) name);;
          match d with
          | Some {| de_name := _; de_type := type; de_hook := Some hook |} =>
              run_hook hook parent inode name;;;
              n <~ inode_get inode;;
              m_ret (LookupOk (meta_iatt_fill (in_ops n) (in_gfid n) type fresh now))
          | _ => m_ret (LookupFail ENOENT)
          end
      end
  end.

End lookup.
