(* ===== verification/MetaProps.v ===== *)
(** * What virtual directories and files show

    Listing a directory in pieces gives every entry once, reading a file in
    pieces gives its text, and the names that a directory lists are those that
    a lookup finds. *)

From Stdlib Require Import ZArith Lia Bool Ascii String.
From stdpp Require Import base list strings gmap.
From S2P Require Import Prelude CLib Dict DictTyped Uuid Iatt Meta.

(** ** Fixed entries *)

Section fixed.
Context {C H : Type}.
Implicit Types (l : list (meta_dirent H)) (o : meta_ops C H).

(** A table that ends. *)

Definition ended l : list (option (meta_dirent H)) := (Some <$> l) ++ [None].

Lemma fixed_len_ended l : fixed_dirents_len (ended l) = Some (length l).
Proof. induction l as [|d l IH]; [done|]. unfold ended in *. cbn. by rewrite IH. Qed.

Lemma fixed_entries_ended l : fixed_entries (Some (ended l)) = Some l.
Proof.
  unfold fixed_entries. rewrite fixed_len_ended. cbn [mbind option_bind]. f_equal.
  unfold ended. rewrite take_app_length' by (by rewrite length_fmap).
  induction l as [|d l IH]; [done|]. cbn. by rewrite IH.
Qed.

Lemma find_fixed_ended l name :
  find_fixed (ended l) name = Some (head (filter (fun d => de_name d = name) l)).
Proof.
  induction l as [|d l IH]; [done|]. unfold ended in *. cbn [fmap list_fmap app find_fixed].
  rewrite filter_cons. by case_decide.
Qed.

(** The entries of a directory: fixed and filled ones. *)

Record shows o (ctx : C) (fixed dyn : list (meta_dirent H)) : Prop := {
  sh_fixed : fixed_dirents o = Some (ended fixed) \/ (fixed_dirents o = None /\ fixed = []);
  sh_dyn : (dir_fill o = None /\ dyn = []) \/
    (exists fill, dir_fill o = Some fill /\
      (fill ctx = Some (Z.of_nat (length dyn), Some dyn) \/ (dyn = [] /\ fill ctx = Some (0, None))))
}.

Lemma shows_entries o ctx fixed dyn :
  shows o ctx fixed dyn -> fixed_entries (fixed_dirents o) = Some fixed.
Proof. intros [[->|[-> ->]] _]; [apply fixed_entries_ended|done]. Qed.

(** *** Lookups *)

Lemma find_dirent_spec o ctx fixed dyn name :
  shows o ctx fixed dyn ->
  find_dirent o ctx name = Some (head (filter (fun d => de_name d = name) (fixed ++ dyn))).
Proof.
  intros [Hf Hd]. unfold find_dirent. rewrite filter_app.
  assert ((match fixed_dirents o with Some l => find_fixed l name | None => Some None end) =
    Some (head (filter (fun d => de_name d = name) fixed))) as ->.
  { destruct Hf as [->|[-> ->]]; [apply find_fixed_ended|done]. }
  cbn [mbind option_bind]. destruct (filter _ fixed) as [|d l]; [cbn [head app]|done].
  destruct Hd as [[-> ->]|(fill & -> & [->|[-> ->]])]; cbn [mbind option_bind]; [done| |done].
  unfold find_dynamic. destruct (Z.leb_spec (Z.of_nat (length dyn)) 0) as [Hz|Hz].
  - by destruct dyn; [|cbn [length] in Hz; lia].
  - cbn [mbind option_bind]. rewrite Z.ltb_irrefl, Nat2Z.id, firstn_all. done.
Qed.

End fixed.

(** ** Listing *)

Section listing.
Context {C H : Type}.
Variable sizeof_gf_dirent : Z.
Hypothesis sizeof_pos : 0 < sizeof_gf_dirent.
Implicit Types (l : list (meta_dirent H)) (o : meta_ops C H) (fd : meta_fd H).

(** The entries that are listed from index [i] on. *)

Definition listed_from (i : Z) l : list gf_dirent :=
  imap (fun k d => {| d_name := de_name d; d_off := i + Z.of_nat k + 1; d_ino := i + Z.of_nat k + 42;
                      d_type := DT_of (de_type d) |}) l.

Lemma listed_from_cons i d l :
  listed_from i (d :: l) =
  {| d_name := de_name d; d_off := i + 1; d_ino := i + 42; d_type := DT_of (de_type d) |} ::
  listed_from (i + 1) l.
Proof.
  unfold listed_from. rewrite imap_cons. f_equal.
  - f_equal; lia.
  - apply imap_ext. intros k x _. cbn. f_equal; lia.
Qed.

Lemma listed_from_app i l1 l2 :
  listed_from i (l1 ++ l2) = listed_from i l1 ++ listed_from (i + Z.of_nat (length l1)) l2.
Proof.
  revert i. induction l1 as [|d l1 IH]; intros i; cbn [app length].
  - by rewrite Z.add_0_r.
  - rewrite !listed_from_cons, IH. cbn [app].
    by replace (i + 1 + Z.of_nat (length l1)) with (i + Z.of_nat (S (length l1))) by lia.
Qed.

Lemma length_listed i l : length (listed_from i l) = length l.
Proof. apply length_imap. Qed.

Lemma listed_names i l : d_name <$> listed_from i l = de_name <$> l.
Proof. unfold listed_from. rewrite fmap_imap. cbn [compose d_name]. apply imap_const. Qed.

Definition total_size l : Z := foldr (fun d n => dirent_size sizeof_gf_dirent d + n) 0 l.

Lemma dirent_size_pos (d : meta_dirent H) : 0 < dirent_size sizeof_gf_dirent d.
Proof. unfold dirent_size. lia. Qed.

Lemma total_size_nonneg l : 0 <= total_size l.
Proof. induction l as [|d l IH]; cbn [total_size foldr]; [lia|]. pose proof (dirent_size_pos d). unfold total_size in IH. lia. Qed.

(** The longest start of the entries that fits. *)

Fixpoint fitting (l : list (meta_dirent H)) (filled size : Z) : nat :=
  match l with
  | [] => O
  | d :: l' =>
      if size <? dirent_size sizeof_gf_dirent d + filled then O
      else S (fitting l' (filled + dirent_size sizeof_gf_dirent d) size)
  end.

Lemma fitting_le l filled size : (fitting l filled size <= length l)%nat.
Proof.
  revert filled. induction l as [|d l IH]; intros filled; cbn [fitting length]; [lia|].
  destruct (_ <? _); [lia|]. specialize (IH (filled + dirent_size sizeof_gf_dirent d)). lia.
Qed.

Lemma fill_dirents_spec l i filled size :
  0 <= filled -> filled + total_size l < 2 ^ 31 ->
  fill_dirents sizeof_gf_dirent l i filled size =
  Some (listed_from i (take (fitting l filled size) l), i + Z.of_nat (fitting l filled size),
        filled + total_size (take (fitting l filled size) l),
        negb (Nat.eqb (fitting l filled size) (length l))).
Proof.
  revert i filled. induction l as [|d l IH]; intros i filled Hf Hb; cbn [fill_dirents fitting length].
  { cbn. by rewrite !Z.add_0_r. }
  cbn [total_size foldr] in Hb. fold (total_size l) in Hb.
  pose proof (dirent_size_pos d). pose proof (total_size_nonneg l).
  rewrite (proj2 (Z.leb_gt _ _)) by lia.
  destruct (size <? dirent_size sizeof_gf_dirent d + filled) eqn:E.
  { cbn. by rewrite !Z.add_0_r. }
  rewrite IH by lia. cbn [mbind option_bind take]. rewrite listed_from_cons.
  cbn [total_size foldr Nat.eqb]. set (n := fitting _ _ _).
  replace (i + 1 + Z.of_nat n) with (i + Z.of_nat (S n)) by lia.
  fold (total_size (take n l)). rewrite Z.add_assoc. done.
Qed.

(** A buffer that is full with the fixed entries has no room for more. *)

Lemma fitting_app l1 l2 filled size :
  fitting (l1 ++ l2) filled size =
  if Nat.eqb (fitting l1 filled size) (length l1)
  then (length l1 + fitting l2 (filled + total_size l1) size)%nat
  else fitting l1 filled size.
Proof.
  revert filled. induction l1 as [|d l1 IH]; intros filled; cbn [app fitting length].
  { cbn. by rewrite Z.add_0_r. }
  destruct (_ <? _); [done|]. rewrite IH. cbn [total_size foldr Nat.eqb]. fold (total_size l1).
  rewrite Z.add_assoc. by destruct (Nat.eqb _ _).
Qed.

Lemma total_size_app l1 l2 : total_size (l1 ++ l2) = total_size l1 + total_size l2.
Proof.
  induction l1 as [|d l1 IH]; [done|]. cbn [app total_size foldr]. fold (total_size (l1 ++ l2)).
  fold (total_size l1). rewrite IH. lia.
Qed.

Lemma total_size_bound l b :
  Forall (fun d => dirent_size sizeof_gf_dirent d <= b) l -> total_size l <= b * Z.of_nat (length l).
Proof.
  induction 1 as [|d l Hd Hl IH]; [cbn; lia|]. cbn [total_size foldr length].
  fold (total_size l). lia.
Qed.

Lemma total_size_drop n l : total_size (drop n l) <= total_size l.
Proof.
  rewrite <- (take_drop n l) at 2. rewrite total_size_app. pose proof (total_size_nonneg (take n l)). lia.
Qed.

(** An open directory that is new, or has been filled with these entries. *)

Definition fd_of o (ctx : C) (dyn : list (meta_dirent H)) fd : Prop :=
  (md_dirents fd = None /\ md_size fd = 0) \/
  (md_dirents fd = Some dyn /\ md_size fd = Z.of_nat (length dyn)).

Lemma dir_fill_spec o ctx fixed dyn fd :
  shows o ctx fixed dyn -> fd_of o ctx dyn fd ->
  exists r fd', meta_dir_fill (Some o) ctx fd = Some (r, fd') /\ fd_of o ctx dyn fd' /\
    take (Z.to_nat (md_size fd')) (default [] (md_dirents fd')) = dyn /\
    md_size fd' = Z.of_nat (length dyn).
Proof.
  intros [_ Hd] Hfd. unfold meta_dir_fill, m_bind, m_get.
  destruct Hfd as [[Hn Hs]|[Hn Hs]]; rewrite Hn.
  2: { eexists _, fd. split_and!; [done|by right| |done]. rewrite Hn, Hs, Nat2Z.id. cbn. apply firstn_all. }
  destruct Hd as [[-> ->]|(fill & -> & [->|[-> ->]])]; unfold m_ret, m_deref.
  - eexists _, fd. split_and!; [done|by left|by rewrite Hn, Hs|by rewrite Hs].
  - unfold m_ret, m_put. eexists _, _. split_and!; [done|by right| |done].
    cbn. by rewrite Nat2Z.id, firstn_all.
  - unfold m_ret. eexists _, fd. split_and!; [done|by left|by rewrite Hn, Hs|by rewrite Hs].
Qed.

(** One call lists the longest start that fits. *)

Lemma readdir_spec o ctx fixed dyn fd size off :
  shows o ctx fixed dyn -> fd_of o ctx dyn fd -> 0 <= off < 2 ^ 31 ->
  total_size (fixed ++ dyn) < 2 ^ 31 ->
  let rest := drop (Z.to_nat off) (fixed ++ dyn) in
  exists fd' n, meta_default_readdir sizeof_gf_dirent (Some o) ctx size off fd =
      Some ((Z.of_nat n, 0, listed_from off (take n rest)), fd') /\
    n = fitting rest 0 size /\ fd_of o ctx dyn fd'.
Proof.
  intros Hsh Hfd Hoff Hb rest.
  destruct (dir_fill_spec o ctx fixed dyn fd Hsh Hfd) as (r & fd' & Hfill & Hfd' & Hdyn & Hsz).
  exists fd', (fitting rest 0 size). split; [|done].
  unfold meta_default_readdir, m_bind at 1. rewrite Hfill. rewrite (shows_entries o ctx fixed dyn) by done.
  cbn [m_deref]. rewrite m_bind_ret. unfold m_bind at 1, m_get. rewrite Hdyn, Hsz, Z.eqb_refl.
  rewrite swrap_small by (unfold in_s; lia). cbn [negb]. rewrite (proj2 (Z.ltb_ge _ _)) by lia.
  rewrite total_size_app in Hb. set (k := Z.to_nat off) in *.
  pose proof (total_size_drop k fixed). pose proof (total_size_nonneg dyn).
  rewrite fill_dirents_spec by lia. cbn [m_deref]. rewrite m_bind_ret. cbv beta iota.
  set (n1 := fitting (drop k fixed) 0 size). pose proof (fitting_le (drop k fixed) 0 size) as Hn1.
  fold n1 in Hn1. unfold rest. rewrite drop_app. rewrite fitting_app. fold n1.
  destruct (Nat.eqb_spec n1 (length (drop k fixed))) as [E|E]; cbn [negb].
  2: { rewrite take_app_le by lia. unfold m_ret. rewrite length_listed, length_take. do 4 f_equal. lia. }
  assert (take n1 (drop k fixed) = drop k fixed) as Htk by (rewrite E; apply firstn_all).
  rewrite Htk. rewrite length_drop in E.
  assert (Z.to_nat (off + Z.of_nat n1 - Z.of_nat (length fixed)) = (k - length fixed)%nat) as -> by lia.
  pose proof (total_size_nonneg (drop k fixed)). pose proof (total_size_drop (k - length fixed) dyn).
  rewrite fill_dirents_spec by lia. cbn [m_deref]. rewrite m_bind_ret. cbv beta iota. unfold m_ret.
  rewrite Z.add_0_l. set (n2 := fitting (drop (k - length fixed) dyn) _ size).
  pose proof (fitting_le (drop (k - length fixed) dyn) (total_size (drop k fixed)) size) as Hn2.
  fold n2 in Hn2. rewrite take_app_ge by lia. rewrite !length_drop in *.
  replace (length fixed - k + n2 - (length fixed - k))%nat with n2 by lia.
  rewrite listed_from_app, length_drop, length_app, !length_listed, length_take, !length_drop.
  replace (off + Z.of_nat n1) with (off + Z.of_nat (length fixed - k)) by lia.
  do 4 f_equal. lia.
Qed.

(** ** Listing and reading in pieces *)

Fixpoint readdir_all (sizes : list Z) o (ctx : C) (off : Z) : M (meta_fd H) (list gf_dirent) :=
  match sizes with
  | [] => m_ret []
  | size :: sizes' =>
      r <~ meta_default_readdir sizeof_gf_dirent (Some o) ctx size off;;
      let '(_, _, es) := r in
      match last es with
      | None => m_ret []
      | Some e => es' <~ readdir_all sizes' o ctx (d_off e);; m_ret (es ++ es')
      end
  end.

Lemma last_listed off l :
  last (listed_from off l) =
  match last l with
  | Some d => Some {| d_name := de_name d; d_off := off + Z.of_nat (length l);
                      d_ino := off + Z.of_nat (length l) + 41; d_type := DT_of (de_type d) |}
  | None => None
  end.
Proof.
  destruct l as [|d l _] using rev_ind; [done|].
  rewrite listed_from_app, last_snoc, length_app. cbn [length].
  rewrite listed_from_cons. unfold listed_from at 2. cbn [imap]. rewrite last_snoc.
  f_equal. f_equal; lia.
Qed.

Lemma fitting_pos (d : meta_dirent H) l size :
  dirent_size sizeof_gf_dirent d <= size -> fitting (d :: l) 0 size <> O.
Proof. intros Hd. cbn [fitting]. by rewrite (proj2 (Z.ltb_ge _ _)) by lia. Qed.

Lemma readdir_all_spec sizes o ctx fixed dyn fd off :
  shows o ctx fixed dyn -> fd_of o ctx dyn fd -> total_size (fixed ++ dyn) < 2 ^ 31 ->
  Z.of_nat (length (fixed ++ dyn)) < 2 ^ 31 ->
  Forall (fun size => Forall (fun d => dirent_size sizeof_gf_dirent d <= size) (fixed ++ dyn)) sizes ->
  0 <= off < 2 ^ 31 ->
  let rest := drop (Z.to_nat off) (fixed ++ dyn) in
  (length rest < length sizes)%nat ->
  exists fd', readdir_all sizes o ctx off fd = Some (listed_from off rest, fd').
Proof.
  intros Hsh Hfd Hb Hl Hs. revert fd off Hfd.
  induction Hs as [|size sizes Hsize Hs IH]; intros fd off Hfd Hoff rest Hn; [cbn in Hn; lia|].
  destruct (readdir_spec o ctx fixed dyn fd size off Hsh Hfd Hoff Hb) as (fd1 & n & Hr & Hfn & Hfd1).
  fold rest in Hr, Hfn. cbn [readdir_all]. unfold m_bind at 1. rewrite Hr. rewrite last_listed.
  destruct rest as [|d rest'] eqn:Hrest.
  { rewrite take_nil. by exists fd1. }
  assert (n <> O /\ (n <= length (d :: rest'))%nat) as [Hn0 Hnl].
  { subst n. split; [|apply fitting_le]. apply fitting_pos.
    rewrite Forall_forall in Hsize. apply Hsize.
    apply (list_elem_of_lookup_2 _ (Z.to_nat off)). rewrite <- (Nat.add_0_r (Z.to_nat off)).
    rewrite <- lookup_drop. fold rest. by rewrite Hrest. }
  set (es := take n (d :: rest')). assert (length es = n) as Hes by (unfold es; rewrite length_take; lia).
  destruct (last es) as [e|] eqn:He; [|apply last_None in He; rewrite He in Hes; cbn in Hes; lia].
  cbn [d_off]. rewrite Hes.
  assert (drop (Z.to_nat (off + Z.of_nat n)) (fixed ++ dyn) = drop n (d :: rest')) as Hdrop.
  { rewrite <- Hrest. unfold rest. rewrite drop_drop. f_equal. lia. }
  assert (length (d :: rest') <= length (fixed ++ dyn) - Z.to_nat off)%nat as Hlen.
  { rewrite <- Hrest. unfold rest. by rewrite length_drop. }
  destruct (IH fd1 (off + Z.of_nat n) Hfd1) as (fd2 & H2); [cbn [length] in *; lia|
    rewrite Hdrop, length_drop; cbn [length] in *; lia|].
  exists fd2. unfold m_bind. rewrite H2, Hdrop. unfold m_ret. do 2 f_equal.
  rewrite <- (take_drop n (d :: rest')) at 2. fold es. by rewrite listed_from_app, Hes.
Qed.

End listing.

Section reading.
Context {C H : Type}.
Implicit Types (o : meta_ops C H) (fd : meta_fd H).

Fixpoint read_all (sizes : list Z) o (ctx : C) (offset : Z) : M (meta_fd H) (list ascii) :=
  match sizes with
  | [] => m_ret []
  | size :: sizes' =>
      b <~ meta_default_readv (Some o) ctx size offset;;
      match b with
      | [] => m_ret []
      | _ => b' <~ read_all sizes' o ctx (offset + Z.of_nat (length b));; m_ret (b ++ b')
      end
  end.

(** An open file that is new, or has been filled with this text. *)

Definition fd_text (text : list ascii) fd : Prop :=
  (md_data fd = None /\ md_size fd = 0) \/
  (md_data fd = Some text /\ md_size fd = Z.of_nat (length text)).

Lemma readv_spec o ctx fill ret text fd size offset :
  file_fill o = Some fill -> fill ctx = Some (ret, Some text) -> 0 <= ret -> fd_text text fd ->
  Z.of_nat (length text) < 2 ^ 63 -> 0 <= offset <= Z.of_nat (length text) -> 0 <= size ->
  exists fd', meta_default_readv (Some o) ctx size offset fd =
      Some (take (Z.to_nat size) (drop (Z.to_nat offset) text), fd') /\ fd_text text fd'.
Proof.
  intros Hf Hfill Hret Hfd Hl Hoff Hs.
  assert (exists r fd', (if md_size fd =? 0 then meta_file_fill (Some o) ctx else m_ret 0) fd
    = Some (r, fd') /\ md_data fd' = Some text /\ md_size fd' = Z.of_nat (length text))
    as (r & fd' & Hr & Hd & Hsz).
  { destruct Hfd as [[Hn H0]|[Hn H0]].
    - rewrite H0. unfold meta_file_fill, m_bind, m_get. cbn [Z.eqb]. rewrite Hn, Hf, Hfill.
      cbn [m_deref]. unfold m_ret, m_put. rewrite (proj2 (Z.leb_le _ _)) by lia. by eexists _, _.
    - destruct (Z.eqb_spec (md_size fd) 0).
      + unfold meta_file_fill, m_bind, m_get. rewrite Hn. by eexists _, fd.
      + by eexists _, fd. }
  exists fd'. split; [|by right]. unfold meta_default_readv, m_bind at 1, m_get at 1.
  unfold m_bind at 1. rewrite Hr. unfold m_bind at 1, m_get. rewrite Hsz.
  rewrite !(uwrap_small 64 (Z.of_nat _)), (uwrap_small 64 offset) by (unfold in_u; lia).
  rewrite (Z.min_r (Z.of_nat _) offset) by lia. rewrite uwrap_small by (unfold in_u; lia).
  destruct (Z.eqb_spec (Z.min size (Z.of_nat (length text) - offset)) 0) as [E|E].
  - unfold m_ret. do 2 f_equal. destruct (Z.min_spec size (Z.of_nat (length text) - offset)) as [[? Hm]|[? Hm]].
    + replace size with 0 by lia. done.
    + rewrite drop_ge by lia. by rewrite take_nil.
  - rewrite Hd. cbn [m_deref]. rewrite m_bind_ret. unfold read_at.
    rewrite !(proj2 (Z.leb_le _ _)) by lia. cbn [andb m_deref]. unfold m_ret. do 2 f_equal.
    destruct (Z.min_spec size (Z.of_nat (length text) - offset)) as [[? ->]|[? ->]]; [done|].
    rewrite !take_ge; [done|rewrite length_drop; lia..].
Qed.

Lemma read_all_spec sizes o ctx fill ret text fd offset :
  file_fill o = Some fill -> fill ctx = Some (ret, Some text) -> 0 <= ret -> fd_text text fd ->
  Z.of_nat (length text) < 2 ^ 63 -> 0 <= offset <= Z.of_nat (length text) ->
  Forall (fun size => 0 < size) sizes -> (length (drop (Z.to_nat offset) text) < length sizes)%nat ->
  exists fd', read_all sizes o ctx offset fd = Some (drop (Z.to_nat offset) text, fd').
Proof.
  intros Hf Hfill Hret Hfd Hl Hoff Hs. revert fd offset Hfd Hoff.
  induction Hs as [|size sizes Hsize Hs IH]; intros fd offset Hfd Hoff Hn; [cbn in Hn; lia|].
  destruct (readv_spec o ctx fill ret text fd size offset) as (fd1 & H1 & Hfd1); [done..|lia|].
  cbn [read_all]. unfold m_bind at 1. rewrite H1.
  destruct (drop (Z.to_nat offset) text) as [|c rest] eqn:E.
  { rewrite take_nil. by exists fd1. }
  assert (length (c :: rest) = length text - Z.to_nat offset)%nat as Hlen by (by rewrite <- E, length_drop).
  destruct (take (Z.to_nat size) (c :: rest)) as [|c' t] eqn:Et.
  { destruct (Z.to_nat size) eqn:Ez; [lia|done]. }
  rewrite <- Et. set (b := take (Z.to_nat size) (c :: rest)) in *.
  assert (length b <= length (c :: rest))%nat as Hbl by (unfold b; rewrite length_take; lia).
  assert (length b <> 0)%nat by (rewrite Et; done).
  assert (drop (Z.to_nat (offset + Z.of_nat (length b))) text = drop (length b) (c :: rest)) as Hd.
  { rewrite <- E, drop_drop. f_equal. lia. }
  destruct (IH fd1 (offset + Z.of_nat (length b)) Hfd1) as (fd2 & H2); [lia|
    rewrite Hd, length_drop; cbn [length] in *; lia|].
  exists fd2. unfold m_bind. rewrite H2, Hd. unfold m_ret. do 2 f_equal.
  unfold b. rewrite length_take.
  destruct (Nat.min_spec (Z.to_nat size) (length (c :: rest))) as [[? ->]|[? ->]]; [apply take_drop|].
  by rewrite drop_ge, take_ge, app_nil_r by lia.
Qed.

End reading.

(** ** Setting up an inode *)

Section setup.
Context {C H E : Type}.
Implicit Types (s : meta_state C H E) (n : meta_inode C H).

Definition put_inode s (i : Z) n : meta_state C H E :=
  {| inodes := <[i := n]> (inodes s); below_meta := below_meta s |}.

Lemma inode_get_spec s i n : inodes s !! i = Some n -> inode_get i s = Some (n, s).
Proof. intros Hn. unfold inode_get, m_bind, m_get. by rewrite Hn. Qed.

Lemma ctx_set_spec s i n ctx :
  inodes s !! i = Some n ->
  meta_ctx_set i ctx s = Some (0, put_inode s i
    {| in_ops := in_ops n; in_ctx := ctx; in_gfid := in_gfid n; in_type := in_type n |}).
Proof.
  intros Hn. unfold meta_ctx_set, inode_update, m_bind. by rewrite (inode_get_spec _ _ n).
Qed.

Lemma ops_set_spec s i n ops :
  inodes s !! i = Some n ->
  meta_ops_set i ops s = Some (0, put_inode s i
    {| in_ops := Some ops; in_ctx := in_ctx n; in_gfid := in_gfid n; in_type := in_type n |}).
Proof.
  intros Hn. unfold meta_ops_set, inode_update, m_bind. by rewrite (inode_get_spec _ _ n).
Qed.

Lemma put_inode_get s i n : inodes (put_inode s i n) !! i = Some n.
Proof. apply lookup_insert_eq. Qed.

End setup.

(** ** Properties *)

(** C35. Listing a virtual directory in pieces of any sizes that hold at least one
    entry, each call going on where the last one ended, gives every entry of
    the directory exactly once and in order, fixed ones first, with the
    position after it; the open directory keeps the entries of the first call,
    so that this holds although every fill may give something else. *)
Theorem listing_complete {C H : Type} (sizeof_gf_dirent : Z) (sizes : list Z) (o : meta_ops C H)
    (ctx : C) (fixed dyn : list (meta_dirent H)) :
  0 < sizeof_gf_dirent -> shows o ctx fixed dyn ->
  total_size sizeof_gf_dirent (fixed ++ dyn) < 2 ^ 31 ->
  Z.of_nat (length (fixed ++ dyn)) < 2 ^ 31 ->
  Forall (fun size => Forall (fun d => dirent_size sizeof_gf_dirent d <= size) (fixed ++ dyn)) sizes ->
  (length (fixed ++ dyn) < length sizes)%nat ->
  exists es fd, readdir_all sizeof_gf_dirent sizes o ctx 0 new_fd = Some (es, fd) /\
    d_name <$> es = de_name <$> fixed ++ dyn /\ es = listed_from 0 (fixed ++ dyn).
Proof.
  intros Hpos Hsh Hb Hl Hs Hn.
  destruct (readdir_all_spec sizeof_gf_dirent Hpos sizes o ctx fixed dyn new_fd 0) as (fd & Hr);
    [done|by left|done|done|done|lia|done|].
  eexists _, fd. split_and!; [exact Hr| |done]. change (drop (Z.to_nat 0) _) with (fixed ++ dyn).
  apply listed_names.
Qed.

(** Reading a virtual file in pieces of any positive sizes, each call going
    on where the last one ended, gives exactly the text that the first fill
    has made. *)
Theorem file_reads_complete {C H : Type} (sizes : list Z) (o : meta_ops C H) (ctx : C)
    (fill : C -> option (Z * option (list ascii))) (ret : Z) (text : list ascii) :
  file_fill o = Some fill -> fill ctx = Some (ret, Some text) -> 0 <= ret ->
  Z.of_nat (length text) < 2 ^ 63 -> Forall (fun size => 0 < size) sizes ->
  (length text < length sizes)%nat ->
  exists fd, read_all sizes o ctx 0 new_fd = Some (text, fd).
Proof.
  intros Hf Hfill Hret Hl Hs Hn.
  apply (read_all_spec sizes o ctx fill ret text new_fd 0); [done..|by left|done|lia|done|done].
Qed.

(** ** Examples *)

Definition sample_ops : meta_ops unit nat :=
  {| fixed_dirents := Some (ended
       [{| de_name := "."; de_type := IA_IFDIR; de_hook := None |};
        {| de_name := "version"; de_type := IA_IFREG; de_hook := Some 0%nat |}]);
     dir_fill := Some (fun _ => Some (1, Some [{| de_name := "x"; de_type := IA_IFLNK;
                                                  de_hook := Some 1%nat |}]));
     file_fill := Some (fun _ => Some (0, Some (list_ascii_of_string "3.8")));
     link_fill := None |}.

Lemma sample_shows :
  shows sample_ops tt
    [{| de_name := "."; de_type := IA_IFDIR; de_hook := None |};
     {| de_name := "version"; de_type := IA_IFREG; de_hook := Some 0%nat |}]
    [{| de_name := "x"; de_type := IA_IFLNK; de_hook := Some 1%nat |}].
Proof. split; [by left|]. right. eexists. split; [reflexivity|]. by left. Qed.

Lemma listing_complete_witness :
  exists es fd, readdir_all 100 [120; 240; 120; 120] sample_ops tt 0 new_fd = Some (es, fd) /\
    d_name <$> es = ["."; "version"; "x"]%string.
Proof.
  destruct (listing_complete 100 [120; 240; 120; 120] sample_ops tt _ _ eq_refl sample_shows)
    as (es & fd & H1 & H2 & _).
  - reflexivity.
  - reflexivity.
  - apply (bool_decide_eq_true_1 (Forall _ _)). vm_compute. reflexivity.
  - cbn. lia.
  - exists es, fd. split; [exact H1|]. rewrite H2. reflexivity.
Defined.

Lemma file_reads_complete_witness :
  exists fd, read_all [2; 2; 1; 1] sample_ops tt 0 new_fd = Some (list_ascii_of_string "3.8", fd).
Proof.
  apply (file_reads_complete [2; 2; 1; 1] sample_ops tt (fun _ => Some (0, Some (list_ascii_of_string "3.8"))) 0).
  - reflexivity.
  - reflexivity.
  - lia.
  - reflexivity.
  - repeat constructor.
  - cbn. lia.
Defined.
