(* ===== verification/Views.v ===== *)
(** * Views: query results as directories

    xlators/meta/src/imess.c, imess-views.c, imess-views-db.c and imess-tags.c:
    the directories that TagIt adds to the virtual file system. Every view is a
    name with a query in a database of the client; its directory is meant to
    hold a link for every row of the result. And syncop_ipc of
    libglusterfs/src/syncop.c with the way of the request through the volume:
    dht_ipc of DhtIpc.v, and ims_ipc of Active.v on the servers. The
    protocol between client and servers carries requests and replies over. *)

From Stdlib Require Import ZArith Lia Bool Ascii String.
From stdpp Require Import base list strings gmap.
From S2P Require Import Prelude Sqlite Xdb CLib Dict DictTyped Uuid Iatt Query QuerySpec DhtIpc.
From S2P Require Import Active Meta.

(** ** Contexts and hooks *)

(** The context of an inode: a dictionary, a path, or nothing. *)

Inductive view_ctx := NoCtx | DictCtx (data : dict_t) | PathCtx (path : option (list ascii)).

Inductive view_hook :=
| ImessDir | ViewsDir | TagsDir | ViewDir | ViewLink | ViewSql | ViewCount | ViewLatency.

Abbreviation vdirent := (meta_dirent view_hook).
Abbreviation vops := (meta_ops view_ctx view_hook).

(** The dictionary of a context: a null pointer is [None], and a path is not a
    dictionary. *)

Definition ctx_dict (ctx : view_ctx) : option (option dict_t) :=
  match ctx with
  | NoCtx => Some None
  | DictCtx d => Some (Some d)
  | PathCtx _ => None
  end.

(** Reading from a null pointer is refused. *)

Definition get_str (data : option dict_t) (key : string) : Z * option (list ascii) :=
  match data with Some d => dict_get_str d key | None => (- EINVAL, None) end.

Definition get_uint64 (data : option dict_t) (key : string) : option (Z * option Z) :=
  match data with Some d => dict_get_uint64 d key | None => Some (- EINVAL, None) end.

Definition get_double (data : option dict_t) (key : string) : option (Z * option (list ascii)) :=
  match data with Some d => dict_get_double d key | None => Some (- EINVAL, None) end.

Definition newline : ascii := "010"%char.

Definition DOT_DOTDOT : list vdirent :=
  [{| de_name := "."; de_type := IA_IFDIR; de_hook := None |};
   {| de_name := ".."; de_type := IA_IFDIR; de_hook := None |}].

Definition entry_of (name : string) (type : ia_type_t) (hook : view_hook) : vdirent :=
  {| de_name := name; de_type := type; de_hook := Some hook |}.

(** ** Links and files of a view *)

Definition up4 : list ascii := list_ascii_of_string "../../../..".

Definition imess_view_link_fill (ctx : view_ctx) : option (option (list ascii)) :=
  match ctx with
  | PathCtx path => Some (Some (up4 ++ cell_text path))
  | NoCtx => Some (Some (up4 ++ cell_text None))
  | DictCtx _ => None
  end.

Definition imess_view_link_ops : vops :=
  {| fixed_dirents := None; dir_fill := None; file_fill := None;
     link_fill := Some imess_view_link_fill |}.

Definition imess_view_sql_file_fill (ctx : view_ctx) : option (Z * option (list ascii)) :=
  data ← ctx_dict ctx;
  let '(ret, sql) := get_str data "sql" in
  if negb (ret =? 0) then Some (-1, None)
  else Some (0, Some (cell_text (cut <$> sql) ++ [newline])).

Definition imess_view_sql_ops : vops :=
  {| fixed_dirents := None; dir_fill := None; file_fill := Some imess_view_sql_file_fill;
     link_fill := None |}.

Definition imess_view_count_file_fill (ctx : view_ctx) : option (Z * option (list ascii)) :=
  data ← ctx_dict ctx;
  '(ret, count) ← get_uint64 data "count";
  if negb (ret =? 0) then Some (-1, None)
  else Some (0, Some (dec (default 0 count) ++ [newline])).

Definition imess_view_count_ops : vops :=
  {| fixed_dirents := None; dir_fill := None; file_fill := Some imess_view_count_file_fill;
     link_fill := None |}.

(** A double is its [%f] text. *)

Definition imess_view_latency_file_fill (ctx : view_ctx) : option (Z * option (list ascii)) :=
  data ← ctx_dict ctx;
  '(ret, latency) ← get_double data "latency";
  if negb (ret =? 0) then Some (-1, None)
  else Some (0, Some (default [] latency ++ [newline])).

Definition imess_view_latency_ops : vops :=
  {| fixed_dirents := None; dir_fill := None; file_fill := Some imess_view_latency_file_fill;
     link_fill := None |}.

(** ** The directory of a view *)

Definition imess_view_dir_dirents : list (option vdirent) :=
  (Some <$> DOT_DOTDOT ++
     [entry_of "query" IA_IFREG ViewSql; entry_of "count" IA_IFREG ViewCount;
      entry_of "latency" IA_IFREG ViewLatency]) ++ [None].

(** [keybuf] has 16 bytes. *)

Fixpoint link_dirents (n : nat) (i : Z) : option (list vdirent) :=
  match n with
  | O => Some []
  | S n' =>
      if 16 <? Z.of_nat (length (dec i)) + 1 then None
      else l ← link_dirents n' (i + 1); Some (entry_of (key_of i) IA_IFLNK ViewLink :: l)
  end.

Definition imess_view_dir_fill (ctx : view_ctx) : option (Z * option (list vdirent)) :=
  data ← ctx_dict ctx;
  '(ret, count) ← get_uint64 data "count";
  if negb (ret =? 0) then Some (-1, None)
  else
    let count := default 0 count in
    if count =? 0 then Some (0, None)
    else dirents ← link_dirents (Z.to_nat count) 0; Some (i32 count, Some dirents).

Definition imess_view_dir_ops : vops :=
  {| fixed_dirents := Some imess_view_dir_dirents; dir_fill := Some imess_view_dir_fill;
     file_fill := None; link_fill := None |}.

(** ** The directory of all views *)

(** What SQLite answers for the database of views: the codes of opening it, of
    preparing and stepping the count, the count, the code and the rows (name
    and query) of the list. *)

Record viewdb := {
  vd_open : Z; vd_prepare : Z; vd_step : Z; vd_count : Z; vd_exec : Z;
  vd_rows : list (option (list ascii) * option (list ascii))
}.

Definition imess_viewdb_count (db : viewdb) : Z :=
  if negb (vd_prepare db =? SQLITE_OK) then -1
  else if negb (vd_step db =? SQLITE_ROW) then -2
  else i32 (vd_count db).

Definition viewdb_getlist_callback (vals : option (list ascii) * option (list ascii)) (data : dict_t)
    : option (Z * dict_t) :=
  name ← vals.1;
  Some (dict_set_str data (string_of_list_ascii (cut name)) (cut <$> vals.2)).

(** [sqlite3_exec] calls the callback for every row until it answers non-zero. *)

Fixpoint viewdb_rows (rows : list (option (list ascii) * option (list ascii))) (data : dict_t)
    : option (Z * dict_t) :=
  match rows with
  | [] => Some (0, data)
  | r :: rows' =>
      '(ret, data') ← viewdb_getlist_callback r data;
      if negb (ret =? 0) then Some (SQLITE_ABORT, data') else viewdb_rows rows' data'
  end.

Definition imess_viewdb_getlist (db : viewdb) (data : dict_t) : option (Z * dict_t) :=
  if negb (vd_open db =? 0) then Some (vd_open db, data)
  else if imess_viewdb_count db <? 0 then Some (imess_viewdb_count db, data)
  else
    '(cb, data') ← viewdb_rows (vd_rows db) data;
    let ret := if negb (cb =? 0) then cb else vd_exec db in
    Some (if negb (ret =? 0) then - EIO else 0, data').

Definition imess_views_dir_dirents : list (option vdirent) := (Some <$> DOT_DOTDOT) ++ [None].

Definition views_dir_filler (key : string) (value : data_t) (dirents : list vdirent)
    : Z * list vdirent := (0, dirents ++ [entry_of key IA_IFDIR ViewDir]).

(** The array has one place for every pair that the dictionary counts. *)

Definition imess_views_dir_fill (ctx : view_ctx) : option (Z * option (list vdirent)) :=
  data ← ctx_dict ctx;
  data ← data;
  let '(ret, dirents) := dict_foreach data views_dir_filler [] in
  if count data <? Z.of_nat (length dirents) then None
  else if negb (ret =? 0) then Some (-1, None)
  else Some (i32 (count data), Some dirents).

Definition imess_views_dir_ops : vops :=
  {| fixed_dirents := Some imess_views_dir_dirents; dir_fill := Some imess_views_dir_fill;
     file_fill := None; link_fill := None |}.

(** ** The directory of TagIt, and tags *)

Definition imess_dir_ops : vops :=
  {| fixed_dirents := Some ((Some <$> DOT_DOTDOT ++
       [entry_of "views" IA_IFDIR ViewsDir; entry_of "tags" IA_IFDIR TagsDir]) ++ [None]);
     dir_fill := None; file_fill := None; link_fill := None |}.

(** This table has no end. *)

Definition imess_tags_dir_ops : vops :=
  {| fixed_dirents := Some (Some <$> DOT_DOTDOT); dir_fill := None; file_fill := None;
     link_fill := None |}.

(** ** Requests to the volume *)

Section hooks.
Context {conn F : Type} `{!SqlQuery conn, !SqlEngine conn, !Host F}.

(** The parameters of a server; [dbtime] and [latency] are the times that a
    request takes there. *)

Variables (strtod : list ascii -> Z) (fmt_lf : Z -> list ascii) (brick_path : list ascii)
  (errno : Z) (from dbtime latency : list ascii).

Abbreviation servers := (list (active conn F)).
Abbreviation V := (M (meta_state view_ctx view_hook servers)).

(** How a request that has a mask goes to the servers and comes back. *)

Variable dht_wind : list nat -> dict_t -> M servers ipc_reply.

Definition on_server (i : nat) (xdata : dict_t) : M servers ipc_reply := fun l =>
  s ← l !! i;
  '(rp, s') ← ims_ipc strtod fmt_lf brick_path errno from xdata dbtime latency s;
  Some (rp, <[i := s']> l).

(** The distribute translator: without a mask the request goes to the first
    child only. *)

Definition volume_ipc (xdata : dict_t) : M servers ipc_reply := fun l =>
  t ← dht_ipc_targets (Some xdata) (length l);
  match t with
  | None => on_server 0 xdata l
  | Some targets => dht_wind targets xdata l
  end.

(** The result and the dictionary that comes back. *)

Definition syncop_ipc (xdata_in : dict_t) : M servers (Z * option dict_t) :=
  rp <~ volume_ipc xdata_in;;
  m_ret (if ir_ret rp <? 0 then - ir_errno rp else ir_ret rp, ir_xdata rp).

Definition below {B} (m : M servers B) : V B := fun s =>
  match m (below_meta s) with
  | Some (b, l) => Some (b, {| inodes := inodes s; below_meta := l |})
  | None => None
  end.

(** ** Hooks *)

Variable db : viewdb.

(** The time that the query of a view takes. *)

Variable query_time : list ascii.

Definition meta_imess_dir_hook (inode : Z) : V Z := meta_ops_set inode imess_dir_ops;;; m_ret 0.

Definition meta_imess_tags_dir_hook (inode : Z) : V Z :=
  meta_ops_set inode imess_tags_dir_ops;;; m_ret 0.

Definition meta_imess_views_dir_hook (inode : Z) : V Z :=
  r <~ m_deref (imess_viewdb_getlist db dict_new);;
  let '(ret, data) := r in
  meta_ops_set inode imess_views_dir_ops;;;
  meta_ctx_set inode (DictCtx data);;;
  m_ret ret.

(** Copies the context of the parent. *)

Definition file_hook (ops : vops) (parent inode : Z) : V Z :=
  meta_ops_set inode ops;;;
  ctx <~ meta_ctx_get parent;;
  meta_ctx_set inode ctx;;;
  m_ret 0.

Definition meta_imess_view_sql_hook := file_hook imess_view_sql_ops.
Definition meta_imess_view_count_hook := file_hook imess_view_count_ops.
Definition meta_imess_view_latency_hook := file_hook imess_view_latency_ops.

Definition meta_imess_view_link_hook (parent inode : Z) (name : string) : V Z :=
  ctx <~ meta_ctx_get parent;;
  data <~ m_deref (ctx_dict ctx);;
  let '(ret, path) := get_str data name in
  if negb (ret =? 0) then m_ret (-1)
  else
    meta_ctx_set inode (PathCtx (cut <$> path));;;
    meta_ops_set inode imess_view_link_ops;;;
    m_ret 0.

(** The request for the rows of a view. *)

Definition view_request (sql : option (list ascii)) : Z * dict_t :=
  let '(r1, d1) := dict_set_str dict_new "type" (Some (list_ascii_of_string "query")) in
  let '(r2, d2) := dict_set_str d1 "sql" (cut <$> sql) in
  let '(r3, d3) := dict_set_str d2 "clients" (Some (list_ascii_of_string "all")) in
  (Z.lor r1 (Z.lor r2 r3), d3).

Definition meta_imess_view_dir_hook (parent inode : Z) (name : string) : V Z :=
  ctx <~ meta_ctx_get parent;;
  data <~ m_deref (ctx_dict ctx);;
  let '(ret, sql) := get_str data name in
  if negb (ret =? 0) then m_ret (-1)
  else
    let '(ret, data_in) := view_request sql in
    if negb (ret =? 0) then m_ret (-1)
    else
      r <~ below (syncop_ipc data_in);;
      let '(ret, data_out) := r in
      if negb (ret =? 0) then m_ret (-1)
      else match data_out with
           | None => m_ret (-1)
           | Some d =>
               let '(ret, d1) := dict_set_str d "sql" (cut <$> sql) in
               if negb (ret =? 0) then m_ret (-1)
               else
                 let '(ret, d2) := dict_set_double d1 "latency" query_time in
                 if negb (ret =? 0) then m_ret (-1)
                 else
                   meta_ctx_set inode (DictCtx d2);;;
                   meta_ops_set inode imess_view_dir_ops;;;
                   m_ret 0
           end.

Definition run_hook (h : view_hook) (parent inode : Z) (name : string) : V Z :=
  match h with
  | ImessDir => meta_imess_dir_hook inode
  | ViewsDir => meta_imess_views_dir_hook inode
  | TagsDir => meta_imess_tags_dir_hook inode
  | ViewDir => meta_imess_view_dir_hook parent inode name
  | ViewLink => meta_imess_view_link_hook parent inode name
  | ViewSql => meta_imess_view_sql_hook parent inode
  | ViewCount => meta_imess_view_count_hook parent inode
  | ViewLatency => meta_imess_view_latency_hook parent inode
  end.

(** A lookup in a directory of TagIt. *)

Definition view_lookup := meta_default_lookup (E := servers) run_hook.

End hooks.
