(* ===== verification/ViewsProps.v ===== *)
(** * What the directories of TagIt show

    The listing of the views, the directory that a query result makes, and what
    comes of a lookup: no view can be entered, and the directory of tags cannot
    be listed. *)

From Stdlib Require Import ZArith Lia Bool Ascii String.
From stdpp Require Import base list strings gmap.
From S2P Require Import Prelude Sqlite SqlFacts Xdb XdbRefine CLib Dict DictTyped Uuid Iatt Query QuerySpec.
From S2P Require Import DhtIpc Active ActiveProps Meta MetaProps Views.

(** ** The directory of all views *)

Definition view_dirents (d : dict_t) : list (meta_dirent view_hook) :=
  (fun p => entry_of p.1 IA_IFDIR ViewDir) <$> members_list d.

Lemma filler_all l n acc :
  0 <= n -> n + Z.of_nat (length l) < 2 ^ 31 ->
  foreach_match dict_match_everything views_dir_filler l n acc =
  (n + Z.of_nat (length l), acc ++ ((fun p => entry_of p.1 IA_IFDIR ViewDir) <$> l)).
Proof.
  revert n acc. induction l as [|[k v] l IH]; intros n acc Hn Hl; cbn [foreach_match length fmap list_fmap] in *.
  { by rewrite Z.add_0_r, app_nil_r. }
  cbn [dict_match_everything views_dir_filler]. rewrite (proj2 (Z.ltb_ge _ _)) by lia.
  rewrite swrap_small by (unfold in_s; lia). rewrite IH by lia. rewrite <- (assoc_L (++)). cbn [app].
  by replace (n + 1 + Z.of_nat (length l)) with (n + Z.of_nat (S (length l))) by lia.
Qed.

Lemma views_dir_shows d :
  count d = Z.of_nat (length (members_list d)) -> count d < 2 ^ 31 ->
  shows imess_views_dir_ops (DictCtx d) DOT_DOTDOT (view_dirents d).
Proof.
  intros Hc Hb. split; [by left|]. right. eexists. split; [reflexivity|]. left.
  unfold imess_views_dir_fill. cbn [ctx_dict mbind option_bind].
  unfold dict_foreach, dict_foreach_match. rewrite filler_all by lia. cbn [app].
  fold (view_dirents d). unfold view_dirents. rewrite length_fmap, <- Hc, Z.add_0_l.
  rewrite Z.ltb_irrefl, (swrap_small 32) by (unfold in_s; lia).
  by destruct (Z.ltb_spec 0 (count d)); [|replace (count d) with 0 by lia].
Qed.

Lemma head_filter_entry (l : list (string * data_t)) name :
  name ∈ l.*1 ->
  head (filter (fun d => de_name d = name)
    ((fun p => entry_of p.1 IA_IFDIR ViewDir) <$> l)) = Some (entry_of name IA_IFDIR ViewDir).
Proof.
  induction l as [|[k v] l IH]; intros Hin; [by apply not_elem_of_nil in Hin|].
  cbn [fmap list_fmap fst] in *. rewrite filter_cons. case_decide as Hk.
  - cbn in Hk. by subst.
  - apply IH. apply elem_of_cons in Hin as [->|]; [done|done].
Qed.

(** ** The directory of a view *)

Definition link_entries (n : nat) (i : Z) : list (meta_dirent view_hook) :=
  (fun k => entry_of (key_of (i + Z.of_nat k)) IA_IFLNK ViewLink) <$> seq 0 n.

Lemma link_dirents_spec n i :
  0 <= i -> i + Z.of_nat n <= 10 ^ 15 -> link_dirents n i = Some (link_entries n i).
Proof.
  revert i. induction n as [|n IH]; intros i Hi Hn; [done|]. cbn [link_dirents].
  assert (length (dec i) <= 15)%nat.
  { unfold dec, dec_nat. rewrite (proj2 (Z.ltb_ge _ _)) by lia. apply length_dec_pow; lia. }
  rewrite (proj2 (Z.ltb_ge _ _)) by lia. rewrite IH by lia. cbn [mbind option_bind].
  unfold link_entries. cbn [seq fmap list_fmap]. rewrite Z.add_0_r. do 2 f_equal.
  rewrite <- fmap_S_seq, <- list_fmap_compose. apply list_fmap_ext. intros k x _. cbn.
  by replace (i + 1 + Z.of_nat x) with (i + Z.of_nat (S x)) by lia.
Qed.

Definition view_fixed : list (meta_dirent view_hook) :=
  DOT_DOTDOT ++ [entry_of "query" IA_IFREG ViewSql; entry_of "count" IA_IFREG ViewCount;
                 entry_of "latency" IA_IFREG ViewLatency].

Lemma view_dir_shows d n :
  dict_get d "count" = Some (text_data (dec (Z.of_nat n))) -> Z.of_nat n < 2 ^ 31 ->
  shows imess_view_dir_ops (DictCtx d) view_fixed (link_entries n 0).
Proof.
  intros Hc Hb. split; [by left|]. right. eexists. split; [reflexivity|].
  unfold imess_view_dir_fill. cbn [ctx_dict mbind option_bind get_uint64].
  rewrite (get_uint64_spec d "count" (Z.of_nat n)) by (done || (unfold in_u; lia)).
  cbn [mbind option_bind negb Z.eqb default from_option id].
  destruct (Z.eqb_spec (Z.of_nat n) 0) as [Hz|Hz].
  - right. by replace n with O by lia.
  - left. rewrite Nat2Z.id, link_dirents_spec by lia. cbn [mbind option_bind].
    rewrite swrap_small by (unfold in_s; lia). unfold link_entries. by rewrite length_fmap, length_seq.
Qed.

Lemma view_names_unique n : Z.of_nat n < 2 ^ 31 -> NoDup (de_name <$> view_fixed ++ link_entries n 0).
Proof.
  intros Hn. rewrite fmap_app. apply NoDup_app. split_and!.
  - apply (bool_decide_eq_true_1 (NoDup _)). vm_compute. reflexivity.
  - intros x Hx Hl. apply list_elem_of_fmap in Hl as (e & -> & Hl).
    apply list_elem_of_fmap in Hl as (k & -> & Hk%elem_of_seq). cbn [entry_of de_name] in Hx.
    assert (forall y, y ∈ de_name <$> view_fixed -> is_name y = true) as Hf.
    { intros y Hy. apply list_elem_of_In in Hy. cbn in Hy.
      repeat (destruct Hy as [<-|Hy]; [by vm_compute|]). done. }
    eapply key_of_name; [|exact (Hf _ Hx)|reflexivity]. unfold in_u. lia.
  - unfold link_entries. rewrite <- list_fmap_compose. apply NoDup_fmap_2_strong; [|apply NoDup_seq].
    intros a b Ha%elem_of_seq Hb%elem_of_seq. cbn. intros E%key_of_inj; unfold in_u; lia.
Qed.

Lemma find_link n k :
  (k < n)%nat -> Z.of_nat n < 2 ^ 31 ->
  head (filter (fun d => de_name d = key_of (Z.of_nat k)) (view_fixed ++ link_entries n 0)) =
  Some (entry_of (key_of (Z.of_nat k)) IA_IFLNK ViewLink).
Proof.
  intros Hk Hn. apply (head_filter_key de_name (view_fixed ++ link_entries n 0)
    (entry_of (key_of (Z.of_nat k)) IA_IFLNK ViewLink)); [by apply view_names_unique|].
  apply elem_of_app. right. apply list_elem_of_fmap. exists k. split; [done|]. apply elem_of_seq. lia.
Qed.

(** ** Lookups *)

Section lookups.
Context {conn F : Type} `{!SqlQuery conn, !SqlEngine conn, !Host F}.
Variables (strtod : list ascii -> Z) (fmt_lf : Z -> list ascii) (brick_path : list ascii)
  (errno : Z) (from dbtime latency : list ascii).
Variable dht_wind : list nat -> dict_t -> M (list (active conn F)) ipc_reply.
Variables (db : viewdb) (query_time : list ascii).
Implicit Types (s : meta_state view_ctx view_hook (list (active conn F))).

Abbreviation hook := (run_hook strtod fmt_lf brick_path errno from dbtime latency dht_wind db query_time).
Abbreviation lookup_view :=
  (view_lookup strtod fmt_lf brick_path errno from dbtime latency dht_wind db query_time).

Lemma lookup_hook s parent inode p o fixed dyn name type h fresh now :
  inodes s !! parent = Some p -> in_ops p = Some o -> shows o (in_ctx p) fixed dyn ->
  head (filter (fun d => de_name d = name) (fixed ++ dyn)) = Some (entry_of name type h) ->
  lookup_view parent inode (Some name) fresh now s =
  (hook h parent inode name;;;
   n <~ inode_get inode;;
   m_ret (LookupOk (meta_iatt_fill (in_ops n) (in_gfid n) type fresh now))) s.
Proof.
  intros Hp Ho Hsh Hh. unfold view_lookup, meta_default_lookup, m_bind at 1, inode_get at 1.
  unfold m_bind at 1, m_get. rewrite Hp. cbn [m_deref]. unfold m_ret at 1. rewrite Ho.
  rewrite (find_dirent_spec _ _ _ _ _ Hsh), Hh. cbn [m_deref]. by rewrite m_bind_ret.
Qed.

(** The request of a view reaches the first server only, and is refused there. *)

Lemma view_request_ok sql : exists d, view_request (Some sql) = (0, d) /\
  dict_get d "type" = Some (text_data (list_ascii_of_string "query")) /\
  dict_get d "session" = None /\ dict_get d "cmask" = None.
Proof.
  unfold view_request, dict_set_str, str_to_data. cbn [fmap option_fmap option_map].
  rewrite (set_zero _ "type"). cbv beta iota. rewrite (set_zero _ "sql"). cbv beta iota.
  rewrite (set_zero _ "clients"). cbv beta iota. eexists. split; [done|].
  split_and!; rewrite !get_set_ne by done; [apply get_set_eq|done|done].
Qed.

Lemma view_request_refused d l :
  dict_get d "type" = Some (text_data (list_ascii_of_string "query")) ->
  dict_get d "session" = None -> dict_get d "cmask" = None -> l <> [] ->
  exists r, syncop_ipc strtod fmt_lf brick_path errno from dbtime latency dht_wind d l =
    Some ((- EINVAL, r), l).
Proof.
  intros Ht Hse Hm Hl. destruct l as [|s0 l]; [done|].
  unfold syncop_ipc, m_bind, volume_ipc, dht_ipc_targets, dict_get_bin, dict_get_with_ref.
  fold (dict_get d "cmask"). rewrite Hm. cbn [Z.ltb negb Z.eqb Z.opp ENOENT Z.compare mbind option_bind].
  unfold on_server. cbn [lookup list_lookup mbind option_bind]. unfold ims_ipc.
  rewrite get_str_spec, Ht. cbn [d_data text_data negb Z.eqb]. unfold dict_set_str, str_to_data.
  cbn [fmap option_fmap option_map]. rewrite set_zero. cbn [negb Z.eqb].
  unfold text_of. cbn [fmap option_fmap option_map m_deref]. rewrite m_bind_ret, cut_text by (by apply plain_text).
  change (has_type "query" (list_ascii_of_string "query")) with true. cbv beta iota.
  unfold m_bind, on_query, ims_ipc_query. rewrite get_str_spec, Hse.
  cbn [negb Z.eqb Z.opp ENOENT]. unfold m_ret. cbn [mbind option_bind].
  cbn [insert list_insert ir_ret ir_errno ir_xdata Z.ltb Z.compare]. by destruct s0; eexists.
Qed.

Lemma view_dir_hook_refused s parent inode p d name sql :
  inodes s !! parent = Some p -> in_ctx p = DictCtx d -> dict_get d name = Some (text_data sql) ->
  below_meta s <> [] -> hook ViewDir parent inode name s = Some (-1, s).
Proof.
  intros Hp Hctx Hn Hl. cbn [run_hook]. unfold meta_imess_view_dir_hook, meta_ctx_get, m_bind at 1.
  unfold m_bind at 1, inode_get, m_bind, m_get. rewrite Hp. cbn [m_deref]. unfold m_ret.
  rewrite Hctx. cbn [ctx_dict m_deref]. unfold m_ret. cbn [get_str]. rewrite get_str_spec, Hn.
  cbn [d_data text_data negb Z.eqb].
  destruct (view_request_ok (sql ++ [NUL])) as (q & Hq & H1 & H2 & H3).
  change (Some (sql ++ ["000"%char])) with (Some (sql ++ [NUL])). rewrite Hq. cbn [negb Z.eqb].
  destruct (view_request_refused q (below_meta s) H1 H2 H3 Hl) as (r & Hr).
  unfold below. rewrite Hr. cbn [Z.opp EINVAL]. by destruct s.
Qed.

End lookups.

Lemma length_string_of (l : list ascii) : String.length (string_of_list_ascii l) = length l.
Proof. induction l as [|c l IH]; [done|]. cbn. by rewrite IH. Qed.

(** *** A link *)

Lemma link_lookup {conn F} `{!SqlQuery conn, !SqlEngine conn, !Host F} strtod fmt_lf brick_path errno
    from dbtime latency dht_wind db query_time
    (s : meta_state view_ctx view_hook (list (active conn F))) parent inode p n d rows k r fresh now :
  inodes s !! parent = Some p -> in_ops p = Some imess_view_dir_ops -> in_ctx p = DictCtx d ->
  dict_get d "count" = Some (text_data (dec (Z.of_nat (length rows)))) -> rows_at d 0 rows ->
  Z.of_nat (length rows) < 2 ^ 31 -> plain r -> inodes s !! inode = Some n -> parent <> inode ->
  rows !! k = Some r ->
  exists st s' n', view_lookup strtod fmt_lf brick_path errno from dbtime latency dht_wind db
      query_time parent inode (Some (key_of (Z.of_nat k))) fresh now s = Some (LookupOk st, s') /\
    ia_type st = IA_IFLNK /\ inodes s' !! inode = Some n' /\
    meta_default_readlink (in_ops n') (in_ctx n') =
      Some (Z.of_nat (length (up4 ++ r)), 0, up4 ++ r).
Proof.
  intros Hp Ho Hctx Hc Hr Hb Hpl Hn Hne Hk. pose proof (lookup_lt_Some _ _ _ Hk) as Hlt.
  rewrite (lookup_hook _ _ _ _ _ _ _ _ _ _ s parent inode p imess_view_dir_ops view_fixed
    (link_entries (length rows) 0) (key_of (Z.of_nat k)) IA_IFLNK ViewLink);
    [|done|done|rewrite Hctx; by apply view_dir_shows|by apply find_link].
  cbn [run_hook]. unfold meta_imess_view_link_hook, meta_ctx_get.
  set (n1 := {| in_ops := in_ops n; in_ctx := PathCtx (Some r); in_gfid := in_gfid n;
                in_type := in_type n |}).
  set (n2 := {| in_ops := Some imess_view_link_ops; in_ctx := PathCtx (Some r); in_gfid := in_gfid n;
                in_type := in_type n |}).
  unfold m_bind at 1 2 3. rewrite (inode_get_spec _ _ p) by done. unfold m_ret at 1. rewrite Hctx.
  cbn [ctx_dict m_deref]. rewrite m_bind_ret. cbn [get_str]. rewrite get_str_spec.
  rewrite (Hr k r Hk : dict_get d (key_of (Z.of_nat k)) = Some (text_data r)).
  cbn [d_data text_data negb Z.eqb fmap option_fmap option_map]. rewrite cut_text by done.
  unfold m_bind at 1 2. rewrite (ctx_set_spec _ _ n) by done. fold n1.
  rewrite (ops_set_spec _ _ n1) by apply put_inode_get. change {| in_ops := _ |} with n2.
  unfold m_ret at 1, m_bind. rewrite (inode_get_spec _ _ n2) by apply put_inode_get.
  eexists _, _, n2. split; [reflexivity|]. split; [done|]. split; [apply put_inode_get|].
  change (meta_default_readlink _ _) with
    (Some (Z.of_nat (length (cut (up4 ++ r))), 0, cut (up4 ++ r))).
  rewrite cut_plain; [done|]. rewrite not_elem_of_app. split; [|apply Hpl].
  apply (bool_decide_eq_true_1 (~ _)). vm_compute. reflexivity.
Qed.

(** ** Properties *)

(** C39. No view can be entered. Whatever the servers hold and the database of
    views says, looking up a view succeeds with attributes that are all zero
    (no type, no gfid), and leaves the new inode without operations and the
    servers as they were: the request has no mask, so that it goes to the first
    server only, and no session, so that this server refuses it; the lookup
    does not look at the result of the hook. *)
Theorem view_lookup_empty {conn F} `{!SqlQuery conn, !SqlEngine conn, !Host F}
    (strtod : list ascii -> Z) (fmt_lf : Z -> list ascii) (brick_path : list ascii) (errno : Z)
    (from dbtime latency : list ascii) (dht_wind : list nat -> dict_t -> M (list (active conn F)) ipc_reply)
    (db : viewdb) (query_time : list ascii) (s : meta_state view_ctx view_hook (list (active conn F)))
    (parent inode : Z) (p n : meta_inode view_ctx view_hook) (d : dict_t) (name : string)
    (sql : list ascii) (fresh : uuid_t) (now : Z) :
  inodes s !! parent = Some p -> in_ops p = Some imess_views_dir_ops -> in_ctx p = DictCtx d ->
  count d = Z.of_nat (length (members_list d)) -> count d < 2 ^ 31 ->
  dict_get d name = Some (text_data sql) -> name <> "."%string -> name <> ".."%string ->
  inodes s !! inode = Some n -> in_ops n = None -> below_meta s <> [] ->
  view_lookup strtod fmt_lf brick_path errno from dbtime latency dht_wind db query_time
    parent inode (Some name) fresh now s = Some (LookupOk no_iatt, s).
Proof.
  intros Hp Ho Hctx Hc Hb Hd H1 H2 Hn Hno Hl.
  rewrite (lookup_hook _ _ _ _ _ _ _ _ _ _ s parent inode p imess_views_dir_ops DOT_DOTDOT
    (view_dirents d) name IA_IFDIR ViewDir); [|done|done|rewrite Hctx; by apply views_dir_shows|].
  - unfold m_bind at 1. erewrite view_dir_hook_refused by done.
    unfold m_bind, inode_get, m_bind, m_get. rewrite Hn. cbn [m_deref]. unfold m_ret. by rewrite Hno.
  - cbn [DOT_DOTDOT app]. rewrite !filter_cons. cbn [de_name].
    rewrite !decide_False by done. apply head_filter_entry.
    unfold dict_get, _dict_lookup in Hd. apply lookup_pairs_elem in Hd.
    apply list_elem_of_fmap. by exists (name, text_data sql).
Qed.

(** The directory that a query result makes: it lists [query], [count],
    [latency] and one link for every row, named by its number, and looking up
    link [k] and reading it gives the path of row [k] below the root of the
    mount. *)
Theorem view_dir_lists_rows {conn F} `{!SqlQuery conn, !SqlEngine conn, !Host F}
    (strtod : list ascii -> Z) (fmt_lf : Z -> list ascii) (brick_path : list ascii) (errno : Z)
    (from dbtime latency : list ascii) (dht_wind : list nat -> dict_t -> M (list (active conn F)) ipc_reply)
    (db : viewdb) (query_time : list ascii) (s : meta_state view_ctx view_hook (list (active conn F)))
    (parent inode : Z) (p n : meta_inode view_ctx view_hook) (d : dict_t) (rows : list (list ascii))
    (fresh : uuid_t) (now sizeof size : Z) :
  inodes s !! parent = Some p -> in_ops p = Some imess_view_dir_ops -> in_ctx p = DictCtx d ->
  dict_get d "count" = Some (text_data (dec (Z.of_nat (length rows)))) -> rows_at d 0 rows ->
  Forall plain rows -> inodes s !! inode = Some n -> parent <> inode ->
  0 < sizeof -> sizeof + 25 <= size -> (sizeof + 25) * Z.of_nat (length rows + 5) < 2 ^ 31 ->
  (exists es fd, readdir_all sizeof (replicate (length rows + 6) size) imess_view_dir_ops (DictCtx d) 0
      new_fd = Some (es, fd) /\
    d_name <$> es = ["."; ".."; "query"; "count"; "latency"]%string ++
                    ((fun k => key_of (Z.of_nat k)) <$> seq 0 (length rows))) /\
  (forall k r, rows !! k = Some r ->
    exists st s' n', view_lookup strtod fmt_lf brick_path errno from dbtime latency dht_wind db
        query_time parent inode (Some (key_of (Z.of_nat k))) fresh now s = Some (LookupOk st, s') /\
      ia_type st = IA_IFLNK /\ inodes s' !! inode = Some n' /\
      meta_default_readlink (in_ops n') (in_ctx n') =
        Some (Z.of_nat (length (up4 ++ r)), 0, up4 ++ r)).
Proof.
  intros Hp Ho Hctx Hc Hr Hpl Hn Hne Hsz Hsize Hb.
  assert (Z.of_nat (length rows) + 5 < 2 ^ 31) as Hlen by nia. split.
  - set (es := view_fixed ++ link_entries (length rows) 0).
    assert (length es = length rows + 5)%nat as Hes.
    { unfold es, link_entries. rewrite length_app, length_fmap, length_seq. cbn. lia. }
    assert (Forall (fun e => dirent_size sizeof e <= sizeof + 25) es) as Hf.
    { apply Forall_app. split; [repeat constructor; unfold dirent_size; cbn; lia|].
      apply Forall_fmap, Forall_true. intros k. unfold dirent_size. cbn [compose entry_of de_name].
      unfold key_of. rewrite length_string_of. pose proof (length_dec (0 + Z.of_nat k)). lia. }
    destruct (readdir_all_spec sizeof Hsz (replicate (length rows + 6) size) imess_view_dir_ops
      (DictCtx d) view_fixed (link_entries (length rows) 0) new_fd 0) as (fd & Hrd).
    + apply view_dir_shows; [done|lia].
    + by left.
    + pose proof (total_size_bound sizeof es _ Hf) as Ht. fold es. lia.
    + fold es. lia.
    + apply Forall_replicate. eapply Forall_impl; [exact Hf|]. cbn. lia.
    + lia.
    + change (drop _ _) with es. rewrite length_replicate. lia.
    + eexists _, fd. split; [exact Hrd|]. rewrite listed_names. change (drop _ _) with es.
      unfold es. rewrite fmap_app. unfold link_entries. rewrite <- list_fmap_compose. done.
  - intros k r Hk. eapply link_lookup; [done..|lia| |done|done|done].
    rewrite Forall_lookup in Hpl. by eapply Hpl.
Qed.

(** The directory of tags cannot be listed: its table of entries has no end,
    and listing it, or looking up a name in it, reads past the table. *)
Theorem tags_dir_undefined (sizeof size off : Z) (ctx : view_ctx) (fd : meta_fd view_hook)
    (name : string) :
  meta_default_readdir sizeof (Some imess_tags_dir_ops) ctx size off fd = None /\
  (name <> "."%string -> name <> ".."%string -> find_dirent imess_tags_dir_ops ctx name = None).
Proof.
  split.
  - unfold meta_default_readdir, m_bind. by destruct (meta_dir_fill _ _ _) as [[r fd']|].
  - intros H1 H2. cbn. by rewrite !decide_False by done.
Qed.

(** ** The database of views *)

Definition view_row (v : list ascii * list ascii) : option (list ascii) * option (list ascii) :=
  (Some v.1, Some v.2).

Definition view_pair (v : list ascii * list ascii) : string * data_t :=
  (string_of_list_ascii v.1, text_data v.2).

(** SQLite answers with these views. *)

Record lists_views (db : viewdb) (l : list (list ascii * list ascii)) : Prop := {
  lv_codes : vd_open db = 0 /\ vd_prepare db = SQLITE_OK /\ vd_step db = SQLITE_ROW /\ vd_exec db = 0;
  lv_count : 0 <= vd_count db < 2 ^ 31;
  lv_rows : vd_rows db = view_row <$> l;
  lv_plain : Forall (fun v => plain v.1 /\ plain v.2) l;
  lv_names : NoDup l.*1
}.

Lemma viewdb_rows_spec l d :
  Forall (fun v => plain v.1 /\ plain v.2) l -> NoDup (l.*1) ->
  Forall (fun v => dict_get d (string_of_list_ascii v.1) = None) l ->
  0 <= count d -> count d + Z.of_nat (length l) < 2 ^ 31 ->
  exists d', viewdb_rows (view_row <$> l) d = Some (0, d') /\
    members_list d' = rev (view_pair <$> l) ++ members_list d /\
    count d' = count d + Z.of_nat (length l).
Proof.
  intros Hp. revert d. induction Hp as [|[n q] l [Hn Hq] Hp IH]; intros d Hnd Hf Hc0 Hb.
  { exists d. cbn. rewrite Z.add_0_r. done. }
  cbn [fmap list_fmap fst snd] in *. apply NoDup_cons in Hnd as [Hni Hnd].
  apply Forall_cons in Hf as [Hfn Hf]. cbn [fst] in Hfn.
  cbn [viewdb_rows]. unfold viewdb_getlist_callback. change (view_row (n, q)) with (Some n, Some q).
  cbn [fst snd mbind option_bind].
  rewrite (cut_plain n) by apply Hn. cbn [fmap option_fmap option_map].
  rewrite (cut_plain q) by apply Hq. unfold dict_set_str, str_to_data. cbn [fmap option_fmap option_map].
  rewrite set_zero. cbn [mbind option_bind negb Z.eqb].
  set (d1 := (dict_set d (string_of_list_ascii n) (Some (text_data q))).2).
  assert (members_list d1 = (string_of_list_ascii n, text_data q) :: members_list d /\
    count d1 = count d + 1) as [Hm1 Hc1].
  { unfold d1, dict_set, _dict_set. unfold dict_get in Hfn. rewrite Hfn.
    rewrite bool_decide_eq_false_2 by (by intros [? ?]). cbn [andb snd members_list count length] in *.
    split; [done|]. apply swrap_small; [lia|]. unfold in_s. lia. }
  destruct (IH d1 Hnd) as (d' & Hr & Hm & Hc).
  { apply Forall_forall. intros v Hv. unfold d1. rewrite get_set_ne.
    - rewrite Forall_forall in Hf. by apply Hf.
    - intros E%MapHost.string_of_inj. apply Hni. apply list_elem_of_fmap. by exists v. }
  { lia. }
  { rewrite Hc1. cbn [length] in Hb. lia. }
  exists d'. split_and!; [done| |rewrite Hc, Hc1; cbn [length]; lia].
  rewrite Hm, Hm1. cbn [view_pair fst snd rev]. by rewrite <- (assoc_L (++)).
Qed.

(** The directory of views lists every view of the database once, and looking it
    up gives it a type and an identifier. *)
Theorem views_dir_lists_views {conn F} `{!SqlQuery conn, !SqlEngine conn, !Host F}
    (strtod : list ascii -> Z) (fmt_lf : Z -> list ascii) (brick_path : list ascii) (errno : Z)
    (from dbtime latency : list ascii) (dht_wind : list nat -> dict_t -> M (list (active conn F)) ipc_reply)
    (db : viewdb) (query_time : list ascii) (s : meta_state view_ctx view_hook (list (active conn F)))
    (parent inode : Z) (p n : meta_inode view_ctx view_hook) (l : list (list ascii * list ascii))
    (fresh : uuid_t) (now : Z) :
  inodes s !! parent = Some p -> in_ops p = Some imess_dir_ops -> inodes s !! inode = Some n ->
  lists_views db l -> Z.of_nat (length l) < 2 ^ 31 ->
  exists st s' n' dyn, view_lookup strtod fmt_lf brick_path errno from dbtime latency dht_wind db
      query_time parent inode (Some "views"%string) fresh now s = Some (LookupOk st, s') /\
    ia_type st = IA_IFDIR /\ inodes s' !! inode = Some n' /\
    exists o, in_ops n' = Some o /\ shows o (in_ctx n') DOT_DOTDOT dyn /\
      de_name <$> dyn ≡ₚ (fun v => string_of_list_ascii v.1) <$> l.
Proof.
  intros Hp Ho Hn [(H1 & H2 & H3 & H4) Hc Hrows Hpl Hnd] Hb.
  destruct (viewdb_rows_spec l dict_new Hpl Hnd) as (d & Hr & Hm & Hcd);
    [by apply Forall_true|done|cbn; lia|].
  assert (count d = Z.of_nat (length (members_list d)) /\ count d = Z.of_nat (length l)) as [Hcm Hcl].
  { rewrite Hm, Hcd, length_app, length_rev, length_fmap. cbn. lia. }
  rewrite (lookup_hook _ _ _ _ _ _ _ _ _ _ s parent inode p imess_dir_ops
    (DOT_DOTDOT ++ [entry_of "views" IA_IFDIR ViewsDir; entry_of "tags" IA_IFDIR TagsDir]) []
    "views" IA_IFDIR ViewsDir); [|done|done|split; [by left|by left]|done].
  cbn [run_hook]. unfold meta_imess_views_dir_hook, m_bind at 1 2.
  unfold imess_viewdb_getlist, imess_viewdb_count. rewrite H1, H2, H3, Hrows, Hr, H4.
  change (negb (0 =? 0)) with false. change (negb (SQLITE_OK =? SQLITE_OK)) with false.
  change (negb (SQLITE_ROW =? SQLITE_ROW)) with false. cbv beta iota. rewrite swrap_small by (unfold in_s; lia).
  rewrite (proj2 (Z.ltb_ge _ _)) by lia. cbn [mbind option_bind negb Z.eqb m_deref]. unfold m_ret at 1.
  set (n1 := {| in_ops := Some imess_views_dir_ops; in_ctx := in_ctx n; in_gfid := in_gfid n;
                in_type := in_type n |}).
  set (n2 := {| in_ops := Some imess_views_dir_ops; in_ctx := DictCtx d; in_gfid := in_gfid n;
                in_type := in_type n |}).
  unfold m_bind at 1 2. rewrite (ops_set_spec _ _ n) by done. fold n1.
  rewrite (ctx_set_spec _ _ n1) by apply put_inode_get. change {| in_ops := _ |} with n2.
  unfold m_ret at 1, m_bind. rewrite (inode_get_spec _ _ n2) by apply put_inode_get.
  eexists _, _, n2, (view_dirents d). split; [reflexivity|]. split; [done|].
  split; [apply put_inode_get|]. eexists. split; [reflexivity|].
  split; [apply views_dir_shows; [done|lia]|].
  unfold view_dirents. rewrite <- list_fmap_compose, Hm, app_nil_r, <- Permutation_rev.
  by rewrite <- list_fmap_compose.
Qed.

(** ** Examples *)

Module Mount.
Import Sample.

(** A mount with one server; inode 1 is the directory of TagIt, 2 that of the
    views, 3 that of a view and 4 is new. *)

Definition views : dict_t :=
  {| members_list := [("all"%string, text_data (text "select path from xfile"))]; count := 1 |}.

Definition result : dict_t :=
  {| members_list := [("count"%string, text_data (dec 1)); ("0"%string, text_data (text "/f"))];
     count := 2 |}.

Definition node (o : option (meta_ops view_ctx view_hook)) (ctx : view_ctx)
    : meta_inode view_ctx view_hook :=
  {| in_ops := o; in_ctx := ctx; in_gfid := replicate 16 0; in_type := IA_IFDIR |}.

Definition mounted : meta_state view_ctx view_hook (list (active Scripted.hconn MapHost.host)) :=
  {| inodes := <[1 := node (Some imess_dir_ops) NoCtx]>
       (<[2 := node (Some imess_views_dir_ops) (DictCtx views)]>
       (<[3 := node (Some imess_view_dir_ops) (DictCtx result)]> {[4 := node None NoCtx]}));
     below_meta := [server sample_healthy] |}.

Definition saved_views : viewdb :=
  {| vd_open := 0; vd_prepare := 0; vd_step := SQLITE_ROW; vd_count := 1; vd_exec := 0;
     vd_rows := [(Some (text "all"), Some (text "select path from xfile"))] |}.

Definition wind (l : list nat) (d : dict_t)
    : M (list (active Scripted.hconn MapHost.host)) ipc_reply :=
  m_ret {| ir_ret := 0; ir_errno := 0; ir_xdata := None |}.

Definition look (parent : Z) (name : string) :=
  view_lookup no_double no_text brick 0 (text "host-db") [] [] wind saved_views [] parent 4
    (Some name) (replicate 16 7) 0 mounted.

End Mount.
Import Sample Mount.

Lemma view_lookup_empty_witness : look 2 "all" = Some (LookupOk no_iatt, mounted).
Proof.
  apply (view_lookup_empty no_double no_text brick 0 (text "host-db") [] [] wind saved_views []
    mounted 2 4 (node (Some imess_views_dir_ops) (DictCtx views)) (node None NoCtx) views "all"
    (text "select path from xfile")); (reflexivity || discriminate).
Defined.

Lemma view_dir_lists_rows_witness :
  exists st s' n', look 3 "0" = Some (LookupOk st, s') /\ inodes s' !! 4 = Some n' /\
    meta_default_readlink (in_ops n') (in_ctx n') = Some (13, 0, text "../../../../f").
Proof.
  destruct (view_dir_lists_rows no_double no_text brick 0 (text "host-db") [] [] wind saved_views []
    mounted 3 4 (node (Some imess_view_dir_ops) (DictCtx result)) (node None NoCtx) result
    [text "/f"] (replicate 16 7) 0 100 200) as [_ H]; [reflexivity..| | | | | | | |].
  - intros [|k] r Hk; [|done]. injection Hk as <-. reflexivity.
  - repeat constructor; by apply plain_text.
  - reflexivity.
  - discriminate.
  - lia.
  - lia.
  - cbn. lia.
  - destruct (H 0%nat (text "/f") eq_refl) as (st & s' & n' & H1 & _ & H2 & H3).
    exists st, s', n'. split; [exact H1|]. split; [exact H2|exact H3].
Defined.

Lemma views_dir_lists_views_witness :
  exists st s' n' dyn, look 1 "views" = Some (LookupOk st, s') /\ inodes s' !! 4 = Some n' /\
    exists o, in_ops n' = Some o /\ shows o (in_ctx n') DOT_DOTDOT dyn.
Proof.
  destruct (views_dir_lists_views no_double no_text brick 0 (text "host-db") [] [] wind saved_views []
    mounted 1 4 (node (Some imess_dir_ops) NoCtx) (node None NoCtx)
    [(text "all", text "select path from xfile")] (replicate 16 7) 0)
    as (st & s' & n' & dyn & H1 & _ & H2 & o & H3 & H4 & _).
  - reflexivity.
  - reflexivity.
  - reflexivity.
  - split; [split_and!; reflexivity|cbn; lia|reflexivity| |].
    + repeat constructor; by apply plain_text.
    + apply NoDup_singleton.
  - reflexivity.
  - exists st, s', n', dyn. split; [exact H1|]. split; [exact H2|]. exists o. split; [exact H3|exact H4].
Defined.
