(* ===== verification/Recover.v ===== *)
(** * Rebuilding the index

    tools/imess-recovery/src/ixrecover.c: reads a log of paths and inserts every
    file, with its stat(2) and extended attributes, into an index database. The
    tool works inside one transaction and remembers row identifiers, so that
    two of its statements differ from those of the translator; their meaning
    is given here on the tables of Sqlite.v.

    SQLite and the file system are classes. The times and the messages are left
    out. *)

From Stdlib Require Import ZArith Lia Bool Ascii String.
From stdpp Require Import base list strings gmap.
From S2P Require Import Prelude Sqlite Xdb CLib Dict DictTyped Query Active.

(** ** Statements *)

Inductive rec_stmt :=
| RInsertGfid (gfid : option string)
| RInsertFile (gid : option Z) (path path' : option string) (pos : option Z)
| RInsertStat (params : list (option Z * option Z))
| RInsertXname (name : option string)
| RInsertXdata (gid : option Z) (name : option string) (ival rval : option Z)
               (sval : option string).

Definition sql_insert_file_gid (gid : option Z) (path path' : option string) (pos : option Z)
    (t : tables) : option tables :=
  gid ← gid; p ← path; p' ← path'; q ← pos;
  if decide (p ∈ (f_path <$> xfile t)) then None else
  i ← next_rowid (f_fid <$> xfile t);
  Some {| present := present t; xgfid := xgfid t;
          xfile := xfile t ++
            [{| f_fid := i; f_gid := gid; f_path := p; f_name := sql_substr p' q |}];
          xname := xname t; xdata := xdata t |}.

Definition sql_insert_xdata_gid (gid : option Z) (name : option string) (ival rval : option Z)
    (sval : option string) (t : tables) : option tables :=
  g ← gid; n ← find_nid t name;
  i ← next_rowid (x_xid <$> xdata t);
  Some (with_xdata t
    (filter (fun r => (x_gid r, x_nid r) <> (g, n)) (xdata t) ++
     [{| x_xid := i; x_gid := g; x_nid := n; x_ival := ival; x_rval := rval; x_sval := sval |}])).

Definition rec_apply (s : rec_stmt) (t : tables) : option tables :=
  match s with
  | RInsertGfid g => sql_insert_gfid g t
  | RInsertFile g p p' q => sql_insert_file_gid g p p' q t
  | RInsertStat ps => sql_insert_stat ps t
  | RInsertXname n => sql_insert_xname n t
  | RInsertXdata g n v r s => sql_insert_xdata_gid g n v r s t
  end.

(** ** The SQLite library *)

Inductive rec_script := REC_PRAGMAS | REC_BEGIN | REC_END.

(** [rc_cur] and [rc_saved] as in Sqlite.v: what the connection sees, and what a
    rollback of the open transaction would bring back. *)

Class RecEngine (conn : Type) := {
  rc_cur : conn -> tables;
  rc_saved : conn -> option tables;
  rc_open : conn -> Z * conn;
  rc_exec : rec_script -> conn -> Z * conn;
  rc_prepare : conn -> Z * conn;
  rc_bind : conn -> Z * conn;
  rc_step : rec_stmt -> conn -> Z * conn;
  sqlite3_last_insert_rowid : conn -> Z
}.

(** Documented behaviour. Opening, preparing, binding and the pragmas touch no
    table. A step that answers [SQLITE_DONE] has carried the statement out, and
    after the insertion of a gfid the last row identifier is that of its row;
    any other answer leaves the tables, or has rolled the transaction back. *)

Class RecLaws (conn : Type) `{!RecEngine conn} : Prop := {
  rec_open_cur c r c' : rc_open c = (r, c') -> rc_cur c' = rc_cur c /\ rc_saved c' = rc_saved c;
  rec_prepare_cur c r c' :
    rc_prepare c = (r, c') -> rc_cur c' = rc_cur c /\ rc_saved c' = rc_saved c;
  rec_bind_cur c r c' :
    rc_bind c = (r, c') -> rc_cur c' = rc_cur c /\ rc_saved c' = rc_saved c;
  rec_step_done s c c' :
    rc_step s c = (SQLITE_DONE, c') ->
    rec_apply s (rc_cur c) = Some (rc_cur c') /\ rc_saved c' = rc_saved c /\
    forall g, s = RInsertGfid (Some g) ->
      find_gid (rc_cur c') (Some g) = Some (sqlite3_last_insert_rowid c');
  rec_step_fail s c r c' :
    rc_step s c = (r, c') -> r <> SQLITE_DONE ->
    (rc_cur c' = rc_cur c /\ rc_saved c' = rc_saved c) \/
    (rc_saved c = Some (rc_cur c') /\ rc_saved c' = None);
  rec_pragmas c r c' :
    rc_exec REC_PRAGMAS c = (r, c') -> rc_cur c' = rc_cur c /\ rc_saved c' = rc_saved c;
  rec_begin c c' :
    rc_exec REC_BEGIN c = (SQLITE_OK, c') ->
    rc_saved c = None /\ rc_cur c' = rc_cur c /\ rc_saved c' = Some (rc_cur c);
  rec_end c c' :
    rc_exec REC_END c = (SQLITE_OK, c') ->
    rc_cur c' = rc_cur c /\ is_Some (rc_saved c) /\ rc_saved c' = None
}.

(** An engine on which nothing fails but statements that break a constraint;
    these are backed out alone, and the transaction goes on. *)

Class RecHealthy (conn : Type) `{!RecEngine conn} : Prop := {
  rec_open_ok c : (rc_open c).1 = SQLITE_OK;
  rec_prepare_ok c : (rc_prepare c).1 = SQLITE_OK;
  rec_bind_ok c : (rc_bind c).1 = SQLITE_OK;
  rec_pragmas_ok c : (rc_exec REC_PRAGMAS c).1 = SQLITE_OK;
  rec_begin_ok c : rc_saved c = None -> (rc_exec REC_BEGIN c).1 = SQLITE_OK;
  rec_end_ok c : is_Some (rc_saved c) -> (rc_exec REC_END c).1 = SQLITE_OK;
  rec_step_ok s c : is_Some (rec_apply s (rc_cur c)) -> (rc_step s c).1 = SQLITE_DONE;
  rec_step_abort s c r c' :
    rc_step s c = (r, c') -> rec_apply s (rc_cur c) = None ->
    r <> SQLITE_DONE /\ rc_cur c' = rc_cur c /\ rc_saved c' = rc_saved c
}.

(** ** The file system *)

(** [lstat], [llistxattr] and [lgetxattr]: [None] when the call fails. The names
    fit the buffer of [llistxattr], or it fails. *)

Class FileTree (F : Type) := {
  ft_lstat : F -> string -> option stat;
  ft_llistxattr : F -> string -> option (list string);
  ft_lgetxattr : F -> string -> string -> option (list ascii)
}.

Definition MAX_N_XATTRS : Z := 128.

(** ** State *)

(** [struct file_attributes]; the pair is a name and the value. *)

Record file_attributes := {
  fa_file : string; fa_gfid : string; fa_stat : stat; fa_xattrs : list (string * list ascii)
}.

Record recover (conn : Type) := {
  rv_conn : conn; gfid_num : Z; total_files : Z; total_xattrs : Z
}.
Arguments rv_conn {conn}.
Arguments gfid_num {conn}.
Arguments total_files {conn}.
Arguments total_xattrs {conn}.
Arguments Build_recover {conn}.

Definition EIO : Z := 5.

(** [snprintf (gfid, 32, "%031llu", n)] *)

Definition pad (w : nat) (l : list ascii) : list ascii := replicate (w - length l) "0"%char ++ l.

Definition gfid_text (n : Z) : string := string_of_list_ascii (take 31 (pad 31 (dec_nat n))).

Section tool.
Context {conn F : Type} `{!RecEngine conn, !FileTree F}.
Variable files : F.
Abbreviation R := (M (recover conn)).

Definition on_rconn {A} (f : conn -> A * conn) : R A := fun s =>
  let '(a, c) := f (rv_conn s) in
  Some (a, {| rv_conn := c; gfid_num := gfid_num s; total_files := total_files s;
              total_xattrs := total_xattrs s |}).

Definition exec_simple_sql (s : rec_script) : R Z :=
  r <~ on_rconn (rc_exec s);; m_ret (if r =? SQLITE_OK then r else - EIO).

(** ** The database *)

Fixpoint prepare_all (n : nat) : R Z :=
  match n with
  | O => m_ret SQLITE_OK
  | S n' => r <~ on_rconn rc_prepare;; if negb (r =? SQLITE_OK) then m_ret r else prepare_all n'
  end.

Definition N_SQLS : nat := 5.

Definition db_connect : R Z :=
  r <~ on_rconn rc_open;;
  if negb (r =? SQLITE_OK) then m_ret (- EIO) else
  r <~ exec_simple_sql REC_PRAGMAS;;
  if negb (r =? SQLITE_OK) then m_ret (- EIO) else
  r <~ prepare_all N_SQLS;;
  if negb (r =? SQLITE_OK) then m_ret (- EIO) else
  r <~ exec_simple_sql REC_BEGIN;;
  if negb (r =? SQLITE_OK) then m_ret (- EIO) else m_ret 0.

Definition db_disconnect : R Z :=
  r <~ exec_simple_sql REC_END;;
  if negb (r =? SQLITE_OK) then m_ret (- EIO) else m_ret 0.

(** ** One file *)

(** The loop over the names: the values, or [None] when reading one fails. More
    than [MAX_N_XATTRS] names leave the array. *)

Fixpoint read_xattrs (file : string) (names : list string) (i : Z)
    : option (option (list (string * list ascii))) :=
  match names with
  | [] => Some (Some [])
  | n :: names' =>
      if MAX_N_XATTRS <=? i then None
      else match ft_lgetxattr files file n with
           | None => Some None
           | Some v =>
               l ← read_xattrs file names' (i + 1);
               Some (option_map (cons (n, v)) l)
           end
  end.

Definition next_gfid : R string := fun s =>
  Some (gfid_text (gfid_num s),
        {| rv_conn := rv_conn s; gfid_num := u64 (gfid_num s + 1); total_files := total_files s;
           total_xattrs := total_xattrs s |}).

(** The code, and the attributes when it is 0. *)

Definition read_attributes (file : string) : R (Z * option file_attributes) :=
  gfid <~ next_gfid;;
  match ft_lstat files file with
  | None => m_ret (-1, None)
  | Some sb =>
      match ft_llistxattr files file with
      | None => m_ret (-1, None)
      | Some names =>
          l <~ m_deref (read_xattrs file names 0);;
          match l with
          | None => m_ret (-1, None)
          | Some xs =>
              m_ret (0, Some {| fa_file := file; fa_gfid := gfid; fa_stat := sb; fa_xattrs := xs |})
          end
      end
  end.

(** A bind: its code and what the parameter then is. *)

Definition rbind {A} (v : A) : R (Z * A) := r <~ on_rconn rc_bind;; m_ret (r, v).

Definition bind_sattr (fid ival : Z) : R (Z * (option Z * option Z)) :=
  b1 <~ rbind (Some (i64 fid));;
  b2 <~ rbind (Some (i64 ival));;
  m_ret (if Z.lor b1.1 b2.1 =? SQLITE_OK then 0 else - EINVAL, (b1.2, b2.2)).

Fixpoint bind_sattrs (fid : Z) (ivals : list Z) (acc : list (option Z * option Z))
    : R (Z * list (option Z * option Z)) :=
  match ivals with
  | [] => m_ret (0, acc)
  | v :: vs =>
      b <~ bind_sattr fid v;;
      if negb (b.1 =? 0) then m_ret (b.1, acc) else bind_sattrs fid vs (acc ++ [b.2])
  end.

Definition bind_stat (fid : Z) (sb : stat) : R (Z * list (option Z * option Z)) :=
  bind_sattrs fid (map u64 (stat_values sb)) [].

(** A step: whether it was done. *)

Definition rstep (s : rec_stmt) : R bool := r <~ on_rconn (rc_step s);; m_ret (r =? SQLITE_DONE).

Definition last_rowid : R Z := s <~ m_get;; m_ret (u64 (sqlite3_last_insert_rowid (rv_conn s))).

(** The value is bound as a C string. *)

Fixpoint insert_xattrs (gid : Z) (l : list (string * list ascii)) : R Z :=
  match l with
  | [] => m_ret 0
  | (name, val) :: l' =>
      b <~ rbind (Some name);;
      if negb (b.1 =? SQLITE_OK) then m_ret (- EIO) else
      d <~ rstep (RInsertXname b.2);;
      if negb d then m_ret (- EIO) else
      b1 <~ rbind (Some (i32 gid));;
      b2 <~ rbind (Some name);;
      b3 <~ rbind None;;
      b4 <~ rbind None;;
      b5 <~ rbind (Some (string_of_list_ascii (cut val)));;
      if negb (Z.lor (Z.lor (Z.lor (Z.lor b1.1 b2.1) b3.1) b4.1) b5.1 =? SQLITE_OK)
      then m_ret (- EIO) else
      d <~ rstep (RInsertXdata b1.2 b2.2 b3.2 b4.2 b5.2);;
      if negb d then m_ret (- EIO) else insert_xattrs gid l'
  end.

Definition count_file (n : Z) : R unit :=
  m_modify (fun s => {| rv_conn := rv_conn s; gfid_num := gfid_num s;
                        total_files := u64 (total_files s + 1);
                        total_xattrs := u64 (total_xattrs s + n) |}).

Definition update_database (fattr : file_attributes) : R Z :=
  b <~ rbind (Some (fa_gfid fattr));;
  if negb (b.1 =? SQLITE_OK) then m_ret (- EIO) else
  d <~ rstep (RInsertGfid b.2);;
  if negb d then m_ret (- EIO) else
  gid <~ last_rowid;;
  b1 <~ rbind (Some (i32 gid));;
  b2 <~ rbind (Some (fa_file fattr));;
  b3 <~ rbind (Some (fa_file fattr));;
  pos <~ m_deref (name_substr_pos (fa_file fattr));;
  b4 <~ rbind (Some pos);;
  if negb (Z.lor (Z.lor (Z.lor b1.1 b2.1) b3.1) b4.1 =? SQLITE_OK) then m_ret (- EIO) else
  d <~ rstep (RInsertFile b1.2 b2.2 b3.2 b4.2);;
  if negb d then m_ret (- EIO) else
  b <~ bind_stat gid (fa_stat fattr);;
  if negb (b.1 =? 0) then m_ret (- EIO) else
  d <~ rstep (RInsertStat b.2);;
  if negb d then m_ret (- EIO) else
  r <~ insert_xattrs gid (fa_xattrs fattr);;
  if negb (r =? 0) then m_ret r else
  count_file (Z.of_nat (length (fa_xattrs fattr)));;; m_ret 0.

(** ** The log *)

(** The line without its last character: undefined for the empty string. *)

Definition chop (line : list ascii) : option (list ascii) :=
  let l := cut line in
  if Nat.eqb (length l) 0 then None else Some (take (length l - 1) l).

(** The loop over the log; [count] files at most, unless it is 0. *)

Fixpoint recover_lines (fuel : nat) (log : list ascii) (count processed : Z) (ret : Z) : R Z :=
  match fuel, log with
  | _, [] => m_ret ret
  | O, _ => m_undef
  | S fuel', _ =>
      let '(linebuf, rest) := fgets 510 log in
      match linebuf with
      | c :: _ =>
          if Ascii.eqb c "#" then recover_lines fuel' rest count processed ret
          else
            path <~ m_deref (chop linebuf);;
            a <~ read_attributes (string_of_list_ascii path);;
            match a with
            | (ret, Some fattr) =>
                if negb (ret =? 0) then m_ret ret else
                ret <~ update_database fattr;;
                if negb (ret =? 0) then m_ret ret else
                let processed := u64 (processed + 1) in
                if processed =? count then m_ret ret
                else recover_lines fuel' rest count processed ret
            | (ret, None) => m_ret ret
            end
      | [] => m_undef
      end
  end.

(** [log] is [None] when it cannot be opened, with [errno]. *)

Definition do_recovery (log : option (list ascii)) (errno count : Z) : R Z :=
  match log with
  | None => m_ret (- errno)
  | Some l => recover_lines (length l) l count 0 0
  end.

(** The work of [main], after its arguments. *)

Definition ixrecover (log : option (list ascii)) (errno count : Z) : R Z :=
  ret <~ db_connect;;
  if negb (ret =? 0) then m_ret ret
  else
    ret <~ do_recovery log errno count;;
    db_disconnect;;;
    m_ret ret.

End tool.
