(* ===== verification/RecoverProps.v ===== *)
(** * What the recovery tool leaves in the database

    The tool writes its tables itself. On an engine where nothing fails, the
    tables it leaves represent the index that the translator's own operations
    would have built for the same files. Two consequences of the gfids that the
    tool makes up follow. *)

From Stdlib Require Import ZArith Lia Bool Ascii String.
From stdpp Require Import base list strings gmap.
From S2P Require Import Prelude Sqlite SqlFacts Xdb XdbSpec XdbRefine CLib Dict DictTyped.
From S2P Require Import Query QuerySpec Active ActiveProps Recover.

(** ** Numbered gfids *)

Lemma digits_val_zeros n l : digits_val 10 0 (replicate n "0"%char ++ l) = digits_val 10 0 l.
Proof. induction n as [|n IH]; [done|]. exact IH. Qed.

Lemma gfid_text_inj n m :
  0 <= n < 2 ^ 64 -> 0 <= m < 2 ^ 64 -> gfid_text n = gfid_text m -> n = m.
Proof.
  assert (forall k, 0 <= k < 2 ^ 64 -> (length (dec_nat k) <= 20)%nat) as Hlen.
  { intros k Hk. unfold dec_nat. apply (length_dec_pow 20); lia. }
  assert (forall k, 0 <= k < 2 ^ 64 ->
            digits_val 10 0 (list_ascii_of_string (gfid_text k)) = k) as Hval.
  { intros k Hk. unfold gfid_text, pad. rewrite list_ascii_of_string_of_list_ascii.
    specialize (Hlen k Hk). rewrite take_ge by (rewrite length_app, length_replicate; lia).
    rewrite digits_val_zeros. by apply digits_val_dec_nat. }
  intros Hn Hm E. by rewrite <- (Hval n Hn), <- (Hval m Hm), E.
Qed.

(** ** A run of index operations *)

Fixpoint spec_run (l : list xop) (ix : index) : option index :=
  match l with [] => Some ix | o :: l' => ix' ← spec_xop o ix; spec_run l' ix' end.

Fixpoint run_tables (l : list xop) (t : tables) : option tables :=
  match l with [] => Some t | o :: l' => t' ← xop_tables o t; run_tables l' t' end.

Lemma spec_run_app l l' ix : spec_run (l ++ l') ix = ix' ← spec_run l ix; spec_run l' ix'.
Proof. revert ix. induction l as [|o l IH]; intros ix; [done|]. cbn. destruct (spec_xop o ix); [apply IH|done]. Qed.

Lemma run_tables_repr l t ix ix' k :
  Forall (fun o => xop_ok o = true) l -> repr t ix -> budget k t ->
  k + Z.of_nat (length l) < 2 ^ 31 - 1 -> spec_run l ix = Some ix' ->
  exists t', run_tables l t = Some t' /\ repr t' ix' /\ budget (k + Z.of_nat (length l)) t'.
Proof.
  revert t ix k. induction l as [|o l IH]; intros t ix k Hl Hr Hb Hk Hs.
  - injection Hs as <-. exists t. split_and!; [done|done|]. eapply budget_mono; [done|lia].
  - apply Forall_cons in Hl as [Ho Hl]. cbn [spec_run length run_tables] in *.
    destruct (spec_xop o ix) as [ix1|] eqn:E1; [|done]. cbn in Hs.
    assert (room t) as Hroom by (eapply budget_room; [done|lia]).
    destruct (xop_accepted o t ix Hr Hroom) as [t1 Et]; [by rewrite E1|].
    destruct (repr_xop o t t1 ix Ho Hr Hroom Et) as (ix1' & E1' & Hr1).
    rewrite E1 in E1'. injection E1' as <-.
    destruct (IH t1 ix1 (k + 1)) as (t' & Ht' & Hr' & Hb'); try done.
    { by eapply xop_budget. } { lia. }
    exists t'. rewrite Et. split_and!; [done|done|].
    by replace (k + Z.of_nat (S (length l))) with (k + 1 + Z.of_nat (length l)) by lia.
Qed.

(** ** The operations that stand for a file *)

Definition text_attr (g : string) (x : string * list ascii) : ims_xdb_attr :=
  {| xa_gfid := Some g; xa_type := IMS_XDB_TYPE_STRING; xa_name := Some x.1; xa_ival := 0;
     xa_rval := 0; xa_sval := Some (string_of_list_ascii (cut x.2)) |}.

Definition file_of (g p : string) : ims_xdb_file :=
  {| xf_gfid := Some g; xf_path := Some p; xf_extra := None |}.

Definition file_ops (a : file_attributes) : list xop :=
  OpInsertNewFile (file_of (fa_gfid a) (fa_file a)) (fa_stat a) ::
  ((fun x => OpSetxattr (text_attr (fa_gfid a) x)) <$> fa_xattrs a).

(** ** The calls on a healthy engine *)

Section calls.
Context {conn : Type} `{!RecEngine conn, !RecLaws conn, !RecHealthy conn}.
Implicit Types (s : recover conn) (t : tables).

Definition rview s : tables * option tables := (rc_cur (rv_conn s), rc_saved (rv_conn s)).

Definition counts s : Z * Z * Z := (gfid_num s, total_files s, total_xattrs s).

Lemma wp_rconn {A} (f : conn -> A * conn) (Q : A -> recover conn -> Prop) s :
  (forall a s', f (rv_conn s) = (a, rv_conn s') -> counts s' = counts s -> Q a s') ->
  wp (on_rconn f) Q s.
Proof. intros H. unfold wp, on_rconn. destruct (f (rv_conn s)) as [a c] eqn:E. by apply H. Qed.

Lemma wp_rbind {A} (v : A) (Q : Z * A -> recover conn -> Prop) s :
  (forall s', rview s' = rview s -> counts s' = counts s -> Q (SQLITE_OK, v) s') ->
  wp (rbind v) Q s.
Proof.
  intros H. unfold rbind. apply wp_bind, wp_rconn. intros r s' E Hc. apply wp_ret.
  pose proof (rec_bind_ok (rv_conn s)) as Hr. rewrite E in Hr. cbn in Hr. subst r.
  apply H; [|done]. destruct (rec_bind_cur _ _ _ E) as [E1 E2]. unfold rview. by rewrite E1, E2.
Qed.

Lemma wp_rstep st t' (Q : bool -> recover conn -> Prop) s :
  rec_apply st (rview s).1 = Some t' ->
  (forall s', rview s' = (t', (rview s).2) -> counts s' = counts s ->
     (forall g, st = RInsertGfid (Some g) ->
        find_gid t' (Some g) = Some (sqlite3_last_insert_rowid (rv_conn s'))) -> Q true s') ->
  wp (rstep st) Q s.
Proof.
  intros Ha H. unfold rstep. apply wp_bind, wp_rconn. intros r s' E Hc. apply wp_ret.
  pose proof (rec_step_ok st (rv_conn s)) as Hr. rewrite E in Hr. cbn in Hr, Ha.
  rewrite Hr by eauto. rewrite Hr in E by eauto. rewrite Z.eqb_refl.
  destruct (rec_step_done _ _ _ E) as (E1 & E2 & Hg). rewrite Ha in E1. injection E1 as ->.
  by apply H; [unfold rview; cbn; rewrite E2| |].
Qed.

Lemma wp_rstep_abort st (Q : bool -> recover conn -> Prop) s :
  rec_apply st (rview s).1 = None ->
  (forall s', rview s' = rview s -> counts s' = counts s -> Q false s') ->
  wp (rstep st) Q s.
Proof.
  intros Ha H. unfold rstep. apply wp_bind, wp_rconn. intros r s' E Hc. apply wp_ret.
  destruct (rec_step_abort _ _ _ _ E Ha) as (Hr & E1 & E2).
  rewrite (proj2 (Z.eqb_neq _ _) Hr). apply H; [|done]. unfold rview. by rewrite E1, E2.
Qed.

End calls.

(** Binds, and the tests of codes that are constants. *)

Ltac rec_go :=
  repeat (match goal with
  | |- wp (m_bind _ _) _ _ => apply wp_bind
  | |- wp (m_ret _) _ _ => apply wp_ret
  | |- wp (rbind _) _ _ =>
      let s := fresh "s" in let H := fresh "Hv" in let Hc := fresh "Hc" in
      apply wp_rbind; intros s H Hc
  | |- wp (if negb (?a =? ?b) then _ else _) _ _ =>
      change (negb (a =? b)) with false; cbv iota
  end; cbn [fst snd] in * ).

Section healthy.
Context {conn F : Type} `{!RecEngine conn, !RecLaws conn, !RecHealthy conn, !FileTree F}.
Implicit Types (s : recover conn) (t : tables).

Definition text_value (val : list ascii) : option string := Some (string_of_list_ascii (cut val)).

Lemma setxattr_text g name val t :
  setxattr_tables (text_attr g (name, val)) t =
  (t1 ← sql_insert_xname (Some name) t;
   sql_insert_xdata (Some g) (Some name) None None (text_value val) t1).
Proof. done. Qed.

Lemma insert_xname_gfid name t t' g :
  sql_insert_xname (Some name) t = Some t' -> find_gid t' g = find_gid t g.
Proof.
  cbn [sql_insert_xname]. case_decide; [by intros [= <-]|].
  destruct (next_rowid _); [|done]. by intros [= <-].
Qed.

Lemma insert_xdata_gfid g gid name v r sv t :
  find_gid t (Some g) = Some gid ->
  sql_insert_xdata (Some g) name v r sv t = sql_insert_xdata_gid (Some gid) name v r sv t.
Proof. intros Hg. unfold sql_insert_xdata. by rewrite Hg. Qed.

Lemma insert_xdata_keeps gid name v r sv t t' g :
  sql_insert_xdata_gid gid name v r sv t = Some t' -> find_gid t' g = find_gid t g.
Proof.
  unfold sql_insert_xdata_gid. destruct gid, (find_nid t _); try done. cbn [mbind option_bind].
  destruct (next_rowid _); [|done]. by intros [= <-].
Qed.

Lemma insert_xattrs_h g gid l s t' :
  find_gid (rview s).1 (Some g) = Some gid -> i32 gid = gid ->
  run_tables ((fun x => OpSetxattr (text_attr g x)) <$> l) (rview s).1 = Some t' ->
  wp (insert_xattrs gid l)
     (fun r s' => r = 0 /\ rview s' = (t', (rview s).2) /\ counts s' = counts s) s.
Proof.
  intros Hg Hi. revert s Hg. induction l as [|[name val] l IH]; intros s Hg Ht.
  - injection Ht as <-. cbn [insert_xattrs]. apply wp_ret. auto using surjective_pairing.
  - cbn [insert_xattrs]. cbn [fmap list_fmap run_tables xop_tables] in Ht.
    rewrite setxattr_text in Ht.
    destruct (sql_insert_xname (Some name) (rview s).1) as [t0|] eqn:E0; [|done].
    pose proof (insert_xname_gfid _ _ _ (Some g) E0) as Hg0. rewrite Hg in Hg0.
    cbn [mbind option_bind] in Ht. rewrite (insert_xdata_gfid _ _ _ _ _ _ _ Hg0) in Ht.
    destruct (sql_insert_xdata_gid _ _ _ _ _ t0) as [t1|] eqn:E1; [|done].
    cbn [mbind option_bind] in Ht.
    pose proof (insert_xdata_keeps _ _ _ _ _ _ _ (Some g) E1) as Hg1. rewrite Hg0 in Hg1.
    rec_go. eapply wp_rstep; [by rewrite Hv|]. rewrite Hv, Hc. intros s1 Hs1 Hc1 _.
    cbn [negb]. rec_go. rewrite Hi. eapply wp_rstep; [by rewrite Hv4, Hv3, Hv2, Hv1, Hv0, Hs1|].
    rewrite Hv4, Hv3, Hv2, Hv1, Hv0, Hs1, Hc5, Hc4, Hc3, Hc2, Hc0, Hc1. intros s7 Hs7 Hc7 _.
    cbn [negb]. eapply wp_mono; [apply IH; by rewrite Hs7|].
    rewrite Hs7, Hc7. cbn [snd]. by intros r s8 (-> & -> & ->).
Qed.

Lemma file_ops_tables a t t' :
  wf_tables t -> room t -> run_tables (file_ops a) t = Some t' ->
  let g := Some (fa_gfid a) in let p := Some (fa_file a) in
  exists t1 t2 t3 gid,
    sql_insert_gfid g t = Some t1 /\ find_gid t1 g = Some gid /\ 0 < gid < 2 ^ 31 /\
    sql_insert_file_gid (Some gid) p p (Some (name_pos (fa_file a))) t1 = Some t2 /\
    sql_insert_stat (stat_params gid (fa_stat a)) t2 = Some t3 /\ find_gid t3 g = Some gid /\
    run_tables ((fun x => OpSetxattr (text_attr (fa_gfid a) x)) <$> fa_xattrs a) t3 = Some t'.
Proof.
  intros Hwf Hroom. cbn [file_ops run_tables xop_tables file_of xf_path mbind option_bind].
  unfold new_file_tables. cbn [file_of xf_gfid].
  destruct (sql_insert_gfid _ t) as [t1|] eqn:E1; [|done]. cbn [mbind option_bind].
  pose proof (insert_gfid_effect _ _ _ Hwf Hroom E1) as (_ & (gid & Hg & _) & _ & _ & _ & _ & _ & _ & Hwf1).
  destruct (sql_insert_file _ _ _ _ t1) as [t2|] eqn:E2; [|done]. cbn [mbind option_bind].
  pose proof (insert_file_effect _ _ _ _ _ Hwf1 E2) as (_ & _ & _ & _ & Hg2 & _ & _ & Hwf2).
  rewrite Hg2, Hg. cbn [mbind option_bind].
  destruct (sql_insert_stat _ t2) as [t3|] eqn:E3; [|done]. cbn [mbind option_bind]. intros Ht'.
  rewrite <- (Hg2 (Some (fa_gfid a))) in Hg.
  pose proof (insert_stat_effect _ _ _ _ _ Hwf2 Hg E3) as (_ & _ & _ & _ & Hg3 & _).
  exists t1, t2, t3, gid. rewrite Hg3. rewrite Hg2 in Hg. split_and!; try done.
  - by apply (find_gid_small _ _ _ Hwf1 Hg).
  - by apply (find_gid_small _ _ _ Hwf1 Hg).
  - unfold sql_insert_file in E2. by rewrite Hg in E2.
  - by rewrite Hg2.
Qed.

Lemma rec_sattrs_h fid vs acc s :
  wp (bind_sattrs fid vs acc)
     (fun b s' => b = (0, acc ++ map (fun v => (Some (i64 fid), Some (i64 v))) vs) /\
                  rview s' = rview s /\ counts s' = counts s) s.
Proof.
  revert acc s. induction vs as [|v vs IH]; intros acc s; cbn [bind_sattrs].
  - apply wp_ret. by rewrite app_nil_r.
  - unfold bind_sattr. rec_go. eapply wp_mono; [apply IH|]. intros b s' (-> & -> & ->).
    rewrite Hv0, Hv, Hc0, Hc, <- app_assoc. done.
Qed.

Lemma bind_stat_h gid sb s :
  0 < gid < 2 ^ 31 ->
  wp (bind_stat gid sb)
     (fun b s' => b = (0, stat_params gid sb) /\ rview s' = rview s /\ counts s' = counts s) s.
Proof.
  intros Hg. eapply wp_mono; [apply rec_sattrs_h|]. intros b s' (-> & ? & ?). split; [|done].
  unfold stat_params. cbn [app]. rewrite map_map. f_equal. apply map_ext. intros v.
  rewrite swrap_uwrap by lia.
  by rewrite (swrap_small 32), (swrap_small 64) by (unfold in_s; lia).
Qed.

Lemma update_database_h a s t' :
  wf_tables (rview s).1 -> room (rview s).1 -> has_slash (fa_file a) = true ->
  run_tables (file_ops a) (rview s).1 = Some t' ->
  wp (update_database a)
     (fun r s' => r = 0 /\ rview s' = (t', (rview s).2) /\ gfid_num s' = gfid_num s /\
        total_files s' = u64 (total_files s + 1) /\
        total_xattrs s' = u64 (total_xattrs s + Z.of_nat (length (fa_xattrs a)))) s.
Proof.
  intros Hwf Hroom Hp Ht.
  destruct (file_ops_tables _ _ _ Hwf Hroom Ht) as (t1 & t2 & t3 & gid & E1 & Hg & Hi & E2 & E3 & Hg3 & E4).
  assert (i32 gid = gid) as H32 by (apply swrap_small; unfold in_s; lia).
  unfold update_database. rec_go. eapply wp_rstep; [by rewrite Hv|]. rewrite Hv, Hc.
  intros s1 Hs1 Hc1 Hid. cbn [negb]. specialize (Hid _ eq_refl). rewrite Hg in Hid. injection Hid as Hid.
  apply wp_bind. unfold last_rowid. apply wp_bind, wp_get, wp_ret.
  rewrite <- Hid, uwrap_small, H32 by (unfold in_u; lia). rec_go.
  eapply wp_deref; [by apply has_slash_pos|]. rec_go.
  eapply wp_rstep; [by rewrite Hv3, Hv2, Hv1, Hv0, Hs1|].
  rewrite Hv3, Hv2, Hv1, Hv0, Hs1, Hc4, Hc3, Hc2, Hc0, Hc1. intros s6 Hs6 Hc6 _. cbn [negb snd].
  apply wp_bind. eapply wp_mono; [by apply bind_stat_h|]. intros b s7 (-> & Hs7 & Hc7). rec_go.
  eapply wp_rstep; [by rewrite Hs7, Hs6|]. rewrite Hs7, Hs6, Hc7, Hc6. intros s8 Hs8 Hc8 _. cbn [negb snd].
  apply wp_bind. eapply wp_mono; [apply (insert_xattrs_h (fa_gfid a)); [by rewrite Hs8|done|by rewrite Hs8]|].
  rewrite Hs8, Hc8. cbn [snd]. intros r s9 (-> & Hs9 & Hc9). rec_go. apply wp_modify. rec_go.
  unfold counts in Hc9. injection Hc9 as <- <- <-. done.
Qed.

(** ** A log and the files it names *)

Variable files : F.

Record entry := { en_path : string; en_stat : stat; en_xattrs : list (string * list ascii) }.

Definition attrs_of (n : Z) (e : entry) : file_attributes :=
  {| fa_file := en_path e; fa_gfid := gfid_text n; fa_stat := en_stat e; fa_xattrs := en_xattrs e |}.

Record on_disk (e : entry) : Prop := {
  od_stat : ft_lstat files (en_path e) = Some (en_stat e);
  od_names : ft_llistxattr files (en_path e) = Some (en_xattrs e).*1;
  od_values : Forall (fun x => ft_lgetxattr files (en_path e) x.1 = Some x.2) (en_xattrs e);
  od_few : Z.of_nat (length (en_xattrs e)) <= MAX_N_XATTRS
}.

(** A line of the log: a comment, or a path. *)

Inductive item := Comment (text : list ascii) | Entry (e : entry).

Definition item_text (i : item) : list ascii :=
  match i with
  | Comment text => "#"%char :: text
  | Entry e => list_ascii_of_string (en_path e)
  end.

Record item_line (l : list ascii) : Prop := {
  il_newline : ~ newline ∈ l;
  il_nul : ~ "000"%char ∈ l;
  il_short : (length l < 510)%nat
}.

Definition item_ok (i : item) : Prop :=
  item_line (item_text i) /\
  match i with
  | Comment _ => True
  | Entry e => on_disk e /\ has_slash (en_path e) = true /\ head (item_text i) <> Some "#"%char
  end.

Definition log_text (items : list item) : list ascii :=
  concat ((fun i => item_text i ++ [newline]) <$> items).

Definition entries (items : list item) : list entry :=
  omap (fun i => match i with Entry e => Some e | _ => None end) items.

(** The entries that are recovered: the first [count], or all when it is 0. *)

Definition limited (count : Z) (es : list entry) : list entry :=
  if count =? 0 then es else take (Z.to_nat count) es.

Fixpoint recovered (n : Z) (es : list entry) : list xop :=
  match es with [] => [] | e :: es' => file_ops (attrs_of n e) ++ recovered (n + 1) es' end.

Definition n_xattrs (es : list entry) : Z :=
  foldr (fun e n => Z.of_nat (length (en_xattrs e)) + n) 0 es.

Lemma read_xattrs_h p xs i :
  Forall (fun x => ft_lgetxattr files p x.1 = Some x.2) xs ->
  i + Z.of_nat (length xs) <= MAX_N_XATTRS -> read_xattrs files p xs.*1 i = Some (Some xs).
Proof.
  intros Hx. revert i. induction Hx as [|[n v] xs Hv Hx IH]; intros i Hi; [done|].
  cbn [fmap list_fmap fst snd length read_xattrs] in *. rewrite (proj2 (Z.leb_gt _ _)) by lia.
  rewrite Hv, IH by lia. done.
Qed.

Lemma read_attributes_h e s Q :
  on_disk e ->
  (forall s', rview s' = rview s -> gfid_num s' = u64 (gfid_num s + 1) ->
     total_files s' = total_files s -> total_xattrs s' = total_xattrs s ->
     Q (0, Some (attrs_of (gfid_num s) e)) s') ->
  wp (read_attributes files (en_path e)) Q s.
Proof.
  intros [H1 H2 H3 H4] HQ. unfold read_attributes. apply wp_bind. unfold next_gfid, wp at 1.
  rewrite H1, H2. apply wp_bind. eapply wp_deref; [apply read_xattrs_h; [done|lia]|].
  apply wp_ret. by apply HQ.
Qed.

Lemma chop_line l : item_line l -> chop (l ++ [newline]) = Some l.
Proof.
  intros [Hn Hz _]. unfold chop.
  rewrite cut_plain by (rewrite elem_of_app, list_elem_of_singleton; by intros [?|?]).
  rewrite length_app. cbn [length]. rewrite (proj2 (Nat.eqb_neq _ _)) by lia.
  by rewrite Nat.add_sub, take_app_length.
Qed.

Lemma file_ops_ok n e :
  has_slash (en_path e) = true -> Forall (fun o => xop_ok o = true) (file_ops (attrs_of n e)).
Proof. intros Hp. constructor; [done|]. apply Forall_fmap, Forall_true. done. Qed.

(** One line of the log. *)

Lemma lines_comment fuel text rest count processed ret :
  item_ok (Comment text) ->
  recover_lines files (S fuel) (item_text (Comment text) ++ newline :: rest) count processed ret =
  recover_lines files fuel rest count processed ret.
Proof.
  intros [[Hn _ Hl] _]. pose proof (fgets_line 510 ("#"%char :: text) rest Hn Hl) as Hf.
  cbn [item_text app recover_lines] in Hf |- *. by rewrite Hf.
Qed.

Lemma lines_entry fuel e rest count processed ret s Q :
  item_ok (Entry e) ->
  (forall s', rview s' = rview s -> gfid_num s' = u64 (gfid_num s + 1) ->
     total_files s' = total_files s -> total_xattrs s' = total_xattrs s ->
     wp (r <~ update_database (attrs_of (gfid_num s) e);;
         if negb (r =? 0) then m_ret r
         else let processed := u64 (processed + 1) in
              if processed =? count then m_ret r
              else recover_lines files fuel rest count processed r) Q s') ->
  wp (recover_lines files (S fuel) (item_text (Entry e) ++ newline :: rest) count processed ret) Q s.
Proof.
  intros [Hl (Hd & Hs & Hh)] HQ. set (l := item_text (Entry e)) in *.
  pose proof (chop_line l Hl) as Hc. destruct Hl as [Hn Hz Hlen].
  pose proof (fgets_line 510 l rest Hn Hlen) as Hf.
  assert (exists c l', l = c :: l') as (c & l' & El).
  { destruct l as [|c l'] eqn:El; [|eauto]. unfold l, item_text in El. destruct (en_path e); done. }
  rewrite El in Hh. cbn [head] in Hh. rewrite El in Hf, Hc |- *. cbn [app] in Hf, Hc |- *.
  cbn [recover_lines]. rewrite Hf. cbn [app].
  rewrite (proj2 (Ascii.eqb_neq c "#")) by congruence.
  apply wp_bind. eapply wp_deref; [exact Hc|]. rewrite <- El. unfold l, item_text.
  rewrite string_of_list_ascii_of_string. apply wp_bind, read_attributes_h; [done|].
  intros s' H1 H2 H3 H4. cbn [negb Z.eqb]. by apply HQ.
Qed.

Lemma u64_add_add a b c : u64 (u64 (a + b) + c) = u64 (a + (b + c)).
Proof. unfold uwrap. rewrite Zplus_mod_idemp_l. f_equal. lia. Qed.

(** The state between two lines. *)

Record midway (s : recover conn) (ix : index) (k room : Z) : Prop := {
  mw_repr : repr (rview s).1 ix;
  mw_budget : budget k (rview s).1;
  mw_gfid : 0 <= gfid_num s /\ gfid_num s + room < 2 ^ 64;
  mw_files : in_u 64 (total_files s);
  mw_xattrs : in_u 64 (total_xattrs s)
}.

Definition left_over (count processed : Z) (es : list entry) : list entry :=
  if count =? 0 then es else take (Z.to_nat (count - processed)) es.

Lemma left_over_cons count processed e es :
  0 <= processed -> count = 0 \/ processed < count ->
  left_over count processed (e :: es) = e :: left_over count (processed + 1) es.
Proof.
  intros Hp Hc. unfold left_over. destruct (Z.eqb_spec count 0); [done|].
  replace (Z.to_nat (count - processed)) with (S (Z.to_nat (count - (processed + 1)))) by lia.
  done.
Qed.

Definition lines_post (s : recover conn) (ix' : index) (es : list entry) (r : Z)
    (s' : recover conn) : Prop :=
  r = 0 /\ repr (rview s').1 ix' /\ (rview s').2 = (rview s).2 /\
  total_files s' = u64 (total_files s + Z.of_nat (length es)) /\
  total_xattrs s' = u64 (total_xattrs s + n_xattrs es).

Lemma entry_h e fuel rest count processed ret s ix ix1 k n :
  item_ok (Entry e) -> midway s ix k (n + 1) -> 0 <= n ->
  let ops := file_ops (attrs_of (gfid_num s) e) in
  k + Z.of_nat (length ops) < 2 ^ 31 - 1 -> spec_run ops ix = Some ix1 ->
  forall Q,
  (forall s', midway s' ix1 (k + Z.of_nat (length ops)) n -> gfid_num s' = gfid_num s + 1 ->
     (rview s').2 = (rview s).2 -> total_files s' = u64 (total_files s + 1) ->
     total_xattrs s' = u64 (total_xattrs s + Z.of_nat (length (en_xattrs e))) ->
     wp (let processed := u64 (processed + 1) in
         if processed =? count then m_ret 0
         else recover_lines files fuel rest count processed 0) Q s') ->
  wp (recover_lines files (S fuel) (item_text (Entry e) ++ newline :: rest) count processed ret) Q s.
Proof.
  intros Hi [Hr Hb [Hg0 Hg] Hf Hx] Hn ops Hk Hs Q HQ. apply lines_entry; [done|].
  intros s1 E1 E2 E3 E4. apply wp_bind. destruct Hi as [_ (_ & Hp & _)].
  destruct (run_tables_repr ops (rview s).1 ix ix1 k) as (t' & Ht' & Hr' & Hb');
    [by apply file_ops_ok|done..|].
  rewrite uwrap_small in E2 by (unfold in_u; lia).
  eapply wp_mono; [apply update_database_h; rewrite ?E1;
    [apply Hr|eapply budget_room; [done|lia]|done|exact Ht']|].
  rewrite E1, E2, E3, E4. intros r s2 (-> & Hs2 & G1 & G2 & G3). cbn [negb Z.eqb].
  apply HQ; try done; [|by rewrite Hs2]. split; rewrite ?Hs2, ?G1, ?G2, ?G3; try done.
  - lia.
  - by apply uwrap_range.
  - by apply uwrap_range.
Qed.

Lemma recover_lines_h items fuel count processed s ix ix' k :
  let es := left_over count processed (entries items) in
  let ops := recovered (gfid_num s) es in
  Forall item_ok items -> (length (log_text items) <= fuel)%nat ->
  0 <= processed -> count = 0 \/ processed < count < 2 ^ 64 ->
  processed + Z.of_nat (length (entries items)) < 2 ^ 64 ->
  midway s ix k (Z.of_nat (length (entries items))) ->
  k + Z.of_nat (length ops) < 2 ^ 31 - 1 -> spec_run ops ix = Some ix' ->
  wp (recover_lines files fuel (log_text items) count processed 0) (lines_post s ix' es) s.
Proof.
  revert fuel processed s ix k. induction items as [|i items IH];
    intros fuel processed s ix k es ops Hok Hfuel Hp Hc Hlen Hm Hk Hs.
  - assert (es = []) as Ees by (unfold es, left_over; destruct (count =? 0); [done|apply take_nil]).
    unfold ops in Hs. rewrite Ees in Hs. injection Hs as <-. rewrite Ees.
    destruct fuel; cbn [recover_lines log_text fmap list_fmap concat]; apply wp_ret;
      destruct Hm as [Hr _ _ Hf Hx]; unfold lines_post; cbn [length n_xattrs foldr];
      by rewrite !Z.add_0_r, !uwrap_small.
  - apply Forall_cons in Hok as [Hi Hok].
    assert (log_text (i :: items) = item_text i ++ newline :: log_text items) as Elog
      by (unfold log_text; cbn [fmap list_fmap concat]; by rewrite <- app_assoc).
    rewrite Elog in Hfuel |- *. rewrite length_app in Hfuel. cbn [length] in Hfuel.
    destruct fuel as [|fuel]; [lia|]. destruct i as [text|e].
    { rewrite lines_comment by done. eapply IH; try done. lia. }
    change (entries (Entry e :: items)) with (e :: entries items) in *. cbn [length] in Hlen, Hm.
    assert (es = e :: left_over count (processed + 1) (entries items)) as Ees
      by (apply left_over_cons; lia).
    unfold ops in Hk, Hs. rewrite Ees in Hk, Hs |- *. cbn [recovered] in Hk, Hs.
    rewrite length_app in Hk. rewrite spec_run_app in Hs.
    destruct (spec_run (file_ops _) ix) as [ix1|] eqn:Es1; [|done]. cbn [mbind option_bind] in Hs.
    eapply (entry_h e _ _ _ _ _ _ _ _ k (Z.of_nat (length (entries items)))); try done;
      [by rewrite Nat2Z.inj_succ in Hm|lia|lia|].
    intros s1 Hm1 G1 G2 G3 G4. rewrite uwrap_small by (unfold in_u; lia). cbv zeta.
    destruct (Z.eqb_spec (processed + 1) count) as [Hcount|Hcount].
    + assert (left_over count (processed + 1) (entries items) = []) as El.
      { unfold left_over. rewrite (proj2 (Z.eqb_neq _ _)) by lia.
        replace (Z.to_nat _) with O by lia. done. }
      rewrite El in Hs |- *. injection Hs as <-. apply wp_ret. unfold lines_post.
      cbn [length n_xattrs foldr]. rewrite Z.add_0_r. split_and!; try done. apply Hm1.
    + eapply wp_mono; [eapply IH; try done; try lia; rewrite G1; [lia|done]|].
      intros r s' (-> & Hr' & Hs2 & Hf & Hx). unfold lines_post.
      rewrite Hf, Hx, G3, G4, Hs2, !u64_add_add. cbn [length n_xattrs foldr].
      rewrite Nat2Z.inj_succ. split_and!; try done; f_equal; lia.
Qed.

(** ** The whole run *)

Lemma exec_h sc (s : recover conn) Q :
  (rc_exec sc (rv_conn s)).1 = SQLITE_OK ->
  (forall s', rc_exec sc (rv_conn s) = (SQLITE_OK, rv_conn s') -> counts s' = counts s ->
     Q SQLITE_OK s') ->
  wp (exec_simple_sql sc) Q s.
Proof.
  intros Hr HQ. unfold exec_simple_sql. apply wp_bind, wp_rconn. intros r s' E Hc.
  rewrite E in Hr. cbn in Hr. subst r. apply wp_ret. by apply HQ.
Qed.

Lemma prepare_all_h n (s : recover conn) :
  wp (prepare_all n)
     (fun r s' => r = SQLITE_OK /\ rview s' = rview s /\ counts s' = counts s) s.
Proof.
  revert s. induction n as [|n IH]; intros s; cbn [prepare_all]; [by apply wp_ret|].
  apply wp_bind, wp_rconn. intros r s' E Hc. pose proof (rec_prepare_ok (rv_conn s)) as Hr.
  rewrite E in Hr. cbn in Hr. subst r. cbn [negb Z.eqb SQLITE_OK].
  eapply wp_mono; [apply IH|]. intros r s2 (-> & Hv & Hc2). split_and!; [done| |congruence].
  rewrite Hv. destruct (rec_prepare_cur _ _ _ E) as [E1 E2]. unfold rview. by rewrite E1, E2.
Qed.

Lemma db_connect_h (s : recover conn) :
  (rview s).2 = None ->
  wp db_connect
     (fun r s' => r = 0 /\ rview s' = ((rview s).1, Some (rview s).1) /\ counts s' = counts s) s.
Proof.
  intros Hs. unfold db_connect. apply wp_bind, wp_rconn. intros r s1 E Hc.
  pose proof (rec_open_ok (rv_conn s)) as Hr. rewrite E in Hr. cbn in Hr. subst r.
  destruct (rec_open_cur _ _ _ E) as [E1 E2]. cbn [negb Z.eqb SQLITE_OK].
  apply wp_bind, exec_h; [apply rec_pragmas_ok|]. intros s2 G Hc2.
  destruct (rec_pragmas _ _ _ G) as [G1 G2]. cbn [negb Z.eqb SQLITE_OK].
  apply wp_bind. eapply wp_mono; [apply prepare_all_h|]. intros r s3 (-> & Hv & Hc3).
  cbn [negb Z.eqb SQLITE_OK]. unfold rview in Hv, Hs |- *. cbn [fst snd] in *. injection Hv as V1 V2.
  apply wp_bind, exec_h; [apply rec_begin_ok; congruence|]. intros s4 B Hc4.
  destruct (rec_begin _ _ B) as (_ & B1 & B2). cbn [negb Z.eqb SQLITE_OK]. apply wp_ret.
  split_and!; [done| |congruence]. by rewrite B2, B1, V1, G1, E1.
Qed.

Lemma db_disconnect_h (s : recover conn) :
  is_Some (rview s).2 ->
  wp db_disconnect
     (fun _ s' => rview s' = ((rview s).1, None) /\ counts s' = counts s) s.
Proof.
  intros Hs. unfold db_disconnect. apply wp_bind, exec_h; [by apply rec_end_ok|].
  intros s1 E Hc. destruct (rec_end _ _ E) as (E1 & _ & E2). apply wp_ret. split; [|done].
  unfold rview. by rewrite E1, E2.
Qed.

End healthy.

(** The operations are accepted when the paths and the numbered gfids are new. *)

Lemma spec_xattrs g l ix :
  g ∈ ix_gfids ix ->
  exists ix', spec_run ((fun x => OpSetxattr (text_attr g x)) <$> l) ix = Some ix' /\
    ix_gfids ix' = ix_gfids ix /\ ix_files ix' = ix_files ix.
Proof.
  revert ix. induction l as [|[n v] l IH]; intros ix Hg; [by exists ix|].
  cbn [fmap list_fmap spec_run spec_xop text_attr xa_gfid xa_name fst mbind option_bind].
  unfold spec_setxattr. rewrite bool_decide_true by done. cbn [xa_type text_attr mbind option_bind].
  change (valid_type IMS_XDB_TYPE_STRING) with true. cbn [andb].
  destruct (IH (with_attrs ix (<[(g, n) := attr_values (text_attr g (n, v))]> (ix_attrs ix))))
    as (ix' & E & H); [done|]. by exists ix'.
Qed.

Lemma recovered_accepted n es ix :
  0 <= n -> n + Z.of_nat (length es) <= 2 ^ 64 -> NoDup (en_path <$> es) ->
  Forall (fun e => ix_files ix !! en_path e = None) es ->
  (forall i, n <= i < n + Z.of_nat (length es) -> ~ gfid_text i ∈ ix_gfids ix) ->
  is_Some (spec_run (recovered n es) ix).
Proof.
  revert n ix. induction es as [|e es IH]; intros n ix Hn Hlen Hnd Hp Hg; [by eexists|].
  apply Forall_cons in Hp as [Hp0 Hp]. apply NoDup_cons in Hnd as [Hni Hnd].
  cbn [length] in Hlen, Hg. cbn [recovered]. rewrite spec_run_app.
  cbn [file_ops attrs_of spec_run spec_xop file_of xf_gfid xf_path fa_gfid fa_file fa_xattrs fa_stat
       mbind option_bind].
  unfold spec_new_file. rewrite decide_False by (apply Hg; lia). rewrite Hp0. cbn [mbind option_bind].
  match goal with |- context [spec_run _ ?x] => destruct (spec_xattrs (gfid_text n) (en_xattrs e) x)
    as (ix1 & -> & Hg1 & Hf1); [apply elem_of_union_l, elem_of_singleton; reflexivity|] end.
  cbn [mbind option_bind ix_gfids ix_files] in *. apply IH; [lia|lia|exact Hnd|..].
  - rewrite Hf1. rewrite Forall_forall in Hp |- *. intros e' He'.
    rewrite lookup_insert_ne; [by apply Hp|]. intros E. apply Hni. rewrite E.
    by apply list_elem_of_fmap_2.
  - rewrite Hg1. intros i Hi. rewrite elem_of_union, elem_of_singleton. intros [E|E].
    + apply gfid_text_inj in E; lia.
    + apply (Hg i); [lia|done].
Qed.

Lemma length_recovered n es :
  Z.of_nat (length (recovered n es)) = Z.of_nat (length es) + n_xattrs es.
Proof.
  revert n. induction es as [|e es IH]; intros n; [done|]. cbn [recovered n_xattrs foldr length].
  rewrite length_app, Nat2Z.inj_add, IH. cbn [file_ops attrs_of fa_xattrs length].
  rewrite length_fmap. fold (n_xattrs es). lia.
Qed.

Lemma n_xattrs_pos es : 0 <= n_xattrs es.
Proof. induction es as [|e es IH]; cbn [n_xattrs foldr]; [done|]. fold (n_xattrs es). lia. Qed.

Lemma limited_sublist count es : sublist (limited count es) es.
Proof. unfold limited. destruct (count =? 0); [done|]. apply sublist_take. Qed.

(** The process as it starts. *)

Definition started {conn} (c : conn) : recover conn :=
  {| rv_conn := c; gfid_num := 0; total_files := 0; total_xattrs := 0 |}.

(** C12. Recovery rebuilds the index. On a database whose tables represent an
    index, and an engine where only broken constraints fail, the tool reads any
    log of comments and absolute paths of files on the disk whose paths are not
    indexed yet, ends with code 0, and commits tables that represent the index
    after the translator's own operations: every file inserted with its stat(2)
    attributes under a gfid that the tool numbers itself (not the one that the
    file has), then all its extended attributes set as strings. The numbered gfids
    are not in use, every line is shorter than 510 bytes and ends with a newline,
    and a file has at most 128 attributes. The two totals are the numbers of files and attributes. *)
Theorem recovery_rebuilds_index {conn F} `{!RecEngine conn, !RecLaws conn, !RecHealthy conn,
    !FileTree F} (files : F) (c : conn) (items : list item) (errno count : Z) (ix : index) (k : Z) :
  let es := limited count (entries items) in
  rc_saved c = None -> repr (rc_cur c) ix -> budget k (rc_cur c) ->
  k + Z.of_nat (length (recovered 0 es)) < 2 ^ 31 - 1 ->
  Forall (item_ok files) items -> Z.of_nat (length (entries items)) < 2 ^ 64 ->
  0 <= count < 2 ^ 64 -> NoDup (en_path <$> es) ->
  Forall (fun e => ix_files ix !! en_path e = None) es ->
  (forall i, 0 <= i < Z.of_nat (length es) -> ~ gfid_text i ∈ ix_gfids ix) ->
  exists ix' s',
    ixrecover files (Some (log_text items)) errno count (started c) = Some (0, s') /\
    spec_run (recovered 0 es) ix = Some ix' /\
    repr (rc_cur (rv_conn s')) ix' /\ rc_saved (rv_conn s') = None /\
    total_files s' = Z.of_nat (length es) /\ total_xattrs s' = n_xattrs es.
Proof.
  intros es Hs Hr Hb Hk Hok Hlen Hc Hnd Hp Hg.
  assert (length es <= length (entries items))%nat as Hes by apply sublist_length, limited_sublist.
  destruct (recovered_accepted 0 es ix) as [ix' Hix']; [lia|lia|done..|].
  exists ix'.
  assert (wp (ixrecover files (Some (log_text items)) errno count)
    (fun r s' => r = 0 /\ repr (rview s').1 ix' /\ (rview s').2 = None /\
       total_files s' = u64 (Z.of_nat (length es)) /\ total_xattrs s' = u64 (n_xattrs es))
    (started c)) as Hwp.
  { unfold ixrecover. apply wp_bind. eapply wp_mono; [by apply db_connect_h|].
    intros r s1 (-> & Hv1 & Hc1). cbn [negb Z.eqb]. unfold counts in Hc1. injection Hc1 as G1 G2 G3.
    apply wp_bind. eapply wp_mono.
    { apply (recover_lines_h files items _ count 0 s1 ix ix' k); try done; try lia.
      - split; rewrite ?Hv1, ?G1, ?G2, ?G3; done.
      - rewrite G1. unfold left_over. by rewrite Z.sub_0_r.
      - rewrite G1. unfold left_over. by rewrite Z.sub_0_r. }
    intros r s2 (-> & Hr2 & Hs2 & Hf2 & Hx2). apply wp_bind.
    eapply wp_mono; [apply db_disconnect_h; rewrite Hs2, Hv1; by eexists|].
    intros _ s3 (Hv3 & Hc3). apply wp_ret. rewrite Hv3. unfold counts in Hc3. injection Hc3 as _ F2 F3.
    rewrite F2, F3, Hf2, Hx2, G2, G3. unfold left_over. by rewrite Z.sub_0_r. }
  apply wp_Some in Hwp as (r & s' & -> & -> & Hr' & Hs' & Hf & Hx). exists s'.
  rewrite length_recovered in Hk. pose proof (n_xattrs_pos es). pose proof (b_pos _ _ Hb).
  rewrite uwrap_small in Hf, Hx by (unfold in_u; lia). done.
Qed.

(** ** Runs that fail on their first file *)

Section failing.
Context {conn F : Type} `{!RecEngine conn, !RecLaws conn, !RecHealthy conn, !FileTree F}.
Variable files : F.
Implicit Types (s : recover conn) (t : tables).

Lemma first_file_fails c e items errno count t' :
  rc_saved c = None -> item_ok files (Entry e) ->
  (forall s, rview s = (rc_cur c, Some (rc_cur c)) ->
     wp (update_database (attrs_of 0 e))
        (fun r s' => r = - EIO /\ rview s' = (t', Some (rc_cur c)) /\ total_files s' = total_files s) s) ->
  exists s', ixrecover files (Some (log_text (Entry e :: items))) errno count (started c) =
               Some (- EIO, s') /\
    rc_cur (rv_conn s') = t' /\ rc_saved (rv_conn s') = None /\ total_files s' = 0.
Proof.
  intros Hs Hi Hup.
  assert (wp (ixrecover files (Some (log_text (Entry e :: items))) errno count)
    (fun r s' => r = - EIO /\ rview s' = (t', None) /\ total_files s' = 0) (started c)) as Hwp.
  { unfold ixrecover. apply wp_bind. eapply wp_mono; [by apply db_connect_h|].
    intros r s1 (-> & Hv1 & Hc1). cbn [negb Z.eqb]. unfold counts in Hc1. injection Hc1 as G1 G2 _.
    assert (log_text (Entry e :: items) = item_text (Entry e) ++ newline :: log_text items) as Elog
      by (unfold log_text; cbn [fmap list_fmap concat]; by rewrite <- app_assoc).
    apply wp_bind. unfold do_recovery. rewrite Elog, length_app. cbn [length].
    rewrite Nat.add_succ_r. apply lines_entry; [done|]. intros s2 E1 _ E2 _.
    rewrite G1. cbn [gfid_num started]. apply wp_bind.
    eapply wp_mono; [by apply Hup; rewrite E1, Hv1|]. intros r s3 (-> & Hv3 & Hf3).
    change (negb (- EIO =? 0)) with true. cbv iota. apply wp_ret, wp_bind.
    eapply wp_mono; [apply db_disconnect_h; rewrite Hv3; by eexists|].
    intros _ s4 (Hv4 & Hc4). apply wp_ret. rewrite Hv4, Hv3. injection Hc4 as _ -> _.
    by rewrite Hf3, E2, G2. }
  apply wp_Some in Hwp as (r & s' & -> & -> & Hv & Hf). exists s'.
  unfold rview in Hv. injection Hv as -> ->. done.
Qed.

Lemma taken_gfid_h a s t t0 :
  rview s = (t, Some t0) -> fa_gfid a ∈ (g_gfid <$> xgfid t) ->
  wp (update_database a)
     (fun r s' => r = - EIO /\ rview s' = (t, Some t0) /\ total_files s' = total_files s) s.
Proof.
  intros Hv Hg. unfold update_database. apply wp_bind, wp_rbind. intros s1 Hv1 Hc1.
  cbn [fst snd]. change (negb (SQLITE_OK =? SQLITE_OK)) with false. cbv iota.
  apply wp_bind, wp_rstep_abort.
  { rewrite Hv1, Hv. cbn [rec_apply sql_insert_gfid fst mbind option_bind]. by rewrite decide_True. }
  intros s2 Hv2 Hc2. cbn [negb]. apply wp_ret. rewrite Hv2, Hv1. injection Hc2 as _ -> _.
  by injection Hc1 as _ -> _.
Qed.

Lemma insert_gfid_defined g t :
  room t -> ~ is_Some (find_gid t (Some g)) -> is_Some (sql_insert_gfid (Some g) t).
Proof.
  intros Hroom Hg. unfold sql_insert_gfid. cbn [mbind option_bind].
  rewrite decide_False by (apply find_gid_None; by apply eq_None_not_Some).
  destruct (next_rowid_Some (g_gid <$> xgfid t)) as [i ->]; [pose proof (room_gid _ Hroom); lia|].
  by eexists.
Qed.

Lemma insert_gfid_files g t t' : sql_insert_gfid g t = Some t' -> xfile t' = xfile t.
Proof.
  unfold sql_insert_gfid. destruct g; [|done]. cbn [mbind option_bind]. case_decide; [done|].
  destruct (next_rowid _); [|done]. by intros [= <-].
Qed.

Lemma taken_path_h a s t1 t t0 :
  rview s = (t, Some t0) -> sql_insert_gfid (Some (fa_gfid a)) t = Some t1 ->
  has_slash (fa_file a) = true -> fa_file a ∈ (f_path <$> xfile t1) ->
  wp (update_database a)
     (fun r s' => r = - EIO /\ rview s' = (t1, Some t0) /\ total_files s' = total_files s) s.
Proof.
  intros Hv E1 Hp Hin. unfold update_database. rec_go.
  eapply wp_rstep; [by rewrite Hv0, Hv|]. rewrite Hv0, Hc, Hv. intros s1 Hs1 Hc1 _.
  cbn [negb snd]. apply wp_bind. unfold last_rowid. apply wp_bind, wp_get, wp_ret. rec_go.
  eapply wp_deref; [by apply has_slash_pos|]. rec_go. apply wp_rstep_abort.
  { rewrite Hv4, Hv3, Hv2, Hv1, Hs1. cbn [rec_apply sql_insert_file_gid fst mbind option_bind].
    by rewrite decide_True. }
  intros s6 Hs6 Hc6. cbn [negb]. apply wp_ret. rewrite Hs6, Hv4, Hv3, Hv2, Hv1, Hs1. split_and!; [done..|].
  rewrite Hc4, Hc3, Hc2, Hc0, Hc1 in Hc6. unfold counts in Hc6. by injection Hc6 as _ ? _.
Qed.

End failing.

Lemma repr_orphan g t t' ix :
  repr t ix -> room t -> sql_insert_gfid (Some g) t = Some t' ->
  repr t' {| ix_gfids := {[g]} ∪ ix_gfids ix; ix_files := ix_files ix; ix_attrs := ix_attrs ix |}.
Proof.
  intros [Hwf Hn Hg Hf Ha Hfr] Hroom E.
  apply insert_gfid_effect in E as (_ & _ & Hi & Hat & Hs & _ & Hxn & _ & Hwf'); [|done..].
  assert (forall n, find_nid t' n = find_nid t n) as Hnid by (intros; by apply find_nid_xname).
  split; cbn [ix_gfids ix_files ix_attrs]; [done|..].
  - intros j name Hj. rewrite Hnid. by apply Hn.
  - intros g'. rewrite Hs, elem_of_union, elem_of_singleton, Hg. done.
  - intros p. by rewrite Hi.
  - intros g' name. rewrite <- Ha. unfold attr_named. rewrite Hnid.
    destruct (find_nid t _) as [n|]; [apply Hat|done].
  - intros g' n. rewrite Hxn, Hat. by apply Hfr.
Qed.

(** The tool commits what a failed file left behind. When the first path of the
    log is indexed already, the tool answers -EIO, and the made-up gfid of the
    file stays in the committed tables: a gfid without a name. *)
Theorem recovery_orphan {conn F} `{!RecEngine conn, !RecLaws conn, !RecHealthy conn,
    !FileTree F} (files : F) (c : conn) (e : entry) (items : list item) (errno count : Z)
    (ix : index) (g : string) :
  rc_saved c = None -> repr (rc_cur c) ix -> room (rc_cur c) -> item_ok files (Entry e) ->
  ix_files ix !! en_path e = Some g -> ~ gfid_text 0 ∈ ix_gfids ix ->
  exists s',
    ixrecover files (Some (log_text (Entry e :: items))) errno count (started c) =
      Some (- EIO, s') /\
    repr (rc_cur (rv_conn s'))
      {| ix_gfids := {[gfid_text 0]} ∪ ix_gfids ix; ix_files := ix_files ix;
         ix_attrs := ix_attrs ix |} /\
    rc_saved (rv_conn s') = None /\ total_files s' = 0.
Proof.
  intros Hs Hr Hroom Hi Hp Hg.
  destruct (insert_gfid_defined (gfid_text 0) (rc_cur c)) as [t1 E1]; [done|by rewrite <- (r_gfids _ _ Hr)|].
  destruct (first_file_fails files c e items errno count t1) as (s' & E & <- & H); [done..| |].
  - intros s Hv. apply (taken_path_h _ _ t1 (rc_cur c)); [done|done|apply Hi|].
    rewrite (insert_gfid_files _ _ _ E1). apply dec_stable. intros Hn%file_row_None.
    rewrite <- (r_files _ _ Hr) in Hp. unfold idx in Hp. cbn [attrs_of fa_file] in Hn.
    by rewrite Hn in Hp.
  - exists s'. split; [done|]. split; [|done]. by eapply repr_orphan.
Qed.

(** A second run cannot add files: when the index holds the gfid that the tool
    makes up first, as it does after a run, the tool answers -EIO and leaves the
    tables as they were. *)
Theorem recovery_collides {conn F} `{!RecEngine conn, !RecLaws conn, !RecHealthy conn,
    !FileTree F} (files : F) (c : conn) (e : entry) (items : list item) (errno count : Z)
    (ix : index) :
  rc_saved c = None -> repr (rc_cur c) ix -> item_ok files (Entry e) ->
  gfid_text 0 ∈ ix_gfids ix ->
  exists s',
    ixrecover files (Some (log_text (Entry e :: items))) errno count (started c) =
      Some (- EIO, s') /\
    rc_cur (rv_conn s') = rc_cur c /\ rc_saved (rv_conn s') = None /\ total_files s' = 0.
Proof.
  intros Hs Hr Hi Hg. apply first_file_fails; [done..|].
  intros s Hv. apply taken_gfid_h; [done|].
  apply (r_gfids _ _ Hr) in Hg as [gid Hgid]. by apply find_gid_elem in Hgid as [_ ?].
Qed.

(** ** A concrete engine and a concrete disk *)

Module Disk.

Record dconn := { d_cur : tables; d_saved : option tables; d_rowid : Z }.

Definition d_step (s : rec_stmt) (c : dconn) : Z * dconn :=
  match rec_apply s (d_cur c) with
  | Some t => (SQLITE_DONE,
      {| d_cur := t; d_saved := d_saved c;
         d_rowid := match s with RInsertGfid g => default 0 (find_gid t g) | _ => d_rowid c end |})
  | None => (Scripted.SQLITE_CONSTRAINT, c)
  end.

Definition d_exec (s : rec_script) (c : dconn) : Z * dconn :=
  match s, d_saved c with
  | REC_PRAGMAS, _ => (SQLITE_OK, c)
  | REC_BEGIN, None =>
      (SQLITE_OK, {| d_cur := d_cur c; d_saved := Some (d_cur c); d_rowid := d_rowid c |})
  | REC_END, Some _ =>
      (SQLITE_OK, {| d_cur := d_cur c; d_saved := None; d_rowid := d_rowid c |})
  | _, _ => (Scripted.SQLITE_ERROR, c)
  end.

#[global] Instance dconn_engine : RecEngine dconn := {|
  rc_cur := d_cur; rc_saved := d_saved;
  rc_open := fun c => (SQLITE_OK, c); rc_exec := d_exec;
  rc_prepare := fun c => (SQLITE_OK, c); rc_bind := fun c => (SQLITE_OK, c);
  rc_step := d_step; sqlite3_last_insert_rowid := d_rowid
|}.

Ltac d_codes :=
  intros; cbn in *; unfold d_step, d_exec in *; repeat case_match; simplify_eq; cbn in *; eauto.

#[global] Instance dconn_laws : RecLaws dconn.
Proof.
  split; try by d_codes.
  intros s c c' E. cbn in *. unfold d_step in E. destruct (rec_apply s (d_cur c)) as [t|] eqn:Ea; [|done].
  simplify_eq. cbn. split_and!; [done..|]. intros g ->. change (sql_insert_gfid (Some g) (d_cur c) = Some t) in Ea.
  change (find_gid t (Some g) = Some (default 0 (find_gid t (Some g)))).
  apply insert_gfid_lookups in Ea as (i & _ & _ & Hf & _). by rewrite Hf, decide_True.
Qed.

#[global] Instance dconn_healthy : RecHealthy dconn.
Proof.
  split; by d_codes.
Qed.

(** The disk as a list of its files. *)

Definition find_entry (l : list entry) (p : string) : option entry :=
  head (filter (fun e => en_path e = p) l).

#[global] Instance list_tree : FileTree (list entry) := {|
  ft_lstat l p := en_stat <$> find_entry l p;
  ft_llistxattr l p := (fun e => (en_xattrs e).*1) <$> find_entry l p;
  ft_lgetxattr l p n := e ← find_entry l p; x ← head (filter (fun x => x.1 = n) (en_xattrs e)); Some x.2
|}.

Definition a_file : entry :=
  {| en_path := "/run/1.dat"; en_stat := sample_stat;
     en_xattrs := [("user.run"%string, list_ascii_of_string "7");
                   ("user.kind"%string, list_ascii_of_string "raw")] |}.

Definition b_file : entry :=
  {| en_path := "/run/2.dat"; en_stat := sample_stat; en_xattrs := [] |}.

Definition disk : list entry := [a_file; b_file].

Definition items : list item :=
  [Comment (list_ascii_of_string " files of a brick"); Entry a_file; Entry b_file].

Definition conn_of (t : tables) : dconn := {| d_cur := t; d_saved := None; d_rowid := 0 |}.

Ltac item_check :=
  repeat split; try exact I; try (apply (bool_decide_eq_true_1 (~ _)); vm_compute; reflexivity);
  try (apply (bool_decide_eq_true_1 _); vm_compute; reflexivity); try discriminate;
  try (cbn; lia).

Lemma items_ok : Forall (item_ok disk) items.
Proof. repeat (apply Forall_cons; split); [item_check..|constructor]. Qed.

(** The tables and the index once one file is there. *)

Definition indexed (g : string) : list xop := [OpInsertNewFile (file_of g "/run/1.dat") sample_stat].

Definition tables_with (g : string) : tables := default schema_tables (run_tables (indexed g) schema_tables).

Definition index_with (g : string) : index := default empty_index (spec_run (indexed g) empty_index).

Lemma indexed_repr g :
  repr (tables_with g) (index_with g) /\ room (tables_with g).
Proof.
  assert (is_Some (spec_run (indexed g) empty_index)) as [ix Hix].
  { cbn [indexed spec_run spec_xop file_of xf_gfid xf_path mbind option_bind].
    unfold spec_new_file. rewrite decide_False by set_solver. cbn [ix_files empty_index].
    rewrite lookup_empty. by eexists. }
  destruct (run_tables_repr (indexed g) schema_tables empty_index ix 0)
    as (t & Ht & Hr & Hb); [by repeat constructor|apply repr_schema|apply budget_schema|done|done|].
  unfold tables_with, index_with. rewrite Ht, Hix. split; [done|]. by eapply budget_room.
Qed.

Lemma indexed_gfids g : ix_gfids (index_with g) = {[g]} ∪ ∅.
Proof. done. Qed.

End Disk.

Lemma recovery_rebuilds_index_witness :
  exists ix' s',
    ixrecover Disk.disk (Some (log_text Disk.items)) 0 0 (started (Disk.conn_of schema_tables)) =
      Some (0, s') /\
    spec_run (recovered 0 [Disk.a_file; Disk.b_file]) empty_index = Some ix' /\
    repr (rc_cur (rv_conn s')) ix' /\ rc_saved (rv_conn s') = None /\
    total_files s' = 2 /\ total_xattrs s' = 2.
Proof.
  apply (recovery_rebuilds_index Disk.disk (Disk.conn_of schema_tables) Disk.items 0 0 empty_index 0).
  - done.
  - apply repr_schema.
  - apply budget_schema.
  - vm_compute. reflexivity.
  - apply Disk.items_ok.
  - vm_compute. reflexivity.
  - lia.
  - apply (bool_decide_eq_true_1 _). vm_compute. reflexivity.
  - repeat (apply Forall_cons; split); [reflexivity..|constructor].
  - intros i _. cbn [ix_gfids empty_index]. apply not_elem_of_empty.
Defined.

Lemma recovery_orphan_witness :
  exists s',
    ixrecover Disk.disk (Some (log_text [Entry Disk.a_file; Entry Disk.b_file])) 0 0
      (started (Disk.conn_of (Disk.tables_with "x"))) = Some (- EIO, s') /\
    repr (rc_cur (rv_conn s'))
      {| ix_gfids := {[gfid_text 0]} ∪ ix_gfids (Disk.index_with "x");
         ix_files := ix_files (Disk.index_with "x");
         ix_attrs := ix_attrs (Disk.index_with "x") |} /\
    rc_saved (rv_conn s') = None /\ total_files s' = 0.
Proof.
  apply (recovery_orphan Disk.disk (Disk.conn_of (Disk.tables_with "x")) Disk.a_file
           [Entry Disk.b_file] 0 0 (Disk.index_with "x") "x").
  - done.
  - apply Disk.indexed_repr.
  - apply Disk.indexed_repr.
  - pose proof Disk.items_ok as H. do 2 apply Forall_cons in H as [? H]. done.
  - reflexivity.
  - rewrite Disk.indexed_gfids. apply (bool_decide_eq_true_1 (~ _)). vm_compute. reflexivity.
Defined.

Lemma recovery_collides_witness :
  exists s',
    ixrecover Disk.disk (Some (log_text [Entry Disk.b_file])) 0 0
      (started (Disk.conn_of (Disk.tables_with (gfid_text 0)))) = Some (- EIO, s') /\
    rc_cur (rv_conn s') = rc_cur (Disk.conn_of (Disk.tables_with (gfid_text 0))) /\
    rc_saved (rv_conn s') = None /\ total_files s' = 0.
Proof.
  apply (recovery_collides Disk.disk (Disk.conn_of (Disk.tables_with (gfid_text 0))) Disk.b_file
           [] 0 0 (Disk.index_with (gfid_text 0))).
  - done.
  - apply Disk.indexed_repr.
  - pose proof Disk.items_ok as H. do 3 apply Forall_cons in H as [? H]. done.
  - rewrite Disk.indexed_gfids. apply elem_of_union_l, elem_of_singleton. reflexivity.
Defined.
