(* ===== verification/WriteBehind.v ===== *)
(** * Write-behind

    xlators/performance/write-behind/src/write-behind.c: writes are answered
    before they reach the server, held back, joined with their neighbours and
    written later; requests that depend on them wait. This file models one
    inode: its queues, all critical sections, the callbacks, and the machine in
    which any number of threads run them between calls of clients and replies
    of the server.

    A request is a structure with a count of references, and is freed at zero;
    an access to a freed one is undefined. The lists of the code are lists of
    the numbers of requests. The byte counts [window_current] and [transit] and
    the generation are taken as unbounded: they stay far below 2^63. *)

From Stdlib Require Import ZArith Lia Bool Ascii String.
From stdpp Require Import base list strings gmap.
From S2P Require Import Prelude.

Definition MAX_VECTOR_COUNT : Z := 8.

Definition EINVAL : Z := 22.
Definition EIO : Z := 5.

Definition O_RDWR : Z := 2.
Definition O_APPEND : Z := 1024.
Definition O_DSYNC : Z := 4096.
Definition O_DIRECT : Z := 16384.
Definition O_SYNC : Z := 1052672.

Record wb_conf := {
  aggregate_size : Z; window_size : Z; flush_behind : bool; trickling_writes : bool;
  strict_write_ordering : bool; strict_O_DIRECT : bool; page_size : Z
}.

(** ** Requests *)

Inductive fop_t :=
| GF_FOP_WRITE | GF_FOP_READ | GF_FOP_TRUNCATE | GF_FOP_FTRUNCATE
| GF_FOP_FLUSH | GF_FOP_FSYNC | GF_FOP_STAT | GF_FOP_FSTAT | GF_FOP_SETATTR | GF_FOP_FSETATTR
| GF_FOP_LOOKUP | GF_FOP_OPEN.

#[export] Instance fop_eq_dec : EqDecision fop_t.
Proof. solve_decision. Defined.

Record fd_t := { fd_id : nat; fd_flags : Z }.

(** What a call carries; [st_frame] numbers the frame of the client. *)

Record call_stub := {
  st_fop : fop_t; st_frame : nat; st_fd : option fd_t; st_offset : Z; st_size : Z;
  st_vector : list (list ascii); st_owner : Z
}.

Definition iov_length (v : list (list ascii)) : Z := Z.of_nat (length (concat v)).

Record ordering := {
  o_size : Z; o_off : Z; o_append : bool; o_tempted : bool; o_lied : bool; o_fulfilled : bool;
  o_go : bool
}.

(** [rq_buf] is the buffer that joined writes are collected in. [rq_parts] is not
    in the code: the frames of the writes whose data the request carries. *)

Record wb_request := {
  rq_stub : call_stub; rq_buf : option (list ascii); write_size : Z; orig_size : Z;
  total_size : Z; op_ret : Z; op_errno : Z; refcount : Z; rq_gen : Z; rq_ord : ordering;
  rq_parts : list nat
}.

(** Only these requests keep their file descriptor. *)

Definition rq_fd (r : wb_request) : option nat :=
  match st_fop (rq_stub r) with
  | GF_FOP_WRITE | GF_FOP_READ | GF_FOP_FTRUNCATE => fd_id <$> st_fd (rq_stub r)
  | _ => None
  end.

Definition is_write (r : wb_request) : bool := bool_decide (st_fop (rq_stub r) = GF_FOP_WRITE).
Definition tempted (r : wb_request) : bool := o_tempted (rq_ord r).
Definition lied (r : wb_request) : bool := o_lied (rq_ord r).
Definition fulfilled (r : wb_request) : bool := o_fulfilled (rq_ord r).

Definition set_ref (n : Z) (r : wb_request) : wb_request :=
  {| rq_stub := rq_stub r; rq_buf := rq_buf r; write_size := write_size r;
     orig_size := orig_size r; total_size := total_size r; op_ret := op_ret r;
     op_errno := op_errno r; refcount := n; rq_gen := rq_gen r; rq_ord := rq_ord r;
     rq_parts := rq_parts r |}.

Definition set_ord (o : ordering) (r : wb_request) : wb_request :=
  {| rq_stub := rq_stub r; rq_buf := rq_buf r; write_size := write_size r;
     orig_size := orig_size r; total_size := total_size r; op_ret := op_ret r;
     op_errno := op_errno r; refcount := refcount r; rq_gen := rq_gen r; rq_ord := o;
     rq_parts := rq_parts r |}.

Definition set_total (n : Z) (r : wb_request) : wb_request :=
  {| rq_stub := rq_stub r; rq_buf := rq_buf r; write_size := write_size r;
     orig_size := orig_size r; total_size := n; op_ret := op_ret r; op_errno := op_errno r;
     refcount := refcount r; rq_gen := rq_gen r; rq_ord := rq_ord r; rq_parts := rq_parts r |}.

Definition set_result (ret err : Z) (r : wb_request) : wb_request :=
  {| rq_stub := rq_stub r; rq_buf := rq_buf r; write_size := write_size r;
     orig_size := orig_size r; total_size := total_size r; op_ret := ret; op_errno := err;
     refcount := refcount r; rq_gen := rq_gen r; rq_ord := rq_ord r; rq_parts := rq_parts r |}.

Definition set_go (r : wb_request) : wb_request :=
  let o := rq_ord r in
  set_ord {| o_size := o_size o; o_off := o_off o; o_append := o_append o; o_tempted := o_tempted o;
             o_lied := o_lied o; o_fulfilled := o_fulfilled o; o_go := true |} r.

Definition set_lied (r : wb_request) : wb_request :=
  let o := rq_ord r in
  set_ord {| o_size := o_size o; o_off := o_off o; o_append := o_append o; o_tempted := o_tempted o;
             o_lied := true; o_fulfilled := o_fulfilled o; o_go := o_go o |} r.

Definition set_fulfilled (r : wb_request) : wb_request :=
  let o := rq_ord r in
  set_ord {| o_size := o_size o; o_off := o_off o; o_append := o_append o; o_tempted := o_tempted o;
             o_lied := o_lied o; o_fulfilled := true; o_go := o_go o |} r.

(** ** The inode *)

Record wb_inode := {
  window_conf : Z; window_current : Z; transit : Z;
  all : list nat; todo : list nat; liability : list nat; temptation : list nat; wip : list nat;
  gen : Z; wb_size : Z; reqs : gmap nat wb_request; next_req : nat
}.

Definition set_reqs (m : gmap nat wb_request) (w : wb_inode) : wb_inode :=
  {| window_conf := window_conf w; window_current := window_current w; transit := transit w;
     all := all w; todo := todo w; liability := liability w; temptation := temptation w;
     wip := wip w; gen := gen w; wb_size := wb_size w; reqs := m; next_req := next_req w |}.

Definition set_window (n : Z) (w : wb_inode) : wb_inode :=
  {| window_conf := window_conf w; window_current := n; transit := transit w;
     all := all w; todo := todo w; liability := liability w; temptation := temptation w;
     wip := wip w; gen := gen w; wb_size := wb_size w; reqs := reqs w; next_req := next_req w |}.

Definition set_transit (n : Z) (w : wb_inode) : wb_inode :=
  {| window_conf := window_conf w; window_current := window_current w; transit := n;
     all := all w; todo := todo w; liability := liability w; temptation := temptation w;
     wip := wip w; gen := gen w; wb_size := wb_size w; reqs := reqs w; next_req := next_req w |}.

Definition set_todo (l : list nat) (w : wb_inode) : wb_inode :=
  {| window_conf := window_conf w; window_current := window_current w; transit := transit w;
     all := all w; todo := l; liability := liability w; temptation := temptation w;
     wip := wip w; gen := gen w; wb_size := wb_size w; reqs := reqs w; next_req := next_req w |}.

Definition set_lies (lia tem : list nat) (w : wb_inode) : wb_inode :=
  {| window_conf := window_conf w; window_current := window_current w; transit := transit w;
     all := all w; todo := todo w; liability := lia; temptation := tem;
     wip := wip w; gen := gen w; wb_size := wb_size w; reqs := reqs w; next_req := next_req w |}.

Definition set_wip (l : list nat) (w : wb_inode) : wb_inode :=
  {| window_conf := window_conf w; window_current := window_current w; transit := transit w;
     all := all w; todo := todo w; liability := liability w; temptation := temptation w;
     wip := l; gen := gen w; wb_size := wb_size w; reqs := reqs w; next_req := next_req w |}.

Definition set_gen (n : Z) (w : wb_inode) : wb_inode :=
  {| window_conf := window_conf w; window_current := window_current w; transit := transit w;
     all := all w; todo := todo w; liability := liability w; temptation := temptation w;
     wip := wip w; gen := n; wb_size := wb_size w; reqs := reqs w; next_req := next_req w |}.

Definition set_size (n : Z) (w : wb_inode) : wb_inode :=
  {| window_conf := window_conf w; window_current := window_current w; transit := transit w;
     all := all w; todo := todo w; liability := liability w; temptation := temptation w;
     wip := wip w; gen := gen w; wb_size := n; reqs := reqs w; next_req := next_req w |}.

Definition put (i : nat) (r : wb_request) (w : wb_inode) : wb_inode :=
  set_reqs (<[i := r]> (reqs w)) w.

Definition unlink (i : nat) (l : list nat) : list nat := filter (fun j => j <> i) l.

Definition __wb_inode_create (conf : wb_conf) : wb_inode :=
  {| window_conf := window_size conf; window_current := 0; transit := 0; all := []; todo := [];
     liability := []; temptation := []; wip := []; gen := 0; wb_size := 0; reqs := ∅;
     next_req := 0 |}.

(** ** Conflicts *)

Definition range_start (o : ordering) : Z := u64 (o_off o).

Definition range_end (o : ordering) : Z :=
  if o_size o =? 0 then 2 ^ 64 - 1 else u64 (u64 (o_off o) + o_size o - 1).

Definition wb_requests_overlap (r1 r2 : wb_request) : bool :=
  (range_start (rq_ord r2) <=? range_end (rq_ord r1)) &&
  (range_start (rq_ord r1) <=? range_end (rq_ord r2)).

Definition wb_requests_conflict (conf : wb_conf) (l : nat) (lie : wb_request) (i : nat)
    (req : wb_request) : bool :=
  if Nat.eqb l i then false
  else if rq_gen req <=? rq_gen lie then false
  else if o_append (rq_ord lie) then true
  else if strict_write_ordering conf then true
  else wb_requests_overlap lie req.

(** The requests of a list, each with its number. *)

Definition linked (w : wb_inode) (l : list nat) : option (list (nat * wb_request)) :=
  mapM (fun i => r ← reqs w !! i; Some (i, r)) l.

Definition wb_liability_has_conflict (conf : wb_conf) (i : nat) (req : wb_request) (w : wb_inode)
    : option bool :=
  l ← linked w (liability w);
  Some (existsb (fun p => wb_requests_conflict conf p.1 p.2 i req) l).

Definition wb_wip_has_conflict (i : nat) (req : wb_request) (w : wb_inode) : option bool :=
  if negb (is_write req) then Some false
  else
    l ← linked w (wip w);
    Some (existsb (fun p => negb (Nat.eqb p.1 i) && wb_requests_overlap p.2 req) l).

(** ** References *)

Definition destroy (i : nat) (w : wb_inode) : wb_inode :=
  let empty := bool_decide (unlink i (all w) = []) in
  {| window_conf := window_conf w; window_current := if empty then 0 else window_current w;
     transit := transit w; all := unlink i (all w); todo := unlink i (todo w);
     liability := unlink i (liability w); temptation := unlink i (temptation w);
     wip := unlink i (wip w); gen := if empty then 0 else gen w; wb_size := wb_size w;
     reqs := delete i (reqs w); next_req := next_req w |}.

Definition __wb_request_unref (i : nat) (w : wb_inode) : option wb_inode :=
  r ← reqs w !! i;
  if refcount r <=? 0 then Some w
  else if refcount r - 1 =? 0 then Some (destroy i w)
  else Some (put i (set_ref (refcount r - 1) r) w).

Definition __wb_request_ref (i : nat) (w : wb_inode) : option wb_inode :=
  r ← reqs w !! i;
  if refcount r <? 0 then None else Some (put i (set_ref (refcount r + 1) r) w).

(** ** A new request *)

Definition fd_has (flag : Z) (fd : option fd_t) : bool :=
  match fd with Some f => negb (Z.land (fd_flags f) flag =? 0) | None => false end.

(** The range of a request, and the size that the inode is given; the size is
    read and written under the lock. *)

Definition order_request (s : call_stub) (w : wb_inode) : Z * Z * wb_inode :=
  let n := iov_length (st_vector s) in
  match st_fop s with
  | GF_FOP_WRITE =>
      let '(off, size) :=
        if wb_size w <? u64 (st_offset s) then (wb_size w, u64 (st_offset s + n - wb_size w))
        else (st_offset s, n) in
      (off, size, if wb_size w <? u64 (st_offset s + n) then set_size (u64 (st_offset s + n)) w else w)
  | GF_FOP_READ => (st_offset s, st_size s, w)
  | GF_FOP_TRUNCATE | GF_FOP_FTRUNCATE => (st_offset s, 0, set_size (u64 (st_offset s)) w)
  | _ => (0, 0, w)
  end.

Definition new_request (s : call_stub) (tempt : bool) (off size : Z) : wb_request :=
  let write := bool_decide (st_fop s = GF_FOP_WRITE) in
  let n := if write then iov_length (st_vector s) else 0 in
  {| rq_stub := s; rq_buf := None; write_size := n; orig_size := n; total_size := 0;
     op_ret := n; op_errno := 0; refcount := 0; rq_gen := 0;
     rq_ord := {| o_size := size; o_off := off; o_append := write && fd_has O_APPEND (st_fd s);
                  o_tempted := tempt; o_lied := false; o_fulfilled := false; o_go := false |};
     rq_parts := if write then [st_frame s] else [] |}.

(** The second critical section of [wb_enqueue_common]. *)

Definition set_arrival (g n : Z) (r : wb_request) : wb_request :=
  {| rq_stub := rq_stub r; rq_buf := rq_buf r; write_size := write_size r;
     orig_size := orig_size r; total_size := total_size r; op_ret := op_ret r;
     op_errno := op_errno r; refcount := n; rq_gen := g; rq_ord := rq_ord r;
     rq_parts := rq_parts r |}.

Definition insert_request (r : wb_request) (w : wb_inode) : wb_inode :=
  let i := next_req w in
  {| window_conf := window_conf w; window_current := window_current w; transit := transit w;
     all := all w ++ [i]; todo := todo w ++ [i]; liability := liability w;
     temptation := if tempted r then temptation w ++ [i] else temptation w; wip := wip w;
     gen := gen w; wb_size := wb_size w;
     reqs := <[i := set_arrival (gen w) (if tempted r then 2 else 1) r]> (reqs w);
     next_req := S i |}.

(** ** Fulfilment *)

Definition __wb_fulfill_request (i : nat) (w : wb_inode) : option wb_inode :=
  r ← reqs w !! i;
  let w := put i (set_fulfilled r) w in
  let w := set_window (window_current w - total_size r) w in
  let w := set_transit (transit w - total_size r) w in
  __wb_request_unref i w.

(** A write to the server: the head and the requests that were chained to it. *)

Record batch := { b_head : nat; b_winds : list nat }.

Definition members (b : batch) : list nat := b_head b :: b_winds b.

Fixpoint fulfill_all (l : list nat) (w : wb_inode) : option wb_inode :=
  match l with [] => Some w | i :: l' => w ← __wb_fulfill_request i w; fulfill_all l' w end.

Definition wb_head_done (b : batch) (w : wb_inode) : option wb_inode :=
  fulfill_all (b_winds b ++ [b_head b]) w.

(** The section of [wb_fulfill_err]: the requests of the same file descriptor. *)

Fixpoint mark_failed (l : list nat) (fd : option nat) (err : Z) (w : wb_inode) : option wb_inode :=
  match l with
  | [] => Some w
  | i :: l' =>
      r ← reqs w !! i;
      mark_failed l' fd err (if decide (rq_fd r = fd) then put i (set_result (-1) err r) w else w)
  end.

(** ** The section of [wb_process_queue] *)

Section queue.
Variable conf : wb_conf.

(** [holder] takes the data of [req]: at first it gets a buffer, and its vector
    is cut down to one element, whose length is not set anew. *)

Definition __wb_collapse_small_writes (h i : nat) (w : wb_inode) : option wb_inode :=
  holder ← reqs w !! h;
  req ← reqs w !! i;
  first ← head (st_vector (rq_stub holder));
  let s := rq_stub holder in
  let o := rq_ord holder in
  let buf := default (concat (st_vector s)) (rq_buf holder) ++ concat (st_vector (rq_stub req)) in
  let len := Z.of_nat (length first) + write_size req in
  Some (put h
    {| rq_stub := {| st_fop := st_fop s; st_frame := st_frame s; st_fd := st_fd s;
                     st_offset := st_offset s; st_size := st_size s;
                     st_vector := [take (Z.to_nat len) buf]; st_owner := st_owner s |};
       rq_buf := Some buf; write_size := write_size holder + write_size req;
       orig_size := orig_size holder; total_size := total_size holder; op_ret := op_ret holder;
       op_errno := op_errno holder; refcount := refcount holder; rq_gen := rq_gen holder;
       rq_ord := {| o_size := u64 (o_size o + write_size req); o_off := o_off o;
                    o_append := o_append o; o_tempted := o_tempted o; o_lied := o_lied o;
                    o_fulfilled := o_fulfilled o; o_go := o_go o |};
       rq_parts := rq_parts holder ++ rq_parts req |} w).

(** Whether [req] goes on where [holder] ends and fits behind it. *)

Definition joins (holder req : wb_request) : bool :=
  (st_offset (rq_stub req) =? st_offset (rq_stub holder) + write_size holder) &&
  (st_owner (rq_stub req) =? st_owner (rq_stub holder)) &&
  bool_decide (rq_fd req = rq_fd holder) &&
  negb (page_size conf - write_size holder <? write_size req).

Definition go_on (h : nat) (w : wb_inode) : option wb_inode :=
  holder ← reqs w !! h; Some (put h (set_go holder) w).

(** The loop over [todo]; [holder] is the last write that can take more data. *)

Fixpoint preprocess (l : list nat) (holder : option nat) (w : wb_inode)
    : option (option nat * wb_inode) :=
  match l with
  | [] => Some (holder, w)
  | i :: l' =>
      req ← reqs w !! i;
      if negb (tempted req) then
        match holder with
        | None => preprocess l' None w
        | Some h =>
            hr ← reqs w !! h;
            w ← (if wb_requests_conflict conf h hr i req then go_on h w else Some w);
            preprocess l' (Some h) w
        end
      else
        match holder with
        | None => preprocess l' (Some i) w
        | Some h =>
            hr ← reqs w !! h;
            if joins hr req then
              w ← __wb_collapse_small_writes h i w;
              w ← __wb_fulfill_request i (set_todo (unlink i (todo w)) w);
              preprocess l' (Some h) w
            else
              w ← go_on h w;
              preprocess l' (Some i) w
        end
  end.

Definition __wb_preprocess_winds (w : wb_inode) : option wb_inode :=
  '(holder, w) ← preprocess (todo w) None w;
  match holder with
  | Some h => if trickling_writes conf && (transit w =? 0) then go_on h w else Some w
  | None => Some w
  end.

(** The requests that can be sent: [tasks] are sent as they came, [liabilities]
    were answered or will be. *)

Fixpoint pick_winds (l tasks liabilities : list nat) (w : wb_inode)
    : option (list nat * list nat * wb_inode) :=
  match l with
  | [] => Some (tasks, liabilities, w)
  | i :: l' =>
      req ← reqs w !! i;
      c ← wb_liability_has_conflict conf i req w;
      c' ← wb_wip_has_conflict i req w;
      if c || (tempted req && negb (o_go (rq_ord req))) || c'
      then pick_winds l' tasks liabilities w
      else
        let w1 := if is_write req then set_wip (wip w ++ [i]) w else w in
        w2 ← (if is_write req && negb (tempted req) then __wb_request_ref i w1 else Some w1);
        let w3 := set_todo (unlink i (todo w2)) w2 in
        if tempted req then pick_winds l' tasks (liabilities ++ [i]) w3
        else pick_winds l' (tasks ++ [i]) liabilities w3
  end.

Definition __wb_pick_winds (w : wb_inode) : option (list nat * list nat * wb_inode) :=
  pick_winds (todo w) [] [] w.

(** The writes that are answered now. *)

Fixpoint pick_unwinds (l lies : list nat) (w : wb_inode) : option (list nat * wb_inode) :=
  match l with
  | [] => Some (lies, w)
  | i :: l' =>
      req ← reqs w !! i;
      if negb (fulfilled req) && (window_conf w <? window_current w) then pick_unwinds l' lies w
      else
        let w := set_lies (liability w) (unlink i (temptation w)) w in
        let w := set_window (window_current w + orig_size req) w in
        if fulfilled req then pick_unwinds l' (lies ++ [i]) w
        else
          let w := set_lies (liability w ++ [i]) (temptation w) w in
          pick_unwinds l' (lies ++ [i]) (set_gen (gen w + 1) (put i (set_lied req) w))
  end.

Definition __wb_pick_unwinds (w : wb_inode) : option (list nat * wb_inode) :=
  pick_unwinds (temptation w) [] w.

Definition process_section (w : wb_inode) : option (list nat * list nat * list nat * wb_inode) :=
  w ← __wb_preprocess_winds w;
  '(tasks, liabilities, w) ← __wb_pick_winds w;
  '(lies, w) ← __wb_pick_unwinds w;
  Some (tasks, lies, liabilities, w).

(** ** Writing back *)

Definition can_chain (head req : wb_request) (expected_offset aggregate count : Z) : bool :=
  bool_decide (rq_fd req = rq_fd head) &&
  (st_owner (rq_stub req) =? st_owner (rq_stub head)) &&
  (expected_offset =? st_offset (rq_stub req)) &&
  negb (aggregate_size conf <? aggregate + write_size req) &&
  negb (MAX_VECTOR_COUNT <? count + Z.of_nat (length (st_vector (rq_stub req)))).

(** The loop of [wb_fulfill]. The offset that is expected, the sum of sizes and
    the count of elements start anew with every head; the offset is not moved
    on by a request that is chained. *)

Fixpoint batches (l : list nat) (cur : option batch) (expected aggregate count : Z) (w : wb_inode)
    : option (list batch) :=
  match l with
  | [] => Some (match cur with Some b => [b] | None => [] end)
  | i :: l' =>
      req ← reqs w !! i;
      let next := st_offset (rq_stub req) + write_size req in
      match cur with
      | None => batches l' (Some {| b_head := i; b_winds := [] |}) next 0 0 w
      | Some b =>
          hd ← reqs w !! b_head b;
          if can_chain hd req expected aggregate count then
            batches l' (Some {| b_head := b_head b; b_winds := b_winds b ++ [i] |}) expected
              (aggregate + write_size req)
              (count + Z.of_nat (length (st_vector (rq_stub req)))) w
          else
            bs ← batches l' (Some {| b_head := i; b_winds := [] |}) next 0 0 w;
            Some (b :: bs)
      end
  end.

Definition wb_fulfill (liabilities : list nat) (w : wb_inode) : option (list batch) :=
  batches liabilities None 0 0 0 w.

(** [WB_IOV_LOAD] for the head and the chained requests: the vector has room for
    [MAX_VECTOR_COUNT] elements. *)

Definition load (b : batch) (w : wb_inode) : option (list (list ascii) * wb_inode) :=
  hd ← reqs w !! b_head b;
  rs ← mapM (fun i => reqs w !! i) (members b);
  let vector := concat ((fun r => st_vector (rq_stub r)) <$> rs) in
  let total := total_size hd + foldr (fun r n => write_size r + n) 0 rs in
  if MAX_VECTOR_COUNT <? Z.of_nat (length vector) then None
  else Some (vector, put (b_head b) (set_total total hd) w).

End queue.

(** ** Threads

    What a thread does between two points where others can come in is one
    action.
    - [ACheck] and [AQueue] are the start of the file operations, [AEnqueue] and
      [AInsert] the two sections of [wb_enqueue_common].
    - [AProcess] is the section of [wb_process_queue]. After it the thread answers
      the writes that were picked ([AUnwind]), sends the other requests
      ([AResume], which says whether the frame took a reference of its own) and
      drops the reference of each ([AUnref]), and writes back
      ([AGroup], [AFulfill] with what is left, [ATransit], [AWind]).
    - [ACbk] is [wb_fulfill_cbk], [AFdSet] and [AMark] the two halves of
      [wb_fulfill_err], [ADone] is [wb_head_done].
    - [ASize] is [wb_set_inode_size], [AReply] the answer of an operation that
      the server has answered. *)

Record reply := { r_ret : Z; r_errno : Z; r_data : list ascii; r_size : Z }.

Definition failure (err : Z) : reply := {| r_ret := -1; r_errno := err; r_data := []; r_size := 0 |}.

Inductive action :=
| ACheck (s : call_stub) (tempt : bool)
| AQueue (s : call_stub)
| AEnqueue (s : call_stub) (tempt : bool)
| AInsert (r : wb_request)
| AProcess
| AUnwind (i : nat)
| AResume (i : nat) (local : bool)
| AUnref (i : nat)
| AGroup (l : list nat)
| AFulfill (bs : list batch) (retry : bool)
| ATransit (b : batch)
| AWind (b : batch) (vector : list (list ascii))
| ACbk (b : batch) (ret err : Z)
| AFdSet (b : batch) (err : Z)
| AMark (b : batch) (err : Z)
| ADone (b : batch)
| ASize (n : Z)
| AReply (f : nat) (r : reply).

(** A call to the server. [KBack] is a write-back, [KSync] a write whose request
    is passed on, [KSize] a call whose reply carries the size; nobody waits for
    [KNone]. *)

Inductive call_kind := KBack (b : batch) | KSync (i : nat) | KClient | KSize | KNone.

Record server_call := { c_kind : call_kind; c_stub : call_stub; c_done : option reply }.

(** What happened, in order: calls and answers of clients, what the server carried
    out, and failures put on record for a file descriptor. [EAnswer] also says whether the data of the write that
    is answered is in a request that is itself written back or answered. *)

Inductive event :=
| EIssue (s : call_stub)
| EAnswer (f : nat) (r : reply) (held : bool)
| EServe (c : server_call) (r : reply)
| EFailed (fd : nat) (err : Z).

Record machine := {
  inode : wb_inode; created : bool; fd_err : gmap nat Z; file : list ascii;
  calls : list server_call; threads : list (list action); frames : nat; history : list event
}.

Definition set_inode (w : wb_inode) (m : machine) : machine :=
  {| inode := w; created := created m; fd_err := fd_err m; file := file m; calls := calls m;
     threads := threads m; frames := frames m; history := history m |}.

Definition set_created (m : machine) : machine :=
  {| inode := inode m; created := true; fd_err := fd_err m; file := file m; calls := calls m;
     threads := threads m; frames := frames m; history := history m |}.

Definition fd_ctx_set (fd : nat) (err : Z) (m : machine) : machine :=
  {| inode := inode m; created := created m; fd_err := <[fd := err]> (fd_err m); file := file m;
     calls := calls m; threads := threads m; frames := frames m;
     history := history m ++ [EFailed fd err] |}.

Definition add_call (k : call_kind) (s : call_stub) (m : machine) : machine :=
  {| inode := inode m; created := created m; fd_err := fd_err m; file := file m;
     calls := calls m ++ [{| c_kind := k; c_stub := s; c_done := None |}];
     threads := threads m; frames := frames m; history := history m |}.

Definition answer (f : nat) (r : reply) (held : bool) (m : machine) : machine :=
  {| inode := inode m; created := created m; fd_err := fd_err m; file := file m; calls := calls m;
     threads := threads m; frames := frames m; history := history m ++ [EAnswer f r held] |}.

(** Whether the data of a write waits in a request that is not answered itself. *)

Definition exposed (f : nat) (w : wb_inode) : bool :=
  existsb (fun p => existsb (Nat.eqb f) (rq_parts p.2) && negb (fulfilled p.2) && negb (lied p.2))
    (map_to_list (reqs w)).

Definition wb_fd_err (fd : option nat) (m : machine) : option Z := f ← fd; fd_err m !! f.

Definition stub_fd (s : call_stub) : option nat := fd_id <$> st_fd s.

Section machine.
Variable conf : wb_conf.

(** [wb_flush_helper] *)

Definition wb_flush_helper (s : call_stub) (m : machine) : machine :=
  if negb (created m) then answer (st_frame s) (failure EINVAL) true m
  else match wb_fd_err (stub_fd s) m with
       | Some e => answer (st_frame s) (failure e) true m
       | None =>
           if flush_behind conf then
             answer (st_frame s) {| r_ret := 0; r_errno := 0; r_data := []; r_size := 0 |} true
               (add_call KNone s m)
           else add_call KClient s m
       end.

(** [call_resume] with the helper of the operation. *)

Definition call_resume (i : nat) (r : wb_request) (m : machine) : machine :=
  let s := rq_stub r in
  match st_fop s with
  | GF_FOP_WRITE => add_call (KSync i) s m
  | GF_FOP_FLUSH => wb_flush_helper s m
  | GF_FOP_TRUNCATE | GF_FOP_FTRUNCATE => add_call KSize s m
  | _ => add_call KClient s m
  end.

Definition wb_do_unwinds (lies : list nat) : list action :=
  concat ((fun i => [AUnwind i; AUnref i]) <$> lies).

Definition wb_do_winds (w : wb_inode) (tasks : list nat) : list action :=
  concat ((fun i => [AResume i (from_option is_write false (reqs w !! i)); AUnref i]) <$> tasks).

(** [wb_process_queue] after its section. *)

Definition after_section (w : wb_inode) (tasks lies liabilities : list nat) : list action :=
  wb_do_unwinds lies ++ wb_do_winds w tasks ++ [AGroup liabilities].

Definition with_vector (v : list (list ascii)) (s : call_stub) : call_stub :=
  {| st_fop := st_fop s; st_frame := st_frame s; st_fd := st_fd s; st_offset := st_offset s;
     st_size := st_size s; st_vector := v; st_owner := st_owner s |}.

(** [wb_fulfill_cbk] is given the request at the head of the batch. *)

Definition wb_fulfill_err (b : batch) (err : Z) : list action := [AFdSet b err; AMark b err].

Definition wb_fulfill_cbk (b : batch) (hd : wb_request) (ret err : Z) : list action :=
  (if ret =? -1 then wb_fulfill_err b err
   else if u64 ret <? total_size hd then wb_fulfill_err b EIO else []) ++
  [ADone b; AProcess].

(** [wb_fulfill_head], up to the points where others can come in; [bs] and [retry]
    are what [wb_fulfill] has left. *)

Definition wb_fulfill_head (b : batch) (bs : list batch) (retry : bool) (m : machine)
    : option (machine * list action) :=
  hd ← reqs (inode m) !! b_head b;
  '(vector, w) ← load b (inode m);
  match wb_fd_err (rq_fd hd) m with
  | Some _ => Some (set_inode w m, [ADone b; AFulfill bs true])
  | None => Some (set_inode w m, [ATransit b; AWind b vector; AFulfill bs retry])
  end.

(** One action, with what the thread goes on with. *)

Definition exec (a : action) (m : machine) : option (machine * list action) :=
  let w := inode m in
  match a with
  | ACheck s tempt =>
      match wb_fd_err (stub_fd s) m with
      | Some e => Some (answer (st_frame s) (failure e) true m, [])
      | None =>
          match st_fop s with
          | GF_FOP_WRITE => Some (set_created m, [AEnqueue s tempt])
          | GF_FOP_FTRUNCATE => Some (m, [AEnqueue s false])
          | _ => Some (m, [AQueue s])
          end
      end
  | AQueue s =>
      if created m then Some (m, [AEnqueue s false]) else Some (add_call KClient s m, [])
  | AEnqueue s tempt =>
      let '(off, size, w) := order_request s w in
      Some (set_inode w m, [AInsert (new_request s tempt off size); AProcess])
  | AInsert r => Some (set_inode (insert_request r w) m, [])
  | AProcess =>
      '(tasks, lies, liabilities, w) ← process_section conf w;
      Some (set_inode w m, after_section w tasks lies liabilities)
  | AUnwind i =>
      r ← reqs w !! i;
      let f := st_frame (rq_stub r) in
      Some (answer f {| r_ret := op_ret r; r_errno := op_errno r; r_data := []; r_size := 0 |}
              (negb (exposed f w)) m, [])
  | AResume i _ => r ← reqs w !! i; Some (call_resume i r m, [])
  | AUnref i => w ← __wb_request_unref i w; Some (set_inode w m, [])
  | AGroup l => bs ← wb_fulfill conf l w; Some (m, [AFulfill bs false])
  | AFulfill [] retry => Some (m, if retry : bool then [AProcess] else [])
  | AFulfill (b :: bs) retry => wb_fulfill_head b bs retry m
  | ATransit b =>
      hd ← reqs w !! b_head b; Some (set_inode (set_transit (transit w + total_size hd) w) m, [])
  | AWind b vector =>
      hd ← reqs w !! b_head b;
      Some (add_call (KBack b) (with_vector vector (rq_stub hd)) m, [])
  | ACbk b ret err =>
      hd ← reqs w !! b_head b; Some (m, wb_fulfill_cbk b hd ret err)
  | AFdSet b err =>
      hd ← reqs w !! b_head b;
      fd ← rq_fd hd;
      Some (fd_ctx_set fd err m, [])
  | AMark b err =>
      hd ← reqs w !! b_head b; w ← mark_failed (all w) (rq_fd hd) err w; Some (set_inode w m, [])
  | ADone b => w ← wb_head_done b w; Some (set_inode w m, [])
  | ASize n => Some (if created m then set_inode (set_size (u64 n) w) m else m, [])
  | AReply f r => Some (answer f r true m, [])
  end.

(** ** The calls of clients *)

Inductive op :=
| OWrite (fd : fd_t) (flags offset : Z) (vector : list (list ascii)) (owner : Z)
| ORead (fd : fd_t) (size offset : Z)
| OFlush (fd : fd_t) | OFsync (fd : fd_t) | OStat | OFstat (fd : fd_t)
| OTruncate (offset : Z) | OFtruncate (fd : fd_t) (offset : Z)
| OSetattr | OFsetattr (fd : fd_t) | OLookup | OOpen.

Definition plain_stub (fop : fop_t) (f : nat) (fd : option fd_t) (offset size : Z) : call_stub :=
  {| st_fop := fop; st_frame := f; st_fd := fd; st_offset := offset; st_size := size;
     st_vector := []; st_owner := 0 |}.

Definition stub_of (o : op) (f : nat) : call_stub :=
  match o with
  | OWrite fd _ offset vector owner =>
      {| st_fop := GF_FOP_WRITE; st_frame := f; st_fd := Some fd; st_offset := offset; st_size := 0;
         st_vector := vector; st_owner := owner |}
  | ORead fd size offset => plain_stub GF_FOP_READ f (Some fd) offset size
  | OFlush fd => plain_stub GF_FOP_FLUSH f (Some fd) 0 0
  | OFsync fd => plain_stub GF_FOP_FSYNC f (Some fd) 0 0
  | OStat => plain_stub GF_FOP_STAT f None 0 0
  | OFstat fd => plain_stub GF_FOP_FSTAT f (Some fd) 0 0
  | OTruncate offset => plain_stub GF_FOP_TRUNCATE f None offset 0
  | OFtruncate fd offset => plain_stub GF_FOP_FTRUNCATE f (Some fd) offset 0
  | OSetattr => plain_stub GF_FOP_SETATTR f None 0 0
  | OFsetattr fd => plain_stub GF_FOP_FSETATTR f (Some fd) 0 0
  | OLookup => plain_stub GF_FOP_LOOKUP f None 0 0
  | OOpen => plain_stub GF_FOP_OPEN f None 0 0
  end.

(** A write is held back unless it must be synchronous. *)

Definition wb_disabled (fd : fd_t) (flags : Z) : bool :=
  let mask := Z.lor (Z.lor O_SYNC O_DSYNC) (if strict_O_DIRECT conf then O_DIRECT else 0) in
  negb (Z.land (fd_flags fd) mask =? 0) || negb (Z.land flags mask =? 0).

Definition add_thread (acts : list action) (m : machine) : machine :=
  {| inode := inode m; created := created m; fd_err := fd_err m; file := file m; calls := calls m;
     threads := threads m ++ [acts]; frames := frames m; history := history m |}.

(** The operations up to their first action. *)

Definition wb_writev (fd : fd_t) (flags : Z) (s : call_stub) (m : machine) : machine :=
  add_thread [ACheck s (negb (wb_disabled fd flags))] m.

Definition wb_readv (s : call_stub) (m : machine) : machine := add_thread [AQueue s] m.

Definition wb_flush (s : call_stub) (m : machine) : machine := add_thread [AQueue s] m.

Definition wb_fsync (s : call_stub) (m : machine) : machine := add_thread [ACheck s false] m.

Definition wb_stat (s : call_stub) (m : machine) : machine := add_thread [AQueue s] m.

Definition wb_fstat (s : call_stub) (m : machine) : machine := add_thread [AQueue s] m.

Definition wb_truncate (s : call_stub) (m : machine) : machine :=
  add_thread [AEnqueue s false] (set_created m).

Definition wb_ftruncate (s : call_stub) (m : machine) : machine :=
  add_thread [ACheck s false] (set_created m).

Definition wb_setattr (s : call_stub) (m : machine) : machine := add_thread [AQueue s] m.

Definition wb_fsetattr (s : call_stub) (m : machine) : machine := add_thread [AQueue s] m.

(** The table [fops]. It leaves out lookup, open and create although there are
    functions for them: these calls are passed on by the defaults. *)

Definition wb_fop (o : op) (s : call_stub) (m : machine) : machine :=
  match o with
  | OWrite fd flags _ _ _ => wb_writev fd flags s m
  | ORead _ _ _ => wb_readv s m
  | OFlush _ => wb_flush s m
  | OFsync _ => wb_fsync s m
  | OStat => wb_stat s m
  | OFstat _ => wb_fstat s m
  | OTruncate _ => wb_truncate s m
  | OFtruncate _ _ => wb_ftruncate s m
  | OSetattr => wb_setattr s m
  | OFsetattr _ => wb_fsetattr s m
  | OLookup | OOpen => add_call KClient s m
  end.

Definition issue (o : op) (m : machine) : machine :=
  let s := stub_of o (frames m) in
  let m1 := {| inode := inode m; created := created m; fd_err := fd_err m; file := file m;
               calls := calls m; threads := threads m; frames := S (frames m);
               history := history m ++ [EIssue s] |} in
  wb_fop o s m1.

(** ** The server *)

Definition wb_writev_cbk (i f : nat) (r : reply) : list action := [AUnref i; AProcess; AReply f r].

(** [wb_truncate_cbk] and [wb_ftruncate_cbk]. *)

Definition wb_truncate_cbk (f : nat) (r : reply) : list action :=
  (if r_ret r =? 0 then [ASize (r_size r)] else []) ++ [AReply f r].

(** The thread that a reply starts. *)

Definition callback (c : server_call) (r : reply) : list action :=
  let f := st_frame (c_stub c) in
  match c_kind c with
  | KBack b => [ACbk b (r_ret r) (r_errno r)]
  | KSync i => wb_writev_cbk i f r
  | KClient => [AReply f r]
  | KSize => wb_truncate_cbk f r
  | KNone => []
  end.

Definition served (j : nat) (c : server_call) (r : reply) (f' : list ascii) (m : machine) : machine :=
  {| inode := inode m; created := created m; fd_err := fd_err m; file := f';
     calls := <[j := {| c_kind := c_kind c; c_stub := c_stub c; c_done := Some r |}]> (calls m);
     threads := threads m; frames := frames m; history := history m ++ [EServe c r] |}.

Definition returned (j : nat) (c : server_call) (r : reply) (m : machine) : machine :=
  {| inode := inode m; created := created m; fd_err := fd_err m; file := file m;
     calls := delete j (calls m); threads := threads m ++ [callback c r]; frames := frames m;
     history := history m |}.

(** A client calls, a thread goes on, the server carries out a call with any
    result, or its reply arrives. *)

Inductive step : machine -> machine -> Prop :=
| step_call m o : step m (issue o m)
| step_exec m n a rest m' acts :
    threads m !! n = Some (a :: rest) -> exec a m = Some (m', acts) ->
    step m {| inode := inode m'; created := created m'; fd_err := fd_err m'; file := file m';
              calls := calls m'; threads := <[n := acts ++ rest]> (threads m');
              frames := frames m'; history := history m' |}
| step_serve m j c r f' :
    calls m !! j = Some c -> c_done c = None -> step m (served j c r f' m)
| step_return m j c r :
    calls m !! j = Some c -> c_done c = Some r -> step m (returned j c r m).

Definition start (f : list ascii) : machine :=
  {| inode := __wb_inode_create conf; created := false; fd_err := ∅; file := f; calls := [];
     threads := []; frames := 0; history := [] |}.

Inductive reachable (f : list ascii) : machine -> Prop :=
| reachable_start : reachable f (start f)
| reachable_step m m' : reachable f m -> step m m' -> reachable f m'.

End machine.
