(* ===== verification/WbInv.v ===== *)
(** * Write-behind: the state of an inode

    The invariant of the queues of WriteBehind.v, and that every critical section
    keeps it. Outside of the inode, threads and calls hold references: [W] lists
    the requests that somebody is writing back, [V] those with any other
    reference. *)

From Stdlib Require Import ZArith Lia Bool Ascii String.
From stdpp Require Import base list strings gmap sorting.
From S2P Require Import Prelude WriteBehind.

(** ** Occurrences in a list *)

Definition cnt (i : nat) (l : list nat) : nat := length (filter (fun j => j = i) l).

Lemma ref_cons i j l : cnt i (j :: l) = ((if decide (j = i) then 1 else 0) + cnt i l)%nat.
Proof. unfold cnt. rewrite filter_cons. by case_decide. Qed.

Lemma ref_app i l l' : cnt i (l ++ l') = (cnt i l + cnt i l')%nat.
Proof. unfold cnt. by rewrite filter_app, length_app. Qed.

Lemma ref_unlink i l : cnt i (unlink i l) = 0%nat.
Proof.
  unfold cnt, unlink. induction l as [|j l IH]; [done|]. rewrite filter_cons.
  destruct (decide (j <> i)); [rewrite filter_cons, decide_False by congruence|]; done.
Qed.

Lemma cnt_unlink_ne i j l : i <> j -> cnt i (unlink j l) = cnt i l.
Proof.
  intros Hij. unfold cnt, unlink. induction l as [|k l IH]; [done|]. rewrite !filter_cons.
  destruct (decide (k <> j)) as [Hk|Hk]; rewrite ?filter_cons.
  - case_decide; simpl; congruence.
  - apply dec_stable in Hk. rewrite (decide_False (P := k = i)) by congruence. done.
Qed.

Lemma cnt_pos i l : (0 < cnt i l)%nat <-> i ∈ l.
Proof.
  induction l as [|j l IH]; [rewrite elem_of_nil; cbn; lia|].
  rewrite ref_cons, elem_of_cons. case_decide; [naive_solver lia|]. rewrite <- IH. naive_solver lia.
Qed.

Lemma cnt_zero i l : cnt i l = 0%nat <-> ~ i ∈ l.
Proof. rewrite <- cnt_pos. lia. Qed.

Lemma cnt_le i l : NoDup l -> (cnt i l <= 1)%nat.
Proof.
  induction 1 as [|j l Hj Hl IH]; [cbn; lia|]. rewrite ref_cons. case_decide; [|lia].
  subst. apply cnt_zero in Hj. lia.
Qed.

Lemma elem_of_unlink i j l : i ∈ unlink j l <-> i ∈ l /\ i <> j.
Proof. unfold unlink. rewrite list_elem_of_filter. tauto. Qed.

Lemma unlink_nodup i l : NoDup l -> NoDup (unlink i l).
Proof. apply NoDup_filter. Qed.

Lemma unlink_app i l l' : unlink i (l ++ l') = unlink i l ++ unlink i l'.
Proof. apply filter_app. Qed.

Lemma unlink_id i l : ~ i ∈ l -> unlink i l = l.
Proof.
  unfold unlink. induction l as [|j l IH]; [done|]. rewrite not_elem_of_cons, filter_cons.
  intros [Hj Hl]. rewrite decide_True by congruence. by rewrite IH.
Qed.

(** ** Requests *)

Definition data_of (r : wb_request) : list ascii := concat (st_vector (rq_stub r)).

(** A write comes in one piece, and its range is all that it may change: from
    the end of the file on when it starts behind it. *)

Record write_ok (r : wb_request) : Prop := {
  wo_fd : is_Some (rq_fd r);
  wo_vector : exists d, st_vector (rq_stub r) = [d];
  wo_buf : forall b, rq_buf r = Some b -> b = data_of r;
  wo_size : write_size r = Z.of_nat (length (data_of r)) /\ 0 < write_size r;
  wo_offset : 0 <= st_offset (rq_stub r) /\ st_offset (rq_stub r) + write_size r < 2 ^ 63;
  wo_range : 0 <= o_off (rq_ord r) <= st_offset (rq_stub r) /\
    o_off (rq_ord r) + o_size (rq_ord r) = st_offset (rq_stub r) + write_size r;
  wo_orig : 0 <= orig_size r /\ 0 <= total_size r
}.

Record request_wf (r : wb_request) : Prop := {
  rw_write : is_write r = true -> write_ok r;
  rw_tempted : tempted r = true -> is_write r = true
}.

(** ** The invariant *)

Record winv (w : wb_inode) (W V : list nat) : Prop := {
  wi_refs : forall i,
    match reqs w !! i with
    | Some r => refcount r = Z.of_nat (cnt i (todo w ++ W) + cnt i (temptation w) + cnt i V) /\
                0 < refcount r
    | None => cnt i (todo w ++ W) = 0%nat /\ cnt i (temptation w) = 0%nat /\ cnt i V = 0%nat
    end;
  wi_wf : forall i r, reqs w !! i = Some r -> request_wf r;
  wi_next : forall i, is_Some (reqs w !! i) -> (i < next_req w)%nat;
  wi_all : NoDup (all w) /\ forall i, i ∈ all w <-> is_Some (reqs w !! i);
  wi_winds : NoDup (todo w ++ W);
  wi_wind : forall i r, reqs w !! i = Some r -> tempted r = true ->
    (fulfilled r = false <-> i ∈ todo w ++ W);
  wi_out : forall i, i ∈ W -> i ∈ wip w /\
    exists r, reqs w !! i = Some r /\ tempted r = true;
  wi_tempt : NoDup (temptation w) /\ forall i, i ∈ temptation w ->
    exists r, reqs w !! i = Some r /\ tempted r = true /\ lied r = false;
  wi_lia : NoDup (liability w) /\ forall i, i ∈ liability w <->
    exists r, reqs w !! i = Some r /\ lied r = true;
  wi_wip : NoDup (wip w) /\ forall i, i ∈ wip w ->
    (exists r, reqs w !! i = Some r /\ is_write r = true) /\ ~ i ∈ todo w;
  wi_apart : forall i j r q, i ∈ wip w -> j ∈ wip w -> i <> j ->
    reqs w !! i = Some r -> reqs w !! j = Some q -> wb_requests_overlap r q = false;
  wi_order : StronglySorted lt (todo w) /\ StronglySorted lt (temptation w);
  wi_gen : forall i j r q, (i < j)%nat -> reqs w !! i = Some r -> reqs w !! j = Some q ->
    rq_gen r <= rq_gen q;
  wi_gens : forall i r, reqs w !! i = Some r ->
    rq_gen r <= gen w /\ (lied r = true -> rq_gen r < gen w /\ tempted r = true);
  wi_fifo : forall i j r, i ∈ temptation w -> reqs w !! i = Some r -> fulfilled r = false ->
    j ∈ liability w -> (j < i)%nat;
  wi_held : forall i r, reqs w !! i = Some r -> tempted r = true -> lied r = false ->
    fulfilled r = false -> i ∈ temptation w;
  wi_sizes : 0 <= wb_size w
}.

(** ** Dropping a reference *)

Lemma refs_live w W V i :
  winv w W V -> i ∈ todo w ++ W ++ V -> exists r, reqs w !! i = Some r.
Proof.
  intros H Hi. pose proof (wi_refs _ _ _ H i) as Hr. destruct (reqs w !! i) as [r|]; [eauto|].
  destruct Hr as (H1 & _ & H2). rewrite cnt_zero in H1, H2. set_solver.
Qed.

Lemma sorted_unlink i l : StronglySorted lt l -> StronglySorted lt (unlink i l).
Proof.
  unfold unlink. induction 1 as [|j l Hl IH Hj]; [constructor|]. rewrite filter_cons.
  destruct (decide (j <> i)); [|done]. constructor; [done|].
  rewrite Forall_forall in *. intros k [_ Hk]%list_elem_of_filter. by apply Hj.
Qed.

Lemma winv_destroy w W V i r :
  winv w W V -> reqs w !! i = Some r ->
  ~ i ∈ todo w ++ W -> ~ i ∈ temptation w -> cnt i V = 1%nat ->
  forall V', (forall j, j <> i -> cnt j V' = cnt j V) -> cnt i V' = 0%nat ->
  winv (destroy i w) W V'.
Proof.
  intros H Hr Hi Ht HV V' HV' HV0.
  assert (unlink i (todo w) = todo w) as Etodo by (apply unlink_id; set_solver).
  assert (unlink i (temptation w) = temptation w) as Etem by (by apply unlink_id).
  assert (forall j q, reqs (destroy i w) !! j = Some q -> j <> i /\ reqs w !! j = Some q) as Hl.
  { intros j q. cbn. rewrite lookup_delete_Some. intros [? ?]. done. }
  split; cbn -[Z.of_nat Nat.add]; rewrite ?Etodo, ?Etem.
  - intros j. pose proof (wi_refs _ _ _ H j) as Hj. destruct (decide (j = i)) as [->|Hne].
    + rewrite lookup_delete_eq. split_and!; [by apply cnt_zero..|done].
    + rewrite lookup_delete_ne by done. by rewrite HV'.
  - intros j q [_ Hq]%Hl. by apply (wi_wf _ _ _ H j).
  - intros j [q [_ Hq]%Hl]. apply (wi_next _ _ _ H). eauto.
  - split; [apply unlink_nodup, H|]. intros j. rewrite elem_of_unlink, (proj2 (wi_all _ _ _ H)).
    rewrite lookup_delete_is_Some. naive_solver.
  - apply H.
  - intros j q [_ Hq]%Hl. by apply (wi_wind _ _ _ H).
  - intros j Hj. destruct (wi_out _ _ _ H j Hj) as (Hw & q & Hq & Hqt).
    assert (j <> i) by set_solver. rewrite elem_of_unlink, lookup_delete_ne by done. eauto.
  - split; [apply H|]. intros j Hj. assert (j <> i) by congruence.
    rewrite lookup_delete_ne by done. by apply H.
  - split; [apply unlink_nodup, H|]. intros j. rewrite elem_of_unlink, (proj2 (wi_lia _ _ _ H)).
    setoid_rewrite lookup_delete_Some. naive_solver.
  - split; [apply unlink_nodup, H|]. intros j [Hj Hne]%elem_of_unlink.
    rewrite lookup_delete_ne by done. by apply H.
  - intros j k q q' [Hj _]%elem_of_unlink [Hk _]%elem_of_unlink Hne [_ Hq]%Hl [_ Hq']%Hl.
    by apply (wi_apart _ _ _ H j k).
  - apply H.
  - intros j k q q' Hjk [_ Hq]%Hl [_ Hq']%Hl. by apply (wi_gen _ _ _ H j k).
  - intros j q [Hne Hq]%Hl. case_bool_decide as He; [|by apply (wi_gens _ _ _ H j)].
    assert (j ∈ unlink i (all w)) as Hj; [|rewrite He in Hj; by apply not_elem_of_nil in Hj].
    apply elem_of_unlink. split; [|done]. apply (wi_all _ _ _ H). eauto.
  - intros j k q Hj [_ Hq]%Hl Hf [Hk _]%elem_of_unlink. by apply (wi_fifo _ _ _ H j k q).
  - intros j q [_ Hq]%Hl. by apply (wi_held _ _ _ H).
  - apply H.
Qed.

(** ** Changes that the invariant does not see *)

Record like (r r' : wb_request) : Prop := {
  lk_stub : rq_stub r' = rq_stub r;
  lk_buf : rq_buf r' = rq_buf r;
  lk_sizes : write_size r' = write_size r /\ orig_size r' = orig_size r /\ total_size r' = total_size r;
  lk_gen : rq_gen r' = rq_gen r;
  lk_range : o_size (rq_ord r') = o_size (rq_ord r) /\ o_off (rq_ord r') = o_off (rq_ord r);
  lk_flags : tempted r' = tempted r /\ lied r' = lied r /\ fulfilled r' = fulfilled r /\
    o_append (rq_ord r') = o_append (rq_ord r);
  lk_parts : rq_parts r' = rq_parts r
}.

#[export] Instance like_refl : Reflexive like.
Proof. intros r. by split. Qed.

Lemma like_trans r1 r2 r3 : like r1 r2 -> like r2 r3 -> like r1 r3.
Proof.
  intros [? ? (? & ? & ?) ? [? ?] (? & ? & ? & ?) ?] [? ? (? & ? & ?) ? [? ?] (? & ? & ? & ?) ?].
  split; try congruence; split_and!; congruence.
Qed.

Lemma like_sym r1 r2 : like r1 r2 -> like r2 r1.
Proof. intros [? ? (? & ? & ?) ? [? ?] (? & ? & ? & ?) ?]. by split. Qed.

Lemma like_write r r' : like r r' -> is_write r' = is_write r.
Proof. intros [E _ _ _ _ _ _]. unfold is_write. by rewrite E. Qed.

Lemma like_fd r r' : like r r' -> rq_fd r' = rq_fd r.
Proof. intros [E _ _ _ _ _ _]. unfold rq_fd. by rewrite E. Qed.

Lemma like_overlap r r' q q' :
  like r r' -> like q q' -> wb_requests_overlap r' q' = wb_requests_overlap r q.
Proof.
  intros [? ? ? ? [E1 E2] ? ?] [? ? ? ? [E3 E4] ? ?].
  unfold wb_requests_overlap, range_start, range_end. by rewrite E1, E2, E3, E4.
Qed.

Lemma like_wf r r' : like r r' -> request_wf r -> request_wf r'.
Proof.
  intros Hl [H1 H2]. pose proof (like_write _ _ Hl) as Hw. pose proof (like_fd _ _ Hl) as Hf.
  destruct Hl as [Es Eb (Ew & Eo & Ez) Eg [Er1 Er2] (Et & El & Ef & Ea) Ep]. split.
  - rewrite Hw. intros Hwr. destruct (H1 Hwr). split; unfold data_of in *;
      rewrite ?Es, ?Eb, ?Ew, ?Eo, ?Ez, ?Er1, ?Er2, ?Hf; done.
  - rewrite Et, Hw. done.
Qed.

(** The same requests but for what [like] leaves open. *)

Definition alike (w w' : wb_inode) : Prop :=
  forall i, option_relation like (fun _ => False) (fun _ => False) (reqs w !! i) (reqs w' !! i).

Lemma alike_Some w w' i r' :
  alike w w' -> reqs w' !! i = Some r' -> exists r, reqs w !! i = Some r /\ like r r'.
Proof.
  intros H Hr. specialize (H i). rewrite Hr in H. destruct (reqs w !! i) as [r|]; [eauto|done].
Qed.

Lemma alike_fwd w w' i r :
  alike w w' -> reqs w !! i = Some r -> exists r', reqs w' !! i = Some r' /\ like r r'.
Proof.
  intros H Hr. specialize (H i). rewrite Hr in H. destruct (reqs w' !! i) as [r'|]; [eauto|done].
Qed.

Lemma alike_refl w : alike w w.
Proof. intros i. by destruct (reqs w !! i). Qed.

Lemma alike_trans w1 w2 w3 : alike w1 w2 -> alike w2 w3 -> alike w1 w3.
Proof.
  intros H1 H2 i. specialize (H1 i). specialize (H2 i).
  destruct (reqs w1 !! i), (reqs w2 !! i), (reqs w3 !! i); try done. by eapply like_trans.
Qed.

Lemma alike_put w i r r' : reqs w !! i = Some r -> like r r' -> alike w (put i r' w).
Proof.
  intros Hr Hl j. cbn. destruct (decide (j = i)) as [->|Hne].
  - rewrite lookup_insert_eq, Hr. done.
  - rewrite lookup_insert_ne by done. by destruct (reqs w !! j).
Qed.

Record same_lists (w w' : wb_inode) : Prop := {
  sl_lists : all w' = all w /\ todo w' = todo w /\ liability w' = liability w /\
    temptation w' = temptation w /\ wip w' = wip w;
  sl_gen : gen w' = gen w;
  sl_next : next_req w' = next_req w
}.

Lemma winv_alike w w' W V V' :
  winv w W V -> same_lists w w' -> alike w w' -> 0 <= wb_size w' ->
  (forall i r, reqs w' !! i = Some r ->
     refcount r = Z.of_nat (cnt i (todo w ++ W) + cnt i (temptation w) + cnt i V') /\
     0 < refcount r) ->
  (forall i, reqs w !! i = None -> cnt i V' = 0%nat) ->
  winv w' W V'.
Proof.
  intros H [(Ea & Et & El & Em & Ew) Eg En] Hal Hsz Hrefs Hnone.
  assert (forall i, is_Some (reqs w' !! i) <-> is_Some (reqs w !! i)) as Hdom.
  { intros i. specialize (Hal i). destruct (reqs w !! i), (reqs w' !! i); try done; split; eauto. }
  split; rewrite ?Ea, ?Et, ?El, ?Em, ?Ew, ?Eg, ?En.
  - intros i. destruct (reqs w' !! i) as [r'|] eqn:Hr; [by apply Hrefs|].
    assert (reqs w !! i = None) as Hi by (apply eq_None_not_Some; rewrite <- Hdom, Hr; by intros [? ?]).
    pose proof (wi_refs _ _ _ H i) as Hx. rewrite Hi in Hx. destruct Hx as (? & ? & ?).
    split_and!; [done..|]. by apply Hnone.
  - intros i r' (r & Hr & Hl)%(alike_Some w); [|done]. eapply like_wf; [done|]. by apply (wi_wf _ _ _ H i).
  - intros i. rewrite Hdom. apply H.
  - split; [apply H|]. intros i. rewrite Hdom. apply H.
  - apply H.
  - intros i r' (r & Hr & Hl)%(alike_Some w); [|done]. destruct Hl as [? ? ? ? ? (-> & ? & -> & ?) ?].
    by apply (wi_wind _ _ _ H).
  - intros i (Hi & r & Hr & Ht)%(wi_out _ _ _ H). split; [done|].
    destruct (alike_fwd _ _ _ _ Hal Hr) as (r' & Hr' & Hl). exists r'.
    by destruct Hl as [? ? ? ? ? (-> & ? & ? & ?) ?].
  - split; [apply H|]. intros i (r & Hr & Ht & Hd)%(wi_tempt _ _ _ H).
    destruct (alike_fwd _ _ _ _ Hal Hr) as (r' & Hr' & Hl). exists r'.
    by destruct Hl as [? ? ? ? ? (-> & -> & ? & ?) ?].
  - split; [apply H|]. intros i. rewrite (proj2 (wi_lia _ _ _ H)). split.
    + intros (r & Hr & Hd). destruct (alike_fwd _ _ _ _ Hal Hr) as (r' & Hr' & Hl). exists r'.
      by destruct Hl as [? ? ? ? ? (? & -> & ? & ?) ?].
    + intros (r' & Hr' & Hd). destruct (alike_Some _ _ _ _ Hal Hr') as (r & Hr & Hl). exists r.
      by destruct Hl as [? ? ? ? ? (? & <- & ? & ?) ?].
  - split; [apply H|]. intros i ((r & Hr & Hw) & Ht)%(wi_wip _ _ _ H). split; [|done].
    destruct (alike_fwd _ _ _ _ Hal Hr) as (r' & Hr' & Hl). exists r'.
    by rewrite (like_write _ _ Hl).
  - intros i j r' q' Hi Hj Hne (r & Hr & Hl)%(alike_Some w) (q & Hq & Hl')%(alike_Some w); [|done..].
    rewrite (like_overlap _ _ _ _ Hl Hl'). by apply (wi_apart _ _ _ H i j).
  - apply H.
  - intros i j r' q' Hij (r & Hr & Hl)%(alike_Some w) (q & Hq & Hl')%(alike_Some w); [|done..].
    rewrite (lk_gen _ _ Hl), (lk_gen _ _ Hl'). by apply (wi_gen _ _ _ H i j).
  - intros i r' (r & Hr & Hl)%(alike_Some w); [|done]. rewrite (lk_gen _ _ Hl).
    destruct Hl as [? ? ? ? ? (-> & -> & ? & ?) ?]. by apply (wi_gens _ _ _ H i).
  - intros i j r' Hi (r & Hr & Hl)%(alike_Some w); [|done].
    destruct Hl as [? ? ? ? ? (? & ? & -> & ?) ?]. by apply (wi_fifo _ _ _ H i j).
  - intros i r' (r & Hr & Hl)%(alike_Some w); [|done].
    destruct Hl as [? ? ? ? ? (-> & -> & -> & ?) ?]. by apply (wi_held _ _ _ H).
  - done.
Qed.

(** The sizes, the window and the bytes in transit. *)

Lemma winv_same w w' W V :
  winv w W V -> same_lists w w' -> reqs w' = reqs w -> 0 <= wb_size w' -> winv w' W V.
Proof.
  intros H Hl Hr Hs. eapply winv_alike; [done|done| |done|..].
  - intros i. rewrite Hr. apply (alike_refl w).
  - intros i r Hi. rewrite Hr in Hi. pose proof (wi_refs _ _ _ H i) as Hx. by rewrite Hi in Hx.
  - intros i Hi. pose proof (wi_refs _ _ _ H i) as Hx. rewrite Hi in Hx. apply Hx.
Qed.

#[export] Instance cnt_perm i : Proper (Permutation ==> eq) (cnt i).
Proof. intros l l' Hl. unfold cnt. apply Permutation_length. by rewrite Hl. Qed.

Lemma winv_perm w W V W' V' : Permutation W W' -> Permutation V V' -> winv w W V -> winv w W' V'.
Proof.
  intros HW HV H.
  assert (forall i, i ∈ todo w ++ W' <-> i ∈ todo w ++ W) as Hel by (intros; by rewrite HW).
  split; try apply H.
  - intros i. assert (cnt i (todo w ++ W') = cnt i (todo w ++ W)) as -> by (by rewrite HW).
    rewrite <- (cnt_perm i _ _ HV). apply H.
  - rewrite <- HW. apply H.
  - intros i r. rewrite Hel. by apply (wi_wind _ _ _ H).
  - intros i. rewrite <- HW. apply H.
Qed.

(** ** Dropping and taking references *)

Record dropped (i : nat) (w w' : wb_inode) : Prop := {
  dr_case : (same_lists w w' /\ alike w w') \/
    (w' = destroy i w /\ forall r, reqs w !! i = Some r -> tempted r = true -> fulfilled r = true);
  dr_others : forall j, j <> i -> reqs w' !! j = reqs w !! j;
  dr_size : wb_size w' = wb_size w /\ window_conf w' = window_conf w
}.

Lemma winv_unref w W V i :
  winv w W (i :: V) ->
  exists w', __wb_request_unref i w = Some w' /\ winv w' W V /\ dropped i w w'.
Proof.
  intros H. assert (exists r, reqs w !! i = Some r) as [r Hr] by (eapply refs_live; [done|set_solver]).
  pose proof (wi_refs _ _ _ H i) as Hc. rewrite Hr in Hc. destruct Hc as [Hc Hpos].
  rewrite ref_cons, decide_True in Hc by done. unfold __wb_request_unref. rewrite Hr.
  cbn [mbind option_bind]. rewrite (proj2 (Z.leb_gt _ _)) by lia.
  destruct (Z.eqb_spec (refcount r - 1) 0) as [Hz|Hz].
  - exists (destroy i w). split; [done|].
    assert (cnt i (todo w ++ W) = 0 /\ cnt i (temptation w) = 0 /\ cnt i V = 0)%nat as (C1 & C2 & C3) by lia.
    split.
    + apply (winv_destroy w W (i :: V) i r); try done; [by apply cnt_zero..| |].
      * rewrite ref_cons, decide_True by done. lia.
      * intros j Hj. rewrite ref_cons, decide_False by done. done.
    + split; [right|..]; [|intros j Hj; cbn; by rewrite lookup_delete_ne|done].
      split; [done|]. intros r' Hr' Ht. destruct (fulfilled r') eqn:Hf; [done|].
      apply (wi_wind _ _ _ H i r' Hr' Ht) in Hf. by apply cnt_pos in Hf; lia.
  - exists (put i (set_ref (refcount r - 1) r) w). split; [done|].
    assert (alike w (put i (set_ref (refcount r - 1) r) w)) as Hal by (by eapply alike_put).
    split; [|split; [by left|intros j Hj; cbn; by rewrite lookup_insert_ne|done]].
    eapply winv_alike; try done; [apply H|..].
    + intros j q. cbn. destruct (decide (j = i)) as [->|Hne].
      * rewrite lookup_insert_eq. intros [= <-]. cbn [refcount set_ref]. lia.
      * rewrite lookup_insert_ne by done. intros Hq. pose proof (wi_refs _ _ _ H j) as Hj.
        rewrite Hq, ref_cons, decide_False in Hj by congruence. done.
    + intros j Hj. pose proof (wi_refs _ _ _ H j) as Hx. rewrite Hj, ref_cons in Hx. lia.
Qed.

Lemma winv_ref w W V i r :
  winv w W V -> reqs w !! i = Some r ->
  exists w', __wb_request_ref i w = Some w' /\ winv w' W (i :: V) /\ same_lists w w' /\ alike w w' /\
    wb_size w' = wb_size w /\ window_conf w' = window_conf w.
Proof.
  intros H Hr. pose proof (wi_refs _ _ _ H i) as Hc. rewrite Hr in Hc. destruct Hc as [Hc Hpos].
  unfold __wb_request_ref. rewrite Hr. cbn [mbind option_bind].
  rewrite (proj2 (Z.ltb_ge _ _)) by lia. eexists. split; [done|].
  assert (alike w (put i (set_ref (refcount r + 1) r) w)) as Hal by (by eapply alike_put).
  split_and!; try done. eapply winv_alike; try done; [apply H|..].
  - intros j q. cbn [reqs put set_reqs]. rewrite ref_cons. destruct (decide (j = i)) as [->|Hne].
    + rewrite lookup_insert_eq, decide_True by done. intros [= <-]. cbn [refcount set_ref]. lia.
    + rewrite lookup_insert_ne by done. intros Hq. pose proof (wi_refs _ _ _ H j) as Hj.
      rewrite Hq in Hj. rewrite decide_False by congruence. done.
  - intros j Hj. rewrite ref_cons, decide_False by congruence.
    pose proof (wi_refs _ _ _ H j) as Hx. rewrite Hj in Hx. lia.
Qed.

(** ** A request that changes *)

(** Request [i] changes from [r] to [r'], and with it its place in the lists. *)

Record update (i : nat) (r r' : wb_request) (w w' : wb_inode) (W W' V V' : list nat) : Prop := {
  up_reqs : reqs w !! i = Some r /\ reqs w' = <[i := r']> (reqs w);
  up_rest : all w' = all w /\ next_req w' = next_req w /\ wip w' = wip w /\ wb_size w' = wb_size w /\
    gen w <= gen w';
  up_same : is_write r' = is_write r /\ rq_gen r' = rq_gen r /\ tempted r' = tempted r /\
    refcount r' = refcount r;
  up_wf : request_wf r';
  up_wip : ~ i ∈ wip w \/ (o_off (rq_ord r') = o_off (rq_ord r) /\ o_size (rq_ord r') = o_size (rq_ord r));
  up_refs : forall j, (cnt j (todo w' ++ W') + cnt j (temptation w') + cnt j V' =
    cnt j (todo w ++ W) + cnt j (temptation w) + cnt j V)%nat;
  up_todo : NoDup (todo w' ++ W') /\ StronglySorted lt (todo w') /\
    (forall j, j ∈ todo w' -> j ∈ todo w) /\ (forall j, j ∈ W' -> j ∈ W) /\
    (forall j, j <> i -> j ∈ todo w ++ W -> j ∈ todo w' ++ W') /\
    (tempted r = true -> (fulfilled r' = false <-> i ∈ todo w' ++ W'));
  up_tempt : NoDup (temptation w') /\ StronglySorted lt (temptation w') /\
    (forall j, j <> i -> (j ∈ temptation w' <-> j ∈ temptation w)) /\
    (i ∈ temptation w' -> tempted r' = true /\ lied r' = false) /\
    (tempted r' = true -> lied r' = false -> fulfilled r' = false -> i ∈ temptation w');
  up_lia : NoDup (liability w') /\ (forall j, j <> i -> (j ∈ liability w' <-> j ∈ liability w)) /\
    (i ∈ liability w' <-> lied r' = true) /\
    (lied r' = true -> rq_gen r < gen w' /\ tempted r = true);
  up_fifo : forall j k q, j ∈ temptation w' -> reqs w' !! j = Some q -> fulfilled q = false ->
    k ∈ liability w' -> (k < j)%nat
}.

Lemma winv_update i r r' w w' W W' V V' :
  winv w W V -> update i r r' w w' W W' V V' -> winv w' W' V'.
Proof.
  intros H [[Hr Eq] (Ea & En & Ew & Es & Hg) (Sw & Sg & St & Sr) Hwf Hwip Hrefs
    (T1 & T2 & T3 & T4 & T5 & T6) (M1 & M2 & M3 & M4 & M5) (L1 & L2 & L3 & L4) Hfifo].
  assert (reqs w' !! i = Some r') as Hi by (rewrite Eq; apply lookup_insert_eq).
  assert (forall j, j <> i -> reqs w' !! j = reqs w !! j) as Hj by (intros; rewrite Eq; by apply lookup_insert_ne).
  assert (forall j, is_Some (reqs w' !! j) <-> is_Some (reqs w !! j)) as Hdom.
  { intros j. destruct (decide (j = i)) as [->|Hne]; [rewrite Hi, Hr; split; eauto|by rewrite Hj]. }
  split; rewrite ?Ea, ?En, ?Ew, ?Es.
  - intros j. pose proof (wi_refs _ _ _ H j) as Hx. specialize (Hrefs j).
    destruct (decide (j = i)) as [->|Hne]; [|rewrite Hj by done; destruct (reqs w !! j); lia].
    rewrite Hr in Hx. rewrite Hi. lia.
  - intros j q. destruct (decide (j = i)) as [->|Hne]; [rewrite Hi; by intros [= <-]|].
    rewrite Hj by done. apply (wi_wf _ _ _ H).
  - intros j. rewrite Hdom. apply H.
  - split; [apply H|]. intros j. rewrite Hdom. apply H.
  - done.
  - intros j q. destruct (decide (j = i)) as [->|Hne]; [rewrite Hi; intros [= <-]; rewrite St; exact T6|].
    rewrite Hj by done. intros Hq Ht. rewrite (wi_wind _ _ _ H j q Hq Ht), !elem_of_app. set_solver.
  - intros j (Hw & q & Hq & Ht)%T4%(wi_out _ _ _ H). split; [done|]. destruct (decide (j = i)) as [->|Hne].
    + exists r'. split; [done|]. congruence.
    + rewrite Hj by done. eauto.
  - split; [done|]. intros j Hjt. destruct (decide (j = i)) as [->|Hne].
    + exists r'. destruct (M4 Hjt). done.
    + rewrite Hj by done. apply (wi_tempt _ _ _ H). by apply M3.
  - split; [done|]. intros j. destruct (decide (j = i)) as [->|Hne].
    + rewrite L3, Hi. naive_solver.
    + rewrite L2, Hj by done. apply (wi_lia _ _ _ H).
  - split; [apply H|]. intros j ((q & Hq & Hw) & Hn)%(wi_wip _ _ _ H). split; [|auto].
    destruct (decide (j = i)) as [->|Hne]; [exists r'; split; [done|congruence]|]. rewrite Hj by done. eauto.
  - intros j k q q' Hjw Hkw Hne. pose proof (wi_apart _ _ _ H j k) as Hap. unfold wb_requests_overlap, range_start, range_end in *.
    destruct (decide (j = i)) as [->|Hji], (decide (k = i)) as [->|Hki]; [done| | |by rewrite !Hj by done; auto].
    + rewrite Hi, Hj by done. intros [= <-] Hq. destruct Hwip as [?|[-> ->]]; [done|]. by apply (Hap r q').
    + rewrite Hi, Hj by done. intros Hq [= <-]. destruct Hwip as [?|[-> ->]]; [done|]. by apply (Hap q r).
  - done.
  - intros j k q q' Hjk. pose proof (wi_gen _ _ _ H j k) as Hgn.
    destruct (decide (j = i)) as [->|Hji], (decide (k = i)) as [->|Hki]; rewrite ?Hi, ?Hj by done.
    + lia.
    + intros [= <-] Hq. rewrite Sg. by apply (Hgn r q').
    + intros Hq [= <-]. rewrite Sg. by apply (Hgn q r).
    + by apply Hgn.
  - intros j q. destruct (decide (j = i)) as [->|Hne].
    + rewrite Hi. intros [= <-]. pose proof (wi_gens _ _ _ H i r Hr) as [? _]. rewrite Sg, St. split; [lia|done].
    + rewrite Hj by done. intros Hq. destruct (wi_gens _ _ _ H j q Hq) as [? Hx]. split; [lia|].
      intros Hl. destruct (Hx Hl). split; [lia|done].
  - done.
  - intros j q. destruct (decide (j = i)) as [->|Hne]; [rewrite Hi; by intros [= <-]|].
    rewrite Hj, M3 by done. apply (wi_held _ _ _ H).
  - apply H.
Qed.

(** ** Fulfilment *)

Lemma like_fulfilled_wf r : request_wf r -> request_wf (set_fulfilled r).
Proof. intros [H1 H2]. split; [|done]. intros Hw. by destruct (H1 Hw). Qed.

(** The reference for writing back, in the queue or outside, becomes any other
    reference. *)

Lemma winv_mark w W W' V i r T :
  winv w W V -> reqs w !! i = Some r -> Permutation (todo w ++ W) (i :: T ++ W') ->
  StronglySorted lt T -> (forall j, j ∈ T -> j ∈ todo w) -> (forall j, j ∈ W' -> j ∈ W) ->
  winv (put i (set_fulfilled r) (set_todo T w)) W' (i :: V).
Proof.
  intros H Hr HP HT HTs HWs.
  pose proof (wi_winds _ _ _ H) as Hnd. rewrite HP in Hnd. apply NoDup_cons in Hnd as [Hi Hnd].
  eapply (winv_update i r (set_fulfilled r)); [done|].
  split; cbn [todo temptation liability wip all gen next_req wb_size put set_reqs set_todo]; try done.
  - apply like_fulfilled_wf. by apply (wi_wf _ _ _ H i).
  - by right.
  - intros j. rewrite (cnt_perm j _ _ HP), !ref_cons. lia.
  - split_and!; try done. intros j Hji. rewrite HP, elem_of_cons. tauto.
  - split_and!; [apply H|apply H|done| |done]. intros (q & Hq & Ht & Hl)%(wi_tempt _ _ _ H).
    assert (q = r) as -> by congruence. done.
  - destruct (wi_gens _ _ _ H i r Hr) as [_ Hg]. split_and!; [apply H|done| |done].
    rewrite (proj2 (wi_lia _ _ _ H)), Hr. naive_solver.
  - intros j k q Hj Hq Hf. destruct (decide (j = i)) as [->|Hne].
    + cbn in Hq. rewrite lookup_insert_eq in Hq. by injection Hq as <-.
    + cbn in Hq. rewrite lookup_insert_ne in Hq by done. by apply (wi_fifo _ _ _ H j k q).
Qed.

(** The same request, whatever was done to it. *)

Record same_request (r r' : wb_request) : Prop := {
  sr_call : st_fop (rq_stub r') = st_fop (rq_stub r) /\ st_frame (rq_stub r') = st_frame (rq_stub r) /\
    rq_fd r' = rq_fd r;
  sr_gen : rq_gen r' = rq_gen r;
  sr_tempted : tempted r' = tempted r;
  sr_plain : tempted r = false -> rq_stub r' = rq_stub r /\ rq_parts r' = rq_parts r /\
    o_off (rq_ord r') = o_off (rq_ord r) /\ o_size (rq_ord r') = o_size (rq_ord r)
}.

Lemma alike_request_trans r1 r2 r3 : same_request r1 r2 -> same_request r2 r3 -> same_request r1 r3.
Proof.
  intros [(? & ? & ?) ? Ht Hp] [(? & ? & ?) ? Ht' Hp'].
  split; [split_and!; congruence|congruence|congruence|].
  intros Hn. destruct (Hp Hn) as (? & ? & ? & ?). rewrite Ht in Hp'.
  destruct (Hp' Hn) as (? & ? & ? & ?). split_and!; congruence.
Qed.

Lemma like_same r r' : like r r' -> same_request r r'.
Proof.
  intros Hl. pose proof (like_fd _ _ Hl). destruct Hl as [Es ? ? ? [? ?] (? & ? & ? & ?) ?].
  split; [rewrite Es; auto|done..|]. done.
Qed.

Lemma dropped_live i w w' j r' :
  dropped i w w' -> reqs w' !! j = Some r' -> exists r, reqs w !! j = Some r /\ like r r'.
Proof.
  intros [[[_ Hal]|[-> _]] _ _] Hr; [by eapply alike_Some|].
  cbn in Hr. apply lookup_delete_Some in Hr as [_ Hr]. by exists r'.
Qed.

(** What is left of the rest when one request goes. *)

Record others (i : nat) (w w' : wb_inode) : Prop := {
  ot_reqs : forall j, j <> i -> reqs w' !! j = reqs w !! j;
  ot_gen : gen w' = gen w \/ (gen w' = 0 /\ reqs w' = ∅);
  ot_wip : forall j, j ∈ wip w -> is_Some (reqs w' !! j) -> j ∈ wip w';
  ot_rest : next_req w' = next_req w /\ wb_size w' = wb_size w /\ window_conf w' = window_conf w
}.

Lemma dropped_others i w w' W V : winv w W V -> dropped i w w' -> others i w w'.
Proof.
  intros H [Hc Ho (Hs & Hw)]. destruct Hc as [[[(_ & _ & _ & _ & Hp) Hg Hn] _]|[-> Hf]]; (split; [done|..]).
  - by left.
  - by rewrite Hp.
  - done.
  - cbn [gen destroy reqs]. case_bool_decide as He; [right|by left]. split; [done|].
    apply map_eq. intros j. rewrite lookup_empty. destruct (decide (j = i)) as [->|Hne]; [apply lookup_delete_eq|].
    rewrite lookup_delete_ne by done. apply eq_None_not_Some. intros Hj%(wi_all _ _ _ H).
    assert (j ∈ unlink i (all w)) as Hx by (by apply elem_of_unlink). rewrite He in Hx.
    by apply not_elem_of_nil in Hx.
  - intros j Hj [q Hq]. cbn in *. apply lookup_delete_Some in Hq as [Hne _]. apply elem_of_unlink. auto.
  - done.
Qed.

Lemma dropped_todo i w w' : dropped i w w' -> ~ i ∈ todo w -> todo w' = todo w.
Proof.
  intros [Hc _ _] Hi. destruct Hc as [[[(_ & Ht & _) _ _] _]|[-> _]]; [done|]. by apply unlink_id.
Qed.

Lemma winv_fulfilled w W W' V i r T :
  winv w W V -> reqs w !! i = Some r -> Permutation (todo w ++ W) (i :: T ++ W') ->
  StronglySorted lt T -> (forall j, j ∈ T -> j ∈ todo w) -> (forall j, j ∈ W' -> j ∈ W) ->
  exists w', __wb_fulfill_request i (set_todo T w) = Some w' /\ winv w' W' V /\
    others i w w' /\ todo w' = T /\
    (forall r', reqs w' !! i = Some r' -> like (set_fulfilled r) r').
Proof.
  intros H Hr HP HT HTs HWs. pose proof (winv_mark _ _ _ _ _ _ _ H Hr HP HT HTs HWs) as H1.
  set (w1 := put i (set_fulfilled r) (set_todo T w)) in *.
  set (w3 := set_transit (transit w1 - total_size r) (set_window (window_current w1 - total_size r) w1)).
  assert (winv w3 W' (i :: V)) as H3 by (apply (winv_same w1); [done|by split|done|apply H1]).
  destruct (winv_unref _ _ _ _ H3) as (w' & Ew & H' & Hd).
  exists w'. split; [unfold __wb_fulfill_request; cbn [reqs set_todo set_reqs]; rewrite Hr; exact Ew|].
  split; [done|]. destruct (dropped_others _ _ _ _ _ H3 Hd) as [Ho Hg Hp Hn]. split_and!; [split|..].
  - intros j Hj. rewrite (Ho j Hj). cbn. by rewrite lookup_insert_ne.
  - done.
  - done.
  - done.
  - apply (dropped_todo _ _ _ Hd). pose proof (wi_winds _ _ _ H) as Hnd. rewrite HP in Hnd.
    apply NoDup_cons in Hnd as [Hi _]. set_solver.
  - intros r' Hr'. destruct (dropped_live _ _ _ _ _ Hd Hr') as (r1 & Hr1 & Hl).
    cbn in Hr1. rewrite lookup_insert_eq in Hr1. by injection Hr1 as <-.
Qed.

Lemma fulfilled_same r r' : like (set_fulfilled r) r' -> fulfilled r' = true /\ same_request r r'.
Proof.
  intros Hl. split; [by destruct Hl as [? ? ? ? ? (? & ? & -> & ?) ?]|].
  eapply alike_request_trans; [|by apply like_same]. by split.
Qed.

Lemma winv_fulfill w W V i :
  winv w (i :: W) V ->
  exists w', __wb_fulfill_request i w = Some w' /\ winv w' W V /\ others i w w' /\ todo w' = todo w /\
    (forall r', reqs w' !! i = Some r' ->
       exists r, reqs w !! i = Some r /\ like (set_fulfilled r) r').
Proof.
  intros H. destruct (wi_out _ _ _ H i) as (_ & r & Hr & Ht); [set_solver|].
  destruct (winv_fulfilled w (i :: W) W V i r (todo w)) as (w' & Ew & H' & Ho & Htd & Hf); try done.
  { by rewrite Permutation_middle. }
  { apply H. }
  { set_solver. }
  exists w'. split; [by destruct w|]. split_and!; [done..|]. eauto.
Qed.
