(* ===== verification/WbSection.v ===== *)
(** * Write-behind: processing the queue

    The section of [wb_process_queue] keeps the invariant of WbInv.v, and what it
    does to the data that is held back: it moves from one request to an earlier
    one, and whatever it sends depends on nothing that was answered. *)

From Stdlib Require Import ZArith Lia Bool Ascii String.
From stdpp Require Import base list strings gmap sorting.
From S2P Require Import Prelude WriteBehind WbInv.

(** ** Where data is *)

(** Request [i] holds back the data of the write with frame [f]. *)

Definition carries (w : wb_inode) (i f : nat) (r : wb_request) : Prop :=
  reqs w !! i = Some r /\ tempted r = true /\ fulfilled r = false /\ f ∈ rq_parts r.

(** The data [d] at offset [off] is part of the data [d'] at [off']. *)

Definition within (d : list ascii) (off : Z) (d' : list ascii) (off' : Z) : Prop :=
  exists pre post, d' = pre ++ d ++ post /\ off = off' + Z.of_nat (length pre).

Lemma within_refl d off : within d off d off.
Proof. exists [], []. rewrite app_nil_r. split; [done|cbn; lia]. Qed.

Lemma within_trans d1 o1 d2 o2 d3 o3 : within d1 o1 d2 o2 -> within d2 o2 d3 o3 -> within d1 o1 d3 o3.
Proof.
  intros (p & q & -> & ->) (p' & q' & -> & ->). exists (p' ++ p), (q ++ q').
  rewrite length_app. split; [by rewrite <- !app_assoc|lia].
Qed.

Lemma within_range d off d' off' :
  within d off d' off' ->
  off' <= off /\ off + Z.of_nat (length d) <= off' + Z.of_nat (length d').
Proof. intros (p & q & -> & ->). rewrite !length_app. lia. Qed.

Definition covers (r' r : wb_request) : Prop :=
  rq_fd r' = rq_fd r /\ within (data_of r) (st_offset (rq_stub r)) (data_of r') (st_offset (rq_stub r')).

(** What does not change of a request that has left the queue. *)

Record frozen (r r' : wb_request) : Prop := {
  fz_stub : rq_stub r' = rq_stub r;
  fz_size : write_size r' = write_size r;
  fz_parts : rq_parts r' = rq_parts r;
  fz_total : total_size r <= total_size r'
}.

Lemma like_frozen r r' : like r r' -> frozen r r'.
Proof. intros [? ? (? & ? & ?) ? ? ? ?]. split; [done..|lia]. Qed.

Lemma frozen_refl r : frozen r r.
Proof. by apply like_frozen. Qed.

Lemma frozen_trans r1 r2 r3 : frozen r1 r2 -> frozen r2 r3 -> frozen r1 r3.
Proof. intros [? ? ? ?] [? ? ? ?]. split; [congruence..|lia]. Qed.

Record moved (w w' : wb_inode) : Prop := {
  mv_back : forall i' f r', carries w' i' f r' ->
    exists i r, carries w i f r /\ rq_gen r' <= rq_gen r /\ (lied r = true -> lied r' = true) /\
      covers r' r;
  mv_fwd : forall i f r, carries w i f r -> exists i' r', carries w' i' f r';
  mv_live : forall k q', reqs w' !! k = Some q' -> exists q, reqs w !! k = Some q /\ same_request q q';
  mv_wip : forall k, k ∈ wip w -> is_Some (reqs w' !! k) -> k ∈ wip w';
  mv_todo : forall k, k ∈ todo w' -> k ∈ todo w;
  mv_keep : forall k q q', ~ k ∈ todo w -> reqs w !! k = Some q -> reqs w' !! k = Some q' -> frozen q q';
  mv_frame : gen w <= gen w' /\ next_req w' = next_req w /\ wb_size w' = wb_size w
}.

Lemma covers_refl r : covers r r.
Proof. split; [done|apply within_refl]. Qed.

Lemma covers_trans r1 r2 r3 : covers r1 r2 -> covers r2 r3 -> covers r1 r3.
Proof. intros [? ?] [? ?]. split; [congruence|by eapply within_trans]. Qed.

Lemma covers_stub r r' : rq_stub r' = rq_stub r -> covers r' r.
Proof. intros E. unfold covers, rq_fd, data_of. rewrite E. split; [done|apply within_refl]. Qed.

Lemma moved_refl w : moved w w.
Proof.
  split; [|eauto|intros k q Hq; exists q; split; [done|by split]|done|done| |split_and!; [lia|done..]].
  2:{ intros k q q' _ Hq Hq'. assert (q' = q) as -> by congruence. apply frozen_refl. }
  intros i f r Hc. exists i, r. split_and!; [done|lia|done|apply covers_refl].
Qed.

Lemma moved_trans w1 w2 w3 : moved w1 w2 -> moved w2 w3 -> moved w1 w3.
Proof.
  intros [B1 F1 L1 P1 T1 K1 (G1 & N1 & S1)] [B2 F2 L2 P2 T2 K2 (G2 & N2 & S2)]. split.
  - intros i3 f r3 (i2 & r2 & (i1 & r1 & Hc & Hg1 & Hl1 & Hv1)%B1 & Hg2 & Hl2 & Hv2)%B2.
    exists i1, r1. split_and!; [done|lia|auto|by eapply covers_trans].
  - intros i f r (i2 & r2 & (i3 & r3 & Hc)%F2)%F1. eauto.
  - intros k q3 (q2 & (q1 & Hq & Hs1)%L1 & Hs2)%L2. exists q1. split; [done|].
    by eapply alike_request_trans.
  - intros k Hk [q Hq]. apply P2; [|eauto]. apply P1; [done|]. destruct (L2 _ _ Hq) as (q2 & -> & _). eauto.
  - auto.
  - intros k q q' Hk Hq Hq'. destruct (L2 _ _ Hq') as (q2 & Hq2 & _). eapply frozen_trans; [by eapply K1|].
    by eapply K2; eauto.
  - split_and!; [lia|congruence..].
Qed.

Lemma moved_alike w w' :
  alike w w' -> (forall k, k ∈ todo w' -> k ∈ todo w) -> (forall k, k ∈ wip w -> k ∈ wip w') ->
  gen w <= gen w' -> next_req w' = next_req w -> wb_size w' = wb_size w -> moved w w'.
Proof.
  intros Hal Ht Hwp Hg Hn Hs. split; [.. |auto|done| |done].
  - intros i f r' (Hr' & Htm & Hf & Hp). destruct (alike_Some _ _ _ _ Hal Hr') as (r & Hr & Hl).
    exists i, r. pose proof (like_fd _ _ Hl). destruct Hl as [Es ? (Ew & ? & ?) Eg ? (Et & El & Ef & ?) Ep].
    split_and!.
    + unfold carries. rewrite <- Et, <- Ef, <- Ep. done.
    + lia.
    + congruence.
    + by apply covers_stub.
  - intros i f r (Hr & Htm & Hf & Hp). destruct (alike_fwd _ _ _ _ Hal Hr) as (r' & Hr' & Hl).
    exists i, r'. destruct Hl as [? ? ? ? ? (Et & El & Ef & ?) Ep]. unfold carries.
    rewrite Et, Ef, Ep. done.
  - intros k q' Hq'. destruct (alike_Some _ _ _ _ Hal Hq') as (q & Hq & Hl). exists q.
    split; [done|by apply like_same].
  - intros k q q' _ Hq Hq'. destruct (alike_Some _ _ _ _ Hal Hq') as (q0 & Hq0 & Hl).
    assert (q0 = q) as -> by congruence. by apply like_frozen.
Qed.

(** ** A request that changes in the queue *)

Lemma winv_put w W V i r r' :
  winv w W V -> reqs w !! i = Some r -> (~ i ∈ wip w \/ rq_ord r' = rq_ord r) -> request_wf r' ->
  is_write r' = is_write r -> tempted r' = tempted r -> lied r' = lied r -> fulfilled r' = fulfilled r ->
  rq_gen r' = rq_gen r -> refcount r' = refcount r -> winv (put i r' w) W V.
Proof.
  intros H Hr Hwip Hwf Ew Et El Ef Eg Ec. eapply (winv_update i r r'); [done|].
  assert (forall j q, reqs (put i r' w) !! j = Some q -> exists q0, reqs w !! j = Some q0 /\ fulfilled q = fulfilled q0) as Hl.
  { intros j q. cbn. destruct (decide (j = i)) as [->|Hne].
    - rewrite lookup_insert_eq. intros [= <-]. eauto.
    - rewrite lookup_insert_ne by done. eauto. }
  split; cbn [todo temptation liability wip all gen next_req wb_size put set_reqs]; try done.
  - destruct Hwip as [?| ->]; [by left|by right].
  - split_and!; try apply H; try done. intros Ht. rewrite Ef. by apply (wi_wind _ _ _ H).
  - rewrite Et, El, Ef. split_and!; [apply H|apply H|done| |by apply (wi_held _ _ _ H)].
    intros (q & Hq & Htq & Hlq)%(wi_tempt _ _ _ H). assert (q = r) as -> by congruence. done.
  - rewrite El. split_and!; [apply H|done| |by apply (wi_gens _ _ _ H i)].
    rewrite (proj2 (wi_lia _ _ _ H)), Hr. naive_solver.
  - intros j k q Hj (q0 & Hq & ->)%Hl. by apply (wi_fifo _ _ _ H j k q0).
Qed.

(** ** Joining two writes *)

Lemma unlink_perm i l : NoDup l -> i ∈ l -> Permutation l (i :: unlink i l).
Proof.
  induction 1 as [|j l Hj Hl IH]; [by intros ?%not_elem_of_nil|]. intros Hi. unfold unlink.
  rewrite filter_cons. destruct (decide (j <> i)) as [Hne|Heq].
  - apply elem_of_cons in Hi as [?|Hi]; [done|]. rewrite (IH Hi) at 1. apply perm_swap.
  - apply dec_stable in Heq as ->. f_equiv. fold (unlink i l). by rewrite unlink_id.
Qed.

Lemma joins_facts conf hr req :
  joins conf hr req = true ->
  st_offset (rq_stub req) = st_offset (rq_stub hr) + write_size hr /\ rq_fd req = rq_fd hr /\
  st_owner (rq_stub req) = st_owner (rq_stub hr).
Proof.
  unfold joins. intros H. apply andb_prop in H as [H _]. apply andb_prop in H as [H H3].
  apply andb_prop in H as [H1 H2]. apply bool_decide_eq_true_1 in H3. split_and!; [lia|done|lia].
Qed.

Lemma collapse_ok conf h i w hr req :
  reqs w !! h = Some hr -> reqs w !! i = Some req -> write_ok hr -> write_ok req ->
  joins conf hr req = true ->
  exists hr', __wb_collapse_small_writes h i w = Some (put h hr' w) /\ write_ok hr' /\
    st_fop (rq_stub hr') = st_fop (rq_stub hr) /\ st_frame (rq_stub hr') = st_frame (rq_stub hr) /\
    rq_fd hr' = rq_fd hr /\ rq_gen hr' = rq_gen hr /\ refcount hr' = refcount hr /\
    tempted hr' = tempted hr /\ lied hr' = lied hr /\ fulfilled hr' = fulfilled hr /\
    rq_parts hr' = rq_parts hr ++ rq_parts req /\
    st_offset (rq_stub hr') = st_offset (rq_stub hr) /\ data_of hr' = data_of hr ++ data_of req.
Proof.
  intros Hh Hi Oh Oi (Eoff & Efd & _)%joins_facts.
  destruct Oh as [F1 [d V1] B1 [S1 P1] O1 R1 G1]. destruct Oi as [F2 [e V2] B2 [S2 P2] O2 R2 G2].
  unfold data_of in *. rewrite V1 in *. rewrite V2 in *. cbn [concat] in *. rewrite app_nil_r in *.
  unfold __wb_collapse_small_writes. rewrite Hh, Hi. cbn [mbind option_bind]. rewrite V1, V2.
  cbn [head mbind option_bind concat]. rewrite !app_nil_r.
  assert (default d (rq_buf hr) = d) as ->.
  { destruct (rq_buf hr) as [b|] eqn:Eb; [|done]. cbn. by apply B1. }
  assert (take (Z.to_nat (Z.of_nat (length d) + write_size req)) (d ++ e) = d ++ e) as Etake.
  { apply take_ge. rewrite length_app. lia. }
  rewrite Etake. eexists. split; [done|]. split; [|split_and!; try done; cbn; by rewrite app_nil_r].
  split; cbn; unfold data_of; cbn; rewrite ?app_nil_r; try done; try lia; eauto.
  - congruence.
  - rewrite length_app. lia.
  - split; [lia|]. unfold u64, uwrap. rewrite Z.mod_small by lia. lia.
Qed.

Lemma moved_join w w2 h i hr req hr' :
  h <> i -> reqs w !! h = Some hr -> reqs w !! i = Some req -> reqs w2 !! h = Some hr' ->
  (forall j, j <> i -> j <> h -> reqs w2 !! j = reqs w !! j) ->
  (forall r', reqs w2 !! i = Some r' -> fulfilled r' = true /\ same_request req r') ->
  tempted hr = true -> fulfilled hr = false -> fulfilled hr' = false -> lied hr' = lied hr ->
  (lied req = true -> lied hr = true) -> rq_gen hr <= rq_gen req -> same_request hr hr' ->
  rq_parts hr' = rq_parts hr ++ rq_parts req -> tempted req = true -> fulfilled req = false ->
  covers hr' hr -> covers hr' req -> h ∈ todo w -> i ∈ todo w -> (forall k, k ∈ todo w2 -> k ∈ todo w) ->
  (forall k, k ∈ wip w -> is_Some (reqs w2 !! k) -> k ∈ wip w2) -> gen w <= gen w2 /\ next_req w2 = next_req w /\ wb_size w2 = wb_size w -> moved w w2.
Proof.
  intros Hne Eh Ei Eh' Ho Hf Th Fh Fh' Lh Lr Hg Hs Hp Ti Fi Ch Ci Hh Hi Htd Hwip Hfr.
  pose proof (sr_tempted _ _ Hs) as Th'. pose proof (sr_gen _ _ Hs) as Gh. split; [.. |done|done| |done].
  - intros j f r' (Hr & Ht & Hfu & Hin). destruct (decide (j = i)) as [->|Hji].
    { destruct (Hf _ Hr). congruence. }
    destruct (decide (j = h)) as [->|Hjh].
    + assert (r' = hr') as -> by congruence. rewrite Hp, elem_of_app in Hin. destruct Hin as [Hin|Hin].
      * exists h, hr. split_and!; [by split_and!|lia|congruence|done].
      * exists i, req. split_and!; [by split_and!|lia|rewrite Lh; auto|done].
    + exists j, r'. rewrite Ho in Hr by done. split_and!; [by split_and!|lia|done|apply covers_refl].
  - intros j f r (Hr & Ht & Hfu & Hin). destruct (decide (j = i)) as [->|Hji].
    { exists h, hr'. split_and!; [done|congruence|done|]. rewrite Hp. assert (r = req) by congruence. set_solver. }
    destruct (decide (j = h)) as [->|Hjh].
    + exists h, hr'. split_and!; [done|congruence|done|]. rewrite Hp. assert (r = hr) by congruence. set_solver.
    + exists j, r. unfold carries. by rewrite Ho.
  - intros j q Hq. destruct (decide (j = i)) as [->|Hji]; [destruct (Hf _ Hq); eauto|].
    destruct (decide (j = h)) as [->|Hjh]; [assert (q = hr') as -> by congruence; eauto|].
    exists q. rewrite <- Ho by done. split; [done|]. by split.
  - intros k q q' Hk Hq Hq'. assert (k <> i /\ k <> h) as [? ?] by (split; congruence).
    rewrite Ho in Hq' by done. assert (q' = q) as -> by congruence. apply frozen_refl.
Qed.

Lemma winv_collapse conf w W V h i hr req :
  winv w W V -> h ∈ todo w -> i ∈ todo w -> (h < i)%nat -> reqs w !! h = Some hr ->
  reqs w !! i = Some req -> tempted hr = true -> tempted req = true -> joins conf hr req = true ->
  exists w1 w2, __wb_collapse_small_writes h i w = Some w1 /\
    __wb_fulfill_request i (set_todo (unlink i (todo w1)) w1) = Some w2 /\
    winv w2 W V /\ moved w w2 /\ todo w2 = unlink i (todo w) /\
    (forall j, j <> i -> j <> h -> reqs w2 !! j = reqs w !! j) /\
    (exists hr', reqs w2 !! h = Some hr' /\ tempted hr' = true).
Proof.
  intros H Hh Hi Hlt Ehr Ereq Th Ti Hj.
  pose proof (wi_wf _ _ _ H _ _ Ehr) as Wh. pose proof (wi_wf _ _ _ H _ _ Ereq) as Wi.
  destruct (collapse_ok conf h i w hr req) as (hr' & Ec & Ok & Efop & Efr & Efd & Eg & Er & Et & El & Ef & Ep & Eo & Ed);
    try done; [by apply Wh, Wh|by apply Wi, Wi|].
  assert (~ h ∈ wip w) as Hwip by (by intros [_ ?]%(wi_wip _ _ _ H)).
  assert (winv (put h hr' w) W V) as H1.
  { assert (is_write hr' = is_write hr) as Ew by (unfold is_write; by rewrite Efop).
    eapply winv_put; try done; [by left|]. split; [done|]. intros _. unfold is_write. rewrite Efop. by apply Wh. }
  set (w1 := put h hr' w) in *.
  assert (reqs w1 !! i = Some req) as Ei by (cbn; by rewrite lookup_insert_ne by lia).
  destruct (winv_fulfilled w1 W W V i req (unlink i (todo w1))) as (w2 & Ew & H2 & Ho & Htd & Hf'); try done.
  { rewrite (app_comm_cons _ _ i). f_equiv. apply unlink_perm; [|done].
    pose proof (wi_winds _ _ _ H1) as [? _]%NoDup_app. done. }
  { apply sorted_unlink, H1. }
  { intros j [? _]%elem_of_unlink. done. }
  assert (forall r', reqs w2 !! i = Some r' -> fulfilled r' = true /\ same_request req r') as Hf.
  { intros r' Hr'. by apply fulfilled_same, Hf'. }
  exists w1, w2. split_and!; [done..| |done| |].
  2:{ intros j Hji Hjh. rewrite (ot_reqs _ _ _ Ho j Hji). cbn. by rewrite lookup_insert_ne. }
  2:{ exists hr'. split; [|congruence]. rewrite (ot_reqs _ _ _ Ho) by lia. cbn. apply lookup_insert_eq. }
  assert (forall k r, k ∈ todo w -> reqs w !! k = Some r -> tempted r = true -> fulfilled r = false) as Hfu.
  { intros k r Hk Hkr Hkt. apply (wi_wind _ _ _ H k r); [done..|set_solver]. }
  assert (reqs w2 !! h = Some hr') as E2.
  { rewrite (ot_reqs _ _ _ Ho) by lia. cbn. apply lookup_insert_eq. }
  destruct (wo_size _ Ok) as [Sz _]. destruct (wo_size _ (rw_write _ Wh (rw_tempted _ Wh Th))) as [Sh ?].
  destruct (wo_size _ (rw_write _ Wi (rw_tempted _ Wi Ti))) as [Si ?].
  rewrite Ed, length_app in Sz. destruct (joins_facts _ _ _ Hj) as (Jo & Jf & _).
  eapply (moved_join w w2 h i hr req hr'); try done; try lia; try (by rewrite ?Ef; eauto).
  - intros j Hji Hjh. rewrite (ot_reqs _ _ _ Ho j Hji). cbn. by rewrite lookup_insert_ne.
  - intros Hl. destruct (lied hr) eqn:Hlh; [done|].
    assert (h ∈ temptation w) as Hht by (eapply (wi_held _ _ _ H); eauto).
    assert (i ∈ liability w) as Hil by (apply (wi_lia _ _ _ H); eauto).
    pose proof (wi_fifo _ _ _ H h i hr Hht Ehr (Hfu _ _ Hh Ehr Th) Hil). lia.
  - by apply (wi_gen _ _ _ H h i).
  - split; [done|done|done|congruence].
  - split; [done|]. rewrite Ed, Eo. exists [], (data_of req). split; [done|cbn; lia].
  - split; [congruence|]. rewrite Ed, Eo. exists (data_of hr), []. rewrite app_nil_r. split; [done|lia].
  - rewrite Htd. intros k [? _]%elem_of_unlink. done.
  - apply (ot_wip _ _ _ Ho).
  - destruct (ot_rest _ _ _ Ho) as (Hn & Hsz & _). split_and!; [|done..].
    destruct (ot_gen _ _ _ Ho) as [->|[_ He]]; [cbn; lia|]. by rewrite He, lookup_empty in E2.
Qed.

(** ** Preprocessing *)

Lemma winv_go w W V h hr :
  winv w W V -> reqs w !! h = Some hr ->
  go_on h w = Some (put h (set_go hr) w) /\ winv (put h (set_go hr) w) W V /\
  moved w (put h (set_go hr) w).
Proof.
  intros H Hr. assert (alike w (put h (set_go hr) w)) as Hal by (by eapply alike_put).
  split_and!; [unfold go_on; by rewrite Hr| |apply moved_alike; cbn; done].
  eapply winv_alike; try done; [apply H|..].
  - intros j q. cbn [reqs put set_reqs]. pose proof (wi_refs _ _ _ H j) as Hj.
    destruct (decide (j = h)) as [->|Hne].
    + rewrite lookup_insert_eq. intros [= <-]. by rewrite Hr in Hj.
    + rewrite lookup_insert_ne by done. intros Hq. by rewrite Hq in Hj.
  - intros j Hj. pose proof (wi_refs _ _ _ H j) as Hx. rewrite Hj in Hx. apply Hx.
Qed.

Lemma unlink_mid i l l' : NoDup (l ++ i :: l') -> unlink i (l ++ i :: l') = l ++ l'.
Proof.
  intros (H1 & H2 & H3)%NoDup_app. apply NoDup_cons in H3 as [H3 _].
  rewrite unlink_app. unfold unlink at 2. rewrite filter_cons, decide_False by auto.
  fold (unlink i l'). rewrite !unlink_id; [done|done|]. intros Hi. apply (H2 i Hi). set_solver.
Qed.

Lemma sorted_mid i j l l' : StronglySorted lt (l ++ i :: l') -> j ∈ l -> (j < i)%nat.
Proof.
  induction l as [|k l IH]; [by intros _ ?%not_elem_of_nil|]. cbn. intros Hs Hj.
  apply StronglySorted_inv in Hs as [Hs Hall]. apply elem_of_cons in Hj as [->|Hj]; [|by apply IH].
  rewrite Forall_forall in Hall. apply Hall. set_solver.
Qed.

Lemma preprocess_ok conf l pre holder w W V :
  winv w W V -> todo w = pre ++ l ->
  (forall h, holder = Some h -> h ∈ pre /\ exists hr, reqs w !! h = Some hr /\ tempted hr = true) ->
  exists holder' w', preprocess conf l holder w = Some (holder', w') /\ winv w' W V /\ moved w w' /\
    (forall h, holder' = Some h -> is_Some (reqs w' !! h)).
Proof.
  revert pre holder w. induction l as [|i l IH]; intros pre holder w H Et Hh; cbn [preprocess].
  { exists holder, w. split_and!; [done|done|apply moved_refl|]. intros h (_ & hr & Hr & _)%Hh. eauto. }
  assert (pre ++ i :: l = (pre ++ [i]) ++ l) as Ea by (by rewrite <- app_assoc).
  destruct (refs_live w W V i) as [req Hr]; [done|rewrite Et; set_solver|].
  rewrite Hr. cbn [mbind option_bind]. destruct (tempted req) eqn:Ht; cbn [negb].
  - destruct holder as [h|].
    + destruct (Hh h) as (Hhp & hr & Hhr & Hht); [done|]. rewrite Hhr. cbn [mbind option_bind].
      destruct (joins conf hr req) eqn:Hj.
      * assert (h < i)%nat by (eapply sorted_mid; [rewrite <- Et; apply H|done]).
        destruct (winv_collapse conf w W V h i hr req) as (w1 & w2 & -> & E2 & H2 & Hm & Ht2 & Ho & hr' & Hr' & Ht');
          try done; [rewrite Et; set_solver..|].
        cbn [mbind option_bind]. rewrite E2. cbn [mbind option_bind].
        destruct (IH pre (Some h) w2) as (h' & w' & -> & H' & Hm' & Hl'); [done| | |].
        { rewrite Ht2, Et. apply unlink_mid. rewrite <- Et.
          pose proof (wi_winds _ _ _ H) as [? _]%NoDup_app. done. }
        { intros k [= <-]. eauto. }
        exists h', w'. split_and!; [done|done| |done]. by eapply moved_trans.
      * destruct (winv_go w W V h hr) as (-> & H2 & Hm); [done..|]. cbn [mbind option_bind].
        destruct (IH (pre ++ [i]) (Some i) (put h (set_go hr) w)) as (h' & w' & -> & H' & Hm' & Hl'); [done| | |].
        { cbn. by rewrite Et. }
        { intros k [= <-]. split; [set_solver|]. cbn. destruct (decide (i = h)) as [->|Hne].
          - rewrite lookup_insert_eq. eauto.
          - rewrite lookup_insert_ne by done. eauto. }
        exists h', w'. split_and!; [done|done| |done]. by eapply moved_trans.
    + destruct (IH (pre ++ [i]) (Some i) w) as (h' & w' & -> & H'); [done|by rewrite Et| |eauto].
      intros k [= <-]. split; [set_solver|eauto].
  - destruct holder as [h|].
    + destruct (Hh h) as (Hhp & hr & Hhr & Hht); [done|]. rewrite Hhr. cbn [mbind option_bind].
      destruct (winv_go w W V h hr) as (Eg & H2 & Hm); [done..|].
      destruct (wb_requests_conflict conf h hr i req).
      * rewrite Eg. cbn [mbind option_bind].
        destruct (IH (pre ++ [i]) (Some h) (put h (set_go hr) w)) as (h' & w' & -> & H' & Hm' & Hl'); [done| | |].
        { cbn. by rewrite Et. }
        { intros k [= <-]. split; [set_solver|]. cbn. rewrite lookup_insert_eq. eauto. }
        exists h', w'. split_and!; [done|done| |done]. by eapply moved_trans.
      * cbn [mbind option_bind].
        destruct (IH (pre ++ [i]) (Some h) w) as (h' & w' & -> & H'); [done|by rewrite Et| |eauto].
        intros k [= <-]. split; [set_solver|eauto].
    + destruct (IH (pre ++ [i]) None w) as (h' & w' & -> & H'); [done|by rewrite Et|done|eauto].
Qed.

Lemma preprocess_winds_ok conf w W V :
  winv w W V ->
  exists w', __wb_preprocess_winds conf w = Some w' /\ winv w' W V /\ moved w w'.
Proof.
  intros H. unfold __wb_preprocess_winds.
  destruct (preprocess_ok conf (todo w) [] None w W V) as (holder & w1 & -> & H1 & Hm & Hl); [done..|].
  cbn [mbind option_bind]. destruct holder as [h|]; [|eauto]. destruct (_ && _); [|eauto].
  destruct (Hl h) as [hr Hr]; [done|]. destruct (winv_go w1 W V h hr) as (-> & H2 & Hm2); [done..|].
  eexists. split_and!; [done|done|by eapply moved_trans].
Qed.

(** ** Picking requests to send *)

Lemma range_sym r q : wb_requests_overlap r q = wb_requests_overlap q r.
Proof. unfold wb_requests_overlap. apply andb_comm. Qed.

(** A request leaves the queue: a write goes to the writes in progress, the
    reference to whoever sends it. *)

Lemma winv_take w W V i r P :
  winv w W V -> i ∈ todo w -> reqs w !! i = Some r ->
  (P = wip w /\ is_write r = false \/
   P = wip w ++ [i] /\ is_write r = true /\
   forall j q, j ∈ wip w -> reqs w !! j = Some q -> wb_requests_overlap q r = false) ->
  winv (set_todo (unlink i (todo w)) (set_wip P w))
    (if tempted r then i :: W else W) (if tempted r then V else i :: V).
Proof.
  intros H Hi Hr HP.
  assert (NoDup (todo w)) as Hnd by (pose proof (wi_winds _ _ _ H) as [? _]%NoDup_app; done).
  pose proof (unlink_perm i (todo w) Hnd Hi) as Hp.
  assert (tempted r = true -> is_write r = true) as Htw by (by apply (wi_wf _ _ _ H i)).
  assert (forall j, j ∈ wip w -> j ∈ P) as HPs by (destruct HP as [[-> _]|(-> & _)]; set_solver).
  assert (~ i ∈ wip w) as Hiw by (by intros [_ ?]%(wi_wip _ _ _ H)).
  set (T := unlink i (todo w)) in *.
  set (W' := if tempted r then i :: W else W). set (V' := if tempted r then V else i :: V).
  assert (forall j, cnt j (T ++ W') + cnt j V' = cnt j (todo w ++ W) + cnt j V)%nat as Hcnt.
  { intros j. rewrite !ref_app, (cnt_perm j _ _ Hp), ref_cons. unfold W', V'.
    destruct (tempted r); rewrite ref_cons; lia. }
  split; cbn [todo temptation liability wip all gen next_req wb_size set_todo set_wip reqs]; try apply H.
  - intros j. pose proof (wi_refs _ _ _ H j) as Hj. specialize (Hcnt j). destruct (reqs w !! j); lia.
  - assert (NoDup (i :: T ++ W)) as Hn2 by (rewrite app_comm_cons, <- Hp; apply H). unfold W'.
    destruct (tempted r); [by rewrite <- Permutation_middle|]. by apply NoDup_cons in Hn2 as [_ ?].
  - intros j q Hq Htq. rewrite (wi_wind _ _ _ H j q Hq Htq), Hp. unfold W'.
    destruct (tempted r) eqn:Et; [set_solver|]. assert (j <> i) by congruence. set_solver.
  - unfold W'. intros j Hj. destruct (tempted r) eqn:Et; [|destruct (wi_out _ _ _ H j Hj); auto].
    apply elem_of_cons in Hj as [->|Hj]; [|destruct (wi_out _ _ _ H j Hj); auto].
    destruct HP as [[_ Hw]|(-> & _)]; [by rewrite Htw in Hw|]. split; [set_solver|eauto].
  - destruct HP as [[-> _]|(-> & Hw & _)].
    + split; [apply H|]. intros j [Hj Hn]%(wi_wip _ _ _ H). split; [done|]. unfold T.
      rewrite elem_of_unlink. tauto.
    + split; [rewrite <- Permutation_cons_append; constructor; [done|apply H]|]. intros j Hj.
      unfold T. rewrite elem_of_unlink. apply elem_of_app in Hj as [[Hj Hn]%(wi_wip _ _ _ H)|Hj].
      * tauto.
      * apply list_elem_of_singleton in Hj as ->. split; [eauto|]. tauto.
  - destruct HP as [[-> _]|(-> & Hw & Hov)]; [apply H|]. intros j k q q' Hj Hk Hne Hq Hq'.
    rewrite elem_of_app, list_elem_of_singleton in Hj, Hk.
    destruct Hj as [Hj| ->], Hk as [Hk| ->]; [by apply (wi_apart _ _ _ H j k)|..|done].
    + assert (q' = r) as -> by congruence. by apply (Hov j).
    + assert (q = r) as -> by congruence. rewrite range_sym. by apply (Hov k).
  - split; [apply sorted_unlink, H|apply H].
Qed.

(** What the section looks at when it decides. *)

Lemma linked_ok w l :
  (forall i, i ∈ l -> is_Some (reqs w !! i)) ->
  exists ps, linked w l = Some ps /\
    forall p, p ∈ ps <-> p.1 ∈ l /\ reqs w !! p.1 = Some p.2.
Proof.
  induction l as [|i l IH]; intros Hl; cbn [linked mapM].
  { exists []. split; [done|]. intros p. rewrite !elem_of_nil. tauto. }
  destruct (Hl i) as [r Hr]; [set_solver|]. destruct IH as (ps & Eps & Hps); [set_solver|].
  unfold linked in Eps. exists ((i, r) :: ps). unfold linked. cbn [mapM]. rewrite Hr. cbn [mbind option_bind].
  rewrite Eps. split; [done|]. intros [j q]. rewrite !elem_of_cons, Hps. cbn. split.
  - intros [[= -> ->]|[? ?]]; auto.
  - intros [[->| ?] Hq]; [left; congruence|auto].
Qed.

Definition clear (conf : wb_conf) (w : wb_inode) (i : nat) (r : wb_request) : Prop :=
  forall j q, j ∈ liability w -> reqs w !! j = Some q -> wb_requests_conflict conf j q i r = false.

Lemma liability_conflict conf w W V i r :
  winv w W V -> exists c, wb_liability_has_conflict conf i r w = Some c /\ (c = false -> clear conf w i r).
Proof.
  intros H. unfold wb_liability_has_conflict. destruct (linked_ok w (liability w)) as (ps & -> & Hps).
  { intros j Hj. apply (wi_lia _ _ _ H) in Hj as (q & Hq & _). eauto. }
  cbn [mbind option_bind]. eexists. split; [done|]. intros Hc j q Hj Hq.
  destruct (wb_requests_conflict conf j q i r) eqn:Hx; [|done]. rewrite <- not_true_iff_false in Hc.
  destruct Hc. apply existsb_exists. exists (j, q). split; [|done]. apply list_elem_of_In, Hps. done.
Qed.

Lemma wip_conflict w W V i r :
  winv w W V -> i ∈ todo w ->
  exists c, wb_wip_has_conflict i r w = Some c /\
    (c = false -> is_write r = true ->
       forall j q, j ∈ wip w -> reqs w !! j = Some q -> wb_requests_overlap q r = false).
Proof.
  intros H Hi. unfold wb_wip_has_conflict. destruct (is_write r); cbn [negb]; [|by exists false].
  destruct (linked_ok w (wip w)) as (ps & -> & Hps).
  { intros j Hj. apply (wi_wip _ _ _ H) in Hj as ((q & Hq & _) & _). eauto. }
  cbn [mbind option_bind]. eexists. split; [done|]. intros Hc _ j q Hj Hq.
  destruct (wb_requests_overlap q r) eqn:Hx; [|done]. rewrite <- not_true_iff_false in Hc.
  destruct Hc. apply existsb_exists. exists (j, q). split; [apply list_elem_of_In, Hps; done|]. cbn.
  rewrite Hx, andb_true_r. apply negb_true_iff, Nat.eqb_neq. intros ->.
  by apply (wi_wip _ _ _ H) in Hj as [_ ?].
Qed.

Lemma like_conflict conf i j r r' q q' :
  like r r' -> like q q' -> wb_requests_conflict conf j q' i r' = wb_requests_conflict conf j q i r.
Proof.
  intros Hr Hq. unfold wb_requests_conflict. rewrite (like_overlap _ _ _ _ Hq Hr), (lk_gen _ _ Hr), (lk_gen _ _ Hq).
  destruct Hq as [? ? ? ? ? (? & ? & ? & ->) ?]. done.
Qed.

Lemma clear_alike conf w w' i r r' :
  alike w w' -> liability w' = liability w -> like r r' -> clear conf w i r -> clear conf w' i r'.
Proof.
  intros Hal El Hl Hc j q'. rewrite El. intros Hj (q & Hq & Hlq)%(alike_Some w); [|done].
  rewrite (like_conflict _ _ _ _ _ _ _ Hl Hlq). by apply Hc.
Qed.

(** The writes among requests that are not held back. *)

Definition syncs (w : wb_inode) (l : list nat) : list nat :=
  filter (fun i => from_option is_write false (reqs w !! i) = true) l.

Lemma syncs_alike w w' l : alike w w' -> syncs w' l = syncs w l.
Proof.
  intros Hal. unfold syncs. apply list_filter_iff. intros i. specialize (Hal i).
  destruct (reqs w !! i), (reqs w' !! i); try done. cbn. by rewrite (like_write _ _ Hal).
Qed.

Record rest (w w' : wb_inode) : Prop := {
  re_alike : alike w w';
  re_todo : (forall k, k ∈ todo w' -> k ∈ todo w) /\ (forall k, k ∈ wip w -> k ∈ wip w');
  re_lists : liability w' = liability w /\ temptation w' = temptation w;
  re_others : gen w' = gen w /\ next_req w' = next_req w /\ wb_size w' = wb_size w
}.

Lemma rest_refl w : rest w w.
Proof. split; [apply alike_refl|done..]. Qed.

Lemma rest_trans w1 w2 w3 : rest w1 w2 -> rest w2 w3 -> rest w1 w3.
Proof.
  intros [? [? ?] [? ?] (? & ? & ?)] [? [? ?] [? ?] (? & ? & ?)].
  split; [by eapply alike_trans|auto|split; congruence|].
  split_and!; congruence.
Qed.

Lemma rest_moved w w' : rest w w' -> moved w w'.
Proof. intros [? [? ?] _ (? & ? & ?)]. apply moved_alike; [done..|lia|done|done]. Qed.

Lemma ref_wip i P w : __wb_request_ref i (set_wip P w) = set_wip P <$> __wb_request_ref i w.
Proof.
  unfold __wb_request_ref. cbn [reqs set_wip]. destruct (reqs w !! i); [|done]. cbn. by destruct (_ <? _).
Qed.

(** One request is taken out of the queue. *)

Lemma winv_pick w W V i r P :
  winv w W V -> i ∈ todo w -> reqs w !! i = Some r ->
  (P = wip w /\ is_write r = false \/
   P = wip w ++ [i] /\ is_write r = true /\
   forall j q, j ∈ wip w -> reqs w !! j = Some q -> wb_requests_overlap q r = false) ->
  exists w2, (if is_write r && negb (tempted r) then __wb_request_ref i (set_wip P w) else Some (set_wip P w)) = Some w2 /\
    winv (set_todo (unlink i (todo w2)) w2) (if tempted r then i :: W else W)
      (if tempted r then V else i :: syncs w2 [i] ++ V) /\
    rest w (set_todo (unlink i (todo w2)) w2) /\ todo w2 = todo w /\ wip w2 = P.
Proof.
  intros H Hi Hr HP. assert (syncs w [i] = if is_write r then [i] else []) as Es.
  { unfold syncs. rewrite filter_cons, Hr. cbn. by destruct (is_write r). }
  destruct (is_write r && negb (tempted r)) eqn:Hs.
  - apply andb_prop in Hs as [Hw Ht]. apply negb_true_iff in Ht. rewrite ref_wip.
    destruct (winv_ref w W V i r) as (w1 & -> & H1 & [(_ & Et & El & Em & Ew) Eg En] & Hal & Esz & _); [done..|].
    destruct (alike_fwd _ _ _ _ Hal Hr) as (r1 & Hr1 & Hl).
    exists (set_wip P w1). split; [done|]. rewrite Ht. split_and!; [|split; try done|done|done].
    2:{ cbn. rewrite Et. split; [intros k [? _]%elem_of_unlink; done|]. destruct HP as [[-> _]|(-> & _)]; set_solver. }
    assert (syncs (set_wip P w1) [i] = [i]) as ->.
    { rewrite (syncs_alike w) by done. by rewrite Es, Hw. }
    assert (tempted r1 = false) as Ht1 by (destruct Hl as [? ? ? ? ? (-> & ?) ?]; done).
    pose proof (winv_take w1 W (i :: V) i r1 P) as Hx. rewrite Ht1, Et, Ew, (like_write _ _ Hl) in Hx.
    cbn [todo set_wip]. rewrite Et. apply Hx; [done..|]. destruct HP as [?|(? & ? & Hov)]; [by left|right].
    split_and!; [done..|]. intros j q' Hj (q & Hq & Hlq)%(alike_Some w); [|done].
    rewrite (like_overlap _ _ _ _ Hlq Hl). by apply (Hov j).
  - exists (set_wip P w). split; [done|]. split_and!; [|split; [exact (alike_refl w)| |done..]|done|done].
    2:{ cbn. split; [intros k [? _]%elem_of_unlink; done|]. destruct HP as [[-> _]|(-> & _)]; set_solver. }
    pose proof (winv_take w W V i r P H Hi Hr HP) as Hx. cbn [todo set_wip].
    rewrite (syncs_alike w) by exact (alike_refl w). rewrite Es. destruct (tempted r) eqn:Ht; [done|].
    rewrite andb_true_r in Hs. by rewrite Hs.
Qed.

Definition sendable (conf : wb_conf) (w : wb_inode) (t : bool) (i : nat) : Prop :=
  exists r, reqs w !! i = Some r /\ tempted r = t /\ clear conf w i r.

Lemma sendable_rest conf w w' i r :
  rest w w' -> reqs w !! i = Some r -> clear conf w i r -> sendable conf w' (tempted r) i.
Proof.
  intros [Hal _ [El _] _] Hr Hc. destruct (alike_fwd _ _ _ _ Hal Hr) as (r' & Hr' & Hl).
  exists r'. split_and!; [done| |by eapply clear_alike]. by destruct Hl as [? ? ? ? ? (-> & ?) ?].
Qed.

Lemma pick_winds_ok conf l pre tasks lias w W V :
  winv w W V -> todo w = pre ++ l ->
  exists T L w', pick_winds conf l tasks lias w = Some (tasks ++ T, lias ++ L, w') /\
    winv w' (L ++ W) (T ++ syncs w' T ++ V) /\ rest w w' /\
    (forall i, i ∈ T -> sendable conf w' false i) /\ (forall i, i ∈ L -> sendable conf w' true i) /\
    (forall i, i ∈ wip w \/ i ∈ syncs w' T -> i ∈ wip w') /\ T `sublist_of` l.
Proof.
  revert pre tasks lias w W V. induction l as [|i l IH]; intros pre tasks lias w W V H Et; cbn [pick_winds].
  { exists [], [], w. rewrite !app_nil_r. split_and!; [done|done|apply rest_refl|set_solver..|done]. }
  assert (i ∈ todo w) as Hi by (rewrite Et; set_solver).
  destruct (refs_live w W V i) as [req Hr]; [done|set_solver|]. rewrite Hr. cbn [mbind option_bind].
  destruct (liability_conflict conf w W V i req H) as (c & -> & Hc). cbn [mbind option_bind].
  destruct (wip_conflict w W V i req H Hi) as (c' & -> & Hc'). cbn [mbind option_bind].
  destruct (c || tempted req && negb (o_go (rq_ord req)) || c') eqn:Hskip.
  { destruct (IH (pre ++ [i]) tasks lias w W V) as (T & L & w' & ? & ? & ? & ? & ? & ? & ?); [done| |].
    - by rewrite Et, <- app_assoc.
    - exists T, L, w'. split_and!; try done. by apply sublist_cons. }
  apply orb_false_elim in Hskip as [[-> _]%orb_false_elim ->].
  assert ((if is_write req then set_wip (wip w ++ [i]) w else w) =
    set_wip (if is_write req then wip w ++ [i] else wip w) w) as -> by (destruct (is_write req), w; done).
  destruct (winv_pick w W V i req (if is_write req then wip w ++ [i] else wip w)) as (w2 & -> & H2 & Hre & Et2 & Ew2);
    [done..| |].
  { destruct (is_write req) eqn:Hw; [right|by left]. split_and!; [done..|]. by apply Hc'. }
  cbn [mbind option_bind]. set (w3 := set_todo (unlink i (todo w2)) w2) in *.
  assert (todo w3 = pre ++ l) as Et3.
  { cbn. rewrite Et2, Et. apply unlink_mid. rewrite <- Et. pose proof (wi_winds _ _ _ H) as [? _]%NoDup_app. done. }
  assert (forall j, j ∈ wip w \/ j ∈ syncs w3 [i] -> j ∈ wip w3) as Hwip.
  { intros j Hj. cbn [wip w3 set_todo]. rewrite Ew2. assert (syncs w3 [i] = if is_write req then [i] else []) as Es.
    { rewrite (syncs_alike w) by apply Hre. unfold syncs. rewrite filter_cons, Hr. cbn. by destruct (is_write req). }
    rewrite Es in Hj. destruct (is_write req); set_solver. }
  destruct (tempted req) eqn:Ht.
  - destruct (IH pre tasks (lias ++ [i]) w3 (i :: W) V) as (T & L & w' & -> & H' & Hre' & HT & HL & Hp & Hin); [done..|].
    exists T, (i :: L), w'. rewrite <- app_assoc. pose proof (rest_trans _ _ _ Hre Hre') as Hrt.
    split_and!; [done| |done|done| |naive_solver|by apply sublist_cons].
    + eapply winv_perm; [|done|done]. by rewrite <- Permutation_middle.
    + intros k [->|?]%elem_of_cons; [|auto]. rewrite <- Ht. by eapply sendable_rest; [| |apply Hc].
  - destruct (IH pre (tasks ++ [i]) lias w3 W (i :: syncs w2 [i] ++ V)) as (T & L & w' & -> & H' & Hre' & HT & HL & Hp & Hin);
      [done..|].
    exists (i :: T), L, w'. rewrite <- app_assoc. pose proof (rest_trans _ _ _ Hre Hre') as Hrt.
    assert (syncs w' (i :: T) = syncs w3 [i] ++ syncs w' T) as Es.
    { rewrite !(syncs_alike w3 w') by apply Hre'. apply (filter_app _ [i] T). }
    rewrite Es. split_and!; [done| |done| |done| |by apply sublist_skip].
    + eapply winv_perm; [done| |done]. change (syncs w2 [i]) with (syncs w3 [i]). solve_Permutation.
    + intros k [->|?]%elem_of_cons; [|auto]. rewrite <- Ht. by eapply sendable_rest; [| |apply Hc].
    + intros k. rewrite elem_of_app. naive_solver.
Qed.

(** ** Picking answers *)

Lemma cnt_answer w V i j :
  NoDup (temptation w) -> i ∈ temptation w ->
  (cnt j (unlink i (temptation w)) + cnt j (i :: V) = cnt j (temptation w) + cnt j V)%nat.
Proof.
  intros Hnd Hi. rewrite (cnt_perm j _ _ (unlink_perm i _ Hnd Hi)), !ref_cons. lia.
Qed.

Lemma winv_answer_done w W V i r n :
  winv w W V -> i ∈ temptation w -> reqs w !! i = Some r -> fulfilled r = true ->
  winv (set_window n (set_lies (liability w) (unlink i (temptation w)) w)) W (i :: V).
Proof.
  intros H Hi Hr Hf. pose proof (cnt_answer w V i) as Hc.
  split; cbn [todo temptation liability wip all gen next_req wb_size reqs set_window set_lies]; try apply H.
  - intros j. pose proof (wi_refs _ _ _ H j) as Hj. specialize (Hc j (proj1 (wi_tempt _ _ _ H)) Hi).
    destruct (reqs w !! j); lia.
  - split; [apply unlink_nodup, H|]. intros j [Hj _]%elem_of_unlink. by apply H.
  - split; [apply H|apply sorted_unlink, H].
  - intros j k q [Hj _]%elem_of_unlink. by apply (wi_fifo _ _ _ H).
  - intros j q Hq Ht Hl Hn. apply elem_of_unlink. split; [by eapply (wi_held _ _ _ H)|]. congruence.
Qed.

Lemma winv_answer_lie w W V i r n :
  winv w W V -> i ∈ temptation w -> reqs w !! i = Some r -> fulfilled r = false ->
  (forall k q, k ∈ temptation w -> k <> i -> reqs w !! k = Some q -> fulfilled q = false -> (i < k)%nat) ->
  let w1 := set_lies (liability w ++ [i]) (unlink i (temptation w)) (set_window n w) in
  winv (set_gen (gen w + 1) (put i (set_lied r) w1)) W (i :: V).
Proof.
  intros H Hi Hr Hf Hfirst w1. pose proof (wi_tempt _ _ _ H) as [Hnd Htm].
  destruct (Htm i Hi) as (r0 & Hr0 & Ht & Hnl). assert (r0 = r) as -> by congruence. clear Hr0.
  assert (~ i ∈ liability w) as Hil.
  { intros (q & Hq & Hlq)%(wi_lia _ _ _ H). congruence. }
  eapply (winv_update i r (set_lied r)); [done|].
  split; cbn [w1 todo temptation liability wip all gen next_req wb_size set_gen put set_reqs set_lies set_window];
    try done.
  - split_and!; try done. lia.
  - destruct (wi_wf _ _ _ H i r Hr) as [Hw Htw]. split; [|done]. intros Hx. by destruct (Hw Hx).
  - by right.
  - intros j. pose proof (cnt_answer w V i j Hnd Hi). lia.
  - split_and!; try apply H; try done. exact (wi_wind _ _ _ H i r Hr).
  - split_and!; [by apply unlink_nodup|apply sorted_unlink, H|..|done].
    + intros j Hj. rewrite elem_of_unlink. tauto.
    + rewrite elem_of_unlink. tauto.
  - split_and!.
    + apply NoDup_app. split_and!; [apply H|set_solver|apply NoDup_singleton].
    + set_solver.
    + set_solver.
    + intros _. pose proof (wi_gens _ _ _ H i r Hr) as [? _]. split; [lia|done].
  - intros j k q [Hj Hne]%elem_of_unlink Hq Hfq Hk. cbn in Hq. rewrite lookup_insert_ne in Hq by done.
    apply elem_of_app in Hk as [Hk|Hk]; [by apply (wi_fifo _ _ _ H j k q)|].
    apply list_elem_of_singleton in Hk as ->. by apply (Hfirst j q).
Qed.

Lemma moved_lie w i r n :
  reqs w !! i = Some r ->
  let w1 := set_lies (liability w ++ [i]) (unlink i (temptation w)) (set_window n w) in
  moved w (set_gen (gen w + 1) (put i (set_lied r) w1)).
Proof.
  intros Hr w1. set (w' := set_gen _ _).
  assert (forall j q, reqs w' !! j = Some q -> exists q0, reqs w !! j = Some q0 /\ (q = q0 \/ q = set_lied q0)) as Hl.
  { intros j q. cbn. destruct (decide (j = i)) as [->|Hne].
    - rewrite lookup_insert_eq. intros [= <-]. eauto.
    - rewrite lookup_insert_ne by done. eauto. }
  split.
  - intros j f q ((q0 & Hq & Eq)%Hl & Ht & Hf & Hin). exists j, q0.
    destruct Eq as [-> | ->]; (split_and!; [by split_and!|cbn; lia|done|by apply covers_stub]).
  - intros j f q (Hq & Ht & Hf & Hin). destruct (decide (j = i)) as [->|Hne].
    + exists i, (set_lied r). assert (q = r) as -> by congruence. split_and!; try done. cbn. apply lookup_insert_eq.
    + exists j, q. split_and!; try done. cbn. by rewrite lookup_insert_ne.
  - intros j q (q0 & Hq & Eq)%Hl. exists q0. split; [done|]. destruct Eq as [-> | ->]; by split.
  - done.
  - done.
  - intros k q q' _ Hq (q0 & Hq0 & Eq)%Hl. assert (q0 = q) as -> by congruence.
    destruct Eq as [-> | ->]; [apply frozen_refl|by split].
  - cbn. split_and!; [lia|done..].
Qed.

Definition answerable (w : wb_inode) (i : nat) : Prop :=
  exists r, reqs w !! i = Some r /\ tempted r = true /\ (lied r = true \/ fulfilled r = true).

(** The inode after one answer is picked. *)

Definition answered (i : nat) (r : wb_request) (w : wb_inode) : wb_inode :=
  let w := set_lies (liability w) (unlink i (temptation w)) w in
  let w := set_window (window_current w + orig_size r) w in
  if fulfilled r then w
  else
    let w := set_lies (liability w ++ [i]) (temptation w) w in
    set_gen (gen w + 1) (put i (set_lied r) w).

Lemma answered_ok w W V i r :
  winv w W V -> i ∈ temptation w -> reqs w !! i = Some r ->
  (fulfilled r = false -> forall k, k ∈ temptation w -> k <> i -> (i < k)%nat) ->
  winv (answered i r w) W (i :: V) /\ moved w (answered i r w) /\ answerable (answered i r w) i /\
  (forall j, answerable w j -> answerable (answered i r w) j) /\
  (forall j, is_Some (reqs w !! j) -> is_Some (reqs (answered i r w) !! j)).
Proof.
  intros H Hi Hr Hfirst. destruct (proj2 (wi_tempt _ _ _ H) i Hi) as (r0 & Hr0 & Ht & Hnl).
  assert (r0 = r) as -> by congruence. unfold answered. destruct (fulfilled r) eqn:Hf.
  - split_and!; [by eapply winv_answer_done|apply moved_alike; [exact (alike_refl w)|cbn; done..]| |done..].
    exists r. auto.
  - pose proof (winv_answer_lie w W V i r (window_current w + orig_size r) H Hi Hr Hf) as H2.
    assert (forall j q, reqs w !! j = Some q ->
      exists q', <[i := set_lied r]> (reqs w) !! j = Some q' /\ (q' = q \/ q' = set_lied q)) as Hl.
    { intros j q Hq. destruct (decide (j = i)) as [->|Hne].
      - rewrite lookup_insert_eq. replace q with r by congruence. eauto.
      - rewrite lookup_insert_ne by done. eauto. }
    split_and!.
    + apply H2. intros k q Hk Hne _ _. by apply Hfirst.
    + exact (moved_lie w i r (window_current w + orig_size r) Hr).
    + exists (set_lied r). cbn. rewrite lookup_insert_eq. auto.
    + intros j (q & Hq & Htq & Hd). destruct (Hl j q Hq) as (q' & Hq' & [-> | ->]); [by exists q|].
      exists (set_lied q). auto.
    + intros j [q Hq]. destruct (Hl j q Hq) as (q' & Hq' & _). exists q'. exact Hq'.
Qed.

Lemma pick_unwinds_ok l pre lies w W V :
  winv w W V -> temptation w = pre ++ l ->
  (pre = [] \/ window_conf w < window_current w) ->
  exists Y w', pick_unwinds l lies w = Some (lies ++ Y, w') /\ winv w' W (Y ++ V) /\ moved w w' /\
    (forall i, answerable w i -> answerable w' i) /\ (forall i, i ∈ Y -> answerable w' i) /\
    (forall i, is_Some (reqs w !! i) -> is_Some (reqs w' !! i)) /\ wip w' = wip w.
Proof.
  revert pre lies w V. induction l as [|i l IH]; intros pre lies w V H Et Hw; cbn [pick_unwinds].
  { exists [], w. rewrite app_nil_r. split_and!; [done|done|apply moved_refl|set_solver..]. }
  assert (i ∈ temptation w) as Hi by (rewrite Et; set_solver).
  destruct (proj2 (wi_tempt _ _ _ H) i Hi) as (req & Hr & Ht & Hnl). rewrite Hr. cbn [mbind option_bind].
  pose proof (proj1 (wi_tempt _ _ _ H)) as Hnd.
  destruct (negb (fulfilled req) && (window_conf w <? window_current w)) eqn:Hskip.
  { apply (IH (pre ++ [i])); [done|by rewrite Et, <- app_assoc|right]. apply andb_prop in Hskip as [_ ?]. lia. }
  assert (unlink i (temptation w) = pre ++ l) as Eu by (rewrite Et; apply unlink_mid; by rewrite <- Et).
  assert (0 <= orig_size req) as Hos by (apply wo_orig, (wi_wf _ _ _ H i), (wi_wf _ _ _ H i); done).
  destruct (answered_ok w W V i req H Hi Hr) as (H2 & Hm2 & Hai & Ha2 & Hs2).
  { intros Hf k Hk Hne. rewrite Hf in Hskip. destruct Hw as [->|?]; [|cbn in Hskip; lia].
    destruct (wi_order _ _ _ H) as [_ Hso]. rewrite Et in Hso, Hk.
    apply StronglySorted_inv in Hso as [_ Hall]. rewrite Forall_forall in Hall. apply Hall. set_solver. }
  destruct (IH pre (lies ++ [i]) (answered i req w) (i :: V)) as (Y & w' & E' & H' & Hm & Ha & HY & Hs & Ew).
  { done. }
  { unfold answered. by destruct (fulfilled req). }
  { destruct Hw; [by left|right]. unfold answered. destruct (fulfilled req); cbn; lia. }
  exists (i :: Y), w'. split_and!.
  - rewrite <- app_assoc in E'. etrans; [|exact E']. unfold answered. by destruct (fulfilled req).
  - eapply winv_perm; [done| |done]. by rewrite <- Permutation_middle.
  - by eapply moved_trans.
  - auto.
  - intros k [->|?]%elem_of_cons; auto.
  - auto.
  - rewrite Ew. unfold answered. by destruct (fulfilled req).
Qed.

(** ** The section *)

Lemma syncs_moved w w' l :
  moved w w' -> (forall i, i ∈ l -> is_Some (reqs w' !! i)) -> syncs w' l = syncs w l.
Proof.
  intros Hm Hl. unfold syncs. induction l as [|i l IH]; [done|]. rewrite !filter_cons.
  destruct (Hl i) as [r' Hr']; [set_solver|]. destruct (mv_live _ _ Hm i r' Hr') as (r & Hr & Hs).
  rewrite Hr, Hr', IH by set_solver. cbn. unfold is_write. by rewrite (proj1 (sr_call _ _ Hs)).
Qed.

Lemma section_ok conf w W V :
  winv w W V ->
  exists T Y L wm w', process_section conf w = Some (T, Y, L, w') /\
    winv wm (L ++ W) (T ++ syncs w' T ++ V) /\ winv w' (L ++ W) (Y ++ T ++ syncs w' T ++ V) /\
    moved w wm /\ moved wm w' /\ (forall i, i ∈ T -> sendable conf wm false i /\ i ∈ todo w) /\
    (forall i, i ∈ Y -> answerable w' i) /\ (forall i, i ∈ syncs w' T -> i ∈ wip w') /\ NoDup T.
Proof.
  intros H. unfold process_section.
  destruct (preprocess_winds_ok conf w W V H) as (w1 & -> & H1 & Hm1). cbn [mbind option_bind].
  unfold __wb_pick_winds.
  destruct (pick_winds_ok conf (todo w1) [] [] [] w1 W V H1 eq_refl) as (T & L & wm & -> & Hwm & Hre & HT & HL & Hp & Hin).
  cbn [mbind option_bind app]. unfold __wb_pick_unwinds.
  destruct (pick_unwinds_ok (temptation wm) [] [] wm _ _ Hwm eq_refl) as (Y & w' & -> & H' & Hm' & Ha & HY & Hs & Ew).
  { by left. }
  cbn [mbind option_bind app].
  assert (syncs w' T = syncs wm T) as Es.
  { apply (syncs_moved _ _ _ Hm'). intros i (r & Hr & _)%HT. eauto. }
  exists T, Y, L, wm, w'. rewrite Es, Ew. split_and!; try done; [| |auto|].
  - eapply moved_trans; [done|]. by apply rest_moved.
  - intros i Hi. split; [auto|]. apply (mv_todo _ _ Hm1). by eapply elem_of_sublist.
  - eapply sublist_NoDup; [|done]. pose proof (wi_winds _ _ _ H1) as [? _]%NoDup_app. done.
Qed.
