(* ===== verification/WbSteps.v ===== *)
(** * Write-behind: the other critical sections, and histories

    Arrival, write-back and fulfilment keep the invariant of WbInv.v; what they do
    to the data that is held back is one relation, [shift]. Then what the clients
    see, and the invariant that links the history of a run to the queues. *)

From Stdlib Require Import ZArith Lia Bool Ascii String.
From stdpp Require Import base list strings gmap sorting.
From S2P Require Import Prelude WriteBehind WbInv WbSection.

(** Data stays where it is or moves to an earlier request; only the data that
    [G] names may be given up. *)

Record shift (G : nat -> Prop) (w w' : wb_inode) : Prop := {
  sh_back : forall i' f r', carries w' i' f r' ->
    exists i r, carries w i f r /\ rq_gen r' <= rq_gen r /\ (lied r = true -> lied r' = true) /\
      covers r' r;
  sh_fwd : forall i f r, carries w i f r -> G f \/ exists i' r', carries w' i' f r';
  sh_live : forall k q', reqs w' !! k = Some q' -> exists q, reqs w !! k = Some q /\ same_request q q';
  sh_wip : forall k, k ∈ wip w -> is_Some (reqs w' !! k) -> k ∈ wip w';
  sh_todo : forall k, k ∈ todo w' -> k ∈ todo w;
  sh_keep : forall k q q', ~ k ∈ todo w -> reqs w !! k = Some q -> reqs w' !! k = Some q' -> frozen q q'
}.

Lemma shift_moved G w w' : moved w w' -> shift G w w'.
Proof. intros [B F L ? ? ? _]. split; [done| |done..]. intros i f r Hc. right. by eapply F. Qed.

Lemma shift_trans G w1 w2 w3 : shift G w1 w2 -> shift G w2 w3 -> shift G w1 w3.
Proof.
  intros [B1 F1 L1 P1 T1 K1] [B2 F2 L2 P2 T2 K2]. split.
  - intros i3 f r3 (i2 & r2 & (i1 & r1 & Hc & Hg1 & Hl1 & Hv1)%B1 & Hg2 & Hl2 & Hv2)%B2.
    exists i1, r1. split_and!; [done|lia|auto|by eapply covers_trans].
  - intros i f r [?|(i2 & r2 & Hc)]%F1; [by left|]. by apply F2 in Hc.
  - intros k q3 (q2 & (q1 & Hq & Hs1)%L1 & Hs2)%L2. exists q1. split; [done|].
    by eapply alike_request_trans.
  - intros k Hk [q Hq]. apply P2; [|eauto]. apply P1; [done|]. destruct (L2 _ _ Hq) as (q2 & -> & _). eauto.
  - auto.
  - intros k q q' Hk Hq Hq'. destruct (L2 _ _ Hq') as (q2 & Hq2 & _). eapply frozen_trans; [by eapply K1|].
    by eapply K2; eauto.
Qed.

Lemma shift_refl G w : shift G w w.
Proof. apply shift_moved, moved_refl. Qed.

Lemma shift_weaken (G G' : nat -> Prop) w w' : (forall f, G f -> G' f) -> shift G w w' -> shift G' w w'.
Proof. intros HG [B F L P T K]. split; [done| |done..]. intros i f r [?|?]%F; auto. Qed.

(** A change that only removes carriers. *)

Lemma shift_same G w w' :
  (forall k q', reqs w' !! k = Some q' -> exists q, reqs w !! k = Some q /\ like q q') ->
  (forall i f r, carries w i f r -> G f \/ exists r', reqs w' !! i = Some r') ->
  (forall k, k ∈ todo w' -> k ∈ todo w) ->
  (forall k, k ∈ wip w -> is_Some (reqs w' !! k) -> k ∈ wip w') -> shift G w w'.
Proof.
  intros Hl Hf Htd Hwip. split; [.. |done|done|].
  - intros i f r' (Hr' & Ht & Hfu & Hp). destruct (Hl _ _ Hr') as (r & Hr & Hk). exists i, r.
    pose proof (like_fd _ _ Hk). destruct Hk as [Es ? (Ew & ? & ?) Eg ? (Et & El & Ef & ?) Ep].
    split_and!; [split_and!; congruence|lia|congruence|].
    by apply covers_stub.
  - intros i f r Hc. destruct (Hf i f r Hc) as [?|[r' Hr']]; [by left|right].
    destruct (Hl _ _ Hr') as (r0 & Hr0 & Hk). destruct Hc as (Hr & Ht & Hfu & Hp).
    assert (r0 = r) as -> by congruence. exists i, r'.
    destruct Hk as [? ? ? ? ? (Et & El & Ef & ?) Ep]. split_and!; congruence.
  - intros k q' (q & Hq & Hk)%Hl. exists q. split; [done|by apply like_same].
  - intros k q q' _ Hq (q0 & Hq0 & Hk)%Hl. assert (q0 = q) as -> by congruence. by apply like_frozen.
Qed.

Lemma shift_dropped G i w w' : dropped i w w' -> shift G w w'.
Proof.
  intros Hd. apply shift_same; [by intros; eapply dropped_live| | |].
  3:{ intros k Hk [q Hq]. destruct (dr_case _ _ _ Hd) as [[[(_ & _ & _ & _ & ->) _ _] _]|[-> _]]; [done|].
      cbn in *. apply lookup_delete_Some in Hq as [? _]. apply elem_of_unlink. auto. }
  2:{ intros k. destruct (dr_case _ _ _ Hd) as [[[(_ & -> & _) _ _] _]|[-> _]]; [done|]. cbn.
      rewrite elem_of_unlink. tauto. }
  intros k f r (Hr & Ht & Hf & _). right. destruct (decide (k = i)) as [->|Hne].
  - destruct (dr_case _ _ _ Hd) as [[_ Hal]|[_ Hx]].
    + destruct (alike_fwd _ _ _ _ Hal Hr) as (r' & Hr' & _). eauto.
    + rewrite (Hx r Hr Ht) in Hf. done.
  - rewrite (dr_others _ _ _ Hd) by done. eauto.
Qed.

(** ** Fulfilment *)

Lemma fulfill_shift (G : nat -> Prop) i w w' :
  others i w w' -> todo w' = todo w ->
  (forall r', reqs w' !! i = Some r' -> exists r, reqs w !! i = Some r /\ like (set_fulfilled r) r') ->
  (forall f r, carries w i f r -> G f) -> shift G w w'.
Proof.
  intros [Ho _ Hwp _] Htd Hf HG. split; [.. |done|by rewrite Htd|].
  - intros k f r' (Hr & Ht & Hfu & Hp). destruct (decide (k = i)) as [->|Hne].
    + destruct (Hf _ Hr) as (r & _ & [Hx _]%fulfilled_same). congruence.
    + rewrite Ho in Hr by done. exists k, r'. split_and!; [by split_and!|lia|done|apply covers_refl].
  - intros k f r Hc. destruct (decide (k = i)) as [->|Hne]; [left; by eapply HG|right].
    exists k, r. destruct Hc. split; [by rewrite Ho|done].
  - intros k q' Hq. destruct (decide (k = i)) as [->|Hne].
    + destruct (Hf _ Hq) as (r & Hr & [_ ?]%fulfilled_same). eauto.
    + rewrite Ho in Hq by done. exists q'. split; [done|by split].
  - intros k q q' _ Hq Hq'. destruct (decide (k = i)) as [->|Hne].
    + destruct (Hf _ Hq') as (r & Hr & Hl). assert (r = q) as -> by congruence.
      eapply frozen_trans; [|by apply like_frozen]. by split.
    + rewrite Ho in Hq' by done. assert (q' = q) as -> by congruence. apply frozen_refl.
Qed.

Lemma fulfill_all_ok (G : nat -> Prop) l w W V :
  winv w (l ++ W) V -> (forall i f r, i ∈ l -> carries w i f r -> G f) ->
  exists w', fulfill_all l w = Some w' /\ winv w' W V /\ shift G w w'.
Proof.
  revert w. induction l as [|i l IH]; intros w H HG; cbn [fulfill_all].
  { exists w. split_and!; [done|done|apply shift_refl]. }
  destruct (winv_fulfill w (l ++ W) V i) as (w1 & -> & H1 & Ho & Htd & Hf); [done|].
  cbn [mbind option_bind]. assert (shift G w w1) as Hs.
  { eapply fulfill_shift; [done|done|done|]. intros f r Hc. eapply HG; [|done]. set_solver. }
  destruct (IH w1) as (w' & -> & H' & Hs'); [done| |].
  - intros j f r Hj Hc. assert (j <> i) as Hne.
    { intros ->. pose proof (wi_winds _ _ _ H) as (_ & _ & Hnd)%NoDup_app. cbn in Hnd.
      apply NoDup_cons in Hnd as [Hn _]. set_solver. }
    apply (HG j f r); [set_solver|]. destruct Hc. split; [|done]. by rewrite <- (ot_reqs _ _ _ Ho).
  - exists w'. split_and!; [done|done|by eapply shift_trans].
Qed.

(** ** Failures *)

Lemma mark_failed_ok l fd err w W V :
  winv w W V -> (forall i, i ∈ l -> is_Some (reqs w !! i)) ->
  exists w', mark_failed l fd err w = Some w' /\ winv w' W V /\ alike w w' /\ same_lists w w'.
Proof.
  revert w. induction l as [|i l IH]; intros w H Hl; cbn [mark_failed].
  { exists w. split_and!; [done|done|apply alike_refl|by split]. }
  destruct (Hl i) as [r Hr]; [set_solver|]. rewrite Hr. cbn [mbind option_bind].
  set (w1 := if decide (rq_fd r = fd) then put i (set_result (-1) err r) w else w).
  assert (winv w1 W V /\ alike w w1 /\ same_lists w w1) as (H1 & Hal & Hsl).
  { unfold w1. case_decide; [|split_and!; [done|apply alike_refl|by split]].
    split_and!; [|eapply alike_put; [done|by split]|by split].
    eapply winv_put; try done; [by right|]. eapply like_wf; [|by apply (wi_wf _ _ _ H i)]. by split. }
  destruct (IH w1) as (w' & E' & H' & Hal' & Hsl').
  - done.
  - intros j Hj. destruct (Hl j) as [q Hq]; [set_solver|].
    destruct (alike_fwd _ _ _ _ Hal Hq) as (q' & -> & _). eauto.
  - exists w'. split_and!; [done|done|by eapply alike_trans|].
    destruct Hsl as [(? & ? & ? & ? & ?) ? ?], Hsl' as [(? & ? & ? & ? & ?) ? ?].
    split; [split_and!; congruence|congruence..].
Qed.

Lemma shift_alike G w w' : alike w w' -> same_lists w w' -> shift G w w'.
Proof.
  intros Hal [(_ & Htd & _ & _ & Hwp) _ _].
  apply shift_same; [by intros; eapply alike_Some| |by rewrite Htd|by rewrite Hwp].
  intros i f r (Hr & _). right. destruct (alike_fwd _ _ _ _ Hal Hr) as (r' & Hr' & _). eauto.
Qed.

(** ** Arrival *)

Record fresh_request (r : wb_request) : Prop := {
  fr_wf : request_wf r;
  fr_flags : lied r = false /\ fulfilled r = false
}.

Lemma sorted_snoc i l : StronglySorted lt l -> (forall j, j ∈ l -> (j < i)%nat) -> StronglySorted lt (l ++ [i]).
Proof.
  induction 1 as [|j l Hl IH Hj]; intros Hi; cbn; [repeat constructor|]. constructor; [apply IH; set_solver|].
  apply Forall_app. split; [done|]. constructor; [|done]. apply Hi. set_solver.
Qed.

Lemma ref_snoc i j l : cnt j (l ++ [i]) = (cnt j l + if decide (i = j) then 1 else 0)%nat.
Proof. rewrite ref_app, ref_cons. change (cnt j []) with 0%nat. lia. Qed.

Lemma next_unused w W V :
  winv w W V -> let i := next_req w in
  reqs w !! i = None /\ (forall j q, reqs w !! j = Some q -> (j < i)%nat) /\
  (forall j, j ∈ todo w ++ W -> (j < i)%nat) /\ (forall j, j ∈ temptation w -> (j < i)%nat) /\ cnt i V = 0%nat.
Proof.
  intros H i. assert (reqs w !! i = None) as Hi.
  { apply eq_None_not_Some. intros Hx%(wi_next _ _ _ H). unfold i in Hx. lia. }
  assert (forall j q, reqs w !! j = Some q -> (j < i)%nat) as Hlt.
  { intros j q Hq. apply (wi_next _ _ _ H). eauto. }
  pose proof (wi_refs _ _ _ H i) as Hc. rewrite Hi in Hc. split_and!; [done|done|..|by apply Hc].
  - intros j Hj. destruct (refs_live w W V j) as [q Hq]; [done|set_solver|]. by apply (Hlt j q).
  - intros j (q & Hq & _)%(wi_tempt _ _ _ H). by apply (Hlt j q).
Qed.

Lemma insert_refs w W V r j :
  winv w W V -> let i := next_req w in
  match <[i := set_arrival (gen w) (if tempted r then 2 else 1) r]> (reqs w) !! j with
  | Some q => refcount q = Z.of_nat (cnt j ((todo w ++ [i]) ++ W) +
      cnt j (temptation w ++ (if tempted r then [i] else [])) + cnt j V) /\ 0 < refcount q
  | None => cnt j ((todo w ++ [i]) ++ W) = 0%nat /\
      cnt j (temptation w ++ (if tempted r then [i] else [])) = 0%nat /\ cnt j V = 0%nat
  end.
Proof.
  intros H i. pose proof (wi_refs _ _ _ H j) as Hj. rewrite <- app_assoc, !ref_app, ref_cons. rewrite ref_app in Hj.
  assert (forall x, cnt j (if tempted r then x :: nil else nil) = if tempted r then if decide (x = j) then 1 else 0 else 0)%nat as Ec.
  { intros x. destruct (tempted r); [|done]. rewrite ref_cons. change (cnt j []) with 0%nat. lia. }
  rewrite Ec. change (cnt j []) with 0%nat. destruct (next_unused w W V H) as [Hi _]. fold i in Hi.
  destruct (decide (i = j)) as [<-|Hne].
  - rewrite lookup_insert_eq. rewrite Hi in Hj. cbn [refcount set_arrival]. destruct (tempted r); lia.
  - rewrite lookup_insert_ne by done. destruct (reqs w !! j), (tempted r); lia.
Qed.

Lemma insert_all w W V r :
  winv w W V -> let i := next_req w in
  NoDup (all w ++ [i]) /\ forall j, j ∈ all w ++ [i] <-> is_Some (<[i := r]> (reqs w) !! j).
Proof.
  intros H i. destruct (next_unused w W V H) as [Hi _]. fold i in Hi. split.
  - apply NoDup_app. split_and!; [apply H| |apply NoDup_singleton].
    intros j [q Hq]%(wi_all _ _ _ H) ->%list_elem_of_singleton. congruence.
  - intros j. rewrite elem_of_app, list_elem_of_singleton, (proj2 (wi_all _ _ _ H)), lookup_insert_is_Some.
    destruct (decide (i = j)); naive_solver.
Qed.

Lemma insert_tempted w W V (t : bool) :
  winv w W V -> NoDup (temptation w ++ (if t then [next_req w] else [])).
Proof.
  intros H. destruct (next_unused w W V H) as (_ & _ & _ & Htm & _). apply NoDup_app.
  split_and!; [apply H| |destruct t; [apply NoDup_singleton|constructor]].
  intros j Hj%Htm. destruct t; [|by intros ?%not_elem_of_nil]. intros ->%list_elem_of_singleton. lia.
Qed.

Lemma winv_insert w W V r :
  winv w W V -> fresh_request r -> winv (insert_request r w) W V.
Proof.
  intros H [Hwf [Hl Hf]]. destruct (next_unused w W V H) as (Hi & Hlt & Htd & Htm & HV).
  set (i := next_req w) in *. set (r' := set_arrival (gen w) (if tempted r then 2 else 1) r).
  assert (forall j q, <[i := r']> (reqs w) !! j = Some q -> j = i /\ q = r' \/ reqs w !! j = Some q /\ (j < i)%nat) as Hs.
  { intros j q [[<- <-]|[Hne Hq]]%lookup_insert_Some; [by left|right]. split; [done|by apply (Hlt j q)]. }
  assert (forall j q, reqs w !! j = Some q -> <[i := r']> (reqs w) !! j = Some q) as Hk.
  { intros j q Hq. pose proof (Hlt j q Hq). rewrite lookup_insert_ne by lia. done. }
  assert ((if tempted r then temptation w ++ [i] else temptation w) =
    temptation w ++ (if tempted r then [i] else [])) as Em by (destruct (tempted r); by rewrite ?app_nil_r).
  assert (forall j, j ∈ temptation w ++ (if tempted r then [i] else []) <->
    j ∈ temptation w \/ j = i /\ tempted r = true) as Hm.
  { intros j. rewrite elem_of_app. destruct (tempted r); set_solver. }
  split; cbn [insert_request todo temptation liability wip all gen next_req wb_size reqs]; fold i r';
    rewrite ?Em; try apply H.
  - intros j. exact (insert_refs w W V r j H).
  - intros j q [[_ ->]|[Hq _]]%Hs; [|by apply (wi_wf _ _ _ H j)].
    split; [intros Hx; by destruct (rw_write _ Hwf Hx)|exact (rw_tempted _ Hwf)].
  - intros j [q [[-> _]|[_ ?]]%Hs]; lia.
  - by apply (insert_all w W V).
  - rewrite <- app_assoc. change ([i] ++ W) with (i :: W). rewrite <- Permutation_middle. constructor; [|apply H]. intros ?%Htd. lia.
  - intros j q [[-> ->]|[Hq Hj]]%Hs Ht; [set_solver|]. rewrite (wi_wind _ _ _ H j q Hq Ht).
    rewrite !elem_of_app, list_elem_of_singleton. naive_solver lia.
  - intros j (Hw & q & Hq & Ht)%(wi_out _ _ _ H). eauto.
  - split; [by apply (insert_tempted w W V)|]. intros j [(q & Hq & Ht & Hlq)%(wi_tempt _ _ _ H)|[-> Ht]]%Hm; [eauto|].
      exists r'. rewrite lookup_insert_eq. done.
  - split; [apply H|]. intros j. rewrite (proj2 (wi_lia _ _ _ H)). split; [naive_solver|].
    intros (q & [[-> ->]|[Hq _]]%Hs & Hlq); [|eauto]. unfold r', lied in *. cbn in *. congruence.
  - split; [apply H|]. intros j [(q & Hq & Hw) Hn]%(wi_wip _ _ _ H). split; [eauto|].
    rewrite elem_of_app, list_elem_of_singleton. pose proof (Hlt j q Hq). naive_solver lia.
  - intros j k q q' Hj Hk' Hne [[-> _]|[Hq _]]%Hs [[-> _]|[Hq' _]]%Hs; try (by apply (wi_apart _ _ _ H j k)).
    + done.
    + apply (wi_wip _ _ _ H) in Hj as [(x & Hx & _) _]. congruence.
    + apply (wi_wip _ _ _ H) in Hk' as [(x & Hx & _) _]. congruence.
  - split; apply sorted_snoc || destruct (tempted r); rewrite ?app_nil_r; try apply sorted_snoc; try apply H; auto.
    intros j Hj. apply Htd. set_solver.
  - intros j k q q' Hjk [[-> ->]|[Hq _]]%Hs [[-> ->]|[Hq' ?]]%Hs; try lia; [|by apply (wi_gen _ _ _ H j k)].
    cbn. by apply (wi_gens _ _ _ H j).
  - intros j q [[-> ->]|[Hq _]]%Hs; [|by apply (wi_gens _ _ _ H j)]. cbn. unfold r', lied in *. cbn.
    split; [lia|congruence].
  - intros j k q Hj Hq Hfq Hk'. destruct (proj1 (proj2 (wi_lia _ _ _ H) k) Hk') as (q' & Hq' & _).
    apply Hs in Hq as [[-> ->]|[Hq _]]; [by apply (Hlt k q')|].
    apply (wi_fifo _ _ _ H j k q); [|done..]. apply Hm in Hj as [?|[-> _]]; [done|congruence].
  - intros j q [[-> ->]|[Hq _]]%Hs Ht Hlq Hfq; apply Hm; [auto|left]. by eapply (wi_held _ _ _ H).
Qed.

(** ** Writing back *)

Definition follows (w : wb_inode) (hd : wb_request) (i : nat) : Prop :=
  exists r, reqs w !! i = Some r /\ rq_fd r = rq_fd hd /\
    st_offset (rq_stub r) = st_offset (rq_stub hd) + write_size hd.

Definition batch_ok (w : wb_inode) (b : batch) : Prop :=
  exists hd, reqs w !! b_head b = Some hd /\ forall i, i ∈ b_winds b -> follows w hd i.

Lemma batches_ok conf l cur expected aggregate count w :
  (forall i, i ∈ l -> is_Some (reqs w !! i)) ->
  (forall b, cur = Some b -> batch_ok w b /\
     forall hd, reqs w !! b_head b = Some hd -> expected = st_offset (rq_stub hd) + write_size hd) ->
  exists bs, batches conf l cur expected aggregate count w = Some bs /\
    concat (members <$> bs) = from_option members [] cur ++ l /\ Forall (batch_ok w) bs.
Proof.
  revert cur expected aggregate count. induction l as [|i l IH]; intros cur e a c Hl Hc; cbn [batches].
  { destruct cur as [b|]; eexists; (split; [done|]); cbn; rewrite ?app_nil_r; [|done].
    split; [done|]. constructor; [by apply Hc|done]. }
  destruct (Hl i) as [req Hr]; [set_solver|]. rewrite Hr. cbn [mbind option_bind].
  assert (forall j, j ∈ l -> is_Some (reqs w !! j)) as Hl' by set_solver.
  assert (forall b, Some {| b_head := i; b_winds := [] |} = Some b -> batch_ok w b /\
    forall hd, reqs w !! b_head b = Some hd ->
      st_offset (rq_stub req) + write_size req = st_offset (rq_stub hd) + write_size hd) as Hnew.
  { intros b [= <-]. split.
    - exists req. split; [done|]. by intros j ?%not_elem_of_nil.
    - intros hd. cbn. by intros [= <-]%(eq_trans (eq_sym Hr)). }
  destruct cur as [b|]; [|by apply IH].
  destruct (Hc b eq_refl) as [(hd & Hhd & Hw) He]. rewrite Hhd. cbn [mbind option_bind].
  destruct (can_chain conf hd req e a c) eqn:Hch.
  - destruct (IH (Some {| b_head := b_head b; b_winds := b_winds b ++ [i] |}) e
      (a + write_size req) (c + Z.of_nat (length (st_vector (rq_stub req))))) as (bs & -> & Ebs & Hok); [done| |].
    + intros b' [= <-]. split; [|exact He]. exists hd. split; [done|]. cbn. intros j [?|Hj]%elem_of_app; [auto|].
      apply list_elem_of_singleton in Hj as ->. unfold can_chain in Hch. rewrite !andb_true_iff in Hch.
      destruct Hch as ((((Hfd & _) & Ho) & _) & _). apply bool_decide_eq_true_1 in Hfd. exists req.
      rewrite <- (He hd Hhd). split_and!; [done|done|lia].
    + exists bs. split_and!; [done| |done]. rewrite Ebs. cbn. by rewrite <- app_assoc.
  - destruct (IH (Some {| b_head := i; b_winds := [] |}) (st_offset (rq_stub req) + write_size req) 0 0)
      as (bs & -> & Ebs & Hok); [done|done|].
    exists (b :: bs). split_and!; [done| |by constructor; [exists hd|]].
    cbn. by rewrite Ebs.
Qed.

Lemma wb_fulfill_ok conf l w :
  (forall i, i ∈ l -> is_Some (reqs w !! i)) ->
  exists bs, wb_fulfill conf l w = Some bs /\ concat (members <$> bs) = l /\ Forall (batch_ok w) bs.
Proof. intros Hl. by apply (batches_ok conf l None 0 0 0 w). Qed.

Lemma overlap_start r q :
  write_ok r -> write_ok q -> st_offset (rq_stub r) = st_offset (rq_stub q) -> wb_requests_overlap r q = true.
Proof.
  intros [_ _ _ [_ P1] O1 [[R1 R1'] E1] _] [_ _ _ [_ P2] O2 [[R2 R2'] E2] _] Heq.
  unfold wb_requests_overlap, range_start, range_end.
  rewrite (proj2 (Z.eqb_neq _ _)), (proj2 (Z.eqb_neq (o_size (rq_ord q)) _)) by lia.
  unfold u64, uwrap. rewrite !(Z.mod_small (o_off _)) by lia. rewrite !Z.mod_small by lia.
  apply andb_true_intro. split; lia.
Qed.

(** A batch has at most two members: two chained requests would start at the same
    offset, and the writes in progress are apart. *)

Lemma out_write w W V i : winv w W V -> i ∈ W -> exists r, reqs w !! i = Some r /\ write_ok r.
Proof.
  intros H (_ & r & Hr & Ht)%(wi_out _ _ _ H). exists r. split; [done|].
  by apply (wi_wf _ _ _ H i), (wi_wf _ _ _ H i).
Qed.

Lemma chain_short w W V b :
  winv w (members b ++ W) V -> batch_ok w b -> (length (b_winds b) <= 1)%nat.
Proof.
  intros H (hd & Hhd & Hw). destruct (b_winds b) as [|i [|j l]] eqn:Eb; cbn; [lia..|exfalso].
  assert (i ∈ members b ++ W /\ j ∈ members b ++ W) as [Hi Hj] by (unfold members; rewrite Eb; set_solver).
  assert (i <> j) as Hne.
  { pose proof (wi_winds _ _ _ H) as (_ & _ & Hnd)%NoDup_app. unfold members in Hnd. rewrite Eb in Hnd.
    cbn in Hnd. apply NoDup_cons in Hnd as [_ Hnd]. apply NoDup_cons in Hnd as [Hnd _]. set_solver. }
  destruct (out_write _ _ _ _ H Hi) as (r & Hr & Or). destruct (out_write _ _ _ _ H Hj) as (q & Hq & Oq).
  destruct (Hw i) as (r1 & Hr1 & _ & E1); [set_solver|]. destruct (Hw j) as (q1 & Hq1 & _ & E2); [set_solver|].
  pose proof (wi_apart _ _ _ H i j r q) as Hap. rewrite overlap_start in Hap; [|done|done|congruence].
  assert (true = false) by (apply Hap; [by apply (wi_out _ _ _ H)..|done|done|done]). done.
Qed.

Lemma load_reqs w l :
  (forall i, i ∈ l -> is_Some (reqs w !! i)) ->
  exists rs, mapM (fun i => reqs w !! i) l = Some rs /\ Forall2 (fun i r => reqs w !! i = Some r) l rs.
Proof.
  induction l as [|i l IH]; intros Hl; [by exists []|]. destruct (Hl i) as [r Hr]; [set_solver|].
  destruct IH as (rs & Ers & Hrs); [set_solver|]. exists (r :: rs). split; [|by constructor].
  cbn [mapM]. rewrite Hr. cbn [mbind option_bind]. by rewrite Ers.
Qed.

Definition vectors (rs : list wb_request) : list (list ascii) :=
  concat ((fun r => st_vector (rq_stub r)) <$> rs).

Lemma vectors_ok rs :
  Forall write_ok rs ->
  length (vectors rs) = length rs /\
  iov_length (vectors rs) = foldr (fun r n => write_size r + n) 0 rs.
Proof.
  induction 1 as [|r rs Hr _ [IH1 IH2]]; [done|]. unfold vectors in *. cbn.
  destruct Hr as [_ [d Ev] _ [Es _] _ _ _]. unfold data_of in Es. rewrite Ev in *. cbn in *. rewrite app_nil_r in Es.
  split; [lia|]. rewrite <- IH2, Es. unfold iov_length. cbn. rewrite length_app. lia.
Qed.

Lemma moved_total w i r n :
  reqs w !! i = Some r -> total_size r <= n -> moved w (put i (set_total n r) w).
Proof.
  intros Hr Hn.
  assert (forall j q, reqs (put i (set_total n r) w) !! j = Some q ->
    exists q0, reqs w !! j = Some q0 /\ (q = q0 \/ q = set_total n q0 /\ q0 = r)) as Hl.
  { intros j q. cbn. destruct (decide (j = i)) as [->|Hne].
    - rewrite lookup_insert_eq. intros [= <-]. eauto.
    - rewrite lookup_insert_ne by done. eauto. }
  split; [..|done|done| |done].
  - intros j f q ((q0 & Hq & Eq)%Hl & Ht & Hf & Hin). exists j, q0.
    destruct Eq as [-> |[-> _]]; (split_and!; [by split_and!|cbn; lia|done|by apply covers_stub]).
  - intros j f q (Hq & Ht & Hf & Hin). destruct (decide (j = i)) as [->|Hne].
    + exists i, (set_total n r). assert (q = r) as -> by congruence. split_and!; try done. cbn. apply lookup_insert_eq.
    + exists j, q. split_and!; try done. cbn. by rewrite lookup_insert_ne.
  - intros j q (q0 & Hq & Eq)%Hl. exists q0. split; [done|]. destruct Eq as [-> |[-> _]]; by split.
  - intros j q q' _ Hq (q0 & Hq0 & Eq)%Hl. assert (q0 = q) as -> by congruence.
    destruct Eq as [-> |[-> ->]]; [apply frozen_refl|]. by split.
Qed.

Lemma load_ok w W V b :
  winv w (members b ++ W) V -> batch_ok w b ->
  exists hd rs w' hd', reqs w !! b_head b = Some hd /\ load b w = Some (vectors rs, w') /\
    Forall2 (fun i r => reqs w !! i = Some r) (members b) rs /\
    winv w' (members b ++ W) V /\ moved w w' /\
    reqs w' !! b_head b = Some hd' /\ iov_length (vectors rs) <= total_size hd' /\
    rq_stub hd' = rq_stub hd.
Proof.
  intros H Hb. pose proof (chain_short _ _ _ _ H Hb) as Hlen. destruct Hb as (hd & Hhd & Hw).
  destruct (load_reqs w (members b)) as (rs & Ers & Hrs).
  { intros i Hi. destruct (refs_live w (members b ++ W) V i) as [r Hr]; [done|set_solver|eauto]. }
  assert (Forall write_ok rs) as Hok.
  { apply Forall_forall. intros r [k Hk]%list_elem_of_lookup.
    destruct (Forall2_lookup_r _ _ _ _ _ Hrs Hk) as (i & Hi & Hr).
    destruct (out_write w (members b ++ W) V i) as (r' & Hr' & ?); [done|apply list_elem_of_lookup_2 in Hi; set_solver|].
    congruence. }
  destruct (vectors_ok rs Hok) as [Hl1 Hl2]. pose proof (Forall2_length _ _ _ Hrs) as Hl3. cbn in Hl3.
  assert (write_ok hd) as Ohd.
  { destruct (out_write w (members b ++ W) V (b_head b)) as (r' & Hr' & ?); [done|set_solver|]. congruence. }
  destruct (wo_orig _ Ohd) as [_ Ht0].
  assert (0 <= iov_length (vectors rs)) as Hpos by (unfold iov_length; lia).
  unfold load. rewrite Hhd. cbn [mbind option_bind]. rewrite Ers. cbn [mbind option_bind].
  fold (vectors rs). rewrite <- Hl2. unfold MAX_VECTOR_COUNT. rewrite (proj2 (Z.ltb_ge _ _)) by lia.
  set (n := total_size hd + iov_length (vectors rs)).
  exists hd, rs, (put (b_head b) (set_total n hd) w), (set_total n hd). split_and!; try done.
  - eapply winv_put; try done; [by right|]. destruct (wi_wf _ _ _ H _ _ Hhd) as [Hx Hy]. split; [|done].
    intros Hz. destruct (Hx Hz) as [? ? ? ? ? ? [? ?]]. split; try done. cbn. lia.
  - apply moved_total; [done|lia].
  - cbn. apply lookup_insert_eq.
  - cbn. lia.
Qed.

(** ** Histories

    What the clients of WriteBehind.v see: which writes were acknowledged before a
    call was made, which have reached the server, and the invariant that links
    the history of a run to the queues. *)

(** ** Clients and server *)

(** A write has a file descriptor and comes in one piece that is not empty, and
    no range reaches beyond 2^63. *)

Definition sane_stub (s : call_stub) : Prop :=
  match st_fop s with
  | GF_FOP_WRITE =>
      is_Some (st_fd s) /\ (exists d, st_vector s = [d] /\ d <> []) /\ 0 <= st_offset s /\
      st_offset s + iov_length (st_vector s) < 2 ^ 63
  | GF_FOP_READ => 0 <= st_offset s /\ 0 <= st_size s /\ st_offset s + st_size s < 2 ^ 63
  | GF_FOP_TRUNCATE | GF_FOP_FTRUNCATE => 0 <= st_offset s < 2 ^ 63
  | _ => True
  end.

(** The server returns -1 or a count. *)

Record sane (h : list event) : Prop := {
  sn_issue : forall s, EIssue s ∈ h -> sane_stub s;
  sn_serve : forall c r, EServe c r ∈ h -> -1 <= r_ret r < 2 ^ 31
}.

Lemma sane_app h e : sane (h ++ e) -> sane h.
Proof. intros [H1 H2]. split; [intros s Hs; apply H1|intros c r Hs; apply (H2 c)]; set_solver. Qed.

(** The write [sg] was acknowledged: answered with its full length. *)

Definition acknowledged (h : list event) (sg : call_stub) : Prop :=
  EIssue sg ∈ h /\ st_fop sg = GF_FOP_WRITE /\
  exists r held, EAnswer (st_frame sg) r held ∈ h /\ r_ret r = iov_length (st_vector sg).

(** It was answered while its data was joined to the data of a write that was
    still waiting for its own answer (the window being full). Such data is not
    written back before that answer, and nothing waits for it. *)

Definition joined (h : list event) (sg : call_stub) : Prop :=
  exists r, EAnswer (st_frame sg) r false ∈ h.

(** Acknowledged, and not joined in this way. *)

Definition acked (h : list event) (sg : call_stub) : Prop :=
  EIssue sg ∈ h /\ st_fop sg = GF_FOP_WRITE /\
  exists r, EAnswer (st_frame sg) r true ∈ h /\ r_ret r = iov_length (st_vector sg).

(** ... before the call with frame [f] was made. *)

Definition acked_before (h : list event) (sg : call_stub) (f : nat) : Prop :=
  exists h1 s h2, h = h1 ++ EIssue s :: h2 /\ st_frame s = f /\ acked h1 sg.

Definition acknowledged_before (h : list event) (sg : call_stub) (f : nat) : Prop :=
  exists h1 s h2, h = h1 ++ EIssue s :: h2 /\ st_frame s = f /\ acknowledged h1 sg.

Lemma acknowledged_cases h sg f : acknowledged_before h sg f -> acked_before h sg f \/ joined h sg.
Proof.
  intros (h1 & s & h2 & -> & Ef & Hi & Hw & r & [] & Ha & Hr); [left|right].
  - exists h1, s, h2. split_and!; [done|done|]. split_and!; [done|done|]. by exists r.
  - exists r. apply elem_of_app. by left.
Qed.

(** The server has carried out, in full, a write that holds the data of [sg] at
    its place. *)

Definition landed (h : list event) (sg : call_stub) : Prop :=
  exists c r, EServe c r ∈ h /\ st_fop (c_stub c) = GF_FOP_WRITE /\ stub_fd (c_stub c) = stub_fd sg /\
    within (concat (st_vector sg)) (st_offset sg)
      (concat (st_vector (c_stub c))) (st_offset (c_stub c)) /\
    iov_length (st_vector (c_stub c)) <= r_ret r.

(** A failure is on record for the file descriptor. *)

Definition failed (h : list event) (sg : call_stub) : Prop :=
  exists fd e, stub_fd sg = Some fd /\ EFailed fd e ∈ h.

Definition settled (h : list event) (sg : call_stub) : Prop := landed h sg \/ failed h sg.

(** The call [s] depends on the bytes that [sg] writes. *)

Definition touches (sg s : call_stub) : Prop :=
  let first := st_offset sg in
  let last := st_offset sg + iov_length (st_vector sg) in
  match st_fop s with
  | GF_FOP_WRITE => st_offset s < last /\ first < st_offset s + iov_length (st_vector s)
  | GF_FOP_READ => st_offset s < last /\ first < st_offset s + st_size s
  | GF_FOP_TRUNCATE | GF_FOP_FTRUNCATE => st_offset s < last
  | _ => True
  end.

(** A lookup and an open are not queued. *)

Definition queued (s : call_stub) : Prop := st_fop s <> GF_FOP_LOOKUP /\ st_fop s <> GF_FOP_OPEN.

Definition ready (h : list event) (s : call_stub) : Prop :=
  forall sg, acked_before h sg (st_frame s) -> touches sg s -> settled h sg.

Definition flush_ok (h : list event) (s : call_stub) : Prop :=
  st_fop s = GF_FOP_FLUSH ->
  forall sg, acked_before h sg (st_frame s) -> stub_fd sg = stub_fd s -> landed h sg.

(** ** A history that goes on *)

Definition no_issue (e : list event) : Prop := forall s, ~ EIssue s ∈ e.

Lemma acked_app h e sg : acked h sg -> acked (h ++ e) sg.
Proof. intros (? & ? & r & ? & ?). split_and!; [set_solver|done|]. exists r. set_solver. Qed.

Lemma landed_app h e sg : landed h sg -> landed (h ++ e) sg.
Proof. intros (c & r & ? & ?). exists c, r. split; [set_solver|done]. Qed.

Lemma settled_app h e sg : settled h sg -> settled (h ++ e) sg.
Proof.
  intros [?|(fd & x & ? & ?)]; [left; by apply landed_app|right]. exists fd, x. set_solver.
Qed.

Lemma acked_before_acked h sg f : acked_before h sg f -> acked h sg.
Proof. intros (h1 & s & h2 & -> & _ & ?). by apply acked_app. Qed.

Lemma acked_before_app h e sg f : acked_before h sg f -> acked_before (h ++ e) sg f.
Proof.
  intros (h1 & s & h2 & -> & ? & ?). exists h1, s, (h2 ++ e). split_and!; [|done|done].
  by rewrite <- app_assoc.
Qed.

Lemma acked_before_inv h e sg f :
  (forall s, EIssue s ∈ e -> st_frame s <> f) -> acked_before (h ++ e) sg f -> acked_before h sg f.
Proof.
  intros He (h1 & s & h2 & Eq & Hf & Ha). apply app_eq_inv in Eq as [(k & -> & Ek)|(k & -> & Ek)].
  - destruct k as [|x k]; cbn in Ek.
    + destruct (He s); [|done]. rewrite <- Ek. set_solver.
    + injection Ek as <- ->. by exists h1, s, k.
  - destruct (He s); [|done]. rewrite Ek. set_solver.
Qed.

(** New calls have new frames. *)

Definition apart (h e : list event) : Prop :=
  forall s s', EIssue s ∈ h -> EIssue s' ∈ e -> st_frame s' <> st_frame s.

Lemma no_issue_apart h e : no_issue e -> apart h e.
Proof. intros He s s' _ Hs. by apply He in Hs. Qed.

Lemma ready_app h e s : apart h e -> EIssue s ∈ h -> ready h s -> ready (h ++ e) s.
Proof.
  intros He Hs Hr sg Hb Ht. apply settled_app, Hr; [|done]. eapply acked_before_inv; [|done].
  intros s'. by apply He.
Qed.

Lemma flush_app h e s : apart h e -> EIssue s ∈ h -> flush_ok h s -> flush_ok (h ++ e) s.
Proof.
  intros He Hs Hr Hf sg Hb Ht. apply landed_app, Hr; [done| |done]. eapply acked_before_inv; [|done].
  intros s'. by apply He.
Qed.

(** ** Queues and history *)

Definition settledF (h : list event) (f : nat) : Prop :=
  exists sf, EIssue sf ∈ h /\ st_frame sf = f /\ settled h sf.

Lemma settledF_app h e f : settledF h f -> settledF (h ++ e) f.
Proof. intros (sf & ? & ? & ?). exists sf. split_and!; [set_solver|done|by apply settled_app]. Qed.

(** The data of the write with frame [g] has been settled, or it is in requests
    that all satisfy [Q]. *)

Definition secure (w : wb_inode) (h : list event) (g : nat) (Q : wb_request -> Prop) : Prop :=
  settledF h g \/ ((exists i r, carries w i g r) /\ forall i r, carries w i g r -> Q r).

Lemma secure_shift w w' h e g (Q Q' : wb_request -> Prop) :
  secure w h g Q -> shift (settledF (h ++ e)) w w' ->
  (forall r r', Q r -> rq_gen r' <= rq_gen r -> (lied r = true -> lied r' = true) -> Q' r') ->
  secure w' (h ++ e) g Q'.
Proof.
  intros [Hs|[(i & r & Hc) HQ]] Hsh Hmono; [left; by apply settledF_app|].
  destruct (sh_fwd _ _ _ Hsh _ _ _ Hc) as [?|(i' & r' & Hc')]; [by left|right]. split; [eauto|].
  intros j q (j0 & q0 & Hc0 & Hg & Hl & _)%(sh_back _ _ _ Hsh). eauto.
Qed.

(** The range of a request that is not held back. *)

Definition ranged (r : wb_request) : Prop :=
  let s := rq_stub r in
  let o := rq_ord r in
  match st_fop s with
  | GF_FOP_WRITE => True
  | GF_FOP_READ => o_off o = st_offset s /\ o_size o = st_size s
  | GF_FOP_TRUNCATE | GF_FOP_FTRUNCATE => o_off o = st_offset s /\ o_size o = 0
  | _ => o_off o = 0 /\ o_size o = 0
  end.

Definition event_ok (h : list event) (e : event) : Prop :=
  match e with
  | EServe c _ =>
      match c_kind c with KBack _ => True | _ => queued (c_stub c) -> ready h (c_stub c) end
  | EAnswer f r _ => r_ret r = 0 -> forall s, EIssue s ∈ h -> st_frame s = f -> flush_ok h s
  | _ => True
  end.

Record core (w : wb_inode) (h : list event) (n : nat) : Prop := {
  co_frames : forall s, EIssue s ∈ h -> (st_frame s < n)%nat;
  co_unique : forall s s', EIssue s ∈ h -> EIssue s' ∈ h -> st_frame s = st_frame s' -> s = s';
  co_answers : forall f r b, EAnswer f r b ∈ h -> (f < n)%nat;
  co_live : forall i r, reqs w !! i = Some r ->
    (exists s, EIssue s ∈ h /\ st_frame s = st_frame (rq_stub r) /\ st_fop s = st_fop (rq_stub r)) /\
    (tempted r = false -> EIssue (rq_stub r) ∈ h /\ ranged r);
  co_carry : forall i f r, carries w i f r ->
    exists sf, EIssue sf ∈ h /\ st_frame sf = f /\ st_fop sf = GF_FOP_WRITE /\ stub_fd sf = rq_fd r /\
      within (concat (st_vector sf)) (st_offset sf) (data_of r) (st_offset (rq_stub r));
  co_data : forall i r, reqs w !! i = Some r -> tempted r = true ->
    secure w h (st_frame (rq_stub r)) (fun _ => True);
  co_acked : forall sg, acked h sg -> secure w h (st_frame sg) (fun q => lied q = true);
  co_order : forall i r, i ∈ todo w -> reqs w !! i = Some r ->
    forall sg, acked_before h sg (st_frame (rq_stub r)) ->
      secure w h (st_frame sg) (fun q => lied q = true /\ rq_gen q < rq_gen r);
  co_hist : forall h1 e h2, h = h1 ++ e :: h2 -> event_ok h1 e
}.

Lemma core_shift w w' h e n :
  core w h n -> shift (settledF (h ++ e)) w w' -> no_issue e ->
  (forall f r b, EAnswer f r b ∈ e -> (f < n)%nat) ->
  (forall sg, acked (h ++ e) sg -> acked h sg \/ secure w h (st_frame sg) (fun q => lied q = true)) ->
  (forall h1 x h2, e = h1 ++ x :: h2 -> event_ok (h ++ h1) x) ->
  core w' (h ++ e) n.
Proof.
  intros H Hsh He Hn Hack Hev.
  assert (forall s, EIssue s ∈ h ++ e <-> EIssue s ∈ h) as Hi.
  { intros s. rewrite elem_of_app. specialize (He s). tauto. }
  split.
  - intros s. rewrite Hi. apply H.
  - intros s s'. rewrite !Hi. apply H.
  - intros f r b [?|?]%elem_of_app; [by eapply (co_answers _ _ _ H)|eauto].
  - intros i r' Hr'. destruct (sh_live _ _ _ Hsh _ _ Hr') as (r & Hr & [(Eo & Ef & _) _ Et Hp]).
    destruct (co_live _ _ _ H i r Hr) as [(s & Hs & Es) Hu]. rewrite Et. split.
    + exists s. rewrite Hi, Ef, Eo. done.
    + intros Htf. destruct (Hu Htf) as [Hx Hy]. destruct (Hp Htf) as (E1 & _ & E2 & E3).
      unfold ranged. rewrite Hi, E1, E2, E3. done.
  - intros i f r' (i0 & r & Hc & _ & _ & Efd & Hw)%(sh_back _ _ _ Hsh).
    destruct (co_carry _ _ _ H _ _ _ Hc) as (sf & Hs & E1 & E2 & E3 & Hw0). exists sf.
    rewrite Hi, Efd. split_and!; [done..|]. by eapply within_trans.
  - intros i r' Hr' Ht. destruct (sh_live _ _ _ Hsh _ _ Hr') as (r & Hr & [(_ & Ef & _) _ Et _]).
    rewrite Ef. eapply secure_shift; [apply (co_data _ _ _ H i r)|..]; [done|congruence|done|done].
  - intros sg [Ha|Hs]%Hack; [apply (co_acked _ _ _ H) in Ha as Hs|];
      (eapply secure_shift; [done|done|]; naive_solver).
  - intros i r' Htd Hr' sg Hb. destruct (sh_live _ _ _ Hsh _ _ Hr') as (r & Hr & [(_ & Ef & _) Eg _ _]).
    rewrite Ef in Hb. apply acked_before_inv in Hb; [|by intros s ?%He].
    eapply secure_shift; [apply (co_order _ _ _ H i r)|done|]; [by apply (sh_todo _ _ _ Hsh)|done|done|].
    intros q q' [Hl Hg] Hg' Hl'. split; [auto|lia].
  - intros h1 x h2 Eq. apply app_eq_inv in Eq as [(k & -> & Ek)|(k & -> & Ek)].
    + destruct k as [|y k]; cbn in Ek.
      * rewrite app_nil_r in *. rewrite <- (app_nil_r h1). by apply (Hev [] x h2).
      * injection Ek as -> ->. by apply (co_hist _ _ _ H h1 y k).
    + by apply (Hev k x h2).
Qed.

(** ** What the section sends *)

Lemma write_range r :
  write_ok r -> range_start (rq_ord r) = o_off (rq_ord r) /\
    range_end (rq_ord r) = st_offset (rq_stub r) + write_size r - 1 /\
    0 <= o_off (rq_ord r) <= st_offset (rq_stub r) /\ 0 < write_size r /\
    write_size r = Z.of_nat (length (data_of r)) /\ st_offset (rq_stub r) + write_size r < 2 ^ 63.
Proof.
  intros [_ _ _ [Es P] O [[R1 R2] E] _]. unfold range_start, range_end.
  rewrite (proj2 (Z.eqb_neq _ _)) by lia. unfold u64, uwrap.
  rewrite !(Z.mod_small (o_off _)) by lia. rewrite Z.mod_small by lia. split_and!; lia.
Qed.

Lemma touch_overlap q r sg :
  write_ok q -> within (concat (st_vector sg)) (st_offset sg) (data_of q) (st_offset (rq_stub q)) ->
  (is_write r = true -> write_ok r) -> ranged r -> sane_stub (rq_stub r) -> touches sg (rq_stub r) ->
  0 < iov_length (st_vector sg) -> wb_requests_overlap q r = true.
Proof.
  intros Hq Hw Hr Hrg Hsn Ht Hpos. apply within_range in Hw. fold (iov_length (st_vector sg)) in Hw.
  destruct (write_range q Hq) as (E1 & E2 & Ho & _ & Es & Hb). unfold wb_requests_overlap. rewrite E1, E2.
  assert (range_start (rq_ord r) <= st_offset (rq_stub q) + write_size q - 1 /\
    o_off (rq_ord q) <= range_end (rq_ord r)) as [? ?]; [|apply andb_true_intro; split; lia].
  unfold touches, ranged, sane_stub in *. unfold is_write in Hr.
  destruct (st_fop (rq_stub r)) eqn:Ef;
    try (destruct Hrg as [R1 R2]; unfold range_start, range_end; rewrite R1, R2; unfold u64, uwrap; cbn [Z.eqb]).
  1:{ destruct (write_range r) as (-> & -> & Hx & Hy & Hz & _); [by apply Hr|].
      unfold data_of in Hz. fold (iov_length (st_vector (rq_stub r))) in Hz. lia. }
  1:{ destruct Hsn as (S1 & S2 & S3). destruct Ht as [T1 T2]. rewrite !(Z.mod_small (st_offset _)) by lia.
      destruct (Z.eqb_spec (st_size (rq_stub r)) 0); [lia|]. rewrite Z.mod_small by lia. lia. }
  1,2:rewrite Z.mod_small by lia; lia.
  all:rewrite Z.mod_0_l by lia; lia.
Qed.

Lemma section_ready conf w wm W V h n i r :
  core w h n -> sane h -> winv wm W V -> moved w wm -> i ∈ todo w -> sendable conf wm false i ->
  reqs wm !! i = Some r -> ready h (rq_stub r).
Proof.
  intros H Hsn Hwm Hm Hi (r1 & Hr & Ht & Hcl) Hr1. assert (r1 = r) as -> by congruence. clear Hr1.
  destruct (mv_live _ _ Hm i r Hr) as (r0 & Hr0 & [(_ & Ef & _) Eg Et Hp]). rewrite Ht in Et.
  destruct (Hp (eq_sym Et)) as (E1 & _ & E2 & E3).
  destruct (co_live _ _ _ H i r0 Hr0) as [_ [His Hrg]]; [done|].
  intros sg Hb Hto. rewrite Ef in Hb.
  assert (secure wm (h ++ []) (st_frame sg) (fun q => lied q = true /\ rq_gen q < rq_gen r)) as Hs.
  { eapply secure_shift; [by apply (co_order _ _ _ H i r0)|by apply shift_moved|].
    intros q q' [Hl Hg] Hg' Hl'. split; [auto|lia]. }
  rewrite app_nil_r in Hs. pose proof (acked_before_acked _ _ _ Hb) as (Hsg & Hwr & _).
  destruct Hs as [(sf & Hsf & Efr & Hst)|[(j & q & Hc) HQ]].
  { by rewrite (co_unique _ _ _ H sg sf). }
  destruct (HQ j q Hc) as [Hl Hg]. exfalso.
  assert (core wm (h ++ []) n) as Hcm.
  { apply (core_shift w); [done|by apply shift_moved|..]; rewrite ?app_nil_r; auto.
    - by intros s ?%not_elem_of_nil.
    - by intros f x b ?%not_elem_of_nil.
    - by intros [|? ?] x h2. }
  destruct (co_carry _ _ _ Hcm j _ q Hc) as (sf & Hsf & Efr & _ & _ & Hw). rewrite app_nil_r in Hsf.
  assert (sf = sg) as -> by (by apply (co_unique _ _ _ H)).
  destruct Hc as (Hq & Htq & _ & _). specialize (Hcl j q (proj2 (proj2 (wi_lia _ _ _ Hwm) j) (ex_intro _ q (conj Hq Hl))) Hq).
  pose proof (sn_issue _ Hsn _ Hsg) as Hsane. unfold sane_stub in Hsane. rewrite Hwr in Hsane.
  assert (wb_requests_overlap q r = true) as Hov.
  { eapply touch_overlap; [by apply (wi_wf _ _ _ Hwm j), (wi_wf _ _ _ Hwm j)|done|by apply (wi_wf _ _ _ Hwm i)|..].
    - unfold ranged. by rewrite E1, E2, E3.
    - rewrite E1. by apply (sn_issue _ Hsn).
    - done.
    - destruct Hsane as (_ & (d & -> & Hd) & _). unfold iov_length. cbn. rewrite app_nil_r. destruct d; [done|cbn; lia]. }
  unfold wb_requests_conflict in Hcl. rewrite Hov in Hcl. destruct (Nat.eqb_spec j i) as [->|_]; [congruence|].
  destruct (Z.leb_spec (rq_gen r) (rq_gen q)); [lia|]. by destruct (o_append _), (strict_write_ordering conf).
Qed.
