(* ===== verification/WbFaults.v ===== *)
(** * Write-behind: computed runs and what goes wrong

    Runs of the machine of WriteBehind.v that can be computed: a schedule lists
    which client, thread or server goes on next. With sane clients, and a server
    that works unless said otherwise, there are runs in which write-behind loses
    data, answers with old data, hangs or leaves its arrays. *)

From Stdlib Require Import ZArith Lia Bool Ascii String.
From stdpp Require Import base list strings gmap.
From S2P Require Import Prelude WriteBehind WbInv WbSection WbSteps.

Local Open Scope Z_scope.

Inductive label :=
| LCall (o : op)
| LExec (n : nat)
| LServe (j : nat) (r : reply) (f : list ascii)
| LReturn (j : nat).

Definition perform (conf : wb_conf) (l : label) (m : machine) : option machine :=
  match l with
  | LCall o => Some (issue conf o m)
  | LExec n =>
      t ← threads m !! n;
      match t with
      | [] => None
      | a :: rest =>
          '(m', acts) ← exec conf a m;
          Some {| inode := inode m'; created := created m'; fd_err := fd_err m'; file := file m';
                  calls := calls m'; threads := <[n := acts ++ rest]> (threads m');
                  frames := frames m'; history := history m' |}
      end
  | LServe j r f =>
      c ← calls m !! j;
      match c_done c with None => Some (served j c r f m) | Some _ => None end
  | LReturn j =>
      c ← calls m !! j;
      match c_done c with Some r => Some (returned j c r m) | None => None end
  end.

Fixpoint perform_all (conf : wb_conf) (ls : list label) (m : machine) : option machine :=
  match ls with [] => Some m | l :: ls' => m' ← perform conf l m; perform_all conf ls' m' end.

Lemma perform_step conf l m m' : perform conf l m = Some m' -> step conf m m'.
Proof.
  destruct l as [o|n|j r f|j]; cbn [perform].
  - intros [= <-]. constructor.
  - destruct (threads m !! n) as [[|a rest]|] eqn:Hn; [done| |done]. cbn [mbind option_bind].
    destruct (exec conf a m) as [[m1 acts]|] eqn:He; [|done]. cbn [mbind option_bind]. intros [= <-].
    by eapply step_exec.
  - destruct (calls m !! j) as [c|] eqn:Hj; [|done]. cbn [mbind option_bind].
    destruct (c_done c) eqn:Hd; [done|]. intros [= <-]. by constructor.
  - destruct (calls m !! j) as [c|] eqn:Hj; [|done]. cbn [mbind option_bind].
    destruct (c_done c) eqn:Hd; [|done]. intros [= <-]. by constructor.
Qed.

Lemma perform_reachable conf f ls m m' :
  reachable conf f m -> perform_all conf ls m = Some m' -> reachable conf f m'.
Proof.
  revert m. induction ls as [|l ls IH]; intros m Hr; cbn [perform_all]; [by intros [= <-]|].
  destruct (perform conf l m) as [m1|] eqn:E; [|done]. cbn [mbind option_bind]. apply IH.
  eapply reachable_step; [done|by eapply perform_step].
Qed.

(** The state after a schedule from the start. *)

Definition after (conf : wb_conf) (f : list ascii) (ls : list label) : machine :=
  default (start conf f) (perform_all conf ls (start conf f)).

Lemma run_reachable conf f ls :
  is_Some (perform_all conf ls (start conf f)) -> reachable conf f (after conf f ls).
Proof.
  intros [m Hm]. unfold after. rewrite Hm. eapply perform_reachable; [constructor|exact Hm].
Qed.

(** A history is sane if it passes a test. *)

Definition sane_stub_b (s : call_stub) : bool :=
  match st_fop s with
  | GF_FOP_WRITE =>
      match st_fd s, st_vector s with
      | Some _, [_ :: _] => (0 <=? st_offset s) && (st_offset s + iov_length (st_vector s) <? 2 ^ 63)
      | _, _ => false
      end
  | GF_FOP_READ => (0 <=? st_offset s) && (0 <=? st_size s) && (st_offset s + st_size s <? 2 ^ 63)
  | GF_FOP_TRUNCATE | GF_FOP_FTRUNCATE => (0 <=? st_offset s) && (st_offset s <? 2 ^ 63)
  | _ => true
  end.

Definition sane_b (h : list event) : bool :=
  forallb (fun e =>
    match e with
    | EIssue s => sane_stub_b s
    | EServe _ r => (-1 <=? r_ret r) && (r_ret r <? 2 ^ 31)
    | _ => true
    end) h.

Lemma sane_stub_ok s : sane_stub_b s = true -> sane_stub s.
Proof.
  unfold sane_stub_b, sane_stub. destruct (st_fop s); rewrite ?andb_true_iff, ?Z.leb_le, ?Z.ltb_lt; try done; try tauto.
  destruct (st_fd s); [|done]. destruct (st_vector s) as [|[|x d] [|? ?]]; try done.
  rewrite andb_true_iff, Z.leb_le, Z.ltb_lt. intros [? ?]. split_and!; eauto.
Qed.

Lemma sane_ok h : sane_b h = true -> sane h.
Proof.
  unfold sane_b. rewrite forallb_forall. intros Ht. split.
  - intros s Hs%list_elem_of_In%Ht. by apply sane_stub_ok.
  - intros c r Hs%list_elem_of_In%Ht. rewrite andb_true_iff, Z.leb_le, Z.ltb_lt in Hs. done.
Qed.

(** ** Clients and servers of the examples *)

Definition small_conf (window : Z) : wb_conf :=
  {| aggregate_size := 131072; window_size := window; flush_behind := true; trickling_writes := true;
     strict_write_ordering := false; strict_O_DIRECT := false; page_size := 4096 |}.

Definition fd1 : fd_t := {| fd_id := 1; fd_flags := O_RDWR |}.

Definition bytes (s : string) : list ascii := list_ascii_of_string s.

Definition write_at (off : Z) (d : string) : op := OWrite fd1 0 off [bytes d] 0.

Definition count (n : Z) : reply := {| r_ret := n; r_errno := 0; r_data := []; r_size := 0 |}.

Definition turns (n k : nat) : list label := replicate k (LExec n).

(** The events of a run at given places. *)

Definition issued (h : list event) (n : nat) : option call_stub :=
  match h !! n with Some (EIssue s) => Some s | _ => None end.

Lemma issued_here h n s : issued h n = Some s -> h = take n h ++ EIssue s :: drop (S n) h.
Proof.
  unfold issued. destruct (h !! n) as [[s'| | |]|] eqn:E; try done. intros [= ->]. by rewrite take_drop_middle.
Qed.

Lemma issued_in h n s : issued h n = Some s -> EIssue s ∈ h.
Proof. intros ->%issued_here. set_solver. Qed.

(** ** What a history does not show *)

Definition unsettling (h : list event) : bool :=
  forallb (fun e => match e with EServe _ _ | EFailed _ _ => false | _ => true end) h.

Lemma unsettling_ok h sg : unsettling h = true -> ~ settled h sg.
Proof.
  unfold unsettling. rewrite forallb_forall. intros H [(c & r & Hc & _)|(fd & e & _ & He)].
  - by apply list_elem_of_In, H in Hc.
  - by apply list_elem_of_In, H in He.
Qed.

(** Nothing happens any more unless a client calls. *)

Definition idle (m : machine) : bool :=
  forallb (fun t => match t with [] => true | _ => false end) (threads m) &&
  match calls m with [] => true | _ => false end.

Lemma idle_ok conf m m' : idle m = true -> step conf m m' -> exists o, m' = issue conf o m.
Proof.
  unfold idle. rewrite andb_true_iff, forallb_forall. intros [Ht Hc] Hs.
  destruct Hs as [m o|m n a rest m' acts Hn _|m j c r f' Hj _|m j c r Hj _].
  - eauto.
  - assert (a :: rest ∈ threads m) as Hin by (by eapply list_elem_of_lookup_2). by apply list_elem_of_In, Ht in Hin.
  - by destruct (calls m).
  - by destruct (calls m).
Qed.

(** ** Old data *)

(** A write is in progress and the window is full. The next write waits for its
    answer; the one after it goes on where it ends, is joined to it, and is
    answered at once although the data is now in a request that nobody waits
    for. *)

Definition stale_run : list label :=
  [LCall (write_at 0 "ab")] ++ turns 0 11 ++ [LCall (write_at 100 "cd")] ++ turns 1 6 ++
  [LCall (write_at 102 "ef")] ++ turns 2 8 ++ [LCall (ORead fd1 2 102)] ++ turns 3 8 ++
  [LServe 1 (count 0) []].

Definition stale_end : machine := after (small_conf 1) [] stale_run.

(** There is a run in which a read is carried out by the server although an
    overlapping write was acknowledged before the read was called and has neither
    reached the server nor failed. *)

Theorem wb_stale_read :
  reachable (small_conf 1) [] stale_end /\ sane (history stale_end) /\
  exists sg s a b r h3,
    history stale_end = a ++ EIssue s :: b ++ EServe {| c_kind := KClient; c_stub := s; c_done := None |} r :: h3 /\
    EIssue sg ∈ a /\ EAnswer (st_frame sg) (count (iov_length (st_vector sg))) false ∈ a /\
    st_fop s = GF_FOP_READ /\ touches sg s /\
    ~ settled (a ++ EIssue s :: b) sg.
Proof.
  split; [apply run_reachable; vm_compute; eauto|]. split; [apply sane_ok; vm_compute; reflexivity|].
  eexists (stub_of (write_at 102 "ef") 2), (stub_of (ORead fd1 2 102) 3), (take 5 (history stale_end)), [], _, [].
  split_and!.
  - vm_compute. reflexivity.
  - apply (issued_in _ 3). vm_compute. reflexivity.
  - eapply (list_elem_of_lookup_2 _ 4). vm_compute. reflexivity.
  - reflexivity.
  - cbn. unfold iov_length. cbn. lia.
  - apply unsettling_ok. vm_compute. reflexivity.
Qed.

(** ** A lost update *)

Definition carried (sg : call_stub) (c : server_call) : Prop :=
  within (concat (st_vector sg)) (st_offset sg) (concat (st_vector (c_stub c))) (st_offset (c_stub c)).

Definition carried_b (sg : call_stub) (c : server_call) : bool :=
  let d := concat (st_vector sg) in
  let k := st_offset sg - st_offset (c_stub c) in
  (0 <=? k) && bool_decide (d = take (length d) (drop (Z.to_nat k) (concat (st_vector (c_stub c))))).

Lemma carried_test sg c : carried sg c -> carried_b sg c = true.
Proof.
  intros (p & q & Ed & Eo). unfold carried_b. rewrite Ed, Eo.
  replace (st_offset (c_stub c) + Z.of_nat (length p) - st_offset (c_stub c)) with (Z.of_nat (length p)) by lia.
  rewrite Nat2Z.id, drop_app_length, take_app_length, bool_decide_true by done. lia.
Qed.

Definition not_again (sg : call_stub) (h : list event) : bool :=
  forallb (fun e => match e with EServe c _ => negb (carried_b sg c) | _ => true end) h.

Lemma not_again_ok sg h c r : not_again sg h = true -> EServe c r ∈ h -> ~ carried sg c.
Proof.
  unfold not_again. rewrite forallb_forall. intros H Hin Hc. apply list_elem_of_In, H in Hin.
  by rewrite (carried_test _ _ Hc) in Hin.
Qed.

(** Two writes, [qqqqqq] and [hhhh], are put into the queue before either is
    answered, so their generations are the same. The first waits for a write in
    progress. A later write [ff], which goes on where [hhhh] ends, is joined to
    it, and the two are sent past [qqqqqq]. *)

Definition update_run : list label :=
  [LCall (write_at 0 "0123456789")] ++ turns 0 11 ++ [LServe 0 (count 10) []; LReturn 0] ++ turns 1 5 ++
  [LCall (write_at 8 "pp")] ++ turns 2 11 ++ [LCall (write_at 4 "qqqqqq")] ++ turns 3 3 ++
  [LCall (write_at 0 "hhhh")] ++ turns 4 3 ++ turns 3 7 ++ turns 4 3 ++
  [LCall (write_at 4 "ff")] ++ turns 5 8 ++ [LCall (write_at 20 "xx")] ++ turns 6 11 ++
  [LServe 1 (count 6) []; LReturn 1] ++ turns 7 5 ++ [LServe 0 (count 2) []; LReturn 0] ++ turns 8 8 ++
  [LServe 0 (count 6) []].

Definition update_end : machine := after (small_conf 100000) [] update_run.

(** There is a run in which the server gets the data of a write first and that of
    an older, overlapping write after it, though the older one was acknowledged
    before the newer one was called; the file keeps the old data. *)

Theorem wb_lost_update :
  reachable (small_conf 100000) [] update_end /\ sane (history update_end) /\
  exists old new ca cb ra rb a b d,
    history update_end = a ++ EServe ca ra :: b ++ EServe cb rb :: d /\
    acked_before a old (st_frame new) /\ acked a new /\ touches old new /\
    carried new ca /\ carried old cb /\
    forall c r, EServe c r ∈ b ++ EServe cb rb :: d -> ~ carried new c.
Proof.
  split; [apply run_reachable; vm_compute; eauto|]. split; [apply sane_ok; vm_compute; reflexivity|].
  set (h := history update_end).
  eexists (stub_of (write_at 4 "qqqqqq") 2), (stub_of (write_at 4 "ff") 4), _, _, _, _, (take 13 h), (take 1 (drop 14 h)), [].
  split_and!.
  - vm_compute. reflexivity.
  - eexists (take 9 h), _, _. split; [vm_compute; reflexivity|]. split; [reflexivity|]. split_and!.
    + apply (issued_in _ 5). vm_compute. reflexivity.
    + reflexivity.
    + eexists (count 6). split; [eapply (list_elem_of_lookup_2 _ 7); vm_compute; reflexivity|reflexivity].
  - split_and!.
    + apply (issued_in _ 9). vm_compute. reflexivity.
    + reflexivity.
    + eexists (count 2). split; [eapply (list_elem_of_lookup_2 _ 10); vm_compute; reflexivity|reflexivity].
  - cbn. unfold iov_length. cbn. lia.
  - exists (bytes "hhhh"), []. split; reflexivity.
  - exists [], []. split; reflexivity.
  - intros c r. apply not_again_ok. vm_compute. reflexivity.
Qed.

(** ** A hang *)

(** A synchronous write is taken off the list of writes in progress when its last
    reference goes. That is dropped by the thread that sent it, after the reply
    has had the queue processed. *)

Definition sync_fd : fd_t := {| fd_id := 1; fd_flags := O_SYNC |}.

Definition hang_run : list label :=
  [LCall (OWrite sync_fd 0 0 [bytes "ab"] 0)] ++ turns 0 5 ++
  [LCall (OWrite sync_fd 0 0 [bytes "cd"] 0)] ++ turns 1 6 ++
  [LServe 0 (count 2) []; LReturn 0] ++ turns 2 5 ++ turns 0 3.

Definition hang_end : machine := after (small_conf 1000) [] hang_run.

(** There is a reachable state in which a write is not answered and nothing more
    happens until a client calls again. *)

Theorem wb_lost_wakeup :
  reachable (small_conf 1000) [] hang_end /\ sane (history hang_end) /\
  (exists s, EIssue s ∈ history hang_end /\ st_fop s = GF_FOP_WRITE /\
     forall r b, ~ EAnswer (st_frame s) r b ∈ history hang_end) /\
  forall m', step (small_conf 1000) hang_end m' -> exists o, m' = issue (small_conf 1000) o hang_end.
Proof.
  split; [apply run_reachable; vm_compute; eauto|]. split; [apply sane_ok; vm_compute; reflexivity|]. split.
  - exists (stub_of (OWrite sync_fd 0 0 [bytes "cd"] 0) 1). split_and!; [|reflexivity|].
    + apply (issued_in _ 1). vm_compute. reflexivity.
    + intros r b Hin. apply list_elem_of_lookup in Hin as [k Hk]. revert Hk. vm_compute.
      do 4 (destruct k as [|k]; [discriminate|]). discriminate.
  - intros m'. apply idle_ok. vm_compute. reflexivity.
Qed.

(** ** Other failures *)

(** The requests of a file descriptor with a failure are dropped with the bytes in
    transit reduced, though they were never added. From then on the count is
    negative, and a write on another file descriptor waits for the next call. *)

Definition fd2 : fd_t := {| fd_id := 2; fd_flags := O_RDWR |}.

Definition transit_run : list label :=
  [LCall (write_at 0 "ab")] ++ turns 0 11 ++ [LCall (write_at 10 "cd")] ++ turns 1 8 ++
  [LServe 0 (failure EIO) []; LReturn 0] ++ turns 2 12 ++
  [LCall (OWrite fd2 0 20 [bytes "zz"] 0)] ++ turns 3 8.

Lemma wb_transit_negative :
  exists m, reachable (small_conf 1000) [] m /\ idle m = true /\ transit (inode m) = -2 /\
    todo (inode m) = [2%nat] /\ liability (inode m) = [2%nat].
Proof.
  exists (after (small_conf 1000) [] transit_run). split; [apply run_reachable; vm_compute; eauto|].
  split_and!; vm_compute; reflexivity.
Qed.

(** A write that comes in two pieces gets another joined to it: of the six bytes
    four are sent, though all were acknowledged. *)

Definition cut_run : list label :=
  [LCall (write_at 0 "ab")] ++ turns 0 11 ++ [LCall (OWrite fd1 0 10 [bytes "cd"; bytes "ef"] 0)] ++ turns 1 8 ++
  [LCall (write_at 14 "gh")] ++ turns 2 8 ++ [LServe 0 (count 2) []; LReturn 0] ++ turns 3 8.

Lemma wb_joined_data_cut :
  exists m c r, reachable (small_conf 1000) [] m /\ calls m = [c] /\ st_vector (c_stub c) = [bytes "cdef"] /\
    reqs (inode m) !! 1%nat = Some r /\ write_size r = 6 /\ total_size r = 6.
Proof.
  eexists (after (small_conf 1000) [] cut_run), _, _. split; [apply run_reachable; vm_compute; eauto|].
  split_and!; vm_compute; reflexivity.
Qed.

(** A write in nine pieces leaves the array of [wb_fulfill_head]. *)

Definition overflow_run : list label :=
  [LCall (OWrite fd1 0 0 (replicate 9 (bytes "a")) 0)] ++ turns 0 7.

Lemma wb_vector_overflow :
  exists m a rest, reachable (small_conf 1000) [] m /\ threads m = [a :: rest] /\ exec (small_conf 1000) a m = None.
Proof.
  eexists (after (small_conf 1000) [] overflow_run), _, _. split; [apply run_reachable; vm_compute; eauto|].
  split; [vm_compute; reflexivity|]. vm_compute. reflexivity.
Qed.

(** An open is passed on at once, also one that truncates: an acknowledged write is
    carried out after it. *)

Definition open_run : list label :=
  [LCall (write_at 0 "ab")] ++ turns 0 11 ++ [LCall OOpen; LServe 1 (count 0) []; LServe 0 (count 2) []].

Lemma wb_open_overtakes :
  exists m s a b c rc d rd, reachable (small_conf 1000) [] m /\ acked_before a s (st_frame (c_stub c)) /\
    history m = a ++ [EServe c rc] ++ b ++ [EServe d rd] /\
    st_fop (c_stub c) = GF_FOP_OPEN /\ ~ settled a s /\ carried s d.
Proof.
  eexists (after (small_conf 1000) [] open_run), (stub_of (write_at 0 "ab") 0),
    (take 3 (history (after (small_conf 1000) [] open_run))), [], _, _, _, _.
  split; [apply run_reachable; vm_compute; eauto|]. split_and!.
  2:{ vm_compute. reflexivity. }
  - eexists (take 2 (history (after (small_conf 1000) [] open_run))), _, _.
    split; [vm_compute; reflexivity|]. split; [reflexivity|]. split_and!.
    + apply (issued_in _ 0). vm_compute. reflexivity.
    + reflexivity.
    + exists (count 2). split; [eapply (list_elem_of_lookup_2 _ 1); vm_compute; reflexivity|reflexivity].
  - reflexivity.
  - apply unsettling_ok. vm_compute. reflexivity.
  - exists [], []. split; reflexivity.
Qed.
