(* ===== verification/WbRun.v ===== *)
(** * Write-behind: the threads

    The invariant of the machine of WriteBehind.v. Every thread and every call to
    the server holds references to requests and knows something about them; the
    steps of the others do not disturb it. *)

From Stdlib Require Import ZArith Lia Bool Ascii String.
From stdpp Require Import base list strings gmap sorting.
From S2P Require Import Prelude WriteBehind WbInv WbSection WbSteps.

(** ** References *)

(** References for writing back, other references, requests that are passed on
    themselves, and frames of calls that are not queued yet. *)

Definition wtok (a : action) : list nat :=
  match a with
  | AGroup l => l
  | AFulfill bs _ => concat (members <$> bs)
  | AWind b _ | ACbk b _ _ | ADone b => members b
  | _ => []
  end.

Definition vtok (a : action) : list nat :=
  match a with AUnref i | AResume i true => [i] | _ => [] end.

Definition stok (a : action) : list nat := match a with AResume i true => [i] | _ => [] end.

Definition ptok (a : action) : list nat :=
  match a with
  | ACheck s _ | AQueue s | AEnqueue s _ => [st_frame s]
  | AInsert r => [st_frame (rq_stub r)]
  | _ => []
  end.

Definition wcall (c : server_call) : list nat := match c_kind c with KBack b => members b | _ => [] end.
Definition vcall (c : server_call) : list nat := match c_kind c with KSync i => [i] | _ => [] end.

Definition tok (g : action -> list nat) (t : list action) : list nat := concat (g <$> t).
Definition toks (g : action -> list nat) (ths : list (list action)) : list nat := concat (tok g <$> ths).
Definition ctoks (g : server_call -> list nat) (cs : list server_call) : list nat := concat (g <$> cs).

Lemma tok_app g t t' : tok g (t ++ t') = tok g t ++ tok g t'.
Proof. unfold tok. by rewrite fmap_app, concat_app. Qed.

Lemma ctoks_app g l l' : ctoks g (l ++ l') = ctoks g l ++ ctoks g l'.
Proof. unfold ctoks. by rewrite fmap_app, concat_app. Qed.

Lemma toks_app g l l' : toks g (l ++ l') = toks g l ++ toks g l'.
Proof. unfold toks. by rewrite fmap_app, concat_app. Qed.

Lemma concat_update {A} (g : A -> list nat) (l : list A) n x :
  l !! n = Some x ->
  exists R, Permutation (concat (g <$> l)) (g x ++ R) /\
    (forall y, Permutation (concat (g <$> <[n := y]> l)) (g y ++ R)) /\
    Permutation (concat (g <$> delete n l)) R.
Proof.
  intros Hx. exists (concat (g <$> take n l) ++ concat (g <$> drop (S n) l)). split_and!.
  - rewrite <- (take_drop_middle l n x Hx) at 1. rewrite fmap_app, concat_app. cbn. solve_Permutation.
  - intros y. rewrite insert_take_drop by (by eapply lookup_lt_Some). rewrite fmap_app, concat_app. cbn.
    solve_Permutation.
  - rewrite delete_take_drop, fmap_app, concat_app. done.
Qed.

Lemma elem_of_pieces {A B} (g : A -> list B) (l : list A) i : i ∈ concat (g <$> l) <-> exists x, x ∈ l /\ i ∈ g x.
Proof.
  induction l as [|x l IH]; [rewrite elem_of_nil; set_solver|]. rewrite fmap_cons. cbn [concat].
  rewrite elem_of_app, IH. set_solver.
Qed.

Lemma toks_elem g ths t i : t ∈ ths -> i ∈ tok g t -> i ∈ toks g ths.
Proof. intros Ht Hi. apply elem_of_pieces. eauto. Qed.

Lemma ctoks_elem g cs c i : c ∈ cs -> i ∈ g c -> i ∈ ctoks g cs.
Proof. intros Ht Hi. apply elem_of_pieces. eauto. Qed.

(** ** What threads and calls know *)

Definition arrived (h : list event) (r : wb_request) : Prop :=
  fresh_request r /\ EIssue (rq_stub r) ∈ h /\ ranged r /\
  rq_parts r = (if is_write r then [st_frame (rq_stub r)] else []).

Definition loaded (w : wb_inode) (b : batch) (v : list (list ascii)) : Prop :=
  exists hd rs, reqs w !! b_head b = Some hd /\
    Forall2 (fun i r => reqs w !! i = Some r) (members b) rs /\ v = vectors rs /\
    iov_length v <= total_size hd.

Definition back_call (w : wb_inode) (b : batch) (s : call_stub) : Prop :=
  exists hd v, reqs w !! b_head b = Some hd /\ s = with_vector v (rq_stub hd) /\ loaded w b v.

Definition batch_settled (w : wb_inode) (h : list event) (b : batch) : Prop :=
  forall i f r, i ∈ members b -> carries w i f r -> settledF h f.

Definition reply_ok (h : list event) (cr : bool) (f : nat) (r : reply) : Prop :=
  exists c, EServe c r ∈ h /\ EIssue (c_stub c) ∈ h /\ f = st_frame (c_stub c) /\
    (queued (c_stub c) -> flush_ok h (c_stub c)) /\ (st_fop (c_stub c) = GF_FOP_WRITE -> cr = true).

(** [D] lists the batches for which the thread is going to record a failure. *)

Definition act_ok (w : wb_inode) (h : list event) (cr : bool) (D : list batch) (a : action)
    (rest : list action) : Prop :=
  match a with
  | ACheck s t =>
      EIssue s ∈ h /\ (t = true -> st_fop s = GF_FOP_WRITE) /\ (st_fop s = GF_FOP_FTRUNCATE -> cr = true)
  | AQueue s => EIssue s ∈ h /\ st_fop s <> GF_FOP_WRITE
  | AEnqueue s t => EIssue s ∈ h /\ (t = true -> st_fop s = GF_FOP_WRITE) /\ cr = true
  | AInsert r => arrived h r /\ cr = true
  | AUnwind i => i ∈ tok vtok rest /\ exists r, reqs w !! i = Some r /\ tempted r = true
  | AResume i local =>
      i ∈ tok vtok rest /\
      exists r, reqs w !! i = Some r /\ tempted r = false /\ local = is_write r /\
        (local = true -> i ∈ wip w) /\ EIssue (rq_stub r) ∈ h /\ ready h (rq_stub r)
  | AFulfill bs _ => Forall (batch_ok w) bs
  | ATransit b => b_head b ∈ tok wtok rest
  | AWind b v => batch_ok w b /\ loaded w b v
  | ACbk b ret _ =>
      batch_ok w b /\ exists c r, EServe c r ∈ h /\ r_ret r = ret /\ back_call w b (c_stub c)
  | AFdSet b _ => batch_ok w b /\ forall i, i ∈ members b -> i ∈ tok wtok rest
  | AMark b _ => b_head b ∈ tok wtok rest
  | ADone b => b ∈ D \/ batch_settled w h b
  | AReply f r => reply_ok h cr f r
  | _ => True
  end.

Definition fd_sets (a : action) : list batch := match a with AFdSet b _ => [b] | _ => [] end.

Fixpoint thread_ok (w : wb_inode) (h : list event) (cr : bool) (D : list batch) (t : list action)
    : Prop :=
  match t with
  | [] => True
  | a :: t' => act_ok w h cr D a t' /\ thread_ok w h cr (fd_sets a ++ D) t'
  end.

Definition undone (c : server_call) : server_call :=
  {| c_kind := c_kind c; c_stub := c_stub c; c_done := None |}.

Definition plain_call (h : list event) (s : call_stub) : Prop :=
  EIssue s ∈ h /\ (queued s -> ready h s /\ flush_ok h s).

Definition call_ok (w : wb_inode) (h : list event) (c : server_call) : Prop :=
  (forall r, c_done c = Some r -> EServe (undone c) r ∈ h) /\
  match c_kind c with
  | KBack b => batch_ok w b /\ back_call w b (c_stub c)
  | KSync i =>
      plain_call h (c_stub c) /\ i ∈ wip w /\
      exists r, reqs w !! i = Some r /\ tempted r = false /\ rq_stub r = c_stub c
  | _ => plain_call h (c_stub c) /\ st_fop (c_stub c) <> GF_FOP_WRITE
  end.

(** A frame that has gone past the start of its operation. *)

Definition posted (m : machine) (f : nat) : Prop :=
  (exists r b, EAnswer f r b ∈ history m) \/
  (exists i r, reqs (inode m) !! i = Some r /\ st_frame (rq_stub r) = f) \/
  (exists i r, carries (inode m) i f r) \/
  (exists t r, t ∈ threads m /\ AReply f r ∈ t) \/
  (exists c, c ∈ calls m /\ st_frame (c_stub c) = f).

Definition wtoks (m : machine) : list nat := toks wtok (threads m) ++ ctoks wcall (calls m).
Definition vtoks (m : machine) : list nat := toks vtok (threads m) ++ ctoks vcall (calls m).
Definition stoks (m : machine) : list nat := toks stok (threads m) ++ ctoks vcall (calls m).
Definition ptoks (m : machine) : list nat := toks ptok (threads m).

Record minv (m : machine) : Prop := {
  mi_winv : winv (inode m) (wtoks m) (vtoks m);
  mi_sync : NoDup (stoks m);
  mi_core : core (inode m) (history m) (frames m);
  mi_threads : forall t, t ∈ threads m -> thread_ok (inode m) (history m) (created m) [] t;
  mi_calls : forall c, c ∈ calls m -> call_ok (inode m) (history m) c;
  mi_fresh : NoDup (ptoks m) /\ forall f, f ∈ ptoks m -> (f < frames m)%nat /\ ~ posted m f;
  mi_fds : (forall fd e, fd_err m !! fd = Some e -> EFailed fd e ∈ history m) /\
    (forall fd e, EFailed fd e ∈ history m -> is_Some (fd_err m !! fd));
  mi_created : created m = false ->
    reqs (inode m) = ∅ /\ (forall sg, ~ acked (history m) sg)
}.

(** ** Steps of others *)

Lemma plain_keep h e s : apart h e -> plain_call h s -> plain_call (h ++ e) s.
Proof.
  intros He [Hi Hq]. split; [set_solver|]. intros Hx. destruct (Hq Hx). split; [by apply ready_app|by apply flush_app].
Qed.

(** What a step leaves of the requests that others hold. *)

Record steady (w w' : wb_inode) : Prop := {
  st_keep : forall k q q', ~ k ∈ todo w -> reqs w !! k = Some q -> reqs w' !! k = Some q' -> frozen q q';
  st_same : forall k q q', reqs w !! k = Some q -> reqs w' !! k = Some q' -> same_request q q';
  st_wip : forall k, k ∈ wip w -> is_Some (reqs w' !! k) -> k ∈ wip w'
}.

Lemma shift_steady G w w' : shift G w w' -> steady w w'.
Proof.
  intros [_ _ L P _ K]. split; [done| |done]. intros k q q' Hq Hq'.
  destruct (L k q' Hq') as (q0 & Hq0 & Hs). congruence.
Qed.

Section transport.
Context (w w' : wb_inode) (h e : list event) (W W' V V' : list nat).
Context (H : winv w W V) (H' : winv w' W' V') (Hsh : steady w w').

Lemma out_frozen i r :
  i ∈ W -> i ∈ W' -> reqs w !! i = Some r -> exists r', reqs w' !! i = Some r' /\ frozen r r'.
Proof using H H' Hsh.
  intros Hi Hi' Hr. destruct (wi_out _ _ _ H' i Hi') as (_ & r' & Hr' & _). exists r'. split; [done|].
  eapply (st_keep _ _ Hsh i); [|done|done]. intros Ht.
  destruct (wi_out _ _ _ H i Hi) as [Hw _]. by apply (proj2 (wi_wip _ _ _ H) i Hw).
Qed.

Definition held_by (b : batch) : Prop := forall i, i ∈ members b -> i ∈ W /\ i ∈ W'.

Lemma batch_ok_keep b : held_by b -> batch_ok w b -> batch_ok w' b.
Proof using H H' Hsh.
  intros Hb (hd & Hhd & Hw). destruct (out_frozen (b_head b) hd) as (hd' & Hhd' & [Es Ez _ _]); [by apply Hb; left..|done|].
  exists hd'. split; [done|]. intros i Hi. destruct (Hw i Hi) as (r & Hr & E1 & E2).
  destruct (out_frozen i r) as (r' & Hr' & [Fs Fz _ _]); [by apply Hb; right..|done|].
  exists r'. unfold rq_fd in *. rewrite Es, Ez, Fs. done.
Qed.

Lemma vectors_keep l rs :
  (forall i, i ∈ l -> i ∈ W /\ i ∈ W') -> Forall2 (fun i r => reqs w !! i = Some r) l rs ->
  exists rs', Forall2 (fun i r => reqs w' !! i = Some r) l rs' /\ vectors rs' = vectors rs.
Proof using H H' Hsh.
  intros Hl Hrs. induction Hrs as [|i r l rs Hr Hrs IH]; [by exists []|].
  destruct IH as (rs' & Hrs' & Ev); [set_solver|].
  destruct (out_frozen i r) as (r' & Hr' & [Fs _ _ _]); [by apply Hl; left..|done|].
  exists (r' :: rs'). split; [by constructor|]. unfold vectors in *. cbn. by rewrite Fs, Ev.
Qed.

Lemma loaded_keep b v : held_by b -> loaded w b v -> loaded w' b v.
Proof using H H' Hsh.
  intros Hb (hd & rs & Hhd & Hrs & -> & Hl).
  destruct (out_frozen (b_head b) hd) as (hd' & Hhd' & [_ _ _ Ht]); [by apply Hb; left..|done|].
  destruct (vectors_keep _ rs Hb Hrs) as (rs' & Hrs' & Ev). exists hd', rs'. rewrite Ev. split_and!; [done..|lia].
Qed.

Lemma back_call_keep b s : held_by b -> back_call w b s -> back_call w' b s.
Proof using H H' Hsh.
  intros Hb (hd & v & Hhd & -> & Hl).
  destruct (out_frozen (b_head b) hd) as (hd' & Hhd' & [Es _ _ _]); [by apply Hb; left..|done|].
  exists hd', v. rewrite Es. split_and!; [done|done|by apply loaded_keep].
Qed.

Lemma batch_settled_keep b : held_by b -> batch_settled w h b -> batch_settled w' (h ++ e) b.
Proof using H H' Hsh.
  intros Hb Hs i f r' Hi (Hr' & Ht & Hf & Hp). apply settledF_app.
  destruct (Hb i Hi) as [HiW HiW']. destruct (wi_out _ _ _ H i HiW) as (_ & r & Hr & Htr).
  pose proof (sr_tempted _ _ (st_same _ _ Hsh i r r' Hr Hr')) as Et. destruct (out_frozen i r) as (r1 & Hr1 & [_ _ Ep _]); [done..|].
  assert (r1 = r') as -> by congruence. apply (Hs i f r Hi). split_and!; [done|congruence| |congruence].
  apply (wi_wind _ _ _ H i r); [done|congruence|set_solver].
Qed.

Lemma untempted_keep i r :
  reqs w !! i = Some r -> tempted r = false -> is_Some (reqs w' !! i) ->
  exists r', reqs w' !! i = Some r' /\ tempted r' = false /\ rq_stub r' = rq_stub r /\ is_write r' = is_write r.
Proof using Hsh.
  intros Hr Ht [r' Hr']. destruct (st_same _ _ Hsh i r r' Hr Hr') as [(Efp & _) _ Et Hp]. exists r'. destruct (Hp Ht) as (E & _). split_and!; [done|congruence|done|].
  unfold is_write. by rewrite E.
Qed.

(** A thread that does nothing in the step. *)

Lemma act_ok_keep cr cr' D a t :
  apart h e -> (cr = true -> cr' = true) ->
  (forall i, i ∈ tok wtok (a :: t) -> i ∈ W /\ i ∈ W') -> (forall i, i ∈ tok vtok (a :: t) -> i ∈ V') ->
  act_ok w h cr D a t -> act_ok w' (h ++ e) cr' D a t.
Proof using H H' Hsh.
  intros He Hcr Hw Hv. assert (forall s, EIssue s ∈ h -> EIssue s ∈ h ++ e) as Hi by (intros; apply elem_of_app; auto).
  assert (forall i, i ∈ tok vtok t -> is_Some (reqs w' !! i)) as Hlv.
  { intros i Hit. destruct (refs_live w' W' V' i) as [r ?]; [done| |eauto]. rewrite !elem_of_app. right. right.
    apply Hv. unfold tok. cbn. apply elem_of_app. by right. }
  assert (forall b, (forall i, i ∈ members b -> i ∈ wtok a \/ i ∈ tok wtok t) -> held_by b) as Hh.
  { intros b Hb i Hib. apply Hw. unfold tok. cbn. apply elem_of_app. by apply Hb. }
  destruct a; cbn [act_ok]; try done.
  - naive_solver.
  - naive_solver.
  - naive_solver.
  - unfold arrived. naive_solver.
  - intros (Hit & r & Hr & Ht). split; [done|]. destruct (Hlv _ Hit) as [r' Hr']. exists r'. split; [done|].
    by rewrite (sr_tempted _ _ (st_same _ _ Hsh i r r' Hr Hr')).
  - intros (Hit & r & Hr & Ht & -> & Hwp & Hsr & Hrd). split; [done|].
    destruct (untempted_keep i r Hr Ht) as (r' & Hr' & Ht' & Es & Ew); [auto|].
    exists r'. rewrite Es, Ew. split_and!; [done..| |auto|by apply ready_app].
    intros Hx. apply (st_wip _ _ Hsh); eauto.
  - intros Hbs. rewrite Forall_forall in *. intros b Hb. apply batch_ok_keep; [|auto]. apply Hh. intros i Hib. left.
    cbn. apply elem_of_pieces. eauto.
  - intros [Hb Hl]. split; [apply batch_ok_keep|apply loaded_keep]; auto.
  - intros (Hb & c & r & Hs & Er & Hbc). split; [apply batch_ok_keep; auto|]. exists c, r.
    split_and!; [apply elem_of_app; auto|done|]. apply back_call_keep; auto.
  - intros [Hb Hin]. split; [|done]. apply batch_ok_keep; auto.
  - intros [?|Hb]; [by left|right]. apply batch_settled_keep; auto.
  - intros (c & Hs & Hc & -> & Hf & Hwr). exists c. split_and!; [apply elem_of_app; auto|auto|done| |auto].
    intros Hq. apply flush_app; auto.
Qed.

Lemma thread_ok_keep cr cr' D t :
  apart h e -> (cr = true -> cr' = true) ->
  (forall i, i ∈ tok wtok t -> i ∈ W /\ i ∈ W') -> (forall i, i ∈ tok vtok t -> i ∈ V') ->
  thread_ok w h cr D t -> thread_ok w' (h ++ e) cr' D t.
Proof using H H' Hsh.
  intros He Hcr. revert D. induction t as [|a t IH]; intros D Hw Hv; cbn [thread_ok]; [done|].
  intros [Ha Ht]. split; [eapply act_ok_keep; eauto|].
  apply IH; [intros i Hi; apply Hw|intros i Hi; apply Hv|done]; unfold tok in *; cbn; apply elem_of_app; by right.
Qed.

Lemma call_ok_keep c :
  apart h e -> (forall i, i ∈ wcall c -> i ∈ W /\ i ∈ W') -> (forall i, i ∈ vcall c -> i ∈ V') ->
  call_ok w h c -> call_ok w' (h ++ e) c.
Proof using H H' Hsh.
  intros He Hw Hv [Hd Hk]. split; [intros r Hr; apply elem_of_app; auto|]. unfold wcall, vcall in *.
  destruct (c_kind c) as [b|i| | |].
  - destruct Hk as [Hb Hl]. split; [by apply batch_ok_keep|by apply back_call_keep].
  - destruct Hk as (Hp & Hwp & r & Hr & Ht & Es). split; [by apply plain_keep|].
    destruct (refs_live w' W' V' i) as [r1 Hr1]; [done|rewrite !elem_of_app; right; right; apply Hv; by left|].
    destruct (untempted_keep i r Hr Ht) as (r' & Hr' & Ht' & E & _); [eauto|].
    split; [apply (st_wip _ _ Hsh); eauto|]. exists r'. split_and!; [done|done|congruence].
  - destruct Hk. split; [by apply plain_keep|done].
  - destruct Hk. split; [by apply plain_keep|done].
  - destruct Hk. split; [by apply plain_keep|done].
Qed.
End transport.

(** ** A step of one thread *)

Lemma thread_ok_mono w h cr D D' t :
  (forall b, b ∈ D -> b ∈ D') -> thread_ok w h cr D t -> thread_ok w h cr D' t.
Proof.
  revert D D'. induction t as [|a t IH]; intros D D' HD; cbn [thread_ok]; [done|].
  intros [Ha Ht]. split; [|eapply IH; [|done]; set_solver].
  destruct a; cbn [act_ok] in *; try done. destruct Ha; [left; auto|by right].
Qed.

Lemma thread_ok_app w h cr D t t' :
  thread_ok w h cr D t -> thread_ok w h cr D t' -> thread_ok w h cr D (t ++ t').
Proof.
  revert D. induction t as [|a t IH]; intros D; cbn [thread_ok app]; [done|]. intros [Ha Ht] Ht'. split.
  - destruct a; cbn [act_ok] in *; rewrite ?tok_app, ?elem_of_app; try done; try (naive_solver; fail).
    destruct Ha as [? Hin]. split; [done|]. intros i Hi. rewrite elem_of_app. left. auto.
  - apply IH; [done|]. eapply thread_ok_mono; [|done]. set_solver.
Qed.

Lemma thread_ok_settled w h cr D b t :
  batch_settled w h b -> thread_ok w h cr (b :: D) t -> thread_ok w h cr D t.
Proof.
  intros Hb. revert D. induction t as [|a t IH]; intros D; cbn [thread_ok]; [done|]. intros [Ha Ht]. split.
  - destruct a; cbn [act_ok] in *; try done. destruct Ha as [[->|?]%elem_of_cons|?]; auto.
  - apply IH. eapply thread_ok_mono; [|done]. set_solver.
Qed.

Lemma minv_go m m' e :
  minv m -> history m' = history m ++ e -> apart (history m) e -> (created m = true -> created m' = true) ->
  winv (inode m') (wtoks m') (vtoks m') -> steady (inode m) (inode m') ->
  core (inode m') (history m') (frames m') -> NoDup (stoks m') ->
  (forall t, t ∈ threads m' -> t ∈ threads m \/ thread_ok (inode m') (history m') (created m') [] t) ->
  (forall c, c ∈ calls m' -> c ∈ calls m \/ call_ok (inode m') (history m') c) ->
  (NoDup (ptoks m') /\ forall f, f ∈ ptoks m' -> (f < frames m')%nat /\ ~ posted m' f) ->
  ((forall fd e, fd_err m' !! fd = Some e -> EFailed fd e ∈ history m') /\
   (forall fd e, EFailed fd e ∈ history m' -> is_Some (fd_err m' !! fd))) ->
  (created m' = false -> reqs (inode m') = ∅ /\ (forall sg, ~ acked (history m') sg)) ->
  minv m'.
Proof.
  intros H Eh He Hcr Hw Hsh Hco Hs Ht Hc Hp Hfd Hc0. split; try done.
  - intros t Hin. destruct (Ht t Hin) as [Hold|?]; [|done]. rewrite Eh.
    eapply thread_ok_keep; [apply H|exact Hw|exact Hsh|done|exact Hcr| | |by apply H].
    + intros i Hi. unfold wtoks. rewrite !elem_of_app. split; left; by eapply toks_elem.
    + intros i Hi. unfold vtoks. rewrite !elem_of_app. left; by eapply toks_elem.
  - intros c Hin. destruct (Hc c Hin) as [Hold|?]; [|done]. rewrite Eh.
    eapply call_ok_keep; [apply H|exact Hw|exact Hsh|done| | |by apply H].
    + intros i Hi. unfold wtoks. rewrite !elem_of_app. split; right; by eapply ctoks_elem.
    + intros i Hi. unfold vtoks. rewrite !elem_of_app. right; by eapply ctoks_elem.
Qed.

(** The machine after an action of thread [n]. *)

Definition resumed (n : nat) (acts : list action) (m : machine) : machine :=
  {| inode := inode m; created := created m; fd_err := fd_err m; file := file m; calls := calls m;
     threads := <[n := acts]> (threads m); frames := frames m; history := history m |}.

Record effect (m m1 : machine) (a : action) (rest acts : list action) (cs : list server_call) (e : list event)
    : Prop := {
  ef_frame : threads m1 = threads m /\ frames m1 = frames m /\ calls m1 = calls m ++ cs /\
    history m1 = history m ++ e /\ (created m = true -> created m1 = true);
  ef_events : no_issue e /\ (forall h1 x h2, e = h1 ++ x :: h2 -> event_ok (history m ++ h1) x);
  ef_winv : forall RW RV, winv (inode m) (wtok a ++ tok wtok rest ++ RW) (vtok a ++ tok vtok rest ++ RV) ->
    winv (inode m1) (tok wtok acts ++ ctoks wcall cs ++ tok wtok rest ++ RW)
      (tok vtok acts ++ ctoks vcall cs ++ tok vtok rest ++ RV);
  ef_shift : shift (settledF (history m ++ e)) (inode m) (inode m1);
  ef_sync : forall R, (forall i, i ∈ R -> i ∈ stoks m) -> NoDup (stok a ++ R) ->
    NoDup (tok stok acts ++ ctoks vcall cs ++ R);
  ef_acts : thread_ok (inode m1) (history m1) (created m1) [] acts /\ (forall f r, ~ AReply f r ∈ acts) /\
    (forall b, b ∈ fd_sets a -> batch_settled (inode m1) (history m1) b);
  ef_calls : forall c, c ∈ cs -> call_ok (inode m1) (history m1) c;
  ef_acked : forall sg, acked (history m ++ e) sg ->
    acked (history m) sg \/ secure (inode m) (history m) (st_frame sg) (fun q => lied q = true);
  ef_frames : tok ptok acts = ptok a \/ tok ptok acts = [];
  ef_posted : forall f, (exists r b, EAnswer f r b ∈ e) \/ (exists c, c ∈ cs /\ st_frame (c_stub c) = f) ->
    posted m f \/ f ∈ ptok a /\ tok ptok acts = [];
  ef_fds : (forall fd x, fd_err m1 !! fd = Some x -> EFailed fd x ∈ history m1) /\
    (forall fd x, EFailed fd x ∈ history m1 -> is_Some (fd_err m1 !! fd));
  ef_created : created m1 = false -> reqs (inode m1) = ∅ /\ (forall sg, ~ acked (history m1) sg)
}.

Lemma posted_bound m f : minv m -> posted m f -> (f < frames m)%nat.
Proof.
  intros H. pose proof (mi_core _ H) as Hc. assert (forall s, EIssue s ∈ history m -> (st_frame s < frames m)%nat) as Hi by apply Hc.
  assert (forall i r, reqs (inode m) !! i = Some r -> (st_frame (rq_stub r) < frames m)%nat) as Hr.
  { intros i r Hr. destruct (co_live _ _ _ Hc i r Hr) as [(s & Hs & <- & _) _]. auto. }
  intros [(r & b & Ha)|[(i & r & Hx & <-)|[(i & r & Hx)|[(t & r & Ht & Ha)|(c & Hin & <-)]]]].
  - by eapply (co_answers _ _ _ Hc).
  - eauto.
  - destruct (co_carry _ _ _ Hc _ _ _ Hx) as (sf & Hs & <- & _). auto.
  - pose proof (mi_threads _ H t Ht) as Hok. clear Ht. revert Hok. generalize (@nil batch).
    induction t as [|a t IH]; [by apply not_elem_of_nil in Ha|]. cbn [thread_ok]. intros D [Hao Hok].
    apply elem_of_cons in Ha as [<-|Ha]; [|by eapply IH]. destruct Hao as (c & _ & Hs & -> & _). auto.
  - destruct (mi_calls _ H c Hin) as [_ Hk]. destruct (c_kind c) as [b|i| | |].
    + destruct Hk as (_ & hd & v & Hhd & -> & _). cbn. eauto.
    + destruct Hk as ([Hs _] & _). auto.
    + destruct Hk as ([Hs _] & _). auto.
    + destruct Hk as ([Hs _] & _). auto.
    + destruct Hk as ([Hs _] & _). auto.
Qed.

Lemma tok_cons g a t : tok g (a :: t) = g a ++ tok g t.
Proof. done. Qed.

Lemma effect_winv m m1 n a rest acts cs e :
  minv m -> threads m !! n = Some (a :: rest) -> effect m m1 a rest acts cs e ->
  let m' := resumed n (acts ++ rest) m1 in
  winv (inode m') (wtoks m') (vtoks m') /\ NoDup (stoks m').
Proof.
  intros H Hn E m'. destruct (ef_frame _ _ _ _ _ _ _ E) as (Et & _ & Ec & _).
  unfold m', wtoks, vtoks, stoks, resumed. cbn [inode threads calls]. rewrite Et, Ec, !ctoks_app.
  destruct (concat_update (tok wtok) _ _ _ Hn) as (RW & PW & PW' & _).
  destruct (concat_update (tok vtok) _ _ _ Hn) as (RV & PV & PV' & _).
  destruct (concat_update (tok stok) _ _ _ Hn) as (RS & PS & PS' & _).
  specialize (PW' (acts ++ rest)). specialize (PV' (acts ++ rest)). specialize (PS' (acts ++ rest)).
  rewrite tok_app in PW', PV', PS'. rewrite tok_cons in PW, PV, PS. fold (toks wtok (threads m)) in PW.
  fold (toks vtok (threads m)) in PV. fold (toks stok (threads m)) in PS. split.
  - eapply winv_perm; [| |apply (ef_winv _ _ _ _ _ _ _ E (RW ++ ctoks wcall (calls m)) (RV ++ ctoks vcall (calls m)))].
    + unfold toks. rewrite PW'. solve_Permutation.
    + unfold toks. rewrite PV'. solve_Permutation.
    + eapply winv_perm; [| |apply (mi_winv _ H)]; unfold wtoks, vtoks; [rewrite PW|rewrite PV]; solve_Permutation.
  - pose proof (mi_sync _ H) as Hs. unfold stoks in Hs.
    assert (NoDup (tok stok acts ++ ctoks vcall cs ++ tok stok rest ++ RS ++ ctoks vcall (calls m))) as Hn'.
    { apply (ef_sync _ _ _ _ _ _ _ E).
      - intros i Hi. unfold stoks. rewrite PS. revert Hi. rewrite !elem_of_app. tauto.
      - eapply NoDup_Permutation_proper; [|exact Hs]. rewrite PS. solve_Permutation. }
    eapply NoDup_Permutation_proper; [|exact Hn']. unfold toks. rewrite PS'. solve_Permutation.
Qed.

Lemma effect_core m m1 a rest acts cs e :
  minv m -> (forall f, f ∈ ptok a -> (f < frames m)%nat) -> effect m m1 a rest acts cs e ->
  core (inode m1) (history m ++ e) (frames m).
Proof.
  intros H Hp E. destruct (ef_events _ _ _ _ _ _ _ E) as [He Hev].
  eapply core_shift; [apply H|apply E|done| |apply E|done].
  intros f r b Ha. destruct (ef_posted _ _ _ _ _ _ _ E f) as [?|[? _]]; [left; eauto|by apply posted_bound|auto].
Qed.

Lemma effect_posted m m1 n a rest acts cs e f :
  threads m !! n = Some (a :: rest) -> effect m m1 a rest acts cs e ->
  posted (resumed n (acts ++ rest) m1) f -> posted m f \/ f ∈ ptok a /\ tok ptok acts = [].
Proof.
  intros Hn E. destruct (ef_frame _ _ _ _ _ _ _ E) as (Et & _ & Ec & Eh & _).
  pose proof (ef_shift _ _ _ _ _ _ _ E) as Hsh. pose proof (ef_posted _ _ _ _ _ _ _ E f) as Hp.
  unfold posted at 1. cbn [resumed inode history threads calls]. rewrite Et, Ec, Eh.
  intros [(r & b & [Ha|Ha]%elem_of_app)|[(i & r & Hr & Hf)|[(i & r & Hc)|[(t & r & Ht & Ha)|(c & [Hc|Hc]%elem_of_app & Hf)]]]].
  - left. left. eauto.
  - apply Hp. left. eauto.
  - left. right. left. destruct (sh_live _ _ _ Hsh _ _ Hr) as (r0 & Hr0 & [(_ & Efr & _) _ _ _]). exists i, r0. by rewrite <- Efr.
  - left. right. right. left. destruct (sh_back _ _ _ Hsh _ _ _ Hc) as (i0 & r0 & Hc0 & _). eauto.
  - left. right. right. right. left. apply list_elem_of_lookup in Ht as [k Hk]. destruct (decide (k = n)) as [->|Hne].
    + rewrite list_lookup_insert_eq in Hk by (by eapply lookup_lt_Some). injection Hk as <-.
      apply elem_of_app in Ha as [Ha|Ha]; [by apply (ef_acts _ _ _ _ _ _ _ E) in Ha|].
      exists (a :: rest), r. split; [by eapply list_elem_of_lookup_2|]. by right.
    + rewrite list_lookup_insert_ne in Hk by done. exists t, r. split; [by eapply list_elem_of_lookup_2|done].
  - left. right. right. right. right. eauto.
  - apply Hp. right. eauto.
Qed.

Lemma effect_fresh m m1 n a rest acts cs e :
  minv m -> threads m !! n = Some (a :: rest) -> effect m m1 a rest acts cs e ->
  let m' := resumed n (acts ++ rest) m1 in
  NoDup (ptoks m') /\ forall f, f ∈ ptoks m' -> (f < frames m')%nat /\ ~ posted m' f.
Proof.
  intros H Hn E m'. destruct (ef_frame _ _ _ _ _ _ _ E) as (Et & Efr & _). destruct (mi_fresh _ H) as [Hnd Hf].
  unfold m', ptoks in *. cbn [resumed threads frames]. rewrite Et, Efr.
  destruct (concat_update (tok ptok) _ _ _ Hn) as (R & P & P' & _). specialize (P' (acts ++ rest)).
  rewrite tok_app in P'. rewrite tok_cons in P. fold (toks ptok (threads m)) in P.
  fold (toks ptok (<[n := acts ++ rest]> (threads m))) in P'. rewrite P in Hnd. rewrite P'.
  assert (forall f, f ∈ tok ptok acts ++ tok ptok rest ++ R -> f ∈ toks ptok (threads m) /\
    (f ∈ ptok a -> tok ptok acts = [] -> False)) as Hsub.
  { intros f Hin. rewrite P. rewrite <- app_assoc in Hnd. apply NoDup_app in Hnd as (_ & Hd & _).
    destruct (ef_frames _ _ _ _ _ _ _ E) as [Eq|Eq]; rewrite Eq in *.
    - split; [set_solver|]. intros Hfa Hnil. rewrite Hnil in Hfa. by apply not_elem_of_nil in Hfa.
    - split; [set_solver|]. intros Hfa _. apply (Hd f Hfa). set_solver. }
  split.
  - rewrite <- app_assoc in Hnd. rewrite <- app_assoc.
    destruct (ef_frames _ _ _ _ _ _ _ E) as [-> | ->]; [done|]. cbn. apply NoDup_app in Hnd as (_ & _ & ?). done.
  - intros f. rewrite P', <- app_assoc. intros [Hin Hx]%Hsub. destruct (Hf f Hin) as [Hlt Hnp]. split; [done|].
    intros [?|[? ?]]%(effect_posted _ _ _ _ _ _ _ _ _ Hn E); [done|auto].
Qed.

Lemma minv_exec m m1 n a rest acts cs e :
  minv m -> threads m !! n = Some (a :: rest) -> effect m m1 a rest acts cs e ->
  minv (resumed n (acts ++ rest) m1).
Proof.
  intros H Hn E. destruct (effect_winv _ _ _ _ _ _ _ _ H Hn E) as [Hw Hs].
  assert (a :: rest ∈ threads m) as Hin by (by eapply list_elem_of_lookup_2).
  assert (forall f, f ∈ ptok a -> (f < frames m)%nat) as Hpa.
  { intros f Hf. apply (mi_fresh _ H). apply (toks_elem _ _ (a :: rest)); [done|]. rewrite tok_cons. set_solver. }
  pose proof (effect_core _ _ _ _ _ _ _ H Hpa E) as Hco.
  destruct (ef_frame _ _ _ _ _ _ _ E) as (Et & Ef & Ec & Eh & Ecr). destruct (ef_events _ _ _ _ _ _ _ E) as [He _].
  destruct (ef_acts _ _ _ _ _ _ _ E) as (Hact & Hnr & Hbs).
  eapply minv_go; [exact H|exact Eh|by apply no_issue_apart|exact Ecr|exact Hw|eapply shift_steady; apply E| |exact Hs|..]; cbn [resumed inode history frames threads calls created].
  - rewrite Eh, Ef. done.
  - rewrite Et. intros t [k Hk]%list_elem_of_lookup. destruct (decide (k = n)) as [->|Hne].
    + rewrite list_lookup_insert_eq in Hk by (by eapply lookup_lt_Some). injection Hk as <-. right.
      apply thread_ok_app; [done|]. destruct (mi_threads _ H _ Hin) as [_ Hr]. rewrite app_nil_r in Hr.
      eapply thread_ok_keep in Hr; [|apply H|exact Hw|eapply shift_steady; apply E|by apply no_issue_apart|exact Ecr| |].
      * rewrite Eh in *. destruct a; cbn [fd_sets] in *; try done. eapply thread_ok_settled; [|done]. apply Hbs. set_solver.
      * intros i Hi. split; unfold wtoks; apply elem_of_app; left.
        -- eapply toks_elem; [done|]. rewrite tok_cons. set_solver.
        -- eapply (toks_elem _ _ (acts ++ rest)); [|rewrite tok_app; set_solver]. cbn. rewrite Et.
           apply list_elem_of_insert. by eapply lookup_lt_Some.
      * intros i Hi. unfold vtoks; apply elem_of_app; left.
        eapply (toks_elem _ _ (acts ++ rest)); [|rewrite tok_app; set_solver]. cbn. rewrite Et.
        apply list_elem_of_insert. by eapply lookup_lt_Some.
    + rewrite list_lookup_insert_ne in Hk by done. left. by eapply list_elem_of_lookup_2.
  - rewrite Ec. intros c [?|?]%elem_of_app; [by left|right]. by apply (ef_calls _ _ _ _ _ _ _ E).
  - by apply (effect_fresh m m1 n a rest acts cs e).
  - apply E.
  - apply E.
Qed.
