(* ===== verification/WbActs.v ===== *)
(** * Write-behind: every action keeps the invariant

    For each action of a thread of WriteBehind.v: it is defined in every state that
    satisfies the invariant of WbRun.v, and the invariant holds after it. *)

From Stdlib Require Import ZArith Lia Bool Ascii String.
From stdpp Require Import base list strings gmap sorting.
From S2P Require Import Prelude WriteBehind WbInv WbSection WbSteps WbRun.

(** ** Actions that nobody outside sees *)

Record unseen (m m1 : machine) : Prop := {
  un_frame : threads m1 = threads m /\ frames m1 = frames m /\ calls m1 = calls m /\
    history m1 = history m /\ fd_err m1 = fd_err m;
  un_created : created m = true -> created m1 = true
}.

Lemma effect_unseen m m1 a rest acts :
  minv m -> unseen m m1 -> shift (settledF (history m)) (inode m) (inode m1) ->
  (forall RW RV, winv (inode m) (wtok a ++ RW) (vtok a ++ RV) ->
     winv (inode m1) (tok wtok acts ++ RW) (tok vtok acts ++ RV)) ->
  (forall R, (forall i, i ∈ R -> i ∈ stoks m) -> NoDup (stok a ++ R) -> NoDup (tok stok acts ++ R)) ->
  fd_sets a = [] ->
  thread_ok (inode m1) (history m1) (created m1) [] acts -> (forall f r, ~ AReply f r ∈ acts) ->
  (tok ptok acts = ptok a \/ tok ptok acts = []) ->
  effect m m1 a rest acts [] [].
Proof.
  intros H [(Et & Ef & Ec & Eh & Efd) Hcr] Hsh Hw Hs Hfs Hok Hnr Hp.
  split; rewrite ?app_nil_r; try done.
  - split; [by intros s ?%not_elem_of_nil|]. by intros [|? ?] x h2.
  - intros RW RV HW. cbn [ctoks fmap list_fmap concat app]. by apply Hw.
  - split_and!; [done|done|]. rewrite Hfs. by intros b ?%not_elem_of_nil.
  - by intros c ?%not_elem_of_nil.
  - auto.
  - intros f [(r & b & ?%not_elem_of_nil)|(c & ?%not_elem_of_nil & _)]; done.
  - rewrite Efd, Eh. apply H.
  - rewrite Eh. intros Hc1. destruct (mi_created _ H) as [He Ha].
    { destruct (created m); [by rewrite Hcr in Hc1|done]. }
    split; [|done]. apply map_eq. intros k. rewrite lookup_empty. apply eq_None_not_Some. intros [q Hq].
    destruct (sh_live _ _ _ Hsh k q Hq) as (q0 & Hq0 & _). by rewrite He, lookup_empty in Hq0.
Qed.

Lemma unseen_inode m w : unseen m (set_inode w m).
Proof. by split. Qed.

Lemma unseen_refl m : unseen m m.
Proof. by split. Qed.

(** The statement for one action. *)

Definition goes (conf : wb_conf) (m : machine) (n : nat) (a : action) (rest : list action) : Prop :=
  exists m1 acts, exec conf a m = Some (m1, acts) /\ minv (resumed n (acts ++ rest) m1).

Section actions.
Context (conf : wb_conf) (m : machine) (n : nat) (rest : list action).
Context (H : minv m) (Hsane : sane (history m)).

Lemma act_here a : threads m !! n = Some (a :: rest) ->
  act_ok (inode m) (history m) (created m) [] a rest /\
  thread_ok (inode m) (history m) (created m) (fd_sets a) rest /\
  exists RW RV, winv (inode m) (wtok a ++ tok wtok rest ++ RW) (vtok a ++ tok vtok rest ++ RV).
Proof.
  intros Hn. assert (a :: rest ∈ threads m) as Hin by (by eapply list_elem_of_lookup_2).
  destruct (mi_threads _ H _ Hin) as [Ha Hr]. rewrite app_nil_r in Hr. split_and!; [done|done|].
  destruct (concat_update (tok wtok) _ _ _ Hn) as (RW & PW & _). destruct (concat_update (tok vtok) _ _ _ Hn) as (RV & PV & _).
  fold (toks wtok (threads m)) in PW. fold (toks vtok (threads m)) in PV. rewrite tok_cons in PW, PV.
  exists (RW ++ ctoks wcall (calls m)), (RV ++ ctoks vcall (calls m)).
  eapply winv_perm; [| |apply (mi_winv _ H)]; unfold wtoks, vtoks; [rewrite PW|rewrite PV]; solve_Permutation.
Qed.

Lemma goes_unref i : threads m !! n = Some (AUnref i :: rest) -> goes conf m n (AUnref i) rest.
Proof.
  intros Hn. destruct (act_here _ Hn) as (_ & _ & RW & RV & Hw).
  destruct (winv_unref _ _ _ _ Hw) as (w' & Ew & _ & Hd).
  exists (set_inode w' m), []. split; [cbn [exec]; by rewrite Ew|].
  apply (minv_exec m _ n (AUnref i) rest [] [] []); [done|done|].
  apply effect_unseen; try done; [by eapply shift_dropped| |set_solver|by right].
  intros RW' RV' HW. destruct (winv_unref _ _ _ _ HW) as (w1 & Ew1 & H1 & _). cbn in *. congruence.
Qed.

Lemma goes_group l : threads m !! n = Some (AGroup l :: rest) -> goes conf m n (AGroup l) rest.
Proof.
  intros Hn. destruct (act_here _ Hn) as (_ & _ & RW & RV & Hw).
  destruct (wb_fulfill_ok conf l (inode m)) as (bs & Eb & El & Hok).
  { intros i Hi. destruct (refs_live _ _ _ i Hw) as [r Hr]; [set_solver|eauto]. }
  exists m, [AFulfill bs false]. split; [cbn [exec]; by rewrite Eb|].
  apply (minv_exec m _ n (AGroup l) rest _ [] []); [done|done|].
  apply effect_unseen; try done; [apply shift_refl| |set_solver|by left].
  intros RW' RV'. unfold tok. cbn. by rewrite El, app_nil_r.
Qed.

Lemma goes_transit b : threads m !! n = Some (ATransit b :: rest) -> goes conf m n (ATransit b) rest.
Proof.
  intros Hn. destruct (act_here _ Hn) as (Ha & _ & RW & RV & Hw).
  destruct (refs_live _ _ _ (b_head b) Hw) as [r Hr]; [cbn in *; set_solver|].
  eexists _, []. split; [cbn [exec]; rewrite Hr; done|].
  apply (minv_exec m _ n (ATransit b) rest [] [] []); [done|done|].
  apply effect_unseen; try done; [apply shift_alike; [exact (alike_refl (inode m))|by split]| |set_solver|by right].
  intros RW' RV' HW. apply (winv_same (inode m)); [done|by split|done|apply H].
Qed.

Lemma goes_size k : threads m !! n = Some (ASize k :: rest) -> goes conf m n (ASize k) rest.
Proof.
  intros Hn. eexists _, []. split; [done|].
  apply (minv_exec m _ n (ASize k) rest [] [] []); [done|done|].
  assert (0 <= u64 k) by (unfold u64, uwrap; apply Z.mod_pos_bound; lia). destruct (created m) eqn:Ec.
  - apply effect_unseen; try done; [apply shift_alike; [exact (alike_refl (inode m))|by split]| |set_solver|by right].
    intros RW' RV' HW. apply (winv_same (inode m)); [done|by split|done|done].
  - apply effect_unseen; try done; [apply shift_refl|set_solver|by right].
Qed.

Lemma goes_mark b err : threads m !! n = Some (AMark b err :: rest) -> goes conf m n (AMark b err) rest.
Proof.
  intros Hn. destruct (act_here _ Hn) as (Ha & _ & RW & RV & Hw).
  destruct (refs_live _ _ _ (b_head b) Hw) as [hd Hhd]; [cbn in *; set_solver|].
  assert (forall W V, winv (inode m) W V -> exists w', mark_failed (all (inode m)) (rq_fd hd) err (inode m) = Some w' /\
    winv w' W V /\ alike (inode m) w' /\ same_lists (inode m) w') as Hmk.
  { intros W V HW. apply mark_failed_ok; [done|]. intros i Hi. by apply (wi_all _ _ _ HW). }
  destruct (Hmk _ _ Hw) as (w' & Ew & _ & Hal & Hsl).
  exists (set_inode w' m), []. split; [cbn [exec]; rewrite Hhd; cbn [mbind option_bind]; by rewrite Ew|].
  apply (minv_exec m _ n (AMark b err) rest [] [] []); [done|done|].
  apply effect_unseen; try done; [by apply shift_alike| |set_solver|by right].
  intros RW' RV' HW. destruct (Hmk _ _ HW) as (w1 & Ew1 & H1 & _). cbn in *. congruence.
Qed.

Lemma goes_done b : threads m !! n = Some (ADone b :: rest) -> goes conf m n (ADone b) rest.
Proof.
  intros Hn. destruct (act_here _ Hn) as (Ha & _ & RW & RV & Hw). destruct Ha as [?%not_elem_of_nil|Hb]; [done|].
  assert (forall RW RV, winv (inode m) (members b ++ RW) RV -> exists w', wb_head_done b (inode m) = Some w' /\
    winv w' RW RV /\ shift (settledF (history m)) (inode m) w') as Hdone.
  { intros W V HW. apply fulfill_all_ok.
    - eapply winv_perm; [|done|done]. unfold members. solve_Permutation.
    - intros i f r Hi. apply Hb. unfold members. set_solver. }
  destruct (Hdone _ _ Hw) as (w' & Ew & _ & Hsh).
  exists (set_inode w' m), []. split; [cbn [exec]; by rewrite Ew|].
  apply (minv_exec m _ n (ADone b) rest [] [] []); [done|done|].
  apply effect_unseen; try done; [|set_solver|by right].
  intros RW' RV' HW. destruct (Hdone _ _ HW) as (w1 & Ew1 & H1 & _). cbn in *. congruence.
Qed.

(** Writing back. *)

Lemma failed_batch w h e k b hd fd x W V :
  core w h k -> winv w (members b ++ W) V -> batch_ok w b -> reqs w !! b_head b = Some hd ->
  rq_fd hd = Some fd -> EFailed fd x ∈ h ++ e -> batch_settled w (h ++ e) b.
Proof.
  intros Hc Hw (hd0 & Hhd0 & Hf) Hhd Hfd Hx i f r Hi Hcar. assert (hd0 = hd) as -> by congruence.
  destruct (co_carry _ _ _ Hc _ _ _ Hcar) as (sf & Hs & Ef & _ & Efd & _). exists sf.
  split_and!; [apply elem_of_app; auto|done|]. right. exists fd, x. split; [|done].
  destruct Hcar as (Hr & _). unfold members in Hi. apply elem_of_cons in Hi as [->|Hi]; [congruence|].
  destruct (Hf i Hi) as (r0 & Hr0 & E & _). congruence.
Qed.

Lemma goes_fulfill bs retry : threads m !! n = Some (AFulfill bs retry :: rest) -> goes conf m n (AFulfill bs retry) rest.
Proof.
  intros Hn. destruct (act_here _ Hn) as (Ha & _ & RW & RV & Hw). destruct bs as [|b bs].
  { exists m, (if retry then [AProcess] else []). split; [done|].
    apply (minv_exec m _ n (AFulfill [] retry) rest _ [] []); [done|done|].
    apply effect_unseen; try done; [apply shift_refl|by destruct retry..|destruct retry; set_solver|by destruct retry; left]. }
  cbn [act_ok] in Ha. apply Forall_cons in Ha as [Hb Hbs].
  assert (forall W, wtok (AFulfill (b :: bs) retry) ++ W = members b ++ concat (members <$> bs) ++ W) as Ew.
  { intros W. cbn [wtok fmap list_fmap concat]. by rewrite <- app_assoc. }
  rewrite Ew in Hw. destruct (load_ok _ _ _ _ Hw Hb) as (hd & rs & w' & hd' & Hhd & El & Hrs & Hw' & Hm & Hhd' & Hlen & Es).
  assert (forall W V, winv (inode m) (members b ++ W) V -> winv w' (members b ++ W) V) as Hwt.
  { intros W V HW. destruct (load_ok _ _ _ _ HW Hb) as (? & ? & w1 & ? & ? & El1 & ? & ? & ?). congruence. }
  assert (steady (inode m) w') as Hst by (eapply shift_steady, (shift_moved (fun _ => True)), Hm).
  assert (forall b', (forall i, i ∈ members b' -> i ∈ members b ++ concat (members <$> bs)) ->
    held_by (members b ++ concat (members <$> bs) ++ tok wtok rest ++ RW)
      (members b ++ concat (members <$> bs) ++ tok wtok rest ++ RW) b') as Hheld.
  { intros b' Hb' i Hi%Hb'. set_solver. }
  assert (batch_ok w' b) as Hb'.
  { eapply batch_ok_keep; [exact Hw|exact Hw'|done| |done]. apply Hheld. set_solver. }
  assert (Forall (batch_ok w') bs) as Hbs'.
  { rewrite Forall_forall in *. intros b' Hin. eapply batch_ok_keep; [exact Hw|exact Hw'|done| |auto].
    apply Hheld. intros i Hi. apply elem_of_app. right. apply elem_of_pieces. eauto. }
  unfold goes. cbn [exec]. unfold wb_fulfill_head. rewrite Hhd. cbn [mbind option_bind]. rewrite El. cbn [mbind option_bind].
  destruct (wb_fd_err (rq_fd hd) m) as [x|] eqn:Hfe.
  - eexists _, _. split; [done|]. apply (minv_exec m _ n (AFulfill (b :: bs) retry) rest _ [] []); [done|done|].
    apply effect_unseen; try done; [by apply shift_moved| | |set_solver|by left].
    + intros RW' RV'. rewrite Ew. unfold tok. cbn. rewrite app_nil_r, <- app_assoc. apply Hwt.
    + cbn [thread_ok act_ok fd_sets app]. split_and!; [right|done|done]. unfold wb_fd_err in Hfe.
      destruct (rq_fd hd) as [fd|] eqn:Hfd; [|done]. cbn in Hfe. apply (mi_fds _ H) in Hfe.
      change (history (set_inode w' m)) with (history m). rewrite <- (app_nil_r (history m)) in Hfe |- *.
      eapply batch_settled_keep; [exact Hw|exact Hw'|done|apply Hheld; set_solver|].
      rewrite <- (app_nil_r (history m)). eapply failed_batch; [apply H|exact Hw|done|done|done|done].
  - eexists _, _. split; [done|]. apply (minv_exec m _ n (AFulfill (b :: bs) retry) rest _ [] []); [done|done|].
    apply effect_unseen; try done; [by apply shift_moved| | |set_solver|by left].
    + intros RW' RV'. rewrite Ew. unfold tok. cbn. rewrite app_nil_r, <- app_assoc. apply Hwt.
    + cbn [thread_ok act_ok fd_sets app]. split_and!; try done; [unfold tok, members; cbn; set_solver|].
      destruct (vectors_keep _ _ _ _ _ _ Hw Hw' Hst (members b) rs) as (rs' & Hrs' & Ev); [apply Hheld; set_solver|done|].
      exists hd', rs'. rewrite Ev. done.
Qed.

(** The data of a member of a batch is in the call. *)

Lemma batch_within w W V b v hd i r :
  winv w (members b ++ W) V -> batch_ok w b -> loaded w b v -> reqs w !! b_head b = Some hd ->
  i ∈ members b -> reqs w !! i = Some r ->
  within (data_of r) (st_offset (rq_stub r)) (concat v) (st_offset (rq_stub hd)) /\ rq_fd r = rq_fd hd.
Proof.
  intros Hw Hb (hd1 & rs & Hhd1 & Hrs & -> & _) Hhd Hi Hr. pose proof (chain_short _ _ _ _ Hw Hb) as Hlen.
  destruct Hb as (hd2 & Hhd2 & Hf). assert (hd2 = hd /\ hd1 = hd) as [-> ->] by (split; congruence).
  unfold members in *. inversion Hrs as [|? h0 ? rs' Hh0 Hrs' E1 E2]. subst. assert (h0 = hd) as -> by congruence.
  assert (write_ok hd) as Ohd.
  { destruct (out_write w ((b_head b :: b_winds b) ++ W) V (b_head b)) as (x & Hx & ?); [done|set_solver|congruence]. }
  unfold vectors. cbn. apply elem_of_cons in Hi as [->|Hi].
  - assert (r = hd) as -> by congruence. split; [|done]. rewrite concat_app. exists [], (concat (concat ((fun r => st_vector (rq_stub r)) <$> rs'))).
    split; [done|cbn; lia].
  - destruct (b_winds b) as [|j [|? ?]]; cbn in Hlen; [by apply not_elem_of_nil in Hi| |lia].
    apply list_elem_of_singleton in Hi as ->. inversion Hrs' as [|? r1 ? rs2 Hr1 Hrs2]. subst. inversion Hrs2. subst.
    assert (r1 = r) as -> by congruence. destruct (Hf j) as (r2 & Hr2 & Efd & Eo); [set_solver|].
    assert (r2 = r) as -> by congruence. split; [|done]. cbn. rewrite app_nil_r, concat_app.
    exists (data_of hd), []. rewrite app_nil_r. split; [done|]. destruct (wo_size _ Ohd) as [Es _]. lia.
Qed.

Lemma served_batch w h k b c r W V :
  core w h k -> winv w (members b ++ W) V -> batch_ok w b -> back_call w b (c_stub c) -> EServe c r ∈ h ->
  iov_length (st_vector (c_stub c)) <= r_ret r -> batch_settled w h b.
Proof.
  intros Hc Hw Hb (hd & v & Hhd & Es & Hl) Hs Hlen i f q Hi Hcar.
  destruct (co_carry _ _ _ Hc _ _ _ Hcar) as (sf & Hsf & Ef & _ & Efd & Hwi). exists sf. split_and!; [done..|].
  destruct (batch_within _ _ _ _ _ _ _ _ Hw Hb Hl Hhd Hi (proj1 Hcar)) as [Hwi2 Efd2].
  assert (is_write hd = true) as Hwr.
  { destruct (wi_out _ _ _ Hw (b_head b)) as (_ & x & Hx & Ht); [unfold members; set_solver|].
    assert (x = hd) as -> by congruence. by apply (wi_wf _ _ _ Hw (b_head b)). }
  unfold is_write in Hwr. apply bool_decide_eq_true_1 in Hwr.
  left. exists c, r. rewrite Es in *. cbn. split_and!; [done|done| |by eapply within_trans|done].
  rewrite Efd, Efd2. unfold rq_fd. by rewrite Hwr.
Qed.

Lemma goes_cbk b ret err : threads m !! n = Some (ACbk b ret err :: rest) -> goes conf m n (ACbk b ret err) rest.
Proof.
  intros Hn. destruct (act_here _ Hn) as (Ha & _ & RW & RV & Hw).
  destruct Ha as (Hb & c & r & Hs & Er & Hbc). cbn [wtok vtok app] in Hw.
  destruct Hbc as (hd & v & Hhd & Es & Hl). pose proof Hl as (hd1 & rs & Hhd1 & _ & _ & Htot).
  assert (hd1 = hd) as -> by congruence.
  unfold goes. cbn [exec]. rewrite Hhd. cbn [mbind option_bind]. eexists _, _. split; [done|].
  match goal with |- minv (resumed n (?x ++ rest) m) => set (acts := x) end.
  apply (minv_exec m _ n (ACbk b ret err) rest acts [] []); [done|done|].
  assert (forall x, thread_ok (inode m) (history m) (created m) [] ([AFdSet b x; AMark b x] ++ [ADone b; AProcess])) as Hfail.
  { intros x. cbn [thread_ok act_ok fd_sets app]. unfold tok, members. cbn. rewrite app_nil_r.
    split_and!; try done; set_solver. }
  assert (thread_ok (inode m) (history m) (created m) [] acts /\ tok wtok acts = members b /\ tok vtok acts = [] /\
    tok stok acts = [] /\ tok ptok acts = [] /\ forall f x, ~ AReply f x ∈ acts) as (Hok & E1 & E2 & E3 & E4 & Hnr).
  { unfold acts, wb_fulfill_cbk. destruct (Z.eqb_spec ret (-1)) as [_|Hne].
    { split; [apply Hfail|]. unfold tok. cbn. rewrite app_nil_r. split_and!; try done. set_solver. }
    destruct (Z.ltb_spec (u64 ret) (total_size hd)) as [_|Hge].
    { split; [apply Hfail|]. unfold tok. cbn. rewrite app_nil_r. split_and!; try done. set_solver. }
    split; [|unfold tok; cbn; rewrite app_nil_r; split_and!; try done; set_solver].
    cbn [thread_ok act_ok app]. split_and!; try done. right. eapply served_batch; [apply H|exact Hw|done| |done|].
    - by exists hd, v.
    - rewrite Es. cbn. pose proof (sn_serve _ Hsane c r Hs) as Hr. rewrite Er in *.
      unfold u64, uwrap in Hge. rewrite Z.mod_small in Hge by lia. lia. }
  apply effect_unseen; try done; [apply shift_refl|rewrite E1, E2; done|rewrite E3; done|by right].
Qed.

(** Arrival. *)

Lemma order_ok s w off size w' :
  sane_stub s -> 0 <= wb_size w -> order_request s w = (off, size, w') ->
  w' = set_size (wb_size w') w /\ 0 <= wb_size w' /\
  forall t, (t = true -> st_fop s = GF_FOP_WRITE) -> fresh_request (new_request s t off size) /\
    ranged (new_request s t off size).
Proof.
  intros Hs Hz Ho. assert (w = set_size (wb_size w) w) as Ew by (by destruct w).
  assert (forall x, 0 <= u64 x) as Hu by (intros x; unfold u64, uwrap; apply Z.mod_pos_bound; lia).
  assert (forall t, st_fop s <> GF_FOP_WRITE -> (t = true -> st_fop s = GF_FOP_WRITE) ->
    fresh_request (new_request s t off size)) as Hplain.
  { intros t Hne Ht. split; [|done]. split; unfold is_write; cbn; rewrite bool_decide_eq_true; [done|].
    by intros ->%Ht. }
  unfold order_request, sane_stub, ranged in *. cbn [rq_stub new_request rq_ord o_off o_size].
  destruct (st_fop s) eqn:Ef; try (injection Ho as <- <- <-; split_and!; [first [done|exact Ew]|first [done|apply Hu]|];
    intros t Ht; split; [by apply Hplain|done]).
  destruct Hs as ([fd Hfd] & (d & Ev & Hd) & Ho1 & Ho2).
  assert (iov_length (st_vector s) = Z.of_nat (length d) /\ 0 < Z.of_nat (length d)) as [El Hpos].
  { rewrite Ev. unfold iov_length. cbn. rewrite app_nil_r. destruct d; [done|cbn; lia]. }
  unfold u64, uwrap in Ho. rewrite (Z.mod_small (st_offset s)), (Z.mod_small (st_offset s + _)) in Ho by lia.
  assert (0 <= off <= st_offset s /\ off + size = st_offset s + iov_length (st_vector s) /\
    w' = (if wb_size w <? st_offset s + iov_length (st_vector s)
          then set_size (st_offset s + iov_length (st_vector s)) w else w)) as (R1 & R2 & ->).
  { destruct (Z.ltb_spec (wb_size w) (st_offset s)); injection Ho as <- <- <-; [|split_and!; [lia|lia|lia|done]].
    rewrite Z.mod_small by lia. split_and!; [lia|lia|lia|done]. }
  clear Ho. split_and!; [destruct (_ <? _); [done|exact Ew]|destruct (_ <? _); cbn; lia|]. intros t Ht. split; [|done]. split; [|done].
  assert (is_write (new_request s t off size) = true) as Hw by (unfold is_write; cbn; by rewrite Ef).
  split; [intros _|done].
  split; unfold data_of, rq_fd; cbn; rewrite ?Ef, ?Hfd, ?bool_decide_true by done; cbn; eauto; try done; try lia.
  unfold iov_length in *. split; [done|lia].
Qed.

Lemma goes_enqueue s t : threads m !! n = Some (AEnqueue s t :: rest) -> goes conf m n (AEnqueue s t) rest.
Proof.
  intros Hn. destruct (act_here _ Hn) as (Ha & _ & _). destruct Ha as (Hs & Ht & Hcr).
  destruct (order_request s (inode m)) as [[off size] w'] eqn:Ho.
  destruct (order_ok _ _ _ _ _ (sn_issue _ Hsane s Hs) (wi_sizes _ _ _ (mi_winv _ H)) Ho) as (Ew & Hz & Hr).
  destruct (Hr t Ht) as [Hf Hrg].
  eexists _, _. split; [cbn [exec]; rewrite Ho; done|].
  apply (minv_exec m _ n (AEnqueue s t) rest _ [] []); [done|done|].
  apply effect_unseen; try done; [| |set_solver|by left].
  - cbn. rewrite Ew. apply shift_alike; [exact (alike_refl (inode m))|by split].
  - intros RW' RV' HW. cbn [inode set_inode]. rewrite Ew. apply (winv_same (inode m)); [done|by split|done|done].
Qed.

(** The section of [wb_process_queue]. *)

Lemma tok_bind g (p : nat -> list action) l : tok g (concat (p <$> l)) = concat ((fun i => tok g (p i)) <$> l).
Proof. induction l as [|i l IH]; [done|]. rewrite !fmap_cons. cbn [concat]. by rewrite tok_app, IH. Qed.

Lemma after_tokens w T Y L :
  tok wtok (after_section w T Y L) = L /\
  Permutation (tok vtok (after_section w T Y L)) (Y ++ T ++ syncs w T) /\
  tok stok (after_section w T Y L) = syncs w T /\ tok ptok (after_section w T Y L) = [].
Proof.
  unfold after_section, wb_do_unwinds, wb_do_winds. rewrite !tok_app, !tok_bind. unfold tok. cbn.
  assert (forall (l : list nat), concat ((fun _ => []) <$> l) = @nil nat) as Enil by (by induction l).
  assert (forall (l : list nat), concat ((fun i => [i]) <$> l) = l) as Eid by (induction l; cbn; congruence).
  rewrite !Enil, Eid, !app_nil_r. split_and!; [done| | |done].
  - f_equiv. unfold syncs. induction T as [|i T IH]; [done|]. rewrite fmap_cons, filter_cons. cbn [concat]. rewrite IH.
    destruct (from_option is_write false (reqs w !! i)) eqn:E; [rewrite decide_True by done|rewrite decide_False by congruence];
      solve_Permutation.
  - unfold syncs. induction T as [|i T IH]; [done|]. rewrite fmap_cons, filter_cons. cbn [concat app]. cbn in IH. rewrite IH.
    destruct (from_option is_write false (reqs w !! i)) eqn:E; [rewrite decide_True by done|rewrite decide_False by congruence]; done.
Qed.

Lemma after_ok w h cr T Y L :
  (forall i, i ∈ Y -> exists r, reqs w !! i = Some r /\ tempted r = true) ->
  (forall i, i ∈ T -> exists r, reqs w !! i = Some r /\ tempted r = false /\ EIssue (rq_stub r) ∈ h /\ ready h (rq_stub r)) ->
  (forall i, i ∈ syncs w T -> i ∈ wip w) ->
  thread_ok w h cr [] (after_section w T Y L).
Proof.
  intros HY HT Hs. unfold after_section, wb_do_unwinds, wb_do_winds. apply thread_ok_app; [|apply thread_ok_app; [|done]].
  - clear -HY. induction Y as [|i Y IH]; [done|]. rewrite fmap_cons. cbn [concat].
    apply thread_ok_app; [|apply IH; set_solver]. cbn [thread_ok act_ok]. split_and!; [|apply HY|done..]; set_solver.
  - clear -HT Hs. induction T as [|i T IH]; [done|]. rewrite fmap_cons. cbn [concat].
    apply thread_ok_app.
    + cbn [thread_ok act_ok]. split_and!; [set_solver| |done..]. destruct (HT i) as (r & Hr & Ht & Hs' & Hrd); [set_solver|].
      exists r. rewrite Hr. cbn. split_and!; [done..| |done|done]. intros Hw. apply Hs. unfold syncs.
      rewrite filter_cons, Hr. cbn. rewrite Hw, decide_True by done. set_solver.
    + apply IH; [set_solver|]. intros j Hj. apply Hs. unfold syncs in *. rewrite filter_cons.
      destruct (decide _); set_solver.
Qed.

Lemma sync_wip i : i ∈ stoks m -> i ∈ wip (inode m).
Proof.
  unfold stoks, toks, ctoks. rewrite elem_of_app. intros [Hi|Hi]; apply elem_of_pieces in Hi as (x & Hx & Hi).
  - pose proof (mi_threads _ H x Hx) as Hok. clear Hx. revert Hok Hi. generalize (@nil batch).
    induction x as [|a x IH]; intros D; [by intros _ ?%not_elem_of_nil|]. cbn [thread_ok]. intros [Ha Hok].
    rewrite tok_cons, elem_of_app. intros [Hi|Hi]; [|by eapply IH].
    destruct a as [| | | | | |j [|]| | | | | | | | | | |]; try (by apply not_elem_of_nil in Hi).
    apply list_elem_of_singleton in Hi as ->. destruct Ha as (_ & r & _ & _ & E & Hw & _). auto.
  - destruct (mi_calls _ H x Hx) as [_ Hk]. unfold vcall in Hi. destruct (c_kind x); try (by apply not_elem_of_nil in Hi).
    apply list_elem_of_singleton in Hi as ->. by apply Hk.
Qed.

Lemma goes_process : threads m !! n = Some (AProcess :: rest) -> goes conf m n AProcess rest.
Proof.
  intros Hn. destruct (act_here _ Hn) as (_ & _ & RW & RV & Hw).
  destruct (section_ok conf _ _ _ Hw) as (T & Y & L & wm & w' & Es & Hwm & Hw' & Hm1 & Hm2 & HT & HY & Hsy & Hnd).
  destruct (after_tokens w' T Y L) as (E1 & E2 & E3 & E4).
  eexists _, _. split; [cbn [exec]; rewrite Es; done|].
  apply (minv_exec m _ n AProcess rest _ [] []); [done|done|].
  apply effect_unseen; try done; [apply shift_moved; by eapply moved_trans|..].
  - intros RW' RV' HW. destruct (section_ok conf _ _ _ HW) as (T1 & Y1 & L1 & wm1 & w1 & Es1 & _ & H1 & _).
    assert (T1 = T /\ Y1 = Y /\ L1 = L /\ w1 = w') as (-> & -> & -> & ->) by (split_and!; congruence).
    rewrite E1. eapply winv_perm; [done| |exact H1]. rewrite E2. cbn. solve_Permutation.
  - intros R HR HnR. rewrite E3. apply NoDup_app. split_and!; [by apply NoDup_filter| |done].
    intros i [_ Hi]%list_elem_of_filter HiR. apply HT in Hi as [_ Hi].
    by apply (proj2 (wi_wip _ _ _ Hw) i); [apply sync_wip, HR|].
  - apply after_ok; [intros i (r & Hr & Ht & _)%HY; eauto| |done].
    intros i Hi. destruct (HT i Hi) as [Hsd Htd]. pose proof Hsd as (r & Hr & Ht & _).
    assert (is_Some (reqs w' !! i)) as [r' Hr'].
    { destruct (refs_live _ _ _ i Hw') as [x ?]; [set_solver|eauto]. }
    exists r'. destruct (mv_live _ _ Hm2 i r' Hr') as (r0 & Hr0 & [_ _ Et Hp]).
    assert (r0 = r) as -> by congruence. destruct (Hp Ht) as (-> & _). split_and!; [done|congruence| |].
    { destruct (mv_live _ _ Hm1 i r Hr) as (r1 & Hr1 & [_ _ Et' Hp']). rewrite Ht in Et'.
      destruct (Hp' (eq_sym Et')) as (-> & _). by apply (co_live _ _ _ (mi_core _ H) i r1). }
    by eapply section_ready; [apply H|done|exact Hwm|exact Hm1|..].
  - intros f r. unfold after_section, wb_do_unwinds, wb_do_winds. rewrite !elem_of_app. intros [Hi|[Hi|Hi]]; [..|set_solver];
      apply elem_of_pieces in Hi as (x & Hx & Hi); set_solver.
  - by right.
Qed.
End actions.

(** ** Actions that others see *)

Lemma effect_seen m m1 a rest cs e :
  minv m -> inode m1 = inode m -> created m1 = created m -> fd_err m1 = fd_err m ->
  threads m1 = threads m -> frames m1 = frames m -> calls m1 = calls m ++ cs -> history m1 = history m ++ e ->
  no_issue e -> (forall h1 x h2, e = h1 ++ x :: h2 -> event_ok (history m ++ h1) x) ->
  wtok a = ctoks wcall cs -> vtok a = ctoks vcall cs -> stok a = ctoks vcall cs -> fd_sets a = [] ->
  (forall c, c ∈ cs -> call_ok (inode m) (history m ++ e) c) ->
  (forall sg, acked (history m ++ e) sg -> acked (history m) sg \/
     created m = true /\ secure (inode m) (history m) (st_frame sg) (fun q => lied q = true)) ->
  (forall f, (exists r b, EAnswer f r b ∈ e) \/ (exists c, c ∈ cs /\ st_frame (c_stub c) = f) ->
     posted m f \/ f ∈ ptok a) ->
  (forall fd x, ~ EFailed fd x ∈ e) -> effect m m1 a rest [] cs e.
Proof.
  intros H Ei Ecr Efd Et Efr Ec Eh He Hev E1 E2 E3 E4 Hc Hack Hp Hnf.
  split; rewrite ?Ei, ?Ecr, ?Efd, ?Eh; try done.
  - intros RW RV HW. by rewrite <- E1, <- E2.
  - apply shift_refl.
  - intros R _. by rewrite E3.
  - split_and!; [done|set_solver|]. rewrite E4. set_solver.
  - intros sg [?|[_ ?]]%Hack; auto.
  - by right.
  - intros f [?|?]%Hp; auto.
  - destruct (mi_fds _ H) as [F1 F2]. split.
    + intros fd x Hx. apply elem_of_app. left. by apply F1.
    + intros fd x [Hx|Hx]%elem_of_app; [by eapply F2|by apply Hnf in Hx].
  - intros Hc0. destruct (mi_created _ H Hc0) as [? Hn]. split; [done|].
    intros sg [?|[? _]]%Hack; [by apply (Hn sg)|congruence].
Qed.

Lemma acked_answer h f r b sg :
  acked (h ++ [EAnswer f r b]) sg ->
  acked h sg \/ EIssue sg ∈ h /\ st_fop sg = GF_FOP_WRITE /\ st_frame sg = f /\ b = true /\
    r_ret r = iov_length (st_vector sg).
Proof.
  intros (Hi & Hw & r0 & Ha & Er). apply elem_of_app in Hi as [Hi|Hi]; [|set_solver].
  apply elem_of_app in Ha as [Ha|Ha]; [left; split_and!; eauto|right].
  apply list_elem_of_singleton in Ha as [= -> -> <-]. done.
Qed.

Lemma acked_quiet h sg : acked (h ++ []) sg -> acked h sg.
Proof. by rewrite app_nil_r. Qed.

Lemma one_event (P : list event -> event -> Prop) h x :
  P h x -> forall h1 y h2, [x] = h1 ++ y :: h2 -> P (h ++ h1) y.
Proof. intros HP [|? [|? ?]] y h2; cbn; [|done..]. intros [= -> _]. by rewrite app_nil_r. Qed.

Lemma exposed_lied f w i r : exposed f w = false -> carries w i f r -> lied r = true.
Proof.
  intros He (Hr & Ht & Hf & Hp). destruct (lied r) eqn:Hl; [done|]. rewrite <- not_true_iff_false in He. destruct He.
  apply existsb_exists. exists (i, r). split; [apply list_elem_of_In, elem_of_map_to_list, Hr|]. cbn.
  rewrite Hf, Hl, !andb_true_r. apply existsb_exists. exists f. split; [by apply list_elem_of_In|apply Nat.eqb_refl].
Qed.

Lemma no_issue_one x : (forall s, x <> EIssue s) -> no_issue [x].
Proof. intros Hx s ?%list_elem_of_singleton. by apply (Hx s). Qed.

Lemma no_issue_nil : no_issue [].
Proof. by intros s ?%not_elem_of_nil. Qed.

Section seen.
Context (conf : wb_conf) (m : machine) (n : nat) (rest : list action).
Context (H : minv m) (Hsane : sane (history m)).

Lemma live_created i r : reqs (inode m) !! i = Some r -> created m = true.
Proof.
  intros Hr. destruct (created m) eqn:Hc; [done|]. destruct (mi_created _ H Hc) as [He _].
  by rewrite He, lookup_empty in Hr.
Qed.

Lemma goes_unwind i : threads m !! n = Some (AUnwind i :: rest) -> goes conf m n (AUnwind i) rest.
Proof.
  intros Hn. destruct (act_here m n rest H _ Hn) as (Ha & _). destruct Ha as (_ & r & Hr & Ht).
  pose proof (mi_core _ H) as Hc. destruct (co_live _ _ _ Hc i r Hr) as [(s & Hs & Ef & Eo) _].
  eexists _, []. split; [cbn [exec]; rewrite Hr; done|].
  apply (minv_exec m _ n (AUnwind i) rest [] []
    [EAnswer (st_frame (rq_stub r)) {| r_ret := op_ret r; r_errno := op_errno r; r_data := []; r_size := 0 |}
       (negb (exposed (st_frame (rq_stub r)) (inode m)))]); [done|done|].
  eapply effect_seen; try done; cbn [calls answer]; rewrite ?app_nil_r; try done; [by apply no_issue_one|..|set_solver].
  - apply one_event. cbn. intros _ s' Hs' Ef' Hfl. assert (s' = s) as -> by (apply (co_unique _ _ _ Hc); congruence).
    assert (is_write r = true) as Hw by (by apply (wi_wf _ _ _ (mi_winv _ H) i)).
    unfold is_write in Hw. apply bool_decide_eq_true_1 in Hw. congruence.
  - set_solver.
  - intros sg [?|(Hi & Hw & E & Hb & _)]%acked_answer; [by left|right]. split; [by eapply live_created|].
    rewrite E. destruct (co_data _ _ _ Hc i r Hr Ht) as [?|[He _]]; [by left|right]. split; [done|].
    intros j q Hq. eapply exposed_lied; [|done]. by apply negb_true_iff.
  - intros f [(x & b & Hx)|(c & Hx & _)]; [|set_solver]. apply list_elem_of_singleton in Hx as [= -> _ _].
    left. right. left. eauto.
Qed.

Lemma goes_reply f r : threads m !! n = Some (AReply f r :: rest) -> goes conf m n (AReply f r) rest.
Proof.
  intros Hn. destruct (act_here m n rest H _ Hn) as (Ha & _). destruct Ha as (c & Hs & Hi & Ef & Hfl & Hcr).
  pose proof (mi_core _ H) as Hc.
  eexists _, []. split; [done|].
  apply (minv_exec m _ n (AReply f r) rest [] [] [EAnswer f r true]); [done|done|].
  eapply effect_seen; try done; cbn [calls answer]; rewrite ?app_nil_r; try done; [by apply no_issue_one|..|set_solver].
  - apply one_event. cbn. intros _ s' Hs' Ef' Hx. assert (s' = c_stub c) as -> by (apply (co_unique _ _ _ Hc); congruence).
    apply Hfl; [|done]. unfold queued. by rewrite Hx.
  - set_solver.
  - intros sg [?|(Hsg & Hw & E & _ & Er)]%acked_answer; [by left|right].
    assert (sg = c_stub c) as -> by (apply (co_unique _ _ _ Hc); congruence). split; [auto|].
    left. exists (c_stub c). split_and!; [done..|]. left. exists c, r. split_and!; [done..|apply within_refl|lia].
  - intros g [(x & b & Hx)|(d & Hx & _)]; [|set_solver]. apply list_elem_of_singleton in Hx as [= -> _ _].
    left. right. right. right. left. exists (AReply f r :: rest), r. split; [by eapply list_elem_of_lookup_2|set_solver].
Qed.

Lemma goes_wind b v : threads m !! n = Some (AWind b v :: rest) -> goes conf m n (AWind b v) rest.
Proof.
  intros Hn. destruct (act_here m n rest H _ Hn) as (Ha & _). destruct Ha as (Hb & Hl).
  pose proof Hl as (hd & rs & Hhd & _). eexists _, []. split; [cbn [exec]; rewrite Hhd; done|].
  apply (minv_exec m _ n (AWind b v) rest []
    [{| c_kind := KBack b; c_stub := with_vector v (rq_stub hd); c_done := None |}] []); [done|done|].
  eapply effect_seen; try done; cbn [history add_call]; rewrite ?app_nil_r; try done; [apply no_issue_nil|..|set_solver].
  - by intros [|? ?] x h2.
  - unfold ctoks. cbn. by rewrite app_nil_r.
  - intros c ->%list_elem_of_singleton. split; [done|]. split; [done|]. by exists hd, v.
  - auto.
  - intros f [(x & b' & Hx)|(d & ->%list_elem_of_singleton & <-)]; [set_solver|]. left. right. left. cbn. eauto.
Qed.

(** An operation on a file descriptor with a failure on record. *)

Lemma failure_seen a s e :
  ptok a = [st_frame s] -> wtok a = [] -> vtok a = [] -> stok a = [] -> fd_sets a = [] ->
  effect m (answer (st_frame s) (failure e) true m) a rest [] [] [EAnswer (st_frame s) (failure e) true].
Proof.
  intros Ep Ew Ev Es Ef.
  eapply effect_seen; try done; cbn [calls answer]; rewrite ?app_nil_r; try done; [by apply no_issue_one|..|set_solver].
  - by apply one_event.
  - set_solver.
  - intros sg [?|(_ & _ & _ & _ & Er)]%acked_answer; [by left|]. cbn in Er. unfold iov_length in Er. lia.
  - intros g [(x & b & Hx)|(d & Hx & _)]; [|set_solver]. apply list_elem_of_singleton in Hx as [= -> _ _].
    right. rewrite Ep. set_solver.
Qed.

Lemma goes_check s t : threads m !! n = Some (ACheck s t :: rest) -> goes conf m n (ACheck s t) rest.
Proof.
  intros Hn. destruct (act_here m n rest H _ Hn) as (Ha & _). destruct Ha as (Hs & Ht & Hcr).
  unfold goes. cbn [exec]. destruct (wb_fd_err (stub_fd s) m) as [e|].
  { eexists _, []. split; [done|]. eapply (minv_exec m _ n (ACheck s t) rest [] []); [done|done|].
    by apply failure_seen. }
  assert (forall m1 a', unseen m m1 -> inode m1 = inode m -> ptok a' = [st_frame s] -> wtok a' = [] -> vtok a' = [] ->
    stok a' = [] -> act_ok (inode m) (history m) (created m1) [] a' [] -> (forall f r, AReply f r <> a') ->
    minv (resumed n ([a'] ++ rest) m1)) as Hgo.
  { intros m1 a' Hu Ei E1 E2 E3 E4 Hok Hnr. pose proof Hu as [(_ & _ & _ & Eh & _) _].
    apply (minv_exec m m1 n (ACheck s t) rest [a'] [] []); [done|done|].
    apply effect_unseen; try done; unfold tok; cbn [fmap list_fmap concat]; rewrite ?E1, ?E2, ?E3, ?E4, ?Ei, ?Eh; try done.
    - apply shift_refl.
    - set_solver.
    - by left. }
  destruct (st_fop s) eqn:Ef; (eexists _, _; split; [done|]); apply Hgo; try done; try (by split); cbn; rewrite ?Ef; try done.
  split_and!; [done|done|auto].
Qed.

Lemma goes_queue s : threads m !! n = Some (AQueue s :: rest) -> goes conf m n (AQueue s) rest.
Proof.
  intros Hn. destruct (act_here m n rest H _ Hn) as (Ha & _). destruct Ha as (Hs & Hne).
  unfold goes. cbn [exec]. destruct (created m) eqn:Hcr.
  - exists m, [AEnqueue s false]. split; [done|]. apply (minv_exec m m n (AQueue s) rest _ [] []); [done|done|].
    apply effect_unseen; try done; [apply shift_refl|set_solver|by left].
  - eexists _, []. split; [done|]. destruct (mi_created _ H Hcr) as [_ Hna].
    assert (forall sg, ~ acked_before (history m) sg (st_frame s)) as Hnb.
    { intros sg ?%acked_before_acked. by apply (Hna sg). }
    apply (minv_exec m _ n (AQueue s) rest [] [{| c_kind := KClient; c_stub := s; c_done := None |}] []); [done|done|].
    eapply effect_seen; try done; cbn [history add_call]; rewrite ?app_nil_r; try done; [apply no_issue_nil|..|set_solver].
    + by intros [|? ?] x h2.
    + intros c ->%list_elem_of_singleton. split; [done|]. split; [|done]. split; [done|]. intros _.
      split; [intros sg ?%Hnb|intros _ sg ?%Hnb]; done.
    + auto.
    + intros f [(x & b' & Hx)|(d & ->%list_elem_of_singleton & <-)]; [set_solver|]. right. set_solver.
Qed.

Lemma goes_fdset b err : threads m !! n = Some (AFdSet b err :: rest) -> goes conf m n (AFdSet b err) rest.
Proof.
  intros Hn. destruct (act_here m n rest H _ Hn) as (Ha & _ & RW & RV & Hw). destruct Ha as (Hb & Hin).
  cbn [wtok vtok app] in Hw. pose proof Hb as (hd & Hhd & _).
  destruct (out_write _ _ _ (b_head b) Hw) as (hd1 & Hhd1 & Ok); [apply elem_of_app; left; apply Hin; by left|].
  assert (hd1 = hd) as -> by congruence. destruct (wo_fd _ Ok) as [fd Hfd].
  unfold goes. cbn [exec]. rewrite Hhd. cbn [mbind option_bind]. rewrite Hfd. cbn [mbind option_bind].
  eexists _, []. split; [done|].
  apply (minv_exec m _ n (AFdSet b err) rest [] [] [EFailed fd err]); [done|done|].
  assert (forall sg, acked (history m ++ [EFailed fd err]) sg -> acked (history m) sg) as Hack.
  { intros sg (Hi & Hwr & r & Ha & Er). split_and!; [set_solver|done|]. exists r. split; [set_solver|done]. }
  split; cbn [fd_ctx_set inode threads frames calls history created fd_err]; rewrite ?app_nil_r; try done.
  - split; [by apply no_issue_one|]. by apply one_event.
  - apply shift_refl.
  - split_and!; [done|set_solver|]. intros b' ->%list_elem_of_singleton. intros i f r Hi Hcar.
    destruct (co_carry _ _ _ (mi_core _ H) _ _ _ Hcar) as (sf & Hs & Ef & _ & Efd & _). exists sf.
    split_and!; [apply elem_of_app; auto|done|]. right. exists fd, err. split; [|set_solver].
    destruct Hb as (hd1 & Hhd2 & Hf). assert (hd1 = hd) as -> by congruence. destruct Hcar as (Hr & _).
    apply elem_of_cons in Hi as [->|Hi]; [congruence|]. destruct (Hf i Hi) as (r0 & Hr0 & E & _). congruence.
  - set_solver.
  - auto.
  - by left.
  - set_solver.
  - destruct (mi_fds _ H) as [F1 F2]. split.
    + intros fd' x. destruct (decide (fd' = fd)) as [->|Hne].
      * rewrite lookup_insert_eq. intros [= ->]. set_solver.
      * rewrite lookup_insert_ne by done. intros ?%F1. set_solver.
    + intros fd' x. destruct (decide (fd' = fd)) as [->|Hne]; [rewrite lookup_insert_eq; eauto|].
      rewrite lookup_insert_ne by done. intros [?|Hx]%elem_of_app; [eauto|]. set_solver.
  - intros Hc. destruct (mi_created _ H Hc) as [? Hna]. split; [done|]. intros sg ?%Hack. by apply (Hna sg).
Qed.

(** A request that was held up goes on. *)

Lemma flush_clear s :
  EIssue s ∈ history m -> st_fop s = GF_FOP_FLUSH -> ready (history m) s ->
  wb_fd_err (stub_fd s) m = None -> flush_ok (history m) s.
Proof.
  intros Hs Hf Hr He _ sg Hb Efd. destruct (Hr sg Hb) as [?|(fd & x & E & Hx)]; [unfold touches; by rewrite Hf|done|].
  destruct (proj2 (mi_fds _ H) fd x Hx) as [y Hy]. unfold wb_fd_err in He. rewrite <- Efd, E in He. cbn in He. congruence.
Qed.

Lemma call_seen i local r k :
  reqs (inode m) !! i = Some r -> tempted r = false -> ready (history m) (rq_stub r) ->
  (k = KSync i /\ local = true /\ i ∈ wip (inode m) \/
   (k = KClient \/ k = KSize) /\ local = false /\ st_fop (rq_stub r) <> GF_FOP_WRITE) ->
  flush_ok (history m) (rq_stub r) ->
  effect m (add_call k (rq_stub r) m) (AResume i local) rest []
    [{| c_kind := k; c_stub := rq_stub r; c_done := None |}] [].
Proof.
  intros Hr Ht Hrd Hk Hfl. destruct (co_live _ _ _ (mi_core _ H) i r Hr) as [_ [Hs _]]; [done|].
  eapply effect_seen; try done; cbn [history add_call]; rewrite ?app_nil_r; try done; [apply no_issue_nil|..|set_solver].
  - by intros [|? ?] x h2.
  - by destruct Hk as [(-> & -> & _)|([-> | ->] & -> & _)].
  - by destruct Hk as [(-> & -> & _)|([-> | ->] & -> & _)].
  - by destruct Hk as [(-> & -> & _)|([-> | ->] & -> & _)].
  - intros c ->%list_elem_of_singleton. split; [done|]. cbn.
    destruct Hk as [(-> & _ & Hw)|([-> | ->] & _ & Hn)]; (split; [by split|]); [split; [done|]; eauto|done|done].
  - auto.
  - intros f [(x & b' & Hx)|(d & ->%list_elem_of_singleton & <-)]; [set_solver|]. left. right. left. eauto.
Qed.

Lemma flush_seen i r :
  reqs (inode m) !! i = Some r -> tempted r = false -> ready (history m) (rq_stub r) ->
  st_fop (rq_stub r) = GF_FOP_FLUSH ->
  exists cs e, effect m (wb_flush_helper conf (rq_stub r) m) (AResume i false) rest [] cs e.
Proof.
  intros Hr Ht Hrd Hf. pose proof (mi_core _ H) as Hco. destruct (co_live _ _ _ Hco i r Hr) as [_ [Hs _]]; [done|].
  assert (forall f, f = st_frame (rq_stub r) -> posted m f) as Hp by (intros f ->; right; left; eauto).
  assert (forall rep sg, acked (history m ++ [EAnswer (st_frame (rq_stub r)) rep true]) sg -> acked (history m) sg) as Hack.
  { intros rep sg [?|(Hsg & Hw & E & _)]%acked_answer; [done|].
    assert (sg = rq_stub r) as -> by (by apply (co_unique _ _ _ Hco)). congruence. }
  unfold wb_flush_helper. rewrite (live_created _ _ Hr). cbn [negb].
  destruct (wb_fd_err (stub_fd (rq_stub r)) m) as [e|] eqn:He.
  - eexists [], [_].
    eapply effect_seen; try done; cbn [calls answer]; rewrite ?app_nil_r; try done; [by apply no_issue_one|..|set_solver].
    + by apply one_event.
    + set_solver.
    + intros sg ?%Hack. by left.
    + intros g [(x & b & Hx)|(d & Hx & _)]; [|set_solver]. apply list_elem_of_singleton in Hx as [= -> _ _]. auto.
  - pose proof (flush_clear _ Hs Hf Hrd He) as Hfl. destruct (flush_behind conf).
    + eexists [_], [_].
      eapply effect_seen; try done; cbn [calls history answer add_call]; try done; [by apply no_issue_one|..|set_solver].
      * apply one_event. intros _ s' Hs' Ef. assert (s' = rq_stub r) as -> by (by apply (co_unique _ _ _ Hco)). done.
      * intros c ->%list_elem_of_singleton. split; [done|]. cbn. split; [|congruence]. apply plain_keep; [by apply no_issue_apart, no_issue_one|].
        by split.
      * intros sg ?%Hack. by left.
      * intros g [(x & b & Hx)|(d & ->%list_elem_of_singleton & <-)]; [|auto].
        apply list_elem_of_singleton in Hx as [= -> _ _]. auto.
    + eexists [_], []. apply (call_seen i false r KClient); try done. right. split_and!; [by left|done|congruence].
Qed.

Lemma goes_resume i local : threads m !! n = Some (AResume i local :: rest) -> goes conf m n (AResume i local) rest.
Proof.
  intros Hn. destruct (act_here m n rest H _ Hn) as (Ha & _). destruct Ha as (_ & r & Hr & Ht & El & Hw & _ & Hrd).
  exists (call_resume conf i r m), []. split; [cbn [exec]; by rewrite Hr|].
  assert (exists cs e, effect m (call_resume conf i r m) (AResume i local) rest [] cs e) as (cs & e & He);
    [|by eapply minv_exec].
  unfold is_write in El. unfold call_resume.
  destruct (st_fop (rq_stub r)) eqn:Ef; rewrite ?bool_decide_true, ?bool_decide_false in El by done; subst local;
    try (eexists [_], []; apply (call_seen i _ r); [done|done|done| |intros ?; congruence]; first
      [left; by auto|right; split_and!; [by auto|done|congruence]]).
  by apply flush_seen.
Qed.
End seen.

(** ** Arrival in the queue *)

Lemma insert_carries w W V r i f q :
  winv w W V -> carries (insert_request r w) i f q ->
  carries w i f q \/ i = next_req w /\ f ∈ rq_parts r /\ tempted r = true /\
    q = set_arrival (gen w) (if tempted r then 2 else 1) r.
Proof.
  intros H (Hq & Ht & Hf & Hp). cbn in Hq. apply lookup_insert_Some in Hq as [[<- <-]|[Hne Hq]]; [right|left].
  - split_and!; done.
  - done.
Qed.

Lemma insert_old w W V r i q : winv w W V -> reqs w !! i = Some q -> reqs (insert_request r w) !! i = Some q.
Proof.
  intros H Hq. destruct (next_unused w W V H) as (_ & Hlt & _). pose proof (Hlt i q Hq). cbn.
  rewrite lookup_insert_ne by lia. done.
Qed.

Lemma insert_secure w W V h r g (Q : wb_request -> Prop) :
  winv w W V -> ~ g ∈ rq_parts r -> secure w h g Q -> secure (insert_request r w) h g Q.
Proof.
  intros H Hg [?|[(i & q & Hq & Hx) HQ]]; [by left|right]. split.
  - exists i, q. split; [by eapply insert_old|done].
  - intros j p [Hc|(_ & Hin & _)]%(insert_carries _ _ _ _ _ _ _ H); [eauto|done].
Qed.

Lemma core_insert w W V h k r :
  core w h k -> winv w W V -> arrived h r -> (forall x b, ~ EAnswer (st_frame (rq_stub r)) x b ∈ h) ->
  core (insert_request r w) h k.
Proof.
  intros Hc Hw (Hfr & Hs & Hrg & Hp) Hna.
  assert (forall g, g ∈ rq_parts r -> g = st_frame (rq_stub r) /\ is_write r = true) as Hpr.
  { intros g. rewrite Hp. destruct (is_write r); set_solver. }
  assert (forall sg, acked h sg -> ~ st_frame sg ∈ rq_parts r) as Hack.
  { intros sg (_ & _ & x & Ha & _) [E _]%Hpr. rewrite E in Ha. by eapply Hna. }
  assert (forall i q, reqs (insert_request r w) !! i = Some q ->
    i = next_req w /\ q = set_arrival (gen w) (if tempted r then 2 else 1) r \/ reqs w !! i = Some q) as Hl.
  { intros i q Hq. cbn in Hq. apply lookup_insert_Some in Hq as [[<- <-]|[_ Hq]]; auto. }
  split; try apply Hc.
  - intros i q [[-> ->]|Hq]%Hl; [|by apply (co_live _ _ _ Hc i)]. split; [exists (rq_stub r)|]; done.
  - intros i f q [Hcar|(-> & Hin & Ht & ->)]%(insert_carries _ _ _ _ _ _ _ Hw); [by apply (co_carry _ _ _ Hc i)|].
    apply Hpr in Hin as [-> Hwr]. unfold is_write in Hwr. apply bool_decide_eq_true_1 in Hwr.
    exists (rq_stub r). split_and!; try done; [|apply within_refl]. unfold rq_fd. cbn. by rewrite Hwr.
  - intros i q [[-> ->]|Hq]%Hl Ht.
    + right. split; [|done]. eexists (next_req w), _. split_and!; [cbn; apply lookup_insert_eq|done|apply Hfr|].
      cbn. rewrite Hp. assert (is_write r = true) as -> by (by apply Hfr). set_solver.
    + destruct (co_data _ _ _ Hc i q Hq Ht) as [?|[(j & p & Hpj & Hx) _]]; [by left|right]. split; [|done].
      exists j, p. split; [by eapply insert_old|done].
  - intros sg Ha. eapply insert_secure; [done|by apply Hack|by apply (co_acked _ _ _ Hc)].
  - intros i q Hi Hq sg Hb. pose proof (acked_before_acked _ _ _ Hb) as Ha. apply Hack in Ha as Hn.
    apply Hl in Hq as [[-> ->]|Hq].
    + eapply insert_secure; [done|done|]. destruct (co_acked _ _ _ Hc sg Ha) as [?|[He HQ]]; [by left|right].
      split; [done|]. intros j p Hcar. pose proof (HQ j p Hcar) as Hlp. split; [done|]. cbn.
      by apply (wi_gens _ _ _ Hw j p (proj1 Hcar)).
    + eapply insert_secure; [done|done|]. apply (co_order _ _ _ Hc i q); [|done|done].
      cbn in Hi. apply elem_of_app in Hi as [?|Hx%list_elem_of_singleton]; [done|subst i].
      destruct (next_unused w W V Hw) as (Hnone & _). congruence.
Qed.

Lemma insert_posted m n r rest g :
  minv m -> threads m !! n = Some (AInsert r :: rest) -> arrived (history m) r ->
  posted (resumed n rest (set_inode (insert_request r (inode m)) m)) g -> posted m g \/ g = st_frame (rq_stub r).
Proof.
  intros H Hn (Hfr & Hs & Hrg & Hp). unfold posted at 1. cbn [resumed set_inode inode history threads calls].
  intros [?|[(i & q & Hq & Hf)|[(i & q & Hc)|[(t & x & Ht & Ha)|?]]]].
  - left. by left.
  - cbn in Hq. apply lookup_insert_Some in Hq as [[<- <-]|[_ Hq]]; [by right|]. left. right. left. eauto.
  - apply (insert_carries _ _ _ _ _ _ _ (mi_winv _ H)) in Hc as [Hc|(_ & Hin & _)].
    + left. right. right. left. eauto.
    + right. rewrite Hp in Hin. destruct (is_write r); set_solver.
  - left. right. right. right. left. apply list_elem_of_lookup in Ht as [k Hk]. destruct (decide (k = n)) as [->|Hne].
    + rewrite list_lookup_insert_eq in Hk by (by eapply lookup_lt_Some). injection Hk as <-.
      exists (AInsert r :: rest), x. split; [by eapply list_elem_of_lookup_2|by right].
    + rewrite list_lookup_insert_ne in Hk by done. exists t, x. split; [by eapply list_elem_of_lookup_2|done].
  - left. right. right. right. right. done.
Qed.

Lemma insert_steady w W V r : winv w W V -> steady w (insert_request r w).
Proof.
  intros H. split; [..|done].
  - intros k q q' _ Hq Hq'. rewrite (insert_old _ _ _ _ _ _ H Hq) in Hq'. injection Hq' as <-. apply frozen_refl.
  - intros k q q' Hq Hq'. rewrite (insert_old _ _ _ _ _ _ H Hq) in Hq'. injection Hq' as <-. by split.
Qed.

Lemma goes_insert conf m n r rest :
  minv m -> threads m !! n = Some (AInsert r :: rest) -> goes conf m n (AInsert r) rest.
Proof.
  intros H Hn. destruct (act_here m n rest H _ Hn) as ([Har Hcr] & Hrest & _). eexists _, []. split; [done|]. cbn [app].
  set (m' := resumed n rest _). pose proof (mi_winv _ H) as Hw. pose proof (insert_steady _ _ _ r Hw) as Hst.
  assert (AInsert r :: rest ∈ threads m) as Hin by (by eapply list_elem_of_lookup_2).
  assert (rest ∈ threads m') as Hin' by (apply list_elem_of_insert; by eapply lookup_lt_Some).
  assert (forall g, Permutation (toks g (threads m)) (g (AInsert r) ++ toks g (threads m'))) as Hperm.
  { intros g. destruct (concat_update (tok g) _ _ _ Hn) as (R & P & P' & _). unfold toks. rewrite P, tok_cons.
    cbn [m' resumed threads set_inode]. rewrite P', app_assoc. done. }
  assert (winv (inode m') (wtoks m') (vtoks m')) as Hw'.
  { eapply winv_perm; [| |apply winv_insert; [exact Hw|apply Har]]; unfold wtoks, vtoks;
      rewrite Hperm; done. }
  assert (st_frame (rq_stub r) ∈ ptoks m) as Hf.
  { unfold ptoks. rewrite Hperm. set_solver. }
  destruct (mi_fresh _ H) as [Hnd Hfresh]. destruct (Hfresh _ Hf) as [_ Hnp].
  apply (minv_go m m' []); try done; rewrite ?app_nil_r; try done.
  - apply no_issue_apart, no_issue_nil.
  - eapply core_insert; [apply H|exact Hw|done|]. intros x b Hx. apply Hnp. left. eauto.
  - pose proof (mi_sync _ H) as Hs. unfold stoks in *. rewrite Hperm in Hs. exact Hs.
  - intros t [k Hk]%list_elem_of_lookup. cbn in Hk. destruct (decide (k = n)) as [->|Hne].
    + rewrite list_lookup_insert_eq in Hk by (by eapply lookup_lt_Some). injection Hk as <-. right.
      change (history m') with (history m). rewrite <- (app_nil_r (history m)).
      eapply thread_ok_keep; [exact Hw|exact Hw'|done|apply no_issue_apart, no_issue_nil|done| | |exact Hrest].
      * intros i Hi. split; apply elem_of_app; left; (eapply toks_elem; [done|]); done.
      * intros i Hi. apply elem_of_app; left. by eapply toks_elem.
    + rewrite list_lookup_insert_ne in Hk by done. left. by eapply list_elem_of_lookup_2.
  - auto.
  - unfold ptoks in *. pose proof (Hperm ptok) as P. rewrite P in Hnd. cbn in Hnd.
    apply NoDup_cons in Hnd as [Hn1 Hn2]. split; [done|]. intros g Hg. destruct (Hfresh g) as [Hlt Hng]; [rewrite P; set_solver|].
    split; [done|]. intros [?| ->]%insert_posted; done.
  - apply H.
  - cbn. congruence.
Qed.

(** ** Every action *)

Lemma goes_on conf m n a rest :
  minv m -> sane (history m) -> threads m !! n = Some (a :: rest) -> goes conf m n a rest.
Proof.
  intros H Hs Hn. destruct a.
  - by apply goes_check.
  - by apply goes_queue.
  - by apply goes_enqueue.
  - by apply goes_insert.
  - by apply goes_process.
  - by apply goes_unwind.
  - by apply goes_resume.
  - by apply goes_unref.
  - by apply goes_group.
  - by apply goes_fulfill.
  - by apply goes_transit.
  - by apply goes_wind.
  - by apply goes_cbk.
  - by apply goes_fdset.
  - by apply goes_mark.
  - by apply goes_done.
  - by apply goes_size.
  - by apply goes_reply.
Qed.
