(* ===== verification/WbProps.v ===== *)
(** * Write-behind: what it promises

    The other steps of the machine of WriteBehind.v, calls of clients and the
    server, keep the invariant of WbRun.v, so every reachable state has it.
    The theorems follow from it for all runs, whatever the clients, the threads
    and the server do and in whatever order: no access to a request that was
    freed, overlapping writes are never at the server at the same time, and an
    operation is sent only after the acknowledged writes it depends on. *)

From Stdlib Require Import ZArith Lia Bool Ascii String.
From stdpp Require Import base list strings gmap sorting.
From S2P Require Import Prelude WriteBehind WbInv WbSection WbSteps WbFaults WbRun.
From S2P Require Import WbActs.

(** ** A client calls *)

Lemma acked_issue h k s sg :
  (forall f r b, EAnswer f r b ∈ h -> (f < k)%nat) -> st_frame s = k ->
  acked (h ++ [EIssue s]) sg -> acked h sg.
Proof.
  intros Hk Es (Hi & Hw & r & Ha & Er). assert (EAnswer (st_frame sg) r true ∈ h) as Ha' by set_solver.
  apply elem_of_app in Hi as [Hi|Hi]; [split_and!; eauto|]. apply list_elem_of_singleton in Hi as [= ->].
  apply Hk in Ha'. lia.
Qed.

Lemma core_issue w h k s : core w h k -> st_frame s = k -> core w (h ++ [EIssue s]) (S k).
Proof.
  intros H Es. assert (forall x, EIssue x ∈ h ++ [EIssue s] -> EIssue x ∈ h \/ x = s) as Hi.
  { intros x [?|Hx]%elem_of_app; [by left|]. apply list_elem_of_singleton in Hx as [= ->]. by right. }
  assert (forall x, EIssue x ∈ h -> EIssue x ∈ h ++ [EIssue s]) as Hi' by (intros; apply elem_of_app; auto).
  assert (forall g Q, secure w h g Q -> secure w (h ++ [EIssue s]) g Q) as Hsec.
  { intros g Q [?|?]; [left; by apply settledF_app|by right]. }
  split.
  - intros x [Hx|Hx]%Hi; [pose proof (co_frames _ _ _ H x Hx); lia|subst; lia].
  - intros x y [Hx|Hx]%Hi [Hy|Hy]%Hi E; subst; try done; [by apply (co_unique _ _ _ H)|..].
    + pose proof (co_frames _ _ _ H x Hx). lia.
    + pose proof (co_frames _ _ _ H y Hy). lia.
  - intros f r b [Ha|?]%elem_of_app; [pose proof (co_answers _ _ _ H f r b Ha); lia|set_solver].
  - intros i r Hr. destruct (co_live _ _ _ H i r Hr) as [(x & Hx & Ex) Hu]. split; [exists x; auto|].
    intros Ht. destruct (Hu Ht). auto.
  - intros i f r Hc. destruct (co_carry _ _ _ H i f r Hc) as (sf & Hx & Hy). exists sf. auto.
  - intros i r Hr Ht. apply Hsec. by apply (co_data _ _ _ H i).
  - intros sg Ha. apply Hsec, (co_acked _ _ _ H). eapply acked_issue; [apply H|exact Es|done].
  - intros i r Ht Hr sg Hb. apply Hsec, (co_order _ _ _ H i r Ht Hr). eapply acked_before_inv; [|done].
    intros x Hx. apply list_elem_of_singleton in Hx as [= ->].
    destruct (co_live _ _ _ H i r Hr) as [(y & Hy & Ey & _) _]. pose proof (co_frames _ _ _ H y Hy). lia.
  - intros h1 x h2 Eq. apply app_eq_inv in Eq as [(l & -> & El)|(l & -> & El)].
    + destruct l as [|y l]; cbn in El; [by injection El as -> _|]. injection El as -> ->. by apply (co_hist _ _ _ H h1 y l).
    + destruct l as [|? [|? ?]]; cbn in El; [|done..]. by injection El as <- _.
Qed.

(** The state of a machine after a call: one more thread or one more call. *)

Record called (m m' : machine) (s : call_stub) (ths : list (list action)) (cs : list server_call) : Prop := {
  ca_stub : st_frame s = frames m;
  ca_frame : frames m' = S (frames m) /\ history m' = history m ++ [EIssue s] /\ fd_err m' = fd_err m /\
    threads m' = threads m ++ ths /\ calls m' = calls m ++ cs /\ (created m = true -> created m' = true);
  ca_inode : reqs (inode m') = reqs (inode m) /\ same_lists (inode m) (inode m') /\ 0 <= wb_size (inode m');
  ca_threads : (forall t, t ∈ ths -> thread_ok (inode m') (history m') (created m') [] t) /\
    toks wtok ths = [] /\ toks vtok ths = [] /\ toks stok ths = [] /\ (forall t f r, t ∈ ths -> ~ AReply f r ∈ t);
  ca_calls : (forall c, c ∈ cs -> call_ok (inode m') (history m') c /\ st_frame (c_stub c) = frames m) /\
    ctoks wcall cs = [] /\ ctoks vcall cs = [];
  ca_frames : toks ptok ths = [frames m] /\ cs = [] \/ toks ptok ths = []
}.

Lemma called_posted m m' s ths cs f :
  called m m' s ths cs -> posted m' f -> posted m f \/ f = frames m /\ cs <> [].
Proof.
  intros [Es (_ & Eh & _ & Et & Ec & _) (Er & _) (_ & _ & _ & _ & Hnr) (Hc & _) _]. unfold posted at 1.
  rewrite Eh, Et, Ec, Er.
  intros [(r & b & Ha)|[?|[(i & r & Hx)|[(t & r & Ht & Ha)|(c & [Hin|Hin]%elem_of_app & Hf)]]]].
  - left. left. exists r, b. set_solver.
  - left. right. by left.
  - left. right. right. left. exists i, r. unfold carries in *. by rewrite Er in Hx.
  - left. right. right. right. left. apply elem_of_app in Ht as [Ht|Ht]; [eauto|]. by apply (Hnr t f r) in Ha.
  - left. right. right. right. right. eauto.
  - right. destruct (Hc c Hin) as [_ E]. split; [congruence|]. intros ->. by apply not_elem_of_nil in Hin.
Qed.

Lemma minv_called m m' s ths cs : minv m -> called m m' s ths cs -> minv m'.
Proof.
  intros H E. pose proof (called_posted m m' s ths cs) as Hpo.
  pose proof E as [Es (Ef & Eh & Efd & Et & Ec & Ecr) (Er & Hsl & Hz) (Hth & T1 & T2 & T3 & _) (Hc & C1 & C2) Hp].
  assert (alike (inode m) (inode m')) as Hal by (intros i; rewrite Er; apply (alike_refl (inode m))).
  assert (core (inode m') (history m') (frames m')) as Hco.
  { rewrite Ef, Eh. pose proof (core_issue _ _ _ s (mi_core _ H) Es) as Hc1.
    rewrite <- (app_nil_r (history m ++ _)). eapply core_shift; [exact Hc1|by apply shift_alike|apply no_issue_nil|..].
    - set_solver.
    - intros sg. rewrite app_nil_r. auto.
    - by intros [|? ?] x h2. }
  eapply (minv_go m m' [EIssue s]); try done.
  - intros x y Hx Hy. apply list_elem_of_singleton in Hy as [= ->].
    pose proof (co_frames _ _ _ (mi_core _ H) x Hx). lia.
  - unfold wtoks, vtoks. rewrite Et, Ec, !toks_app, !ctoks_app, T1, T2, C1, C2, !app_nil_r.
    eapply winv_same; [apply H|done|done|done].
  - eapply shift_steady, (shift_alike (fun _ => True)); done.
  - unfold stoks. rewrite Et, Ec, !toks_app, !ctoks_app, T3, C2, !app_nil_r. apply H.
  - rewrite Et. intros t [?|?]%elem_of_app; auto.
  - rewrite Ec. intros c [?|?]%elem_of_app; [by left|right]. by apply Hc.
  - destruct (mi_fresh _ H) as [Hnd Hfr]. unfold ptoks in *. rewrite Et, toks_app, Ef.
    assert (forall f, f ∈ toks ptok (threads m) -> (f < S (frames m))%nat /\ ~ posted m' f) as Hold.
    { intros f Hf. destruct (Hfr f Hf) as [? Hn]. split; [lia|]. intros [?|[? _]]%(Hpo f E); [done|lia]. }
    destruct Hp as [[-> ->]| ->]; [|rewrite app_nil_r; auto]. split.
    + apply NoDup_app. split_and!; [done| |apply NoDup_singleton]. intros f Hf ->%list_elem_of_singleton.
      destruct (Hfr _ Hf). lia.
    + intros f [Hf|Hf]%elem_of_app; [auto|]. apply list_elem_of_singleton in Hf as ->. split; [lia|].
      intros [Hx|[_ ?]]%(Hpo _ E); [|done]. pose proof (posted_bound _ _ H Hx). lia.
  - rewrite Efd, Eh. destruct (mi_fds _ H) as [F1 F2]. split; [intros fd x ?%F1|intros fd x ?]; set_solver.
  - intros Hc0. destruct (mi_created _ H) as [He Hn]; [destruct (created m); [by rewrite Ecr in Hc0|done]|].
    rewrite Er, Eh. split; [done|]. intros sg Ha. apply (Hn sg). eapply acked_issue; [apply (mi_core _ H)|exact Es|done].
Qed.

Lemma issue_keeps conf o m : minv m -> minv (issue conf o m).
Proof.
  intros H. set (s := stub_of o (frames m)). pose proof (wi_sizes _ _ _ (mi_winv _ H)) as Hz.
  assert (forall a cr, (created m = true -> cr = true) -> ptok a = [st_frame s] -> wtok a = [] -> vtok a = [] -> stok a = [] ->
    act_ok (inode m) (history m ++ [EIssue s]) cr [] a [] -> (forall f r, AReply f r <> a) ->
    minv {| inode := inode m; created := cr; fd_err := fd_err m; file := file m; calls := calls m;
            threads := threads m ++ [[a]]; frames := S (frames m); history := history m ++ [EIssue s] |}) as Hth.
  { intros a cr Hcr E1 E2 E3 E4 Hok Hnr. apply (minv_called m _ s [[a]] []); [done|]. split; cbn; rewrite ?app_nil_r; try done.
    - by destruct o.
    - unfold toks, tok. cbn. rewrite E2, E3, E4. split_and!; try done.
      + intros t ->%list_elem_of_singleton. by split.
      + intros t f r ->%list_elem_of_singleton Ha. apply list_elem_of_singleton in Ha. by eapply Hnr.
    - split_and!; [set_solver|done|done].
    - left. unfold toks, tok. cbn. rewrite E1. split; [by destruct o|done]. }
  assert (forall k cr w, (created m = true -> cr = true) -> (k = KClient \/ k = KSize) -> ~ queued s -> st_fop s <> GF_FOP_WRITE ->
    reqs w = reqs (inode m) -> same_lists (inode m) w -> 0 <= wb_size w ->
    minv {| inode := w; created := cr; fd_err := fd_err m; file := file m;
            calls := calls m ++ [{| c_kind := k; c_stub := s; c_done := None |}];
            threads := threads m; frames := S (frames m); history := history m ++ [EIssue s] |}) as Hca.
  { intros k cr w Hcr Hk Hq Hw Er Hsl Hz'. apply (minv_called m _ s [] [{| c_kind := k; c_stub := s; c_done := None |}]); [done|].
    split; cbn; rewrite ?app_nil_r; try done.
    - by destruct o.
    - split_and!; set_solver.
    - split_and!; [|by destruct Hk as [-> | ->]..]. intros c ->%list_elem_of_singleton. split; [|by destruct o].
      split; [done|]. cbn. assert (plain_call (history m ++ [EIssue s]) s) as Hpc by (split; [set_solver|done]).
      by destruct Hk as [-> | ->].
    - by right. }
  assert (EIssue s ∈ history m ++ [EIssue s]) as Hin by set_solver.
  destruct o; unfold issue, wb_fop; fold s; cbn; try (apply Hth; [done..| |done]; cbn; by split_and!).
  all: apply (Hca KClient); try done; [by left|]; unfold queued; cbn; tauto.
Qed.

(** ** The server carries out a call *)

Lemma call_event w h c r : call_ok w h c -> event_ok h (EServe c r).
Proof.
  intros [_ Hk]. cbn. destruct (c_kind c); [done|..]; intros Hq; destruct Hk as ([_ Hx] & _); by apply Hx.
Qed.

Lemma serve_keeps m j c r f' :
  minv m -> calls m !! j = Some c -> c_done c = None -> minv (served j c r f' m).
Proof.
  intros H Hj Hd. set (c' := {| c_kind := c_kind c; c_stub := c_stub c; c_done := Some r |}).
  assert (c ∈ calls m) as Hin by (by eapply list_elem_of_lookup_2). pose proof (mi_calls _ H c Hin) as Hck.
  assert (undone c' = c) as Eu by (destruct c; cbn in *; by rewrite Hd).
  assert (no_issue [EServe c r]) as He by (by apply no_issue_one).
  assert (forall g : server_call -> list nat, g c' = g c -> Permutation (ctoks g (<[j := c']> (calls m))) (ctoks g (calls m))) as Hp.
  { intros g Eg. destruct (concat_update g _ _ _ Hj) as (R & P & P' & _). unfold ctoks. by rewrite P, P', Eg. }
  assert (forall sg, acked (history m ++ [EServe c r]) sg -> acked (history m) sg) as Hack.
  { intros sg (Hi & Hw & x & Ha & Er). split_and!; [set_solver|done|]. exists x. split; [set_solver|done]. }
  assert (steady (inode m) (inode m)) as Hst by (eapply shift_steady, (shift_refl (fun _ => True))).
  assert (winv (inode m) (wtoks (served j c r f' m)) (vtoks (served j c r f' m))) as Hw.
  { eapply winv_perm; [| |apply (mi_winv _ H)]; unfold wtoks, vtoks; cbn [served threads calls]; fold c'; by rewrite Hp. }
  apply (minv_go m _ [EServe c r]); cbn [served inode history created frames threads calls fd_err]; fold c'; try done.
  - by apply no_issue_apart.
  - eapply core_shift; [apply H|apply shift_refl|done|set_solver|auto|]. apply one_event. by eapply call_event.
  - eapply NoDup_Permutation_proper; [|apply (mi_sync _ H)]. unfold stoks. cbn [served threads calls]. fold c'. by rewrite Hp.
  - auto.
  - intros d [k Hk]%list_elem_of_lookup. destruct (decide (k = j)) as [->|Hne].
    + rewrite list_lookup_insert_eq in Hk by (by eapply lookup_lt_Some). injection Hk as <-. right.
      assert (call_ok (inode m) (history m ++ [EServe c r]) c) as [_ Hc2].
      { eapply call_ok_keep; [apply H|exact Hw|done|by apply no_issue_apart|..|done].
        - intros i Hi. split; apply elem_of_app; right; [by eapply ctoks_elem|]. cbn [served calls]. fold c'.
          rewrite Hp by done. by eapply ctoks_elem.
        - intros i Hi. apply elem_of_app; right. cbn [served calls]. fold c'. rewrite Hp by done. by eapply ctoks_elem. }
      split; [|exact Hc2]. intros x [= <-]. rewrite Eu. set_solver.
    + rewrite list_lookup_insert_ne in Hk by done. left. by eapply list_elem_of_lookup_2.
  - destruct (mi_fresh _ H) as [Hnd Hfr]. split; [done|]. intros f Hf. destruct (Hfr f Hf) as [? Hn]. split; [done|].
    intros [(x & b & Hx)|[?|[?|[?|(d & [k Hk]%list_elem_of_lookup & Hd')]]]]; apply Hn.
    + left. exists x, b. cbn in Hx. set_solver.
    + right. by left.
    + right. right. by left.
    + right. right. right. by left.
    + right. right. right. right. cbn in Hk. fold c' in Hk. destruct (decide (k = j)) as [->|Hne].
      * rewrite list_lookup_insert_eq in Hk by (by eapply lookup_lt_Some). injection Hk as <-. eauto.
      * rewrite list_lookup_insert_ne in Hk by done. exists d. split; [by eapply list_elem_of_lookup_2|done].
  - destruct (mi_fds _ H) as [F1 F2]. split; [intros fd x ?%F1; set_solver|].
    intros fd x [?|?]%elem_of_app; [eauto|set_solver].
  - intros Hc. destruct (mi_created _ H Hc) as [? Hna]. split; [done|]. intros sg ?%Hack. by apply (Hna sg).
Qed.

(** ** A reply arrives *)

Lemma callback_tokens c r :
  tok wtok (callback c r) = wcall c /\ tok vtok (callback c r) = vcall c /\ tok stok (callback c r) = [] /\
  tok ptok (callback c r) = [] /\ forall f x, AReply f x ∈ callback c r -> f = st_frame (c_stub c).
Proof.
  unfold callback, wb_truncate_cbk, wb_writev_cbk, wcall, vcall, tok. destruct (c_kind c); cbn; rewrite ?app_nil_r; try (split_and!; [done..|set_solver]).
  destruct (r_ret r =? 0); cbn; split_and!; try done; set_solver.
Qed.

Lemma callback_ok w h cr c r :
  (forall i q, reqs w !! i = Some q -> cr = true) -> call_ok w h c -> c_done c = Some r ->
  thread_ok w h cr [] (callback c r).
Proof.
  intros Hcr [Hd Hk] Hr. specialize (Hd r Hr).
  assert (plain_call h (c_stub c) -> (st_fop (c_stub c) = GF_FOP_WRITE -> cr = true) -> reply_ok h cr (st_frame (c_stub c)) r) as Hrep.
  { intros [Hi Hq] Hwr. exists (undone c). split_and!; [done|done|done| |done]. intros Hx. by apply Hq. }
  unfold callback. destruct (c_kind c) as [b|i| | |]; unfold wb_writev_cbk, wb_truncate_cbk.
  - destruct Hk as [Hb Hbc]. cbn [thread_ok act_ok]. split_and!; [done| |done]. exists (undone c), r. done.
  - destruct Hk as (Hp & _ & q & Hq & _). cbn [thread_ok act_ok]. split_and!; try done. apply Hrep; eauto.
  - destruct Hk as [Hp Hn]. cbn [thread_ok act_ok]. split; [by apply Hrep|done].
  - destruct Hk as [Hp Hn]. destruct (r_ret r =? 0); cbn [thread_ok act_ok app]; split_and!; try done; by apply Hrep.
  - done.
Qed.

Lemma return_keeps m j c r :
  minv m -> calls m !! j = Some c -> c_done c = Some r -> minv (returned j c r m).
Proof.
  intros H Hj Hd. assert (c ∈ calls m) as Hin by (by eapply list_elem_of_lookup_2). pose proof (mi_calls _ H c Hin) as Hck.
  destruct (callback_tokens c r) as (E1 & E2 & E3 & E4 & Hrep).
  assert (forall g : server_call -> list nat, Permutation (ctoks g (calls m)) (g c ++ ctoks g (delete j (calls m)))) as Hp.
  { intros g. destruct (concat_update g _ _ _ Hj) as (R & P & _ & P'). unfold ctoks. by rewrite P, P'. }
  assert (forall g, toks g (threads m ++ [callback c r]) = toks g (threads m) ++ tok g (callback c r)) as Ht.
  { intros g. rewrite toks_app. unfold toks at 2. cbn. by rewrite app_nil_r. }
  assert (winv (inode m) (wtoks (returned j c r m)) (vtoks (returned j c r m))) as Hw.
  { eapply winv_perm; [| |apply (mi_winv _ H)]; unfold wtoks, vtoks; cbn [returned threads calls];
      rewrite Hp, Ht, ?E1, ?E2; solve_Permutation. }
  apply (minv_go m _ []); cbn [returned inode history created frames threads calls fd_err]; rewrite ?app_nil_r; try done.
  - apply no_issue_apart, no_issue_nil.
  - eapply shift_steady, (shift_refl (fun _ => True)).
  - apply H.
  - pose proof (mi_sync _ H) as Hs. unfold stoks in *. rewrite Hp in Hs. cbn [returned threads calls]. rewrite Ht, E3, app_nil_r.
    apply NoDup_app in Hs as (S1 & S2 & S3). apply NoDup_app in S3 as (_ & _ & S3). apply NoDup_app. split_and!; [done| |done].
    intros i Hi. specialize (S2 i Hi). set_solver.
  - intros t [?|Hx]%elem_of_app; [by left|]. apply list_elem_of_singleton in Hx as ->. right.
    eapply callback_ok; [|done|done]. intros i q Hq. by eapply live_created.
  - intros d [k Hk]%list_elem_of_lookup. left. rewrite delete_take_drop in Hk.
    apply list_elem_of_lookup_2, elem_of_app in Hk as [Hk|Hk]; [by eapply elem_of_take in Hk as (? & ? & _); eapply list_elem_of_lookup_2|].
    apply list_elem_of_lookup in Hk as [k' Hk]. rewrite lookup_drop in Hk. by eapply list_elem_of_lookup_2.
  - destruct (mi_fresh _ H) as [Hnd Hfr]. unfold ptoks in *. cbn [returned threads]. rewrite Ht, E4, app_nil_r. split; [done|].
    intros f Hf. destruct (Hfr f Hf) as [? Hn]. split; [done|].
    intros [?|[?|[?|[(t & x & [Hx|Hx]%elem_of_app & Ha)|(d & Hx & Hd')]]]]; apply Hn.
    + by left.
    + right. by left.
    + right. right. by left.
    + right. right. right. left. eauto.
    + apply list_elem_of_singleton in Hx as ->. right. right. right. right. exists c. split; [done|]. by apply Hrep in Ha.
    + right. right. right. right. exists d. split; [|done]. eapply elem_of_sublist; [done|]. apply sublist_delete.
  - apply H.
  - apply H.
Qed.

(** ** Every reachable state *)

Lemma start_ok conf f : minv (start conf f).
Proof.
  split; cbn; try done; try set_solver.
  - split; cbn; try set_solver; try done; try (intros; by rewrite ?lookup_empty in *).
    + split; [constructor|]. intros i. rewrite lookup_empty. split; [by intros ?%not_elem_of_nil|by intros [? ?]].
    + constructor.
    + split; [constructor|]. set_solver.
    + split; [constructor|]. intros i. split; [by intros ?%not_elem_of_nil|by intros (r & ? & _)].
    + split; [constructor|]. set_solver.
    + split; constructor.
  - constructor.
  - split; try set_solver; try (intros i f0 r (Hr & _); cbn in Hr; by rewrite lookup_empty in Hr).
    + intros sg (? & _). set_solver.
    + by intros [|y l] x h2.
  - split; [constructor|]. set_solver.
  - intros _. split; [done|]. intros sg (? & _). set_solver.
Qed.

Lemma exec_history conf a m m' acts : exec conf a m = Some (m', acts) -> exists e, history m' = history m ++ e.
Proof.
  assert (exists e, history m = history m ++ e) as Hnil by (exists []; by rewrite app_nil_r).
  destruct a; cbn [exec]; intros E;
    repeat (simplify_option_eq || case_match || simplify_eq/= || unfold call_resume, wb_flush_helper, wb_fulfill_head in * ); eauto.
Qed.

(** ** Every reachable state *)

Local Open Scope Z_scope.

Lemma step_history conf m m' : step conf m m' -> exists e, history m' = history m ++ e.
Proof.
  intros [m0 o|m0 n a rest m1 acts _ He|m0 j c r f' _ _|m0 j c r _ _]; cbn.
  - exists [EIssue (stub_of o (frames m0))]. by destruct o.
  - by eapply exec_history.
  - by eexists.
  - exists []. by rewrite app_nil_r.
Qed.

Lemma reachable_ok conf f m : reachable conf f m -> sane (history m) -> minv m.
Proof.
  induction 1 as [|m m' Hr IH Hst]; intros Hs; [apply start_ok|].
  destruct (step_history _ _ _ Hst) as [e He]. assert (minv m) as H.
  { apply IH. rewrite He in Hs. by eapply sane_app. }
  destruct Hst as [m o|m n a rest m1 acts Hn Hx|m j c r f' Hj Hd|m j c r Hj Hd].
  - by apply issue_keeps.
  - cbn in He. assert (sane (history m)) as Hs0 by (cbn in Hs; rewrite He in Hs; by eapply sane_app).
    destruct (goes_on conf m n a rest H Hs0 Hn) as (m2 & acts2 & Ex & Hm). rewrite Hx in Ex. by injection Ex as <- <-.
  - by apply serve_keeps.
  - by apply return_keeps.
Qed.

(** ** No undefined access *)

(** C19. With clients whose writes come in one piece that is not empty and a server that
    returns -1 or a count, every action of every thread in every reachable state is
    defined: no request is used after it was freed, no reference count is dropped
    below zero, and no array is left. *)

Theorem wb_never_stuck conf f m n a rest :
  reachable conf f m -> sane (history m) -> threads m !! n = Some (a :: rest) ->
  is_Some (exec conf a m).
Proof.
  intros Hr Hs Hn. destruct (goes_on conf m n a rest (reachable_ok _ _ _ Hr Hs) Hs Hn) as (m1 & acts & -> & _). eauto.
Qed.

(** A client writes two bytes and reads them back; the read waits until the server
    has the write. *)

Definition read_run : list label :=
  [LCall (write_at 0 "ab")] ++ turns 0 11 ++ [LCall (ORead fd1 2 0)] ++ turns 1 5 ++
  [LServe 0 (count 2) (bytes "ab"); LReturn 0] ++ turns 2 4 ++ [LServe 0 (count 2) (bytes "ab")].

Definition read_end : machine := after (small_conf 1000) [] read_run.

Lemma wb_never_stuck_witness : is_Some (exec (small_conf 1000) (AUnref 1) read_end).
Proof.
  apply (wb_never_stuck (small_conf 1000) [] read_end 2 (AUnref 1) [AGroup []]).
  - apply run_reachable. vm_compute. eauto.
  - apply sane_ok. vm_compute. reflexivity.
  - vm_compute. reflexivity.
Defined.

(** ** Writes at the server *)

Definition in_write (s : call_stub) (p : Z) : Prop :=
  st_fop s = GF_FOP_WRITE /\ st_offset s <= p < st_offset s + iov_length (st_vector s).

Lemma vectors_byte rs off p :
  Forall write_ok rs -> (length rs <= 2)%nat ->
  (forall r, head rs = Some r -> st_offset (rq_stub r) = off) ->
  (forall r q, rs = [r; q] -> st_offset (rq_stub q) = off + write_size r) ->
  off <= p < off + iov_length (vectors rs) ->
  exists r, r ∈ rs /\ st_offset (rq_stub r) <= p < st_offset (rq_stub r) + write_size r.
Proof.
  intros Hok Hlen Hh Hf Hp. destruct (vectors_ok rs Hok) as [_ El]. rewrite El in Hp.
  destruct rs as [|r [|q [|]]]; cbn in Hlen; [cbn in Hp; lia| | |lia].
  - exists r. split; [set_solver|]. rewrite (Hh r eq_refl). cbn in Hp. lia.
  - pose proof (Hh r eq_refl). pose proof (Hf r q eq_refl). cbn in Hp.
    destruct (decide (p < off + write_size r)); [exists r|exists q]; (split; [set_solver|lia]).
Qed.

Lemma call_byte w h W V c p :
  winv w (wcall c ++ W) V -> call_ok w h c -> in_write (c_stub c) p ->
  exists i r, i ∈ wcall c ++ vcall c /\ i ∈ wip w /\ reqs w !! i = Some r /\ write_ok r /\
    st_offset (rq_stub r) <= p < st_offset (rq_stub r) + write_size r /\
    (tempted r = true <-> i ∈ wcall c).
Proof.
  intros Hw [_ Hk] [Hf Hp]. unfold wcall, vcall in *. destruct (c_kind c) as [b|i| | |]; try (by destruct Hk).
  - destruct Hk as [Hb (hd & v & Hhd & Es & Hl)]. pose proof (chain_short _ _ _ _ Hw Hb) as Hlen.
    destruct Hl as (hd1 & rs & Hhd1 & Hrs & -> & _). rewrite Es in Hp. cbn in Hp.
    assert (Forall write_ok rs) as Hok.
    { apply Forall_forall. intros r [k Hk]%list_elem_of_lookup. destruct (Forall2_lookup_r _ _ _ _ _ Hrs Hk) as (i & Hi & Hr).
      destruct (out_write w (members b ++ W) V i) as (r' & Hr' & ?); [done|apply list_elem_of_lookup_2 in Hi; set_solver|]. congruence. }
    pose proof (Forall2_length _ _ _ Hrs) as El. cbn in El. destruct Hb as (hd2 & Hhd2 & Hfl).
    assert (hd2 = hd /\ hd1 = hd) as [-> ->] by (split; congruence).
    destruct (vectors_byte rs (st_offset (rq_stub hd)) p) as (r & Hr & Hpr); [done|lia| | |done|].
    + intros r Er. inversion Hrs as [|? ? ? ? Hx]; subst. cbn in Er. congruence.
    + intros r q ->. unfold members in Hrs. apply Forall2_cons in Hrs as [Hx Hrs].
      destruct (b_winds b) as [|j l]; [by inversion Hrs|]. apply Forall2_cons in Hrs as [Hy _].
      destruct (Hfl j) as (q' & Hq' & _ & Eo); [set_solver|]. congruence.
    + apply list_elem_of_lookup in Hr as [k Hk]. destruct (Forall2_lookup_r _ _ _ _ _ Hrs Hk) as (i & Hi & Hri).
      apply list_elem_of_lookup_2 in Hi. rewrite Forall_forall in Hok.
      destruct (wi_out _ _ _ Hw i) as (Hwp & r' & Hr' & Ht); [set_solver|]. assert (r' = r) as -> by congruence.
      exists i, r. split_and!; [set_solver|done|done| |lia|lia|done].
      apply Hok. by eapply list_elem_of_lookup_2.
  - destruct Hk as (_ & Hwp & r & Hr & Ht & Es). exists i, r. rewrite Es. assert (is_write r = true) as Hwr.
    { unfold is_write. by rewrite Es, Hf. }
    pose proof (rw_write _ (wi_wf _ _ _ Hw i r Hr) Hwr) as Ok. destruct (wo_size _ Ok) as [Ez _].
    unfold data_of in Ez. rewrite Es in Ez. fold (iov_length (st_vector (c_stub c))) in Ez.
    split_and!; [set_solver|done|done|done|lia|lia|]. split; [congruence|set_solver].
Qed.

Lemma pieces_apart {A} (g : A -> list nat) (l : list A) j k x y i :
  NoDup (concat (g <$> l)) -> j <> k -> l !! j = Some x -> l !! k = Some y -> i ∈ g x -> ~ i ∈ g y.
Proof.
  intros Hnd Hne Hj Hk Hx Hy. destruct (concat_update g l j x Hj) as (R & P & _ & P').
  rewrite P in Hnd. apply NoDup_app in Hnd as (_ & Hd & _). apply (Hd i Hx). rewrite <- P'. apply elem_of_pieces.
  exists y. split; [|done]. destruct (decide (k < j)%nat).
  - eapply list_elem_of_lookup_2. rewrite list_lookup_delete_lt; done.
  - eapply (list_elem_of_lookup_2 _ (Nat.pred k)). rewrite list_lookup_delete_ge by lia. rewrite <- Hk. f_equal. lia.
Qed.

(** C14. No two calls that are at the server at the same time write a common byte,
    whether they write back or pass on a synchronous write. *)

Theorem wb_writes_apart conf f m j k c d :
  reachable conf f m -> sane (history m) -> calls m !! j = Some c -> calls m !! k = Some d -> j <> k ->
  forall p, ~ (in_write (c_stub c) p /\ in_write (c_stub d) p).
Proof.
  intros Hr Hs Hj Hk Hne p [Hc Hd]. pose proof (reachable_ok _ _ _ Hr Hs) as H. pose proof (mi_winv _ H) as Hw.
  assert (forall x l, calls m !! l = Some x -> exists W, winv (inode m) (wcall x ++ W) (vtoks m)) as Hx.
  { intros x l Hl. destruct (concat_update wcall _ _ _ Hl) as (R & P & _). fold (ctoks wcall (calls m)) in P.
    exists (toks wtok (threads m) ++ R). eapply winv_perm; [|done|exact Hw]. unfold wtoks. rewrite P. solve_Permutation. }
  destruct (Hx c j Hj) as [W1 Hw1]. destruct (Hx d k Hk) as [W2 Hw2].
  assert (forall x l, calls m !! l = Some x -> call_ok (inode m) (history m) x) as Hok.
  { intros x l Hl. apply (mi_calls _ H). by eapply list_elem_of_lookup_2. }
  destruct (call_byte _ _ _ _ _ _ Hw1 (Hok _ _ Hj) Hc) as (i & r & Hi & Hiw & Hri & Or & Hpr & Htr).
  destruct (call_byte _ _ _ _ _ _ Hw2 (Hok _ _ Hk) Hd) as (i' & r' & Hi' & Hiw' & Hri' & Or' & Hpr' & Htr').
  assert (i <> i') as Hii.
  { intros <-. assert (r' = r) as -> by congruence. pose proof (wi_winds _ _ _ Hw) as (_ & _ & Hn)%NoDup_app.
    unfold wtoks in Hn. apply NoDup_app in Hn as (_ & _ & Hn). pose proof (mi_sync _ H) as (_ & _ & Hn')%NoDup_app.
    apply elem_of_app in Hi as [Hi|Hi].
    - apply (pieces_apart wcall (calls m) j k c d i Hn Hne Hj Hk Hi). apply Htr', Htr, Hi.
    - apply elem_of_app in Hi' as [Hi'|Hi']; [|by apply (pieces_apart vcall (calls m) j k c d i Hn' Hne Hj Hk Hi)].
      apply Htr', Htr in Hi'. unfold wcall, vcall in *. destruct (c_kind c); by apply not_elem_of_nil in Hi || apply not_elem_of_nil in Hi'. }
  pose proof (wi_apart _ _ _ Hw i i' r r' Hiw Hiw' Hii Hri Hri') as Hov. unfold wb_requests_overlap in Hov.
  destruct (write_range r Or) as (E1 & E2 & ? & _). destruct (write_range r' Or') as (E3 & E4 & ? & _).
  rewrite E1, E2, E3, E4 in Hov. apply andb_false_iff in Hov. lia.
Qed.

(** Two writes at the server. *)

Definition two_run : list label :=
  [LCall (write_at 0 "0123456789")] ++ turns 0 11 ++ [LServe 0 (count 10) []; LReturn 0] ++ turns 1 5 ++
  [LCall (write_at 0 "ab")] ++ turns 2 11 ++ [LCall (write_at 4 "cd")] ++ turns 3 8 ++
  [LCall (write_at 8 "ef")] ++ turns 4 11.

Definition two_end : machine := after (small_conf 1000) [] two_run.

Definition call_back (b off : nat) (d : string) : server_call :=
  {| c_kind := KBack {| b_head := b; b_winds := [] |}; c_stub := stub_of (write_at (Z.of_nat off) d) b; c_done := None |}.

Lemma wb_writes_apart_witness :
  ~ (in_write (c_stub (call_back 1 0 "ab")) 4 /\ in_write (c_stub (call_back 2 4 "cd")) 4).
Proof.
  apply (wb_writes_apart (small_conf 1000) [] two_end 0 1).
  - apply run_reachable. vm_compute. eauto.
  - apply sane_ok. vm_compute. reflexivity.
  - vm_compute. reflexivity.
  - vm_compute. reflexivity.
  - discriminate.
Defined.

(** ** What an operation waits for *)

(** C7. When the server carries out a queued operation of a client (not a
    write-back), each write that was acknowledged before the operation was called,
    and that it depends on (an overlapping write or read, a truncation below its
    end, a stat, setattr or fsync), is at the server with all its bytes at their
    place, or a failure is on record for its file descriptor; the one exception is a
    write whose data was joined to a write that was still waiting for its answer
    (see [wb_stale_read]). *)

Theorem wb_waits_for_acked conf f m h1 c r h2 sg :
  reachable conf f m -> sane (history m) -> history m = h1 ++ EServe c r :: h2 ->
  (forall b, c_kind c <> KBack b) -> queued (c_stub c) ->
  acknowledged_before h1 sg (st_frame (c_stub c)) -> touches sg (c_stub c) ->
  settled h1 sg \/ joined h1 sg.
Proof.
  intros Hr Hs Eh Hk Hq [Ha|?]%acknowledged_cases Ht; [left|by right]. pose proof (co_hist _ _ _ (mi_core _ (reachable_ok _ _ _ Hr Hs)) _ _ _ Eh) as He.
  cbn in He. destruct (c_kind c) as [b| | | |]; [by destruct (Hk b)|by apply He..].
Qed.

Lemma wb_waits_for_acked_witness :
  settled (take 4 (history read_end)) (stub_of (write_at 0 "ab") 0).
Proof.
  enough (settled (take 4 (history read_end)) (stub_of (write_at 0 "ab") 0) \/
          joined (take 4 (history read_end)) (stub_of (write_at 0 "ab") 0)) as [H|[r H]]; [exact H| |].
  { apply list_elem_of_In in H. vm_compute in H. intuition discriminate. }
  apply (wb_waits_for_acked (small_conf 1000) [] read_end (take 4 (history read_end))
    {| c_kind := KClient; c_stub := stub_of (ORead fd1 2 0) 1; c_done := None |} (count 2) []).
  - apply run_reachable. vm_compute. eauto.
  - apply sane_ok. vm_compute. reflexivity.
  - vm_compute. reflexivity.
  - discriminate.
  - split; discriminate.
  - eexists (take 2 (history read_end)), _, _. split; [vm_compute; reflexivity|]. split; [reflexivity|]. split_and!.
    + apply (issued_in _ 0). vm_compute. reflexivity.
    + reflexivity.
    + exists (count 2), true. split; [eapply (list_elem_of_lookup_2 _ 1); vm_compute; reflexivity|reflexivity].
  - cbn. unfold iov_length. cbn. lia.
Defined.

(** C13. A flush that succeeds vouches for the writes: each write of its file descriptor
    that was acknowledged before the flush was called is at the server with all its
    bytes; the one exception is a write whose data was joined to a write that was
    still waiting for its answer. *)

Theorem wb_flush_reports conf f m h1 g r held h2 s sg :
  reachable conf f m -> sane (history m) -> history m = h1 ++ EAnswer g r held :: h2 ->
  EIssue s ∈ h1 -> st_frame s = g -> st_fop s = GF_FOP_FLUSH -> r_ret r = 0 ->
  acknowledged_before h1 sg g -> stub_fd sg = stub_fd s -> landed h1 sg \/ joined h1 sg.
Proof.
  intros Hr Hs Eh Hi Ef Ho Hz [Ha|?]%acknowledged_cases Hd; [left|by right]. pose proof (co_hist _ _ _ (mi_core _ (reachable_ok _ _ _ Hr Hs)) _ _ _ Eh) as He.
  apply (He Hz s Hi Ef Ho); [by rewrite Ef|done].
Qed.

(** A client writes and closes; the flush is answered when the server has the write. *)

Definition flush_run : list label :=
  [LCall (write_at 0 "ab")] ++ turns 0 11 ++ [LCall (OFlush fd1)] ++ turns 1 5 ++
  [LServe 0 (count 2) (bytes "ab"); LReturn 0] ++ turns 2 4.

Definition flush_end : machine := after (small_conf 1000) [] flush_run.

Lemma wb_flush_reports_witness :
  landed (take 4 (history flush_end)) (stub_of (write_at 0 "ab") 0).
Proof.
  enough (landed (take 4 (history flush_end)) (stub_of (write_at 0 "ab") 0) \/
          joined (take 4 (history flush_end)) (stub_of (write_at 0 "ab") 0)) as [H|[r H]]; [exact H| |].
  { apply list_elem_of_In in H. vm_compute in H. intuition discriminate. }
  apply (wb_flush_reports (small_conf 1000) [] flush_end (take 4 (history flush_end)) 1 (count 0) true []
    (stub_of (OFlush fd1) 1)).
  - apply run_reachable. vm_compute. eauto.
  - apply sane_ok. vm_compute. reflexivity.
  - vm_compute. reflexivity.
  - apply (issued_in _ 2). vm_compute. reflexivity.
  - reflexivity.
  - reflexivity.
  - reflexivity.
  - eexists (take 2 (history flush_end)), _, _. split; [vm_compute; reflexivity|]. split; [reflexivity|]. split_and!.
    + apply (issued_in _ 0). vm_compute. reflexivity.
    + reflexivity.
    + exists (count 2), true. split; [eapply (list_elem_of_lookup_2 _ 1); vm_compute; reflexivity|reflexivity].
  - reflexivity.
Defined.
